(* ===== verification/_CoqProject ===== *)
-Q . S2P
Prelude.v
Address.v
Recycle.v
FdMap.v
FrameAllocator.v
PageTable.v
UserBytes.v
Pipe.v
Pid.v
MemorySet.v
UserSpace.v
KernelSpace.v
UserMem.v
Dma.v
ElfLoad.v
Process.v
Keeping.v
Lifecycle.v
Exec.v
Signal.v
ExecSpec.v
ForkSpec.v
Trampoline.v
ProcessTree.v
Switch.v
BlockCache.v
DiskWords.v
Bitmap.v
Layout.v
Codecs.v
InodeFields.v
InodeBlocks.v
InodeData.v
FileData.v
Mfs.v
Vfs.v
FsInv.v
FsBlocks.v
FsFiles.v
FsGrow.v
FsSpec.v
FsDirs.v
FsCreate.v
FsFormat.v
Files.v
FileCalls.v
Syscalls.v
Trap.v
FileSpec.v
Diagnostics.v
OpenSpec.v
FileRound.v
ExecCall.v
BootSpec.v
UserLib.v
Start.v
UserMode.v
Image.v
ExitSpec.v
TrapSpec.v
Descriptors.v
LogLib.v
LogSpec.v
Shell.v
ShellSpec.v
ShellRun.v
