(* ===== verification/Prelude.v ===== *)
(** * A verification library for NimlothOS

    NimlothOS is a RISC-V teaching kernel in Rust.  Its parts and how they meet:
    the frame allocator hands physical frames to page tables and address spaces
    ([os/src/mm]); a process owns an address space, a kernel stack, a descriptor
    table and its signals ([os/src/process]); traps lead to system calls
    ([os/src/trap], [os/src/syscall]); descriptors name the standard streams, pipes
    and files ([os/src/fs]); files live in an inode file system over a block cache
    ([components/src/micro_fs]).  The library translates these parts into
    executable definitions and proves what each promises to the next.

    ** Conventions

    Fallible, stateful code is a computation [M S A]: a function from the state to
    [Ret] of a result and a state, or to [Panic] with the reason ([Unwrap],
    [Assert], [Bounds], [Explicit], ...), defined below.  A Rust [panic!] is the end
    of the kernel, so no state survives it; a shutdown carries the last line printed.  What a
    function below the console prints is part of its result ([new_kernel], the signal
    handlers), and the caller with the console puts it out.  [usize] and the other machine integers
    are [Z]; where the code can wrap, the wrap is written out ([u64], [u32], [u8]).
    [Panic Fuel] marks a loop the model cut short: every theorem about a loop gives
    the fuel that is enough and proves the result for it.  An [Arc] is the identity
    of an object in a map; a [RefCell] borrowed twice and a [Mutex] taken twice are
    [Panic Deadlock] or a computation that never returns where the code allows it.

    ** Memory ([os/src/mm])

    - [Address]: addresses, page numbers and conversions ([mm/address.rs],
      [config.rs]).
    - [Recycle], [FrameAllocator]: the allocator trait, its stack implementation and
      frames that are returned when dropped ([mm/frame_allocator.rs]); the class
      [FrameAllocatorLaws] is what everything above relies on.
    - [PageTable]: three-level tables refine a finite map; user buffers, strings and
      references through a table ([mm/page_table.rs]).  [UserBytes]: words of
      physical memory as bytes.
    - [MemorySet], [UserSpace], [UserMem]: areas, address spaces, fork's copy, kernel
      stacks, and ranges of user memory ([mm/memory_set.rs], [process/pid.rs]).
      [KernelSpace]: the kernel's own address space as a whole, its identity mapping,
      its permissions and the frames its tables take.

    ** Processes ([os/src/process], [os/src/trap], [os/src/syscall])

    - [Pid]: identifiers and stack positions.  [Process]: control blocks, queues, the
      kernel's global state ([process/{process,manager,processor,context,signal}.rs]).
    - [Lifecycle], [Signal]: fork, exit, waitpid; signals and the timer.
    - [ProcessTree]: all of these, exec, and the changes file calls make to descriptor
      tables, as steps of one relation with the invariant
      of the process tree.  [Keeping]: computations that leave a view of the kernel alone.
    - [ElfLoad]: what [MemorySet::from_elf] makes of a parsed file: regions of user
      memory with their bytes and permissions.  [Exec]: [ProcessControlBlock::new] and
      [exec]; [ExecSpec]: the new memory, the arguments on its stack, the trap context.
    - [Syscalls]: the rest of [syscall/process.rs], the dispatch of [syscall/mod.rs] and
      the first process.  [Trap]: [trap_handler], in turns where a process is suspended
      in it.  [ForkSpec], [ExecCall], [BootSpec], [ExitSpec], [TrapSpec]: fork, exec, the
      first process, exit and faults from the trap to the return to user mode.
    - [Trampoline]: the instructions of [trap.S] on the registers of a hart and on memory
      through the page table [satp] names, with [trap_return] and the functions that set
      [stvec] and [sie]; [UserMode]: the round trip of a process through the kernel.
    - [Switch]: the instructions of [switch.S], [Processor], [run_process] and [schedule];
      a process from the switch that takes the processor away to the one that gives it
      back, along any history of [ProcessTree]'s steps.
    - [Start]: [rust_main] ([main.rs], [mm/mod.rs]) from power-on to user mode.

    ** The file system ([components/src/micro_fs])

    - [BlockCache]: cache and device; the class [BlockStoreLaws] is its contract, an
      array of blocks.  [DiskWords], [Bitmap], [Layout], [Codecs], [InodeFields]: data
      on disk ([bitmap.rs], [layout.rs]).
    - [InodeBlocks], [InodeData], [FileData]: the blocks of an inode as one list, the
      contents of a file as one byte string.
    - [Mfs], [Vfs]: the code of [mfs.rs] and [vfs.rs].  [FsInv], [FsBlocks], [FsFiles],
      [FsGrow], [FsSpec], [FsDirs], [FsCreate], [FsFormat]: an abstract file system of
      named byte strings, and the proof that the code refines it from formatting on.

    ** Files of the kernel ([os/src/fs], [os/src/syscall/fs.rs])

    - [Pipe]: ring buffer and blocking transfers over user memory ([fs/pipe.rs]).
    - [Files], [FileCalls]: file objects, [open_file], the file system calls over the
      whole state [system] (kernel, disk, objects, rings, console).
    - [FileSpec], [OpenSpec], [FileRound], [Descriptors]: what they do to the abstract
      file system, to user memory and to descriptor tables.

    ** Above and beside the kernel

    - [UserLib]: the user library ([user/src/{lib,syscall}.rs]): how a program reads its
      arguments, and the registers of each call against the kernel's dispatch.
    - [Diagnostics]: the kernel's logger, panic handler and stack trace.
    - [FdMap]: descriptors as a finite map with the least free number; [Descriptors]
      proves the kernel's tables refine it.
    - [Shell]: the user shell ([user/src/bin/user_shell.rs]) as a tree of its calls.
      [ShellSpec]: parsing.  [ShellRun]: a machine of processes over [FdMap] tables, the
      wiring of pipelines in it, and termination.
    - [LogLib], [LogSpec]: the log library ([components/src/log]): encoding, transport over
      a channel (the class [FifoChannel]), client and server.
    - [Dma]: memory for device queues ([drivers/block/virtio_blk.rs]).
    - [Image]: the tool that packs programs into a disk image
      ([micro-fs-fuse/src/main.rs]), and a machine that boots from that image.

    ** What the theorems show

    From trap to trap: fork returns twice, in two processes whose memories hold the same
    bytes on frames of their own; exec, on a disk that represents an abstract file
    system, enters the program named by the path, whose [main] gets the arguments as the kernel decodes them; a
    fault kills the process, or enters its handler.  Under the trap: the assembly saves
    and restores every register through the two page tables, and a process that gave
    the processor up goes on with the registers of its call.  Start-up: from power-on
    [rust_main] reaches the first instruction of [initproc] in user mode, on the image
    the packing tool wrote.  Refinement: page tables are finite maps, the cache is an array of blocks, the file
    system is an abstract one from formatting through a remount, descriptor tables
    are finite maps.  Invariants: the process tree in every reachable state, exclusive
    ownership of frames and of disk blocks.  Composition: bytes written by a process
    to a file come back to another buffer through descriptors, page tables, inodes and
    the cache.  Blocking: a pipe transfer is safe under every interleaving, ends under
    a fair one, and its reader is released when the last descriptor of the write end is
    closed, or the zombie that holds it is reaped.  A
    pipeline of the shell is wired as its line says under every interleaving, and ends
    if its programs do; log messages arrive in order over any channel.  Error
    behaviour is part of the functional theorems, which cover panics branch by
    branch.

    ** Fuel and bounds

    Address spaces end at page number 2^27 (39-bit addresses); [translated_str] and
    [translated_byte_buffer] get a turn per byte or page; [drop_pcb] one per process;
    21 frames hold the tables of the kernel space, whose pages lie in ten blocks of 2 MiB;
    [exec_args] gets one per argument and one for the null pointer; [read_all] one per
    512 bytes and one for the end;
    files are at most 27 + 128 + 16384 blocks, the size growth reaches (theorem
    [increase_size_limit]); descriptor tables stay below 2^61 slots so that [usize]
    results fit [isize].

    ** Not modelled, and why

    The virtio device and SBI (device I/O); the kernel heap (a library allocator) and
    the zeroing of the bss section;
    permission bits during the few instructions of the trampoline, and the machine
    code of the compiler: between the calls of [__switch] and the ends of the trampoline
    the kernel is its Rust source, whose registers may be anything; [UPSafeCell] as a component (a second borrow is
    modelled where it can happen); the parts of the log server that do not compile; the
    built-in commands of the shell that are text or self-tests, and the other user
    programs.  The ELF parser, the block device and the console are parameters, and so
    are the heap of a user program, the system calls behind the log transport and the facade crate of the kernel's
    logger.  A program the shell starts is one
    step of [ShellRun]'s machine: it may end at any time with any code.  A call that switches process is modelled up to the switch; [Switch] runs the
    switch, and what the process does after it is a later step. *)
From stdpp Require Export prelude gmap list strings.
From stdpp Require Import pretty.
From Stdlib Require Export ZArith Lia.

#[global] Open Scope Z_scope.

(** ** Outcomes of kernel code

    Kernel code either returns a value in a new state or panics; a panic shuts
    the machine down ([lang_items.rs]), so nothing observes the state after it. *)

Inductive panic : Set :=
  | Unwrap          (* [Option::unwrap]/[expect] on [None] *)
  | Assert          (* a failed [assert!]/[assert_eq!] *)
  | Bounds          (* an index or slice out of range *)
  | Explicit        (* a [panic!] written in the source *)
  | Deadlock        (* a spin lock or [RefCell] taken twice on one hart *)
  | Invalid         (* bytes that are not a value of the type they are read at *)
  | Shutdown (line : list Z) (failure : bool)   (* [sbi::shutdown]: the machine stops; the last line printed *)
  | Fuel.           (* only the model: the loop bound was too small *)

Inductive outcome (S A : Type) : Type :=
  | Ret (a : A) (s : S)
  | Panic (p : panic).
Arguments Ret {S A} a s.
Arguments Panic {S A} p.

Definition M (S A : Type) : Type := S -> outcome S A.

Definition ret {S A} (a : A) : M S A := fun s => Ret a s.
Definition bind {S A B} (m : M S A) (k : A -> M S B) : M S B :=
  fun s => match m s with Ret a s' => k a s' | Panic p => Panic p end.
Definition fail {S A} (p : panic) : M S A := fun _ => Panic p.
Definition get {S} : M S S := fun s => Ret s s.
Definition put {S} (s : S) : M S unit := fun _ => Ret tt s.
Definition modify {S} (f : S -> S) : M S unit := fun s => Ret tt (f s).
Definition assert {S} (b : bool) : M S unit := if b then ret tt else fail Assert.
Definition unwrap {S A} (o : option A) : M S A :=
  match o with Some a => ret a | None => fail Unwrap end.

Declare Scope rust_scope.
Delimit Scope rust_scope with rust.
Notation "'let!' x := m 'in' k" := (bind m (fun x => k))
  (at level 10, x binder, m at level 100, k at level 200) : rust_scope.
Notation "'let!' ' p := m 'in' k" := (bind m (fun x => match x with p => k end))
  (at level 10, p pattern, m at level 100, k at level 200) : rust_scope.
Notation "m ;;; k" := (bind m (fun _ => k))
  (at level 199, right associativity) : rust_scope.
#[global] Open Scope rust_scope.

(** Running a computation on a sub-state (the field of a larger record). *)
Definition zoom {S T A} (proj : S -> T) (upd : T -> S -> S) (m : M T A) : M S A :=
  fun s => match m (proj s) with Ret a t => Ret a (upd t s) | Panic p => Panic p end.

(** A [for] loop over a list of items, in order. *)
Fixpoint for_each {S A} (l : list A) (body : A -> M S unit) : M S unit :=
  match l with
  | [] => ret tt
  | x :: r => body x ;;; for_each r body
  end.

(** ** Machine integers: the kernel is built with [--release] (os/Makefile), so
    arithmetic on [u8]/[u32]/[usize] wraps. *)

Definition u8 (z : Z) : Z := z mod 2 ^ 8.
Definition u16 (z : Z) : Z := z mod 2 ^ 16.
Definition u32 (z : Z) : Z := z mod 2 ^ 32.
Definition u64 (z : Z) : Z := z mod 2 ^ 64.
(** [x as isize] and [x as i32] read a word as two's complement. *)
Definition as_isize (z : Z) : Z := if u64 z <? 2 ^ 63 then u64 z else u64 z - 2 ^ 64.
Definition as_i32 (z : Z) : Z := if u32 z <? 2 ^ 31 then u32 z else u32 z - 2 ^ 32.

Definition is_byte (b : Z) : Prop := 0 <= b < 256.
Abbreviation is_bytes := (Forall is_byte).

(** The bytes of a string constant. *)
Definition bytes_of (s : string) : list Z := (fun c => Z.of_N (Ascii.N_of_ascii c)) <$> String.list_ascii_of_string s.
(** [{}] of a number, and [{:>width}] of a text. *)
Definition decimal (n : Z) : list Z := bytes_of (pretty n).
Definition pad_left (width : nat) (text : list Z) : list Z := replicate (width - length text) 32 ++ text.

Definition hex_digit (d : Z) : Z := if d <? 10 then 48 + d else 87 + d.
(** The last [n] hexadecimal digits: [{:016x}] is [hex 16]. *)
Fixpoint hex (n : nat) (x : Z) : list Z :=
  match n with O => [] | S n => hex n (x / 16) ++ [hex_digit (x mod 16)] end.
(** [{:#x}] of a [usize]: no leading zeros. *)
Fixpoint strip_zeros (text : list Z) : list Z :=
  match text with
  | 48 :: (_ :: _) as text' => strip_zeros text'
  | _ => text
  end.
Definition alt_hex (x : Z) : list Z := bytes_of "0x" ++ strip_zeros (hex 16 x).

(** [String::push(c as char)] of bytes: each is a character, in UTF-8. *)
Definition push_char (c : Z) : list Z := if c <? 0x80 then [c] else [0xc0 + c / 64; 0x80 + c mod 64].
Definition as_str (string : list Z) : list Z := string ≫= push_char.
Lemma as_str_ascii l : Forall (fun c => c < 0x80) l -> as_str l = l.
Proof.
  unfold as_str. induction 1 as [|c l Hc _ IH]; [done|]. cbn [mbind list_bind]. rewrite IH. unfold push_char.
  by destruct (Z.ltb_spec c 0x80); [|lia].
Qed.

(** ** Vectors and slices indexed by [usize] *)

Definition vget {A} (l : list A) (i : Z) : option A :=
  if (0 <=? i) && (i <? Z.of_nat (length l)) then l !! Z.to_nat i else None.
Definition vset {A} (l : list A) (i : Z) (x : A) : option (list A) :=
  if (0 <=? i) && (i <? Z.of_nat (length l)) then Some (<[Z.to_nat i := x]> l) else None.
Definition index {S A} (l : list A) (i : Z) : M S A :=
  match vget l i with Some a => ret a | None => fail Bounds end.
Definition index_set {S A} (l : list A) (i : Z) (x : A) : M S (list A) :=
  match vset l i x with Some l' => ret l' | None => fail Bounds end.
(** [Vec::pop], taking from the back. *)
Definition vec_pop {A} (l : list A) : option (A * list A) :=
  match rev l with [] => None | x :: r => Some (x, rev r) end.

(** [l[lo..hi]] and the list with that slice replaced. *)
Definition slice {A} (l : list A) (lo len : nat) : list A := take len (drop lo l).
Definition splice {A} (l : list A) (lo : nat) (d : list A) : list A :=
  take lo l ++ d ++ drop (lo + length d) l.

(** Position of the first element satisfying [f]. *)
Fixpoint find_index {A} (f : A -> bool) (l : list A) : option nat :=
  match l with
  | [] => None
  | x :: r => if f x then Some 0%nat else S <$> find_index f r
  end.

(** ** Little-endian byte strings *)

Fixpoint le_bytes (n : nat) (z : Z) : list Z :=
  match n with
  | O => []
  | S n => z mod 256 :: le_bytes n (z / 256)
  end.
Fixpoint of_le (bs : list Z) : Z :=
  match bs with
  | [] => 0
  | b :: r => b + 256 * of_le r
  end.

(** ** Machine integers *)

Lemma u64_small z : 0 <= z < 2 ^ 64 -> u64 z = z.
Proof. apply Z.mod_small. Qed.
Lemma as_isize_small z : 0 <= z < 2 ^ 63 -> as_isize z = z.
Proof. intros Hz. unfold as_isize. rewrite u64_small by lia. by rewrite (proj2 (Z.ltb_lt _ _)) by lia. Qed.

Lemma u32_small z : 0 <= z < 2 ^ 32 -> u32 z = z.
Proof. apply Z.mod_small. Qed.

Lemma u64_range z : 0 <= u64 z < 2 ^ 64.
Proof. apply Z.mod_pos_bound. lia. Qed.

(** ** Reasoning about outcomes *)

Create HintDb rust discriminated.
#[export] Hint Constants Opaque : rust.

Section outcome_lemmas.
Context {S A B : Type}.

Lemma bind_Ret (m : M S A) (k : A -> M S B) s a s' :
  m s = Ret a s' -> bind m k s = k a s'.
Proof. unfold bind. by intros ->. Qed.

Lemma bind_Panic (m : M S A) (k : A -> M S B) s p :
  m s = Panic p -> bind m k s = Panic p.
Proof. unfold bind. by intros ->. Qed.

Lemma bind_inv (m : M S A) (k : A -> M S B) s b s2 :
  bind m k s = Ret b s2 -> exists a s1, m s = Ret a s1 /\ k a s1 = Ret b s2.
Proof. unfold bind. destruct (m s) as [a s1|p]; [eauto | done]. Qed.

Lemma ret_inv (a a' : A) (s s' : S) : ret a s = Ret a' s' -> a' = a /\ s' = s.
Proof. by intros [= -> ->]. Qed.

Lemma bind_unwrap (a : A) (k : A -> M S B) s : bind (unwrap (Some a)) k s = k a s.
Proof. done. Qed.

Lemma bind_assert b (k : unit -> M S B) s : b = true -> bind (assert b) k s = k tt s.
Proof. by intros ->. Qed.

Lemma bind_modify (f : S -> S) (k : unit -> M S B) s : bind (modify f) k s = k tt (f s).
Proof. done. Qed.

Lemma bind_get (k : S -> M S B) s : bind get k s = k s s.
Proof. done. Qed.

Lemma unwrap_inv (o : option A) a (s s' : S) :
  unwrap o s = Ret a s' -> o = Some a /\ s' = s.
Proof. destruct o; by intros [= -> ->]. Qed.

Lemma assert_inv b u (s s' : S) : assert b s = Ret u s' -> b = true /\ s' = s.
Proof. destruct b; by intros [= _ ->]. Qed.

End outcome_lemmas.

Section loop_lemmas.
Context {S A : Type}.

Lemma for_each_app (l1 l2 : list A) (body : A -> M S unit) s :
  for_each (l1 ++ l2) body s = (for_each l1 body ;;; for_each l2 body) s.
Proof.
  revert s. induction l1 as [|x l1 IH]; intros s; [done|].
  cbn. unfold bind at 1 2 3. destruct (body x s) as [a s1|]; [|done].
  rewrite IH. done.
Qed.

(** Loop rule: an invariant of the items done so far. *)
Lemma for_each_ind (I : list A -> S -> Prop) (l : list A) (body : A -> M S unit) s :
  I [] s ->
  (forall done x rest s, l = done ++ x :: rest -> I done s ->
    exists s', body x s = Ret tt s' /\ I (done ++ [x]) s') ->
  exists s', for_each l body s = Ret tt s' /\ I l s'.
Proof.
  intros H0 Hstep.
  enough (forall todo dn s, l = dn ++ todo -> I dn s ->
    exists s', for_each todo body s = Ret tt s' /\ I l s') as H by by apply (H l []).
  induction todo as [|x todo IH]; intros dn s1 -> HI.
  - rewrite app_nil_r. by eexists.
  - destruct (Hstep dn x todo s1 eq_refl HI) as (s2 & E & HI2).
    destruct (IH (dn ++ [x]) s2) as (s3 & E3 & HI3).
    + by rewrite <- app_assoc.
    + done.
    + exists s3. split; [|done]. cbn. by rewrite (bind_Ret _ _ _ _ _ E).
Qed.
End loop_lemmas.

(** [minv H] takes apart a successful run [H : m s = Ret a s']. *)
Ltac minv H :=
  lazymatch type of H with
  | bind _ _ _ = Ret _ _ =>
      let a := fresh "a" in let s := fresh "s" in let E := fresh "E" in
      apply bind_inv in H as (a & s & E & H); minv E; minv H
  | ret _ _ = Ret _ _ => apply ret_inv in H as [? ?]; subst
  | unwrap _ _ = Ret _ _ =>
      let E := fresh "E" in apply unwrap_inv in H as [E ?]; subst
  | assert _ _ = Ret _ _ =>
      let E := fresh "E" in apply assert_inv in H as [E ?]; subst
  | fail _ _ = Ret _ _ => discriminate H
  | get _ = Ret _ _ => injection H; intros; subst; clear H
  | put _ _ = Ret _ _ => injection H; intros; subst; clear H
  | modify _ _ = Ret _ _ => injection H; intros; subst; clear H
  | Panic _ = Ret _ _ => discriminate H
  | Ret _ _ = Ret _ _ => injection H; intros; subst; clear H
  | _ => idtac
  end.

(** [mstep] runs the first computation of a goal about [bind]. *)
Ltac mstep :=
  first [ erewrite bind_Ret by (first [eassumption | reflexivity])
        | erewrite bind_Panic by (first [eassumption | reflexivity]) ].

(** Boolean tests of the code as propositions, in hypotheses and goal. *)
Ltac btests :=
  repeat match goal with
  | H : _ && _ = true |- _ => apply andb_true_iff in H as [? ?]
  | H : _ || _ = false |- _ => apply orb_false_iff in H as [? ?]
  | H : negb _ = true |- _ => apply negb_true_iff in H
  | H : negb _ = false |- _ => apply negb_false_iff in H
  | H : (_ =? _) = true |- _ => apply Z.eqb_eq in H
  | H : (_ =? _) = false |- _ => apply Z.eqb_neq in H
  | H : (_ <? _) = true |- _ => apply Z.ltb_lt in H
  | H : (_ <? _) = false |- _ => apply Z.ltb_ge in H
  | H : (_ <=? _) = true |- _ => apply Z.leb_le in H
  | H : (_ <=? _) = false |- _ => apply Z.leb_gt in H
  | H : bool_decide _ = true |- _ => apply bool_decide_eq_true in H
  | H : bool_decide _ = false |- _ => apply bool_decide_eq_false in H
  end.

(** ** Vectors *)

Section vec_lemmas.
Context {A : Type}.
Implicit Types (l : list A) (x : A).

Lemma vget_Some l i x :
  vget l i = Some x <-> 0 <= i /\ l !! Z.to_nat i = Some x.
Proof.
  unfold vget. destruct ((0 <=? i) && (i <? Z.of_nat (length l))) eqn:E; btests.
  - split; [intros; split; [lia|done] | by intros [_ ?]].
  - split; [done|]. intros [? ?%lookup_lt_Some].
    apply andb_false_iff in E as [?|?]; btests; lia.
Qed.

Lemma vget_nat l (n : nat) : vget l (Z.of_nat n) = l !! n.
Proof.
  apply option_eq. intros x. rewrite vget_Some, Nat2Z.id. intuition lia.
Qed.

Lemma vset_Some l i x l' :
  vset l i x = Some l' <-> 0 <= i < Z.of_nat (length l) /\ l' = <[Z.to_nat i := x]> l.
Proof.
  unfold vset. destruct ((0 <=? i) && (i <? Z.of_nat (length l))) eqn:E; btests.
  - split; [intros [= <-]; split; [lia|done] | by intros [_ ->]].
  - split; [done|]. intros [? _]. apply andb_false_iff in E as [?|?]; btests; lia.
Qed.

Lemma vset_nat l (i : nat) x : (i < length l)%nat -> vset l (Z.of_nat i) x = Some (<[i := x]> l).
Proof. intros Hi. apply vset_Some. rewrite Nat2Z.id. split; [lia|done]. Qed.

Lemma vget_is_Some l i : 0 <= i < Z.of_nat (length l) -> exists x, vget l i = Some x.
Proof.
  intros H. destruct (lookup_lt_is_Some_2 l (Z.to_nat i)) as [x Hx]; [lia|].
  exists x. apply vget_Some. split; [lia|done].
Qed.

Lemma vget_vset_eq l i x l' : vset l i x = Some l' -> vget l' i = Some x.
Proof.
  intros [? ->]%vset_Some. apply vget_Some. split; [lia|].
  rewrite list_lookup_insert_eq; [done|lia].
Qed.

Lemma vget_vset_ne l i j x l' : vset l i x = Some l' -> i <> j -> vget l' j = vget l j.
Proof.
  intros [? ->]%vset_Some Hij. apply option_eq. intros y. rewrite !vget_Some.
  split; intros [? Hy]; (split; [done|]).
  - rewrite list_lookup_insert_ne in Hy; [done|lia].
  - rewrite list_lookup_insert_ne; [done|lia].
Qed.

Lemma vset_length l i x l' : vset l i x = Some l' -> length l' = length l.
Proof. intros [_ ->]%vset_Some. apply length_insert. Qed.

Lemma vec_pop_snoc l x : vec_pop (l ++ [x]) = Some (x, l).
Proof. unfold vec_pop. by rewrite rev_unit, rev_involutive. Qed.

Lemma vec_pop_None l : vec_pop l = None <-> l = [].
Proof.
  unfold vec_pop. destruct l as [|x l] using rev_ind; [done|].
  rewrite rev_unit. split; [done|]. by destruct l.
Qed.

Lemma vec_pop_Some l x r : vec_pop l = Some (x, r) <-> l = r ++ [x].
Proof.
  split; [|intros ->; apply vec_pop_snoc].
  destruct l as [|y l _] using rev_ind; [done|].
  rewrite vec_pop_snoc. by intros [= -> ->].
Qed.

Lemma find_index_Some (f : A -> bool) l i :
  find_index f l = Some i <->
  (exists x, l !! i = Some x /\ f x = true) /\
  (forall j y, (j < i)%nat -> l !! j = Some y -> f y = false).
Proof.
  revert i. induction l as [|x l IH]; intros i; cbn.
  - split; [done|]. by intros [(? & ? & _) _].
  - destruct (f x) eqn:Hx.
    + split.
      * intros [= <-]. split; [by exists x|lia].
      * intros [_ Hmin]. destruct i; [done|].
        specialize (Hmin 0%nat x ltac:(lia) eq_refl). congruence.
    + rewrite fmap_Some. split.
      * intros (k & Hk & ->). apply IH in Hk as [Hk Hmin]. split; [done|].
        intros [|j] y Hj Hy; [injection Hy; by intros <-|]. apply (Hmin j); [lia|done].
      * intros [(y & Hy & Hfy) Hmin]. destruct i as [|i]; [injection Hy; intros; congruence|].
        exists i. split; [|done]. apply IH. split; [by exists y|].
        intros j z Hj Hz. apply (Hmin (S j)); [lia|done].
Qed.

Lemma find_index_None (f : A -> bool) l :
  find_index f l = None <-> Forall (fun x => f x = false) l.
Proof.
  induction l as [|x l IH]; cbn; [by split|].
  rewrite Forall_cons. destruct (f x); [by split; [|intros []]|].
  rewrite fmap_None, IH. intuition.
Qed.

Lemma length_slice l lo n : (lo + n <= length l)%nat -> length (slice l lo n) = n.
Proof. intros. unfold slice. rewrite length_take, length_drop. lia. Qed.

Lemma lookup_slice l lo n i :
  (i < n)%nat -> slice l lo n !! i = l !! (lo + i)%nat.
Proof. intros. unfold slice. by rewrite lookup_take_lt, lookup_drop. Qed.

Lemma length_splice l lo d :
  (lo + length d <= length l)%nat -> length (splice l lo d) = length l.
Proof. intros. unfold splice. rewrite !length_app, length_take, length_drop. lia. Qed.

Lemma lookup_splice_in l lo d i :
  (lo + length d <= length l)%nat -> (lo <= i < lo + length d)%nat ->
  splice l lo d !! i = d !! (i - lo)%nat.
Proof.
  intros. unfold splice. rewrite lookup_app_r; rewrite length_take; [|lia].
  rewrite lookup_app_l; [f_equal; lia|lia].
Qed.

Lemma lookup_splice_out l lo d i :
  (lo + length d <= length l)%nat -> (i < lo \/ lo + length d <= i)%nat ->
  splice l lo d !! i = l !! i.
Proof.
  intros Hl [?|?]; unfold splice.
  - rewrite lookup_app_l by (rewrite length_take; lia). by rewrite lookup_take_lt.
  - rewrite lookup_app_r; rewrite length_take; [|lia].
    rewrite lookup_app_r by lia. rewrite lookup_drop. f_equal. lia.
Qed.

Lemma slice_splice l lo d :
  (lo + length d <= length l)%nat -> slice (splice l lo d) lo (length d) = d.
Proof.
  intros H. apply list_eq. intros i. destruct (decide (i < length d)%nat).
  - rewrite lookup_slice, lookup_splice_in by lia. f_equal. lia.
  - rewrite !lookup_ge_None_2; [done|lia|]. rewrite length_slice; [lia|].
    rewrite length_splice; lia.
Qed.

Lemma slice_splice_disjoint l lo d lo' n :
  (lo + length d <= length l)%nat -> (lo' + n <= length l)%nat ->
  (lo' + n <= lo \/ lo + length d <= lo')%nat ->
  slice (splice l lo d) lo' n = slice l lo' n.
Proof.
  intros H H' Hd. apply list_eq. intros i. destruct (decide (i < n)%nat).
  - rewrite !lookup_slice by lia. apply lookup_splice_out; lia.
  - rewrite !lookup_ge_None_2; [done| |]; rewrite length_slice; rewrite ?length_splice; lia.
Qed.

Lemma splice_Forall (P : A -> Prop) l lo d :
  Forall P l -> Forall P d -> Forall P (splice l lo d).
Proof. intros. unfold splice. rewrite !Forall_app. auto using Forall_take, Forall_drop. Qed.
End vec_lemmas.

(** ** Little-endian codecs *)

Lemma length_le_bytes n z : length (le_bytes n z) = n.
Proof. revert z. induction n; intros z; cbn; [done|]. by rewrite IHn. Qed.

Lemma le_bytes_is_bytes n z : is_bytes (le_bytes n z).
Proof.
  revert z. induction n; intros z; cbn; constructor; [|done].
  unfold is_byte. apply Z.mod_pos_bound. lia.
Qed.

Lemma of_le_bound bs : is_bytes bs -> 0 <= of_le bs < 256 ^ Z.of_nat (length bs).
Proof.
  induction 1 as [|b bs [H1 H2] _ IH]; [cbn; lia|].
  cbn [of_le length]. rewrite Nat2Z.inj_succ, Z.pow_succ_r by lia. lia.
Qed.

Lemma of_le_le_bytes n z : 0 <= z < 256 ^ Z.of_nat n -> of_le (le_bytes n z) = z.
Proof.
  revert z. induction n as [|n IH]; intros z Hz; cbn [le_bytes of_le].
  - cbn in Hz. lia.
  - rewrite Nat2Z.inj_succ, Z.pow_succ_r in Hz by lia.
    rewrite IH by (split; [apply Z.div_pos|apply Z.div_lt_upper_bound]; lia).
    pose proof (Z.div_mod z 256 ltac:(lia)). lia.
Qed.

Lemma le_bytes_of_le bs : is_bytes bs -> le_bytes (length bs) (of_le bs) = bs.
Proof.
  induction 1 as [|b bs [H1 H2] _ IH]; [done|]. cbn [length le_bytes of_le].
  replace (b + 256 * of_le bs) with (b + of_le bs * 256) by lia.
  rewrite Z.mod_add, Z.mod_small by lia.
  rewrite Z.div_add, Z.div_small by lia. by rewrite Z.add_0_l, IH.
Qed.

#[export] Hint Resolve le_bytes_is_bytes of_le_bound : rust.
#[export] Hint Rewrite length_le_bytes : rust.

Lemma foldl_None {A B} (f : A -> B -> option B) (l : list A) :
  foldl (fun acc x => acc ≫= f x) None l = None.
Proof. by induction l. Qed.

(** ** Bits *)

(** Fields that do not overlap: [|] is [+]. *)
Lemma lor_shiftl_add a b n :
  0 <= n -> 0 <= a < 2 ^ n -> Z.lor a (Z.shiftl b n) = a + b * 2 ^ n.
Proof.
  intros Hn Ha. assert (Hland : Z.land a (Z.shiftl b n) = 0).
  { apply Z.bits_inj'. intros i Hi. rewrite Z.land_spec, Z.bits_0.
    destruct (Z.lt_ge_cases i n).
    - rewrite (Z.shiftl_spec_low b n i) by lia. apply andb_false_r.
    - rewrite <- (Z.mod_small a (2 ^ n)), Z.mod_pow2_bits_high by lia. done. }
  rewrite <- Z.shiftl_mul_pow2, <- Z.lxor_lor, Z.add_nocarry_lxor; done.
Qed.
