(* ===== verification/Address.v ===== *)
(** SV39 addresses and page numbers: [os/src/mm/address.rs] and the constants of
    [os/src/config.rs] it uses.  The four newtypes over [usize] are integers
    here; each conversion between them is its own definition. *)
From S2P Require Import Prelude.

(** ** Constants *)

Definition PAGE_SIZE : Z := 0x1000.
Definition PAGE_SIZE_BITS : Z := 0xc.
Definition PA_WIDTH_SV39 : Z := 56.
Definition VA_WIDTH_SV39 : Z := 39.
Definition PPN_WIDTH_SV39 : Z := PA_WIDTH_SV39 - PAGE_SIZE_BITS.
Definition VPN_WIDTH_SV39 : Z := VA_WIDTH_SV39 - PAGE_SIZE_BITS.

(** ** [PhysAddr], [VirtAddr], [PhysPageNum], [VirtPageNum] *)

Module PhysAddr.
Definition floor (self : Z) : Z := self / PAGE_SIZE.
Definition ceil (self : Z) : Z :=
  if self =? 0 then 0 else u64 (u64 (self - 1) + PAGE_SIZE) / PAGE_SIZE.
Definition page_offset (self : Z) : Z := Z.land self (PAGE_SIZE - 1).
Definition aligned (self : Z) : bool := page_offset self =? 0.
Definition from_usize (value : Z) : Z := Z.land value (Z.shiftl 1 PA_WIDTH_SV39 - 1).
Definition into_usize (value : Z) : Z := value.
(** [From<PhysPageNum> for PhysAddr] *)
Definition from_ppn (value : Z) : Z := u64 (Z.shiftl value PAGE_SIZE_BITS).
End PhysAddr.

Module VirtAddr.
Definition floor (self : Z) : Z := self / PAGE_SIZE.
Definition ceil (self : Z) : Z :=
  if self =? 0 then 0 else u64 (u64 (self - 1) + PAGE_SIZE) / PAGE_SIZE.
Definition page_offset (self : Z) : Z := Z.land self (PAGE_SIZE - 1).
Definition aligned (self : Z) : bool := page_offset self =? 0.
Definition from_usize (value : Z) : Z := Z.land value (Z.shiftl 1 VA_WIDTH_SV39 - 1).
(** [From<VirtAddr> for usize]: bit 38 is sign extended. *)
Definition into_usize (value : Z) : Z :=
  if Z.shiftl 1 (VA_WIDTH_SV39 - 1) <=? value
  then Z.lor value (u64 (Z.lnot (Z.shiftl 1 VA_WIDTH_SV39 - 1)))
  else value.
(** [From<VirtPageNum> for VirtAddr] *)
Definition from_vpn (value : Z) : Z := u64 (Z.shiftl value PAGE_SIZE_BITS).
End VirtAddr.

Module PhysPageNum.
Definition from_usize (value : Z) : Z := Z.land value (Z.shiftl 1 PPN_WIDTH_SV39 - 1).
Definition into_usize (value : Z) : Z := value.
(** [From<PhysAddr> for PhysPageNum] asserts alignment. *)
Definition from_pa {S} (value : Z) : M S Z :=
  assert (PhysAddr.page_offset value =? 0) ;;; ret (PhysAddr.floor value).
Definition step (self : Z) : Z := u64 (self + 1).
End PhysPageNum.

Module VirtPageNum.
Definition from_usize (value : Z) : Z := Z.land value (Z.shiftl 1 VPN_WIDTH_SV39 - 1).
Definition into_usize (value : Z) : Z := value.
(** [From<VirtAddr> for VirtPageNum] asserts alignment. *)
Definition from_va {S} (value : Z) : M S Z :=
  assert (VirtAddr.page_offset value =? 0) ;;; ret (VirtAddr.floor value).
Definition step (self : Z) : Z := u64 (self + 1).
(** [for i in (0..3).rev()]: the last index is the lowest nine bits. *)
Fixpoint indexes_loop (n : nat) (vpn : Z) (idx : list Z) : list Z :=
  match n with
  | O => idx
  | S i => indexes_loop i (Z.shiftr vpn 9) (<[i := Z.land vpn 511]> idx)
  end.
Definition indexes (self : Z) : list Z := indexes_loop 3 self [0; 0; 0].
End VirtPageNum.

(** ** Ranges of page numbers *)

Record SimpleRange := { range_l : Z; range_r : Z }.
Abbreviation VPNRange := SimpleRange.

Definition SimpleRange_new {S} (start end_ : Z) : M S SimpleRange :=
  assert (start <=? end_) ;;; ret {| range_l := start; range_r := end_ |}.
Definition range_start (r : SimpleRange) : Z := range_l r.
Definition range_end (r : SimpleRange) : Z := range_r r.

Record SimpleRangeIterator := { iter_current : Z; iter_end : Z }.

Definition into_iter (r : SimpleRange) : SimpleRangeIterator :=
  {| iter_current := range_l r; iter_end := range_r r |}.

(** The iterator stops at equality, not at "not less than". *)
Definition range_next (it : SimpleRangeIterator) : option Z * SimpleRangeIterator :=
  if iter_current it =? iter_end it then (None, it)
  else (Some (iter_current it),
        {| iter_current := VirtPageNum.step (iter_current it); iter_end := iter_end it |}).

Fixpoint range_drain (fuel : nat) (it : SimpleRangeIterator) : option (list Z) :=
  match fuel with
  | O => None
  | S fuel =>
      match range_next it with
      | (None, _) => Some []
      | (Some x, it') => cons x <$> range_drain fuel it'
      end
  end.

(** The pages a [for vpn in range] loop visits; one unit of fuel per page and
    one for the final [None]. *)
Definition range_pages (r : SimpleRange) : list Z :=
  default [] (range_drain (S (Z.to_nat (range_r r - range_l r))) (into_iter r)).

(** ** Lemmas *)

Lemma land_mask n a : 0 <= n -> Z.land a (Z.shiftl 1 n - 1) = a mod 2 ^ n.
Proof.
  intros. rewrite Z.shiftl_1_l, <- Z.land_ones by done. f_equal.
  rewrite Z.ones_equiv. lia.
Qed.

Lemma va_from_usize_mod v : VirtAddr.from_usize v = v mod 2 ^ 39.
Proof. apply land_mask. done. Qed.

Lemma vpn_from_usize_mod v : VirtPageNum.from_usize v = v mod 2 ^ 27.
Proof. apply land_mask. done. Qed.

Lemma ppn_from_usize_mod v : PhysPageNum.from_usize v = v mod 2 ^ 44.
Proof. apply land_mask. done. Qed.

Lemma pa_from_usize_mod v : PhysAddr.from_usize v = v mod 2 ^ 56.
Proof. apply land_mask. done. Qed.

Lemma page_offset_mod a : VirtAddr.page_offset a = a mod PAGE_SIZE.
Proof. exact (land_mask 12 a ltac:(done)). Qed.

Lemma indexes_eq vpn :
  VirtPageNum.indexes vpn =
  [Z.land (Z.shiftr (Z.shiftr vpn 9) 9) 511; Z.land (Z.shiftr vpn 9) 511; Z.land vpn 511].
Proof. reflexivity. Qed.

Lemma indexes_arith vpn :
  VirtPageNum.indexes vpn =
  [(vpn / 2 ^ 18) mod 512; (vpn / 2 ^ 9) mod 512; vpn mod 512].
Proof.
  rewrite indexes_eq. change 511 with (Z.shiftl 1 9 - 1). rewrite !land_mask by done.
  rewrite !Z.shiftr_div_pow2 by done. rewrite Z.div_div by done. reflexivity.
Qed.

Lemma range_drain_seqZ fuel l r :
  0 <= l <= r -> r < 2 ^ 64 -> (Z.to_nat (r - l) < fuel)%nat ->
  range_drain fuel {| iter_current := l; iter_end := r |} = Some (seqZ l (r - l)).
Proof.
  revert l. induction fuel as [|fuel IH]; intros l Hl Hr Hf; [lia|].
  cbn. unfold range_next; cbn. destruct (Z.eqb_spec l r) as [->|Hne].
  - by rewrite Z.sub_diag.
  - unfold VirtPageNum.step. rewrite u64_small by lia. rewrite IH by lia.
    cbn. rewrite (seqZ_cons l) by lia. do 3 f_equal; lia.
Qed.

Lemma range_pages_seqZ r :
  0 <= range_l r <= range_r r -> range_r r < 2 ^ 64 ->
  range_pages r = seqZ (range_l r) (range_r r - range_l r).
Proof. intros. unfold range_pages, into_iter. by rewrite range_drain_seqZ by lia. Qed.

#[export] Hint Rewrite va_from_usize_mod vpn_from_usize_mod ppn_from_usize_mod
  pa_from_usize_mod page_offset_mod : rust.

(** ** Properties *)

Lemma sign_extension_bits v :
  2 ^ 38 <= v < 2 ^ 39 -> Z.lor v (u64 (Z.lnot (Z.shiftl 1 39 - 1))) = v + (2 ^ 64 - 2 ^ 39).
Proof.
  intros Hv. change (u64 (Z.lnot (Z.shiftl 1 39 - 1))) with (Z.shiftl (2 ^ 25 - 1) 39).
  rewrite lor_shiftl_add by lia. reflexivity.
Qed.

(** The three page-table indexes of a virtual page number are nine-bit numbers that determine
    it, and every triple of indexes is that of its page number. *)
Theorem indexes_roundtrip :
  (forall vpn, 0 <= vpn < 2 ^ 27 -> exists i0 i1 i2,
     VirtPageNum.indexes vpn = [i0; i1; i2] /\
     0 <= i0 < 512 /\ 0 <= i1 < 512 /\ 0 <= i2 < 512 /\
     vpn = i0 * 2 ^ 18 + i1 * 2 ^ 9 + i2) /\
  (forall i0 i1 i2, 0 <= i0 < 512 -> 0 <= i1 < 512 -> 0 <= i2 < 512 ->
     VirtPageNum.indexes (i0 * 2 ^ 18 + i1 * 2 ^ 9 + i2) = [i0; i1; i2]).
Proof.
  split.
  - intros vpn H. exists ((vpn / 2 ^ 18) mod 512), ((vpn / 2 ^ 9) mod 512), (vpn mod 512).
    rewrite indexes_arith. split; [done|]. change (2 ^ 18) with (512 * 512). change (2 ^ 9) with 512.
    rewrite <- Z.div_div by lia. Z.to_euclidean_division_equations. lia.
  - intros. rewrite indexes_arith. change (2 ^ 18) with (512 * 512). change (2 ^ 9) with 512.
    rewrite <- Z.div_div by lia. repeat f_equal; Z.to_euclidean_division_equations; lia.
Qed.

(** Converting a 39-bit virtual address to usize and back is the identity, and the converse
    holds exactly for the sign-extended (canonical) addresses. *)
Theorem va_canonical :
  (forall v, 0 <= v < 2 ^ 39 -> VirtAddr.from_usize (VirtAddr.into_usize v) = v) /\
  (forall u, 0 <= u < 2 ^ 64 ->
     VirtAddr.into_usize (VirtAddr.from_usize u) = u <-> u < 2 ^ 38 \/ 2 ^ 64 - 2 ^ 38 <= u).
Proof.
  assert (Hinto : forall v, 0 <= v < 2 ^ 39 -> VirtAddr.into_usize v =
    if 2 ^ 38 <=? v then v + (2 ^ 64 - 2 ^ 39) else v).
  { intros v Hv. unfold VirtAddr.into_usize. change (Z.shiftl 1 (VA_WIDTH_SV39 - 1)) with (2 ^ 38).
    destruct (Z.leb_spec (2 ^ 38) v); [|done]. apply sign_extension_bits. lia. }
  split.
  - intros v Hv. rewrite va_from_usize_mod, Hinto by done.
    destruct (Z.leb_spec (2 ^ 38) v); Z.to_euclidean_division_equations; lia.
  - intros u Hu. rewrite va_from_usize_mod, Hinto by (apply Z.mod_pos_bound; lia).
    destruct (Z.leb_spec (2 ^ 38) (u mod 2 ^ 39)); Z.to_euclidean_division_equations; lia.
Qed.
