(* ===== verification/Recycle.v ===== *)
(** Identifier allocators that hand out a bump counter and reuse a stack of
    returned identifiers.  The kernel has two of them, [StackFrameAllocator]
    (physical frames) and [PidAllocator] (process identifiers); this file holds
    the invariant and the lemmas both share. *)
From S2P Require Import Prelude.

Section recycle.
Context (start : Z).

(** [x] was handed out and has not been returned. *)
Definition live (current : Z) (recycled : list Z) (x : Z) : Prop :=
  start <= x < current /\ x ∉ recycled.

#[global] Instance live_dec current recycled x : Decision (live current recycled x).
Proof. unfold live. apply _. Defined.

Record recycle_ok (current : Z) (recycled : list Z) : Prop := {
  ok_start : start <= current;
  ok_nodup : NoDup recycled;
  ok_range : Forall (fun x => start <= x < current) recycled;
}.

Lemma recycle_ok_init : recycle_ok start [].
Proof. split; [lia|constructor|constructor]. Qed.

Lemma recycle_pop current rest x :
  recycle_ok current (rest ++ [x]) ->
  recycle_ok current rest /\ ~ live current (rest ++ [x]) x /\ start <= x < current /\
  forall y, live current rest y <-> y = x \/ live current (rest ++ [x]) y.
Proof.
  intros [Hs [Hnd [Hx _]]%NoDup_app [Hr Hxr]%Forall_app].
  apply Forall_cons in Hxr as [Hxr _].
  assert (x ∉ rest) by (intros Hin; apply (Hx x Hin); set_solver).
  split; [by split|]. unfold live. split; [set_solver|]. split; [done|].
  intros y. rewrite elem_of_app, list_elem_of_singleton. split.
  - intros [Hy Hn]. destruct (decide (y = x)); [by left|right; intuition].
  - intros [->|[Hy Hn]]; intuition.
Qed.

Lemma recycle_bump current recycled :
  recycle_ok current recycled ->
  recycle_ok (current + 1) recycled /\ ~ live current recycled current /\
  forall y, live (current + 1) recycled y <-> y = current \/ live current recycled y.
Proof.
  intros [Hs Hnd Hr]. split.
  - split; [lia|done|]. eapply Forall_impl; [done|]. cbn. lia.
  - unfold live. split; [lia|]. intros y. split.
    + intros [? ?]. destruct (decide (y = current)); [by left|right]. split; [lia|done].
    + intros [->|[? ?]]; split; try lia; try done.
      rewrite Forall_forall in Hr. intros Hin%Hr. lia.
Qed.

Lemma recycle_push current recycled x :
  recycle_ok current recycled -> live current recycled x ->
  recycle_ok current (recycled ++ [x]) /\
  forall y, live current (recycled ++ [x]) y <-> y <> x /\ live current recycled y.
Proof.
  intros [Hs Hnd Hr] [Hx Hn]. split.
  - split; [done| |].
    + apply NoDup_app. split; [done|]. split; [|apply NoDup_singleton].
      intros z Hz ->%list_elem_of_singleton. done.
    + apply Forall_app. by split; [|apply Forall_singleton].
  - intros y. unfold live. rewrite elem_of_app, list_elem_of_singleton. intuition.
Qed.
End recycle.

#[export] Hint Resolve recycle_ok_init : rust.
