(* ===== verification/FdMap.v ===== *)
(** Descriptors as a finite map: what opening, closing and duplicating do, seen from a
    process.  The kernel's tables refine it ([Descriptors]); programs rely on it
    ([Shell]). *)
From S2P Require Import Prelude.

Section fds.
Context {F : Type}.
Implicit Types t : gmap nat F.

(** Calls on descriptors; [FdInstall] is what [sys_open] and [sys_pipe] do with a new object. *)
Inductive fd_op := FdInstall (f : F) | FdClose (fd : nat) | FdDup (fd : nat).

Definition fd_free t (fd : nat) : bool := match t !! fd with None => true | Some _ => false end.
(** The least descriptor not in use. *)
Definition least_free t : nat := default 0%nat (find_index (fd_free t) (seq 0 (S (size t)))).
Definition a_fd_op (o : fd_op) t : Z * gmap nat F :=
  match o with
  | FdInstall f => (Z.of_nat (least_free t), <[least_free t := f]> t)
  | FdClose fd => match t !! fd with Some _ => (0, delete fd t) | None => (-1, t) end
  | FdDup fd => match t !! fd with Some f => (Z.of_nat (least_free t), <[least_free t := f]> t) | None => (-1, t) end
  end.
Fixpoint a_fd_ops (ops : list fd_op) t : list Z * gmap nat F :=
  match ops with
  | [] => ([], t)
  | o :: ops => let '(r, t1) := a_fd_op o t in let '(rs, t2) := a_fd_ops ops t1 in (r :: rs, t2)
  end.

Lemma fd_free_true t fd : fd_free t fd = true <-> t !! fd = None.
Proof. unfold fd_free. by destruct (t !! fd). Qed.
Lemma fd_free_false t fd : fd_free t fd = false <-> t !! fd <> None.
Proof. unfold fd_free. by destruct (t !! fd). Qed.

Lemma least_free_spec t : t !! least_free t = None /\ forall j, (j < least_free t)%nat -> t !! j <> None.
Proof.
  unfold least_free. set (l := seq 0 (S (size t))). destruct (find_index (fd_free t) l) as [fd|] eqn:E.
  all: cbn [default from_option id].
  - apply find_index_Some in E as ((x & Hx & Hf) & Hlt). apply lookup_seq in Hx as [-> Hx]. apply fd_free_true in Hf. split; [exact Hf|].
    intros j Hj. specialize (Hlt j j Hj ltac:(apply lookup_seq; lia)). by apply fd_free_false in Hlt.
  - exfalso. apply find_index_None in E. assert (Hs : (list_to_set l : gset nat) ⊆ dom t).
    { intros x Hx%elem_of_list_to_set. apply elem_of_dom. rewrite Forall_forall in E. specialize (E x Hx). apply fd_free_false in E.
      by apply not_eq_None_Some. }
    apply subseteq_size in Hs. rewrite size_list_to_set, size_dom in Hs by apply NoDup_seq. unfold l in Hs. rewrite length_seq in Hs. lia.
Qed.
Lemma least_free_unique t n : t !! n = None -> (forall j, (j < n)%nat -> t !! j <> None) -> least_free t = n.
Proof.
  intros Hn Hj. destruct (least_free_spec t) as [H1 H2]. destruct (Nat.lt_trichotomy (least_free t) n) as [H|[H|H]]; [|done|].
  - by destruct (Hj _ H).
  - by destruct (H2 _ H).
Qed.
End fds.
Arguments fd_op F : clear implicits.
