(* ===== verification/FrameAllocator.v ===== *)
(** Physical frames: [os/src/mm/frame_allocator.rs].

    The trait [FrameAllocator] is a class of operations; what its users rely on
    is the class [FrameAllocatorLaws], discharged by [StackFrameAllocator].  The
    kernel's view of memory is the record [mem]: the global allocator and the
    contents of physical pages (512 words each; a page the map does not hold
    reads as zero, and theorems quantify over the map, so over every contents). *)
From S2P Require Import Prelude Address Recycle.

(** ** The trait and its contract *)

Class FrameAllocator (T : Type) := {
  fa_new : T;
  fa_alloc : T -> option Z * T;
  fa_dealloc : Z -> M T unit;
}.

(** [fa_live s ppn]: the frame is owned by somebody.  [fa_managed ppn]: the frame
    is one the allocator was given.  [fa_avail s]: how many frames are left. *)
Class FrameAllocatorLaws (T : Type) `{FrameAllocator T} := {
  fa_ok : T -> Prop;
  fa_live : T -> Z -> Prop;
  fa_managed : Z -> Prop;
  fa_avail : T -> nat;
  fa_live_ppn s x : fa_ok s -> fa_live s x -> 0 <= x < 2 ^ 44 /\ fa_managed x;
  fa_alloc_Some s x s' :
    fa_ok s -> fa_alloc s = (Some x, s') ->
    fa_ok s' /\ ~ fa_live s x /\ forall y, fa_live s' y <-> y = x \/ fa_live s y;
  fa_alloc_None s s' : fa_alloc s = (None, s') -> s' = s;
  fa_alloc_avail s :
    fa_ok s ->
    match fa_alloc s with
    | (Some _, s') => fa_avail s = S (fa_avail s')
    | (None, _) => fa_avail s = 0%nat
    end;
  fa_dealloc_live s x :
    fa_ok s -> fa_live s x ->
    exists s', fa_dealloc x s = Ret tt s' /\ fa_ok s' /\
      forall y, fa_live s' y <-> y <> x /\ fa_live s y;
  fa_dealloc_dead s x :
    fa_ok s -> fa_managed x -> ~ fa_live s x -> fa_dealloc x s = Panic Explicit;
}.

(** ** [StackFrameAllocator] *)

Record StackFrameAllocator := {
  current : Z;
  end_ : Z;
  recycled : list Z;
}.

Definition StackFrameAllocator_init (l r : Z) (self : StackFrameAllocator) :
    StackFrameAllocator :=
  {| current := l; end_ := r; recycled := recycled self |}.

Definition StackFrameAllocator_new : StackFrameAllocator :=
  {| current := 0; end_ := 0; recycled := [] |}.

Definition StackFrameAllocator_alloc (self : StackFrameAllocator) :
    option Z * StackFrameAllocator :=
  match vec_pop (recycled self) with
  | Some (ppn, rest) =>
      (Some (PhysPageNum.from_usize ppn),
       {| current := current self; end_ := end_ self; recycled := rest |})
  | None =>
      if current self =? end_ self then (None, self)
      else
        let self' := {| current := u64 (current self + 1); end_ := end_ self;
                        recycled := recycled self |} in
        (Some (PhysPageNum.from_usize (u64 (current self' - 1))), self')
  end.

Definition StackFrameAllocator_dealloc (ppn : Z) : M StackFrameAllocator unit :=
  fun self =>
    if (current self <=? ppn) || bool_decide (ppn ∈ recycled self)
    then Panic Explicit
    else Ret tt {| current := current self; end_ := end_ self;
                   recycled := recycled self ++ [ppn] |}.

#[export] Instance StackFrameAllocator_impl : FrameAllocator StackFrameAllocator := {
  fa_new := StackFrameAllocator_new;
  fa_alloc := StackFrameAllocator_alloc;
  fa_dealloc := StackFrameAllocator_dealloc;
}.

(** ** Memory: the global allocator and page contents *)

Definition WORDS_PER_PAGE : nat := 512.
Definition zero_page : list Z := replicate WORDS_PER_PAGE 0.
#[global] Arguments zero_page : simpl never.

Record mem (T : Type) := { falloc : T; phys : gmap Z (list Z) }.
Arguments falloc {T} _.
Arguments phys {T} _.
Arguments Build_mem {T} _ _.

Definition page {T} (m : mem T) (ppn : Z) : list Z := default zero_page (phys m !! ppn).
Definition set_page {T} (ppn : Z) (p : list Z) (m : mem T) : mem T :=
  {| falloc := falloc m; phys := <[ppn := p]> (phys m) |}.
Definition set_falloc {T} (a : T) (m : mem T) : mem T := {| falloc := a; phys := phys m |}.

Section frames.
Context {T : Type} `{FrameAllocator T}.

(** [FrameTracker::new] clears the page through [bytes_array]. *)
Definition FrameTracker_new (ppn : Z) : M (mem T) Z :=
  modify (set_page ppn zero_page) ;;; ret ppn.

Definition frame_alloc : M (mem T) (option Z) :=
  fun m => match fa_alloc (falloc m) with
           | (Some ppn, a) => (let! t := FrameTracker_new ppn in ret (Some t)) (set_falloc a m)
           | (None, a) => Ret None (set_falloc a m)
           end.

Definition frame_dealloc (ppn : Z) : M (mem T) unit :=
  zoom falloc set_falloc (fa_dealloc ppn).

(** [Drop for FrameTracker]; dropping a [Vec<FrameTracker>] drops each in turn. *)
Definition FrameTracker_drop (ppn : Z) : M (mem T) unit := frame_dealloc ppn.
Definition drop_frames (v : list Z) : M (mem T) unit := for_each v FrameTracker_drop.

End frames.

(** [init_frame_allocator]: [ekernel] comes from the linker script. *)
Definition MEMORY_END : Z := 0x81000000.
Definition init_frame_allocator (ekernel : Z) : M (mem StackFrameAllocator) unit :=
  modify (fun m => set_falloc (StackFrameAllocator_init
    (PhysAddr.ceil (PhysAddr.from_usize ekernel))
    (PhysAddr.floor (PhysAddr.from_usize MEMORY_END)) (falloc m)) m).

(** ** [StackFrameAllocator] meets the contract *)

Section stack_frame_allocator.
Context (start : Z).

Definition sfa_live (s : StackFrameAllocator) (x : Z) : Prop :=
  live start (current s) (recycled s) x.

Record sfa_ok (s : StackFrameAllocator) : Prop := {
  sfa_start : 0 <= start;
  sfa_recycle : recycle_ok start (current s) (recycled s);
  sfa_end : current s <= end_ s <= 2 ^ 44;
}.

Lemma ppn_small x : 0 <= x < 2 ^ 44 -> PhysPageNum.from_usize x = x.
Proof. intros. rewrite ppn_from_usize_mod. by apply Z.mod_small. Qed.

Lemma sfa_alloc_cases s :
  sfa_ok s ->
  (StackFrameAllocator_alloc s = (None, s) /\ recycled s = [] /\ current s = end_ s) \/
  exists x s', StackFrameAllocator_alloc s = (Some x, s') /\ sfa_ok s' /\ end_ s' = end_ s /\
    start <= x < end_ s /\ ~ sfa_live s x /\ forall y, sfa_live s' y <-> y = x \/ sfa_live s y.
Proof.
  intros [H0 Hr He]. unfold StackFrameAllocator_alloc, sfa_live.
  destruct (vec_pop (recycled s)) as [[x rest]|] eqn:Hpop.
  - right. apply vec_pop_Some in Hpop. rewrite Hpop in Hr |- *.
    apply recycle_pop in Hr as (Hok & Hd & Hx & Hl).
    rewrite ppn_small by lia. eexists _, _. split; [done|]. cbn.
    split_and!; try done; try lia.
  - apply vec_pop_None in Hpop. pose proof (ok_start _ _ _ Hr).
    destruct (Z.eqb_spec (current s) (end_ s)) as [E|E]; [by left|right].
    apply recycle_bump in Hr as (Hok & Hd & Hl). cbn.
    rewrite (u64_small (current s + 1)), Z.add_simpl_r, u64_small, ppn_small by lia.
    eexists _, _. split; [done|]. cbn. split_and!; try done; try lia. split; cbn; try done; lia.
Qed.

Lemma sfa_dealloc_live s x :
  sfa_ok s -> sfa_live s x ->
  exists s', StackFrameAllocator_dealloc x s = Ret tt s' /\ sfa_ok s' /\ end_ s' = end_ s /\
    forall y, sfa_live s' y <-> y <> x /\ sfa_live s y.
Proof.
  intros [H0 Hr He] Hx. unfold StackFrameAllocator_dealloc.
  pose proof Hx as [Hxr Hxn]. rewrite (proj2 (Z.leb_gt _ _)) by lia.
  rewrite bool_decide_eq_false_2 by done. cbn. eexists. split; [done|].
  destruct (recycle_push _ _ _ _ Hr Hx) as [Hok Hl]. split_and!; try done.
Qed.

Lemma sfa_dealloc_dead s x :
  start <= x -> ~ sfa_live s x -> StackFrameAllocator_dealloc x s = Panic Explicit.
Proof.
  intros Hx Hd. unfold StackFrameAllocator_dealloc.
  destruct (Z.leb_spec (current s) x); [done|].
  rewrite bool_decide_eq_true_2; [done|]. apply dec_stable.
  intros Hn. apply Hd. split; [lia|done].
Qed.

Definition sfa_avail (s : StackFrameAllocator) : nat :=
  Z.to_nat (end_ s - current s) + length (recycled s).

Lemma sfa_alloc_avail s :
  sfa_ok s ->
  match StackFrameAllocator_alloc s with
  | (Some _, s') => sfa_avail s = S (sfa_avail s')
  | (None, _) => sfa_avail s = 0%nat
  end.
Proof.
  intros [H0 Hr He]. unfold StackFrameAllocator_alloc, sfa_avail.
  destruct (vec_pop (recycled s)) as [[x rest]|] eqn:Hpop; cbn.
  - apply vec_pop_Some in Hpop as ->. rewrite length_app. cbn. lia.
  - apply vec_pop_None in Hpop as ->. pose proof (ok_start _ _ _ Hr).
    destruct (Z.eqb_spec (current s) (end_ s)) as [E|E]; cbn; [lia|].
    rewrite u64_small; lia.
Qed.

Definition StackFrameAllocator_laws : FrameAllocatorLaws StackFrameAllocator.
Proof.
  refine {| fa_ok := sfa_ok; fa_live := sfa_live; fa_managed := fun x => start <= x;
            fa_avail := sfa_avail; fa_alloc_avail := sfa_alloc_avail |}.
  - intros s x [H0 Hr He] [Hx _]. lia.
  - intros s x s' Hok E. destruct (sfa_alloc_cases s Hok) as [(E' & _)|(x' & s1 & E' & Hs & _ & _ & Hd & Hl)].
    + cbn in E. by rewrite E' in E.
    + cbn in E. rewrite E' in E. by injection E as -> ->.
  - intros s s'. cbn. unfold StackFrameAllocator_alloc. repeat case_match; by intros [=].
  - intros s x Hok Hx. destruct (sfa_dealloc_live s x Hok Hx) as (s' & ? & ? & _ & ?). eauto.
  - intros s x _. apply sfa_dealloc_dead.
Defined.
End stack_frame_allocator.

(** ** Frames through the contract *)

Section frame_lemmas.
Context {T : Type} `{FAL : FrameAllocatorLaws T}.
Implicit Types (m : mem T).

Lemma page_set_eq ppn p m : page (set_page ppn p m) ppn = p.
Proof. unfold page. cbn. by rewrite lookup_insert_eq. Qed.

Lemma page_set_ne ppn ppn' p m : ppn <> ppn' -> page (set_page ppn p m) ppn' = page m ppn'.
Proof. intros. unfold page. cbn. by rewrite lookup_insert_ne. Qed.

Lemma frame_alloc_Some m x m' :
  fa_ok (falloc m) -> frame_alloc m = Ret (Some x) m' ->
  fa_ok (falloc m') /\ ~ fa_live (falloc m) x /\ 0 <= x < 2 ^ 44 /\
  (forall y, fa_live (falloc m') y <-> y = x \/ fa_live (falloc m) y) /\
  page m' x = zero_page /\ (forall y, y <> x -> page m' y = page m y).
Proof.
  intros Hok E. unfold frame_alloc in E.
  destruct (fa_alloc (falloc m)) as [[y|] a] eqn:Ea; [|done].
  injection E as -> <-. destruct (fa_alloc_Some _ _ _ Hok Ea) as (Hok' & Hd & Hl).
  split_and!; try done.
  - apply (fa_live_ppn a x Hok'). apply Hl. by left.
  - apply (fa_live_ppn a x Hok'). apply Hl. by left.
  - apply page_set_eq.
  - intros y Hy. exact (page_set_ne _ _ _ (set_falloc a m) (not_eq_sym Hy)).
Qed.

Lemma frame_alloc_None m m' : frame_alloc m = Ret None m' -> m' = m.
Proof.
  unfold frame_alloc. destruct (fa_alloc (falloc m)) as [[y|] a] eqn:Ea; [done|].
  intros [= <-]. apply fa_alloc_None in Ea as ->. by destruct m.
Qed.

Lemma frame_alloc_avail m :
  fa_ok (falloc m) ->
  match frame_alloc m with
  | Ret (Some _) m' => fa_avail (falloc m) = S (fa_avail (falloc m'))
  | Ret None _ => fa_avail (falloc m) = 0%nat
  | Panic _ => False
  end.
Proof.
  intros Hok. pose proof (fa_alloc_avail _ Hok) as Ha. unfold frame_alloc.
  by destruct (fa_alloc (falloc m)) as [[y|] a].
Qed.

Lemma frame_alloc_returns m : exists o m', frame_alloc m = Ret o m'.
Proof. unfold frame_alloc. destruct (fa_alloc (falloc m)) as [[y|] a]; eauto. Qed.

Lemma FrameTracker_drop_live m x :
  fa_ok (falloc m) -> fa_live (falloc m) x ->
  exists m', FrameTracker_drop x m = Ret tt m' /\ fa_ok (falloc m') /\
    (forall y, fa_live (falloc m') y <-> y <> x /\ fa_live (falloc m) y) /\
    forall y, page m' y = page m y.
Proof.
  intros Hok Hx. destruct (fa_dealloc_live _ _ Hok Hx) as (a & E & Hok' & Hl).
  exists (set_falloc a m). unfold FrameTracker_drop, frame_dealloc, zoom. by rewrite E.
Qed.

Lemma drop_frames_live v m :
  fa_ok (falloc m) -> NoDup v -> Forall (fa_live (falloc m)) v ->
  exists m', drop_frames v m = Ret tt m' /\ fa_ok (falloc m') /\
    (forall y, fa_live (falloc m') y <-> y ∉ v /\ fa_live (falloc m) y) /\
    forall y, page m' y = page m y.
Proof.
  revert m. induction v as [|x v IH]; intros m Hok Hnd Hv.
  - exists m. split; [done|]. split; [done|]. split; [|done]. set_solver.
  - apply NoDup_cons in Hnd as [Hx Hnd]. apply Forall_cons in Hv as [Hvx Hv].
    destruct (FrameTracker_drop_live m x Hok Hvx) as (m1 & E & Hok1 & Hl1 & Hp1).
    destruct (IH m1 Hok1 Hnd) as (m2 & E2 & Hok2 & Hl2 & Hp2).
    { eapply Forall_impl; [apply Forall_and; split; [exact Hv|]|].
      - apply Forall_forall. intros y Hy. exact Hy.
      - intros y [Hy Hin]. apply Hl1. split; [set_solver|done]. }
    exists m2. split; [exact (eq_trans (bind_Ret _ _ _ _ _ E) E2)|]. split; [done|].
    split; [|intros y; by rewrite Hp2, Hp1]. intros y. rewrite Hl2, Hl1. set_solver.
Qed.
(** *** Ownership

    [frame_step m fp m' fp']: a holder of the frames [fp] has moved from [m] to
    [m'], where it holds [fp']; it took only free frames and left the frames of
    every other holder alone. *)
Record frame_step m (fp : list Z) m' (fp' : list Z) : Prop := {
  fs_ok : fa_ok (falloc m');
  fs_fresh y : y ∈ fp' -> y ∈ fp \/ ~ fa_live (falloc m) y;
  fs_live y : fa_live (falloc m') y <-> y ∈ fp' \/ fa_live (falloc m) y /\ y ∉ fp;
  fs_pages y : fa_live (falloc m) y -> y ∉ fp -> page m' y = page m y;
}.

Lemma frame_step_refl m fp :
  fa_ok (falloc m) -> Forall (fa_live (falloc m)) fp -> frame_step m fp m fp.
Proof.
  intros Hok Hl. rewrite Forall_forall in Hl. split; try done; [by left|].
  intros y. destruct (decide (y ∈ fp)); intuition.
Qed.

Lemma frame_step_trans m1 fp1 m2 fp2 m3 fp3 :
  frame_step m1 fp1 m2 fp2 -> frame_step m2 fp2 m3 fp3 -> frame_step m1 fp1 m3 fp3.
Proof.
  intros [_ F1 L1 P1] [Hok F2 L2 P2]. split; [done|..].
  - intros y Hy. destruct (F2 y Hy) as [?|Hn]; [auto|]. rewrite L1 in Hn.
    destruct (decide (y ∈ fp1)); tauto.
  - intros y. rewrite L2, L1. specialize (F1 y). destruct (decide (y ∈ fp2)); tauto.
  - intros y Hy Hn. assert (y ∉ fp2) by (intros Hin; destruct (F1 y Hin); done).
    rewrite P2; [by apply P1| |done]. apply L1. by right.
Qed.

(** The frame rule: frames the holder keeps untouched. *)
Lemma frame_step_frame m fp m' fp' extra :
  frame_step m fp m' fp' -> Forall (fa_live (falloc m)) extra -> (forall y, y ∈ extra -> y ∉ fp) ->
  frame_step m (fp ++ extra) m' (fp' ++ extra).
Proof.
  intros [Hok F L P] He Hd. rewrite Forall_forall in He. split; [done|..].
  - intros y. rewrite !elem_of_app. intros [Hy|Hy]; [destruct (F y Hy); auto|auto].
  - intros y. rewrite L, !elem_of_app. specialize (He y). specialize (Hd y).
    destruct (decide (y ∈ extra)); tauto.
  - intros y Hy Hn. rewrite elem_of_app in Hn. apply P; [done|tauto].
Qed.

Lemma frame_step_Permutation m fp m' fp' fp1 fp1' :
  (forall y, y ∈ fp1 <-> y ∈ fp) -> (forall y, y ∈ fp1' <-> y ∈ fp') ->
  frame_step m fp m' fp' -> frame_step m fp1 m' fp1'.
Proof.
  intros E E' [Hok F L P]. split; [done|..].
  - intros y. rewrite E', E. apply F.
  - intros y. rewrite E', E. apply L.
  - intros y. rewrite E. apply P.
Qed.

(** Frames of another holder stay live, unchanged and disjoint. *)
Lemma frame_step_other m fp m' fp' y :
  frame_step m fp m' fp' -> fa_live (falloc m) y -> y ∉ fp ->
  fa_live (falloc m') y /\ page m' y = page m y /\ y ∉ fp'.
Proof.
  intros [Hok F L P] Hy Hn. split; [apply L; by right|]. split; [by apply P|].
  intros Hin. by destruct (F y Hin).
Qed.

Lemma frame_alloc_step m x m' fp :
  fa_ok (falloc m) -> Forall (fa_live (falloc m)) fp -> frame_alloc m = Ret (Some x) m' ->
  frame_step m fp m' (x :: fp) /\ x ∉ fp /\ page m' x = zero_page /\ 0 <= x < 2 ^ 44.
Proof.
  intros Hok Hfp E. rewrite Forall_forall in Hfp.
  destruct (frame_alloc_Some m x m' Hok E) as (Hok' & Hd & Hx & Hl & Hz & Hp).
  split; [|split; [by intros ?%Hfp|done]]. split; [done|..].
  - intros y [->|?]%elem_of_cons; [by right|by left].
  - intros y. rewrite Hl, elem_of_cons. specialize (Hfp y). destruct (decide (y ∈ fp)); tauto.
  - intros y Hy _. apply Hp. by intros ->.
Qed.

Lemma drop_frames_step v m fp fp' :
  fa_ok (falloc m) -> NoDup v -> Forall (fa_live (falloc m)) v -> Forall (fa_live (falloc m)) fp ->
  (forall y, y ∈ fp' <-> y ∈ fp /\ y ∉ v) -> (forall y, y ∈ v -> y ∈ fp) ->
  exists m', drop_frames v m = Ret tt m' /\ frame_step m fp m' fp' /\ forall y, page m' y = page m y.
Proof.
  intros Hok Hnd Hv Hfp E Hin. destruct (drop_frames_live v m Hok Hnd Hv) as (m' & Ed & Hok' & Hl & Hp).
  rewrite Forall_forall in Hfp. exists m'. split; [done|]. split; [|done]. split; [done|..].
  - intros y [? _]%E. by left.
  - intros y. rewrite Hl, E. specialize (Hfp y). specialize (Hin y). destruct (decide (y ∈ fp)); tauto.
  - done.
Qed.
End frame_lemmas.

(** ** Histories of allocations *)

Section histories.
Context (l r : Z).

(** The memory right after [init_frame_allocator] has given the frames [l..r]. *)
Definition frames_initial (m : mem StackFrameAllocator) : Prop :=
  falloc m = StackFrameAllocator_init l r StackFrameAllocator_new.

(** What holders of [FrameTracker]s can do: allocate, write to a page they own,
    drop a tracker they own.  [owned] is the set of live trackers. *)
Inductive frames_reach : mem StackFrameAllocator -> gset Z -> Prop :=
  | reach_init m : frames_initial m -> frames_reach m ∅
  | reach_alloc m owned ppn m' :
      frames_reach m owned -> frame_alloc m = Ret (Some ppn) m' ->
      frames_reach m' ({[ppn]} ∪ owned)
  | reach_alloc_fail m owned m' :
      frames_reach m owned -> frame_alloc m = Ret None m' -> frames_reach m' owned
  | reach_write m owned ppn p :
      frames_reach m owned -> ppn ∈ owned -> frames_reach (set_page ppn p m) owned
  | reach_drop m owned ppn m' :
      frames_reach m owned -> ppn ∈ owned -> FrameTracker_drop ppn m = Ret tt m' ->
      frames_reach m' (owned ∖ {[ppn]}).

Lemma frames_reach_ok m owned :
  0 <= l <= r -> r <= 2 ^ 44 -> frames_reach m owned ->
  sfa_ok l (falloc m) /\ end_ (falloc m) = r /\ forall x, x ∈ owned <-> sfa_live l (falloc m) x.
Proof.
  intros Hl Hr. induction 1 as [m Hm|m owned x m' _ (Hok & He & Ho) E|m owned m' _ IH E
    |m owned x p _ IH Hx|m owned x m' _ (Hok & He & Ho) Hx E].
  - rewrite Hm. cbn. split_and!; [split; cbn; [lia|apply recycle_ok_init|lia]|done|].
    intros x. split; [set_solver|]. intros [? _]. cbn in *. lia.
  - unfold frame_alloc in E. cbn in E.
    destruct (sfa_alloc_cases l _ Hok) as [(E1 & _)|(y & s' & E1 & Hok' & He' & _ & _ & Hlv)];
      rewrite E1 in E; [done|]. injection E as <- <-. cbn. split_and!; [done|congruence|].
    intros z. rewrite Hlv, elem_of_union, elem_of_singleton, Ho. done.
  - by apply (frame_alloc_None (FAL := StackFrameAllocator_laws l)) in E as ->.
  - exact IH.
  - apply Ho in Hx. destruct (sfa_dealloc_live l _ x Hok Hx) as (s' & E1 & Hok' & He' & Hlv).
    unfold FrameTracker_drop, frame_dealloc, zoom in E. cbn in E. rewrite E1 in E.
    injection E as <-. cbn. split_and!; [done|congruence|]. intros z.
    rewrite Hlv, elem_of_difference, elem_of_singleton, Ho. tauto.
Qed.
End histories.

(** C20. After any history of frame allocations and drops, an allocation gives a frame of the
    managed range that nobody holds, zeroed, and leaves every other page alone, or gives None only
    when every frame is held; dropping a held frame succeeds and returning a frame of the range or
    above that is not held panics. *)
Theorem frames_exclusive l r m owned :
  0 <= l <= r -> r <= 2 ^ 44 -> frames_reach l r m owned ->
  (exists o m', frame_alloc m = Ret o m' /\
     match o with
     | Some ppn => ppn ∉ owned /\ l <= ppn < r /\ page m' ppn = zero_page /\
                   forall q, q <> ppn -> page m' q = page m q
     | None => m' = m /\ forall x, l <= x < r -> x ∈ owned
     end) /\
  (forall ppn, ppn ∈ owned -> exists m', FrameTracker_drop ppn m = Ret tt m') /\
  (forall ppn, l <= ppn -> ppn ∉ owned -> frame_dealloc ppn m = Panic Explicit).
Proof.
  intros Hl Hr Hreach. destruct (frames_reach_ok l r m owned Hl Hr Hreach) as (Hok & He & Ho).
  pose (L := StackFrameAllocator_laws l). split_and!.
  - destruct (sfa_alloc_cases l _ Hok) as [(E & Hrec & Hcur)|(x & s & E & _ & _ & Hx & Hd & _)].
    + exists None, m. unfold frame_alloc. cbn. rewrite E. split; [by destruct m|].
      split; [done|]. intros y Hy. apply Ho. unfold sfa_live, live. rewrite Hrec. split; [lia|set_solver].
    + destruct (frame_alloc_returns m) as (o & m' & E').
      exists o, m'. split; [done|].
      pose proof E' as E2. unfold frame_alloc in E2. cbn in E2. rewrite E in E2.
      injection E2 as <- _.
      destruct (frame_alloc_Some (FAL := L) _ _ _ Hok E') as (_ & _ & _ & _ & Hz & Hp).
      split_and!; try done; try lia. rewrite Ho. done.
  - intros x Hx%Ho. destruct (FrameTracker_drop_live (FAL := L) m x Hok Hx) as (m' & E & _). eauto.
  - intros x Hx Hn. unfold frame_dealloc, zoom. cbn. rewrite (sfa_dealloc_dead l); [done..|].
    by rewrite <- Ho.
Qed.

(** Returning a frame below the managed range is accepted and the next allocation hands it out. *)
Theorem frame_dealloc_below_range l r m owned ppn :
  0 <= l <= r -> r <= 2 ^ 44 -> frames_reach l r m owned -> 0 <= ppn < l ->
  exists m1 m2, frame_dealloc ppn m = Ret tt m1 /\ frame_alloc m1 = Ret (Some ppn) m2.
Proof.
  intros Hl Hr Hreach Hp. destruct (frames_reach_ok l r m owned Hl Hr Hreach) as ([_ Hrec _] & _ & _).
  pose proof (ok_start _ _ _ Hrec).
  unfold frame_dealloc, zoom. cbn. unfold StackFrameAllocator_dealloc.
  rewrite (proj2 (Z.leb_gt _ _)) by lia.
  rewrite bool_decide_eq_false_2.
  - cbn. eexists _, _. split; [done|]. unfold frame_alloc. cbn.
    unfold StackFrameAllocator_alloc. cbn. rewrite vec_pop_snoc, ppn_small by lia. done.
  - intros Hin. pose proof (ok_range _ _ _ Hrec) as HF. rewrite Forall_forall in HF.
    apply HF in Hin. lia.
Qed.

(** ** A concrete machine: frames 100 to 199 *)

Definition demo_mem : mem StackFrameAllocator :=
  {| falloc := StackFrameAllocator_init 100 200 StackFrameAllocator_new; phys := ∅ |}.

Lemma demo_ok m : falloc m = falloc demo_mem -> sfa_ok 100 (falloc m).
Proof. intros ->. split; cbn; [lia|apply recycle_ok_init|lia]. Qed.

Lemma frames_exclusive_witness :
  exists ppn m', frame_alloc demo_mem = Ret (Some ppn) m' /\ 100 <= ppn < 200 /\ page m' ppn = zero_page.
Proof.
  destruct (frames_exclusive 100 200 demo_mem ∅ ltac:(lia) ltac:(lia) (reach_init 100 200 demo_mem eq_refl))
    as [(o & m' & E & Ho) _].
  destruct o as [ppn|].
  - exists ppn, m'. destruct Ho as (_ & Hr & Hz & _). done.
  - destruct Ho as [_ Ho]. specialize (Ho 100 ltac:(lia)). set_solver.
Defined.

Lemma frame_dealloc_below_range_witness :
  exists m1 m2, frame_dealloc 7 demo_mem = Ret tt m1 /\ frame_alloc m1 = Ret (Some 7) m2.
Proof.
  apply (frame_dealloc_below_range 100 200 demo_mem ∅ 7 ltac:(lia) ltac:(lia)); [|lia].
  exact (reach_init 100 200 demo_mem eq_refl).
Defined.
