(* ===== verification/PageTable.v ===== *)
(** Three-level SV39 page tables: [os/src/mm/page_table.rs].

    A page-table node is a physical page of 512 entries; a reference to an entry
    ([&mut PageTableEntry]) is the pair of the node's page number and the index.
    The functions are generic in the frame allocator and their lemmas use only
    its contract. *)
From S2P Require Import Prelude Address FrameAllocator.

(** ** Entries *)

Module PTEFlags.
Definition V : Z := Z.shiftl 1 0.
Definition R : Z := Z.shiftl 1 1.
Definition W : Z := Z.shiftl 1 2.
Definition X : Z := Z.shiftl 1 3.
Definition U : Z := Z.shiftl 1 4.
Definition G : Z := Z.shiftl 1 5.
Definition A : Z := Z.shiftl 1 6.
Definition D : Z := Z.shiftl 1 7.
End PTEFlags.

Module PageTableEntry.
Definition new (ppn flags : Z) : Z := Z.lor (u64 (Z.shiftl ppn 10)) flags.
Definition empty : Z := 0.
Definition ppn (bits : Z) : Z :=
  PhysPageNum.from_usize (Z.land (Z.shiftr bits 10) (Z.shiftl 1 44 - 1)).
(** [PTEFlags::from_bits(self.bits as u8).unwrap()]: all eight bits are flags, so
    the conversion never fails. *)
Definition flags (bits : Z) : Z := u8 bits.
Definition is_valid (bits : Z) : bool := negb (Z.land (flags bits) PTEFlags.V =? 0).
Definition readable (bits : Z) : bool := negb (Z.land (flags bits) PTEFlags.R =? 0).
Definition writable (bits : Z) : bool := negb (Z.land (flags bits) PTEFlags.W =? 0).
Definition executable (bits : Z) : bool := negb (Z.land (flags bits) PTEFlags.X =? 0).
End PageTableEntry.

(** ** Tables *)

Record PageTable := { root_ppn : Z; frames : list Z }.

Section page_table.
Context {T : Type} `{FrameAllocator T}.

(** [ppn.pte_array()[idx]], read and written. *)
Definition pte_get (ppn idx : Z) : M (mem T) Z :=
  fun m => index (page m ppn) idx m.
Definition pte_set (ppn idx pte : Z) : M (mem T) unit :=
  let! m := get in
  let! p := index_set (page m ppn) idx pte in
  put (set_page ppn p m).

Definition PageTable_new : M (mem T) PageTable :=
  let! o := frame_alloc in
  let! frame := unwrap o in
  ret {| root_ppn := frame; frames := [frame] |}.

(** The body of the loop of [find_pte_create] below level 2: make sure the entry
    points to a table and return that table. *)
Definition ensure_child (ppn idx pte : Z) (frames : list Z) : M (mem T) (list Z * Z) :=
  if negb (PageTableEntry.is_valid pte) then
    let! o := frame_alloc in
    let! frame := unwrap o in
    pte_set ppn idx (PageTableEntry.new frame PTEFlags.V) ;;;
    ret (frames ++ [frame], PageTableEntry.ppn (PageTableEntry.new frame PTEFlags.V))
  else ret (frames, PageTableEntry.ppn pte).

Fixpoint find_pte_create_loop (i : nat) (idxs : list Z) (ppn : Z) (frames : list Z) :
    M (mem T) (list Z * option (Z * Z)) :=
  match idxs with
  | [] => ret (frames, None)
  | idx :: rest =>
      let! pte := pte_get ppn idx in
      if (i =? 2)%nat then ret (frames, Some (ppn, idx))
      else
        let! '(frames', ppn') := ensure_child ppn idx pte frames in
        find_pte_create_loop (S i) rest ppn' frames'
  end.

Definition find_pte_create (self : PageTable) (vpn : Z) :
    M (mem T) (PageTable * option (Z * Z)) :=
  let! '(fs, result) :=
    find_pte_create_loop 0 (VirtPageNum.indexes vpn) (root_ppn self) (frames self) in
  ret ({| root_ppn := root_ppn self; frames := fs |}, result).

Fixpoint find_pte_loop (i : nat) (idxs : list Z) (ppn : Z) : M (mem T) (option (Z * Z)) :=
  match idxs with
  | [] => ret None
  | idx :: rest =>
      let! pte := pte_get ppn idx in
      if (i =? 2)%nat then ret (Some (ppn, idx))
      else if negb (PageTableEntry.is_valid pte) then ret None
      else find_pte_loop (S i) rest (PageTableEntry.ppn pte)
  end.

Definition find_pte (self : PageTable) (vpn : Z) : M (mem T) (option (Z * Z)) :=
  find_pte_loop 0 (VirtPageNum.indexes vpn) (root_ppn self).

Definition map (self : PageTable) (vpn ppn flags : Z) : M (mem T) PageTable :=
  let! '(self', o) := find_pte_create self vpn in
  let! '(p, i) := unwrap o in
  let! pte := pte_get p i in
  assert (negb (PageTableEntry.is_valid pte)) ;;;
  pte_set p i (PageTableEntry.new ppn (Z.lor flags PTEFlags.V)) ;;;
  ret self'.

Definition unmap (self : PageTable) (vpn : Z) : M (mem T) unit :=
  let! o := find_pte self vpn in
  let! '(p, i) := unwrap o in
  let! pte := pte_get p i in
  assert (PageTableEntry.is_valid pte) ;;;
  pte_set p i PageTableEntry.empty.

Definition from_token (satp : Z) : PageTable :=
  {| root_ppn := PhysPageNum.from_usize (Z.land satp (Z.shiftl 1 44 - 1)); frames := [] |}.

Definition token (self : PageTable) : Z := Z.lor (Z.shiftl 8 60) (root_ppn self).

Definition translate (self : PageTable) (vpn : Z) : M (mem T) (option Z) :=
  let! o := find_pte self vpn in
  match o with
  | None => ret None
  | Some (p, i) => let! pte := pte_get p i in ret (Some pte)
  end.

Definition translate_va (self : PageTable) (va : Z) : M (mem T) (option Z) :=
  let! o := translate self (VirtAddr.floor va) in
  match o with
  | None => ret None
  | Some pte =>
      let aligned_pa := PhysAddr.from_ppn (PageTableEntry.ppn pte) in
      let offset := VirtAddr.page_offset va in
      ret (Some (PhysAddr.from_usize (u64 (PhysAddr.into_usize aligned_pa + offset))))
  end.

(** Dropping a [PageTable] drops its [frames]. *)
Definition PageTable_drop (self : PageTable) : M (mem T) unit := drop_frames (frames self).
End page_table.

(** ** What a page table means *)

Definition idx_ok (i : Z) : Prop := 0 <= i < 512.
Definition path_ok (path : list Z) : Prop := (length path <= 2)%nat /\ Forall idx_ok path.

Section meaning.
Context {T : Type} `{FAL : FrameAllocatorLaws T}.
Implicit Types (m : mem T).

Definition pte_at m (ppn idx : Z) : Z := default 0 (vget (page m ppn) idx).
Definition child m (ppn idx : Z) : option Z :=
  if PageTableEntry.is_valid (pte_at m ppn idx)
  then Some (PageTableEntry.ppn (pte_at m ppn idx)) else None.

(** The node reached from the root along a path of indexes. *)
Definition node m (root : Z) (path : list Z) : option Z :=
  foldl (fun acc i => acc ≫= fun p => child m p i) (Some root) path.

(** The node are distinct frames owned by the table. *)
Record tree_ok m (root : Z) (fs : list Z) : Prop := {
  tree_alloc : fa_ok (falloc m);
  tree_nodup : NoDup fs;
  tree_live : Forall (fa_live (falloc m)) fs;
  tree_len : Forall (fun p => length (page m p) = WORDS_PER_PAGE) fs;
  tree_in path p : path_ok path -> node m root path = Some p -> p ∈ fs;
  tree_inj path path' p : path_ok path -> path_ok path' ->
    node m root path = Some p -> node m root path' = Some p -> path = path';
}.

Definition table_ok m (pt : PageTable) : Prop := tree_ok m (root_ppn pt) (frames pt).

(** The abstract map: the valid leaf entry of a page number, if any. *)
Definition leaf m (root : Z) (path : list Z) (i : Z) : option Z :=
  node m root path ≫= fun p =>
    if PageTableEntry.is_valid (pte_at m p i) then Some (pte_at m p i) else None.
Definition mapped m (pt : PageTable) (vpn : Z) : option Z :=
  match VirtPageNum.indexes vpn with
  | [i0; i1; i2] => leaf m (root_ppn pt) [i0; i1] i2
  | _ => None
  end.
End meaning.
#[global] Arguments mapped : simpl never.
#[global] Arguments leaf : simpl never.

(** ** Entry lemmas *)

Lemma lor_V_bound flags : 0 <= flags < 256 -> 0 <= Z.lor flags PTEFlags.V < 256.
Proof.
  intros Hf. split; [apply Z.lor_nonneg; split; [lia|done]|].
  assert (Z.lor flags PTEFlags.V mod 2 ^ 8 = Z.lor flags PTEFlags.V) as <-;
    [|change 256 with (2 ^ 8); apply Z.mod_pos_bound; lia].
  rewrite <- Z.land_ones, Z.land_lor_distr_l, Z.land_ones by lia.
  change (2 ^ 8) with 256. by rewrite Z.mod_small by lia.
Qed.

Section entries.
Context (ppn flags : Z) (Hppn : 0 <= ppn < 2 ^ 44) (Hflags : 0 <= flags < 256).

Lemma pte_new_arith : PageTableEntry.new ppn flags = flags + ppn * 2 ^ 10.
Proof.
  unfold PageTableEntry.new. rewrite u64_small.
  - rewrite Z.lor_comm. apply lor_shiftl_add; lia.
  - rewrite Z.shiftl_mul_pow2; lia.
Qed.

Lemma pte_new_ppn : PageTableEntry.ppn (PageTableEntry.new ppn flags) = ppn.
Proof.
  unfold PageTableEntry.ppn. rewrite pte_new_arith, ppn_from_usize_mod.
  rewrite land_mask by done. rewrite Z.shiftr_div_pow2 by done.
  rewrite Z.div_add, Z.div_small by lia. rewrite Z.add_0_l, Zmod_mod. by apply Z.mod_small.
Qed.

Lemma pte_new_flags : PageTableEntry.flags (PageTableEntry.new ppn flags) = flags.
Proof.
  unfold PageTableEntry.flags, u8. rewrite pte_new_arith.
  change (2 ^ 10) with (4 * 2 ^ 8). rewrite Z.mul_assoc, Z.mod_add by done. apply Z.mod_small. exact Hflags.
Qed.
End entries.

Lemma is_valid_flags pte : PageTableEntry.is_valid pte = Z.testbit (PageTableEntry.flags pte) 0.
Proof.
  unfold PageTableEntry.is_valid. set (f := PageTableEntry.flags pte).
  change PTEFlags.V with (Z.ones 1). rewrite Z.land_ones by lia. change (2 ^ 1) with 2.
  rewrite Z.bit0_odd, Zmod_odd. by destruct (Z.odd f).
Qed.

Lemma pte_new_valid ppn flags :
  0 <= ppn < 2 ^ 44 -> 0 <= flags < 256 ->
  PageTableEntry.is_valid (PageTableEntry.new ppn (Z.lor flags PTEFlags.V)) = true.
Proof.
  intros Hp Hf. rewrite is_valid_flags, pte_new_flags by (try apply lor_V_bound; lia).
  rewrite Z.lor_spec. apply orb_true_r.
Qed.

Lemma pte_new_table ppn :
  0 <= ppn < 2 ^ 44 ->
  PageTableEntry.is_valid (PageTableEntry.new ppn PTEFlags.V) = true /\
  PageTableEntry.ppn (PageTableEntry.new ppn PTEFlags.V) = ppn.
Proof.
  intros Hp. split; [exact (pte_new_valid ppn 0 Hp ltac:(done))|].
  apply pte_new_ppn; done.
Qed.

(** ** Access lemmas *)

Section access.
Context {T : Type} `{FAL : FrameAllocatorLaws T}.
Implicit Types (m : mem T).

Lemma pte_get_run m p i :
  length (page m p) = WORDS_PER_PAGE -> idx_ok i -> pte_get p i m = Ret (pte_at m p i) m.
Proof.
  intros Hl Hi. unfold pte_get, index, pte_at.
  destruct (vget_is_Some (page m p) i) as [x ->]; [unfold idx_ok in Hi; rewrite Hl; exact Hi|done].
Qed.

Lemma pte_set_run m p i v :
  length (page m p) = WORDS_PER_PAGE -> idx_ok i ->
  exists m', pte_set p i v m = Ret tt m' /\ falloc m' = falloc m /\
    length (page m' p) = WORDS_PER_PAGE /\
    (forall q, q <> p -> page m' q = page m q) /\
    pte_at m' p i = v /\ (forall j, j <> i -> pte_at m' p j = pte_at m p j).
Proof.
  intros Hl Hi. unfold pte_set, index_set, bind; cbn.
  destruct (vset (page m p) i v) as [p'|] eqn:E.
  - eexists. split; [done|]. split; [done|]. unfold pte_at. rewrite !page_set_eq.
    rewrite (vset_length _ _ _ _ E), Hl, (vget_vset_eq _ _ _ _ E). split; [done|].
    split; [intros; by apply page_set_ne|]. split; [done|].
    intros j Hj. by rewrite (vget_vset_ne _ _ _ _ _ E).
  - unfold vset in E. unfold idx_ok in Hi. rewrite Hl in E. change (Z.of_nat WORDS_PER_PAGE) with 512 in E.
    destruct (Z.leb_spec 0 i); [|lia]. destruct (Z.ltb_spec i 512); [done|lia].
Qed.

Lemma pte_at_page m m' p i : page m' p = page m p -> pte_at m' p i = pte_at m p i.
Proof. unfold pte_at. by intros ->. Qed.

Lemma child_page m m' p i : page m' p = page m p -> child m' p i = child m p i.
Proof. intros E. unfold child. by rewrite (pte_at_page m m'). Qed.

Lemma pte_at_zero m p i : page m p = zero_page -> pte_at m p i = 0.
Proof.
  intros E. unfold pte_at. rewrite E. destruct (vget zero_page i) as [x|] eqn:Ex; [|done].
  apply vget_Some in Ex as [_ Ex]. by apply lookup_replicate in Ex as [-> _].
Qed.

Lemma node_snoc m root path i :
  node m root (path ++ [i]) = node m root path ≫= fun p => child m p i.
Proof. unfold node. by rewrite foldl_app. Qed.

Lemma path_ok_snoc path i : path_ok (path ++ [i]) <-> (length path <= 1)%nat /\ path_ok path /\ idx_ok i.
Proof.
  unfold path_ok. rewrite length_app, Forall_app, Forall_singleton. cbn. intuition lia.
Qed.

Lemma node_ext m m' root path :
  (forall q p i, path_ok (q ++ [i]) -> node m root q = Some p -> child m' p i = child m p i) ->
  path_ok path -> node m' root path = node m root path.
Proof.
  intros Hc. induction path as [|i path IH] using rev_ind; [done|].
  intros Hok. pose proof Hok as (_ & Hp & _)%path_ok_snoc. rewrite !node_snoc, IH by done.
  destruct (node m root path) as [p|] eqn:E; [|done]. cbn. by apply (Hc path p i).
Qed.

(** *** Adding a table *)

Lemma node_extend m m' root fs path0 p0 i0 f path :
  tree_ok m root fs -> path_ok (path0 ++ [i0]) -> node m root path0 = Some p0 ->
  child m p0 i0 = None -> f ∉ fs ->
  child m' p0 i0 = Some f -> (forall j, child m' f j = None) ->
  (forall p i, p ∈ fs -> (p, i) <> (p0, i0) -> child m' p i = child m p i) ->
  path_ok path ->
  node m' root path = if decide (path = path0 ++ [i0]) then Some f else node m root path.
Proof.
  intros Hok Hp0 Hn0 Hc0 Hf Hc' Hcf Hch.
  pose proof Hp0 as (_ & Hpath0 & _)%path_ok_snoc.
  induction path as [|j path IH] using rev_ind.
  - intros _. destruct (decide ([] = path0 ++ [i0])) as [E|_]; [by destruct path0|done].
  - intros Hpj. pose proof Hpj as (Hl1 & Hpath & Hj)%path_ok_snoc.
    rewrite !node_snoc, IH by done. clear IH.
    destruct (decide (path = path0 ++ [i0])) as [->|Hne].
    + rewrite decide_False by (intros E%(f_equal length); rewrite !length_app in E; cbn in E; lia).
      cbn. rewrite Hcf, node_snoc, Hn0. cbn. by rewrite Hc0.
    + destruct (node m root path) as [p|] eqn:Ep; cbn.
      * pose proof (tree_in _ _ _ Hok path p Hpath Ep) as Hin.
        destruct (decide (p = p0 /\ j = i0)) as [[-> ->]|Hpj'].
        -- assert (path = path0) as -> by eauto using tree_inj. by rewrite decide_True.
        -- rewrite (Hch p j Hin) by (intros [= -> ->]; auto).
           rewrite decide_False; [done|]. intros [-> [= ->]]%app_inj_2; [|done].
           apply Hpj'. split; congruence.
      * rewrite decide_False; [done|]. intros [-> [= ->]]%app_inj_2; [congruence|done].
Qed.
End access.

(** ** Growing the tree *)

Section growth.
Context {T : Type} `{FAL : FrameAllocatorLaws T}.
Implicit Types (m : mem T).

(** [m'] and [fs'] extend the tree of [m] by fresh tables only. *)
Record extends m (root : Z) (fs : list Z) m' (fs' : list Z) : Prop := {
  ext_ok : tree_ok m' root fs';
  ext_frames : exists new, fs' = fs ++ new /\ Forall (fun f => ~ fa_live (falloc m) f) new /\
    (forall y, fa_live (falloc m') y <-> y ∈ new \/ fa_live (falloc m) y) /\
    fa_avail (falloc m) = (length new + fa_avail (falloc m'))%nat;
  ext_foreign y : fa_live (falloc m) y -> y ∉ fs -> page m' y = page m y;
  ext_leaf path i : path_ok path -> length path = 2%nat ->
    leaf m' root path i = leaf m root path i;
  ext_node path p : path_ok path -> node m root path = Some p -> node m' root path = Some p;
}.

Lemma extends_refl m root fs : tree_ok m root fs -> extends m root fs m fs.
Proof.
  intros Hok. split; try done. exists []. rewrite app_nil_r.
  split_and!; [done|constructor| |done]. set_solver.
Qed.

Lemma extends_trans m1 m2 m3 root fs1 fs2 fs3 :
  extends m1 root fs1 m2 fs2 -> extends m2 root fs2 m3 fs3 -> extends m1 root fs1 m3 fs3.
Proof.
  intros H1 H2. destruct (ext_frames _ _ _ _ _ H1) as (n1 & E1 & Hd1 & Hl1 & Ha1).
  destruct (ext_frames _ _ _ _ _ H2) as (n2 & E2 & Hd2 & Hl2 & Ha2). split.
  - apply H2.
  - exists (n1 ++ n2). rewrite E2, E1, app_assoc, length_app. split_and!; [done| | |lia].
    + apply Forall_app. split; [done|]. eapply Forall_impl; [exact Hd2|].
      intros f Hf Hn. apply Hf, Hl1. by right.
    + intros y. rewrite Hl2, Hl1, elem_of_app. tauto.
  - intros y Hy Hn. rewrite (ext_foreign _ _ _ _ _ H2), (ext_foreign _ _ _ _ _ H1); try done.
    + apply Hl1. by right.
    + rewrite E1, elem_of_app. intros [?|Hin]; [done|]. rewrite Forall_forall in Hd1. by apply (Hd1 y).
  - intros. rewrite (ext_leaf _ _ _ _ _ H2), (ext_leaf _ _ _ _ _ H1); done.
  - intros. apply (ext_node _ _ _ _ _ H2), (ext_node _ _ _ _ _ H1); done.
Qed.

Lemma child_zero m p i : page m p = zero_page -> child m p i = None.
Proof. intros E. unfold child. by rewrite (pte_at_zero m p i E). Qed.

Lemma node_len m root fs path p :
  tree_ok m root fs -> path_ok path -> node m root path = Some p ->
  p ∈ fs /\ fa_live (falloc m) p /\ length (page m p) = WORDS_PER_PAGE.
Proof.
  intros Hok Hp E. pose proof (tree_in _ _ _ Hok path p Hp E) as Hin.
  pose proof (tree_live _ _ _ Hok) as Hl. pose proof (tree_len _ _ _ Hok) as Hlen.
  rewrite Forall_forall in Hl, Hlen. auto.
Qed.

(** One new table [f] hung below the node [p0]. *)
Lemma extends_one m m' root fs path0 p0 i0 f :
  tree_ok m root fs -> path_ok (path0 ++ [i0]) -> node m root path0 = Some p0 ->
  child m p0 i0 = None -> fa_ok (falloc m') -> ~ fa_live (falloc m) f ->
  (forall y, fa_live (falloc m') y <-> y = f \/ fa_live (falloc m) y) ->
  fa_avail (falloc m) = S (fa_avail (falloc m')) ->
  child m' p0 i0 = Some f -> page m' f = zero_page ->
  length (page m' p0) = WORDS_PER_PAGE ->
  (forall j, j <> i0 -> pte_at m' p0 j = pte_at m p0 j) ->
  (forall y, y <> f -> y <> p0 -> page m' y = page m y) ->
  extends m root fs m' (fs ++ [f]).
Proof.
  intros Hok Hp0 Hn0 Hc0 Hfa Hf Hl Hav Hc' Hz Hlen0 Hpte Hpage.
  pose proof Hp0 as (Hlp0 & Hpath0 & _)%path_ok_snoc.
  pose proof (node_len _ _ _ _ _ Hok Hpath0 Hn0) as (Hp0in & Hp0l & _).
  assert (Hffs : f ∉ fs).
  { intros Hin. pose proof (tree_live _ _ _ Hok) as HF. rewrite Forall_forall in HF. auto. }
  assert (Hne : forall p, p ∈ fs -> p <> f) by (intros p Hin ->; done).
  assert (Hat : forall p i, p ∈ fs -> (p, i) <> (p0, i0) -> pte_at m' p i = pte_at m p i).
  { intros p i Hin Hpi. destruct (decide (p = p0)) as [->|Hpp].
    - apply Hpte. congruence.
    - apply pte_at_page, Hpage; auto. }
  assert (Hnode : forall path, path_ok path ->
    node m' root path = if decide (path = path0 ++ [i0]) then Some f else node m root path).
  { intros path Hp. eapply node_extend; eauto.
    - intros j. by apply child_zero.
    - intros p i Hin Hpi. unfold child. by rewrite (Hat p i Hin Hpi). }
  assert (Hnone : node m root (path0 ++ [i0]) = None) by (rewrite node_snoc, Hn0; exact Hc0).
  split.
  - split.
    + done.
    + apply NoDup_app. split; [apply Hok|]. split; [|apply NoDup_singleton].
      intros x Hx ->%list_elem_of_singleton. done.
    + apply Forall_app. split; [|apply Forall_singleton, Hl; by left].
      eapply Forall_impl; [apply Hok|]. intros x Hx. apply Hl. by right.
    + apply Forall_app. split; [|apply Forall_singleton; by rewrite Hz].
      apply Forall_forall. intros p Hin. destruct (decide (p = p0)) as [->|]; [done|].
      rewrite Hpage by auto. pose proof (tree_len _ _ _ Hok) as HF.
      rewrite Forall_forall in HF. auto.
    + intros path p Hp. rewrite Hnode by done. case_decide.
      * intros [= <-]. set_solver.
      * intros E. apply elem_of_app. left. eauto using tree_in.
    + intros path path' p Hp Hp'. rewrite !Hnode by done. repeat case_decide; subst; try done.
      * intros [= <-] E. exfalso. eauto using tree_in.
      * intros E [= <-]. exfalso. eauto using tree_in.
      * eauto using tree_inj.
  - exists [f]. split; [done|]. split; [by apply Forall_singleton|].
    split; [|cbn; lia]. intros y. rewrite Hl, list_elem_of_singleton. done.
  - intros y Hy Hn. apply Hpage; [by intros ->|by intros ->].
  - intros path i Hp Hl2. unfold leaf. rewrite Hnode by done. case_decide as E.
    + subst path. rewrite Hnone. cbn. by rewrite (pte_at_zero m' f i Hz).
    + destruct (node m root path) as [q|] eqn:Eq; [|done]. cbn.
      rewrite (Hat q i); [done|eauto using tree_in|].
      intros [= -> ->]. assert (path = path0) as -> by eauto using tree_inj. lia.
  - intros path p Hp E. rewrite Hnode by done. case_decide; [|done]. congruence.
Qed.

Lemma ensure_child_run m root fs path p i :
  tree_ok m root fs -> path_ok (path ++ [i]) -> node m root path = Some p ->
  (exists fs' q m', ensure_child p i (pte_at m p i) fs m = Ret (fs', q) m' /\
     extends m root fs m' fs' /\ node m' root (path ++ [i]) = Some q /\
     (length fs' <= S (length fs))%nat) \/
  (ensure_child p i (pte_at m p i) fs m = Panic Unwrap /\
     fa_avail (falloc m) = 0%nat /\ node m root (path ++ [i]) = None).
Proof.
  intros Hok Hpi Hn. pose proof Hpi as (_ & Hp & Hi)%path_ok_snoc.
  pose proof (node_len _ _ _ _ _ Hok Hp Hn) as (Hin & Hlv & Hlen).
  unfold ensure_child. destruct (PageTableEntry.is_valid (pte_at m p i)) eqn:Hv; cbn [negb].
  - left. eexists fs, _, m. split; [done|]. split; [by apply extends_refl|]. split; [|lia].
    rewrite node_snoc, Hn. cbn. unfold child. by rewrite Hv.
  - assert (Hnone : child m p i = None) by (unfold child; by rewrite Hv).
    pose proof (frame_alloc_avail m (tree_alloc _ _ _ Hok)) as Hav.
    destruct (frame_alloc_returns m) as ([f|] & m1 & E); rewrite E in Hav.
    + left. destruct (frame_alloc_Some m f m1 (tree_alloc _ _ _ Hok) E)
        as (Hok1 & Hfd & Hf & Hl1 & Hz & Hpg).
      assert (Hpf : p <> f) by (intros ->; done).
      destruct (pte_set_run m1 p i (PageTableEntry.new f PTEFlags.V)) as
        (m2 & E2 & Hfa & Hl2 & Hpg2 & Hat & Hat2); [by rewrite Hpg|done|].
      destruct (pte_new_table f Hf) as [Hvn Hpn].
      exists (fs ++ [f]), f, m2. split.
      { rewrite (bind_Ret _ _ _ _ _ E). cbn.
        rewrite (bind_Ret _ _ _ _ _ E2). by rewrite Hpn. }
      assert (Hext : extends m root fs m2 (fs ++ [f])).
      { eapply extends_one; try done; rewrite ?Hfa; try done.
        - unfold child. by rewrite Hat, Hvn, Hpn.
        - by rewrite Hpg2.
        - intros j Hj. rewrite Hat2 by done. apply pte_at_page. by rewrite Hpg.
        - intros y Hy Hy'. by rewrite Hpg2, Hpg. }
      split; [done|]. split; [|rewrite length_app; cbn; lia].
      rewrite node_snoc, (ext_node _ _ _ _ _ Hext path p Hp Hn). cbn.
      unfold child. by rewrite Hat, Hvn, Hpn.
    + right. rewrite (bind_Ret _ _ _ _ _ E). split; [done|]. split; [done|].
      rewrite node_snoc, Hn. exact Hnone.
Qed.
End growth.

(** ** The operations *)

Section operations.
Context {T : Type} `{FAL : FrameAllocatorLaws T}.
Implicit Types (m : mem T) (pt : PageTable).

Lemma indexes_ok vpn : exists i0 i1 i2,
  VirtPageNum.indexes vpn = [i0; i1; i2] /\ idx_ok i0 /\ idx_ok i1 /\ idx_ok i2.
Proof.
  rewrite indexes_arith. do 3 eexists. split; [done|]. unfold idx_ok.
  split_and!; apply Z.mod_pos_bound; lia.
Qed.

Lemma path_ok_0 : path_ok [].
Proof. split; [cbn; lia|constructor]. Qed.
Lemma path_ok_1 i0 : idx_ok i0 -> path_ok [i0].
Proof. intros. split; [cbn; lia|by apply Forall_singleton]. Qed.
Lemma path_ok_2 i0 i1 : idx_ok i0 -> idx_ok i1 -> path_ok [i0; i1].
Proof. intros. split; [cbn; lia|]. apply Forall_cons. split; [done|by apply Forall_singleton]. Qed.
Hint Resolve path_ok_0 path_ok_1 path_ok_2 : core.

Lemma find_pte_run m pt vpn i0 i1 i2 :
  table_ok m pt -> VirtPageNum.indexes vpn = [i0; i1; i2] -> idx_ok i0 -> idx_ok i1 -> idx_ok i2 ->
  find_pte pt vpn m = Ret ((fun p => (p, i2)) <$> node m (root_ppn pt) [i0; i1]) m.
Proof.
  intros Hok E H0 H1 H2. unfold find_pte. rewrite E. cbn [find_pte_loop].
  pose proof (node_len _ _ _ [] _ Hok ltac:(auto) eq_refl) as (_ & _ & Hl0).
  rewrite (bind_Ret _ _ _ _ _ (pte_get_run _ _ _ Hl0 H0)). cbn [Nat.eqb].
  cbn [node foldl]. unfold child at 2. cbn [mbind option_bind].
  destruct (PageTableEntry.is_valid (pte_at m (root_ppn pt) i0)) eqn:V0; cbn [negb]; [|done].
  set (p1 := PageTableEntry.ppn _).
  assert (Hn1 : node m (root_ppn pt) [i0] = Some p1) by (cbn; unfold child; by rewrite V0).
  pose proof (node_len _ _ _ [i0] p1 Hok ltac:(auto) Hn1) as (_ & _ & Hl1).
  rewrite (bind_Ret _ _ _ _ _ (pte_get_run _ _ _ Hl1 H1)). cbn. unfold child.
  destruct (PageTableEntry.is_valid (pte_at m p1 i1)) eqn:V1; cbn [negb]; [|done].
  set (p2 := PageTableEntry.ppn _).
  assert (Hn2 : node m (root_ppn pt) [i0; i1] = Some p2).
  { cbn. unfold child at 2. rewrite V0. cbn. unfold child. fold p1. by rewrite V1. }
  pose proof (node_len _ _ _ [i0; i1] p2 Hok ltac:(auto) Hn2) as (_ & _ & Hl2).
  by rewrite (bind_Ret _ _ _ _ _ (pte_get_run _ _ _ Hl2 H2)).
Qed.

Lemma find_pte_create_loop_step m i idx rest p fs :
  length (page m p) = WORDS_PER_PAGE -> idx_ok idx -> (i =? 2)%nat = false ->
  find_pte_create_loop i (idx :: rest) p fs m =
  (let! '(fs', p') := ensure_child p idx (pte_at m p idx) fs in
   find_pte_create_loop (S i) rest p' fs') m.
Proof.
  intros Hl Hi Hne. cbn [find_pte_create_loop].
  rewrite (bind_Ret _ _ _ _ _ (pte_get_run _ _ _ Hl Hi)). by rewrite Hne.
Qed.

Lemma find_pte_create_run m pt vpn i0 i1 i2 :
  table_ok m pt -> VirtPageNum.indexes vpn = [i0; i1; i2] -> idx_ok i0 -> idx_ok i1 -> idx_ok i2 ->
  (exists fs p m', find_pte_create pt vpn m =
       Ret ({| root_ppn := root_ppn pt; frames := fs |}, Some (p, i2)) m' /\
     extends m (root_ppn pt) (frames pt) m' fs /\ node m' (root_ppn pt) [i0; i1] = Some p /\
     (length fs <= 2 + length (frames pt))%nat) \/
  (find_pte_create pt vpn m = Panic Unwrap /\ (fa_avail (falloc m) <= 1)%nat /\
     node m (root_ppn pt) [i0; i1] = None).
Proof.
  intros Hok E H0 H1 H2. unfold find_pte_create. rewrite E.
  pose proof (node_len _ _ _ [] _ Hok ltac:(auto) eq_refl) as (_ & _ & Hl0).
  pose proof (find_pte_create_loop_step m 0 i0 [i1; i2] _ (frames pt) Hl0 H0 eq_refl) as S0.
  destruct (ensure_child_run m _ _ [] _ i0 Hok (path_ok_1 _ H0) eq_refl)
    as [(fs1 & p1 & m1 & E1 & X1 & N1 & L1)|(E1 & A1 & N1)].
  2:{ right. rewrite (bind_Panic _ _ _ _ E1) in S0. rewrite (bind_Panic _ _ _ _ S0).
      split; [done|]. split; [lia|].
      change [i0; i1] with ([i0] ++ [i1]). rewrite node_snoc. cbn [app] in N1. by rewrite N1. }
  rewrite (bind_Ret _ _ _ _ _ E1) in S0.
  pose proof (ext_ok _ _ _ _ _ X1) as Hok1. cbn [app] in N1.
  pose proof (node_len _ _ _ [i0] p1 Hok1 ltac:(auto) N1) as (_ & _ & Hl1).
  rewrite (find_pte_create_loop_step m1 1 i1 [i2] p1 fs1 Hl1 H1 eq_refl) in S0.
  destruct (ensure_child_run m1 _ _ [i0] p1 i1 Hok1 (path_ok_2 _ _ H0 H1) N1)
    as [(fs2 & p2 & m2 & E2 & X2 & N2 & L2)|(E2 & A2 & N2)].
  2:{ right. rewrite (bind_Panic _ _ _ _ E2) in S0. rewrite (bind_Panic _ _ _ _ S0).
      split; [done|]. destruct (ext_frames _ _ _ _ _ X1) as (new & Ef & _ & _ & Ha).
      rewrite Ef, length_app in L1. split; [lia|].
      destruct (node m (root_ppn pt) [i0; i1]) as [q|] eqn:Eq; [|done].
      pose proof (ext_node _ _ _ _ _ X1 [i0; i1] q ltac:(auto) Eq). cbn [app] in N2. congruence. }
  left. rewrite (bind_Ret _ _ _ _ _ E2) in S0. cbn [app] in N2.
  pose proof (ext_ok _ _ _ _ _ X2) as Hok2.
  pose proof (node_len _ _ _ [i0; i1] p2 Hok2 ltac:(auto) N2) as (_ & _ & Hl2).
  cbn [find_pte_create_loop] in S0.
  rewrite (bind_Ret _ _ _ _ _ (pte_get_run _ _ _ Hl2 H2)) in S0. cbn [Nat.eqb] in S0.
  exists fs2, p2, m2. rewrite (bind_Ret _ _ _ _ _ S0).
  split; [done|]. split; [eauto using extends_trans|]. split; [done|lia].
Qed.

(** Writing a leaf entry changes that leaf and nothing else. *)
Lemma leaf_write m root fs path p i v :
  tree_ok m root fs -> path_ok path -> length path = 2%nat -> node m root path = Some p -> idx_ok i ->
  exists m', pte_set p i v m = Ret tt m' /\ falloc m' = falloc m /\ tree_ok m' root fs /\
    node m' root path = Some p /\ pte_at m' p i = v /\
    leaf m' root path i = (if PageTableEntry.is_valid v then Some v else None) /\
    (forall path' i', path_ok path' -> length path' = 2%nat -> (path', i') <> (path, i) ->
       leaf m' root path' i' = leaf m root path' i') /\
    (forall y, y ∉ fs -> page m' y = page m y).
Proof.
  intros Hok Hp Hl2 Hn Hi. pose proof (node_len _ _ _ _ _ Hok Hp Hn) as (Hin & Hlv & Hlen).
  destruct (pte_set_run m p i v Hlen Hi) as (m' & E & Hfa & Hlen' & Hpg & Hat & Hat').
  assert (Hnode : forall q, path_ok q -> node m' root q = node m root q).
  { intros q. apply node_ext. intros q' p' j Hq' Hn'. apply child_page, Hpg. intros ->.
    pose proof Hq' as (Hlq & Hpq & _)%path_ok_snoc.
    assert (q' = path) as -> by eauto using tree_inj. lia. }
  exists m'. split_and!; try done.
  - destruct Hok as [Ha Hnd Hlvs Hlens Htin Htinj]. split; rewrite ?Hfa; try done.
    + apply Forall_forall. intros q Hq. destruct (decide (q = p)) as [->|]; [done|].
      rewrite Hpg by done. rewrite Forall_forall in Hlens. auto.
    + intros q x Hq. rewrite Hnode by done. eauto.
    + intros q q' x Hq Hq'. rewrite !Hnode by done. eauto.
  - by rewrite Hnode.
  - unfold leaf. rewrite Hnode, Hn by done. cbn. by rewrite Hat.
  - intros path' i' Hp' Hl' Hne. unfold leaf. rewrite Hnode by done.
    destruct (node m root path') as [q|] eqn:Eq; [|done]. cbn.
    enough (pte_at m' q i' = pte_at m q i') as -> by done.
    destruct (decide (q = p)) as [->|Hqp]; [|by apply pte_at_page, Hpg].
    apply Hat'. intros ->. apply Hne. f_equal. eauto using tree_inj.
  - intros y Hy. apply Hpg. by intros ->.
Qed.

Lemma indexes_inj vpn vpn' :
  0 <= vpn < 2 ^ 27 -> 0 <= vpn' < 2 ^ 27 ->
  VirtPageNum.indexes vpn = VirtPageNum.indexes vpn' -> vpn = vpn'.
Proof.
  intros Hv Hv'. rewrite !indexes_arith. intros [= E0 E1 E2].
  change (2 ^ 18) with (512 * 512) in *. change (2 ^ 9) with 512 in *.
  rewrite <- !Z.div_div in E0 by lia. Z.to_euclidean_division_equations. lia.
Qed.
End operations.

(** ** Refinement: a page table is a finite map from page numbers to entries *)

Inductive pt_op := OpMap (vpn ppn flags : Z) | OpUnmap (vpn : Z).

Definition vpn_ok (vpn : Z) : Prop := 0 <= vpn < 2 ^ 27.
Definition op_ok (op : pt_op) : Prop :=
  match op with
  | OpMap vpn ppn flags => vpn_ok vpn /\ 0 <= ppn < 2 ^ 44 /\ 0 <= flags < 256
  | OpUnmap vpn => vpn_ok vpn
  end.

(** The specification: mapping a mapped page and unmapping an unmapped one fail. *)
Definition abs_op (op : pt_op) (a : gmap Z Z) : option (gmap Z Z) :=
  match op with
  | OpMap vpn ppn flags =>
      match a !! vpn with
      | None => Some (<[vpn := PageTableEntry.new ppn (Z.lor flags PTEFlags.V)]> a)
      | Some _ => None
      end
  | OpUnmap vpn => match a !! vpn with None => None | Some _ => Some (delete vpn a) end
  end.
Definition abs_ops (ops : list pt_op) (a : gmap Z Z) : option (gmap Z Z) :=
  foldl (fun acc op => acc ≫= abs_op op) (Some a) ops.

Section refinement.
Context {T : Type} `{FAL : FrameAllocatorLaws T}.
Implicit Types (m : mem T) (pt : PageTable).

Definition run_op (op : pt_op) (pt : PageTable) : M (mem T) PageTable :=
  match op with
  | OpMap vpn ppn flags => map pt vpn ppn flags
  | OpUnmap vpn => unmap pt vpn ;;; ret pt
  end.
Fixpoint run_ops (ops : list pt_op) (pt : PageTable) : M (mem T) PageTable :=
  match ops with
  | [] => ret pt
  | op :: rest => let! pt' := run_op op pt in run_ops rest pt'
  end.

Definition represents m pt (a : gmap Z Z) : Prop :=
  table_ok m pt /\ forall vpn, vpn_ok vpn -> mapped m pt vpn = a !! vpn.

Lemma leaf_mapped m pt vpn i0 i1 i2 p :
  VirtPageNum.indexes vpn = [i0; i1; i2] -> node m (root_ppn pt) [i0; i1] = Some p ->
  mapped m pt vpn = if PageTableEntry.is_valid (pte_at m p i2) then Some (pte_at m p i2) else None.
Proof. intros E Hn. unfold mapped, leaf. by rewrite E, Hn. Qed.

Lemma leaf_unmapped m pt vpn i0 i1 i2 :
  VirtPageNum.indexes vpn = [i0; i1; i2] -> node m (root_ppn pt) [i0; i1] = None ->
  mapped m pt vpn = None.
Proof. intros E Hn. unfold mapped, leaf. by rewrite E, Hn. Qed.

(** Writing the leaf of [vpn] updates the represented map at [vpn]. *)
Lemma represents_leaf_write m pt a vpn i0 i1 i2 p v :
  represents m pt a -> vpn_ok vpn -> VirtPageNum.indexes vpn = [i0; i1; i2] ->
  idx_ok i0 -> idx_ok i1 -> idx_ok i2 -> node m (root_ppn pt) [i0; i1] = Some p ->
  exists m', pte_set p i2 v m = Ret tt m' /\ falloc m' = falloc m /\
    represents m' pt (if PageTableEntry.is_valid v then <[vpn := v]> a else delete vpn a) /\
    forall y, y ∉ frames pt -> page m' y = page m y.
Proof.
  intros [Hok Hrep] Hv E H0 H1 H2 Hn.
  destruct (leaf_write m _ _ [i0; i1] p i2 v Hok (path_ok_2 _ _ H0 H1) eq_refl Hn H2)
    as (m' & Es & Hfa & Hok' & _ & _ & Hleaf & Hother & Hpg).
  exists m'. split_and!; try done. split; [done|]. intros w Hw.
  destruct (decide (w = vpn)) as [->|Hne].
  - unfold mapped. rewrite E, Hleaf. destruct (PageTableEntry.is_valid v); by simplify_map_eq.
  - transitivity (a !! w); [|destruct (PageTableEntry.is_valid v); by simplify_map_eq].
    rewrite <- Hrep by done. unfold mapped.
    destruct (indexes_ok w) as (j0 & j1 & j2 & Ew & J0 & J1 & J2). rewrite Ew.
    apply Hother; [by apply path_ok_2|done|]. intros [= -> -> ->].
    apply Hne, indexes_inj; [done..|congruence].
Qed.

Lemma extends_represents m m' pt fs a :
  represents m pt a -> extends m (root_ppn pt) (frames pt) m' fs ->
  represents m' {| root_ppn := root_ppn pt; frames := fs |} a.
Proof.
  intros [Hok Hrep] X. split; [apply X|]. intros w Hw. rewrite <- Hrep by done.
  unfold mapped. destruct (indexes_ok w) as (j0 & j1 & j2 & Ew & J0 & J1 & J2). rewrite Ew.
  apply (ext_leaf _ _ _ _ _ X); [by apply path_ok_2|done].
Qed.

Lemma map_run m pt a vpn ppn flags :
  represents m pt a -> vpn_ok vpn -> 0 <= ppn < 2 ^ 44 -> 0 <= flags < 256 ->
  match map pt vpn ppn flags m with
  | Ret pt' m' =>
      a !! vpn = None /\
      represents m' pt' (<[vpn := PageTableEntry.new ppn (Z.lor flags PTEFlags.V)]> a) /\
      root_ppn pt' = root_ppn pt /\ frames pt ⊆ frames pt' /\
      (forall y, y ∈ frames pt' -> y ∈ frames pt \/ ~ fa_live (falloc m) y) /\
      (forall y, fa_live (falloc m') y <-> fa_live (falloc m) y \/ y ∈ frames pt') /\
      (forall y, fa_live (falloc m) y -> y ∉ frames pt -> page m' y = page m y) /\
      (fa_avail (falloc m) <= 2 + fa_avail (falloc m'))%nat
  | Panic Assert => a !! vpn <> None
  | Panic Unwrap => a !! vpn = None /\ (fa_avail (falloc m) <= 1)%nat
  | Panic _ => False
  end.
Proof.
  intros Hrep Hv Hp Hf. destruct (indexes_ok vpn) as (i0 & i1 & i2 & E & H0 & H1 & H2).
  unfold map. destruct (find_pte_create_run m pt vpn i0 i1 i2 (proj1 Hrep) E H0 H1 H2)
    as [(fs & p & m1 & E1 & X & N & L)|(E1 & A1 & N)].
  2:{ rewrite (bind_Panic _ _ _ _ E1). split; [|done]. rewrite <- (proj2 Hrep) by done.
      by apply (leaf_unmapped m pt vpn i0 i1 i2). }
  rewrite (bind_Ret _ _ _ _ _ E1). cbn.
  pose proof (extends_represents _ _ _ _ _ Hrep X) as Hrep1.
  pose proof (node_len _ _ _ _ _ (proj1 Hrep1) (path_ok_2 _ _ H0 H1) N) as (_ & _ & Hl).
  rewrite (bind_Ret _ _ _ _ _ (pte_get_run _ _ _ Hl H2)).
  pose proof (leaf_mapped m1 {| root_ppn := root_ppn pt; frames := fs |} _ _ _ _ _ E N) as Hm.
  rewrite (proj2 Hrep1) in Hm by done.
  destruct (PageTableEntry.is_valid (pte_at m1 p i2)) eqn:Hval; cbn; [congruence|].
  destruct (represents_leaf_write m1 _ a vpn i0 i1 i2 p
    (PageTableEntry.new ppn (Z.lor flags PTEFlags.V)) Hrep1 Hv E H0 H1 H2 N)
    as (m2 & E2 & Hfa & Hrep2 & Hpg).
  rewrite (bind_Ret _ (fun _ => ret _) _ _ _ E2). cbn. rewrite pte_new_valid in Hrep2 by done.
  destruct (ext_frames _ _ _ _ _ X) as (new & -> & Hnew & Hlv & Hav). cbn in *.
  rewrite length_app in L. rewrite Hfa. split_and!; try done; try lia.
  - intros y Hy. apply elem_of_app. by left.
  - intros y [?|Hy]%elem_of_app; [by left|right]. rewrite Forall_forall in Hnew. auto.
  - intros y. rewrite Hlv, elem_of_app. pose proof (tree_live _ _ _ (proj1 Hrep)) as HF.
    rewrite Forall_forall in HF. specialize (HF y). tauto.
  - intros y Hy Hn. rewrite Hpg.
    + by apply (ext_foreign _ _ _ _ _ X).
    + cbn. rewrite elem_of_app. intros [?|Hin]; [done|]. rewrite Forall_forall in Hnew.
      by apply (Hnew y).
Qed.

Lemma unmap_run m pt a vpn :
  represents m pt a -> vpn_ok vpn ->
  match unmap pt vpn m with
  | Ret _ m' =>
      a !! vpn <> None /\ represents m' pt (delete vpn a) /\ falloc m' = falloc m /\
      (forall y, y ∉ frames pt -> page m' y = page m y)
  | Panic Assert | Panic Unwrap => a !! vpn = None
  | Panic _ => False
  end.
Proof.
  intros Hrep Hv. destruct (indexes_ok vpn) as (i0 & i1 & i2 & E & H0 & H1 & H2).
  unfold unmap. pose proof (find_pte_run m pt vpn i0 i1 i2 (proj1 Hrep) E H0 H1 H2) as E1.
  rewrite (bind_Ret _ _ _ _ _ E1). rewrite <- (proj2 Hrep) by done.
  destruct (node m (root_ppn pt) [i0; i1]) as [p|] eqn:N; cbn.
  2:{ exact (leaf_unmapped m pt vpn i0 i1 i2 E N). }
  pose proof (node_len _ _ _ _ _ (proj1 Hrep) (path_ok_2 _ _ H0 H1) N) as (_ & _ & Hl).
  rewrite (bind_Ret _ _ _ _ _ (pte_get_run _ _ _ Hl H2)).
  rewrite (leaf_mapped m pt vpn i0 i1 i2 p E N).
  destruct (PageTableEntry.is_valid (pte_at m p i2)); [|reflexivity].
  destruct (represents_leaf_write m pt a vpn i0 i1 i2 p PageTableEntry.empty Hrep Hv E H0 H1 H2 N)
    as (m2 & E2 & Hfa & Hrep2 & Hpg).
  rewrite bind_assert, E2 by done. done.
Qed.

Lemma translate_run m pt a vpn :
  represents m pt a -> vpn_ok vpn ->
  exists o, translate pt vpn m = Ret o m /\
    a !! vpn = o ≫= fun pte => if PageTableEntry.is_valid pte then Some pte else None.
Proof.
  intros Hrep Hv. destruct (indexes_ok vpn) as (i0 & i1 & i2 & E & H0 & H1 & H2).
  unfold translate. pose proof (find_pte_run m pt vpn i0 i1 i2 (proj1 Hrep) E H0 H1 H2) as E1.
  rewrite (bind_Ret _ _ _ _ _ E1). rewrite <- (proj2 Hrep) by done.
  destruct (node m (root_ppn pt) [i0; i1]) as [p|] eqn:N; cbn.
  - pose proof (node_len _ _ _ _ _ (proj1 Hrep) (path_ok_2 _ _ H0 H1) N) as (_ & _ & Hl).
    rewrite (bind_Ret _ _ _ _ _ (pte_get_run _ _ _ Hl H2)). eexists. split; [done|].
    by apply (leaf_mapped m pt vpn i0 i1 i2 p).
  - exists None. split; [done|]. exact (leaf_unmapped m pt vpn i0 i1 i2 E N).
Qed.
(** A table depends only on its own frames. *)
Lemma represents_frame m m' pt a :
  represents m pt a -> fa_ok (falloc m') ->
  (forall y, y ∈ frames pt -> fa_live (falloc m') y /\ page m' y = page m y) ->
  represents m' pt a.
Proof.
  intros [Hok Hrep] Hfa Hf.
  assert (Hnode : forall path, path_ok path -> node m' (root_ppn pt) path = node m (root_ppn pt) path).
  { intros path. apply node_ext. intros q p i (_ & Hq & _)%path_ok_snoc Hn.
    apply child_page, Hf. exact (tree_in _ _ _ Hok q p Hq Hn). }
  split.
  - split; [done|apply Hok|..].
    + apply Forall_forall. intros y Hy. by apply Hf.
    + pose proof (tree_len _ _ _ Hok) as Hl. rewrite Forall_forall in Hl |- *.
      intros y Hy. rewrite (proj2 (Hf y Hy)). by apply Hl.
    + intros path p Hp. rewrite Hnode by done. by apply (tree_in _ _ _ Hok).
    + intros path path' p Hp Hp'. rewrite !Hnode by done. by apply (tree_inj _ _ _ Hok).
  - intros vpn Hv. rewrite <- Hrep by done. unfold mapped.
    destruct (indexes_ok vpn) as (i0 & i1 & i2 & E & H0 & H1 & H2). rewrite E.
    unfold leaf. rewrite Hnode by by apply path_ok_2.
    destruct (node m (root_ppn pt) [i0; i1]) as [p|] eqn:N; [|done]. cbn.
    rewrite (pte_at_page m m') by (apply Hf; exact (tree_in _ _ _ Hok _ _ (path_ok_2 _ _ H0 H1) N)).
    done.
Qed.

Lemma represents_live m pt a :
  represents m pt a -> fa_ok (falloc m) /\ NoDup (frames pt) /\ Forall (fa_live (falloc m)) (frames pt).
Proof. intros [[] _]. done. Qed.

Lemma map_step m pt a vpn ppn flags pt' m' :
  represents m pt a -> vpn_ok vpn -> 0 <= ppn < 2 ^ 44 -> 0 <= flags < 256 ->
  map pt vpn ppn flags m = Ret pt' m' -> frame_step m (frames pt) m' (frames pt').
Proof.
  intros Hrep Hv Hp Hf E. pose proof (map_run m pt a vpn ppn flags Hrep Hv Hp Hf) as Hm.
  rewrite E in Hm. destruct Hm as (_ & Hrep' & _ & Hsub & Hnew & Hl & Hpg & _).
  split; [apply (represents_live _ _ _ Hrep')|done| |done].
  intros y. rewrite Hl. pose proof (Hsub y). destruct (decide (y ∈ frames pt)); tauto.
Qed.

Lemma unmap_step m pt a vpn m' :
  represents m pt a -> vpn_ok vpn -> unmap pt vpn m = Ret tt m' ->
  frame_step m (frames pt) m' (frames pt).
Proof.
  intros Hrep Hv E. pose proof (unmap_run m pt a vpn Hrep Hv) as Hm. rewrite E in Hm.
  destruct Hm as (_ & Hrep' & Hfa & Hpg). destruct (represents_live _ _ _ Hrep) as (Hok & _ & Hl).
  rewrite Forall_forall in Hl. split; rewrite ?Hfa; try done; [by left| |auto].
  intros y. specialize (Hl y). destruct (decide (y ∈ frames pt)); tauto.
Qed.
End refinement.

(** ** Buffers in another address space *)

(** A [&'static mut [u8]] over physical memory: first byte and length. *)
Record uslice := { us_pa : Z; us_len : Z }.

Section translated.
Context {T : Type} `{FrameAllocator T}.

(** [ppn.bytes_array()[lo..hi]] *)
Definition bytes_slice (ppn lo hi : Z) : M (mem T) uslice :=
  if (lo <=? hi) && (hi <=? PAGE_SIZE)
  then ret {| us_pa := PhysAddr.from_ppn ppn + lo; us_len := hi - lo |}
  else fail Bounds.

(** The [while start < end] loop; each turn handles the rest of one page. *)
Fixpoint translated_byte_buffer_loop (fuel : nat) (page_table : PageTable) (start end_ : Z)
    (v : list uslice) : M (mem T) (list uslice) :=
  match fuel with
  | O => fail Fuel
  | S fuel =>
      if start <? end_ then
        let start_va := VirtAddr.from_usize start in
        let vpn := VirtAddr.floor start_va in
        let! o := translate page_table vpn in
        let! pte := unwrap o in
        let ppn := PageTableEntry.ppn pte in
        let end_va := Z.min (VirtAddr.from_vpn (VirtPageNum.step vpn)) (VirtAddr.from_usize end_) in
        let! s := (if VirtAddr.page_offset end_va =? 0
                   then bytes_slice ppn (VirtAddr.page_offset start_va) PAGE_SIZE
                   else bytes_slice ppn (VirtAddr.page_offset start_va)
                          (VirtAddr.page_offset end_va)) in
        translated_byte_buffer_loop fuel page_table (VirtAddr.into_usize end_va) end_ (v ++ [s])
      else ret v
  end.

(** The fuel is one turn per page the range can touch and one for the exit test. *)
Definition translated_byte_buffer (token ptr len : Z) : M (mem T) (list uslice) :=
  translated_byte_buffer_loop (Z.to_nat (len / PAGE_SIZE + 3))
    (from_token token) ptr (u64 (ptr + len)) [].

(** The byte at a physical address: byte [pa mod 8] of its word. *)
Definition phys_byte (m : mem T) (pa : Z) : Z :=
  let w := default 0 (vget (page m (pa / PAGE_SIZE)) (pa mod PAGE_SIZE / 8)) in
  w / 256 ^ (pa mod 8) mod 256.

(** The characters pushed are [ch as char], so code points below 256. *)
Fixpoint translated_str_loop (fuel : nat) (page_table : PageTable) (va : Z) (string : list Z) :
    M (mem T) (list Z) :=
  match fuel with
  | O => fail Fuel
  | S fuel =>
      let! o := translate_va page_table (VirtAddr.from_usize va) in
      let! pa := unwrap o in
      let! m := get in
      let ch := phys_byte m pa in
      if ch =? 0 then ret string
      else translated_str_loop fuel page_table (u64 (va + 1)) (string ++ [ch])
  end.

Definition translated_str (fuel : nat) (token ptr : Z) : M (mem T) (list Z) :=
  translated_str_loop fuel (from_token token) ptr [].

(** [translated_refmut]/[translated_ref]: the physical address of the object. *)
Definition translated_refmut (token ptr : Z) : M (mem T) Z :=
  let! o := translate_va (from_token token) (VirtAddr.from_usize ptr) in unwrap o.
Definition translated_ref (token ptr : Z) : M (mem T) Z :=
  let! o := translate_va (from_token token) (VirtAddr.from_usize ptr) in unwrap o.
End translated.

(** [UserBuffer] and its byte iterator. *)
Record UserBuffer := { buffers : list uslice }.

Definition UserBuffer_len (self : UserBuffer) : Z :=
  foldl (fun total b => u64 (total + us_len b)) 0 (buffers self).

Record UserBufferIterator := {
  it_buffers : list uslice;
  current_buffer : Z;
  current_idx : Z;
}.

Definition UserBuffer_into_iter (self : UserBuffer) : UserBufferIterator :=
  {| it_buffers := buffers self; current_buffer := 0; current_idx := 0 |}.

(** One [next]: the address of the byte and the advanced iterator. *)
Definition UserBufferIterator_next {S} (self : UserBufferIterator) :
    M S (option Z * UserBufferIterator) :=
  if Z.of_nat (length (it_buffers self)) <=? current_buffer self then ret (None, self)
  else
    let! b := index (it_buffers self) (current_buffer self) in
    if negb (current_idx self <? us_len b) then fail Bounds
    else
      let r := us_pa b + current_idx self in
      if current_idx self + 1 =? us_len b
      then ret (Some r, {| it_buffers := it_buffers self;
                           current_buffer := current_buffer self + 1; current_idx := 0 |})
      else ret (Some r, {| it_buffers := it_buffers self;
                           current_buffer := current_buffer self;
                           current_idx := current_idx self + 1 |}).

(** The bytes an iteration visits. *)
Fixpoint drain_bytes {S} (fuel : nat) (it : UserBufferIterator) : M S (list Z) :=
  match fuel with
  | O => fail Fuel
  | Datatypes.S fuel =>
      let! '(o, it') := UserBufferIterator_next it in
      match o with
      | None => ret []
      | Some r => let! rest := drain_bytes fuel it' in ret (r :: rest)
      end
  end.

(** ** Lemmas on buffers *)

Definition us_addrs (s : uslice) : list Z := seqZ (us_pa s) (us_len s).

Lemma join_addrs b bs : mjoin (us_addrs <$> b :: bs) = us_addrs b ++ mjoin (us_addrs <$> bs).
Proof. reflexivity. Qed.

Lemma length_us_addrs b : length (us_addrs b) = Z.to_nat (us_len b).
Proof. apply length_seqZ. Qed.

Lemma UserBuffer_next_at {S} bs b i (s : S) (k : nat) :
  bs !! k = Some b -> 0 <= i < us_len b ->
  UserBufferIterator_next {| it_buffers := bs; current_buffer := Z.of_nat k; current_idx := i |} s =
  Ret (Some (us_pa b + i),
       if i + 1 =? us_len b
       then {| it_buffers := bs; current_buffer := Z.of_nat k + 1; current_idx := 0 |}
       else {| it_buffers := bs; current_buffer := Z.of_nat k; current_idx := i + 1 |}) s.
Proof.
  intros Hb Hi. unfold UserBufferIterator_next. cbn.
  pose proof (lookup_lt_Some _ _ _ Hb). rewrite (proj2 (Z.leb_gt _ _)) by lia.
  unfold index. rewrite vget_nat, Hb. cbn. rewrite (proj2 (Z.ltb_lt i _)) by lia. cbn.
  by destruct (i + 1 =? us_len b).
Qed.

(** The iterator goes on to yield exactly [addrs]. *)
Fixpoint yields (it : UserBufferIterator) (addrs : list Z) : Prop :=
  match addrs with
  | [] => forall (S : Type) (s : S), UserBufferIterator_next it s = Ret (None, it) s
  | x :: r => exists it',
      (forall (S : Type) (s : S), UserBufferIterator_next it s = Ret (Some x, it') s) /\ yields it' r
  end.

(** From a position inside buffer [k], the iterator yields the rest of that
    buffer and then the following buffers. *)
Lemma yields_from bs n (k : nat) b i :
  Forall (fun b => 0 < us_len b) bs -> bs !! k = Some b -> 0 <= i < us_len b ->
  (Z.to_nat (us_len b - i) + length (mjoin (us_addrs <$> drop (S k) bs)) <= n)%nat ->
  yields {| it_buffers := bs; current_buffer := Z.of_nat k; current_idx := i |}
    (seqZ (us_pa b + i) (us_len b - i) ++ mjoin (us_addrs <$> drop (S k) bs)).
Proof.
  intros Hpos. revert k b i. induction n as [|n IH]; intros k b i Hb Hi Hn; [lia|].
  rewrite (seqZ_cons (us_pa b + i)) by lia. cbn [app yields].
  eexists. split; [intros S' s; exact (UserBuffer_next_at bs b i s k Hb Hi)|].
  destruct (Z.eqb_spec (i + 1) (us_len b)) as [E|E].
  - replace (Z.pred (us_len b - i)) with 0 by lia. cbn [seqZ app].
    replace (Z.of_nat k + 1) with (Z.of_nat (S k)) by lia.
    destruct (bs !! S k) as [b'|] eqn:Hb'.
    + rewrite (drop_S _ _ _ Hb') in Hn |- *.
      rewrite join_addrs, length_app, length_us_addrs in Hn. rewrite join_addrs.
      pose proof (Forall_lookup_1 _ _ _ _ Hpos Hb') as Hlb. cbn in Hlb.
      pose proof (IH (S k) b' 0 Hb' ltac:(lia)) as Hy. rewrite Z.add_0_r, Z.sub_0_r in Hy.
      apply Hy. lia.
    + apply lookup_ge_None in Hb' as Hlen. rewrite (drop_ge bs (S k)) by lia.
      intros S' s. unfold UserBufferIterator_next. cbn [it_buffers current_buffer].
      rewrite (proj2 (Z.leb_le _ _)) by lia. done.
  - replace (Z.succ (us_pa b + i)) with (us_pa b + (i + 1)) by lia.
    replace (Z.pred (us_len b - i)) with (us_len b - (i + 1)) by lia.
    apply IH; [done|lia|lia].
Qed.

Lemma yields_buffer bs :
  Forall (fun b => 0 < us_len b) bs ->
  yields (UserBuffer_into_iter {| buffers := bs |}) (mjoin (us_addrs <$> bs)).
Proof.
  intros Hpos. destruct bs as [|b bs]; [done|].
  pose proof (Forall_inv Hpos) as Hb. cbn in Hb. rewrite join_addrs.
  pose proof (yields_from (b :: bs) _ 0 b 0 Hpos eq_refl ltac:(lia) (le_n _)) as Hy.
  cbn [drop] in Hy. by rewrite drop_0, Z.add_0_r, Z.sub_0_r in Hy.
Qed.

Lemma drain_yields {S} fuel it addrs (s : S) :
  yields it addrs -> (length addrs < fuel)%nat -> drain_bytes fuel it s = Ret addrs s.
Proof.
  revert fuel it. induction addrs as [|x addrs IH]; intros [|fuel] it Hy Hf; cbn in Hf; try lia;
    cbn [drain_bytes].
  - by rewrite (bind_Ret _ _ _ _ _ (Hy S s)).
  - destruct Hy as (it' & Hn & Hy). rewrite (bind_Ret _ _ _ _ _ (Hn S s)).
    by rewrite (bind_Ret _ _ _ _ _ (IH fuel it' Hy ltac:(lia))).
Qed.

(** ** User memory through a token *)

Section user_memory.
Context {T : Type} `{FAL : FrameAllocatorLaws T}.
Implicit Types (m : mem T) (pt : PageTable) (a : gmap Z Z).

Lemma from_token_token pt :
  0 <= root_ppn pt < 2 ^ 44 -> root_ppn (from_token (token pt)) = root_ppn pt.
Proof.
  intros Hr. unfold from_token, token. cbn [root_ppn].
  rewrite ppn_from_usize_mod, land_mask by done. rewrite Z.lor_comm, lor_shiftl_add by lia.
  change (2 ^ 60) with (2 ^ 16 * 2 ^ 44). rewrite Z.mul_assoc, Zmod_mod, Z.mod_add by lia.
  by apply Z.mod_small.
Qed.

Lemma root_bound m pt : table_ok m pt -> 0 <= root_ppn pt < 2 ^ 44.
Proof.
  intros Hok. pose proof (node_len _ _ _ [] _ Hok path_ok_0 eq_refl) as (_ & Hl & _).
  apply (fa_live_ppn (falloc m)); [apply Hok|done].
Qed.

Lemma translate_token m pt vpn :
  table_ok m pt -> translate (from_token (token pt)) vpn m = translate pt vpn m.
Proof.
  intros Hok%root_bound. unfold translate, find_pte. by rewrite from_token_token.
Qed.

Lemma translate_mapped m pt a vpn pte :
  represents m pt a -> vpn_ok vpn -> a !! vpn = Some pte ->
  translate (from_token (token pt)) vpn m = Ret (Some pte) m.
Proof.
  intros Hrep Hv Ha. rewrite (translate_token m pt vpn (proj1 Hrep)).
  destruct (translate_run m pt a vpn Hrep Hv) as (o & -> & Ho). rewrite Ha in Ho.
  destruct o as [pte'|]; [|done]. cbn in Ho.
  destruct (PageTableEntry.is_valid pte'); by simplify_eq.
Qed.

(** The physical address of a mapped virtual address. *)
Definition pa_of a (va : Z) : Z :=
  PageTableEntry.ppn (default 0 (a !! (va / PAGE_SIZE))) * PAGE_SIZE + va mod PAGE_SIZE.

Lemma pte_ppn_bound pte : 0 <= PageTableEntry.ppn pte < 2 ^ 44.
Proof.
  unfold PageTableEntry.ppn. rewrite ppn_from_usize_mod. apply Z.mod_pos_bound. lia.
Qed.

Lemma pa_from_ppn ppn : 0 <= ppn < 2 ^ 44 -> PhysAddr.from_ppn ppn = ppn * PAGE_SIZE.
Proof.
  intros. unfold PhysAddr.from_ppn. rewrite Z.shiftl_mul_pow2 by done.
  change (2 ^ PAGE_SIZE_BITS) with PAGE_SIZE. apply u64_small. unfold PAGE_SIZE. lia.
Qed.

Lemma vpn_of_va va : 0 <= va < 2 ^ 39 -> vpn_ok (va / PAGE_SIZE).
Proof. intros. unfold vpn_ok, PAGE_SIZE. Z.to_euclidean_division_equations. lia. Qed.

Lemma translate_va_mapped m pt a va pte :
  represents m pt a -> 0 <= va < 2 ^ 39 -> a !! (va / PAGE_SIZE) = Some pte ->
  translate_va (from_token (token pt)) va m = Ret (Some (pa_of a va)) m.
Proof.
  intros Hrep Hva Ha. unfold translate_va, VirtAddr.floor.
  rewrite (bind_Ret _ _ _ _ _ (translate_mapped m pt a _ pte Hrep (vpn_of_va va Hva) Ha)).
  unfold ret. do 2 f_equal. unfold pa_of, PhysAddr.into_usize. rewrite Ha. cbn [default].
  pose proof (pte_ppn_bound pte) as Hb. rewrite pa_from_ppn by done.
  rewrite page_offset_mod, pa_from_usize_mod.
  pose proof (Z.mod_pos_bound va PAGE_SIZE ltac:(done)) as Ho. unfold PAGE_SIZE in *. cbn.
  rewrite u64_small, Z.mod_small; lia.
Qed.

(** One turn of the loop covers the bytes up to the end of the page or range. *)
Lemma buffer_turn m pt a start end_ pte :
  represents m pt a -> 0 <= start < end_ -> end_ <= 2 ^ 38 ->
  a !! (start / PAGE_SIZE) = Some pte ->
  let stop := Z.min ((start / PAGE_SIZE + 1) * PAGE_SIZE) end_ in
  Z.min (VirtAddr.from_vpn (VirtPageNum.step (VirtAddr.floor start))) (VirtAddr.from_usize end_)
    = stop /\
  exists s, (if VirtAddr.page_offset stop =? 0
             then bytes_slice (PageTableEntry.ppn pte) (VirtAddr.page_offset start) PAGE_SIZE
             else bytes_slice (PageTableEntry.ppn pte) (VirtAddr.page_offset start)
                    (VirtAddr.page_offset stop)) m = Ret s m /\
    us_addrs s = (pa_of a) <$> seqZ start (stop - start) /\ 0 < us_len s.
Proof.
  intros Hrep Hs He Ha stop. pose proof (Z.mod_pos_bound start PAGE_SIZE ltac:(done)) as Hm.
  pose proof (Z.div_mod start PAGE_SIZE ltac:(done)) as Hd. unfold PAGE_SIZE in *.
  split.
  - unfold VirtAddr.from_vpn, VirtPageNum.step, VirtAddr.floor, PAGE_SIZE.
    rewrite va_from_usize_mod, Z.shiftl_mul_pow2, (Z.mod_small end_) by (done || lia).
    rewrite (u64_small (start / 4096 + 1)), u64_small; change (2 ^ PAGE_SIZE_BITS) with 4096; lia.
  - assert (Hseg : forall lo n, lo = start mod 4096 -> 0 < n -> n <= 4096 - lo ->
      us_addrs {| us_pa := PhysAddr.from_ppn (PageTableEntry.ppn pte) + lo; us_len := n |}
        = pa_of a <$> seqZ start n).
    { intros lo n -> Hn Hn'. unfold us_addrs. cbn. rewrite pa_from_ppn by apply pte_ppn_bound.
      apply list_eq. intros k. rewrite list_lookup_fmap.
      destruct (decide (Z.of_nat k < n)) as [Hk|Hk].
      - rewrite !lookup_seqZ_lt by done. cbn. f_equal. unfold pa_of, PAGE_SIZE.
        replace ((start + Z.of_nat k) / 4096) with (start / 4096)
          by (apply Z.div_unique with (start mod 4096 + Z.of_nat k); lia).
        replace ((start + Z.of_nat k) mod 4096) with (start mod 4096 + Z.of_nat k)
          by (apply Z.mod_unique with (start / 4096); lia).
        rewrite Ha. cbn. lia.
      - rewrite !lookup_seqZ_ge by lia. done. }
    rewrite !page_offset_mod. unfold bytes_slice, PAGE_SIZE.
    destruct (Z.eqb_spec (stop mod 4096) 0) as [E|E].
    + assert (stop = (start / 4096 + 1) * 4096) as Hst
        by (subst stop; Z.to_euclidean_division_equations; lia).
      rewrite (proj2 (Z.leb_le _ _)) by lia. cbn. eexists. split; [done|]. cbn.
      split; [|lia]. rewrite Hseg by lia. do 2 f_equal. lia.
    + assert (stop = end_ /\ stop mod 4096 = start mod 4096 + (stop - start)) as [Hst Hmod]
        by (subst stop; Z.to_euclidean_division_equations; lia).
      pose proof (Z.mod_pos_bound stop 4096 ltac:(done)).
      rewrite (proj2 (Z.leb_le _ _)), (proj2 (Z.leb_le _ 4096)) by lia. cbn. eexists.
      split; [done|]. cbn. split; [|lia]. rewrite Hseg by lia. do 2 f_equal. lia.
Qed.

Lemma translated_byte_buffer_loop_run m pt a end_ fuel start v :
  represents m pt a -> 0 <= start -> end_ <= 2 ^ 38 ->
  (forall va, start <= va < end_ -> is_Some (a !! (va / PAGE_SIZE))) ->
  (Z.to_nat ((end_ + PAGE_SIZE - 1) / PAGE_SIZE - start / PAGE_SIZE) < fuel)%nat ->
  exists v', translated_byte_buffer_loop fuel (from_token (token pt)) start end_ v m =
      Ret (v ++ v') m /\
    mjoin (us_addrs <$> v') = pa_of a <$> seqZ start (end_ - start) /\
    Forall (fun b => 0 < us_len b) v'.
Proof.
  intros Hrep Hs He Ha. revert start v Hs Ha.
  induction fuel as [|fuel IH]; intros start v Hs Ha Hf; [lia|]. cbn [translated_byte_buffer_loop].
  destruct (Z.ltb_spec start end_) as [Hlt|Hge].
  2:{ exists []. rewrite app_nil_r, seqZ_nil by lia. done. }
  destruct (Ha start ltac:(lia)) as [pte Hpte].
  assert (VirtAddr.from_usize start = start) as ->
    by (rewrite va_from_usize_mod; apply Z.mod_small; lia).
  destruct (buffer_turn m pt a start end_ pte Hrep ltac:(lia) He Hpte) as (-> & s & Es & Hsa & Hsl).
  set (stop := Z.min ((start / PAGE_SIZE + 1) * PAGE_SIZE) end_) in *.
  rewrite (bind_Ret _ _ _ _ _ (translate_mapped m pt a _ pte Hrep (vpn_of_va start ltac:(lia)) Hpte)).
  rewrite bind_unwrap, (bind_Ret _ _ _ _ _ Es).
  pose proof (Z.div_mod start PAGE_SIZE ltac:(done)) as Hd.
  pose proof (Z.mod_pos_bound start PAGE_SIZE ltac:(done)) as Hm.
  assert (Hstop : start < stop <= end_) by (unfold PAGE_SIZE in *; lia).
  destruct (decide (stop = end_)) as [Eq|Ne].
  - (* the last turn: the loop test fails next *)
    exists [s]. rewrite Eq in *. split.
    + destruct fuel as [|fuel].
      { unfold PAGE_SIZE in *. Z.to_euclidean_division_equations. lia. }
      cbn [translated_byte_buffer_loop]. rewrite (proj2 (Z.ltb_ge _ _)); [done|].
      unfold VirtAddr.into_usize. change (Z.shiftl 1 (VA_WIDTH_SV39 - 1)) with (2 ^ 38).
      destruct (Z.leb_spec (2 ^ 38) end_); [|lia]. rewrite sign_extension_bits; lia.
    + rewrite join_addrs, Hsa. cbn. rewrite app_nil_r. split; [done|by apply Forall_singleton].
  - assert (Hpg : stop = (start / PAGE_SIZE + 1) * PAGE_SIZE) by lia.
    assert (VirtAddr.into_usize stop = stop) as ->.
    { unfold VirtAddr.into_usize. change (Z.shiftl 1 (VA_WIDTH_SV39 - 1)) with (2 ^ 38).
      rewrite (proj2 (Z.leb_gt _ _)); [done|lia]. }
    destruct (IH stop (v ++ [s])) as (v' & E' & Hj & Hpos).
    + lia.
    + intros va Hva. apply Ha. lia.
    + rewrite Hpg. unfold PAGE_SIZE in *. rewrite Z.div_mul by lia.
      clear - Hlt Hf Hs Ne Hstop Hpg. Z.to_euclidean_division_equations. lia.
    + exists (s :: v'). rewrite E', <- app_assoc. split; [done|]. split; [|by constructor].
      rewrite join_addrs, Hsa, Hj, <- fmap_app. f_equal.
      replace (end_ - start) with ((stop - start) + (end_ - stop)) by lia.
      rewrite seqZ_app by lia. by replace (start + (stop - start)) with stop by lia.
Qed.
End user_memory.

Lemma UserBuffer_len_sum bs :
  Forall (fun b => 0 < us_len b) bs -> Z.of_nat (length (mjoin (us_addrs <$> bs))) < 2 ^ 64 ->
  UserBuffer_len {| buffers := bs |} = Z.of_nat (length (mjoin (us_addrs <$> bs))).
Proof.
  unfold UserBuffer_len. cbn [buffers]. intros Hpos Hlt.
  enough (forall t, 0 <= t -> t + Z.of_nat (length (mjoin (us_addrs <$> bs))) < 2 ^ 64 ->
    foldl (fun total b => u64 (total + us_len b)) t bs =
    t + Z.of_nat (length (mjoin (us_addrs <$> bs)))) as H by (apply (H 0); lia).
  clear Hlt. induction Hpos as [|b bs Hb _ IH]; intros t Ht Hlt; [cbn; lia|].
  rewrite join_addrs, length_app, length_us_addrs in Hlt |- *. cbn [foldl].
  rewrite u64_small by lia. rewrite IH; lia.
Qed.

Section page_table_claims.
Context {T : Type} `{FAL : FrameAllocatorLaws T}.
Implicit Types (m : mem T) (pt : PageTable) (a : gmap Z Z).

Lemma abs_ops_cons op ops a : abs_ops (op :: ops) a = abs_op op a ≫= abs_ops ops.
Proof.
  unfold abs_ops. cbn. destruct (abs_op op a); [done|]. apply (foldl_None abs_op).
Qed.

Lemma PageTable_new_run m :
  fa_ok (falloc m) -> fa_avail (falloc m) <> 0%nat ->
  exists pt m', PageTable_new m = Ret pt m' /\ represents m' pt ∅ /\
    fa_avail (falloc m) = S (fa_avail (falloc m')) /\ frame_step m [] m' (frames pt).
Proof.
  intros Hok Hav. unfold PageTable_new. pose proof (frame_alloc_avail m Hok) as Ha.
  destruct (frame_alloc_returns m) as ([f|] & m' & E); rewrite E in Ha; [|done].
  destruct (frame_alloc_Some m f m' Hok E) as (Hok' & Hd & Hf & Hl & Hz & _).
  eexists _, m'. rewrite (bind_Ret _ _ _ _ _ E). cbn. split; [done|].
  split; [|split; [done|apply (frame_alloc_step m f m' [] Hok (Forall_nil_2 _) E)]].
  assert (Hnil : forall path p, node m' f path = Some p -> path = [] /\ p = f).
  { intros path p. destruct path as [|i path]; [by intros [= ->]|]. cbn.
    rewrite child_zero by done. cbn. by rewrite (foldl_None (fun i p => child m' p i)). }
  split.
  - split; cbn; [done|apply NoDup_singleton| | | |].
    + apply Forall_singleton, Hl. by left.
    + apply Forall_singleton. by rewrite Hz.
    + intros path p _ [_ ->]%Hnil. set_solver.
    + by intros path path' p _ _ [-> _]%Hnil [-> _]%Hnil.
  - intros vpn _. rewrite lookup_empty.
    destruct (indexes_ok vpn) as (i0 & i1 & i2 & Ei & _).
    apply (leaf_unmapped _ _ _ i0 i1 i2 Ei). cbn. by rewrite child_zero.
Qed.

(** C1. Sequences of map and unmap on a three-level page table implement insertion into and deletion
    from a finite map from virtual page numbers to entries: they succeed exactly when the abstract
    operations do (or fail for lack of frames, which needs fewer than two free frames per
    operation), the tables afterwards represent the abstract result, and pages outside the table's
    own frames are untouched. *)
Theorem page_table_refines m pt a ops :
  represents m pt a -> Forall op_ok ops ->
  match run_ops ops pt m with
  | Ret pt' m' =>
      (exists a', abs_ops ops a = Some a' /\ represents m' pt' a') /\
      (forall y, fa_live (falloc m) y -> y ∉ frames pt -> page m' y = page m y)
  | Panic Assert => abs_ops ops a = None
  | Panic Unwrap => abs_ops ops a = None \/ (fa_avail (falloc m) < 2 * length ops)%nat
  | Panic _ => False
  end.
Proof.
  revert m pt a. induction ops as [|op ops IH]; intros m pt a Hrep Hops.
  { split; [by exists a|done]. }
  apply Forall_cons in Hops as [Hop Hops]. cbn [run_ops]. rewrite abs_ops_cons.
  destruct op as [vpn ppn flags|vpn].
  - destruct Hop as (Hv & Hp & Hf). pose proof (map_run m pt a vpn ppn flags Hrep Hv Hp Hf) as Hm.
    unfold bind at 1. cbn [run_op abs_op]. destruct (map pt vpn ppn flags m) as [pt1 m1|p].
    + destruct Hm as (Ha & Hrep1 & _ & _ & Hnew & Hlv & Hpg & Hav). rewrite Ha. cbn.
      specialize (IH m1 pt1 _ Hrep1 Hops). destruct (run_ops ops pt1 m1) as [pt2 m2|p].
      * destruct IH as [HA HB]. split; [done|]. intros y Hy Hn.
        rewrite HB; [by apply Hpg|apply Hlv; by left|]. by intros [?|?]%Hnew.
      * destruct p; try done. destruct IH as [?|?]; [by left|right; cbn; lia].
    + destruct p; try done.
      * right. cbn. lia.
      * by destruct (a !! vpn).
  - pose proof (unmap_run m pt a vpn Hrep Hop) as Hm.
    unfold bind at 1. cbn [run_op abs_op]. unfold bind at 1.
    destruct (unmap pt vpn m) as [u m1|p].
    + destruct Hm as (Ha & Hrep1 & Hfa & Hpg). destruct (a !! vpn) as [e|]; [|done]. cbn.
      specialize (IH m1 pt _ Hrep1 Hops). rewrite Hfa in IH.
      destruct (run_ops ops pt m1) as [pt2 m2|p].
      * destruct IH as [HA HB]. split; [done|]. intros y Hy Hn. rewrite HB; auto.
      * destruct p; try done. destruct IH as [?|?]; [by left|right; cbn; lia].
    + destruct p; try done; rewrite Hm; [by left|done].
Qed.

(** translated_byte_buffer on a mapped user range gives slices whose total length is the length
    asked for and whose byte iterator visits the physical addresses of the user bytes in order. *)
Theorem user_buffer_bytes m pt a ptr len :
  represents m pt a -> 0 <= ptr -> 0 <= len -> ptr + len <= 2 ^ 38 ->
  (forall va, ptr <= va < ptr + len -> is_Some (a !! (va / PAGE_SIZE))) ->
  exists v, translated_byte_buffer (token pt) ptr len m = Ret v m /\
    UserBuffer_len {| buffers := v |} = len /\
    drain_bytes (S (Z.to_nat len)) (UserBuffer_into_iter {| buffers := v |}) m =
      Ret (pa_of a <$> seqZ ptr len) m.
Proof.
  intros Hrep Hp Hl He Ha. unfold translated_byte_buffer. rewrite u64_small by lia.
  destruct (translated_byte_buffer_loop_run m pt a (ptr + len)
    (Z.to_nat (len / PAGE_SIZE + 3)) ptr [] Hrep Hp He Ha) as (v & E & Hj & Hpos).
  { unfold PAGE_SIZE. Z.to_euclidean_division_equations. lia. }
  replace (ptr + len - ptr) with len in Hj by lia.
  exists v. split; [done|].
  assert (Hlen : length (mjoin (us_addrs <$> v)) = Z.to_nat len)
    by (rewrite Hj, length_fmap, length_seqZ; done).
  split; [rewrite UserBuffer_len_sum by (done || lia); lia|].
  rewrite (drain_yields _ _ _ _ (yields_buffer v Hpos)) by lia. by rewrite Hj.
Qed.

Lemma translated_str_loop_run m pt a bytes fuel va acc :
  represents m pt a -> 0 <= va -> va + Z.of_nat (length bytes) < 2 ^ 39 ->
  (forall v, va <= v <= va + Z.of_nat (length bytes) -> is_Some (a !! (v / PAGE_SIZE))) ->
  (forall (k : nat) c, bytes !! k = Some c -> phys_byte m (pa_of a (va + Z.of_nat k)) = c /\ c <> 0) ->
  phys_byte m (pa_of a (va + Z.of_nat (length bytes))) = 0 ->
  (length bytes < fuel)%nat ->
  translated_str_loop fuel (from_token (token pt)) va acc m = Ret (acc ++ bytes) m.
Proof.
  intros Hrep. revert fuel va acc. induction bytes as [|c bytes IH];
    intros [|fuel] va acc Hva Hend Ha Hb H0 Hf; try (cbn in Hf; lia); cbn [translated_str_loop].
  - cbn in Hend. destruct (Ha va ltac:(cbn; lia)) as [pte Hpte].
    rewrite va_from_usize_mod, Z.mod_small by lia.
    rewrite (bind_Ret _ _ _ _ _ (translate_va_mapped m pt a va pte Hrep ltac:(lia) Hpte)).
    cbn in H0 |- *. rewrite Z.add_0_r in H0. rewrite H0, app_nil_r. done.
  - cbn [length] in *. destruct (Ha va ltac:(lia)) as [pte Hpte].
    rewrite va_from_usize_mod, Z.mod_small by lia.
    rewrite (bind_Ret _ _ _ _ _ (translate_va_mapped m pt a va pte Hrep ltac:(lia) Hpte)).
    rewrite bind_unwrap, bind_get.
    destruct (Hb 0%nat c eq_refl) as [Hc Hc0]. rewrite Z.add_0_r in Hc. rewrite Hc.
    rewrite (proj2 (Z.eqb_neq c 0) Hc0). rewrite u64_small by lia.
    rewrite IH; [by rewrite <- app_assoc|lia|lia| | | |lia].
    + intros v Hv. apply Ha. lia.
    + intros k c' Hk. replace (va + 1 + Z.of_nat k) with (va + Z.of_nat (S k)) by lia.
      by apply (Hb (S k)).
    + replace (va + 1 + Z.of_nat (length bytes)) with (va + Z.of_nat (S (length bytes))) by lia.
      done.
Qed.

(** translated_str reads the bytes of a mapped user string up to its NUL, across page
    boundaries, with a turn per byte. *)
Theorem translated_str_reads m pt a ptr bytes fuel :
  represents m pt a -> 0 <= ptr -> ptr + Z.of_nat (length bytes) < 2 ^ 39 ->
  (forall va, ptr <= va <= ptr + Z.of_nat (length bytes) -> is_Some (a !! (va / PAGE_SIZE))) ->
  (forall (k : nat) c, bytes !! k = Some c ->
     phys_byte m (pa_of a (ptr + Z.of_nat k)) = c /\ c <> 0) ->
  phys_byte m (pa_of a (ptr + Z.of_nat (length bytes))) = 0 ->
  (length bytes < fuel)%nat ->
  translated_str fuel (token pt) ptr m = Ret bytes m.
Proof. intros. by apply (translated_str_loop_run m pt a bytes fuel ptr []). Qed.

(** Translating an address in a page that has been unmapped gives Some address in physical page
    0, not None. *)
Theorem translate_va_after_unmap m pt a vpn off pte m' :
  represents m pt a -> vpn_ok vpn -> a !! vpn = Some pte -> 0 <= off < PAGE_SIZE ->
  unmap pt vpn m = Ret tt m' ->
  translate_va pt (vpn * PAGE_SIZE + off) m' = Ret (Some off) m'.
Proof.
  intros Hrep Hv Ha Hoff E. destruct (indexes_ok vpn) as (i0 & i1 & i2 & Ei & H0 & H1 & H2).
  pose proof (find_pte_run m pt vpn i0 i1 i2 (proj1 Hrep) Ei H0 H1 H2) as E1.
  unfold unmap in E. rewrite (bind_Ret _ _ _ _ _ E1) in E.
  destruct (node m (root_ppn pt) [i0; i1]) as [p|] eqn:N; [|done]. cbn [fmap option_fmap option_map] in E.
  rewrite bind_unwrap in E.
  pose proof (node_len _ _ _ _ _ (proj1 Hrep) (path_ok_2 _ _ H0 H1) N) as (_ & _ & Hl).
  rewrite (bind_Ret _ _ _ _ _ (pte_get_run _ _ _ Hl H2)) in E.
  destruct (leaf_write m _ _ [i0; i1] p i2 PageTableEntry.empty (proj1 Hrep)
    (path_ok_2 _ _ H0 H1) eq_refl N H2) as (m2 & Es & _ & Hok2 & N2 & Hat & _).
  destruct (PageTableEntry.is_valid (pte_at m p i2)); [|done].
  rewrite bind_assert, Es in E by done. injection E as <-.
  unfold translate_va, VirtAddr.floor.
  replace ((vpn * PAGE_SIZE + off) / PAGE_SIZE) with vpn
    by (unfold PAGE_SIZE in *; Z.to_euclidean_division_equations; lia).
  pose proof (find_pte_run m2 pt vpn i0 i1 i2 Hok2 Ei H0 H1 H2) as E2. rewrite N2 in E2.
  pose proof (node_len _ _ _ _ _ Hok2 (path_ok_2 _ _ H0 H1) N2) as (_ & _ & Hl2).
  unfold translate. unfold bind at 1. rewrite (bind_Ret _ _ _ _ _ E2). cbn [fmap option_fmap option_map].
  rewrite (bind_Ret _ _ _ _ _ (pte_get_run _ _ _ Hl2 H2)), Hat. unfold ret. do 2 f_equal.
  rewrite page_offset_mod, pa_from_usize_mod.
  change (PhysAddr.into_usize (PhysAddr.from_ppn (PageTableEntry.ppn PageTableEntry.empty))) with 0.
  assert ((vpn * PAGE_SIZE + off) mod PAGE_SIZE = off) as ->
    by (rewrite Z.add_comm, Z.mod_add by done; by apply Z.mod_small).
  unfold PAGE_SIZE in Hoff. rewrite Z.add_0_l, u64_small, Z.mod_small; lia.
Qed.
End page_table_claims.

(** ** A concrete table: page 16 on frame 150, which holds the string "hi" *)

Definition hi_mem : mem StackFrameAllocator :=
  set_page 150 (<[0%nat := 0x6968]> zero_page) demo_mem.
Definition hi_table : outcome (mem StackFrameAllocator) PageTable :=
  (let! pt := PageTable_new in map pt 16 150 (Z.lor PTEFlags.R PTEFlags.U)) hi_mem.
Definition hi_pte : Z := PageTableEntry.new 150 (Z.lor (Z.lor PTEFlags.R PTEFlags.U) PTEFlags.V).

Lemma hi_represents : exists m pt, hi_table = Ret pt m /\
  represents (FAL := StackFrameAllocator_laws 100) m pt {[16 := hi_pte]} /\
  (fa_avail (FrameAllocatorLaws := StackFrameAllocator_laws 100) (falloc m) >= 90)%nat /\
  phys_byte m (150 * 4096) = 0x68 /\ phys_byte m (150 * 4096 + 1) = 0x69 /\
  phys_byte m (150 * 4096 + 2) = 0.
Proof.
  pose (L := StackFrameAllocator_laws 100).
  assert (Hb : match hi_table with
    | Ret _ m => phys_byte m (150 * 4096) = 0x68 /\ phys_byte m (150 * 4096 + 1) = 0x69 /\
        phys_byte m (150 * 4096 + 2) = 0
    | Panic _ => False end) by (vm_compute; done).
  unfold hi_table in *.
  destruct (PageTable_new_run (FAL := L) hi_mem (demo_ok hi_mem eq_refl)) as (pt0 & m0 & E0 & Hrep & Hav & _); [done|].
  rewrite (bind_Ret _ _ _ _ _ E0) in Hb |- *.
  pose proof (map_run (FAL := L) m0 pt0 ∅ 16 150 (Z.lor PTEFlags.R PTEFlags.U) Hrep
    ltac:(unfold vpn_ok; lia) ltac:(lia) ltac:(vm_compute; split; congruence)) as Hm.
  destruct (map pt0 16 150 _ m0) as [pt m|]; [|done]. exists m, pt.
  destruct Hm as (_ & Hrep' & _ & _ & _ & _ & _ & Hav').
  change (fa_avail (falloc hi_mem)) with 100%nat in Hav. split_and!; try done; try apply Hb. cbn in *. lia.
Defined.

Lemma page_table_refines_witness : exists m pt pt' m',
  hi_table = Ret pt m /\ run_ops [OpUnmap 16; OpMap 16 151 PTEFlags.W] pt m = Ret pt' m'.
Proof.
  destruct hi_represents as (m & pt & E & Hrep & Hav & _).
  pose proof (page_table_refines (FAL := StackFrameAllocator_laws 100) m pt _
    [OpUnmap 16; OpMap 16 151 PTEFlags.W] Hrep) as H1.
  destruct (run_ops [OpUnmap 16; OpMap 16 151 PTEFlags.W] pt m) as [pt' m'|p] eqn:Er.
  - exists m, pt, pt', m'. split; [exact E|exact Er].
  - exfalso. assert (Hok : Forall op_ok [OpUnmap 16; OpMap 16 151 PTEFlags.W]).
    { repeat constructor; unfold vpn_ok; vm_compute; congruence. }
    specialize (H1 Hok). destruct p; try done.
    destruct H1 as [H1|H1]; [done|]. cbn in H1, Hav. lia.
Defined.

Lemma user_buffer_bytes_witness : exists (m : mem StackFrameAllocator) pt v,
  translated_byte_buffer (token pt) 0x10000 2 m = Ret v m /\ UserBuffer_len {| buffers := v |} = 2.
Proof.
  destruct hi_represents as (m & pt & _ & Hrep & _).
  destruct (user_buffer_bytes (FAL := StackFrameAllocator_laws 100) m pt _ 0x10000 2 Hrep) as (v & E & Hl & _);
    try lia.
  - intros va Hva. assert (va / PAGE_SIZE = 16) as -> by (unfold PAGE_SIZE; Z.to_euclidean_division_equations; lia).
    vm_compute. eauto.
  - exists m, pt, v. split; [exact E|exact Hl].
Defined.

Lemma translated_str_reads_witness : exists (m : mem StackFrameAllocator) pt,
  translated_str 10 (token pt) 0x10000 m = Ret [0x68; 0x69] m.
Proof.
  destruct hi_represents as (m & pt & _ & Hrep & _ & H0 & H1 & H2). exists m, pt.
  apply (translated_str_reads (FAL := StackFrameAllocator_laws 100) m pt _ 0x10000 [0x68; 0x69] 10 Hrep);
    cbn [length]; try lia.
  - intros va Hva. assert (va / PAGE_SIZE = 16) as -> by (unfold PAGE_SIZE; Z.to_euclidean_division_equations; lia).
    vm_compute. eauto.
  - intros [|[|k]] c Hk; [..|done]; injection Hk as <-; (split; [|done]); [exact H0|exact H1].
  - exact H2.
Defined.

Lemma translate_va_after_unmap_witness : exists (m : mem StackFrameAllocator) pt m',
  unmap pt 16 m = Ret tt m' /\ translate_va pt (16 * PAGE_SIZE + 5) m' = Ret (Some 5) m'.
Proof.
  destruct hi_represents as (m & pt & _ & Hrep & _).
  pose proof (unmap_run (FAL := StackFrameAllocator_laws 100) m pt _ 16 Hrep ltac:(unfold vpn_ok; lia)) as Hu.
  destruct (unmap pt 16 m) as [[] m'|p] eqn:E; [|by destruct p]. exists m, pt, m'. split; [exact E|].
  apply (translate_va_after_unmap (FAL := StackFrameAllocator_laws 100) m pt {[16 := hi_pte]} 16 5 hi_pte m' Hrep);
    [unfold vpn_ok; lia|reflexivity|unfold PAGE_SIZE; lia|exact E].
Defined.
