(* ===== verification/UserBytes.v ===== *)
(** Memory byte by byte: what the kernel reads and writes through references and
    slices to physical memory, as in [ppn.bytes_array()] and [mut_ref] of
    [os/src/mm/address.rs].  The page is an array of words; a byte is a part of a
    word, little end first. *)
From S2P Require Import Prelude Address FrameAllocator PageTable.

Section bytes.
Context {T : Type}.
Implicit Types (m : mem T).

Definition store_phys_byte (pa b : Z) m : mem T :=
  let p := page m (pa / PAGE_SIZE) in
  let i := Z.to_nat (pa mod PAGE_SIZE / 8) in
  let w := default 0 (p !! i) in
  set_page (pa / PAGE_SIZE)
    (<[i := of_le (<[Z.to_nat (pa mod 8) := b]> (le_bytes 8 w))]> p) m.
Fixpoint store_phys (pa : Z) (bs : list Z) m : mem T :=
  match bs with
  | [] => m
  | b :: bs => store_phys (pa + 1) bs (store_phys_byte pa b m)
  end.
Fixpoint load_phys (n : nat) (pa : Z) m : list Z :=
  match n with
  | O => []
  | S n => phys_byte m pa :: load_phys n (pa + 1) m
  end.

(** Stores at a list of addresses. *)
Fixpoint store_all (addrs bs : list Z) m : mem T :=
  match addrs, bs with
  | a :: addrs, b :: bs => store_all addrs bs (store_phys_byte a b m)
  | _, _ => m
  end.

(** The page of an address has all its words. *)
Definition full_page m (pa : Z) : Prop := length (page m (pa / PAGE_SIZE)) = WORDS_PER_PAGE.
#[export] Instance full_page_dec m pa : Decision (full_page m pa).
Proof. unfold full_page. apply _. Defined.

(** ** Bytes of a word *)

Lemma le_bytes_lookup n (i : nat) w : (i < n)%nat -> le_bytes n w !! i = Some (w / 256 ^ Z.of_nat i mod 256).
Proof.
  revert i w. induction n as [|n IH]; intros i w Hi; [lia|]. cbn [le_bytes]. destruct i as [|i]; cbn [lookup list_lookup].
  - by rewrite Z.div_1_r.
  - rewrite IH by lia. rewrite Nat2Z.inj_succ, Z.pow_succ_r, Z.div_div by lia. done.
Qed.

Lemma of_le_lookup bs (i : nat) b : is_bytes bs -> bs !! i = Some b -> of_le bs / 256 ^ Z.of_nat i mod 256 = b.
Proof.
  intros Hbs Hi. rewrite <- (le_bytes_of_le bs Hbs) in Hi. pose proof (lookup_lt_Some _ _ _ Hi) as Hl.
  rewrite length_le_bytes in Hl. rewrite le_bytes_lookup in Hi by done. congruence.
Qed.

Lemma phys_byte_range m pa : is_byte (phys_byte m pa).
Proof. unfold phys_byte, is_byte. apply Z.mod_pos_bound. lia. Qed.

Lemma load_phys_bytes n pa m : is_bytes (load_phys n pa m).
Proof. revert pa. induction n as [|n IH]; intros pa; constructor; [apply phys_byte_range|apply IH]. Qed.

Lemma length_load_phys n pa m : length (load_phys n pa m) = n.
Proof. revert pa. induction n as [|n IH]; intros pa; cbn; [done|]. by rewrite IH. Qed.

Lemma load_phys_fmap n pa m : load_phys n pa m = phys_byte m <$> seqZ pa (Z.of_nat n).
Proof.
  revert pa. induction n as [|n IH]; intros pa; [done|]. rewrite seqZ_cons by lia. cbn [load_phys fmap list_fmap].
  rewrite IH. replace (Z.succ pa) with (pa + 1) by lia. by replace (Z.pred (Z.of_nat (S n))) with (Z.of_nat n) by lia.
Qed.

(** ** A byte that is stored *)

Lemma word_index pa : (Z.to_nat (pa mod PAGE_SIZE / 8) < WORDS_PER_PAGE)%nat.
Proof. unfold PAGE_SIZE, WORDS_PER_PAGE. pose proof (Z.mod_pos_bound pa 4096 ltac:(done)). Z.to_euclidean_division_equations. lia. Qed.

(** An address as page, word and byte. *)
Lemma addr_parts a a' :
  a / PAGE_SIZE = a' / PAGE_SIZE -> Z.to_nat (a mod PAGE_SIZE / 8) = Z.to_nat (a' mod PAGE_SIZE / 8) ->
  Z.to_nat (a mod 8) = Z.to_nat (a' mod 8) -> a = a'.
Proof. unfold PAGE_SIZE. intros. Z.to_euclidean_division_equations. lia. Qed.

Lemma phys_byte_word m pa : full_page m pa ->
  phys_byte m pa = default 0 (page m (pa / PAGE_SIZE) !! Z.to_nat (pa mod PAGE_SIZE / 8)) / 256 ^ Z.of_nat (Z.to_nat (pa mod 8)) mod 256.
Proof.
  intros Hf. unfold phys_byte. pose proof (word_index pa) as Hw. rewrite <- Hf in Hw.
  pose proof (Z.mod_pos_bound pa 8 ltac:(done)). rewrite Z2Nat.id by lia. unfold vget.
  rewrite (proj2 (Z.leb_le 0 _)); [|apply Z.div_pos; [apply Z.mod_pos_bound; done|done]].
  rewrite (proj2 (Z.ltb_lt _ _)) by lia. done.
Qed.

Lemma store_phys_byte_page m a b p :
  length (page (store_phys_byte a b m) p) = length (page m p) /\ (p <> a / PAGE_SIZE -> page (store_phys_byte a b m) p = page m p) /\
  falloc (store_phys_byte a b m) = falloc m.
Proof.
  unfold store_phys_byte. split; [|split; [|done]].
  - destruct (decide (p = a / PAGE_SIZE)) as [->|Hne]; [by rewrite page_set_eq, length_insert|by rewrite page_set_ne].
  - intros Hne. by apply page_set_ne.
Qed.

Lemma store_phys_byte_full m a b a' : full_page (store_phys_byte a b m) a' <-> full_page m a'.
Proof. unfold full_page. by rewrite (proj1 (store_phys_byte_page m a b _)). Qed.

Lemma phys_byte_store m a b a' : full_page m a -> full_page m a' -> is_byte b ->
  phys_byte (store_phys_byte a b m) a' = if decide (a' = a) then b else phys_byte m a'.
Proof.
  intros Hf Hf' Hb. rewrite phys_byte_word by by apply store_phys_byte_full.
  rewrite (phys_byte_word m a') by done. unfold store_phys_byte.
  destruct (decide (a' / PAGE_SIZE = a / PAGE_SIZE)) as [Ep|Ep].
  2:{ rewrite page_set_ne by congruence. rewrite decide_False; [done|]. congruence. }
  rewrite Ep in *. rewrite page_set_eq. pose proof (word_index a') as Hw. rewrite <- Hf in Hw.
  set (p := page m (a / PAGE_SIZE)) in *. set (i := Z.to_nat (a mod PAGE_SIZE / 8)). set (i' := Z.to_nat (a' mod PAGE_SIZE / 8)) in *.
  destruct (decide (i' = i)) as [Ei|Ei].
  2:{ rewrite list_lookup_insert_ne by congruence. rewrite decide_False; [done|]. intros ->. by apply Ei. }
  rewrite Ei in *. rewrite list_lookup_insert_eq by done. cbn [default]. set (w := default 0 (p !! i)).
  set (j := Z.to_nat (a mod 8)). set (j' := Z.to_nat (a' mod 8)).
  assert (Hj : (j < 8)%nat /\ (j' < 8)%nat) by (unfold j, j'; Z.to_euclidean_division_equations; lia).
  assert (Hbs : is_bytes (<[j:=b]> (le_bytes 8 w))) by (apply Forall_insert; [apply le_bytes_is_bytes|done]).
  case_decide as Ea.
  - subst a'. apply of_le_lookup; [done|]. apply list_lookup_insert_eq. rewrite length_le_bytes. apply Hj.
  - apply of_le_lookup; [done|]. rewrite list_lookup_insert_ne.
    + apply le_bytes_lookup. apply Hj.
    + intros Ej. apply Ea. apply addr_parts; [exact Ep|exact Ei|by symmetry].
Qed.

(** ** Stores at many addresses *)

Lemma store_all_page addrs bs m p :
  length (page (store_all addrs bs m) p) = length (page m p) /\
  ((forall a, a ∈ addrs -> p <> a / PAGE_SIZE) -> page (store_all addrs bs m) p = page m p) /\
  falloc (store_all addrs bs m) = falloc m.
Proof.
  revert bs m. induction addrs as [|a addrs IH]; intros [|b bs] m; cbn [store_all]; try done.
  destruct (store_phys_byte_page m a b p) as (H1 & H2 & H3). destruct (IH bs (store_phys_byte a b m)) as (I1 & I2 & I3).
  split; [congruence|]. split; [|congruence]. intros Hp. rewrite I2, H2; [done|apply Hp; by left|intros x Hx; apply Hp; by right].
Qed.

Lemma store_all_full addrs bs m a : full_page (store_all addrs bs m) a <-> full_page m a.
Proof. unfold full_page. by rewrite (proj1 (store_all_page addrs bs m _)). Qed.

Lemma store_all_lookup_ne addrs bs m a :
  Forall (full_page m) addrs -> full_page m a -> is_bytes bs -> a ∉ addrs ->
  phys_byte (store_all addrs bs m) a = phys_byte m a.
Proof.
  revert bs m. induction addrs as [|x addrs IH]; intros [|b bs] m Hf Ha Hbs Hn; try done. cbn [store_all].
  apply Forall_cons in Hf as [Hx Hf]. apply Forall_cons in Hbs as [Hb Hbs]. apply not_elem_of_cons in Hn as [Hne Hn].
  rewrite IH; [|eapply Forall_impl; [exact Hf|intros y; apply store_phys_byte_full]|by apply store_phys_byte_full|done|done].
  rewrite phys_byte_store by done. by rewrite decide_False.
Qed.

Lemma store_all_lookup addrs bs m k a b :
  Forall (full_page m) addrs -> is_bytes bs -> NoDup addrs -> addrs !! k = Some a -> bs !! k = Some b ->
  phys_byte (store_all addrs bs m) a = b.
Proof.
  revert bs m k. induction addrs as [|x addrs IH]; intros [|b' bs] m [|k] Hf Hbs Hnd Ha Hb; try done; cbn [store_all];
    apply Forall_cons in Hf as [Hx Hf]; apply Forall_cons in Hbs as [Hb' Hbs]; apply NoDup_cons in Hnd as [Hn Hnd];
    (assert (Hf' : Forall (full_page (store_phys_byte x b' m)) addrs) by
       (eapply Forall_impl; [exact Hf|intros y; apply store_phys_byte_full])).
  - injection Ha as ->. injection Hb as ->. rewrite store_all_lookup_ne by (try done; by apply store_phys_byte_full).
    rewrite phys_byte_store by done. by rewrite decide_True.
  - by apply (IH bs _ k).
Qed.

Lemma store_all_nil_r addrs m : store_all addrs [] m = m.
Proof. by destruct addrs. Qed.

Lemma store_all_app a1 a2 b1 b2 m : length a1 = length b1 ->
  store_all (a1 ++ a2) (b1 ++ b2) m = store_all a2 b2 (store_all a1 b1 m).
Proof.
  revert b1 m. induction a1 as [|x a1 IH]; intros [|b b1] m Hl; cbn in Hl; try done. cbn [app store_all]. apply IH. lia.
Qed.

Lemma store_phys_all pa bs m : store_phys pa bs m = store_all (seqZ pa (Z.of_nat (length bs))) bs m.
Proof.
  revert pa m. induction bs as [|b bs IH]; intros pa m; [by rewrite store_all_nil_r|].
  cbn [store_phys length]. rewrite seqZ_cons by lia. cbn [store_all]. rewrite IH.
  replace (Z.succ pa) with (pa + 1) by lia. by replace (Z.pred (Z.of_nat (S (length bs)))) with (Z.of_nat (length bs)) by lia.
Qed.

(** Reading back the addresses written. *)
Lemma load_store_all addrs bs m :
  Forall (full_page m) addrs -> is_bytes bs -> NoDup addrs -> length addrs = length bs ->
  phys_byte (store_all addrs bs m) <$> addrs = bs.
Proof.
  intros Hf Hbs Hnd Hl. apply list_eq. intros k. rewrite list_lookup_fmap.
  destruct (addrs !! k) as [a|] eqn:Ea; cbn [fmap option_fmap option_map].
  - destruct (lookup_lt_is_Some_2 bs k) as [b Eb]; [apply lookup_lt_Some in Ea; lia|].
    rewrite Eb. f_equal. by apply (store_all_lookup addrs bs m k).
  - symmetry. apply lookup_ge_None. apply lookup_ge_None in Ea. lia.
Qed.

(** What a store to [addrs] does: the bytes there are [bs], every other byte and
    every page none of them is on stay. *)
Record stored m (addrs bs : list Z) m' : Prop := {
  st_falloc : falloc m' = falloc m;
  st_length p : length (page m' p) = length (page m p);
  st_page p : (forall a, a ∈ addrs -> p <> a / PAGE_SIZE) -> page m' p = page m p;
  st_bytes : phys_byte m' <$> addrs = bs;
  st_other a : full_page m a -> a ∉ addrs -> phys_byte m' a = phys_byte m a;
}.
Lemma stored_all addrs bs m :
  Forall (full_page m) addrs -> is_bytes bs -> NoDup addrs -> length addrs = length bs -> stored m addrs bs (store_all addrs bs m).
Proof.
  intros Hf Hb Hnd Hl. split.
  - apply (store_all_page addrs bs m 0).
  - intros p. apply (store_all_page addrs bs m p).
  - intros p. apply (store_all_page addrs bs m p).
  - by apply load_store_all.
  - intros a Ha Hn. by apply store_all_lookup_ne.
Qed.
Lemma stored_same addrs m : stored m addrs (phys_byte m <$> addrs) m.
Proof. by split. Qed.
Lemma stored_full m addrs bs m' a : stored m addrs bs m' -> full_page m' a <-> full_page m a.
Proof. intros Hs. unfold full_page. by rewrite (st_length _ _ _ _ Hs). Qed.
Lemma stored_app m a1 b1 m1 a2 b2 m2 :
  stored m a1 b1 m1 -> stored m1 a2 b2 m2 -> Forall (full_page m) (a1 ++ a2) -> (forall x, x ∈ a1 -> x ∉ a2) ->
  stored m (a1 ++ a2) (b1 ++ b2) m2.
Proof.
  intros H1 H2 Hf Hd. split.
  - by rewrite (st_falloc _ _ _ _ H2), (st_falloc _ _ _ _ H1).
  - intros p. by rewrite (st_length _ _ _ _ H2), (st_length _ _ _ _ H1).
  - intros p Hp. rewrite (st_page _ _ _ _ H2), (st_page _ _ _ _ H1); [done|..]; intros a Ha; apply Hp, elem_of_app; [by left|by right].
  - rewrite fmap_app. f_equal; [|apply (st_bytes _ _ _ _ H2)]. rewrite <- (st_bytes _ _ _ _ H1).
    apply list_fmap_ext. intros i a Ha%list_elem_of_lookup_2. rewrite Forall_forall in Hf.
    apply (st_other _ _ _ _ H2); [|by apply Hd]. apply (stored_full _ _ _ _ a H1), Hf, elem_of_app. by left.
  - intros a Ha Hn%not_elem_of_app. rewrite (st_other _ _ _ _ H2), (st_other _ _ _ _ H1); [done|done|apply Hn| |apply Hn].
    by apply (stored_full _ _ _ _ a H1).
Qed.
End bytes.
