(* ===== verification/Pipe.v ===== *)
(** Pipes: [os/src/fs/pipe.rs].

    The ring buffer is a record with the source's fields; [Pipe::read] and
    [Pipe::write] block by suspending the process between turns of their loops,
    so a call is modelled as a sequence of turns that other processes' turns can
    come between. *)
From S2P Require Import Prelude Address FrameAllocator PageTable UserBytes.

Definition RING_BUFFER_SIZE : Z := 32.

Inductive RingBufferStatus := Full | Empty | Normal.
(** The derived [PartialEq]. *)
Definition status_eqb (a b : RingBufferStatus) : bool :=
  match a, b with Full, Full | Empty, Empty | Normal, Normal => true | _, _ => false end.

(** [write_end] is the weak reference to the write end; it is the identity of the
    shared object, whose strong count the caller supplies. *)
Record PipeRingBuffer := {
  arr : list Z;
  head : Z;
  tail : Z;
  status : RingBufferStatus;
  write_end : option Z;
}.

Definition PipeRingBuffer_new : PipeRingBuffer :=
  {| arr := replicate 32 0; head := 0; tail := 0; status := Empty; write_end := None |}.

Definition set_write_end (we : Z) (r : PipeRingBuffer) : PipeRingBuffer :=
  {| arr := arr r; head := head r; tail := tail r; status := status r; write_end := Some we |}.

Definition read_byte : M PipeRingBuffer Z :=
  fun r =>
    (let! c := index (arr r) (head r) in
     let head' := (head r + 1) mod RING_BUFFER_SIZE in
     put {| arr := arr r; head := head'; tail := tail r;
            status := if head' =? tail r then Empty else Normal; write_end := write_end r |} ;;;
     ret c) r.

Definition write_byte (byte : Z) : M PipeRingBuffer unit :=
  fun r =>
    (let! a := index_set (arr r) (tail r) byte in
     let tail' := (tail r + 1) mod RING_BUFFER_SIZE in
     put {| arr := a; head := head r; tail := tail';
            status := if tail' =? head r then Full else Normal; write_end := write_end r |}) r.

Definition available_read (r : PipeRingBuffer) : Z :=
  if status_eqb (status r) Empty then 0
  else if head r <? tail r then tail r - head r
  else tail r + RING_BUFFER_SIZE - head r.

Definition available_write (r : PipeRingBuffer) : Z :=
  if status_eqb (status r) Full then 0 else RING_BUFFER_SIZE - available_read r.

(** [upgrade] fails when no strong reference is left. *)
Definition all_write_ends_closed {S} (strong : Z -> nat) (r : PipeRingBuffer) : M S bool :=
  let! we := unwrap (write_end r) in ret (strong we =? 0)%nat.

(** ** Ends of a pipe *)

Record Pipe := { p_readable : bool; p_writable : bool; p_buffer : Z }.

Definition read_end_with_buffer (buffer : Z) : Pipe :=
  {| p_readable := true; p_writable := false; p_buffer := buffer |}.
Definition write_end_with_buffer (buffer : Z) : Pipe :=
  {| p_readable := false; p_writable := true; p_buffer := buffer |}.

(** [make_pipe]: [buffer] and [we] are the identities of the two new shared
    objects the model needs, the ring buffer and the write end. *)
Definition make_pipe (buffer we : Z) : (Pipe * Pipe) * PipeRingBuffer :=
  ((read_end_with_buffer buffer, write_end_with_buffer buffer),
   set_write_end we PipeRingBuffer_new).

(** ** [File::read] and [File::write], one turn of the loop at a time *)

(** What a turn sees: the shared ring buffer and physical memory. *)
Record pipe_state T := { ring : PipeRingBuffer; pmem : mem T }.
Arguments ring {T} _. Arguments pmem {T} _.
Arguments Build_pipe_state {T} _ _.


(** The call's local variables across a suspension. *)
Record call := { buf_iter : UserBufferIterator; already : Z; want : Z }.

Inductive turn :=
  | Return (n : Z)          (* the call returns [n] *)
  | Suspend (c : call)      (* [suspend_current_and_run_next(); continue] *)
  | Again (c : call).       (* the [for] loop ended; next turn at once *)

Definition call_start (buf : UserBuffer) : call :=
  {| buf_iter := UserBuffer_into_iter buf; already := 0; want := UserBuffer_len buf |}.

Section turns.
Context {T : Type}.

Definition on_ring {A} (m : M PipeRingBuffer A) : M (pipe_state T) A :=
  zoom ring (fun r s => {| ring := r; pmem := pmem s |}) m.
Definition store_byte (addr b : Z) : M (pipe_state T) unit :=
  modify (fun s => {| ring := ring s; pmem := store_phys_byte addr b (pmem s) |}).
Definition load_byte (addr : Z) : M (pipe_state T) Z :=
  fun s => Ret (phys_byte (pmem s) addr) s.

Fixpoint read_for (n : nat) (c : call) : M (pipe_state T) turn :=
  match n with
  | O => ret (Again c)
  | S n =>
      let! '(o, it) := UserBufferIterator_next (buf_iter c) in
      match o with
      | Some byte_ref =>
          let! b := on_ring read_byte in
          store_byte byte_ref b ;;;
          let already' := u64 (already c + 1) in
          if already' =? want c then ret (Return (want c))
          else read_for n {| buf_iter := it; already := already'; want := want c |}
      | None => ret (Return (already c))
      end
  end.

(** The [assert!] comes before the loop in the source; [p_readable] never changes,
    so checking it at each turn is the same. *)
Definition read_turn (self : Pipe) (strong : Z -> nat) (c : call) : M (pipe_state T) turn :=
  assert (p_readable self) ;;;
  let! s := get in
  let loop_read := available_read (ring s) in
  if loop_read =? 0 then
    let! closed := all_write_ends_closed strong (ring s) in
    if (closed : bool) then ret (Return (already c)) else ret (Suspend c)
  else read_for (Z.to_nat loop_read) c.

Fixpoint write_for (n : nat) (c : call) : M (pipe_state T) turn :=
  match n with
  | O => ret (Again c)
  | S n =>
      let! '(o, it) := UserBufferIterator_next (buf_iter c) in
      match o with
      | Some byte_ref =>
          let! b := load_byte byte_ref in
          on_ring (write_byte b) ;;;
          let already' := u64 (already c + 1) in
          if already' =? want c then ret (Return (want c))
          else write_for n {| buf_iter := it; already := already'; want := want c |}
      | None => ret (Return (already c))
      end
  end.

Definition write_turn (self : Pipe) (c : call) : M (pipe_state T) turn :=
  assert (p_writable self) ;;;
  let! s := get in
  let loop_write := available_write (ring s) in
  if loop_write =? 0 then ret (Suspend c)
  else write_for (Z.to_nat loop_write) c.
End turns.

(** ** The ring buffer is a bounded queue *)

Record ring_ok (r : PipeRingBuffer) : Prop := {
  ok_arr : length (arr r) = 32%nat;
  ok_head : 0 <= head r < 32;
  ok_tail : 0 <= tail r < 32;
  ok_status : status r = Normal <-> head r <> tail r;
}.

(** The queued bytes, oldest first. *)
Definition contents (r : PipeRingBuffer) : list Z :=
  (fun k => default 0 (vget (arr r) ((head r + Z.of_nat k) mod 32))) <$>
    seq 0 (Z.to_nat (available_read r)).

Lemma available_read_range r : ring_ok r -> 0 <= available_read r <= 32.
Proof.
  intros [_ Hh Ht Hs]. unfold available_read, RING_BUFFER_SIZE.
  destruct (status r), (Z.ltb_spec (head r) (tail r)); cbn; lia.
Qed.

Lemma available_read_contents r :
  ring_ok r -> available_read r = Z.of_nat (length (contents r)).
Proof.
  intros Hok. pose proof (available_read_range r Hok).
  unfold contents. rewrite length_fmap, length_seq. lia.
Qed.

Lemma available_write_contents r :
  ring_ok r -> available_write r = 32 - Z.of_nat (length (contents r)).
Proof.
  intros Hok. rewrite <- available_read_contents by done. destruct Hok as [_ Hh Ht Hs].
  unfold available_write, available_read, RING_BUFFER_SIZE.
  destruct (status r) eqn:E; cbn.
  - assert (head r = tail r) by (apply dec_stable; intros Hn; by apply Hs in Hn).
    rewrite (proj2 (Z.ltb_ge _ _)); lia.
  - lia.
  - done.
Qed.

Lemma mod32_succ h : 0 <= h < 32 -> (h + 1) mod 32 = if h =? 31 then 0 else h + 1.
Proof.
  intros. destruct (Z.eqb_spec h 31) as [->|]; [done|]. apply Z.mod_small. lia.
Qed.

Lemma contents_lookup r (k : nat) :
  (k < Z.to_nat (available_read r))%nat ->
  contents r !! k = Some (default 0 (vget (arr r) ((head r + Z.of_nat k) mod 32))).
Proof. intros. unfold contents. by rewrite list_lookup_fmap, lookup_seq_lt. Qed.

Lemma contents_length r : length (contents r) = Z.to_nat (available_read r).
Proof. unfold contents. by rewrite length_fmap, length_seq. Qed.

Lemma read_byte_run r c rest :
  ring_ok r -> contents r = c :: rest ->
  exists r', read_byte r = Ret c r' /\ ring_ok r' /\ contents r' = rest /\
    write_end r' = write_end r.
Proof.
  intros Hok Hc. pose proof (available_read_range r Hok) as Hav.
  assert (Hn : (0 < Z.to_nat (available_read r))%nat) by (rewrite <- contents_length, Hc; cbn; lia).
  pose proof (contents_lookup r 0 Hn) as H0. rewrite Hc in H0. cbn in H0.
  destruct Hok as [Ha Hh Ht Hs]. rewrite Z.add_0_r, Z.mod_small in H0 by lia.
  unfold read_byte, index. destruct (vget_is_Some (arr r) (head r)) as [x Ex]; [lia|].
  rewrite Ex in H0 |- *. cbn in H0. injection H0 as ->. cbn. eexists. split; [done|].
  set (r' := {| arr := arr r |}).
  assert (Hav' : available_read r' = available_read r - 1).
  { unfold r', available_read, RING_BUFFER_SIZE in *. cbn. rewrite mod32_succ by done.
    destruct (status r) eqn:E; cbn in *.
    1, 2: assert (head r = tail r) by (apply dec_stable; intros Hne; by apply Hs in Hne).
    3: assert (head r <> tail r) by by apply Hs.
    all: destruct (Z.eqb_spec (head r) 31), (Z.ltb_spec (head r) (tail r)); cbn in *;
      repeat (case_match; btests; cbn in *); try congruence; try lia. }
  split_and!; [|apply list_eq; intros k|done].
  - split; cbn; try done.
    + apply Z.mod_pos_bound. done.
    + destruct (Z.eqb_spec ((head r + 1) mod RING_BUFFER_SIZE) (tail r)); by split.
  - destruct (decide (k < Z.to_nat (available_read r'))%nat) as [Hk|Hk].
    + rewrite contents_lookup by done. cbn.
      assert (rest !! k = contents r !! S k) as -> by by rewrite Hc.
      rewrite contents_lookup by lia. do 3 f_equal. unfold RING_BUFFER_SIZE.
      rewrite Zplus_mod_idemp_l. f_equal. lia.
    + rewrite !lookup_ge_None_2; [done| |].
      * apply (f_equal length) in Hc. rewrite contents_length in Hc. cbn in Hc. lia.
      * rewrite contents_length. lia.
Qed.

Lemma write_byte_run r b :
  ring_ok r -> (length (contents r) < 32)%nat ->
  exists r', write_byte b r = Ret tt r' /\ ring_ok r' /\ contents r' = contents r ++ [b] /\
    write_end r' = write_end r.
Proof.
  intros Hok Hlt. pose proof (available_read_range r Hok) as Hav.
  rewrite contents_length in Hlt. destruct Hok as [Ha Hh Ht Hs].
  unfold write_byte, index_set, vset.
  rewrite (proj2 (Z.leb_le 0 _)), (proj2 (Z.ltb_lt (tail r) _)) by lia. cbn.
  eexists. split; [done|]. set (r' := {| arr := _ |}).
  assert (Htail : tail r = (head r + available_read r) mod 32).
  { unfold available_read, RING_BUFFER_SIZE in *. destruct (status r) eqn:E; cbn in *.
    - assert (head r = tail r) by (apply dec_stable; intros Hn; by apply Hs in Hn).
      destruct (Z.ltb_spec (head r) (tail r)); lia.
    - assert (head r = tail r) by (apply dec_stable; intros Hn; by apply Hs in Hn).
      rewrite Z.add_0_r, Z.mod_small; lia.
    - destruct (Z.ltb_spec (head r) (tail r)); Z.to_euclidean_division_equations; lia. }
  assert (Hav' : available_read r' = available_read r + 1).
  { unfold r', available_read, RING_BUFFER_SIZE in *. cbn. rewrite mod32_succ by done.
    destruct (status r) eqn:E; cbn in *.
    1, 2: assert (head r = tail r) by (apply dec_stable; intros Hn; by apply Hs in Hn).
    3: assert (head r <> tail r) by by apply Hs.
    all: destruct (Z.eqb_spec (tail r) 31), (Z.ltb_spec (head r) (tail r)); cbn in *;
      repeat (case_match; btests; cbn in *); try congruence; try lia. }
  split_and!; [|apply list_eq; intros k|done].
  - split; cbn; try done.
    + by rewrite length_insert.
    + apply Z.mod_pos_bound. done.
    + destruct (Z.eqb_spec ((tail r + 1) mod RING_BUFFER_SIZE) (head r)); split; congruence.
  - destruct (decide (k < Z.to_nat (available_read r'))%nat) as [Hk|Hk].
    + rewrite contents_lookup by done. cbn.
      destruct (decide (k < Z.to_nat (available_read r))%nat) as [Hk'|Hk'].
      * rewrite lookup_app_l by (rewrite contents_length; lia).
        rewrite contents_lookup by done. do 2 f_equal.
        assert ((head r + Z.of_nat k) mod 32 <> tail r)
          by (rewrite Htail; Z.to_euclidean_division_equations; lia).
        pose proof (Z.mod_pos_bound (head r + Z.of_nat k) 32 ltac:(done)).
        apply (vget_vset_ne (arr r) (tail r) _ b); [|done]. apply vset_Some. split; [lia|done].
      * rewrite lookup_app_r by (rewrite contents_length; lia).
        rewrite contents_length. replace (k - Z.to_nat (available_read r))%nat with 0%nat by lia.
        cbn. replace (Z.of_nat k) with (available_read r) by lia. rewrite <- Htail.
        rewrite (vget_vset_eq (arr r) (tail r) b); [done|]. apply vset_Some. split; [lia|done].
    + rewrite !lookup_ge_None_2; [done| |].
      * rewrite length_app, contents_length. cbn. lia.
      * rewrite contents_length. lia.
Qed.

(** ** Turns *)

Definition byte_of {T} (s : pipe_state T) (addr : Z) : Z := phys_byte (pmem s) addr.

(** A call on a buffer with byte addresses [addrs] that has done [k] of them. *)
Record call_at (addrs : list Z) (k : nat) (c : call) : Prop := {
  at_want : want c = Z.of_nat (length addrs);
  at_already : already c = Z.of_nat k;
  at_iter : yields (buf_iter c) (drop k addrs);
  at_len : Z.of_nat (length addrs) < 2 ^ 64;
}.

(** How a turn that moved the call to position [k] ends. *)
Definition turn_at (addrs : list Z) (k : nat) (t : turn) : Prop :=
  if decide (k = length addrs) then t = Return (Z.of_nat (length addrs))
  else exists c, (t = Again c \/ t = Suspend c) /\ call_at addrs k c.

Lemma slice_cons {A} (l : list A) i k x :
  l !! i = Some x -> slice l i (S k) = x :: slice l (S i) k.
Proof. intros H. unfold slice. by rewrite (drop_S _ _ _ H). Qed.

Lemma call_at_next addrs k c :
  call_at addrs k c -> (k < length addrs)%nat -> exists x it,
  addrs !! k = Some x /\ (forall (S : Type) (s : S), UserBufferIterator_next (buf_iter c) s = Ret (Some x, it) s) /\
  (S k < length addrs -> call_at addrs (S k)
     {| buf_iter := it; already := u64 (already c + 1); want := want c |})%nat /\
  (u64 (already c + 1) =? want c) = (bool_decide (S k = length addrs)).
Proof.
  intros [Hw Ha Hy Hl] Hk. destruct (lookup_lt_is_Some_2 addrs k Hk) as [x Hx].
  rewrite (drop_S _ _ _ Hx) in Hy. destruct Hy as (it & Hn & Hy).
  exists x, it. rewrite Hw, Ha, u64_small by lia. split_and!; try done.
  - intros Hk'. split; cbn; try done. lia.
  - case_bool_decide; [apply Z.eqb_eq|apply Z.eqb_neq]; lia.
Qed.

Lemma write_for_run {T} addrs n i c (s : pipe_state T) :
  call_at addrs i c -> (i < length addrs)%nat -> ring_ok (ring s) ->
  (length (contents (ring s)) + n <= 32)%nat ->
  exists t s', write_for n c s = Ret t s' /\ ring_ok (ring s') /\ pmem s' = pmem s /\
    write_end (ring s') = write_end (ring s) /\
    contents (ring s') = contents (ring s) ++ (byte_of s <$> slice addrs i (Nat.min n (length addrs - i))) /\
    turn_at addrs (i + Nat.min n (length addrs - i)) t.
Proof.
  revert i c s. induction n as [|n IH]; intros i c s Hc Hi Hok Hn.
  - exists (Again c), s. cbn [write_for Nat.min]. rewrite Nat.add_0_r. split_and!; try done.
    + by rewrite app_nil_r.
    + unfold turn_at. rewrite decide_False by lia. eauto.
  - destruct (call_at_next _ _ _ Hc Hi) as (x & it & Hx & Hnext & Hc' & Heq).
    destruct (write_byte_run (ring s) (byte_of s x) Hok ltac:(lia)) as (r' & Ew & Hok' & Hct & Hwe).
    cbn [write_for]. rewrite (bind_Ret _ _ _ _ _ (Hnext _ s)).
    unfold bind at 1, load_byte. unfold bind at 1, on_ring, zoom. fold (byte_of s x). rewrite Ew.
    cbv zeta. rewrite Heq. set (s1 := {| ring := r'; pmem := pmem s |}).
    assert (Hmin : Nat.min (S n) (length addrs - i) = S (Nat.min n (length addrs - S i))) by lia.
    rewrite Hmin, (slice_cons _ _ _ _ Hx). case_bool_decide as E.
    + eexists _, s1. split; [done|]. split_and!; try done.
      * cbn. rewrite Hct. replace (length addrs - S i)%nat with 0%nat by lia.
        rewrite Nat.min_0_r. done.
      * unfold turn_at. rewrite decide_True by lia. by rewrite (at_want _ _ _ Hc).
    + destruct (IH (S i) _ s1 (Hc' ltac:(lia)) ltac:(lia) Hok') as
        (t & s' & Et & Hok2 & Hum & Hwe2 & Hct2 & Ht).
      { cbn. rewrite Hct, length_app. cbn. lia. }
      exists t, s'. split; [done|]. split_and!; try done.
      * by rewrite Hwe2.
      * rewrite Hct2. cbn. rewrite Hct, <- app_assoc. done.
      * replace (i + S (Nat.min n (length addrs - S i)))%nat with
          (S i + Nat.min n (length addrs - S i))%nat by lia. done.
Qed.

Lemma read_for_run {T} addrs n j c (s : pipe_state T) :
  call_at addrs j c -> (j < length addrs)%nat -> ring_ok (ring s) ->
  (n <= length (contents (ring s)))%nat ->
  let k := Nat.min n (length addrs - j) in
  exists t s', read_for n c s = Ret t s' /\ ring_ok (ring s') /\
    pmem s' = store_all (slice addrs j k) (take k (contents (ring s))) (pmem s) /\
    write_end (ring s') = write_end (ring s) /\
    contents (ring s') = drop k (contents (ring s)) /\ turn_at addrs (j + k) t.
Proof.
  revert j c s. induction n as [|n IH]; intros j c s Hc Hj Hok Hn k.
  - exists (Again c), s. subst k. cbn [read_for Nat.min]. rewrite Nat.add_0_r.
    split_and!; try done. unfold turn_at. rewrite decide_False by lia. eauto.
  - destruct (call_at_next _ _ _ Hc Hj) as (x & it & Hx & Hnext & Hc' & Heq).
    destruct (contents (ring s)) as [|b rest] eqn:Hct; [cbn in Hn; lia|]. cbn in Hn.
    destruct (read_byte_run (ring s) b rest Hok Hct) as (r' & Er & Hok' & Hct' & Hwe).
    cbn [read_for]. rewrite (bind_Ret _ _ _ _ _ (Hnext _ s)).
    unfold bind at 1, on_ring, zoom. rewrite Er. unfold bind at 1, store_byte, modify.
    cbv zeta. rewrite Heq. cbn [ring pmem]. set (s1 := {| ring := r' |}).
    assert (Hk : k = S (Nat.min n (length addrs - S j))) by (subst k; lia).
    rewrite Hk, (slice_cons _ _ _ _ Hx). cbn [take drop store_all]. case_bool_decide as E.
    + eexists _, s1. replace (length addrs - S j)%nat with 0%nat by lia. rewrite Nat.min_0_r.
      split; [done|]. split_and!; try done.
      unfold turn_at. rewrite decide_True by lia. by rewrite (at_want _ _ _ Hc).
    + destruct (IH (S j) _ s1 (Hc' ltac:(lia)) ltac:(lia) Hok') as
        (t & s' & Et & Hok2 & Hum & Hwe2 & Hct2 & Ht).
      { cbn. rewrite Hct'. lia. }
      exists t, s'. cbn in Hum, Hct2, Hwe2. rewrite Hct' in Hum, Hct2.
      split; [done|]. split_and!; try done; try congruence.
      replace (j + S (Nat.min n (length addrs - S j)))%nat with
          (S j + Nat.min n (length addrs - S j))%nat by lia. done.
Qed.

(** ** A write and a read call running concurrently *)

Record xfer T := { x_s : pipe_state T; x_w : turn; x_r : turn }.
Arguments x_s {T} _. Arguments x_w {T} _. Arguments x_r {T} _.
Arguments Build_xfer {T} _ _ _.

Inductive who := Writer | Reader.

Section schedule.
Context {T : Type}.

(** A scheduled process whose call is still running takes one turn. *)
Definition writer_step (self : Pipe) (x : xfer T) : outcome unit (xfer T) :=
  match x_w x with
  | Return _ => Ret x tt
  | Suspend c | Again c =>
      match write_turn self c (x_s x) with
      | Ret t s => Ret {| x_s := s; x_w := t; x_r := x_r x |} tt
      | Panic p => Panic p
      end
  end.
Definition reader_step (self : Pipe) (strong : Z -> nat) (x : xfer T) : outcome unit (xfer T) :=
  match x_r x with
  | Return _ => Ret x tt
  | Suspend c | Again c =>
      match read_turn self strong c (x_s x) with
      | Ret t s => Ret {| x_s := s; x_w := x_w x; x_r := t |} tt
      | Panic p => Panic p
      end
  end.

Fixpoint run_schedule (pipe : Pipe * Pipe) (strong : Z -> nat) (l : list who) (x : xfer T) :
    outcome unit (xfer T) :=
  match l with
  | [] => Ret x tt
  | w :: l =>
      match (match w with Writer => writer_step (snd pipe) x
                        | Reader => reader_step (fst pipe) strong x end) with
      | Ret x' _ => run_schedule pipe strong l x'
      | Panic p => Panic p
      end
  end.

End schedule.

Section transfer.
Context {T : Type}.
Context (wa ra data : list Z) (strong : Z -> nat).

(** Byte buffers of equal length that do not overlap; the write end is open. *)
Record buffers_ok : Prop := {
  b_wa : length wa = length data;
  b_ra : length ra = length data;
  b_nodup : NoDup ra;
  b_disj : forall a, a ∈ wa -> a ∉ ra;
  b_strong : forall we, strong we <> 0%nat;
}.

(** The writer has pushed [i] bytes and the reader has taken [j]. *)
Record xfer_ok (i j : nat) (x : xfer T) : Prop := {
  x_pages : Forall (full_page (pmem (x_s x))) (wa ++ ra);
  x_le : (j <= i <= length data)%nat;
  x_ring : ring_ok (ring (x_s x));
  x_we : is_Some (write_end (ring (x_s x)));
  x_contents : contents (ring (x_s x)) = slice data j (i - j);
  x_writer : turn_at wa i (x_w x);
  x_reader : turn_at ra j (x_r x);
  x_source : byte_of (x_s x) <$> wa = data;
  x_dest : forall k, (k < j)%nat -> forall a d, ra !! k = Some a -> data !! k = Some d ->
    byte_of (x_s x) a = d;
}.

Lemma slice_app_join {A} (l : list A) j i k :
  (j <= i)%nat -> slice l j (i - j) ++ slice l i k = slice l j (i + k - j).
Proof.
  intros Hji. unfold slice. replace (i + k - j)%nat with ((i - j) + k)%nat by lia.
  rewrite <- take_take_drop, drop_drop. by replace (j + (i - j))%nat with i by lia.
Qed.

Lemma elem_of_slice (l : list Z) lo n a : a ∈ slice l lo n -> a ∈ l.
Proof.
  intros [k Hk]%list_elem_of_lookup. pose proof (lookup_lt_Some _ _ _ Hk) as Hl.
  unfold slice in Hk, Hl. rewrite length_take in Hl.
  rewrite lookup_take_lt, lookup_drop in Hk by lia. by apply list_elem_of_lookup_2 in Hk.
Qed.

Lemma writer_step_ok i j x :
  buffers_ok -> xfer_ok i j x ->
  exists x', writer_step (write_end_with_buffer 0) x = Ret x' tt /\
    xfer_ok (i + Nat.min (32 - (i - j)) (length data - i)) j x'.
Proof.
  intros [Hwa Hra Hnd Hdj Hst] [Hpg Hle Hr Hwe Hc Hw Hrd Hsrc Hdst].
  assert (Hlen : length (contents (ring (x_s x))) = (i - j)%nat) by (rewrite Hc, length_slice; lia).
  unfold turn_at in Hw. case_decide as Ei.
  { exists x. unfold writer_step. rewrite Hw. split; [done|].
    replace (i + _)%nat with i by lia. split; try done. unfold turn_at. by rewrite decide_True. }
  destruct Hw as (c & Hxw & Hcall).
  assert (Hturn : exists t s', write_turn (write_end_with_buffer 0) c (x_s x) = Ret t s' /\
    xfer_ok (i + Nat.min (32 - (i - j)) (length data - i)) j {| x_s := s'; x_w := t; x_r := x_r x |}).
  { unfold write_turn. rewrite bind_assert by done. rewrite bind_get.
    pose proof (available_write_contents _ Hr) as Hav. rewrite Hlen in Hav. rewrite Hav.
    assert ((i - j <= 32)%nat) as H32.
    { rewrite <- Hlen, contents_length. pose proof (available_read_range _ Hr). lia. }
    destruct (Z.eqb_spec (32 - Z.of_nat (i - j)) 0) as [E|E].
    - exists (Suspend c), (x_s x). split; [done|]. replace (i + _)%nat with i by lia.
      split; try done. unfold turn_at. rewrite decide_False by done. eauto.
    - destruct (write_for_run wa (Z.to_nat (32 - Z.of_nat (i - j))) i c (x_s x) Hcall)
        as (t & s' & Et & Hok' & Hum & Hwe' & Hct & Ht); [lia|done|lia|].
      exists t, s'. split; [done|].
      replace (Z.to_nat (32 - Z.of_nat (i - j))) with (32 - (i - j))%nat in * by lia.
      rewrite Hwa in *. set (k := Nat.min (32 - (i - j)) (length data - i)) in *.
      assert (byte_of s' <$> wa = data) as Hsrc'.
      { rewrite <- Hsrc. unfold byte_of. by rewrite Hum. }
      split; cbn; try done; try lia.
      + by rewrite Hum.
      + by rewrite Hwe'.
      + rewrite Hct, Hc. rewrite <- (slice_app_join data j i k) by lia. f_equal.
        transitivity (slice (byte_of (x_s x) <$> wa) i k); [|by rewrite Hsrc].
        unfold slice. by rewrite fmap_take, fmap_drop.
      + unfold byte_of. rewrite Hum. exact Hdst. }
  destruct Hturn as (t & s' & Et & Hx). eexists. split; [|exact Hx].
  unfold writer_step. destruct Hxw as [->| ->]; by rewrite Et.
Qed.

Lemma reader_step_ok i j x :
  buffers_ok -> xfer_ok i j x ->
  exists x', reader_step (read_end_with_buffer 0) strong x = Ret x' tt /\ xfer_ok i i x'.
Proof.
  intros [Hwa Hra Hnd Hdj Hst] [Hpg Hle Hr Hwe Hc Hw Hrd Hsrc Hdst].
  assert (Hlen : length (contents (ring (x_s x))) = (i - j)%nat) by (rewrite Hc, length_slice; lia).
  unfold turn_at in Hrd. case_decide as Ej.
  { exists x. unfold reader_step. rewrite Hrd. split; [done|].
    assert (i = j) as -> by lia. split; try done. unfold turn_at. by rewrite decide_True. }
  destruct Hrd as (c & Hxr & Hcall).
  assert (Hturn : exists t s', read_turn (read_end_with_buffer 0) strong c (x_s x) = Ret t s' /\
    xfer_ok i i {| x_s := s'; x_w := x_w x; x_r := t |}).
  { unfold read_turn. rewrite bind_assert by done. rewrite bind_get.
    rewrite (available_read_contents _ Hr), Hlen.
    destruct (Z.eqb_spec (Z.of_nat (i - j)) 0) as [E|E].
    - assert (i = j) as -> by lia. exists (Suspend c), (x_s x).
      destruct Hwe as [we Hwe]. unfold all_write_ends_closed. rewrite Hwe.
      unfold bind, unwrap, ret. rewrite (proj2 (Nat.eqb_neq _ _) (Hst we)). split; [done|].
      split; try done. unfold turn_at. rewrite decide_False by done. eauto.
    - rewrite Nat2Z.id.
      destruct (read_for_run ra (i - j) j c (x_s x) Hcall) as (t & s' & Et & Hok' & Hum & Hwe' & Hct & Ht);
        [lia|done|lia|].
      exists t, s'. split; [done|].
      replace (Nat.min (i - j) (length ra - j)) with (i - j)%nat in * by lia.
      replace (j + (i - j))%nat with i in Ht by lia.
      pose proof Hpg as [Hpw Hpr]%Forall_app.
      assert (Hps : Forall (full_page (pmem (x_s x))) (slice ra j (i - j)))
        by (apply Forall_forall; intros a Ha%elem_of_slice; revert a Ha; by apply Forall_forall).
      assert (Hbs : is_bytes (take (i - j) (contents (ring (x_s x))))).
      { rewrite Hc. apply Forall_forall. intros b Hb. rewrite take_ge in Hb by (rewrite length_slice; lia).
        apply elem_of_slice in Hb. rewrite <- Hsrc in Hb. apply list_elem_of_fmap in Hb as (a & -> & _). apply phys_byte_range. }
      assert (Hun : forall a, full_page (pmem (x_s x)) a -> a ∉ slice ra j (i - j) -> byte_of s' a = byte_of (x_s x) a)
        by (intros a Hfa Ha; unfold byte_of; rewrite Hum; by apply store_all_lookup_ne).
      split; cbn; try done; try lia.
      + rewrite Hum. eapply Forall_impl; [exact Hpg|]. intros a. apply store_all_full.
      + by rewrite Hwe'.
      + rewrite Hct, Nat.sub_diag, drop_ge by lia. done.
      + transitivity (byte_of (x_s x) <$> wa); [|exact Hsrc]. apply list_fmap_ext. intros n a Ha.
        rewrite Hun; [done|exact (Forall_lookup_1 _ _ _ _ Hpw Ha)|]. intros Hin%elem_of_slice. apply (Hdj a); [by apply list_elem_of_lookup_2 in Ha|done].
      + intros k Hk a d Ha Hd. destruct (decide (k < j)%nat) as [Hkj|Hkj].
        * rewrite Hun; [by apply (Hdst k Hkj)|exact (Forall_lookup_1 _ _ _ _ Hpr Ha)|]. intros [k' Hk']%list_elem_of_lookup.
          assert (k' < i - j)%nat by (apply lookup_lt_Some in Hk'; rewrite length_slice in Hk'; lia).
          rewrite lookup_slice in Hk' by lia.
          pose proof (NoDup_lookup _ _ _ _ Hnd Ha Hk'). lia.
        * unfold byte_of. rewrite Hum. apply (store_all_lookup _ _ _ (k - j)); [exact Hps|exact Hbs|..].
          -- unfold slice. eapply sublist_NoDup; [exact Hnd|].
             etransitivity; [apply sublist_take|apply sublist_drop].
          -- rewrite lookup_slice by lia. by replace (j + (k - j))%nat with k by lia.
          -- rewrite lookup_take_lt by lia. rewrite Hc, lookup_slice by lia.
             by replace (j + (k - j))%nat with k by lia. }
  destruct Hturn as (t & s' & Et & Hx). eexists. split; [|exact Hx].
  unfold reader_step. destruct Hxr as [->| ->]; by rewrite Et.
Qed.

Lemma run_schedule_ok l i j x :
  buffers_ok -> xfer_ok i j x ->
  exists x' i' j', run_schedule (read_end_with_buffer 0, write_end_with_buffer 0) strong l x = Ret x' tt /\
    xfer_ok i' j' x'.
Proof.
  intros Hb. revert i j x. induction l as [|[] l IH]; intros i j x Hx; cbn.
  - eauto.
  - destruct (writer_step_ok i j x Hb Hx) as (x' & -> & Hx'). by eapply IH.
  - destruct (reader_step_ok i j x Hb Hx) as (x' & -> & Hx'). by eapply IH.
Qed.

(** From a drained ring, a round moves 32 bytes or all that is left. *)
Lemma rounds_ok n i x :
  buffers_ok -> xfer_ok i i x ->
  exists x', run_schedule (read_end_with_buffer 0, write_end_with_buffer 0) strong
      (mjoin (replicate n [Writer; Reader])) x = Ret x' tt /\
    xfer_ok (Nat.min (i + n * 32) (length data)) (Nat.min (i + n * 32) (length data)) x'.
Proof.
  intros Hb. revert i x. induction n as [|n IH]; intros i x Hx.
  - exists x. split; [done|]. pose proof (x_le _ _ _ Hx). by replace (Nat.min _ _) with i by lia.
  - destruct (writer_step_ok i i x Hb Hx) as (x1 & E1 & H1).
    destruct (reader_step_ok _ i x1 Hb H1) as (x2 & E2 & H2).
    destruct (IH _ x2 H2) as (x3 & E3 & H3). exists x3.
    pose proof (x_le _ _ _ Hx). split; [cbn; rewrite E1; cbn; rewrite E2; exact E3|].
    replace (Nat.min (i + S n * 32) (length data)) with
      (Nat.min (i + Nat.min (32 - (i - i)) (length data - i) + n * 32) (length data)) by lia. exact H3.
Qed.

(** A finished reader has all the data. *)
Lemma xfer_delivered i x :
  buffers_ok -> xfer_ok i (length data) x -> byte_of (x_s x) <$> ra = data.
Proof.
  intros [Hwa Hra _ _ _] Hx. apply list_eq. intros k. rewrite list_lookup_fmap.
  destruct (data !! k) as [d|] eqn:Hd.
  - apply lookup_lt_Some in Hd as Hk. destruct (lookup_lt_is_Some_2 ra k) as [a Ha]; [lia|].
    rewrite Ha. cbn. by rewrite (x_dest _ _ _ Hx k Hk a d Ha Hd).
  - apply lookup_ge_None in Hd. by rewrite (proj2 (lookup_ge_None ra k)) by lia.
Qed.

Lemma turn_at_Return addrs k n : turn_at addrs k (Return n) -> k = length addrs /\ n = Z.of_nat k.
Proof.
  unfold turn_at. case_decide as E; [|by intros (c & [?|?] & _)].
  intros H. split; [done|]. congruence.
Qed.
End transfer.

(** The byte addresses of a user buffer. *)
Definition buffer_addrs (b : UserBuffer) : list Z := mjoin (us_addrs <$> buffers b).

Lemma call_start_at b :
  Forall (fun s => 0 < us_len s) (buffers b) -> Z.of_nat (length (buffer_addrs b)) < 2 ^ 64 ->
  call_at (buffer_addrs b) 0 (call_start b).
Proof.
  intros Hpos Hlt. destruct b as [bs]. unfold buffer_addrs in *. cbn in *.
  split; cbn; [by apply UserBuffer_len_sum|done|by apply yields_buffer|done].
Qed.

(** A new pipe with one process entering [write] and one entering [read]. *)
Definition xfer_start {T} (u : mem T) (r : PipeRingBuffer) (wbuf rbuf : UserBuffer) : xfer T :=
  {| x_s := {| ring := r; pmem := u |};
     x_w := Again (call_start wbuf); x_r := Again (call_start rbuf) |}.

Record transfer_pre {T} (u : mem T) (data : list Z) (wbuf rbuf : UserBuffer) : Prop := {
  t_pages : Forall (full_page u) (buffer_addrs wbuf ++ buffer_addrs rbuf);
  t_wpos : Forall (fun s => 0 < us_len s) (buffers wbuf);
  t_rpos : Forall (fun s => 0 < us_len s) (buffers rbuf);
  t_wlen : length (buffer_addrs wbuf) = length data;
  t_rlen : length (buffer_addrs rbuf) = length data;
  t_data : data <> [];
  t_fits : Z.of_nat (length data) < 2 ^ 64;
  t_nodup : NoDup (buffer_addrs rbuf);
  t_disj : forall a, a ∈ buffer_addrs wbuf -> a ∉ buffer_addrs rbuf;
  t_src : phys_byte u <$> buffer_addrs wbuf = data;
}.

Lemma transfer_pre_buffers {T} (u : mem T) data wbuf rbuf strong :
  transfer_pre u data wbuf rbuf -> (forall we, strong we <> 0%nat) ->
  buffers_ok (buffer_addrs wbuf) (buffer_addrs rbuf) data strong.
Proof. intros [] Hs. by split. Qed.

Lemma xfer_start_ok {T} (u : mem T) data wbuf rbuf we :
  transfer_pre u data wbuf rbuf ->
  xfer_ok (buffer_addrs wbuf) (buffer_addrs rbuf) data 0 0
    (xfer_start u (snd (make_pipe 0 we)) wbuf rbuf).
Proof.
  intros [Hpg Hwp Hrp Hw Hr Hne Hl Hnd Hdj Hsrc].
  assert (0 < length data)%nat by (destruct data; cbn; [done|lia]).
  split; cbn [xfer_start x_s x_w x_r ring pmem]; try done; try lia.
  - unfold turn_at. rewrite decide_False by lia. eexists. split; [by left|].
    apply call_start_at; [done|lia].
  - unfold turn_at. rewrite decide_False by lia. eexists. split; [by left|].
    apply call_start_at; [done|lia].
Qed.

(** C22. Under every interleaving of the turns of one write and one read on a pipe, the ring buffer
    holds a contiguous part of the data of at most 32 bytes, a write that returns has sent all its
    data and a read that returns has put exactly the data in the reader's memory. *)
Theorem pipe_safe {T} (u : mem T) data wbuf rbuf we strong l :
  transfer_pre u data wbuf rbuf -> (forall we, strong we <> 0%nat) ->
  let '(pipe, r) := make_pipe 0 we in
  exists x (i j : nat), run_schedule pipe strong l (xfer_start u r wbuf rbuf) = Ret x tt /\
    contents (ring (x_s x)) = slice data j (i - j) /\ (j <= i <= length data)%nat /\
    (i - j <= 32)%nat /\
    (forall n, x_w x = Return n -> i = length data /\ n = UserBuffer_len wbuf) /\
    (forall n, x_r x = Return n -> n = UserBuffer_len rbuf /\
       byte_of (x_s x) <$> buffer_addrs rbuf = data).
Proof.
  intros Hpre Hs. pose proof (transfer_pre_buffers _ _ _ _ _ Hpre Hs) as Hb.
  pose proof (xfer_start_ok u data wbuf rbuf we Hpre) as Hx.
  pose proof (at_want _ _ _ (call_start_at wbuf (t_wpos _ _ _ _ Hpre)
    ltac:(rewrite (t_wlen _ _ _ _ Hpre); apply (t_fits _ _ _ _ Hpre)))) as Hw.
  pose proof (at_want _ _ _ (call_start_at rbuf (t_rpos _ _ _ _ Hpre)
    ltac:(rewrite (t_rlen _ _ _ _ Hpre); apply (t_fits _ _ _ _ Hpre)))) as Hr.
  cbn [call_start want] in Hw, Hr.
  destruct (run_schedule_ok _ _ _ strong l 0 0 _ Hb Hx) as (x & i & j & E & Hx').
  cbn [make_pipe]. exists x, i, j. split; [exact E|].
  pose proof (available_read_range _ (x_ring _ _ _ _ _ _ Hx')) as Hav.
  pose proof (x_contents _ _ _ _ _ _ Hx') as Hc. pose proof (x_le _ _ _ _ _ _ Hx') as Hle.
  split_and!; try done; try lia.
  - apply (f_equal length) in Hc. rewrite contents_length, length_slice in Hc; lia.
  - intros n Hn. pose proof (x_writer _ _ _ _ _ _ Hx') as Ht. rewrite Hn in Ht.
    apply turn_at_Return in Ht as [-> ->]. rewrite Hw. split; [apply (t_wlen _ _ _ _ Hpre)|done].
  - intros n Hn. pose proof (x_reader _ _ _ _ _ _ Hx') as Ht. rewrite Hn in Ht.
    apply turn_at_Return in Ht as [-> ->]. split; [done|].
    apply (xfer_delivered (buffer_addrs wbuf) _ data strong i); [done|].
    by rewrite <- (t_rlen _ _ _ _ Hpre).
Qed.

Definition demo_buf (pa len : Z) : UserBuffer := {| buffers := [{| us_pa := pa; us_len := len |}] |}.
Definition demo_user : mem unit := store_phys 0 (seqZ 100 40) {| falloc := tt; phys := ∅ |}.

Lemma demo_transfer_pre :
  transfer_pre demo_user (seqZ 100 40) (demo_buf 0 40) (demo_buf 5000 40).
Proof.
  split; try (vm_compute; reflexivity); try done.
  - apply (bool_decide_unpack _). vm_compute. exact I.
  - by repeat constructor.
  - by repeat constructor.
  - apply (bool_decide_unpack _). vm_compute. exact I.
  - intros a Ha Hr. unfold buffer_addrs, demo_buf, us_addrs in *. cbn [buffers fmap list_fmap] in *.
    cbn [us_pa us_len mjoin list_join] in *. rewrite app_nil_r in Ha, Hr.
    apply elem_of_seqZ in Ha, Hr. lia.
Defined.

(** The write of 40 bytes suspends with the ring full and resumes after a read. *)
Lemma pipe_safe_witness :
  exists x (i j : nat), run_schedule (fst (make_pipe 0 7)) (fun _ => 1%nat) [Writer; Writer; Reader; Writer]
    (xfer_start demo_user (snd (make_pipe 0 7)) (demo_buf 0 40) (demo_buf 5000 40)) = Ret x tt /\
    contents (ring (x_s x)) = slice (seqZ 100 40) j (i - j).
Proof.
  destruct (pipe_safe demo_user (seqZ 100 40) (demo_buf 0 40) (demo_buf 5000 40) 7 (fun _ => 1%nat)
    [Writer; Writer; Reader; Writer] demo_transfer_pre ltac:(done)) as (x & i & j & E & Hc & _).
  exists x, i, j. split; [exact E|exact Hc].
Defined.

(** C23. When writer and reader take turns, a transfer of n bytes ends after one round per 32 bytes:
    both calls return n, the reader's memory holds the data and the pipe is empty. *)
Theorem pipe_completes {T} (u : mem T) data wbuf rbuf we strong n :
  transfer_pre u data wbuf rbuf -> (forall we, strong we <> 0%nat) -> (length data <= n * 32)%nat ->
  let '(pipe, r) := make_pipe 0 we in
  exists x, run_schedule pipe strong (mjoin (replicate n [Writer; Reader])) (xfer_start u r wbuf rbuf) = Ret x tt /\
    x_w x = Return (Z.of_nat (length data)) /\ x_r x = Return (Z.of_nat (length data)) /\
    byte_of (x_s x) <$> buffer_addrs rbuf = data /\ contents (ring (x_s x)) = [].
Proof.
  intros Hpre Hs Hn. pose proof (transfer_pre_buffers _ _ _ _ _ Hpre Hs) as Hb.
  pose proof (xfer_start_ok u data wbuf rbuf we Hpre) as Hx. cbn [make_pipe].
  destruct (rounds_ok _ _ _ strong n 0 _ Hb Hx) as (x & E & Hx'). exists x. split; [exact E|].
  replace (Nat.min _ _) with (length data) in Hx' by lia.
  pose proof (x_writer _ _ _ _ _ _ Hx') as Hw. pose proof (x_reader _ _ _ _ _ _ Hx') as Hr.
  unfold turn_at in Hw, Hr. rewrite (t_wlen _ _ _ _ Hpre), decide_True in Hw by done.
  rewrite (t_rlen _ _ _ _ Hpre), decide_True in Hr by done. split_and!; try done.
  - by apply (xfer_delivered (buffer_addrs wbuf) _ data strong (length data)).
  - rewrite (x_contents _ _ _ _ _ _ Hx'), Nat.sub_diag. done.
Qed.

Lemma pipe_completes_witness :
  exists x, run_schedule (fst (make_pipe 0 7)) (fun _ => 1%nat) [Writer; Reader; Writer; Reader]
    (xfer_start demo_user (snd (make_pipe 0 7)) (demo_buf 0 40) (demo_buf 5000 40)) = Ret x tt /\
    x_r x = Return 40.
Proof.
  destruct (pipe_completes demo_user (seqZ 100 40) (demo_buf 0 40) (demo_buf 5000 40) 7 (fun _ => 1%nat) 2
    demo_transfer_pre ltac:(done) ltac:(vm_compute; lia)) as (x & E & _ & Hr & _).
  exists x. split; [exact E|exact Hr].
Defined.

(** A read on a pipe with no write end left returns the bytes still in the buffer, up to the
    size asked for, and does not block. *)
Theorem pipe_eof {T} (s : pipe_state T) rbuf we strong :
  let k := Nat.min (length (contents (ring s))) (length (buffer_addrs rbuf)) in
  ring_ok (ring s) -> write_end (ring s) = Some we -> strong we = 0%nat ->
  Forall (fun s => 0 < us_len s) (buffers rbuf) ->
  (0 < length (buffer_addrs rbuf))%nat -> Z.of_nat (length (buffer_addrs rbuf)) < 2 ^ 64 ->
  exists x, run_schedule (fst (make_pipe 0 we)) strong [Reader; Reader]
      {| x_s := s; x_w := Return 0; x_r := Again (call_start rbuf) |} = Ret x tt /\
    x_r x = Return (Z.of_nat k) /\
    contents (ring (x_s x)) = drop k (contents (ring s)) /\
    pmem (x_s x) = store_all (take k (buffer_addrs rbuf)) (take k (contents (ring s))) (pmem s).
Proof.
  intros k Hok Hwe Hs Hpos Hlen Hfit.
  pose proof (call_start_at rbuf Hpos Hfit) as Hc. set (c := call_start rbuf) in *.
  assert (Hclosed : forall c' (s' : pipe_state T), contents (ring s') = [] -> ring_ok (ring s') ->
    write_end (ring s') = Some we ->
    read_turn (read_end_with_buffer 0) strong c' s' = Ret (Return (already c')) s').
  { intros c' s' He Hok' Hwe'. unfold read_turn. rewrite bind_assert by done. rewrite bind_get.
    rewrite (available_read_contents _ Hok'), He. cbn. unfold all_write_ends_closed.
    rewrite Hwe'. unfold bind, unwrap, ret. by rewrite Hs. }
  cbn [run_schedule make_pipe fst reader_step x_r x_s x_w].
  destruct (decide (contents (ring s) = [])) as [Hct|Hct].
  { rewrite Hclosed by done. eexists. split; [reflexivity|].
    assert (k = 0%nat) as -> by (subst k; by rewrite Hct). by rewrite Hct. }
  destruct (read_for_run (buffer_addrs rbuf) (length (contents (ring s))) 0 c s Hc Hlen Hok (le_n _))
    as (t & s' & Et & Hok' & Hum & Hwe' & Hct' & Ht).
  rewrite Nat.sub_0_r in *. fold k in Hum, Hct', Ht. cbn [Nat.add] in Ht.
  assert (Erd : read_turn (read_end_with_buffer 0) strong c s = Ret t s').
  { unfold read_turn. rewrite bind_assert by done. rewrite bind_get.
    rewrite (available_read_contents _ Hok), Nat2Z.id.
    destruct (Z.eqb_spec (Z.of_nat (length (contents (ring s)))) 0) as [E|]; [|exact Et].
    destruct (contents (ring s)); [done|]. cbn in E. lia. }
  rewrite Erd. unfold turn_at in Ht. case_decide as E.
  - subst t. eexists. split; [reflexivity|]. split_and!; [by rewrite E|done|].
    cbn [x_s]. rewrite Hum. unfold slice. by rewrite drop_0.
  - destruct Ht as (c' & [-> | ->] & Hc'); unfold reader_step; cbn [x_r x_s x_w];
      (rewrite Hclosed; [|rewrite Hct'; apply drop_ge; lia|done|congruence]);
      eexists; (split; [reflexivity|]);
      (split_and!; cbn [x_r x_s];
       [by rewrite (at_already _ _ _ Hc')|done|rewrite Hum; unfold slice; by rewrite drop_0]).
Qed.

Lemma pipe_eof_witness :
  exists x, run_schedule (fst (make_pipe 0 7)) (fun _ => 0%nat) [Reader; Reader]
      {| x_s := {| ring := snd (make_pipe 0 7); pmem := demo_user |}; x_w := Return 0;
         x_r := Again (call_start (demo_buf 0 4)) |} = Ret x tt /\ x_r x = Return 0.
Proof.
  destruct (pipe_eof {| ring := snd (make_pipe 0 7); pmem := demo_user |} (demo_buf 0 4) 7 (fun _ => 0%nat))
    as (x & E & Hr & _); try done.
  - by repeat constructor.
  - vm_compute. lia.
  - exists x. split; [exact E|exact Hr].
Defined.
