(* ===== verification/Pid.v ===== *)
(** Process identifiers and kernel stack positions: [os/src/process/pid.rs].

    [PidAllocator] follows the scheme of [Recycle]; a history of [pid_alloc] and
    drops of [PidHandle]s shows that live processes have distinct identifiers and
    so disjoint kernel stacks. *)
From S2P Require Import Prelude Address Recycle.

Definition KERNEL_STACK_SIZE : Z := 4096 * 2.
Definition TRAMPOLINE : Z := u64 (2 ^ 64 - 1 - PAGE_SIZE + 1).
Definition TRAP_CONTEXT : Z := u64 (TRAMPOLINE - PAGE_SIZE).

Record PidAllocator := { p_current : Z; p_recycled : list Z }.

Definition PidAllocator_new : PidAllocator := {| p_current := 0; p_recycled := [] |}.

Definition PidAllocator_alloc (self : PidAllocator) : Z * PidAllocator :=
  match vec_pop (p_recycled self) with
  | Some (pid, rest) => (pid, {| p_current := p_current self; p_recycled := rest |})
  | None =>
      let self' := {| p_current := u64 (p_current self + 1); p_recycled := p_recycled self |} in
      (u64 (p_current self' - 1), self')
  end.

Definition PidAllocator_dealloc (pid : Z) : M PidAllocator unit :=
  let! self := get in
  assert (pid <? p_current self) ;;;
  assert (negb (existsb (fun ppid => ppid =? pid) (p_recycled self))) ;;;
  put {| p_current := p_current self; p_recycled := p_recycled self ++ [pid] |}.

(** [pid_alloc] and [Drop for PidHandle] on the global [PID_ALLOCATOR]. *)
Definition pid_alloc : M PidAllocator Z :=
  fun s => let '(pid, s') := PidAllocator_alloc s in Ret pid s'.
Definition PidHandle_drop (pid : Z) : M PidAllocator unit := PidAllocator_dealloc pid.

Definition kernel_stack_position (app_id : Z) : Z * Z :=
  let top := u64 (TRAMPOLINE - u64 (u64 (KERNEL_STACK_SIZE + PAGE_SIZE) * app_id)) in
  let bottom := u64 (top - KERNEL_STACK_SIZE) in
  (bottom, top).

(** [KernelStack] holds the process identifier. *)
Definition KernelStack_top (pid : Z) : Z := snd (kernel_stack_position pid).

(** ** Identifiers *)

Lemma existsb_eqb_elem pid l : existsb (fun ppid => ppid =? pid) l = bool_decide (pid ∈ l).
Proof.
  case_bool_decide as Hin.
  - apply existsb_exists. exists pid. split; [by apply list_elem_of_In|apply Z.eqb_refl].
  - apply not_true_iff_false. intros (y & Hy & ->%Z.eqb_eq)%existsb_exists.
    by apply Hin, list_elem_of_In.
Qed.

Definition pid_live (s : PidAllocator) (x : Z) : Prop := live 0 (p_current s) (p_recycled s) x.

Record pid_ok (s : PidAllocator) : Prop := {
  pid_recycle : recycle_ok 0 (p_current s) (p_recycled s);
  pid_fits : p_current s < 2 ^ 64;
}.

Lemma PidAllocator_alloc_ok s :
  pid_ok s -> p_current s + 1 < 2 ^ 64 ->
  exists x s', PidAllocator_alloc s = (x, s') /\ pid_ok s' /\ ~ pid_live s x /\
    p_current s' <= p_current s + 1 /\
    (forall y, pid_live s' y <-> y = x \/ pid_live s y).
Proof.
  intros [Hr Hf] Hlt. unfold PidAllocator_alloc, pid_live.
  destruct (vec_pop (p_recycled s)) as [[x rest]|] eqn:Hpop.
  - apply vec_pop_Some in Hpop. rewrite Hpop in Hr |- *.
    apply recycle_pop in Hr as (Hok & Hd & Hx & Hl).
    eexists _, _. split; [done|]. cbn. split_and!; try done; try lia.
  - pose proof (ok_start _ _ _ Hr). apply recycle_bump in Hr as (Hok & Hd & Hl). cbn.
    rewrite (u64_small (p_current s + 1)), Z.add_simpl_r, u64_small by lia.
    eexists _, _. split; [done|]. cbn. split_and!; try done; try lia.
Qed.

Lemma PidAllocator_dealloc_spec s x :
  0 <= x ->
  PidAllocator_dealloc x s =
  if decide (pid_live s x)
  then Ret tt {| p_current := p_current s; p_recycled := p_recycled s ++ [x] |}
  else Panic Assert.
Proof.
  intros Hx. unfold PidAllocator_dealloc. rewrite bind_get.
  destruct (Z.ltb_spec x (p_current s)) as [Hlt|Hge].
  - rewrite bind_assert by done. rewrite existsb_eqb_elem. case_decide as Hl.
    + rewrite bool_decide_eq_false_2 by apply Hl. done.
    + rewrite bool_decide_eq_true_2; [done|].
      apply dec_stable. intros Hn. apply Hl. by split.
  - rewrite decide_False; [done|]. intros [? _]. lia.
Qed.

(** What holders of [PidHandle]s can do. *)
Inductive pids_reach : nat -> PidAllocator -> gset Z -> Prop :=
  | pids_init : pids_reach 0 PidAllocator_new ∅
  | pids_alloc n s owned pid s' :
      pids_reach n s owned -> pid_alloc s = Ret pid s' -> pids_reach (S n) s' ({[pid]} ∪ owned)
  | pids_drop n s owned pid s' :
      pids_reach n s owned -> pid ∈ owned -> PidHandle_drop pid s = Ret tt s' ->
      pids_reach n s' (owned ∖ {[pid]}).

Lemma pids_reach_ok n s owned :
  pids_reach n s owned -> Z.of_nat n < 2 ^ 64 ->
  pid_ok s /\ p_current s <= Z.of_nat n /\ forall x, x ∈ owned <-> pid_live s x.
Proof.
  induction 1 as [|n s owned pid s' _ IH E|n s owned pid s' _ IH Hx E]; intros Hn.
  - split_and!; [split; [apply recycle_ok_init|done]|done|].
    intros x. split; [set_solver|]. intros [? _]. cbn in *. lia.
  - destruct IH as (Hok & Hc & Ho); [lia|].
    destruct (PidAllocator_alloc_ok s Hok ltac:(lia)) as (y & s1 & E1 & Hok' & _ & Hc' & Hl).
    unfold pid_alloc in E. rewrite E1 in E. injection E as <- <-.
    split_and!; [done|lia|]. intros x. rewrite Hl, elem_of_union, elem_of_singleton, Ho. done.
  - destruct IH as (Hok & Hc & Ho); [lia|]. apply Ho in Hx.
    unfold PidHandle_drop in E. rewrite PidAllocator_dealloc_spec, decide_True in E by (done || apply Hx).
    injection E as <-. destruct (recycle_push _ _ _ _ (pid_recycle _ Hok) Hx) as [Hok' Hl].
    split_and!; [split; [done|apply Hok]|done|]. intros x.
    unfold pid_live. cbn. rewrite Hl, elem_of_difference, elem_of_singleton, Ho. unfold pid_live. tauto.
Qed.

(** ** Stacks *)

(** Stack [pid] and the guard page under it. *)
Definition stack_region (pid : Z) : Z * Z :=
  (fst (kernel_stack_position pid) - PAGE_SIZE, snd (kernel_stack_position pid)).

(** Identifiers whose stacks are in the upper half of the Sv39 address space. *)
Definition MAX_STACKS : Z := 2 ^ 38 / (KERNEL_STACK_SIZE + PAGE_SIZE) - 1.

Lemma kernel_stack_position_eq pid :
  0 <= pid < MAX_STACKS ->
  kernel_stack_position pid = (2 ^ 64 - 4096 - 12288 * pid - 8192, 2 ^ 64 - 4096 - 12288 * pid).
Proof.
  intros Hp. assert (MAX_STACKS = 22369620) as E by done. rewrite E in Hp.
  unfold kernel_stack_position. change TRAMPOLINE with (2 ^ 64 - 4096).
  change (u64 (KERNEL_STACK_SIZE + PAGE_SIZE)) with 12288. unfold KERNEL_STACK_SIZE.
  rewrite !(u64_small (12288 * pid)), !u64_small by (rewrite ?u64_small; lia).
  f_equal; lia.
Qed.

(** C26. After any history of identifier allocations and drops, an allocation gives an identifier no
    live handle has, below the number of allocations; dropping a live handle succeeds and a second
    drop panics. *)
Theorem pids_exclusive n s owned :
  Z.of_nat n + 1 < 2 ^ 64 -> pids_reach n s owned ->
  (exists pid s', pid_alloc s = Ret pid s' /\ pid ∉ owned /\ 0 <= pid <= Z.of_nat n) /\
  (forall pid, pid ∈ owned -> exists s', PidHandle_drop pid s = Ret tt s') /\
  (forall pid, 0 <= pid -> pid ∉ owned -> PidHandle_drop pid s = Panic Assert).
Proof.
  intros Hn Hr. destruct (pids_reach_ok _ _ _ Hr ltac:(lia)) as (Hok & Hc & Ho). split_and!.
  - destruct (PidAllocator_alloc_ok s Hok ltac:(lia)) as (x & s' & E & Hok' & Hd & Hc' & Hl).
    exists x, s'. unfold pid_alloc. rewrite E, Ho. split_and!; try done.
    + apply (Hl x). by left.
    + assert (pid_live s' x) as [? _] by (apply Hl; by left). lia.
  - intros x Hx%Ho. unfold PidHandle_drop. rewrite PidAllocator_dealloc_spec by apply Hx.
    rewrite decide_True by done. eauto.
  - intros x Hx Hn'. unfold PidHandle_drop. rewrite PidAllocator_dealloc_spec by done.
    rewrite decide_False; [done|]. by rewrite <- Ho.
Qed.

Lemma pids_exclusive_witness :
  PidHandle_drop 7 {| p_current := 1; p_recycled := [] |} = Panic Assert.
Proof.
  assert (H : pids_reach 1 {| p_current := 1; p_recycled := [] |} ({[0]} ∪ ∅))
    by exact (pids_alloc 0 _ _ 0 _ pids_init eq_refl).
  apply (pids_exclusive 1 _ _ ltac:(lia) H); [lia|set_solver].
Defined.

(** The kernel stacks of two live processes, guard pages included, are page-aligned, below the
    trampoline, in the upper half of the address space, and do not overlap. *)
Theorem kernel_stacks_disjoint n s owned pid pid' :
  Z.of_nat n < MAX_STACKS -> pids_reach n s owned -> pid ∈ owned -> pid' ∈ owned -> pid <> pid' ->
  snd (stack_region pid) <= TRAMPOLINE /\
  2 ^ 64 - 2 ^ 38 <= fst (stack_region pid) /\
  fst (stack_region pid) mod PAGE_SIZE = 0 /\ snd (stack_region pid) mod PAGE_SIZE = 0 /\
  snd (stack_region pid) - fst (stack_region pid) = KERNEL_STACK_SIZE + PAGE_SIZE /\
  (snd (stack_region pid) <= fst (stack_region pid') \/ snd (stack_region pid') <= fst (stack_region pid)).
Proof.
  intros Hn Hr Hp Hp' Hne. assert (MAX_STACKS = 22369620) as EM by done.
  destruct (pids_reach_ok _ _ _ Hr ltac:(lia)) as (Hok & Hc & Ho).
  apply Ho in Hp as [Hp _]. apply Ho in Hp' as [Hp' _].
  unfold stack_region. rewrite !kernel_stack_position_eq by lia.
  change TRAMPOLINE with (2 ^ 64 - 4096). unfold PAGE_SIZE, KERNEL_STACK_SIZE. cbn [fst snd].
  rewrite EM in *. split_and!; try lia; Z.to_euclidean_division_equations; lia.
Qed.

Lemma kernel_stacks_disjoint_witness :
  snd (stack_region 1) <= fst (stack_region 0) \/ snd (stack_region 0) <= fst (stack_region 1).
Proof.
  assert (H : pids_reach 2 {| p_current := 2; p_recycled := [] |} ({[1]} ∪ ({[0]} ∪ ∅)))
    by exact (pids_alloc 1 _ _ 1 _ (pids_alloc 0 _ _ 0 _ pids_init eq_refl) eq_refl).
  apply (kernel_stacks_disjoint 2 _ _ 1 0 ltac:(vm_compute; reflexivity) H); [set_solver..|lia].
Defined.
