(* ===== verification/MemorySet.v ===== *)
(** Address spaces: [os/src/mm/memory_set.rs].

    A [MemorySet] owns a page table and logical areas; a framed area owns one
    frame per page.  The linker-script symbols are arguments of [new_kernel] and
    [map_trampoline]; the ELF parser (the [xmas_elf] crate) is a parameter of
    [from_elf]. *)
From stdpp Require Import sorting.
From S2P Require Import Prelude Address FrameAllocator PageTable Pid.

Definition USER_STACK_SIZE : Z := 4096 * 2.

Inductive MapType := Identical | Framed.

Module MapPermission.
Definition R : Z := Z.shiftl 1 1.
Definition W : Z := Z.shiftl 1 2.
Definition X : Z := Z.shiftl 1 3.
Definition U : Z := Z.shiftl 1 4.
End MapPermission.

Record MapArea := {
  vpn_range : VPNRange;
  data_frames : gmap Z Z;
  map_type : MapType;
  map_perm : Z;
}.

Record MemorySet := { page_table : PageTable; areas : list MapArea }.

Definition set_data_frames (d : gmap Z Z) (self : MapArea) : MapArea :=
  {| vpn_range := vpn_range self; data_frames := d; map_type := map_type self; map_perm := map_perm self |}.
Definition set_vpn_range (r : VPNRange) (self : MapArea) : MapArea :=
  {| vpn_range := r; data_frames := data_frames self; map_type := map_type self; map_perm := map_perm self |}.

Definition MapArea_new {S} (start_va end_va : Z) (ty : MapType) (perm : Z) : M S MapArea :=
  let! r := SimpleRange_new (VirtAddr.floor start_va) (VirtAddr.ceil end_va) in
  ret {| vpn_range := r; data_frames := ∅; map_type := ty; map_perm := perm |}.

Definition from_another {S} (another : MapArea) : M S MapArea :=
  let! r := SimpleRange_new (range_start (vpn_range another)) (range_end (vpn_range another)) in
  ret {| vpn_range := r; data_frames := ∅; map_type := map_type another;
         map_perm := map_perm another |}.

(** The frames of a [BTreeMap<VirtPageNum, FrameTracker>] in the order its drop
    visits them. *)
Definition key_le (x y : Z * Z) : Prop := x.1 <= y.1.
#[global] Instance key_le_dec x y : Decision (key_le x y).
Proof. unfold key_le. apply _. Defined.
Definition frames_in_order (d : gmap Z Z) : list Z :=
  snd <$> merge_sort key_le (map_to_list d).

(** Bytes of a page, and the page whose bytes start with [src]. *)
Definition page_bytes (p : list Z) : list Z := p ≫= le_bytes 8.
Fixpoint words_of (n : nat) (bs : list Z) : list Z :=
  match n with
  | O => []
  | S n => of_le (take 8 bs) :: words_of n (drop 8 bs)
  end.
Definition write_page_bytes (p src : list Z) : list Z :=
  words_of WORDS_PER_PAGE (splice (page_bytes p) 0 src).

Section memory_set.
Context {T : Type} `{FrameAllocator T}.

Definition map_one (self : MapArea) (pt : PageTable) (vpn : Z) : M (mem T) (MapArea * PageTable) :=
  let! '(self', ppn) :=
    match map_type self with
    | Identical => ret (self, vpn)
    | Framed =>
        let! o := frame_alloc in
        let! frame := unwrap o in
        (* [BTreeMap::insert] drops the value it replaces *)
        match data_frames self !! vpn with
        | Some old => FrameTracker_drop old
        | None => ret tt
        end ;;;
        ret (set_data_frames (<[vpn := frame]> (data_frames self)) self, frame)
    end in
  (* [PTEFlags::from_bits] never fails: all eight bits are flags *)
  let! pt' := map pt vpn ppn (map_perm self) in
  ret (self', pt').

Definition unmap_one (self : MapArea) (pt : PageTable) (vpn : Z) : M (mem T) MapArea :=
  let! self' :=
    match map_type self with
    | Identical => ret self
    | Framed =>
        let! frame := unwrap (data_frames self !! vpn) in
        FrameTracker_drop frame ;;;
        ret (set_data_frames (delete vpn (data_frames self)) self)
    end in
  unmap pt vpn ;;;
  ret self'.

Fixpoint map_pages (l : list Z) (self : MapArea) (pt : PageTable) : M (mem T) (MapArea * PageTable) :=
  match l with
  | [] => ret (self, pt)
  | vpn :: l => let! '(self', pt') := map_one self pt vpn in map_pages l self' pt'
  end.
Fixpoint unmap_pages (l : list Z) (self : MapArea) (pt : PageTable) : M (mem T) MapArea :=
  match l with
  | [] => ret self
  | vpn :: l => let! self' := unmap_one self pt vpn in unmap_pages l self' pt
  end.

Definition MapArea_map (self : MapArea) (pt : PageTable) : M (mem T) (MapArea * PageTable) :=
  map_pages (range_pages (vpn_range self)) self pt.
Definition MapArea_unmap (self : MapArea) (pt : PageTable) : M (mem T) MapArea :=
  unmap_pages (range_pages (vpn_range self)) self pt.

(** [copy_data]: one page per turn, [start] bytes done; fuel for [len / PAGE_SIZE + 1]
    turns is enough, the loop stops at [start >= len]. *)
Fixpoint copy_data_loop (fuel : nat) (pt : PageTable) (data : list Z) (start current_vpn : Z) :
    M (mem T) unit :=
  match fuel with
  | O => fail Fuel
  | S fuel =>
      let len := Z.of_nat (length data) in
      let src := slice data (Z.to_nat start) (Z.to_nat (Z.min len (start + PAGE_SIZE) - start)) in
      let! o := translate pt current_vpn in
      let! pte := unwrap o in
      let ppn := PageTableEntry.ppn pte in
      modify (fun m => set_page ppn (write_page_bytes (page m ppn) src) m) ;;;
      let start' := start + PAGE_SIZE in
      if len <=? start' then ret tt
      else copy_data_loop fuel pt data start' (VirtPageNum.step current_vpn)
  end.
Definition copy_data (self : MapArea) (pt : PageTable) (data : list Z) : M (mem T) unit :=
  assert (match map_type self with Framed => true | Identical => false end) ;;;
  copy_data_loop (S (length data)) pt data 0 (range_start (vpn_range self)).

Definition shrink_to (self : MapArea) (pt : PageTable) (new_end : Z) : M (mem T) MapArea :=
  let! r := SimpleRange_new new_end (range_end (vpn_range self)) in
  let! self' := unmap_pages (range_pages r) self pt in
  let! r' := SimpleRange_new (range_start (vpn_range self')) new_end in
  ret (set_vpn_range r' self').

Definition append_to (self : MapArea) (pt : PageTable) (new_end : Z) : M (mem T) (MapArea * PageTable) :=
  let! r := SimpleRange_new (range_end (vpn_range self)) new_end in
  let! '(self', pt') := map_pages (range_pages r) self pt in
  let! r' := SimpleRange_new (range_start (vpn_range self')) new_end in
  ret (set_vpn_range r' self', pt').

Definition new_bare : M (mem T) MemorySet :=
  let! pt := PageTable_new in
  ret {| page_table := pt; areas := [] |}.

Definition push (self : MemorySet) (map_area : MapArea) (data : option (list Z)) : M (mem T) MemorySet :=
  let! '(map_area', pt) := MapArea_map map_area (page_table self) in
  match data with
  | Some data => copy_data map_area' pt data
  | None => ret tt
  end ;;;
  ret {| page_table := pt; areas := areas self ++ [map_area'] |}.

Definition insert_framed_area (self : MemorySet) (start_va end_va perm : Z) : M (mem T) MemorySet :=
  let! area := MapArea_new start_va end_va Framed perm in
  push self area None.

Definition map_trampoline (strampoline : Z) (self : MemorySet) : M (mem T) MemorySet :=
  let! vpn := VirtPageNum.from_va (VirtAddr.from_usize TRAMPOLINE) in
  let! ppn := PhysPageNum.from_pa (PhysAddr.from_usize strampoline) in
  let! pt := map (page_table self) vpn ppn (Z.lor PTEFlags.R PTEFlags.X) in
  ret {| page_table := pt; areas := areas self |}.

Definition MemorySet_translate (self : MemorySet) (vpn : Z) : M (mem T) (option Z) :=
  translate (page_table self) vpn.
Definition MemorySet_token (self : MemorySet) : Z := token (page_table self).

(** Dropping an area drops its frames; after [unmap] none are left. *)
Definition MapArea_drop (self : MapArea) : M (mem T) unit :=
  drop_frames (frames_in_order (data_frames self)).

Definition remove_area_with_start_vpn (self : MemorySet) (start_vpn : Z) : M (mem T) MemorySet :=
  match find_index (fun area => range_start (vpn_range area) =? start_vpn) (areas self) with
  | None => ret self
  | Some idx =>
      let! area := unwrap (areas self !! idx) in
      let! area' := MapArea_unmap area (page_table self) in
      MapArea_drop area' ;;;
      ret {| page_table := page_table self; areas := delete idx (areas self) |}
  end.

(** [for vpn in area.vpn_range]: copy every page of the area. *)
Fixpoint copy_pages (l : list Z) (src dst : MemorySet) : M (mem T) unit :=
  match l with
  | [] => ret tt
  | vpn :: l =>
      let! o := MemorySet_translate src vpn in
      let! src_pte := unwrap o in
      let! o' := MemorySet_translate dst vpn in
      let! dst_pte := unwrap o' in
      modify (fun m => set_page (PageTableEntry.ppn dst_pte) (page m (PageTableEntry.ppn src_pte)) m) ;;;
      copy_pages l src dst
  end.
Fixpoint copy_areas (l : list MapArea) (src dst : MemorySet) : M (mem T) MemorySet :=
  match l with
  | [] => ret dst
  | area :: l =>
      let! new_area := from_another area in
      let! dst' := push dst new_area None in
      copy_pages (range_pages (vpn_range area)) src dst' ;;;
      copy_areas l src dst'
  end.
Definition from_existed_user (strampoline : Z) (user_space : MemorySet) : M (mem T) MemorySet :=
  let! memory_set := new_bare in
  let! memory_set := map_trampoline strampoline memory_set in
  copy_areas (areas user_space) user_space memory_set.

(** Addresses the linker script defines. *)
Record linker := {
  stext : Z; etext : Z; srodata : Z; erodata : Z; sdata : Z; edata : Z;
  sbss_with_stack : Z; ebss : Z; ekernel : Z; strampoline : Z;
}.
Definition MMIO : list (Z * Z) := [(0x00100000, 0x002000); (0x10001000, 0x001000)].

(** [memory_set.push(MapArea::new(start.into(), end.into(), ty, perm), None)] *)
Definition push_range (start end_ : Z) (ty : MapType) (perm : Z) (self : MemorySet) :
    M (mem T) MemorySet :=
  let! area := MapArea_new (VirtAddr.from_usize start) (VirtAddr.from_usize end_) ty perm in
  push self area None.
Fixpoint push_ranges (l : list (Z * Z * Z)) (self : MemorySet) : M (mem T) MemorySet :=
  match l with
  | [] => ret self
  | (start, end_, perm) :: l =>
      let! self' := push_range start end_ Identical perm self in push_ranges l self'
  end.

Definition kernel_sections (k : linker) : list (Z * Z * Z) :=
  [ (stext k, etext k, Z.lor MapPermission.R MapPermission.X);
    (srodata k, erodata k, MapPermission.R);
    (sdata k, edata k, Z.lor MapPermission.R MapPermission.W);
    (sbss_with_stack k, ebss k, Z.lor MapPermission.R MapPermission.W);
    (ekernel k, MEMORY_END, Z.lor MapPermission.R MapPermission.W) ] ++
  ((fun pair => (pair.1, u64 (pair.1 + pair.2), Z.lor MapPermission.R MapPermission.W)) <$> MMIO).

(** What is printed: the bounds of the sections, and a line before each push. *)
Definition section_line (name : string) (start end_ : Z) : list Z :=
  bytes_of name ++ bytes_of " [" ++ alt_hex start ++ bytes_of ", " ++ alt_hex end_ ++ bytes_of ")".
Definition new_kernel_lines (k : linker) : list (list Z) :=
  [ section_line ".text" (stext k) (etext k); section_line ".rodata" (srodata k) (erodata k);
    section_line ".data" (sdata k) (edata k); section_line ".bss" (sbss_with_stack k) (ebss k);
    bytes_of "mapping .text section"; bytes_of "mapping .rodata section"; bytes_of "mapping .data section";
    bytes_of "mapping .bss section"; bytes_of "mapping physical memory"; bytes_of "mapping memory-mapped registers" ].
(** The sections in the source's order, then the device registers; with the lines that are printed. *)
Definition new_kernel (k : linker) : M (mem T) (MemorySet * list (list Z)) :=
  let! memory_set := new_bare in
  let! memory_set := map_trampoline (strampoline k) memory_set in
  let! memory_set := push_ranges (kernel_sections k) memory_set in
  ret (memory_set, new_kernel_lines k).

(** The start-up check of the kernel's permissions, with the line it prints; [(a + b) / 2] of the bounds of a section. *)
Definition middle (start end_ : Z) : Z := VirtAddr.from_usize (u64 (start + end_) / 2).
Definition remap_entry (kernel_space : MemorySet) (va : Z) : M (mem T) Z :=
  let! o := translate (page_table kernel_space) (VirtAddr.floor va) in unwrap o.
Definition remap_test (k : linker) (kernel_space : MemorySet) : M (mem T) (list Z) :=
  let! text := remap_entry kernel_space (middle (stext k) (etext k)) in
  assert (negb (PageTableEntry.writable text)) ;;;
  let! rodata := remap_entry kernel_space (middle (srodata k) (erodata k)) in
  assert (negb (PageTableEntry.writable rodata)) ;;;
  let! data := remap_entry kernel_space (middle (sdata k) (edata k)) in
  assert (negb (PageTableEntry.executable data)) ;;;
  ret (bytes_of "remap_test passed!").

Definition kernel_token (kernel_space : MemorySet) : Z := MemorySet_token kernel_space.

(** *** Loading a program *)

(** What [from_elf] reads of a program header: [get_type] can fail. *)
Record ProgramHeader := {
  ph_load : option bool;       (* [get_type()], and whether it is [Type::Load] *)
  virtual_addr : Z; mem_size : Z; offset : Z; file_size : Z;
  is_read : bool; is_write : bool; is_execute : bool;
}.
Record ElfFile := {
  magic : list Z;
  program_headers : list (option ProgramHeader);  (* [program_header(i)] for [i < ph_count] *)
  entry_point : Z;
}.

Definition ph_perm (ph : ProgramHeader) : Z :=
  let p := MapPermission.U in
  let p := if is_read ph then Z.lor p MapPermission.R else p in
  let p := if is_write ph then Z.lor p MapPermission.W else p in
  if is_execute ph then Z.lor p MapPermission.X else p.

(** [&elf.input[lo..hi]] *)
Definition subslice {S} (l : list Z) (lo hi : Z) : M S (list Z) :=
  if (lo <=? hi) && (hi <=? Z.of_nat (length l))
  then ret (slice l (Z.to_nat lo) (Z.to_nat (hi - lo))) else fail Bounds.

Fixpoint load_segments (elf_data : list Z) (l : list (option ProgramHeader)) (max_end_vpn : Z)
    (self : MemorySet) : M (mem T) (Z * MemorySet) :=
  match l with
  | [] => ret (max_end_vpn, self)
  | o :: l =>
      let! ph := unwrap o in
      let! load := unwrap (ph_load ph) in
      if (load : bool) then
        let start_va := VirtAddr.from_usize (virtual_addr ph) in
        let end_va := VirtAddr.from_usize (u64 (virtual_addr ph + mem_size ph)) in
        let! map_area := MapArea_new start_va end_va Framed (ph_perm ph) in
        let! data := subslice elf_data (offset ph) (u64 (offset ph + file_size ph)) in
        let! self' := push self map_area (Some data) in
        load_segments elf_data l (range_end (vpn_range map_area)) self'
      else load_segments elf_data l max_end_vpn self
  end.

Definition user_perm : Z := Z.lor (Z.lor MapPermission.R MapPermission.W) MapPermission.U.

(** [elf_parse] is [xmas_elf::ElfFile::new]. *)
Definition from_elf (elf_parse : list Z -> option ElfFile) (strampoline : Z) (elf_data : list Z) :
    M (mem T) (MemorySet * Z * Z) :=
  let! ms := new_bare in
  let! ms := map_trampoline strampoline ms in
  let! elf := unwrap (elf_parse elf_data) in
  assert (bool_decide (magic elf = [0x7f; 0x45; 0x4c; 0x46])) ;;;
  let! '(max_end_vpn, ms) := load_segments elf_data (program_headers elf) 0 ms in
  let max_end_va := VirtAddr.from_vpn max_end_vpn in
  let user_stack_bottom := u64 (VirtAddr.into_usize max_end_va + PAGE_SIZE) in
  let user_stack_top := u64 (user_stack_bottom + USER_STACK_SIZE) in
  let! ms := push_range user_stack_bottom user_stack_top Framed user_perm ms in
  let! ms := push_range user_stack_top user_stack_top Framed user_perm ms in
  let! ms := push_range TRAP_CONTEXT TRAMPOLINE Framed (Z.lor MapPermission.R MapPermission.W) ms in
  ret (ms, user_stack_top, entry_point elf).

(** [areas.clear()] drops the areas in order; the page table stays as it is. *)
Definition recycle_data_pages (self : MemorySet) : M (mem T) MemorySet :=
  for_each (areas self) MapArea_drop ;;;
  ret {| page_table := page_table self; areas := [] |}.

(** Dropping a [MemorySet] drops the page table, then the areas. *)
Definition MemorySet_drop (self : MemorySet) : M (mem T) unit :=
  PageTable_drop (page_table self) ;;; for_each (areas self) MapArea_drop.
End memory_set.

(** ** Invariant *)

Definition in_area (area : MapArea) (vpn : Z) : Prop :=
  range_l (vpn_range area) <= vpn < range_r (vpn_range area).
Definition area_frames (area : MapArea) : list Z := snd <$> map_to_list (data_frames area).
Definition leaf_pte (perm ppn : Z) : Z := PageTableEntry.new ppn (Z.lor perm PTEFlags.V).

(** The entry the page table must have for a page of the area. *)
Definition area_pte (area : MapArea) (vpn : Z) : option Z :=
  match map_type area with
  | Identical => Some (leaf_pte (map_perm area) vpn)
  | Framed => leaf_pte (map_perm area) <$> data_frames area !! vpn
  end.

Record area_ok (a : gmap Z Z) (area : MapArea) : Prop := {
  ar_range : 0 <= range_l (vpn_range area) <= range_r (vpn_range area);
  ar_top : range_r (vpn_range area) <= 2 ^ 27;
  ar_perm : 0 <= map_perm area < 256;
  ar_frames : match map_type area with
              | Identical => data_frames area = ∅
              | Framed => forall vpn, is_Some (data_frames area !! vpn) <-> in_area area vpn
              end;
  ar_map vpn : in_area area vpn -> a !! vpn = area_pte area vpn;
}.

Definition areas_frames (l : list MapArea) : list Z := l ≫= area_frames.
(** The frames a memory set owns: page-table nodes and data. *)
Definition footprint (ms : MemorySet) : list Z :=
  frames (page_table ms) ++ areas_frames (areas ms).

Definition disjoint_areas (A B : MapArea) : Prop := forall vpn, in_area A vpn -> ~ in_area B vpn.

Section invariant.
Context {T : Type} `{FAL : FrameAllocatorLaws T}.
Implicit Types (m : mem T) (ms : MemorySet) (a : gmap Z Z).

Record ms_ok m ms a : Prop := {
  ms_rep : represents m (page_table ms) a;
  ms_nodup : NoDup (footprint ms);
  ms_live : Forall (fa_live (falloc m)) (footprint ms);
  ms_len : Forall (fun f => length (page m f) = WORDS_PER_PAGE) (areas_frames (areas ms));
  ms_areas : Forall (area_ok a) (areas ms);
  ms_disj i j A B : areas ms !! i = Some A -> areas ms !! j = Some B -> i <> j -> disjoint_areas A B;
}.

(** A memory set depends only on its own frames. *)
Lemma ms_ok_frame m m' ms a :
  ms_ok m ms a -> fa_ok (falloc m') ->
  (forall y, y ∈ footprint ms -> fa_live (falloc m') y /\ page m' y = page m y) ->
  ms_ok m' ms a.
Proof.
  intros [Hr Hn Hl Hlen Ha Hd] Hok Hf. split; try done.
  - apply (represents_frame m); [done|done|]. intros y Hy. apply Hf, elem_of_app. by left.
  - apply Forall_forall. intros y Hy. by apply Hf.
  - rewrite Forall_forall in Hlen |- *. intros y Hy.
    rewrite (proj2 (Hf y ltac:(apply elem_of_app; by right))). by apply Hlen.
Qed.

(** Another holder's step keeps it. *)
Lemma ms_ok_step m fp m' fp' ms a :
  ms_ok m ms a -> frame_step m fp m' fp' -> (forall y, y ∈ footprint ms -> y ∉ fp) ->
  ms_ok m' ms a /\ (forall y, y ∈ footprint ms -> y ∉ fp') /\
  (forall y, y ∈ footprint ms -> page m' y = page m y).
Proof.
  intros Hms Hs Hd. pose proof (ms_live _ _ _ Hms) as Hl. rewrite Forall_forall in Hl.
  assert (Ho : forall y, y ∈ footprint ms ->
    fa_live (falloc m') y /\ page m' y = page m y /\ y ∉ fp')
    by (intros y Hy; exact (frame_step_other _ _ _ _ y Hs (Hl y Hy) (Hd y Hy))).
  split_and!; [|intros y Hy; by apply Ho..].
  apply (ms_ok_frame m); [done|apply Hs|]. intros y Hy. destruct (Ho y Hy) as (? & ? & _). done.
Qed.

(** ** Mapping pages *)

Lemma map_one_framed area pt m a vpn :
  represents m pt a -> map_type area = Framed -> 0 <= map_perm area < 256 -> vpn_ok vpn ->
  data_frames area !! vpn = None ->
  match map_one area pt vpn m with
  | Ret (area', pt') m' => exists f,
      area' = set_data_frames (<[vpn := f]> (data_frames area)) area /\ a !! vpn = None /\
      represents m' pt' (<[vpn := leaf_pte (map_perm area) f]> a) /\
      frame_step m (frames pt) m' (f :: frames pt') /\ f ∉ frames pt' /\
      page m' f = zero_page /\ 0 <= f < 2 ^ 44 /\ frames pt ⊆ frames pt' /\
      (fa_avail (falloc m) <= 3 + fa_avail (falloc m'))%nat
  | Panic Assert => a !! vpn <> None
  | Panic Unwrap => (fa_avail (falloc m) < 3)%nat
  | Panic _ => False
  end.
Proof.
  intros Hrep Ht Hp Hv Hd. destruct (represents_live _ _ _ Hrep) as (Hok & _ & Hl).
  unfold map_one. rewrite Ht, Hd. pose proof (frame_alloc_avail m Hok) as Hav.
  destruct (frame_alloc_returns m) as ([f|] & m1 & E); rewrite E in Hav.
  2:{ unfold bind at 1, bind at 1. rewrite E. cbn. lia. }
  destruct (frame_alloc_step m f m1 (frames pt) Hok Hl E) as (S1 & Hf & Hz & Hb).
  assert (Hrep1 : represents m1 pt a).
  { apply (represents_frame m); [done|apply S1|]. intros y Hy.
    destruct (frame_alloc_Some m f m1 Hok E) as (_ & _ & _ & Hlv & _ & Hpg).
    rewrite Forall_forall in Hl. split; [apply Hlv; auto|apply Hpg; by intros ->]. }
  unfold bind at 1, bind at 1. rewrite E. unfold bind at 1, bind at 1. cbn.
  pose proof (map_run m1 pt a vpn f (map_perm area) Hrep1 Hv Hb Hp) as Hm. unfold bind.
  destruct (map pt vpn f (map_perm area) m1) as [pt2 m2|[]] eqn:E2; try done.
  2:{ destruct Hm as [_ Hm]. lia. }
  pose proof (map_step _ _ _ _ _ _ _ _ Hrep1 Hv Hb Hp E2) as S2.
  destruct Hm as (Ha & Hrep2 & _ & Hsub & _ & _ & _ & Hav2).
  assert (Hlf : fa_live (falloc m1) f) by (apply S1; left; set_solver).
  destruct (frame_step_other _ _ _ _ f S2 Hlf Hf) as (Hlf2 & Hz2 & Hf2).
  exists f. split_and!; try done; try lia; [|by rewrite Hz2].
  eapply frame_step_trans; [exact S1|].
  eapply frame_step_Permutation; [..|apply (frame_step_frame _ _ _ _ [f] S2)].
  - intros y. rewrite elem_of_app, elem_of_cons, list_elem_of_singleton. tauto.
  - intros y. rewrite elem_of_app, elem_of_cons, list_elem_of_singleton. tauto.
  - by apply Forall_singleton.
  - by intros y ->%list_elem_of_singleton.
Qed.
Lemma map_pages_framed l area pt m a :
  represents m pt a -> map_type area = Framed -> 0 <= map_perm area < 256 -> Forall vpn_ok l ->
  NoDup l -> (forall vpn, vpn ∈ l -> data_frames area !! vpn = None) ->
  match map_pages l area pt m with
  | Ret (area', pt') m' => exists fs, length fs = length l /\
      area' = set_data_frames (list_to_map (zip l fs) ∪ data_frames area) area /\
      (forall vpn, vpn ∈ l -> a !! vpn = None) /\
      represents m' pt' (list_to_map (zip l (leaf_pte (map_perm area) <$> fs)) ∪ a) /\
      frame_step m (frames pt) m' (fs ++ frames pt') /\ NoDup (fs ++ frames pt') /\
      Forall (fun f => page m' f = zero_page) fs /\ frames pt ⊆ frames pt'
  | Panic Assert => exists vpn, vpn ∈ l /\ a !! vpn <> None
  | Panic Unwrap => (fa_avail (falloc m) < 3 * length l)%nat
  | Panic _ => False
  end /\
  (fa_avail (falloc m) <= 3 * length l + match map_pages l area pt m with
    | Ret _ m' => fa_avail (falloc m') | Panic _ => fa_avail (falloc m) end)%nat.
Proof.
  revert area pt m a. induction l as [|vpn l IH]; intros area pt m a Hrep Ht Hp Hl Hnd Hd.
  { cbn. split; [|lia]. exists []. destruct (represents_live _ _ _ Hrep) as (Hok & Hn & Hlv).
    split_and!; try done; [|by intros ? ?%elem_of_nil|by rewrite (left_id_L ∅ (∪))|by apply frame_step_refl].
    destruct area; unfold set_data_frames; cbn. by rewrite (left_id_L ∅ (∪)). }
  apply Forall_cons in Hl as [Hv Hl]. apply NoDup_cons in Hnd as [Hvl Hnd].
  pose proof (map_one_framed area pt m a vpn Hrep Ht Hp Hv (Hd vpn ltac:(set_solver))) as H1.
  cbn [map_pages]. unfold bind at 1 2.
  destruct (map_one area pt vpn m) as [[area1 pt1] m1|p].
  2:{ split; [|lia]. destruct p; try done; [cbn; lia|]. exists vpn. split; [set_solver|done]. }
  destruct H1 as (f & -> & Ha & Hrep1 & S1 & Hf & Hz & _ & Hsub & Hav).
  specialize (IH (set_data_frames (<[vpn := f]> (data_frames area)) area) pt1 m1 _ Hrep1 Ht Hp Hl Hnd).
  cbn [data_frames set_data_frames map_perm] in IH.
  destruct IH as [IH Hav2].
  { intros w Hw. rewrite lookup_insert_ne by (intros ->; done). apply Hd. set_solver. }
  split; [|destruct (map_pages l _ pt1 m1); cbn; lia].
  destruct (map_pages l _ pt1 m1) as [[area2 pt2] m2|p].
  2:{ destruct p; try done; [cbn; lia|]. destruct IH as (w & Hw & Hne). exists w.
      split; [set_solver|]. by rewrite lookup_insert_ne in Hne by (intros ->; done). }
  destruct IH as (fs & Hlen & -> & Hn & Hrep2 & S2 & Hnd2 & Hz2 & Hsub2).
  assert (Hlf : fa_live (falloc m1) f) by (apply S1; left; set_solver).
  destruct (frame_step_other _ _ _ _ f S2 Hlf Hf) as (Hlf2 & Hpf & Hf2).
  exists (f :: fs). split; [cbn; lia|]. split; [|split; [|split; [|split; [|split; [|split]]]]].
  - unfold set_data_frames. cbn. f_equal.
    rewrite <- insert_union_l, <- insert_union_r; [done|].
    apply not_elem_of_list_to_map_1. rewrite fst_zip by lia. done.
  - intros w [->|Hw]%elem_of_cons; [done|]. specialize (Hn w Hw).
    by rewrite lookup_insert_ne in Hn by (intros ->; done).
  - cbn. rewrite <- insert_union_l. rewrite insert_union_r; [done|].
    apply not_elem_of_list_to_map_1. rewrite fst_zip by (rewrite length_fmap; lia). done.
  - eapply frame_step_trans; [exact S1|].
    eapply frame_step_Permutation; [| |apply (frame_step_frame _ _ _ _ [f] S2)].
    + intros y. rewrite elem_of_app, elem_of_cons, list_elem_of_singleton. tauto.
    + intros y. cbn. rewrite elem_of_cons, !elem_of_app, list_elem_of_singleton. tauto.
    + by apply Forall_singleton.
    + by intros y ->%list_elem_of_singleton.
  - cbn. by apply NoDup_cons.
  - apply Forall_cons. split; [congruence|done].
  - by transitivity (frames pt1).
Qed.
(** *** Adding an area *)

Lemma list_to_map_zip_fmap (g : Z -> Z) (l fs : list Z) :
  list_to_map (zip l (g <$> fs)) = g <$> (list_to_map (zip l fs) : gmap Z Z).
Proof.
  revert fs. induction l as [|x l IH]; intros [|f fs]; cbn; rewrite ?fmap_empty; try done.
  by rewrite fmap_insert, IH.
Qed.

Lemma zip_map_spec (l fs : list Z) (D : gmap Z Z) :
  length fs = length l -> NoDup l -> D = list_to_map (zip l fs) ->
  snd <$> map_to_list D ≡ₚ fs /\ forall vpn, is_Some (D !! vpn) <-> vpn ∈ l.
Proof.
  intros Hlen Hnd ->. split.
  - rewrite map_to_list_to_map by by rewrite fst_zip by lia. by rewrite snd_zip by lia.
  - intros vpn. rewrite <- elem_of_dom, dom_list_to_map, elem_of_list_to_set.
    by rewrite fst_zip by lia.
Qed.

Lemma areas_frames_snoc l area : areas_frames (l ++ [area]) = areas_frames l ++ area_frames area.
Proof. unfold areas_frames. rewrite bind_app. cbn. by rewrite app_nil_r. Qed.

Lemma area_pages area :
  0 <= range_l (vpn_range area) <= range_r (vpn_range area) -> range_r (vpn_range area) <= 2 ^ 27 ->
  NoDup (range_pages (vpn_range area)) /\
  (forall vpn, vpn ∈ range_pages (vpn_range area) <-> in_area area vpn) /\
  Forall vpn_ok (range_pages (vpn_range area)) /\
  length (range_pages (vpn_range area)) = Z.to_nat (range_r (vpn_range area) - range_l (vpn_range area)).
Proof.
  intros Hr Ht. rewrite range_pages_seqZ by lia. unfold in_area, vpn_ok.
  split_and!; [apply NoDup_seqZ|intros vpn; rewrite elem_of_seqZ; lia| |by rewrite length_seqZ].
  apply Forall_forall. intros vpn Hv%elem_of_seqZ. lia.
Qed.

(** The area [push] appends: the same range with a frame for every page. *)
Record fresh_area (area : MapArea) m' a a' (area' : MapArea) : Prop := {
  fr_range : vpn_range area' = vpn_range area;
  fr_type : map_type area' = Framed;
  fr_perm : map_perm area' = map_perm area;
  fr_ok : area_ok a' area';
  fr_in vpn : in_area area vpn ->
    a !! vpn = None /\ exists f, data_frames area' !! vpn = Some f /\ page m' f = zero_page;
  fr_out vpn : ~ in_area area vpn -> a' !! vpn = a !! vpn;
}.

Lemma MapArea_map_framed m pt a area :
  represents m pt a -> map_type area = Framed -> 0 <= map_perm area < 256 ->
  0 <= range_l (vpn_range area) <= range_r (vpn_range area) -> range_r (vpn_range area) <= 2 ^ 27 ->
  data_frames area = ∅ ->
  match MapArea_map area pt m with
  | Ret (area', pt') m' => exists a', fresh_area area m' a a' area' /\
      represents m' pt' a' /\ frame_step m (frames pt) m' (area_frames area' ++ frames pt') /\
      NoDup (area_frames area' ++ frames pt') /\ frames pt ⊆ frames pt' /\
      Forall (fun f => length (page m' f) = WORDS_PER_PAGE) (area_frames area') /\
      (fa_avail (falloc m) <= 3 * Z.to_nat (range_r (vpn_range area) - range_l (vpn_range area)) +
        fa_avail (falloc m'))%nat
  | Panic Assert => exists vpn, in_area area vpn /\ a !! vpn <> None
  | Panic Unwrap => (fa_avail (falloc m) < 3 * Z.to_nat (range_r (vpn_range area) - range_l (vpn_range area)))%nat
  | Panic _ => False
  end.
Proof.
  intros Hrep Ht Hp Hr Htop Hd. destruct (area_pages area Hr Htop) as (Hnd & Hin & Hv & Hlen).
  unfold MapArea_map.
  destruct (map_pages_framed (range_pages (vpn_range area)) area pt m a Hrep Ht Hp Hv Hnd) as [Hm Hav].
  { intros vpn _. by rewrite Hd. }
  rewrite Hlen in Hm, Hav. destruct (map_pages _ area pt m) as [[area' pt'] m'|p].
  2:{ destruct p; try done. destruct Hm as (vpn & Hvpn & Hne). exists vpn. by rewrite <- Hin. }
  destruct Hm as (fs & Hl & -> & Hnone & Hrep' & S' & Hnd' & Hz & Hsub).
  set (D := list_to_map (zip (range_pages (vpn_range area)) fs) : gmap Z Z).
  rewrite list_to_map_zip_fmap in Hrep'. fold D in Hrep'. rewrite Hd, (right_id_L ∅ (∪)).
  destruct (zip_map_spec _ fs D ltac:(by rewrite Hlen) Hnd eq_refl) as [Hperm Hdom].
  assert (Haf : area_frames (set_data_frames D area) ≡ₚ fs) by exact Hperm.
  exists ((leaf_pte (map_perm area) <$> D) ∪ a).
  assert (Hfr : Forall (fun f => page m' f = zero_page) (area_frames (set_data_frames D area))).
  { by rewrite Haf. }
  split_and!; try done.
  - split; try done; cbn.
    + split; cbn; try done.
      * rewrite Ht. intros vpn. exact (iff_trans (Hdom vpn) (Hin vpn)).
      * intros vpn Hvpn. unfold area_pte. cbn. rewrite Ht. rewrite lookup_union_l'.
        -- by rewrite lookup_fmap.
        -- rewrite lookup_fmap, fmap_is_Some. apply Hdom. by apply Hin.
    + intros vpn Hvpn. split; [by apply Hnone, Hin|]. apply Hin, Hdom in Hvpn as [f Hf].
      exists f. split; [done|]. rewrite Forall_forall in Hfr. apply Hfr.
      apply list_elem_of_fmap. exists (vpn, f).
      split; [done|]. by apply elem_of_map_to_list.
    + intros vpn Hvpn. apply lookup_union_r. rewrite lookup_fmap, fmap_None.
      apply eq_None_not_Some. by intros ?%Hdom%Hin.
  - eapply frame_step_Permutation; [..|exact S']; [done|].
    intros y. rewrite !elem_of_app. by rewrite Haf.
  - by rewrite Haf.
  - eapply Forall_impl; [exact Hfr|]. cbn. by intros f ->.
Qed.
Lemma area_ok_ext a a' area :
  area_ok a area -> (forall vpn, in_area area vpn -> a' !! vpn = a !! vpn) -> area_ok a' area.
Proof.
  intros [Hr Ht Hp Hf Hm] Ha. split; try done. intros vpn Hv. rewrite Ha by done. by apply Hm.
Qed.

Lemma area_mapped a area vpn : area_ok a area -> in_area area vpn -> is_Some (a !! vpn).
Proof.
  intros [Hr Ht Hp Hf Hm] Hv. rewrite Hm by done. unfold area_pte.
  destruct (map_type area); [done|]. apply fmap_is_Some. by apply Hf.
Qed.

Definition pairwise_disjoint (l : list MapArea) : Prop :=
  forall i j A B, l !! i = Some A -> l !! j = Some B -> i <> j -> disjoint_areas A B.

Lemma disjoint_snoc l area :
  pairwise_disjoint l -> (forall A, A ∈ l -> disjoint_areas A area) ->
  pairwise_disjoint (l ++ [area]).
Proof.
  intros Hdj Hn i j A B HA HB Hij.
  apply lookup_snoc_Some in HA as [[Hi HA]|[Hi <-]]; apply lookup_snoc_Some in HB as [[Hj HB]|[Hj <-]].
  - by apply (Hdj i j).
  - by apply Hn, (list_elem_of_lookup_2 _ i).
  - intros vpn H1 H2. by apply (Hn B (list_elem_of_lookup_2 _ j _ HB) vpn).
  - lia.
Qed.

Lemma push_framed m ms a area :
  ms_ok m ms a -> map_type area = Framed -> 0 <= map_perm area < 256 ->
  0 <= range_l (vpn_range area) <= range_r (vpn_range area) -> range_r (vpn_range area) <= 2 ^ 27 ->
  data_frames area = ∅ ->
  match push ms area None m with
  | Ret ms' m' => exists area' a', fresh_area area m' a a' area' /\
      areas ms' = areas ms ++ [area'] /\ ms_ok m' ms' a' /\
      frame_step m (footprint ms) m' (footprint ms') /\
      (forall y, y ∈ areas_frames (areas ms) -> page m' y = page m y) /\
      (forall y, y ∈ area_frames area' -> y ∉ footprint ms) /\
      (fa_avail (falloc m) <= 3 * Z.to_nat (range_r (vpn_range area) - range_l (vpn_range area)) +
        fa_avail (falloc m'))%nat
  | Panic Assert => exists vpn, in_area area vpn /\ a !! vpn <> None
  | Panic Unwrap => (fa_avail (falloc m) < 3 * Z.to_nat (range_r (vpn_range area) - range_l (vpn_range area)))%nat
  | Panic _ => False
  end.
Proof.
  intros [Hrep Hnd Hlv Hlen Har Hdj] Ht Hp Hr Htop Hd. unfold push.
  pose proof (MapArea_map_framed m (page_table ms) a area Hrep Ht Hp Hr Htop Hd) as Hm.
  unfold bind at 1. destruct (MapArea_map area (page_table ms) m) as [[area' pt'] m'|p]; [|done].
  destruct Hm as (a' & Hfr & Hrep' & S1 & Hnd1 & Hsub & Hz & Hav). unfold bind at 1. cbn [ret].
  set (ms' := {| page_table := pt' |}). exists area', a'.
  unfold footprint in Hnd, Hlv. apply NoDup_app in Hnd as (Hnpt & Hx & Hndat).
  apply Forall_app in Hlv as [Hlpt Hldat].
  assert (Hfoot : forall y, y ∈ footprint ms' <->
    y ∈ area_frames area' ++ frames pt' \/ y ∈ areas_frames (areas ms)).
  { intros y. unfold footprint, ms'. cbn [page_table areas]. rewrite areas_frames_snoc, !elem_of_app. tauto. }
  assert (Hother : forall y, y ∈ areas_frames (areas ms) ->
    fa_live (falloc m') y /\ page m' y = page m y /\ y ∉ area_frames area' ++ frames pt').
  { intros y Hy. rewrite Forall_forall in Hldat. apply (frame_step_other _ _ _ _ y S1); [by apply Hldat|].
    intros Hin. by apply (Hx y). }
  assert (Hstep : frame_step m (footprint ms) m' (footprint ms')).
  { eapply frame_step_Permutation; [..|apply (frame_step_frame _ _ _ _ (areas_frames (areas ms)) S1)].
    - done.
    - intros y. rewrite Hfoot, !elem_of_app. tauto.
    - done.
    - intros y Hy Hin. by apply (Hx y). }
  assert (Hfresh : forall y, y ∈ area_frames area' -> y ∉ footprint ms).
  { intros y Hy [Hin|Hin]%elem_of_app.
    - apply NoDup_app in Hnd1 as (_ & Hx1 & _). by apply (Hx1 y Hy), Hsub.
    - destruct (Hother y Hin) as (_ & _ & Hn). apply Hn, elem_of_app. by left. }
  split_and!; try done.
  - split; try done; unfold ms'; cbn [page_table areas]; fold ms'.
    + unfold footprint, ms'. cbn [page_table areas]. rewrite areas_frames_snoc.
      rewrite (Permutation_app_comm (areas_frames (areas ms))), app_assoc,
        (Permutation_app_comm (frames pt')).
      apply NoDup_app. split_and!; [done| |done]. intros y Hy Hin. by apply (Hother y Hin).
    + apply Forall_forall. intros y Hy%Hfoot. apply Hstep. left. by apply Hfoot.
    + rewrite areas_frames_snoc, Forall_app. split; [|done].
      rewrite Forall_forall in Hlen |- *. intros y Hy.
      destruct (Hother y Hy) as (_ & -> & _). by apply Hlen.
    + apply Forall_app. split; [|apply Forall_singleton, Hfr].
      rewrite Forall_forall in Har |- *. intros A HA. apply (area_ok_ext a); [by apply Har|].
      intros vpn Hv. apply (fr_out _ _ _ _ _ Hfr). intros Hin.
      destruct (fr_in _ _ _ _ _ Hfr vpn Hin) as [Hn _].
      destruct (area_mapped a A vpn (Har A HA) Hv). congruence.
    + apply (disjoint_snoc (areas ms) area' Hdj).
      intros A HA vpn Hv Hin. rewrite Forall_forall in Har.
      destruct (area_mapped a A vpn (Har A HA) Hv) as [e He].
      unfold in_area in Hin. rewrite (fr_range _ _ _ _ _ Hfr) in Hin.
      destruct (fr_in _ _ _ _ _ Hfr vpn Hin). congruence.
  - intros y Hy. by apply Hother.
Qed.
(** *** Removing an area *)

Definition delete_all {A} (l : list Z) (d : gmap Z A) : gmap Z A := foldl (fun d k => delete k d) d l.

Lemma lookup_delete_all {A} l (d : gmap Z A) k :
  delete_all l d !! k = if decide (k ∈ l) then None else d !! k.
Proof.
  revert d. induction l as [|x l IH]; intros d; [done|]. cbn. fold (delete_all l (delete x d)).
  rewrite IH. repeat case_decide; try set_solver.
  - assert (k = x) as -> by set_solver. by rewrite lookup_delete_eq.
  - rewrite lookup_delete_ne; [done|set_solver].
Qed.

Lemma area_frames_delete area vpn f :
  data_frames area !! vpn = Some f ->
  area_frames area ≡ₚ f :: area_frames (set_data_frames (delete vpn (data_frames area)) area).
Proof. intros Hf. unfold area_frames. cbn. by rewrite <- (map_to_list_delete _ _ _ Hf). Qed.

Lemma unmap_one_framed m pt a area vpn f pte :
  represents m pt a -> map_type area = Framed -> vpn_ok vpn ->
  data_frames area !! vpn = Some f -> a !! vpn = Some pte ->
  Forall (fa_live (falloc m)) (area_frames area) -> NoDup (frames pt ++ area_frames area) ->
  exists m', let area' := set_data_frames (delete vpn (data_frames area)) area in
    unmap_one area pt vpn m = Ret area' m' /\ represents m' pt (delete vpn a) /\
    frame_step m (frames pt ++ area_frames area) m' (frames pt ++ area_frames area') /\
    (forall y, y ∉ frames pt -> page m' y = page m y).
Proof.
  intros Hrep Ht Hv Hf Ha Hlv Hnd. pose proof (area_frames_delete area vpn f Hf) as HP.
  set (area' := set_data_frames _ area) in *.
  destruct (represents_live _ _ _ Hrep) as (Hok & Hnpt & Hlpt). rewrite HP in Hlv, Hnd.
  apply Forall_cons in Hlv as [Hlf Hlv']. apply NoDup_app in Hnd as (_ & Hx & [Hf' Hnd']%NoDup_cons).
  assert (Hfpt : f ∉ frames pt) by (intros Hin; by apply (Hx f Hin), list_elem_of_here).
  destruct (drop_frames_step [f] m (frames pt ++ area_frames area) (frames pt ++ area_frames area') Hok)
    as (m1 & E1 & S1 & Hp1).
  - apply NoDup_singleton.
  - by apply Forall_singleton.
  - rewrite HP. apply Forall_app. split; [done|]. by constructor.
  - intros y. rewrite HP, !elem_of_app, elem_of_cons, list_elem_of_singleton.
    split; [|tauto]. intros [?|?]; (split; [tauto|]); by intros ->.
  - intros y ->%list_elem_of_singleton. rewrite HP. apply elem_of_app. right. constructor.
  - assert (E1' : FrameTracker_drop f m = Ret tt m1).
    { unfold drop_frames, for_each, bind in E1. by destruct (FrameTracker_drop f m) as [[] ?|]. }
    assert (Hrep1 : represents m1 pt a).
    { apply (represents_frame m); [done|apply S1|]. intros y Hy. split; [|apply Hp1].
      apply S1. left. apply elem_of_app. by left. }
    pose proof (unmap_run m1 pt a vpn Hrep1 Hv) as Hu. rewrite Ha in Hu.
    unfold unmap_one. rewrite Ht, Hf. unfold bind at 1, bind at 1. cbn [unwrap ret].
    unfold bind at 1. rewrite E1'. cbn [ret]. unfold bind.
    destruct (unmap pt vpn m1) as [[] m2|[]] eqn:E2; try done. destruct Hu as (_ & Hrep2 & Hfa & Hp2).
    exists m2. split_and!; [done|done| |intros y Hy; by rewrite Hp2, Hp1].
    eapply frame_step_trans; [exact S1|].
    apply frame_step_frame; [exact (unmap_step _ _ _ _ _ Hrep1 Hv E2)| |].
    + apply Forall_forall. intros y Hy. apply S1. left. apply elem_of_app. by right.
    + intros y Hy Hin. apply (Hx y Hin). by constructor.
Qed.

Lemma unmap_pages_framed l m pt a area :
  represents m pt a -> map_type area = Framed -> Forall vpn_ok l -> NoDup l ->
  (forall vpn, vpn ∈ l -> is_Some (data_frames area !! vpn) /\ is_Some (a !! vpn)) ->
  Forall (fa_live (falloc m)) (area_frames area) -> NoDup (frames pt ++ area_frames area) ->
  exists m', let area' := set_data_frames (delete_all l (data_frames area)) area in
    unmap_pages l area pt m = Ret area' m' /\ represents m' pt (delete_all l a) /\
    frame_step m (frames pt ++ area_frames area) m' (frames pt ++ area_frames area') /\
    (forall y, y ∉ frames pt -> page m' y = page m y).
Proof.
  revert m a area. induction l as [|vpn l IH]; intros m a area Hrep Ht Hl Hnd Hd Hlv Hnf.
  { exists m. destruct (represents_live _ _ _ Hrep) as (Hok & _ & Hlpt). split_and!; try done.
    - by destruct area.
    - destruct area. apply frame_step_refl; [done|]. by apply Forall_app. }
  apply Forall_cons in Hl as [Hv Hl]. apply NoDup_cons in Hnd as [Hvl Hnd].
  destruct (Hd vpn ltac:(constructor)) as [[f Hf] [pte Hpte]].
  destruct (unmap_one_framed m pt a area vpn f pte Hrep Ht Hv Hf Hpte Hlv Hnf)
    as (m1 & E1 & Hrep1 & S1 & Hp1).
  set (area1 := set_data_frames _ area) in *. cbn zeta in *.
  pose proof (area_frames_delete area vpn f Hf) as HP. fold area1 in HP.
  destruct (IH m1 (delete vpn a) area1 Hrep1 Ht Hl Hnd) as (m2 & E2 & Hrep2 & S2 & Hp2).
  - intros w Hw. destruct (Hd w ltac:(by constructor)) as [? ?]. cbn.
    rewrite !lookup_delete_ne by (intros ->; done). done.
  - apply Forall_forall. intros y Hy. apply S1. left. apply elem_of_app. by right.
  - rewrite HP in Hnf. apply NoDup_app in Hnf as (? & Hx & [? ?]%NoDup_cons).
    apply NoDup_app. split_and!; [done| |done]. intros y Hy Hin. apply (Hx y Hy). by constructor.
  - exists m2. cbn. rewrite (bind_Ret _ _ _ _ _ E1). split_and!; try done.
    + eapply frame_step_trans; [exact S1|exact S2].
    + intros y Hy. by rewrite Hp2, Hp1.
Qed.
Lemma footprint_split ms idx area :
  areas ms !! idx = Some area ->
  footprint ms ≡ₚ (frames (page_table ms) ++ area_frames area) ++ areas_frames (delete idx (areas ms)).
Proof.
  intros Hi. unfold footprint, areas_frames. rewrite (delete_Permutation _ _ _ Hi) at 1. cbn.
  by rewrite app_assoc.
Qed.

Lemma delete_all_dom l (d : gmap Z Z) : (forall k, is_Some (d !! k) -> k ∈ l) -> delete_all l d = ∅.
Proof.
  intros Hd. apply map_eq. intros k. rewrite lookup_delete_all, lookup_empty. case_decide; [done|].
  apply eq_None_not_Some. auto.
Qed.

Lemma pairwise_disjoint_delete l idx : pairwise_disjoint l -> pairwise_disjoint (delete idx l).
Proof.
  intros Hd i j A B HA HB Hij. rewrite list_lookup_delete in HA, HB.
  apply (Hd _ _ A B HA HB). repeat case_decide; lia.
Qed.

Lemma elem_of_delete_lookup {A} (l : list A) idx x :
  x ∈ delete idx l -> exists j, j <> idx /\ l !! j = Some x.
Proof.
  intros [j Hj]%list_elem_of_lookup. rewrite list_lookup_delete in Hj.
  eexists. split; [|exact Hj]. case_decide; lia.
Qed.

Lemma remove_area_run m ms a start_vpn idx area :
  ms_ok m ms a ->
  find_index (fun area => range_start (vpn_range area) =? start_vpn) (areas ms) = Some idx ->
  areas ms !! idx = Some area -> map_type area = Framed ->
  exists m', let ms' := {| page_table := page_table ms; areas := delete idx (areas ms) |} in
    remove_area_with_start_vpn ms start_vpn m = Ret ms' m' /\
    ms_ok m' ms' (delete_all (range_pages (vpn_range area)) a) /\
    frame_step m (footprint ms) m' (footprint ms') /\
    (forall y, y ∉ frames (page_table ms) -> page m' y = page m y).
Proof.
  intros [Hrep Hnd Hlv Hlen Har Hdj] Hfi Hi Ht. pose proof (footprint_split ms idx area Hi) as HP.
  rewrite HP in Hnd, Hlv. apply NoDup_app in Hnd as (Hnd & Hx & Hndo).
  apply Forall_app in Hlv as [[Hlpt Hla]%Forall_app Hlo].
  pose proof (Forall_lookup_1 _ _ _ _ Har Hi) as Hok. pose proof Hok as [Hr Htop Hp Hfr Hmap].
  rewrite Ht in Hfr. destruct (area_pages area Hr Htop) as (Hndp & Hin & Hv & _).
  destruct (unmap_pages_framed (range_pages (vpn_range area)) m (page_table ms) a area Hrep Ht Hv Hndp)
    as (m1 & E1 & Hrep1 & S1 & Hp1); [|done|done|].
  { intros vpn Hvpn%Hin. split; [by apply Hfr|]. by apply (area_mapped a area). }
  rewrite (delete_all_dom (range_pages (vpn_range area)) (data_frames area)) in E1, S1
    by (intros k Hk; by apply Hin, Hfr).
  unfold remove_area_with_start_vpn. rewrite Hfi, Hi. unfold bind at 1. cbn [unwrap ret].
  unfold MapArea_unmap. exists m1. cbn zeta. rewrite (bind_Ret _ _ _ _ _ E1).
  split; [done|]. set (ms' := {| page_table := page_table ms |}).
  assert (Hstep : frame_step m (footprint ms) m1 (footprint ms')).
  { eapply frame_step_Permutation;
      [..|apply (frame_step_frame _ _ _ _ (areas_frames (delete idx (areas ms))) S1)].
    - intros y. by rewrite HP.
    - intros y. unfold area_frames. cbn. rewrite map_to_list_empty. cbn.
      rewrite app_nil_r. done.
    - done.
    - intros y Hy Hin'. by apply (Hx y). }
  split_and!; try done. split; try done.
  - unfold footprint, ms'. cbn [page_table areas]. apply NoDup_app in Hnd as (? & Hx2 & ?).
    apply NoDup_app. split_and!; [done| |done]. intros y Hy. apply Hx, elem_of_app. by left.
  - apply Forall_forall. intros y Hy. apply Hstep. by left.
  - cbn [areas ms']. pose proof Hlen as Hlen'. rewrite Forall_forall in Hlen'.
    apply Forall_forall. intros y Hy. rewrite Hp1.
    + apply Hlen'. unfold areas_frames. rewrite (delete_Permutation _ _ _ Hi). cbn.
      apply elem_of_app. by right.
    + intros Hin'. apply (Hx y); [|done]. apply elem_of_app. by left.
  - cbn [areas ms']. apply Forall_forall. intros A (j & Hj & HA)%elem_of_delete_lookup.
    apply (area_ok_ext a); [by apply (Forall_lookup_1 _ _ _ _ Har HA)|].
    intros vpn Hvpn. rewrite lookup_delete_all, decide_False; [done|]. rewrite Hin.
    exact (Hdj j idx A area HA Hi Hj vpn Hvpn).
  - by apply pairwise_disjoint_delete.
Qed.
End invariant.
