(* ===== verification/UserSpace.v ===== *)
(** Address spaces as a whole: what inserting, removing and copying areas
    ([MemorySet::insert_framed_area], [remove_area_with_start_vpn],
    [from_existed_user], [recycle_data_pages] of [os/src/mm/memory_set.rs])
    means for the pages processes see. *)
From stdpp Require Import sorting.
From S2P Require Import Prelude Address FrameAllocator PageTable Pid MemorySet.

(** The frame that holds page [vpn] of a memory set. *)
Definition data_frame (ms : MemorySet) (vpn f : Z) : Prop :=
  exists i A, areas ms !! i = Some A /\ data_frames A !! vpn = Some f.

(** *** Kernel stacks: [KernelStack::new] and its [Drop] in [os/src/process/pid.rs]

    The kernel's memory set is the global [KERNEL_SPACE]. *)
Section kernel_stack.
Context {T : Type} `{FrameAllocator T}.

Definition KernelStack_new (pid : Z) (kernel_space : MemorySet) : M (mem T) MemorySet :=
  let '(kernel_stack_bottom, kernel_stack_top) := kernel_stack_position pid in
  insert_framed_area kernel_space (VirtAddr.from_usize kernel_stack_bottom)
    (VirtAddr.from_usize kernel_stack_top) (Z.lor MapPermission.R MapPermission.W).

Definition KernelStack_drop (pid : Z) (kernel_space : MemorySet) : M (mem T) MemorySet :=
  let '(kernel_stack_bottom, _) := kernel_stack_position pid in
  let kernel_stack_bottom_va := VirtAddr.from_usize kernel_stack_bottom in
  let! vpn := VirtPageNum.from_va kernel_stack_bottom_va in
  remove_area_with_start_vpn kernel_space vpn.
End kernel_stack.

Section user_space.
Context {T : Type} `{FAL : FrameAllocatorLaws T}.
Implicit Types (m : mem T) (ms src dst : MemorySet) (a : gmap Z Z).

Lemma elem_of_area_frames area vpn f : data_frames area !! vpn = Some f -> f ∈ area_frames area.
Proof.
  intros Hf. apply list_elem_of_fmap. exists (vpn, f). split; [done|]. by apply elem_of_map_to_list.
Qed.

Lemma elem_of_areas_frames l area f : area ∈ l -> f ∈ area_frames area -> f ∈ areas_frames l.
Proof. intros HA Hf. apply list_elem_of_bind. eauto. Qed.

Lemma data_frame_footprint ms vpn f :
  data_frame ms vpn f -> f ∈ areas_frames (areas ms) /\ f ∈ footprint ms.
Proof.
  intros (i & A & HA & Hf). assert (f ∈ areas_frames (areas ms)).
  { eapply elem_of_areas_frames; [by eapply list_elem_of_lookup_2|by eapply elem_of_area_frames]. }
  split; [done|]. apply elem_of_app. by right.
Qed.

Lemma elem_of_delete_ne {A} (l : list A) i j x : l !! j = Some x -> j <> i -> x ∈ delete i l.
Proof.
  intros Hj Hij. destruct (decide (j < i)%nat).
  - apply (list_elem_of_lookup_2 _ j). by rewrite list_lookup_delete_lt.
  - apply (list_elem_of_lookup_2 _ (j - 1)). rewrite list_lookup_delete_ge by lia.
    by replace (S (j - 1)) with j by lia.
Qed.

(** Different pages are in different frames. *)
Lemma data_frame_inj m ms a vpn vpn' f :
  ms_ok m ms a -> data_frame ms vpn f -> data_frame ms vpn' f -> vpn = vpn'.
Proof.
  intros [_ Hnd _ _ _ _] (i & A & HA & Hf) (j & B & HB & Hf').
  destruct (decide (i = j)) as [<-|Hij].
  - assert (A = B) as <- by congruence. rewrite (footprint_split _ _ _ HA) in Hnd.
    apply NoDup_app in Hnd as ((_ & _ & Hnd)%NoDup_app & _ & _).
    apply elem_of_map_to_list, list_elem_of_lookup in Hf as [k Hk].
    apply elem_of_map_to_list, list_elem_of_lookup in Hf' as [k' Hk'].
    assert (k = k') as <-.
    { apply (NoDup_lookup _ _ _ f Hnd); unfold area_frames; rewrite list_lookup_fmap;
        [by rewrite Hk|by rewrite Hk']. }
    congruence.
  - exfalso. rewrite (footprint_split _ _ _ HA) in Hnd. apply NoDup_app in Hnd as (_ & Hx & _).
    apply (Hx f).
    + apply elem_of_app. right. by eapply elem_of_area_frames.
    + apply (elem_of_areas_frames _ B); [|by eapply elem_of_area_frames].
      by eapply elem_of_delete_ne.
Qed.

Lemma data_frame_pte m ms a vpn f :
  ms_ok m ms a -> Forall (fun A => map_type A = Framed) (areas ms) -> data_frame ms vpn f ->
  vpn_ok vpn /\ exists perm, a !! vpn = Some (leaf_pte perm f) /\ PageTableEntry.ppn (leaf_pte perm f) = f.
Proof.
  intros Hms HF (i & A & HA & Hf). pose proof (Forall_lookup_1 _ _ _ _ HF HA) as Ht. cbn in Ht.
  pose proof (Forall_lookup_1 _ _ _ _ (ms_areas _ _ _ Hms) HA) as [Hr Htop Hp Hfr Hm].
  rewrite Ht in Hfr. assert (Hin : in_area A vpn) by (apply Hfr; eauto).
  split; [unfold vpn_ok, in_area in *; lia|]. exists (map_perm A). rewrite (Hm vpn Hin).
  unfold area_pte. rewrite Ht, Hf. split; [done|]. apply pte_new_ppn; [|by apply lor_V_bound].
  destruct (represents_live _ _ _ (ms_rep _ _ _ Hms)) as [Hok _].
  apply (fa_live_ppn (falloc m) f Hok). pose proof (ms_live _ _ _ Hms) as Hl.
  rewrite Forall_forall in Hl. apply Hl. apply (data_frame_footprint ms vpn). by exists i, A.
Qed.

Lemma translate_data m ms a vpn f :
  ms_ok m ms a -> Forall (fun A => map_type A = Framed) (areas ms) -> data_frame ms vpn f ->
  exists pte, MemorySet_translate ms vpn m = Ret (Some pte) m /\ PageTableEntry.ppn pte = f.
Proof.
  intros Hms HF Hd. destruct (data_frame_pte m ms a vpn f Hms HF Hd) as (Hv & perm & Ha & Hp).
  exists (leaf_pte perm f). split; [|done]. unfold MemorySet_translate.
  destruct (translate_run m _ a vpn (ms_rep _ _ _ Hms) Hv) as (o & -> & Ho). rewrite Ha in Ho.
  destruct o as [pte'|]; [|done]. cbn in Ho. destruct (PageTableEntry.is_valid pte'); by simplify_eq.
Qed.

Lemma ms_ok_set_page m ms a f p :
  ms_ok m ms a -> f ∈ areas_frames (areas ms) -> length p = WORDS_PER_PAGE ->
  ms_ok (set_page f p m) ms a.
Proof.
  intros [Hrep Hnd Hl Hlen Har Hdj] Hf Hp. split; try done.
  - apply (represents_frame m); [done|apply (represents_live _ _ _ Hrep)|]. intros y Hy.
    split; [apply Forall_app in Hl as [Hl _]; rewrite Forall_forall in Hl; by apply Hl|].
    apply page_set_ne. intros ->. apply NoDup_app in Hnd as (_ & Hx & _). by apply (Hx y).
  - rewrite Forall_forall in Hlen |- *. intros y Hy. destruct (decide (y = f)) as [->|Hne].
    + by rewrite page_set_eq.
    + rewrite page_set_ne by done. by apply Hlen.
Qed.

(** [for vpn in area.vpn_range] of [from_existed_user]. *)
Lemma copy_pages_run l m src dst a_s a_d :
  ms_ok m src a_s -> ms_ok m dst a_d ->
  Forall (fun A => map_type A = Framed) (areas src) -> Forall (fun A => map_type A = Framed) (areas dst) ->
  (forall y, y ∈ footprint src -> y ∉ footprint dst) -> NoDup l ->
  (forall vpn, vpn ∈ l -> (exists f, data_frame src vpn f) /\ exists f, data_frame dst vpn f) ->
  exists m', copy_pages l src dst m = Ret tt m' /\ falloc m' = falloc m /\
    ms_ok m' src a_s /\ ms_ok m' dst a_d /\
    (forall y, y ∉ areas_frames (areas dst) -> page m' y = page m y) /\
    (forall vpn f, vpn ∉ l -> data_frame dst vpn f -> page m' f = page m f) /\
    (forall vpn f f', vpn ∈ l -> data_frame src vpn f -> data_frame dst vpn f' -> page m' f' = page m f).
Proof.
  intros Hs Hd HFs HFd Hx. revert m Hs Hd. induction l as [|vpn l IH]; intros m Hs Hd Hnd Hl.
  { exists m. split_and!; try done. by intros ? ? ? ?%elem_of_nil. }
  apply NoDup_cons in Hnd as [Hvl Hnd].
  destruct (Hl vpn ltac:(constructor)) as [[f Hf] [f' Hf']].
  destruct (translate_data m src a_s vpn f Hs HFs Hf) as (pte & Et & Hp).
  destruct (translate_data m dst a_d vpn f' Hd HFd Hf') as (pte' & Et' & Hp').
  destruct (data_frame_footprint _ _ _ Hf) as [Hfa Hff].
  destruct (data_frame_footprint _ _ _ Hf') as [Hfa' Hff'].
  assert (Hlen : length (page m f) = WORDS_PER_PAGE).
  { pose proof (ms_len _ _ _ Hs) as HL. rewrite Forall_forall in HL. by apply HL. }
  set (m1 := set_page f' (page m f) m).
  assert (Hs1 : ms_ok m1 src a_s).
  { apply (ms_ok_frame m); [done|apply (represents_live _ _ _ (ms_rep _ _ _ Hs))|].
    intros y Hy. split.
    - pose proof (ms_live _ _ _ Hs) as HL. rewrite Forall_forall in HL. by apply HL.
    - apply page_set_ne. intros <-. by apply (Hx f'). }
  assert (Hd1 : ms_ok m1 dst a_d) by by apply ms_ok_set_page.
  destruct (IH m1 Hs1 Hd1 Hnd) as (m2 & E2 & Hfa2 & Hs2 & Hd2 & Hout & Hrest & Hcopy).
  { intros w Hw. apply Hl. by constructor. }
  exists m2. cbn [copy_pages]. rewrite (bind_Ret _ _ _ _ _ Et), bind_unwrap.
  rewrite (bind_Ret _ _ _ _ _ Et'), bind_unwrap. unfold bind at 1. cbn [modify].
  rewrite Hp, Hp'. fold m1. split_and!; try done.
  - intros y Hy. rewrite Hout by done. apply page_set_ne. by intros <-.
  - intros w g [Hw Hwl]%not_elem_of_cons Hg. rewrite (Hrest w g Hwl Hg). apply page_set_ne.
    intros <-. by apply Hw, (data_frame_inj m dst a_d _ _ f' Hd).
  - intros w g g' [->|Hw]%elem_of_cons Hg Hg'.
    + assert (g' = f') as ->.
      { destruct (data_frame_pte m dst a_d vpn g' Hd HFd Hg') as (_ & p1 & Ha1 & Hpp1).
        destruct (data_frame_pte m dst a_d vpn f' Hd HFd Hf') as (_ & p2 & Ha2 & Hpp2). congruence. }
      assert (g = f) as ->.
      { destruct (data_frame_pte m src a_s vpn g Hs HFs Hg) as (_ & p1 & Ha1 & Hpp1).
        destruct (data_frame_pte m src a_s vpn f Hs HFs Hf) as (_ & p2 & Ha2 & Hpp2). congruence. }
      rewrite (Hrest vpn f' Hvl Hf'). apply page_set_eq.
    + rewrite (Hcopy w g g' Hw Hg Hg'). apply page_set_ne. intros <-.
      destruct (data_frame_footprint _ _ _ Hg) as [_ Hgf]. by apply (Hx f').
Qed.
(** The child's area for an area of the parent. *)
Definition same_area (A B : MapArea) : Prop :=
  vpn_range B = vpn_range A /\ map_type B = map_type A /\ map_perm B = map_perm A.

Definition area_size (A : MapArea) : nat :=
  Z.to_nat (range_r (vpn_range A) - range_l (vpn_range A)).
Definition total_pages (l : list MapArea) : nat := sum_list_with area_size l.

Lemma data_frame_snoc ms ms' A vpn f :
  areas ms' = areas ms ++ [A] ->
  data_frame ms' vpn f <-> data_frame ms vpn f \/ data_frames A !! vpn = Some f.
Proof.
  intros E. unfold data_frame. rewrite E. split.
  - intros (i & B & HB & Hf). apply lookup_snoc_Some in HB as [[_ HB]|[_ <-]]; [left; eauto|by right].
  - intros [(i & B & HB & Hf)|Hf].
    + exists i, B. split; [by apply lookup_app_l_Some|done].
    + exists (length (areas ms)), A. split; [|done]. apply lookup_snoc_Some. by right.
Qed.

(** One area: a fresh framed area is pushed and filled. *)
Lemma copy_area_run m src dst a_s a_d A l :
  ms_ok m src a_s -> ms_ok m dst a_d ->
  Forall (fun A => map_type A = Framed) (areas src) -> Forall (fun A => map_type A = Framed) (areas dst) ->
  (forall y, y ∈ footprint src -> y ∉ footprint dst) -> A ∈ areas src ->
  (forall vpn, in_area A vpn -> a_d !! vpn = None) -> (3 * area_size A <= fa_avail (falloc m))%nat ->
  exists m' dst' a', copy_areas (A :: l) src dst m = copy_areas l src dst' m' /\
    ms_ok m' src a_s /\ ms_ok m' dst' a' /\ (forall y, y ∈ footprint src -> y ∉ footprint dst') /\
    (exists A', areas dst' = areas dst ++ [A'] /\ same_area A A') /\
    (forall vpn, ~ in_area A vpn -> a' !! vpn = a_d !! vpn) /\
    (forall y, y ∈ footprint src -> page m' y = page m y) /\
    (forall vpn f, ~ in_area A vpn -> data_frame dst' vpn f -> data_frame dst vpn f /\ page m' f = page m f) /\
    (forall vpn f f', data_frames A !! vpn = Some f -> data_frame dst' vpn f' -> page m' f' = page m f) /\
    frame_step m (footprint dst) m' (footprint dst') /\
    (fa_avail (falloc m) <= 3 * area_size A + fa_avail (falloc m'))%nat.
Proof.
  intros Hs Hd HFs HFd Hx HA Hnone Hav.
  assert (HA' := HA). apply list_elem_of_lookup in HA' as [iA HiA].
  pose proof (Forall_lookup_1 _ _ _ _ HFs HiA) as HtA. cbn in HtA.
  pose proof (Forall_lookup_1 _ _ _ _ (ms_areas _ _ _ Hs) HiA) as [Hr Htop Hp Hfr Hm].
  rewrite HtA in Hfr. destruct (area_pages A Hr Htop) as (Hnd & Hin & Hv & Hlen).
  set (A0 := {| vpn_range := vpn_range A; data_frames := ∅; map_type := Framed; map_perm := map_perm A |}).
  assert (Enew : forall s : mem T, from_another A s = Ret A0 s).
  { intros s'. unfold from_another, SimpleRange_new, range_start, range_end, bind.
    rewrite (proj2 (Z.leb_le _ _)) by lia. cbn. rewrite HtA. unfold A0. by destruct (vpn_range A). }
  pose proof (push_framed m dst a_d A0 Hd eq_refl Hp Hr Htop eq_refl) as Hpush.
  cbn [copy_areas]. rewrite (bind_Ret _ _ _ _ _ (Enew m)). unfold bind at 1.
  destruct (push dst A0 None m) as [dst' m1|p].
  2:{ exfalso. destruct p; try done; cbn in Hpush.
      - unfold area_size in Hav. lia.
      - destruct Hpush as (vpn & Hvpn & Hne). by apply Hne, Hnone. }
  destruct Hpush as (A' & a' & Hfresh & Har' & Hd' & Hstep & Hpg & Hnew & Hav').
  destruct (ms_ok_step m _ m1 _ src a_s Hs Hstep Hx) as (Hs1 & Hx1 & Hpg1).
  assert (HFd' : Forall (fun A => map_type A = Framed) (areas dst')).
  { rewrite Har'. apply Forall_app. split; [done|]. apply Forall_singleton, Hfresh. }
  pose proof (data_frame_snoc dst dst' A') as Hsn.
  destruct (copy_pages_run (range_pages (vpn_range A)) m1 src dst' a_s a' Hs1 Hd' HFs HFd' Hx1 Hnd)
    as (m2 & E2 & Hfa2 & Hs2 & Hd2 & Hout & Hrest & Hcopy).
  { intros vpn Hvpn%Hin. split.
    - apply Hfr in Hvpn as [f Hf]. exists f. by exists iA, A.
    - destruct (fr_in _ _ _ _ _ Hfresh vpn Hvpn) as (_ & f & Hf & _). exists f.
      apply Hsn; [done|]. by right. }
  exists m2, dst', a'. rewrite (bind_Ret _ (fun _ => copy_areas l src dst') _ _ _ E2).
  assert (Hsrc_out : forall y, y ∈ footprint src -> page m2 y = page m y).
  { intros y Hy. rewrite Hout; [by apply Hpg1|]. intros Hy'. apply (Hx1 y Hy), elem_of_app. by right. }
  split_and!; try done.
  - exists A'. split; [done|]. split_and!; [apply Hfresh|by rewrite HtA, (fr_type _ _ _ _ _ Hfresh)|apply Hfresh].
  - intros vpn Hvpn. by apply (fr_out _ _ _ _ _ Hfresh).
  - intros vpn f Hvpn Hf. assert (Hdf : data_frame dst vpn f).
    { apply (Hsn vpn f Har') in Hf as [?|Hf]; [done|]. exfalso. apply Hvpn.
      pose proof (ar_frames _ _ (fr_ok _ _ _ _ _ Hfresh)) as HB. rewrite (fr_type _ _ _ _ _ Hfresh) in HB.
      assert (in_area A' vpn) as Hi by (apply HB; eauto). unfold in_area in *.
      by rewrite (fr_range _ _ _ _ _ Hfresh) in Hi. }
    split; [done|]. rewrite (Hrest vpn f); [|by rewrite Hin|done].
    apply Hpg. by apply (data_frame_footprint dst vpn).
  - intros vpn f f' Hf Hf'. rewrite (Hcopy vpn f f'); [|apply Hin, Hfr; eauto|by exists iA, A|done].
    apply Hpg1. apply (data_frame_footprint src vpn). by exists iA, A.
  - split; [rewrite Hfa2; apply Hstep|apply Hstep|rewrite Hfa2; apply Hstep|].
    intros y Hy Hny. rewrite Hout; [by apply Hstep|]. intros Hy'.
    destruct (frame_step_other _ _ _ _ y Hstep Hy Hny) as (_ & _ & Hn). apply Hn, elem_of_app. by right.
  - rewrite Hfa2. exact Hav'.
Qed.
Lemma copy_areas_run l m src dst a_s a_d :
  ms_ok m src a_s -> ms_ok m dst a_d ->
  Forall (fun A => map_type A = Framed) (areas src) -> Forall (fun A => map_type A = Framed) (areas dst) ->
  (forall y, y ∈ footprint src -> y ∉ footprint dst) ->
  (forall A, A ∈ l -> A ∈ areas src) -> pairwise_disjoint l ->
  (forall A vpn, A ∈ l -> in_area A vpn -> a_d !! vpn = None) ->
  (3 * total_pages l <= fa_avail (falloc m))%nat ->
  exists m' dst' a', copy_areas l src dst m = Ret dst' m' /\
    ms_ok m' src a_s /\ ms_ok m' dst' a' /\ (forall y, y ∈ footprint src -> y ∉ footprint dst') /\
    (exists new, areas dst' = areas dst ++ new /\ Forall2 same_area l new) /\
    (forall y, y ∈ footprint src -> page m' y = page m y) /\
    (forall vpn f, (forall A, A ∈ l -> ~ in_area A vpn) -> data_frame dst' vpn f ->
       data_frame dst vpn f /\ page m' f = page m f) /\
    (forall A vpn f f', A ∈ l -> data_frames A !! vpn = Some f -> data_frame dst' vpn f' ->
       page m' f' = page m f) /\
    (forall vpn, (forall A, A ∈ l -> ~ in_area A vpn) -> a' !! vpn = a_d !! vpn) /\
    frame_step m (footprint dst) m' (footprint dst') /\
    (fa_avail (falloc m) <= 3 * total_pages l + fa_avail (falloc m'))%nat.
Proof.
  revert m dst a_d. induction l as [|A l IH]; intros m dst a_d Hs Hd HFs HFd Hx Hsub Hdj Hnone Hav.
  { exists m, dst, a_d. split_and!; try done.
    - exists []. by rewrite app_nil_r.
    - by intros ? ? ? ? ?%elem_of_nil.
    - apply frame_step_refl; [apply (represents_live _ _ _ (ms_rep _ _ _ Hd))|apply Hd]. }
  cbn in Hav.
  destruct (copy_area_run m src dst a_s a_d A l Hs Hd HFs HFd Hx (Hsub A ltac:(constructor)))
    as (m1 & dst1 & a1 & E1 & Hs1 & Hd1 & Hx1 & (A' & Har1 & Hsame) & Hout1 & Hsrc1 & Hrest1 & Hcopy1 & S1 & Hav1).
  { intros vpn. apply Hnone. constructor. }
  { unfold total_pages in Hav. cbn in Hav. lia. }
  assert (HAin : forall B, B ∈ l -> disjoint_areas A B).
  { intros B [i Hi]%list_elem_of_lookup. exact (Hdj 0%nat (S i) A B eq_refl Hi ltac:(lia)). }
  assert (HinA : forall vpn f, data_frames A !! vpn = Some f -> in_area A vpn).
  { intros vpn f Hf. destruct (list_elem_of_lookup_1 _ _ (Hsub A ltac:(constructor))) as [i Hi].
    pose proof (ar_frames _ _ (Forall_lookup_1 _ _ _ _ (ms_areas _ _ _ Hs) Hi)) as HB.
    rewrite (Forall_lookup_1 _ _ _ _ HFs Hi) in HB. apply HB. eauto. }
  assert (HFd1 : Forall (fun A => map_type A = Framed) (areas dst1)).
  { rewrite Har1. apply Forall_app. split; [done|]. apply Forall_singleton.
    destruct (list_elem_of_lookup_1 _ _ (Hsub A ltac:(constructor))) as [i Hi].
    rewrite (proj1 (proj2 Hsame)). apply (Forall_lookup_1 _ _ _ _ HFs Hi). }
  destruct (IH m1 dst1 a1 Hs1 Hd1 HFs HFd1 Hx1)
    as (m2 & dst2 & a2 & E2 & Hs2 & Hd2 & Hx2 & (new & Har2 & Hsm2) & Hsrc2 & Hrest2 & Hcopy2 & Hout2 & S2 & Hav2).
  { intros B HB. apply Hsub. by constructor. }
  { intros i j B C HB HC Hij. by apply (Hdj (S i) (S j)); [..|lia]. }
  { intros B vpn HB Hv. rewrite Hout1; [apply (Hnone B); [by constructor|done]|].
    intros HA. exact (HAin B HB vpn HA Hv). }
  { unfold total_pages in *. cbn in Hav. lia. }
  exists m2, dst2, a2. rewrite E1, E2. split_and!; try done.
  - exists (A' :: new). rewrite Har2, Har1, <- app_assoc. split; [done|]. by constructor.
  - intros y Hy. by rewrite Hsrc2, Hsrc1.
  - intros vpn f Hn Hf. destruct (Hrest2 vpn f) as [Hf1 Hp2]; [set_solver|done|].
    destruct (Hrest1 vpn f) as [Hf0 Hp1]; [apply Hn; constructor|done|]. split; [done|congruence].
  - intros B vpn f f' [->|HB]%elem_of_cons Hf Hf'.
    + destruct (Hrest2 vpn f') as [Hf1 ->]; [|done|by apply (Hcopy1 vpn)].
      intros C HC Hv. exact (HAin C HC vpn (HinA vpn f Hf) Hv).
    + rewrite (Hcopy2 B vpn f f' HB Hf Hf'). apply Hsrc1.
      destruct (list_elem_of_lookup_1 _ _ (Hsub B ltac:(by constructor))) as [i Hi].
      apply (data_frame_footprint src vpn). by exists i, B.
  - intros vpn Hn. rewrite Hout2 by set_solver. apply Hout1, Hn. constructor.
  - by eapply frame_step_trans.
  - unfold total_pages in *. cbn. lia.
Qed.

(** *** A new user address space *)

Definition TRAMPOLINE_VPN : Z := 2 ^ 27 - 1.
(** The entry [map_trampoline] makes for it. *)
Definition trampoline_pte (strampoline : Z) : Z := leaf_pte (Z.lor PTEFlags.R PTEFlags.X) (strampoline mod 2 ^ 56 / PAGE_SIZE).

Lemma map_trampoline_run (strampoline : Z) m ms a :
  ms_ok m ms a -> areas ms = [] -> a !! TRAMPOLINE_VPN = None -> strampoline mod PAGE_SIZE = 0 ->
  (2 <= fa_avail (falloc m))%nat ->
  exists ms' m', map_trampoline strampoline ms m = Ret ms' m' /\ areas ms' = [] /\
    ms_ok m' ms' (<[TRAMPOLINE_VPN := trampoline_pte strampoline]> a) /\ frame_step m (footprint ms) m' (footprint ms') /\
    (fa_avail (falloc m) <= 2 + fa_avail (falloc m'))%nat.
Proof.
  intros [Hrep Hnd Hl Hlen Har Hdj] Hnil Ha Hst Hav. unfold map_trampoline, VirtPageNum.from_va.
  change (VirtAddr.page_offset (VirtAddr.from_usize TRAMPOLINE) =? 0) with true.
  change (VirtAddr.floor (VirtAddr.from_usize TRAMPOLINE)) with TRAMPOLINE_VPN.
  unfold bind at 1, bind at 1. cbn [assert ret]. unfold PhysPageNum.from_pa.
  rewrite pa_from_usize_mod. set (pa := strampoline mod 2 ^ 56).
  assert (PhysAddr.page_offset pa =? 0 = true) as ->.
  { apply Z.eqb_eq. change (VirtAddr.page_offset pa = 0). rewrite page_offset_mod.
    unfold pa, PAGE_SIZE in *. Z.to_euclidean_division_equations. lia. }
  unfold bind at 1, bind at 1. cbn [assert ret].
  assert (Hppn : 0 <= PhysAddr.floor pa < 2 ^ 44).
  { unfold PhysAddr.floor, pa, PAGE_SIZE. Z.to_euclidean_division_equations. lia. }
  assert (Hv : vpn_ok TRAMPOLINE_VPN) by (unfold vpn_ok, TRAMPOLINE_VPN; lia).
  assert (Hfl : 0 <= Z.lor PTEFlags.R PTEFlags.X < 256) by (vm_compute; split; congruence).
  pose proof (map_run m _ a TRAMPOLINE_VPN (PhysAddr.floor pa) (Z.lor PTEFlags.R PTEFlags.X) Hrep Hv Hppn Hfl) as Hm.
  unfold bind. destruct (map (page_table ms) _ _ _ m) as [pt m'|[]] eqn:E; try done; [|lia].
  destruct Hm as (_ & Hrep' & _ & _ & _ & _ & _ & Hav').
  pose proof (map_step _ _ _ _ _ _ _ _ Hrep Hv Hppn Hfl E) as S1.
  destruct (represents_live _ _ _ Hrep') as (_ & Hnpt & Hlpt).
  eexists _, m'. split; [done|]. cbn [areas]. split; [done|].
  unfold footprint in *. cbn [page_table areas]. rewrite Hnil in *. cbn in *. rewrite !app_nil_r in *.
  split; [|done]. split; cbn [page_table areas]; unfold footprint; cbn [page_table areas];
    rewrite ?Hnil; cbn; rewrite ?app_nil_r; try done.
Qed.

Lemma new_bare_run m :
  fa_ok (falloc m) -> fa_avail (falloc m) <> 0%nat ->
  exists ms m', new_bare m = Ret ms m' /\ areas ms = [] /\ ms_ok m' ms ∅ /\
    frame_step m [] m' (footprint ms) /\ fa_avail (falloc m) = S (fa_avail (falloc m')).
Proof.
  intros Hok Hav. destruct (PageTable_new_run m Hok Hav) as (pt & m' & E & Hrep & Ha & S1).
  destruct (represents_live _ _ _ Hrep) as (_ & Hnpt & Hlpt).
  exists {| page_table := pt; areas := [] |}, m'. unfold new_bare. rewrite (bind_Ret _ _ _ _ _ E).
  split_and!; try done; unfold footprint; cbn; rewrite ?app_nil_r; try done.
  split; cbn; unfold footprint; cbn; rewrite ?app_nil_r; try done.
Qed.

(** The copy [fork] makes. *)
Lemma from_existed_run (strampoline : Z) m user a :
  ms_ok m user a -> Forall (fun A => map_type A = Framed) (areas user) ->
  Forall (fun A => ~ in_area A TRAMPOLINE_VPN) (areas user) ->
  strampoline mod PAGE_SIZE = 0 -> (3 + 3 * total_pages (areas user) <= fa_avail (falloc m))%nat ->
  exists child m' a', from_existed_user strampoline user m = Ret child m' /\
    ms_ok m' user a /\ ms_ok m' child a' /\ (forall y, y ∈ footprint user -> y ∉ footprint child) /\
    Forall2 same_area (areas user) (areas child) /\
    (forall y, y ∈ footprint user -> page m' y = page m y) /\
    (forall vpn f f', data_frame user vpn f -> data_frame child vpn f' -> page m' f' = page m f) /\
    a' !! TRAMPOLINE_VPN = Some (trampoline_pte strampoline) /\
    frame_step m [] m' (footprint child) /\
    (fa_avail (falloc m) <= 3 + 3 * total_pages (areas user) + fa_avail (falloc m'))%nat.
Proof.
  intros Hu HF Htr Hst Hav. destruct (represents_live _ _ _ (ms_rep _ _ _ Hu)) as (Hok & _ & _).
  unfold from_existed_user.
  destruct (new_bare_run m Hok ltac:(lia)) as (ms1 & m1 & E1 & Hn1 & Hok1 & S1 & Hav1).
  destruct (map_trampoline_run strampoline m1 ms1 ∅ Hok1 Hn1 ltac:(by rewrite lookup_empty) Hst ltac:(lia))
    as (ms2 & m2 & E2 & Hn2 & Hok2 & S2 & Hav2).
  pose proof (frame_step_trans _ _ _ _ _ _ S1 S2) as S12.
  destruct (ms_ok_step m [] m2 _ user a Hu S12 ltac:(set_solver)) as (Hu2 & Hx2 & Hp2).
  destruct (copy_areas_run (areas user) m2 user ms2 a _ Hu2 Hok2 HF)
    as (m3 & child & a' & E3 & Hu3 & Hc3 & Hx3 & (new & Har & Hsame) & Hp3 & _ & Hcopy & Hmap3 & S3 & Hav3).
  - by rewrite Hn2.
  - exact Hx2.
  - done.
  - exact (ms_disj _ _ _ Hu).
  - intros A vpn HA Hv. rewrite Forall_forall in Htr. rewrite lookup_insert_ne, lookup_empty; [done|].
    intros <-. by apply (Htr A).
  - lia.
  - pose proof (frame_step_trans _ _ _ _ _ _ S12 S3) as S13.
    exists child, m3, a'. rewrite (bind_Ret _ _ _ _ _ E1), (bind_Ret _ _ _ _ _ E2).
    rewrite Hn2 in Har. cbn in Har. subst new. split_and!; try done.
    + intros y Hy. by rewrite Hp3, Hp2.
    + intros vpn f f' (i & A & HA & Hf) Hf'.
      rewrite (Hcopy A vpn f f'); [|by eapply list_elem_of_lookup_2|done|done].
      apply Hp2. apply (data_frame_footprint user vpn). by exists i, A.
    + rewrite Hmap3; [apply lookup_insert_eq|]. rewrite Forall_forall in Htr. intros A HA. by apply Htr.
    + lia.
Qed.

(** C21. Copying a user address space for fork, with enough free frames, gives a well-formed space
    with the same areas on frames of its own, page by page with the same contents; the parent's
    space and every other live frame are unchanged. *)
Theorem from_existed_user_copies (strampoline : Z) m user a :
  ms_ok m user a -> Forall (fun A => map_type A = Framed) (areas user) ->
  Forall (fun A => ~ in_area A TRAMPOLINE_VPN) (areas user) ->
  strampoline mod PAGE_SIZE = 0 -> (3 + 3 * total_pages (areas user) <= fa_avail (falloc m))%nat ->
  exists child m' a', from_existed_user strampoline user m = Ret child m' /\
    ms_ok m' user a /\ ms_ok m' child a' /\ (forall y, y ∈ footprint user -> y ∉ footprint child) /\
    Forall2 same_area (areas user) (areas child) /\
    (forall y, y ∈ footprint user -> page m' y = page m y) /\
    (forall vpn f f', data_frame user vpn f -> data_frame child vpn f' -> page m' f' = page m f) /\
    a' !! TRAMPOLINE_VPN = Some (trampoline_pte strampoline) /\
    (forall y, fa_live (falloc m) y -> fa_live (falloc m') y /\ page m' y = page m y).
Proof.
  intros Hu HF Htr Hst Hav. destruct (from_existed_run strampoline m user a Hu HF Htr Hst Hav)
    as (child & m' & a' & E & Hu' & Hc & Hx & Hs & Hp & Hcopy & Htp & Hstep & _).
  exists child, m', a'. split_and!; try done.
  intros y Hy. destruct (frame_step_other _ _ _ _ y Hstep Hy ltac:(set_solver)) as (? & ? & _). done.
Qed.

(** *** Framed areas *)

Lemma va_ceil_eq end_ :
  0 <= end_ < 2 ^ 39 -> VirtAddr.ceil end_ = (end_ + PAGE_SIZE - 1) / PAGE_SIZE.
Proof.
  intros He. unfold VirtAddr.ceil, PAGE_SIZE. destruct (Z.eqb_spec end_ 0) as [->|]; [done|].
  rewrite (u64_small (end_ - 1)), u64_small by lia. f_equal. lia.
Qed.

(** The area [insert_framed_area] maps. *)
Definition new_area (start end_ perm : Z) : MapArea :=
  {| vpn_range := {| range_l := start / PAGE_SIZE; range_r := (end_ + PAGE_SIZE - 1) / PAGE_SIZE |};
     data_frames := ∅; map_type := Framed; map_perm := perm |}.

Lemma new_area_range start end_ perm :
  0 <= start <= end_ -> end_ < 2 ^ 39 ->
  0 <= range_l (vpn_range (new_area start end_ perm)) <= range_r (vpn_range (new_area start end_ perm)) /\
  range_r (vpn_range (new_area start end_ perm)) <= 2 ^ 27.
Proof. intros. cbn. unfold PAGE_SIZE. Z.to_euclidean_division_equations. lia. Qed.

Lemma insert_framed_area_push m ms start end_ perm :
  0 <= start <= end_ -> end_ < 2 ^ 39 ->
  insert_framed_area ms start end_ perm m = push ms (new_area start end_ perm) None m.
Proof.
  intros Hs He. pose proof (new_area_range start end_ perm Hs He) as [Hr _]. cbn in Hr.
  unfold insert_framed_area, MapArea_new, SimpleRange_new, bind at 1, bind at 1, bind at 1.
  rewrite va_ceil_eq by lia. unfold VirtAddr.floor. rewrite (proj2 (Z.leb_le _ _)) by lia. done.
Qed.

(** insert_framed_area maps every page of the range to a fresh zeroed frame with the area's
    permissions and leaves other mappings, other areas' data and other holders' frames alone; it
    panics only when a page of the range is already mapped or frames run out. *)
Theorem insert_framed_area_spec m ms a start end_ perm :
  ms_ok m ms a -> 0 <= start <= end_ -> end_ < 2 ^ 39 -> 0 <= perm < 256 ->
  let lo := start / PAGE_SIZE in
  let hi := (end_ + PAGE_SIZE - 1) / PAGE_SIZE in
  match insert_framed_area ms start end_ perm m with
  | Ret ms' m' => exists A a', areas ms' = areas ms ++ [A] /\ ms_ok m' ms' a' /\
      (forall vpn, lo <= vpn < hi -> a !! vpn = None /\ exists f,
         data_frames A !! vpn = Some f /\ a' !! vpn = Some (leaf_pte perm f) /\
         ~ fa_live (falloc m) f /\ page m' f = zero_page) /\
      (forall vpn, ~ lo <= vpn < hi -> a' !! vpn = a !! vpn) /\
      (forall vpn f, data_frame ms vpn f -> page m' f = page m f) /\
      (forall y, fa_live (falloc m) y -> y ∉ footprint ms -> fa_live (falloc m') y /\ page m' y = page m y)
  | Panic Assert => exists vpn, lo <= vpn < hi /\ a !! vpn <> None
  | Panic Unwrap => (fa_avail (falloc m) < 3 * Z.to_nat (hi - lo))%nat
  | Panic _ => False
  end.
Proof.
  intros Hms Hs He Hp lo hi. rewrite insert_framed_area_push by done.
  destruct (new_area_range start end_ perm Hs He) as [Hr Ht].
  pose proof (push_framed m ms a (new_area start end_ perm) Hms eq_refl Hp Hr Ht eq_refl) as H1.
  destruct (push ms _ None m) as [ms' m'|[]]; try done.
  destruct H1 as (A & a' & Hf & Har & Hms' & Hstep & Hpg & Hnew & _). exists A, a'.
  split_and!; try done.
  - intros vpn Hv. destruct (fr_in _ _ _ _ _ Hf vpn Hv) as (Hn & f & Hfr & Hz). split; [done|].
    exists f. split; [done|]. pose proof (fr_ok _ _ _ _ _ Hf) as HA.
    rewrite (ar_map _ _ HA vpn) by (unfold in_area; rewrite (fr_range _ _ _ _ _ Hf); exact Hv).
    unfold area_pte. rewrite (fr_type _ _ _ _ _ Hf), Hfr, (fr_perm _ _ _ _ _ Hf).
    split; [done|]. split; [|done].
    destruct (fs_fresh _ _ _ _ Hstep f) as [Hin|Hn']; [|by destruct (Hnew f (elem_of_area_frames _ _ _ Hfr))|done].
    unfold footprint. rewrite Har, areas_frames_snoc, !elem_of_app. right; right.
    by eapply elem_of_area_frames.
  - intros vpn Hv. by apply (fr_out _ _ _ _ _ Hf).
  - intros vpn f Hd. apply Hpg. by apply (data_frame_footprint ms vpn).
  - intros y Hy Hn. destruct (frame_step_other _ _ _ _ y Hstep Hy Hn) as (? & ? & _). done.
Qed.

(** *** Kernel stacks *)

Lemma kernel_stack_vas pid :
  0 <= pid < MAX_STACKS ->
  VirtAddr.from_usize (fst (kernel_stack_position pid)) = 2 ^ 39 - 4096 - 12288 * pid - 8192 /\
  VirtAddr.from_usize (snd (kernel_stack_position pid)) = 2 ^ 39 - 4096 - 12288 * pid.
Proof.
  intros Hp. assert (MAX_STACKS = 22369620) as E by done. rewrite E in Hp.
  rewrite kernel_stack_position_eq by lia. cbn [fst snd]. rewrite !va_from_usize_mod.
  split; Z.to_euclidean_division_equations; lia.
Qed.

(** The area of the kernel stack of [pid]. *)
Definition stack_vpn (pid : Z) : Z := 2 ^ 27 - 1 - 3 * pid - 2.
Definition stack_area (pid : Z) : MapArea :=
  {| vpn_range := {| range_l := stack_vpn pid; range_r := stack_vpn pid + 2 |}; data_frames := ∅; map_type := Framed;
     map_perm := Z.lor MapPermission.R MapPermission.W |}.
Lemma KernelStack_new_push pid ks m : 0 <= pid < MAX_STACKS -> KernelStack_new pid ks m = push ks (stack_area pid) None m.
Proof.
  intros Hpid. destruct (kernel_stack_vas pid Hpid) as [Hb Ht]. assert (MAX_STACKS = 22369620) as EM by done. rewrite EM in Hpid.
  unfold KernelStack_new. destruct (kernel_stack_position pid) as [b t]. cbn [fst snd] in *. rewrite Hb, Ht.
  rewrite insert_framed_area_push by lia. do 2 f_equal. unfold new_area, stack_area, stack_vpn. f_equal. unfold PAGE_SIZE.
  f_equal; Z.to_euclidean_division_equations; lia.
Qed.

(** C25. In a kernel space with no empty area, creating a kernel stack maps its two pages to
    distinct frames, and dropping it restores the kernel's mappings and areas and gives the data
    frames back; creation panics only if a page is already mapped or fewer than six frames are free. *)
Theorem kernel_stack_roundtrip m ks a pid :
  ms_ok m ks a -> 0 <= pid < MAX_STACKS ->
  Forall (fun A => range_l (vpn_range A) < range_r (vpn_range A)) (areas ks) ->
  let va := VirtAddr.from_usize (fst (kernel_stack_position pid)) in
  let vpn := va / PAGE_SIZE in
  match KernelStack_new pid ks m with
  | Ret ks1 m1 =>
      (exists f0 f1, data_frame ks1 vpn f0 /\ data_frame ks1 (vpn + 1) f1 /\ f0 <> f1) /\
      exists ks2 m2, KernelStack_drop pid ks1 m1 = Ret ks2 m2 /\
        ms_ok m2 ks2 a /\ areas ks2 = areas ks /\
        (forall y, fa_live (falloc m) y -> y ∉ footprint ks -> fa_live (falloc m2) y /\ page m2 y = page m y) /\
        (forall y, fa_live (falloc m2) y -> y ∈ footprint ks2 \/ fa_live (falloc m) y)
  | Panic Assert => a !! vpn <> None \/ a !! (vpn + 1) <> None
  | Panic Unwrap => (fa_avail (falloc m) < 6)%nat
  | Panic _ => False
  end.
Proof.
  intros Hks Hpid Hne va vpn. destruct (kernel_stack_vas pid Hpid) as [Hb Ht].
  assert (MAX_STACKS = 22369620) as EM by done. rewrite EM in Hpid.
  unfold KernelStack_new, KernelStack_drop.
  destruct (kernel_stack_position pid) as [b t]. cbn [fst snd] in *. subst va.
  assert (Hvpn : vpn = 2 ^ 27 - 1 - 3 * pid - 2).
  { unfold vpn. rewrite Hb. unfold PAGE_SIZE. Z.to_euclidean_division_equations. lia. }
  assert (Hfl : VirtAddr.floor (2 ^ 39 - 4096 - 12288 * pid - 8192) = vpn) by (unfold vpn; by rewrite Hb).
  clearbody vpn. rewrite Hb, Ht. clear b t Hb Ht.
  rewrite insert_framed_area_push by lia. set (A0 := new_area _ _ _).
  assert (HA0 : vpn_range A0 = {| range_l := vpn; range_r := vpn + 2 |}).
  { unfold A0, new_area. cbn. unfold VirtAddr.floor in Hfl. f_equal; [done|]. rewrite Hvpn. unfold PAGE_SIZE.
    Z.to_euclidean_division_equations. lia. }
  assert (Hperm : 0 <= map_perm A0 < 256) by (vm_compute; split; congruence).
  pose proof (push_framed m ks a A0 Hks eq_refl Hperm) as Hpush.
  rewrite HA0 in Hpush. cbn [range_l range_r] in Hpush.
  specialize (Hpush ltac:(lia) ltac:(lia) eq_refl).
  destruct (push ks A0 None m) as [ks1 m1|[]]; try done.
  2:{ lia. }
  2:{ destruct Hpush as (w & Hw & Hn). unfold in_area in Hw. rewrite HA0 in Hw. cbn in Hw.
      assert (w = vpn \/ w = vpn + 1) as [-> | ->] by lia; auto. }
  destruct Hpush as (A & a1 & Hf & Har & Hks1 & S1 & Hpg1 & Hnew & _).
  assert (HA : vpn_range A = {| range_l := vpn; range_r := vpn + 2 |}) by by rewrite (fr_range _ _ _ _ _ Hf).
  assert (Hin : forall w, in_area A0 w <-> w = vpn \/ w = vpn + 1)
    by (intros w; unfold in_area; rewrite HA0; cbn; lia).
  split.
  { destruct (fr_in _ _ _ _ _ Hf vpn) as (_ & f0 & Hf0 & _); [apply Hin; by left|].
    destruct (fr_in _ _ _ _ _ Hf (vpn + 1)) as (_ & f1 & Hf1 & _); [apply Hin; by right|].
    assert (Hd0 : data_frame ks1 vpn f0) by (eapply data_frame_snoc; eauto).
    assert (Hd1 : data_frame ks1 (vpn + 1) f1) by (eapply data_frame_snoc; eauto).
    exists f0, f1. split_and!; try done. intros <-.
    pose proof (data_frame_inj m1 ks1 a1 _ _ _ Hks1 Hd0 Hd1). lia. }
  unfold VirtPageNum.from_va. rewrite page_offset_mod.
  assert ((2 ^ 39 - 4096 - 12288 * pid - 8192) mod PAGE_SIZE =? 0 = true) as ->.
  { apply Z.eqb_eq. unfold PAGE_SIZE. Z.to_euclidean_division_equations. lia. }
  unfold bind at 1, bind at 1. cbn [assert ret]. rewrite Hfl.
  assert (Hfi : find_index (fun area => range_start (vpn_range area) =? vpn) (areas ks1) =
    Some (length (areas ks))).
  { apply find_index_Some. rewrite Har. split.
    - exists A. split; [apply lookup_snoc_Some; by right|]. unfold range_start. rewrite HA. apply Z.eqb_refl.
    - intros j B Hj HB. rewrite lookup_app_l in HB by done. apply Z.eqb_neq. intros E.
      destruct (fr_in _ _ _ _ _ Hf vpn) as (Hn & _); [apply Hin; by left|].
      pose proof (Forall_lookup_1 _ _ _ _ Hne HB) as HBne. cbn in HBne.
      destruct (area_mapped a B vpn (Forall_lookup_1 _ _ _ _ (ms_areas _ _ _ Hks) HB)) as [e He].
      + unfold in_area, range_start in *. lia.
      + congruence. }
  destruct (remove_area_run m1 ks1 a1 vpn (length (areas ks)) A Hks1 Hfi) as (m2 & E2 & Hks2 & S2 & Hpg2).
  { rewrite Har. apply lookup_snoc_Some. by right. }
  { apply Hf. }
  cbn zeta in *. rewrite E2. eexists _, m2. split; [done|].
  pose proof (frame_step_trans _ _ _ _ _ _ S1 S2) as S12.
  assert (Hdel : delete (length (areas ks)) (areas ks1) = areas ks).
  { rewrite Har. clear. induction (areas ks) as [|x l IH]; [done|]. cbn. by f_equal. }
  cbn [areas]. split_and!; [|done| |].
  - assert (delete_all (range_pages (vpn_range A)) a1 = a) as <-; [|exact Hks2].
    apply map_eq. intros w. rewrite lookup_delete_all.
    destruct (area_pages A) as (_ & Hpin & _); [rewrite HA; cbn; lia..|].
    assert (HAin : in_area A w <-> in_area A0 w) by (unfold in_area; by rewrite HA, HA0).
    case_decide as Hw; rewrite Hpin, HAin in Hw.
    + by destruct (fr_in _ _ _ _ _ Hf w Hw) as [-> _].
    + by apply (fr_out _ _ _ _ _ Hf).
  - intros y Hy Hn. destruct (frame_step_other _ _ _ _ y S12 Hy Hn) as (? & ? & _). done.
  - intros y Hy. apply S12 in Hy. tauto.
Qed.
(** *** Giving the frames back *)

Definition areas_in_order (l : list MapArea) : list Z := l ≫= fun A => frames_in_order (data_frames A).

Lemma areas_in_order_perm l : areas_in_order l ≡ₚ areas_frames l.
Proof.
  unfold areas_in_order, areas_frames, area_frames, frames_in_order.
  induction l as [|A l IH]; [done|]. cbn. rewrite IH. by rewrite merge_sort_Permutation.
Qed.

Lemma drop_areas_eq l m : for_each l MapArea_drop m = drop_frames (areas_in_order l) m.
Proof.
  revert m. induction l as [|A l IH]; intros m; [done|]. cbn.
  unfold drop_frames. rewrite for_each_app. unfold bind.
  change (for_each (frames_in_order (data_frames A)) FrameTracker_drop m) with (MapArea_drop A m).
  destruct (MapArea_drop A m); [apply IH|done].
Qed.

Lemma ms_ok_parts m ms a :
  ms_ok m ms a ->
  NoDup (frames (page_table ms)) /\ NoDup (areas_frames (areas ms)) /\
  (forall y, y ∈ frames (page_table ms) -> y ∉ areas_frames (areas ms)) /\
  Forall (fa_live (falloc m)) (frames (page_table ms)) /\
  Forall (fa_live (falloc m)) (areas_frames (areas ms)) /\ fa_ok (falloc m).
Proof.
  intros [Hrep Hnd Hl _ _ _]. unfold footprint in *. apply NoDup_app in Hnd as (? & ? & ?).
  apply Forall_app in Hl as [? ?]. split_and!; try done. apply (represents_live _ _ _ Hrep).
Qed.

Lemma drop_areas_run m ms a fp fp' :
  ms_ok m ms a -> Forall (fa_live (falloc m)) fp ->
  (forall y, y ∈ fp' <-> y ∈ fp /\ y ∉ areas_frames (areas ms)) ->
  (forall y, y ∈ areas_frames (areas ms) -> y ∈ fp) ->
  exists m', for_each (areas ms) MapArea_drop m = Ret tt m' /\ frame_step m fp m' fp' /\
    forall y, page m' y = page m y.
Proof.
  intros Hms Hfp Heq Hsub. destruct (ms_ok_parts _ _ _ Hms) as (_ & Hnd & _ & _ & Hl & Hok).
  rewrite drop_areas_eq. pose proof (areas_in_order_perm (areas ms)) as HP.
  apply drop_frames_step; [done|by rewrite HP|by rewrite HP|done| |].
  - intros y. by rewrite HP.
  - intros y. rewrite HP. apply Hsub.
Qed.

(** Recycling the data pages. *)
Lemma recycle_run m ms a :
  ms_ok m ms a ->
  exists m', recycle_data_pages ms m = Ret {| page_table := page_table ms; areas := [] |} m' /\
    ms_ok m' {| page_table := page_table ms; areas := [] |} a /\
    (forall y, fa_live (falloc m') y <-> fa_live (falloc m) y /\ y ∉ areas_frames (areas ms)) /\
    (forall y, page m' y = page m y).
Proof.
  intros Hms. destruct (ms_ok_parts _ _ _ Hms) as (Hndp & Hnda & Hx & Hlp & Hla & Hok).
  destruct (drop_areas_run m ms a (footprint ms) (frames (page_table ms)) Hms (ms_live _ _ _ Hms))
    as (m' & E & S1 & Hp).
  - intros y. unfold footprint. rewrite elem_of_app. specialize (Hx y). tauto.
  - intros y Hy. apply elem_of_app. by right.
  - exists m'. unfold recycle_data_pages. rewrite (bind_Ret _ _ _ _ _ E). split; [done|].
    assert (Hpt : forall y, y ∈ frames (page_table ms) -> fa_live (falloc m') y)
      by (intros y Hy; apply S1; by left).
    split_and!; [| |done].
    + split; unfold footprint; cbn; rewrite ?app_nil_r; try done.
      * apply (represents_frame m); [apply Hms|apply S1|]. intros y Hy. split; [by apply Hpt|apply Hp].
      * by apply Forall_forall.
    + intros y. rewrite (fs_live _ _ _ _ S1). unfold footprint. rewrite elem_of_app.
      rewrite Forall_forall in Hlp. specialize (Hlp y). specialize (Hx y).
      destruct (decide (y ∈ frames (page_table ms))); tauto.
Qed.

(** recycle_data_pages frees exactly the data frames of a memory set; the page tables stay
    allocated and intact. *)
Theorem recycle_frees_data m ms a :
  ms_ok m ms a ->
  exists m', recycle_data_pages ms m = Ret {| page_table := page_table ms; areas := [] |} m' /\
    ms_ok m' {| page_table := page_table ms; areas := [] |} a /\
    (forall y, fa_live (falloc m') y <-> fa_live (falloc m) y /\ y ∉ areas_frames (areas ms)) /\
    (forall y, page m' y = page m y).
Proof. exact (recycle_run m ms a). Qed.

(** Dropping a whole memory set gives back every frame it owns. *)
Lemma MemorySet_drop_run m ms a :
  ms_ok m ms a ->
  exists m', MemorySet_drop ms m = Ret tt m' /\ frame_step m (footprint ms) m' [] /\
    forall y, page m' y = page m y.
Proof.
  intros Hms. destruct (ms_ok_parts _ _ _ Hms) as (Hndp & Hnda & Hx & Hlp & Hla & Hok).
  destruct (drop_frames_step (frames (page_table ms)) m (footprint ms) (areas_frames (areas ms)) Hok Hndp Hlp
    (ms_live _ _ _ Hms)) as (m1 & E1 & S1 & Hp1).
  - intros y. unfold footprint. rewrite elem_of_app. specialize (Hx y). tauto.
  - intros y Hy. apply elem_of_app. by left.
  - assert (Hl1 : Forall (fa_live (falloc m1)) (areas_frames (areas ms))).
    { apply Forall_forall. intros y Hy. apply S1. by left. }
    pose proof (areas_in_order_perm (areas ms)) as HP.
    destruct (drop_frames_step (areas_in_order (areas ms)) m1 (areas_frames (areas ms)) [])
      as (m2 & E2 & S2 & Hp2); [apply S1|by rewrite HP|by rewrite HP|done| |by intros y; rewrite HP|].
    + intros y. rewrite HP. set_solver.
    + exists m2. unfold MemorySet_drop, PageTable_drop. rewrite (bind_Ret _ _ _ _ _ E1).
      rewrite drop_areas_eq, E2. split; [done|].
      split; [by eapply frame_step_trans|]. intros y. by rewrite Hp2, Hp1.
Qed.
End user_space.

(** ** A concrete address space *)

Lemma demo_space : exists (m : mem StackFrameAllocator) ms a,
  let L := StackFrameAllocator_laws 100 in
  ms_ok m ms a /\ Forall (fun A => map_type A = Framed) (areas ms) /\
  Forall (fun A => ~ in_area A TRAMPOLINE_VPN) (areas ms) /\
  Forall (fun A => range_l (vpn_range A) < range_r (vpn_range A)) (areas ms) /\
  total_pages (areas ms) = 1%nat /\ (90 <= fa_avail (falloc m))%nat /\ a !! 16 <> None.
Proof.
  pose (L := StackFrameAllocator_laws 100).
  destruct (new_bare_run (FAL := L) demo_mem (demo_ok demo_mem eq_refl)) as (ms & m & E & Hn & Hms & _ & Hav); [done|].
  pose proof (push_framed (FAL := L) m ms ∅ (new_area 0x10000 0x11000 MapPermission.R) Hms eq_refl
    ltac:(vm_compute; split; congruence) ltac:(vm_compute; split; congruence)
    ltac:(vm_compute; congruence) eq_refl) as H1.
  assert (Hav0 : fa_avail (falloc demo_mem) = 100%nat) by done. rewrite Hav0 in Hav.
  destruct (push ms _ None m) as [ms' m'|p].
  - destruct H1 as (A & a' & Hf & Har & Hms' & _ & _ & _ & Hav').
    change (Z.to_nat _) with 1%nat in Hav'. rewrite Hn in Har. cbn [app] in Har.
    exists m', ms', a'. split; [done|]. rewrite Har, !Forall_singleton. unfold in_area, total_pages.
    cbn [sum_list_with]. unfold area_size. rewrite (fr_range _ _ _ _ _ Hf).
    split_and!; try done.
    + apply Hf.
    + vm_compute. intros [_ ?]. congruence.
    + cbn in *. lia.
    + destruct (fr_in _ _ _ _ _ Hf 16) as (_ & f & Hfr & _); [vm_compute; split; congruence|].
      rewrite (ar_map _ _ (fr_ok _ _ _ _ _ Hf) 16).
      * unfold area_pte. by rewrite (fr_type _ _ _ _ _ Hf), Hfr.
      * unfold in_area. rewrite (fr_range _ _ _ _ _ Hf). vm_compute. split; congruence.
  - exfalso. destruct p; try done.
    + change (Z.to_nat _) with 1%nat in H1. cbn in *. lia.
    + destruct H1 as (vpn & _ & Hne). by rewrite lookup_empty in Hne.
Defined.

Lemma from_existed_user_copies_witness : exists (m : mem StackFrameAllocator) user child m',
  from_existed_user 0x80200000 user m = Ret child m' /\ Forall2 same_area (areas user) (areas child).
Proof.
  destruct demo_space as (m & ms & a & Hms & HF & Htr & _ & Hn & Hav & _).
  destruct (from_existed_user_copies (FAL := StackFrameAllocator_laws 100) 0x80200000 m ms a Hms HF Htr)
    as (child & m' & a' & E & _ & _ & _ & Hs & _); [reflexivity|lia|].
  exists m, ms, child, m'. split; [exact E|exact Hs].
Defined.

(** Page 16 is taken: inserting it again fails. *)
Lemma insert_framed_area_spec_witness : exists (m : mem StackFrameAllocator) ms,
  insert_framed_area ms 0x10000 0x10001 MapPermission.R m = Panic Assert.
Proof.
  destruct demo_space as (m & ms & a & Hms & _ & _ & _ & _ & Hav & H16).
  pose proof (insert_framed_area_spec (FAL := StackFrameAllocator_laws 100) m ms a 0x10000 0x10001
    MapPermission.R Hms ltac:(lia) ltac:(lia) ltac:(vm_compute; split; congruence)) as H1.
  exists m, ms. cbv zeta in H1. destruct (insert_framed_area ms _ _ _ m) as [ms' m'|[]]; try done.
  - destruct H1 as (A & a' & _ & _ & Hin & _). exfalso.
    apply H16, (Hin 16). vm_compute. split; congruence.
  - exfalso. change (Z.to_nat _) with 1%nat in H1. lia.
Defined.

Lemma kernel_stack_roundtrip_witness : exists (m : mem StackFrameAllocator) ks,
  match KernelStack_new 3 ks m with
  | Ret ks1 m1 => exists ks2 m2, KernelStack_drop 3 ks1 m1 = Ret ks2 m2 /\ areas ks2 = areas ks
  | Panic p => p = Assert
  end.
Proof.
  destruct demo_space as (m & ms & a & Hms & _ & _ & Hne & _ & Hav & _). exists m, ms.
  pose proof (kernel_stack_roundtrip (FAL := StackFrameAllocator_laws 100) m ms a 3 Hms
    ltac:(vm_compute; split; congruence) Hne) as H1.
  destruct (KernelStack_new 3 ms m) as [ks1 m1|[]]; try done.
  - destruct H1 as (_ & ks2 & m2 & E & _ & Har & _). exists ks2, m2. split; [exact E|exact Har].
  - exfalso. cbn in H1, Hav. lia.
Defined.

Lemma recycle_frees_data_witness : exists (m : mem StackFrameAllocator) ms m',
  recycle_data_pages ms m = Ret {| page_table := page_table ms; areas := [] |} m'.
Proof.
  destruct demo_space as (m & ms & a & Hms & _).
  destruct (recycle_frees_data (FAL := StackFrameAllocator_laws 100) m ms a Hms) as (m' & E & _).
  exists m, ms, m'. exact E.
Defined.
