(* ===== verification/KernelSpace.v ===== *)
(** The kernel's own address space: [MemorySet::new_kernel] of
    [os/src/mm/memory_set.rs] as a whole.

    The 512 pages of a 2 MiB block share their tables, so what [new_kernel]
    spends is bounded by the number of blocks its sections touch and not by the
    number of pages; [room] carries that bound through the mapping loops. *)
From S2P Require Import Prelude Address FrameAllocator PageTable Pid MemorySet UserSpace.

(** ** Frames spent on tables *)

Definition chunk (vpn : Z) : Z := vpn / 512.
Definition chunks (a : gmap Z Z) : gset Z := set_map chunk (dom a).

Lemma elem_of_chunks a c : c ∈ chunks a <-> exists vpn, chunk vpn = c /\ is_Some (a !! vpn).
Proof. unfold chunks. rewrite elem_of_map. setoid_rewrite elem_of_dom. naive_solver. Qed.

Lemma chunks_insert a vpn e : chunks (<[vpn := e]> a) = {[chunk vpn]} ∪ chunks a.
Proof. apply set_eq. intros c. unfold chunks. rewrite dom_insert_L. set_solver. Qed.

Section room.
Context {T : Type} `{FAL : FrameAllocatorLaws T}.
Implicit Types (m : mem T) (ms : MemorySet) (a : gmap Z Z) (K : gset Z).

(** The frames left pay two tables for every block of [K] not yet in use, and [n] frames are over. *)
Record room (n : nat) K m a : Prop := {
  rm_sub : chunks a ⊆ K;
  rm_frames : (n + 2 * size K <= fa_avail (falloc m) + 2 * size (chunks a))%nat;
  rm_dom vpn : is_Some (a !! vpn) -> vpn_ok vpn;
}.

Lemma find_pte_create_hit m pt vpn i0 i1 i2 p :
  table_ok m pt -> VirtPageNum.indexes vpn = [i0; i1; i2] -> idx_ok i0 -> idx_ok i1 -> idx_ok i2 ->
  node m (root_ppn pt) [i0; i1] = Some p -> find_pte_create pt vpn m = Ret (pt, Some (p, i2)) m.
Proof.
  intros Hok E H0 H1 H2 Hn. unfold find_pte_create. rewrite E.
  pose proof (node_len _ _ _ [] _ Hok path_ok_0 eq_refl) as (_ & _ & Hl0).
  destruct (node m (root_ppn pt) [i0]) as [p1|] eqn:N1.
  2:{ change [i0; i1] with ([i0] ++ [i1]) in Hn. rewrite node_snoc, N1 in Hn. done. }
  pose proof (node_len _ _ _ [i0] p1 Hok (path_ok_1 _ H0) N1) as (_ & _ & Hl1).
  pose proof (node_len _ _ _ _ _ Hok (path_ok_2 _ _ H0 H1) Hn) as (_ & _ & Hl2).
  assert (Hc : forall q i q', child m q i = Some q' -> forall fs, ensure_child q i (pte_at m q i) fs m = Ret (fs, q') m).
  { intros q i q' Hq fs. unfold child in Hq. unfold ensure_child. destruct (PageTableEntry.is_valid _); [|done].
    by injection Hq as <-. }
  change [i0; i1] with ([i0] ++ [i1]) in Hn. rewrite node_snoc, N1 in Hn. cbn in Hn, N1.
  rewrite (bind_Ret _ _ _ (frames pt, Some (p, i2)) m); [by destruct pt|].
  rewrite (find_pte_create_loop_step m 0 i0 [i1; i2] _ _ Hl0 H0 eq_refl), (bind_Ret _ _ _ _ _ (Hc _ _ _ N1 _)).
  rewrite (find_pte_create_loop_step m 1 i1 [i2] p1 _ Hl1 H1 eq_refl), (bind_Ret _ _ _ _ _ (Hc _ _ _ Hn _)).
  cbn [find_pte_create_loop]. by rewrite (bind_Ret _ _ _ _ _ (pte_get_run _ _ _ Hl2 H2)).
Qed.

(** A page of a block that has a mapped page costs nothing. *)
Lemma map_hit m pt a vpn w ppn flags :
  represents m pt a -> vpn_ok vpn -> vpn_ok w -> chunk w = chunk vpn -> is_Some (a !! w) -> a !! vpn = None ->
  exists m', map pt vpn ppn flags m = Ret pt m' /\ falloc m' = falloc m.
Proof.
  intros Hrep Hv Hw Hc Haw Ha. destruct (indexes_ok vpn) as (i0 & i1 & i2 & E & H0 & H1 & H2).
  assert (Hn : is_Some (node m (root_ppn pt) [i0; i1])).
  { rewrite <- (proj2 Hrep) in Haw by done. unfold mapped, leaf in Haw. rewrite indexes_arith in E, Haw.
    injection E as <- <- <-. unfold chunk in Hc. change (2 ^ 18) with (512 * 512) in *. change (2 ^ 9) with 512 in *.
    rewrite <- !Z.div_div in * by lia. rewrite Hc in Haw. destruct (node m _ _); [done|by destruct Haw]. }
  destruct Hn as [p Hn]. pose proof (find_pte_create_hit m pt vpn i0 i1 i2 p (proj1 Hrep) E H0 H1 H2 Hn) as E1.
  pose proof (node_len _ _ _ _ _ (proj1 Hrep) (path_ok_2 _ _ H0 H1) Hn) as (_ & _ & Hl).
  pose proof (leaf_mapped m pt vpn i0 i1 i2 p E Hn) as Hm. rewrite (proj2 Hrep), Ha in Hm by done.
  destruct (pte_set_run m p i2 (PageTableEntry.new ppn (Z.lor flags PTEFlags.V)) Hl H2) as (m' & E2 & Hfa & _).
  exists m'. split; [|done]. unfold map. rewrite (bind_Ret _ _ _ _ _ E1), bind_unwrap.
  rewrite (bind_Ret _ _ _ _ _ (pte_get_run _ _ _ Hl H2)).
  destruct (PageTableEntry.is_valid (pte_at m p i2)); [done|]. by rewrite bind_assert, (bind_Ret _ _ _ _ _ E2).
Qed.

Lemma map_room n K m pt a vpn ppn flags :
  represents m pt a -> room n K m a -> vpn_ok vpn -> chunk vpn ∈ K -> a !! vpn = None ->
  0 <= ppn < 2 ^ 44 -> 0 <= flags < 256 ->
  exists pt' m', let a' := <[vpn := leaf_pte flags ppn]> a in
    map pt vpn ppn flags m = Ret pt' m' /\ represents m' pt' a' /\ room n K m' a' /\
    frame_step m (frames pt) m' (frames pt') /\ frames pt ⊆ frames pt'.
Proof.
  intros Hrep [Hs Hf Hd] Hv Hc Ha Hp Hfl. pose proof (map_run m pt a vpn ppn flags Hrep Hv Hp Hfl) as Hm.
  assert (Hd' : forall w, is_Some (<[vpn := leaf_pte flags ppn]> a !! w) -> vpn_ok w).
  { intros w. destruct (decide (w = vpn)) as [->|Hne]; [intros _; exact Hv|]. rewrite lookup_insert_ne by congruence. apply Hd. }
  assert (Hs' : chunks (<[vpn := leaf_pte flags ppn]> a) ⊆ K) 
    by (rewrite chunks_insert; apply union_subseteq; split; [apply singleton_subseteq_l; exact Hc|exact Hs]).
  destruct (decide (chunk vpn ∈ chunks a)) as [Hin|Hin].
  - apply elem_of_chunks in Hin as (w & Hw & Haw).
    destruct (map_hit m pt a vpn w ppn flags Hrep Hv (Hd _ Haw) Hw Haw Ha) as (m' & E & Hfa).
    rewrite E in Hm. exists pt, m'. cbn zeta. split; [done|]. split; [apply Hm|]. split.
    + split; [done| |done]. rewrite Hfa, chunks_insert, subseteq_union_1_L; [done|].
      intros c ->%elem_of_singleton. apply elem_of_chunks. eauto.
    + split; [by apply (map_step _ _ _ _ _ _ _ _ Hrep Hv Hp Hfl E)|apply Hm].
  - assert (Hsz : (S (size (chunks a)) <= size K)%nat).
    { rewrite chunks_insert in Hs'. apply subseteq_size in Hs'.
      by rewrite size_union, size_singleton in Hs' by by apply disjoint_singleton_l. }
    destruct (map pt vpn ppn flags m) as [pt' m'|[]] eqn:E; try done; [|lia].
    exists pt', m'. cbn zeta. split; [done|]. destruct Hm as (_ & Hrep' & _ & Hsub & _ & _ & _ & Hav).
    split; [done|]. split; [|split; [by apply (map_step _ _ _ _ _ _ _ _ Hrep Hv Hp Hfl E)|done]].
    split; [done| |done]. rewrite chunks_insert, size_union, size_singleton by by apply disjoint_singleton_l. lia.
Qed.

(** ** Identical areas *)

(** Every page of [l] mapped to the frame of the same number. *)
Definition identity_on (perm : Z) (l : list Z) : gmap Z Z :=
  list_to_map ((fun vpn => (vpn, leaf_pte perm vpn)) <$> l).

Lemma identity_on_lookup perm l vpn :
  identity_on perm l !! vpn = if decide (vpn ∈ l) then Some (leaf_pte perm vpn) else None.
Proof.
  unfold identity_on. induction l as [|w l IH]; [done|]. cbn. destruct (decide (vpn = w)) as [->|Hne].
  - rewrite lookup_insert_eq, decide_True by set_solver. done.
  - rewrite lookup_insert_ne, IH by done. repeat case_decide; set_solver.
Qed.

Lemma map_pages_identical n K l area m pt a :
  represents m pt a -> room n K m a -> map_type area = Identical -> 0 <= map_perm area < 256 ->
  Forall vpn_ok l -> NoDup l -> (forall vpn, vpn ∈ l -> chunk vpn ∈ K /\ a !! vpn = None) ->
  exists pt' m', let a' := identity_on (map_perm area) l ∪ a in
    map_pages l area pt m = Ret (area, pt') m' /\ represents m' pt' a' /\ room n K m' a' /\
    frame_step m (frames pt) m' (frames pt') /\ frames pt ⊆ frames pt'.
Proof.
  intros Hrep Hro Ht Hp. revert m pt a Hrep Hro. induction l as [|vpn l IH]; intros m pt a Hrep Hro Hl Hnd Hin.
  { exists pt, m. cbn. rewrite (left_id_L ∅ (∪)). destruct (represents_live _ _ _ Hrep) as (Hok & _ & Hlv).
    split_and!; try done. by apply frame_step_refl. }
  apply Forall_cons in Hl as [Hv Hl]. apply NoDup_cons in Hnd as [Hvl Hnd].
  destruct (Hin vpn ltac:(constructor)) as [Hc Ha].
  assert (Hppn : 0 <= vpn < 2 ^ 44) by (unfold vpn_ok in Hv; lia).
  destruct (map_room n K m pt a vpn vpn (map_perm area) Hrep Hro Hv Hc Ha Hppn Hp) as (pt1 & m1 & E1 & Hrep1 & Hro1 & S1 & Hsub1).
  destruct (IH m1 pt1 _ Hrep1 Hro1 Hl Hnd) as (pt2 & m2 & E2 & Hrep2 & Hro2 & S2 & Hsub2).
  { intros w Hw. destruct (Hin w ltac:(by constructor)). by rewrite lookup_insert_ne by (intros ->; done). }
  exists pt2, m2. cbn zeta in *.
  assert (Heq : identity_on (map_perm area) (vpn :: l) ∪ a = identity_on (map_perm area) l ∪ <[vpn := leaf_pte (map_perm area) vpn]> a).
  { unfold identity_on. cbn. rewrite <- insert_union_l. rewrite insert_union_r; [done|].
    fold (identity_on (map_perm area) l). by rewrite identity_on_lookup, decide_False. }
  rewrite Heq. split_and!; try done.
  - cbn [map_pages]. unfold map_one. rewrite Ht. unfold bind at 1 2 3. cbn [ret]. by rewrite E1.
  - by eapply frame_step_trans.
  - by transitivity (frames pt1).
Qed.

(** ** Sections: ranges of addresses mapped to themselves *)

Definition section_lo (s : Z * Z * Z) : Z := s.1.1 / PAGE_SIZE.
Definition section_hi (s : Z * Z * Z) : Z := (s.1.2 + PAGE_SIZE - 1) / PAGE_SIZE.
Definition section_perm (s : Z * Z * Z) : Z := s.2.
Definition in_section (s : Z * Z * Z) (vpn : Z) : Prop := section_lo s <= vpn < section_hi s.
#[global] Instance in_section_dec s vpn : Decision (in_section s vpn).
Proof. unfold in_section. apply _. Defined.
Definition apart (s t : Z * Z * Z) : Prop := section_hi s <= section_lo t \/ section_hi t <= section_lo s.
Definition section_area (s : Z * Z * Z) : MapArea :=
  {| vpn_range := {| range_l := section_lo s; range_r := section_hi s |}; data_frames := ∅;
     map_type := Identical; map_perm := section_perm s |}.

Record section_ok K (s : Z * Z * Z) : Prop := {
  so_range : 0 <= s.1.1 <= s.1.2;
  so_top : s.1.2 < 2 ^ 39;
  so_perm : 0 <= section_perm s < 256;
  so_chunks vpn : in_section s vpn -> chunk vpn ∈ K;
}.

Lemma section_bounds K s : section_ok K s -> 0 <= section_lo s <= section_hi s /\ section_hi s <= 2 ^ 27.
Proof.
  intros [Hr Ht _ _]. unfold section_lo, section_hi, PAGE_SIZE in *. Z.to_euclidean_division_equations. lia.
Qed.

Lemma push_range_identical K s ms m : section_ok K s ->
  push_range s.1.1 s.1.2 Identical s.2 ms m = push ms (section_area s) None m.
Proof.
  intros Hs. destruct (section_bounds K s Hs) as [Hb _]. destruct Hs as [Hr Ht _ _].
  unfold push_range, MapArea_new, SimpleRange_new. rewrite !va_from_usize_mod, !Z.mod_small by lia.
  rewrite va_ceil_eq by lia. unfold VirtAddr.floor. fold (section_lo s) (section_hi s).
  unfold bind at 1 2. rewrite (proj2 (Z.leb_le _ _)) by lia. reflexivity.
Qed.

(** What pushing [s] does to the mapping. *)
Record maps_section s a a' : Prop := {
  sp_in vpn : in_section s vpn -> a' !! vpn = Some (leaf_pte (section_perm s) vpn);
  sp_out vpn : ~ in_section s vpn -> a' !! vpn = a !! vpn;
}.

Lemma push_identical n K m ms a s :
  ms_ok m ms a -> room n K m a -> section_ok K s -> (forall vpn, in_section s vpn -> a !! vpn = None) ->
  exists ms' m' a', push ms (section_area s) None m = Ret ms' m' /\ areas ms' = areas ms ++ [section_area s] /\
    ms_ok m' ms' a' /\ room n K m' a' /\ frame_step m (footprint ms) m' (footprint ms') /\ maps_section s a a'.
Proof.
  intros [Hrep Hnd Hlv Hlen Har Hdj] Hro Hs Hnone. destruct (section_bounds K s Hs) as [Hb Ht]. destruct Hs as [_ _ Hp Hc].
  destruct (area_pages (section_area s) Hb Ht) as (Hndp & Hin & Hv & _).
  set (l := range_pages (vpn_range (section_area s))) in *.
  destruct (map_pages_identical n K l (section_area s) m (page_table ms) a Hrep Hro eq_refl Hp Hv Hndp) as
    (pt' & m' & E & Hrep' & Hro' & S1 & Hsub); [intros vpn Hvpn%Hin; by split; [apply Hc|apply Hnone]|].
  cbn [map_perm section_area] in *. set (a' := identity_on _ l ∪ a) in *.
  assert (Hms : maps_section s a a').
  { split; intros vpn Hvpn; unfold a'.
    - apply lookup_union_Some_l. by rewrite identity_on_lookup, decide_True by by apply Hin.
    - apply lookup_union_r. rewrite identity_on_lookup, decide_False; [done|]. by rewrite Hin. }
  exists {| page_table := pt'; areas := areas ms ++ [section_area s] |}, m', a'.
  split; [unfold push, MapArea_map; fold l; by rewrite (bind_Ret _ _ _ _ _ E)|]. split; [done|].
  assert (Hfp : footprint {| page_table := pt'; areas := areas ms ++ [section_area s] |} = frames pt' ++ areas_frames (areas ms)).
  { unfold footprint. cbn. rewrite areas_frames_snoc. unfold area_frames at 1. cbn. by rewrite map_to_list_empty, app_nil_r. }
  assert (Haf : areas_frames (areas ms ++ [section_area s]) = areas_frames (areas ms)).
  { rewrite areas_frames_snoc. unfold area_frames at 1. cbn. by rewrite map_to_list_empty, app_nil_r. }
  unfold footprint in Hnd, Hlv. apply NoDup_app in Hnd as (_ & Hx & Hnda). apply Forall_app in Hlv as [_ Hlva].
  destruct (represents_live _ _ _ Hrep') as (Hok' & Hnpt & Hlpt). rewrite Forall_forall in Hlva.
  assert (Hother : forall y, y ∈ areas_frames (areas ms) -> fa_live (falloc m') y /\ page m' y = page m y /\ y ∉ frames pt').
  { intros y Hy. apply (frame_step_other _ _ _ _ y S1); [by apply Hlva|]. intros Hy'. by apply (Hx y). }
  split_and!; [|done| |exact Hms].
  - split; cbn [page_table areas]; rewrite ?Hfp, ?Haf; try done.
    + apply NoDup_app. split_and!; [done| |done]. intros y Hy Hy'. by apply (Hother y Hy').
    + apply Forall_app. split; [done|]. apply Forall_forall. intros y Hy. by apply Hother.
    + rewrite Forall_forall in Hlen |- *. intros y Hy. destruct (Hother y Hy) as (_ & -> & _). by apply Hlen.
    + apply Forall_app. split; [|apply Forall_singleton].
      * rewrite Forall_forall in Har |- *. intros A HA. apply (area_ok_ext a); [by apply Har|]. intros vpn Hvpn.
        apply (sp_out _ _ _ Hms). intros Hvs. destruct (area_mapped a A vpn (Har A HA) Hvpn). by rewrite Hnone in *.
      * split; cbn; try done; try lia. intros vpn Hvpn. by apply (sp_in _ _ _ Hms).
    + apply disjoint_snoc; [done|]. intros A HA vpn Hvpn Hvs. rewrite Forall_forall in Har.
      destruct (area_mapped a A vpn (Har A HA) Hvpn). by rewrite Hnone in *.
  - rewrite Hfp. eapply frame_step_Permutation; [..|apply (frame_step_frame _ _ _ _ (areas_frames (areas ms)) S1)].
    + intros y. unfold footprint. rewrite !elem_of_app. tauto.
    + intros y. rewrite !elem_of_app. tauto.
    + apply Forall_forall. exact Hlva.
    + intros y Hy Hy'. by apply (Hx y).
Qed.

Lemma push_ranges_run n K l m ms a :
  ms_ok m ms a -> room n K m a -> Forall (section_ok K) l -> ForallOrdPairs apart l ->
  (forall s vpn, s ∈ l -> in_section s vpn -> a !! vpn = None) ->
  exists ms' m' a', push_ranges l ms m = Ret ms' m' /\ areas ms' = areas ms ++ (section_area <$> l) /\
    ms_ok m' ms' a' /\ room n K m' a' /\ frame_step m (footprint ms) m' (footprint ms') /\
    (forall s vpn, s ∈ l -> in_section s vpn -> a' !! vpn = Some (leaf_pte (section_perm s) vpn)) /\
    (forall vpn, (forall s, s ∈ l -> ~ in_section s vpn) -> a' !! vpn = a !! vpn).
Proof.
  revert m ms a. induction l as [|s l IH]; intros m ms a Hms Hro Hl Hap Hnone.
  { exists ms, m, a. cbn. rewrite app_nil_r. destruct (represents_live _ _ _ (ms_rep _ _ _ Hms)) as (Hok & _ & _).
    split_and!; try done; [apply frame_step_refl; [done|apply Hms]|by intros ? ? ?%elem_of_nil]. }
  apply Forall_cons in Hl as [Hs Hl]. inversion Hap as [|? ? Haps Hap']; subst. rewrite Forall_forall in Haps.
  assert (Hout : forall t vpn, t ∈ l -> in_section t vpn -> ~ in_section s vpn).
  { intros t vpn Ht Hv Hv'. specialize (Haps t Ht). unfold in_section, apart in *. lia. }
  destruct (push_identical n K m ms a s Hms Hro Hs) as (ms1 & m1 & a1 & E1 & Ha1 & Hms1 & Hro1 & S1 & Hm1).
  { intros vpn. apply Hnone. constructor. }
  destruct (IH m1 ms1 a1 Hms1 Hro1 Hl Hap') as (ms2 & m2 & a2 & E2 & Ha2 & Hms2 & Hro2 & S2 & Hin2 & Hout2).
  { intros t vpn Ht Hv. rewrite (sp_out _ _ _ Hm1) by by apply (Hout t). apply (Hnone t); [by constructor|done]. }
  exists ms2, m2, a2. split; [|split; [by rewrite Ha2, Ha1, <- app_assoc|split; [done|split; [done|split; [by eapply frame_step_trans|]]]]].
  - cbn [push_ranges]. destruct s as [[st en] pm]. cbn in Hs |- *.
    pose proof (push_range_identical K (st, en, pm) ms m Hs) as E. cbn in E. rewrite E1 in E. by rewrite (bind_Ret _ _ _ _ _ E).
  - split.
    + intros t vpn [->|Ht]%elem_of_cons Hv; [|by apply Hin2]. rewrite Hout2; [by apply (sp_in _ _ _ Hm1)|].
      intros t' Ht' Hv'. by apply (Hout t' vpn).
    + intros vpn Hv. rewrite Hout2 by (intros t Ht; apply Hv; by constructor). apply (sp_out _ _ _ Hm1). apply Hv. constructor.
Qed.
End room.

(** ** [new_kernel] *)

(** What the linker script ([os/src/linker-qemu.ld]) promises: page-aligned
    sections in this order, from the base address up to the end of memory. *)
Definition BASE_ADDRESS : Z := 0x80200000.
Record linker_ok (k : linker) : Prop := {
  lk_order : BASE_ADDRESS <= stext k <= strampoline k /\ strampoline k < etext k /\ etext k <= srodata k <= erodata k /\
    erodata k <= sdata k <= edata k /\ edata k <= sbss_with_stack k <= ebss k /\ ebss k <= ekernel k <= MEMORY_END;
  lk_aligned : Forall (fun x => x mod PAGE_SIZE = 0) [stext k; strampoline k; etext k; srodata k; erodata k; sdata k; edata k;
    sbss_with_stack k; ebss k; ekernel k];
}.

(** The 2 MiB blocks of the kernel: the device registers, the memory from the base
    address to [MEMORY_END], the trampoline. *)
Definition kernel_chunks : gset Z := list_to_set ([0; 128; 262143] ++ seqZ 0x401 7).
Definition KERNEL_TABLES : nat := 21.

Lemma linker_arith k : linker_ok k -> exists p0 pt p1 p2 p3 p4 p5 p6 p7 p8,
  [stext k; strampoline k; etext k; srodata k; erodata k; sdata k; edata k; sbss_with_stack k; ebss k; ekernel k] =
    (fun p => p * PAGE_SIZE) <$> [p0; pt; p1; p2; p3; p4; p5; p6; p7; p8] /\
  0x80200 <= p0 <= pt /\ pt < p1 /\ p1 <= p2 <= p3 /\ p3 <= p4 <= p5 /\ p5 <= p6 <= p7 /\ p7 <= p8 <= 0x81000.
Proof.
  intros [Ho Ha]. exists (stext k / PAGE_SIZE), (strampoline k / PAGE_SIZE), (etext k / PAGE_SIZE), (srodata k / PAGE_SIZE),
    (erodata k / PAGE_SIZE), (sdata k / PAGE_SIZE), (edata k / PAGE_SIZE), (sbss_with_stack k / PAGE_SIZE), (ebss k / PAGE_SIZE), (ekernel k / PAGE_SIZE).
  unfold BASE_ADDRESS, MEMORY_END, PAGE_SIZE in *. rewrite !Forall_cons in Ha. cbn.
  split; [repeat (apply f_equal2; [Z.to_euclidean_division_equations; lia|]); reflexivity|]. Z.to_euclidean_division_equations. lia.
Qed.

Lemma page_div p : p * PAGE_SIZE / PAGE_SIZE = p.
Proof. by apply Z.div_mul. Qed.
Lemma page_ceil p : (p * PAGE_SIZE + PAGE_SIZE - 1) / PAGE_SIZE = p.
Proof. unfold PAGE_SIZE. Z.to_euclidean_division_equations. lia. Qed.

Lemma elem_of_kernel_chunks vpn : 0x80200 <= vpn < 0x81000 \/ 0 <= vpn < 512 \/ 0x10000 <= vpn < 0x10200 \/ vpn = TRAMPOLINE_VPN ->
  chunk vpn ∈ kernel_chunks.
Proof.
  intros Hv. unfold kernel_chunks, chunk, TRAMPOLINE_VPN in *. rewrite elem_of_list_to_set, elem_of_app, !elem_of_cons, elem_of_seqZ.
  Z.to_euclidean_division_equations. lia.
Qed.

Lemma section_ok_pages lo hi perm : 0 <= lo <= hi -> hi <= 0x81000 -> 0 <= perm < 256 ->
  0x80200 <= lo \/ hi <= 512 \/ 0x10000 <= lo /\ hi <= 0x10200 -> section_ok kernel_chunks (lo * PAGE_SIZE, hi * PAGE_SIZE, perm).
Proof.
  intros Hl Hh Hp Hv. split; [unfold PAGE_SIZE; cbn; lia..|exact Hp|]. unfold in_section, section_lo, section_hi. cbn [fst snd].
  rewrite page_div, page_ceil. intros vpn Hvpn. apply elem_of_kernel_chunks. lia.
Qed.

Lemma kernel_sections_ok k : linker_ok k ->
  Forall (section_ok kernel_chunks) (kernel_sections k) /\ ForallOrdPairs apart (kernel_sections k) /\
  Forall (fun s => section_hi s <= 0x81000 /\ 256 <= section_lo s) (kernel_sections k).
Proof.
  intros Hk. destruct (linker_arith k Hk) as (p0 & pt & p1 & p2 & p3 & p4 & p5 & p6 & p7 & p8 & E & Ho).
  unfold kernel_sections, MMIO. cbn [list_fmap list_omap fmap list_fmap app fst snd] in *. injection E as -> Et -> -> -> -> -> -> -> ->.
  change MEMORY_END with (0x81000 * PAGE_SIZE). change (u64 (0x100000 + 0x2000)) with (0x102 * PAGE_SIZE). change (u64 (0x10001000 + 0x1000)) with (0x10002 * PAGE_SIZE).
  change 0x100000 with (0x100 * PAGE_SIZE). change 0x10001000 with (0x10001 * PAGE_SIZE).
  split_and!.
  - repeat (apply Forall_cons; split; [apply section_ok_pages; [lia|lia|vm_compute; intuition congruence|lia]|]). constructor.
  - repeat (apply FOP_cons; [|]); [..|apply FOP_nil].
    all: repeat (apply Forall_cons; split); try apply Forall_nil.
    all: unfold apart, section_lo, section_hi; cbn [fst snd]; rewrite ?page_div, ?page_ceil; lia.
  - repeat (apply Forall_cons; split); try apply Forall_nil.
    all: unfold section_lo, section_hi; cbn [fst snd]; rewrite ?page_div, ?page_ceil; lia.
Qed.

Section new_kernel.
Context {T : Type} `{FAL : FrameAllocatorLaws T}.
Implicit Types (m : mem T) (ms : MemorySet) (a : gmap Z Z).

Lemma map_trampoline_room n K strampoline m ms a :
  ms_ok m ms a -> areas ms = [] -> room n K m a -> a !! TRAMPOLINE_VPN = None -> chunk TRAMPOLINE_VPN ∈ K ->
  strampoline mod PAGE_SIZE = 0 -> 0 <= strampoline < 2 ^ 56 ->
  exists ms' m', let a' := <[TRAMPOLINE_VPN := trampoline_pte strampoline]> a in
    map_trampoline strampoline ms m = Ret ms' m' /\ areas ms' = [] /\ ms_ok m' ms' a' /\ room n K m' a' /\
    frame_step m (footprint ms) m' (footprint ms').
Proof.
  intros Hms Hnil Hro Ha HK Hst Hs. pose proof (ms_rep _ _ _ Hms) as Hrep.
  assert (Hv : vpn_ok TRAMPOLINE_VPN) by (vm_compute; intuition congruence).
  assert (Hp : 0 <= strampoline mod 2 ^ 56 / PAGE_SIZE < 2 ^ 44) by (unfold PAGE_SIZE; Z.to_euclidean_division_equations; lia).
  destruct (map_room n K m _ a TRAMPOLINE_VPN (strampoline mod 2 ^ 56 / PAGE_SIZE) (Z.lor PTEFlags.R PTEFlags.X) Hrep Hro Hv HK Ha Hp
    ltac:(vm_compute; intuition congruence)) as (pt & m' & E & Hrep' & Hro' & S1 & _).
  exists {| page_table := pt; areas := areas ms |}, m'. cbn zeta. destruct (represents_live _ _ _ Hrep') as (_ & Hnpt & Hlpt).
  split.
  { unfold map_trampoline, VirtPageNum.from_va, PhysPageNum.from_pa. 
    change (VirtAddr.page_offset (VirtAddr.from_usize TRAMPOLINE) =? 0) with true. unfold bind at 1, bind at 1. cbn [assert ret].
    rewrite pa_from_usize_mod, Z.mod_small by done.
    change (PhysAddr.page_offset strampoline) with (VirtAddr.page_offset strampoline). rewrite page_offset_mod, Hst.
    unfold bind at 1, bind at 1. cbn [Z.eqb assert ret].
    change (PhysAddr.floor strampoline) with (strampoline / PAGE_SIZE). change (VirtAddr.floor (VirtAddr.from_usize TRAMPOLINE)) with TRAMPOLINE_VPN.
    rewrite Z.mod_small in E by done. by rewrite (bind_Ret _ _ _ _ _ E). }
  unfold footprint in *. cbn [page_table areas]. rewrite Hnil in *. cbn. rewrite !app_nil_r. split_and!; [done| |done|done].
  split; cbn [page_table areas]; unfold footprint; cbn [page_table areas]; rewrite ?Hnil; cbn; rewrite ?app_nil_r; try done.
Qed.

(** The kernel's mapping: its sections, the trampoline and nothing else. *)
Definition sections_mapped (k : linker) a : Prop :=
  forall s vpn, s ∈ kernel_sections k -> in_section s vpn -> a !! vpn = Some (leaf_pte (section_perm s) vpn).
Record kernel_mapping (k : linker) a : Prop := {
  km_section : sections_mapped k a;
  km_trampoline : a !! TRAMPOLINE_VPN = Some (trampoline_pte (strampoline k));
  km_else vpn : vpn <> TRAMPOLINE_VPN -> (forall s, s ∈ kernel_sections k -> ~ in_section s vpn) -> a !! vpn = None;
}.

Lemma new_kernel_run k m :
  linker_ok k -> fa_ok (falloc m) -> (KERNEL_TABLES <= fa_avail (falloc m))%nat ->
  exists ks m' a, new_kernel k m = Ret (ks, new_kernel_lines k) m' /\ ms_ok m' ks a /\ kernel_mapping k a /\
    frame_step m [] m' (footprint ks) /\ (fa_avail (falloc m) <= KERNEL_TABLES + fa_avail (falloc m'))%nat /\
    areas ks = section_area <$> kernel_sections k.
Proof.
  intros Hk Hok Hav. destruct (kernel_sections_ok k Hk) as (Hso & Hap & Hbd). rewrite Forall_forall in Hbd.
  destruct (linker_arith k Hk) as (p0 & pt & p1 & p2 & p3 & p4 & p5 & p6 & p7 & p8 & E & Ho). injection E as _ Hst _.
  destruct (new_bare_run m Hok ltac:(unfold KERNEL_TABLES in Hav; lia)) as (ms0 & m0 & E0 & Hn0 & Hms0 & S0 & Hav0).
  assert (Hsz : size kernel_chunks = 10%nat) by (vm_compute; reflexivity). unfold KERNEL_TABLES in *.
  set (n := (fa_avail (falloc m) - 21)%nat).
  assert (Hro0 : room n kernel_chunks m0 ∅).
  { split; [|rewrite Hsz; unfold n; lia|intros vpn [? Hv]; by rewrite lookup_empty in Hv].
    intros c (w & _ & [? Hw])%elem_of_chunks. by rewrite lookup_empty in Hw. }
  destruct (map_trampoline_room n kernel_chunks (strampoline k) m0 ms0 ∅ Hms0 Hn0 Hro0) as (ms1 & m1 & E1 & Hn1 & Hms1 & Hro1 & S1);
    [apply lookup_empty|apply elem_of_kernel_chunks; auto|rewrite Hst; apply Z.mod_mul; done|rewrite Hst; unfold PAGE_SIZE; lia|].
  destruct (push_ranges_run n kernel_chunks (kernel_sections k) m1 ms1 _ Hms1 Hro1 Hso Hap) as (ms2 & m2 & a & E2 & Ha2 & Hms2 & Hro2 & S2 & Hin & Hout).
  { intros s vpn Hs Hv. destruct (Hbd s Hs). unfold in_section, TRAMPOLINE_VPN in *. rewrite lookup_insert_ne by lia. apply lookup_empty. }
  exists ms2, m2, a. split; [|split; [done|split; [|split; [|split]]]].
  - unfold new_kernel. by rewrite (bind_Ret _ _ _ _ _ E0), (bind_Ret _ _ _ _ _ E1), (bind_Ret _ _ _ _ _ E2).
  - split; [done| |].
    + rewrite Hout; [apply lookup_insert_eq|]. intros s Hs Hv. destruct (Hbd s Hs). unfold in_section, TRAMPOLINE_VPN in Hv. lia.
    + intros vpn Hne Hv. rewrite Hout by done. rewrite lookup_insert_ne by done. apply lookup_empty.
  - eapply frame_step_trans; [exact S0|]. by eapply frame_step_trans.
  - pose proof (rm_frames _ _ _ _ Hro2) as Hfr. pose proof (subseteq_size _ _ (rm_sub _ _ _ _ Hro2)). rewrite Hsz in *. unfold n in *. lia.
  - by rewrite Ha2, Hn1.
Qed.

(** What the processor makes of an address in a kernel section. *)
Lemma kernel_identity k m ks a s va :
  linker_ok k -> ms_ok m ks a -> sections_mapped k a -> s ∈ kernel_sections k -> s.1.1 <= va < s.1.2 ->
  translate_va (from_token (MemorySet_token ks)) va m = Ret (Some va) m /\
  a !! (va / PAGE_SIZE) = Some (leaf_pte (section_perm s) (va / PAGE_SIZE)).
Proof.
  intros Hk Hms Hm Hs Hva. destruct (kernel_sections_ok k Hk) as (Hso & _). rewrite Forall_forall in Hso.
  destruct (Hso s Hs) as [Hr Ht Hp _].
  assert (Hin : in_section s (va / PAGE_SIZE)).
  { unfold in_section, section_lo, section_hi, PAGE_SIZE. Z.to_euclidean_division_equations. lia. }
  pose proof (Hm s _ Hs Hin) as Ha. split; [|done].
  unfold MemorySet_token. rewrite (translate_va_mapped m _ a va _ (ms_rep _ _ _ Hms) ltac:(lia) Ha). unfold pa_of. rewrite Ha.
  change (default 0 (Some ?e)) with e. unfold leaf_pte. rewrite pte_new_ppn; [|unfold PAGE_SIZE; Z.to_euclidean_division_equations; lia|by apply lor_V_bound].
  do 2 f_equal. pose proof (Z.div_mod va PAGE_SIZE ltac:(done)). lia.
Qed.

Lemma kernel_perms k : Forall (fun s => section_perm s ∈ [Z.lor MapPermission.R MapPermission.X; MapPermission.R; Z.lor MapPermission.R MapPermission.W])
  (kernel_sections k).
Proof. unfold kernel_sections. repeat (apply Forall_cons; split; [cbn; set_solver|]). apply Forall_nil_2. Qed.

(** No entry of the kernel is open to user mode or both writable and executable. *)
Definition wx_safe (e : Z) : Prop :=
  Z.land (PageTableEntry.flags e) PTEFlags.U = 0 /\ PageTableEntry.writable e && PageTableEntry.executable e = false.

Lemma leaf_pte_safe perm ppn : 0 <= ppn < 2 ^ 44 ->
  perm ∈ [Z.lor MapPermission.R MapPermission.X; MapPermission.R; Z.lor MapPermission.R MapPermission.W] -> wx_safe (leaf_pte perm ppn).
Proof.
  intros Hp Hm. unfold wx_safe, PageTableEntry.writable, PageTableEntry.executable, leaf_pte.
  assert (Hb : 0 <= perm < 256) by (rewrite !elem_of_cons, elem_of_nil in Hm; destruct Hm as [->|[->|[->|[]]]]; vm_compute; intuition congruence).
  rewrite pte_new_flags by (done || by apply lor_V_bound). rewrite !elem_of_cons, elem_of_nil in Hm.
  destruct Hm as [->|[->|[->|[]]]]; vm_compute; done.
Qed.

Lemma kernel_entries k a vpn e :
  linker_ok k -> kernel_mapping k a -> a !! vpn = Some e ->
  (vpn = TRAMPOLINE_VPN \/ exists s, s ∈ kernel_sections k /\ in_section s vpn) /\ wx_safe e.
Proof.
  intros Hk Hm Ha. destruct (kernel_sections_ok k Hk) as (Hso & _). rewrite Forall_forall in Hso.
  destruct (linker_arith k Hk) as (p0 & pt & p1 & p2 & p3 & p4 & p5 & p6 & p7 & p8 & E & Ho). injection E as _ Hst _.
  destruct (decide (vpn = TRAMPOLINE_VPN)) as [->|Hne].
  - split; [by left|]. rewrite (km_trampoline _ _ Hm) in Ha. injection Ha as <-.
    apply leaf_pte_safe; [|by constructor]. rewrite Hst, Z.mod_small, page_div by (unfold PAGE_SIZE; lia). lia.
  - assert (Hs : Exists (fun s => in_section s vpn) (kernel_sections k)).
    { destruct (decide (Exists (fun s => in_section s vpn) (kernel_sections k))) as [?|Hn]; [done|].
      rewrite (km_else _ _ Hm vpn Hne) in Ha; [done|]. intros s Hs Hv. apply Hn, Exists_exists. eauto. }
    apply Exists_exists in Hs as (s & Hs & Hv). split; [right; eauto|].
    rewrite (km_section _ _ Hm s vpn Hs Hv) in Ha. injection Ha as <-. pose proof (kernel_perms k) as Hp. rewrite Forall_forall in Hp.
    apply leaf_pte_safe; [|by apply Hp]. pose proof (section_bounds _ s (Hso s Hs)) as Hb. unfold in_section in Hv. lia.
Qed.

(** The kernel's own check of its permissions. *)
Lemma remap_entry_run k m ks a start end_ perm :
  linker_ok k -> ms_ok m ks a -> sections_mapped k a -> (start, end_, perm) ∈ kernel_sections k -> start < end_ ->
  remap_entry ks (middle start end_) m = Ret (leaf_pte perm ((start + end_) / 2 / PAGE_SIZE)) m /\ 0 <= (start + end_) / 2 / PAGE_SIZE < 2 ^ 44.
Proof.
  intros Hk Hms Hm Hs Hlt. destruct (kernel_sections_ok k Hk) as (Hso & _). rewrite Forall_forall in Hso.
  destruct (Hso _ Hs) as [Hr Ht _ _]. cbn in Hr, Ht. assert (Hva : start <= (start + end_) / 2 < end_) by (Z.to_euclidean_division_equations; lia).
  destruct (kernel_identity k m ks a _ _ Hk Hms Hm Hs Hva) as [_ Ha].
  unfold remap_entry, middle. rewrite u64_small, va_from_usize_mod, Z.mod_small by lia.
  pose proof (vpn_of_va ((start + end_) / 2) ltac:(lia)) as Hv.
  pose proof (translate_mapped m _ a _ _ (ms_rep _ _ _ Hms) Hv Ha) as E. rewrite (translate_token m _ _ (proj1 (ms_rep _ _ _ Hms))) in E.
  unfold VirtAddr.floor. rewrite (bind_Ret _ _ _ _ _ E). split; [done|]. unfold vpn_ok in Hv. lia.
Qed.

Lemma remap_test_run k m ks a :
  linker_ok k -> ms_ok m ks a -> sections_mapped k a -> srodata k < erodata k -> sdata k < edata k -> remap_test k ks m = Ret (bytes_of "remap_test passed!") m.
Proof.
  intros Hk Hms Hm Hro Hda. pose proof (lk_order _ Hk) as Ho. unfold remap_test.
  destruct (remap_entry_run k m ks a (stext k) (etext k) _ Hk Hms Hm ltac:(constructor) ltac:(lia)) as [E1 B1].
  destruct (remap_entry_run k m ks a (srodata k) (erodata k) _ Hk Hms Hm ltac:(right; constructor) Hro) as [E2 B2].
  destruct (remap_entry_run k m ks a (sdata k) (edata k) _ Hk Hms Hm ltac:(right; right; constructor) Hda) as [E3 B3].
  assert (Hsafe : forall perm ppn, 0 <= ppn < 2 ^ 44 -> 0 <= perm < 256 -> PageTableEntry.flags (leaf_pte perm ppn) = Z.lor perm PTEFlags.V)
    by (intros; apply pte_new_flags; [done|by apply lor_V_bound]).
  rewrite (bind_Ret _ _ _ _ _ E1), bind_assert by (unfold PageTableEntry.writable; rewrite Hsafe; [done|exact B1|vm_compute; intuition congruence]).
  rewrite (bind_Ret _ _ _ _ _ E2), bind_assert by (unfold PageTableEntry.writable; rewrite Hsafe; [done|exact B2|vm_compute; intuition congruence]).
  rewrite (bind_Ret _ _ _ _ _ E3), bind_assert by (unfold PageTableEntry.executable; rewrite Hsafe; [done|exact B3|vm_compute; intuition congruence]). done.
Qed.

(** C24. With at most 21 frames for its tables, however large the image is, new_kernel prints the
    bounds of the sections and maps every address of the image, of free memory and of the device
    registers to itself with the permission of its section, maps the trampoline page to the
    trampoline code, maps nothing else, and no entry is open to user mode or both writable and
    executable; the kernel's own remap_test passes. *)
Theorem new_kernel_maps k m :
  linker_ok k -> fa_ok (falloc m) -> (KERNEL_TABLES <= fa_avail (falloc m))%nat ->
  exists ks m' a, new_kernel k m = Ret (ks, new_kernel_lines k) m' /\ ms_ok m' ks a /\ (fa_avail (falloc m) <= KERNEL_TABLES + fa_avail (falloc m'))%nat /\
    (forall start end_ perm va, (start, end_, perm) ∈ kernel_sections k -> start <= va < end_ ->
       translate_va (from_token (MemorySet_token ks)) va m' = Ret (Some va) m' /\ a !! (va / PAGE_SIZE) = Some (leaf_pte perm (va / PAGE_SIZE))) /\
    a !! TRAMPOLINE_VPN = Some (trampoline_pte (strampoline k)) /\
    (srodata k < erodata k -> sdata k < edata k -> remap_test k ks m' = Ret (bytes_of "remap_test passed!") m') /\
    (forall vpn e, a !! vpn = Some e ->
       (vpn = TRAMPOLINE_VPN \/ exists start end_ perm, (start, end_, perm) ∈ kernel_sections k /\ start / PAGE_SIZE <= vpn < (end_ + PAGE_SIZE - 1) / PAGE_SIZE) /\
       wx_safe e).
Proof.
  intros Hk Hok Hav. destruct (new_kernel_run k m Hk Hok Hav) as (ks & m' & a & E & Hms & Hm & _ & Hav' & _).
  exists ks, m', a. split_and!; try done.
  - intros start end_ perm va Hs Hva. exact (kernel_identity k m' ks a (start, end_, perm) va Hk Hms (km_section _ _ Hm) Hs Hva).
  - apply Hm.
  - intros Hro Hda. by apply (remap_test_run k m' ks a Hk Hms (km_section _ _ Hm)).
  - intros vpn e Ha. destruct (kernel_entries k a vpn e Hk Hm Ha) as [[->|([[st en] pm] & Hs & Hv)] Hw]; (split; [|done]); [by left|].
    right. by exists st, en, pm.
Qed.
End new_kernel.

(** ** A kernel image *)

Definition demo_linker : linker :=
  {| stext := 0x80200000; etext := 0x80210000; srodata := 0x80210000; erodata := 0x80214000; sdata := 0x80214000; edata := 0x80215000;
     sbss_with_stack := 0x80215000; ebss := 0x80526000; ekernel := 0x80526000; strampoline := 0x80201000 |}.

Lemma demo_linker_ok : linker_ok demo_linker.
Proof. split; [vm_compute; intuition congruence|]. repeat constructor. Qed.

Example text_line : section_line ".text" (stext demo_linker) (etext demo_linker) = bytes_of ".text [0x80200000, 0x80210000)".
Proof. reflexivity. Qed.

Lemma new_kernel_maps_witness : exists (m m' : mem StackFrameAllocator) ks,
  new_kernel demo_linker m = Ret (ks, new_kernel_lines demo_linker) m' /\ translate_va (from_token (MemorySet_token ks)) 0x80200123 m' = Ret (Some 0x80200123) m'.
Proof.
  destruct (new_kernel_maps (FAL := StackFrameAllocator_laws 100) demo_linker demo_mem demo_linker_ok (demo_ok demo_mem eq_refl)) as
    (ks & m' & a & E & _ & _ & Ht & _); [change (21 <= 100)%nat; lia|].
  exists demo_mem, m', ks. split; [exact E|]. apply (Ht 0x80200000 0x80210000 (Z.lor MapPermission.R MapPermission.X)); [constructor|lia].
Defined.
