(* ===== verification/UserMem.v ===== *)
(** The memory of a process as the kernel reaches it from a system call: ranges of
    mapped user pages, the bytes in them, and what a store to them leaves alone
    ([translated_byte_buffer], [translated_str] and [translated_refmut] of
    [os/src/mm/page_table.rs] on a space of [os/src/mm/memory_set.rs]). *)
From S2P Require Import Prelude Address FrameAllocator PageTable UserBytes Pipe Pid MemorySet UserSpace.

Section user_mem.
Context {T : Type} `{FAL : FrameAllocatorLaws T}.
Implicit Types (m : mem T) (ms : MemorySet) (a : gmap Z Z).

(** A user space: well formed, every area framed. *)
Record user_ok m ms a : Prop := {
  uo_ms : ms_ok m ms a;
  uo_framed : Forall (fun A => map_type A = Framed) (areas ms);
}.

(** Addresses [ptr] to [ptr + len] lie in pages of the space. *)
Record user_range ms (ptr len : Z) : Prop := {
  ur_bounds : 0 <= ptr /\ 0 <= len /\ ptr + len <= 2 ^ 38;
  ur_pages va : ptr <= va < ptr + len -> exists f, data_frame ms (va / PAGE_SIZE) f;
}.
Definition range_pas a (ptr len : Z) : list Z := pa_of a <$> seqZ ptr len.
Definition user_bytes m a (ptr len : Z) : list Z := phys_byte m <$> range_pas a ptr len.

Lemma length_range_pas a ptr len : length (range_pas a ptr len) = Z.to_nat len.
Proof. unfold range_pas. by rewrite length_fmap, length_seqZ. Qed.
Lemma length_user_bytes m a ptr len : length (user_bytes m a ptr len) = Z.to_nat len.
Proof. unfold user_bytes. by rewrite length_fmap, length_range_pas. Qed.
Lemma user_bytes_ok m a ptr len : is_bytes (user_bytes m a ptr len).
Proof. apply Forall_fmap, Forall_forall. intros x _. apply phys_byte_range. Qed.

(** The frame and the offset of a mapped address. *)
Lemma pa_of_data m ms a va f : user_ok m ms a -> data_frame ms (va / PAGE_SIZE) f ->
  is_Some (a !! (va / PAGE_SIZE)) /\ pa_of a va = f * PAGE_SIZE + va mod PAGE_SIZE /\ pa_of a va / PAGE_SIZE = f.
Proof.
  intros [Hms HF] Hd. destruct (data_frame_pte m ms a _ f Hms HF Hd) as (_ & perm & Ha & Hp).
  unfold pa_of. rewrite Ha. change (default 0 (Some (leaf_pte perm f))) with (leaf_pte perm f). rewrite Hp. split; [by eexists|]. split; [done|].
  pose proof (Z.mod_pos_bound va PAGE_SIZE ltac:(done)). rewrite Z.div_add_l by done. rewrite Z.div_small by done. lia.
Qed.

Lemma pa_of_full m ms a va f : user_ok m ms a -> data_frame ms (va / PAGE_SIZE) f -> full_page m (pa_of a va).
Proof.
  intros Hu Hd. destruct (pa_of_data m ms a va f Hu Hd) as (_ & _ & E). unfold full_page. rewrite E.
  pose proof (ms_len _ _ _ (uo_ms _ _ _ Hu)) as Hl. rewrite Forall_forall in Hl. apply Hl. by apply (data_frame_footprint ms (va / PAGE_SIZE)).
Qed.

Lemma pa_of_inj m ms a va va' f f' : user_ok m ms a -> data_frame ms (va / PAGE_SIZE) f -> data_frame ms (va' / PAGE_SIZE) f' ->
  pa_of a va = pa_of a va' -> va = va'.
Proof.
  intros Hu Hd Hd' E. destruct (pa_of_data m ms a va f Hu Hd) as (_ & E1 & F1). destruct (pa_of_data m ms a va' f' Hu Hd') as (_ & E2 & F2).
  assert (f = f') as <- by congruence. pose proof (data_frame_inj m ms a _ _ f (uo_ms _ _ _ Hu) Hd Hd') as Hp.
  rewrite E1, E2 in E. unfold PAGE_SIZE in *. Z.to_euclidean_division_equations. lia.
Qed.

Lemma range_full m ms a ptr len : user_ok m ms a -> user_range ms ptr len -> Forall (full_page m) (range_pas a ptr len).
Proof.
  intros Hu [_ Hp]. apply Forall_fmap, Forall_forall. intros va Hva%elem_of_seqZ. destruct (Hp va Hva) as [f Hf]. by apply (pa_of_full m ms a va f).
Qed.

Lemma range_NoDup m ms a ptr len : user_ok m ms a -> user_range ms ptr len -> NoDup (range_pas a ptr len).
Proof.
  intros Hu [_ Hp]. apply NoDup_fmap_2_strong; [|apply NoDup_seqZ]. intros x y Hx%elem_of_seqZ Hy%elem_of_seqZ E.
  destruct (Hp x Hx) as [f Hf]. destruct (Hp y Hy) as [g Hg]. by apply (pa_of_inj m ms a x y f g).
Qed.

(** The slices of a buffer in the range. *)
Lemma user_buffer_run m ms a ptr len : user_ok m ms a -> user_range ms ptr len ->
  exists v, translated_byte_buffer (MemorySet_token ms) ptr len m = Ret v m /\
    mjoin (us_addrs <$> v) = range_pas a ptr len /\ Forall (fun b => 0 < us_len b) v.
Proof.
  intros Hu Hr. pose proof (ur_bounds _ _ _ Hr) as (Hp & Hl & He). unfold translated_byte_buffer. rewrite u64_small by lia.
  destruct (translated_byte_buffer_loop_run m (page_table ms) a (ptr + len) (Z.to_nat (len / PAGE_SIZE + 3)) ptr []
    (ms_rep _ _ _ (uo_ms _ _ _ Hu)) Hp He) as (v & E & Hj & Hpos).
  - intros va Hva. destruct (ur_pages _ _ _ Hr va Hva) as [f Hf]. by apply (pa_of_data m ms a va f Hu).
  - unfold PAGE_SIZE. Z.to_euclidean_division_equations. lia.
  - exists v. replace (ptr + len - ptr) with len in Hj by lia. split_and!; assumption.
Qed.

(** A NUL-terminated string in the range. *)
Definition user_str m a (ptr : Z) (bytes : list Z) : Prop :=
  user_bytes m a ptr (Z.of_nat (length bytes) + 1) = bytes ++ [0] /\ 0 ∉ bytes.
Lemma user_str_run m ms a ptr bytes fuel :
  user_ok m ms a -> user_range ms ptr (Z.of_nat (length bytes) + 1) -> user_str m a ptr bytes -> (length bytes < fuel)%nat ->
  translated_str fuel (MemorySet_token ms) ptr m = Ret bytes m.
Proof.
  intros Hu Hr [Hb H0] Hf. pose proof (ur_bounds _ _ _ Hr) as (Hp & _ & He).
  assert (Hat : forall (k : nat) c, (bytes ++ [0]) !! k = Some c -> phys_byte m (pa_of a (ptr + Z.of_nat k)) = c).
  { intros k c Hk. rewrite <- Hb in Hk. unfold user_bytes, range_pas in Hk. rewrite !list_lookup_fmap in Hk.
    destruct (seqZ ptr _ !! k) as [va|] eqn:E; [|discriminate Hk].
    apply lookup_seqZ in E as [-> _]. by injection Hk. }
  apply (translated_str_loop_run m (page_table ms) a bytes fuel ptr [] (ms_rep _ _ _ (uo_ms _ _ _ Hu))); [lia|lia| | | |exact Hf].
  - intros va Hva. destruct (ur_pages _ _ _ Hr va ltac:(lia)) as [f Hd]. by apply (pa_of_data m ms a va f Hu).
  - intros k c Hk. split; [apply Hat; rewrite lookup_app_l by (by eapply lookup_lt_Some); exact Hk|].
    intros ->. apply H0. by apply list_elem_of_lookup_2 in Hk.
  - apply Hat. rewrite lookup_app_r by lia. by rewrite Nat.sub_diag.
Qed.

(** ** Stores to user pages *)

(** What a change of physical memory in the data pages of one space keeps. *)
Record user_step ms m m' : Prop := {
  us_falloc : falloc m' = falloc m;
  us_length p : length (page m' p) = length (page m p);
  us_other p : p ∉ areas_frames (areas ms) -> page m' p = page m p;
}.
Lemma user_step_refl ms m : user_step ms m m.
Proof. by split. Qed.
Lemma user_step_trans ms m1 m2 m3 : user_step ms m1 m2 -> user_step ms m2 m3 -> user_step ms m1 m3.
Proof. intros [A1 A2 A3] [B1 B2 B3]. split; [congruence|intros p; by rewrite B2|intros p Hp; by rewrite B3, A3]. Qed.

Lemma user_step_ok ms m m' a : user_step ms m m' -> user_ok m ms a -> user_ok m' ms a.
Proof.
  intros [Hfa Hl Ho] [Hms HF]. split; [|exact HF]. pose proof Hms as [Hrep Hnd Hlv Hlen Har Hdj].
  assert (Htab : forall y, y ∈ frames (page_table ms) -> page m' y = page m y).
  { intros y Hy. apply Ho. intros Hy'. apply NoDup_app in Hnd as (_ & Hx & _). by apply (Hx y). }
  split; [| |by rewrite Hfa| | |]; try assumption.
  - apply (represents_frame m); [exact Hrep|rewrite Hfa; by apply (represents_live _ _ _ Hrep)|]. intros y Hy.
    split; [|by apply Htab]. rewrite Hfa. apply Forall_app in Hlv as [Hlv _]. rewrite Forall_forall in Hlv. by apply Hlv.
  - rewrite Forall_forall in Hlen |- *. intros y Hy. rewrite Hl. by apply Hlen.
Qed.

(** Another space is not affected. *)
Lemma user_step_frame ms m m' ms2 a2 : user_step ms m m' -> ms_ok m ms2 a2 -> (forall y, y ∈ footprint ms2 -> y ∉ areas_frames (areas ms)) ->
  ms_ok m' ms2 a2.
Proof.
  intros Hst Hms2 Hd. apply (ms_ok_frame m); [exact Hms2|rewrite (us_falloc _ _ _ Hst); by apply (represents_live _ _ _ (ms_rep _ _ _ Hms2))|].
  intros y Hy. split; [|by apply (us_other _ _ _ Hst), Hd]. rewrite (us_falloc _ _ _ Hst).
  pose proof (ms_live _ _ _ Hms2) as Hl. rewrite Forall_forall in Hl. by apply Hl.
Qed.

(** Storing at addresses of the range. *)
Lemma store_user m ms a ptr len addrs bs : user_ok m ms a -> user_range ms ptr len -> (forall x, x ∈ addrs -> x ∈ range_pas a ptr len) ->
  user_step ms m (store_all addrs bs m).
Proof.
  intros Hu Hr Hin. split.
  - apply (store_all_page addrs bs m 0).
  - intros p. apply (store_all_page addrs bs m p).
  - intros p Hp. apply (store_all_page addrs bs m p). intros x Hx ->. apply Hp.
    apply Hin, list_elem_of_fmap in Hx as (va & -> & Hva%elem_of_seqZ). destruct (ur_pages _ _ _ Hr va Hva) as [f Hf].
    destruct (pa_of_data m ms a va f Hu Hf) as (_ & _ & ->). by apply (data_frame_footprint ms (va / PAGE_SIZE)).
Qed.

Lemma store_user_range m ms a ptr len bs : user_ok m ms a -> user_range ms ptr len -> is_bytes bs -> Z.of_nat (length bs) = len ->
  user_step ms m (store_all (range_pas a ptr len) bs m) /\ user_bytes (store_all (range_pas a ptr len) bs m) a ptr len = bs.
Proof.
  intros Hu Hr Hb Hl. split; [by apply (store_user m ms a ptr len)|]. apply load_store_all; [by apply (range_full m ms)|exact Hb|by apply (range_NoDup m ms)|].
  rewrite length_range_pas. lia.
Qed.

(** A range that is a part of another. *)
Lemma user_range_sub ms ptr len ptr' len' : user_range ms ptr len -> ptr <= ptr' -> 0 <= len' -> ptr' + len' <= ptr + len -> user_range ms ptr' len'.
Proof. intros [Hb Hp] H1 H2 H3. split; [lia|]. intros va Hva. apply Hp. lia. Qed.

Lemma user_bytes_app m a ptr n1 n2 : 0 <= n1 -> 0 <= n2 ->
  user_bytes m a ptr (n1 + n2) = user_bytes m a ptr n1 ++ user_bytes m a (ptr + n1) n2.
Proof. intros H1 H2. unfold user_bytes, range_pas. by rewrite seqZ_app, !fmap_app. Qed.

(** Bytes of other addresses of the space stay. *)
Lemma user_bytes_other m ms a ptr len bs ptr' len' : user_ok m ms a -> user_range ms ptr len -> user_range ms ptr' len' ->
  is_bytes bs -> (ptr' + len' <= ptr \/ ptr + len <= ptr') ->
  user_bytes (store_all (range_pas a ptr len) bs m) a ptr' len' = user_bytes m a ptr' len'.
Proof.
  intros Hu Hr Hr' Hb Hd. unfold user_bytes. apply list_fmap_ext. intros i x Hx%list_elem_of_lookup_2.
  pose proof (range_full m ms a ptr' len' Hu Hr') as Hf. rewrite Forall_forall in Hf.
  apply store_all_lookup_ne; [by apply (range_full m ms)|by apply Hf|exact Hb|].
  intros Hin. apply list_elem_of_fmap in Hx as (va & -> & Hva%elem_of_seqZ). apply list_elem_of_fmap in Hin as (va' & E & Hva'%elem_of_seqZ).
  destruct (ur_pages _ _ _ Hr va' Hva') as [f Hf1]. destruct (ur_pages _ _ _ Hr' va Hva) as [g Hg].
  pose proof (pa_of_inj m ms a va va' g f Hu Hg Hf1 E). lia.
Qed.
End user_mem.
