(* ===== verification/Dma.v ===== *)
(** Memory for device queues: [VirtioHal] of [os/src/drivers/block/virtio_blk.rs].

    The driver itself is a library crate; this is what the kernel gives it: runs of
    frames, and addresses translated by the kernel's page table. *)
From S2P Require Import Prelude Address FrameAllocator PageTable MemorySet.

(** The memory and the static [QUEUE_FRAMES]. *)
Record dma (T : Type) := { dmem : mem T; QUEUE_FRAMES : list Z }.
Arguments dmem {T} _.
Arguments QUEUE_FRAMES {T} _.
Arguments Build_dma {T} _ _.

Section hal.
Context {T : Type} `{FrameAllocator T}.

Definition on_dmem {A} (m : M (mem T) A) : M (dma T) A := zoom dmem (fun x d => Build_dma x (QUEUE_FRAMES d)) m.

(** [for i in 0..pages]; an allocated frame stays in [QUEUE_FRAMES]. *)
Fixpoint dma_alloc_loop (k : nat) (i ppn_base : Z) : M (dma T) Z :=
  match k with
  | O => ret ppn_base
  | S k =>
      let! o := on_dmem frame_alloc in
      let! frame := unwrap o in
      let ppn_base := if i =? 0 then frame else ppn_base in
      assert (frame =? u64 (ppn_base + i)) ;;;
      modify (fun d => Build_dma (dmem d) (QUEUE_FRAMES d ++ [frame])) ;;;
      dma_alloc_loop k (i + 1) ppn_base
  end.
Definition dma_alloc (pages : Z) : M (dma T) Z :=
  let! ppn_base := dma_alloc_loop (Z.to_nat pages) 0 0 in
  ret (PhysAddr.into_usize (PhysAddr.from_ppn ppn_base)).

Fixpoint dma_dealloc_loop (k : nat) (ppn_base : Z) : M (dma T) unit :=
  match k with
  | O => ret tt
  | S k => on_dmem (frame_dealloc ppn_base) ;;; dma_dealloc_loop k (PhysPageNum.step ppn_base)
  end.
Definition dma_dealloc (pa pages : Z) : M (dma T) Z :=
  let pa := PhysAddr.from_usize pa in
  let! ppn_base := PhysPageNum.from_pa pa in
  dma_dealloc_loop (Z.to_nat pages) ppn_base ;;;
  ret 0.

Definition phys_to_virt (addr : Z) : Z := addr.
(** Through the page table of the kernel space. *)
Definition virt_to_phys (kernel_space : MemorySet) (vaddr : Z) : M (mem T) Z :=
  let! o := translate_va (from_token (MemorySet_token kernel_space)) (VirtAddr.from_usize vaddr) in
  unwrap o.
End hal.

(** ** The frames of the stack allocator come in order once *)

Section stack.
Implicit Types d : dma StackFrameAllocator.

Lemma unrecycled_alloc d c e : falloc (dmem d) = {| current := c; end_ := e; recycled := [] |} -> 0 <= c < e -> e < 2 ^ 44 ->
  on_dmem frame_alloc d = Ret (Some c) (Build_dma (set_page c zero_page (set_falloc {| current := c + 1; end_ := e; recycled := [] |} (dmem d))) (QUEUE_FRAMES d)).
Proof.
  intros Hf Hc He. unfold on_dmem, zoom, frame_alloc. cbn [fa_alloc StackFrameAllocator_impl]. rewrite Hf. unfold StackFrameAllocator_alloc.
  cbn [recycled current end_ vec_pop rev]. rewrite (proj2 (Z.eqb_neq c e)) by lia.
  rewrite (u64_small (c + 1)) by lia. replace (c + 1 - 1) with c by lia. rewrite u64_small by lia. by rewrite ppn_small by lia.
Qed.

Lemma dma_alloc_loop_run k i b d e : 0 <= i -> 0 <= b -> b + i + Z.of_nat k <= e -> e < 2 ^ 44 ->
  falloc (dmem d) = {| current := b + i; end_ := e; recycled := [] |} ->
  exists d', dma_alloc_loop k i (if i =? 0 then 0 else b) d = Ret (if (i =? 0) && (k =? 0)%nat then 0 else b) d' /\
    QUEUE_FRAMES d' = QUEUE_FRAMES d ++ seqZ (b + i) (Z.of_nat k) /\
    falloc (dmem d') = {| current := b + i + Z.of_nat k; end_ := e; recycled := [] |} /\
    (forall y, page (dmem d') y = if decide (b + i <= y < b + i + Z.of_nat k) then zero_page else page (dmem d) y).
Proof.
  revert i d. induction k as [|k IH]; intros i d Hi Hb Hk He Hf.
  { exists d. cbn [dma_alloc_loop]. rewrite andb_true_r. split; [done|]. split; [by rewrite app_nil_r|]. rewrite Z.add_0_r. split; [done|].
    intros y. by rewrite decide_False by lia. }
  cbn [dma_alloc_loop]. rewrite (bind_Ret _ _ d _ _ (unrecycled_alloc d (b + i) e Hf ltac:(lia) He)), bind_unwrap.
  replace (if i =? 0 then b + i else _) with b by (destruct (Z.eqb_spec i 0); [lia|done]).
  rewrite bind_assert by (rewrite u64_small by lia; apply Z.eqb_refl). rewrite bind_modify. cbn [dmem QUEUE_FRAMES].
  set (d1 := Build_dma _ _). destruct (IH (i + 1) d1) as (d' & E & Hq & Hf' & Hp); [lia|lia|lia|lia|cbn; f_equal; lia|].
  rewrite (proj2 (Z.eqb_neq (i + 1) 0)) in E by lia. cbn [andb] in E. exists d'. split; [by rewrite E, andb_false_r|].
  split; [|split].
  - rewrite Hq. cbn [d1 QUEUE_FRAMES]. rewrite <- app_assoc, (seqZ_cons (b + i)) by lia. cbn. by rewrite Z.add_succ_r || (do 3 f_equal; lia).
  - rewrite Hf'. f_equal. lia.
  - intros y. rewrite Hp. cbn [d1 dmem]. destruct (decide (y = b + i)) as [->|Hy].
    + rewrite decide_False by lia. rewrite decide_True by lia. apply page_set_eq.
    + rewrite page_set_ne by done. unfold set_falloc, page. cbn [phys]. repeat case_decide; (done || lia).
Qed.

Lemma dma_dealloc_loop_run k b d c e rs : 0 <= b -> b + Z.of_nat k <= c -> c < 2 ^ 44 -> Forall (fun x => x < b) rs ->
  falloc (dmem d) = {| current := c; end_ := e; recycled := rs |} ->
  dma_dealloc_loop k b d =
  Ret tt (Build_dma (set_falloc {| current := c; end_ := e; recycled := rs ++ seqZ b (Z.of_nat k) |} (dmem d)) (QUEUE_FRAMES d)).
Proof.
  revert b d rs. induction k as [|k IH]; intros b d rs Hb Hc H44 Hr Hf.
  { cbn. rewrite app_nil_r, <- Hf. by destruct d as [[] ]. }
  cbn [dma_dealloc_loop]. set (d1 := Build_dma (set_falloc {| current := c; end_ := e; recycled := rs ++ [b] |} (dmem d)) (QUEUE_FRAMES d)).
  rewrite (bind_Ret _ _ d tt d1).
  2: { unfold on_dmem, frame_dealloc, zoom. cbn [fa_dealloc StackFrameAllocator_impl]. rewrite Hf. unfold StackFrameAllocator_dealloc. cbn [current recycled end_].
       rewrite (proj2 (Z.leb_gt c b)) by lia. rewrite bool_decide_false; [done|]. intros Hin. rewrite Forall_forall in Hr. specialize (Hr b Hin). lia. }
  unfold PhysPageNum.step. rewrite u64_small by lia.
  rewrite (IH (b + 1) d1 (rs ++ [b])); [|lia|lia|done| |done].
  - rewrite <- app_assoc. cbn [app]. rewrite (seqZ_cons b) by lia. cbn. by replace (Z.pred (Z.of_nat (S k))) with (Z.of_nat k) by lia.
  - apply Forall_app. split; [|repeat constructor; lia]. eapply Forall_impl; [exact Hr|]. cbn. lia.
Qed.

(** Frames that were given back come in the opposite order. *)
Lemma recycled_alloc_panics k d c e rs x y : (2 <= k)%nat -> 0 <= x -> y < 2 ^ 44 -> x < y ->
  falloc (dmem d) = {| current := c; end_ := e; recycled := rs ++ [x; y] |} -> dma_alloc_loop k 0 0 d = Panic Assert.
Proof.
  intros Hk Hx Hy Hxy Hf. destruct k as [|[|k]]; [lia..|]. cbn [dma_alloc_loop].
  assert (Ha : forall d z rs', falloc (dmem d) = {| current := c; end_ := e; recycled := rs' ++ [z] |} -> 0 <= z < 2 ^ 44 ->
    exists d', on_dmem frame_alloc d = Ret (Some z) d' /\ falloc (dmem d') = {| current := c; end_ := e; recycled := rs' |}).
  { intros d0 z rs' H0 Hz. eexists. unfold on_dmem, zoom, frame_alloc. cbn [fa_alloc StackFrameAllocator_impl]. rewrite H0.
    unfold StackFrameAllocator_alloc. cbn [recycled current end_]. rewrite vec_pop_snoc, ppn_small by lia. split; [done|]. done. }
  replace (rs ++ [x; y]) with ((rs ++ [x]) ++ [y]) in Hf by (by rewrite <- app_assoc).
  destruct (Ha d y _ Hf ltac:(lia)) as (d1 & E1 & H1). rewrite (bind_Ret _ _ d _ d1 E1), bind_unwrap. cbn [Z.eqb].
  rewrite bind_assert by (rewrite u64_small by lia; apply Z.eqb_eq; lia). rewrite bind_modify.
  destruct (Ha (Build_dma (dmem d1) (QUEUE_FRAMES d1 ++ [y])) x rs H1 ltac:(lia)) as (d2 & E2 & _).
  rewrite (bind_Ret _ _ _ _ d2 E2), bind_unwrap. change (0 + 1 =? 0) with false. cbv iota.
  unfold bind at 1. unfold assert. by rewrite (proj2 (Z.eqb_neq x _)) by (rewrite u64_small by lia; lia).
Qed.

(** While the allocator has recycled nothing, dma_alloc gives consecutive zeroed frames and
    records them and dma_dealloc takes them all back; the next dma_alloc of two or more pages
    panics, because recycled frames come in the opposite order. *)
Theorem dma_alloc_once d n b e :
  falloc (dmem d) = {| current := b; end_ := e; recycled := [] |} -> 0 <= b -> e < 2 ^ 44 -> 1 <= n -> b + n <= e ->
  exists d1 d2, dma_alloc n d = Ret (b * PAGE_SIZE) d1 /\ QUEUE_FRAMES d1 = QUEUE_FRAMES d ++ seqZ b n /\
    falloc (dmem d1) = {| current := b + n; end_ := e; recycled := [] |} /\
    (forall y, page (dmem d1) y = if decide (b <= y < b + n) then zero_page else page (dmem d) y) /\
    dma_dealloc (b * PAGE_SIZE) n d1 = Ret 0 d2 /\ QUEUE_FRAMES d2 = QUEUE_FRAMES d1 /\
    falloc (dmem d2) = {| current := b + n; end_ := e; recycled := seqZ b n |} /\
    (2 <= n -> dma_alloc n d2 = Panic Assert).
Proof.
  intros Hf Hb He Hn Hbn. destruct (dma_alloc_loop_run (Z.to_nat n) 0 b d e) as (d1 & E & Hq & Hf1 & Hp); [lia..|by rewrite Z.add_0_r|].
  rewrite Z.add_0_r in *. rewrite !Z2Nat.id in * by lia. cbn [Z.eqb andb] in E.
  replace (Z.to_nat n =? 0)%nat with false in E by (symmetry; apply Nat.eqb_neq; lia).
  exists d1, (Build_dma (set_falloc {| current := b + n; end_ := e; recycled := seqZ b n |} (dmem d1)) (QUEUE_FRAMES d1)). split; [unfold dma_alloc; rewrite (bind_Ret _ _ d _ _ E)|].
  { unfold PhysAddr.into_usize, PhysAddr.from_ppn, PAGE_SIZE_BITS, PAGE_SIZE. rewrite Z.shiftl_mul_pow2, u64_small by lia. done. }
  split; [done|]. split; [done|]. split; [exact Hp|].
  split; [unfold dma_dealloc|split; [reflexivity|split; [reflexivity|]]].
  - replace (PhysAddr.from_usize (b * PAGE_SIZE)) with (b * PAGE_SIZE).
    2: { symmetry. unfold PhysAddr.from_usize. change (Z.shiftl 1 PA_WIDTH_SV39 - 1) with (Z.ones 56).
       rewrite Z.land_ones by done. apply Z.mod_small. unfold PAGE_SIZE. lia. }
    cbv zeta. rewrite (bind_Ret _ _ d1 b d1).
    2: { unfold PhysPageNum.from_pa, PhysAddr.page_offset, PhysAddr.floor. rewrite bind_assert; [by unfold ret; rewrite Z.div_mul|].
         apply Z.eqb_eq. change (PAGE_SIZE - 1) with (Z.ones 12). rewrite Z.land_ones by done. apply Z.mod_mul. done. }
    rewrite (bind_Ret _ _ d1 tt _ (dma_dealloc_loop_run (Z.to_nat n) b d1 (b + n) e [] Hb ltac:(lia) ltac:(lia) (Forall_nil_2 _) Hf1)).
    rewrite Z2Nat.id by lia. reflexivity.
  - intros H2. unfold dma_alloc. erewrite (bind_Panic _ _ _ Assert); [done|].
    apply (recycled_alloc_panics _ _ (b + n) e (seqZ b (n - 2)) (b + n - 2) (b + n - 1)); [lia..|]. cbn [dmem set_falloc falloc app].
    f_equal. replace n with ((n - 2) + 2) at 1 by lia. rewrite seqZ_app by lia. f_equal. rewrite !seqZ_cons by lia. cbn. do 2 f_equal; lia || (f_equal; lia).
Qed.
Lemma dma_alloc_once_witness :
  let d := Build_dma {| falloc := {| current := 100; end_ := 200; recycled := [] |}; phys := ∅ |} [] in
  exists d1 d2, dma_alloc 3 d = Ret (100 * PAGE_SIZE) d1 /\ QUEUE_FRAMES d1 = QUEUE_FRAMES d ++ seqZ 100 3 /\
    falloc (dmem d1) = {| current := 100 + 3; end_ := 200; recycled := [] |} /\
    (forall y, page (dmem d1) y = if decide (100 <= y < 100 + 3) then zero_page else page (dmem d) y) /\
    dma_dealloc (100 * PAGE_SIZE) 3 d1 = Ret 0 d2 /\ QUEUE_FRAMES d2 = QUEUE_FRAMES d1 /\
    falloc (dmem d2) = {| current := 100 + 3; end_ := 200; recycled := seqZ 100 3 |} /\
    (2 <= 3 -> dma_alloc 3 d2 = Panic Assert).
Proof. apply (dma_alloc_once (Build_dma {| falloc := {| current := 100; end_ := 200; recycled := [] |}; phys := ∅ |} []) 3 100 200); done. Defined.
End stack.
