(* ===== verification/ElfLoad.v ===== *)
(** Loading a program: what [MapArea::copy_data], [MemorySet::push] and
    [MemorySet::from_elf] of [os/src/mm/memory_set.rs] put into the pages of a new
    address space. *)
From S2P Require Import Prelude Address FrameAllocator PageTable UserBytes Pipe Pid MemorySet UserSpace UserMem.

(** ** A page filled with bytes *)

Lemma words_of_lookup n bs (i : nat) : (i < n)%nat -> words_of n bs !! i = Some (of_le (take 8 (drop (8 * i) bs))).
Proof.
  revert bs i. induction n as [|n IH]; intros bs i Hi; [lia|]. destruct i as [|i]; cbn [words_of lookup list_lookup]; [done|].
  rewrite IH by lia. rewrite drop_drop. do 4 f_equal. lia.
Qed.
Lemma length_words_of n bs : length (words_of n bs) = n.
Proof. revert bs. induction n as [|n IH]; intros bs; cbn; [done|by rewrite IH]. Qed.

Lemma phys_byte_image {T} (m : mem T) pa bs :
  is_bytes bs -> length bs = 4096%nat -> page m (pa / PAGE_SIZE) = words_of WORDS_PER_PAGE bs ->
  phys_byte m pa = default 0 (bs !! Z.to_nat (pa mod PAGE_SIZE)).
Proof.
  intros Hb Hl Hp. rewrite phys_byte_word by (unfold full_page; rewrite Hp; apply length_words_of). rewrite Hp.
  pose proof (Z.mod_pos_bound pa PAGE_SIZE ltac:(done)) as Hm. pose proof (word_index pa) as Hw.
  rewrite words_of_lookup by done. cbn [default from_option].
  destruct (lookup_lt_is_Some_2 bs (Z.to_nat (pa mod PAGE_SIZE))) as [b Hbb]; [rewrite Hl; unfold PAGE_SIZE in *; lia|].
  rewrite Hbb. cbn [default from_option id]. apply of_le_lookup; [by apply Forall_take, Forall_drop|].
  assert (Z.to_nat (pa mod PAGE_SIZE) = 8 * Z.to_nat (pa mod PAGE_SIZE / 8) + Z.to_nat (pa mod 8))%nat as Epos
    by (unfold PAGE_SIZE in *; Z.to_euclidean_division_equations; lia).
  rewrite lookup_take_lt by (Z.to_euclidean_division_equations; lia). rewrite lookup_drop, <- Epos. exact Hbb.
Qed.

Lemma page_bytes_zero : page_bytes zero_page = replicate 4096 0.
Proof. vm_compute. reflexivity. Qed.

(** Page [i] of an area whose bytes start with [data] and go on with zeros. *)
Definition page_data (data : list Z) (i : nat) : list Z := slice data (i * 4096) 4096.

Lemma length_page_data data i : (length (page_data data i) <= 4096)%nat.
Proof. unfold page_data, slice. rewrite length_take. lia. Qed.

Lemma loaded_byte {T} (m : mem T) data i pa :
  is_bytes data -> page m (pa / PAGE_SIZE) = write_page_bytes zero_page (page_data data i) ->
  phys_byte m pa = default 0 (data !! (i * 4096 + Z.to_nat (pa mod PAGE_SIZE))%nat).
Proof.
  intros Hb Hp. set (d := page_data data i) in *. pose proof (length_page_data data i) as Hl. fold d in Hl.
  assert (Hd : is_bytes d) by (by apply Forall_take, Forall_drop). unfold write_page_bytes in Hp. rewrite page_bytes_zero in Hp.
  rewrite (phys_byte_image m pa (splice (replicate 4096 0) 0 d)); [| |by rewrite length_splice; rewrite length_replicate|exact Hp].
  2:{ apply splice_Forall; [|done]. apply Forall_replicate. unfold is_byte. lia. }
  pose proof (Z.mod_pos_bound pa PAGE_SIZE ltac:(done)) as Hm. set (k := Z.to_nat (pa mod PAGE_SIZE)).
  assert (Hk : (k < 4096)%nat) by (unfold k, PAGE_SIZE in *; lia).
  assert (Ed : d !! k = data !! (i * 4096 + k)%nat) by (unfold d, page_data; by rewrite lookup_slice).
  destruct (decide (k < length d)%nat) as [Hkd|Hkd].
  - rewrite lookup_splice_in by (rewrite ?length_replicate; lia). by rewrite Nat.sub_0_r, Ed.
  - rewrite lookup_splice_out by (rewrite ?length_replicate; lia). rewrite lookup_replicate_2 by done.
    assert (d !! k = None) as Hn by (apply lookup_ge_None; lia). rewrite Ed in Hn. by rewrite Hn.
Qed.

Section load.
Context {T : Type} `{FAL : FrameAllocatorLaws T}.
Implicit Types (m : mem T) (ms : MemorySet) (a : gmap Z Z).

(** ** [copy_data] *)

Lemma set_page_user ms m f p : f ∈ areas_frames (areas ms) -> length p = length (page m f) -> user_step ms m (set_page f p m).
Proof.
  intros Hf Hl. split; [done| |].
  - intros q. destruct (decide (q = f)) as [->|Hne]; [by rewrite page_set_eq|by rewrite page_set_ne].
  - intros q Hq. rewrite page_set_ne; [done|]. by intros ->.
Qed.

(** A change in the data pages of a space whose frames are held. *)
Lemma frame_step_user m fp ms m1 fp1 m2 : frame_step m fp m1 fp1 -> user_step ms m1 m2 -> (forall y, y ∈ areas_frames (areas ms) -> y ∈ fp1) ->
  frame_step m fp m2 fp1.
Proof.
  intros Hs [Sfa Slen Soth] Hsub. split; [rewrite Sfa; apply Hs|apply Hs|rewrite Sfa; apply Hs|].
  intros y Hy Hny. rewrite Soth; [by apply Hs|]. intros Hy'%Hsub. by destruct (frame_step_other _ _ _ _ y Hs Hy Hny) as (_ & _ & Hn).
Qed.

Lemma data_frame_fun m ms a vpn f g : user_ok m ms a -> data_frame ms vpn f -> data_frame ms vpn g -> f = g.
Proof.
  intros [Hms HF] Hf Hg. destruct (data_frame_pte m ms a vpn f Hms HF Hf) as (_ & p1 & E1 & P1).
  destruct (data_frame_pte m ms a vpn g Hms HF Hg) as (_ & p2 & E2 & P2). congruence.
Qed.

(** Pages [lo + i] to the last page of the data are filled, the others stay. *)
Lemma copy_data_loop_run fuel ms a data lo hi i m :
  user_ok m ms a -> 0 <= lo -> hi <= 2 ^ 27 -> (forall vpn, lo <= vpn < hi -> exists f, data_frame ms vpn f) ->
  Z.of_nat (length data) <= PAGE_SIZE * (hi - lo) -> lo + Z.of_nat i < hi ->
  (length data < (i + fuel) * 4096)%nat -> fuel <> 0%nat ->
  exists m', copy_data_loop fuel (page_table ms) data (Z.of_nat i * PAGE_SIZE) (lo + Z.of_nat i) m = Ret tt m' /\ user_step ms m m' /\
    forall vpn f, data_frame ms vpn f -> page m' f =
      if decide (lo + Z.of_nat i <= vpn /\ (vpn = lo + Z.of_nat i \/ (vpn - lo) * PAGE_SIZE < Z.of_nat (length data)))
      then write_page_bytes (page m f) (page_data data (Z.to_nat (vpn - lo))) else page m f.
Proof.
  intros Hu Hlo Hhi Hpages Hlen. revert i m Hu. induction fuel as [|fuel IH]; intros i m Hu Hi Hfuel Hf0; [done|].
  destruct (Hpages (lo + Z.of_nat i) ltac:(lia)) as [f Hf]. destruct (translate_data m ms a _ f (uo_ms _ _ _ Hu) (uo_framed _ _ _ Hu) Hf) as (pte & Et & Hp).
  destruct (data_frame_footprint _ _ _ Hf) as [Hfa _].
  assert (Esrc : slice data (Z.to_nat (Z.of_nat i * PAGE_SIZE)) (Z.to_nat (Z.min (Z.of_nat (length data)) (Z.of_nat i * PAGE_SIZE + PAGE_SIZE) - Z.of_nat i * PAGE_SIZE)) = page_data data i).
  { unfold page_data, slice. replace (Z.to_nat (Z.of_nat i * PAGE_SIZE)) with (i * 4096)%nat by (unfold PAGE_SIZE; lia).
    destruct (decide (Z.of_nat (length data) < Z.of_nat i * PAGE_SIZE + PAGE_SIZE)).
    - rewrite !take_ge; [done|rewrite length_drop; unfold PAGE_SIZE in *; lia..].
    - f_equal. unfold PAGE_SIZE in *; lia. }
  cbn [copy_data_loop]. unfold MemorySet_translate in Et. rewrite Esrc, (bind_Ret _ _ _ _ _ Et), bind_unwrap, bind_modify, Hp.
  set (p := write_page_bytes (page m f) (page_data data i)). set (m1 := set_page f p m).
  assert (Hst1 : user_step ms m m1).
  { apply set_page_user; [done|]. unfold p, write_page_bytes. rewrite length_words_of. pose proof (ms_len _ _ _ (uo_ms _ _ _ Hu)) as HL.
    rewrite Forall_forall in HL. by rewrite HL. }
  assert (Hpg : forall vpn g, data_frame ms vpn g -> page m1 g = if decide (vpn = lo + Z.of_nat i) then p else page m g).
  { intros vpn g Hg. case_decide as E.
    - subst vpn. rewrite (data_frame_fun m ms a _ g f Hu Hg Hf). apply page_set_eq.
    - apply page_set_ne. intros Efg. assert (g = f) by congruence. subst g. by apply E, (data_frame_inj m ms a _ _ f (uo_ms _ _ _ Hu)). }
  assert (Ei : Z.to_nat (lo + Z.of_nat i - lo) = i) by lia.
  destruct (Z.leb_spec (Z.of_nat (length data)) (Z.of_nat i * PAGE_SIZE + PAGE_SIZE)) as [Hstop|Hgo].
  - exists m1. split; [done|]. split; [done|]. intros vpn g Hg. rewrite (Hpg vpn g Hg). case_decide as E.
    + subst vpn. rewrite decide_True by (split; [lia|by left]). unfold p. rewrite Ei. by rewrite (data_frame_fun m ms a _ g f Hu Hg Hf).
    + rewrite decide_False; [done|]. unfold PAGE_SIZE in *. intros [? [?|?]]; lia.
  - destruct (IH (S i) m1) as (m2 & E2 & Hst2 & Hpg2).
    + by apply (user_step_ok ms m).
    + unfold PAGE_SIZE in *. lia.
    + lia.
    + unfold PAGE_SIZE in *. lia.
    + exists m2. unfold VirtPageNum.step. rewrite u64_small by lia.
      replace (Z.of_nat i * PAGE_SIZE + PAGE_SIZE) with (Z.of_nat (S i) * PAGE_SIZE) by lia.
      replace (lo + Z.of_nat i + 1) with (lo + Z.of_nat (S i)) by lia. split; [exact E2|]. split; [by apply (user_step_trans _ _ m1)|].
      intros vpn g Hg. rewrite (Hpg2 vpn g Hg), (Hpg vpn g Hg). unfold PAGE_SIZE in *.
      destruct (decide (vpn = lo + Z.of_nat i)) as [->|Hne].
      * rewrite decide_False by lia. rewrite decide_True by (split; [lia|by left]). unfold p. rewrite Ei.
        by rewrite (data_frame_fun m ms a _ g f Hu Hg Hf).
      * destruct (decide (lo + Z.of_nat i <= vpn /\ (vpn - lo) * 4096 < Z.of_nat (length data))) as [[? ?]|Hn].
        -- rewrite !decide_True by lia. done.
        -- rewrite !decide_False by lia. done.
Qed.

(** ** Regions of an address space *)

(** Pages [r_lo] to [r_hi], whose bytes start with [r_data] and go on with zeros. *)
Record region := { r_lo : Z; r_hi : Z; r_perm : Z; r_data : list Z }.
Definition in_region (r : region) (vpn : Z) : Prop := r_lo r <= vpn < r_hi r.
Definition region_area (r : region) : MapArea :=
  {| vpn_range := {| range_l := r_lo r; range_r := r_hi r |}; data_frames := ∅; map_type := Framed; map_perm := r_perm r |}.
Definition region_byte (r : region) (va : Z) : Z := default 0 (r_data r !! Z.to_nat (va - r_lo r * PAGE_SIZE)).
Record region_ok (r : region) : Prop := {
  ro_range : 0 <= r_lo r <= r_hi r; ro_top : r_hi r <= 2 ^ 27; ro_perm : 0 <= r_perm r < 256;
  ro_bytes : is_bytes (r_data r); ro_len : Z.of_nat (length (r_data r)) <= PAGE_SIZE * (r_hi r - r_lo r);
}.
Definition area_of (A : MapArea) (r : region) : Prop :=
  vpn_range A = {| range_l := r_lo r; range_r := r_hi r |} /\ map_perm A = r_perm r.

Definition user_byte m a (va : Z) : Z := phys_byte m (pa_of a va).

Section with_trampoline.
Context {tr : Z}.

(** A user space that holds the regions and nothing else but the trampoline. *)
Record loaded m ms a (regs : list region) : Prop := {
  ld_ok : user_ok m ms a;
  ld_areas : Forall2 area_of (areas ms) regs;
  ld_byte r va : r ∈ regs -> in_region r (va / PAGE_SIZE) -> user_byte m a va = region_byte r va;
  ld_map vpn : is_Some (a !! vpn) -> vpn = TRAMPOLINE_VPN \/ exists r, r ∈ regs /\ in_region r vpn;
  ld_tramp : a !! TRAMPOLINE_VPN = Some tr;
}.

Lemma phys_byte_page m m' pa : page m' (pa / PAGE_SIZE) = page m (pa / PAGE_SIZE) -> phys_byte m' pa = phys_byte m pa.
Proof. intros E. unfold phys_byte. by rewrite E. Qed.

Lemma write_zero : write_page_bytes zero_page [] = zero_page.
Proof. vm_compute. reflexivity. Qed.
Lemma page_data_past data i : (length data <= i * 4096)%nat -> page_data data i = [].
Proof. intros Hl. unfold page_data, slice. by rewrite drop_ge, take_nil. Qed.

(** A page of a region in its frame. *)
Definition region_page (r : region) (vpn : Z) : list Z := write_page_bytes zero_page (page_data (r_data r) (Z.to_nat (vpn - r_lo r))).

Lemma region_page_byte m ms a r va f :
  user_ok m ms a -> is_bytes (r_data r) -> in_region r (va / PAGE_SIZE) -> data_frame ms (va / PAGE_SIZE) f ->
  page m f = region_page r (va / PAGE_SIZE) -> user_byte m a va = region_byte r va.
Proof.
  intros Hu Hb [Hl Hh] Hf Hp. destruct (pa_of_data m ms a va f Hu Hf) as (_ & E1 & E2). unfold user_byte.
  rewrite (loaded_byte m (r_data r) (Z.to_nat (va / PAGE_SIZE - r_lo r))); [|exact Hb|by rewrite E2].
  unfold region_byte. do 2 f_equal. rewrite E1. unfold PAGE_SIZE in *. Z.to_euclidean_division_equations. lia.
Qed.

(** The frames of the regions, page by page. *)
Lemma region_frame m ms a regs r vpn : user_ok m ms a -> Forall2 area_of (areas ms) regs -> r ∈ regs -> in_region r vpn ->
  exists f, data_frame ms vpn f.
Proof.
  intros Hu Har [i Hi]%list_elem_of_lookup Hin. destruct (Forall2_lookup_r _ _ _ _ _ Har Hi) as (A & HA & HAr & _).
  pose proof (Forall_lookup_1 _ _ _ _ (ms_areas _ _ _ (uo_ms _ _ _ Hu)) HA) as HAok. pose proof (ar_frames _ _ HAok) as Hfr.
  rewrite (Forall_lookup_1 _ _ _ _ (uo_framed _ _ _ Hu) HA) in Hfr. destruct (proj2 (Hfr vpn)) as [f Hf].
  - unfold in_area. by rewrite HAr.
  - exists f. by exists i, A.
Qed.

(** A new area: filled by [copy_data] or left zero. *)
Lemma push_pages m ms a r (data : option (list Z)) :
  ms_ok m ms a -> region_ok r -> (data = Some (r_data r) /\ r_lo r < r_hi r \/ data = None /\ r_data r = []) ->
  Forall (fun A => map_type A = Framed) (areas ms) ->
  (forall vpn, in_region r vpn -> a !! vpn = None) -> (3 * Z.to_nat (r_hi r - r_lo r) <= fa_avail (falloc m))%nat ->
  exists m' ms' a' A, push ms (region_area r) data m = Ret ms' m' /\ areas ms' = areas ms ++ [A] /\ area_of A r /\
    user_ok m' ms' a' /\ (forall vpn, ~ in_region r vpn -> a' !! vpn = a !! vpn) /\
    (forall vpn, in_region r vpn -> exists f, data_frame ms' vpn f /\ page m' f = region_page r vpn) /\
    (forall vpn f, data_frame ms vpn f -> page m' f = page m f) /\
    frame_step m (footprint ms) m' (footprint ms') /\ (fa_avail (falloc m) <= 3 * Z.to_nat (r_hi r - r_lo r) + fa_avail (falloc m'))%nat.
Proof.
  intros Hms [Hr Htop Hp Hb Hlen] Hdata HF Hnone Hav.
  pose proof (push_framed m ms a (region_area r) Hms eq_refl Hp Hr Htop eq_refl) as Hpush. cbn [vpn_range region_area range_l range_r] in Hpush.
  unfold push in Hpush |- *. unfold bind at 1 in Hpush. unfold bind at 1.
  destruct (MapArea_map (region_area r) (page_table ms) m) as [[A pt] m1|p].
  2:{ exfalso. destruct p; try done; [cbn in Hpush; lia|]. destruct Hpush as (vpn & Hvpn & Hne). by apply Hne, Hnone. }
  cbn [bind ret] in Hpush. set (ms' := {| page_table := pt; areas := areas ms ++ [A] |}) in *.
  destruct Hpush as (A' & a' & Hfr & Har & Hms' & Hstep & Hpg & Hnew & Hav').
  cbn [areas ms'] in Har. apply app_inj_tail in Har as [_ <-].
  assert (Hu' : user_ok m1 ms' a').
  { split; [done|]. cbn [areas ms']. apply Forall_app. split; [done|]. apply Forall_singleton, Hfr. }
  assert (HAr : area_of A r) by (split; [exact (fr_range _ _ _ _ _ Hfr)|exact (fr_perm _ _ _ _ _ Hfr)]).
  assert (Hold : forall vpn f, data_frame ms vpn f -> data_frame ms' vpn f /\ page m1 f = page m f /\ ~ in_region r vpn).
  { intros vpn f Hf. split; [by apply (data_frame_snoc ms ms' A); [|left]|]. split; [by apply Hpg, (data_frame_footprint ms vpn)|].
    intros Hin. specialize (Hnone vpn Hin). destruct (data_frame_pte m ms a vpn f Hms HF Hf) as (_ & p & E & _). congruence. }
  assert (Hz : forall vpn f, in_region r vpn -> data_frame ms' vpn f -> page m1 f = zero_page).
  { intros vpn f Hin Hf. destruct (fr_in _ _ _ _ _ Hfr vpn Hin) as (_ & g & Hg & Hz).
    rewrite (data_frame_fun m1 ms' a' vpn f g); [done|done|done|]. apply (data_frame_snoc ms ms' A); [done|by right]. }
  assert (Hpages : forall vpn, in_region r vpn -> exists f, data_frame ms' vpn f).
  { intros vpn Hin. destruct (fr_in _ _ _ _ _ Hfr vpn Hin) as (_ & g & Hg & _). exists g. apply (data_frame_snoc ms ms' A); [done|by right]. }
  destruct Hdata as [[-> Hne]|[-> Hnil]].
  - unfold copy_data. rewrite (fr_type _ _ _ _ _ Hfr). cbn [assert].
    destruct (copy_data_loop_run (S (length (r_data r))) ms' a' (r_data r) (r_lo r) (r_hi r) 0 m1 Hu') as (m2 & E2 & Hst & Hpg2);
      [lia|lia|exact Hpages|exact Hlen|lia|lia|done|].
    exists m2, ms', a', A. unfold range_start. destruct HAr as [EAr EAp]. rewrite EAr. cbn [range_l].
    change (Z.of_nat 0 * PAGE_SIZE) with 0 in E2. change (Z.of_nat 0) with 0 in E2, Hpg2. rewrite Z.add_0_r in E2. unfold bind, ret at 1. cbn [page_table ms'] in E2. rewrite E2.
    split_and!; try done.
    + by apply (user_step_ok ms' m1).
    + intros vpn Hv. exact (fr_out _ _ _ _ _ Hfr vpn Hv).
    + intros vpn Hin. destruct (Hpages vpn Hin) as [f Hf]. exists f. split; [done|]. rewrite (Hpg2 vpn f Hf), (Hz vpn f Hin Hf). unfold region_page. case_decide as E; [done|].
      rewrite page_data_past; [by rewrite write_zero|]. destruct Hin. unfold PAGE_SIZE in *. lia.
    + intros vpn f Hf. destruct (Hold vpn f Hf) as (Hf' & <- & Hn). rewrite (Hpg2 vpn f Hf'), decide_False; [done|].
      intros [H1 H2]. apply Hn. unfold in_region. unfold PAGE_SIZE in *. destruct H2; lia.
    + apply (frame_step_user _ _ ms' m1); [exact Hstep|exact Hst|]. intros y Hy. apply elem_of_app. by right.
    + by rewrite (us_falloc _ _ _ Hst).
  - exists m1, ms', a', A. split_and!; try done.
    + intros vpn Hv. exact (fr_out _ _ _ _ _ Hfr vpn Hv).
    + intros vpn Hin. destruct (Hpages vpn Hin) as [f Hf]. exists f. split; [done|]. rewrite (Hz vpn f Hin Hf). unfold region_page. rewrite Hnil, page_data_past by (cbn; lia). by rewrite write_zero.
    + intros vpn f Hf. by destruct (Hold vpn f Hf) as (_ & -> & _).
Qed.

(** The region is free in a space that holds [regs]. *)
Definition fits (regs : list region) (r : region) : Prop :=
  ~ in_region r TRAMPOLINE_VPN /\ forall r' vpn, r' ∈ regs -> in_region r' vpn -> ~ in_region r vpn.

Lemma push_loaded m ms a regs r (data : option (list Z)) :
  loaded m ms a regs -> region_ok r -> (data = Some (r_data r) /\ r_lo r < r_hi r \/ data = None /\ r_data r = []) ->
  fits regs r -> (3 * Z.to_nat (r_hi r - r_lo r) <= fa_avail (falloc m))%nat ->
  exists m' ms' a', push ms (region_area r) data m = Ret ms' m' /\ loaded m' ms' a' (regs ++ [r]) /\
    frame_step m (footprint ms) m' (footprint ms') /\ (fa_avail (falloc m) <= 3 * Z.to_nat (r_hi r - r_lo r) + fa_avail (falloc m'))%nat.
Proof.
  intros Hld Hro Hdata [Htr Hfit] Hav. pose proof Hld as [Hu Har Hby Hmap Htp].
  assert (Hnone : forall vpn, in_region r vpn -> a !! vpn = None).
  { intros vpn Hin. apply eq_None_not_Some. intros [-> | (r' & Hr' & Hin')]%Hmap; [done|]. by apply (Hfit r' vpn). }
  destruct (push_pages m ms a r data (uo_ms _ _ _ Hu) Hro Hdata (uo_framed _ _ _ Hu) Hnone Hav)
    as (m' & ms' & a' & A & E & HA & HAr & Hu' & Hout & Hnew & Hold & Hst & Hav').
  exists m', ms', a'. split; [exact E|]. split; [|by split]. split.
  - done.
  - rewrite HA. apply Forall2_app; [done|]. by constructor.
  - intros r' va [Hr'| ->%list_elem_of_singleton]%elem_of_app Hin.
    + destruct (region_frame m ms a regs r' _ Hu Har Hr' Hin) as [f Hf]. rewrite <- (Hby r' va Hr' Hin). unfold user_byte.
      assert (Epa : pa_of a' va = pa_of a va) by (unfold pa_of; rewrite Hout; [done|by apply (Hfit r')]). rewrite Epa.
      apply phys_byte_page. destruct (pa_of_data m ms a va f Hu Hf) as (_ & _ & ->). by apply (Hold (va / PAGE_SIZE)).
    + destruct (Hnew _ Hin) as (f & Hf & Hp). by apply (region_page_byte m' ms' a' r va f Hu' (ro_bytes r Hro)).
  - intros vpn Hs. destruct (decide (r_lo r <= vpn /\ vpn < r_hi r)) as [Hin|Hn].
    + right. exists r. split; [apply elem_of_app; right; constructor|exact Hin].
    + rewrite Hout in Hs by exact Hn. destruct (Hmap vpn Hs) as [-> | (r' & Hr' & Hin)]; [by left|]. right. exists r'.
      split; [apply elem_of_app; by left|done].
  - by rewrite Hout.
Qed.

(** ** Program headers *)

Definition seg_region (elf_data : list Z) (ph : ProgramHeader) : region :=
  {| r_lo := virtual_addr ph / PAGE_SIZE; r_hi := (virtual_addr ph + mem_size ph + PAGE_SIZE - 1) / PAGE_SIZE;
     r_perm := ph_perm ph; r_data := slice elf_data (Z.to_nat (offset ph)) (Z.to_nat (file_size ph)) |}.
(** The loadable headers. *)
Definition load_headers (l : list (option ProgramHeader)) : list ProgramHeader :=
  omap (fun o => match o with Some ph => match ph_load ph with Some true => Some ph | _ => None end | None => None end) l.
Definition headers_ok (l : list (option ProgramHeader)) : Prop := Forall (fun o => exists ph b, o = Some ph /\ ph_load ph = Some b) l.
(** A segment has at least a page and its data fit. *)
Record seg_ok (elf_data : list Z) (ph : ProgramHeader) : Prop := {
  so_va : 0 <= virtual_addr ph /\ 0 <= mem_size ph /\ virtual_addr ph + mem_size ph <= 2 ^ 37;
  so_pages : r_lo (seg_region elf_data ph) < r_hi (seg_region elf_data ph);
  so_data : 0 <= offset ph /\ 0 <= file_size ph /\ offset ph + file_size ph <= Z.of_nat (length elf_data);
  so_len : file_size ph <= PAGE_SIZE * (r_hi (seg_region elf_data ph) - r_lo (seg_region elf_data ph));
}.
(** Segments in ascending order from page [lo] on, and where they end. *)
Fixpoint ascending (lo : Z) (rs : list region) : Prop :=
  match rs with [] => True | r :: rs => lo <= r_lo r /\ ascending (r_hi r) rs end.
Fixpoint regions_end (lo : Z) (rs : list region) : Z := match rs with [] => lo | r :: rs => regions_end (r_hi r) rs end.
Definition regions_pages (rs : list region) : nat := sum_list_with (fun r => Z.to_nat (r_hi r - r_lo r)) rs.

Lemma ph_perm_range ph : 0 <= ph_perm ph < 256.
Proof. unfold ph_perm. destruct (is_read ph), (is_write ph), (is_execute ph); vm_compute; split; congruence. Qed.

Lemma seg_region_ok elf_data ph : is_bytes elf_data -> seg_ok elf_data ph -> region_ok (seg_region elf_data ph) /\ r_hi (seg_region elf_data ph) <= 2 ^ 25.
Proof.
  intros Hb [Hva Hp Hd Hl]. cbn [r_lo r_hi seg_region] in Hp, Hl.
  assert (Hhi : (virtual_addr ph + mem_size ph + PAGE_SIZE - 1) / PAGE_SIZE <= 2 ^ 25)
    by (unfold PAGE_SIZE; Z.to_euclidean_division_equations; lia).
  split; [|exact Hhi]. split; cbn [r_lo r_hi r_perm r_data seg_region].
  - split; [apply Z.div_pos; [lia|done]|lia].
  - lia.
  - apply ph_perm_range.
  - by apply Forall_take, Forall_drop.
  - rewrite length_slice by lia. lia.
Qed.

Lemma seg_area elf_data ph (s : mem T) : seg_ok elf_data ph ->
  MapArea_new (VirtAddr.from_usize (virtual_addr ph)) (VirtAddr.from_usize (u64 (virtual_addr ph + mem_size ph))) Framed (ph_perm ph) s =
    Ret (region_area (seg_region elf_data ph)) s.
Proof.
  intros [Hva Hp _ _]. cbn [r_lo r_hi seg_region] in Hp. rewrite u64_small by lia. rewrite !va_from_usize_mod, !Z.mod_small by lia.
  unfold MapArea_new, SimpleRange_new. rewrite va_ceil_eq by lia. unfold VirtAddr.floor. unfold bind at 1 2.
  rewrite (proj2 (Z.leb_le _ _)) by lia. done.
Qed.

Lemma load_segments_run elf_data : is_bytes elf_data -> Z.of_nat (length elf_data) < 2 ^ 63 ->
  forall l lo m ms a regs, let segs := seg_region elf_data <$> load_headers l in
  loaded m ms a regs -> headers_ok l -> Forall (seg_ok elf_data) (load_headers l) -> ascending lo segs ->
  Forall (fun r => r_hi r <= lo) regs -> (3 * regions_pages segs <= fa_avail (falloc m))%nat ->
  exists m' ms' a', load_segments elf_data l lo ms m = Ret (regions_end lo segs, ms') m' /\ loaded m' ms' a' (regs ++ segs) /\
    frame_step m (footprint ms) m' (footprint ms') /\ (fa_avail (falloc m) <= 3 * regions_pages segs + fa_avail (falloc m'))%nat.
Proof.
  intros Hb Hlen. induction l as [|o l IH]; intros lo m ms a regs segs Hld Hh Hs Ha Hr Hav.
  { exists m, ms, a. cbn. rewrite app_nil_r. split_and!; try done.
    apply frame_step_refl; [apply (represents_live _ _ _ (ms_rep _ _ _ (uo_ms _ _ _ (ld_ok _ _ _ _ Hld))))|apply (uo_ms _ _ _ (ld_ok _ _ _ _ Hld))]. }
  apply Forall_cons in Hh as [(ph & b & -> & Hl) Hh]. cbn [load_segments]. rewrite bind_unwrap, Hl, bind_unwrap.
  destruct b.
  2:{ subst segs. cbn [load_headers omap list_omap] in *. rewrite Hl in *. by apply (IH lo m ms a regs). }
  assert (Eh : load_headers (Some ph :: l) = ph :: load_headers l) by (cbn; by rewrite Hl).
  subst segs. rewrite Eh in *. cbn [fmap list_fmap ascending regions_end regions_pages sum_list_with] in *.
  set (r := seg_region elf_data ph) in *. set (segs := seg_region elf_data <$> load_headers l) in *.
  apply Forall_cons in Hs as [Hs Hss]. destruct Ha as [Hlo Ha]. destruct (seg_region_ok elf_data ph Hb Hs) as [Hro Htop]. fold r in Hro, Htop.
  pose proof (so_data _ _ Hs) as Hd. pose proof (so_pages _ _ Hs) as Hp. fold r in Hp.
  rewrite (bind_Ret _ _ _ _ _ (seg_area elf_data ph m Hs)). fold r. unfold subslice. rewrite u64_small by lia.
  rewrite (proj2 (Z.leb_le (offset ph) _)), (proj2 (Z.leb_le _ (Z.of_nat (length elf_data)))) by lia. cbn [andb].
  replace (offset ph + file_size ph - offset ph) with (file_size ph) by lia. unfold bind at 1. cbn [ret].
  destruct (push_loaded m ms a regs r (Some (r_data r)) Hld Hro ltac:(by left)) as (m1 & ms1 & a1 & E1 & Hld1 & S1 & Hav1).
  - split; [unfold in_region, TRAMPOLINE_VPN; lia|]. intros r' vpn Hr' Hin. rewrite Forall_forall in Hr. specialize (Hr r' Hr').
    unfold in_region in *. lia.
  - lia.
  - change (r_data r) with (slice elf_data (Z.to_nat (offset ph)) (Z.to_nat (file_size ph))) in E1. rewrite (bind_Ret _ _ _ _ _ E1).
    destruct (IH (r_hi r) m1 ms1 a1 (regs ++ [r]) Hld1 Hh Hss Ha) as (m2 & ms2 & a2 & E2 & Hld2 & S2 & Hav2).
    + apply Forall_app. split; [|by apply Forall_singleton]. eapply Forall_impl; [exact Hr|]. intros x Hx. cbn beta in Hx. pose proof (ro_range r Hro). lia.
    + fold segs. unfold regions_pages in *. lia.
    + exists m2, ms2, a2. fold segs in E2, Hld2, Hav2. split; [exact E2|]. rewrite <- app_assoc in Hld2. split; [exact Hld2|].
      split; [by eapply frame_step_trans|]. unfold regions_pages in *. lia.
Qed.

(** ** [from_elf] *)

Lemma push_range_area r start end_ ms m :
  0 <= r_lo r <= r_hi r -> r_hi r < 2 ^ 27 -> VirtAddr.from_usize start = r_lo r * PAGE_SIZE -> VirtAddr.from_usize end_ = r_hi r * PAGE_SIZE ->
  push_range start end_ Framed (r_perm r) ms m = push ms (region_area r) None m.
Proof.
  intros Hr Hh E1 E2. unfold push_range, MapArea_new, SimpleRange_new. rewrite E1, E2. unfold PAGE_SIZE in *.
  rewrite va_ceil_eq by lia. unfold VirtAddr.floor, PAGE_SIZE.
  replace ((r_hi r * 4096 + 4096 - 1) / 4096) with (r_hi r) by (Z.to_euclidean_division_equations; lia).
  rewrite Z.div_mul by done. unfold bind at 1 2 3. rewrite (proj2 (Z.leb_le _ _)) by lia. done.
Qed.

(** The user stack above a guard page, the empty area behind it and the trap context page. *)
Definition stack_region (e : Z) : region := {| r_lo := e + 1; r_hi := e + 3; r_perm := user_perm; r_data := [] |}.
Definition stack_end_region (e : Z) : region := {| r_lo := e + 3; r_hi := e + 3; r_perm := user_perm; r_data := [] |}.
Definition trap_cx_region : region :=
  {| r_lo := 2 ^ 27 - 2; r_hi := 2 ^ 27 - 1; r_perm := Z.lor MapPermission.R MapPermission.W; r_data := [] |}.
Definition elf_segments (elf_data : list Z) (elf : ElfFile) : list region := seg_region elf_data <$> load_headers (program_headers elf).
Definition elf_end (elf_data : list Z) (elf : ElfFile) : Z := regions_end 0 (elf_segments elf_data elf).
Definition elf_regions (elf_data : list Z) (elf : ElfFile) : list region :=
  elf_segments elf_data elf ++ [stack_region (elf_end elf_data elf); stack_end_region (elf_end elf_data elf); trap_cx_region].

Record elf_ok (elf_parse : list Z -> option ElfFile) (elf_data : list Z) (elf : ElfFile) : Prop := {
  eo_parse : elf_parse elf_data = Some elf;
  eo_magic : magic elf = [0x7f; 0x45; 0x4c; 0x46];
  eo_bytes : is_bytes elf_data;
  eo_len : Z.of_nat (length elf_data) < 2 ^ 63;
  eo_headers : headers_ok (program_headers elf);
  eo_segs : Forall (seg_ok elf_data) (load_headers (program_headers elf));
  eo_ascending : ascending 0 (elf_segments elf_data elf);
}.

Lemma regions_end_bound lo rs : 0 <= lo <= 2 ^ 25 -> Forall (fun r => 0 <= r_lo r <= r_hi r /\ r_hi r <= 2 ^ 25) rs -> ascending lo rs ->
  lo <= regions_end lo rs <= 2 ^ 25 /\ Forall (fun r => r_hi r <= regions_end lo rs) rs.
Proof.
  revert lo. induction rs as [|r rs IH]; intros lo Hlo Hf Ha; cbn [regions_end ascending] in *; [split; [lia|done]|].
  apply Forall_cons in Hf as [Hr Hf]. destruct Ha as [Hl Ha]. destruct (IH (r_hi r) ltac:(lia) Hf Ha) as [Hb Hall].
  split; [lia|]. apply Forall_cons. split; [lia|done].
Qed.

Lemma elf_segments_ok elf_parse elf_data elf : elf_ok elf_parse elf_data elf ->
  0 <= elf_end elf_data elf <= 2 ^ 25 /\ Forall (fun r => 0 <= r_lo r /\ r_hi r <= elf_end elf_data elf) (elf_segments elf_data elf).
Proof.
  intros [_ _ Hb _ _ Hs Ha]. unfold elf_end, elf_segments in *.
  assert (Hf : Forall (fun r => 0 <= r_lo r <= r_hi r /\ r_hi r <= 2 ^ 25) (seg_region elf_data <$> load_headers (program_headers elf))).
  { apply Forall_fmap. eapply Forall_impl; [exact Hs|]. intros ph Hph. destruct (seg_region_ok elf_data ph Hb Hph) as [Hro Ht].
    split; [exact (ro_range _ Hro)|exact Ht]. }
  destruct (regions_end_bound 0 _ ltac:(lia) Hf Ha) as [He Hall]. split; [exact He|].
  apply Forall_and. split; [|exact Hall]. eapply Forall_impl; [exact Hf|]. cbn beta. intros r Hr. lia.
Qed.

Lemma loaded_trampoline m ms : ms_ok m ms (<[TRAMPOLINE_VPN := tr]> ∅) -> areas ms = [] -> loaded m ms (<[TRAMPOLINE_VPN := tr]> ∅) [].
Proof.
  intros Hms Hn. split.
  - split; [done|]. by rewrite Hn.
  - rewrite Hn. constructor.
  - by intros r va ?%elem_of_nil.
  - intros vpn Hs. left. destruct (decide (vpn = TRAMPOLINE_VPN)) as [|Hne]; [done|]. rewrite lookup_insert_ne, lookup_empty in Hs by done. by destruct Hs.
  - apply lookup_insert_eq.
Qed.

(** An area without data behind the others. *)
Lemma push_range_loaded m ms a rs r start end_ :
  loaded m ms a rs -> region_ok r -> r_hi r < 2 ^ 27 -> r_data r = [] ->
  VirtAddr.from_usize start = r_lo r * PAGE_SIZE -> VirtAddr.from_usize end_ = r_hi r * PAGE_SIZE ->
  Forall (fun r' => r_hi r' <= r_lo r) rs -> (3 * Z.to_nat (r_hi r - r_lo r) <= fa_avail (falloc m))%nat ->
  exists m' ms' a', push_range start end_ Framed (r_perm r) ms m = Ret ms' m' /\ loaded m' ms' a' (rs ++ [r]) /\
    frame_step m (footprint ms) m' (footprint ms') /\ (fa_avail (falloc m) <= 3 * Z.to_nat (r_hi r - r_lo r) + fa_avail (falloc m'))%nat.
Proof.
  intros Hld Hro Hr Hd Es Ee Hall Hav. rewrite (push_range_area r) by first [done|apply Hro].
  apply (push_loaded m ms a rs r None Hld Hro); [by right| |done].
  split; [unfold in_region, TRAMPOLINE_VPN; lia|]. intros r' vpn Hr' Hin. rewrite Forall_forall in Hall.
  specialize (Hall r' Hr'). unfold in_region in *. lia.
Qed.
End with_trampoline.

Lemma zero_region_ok lo hi perm : 0 <= lo <= hi -> hi <= 2 ^ 27 -> 0 <= perm < 256 ->
  region_ok {| r_lo := lo; r_hi := hi; r_perm := perm; r_data := [] |}.
Proof. intros. split; try done. cbn. unfold PAGE_SIZE. lia. Qed.

Lemma from_elf_run elf_parse strampoline elf_data elf m :
  elf_ok elf_parse elf_data elf -> strampoline mod PAGE_SIZE = 0 -> fa_ok (falloc m) ->
  (3 + 3 * regions_pages (elf_regions elf_data elf) <= fa_avail (falloc m))%nat ->
  exists ms m' a, from_elf elf_parse strampoline elf_data m = Ret (ms, (elf_end elf_data elf + 3) * PAGE_SIZE, entry_point elf) m' /\
    loaded (tr := trampoline_pte strampoline) m' ms a (elf_regions elf_data elf) /\ frame_step m [] m' (footprint ms) /\
    (fa_avail (falloc m) <= 3 + 3 * regions_pages (elf_regions elf_data elf) + fa_avail (falloc m'))%nat.
Proof.
  intros Ho Hst Hok Hav. destruct (elf_segments_ok _ _ _ Ho) as [He Hsegs]. unfold from_elf.
  set (e := elf_end elf_data elf) in *.
  assert (Hpg : regions_pages (elf_regions elf_data elf) = (regions_pages (elf_segments elf_data elf) + 3)%nat).
  { unfold elf_regions, regions_pages. rewrite sum_list_with_app. cbn [sum_list_with stack_region stack_end_region trap_cx_region r_lo r_hi]. fold e. lia. }
  destruct (new_bare_run m Hok ltac:(lia)) as (ms1 & m1 & E1 & Hn1 & Hok1 & S1 & Hav1). rewrite (bind_Ret _ _ _ _ _ E1).
  destruct (map_trampoline_run strampoline m1 ms1 ∅ Hok1 Hn1 ltac:(by rewrite lookup_empty) Hst ltac:(lia)) as (ms2 & m2 & E2 & Hn2 & Hok2 & S2 & Hav2).
  rewrite (bind_Ret _ _ _ _ _ E2), (eo_parse _ _ _ Ho), bind_unwrap, bind_assert by (by rewrite (eo_magic _ _ _ Ho)).
  destruct (load_segments_run elf_data (eo_bytes _ _ _ Ho) (eo_len _ _ _ Ho) (program_headers elf) 0 m2 ms2 _ [] (loaded_trampoline m2 ms2 Hok2 Hn2)
    (eo_headers _ _ _ Ho) (eo_segs _ _ _ Ho) (eo_ascending _ _ _ Ho) ltac:(done)) as (m3 & ms3 & a3 & E3 & Hld3 & S3 & Hav3).
  { fold (elf_segments elf_data elf). lia. }
  fold (elf_segments elf_data elf) in E3, Hld3, Hav3. fold (elf_end elf_data elf) in E3. fold e in E3. rewrite (bind_Ret _ _ _ _ _ E3).
  unfold VirtAddr.from_vpn. rewrite Z.shiftl_mul_pow2 by done. change (2 ^ PAGE_SIZE_BITS) with PAGE_SIZE.
  assert (Einto : VirtAddr.into_usize (u64 (e * PAGE_SIZE)) = e * PAGE_SIZE).
  { rewrite u64_small by (unfold PAGE_SIZE; lia). unfold VirtAddr.into_usize. change (Z.shiftl 1 (VA_WIDTH_SV39 - 1)) with (2 ^ 38).
    destruct (Z.leb_spec (2 ^ 38) (e * PAGE_SIZE)); [unfold PAGE_SIZE in *; lia|done]. }
  rewrite Einto. change USER_STACK_SIZE with 8192. rewrite !u64_small by (unfold PAGE_SIZE; lia). cbn [app] in Hld3.
  assert (Hall3 : Forall (fun r => r_hi r <= e) (elf_segments elf_data elf)) by (eapply Forall_impl; [exact Hsegs|]; cbn beta; intros; lia).
  assert (Hup : 0 <= user_perm < 256) by (vm_compute; split; congruence).
  assert (Hva : forall x, 0 <= x <= 2 ^ 25 + 3 -> VirtAddr.from_usize (x * PAGE_SIZE) = x * PAGE_SIZE)
    by (intros y Hy; rewrite va_from_usize_mod, Z.mod_small; [done|unfold PAGE_SIZE; lia]).
  replace (e * PAGE_SIZE + PAGE_SIZE) with ((e + 1) * PAGE_SIZE) by lia.
  replace ((e + 1) * PAGE_SIZE + 8192) with ((e + 3) * PAGE_SIZE) by (unfold PAGE_SIZE; lia).
  destruct (push_range_loaded m3 ms3 a3 _ (stack_region e) ((e + 1) * PAGE_SIZE) ((e + 3) * PAGE_SIZE) Hld3
    ltac:(apply zero_region_ok; lia) ltac:(cbn; lia) eq_refl (Hva (e + 1) ltac:(lia)) (Hva (e + 3) ltac:(lia))) as (m4 & ms4 & a4 & E4 & Hld4 & S4 & Hav4).
  { eapply Forall_impl; [exact Hall3|]. cbn. intros; lia. }
  { cbn [stack_region r_lo r_hi]. lia. }
  cbn [stack_region r_lo r_hi r_perm] in E4, Hav4. rewrite (bind_Ret _ _ _ _ _ E4).
  destruct (push_range_loaded m4 ms4 a4 _ (stack_end_region e) ((e + 3) * PAGE_SIZE) ((e + 3) * PAGE_SIZE) Hld4
    ltac:(apply zero_region_ok; lia) ltac:(cbn; lia) eq_refl (Hva (e + 3) ltac:(lia)) (Hva (e + 3) ltac:(lia))) as (m5 & ms5 & a5 & E5 & Hld5 & S5 & Hav5).
  { apply Forall_app. split; [|apply Forall_singleton; cbn; lia]. eapply Forall_impl; [exact Hall3|]. cbn. intros; lia. }
  { cbn [stack_end_region r_lo r_hi]. lia. }
  cbn [stack_end_region r_lo r_hi r_perm] in E5, Hav5. rewrite (bind_Ret _ _ _ _ _ E5).
  destruct (push_range_loaded m5 ms5 a5 _ trap_cx_region TRAP_CONTEXT TRAMPOLINE Hld5
    ltac:(apply zero_region_ok; [lia|lia|vm_compute; split; congruence]) ltac:(cbn; lia) eq_refl eq_refl eq_refl) as (m6 & ms6 & a6 & E6 & Hld6 & S6 & Hav6).
  { rewrite !Forall_app, !Forall_singleton. cbn [stack_region stack_end_region trap_cx_region r_lo r_hi].
    split_and!; [|lia|lia]. eapply Forall_impl; [exact Hall3|]. cbn. intros; lia. }
  { cbn [trap_cx_region r_lo r_hi]. lia. }
  cbn [trap_cx_region r_lo r_hi r_perm] in E6, Hav6. rewrite (bind_Ret _ _ _ _ _ E6). exists ms6, m6, a6. split; [done|].
  rewrite <- !app_assoc in Hld6. split; [exact Hld6|]. split; [|lia]. repeat (eapply frame_step_trans; [eassumption|]). apply frame_step_refl; [apply S6|].
  exact (ms_live _ _ _ (uo_ms _ _ _ (ld_ok _ _ _ _ Hld6))).
Qed.
End load.

(** ** A small program *)

(** Four bytes that load at page 16, of a segment of two pages. *)
Definition demo_elf_data : list Z := [0x7f; 0x45; 0x4c; 0x46].
Definition demo_elf : ElfFile :=
  {| magic := [0x7f; 0x45; 0x4c; 0x46];
     program_headers := [Some {| ph_load := Some true; virtual_addr := 0x10000; mem_size := 0x2000; offset := 0; file_size := 4;
                                 is_read := true; is_write := false; is_execute := true |}];
     entry_point := 0x10000 |}.
Definition demo_parse (_ : list Z) : option ElfFile := Some demo_elf.

Lemma demo_elf_ok : elf_ok demo_parse demo_elf_data demo_elf.
Proof.
  split; try done.
  - repeat constructor; lia.
  - repeat constructor. eexists _, true. done.
  - repeat constructor; vm_compute; congruence.
Qed.
