(* ===== verification/Process.v ===== *)
(** Process control blocks and the kernel state around them:
    [os/src/process/{process,context,signal,manager,processor}.rs],
    [os/src/trap/context.rs].

    An [Arc<ProcessControlBlock>] is the identity of an object in [heap]; a weak
    reference is the same identity without ownership.  The global objects
    ([PROCESS_MANAGER], [PID2PCB], [PROCESSOR], [PID_ALLOCATOR], [KERNEL_SPACE],
    [INITPROC] and the frame allocator) are the other fields of [kernel]. *)
From S2P Require Import Prelude Address FrameAllocator PageTable Pid MemorySet UserSpace.

(** ** Contexts *)

Record ProcessContext := { ra : Z; sp : Z; s_regs : list Z }.
Definition ProcessContext_zero_init : ProcessContext :=
  {| ra := 0; sp := 0; s_regs := replicate 12 0 |}.
(** [trap_return] is the address of the function of that name. *)
Definition goto_trap_return (trap_return kstack_ptr : Z) : ProcessContext :=
  {| ra := trap_return; sp := kstack_ptr; s_regs := replicate 12 0 |}.

(** [TrapContext] is [repr(C)]: 37 words at the start of the trap context page. *)
Record TrapContext := {
  tx : list Z; sstatus : Z; sepc : Z; kernel_satp : Z; kernel_sp : Z; trap_handler : Z;
}.

(** ** Signals *)

Definition MAX_SIG : Z := 31.
Module SignalFlags.
Definition SIGDEF : Z := 1.
Definition SIGINT : Z := Z.shiftl 1 2.
Definition SIGILL : Z := Z.shiftl 1 4.
Definition SIGABRT : Z := Z.shiftl 1 6.
Definition SIGFPE : Z := Z.shiftl 1 8.
Definition SIGKILL : Z := Z.shiftl 1 9.
Definition SIGSEGV : Z := Z.shiftl 1 11.
Definition SIGCONT : Z := Z.shiftl 1 18.
Definition SIGSTOP : Z := Z.shiftl 1 19.
(** All 32 bits are flags, so [from_bits] is [Some] of its argument. *)
Definition from_bits (bits : Z) : option Z := Some bits.
Definition contains (self other : Z) : bool := Z.land self other =? other.
Definition check_error (self : Z) : option Z :=
  if contains self SIGINT then Some (-2)
  else if contains self SIGILL then Some (-4)
  else if contains self SIGABRT then Some (-6)
  else if contains self SIGFPE then Some (-8)
  else if contains self SIGKILL then Some (-9)
  else if contains self SIGSEGV then Some (-11)
  else None.
End SignalFlags.

Record SignalAction := { handler : Z; mask : Z }.
Definition SignalAction_default : SignalAction := {| handler := 0; mask := 40 |}.
Definition SignalActions_default : list SignalAction := replicate 32 SignalAction_default.

(** ** Processes *)

Inductive ProcessStatus := Ready | Running | Zombie.
#[global] Instance ProcessStatus_eq_dec : EqDecision ProcessStatus.
Proof. solve_decision. Defined.

(** Objects behind [Arc<dyn File>], by identity. *)
Inductive file := Stdin | Stdout | Stderr | FileObject (id : Z).

(** The fields of [ProcessControlBlockInner], grouped by what uses them. *)
Record Sched := {
  process_status : ProcessStatus; process_cx : ProcessContext;
  priority : Z; time_slice_used : Z; time_slice_limit : Z;
}.
Record Space := { memory_set : MemorySet; trap_cx_ppn : Z; base_size : Z }.
Record Family := { parent : option nat; children : list nat; exit_code : Z }.
Record Signals := {
  signals : Z; signal_mask : Z; handling_sig : Z; signal_actions : list SignalAction;
  killed : bool; frozen : bool; trap_ctx_backup : option TrapContext;
}.
(** [pid] stands for the [PidHandle] and the [KernelStack] that carries the same number. *)
Record ProcessControlBlock := {
  pid : Z; sched : Sched; space : Space; family : Family;
  fd_table : list (option file); sigs : Signals;
}.

Definition set_sched (x : Sched) (p : ProcessControlBlock) : ProcessControlBlock :=
  {| pid := pid p; sched := x; space := space p; family := family p; fd_table := fd_table p; sigs := sigs p |}.
Definition set_space (x : Space) (p : ProcessControlBlock) : ProcessControlBlock :=
  {| pid := pid p; sched := sched p; space := x; family := family p; fd_table := fd_table p; sigs := sigs p |}.
Definition set_family (x : Family) (p : ProcessControlBlock) : ProcessControlBlock :=
  {| pid := pid p; sched := sched p; space := space p; family := x; fd_table := fd_table p; sigs := sigs p |}.
Definition set_fd_table (x : list (option file)) (p : ProcessControlBlock) : ProcessControlBlock :=
  {| pid := pid p; sched := sched p; space := space p; family := family p; fd_table := x; sigs := sigs p |}.
Definition set_sigs (x : Signals) (p : ProcessControlBlock) : ProcessControlBlock :=
  {| pid := pid p; sched := sched p; space := space p; family := family p; fd_table := fd_table p; sigs := x |}.

Definition set_status (x : ProcessStatus) (p : ProcessControlBlock) : ProcessControlBlock :=
  let s := sched p in
  set_sched {| process_status := x; process_cx := process_cx s; priority := priority s;
               time_slice_used := time_slice_used s; time_slice_limit := time_slice_limit s |} p.
Definition set_slice (pr used limit : Z) (p : ProcessControlBlock) : ProcessControlBlock :=
  let s := sched p in
  set_sched {| process_status := process_status s; process_cx := process_cx s; priority := pr;
               time_slice_used := used; time_slice_limit := limit |} p.
Definition set_children (x : list nat) (p : ProcessControlBlock) : ProcessControlBlock :=
  set_family {| parent := parent (family p); children := x; exit_code := exit_code (family p) |} p.
Definition set_parent (x : option nat) (p : ProcessControlBlock) : ProcessControlBlock :=
  set_family {| parent := x; children := children (family p); exit_code := exit_code (family p) |} p.
Definition set_exit_code (x : Z) (p : ProcessControlBlock) : ProcessControlBlock :=
  set_family {| parent := parent (family p); children := children (family p); exit_code := x |} p.
Definition set_signals (x : Z) (p : ProcessControlBlock) : ProcessControlBlock :=
  let s := sigs p in
  set_sigs {| signals := x; signal_mask := signal_mask s; handling_sig := handling_sig s;
              signal_actions := signal_actions s; killed := killed s; frozen := frozen s;
              trap_ctx_backup := trap_ctx_backup s |} p.

Definition is_zombie (p : ProcessControlBlock) : bool :=
  bool_decide (process_status (sched p) = Zombie).

(** [alloc_fd]: the first free slot, or a new one at the end. *)
Definition alloc_fd (table : list (option file)) : nat * list (option file) :=
  match find_index (fun o => match o with None => true | Some _ => false end) table with
  | Some fd => (fd, table)
  | None => (length table, table ++ [None])
  end.

(** ** The scheduler's queues *)

Definition CLOCK_FREQ : Z := 12500000.
Definition MLFQ_QUEUE_COUNT : Z := 4.
Definition MLFQ_BASE_TIME_SLICE : Z := CLOCK_FREQ / 100.

Record ProcessManager := {
  ready_queues : list (list nat);
  time_slices : list Z;
  queue_count : Z;
}.

Definition ProcessManager_new : ProcessManager :=
  {| ready_queues := (fun _ => []) <$> seqZ 0 MLFQ_QUEUE_COUNT;
     time_slices := (fun i => u64 (MLFQ_BASE_TIME_SLICE * Z.shiftl 1 i)) <$> seqZ 0 MLFQ_QUEUE_COUNT;
     queue_count := MLFQ_QUEUE_COUNT |}.

Definition set_queues (q : list (list nat)) (self : ProcessManager) : ProcessManager :=
  {| ready_queues := q; time_slices := time_slices self; queue_count := queue_count self |}.

Definition ProcessManager_add (process : nat) (prio : Z) : M ProcessManager unit :=
  let! self := get in
  let queue_idx := Z.min prio (u64 (queue_count self - 1)) in
  let! q := index (ready_queues self) queue_idx in
  let! qs := index_set (ready_queues self) queue_idx (q ++ [process]) in
  put (set_queues qs self).

(** The first non-empty queue, in order. *)
Fixpoint fetch_queues (qs : list (list nat)) : option (nat * list (list nat)) :=
  match qs with
  | [] => None
  | [] :: rest => (fun r => (r.1, [] :: r.2)) <$> fetch_queues rest
  | (process :: q) :: rest => Some (process, q :: rest)
  end.
Definition ProcessManager_fetch : M ProcessManager (option nat) :=
  fun self =>
    match fetch_queues (ready_queues self) with
    | Some (process, qs) => Ret (Some process) (set_queues qs self)
    | None => Ret None self
    end.

Definition ProcessManager_get_time_slice (self : ProcessManager) (prio : Z) {S} : M S Z :=
  index (time_slices self) (Z.min prio (u64 (queue_count self - 1))).

(** ** The kernel *)

Record kernel (T : Type) := {
  heap : gmap nat ProcessControlBlock;
  initproc : nat;
  manager : ProcessManager;
  pid2pcb : gmap Z nat;
  running : option nat;                    (* [PROCESSOR.current] *)
  pids : PidAllocator;
  kernel_space : MemorySet;
  kmem : mem T;
}.
Arguments heap {T} _. Arguments initproc {T} _. Arguments manager {T} _. Arguments pid2pcb {T} _.
Arguments running {T} _. Arguments pids {T} _. Arguments kernel_space {T} _. Arguments kmem {T} _.
Arguments Build_kernel {T} _ _ _ _ _ _ _ _.

Section kernel_fields.
Context {T : Type}.
Implicit Types (k : kernel T).

Definition set_heap x k : kernel T := Build_kernel x (initproc k) (manager k) (pid2pcb k) (running k) (pids k) (kernel_space k) (kmem k).
Definition set_manager x k : kernel T := Build_kernel (heap k) (initproc k) x (pid2pcb k) (running k) (pids k) (kernel_space k) (kmem k).
Definition set_pid2pcb x k : kernel T := Build_kernel (heap k) (initproc k) (manager k) x (running k) (pids k) (kernel_space k) (kmem k).
Definition set_running x k : kernel T := Build_kernel (heap k) (initproc k) (manager k) (pid2pcb k) x (pids k) (kernel_space k) (kmem k).
Definition set_pids x k : kernel T := Build_kernel (heap k) (initproc k) (manager k) (pid2pcb k) (running k) x (kernel_space k) (kmem k).
Definition set_kernel_space x k : kernel T := Build_kernel (heap k) (initproc k) (manager k) (pid2pcb k) (running k) (pids k) x (kmem k).
Definition set_kmem x k : kernel T := Build_kernel (heap k) (initproc k) (manager k) (pid2pcb k) (running k) (pids k) (kernel_space k) x.

(** Access to a process through a reference; a reference is never dangling. *)
Definition deref (p : nat) : M (kernel T) ProcessControlBlock :=
  fun k => match heap k !! p with Some b => Ret b k | None => Panic Invalid end.
Definition update (p : nat) (f : ProcessControlBlock -> ProcessControlBlock) : M (kernel T) unit :=
  let! b := deref p in modify (fun k => set_heap (<[p := f b]> (heap k)) k).

Definition on_mem {A} (m : M (mem T) A) : M (kernel T) A := zoom kmem set_kmem m.
Definition on_manager {A} (m : M ProcessManager A) : M (kernel T) A := zoom manager set_manager m.
Definition on_pids {A} (m : M PidAllocator A) : M (kernel T) A := zoom pids set_pids m.

Definition add_process_with_priority (process : nat) (prio : Z) : M (kernel T) unit :=
  let! b := deref process in
  modify (fun k => set_pid2pcb (<[pid b := process]> (pid2pcb k)) k) ;;;
  on_manager (ProcessManager_add process prio).
Definition add_process (process : nat) : M (kernel T) unit := add_process_with_priority process 0.

Definition pid2process (pid : Z) : M (kernel T) (option nat) :=
  fun k => Ret (pid2pcb k !! pid) k.

Definition remove_from_pid2process (pid : Z) : M (kernel T) unit :=
  let! k := get in
  match pid2pcb k !! pid with
  | None => fail Explicit
  | Some _ => put (set_pid2pcb (delete pid (pid2pcb k)) k)
  end.

Definition fetch_process : M (kernel T) (option nat) := on_manager ProcessManager_fetch.
Definition get_time_slice (prio : Z) : M (kernel T) Z :=
  fun k => ProcessManager_get_time_slice (manager k) prio k.

Definition boost_process_priority (process : nat) : M (kernel T) unit :=
  let! limit := get_time_slice 0 in
  update process (set_slice 0 0 limit) ;;;
  add_process_with_priority process 0.

(** [Processor::current] and [Processor::process_current] (which takes it out). *)
Definition current_process : M (kernel T) (option nat) := fun k => Ret (running k) k.
Definition take_current_process : M (kernel T) (option nat) :=
  fun k => Ret (running k) (set_running None k).

(** One turn of the loop of [run_process], up to the switch to the process. *)
Definition run_process_turn : M (kernel T) unit :=
  let! o := fetch_process in
  match o with
  | None => ret tt
  | Some process =>
      update process (set_status Running) ;;;
      modify (set_running (Some process))
  end.

(** [suspend_current_and_run_next] up to the switch to the idle loop; when the
    process is chosen again the caller goes on. *)
Definition suspend_current : M (kernel T) unit :=
  let! o := take_current_process in
  let! process := unwrap o in
  update process (set_status Ready) ;;;
  add_process process.
End kernel_fields.

(** ** Running *)

Section running.
Context {T : Type}.
Implicit Types (k : kernel T).

Lemma deref_run k p b : heap k !! p = Some b -> deref p k = Ret b k.
Proof. unfold deref. by intros ->. Qed.

Lemma update_run k p b f :
  heap k !! p = Some b -> update p f k = Ret tt (set_heap (<[p := f b]> (heap k)) k).
Proof. intros E. unfold update. by rewrite (bind_Ret _ _ _ _ _ (deref_run k p b E)). Qed.

(** A step in memory. *)
Lemma on_mem_bind {A B} (m : M (mem T) A) (g : A -> M (kernel T) B) k v mm : m (kmem k) = Ret v mm -> bind (on_mem m) g k = g v (set_kmem mm k).
Proof. intros E. unfold bind, on_mem, zoom. by rewrite E. Qed.

Record manager_ok (self : ProcessManager) : Prop := {
  mg_queues : length (ready_queues self) = 4%nat;
  mg_slices : length (time_slices self) = 4%nat;
  mg_count : queue_count self = 4;
}.

Lemma ProcessManager_new_ok : manager_ok ProcessManager_new.
Proof. by split. Qed.

Lemma ProcessManager_add_run self p prio :
  manager_ok self -> 0 <= prio ->
  exists i q, i = Z.to_nat (Z.min prio 3) /\ ready_queues self !! i = Some q /\
    ProcessManager_add p prio self = Ret tt (set_queues (<[i := q ++ [p]]> (ready_queues self)) self) /\
    manager_ok (set_queues (<[i := q ++ [p]]> (ready_queues self)) self).
Proof.
  intros [Hq Hs Hc] Hp. set (i := Z.to_nat (Z.min prio 3)).
  destruct (lookup_lt_is_Some_2 (ready_queues self) i) as [q Eq]; [lia|]. exists i, q.
  assert (Ei : Z.min prio (u64 (queue_count self - 1)) = Z.of_nat i).
  { rewrite Hc. change (u64 (4 - 1)) with 3. lia. }
  split_and!; try done.
  - unfold ProcessManager_add. rewrite bind_get. cbv zeta. rewrite Ei. unfold index. rewrite vget_nat, Eq.
    unfold bind, index_set, ret. assert (vset (ready_queues self) (Z.of_nat i) (q ++ [p]) =
      Some (<[i := q ++ [p]]> (ready_queues self))) as ->; [|done].
    apply vset_Some. rewrite Nat2Z.id. split; [lia|done].
  - split; cbn; [by rewrite length_insert|done|done].
Qed.

Lemma add_process_run k p b prio :
  manager_ok (manager k) -> 0 <= prio -> heap k !! p = Some b ->
  exists i q, i = Z.to_nat (Z.min prio 3) /\ ready_queues (manager k) !! i = Some q /\
    let mg := set_queues (<[i := q ++ [p]]> (ready_queues (manager k))) (manager k) in
    manager_ok mg /\
    add_process_with_priority p prio k =
      Ret tt (set_manager mg (set_pid2pcb (<[pid b := p]> (pid2pcb k)) k)).
Proof.
  intros Hm Hp Hb. destruct (ProcessManager_add_run (manager k) p prio Hm Hp) as (i & q & Ei & Eq & E & Hm').
  exists i, q. split_and!; try done. unfold add_process_with_priority.
  rewrite (bind_Ret _ _ _ _ _ (deref_run _ _ _ Hb)). unfold bind, modify, on_manager, zoom.
  cbn [manager set_pid2pcb]. by rewrite E.
Qed.

Lemma run_turn_run k p b qs :
  fetch_queues (ready_queues (manager k)) = Some (p, qs) -> heap k !! p = Some b ->
  run_process_turn k =
    Ret tt (set_running (Some p) (set_heap (<[p := set_status Running b]> (heap k)) (set_manager (set_queues qs (manager k)) k))).
Proof.
  intros Hf Hb. unfold run_process_turn. assert (Ef : fetch_process k = Ret (Some p) (set_manager (set_queues qs (manager k)) k)).
  { unfold fetch_process, on_manager, zoom, ProcessManager_fetch. by rewrite Hf. }
  by rewrite (bind_Ret _ _ _ _ _ Ef), (bind_Ret _ _ _ _ _ (update_run (set_manager (set_queues qs (manager k)) k) p b _ Hb)).
Qed.

Lemma suspend_current_run k p b :
  manager_ok (manager k) -> running k = Some p -> heap k !! p = Some b ->
  exists q, ready_queues (manager k) !! 0%nat = Some q /\
    let mg := set_queues (<[0%nat := q ++ [p]]> (ready_queues (manager k))) (manager k) in
    manager_ok mg /\
    suspend_current k = Ret tt (Build_kernel (<[p := set_status Ready b]> (heap k)) (initproc k) mg
      (<[pid b := p]> (pid2pcb k)) None (pids k) (kernel_space k) (kmem k)).
Proof.
  intros Hm Hr Hb. unfold suspend_current, take_current_process, bind at 1. rewrite Hr.
  unfold bind at 1. cbn [unwrap ret]. set (k1 := set_running None k).
  rewrite (bind_Ret _ _ _ _ _ (update_run k1 p b (set_status Ready) Hb)).
  set (k2 := set_heap _ k1).
  destruct (add_process_run k2 p (set_status Ready b) 0 Hm ltac:(lia)) as (i & q & -> & Eq & Hm' & E).
  { cbn. by rewrite lookup_insert_eq. }
  exists q. split_and!; try done.
Qed.
End running.
