(* ===== verification/Keeping.v ===== *)
(** Kernel computations that keep a view of the state.

    A relation between kernel states that ignores physical memory and the kernel
    address space is kept by every computation whose steps keep it; one set of
    lemmas serves all such relations ([ProcessTree] for the tree of processes,
    [Descriptors] for the descriptor tables). *)
From S2P Require Import Prelude Address FrameAllocator PageTable UserBytes MemorySet UserSpace Process.

(** What holds between the states before and after a computation. *)
Class KernelView {T} (R : relation (kernel T)) := {
  kv_preorder :: PreOrder R;
  kv_mem k m : R k (set_kmem m k);
  kv_space k ks : R k (set_kernel_space ks k);
}.

Section keeps.
Context {T : Type} `{FrameAllocator T} (R : relation (kernel T)) `{!KernelView R}.
Implicit Types (k : kernel T).

Definition keeps {A} (m : M (kernel T) A) : Prop := forall k a k', m k = Ret a k' -> R k k'.

Lemma keeps_bind {A B} (m : M (kernel T) A) (f : A -> M (kernel T) B) : keeps m -> (forall a, keeps (f a)) -> keeps (bind m f).
Proof. intros Hm Hf k b k' (a & k1 & E1 & E2)%bind_inv. transitivity k1; [by eapply Hm|by eapply Hf]. Qed.
(** A step that leaves the state where it is. *)
Lemma keeps_pure {A} (m : M (kernel T) A) : (forall k a k', m k = Ret a k' -> k' = k) -> keeps m.
Proof. intros Hm k a k' E. by rewrite (Hm _ _ _ E). Qed.
Lemma keeps_ret {A} (a : A) : keeps (ret a).
Proof. apply keeps_pure. by intros k b k' [= _ <-]. Qed.
Lemma keeps_fail {A} p : keeps (fail p : M (kernel T) A).
Proof. by intros k b k' [=]. Qed.
Lemma keeps_get : keeps get.
Proof. apply keeps_pure. by intros k b k' [= _ <-]. Qed.
Lemma keeps_unwrap {A} (o : option A) : keeps (unwrap o).
Proof. destruct o; [apply keeps_ret|apply keeps_fail]. Qed.
Lemma keeps_index {A} (l : list A) i : keeps (index l i).
Proof. unfold index. destruct (vget l i); [apply keeps_ret|apply keeps_fail]. Qed.
Lemma keeps_index_set {A} (l : list A) i x : keeps (index_set l i x).
Proof. unfold index_set. destruct (vset l i x); [apply keeps_ret|apply keeps_fail]. Qed.
Lemma keeps_deref p : keeps (deref p).
Proof. apply keeps_pure. intros k b k' E. unfold deref in E. destruct (heap k !! p); by simplify_eq. Qed.
Lemma keeps_current : keeps current_process.
Proof. apply keeps_pure. by intros k b k' [= _ <-]. Qed.
Lemma keeps_pid2process n : keeps (pid2process n).
Proof. apply keeps_pure. by intros k b k' [= _ <-]. Qed.
Lemma keeps_on_mem {A} (m : M (mem T) A) : keeps (on_mem m).
Proof. intros k b k' E. unfold on_mem, zoom in E. destruct (m (kmem k)); simplify_eq. apply kv_mem. Qed.
Lemma keeps_modify (f : kernel T -> kernel T) : (forall k, R k (f k)) -> keeps (modify f).
Proof. intros Hf k b k' [= _ <-]. apply Hf. Qed.
Lemma keeps_modify_mem f : keeps (modify (fun k => set_kmem (f k) k)).
Proof. apply keeps_modify. intros k. apply kv_mem. Qed.
Lemma keeps_kernel_space ks : keeps (modify (set_kernel_space ks)).
Proof. apply keeps_modify. intros k. apply kv_space. Qed.
Lemma keeps_for_each {A} (l : list A) (f : A -> M (kernel T) unit) : (forall x, keeps (f x)) -> keeps (for_each l f).
Proof. intros Hf. induction l as [|x l IH]; cbn [for_each]; [apply keeps_ret|by apply keeps_bind]. Qed.
Lemma keeps_update p f : (forall k b, heap k !! p = Some b -> R k (set_heap (<[p := f b]> (heap k)) k)) -> keeps (update p f).
Proof.
  intros Hf k a k' E. unfold update in E. minv E. unfold deref in E0.
  destruct (heap k !! p) as [b|] eqn:Hb; [|done]. injection E0 as <- <-. by apply Hf.
Qed.
End keeps.

(** Splits a computation into the ones above; [upd] proves that an [update] keeps the view. *)
Ltac keeps_with R upd :=
  repeat first
    [ apply (keeps_ret R) | apply (keeps_fail R) | apply (keeps_get R) | apply (keeps_unwrap R) | apply (keeps_index R)
    | apply (keeps_index_set R) | apply (keeps_deref R) | apply (keeps_current R) | apply (keeps_on_mem R)
    | apply (keeps_modify_mem R) | apply (keeps_kernel_space R) | apply (keeps_pid2process R)
    | (apply (keeps_for_each R); intros) | upd | (apply (keeps_bind R); [|intros]) | case_match ].
