(* ===== verification/Lifecycle.v ===== *)
(** The life of a process: [fork], exit, [waitpid] and signals
    ([os/src/process/{mod,process}.rs], [os/src/syscall/process.rs], the timer
    branch of [os/src/trap/mod.rs]).

    A function that ends in a switch to another process is modelled up to the
    switch; what it does after it is chosen again is the next step of that
    process. *)
From S2P Require Import Prelude Address Recycle FrameAllocator PageTable UserBytes Pid MemorySet UserSpace Process.

(** Addresses and register values fixed at link or boot time. *)
Record boot := { b_strampoline : Z; b_trap_return : Z; b_trap_handler : Z; b_sstatus : Z }.

(** ** Trap contexts in memory *)

Section lifecycle.
Context {T : Type} `{FrameAllocator T} (env : boot).

(** [trap_cx_ppn.mut_ref::<TrapContext>()] *)
Definition read_trap_cx (ppn : Z) (m : mem T) : TrapContext :=
  let w i := default 0 (page m ppn !! i) in
  {| tx := take 32 (page m ppn); sstatus := w 32%nat; sepc := w 33%nat; kernel_satp := w 34%nat;
     kernel_sp := w 35%nat; trap_handler := w 36%nat |}.
Definition write_trap_cx (ppn : Z) (c : TrapContext) (m : mem T) : mem T :=
  set_page ppn (splice (page m ppn) 0
    (tx c ++ [sstatus c; sepc c; kernel_satp c; kernel_sp c; trap_handler c])) m.
Definition set_x10 (v : Z) (c : TrapContext) : TrapContext :=
  {| tx := <[10%nat := v]> (tx c); sstatus := sstatus c; sepc := sepc c;
     kernel_satp := kernel_satp c; kernel_sp := kernel_sp c; trap_handler := trap_handler c |}.
Definition set_sepc (v : Z) (c : TrapContext) : TrapContext :=
  {| tx := tx c; sstatus := sstatus c; sepc := v; kernel_satp := kernel_satp c;
     kernel_sp := kernel_sp c; trap_handler := trap_handler c |}.
Definition set_kernel_sp (v : Z) (c : TrapContext) : TrapContext :=
  {| tx := tx c; sstatus := sstatus c; sepc := sepc c; kernel_satp := kernel_satp c;
     kernel_sp := v; trap_handler := trap_handler c |}.

(** ** References to processes *)

(** The processes owned by children lists. *)
Definition child_refs (h : gmap nat ProcessControlBlock) : list nat :=
  map_to_list h ≫= fun pb => children (family pb.2).
Definition occ (p : nat) (l : list nat) : nat := length (filter (eq p) l).

(** [Arc::strong_count] counting the references kept in kernel objects. *)
Definition strong_count (k : kernel T) (p : nat) : nat :=
  occ p (mjoin (ready_queues (manager k))) + occ p (snd <$> map_to_list (pid2pcb k)) +
  occ p (option_list (running k)) + occ p [initproc k] + occ p (child_refs (heap k)).

(** Dropping the last reference: the fields in order ([PidHandle], [KernelStack],
    then the inner fields: the memory set and the children). *)
Fixpoint drop_pcb (fuel : nat) (p : nat) : M (kernel T) unit :=
  match fuel with
  | O => fail Fuel
  | S fuel =>
      let! b := deref p in
      on_pids (PidHandle_drop (pid b)) ;;;
      let! k := get in
      let! ks := on_mem (KernelStack_drop (pid b) (kernel_space k)) in
      modify (set_kernel_space ks) ;;;
      on_mem (MemorySet_drop (memory_set (space b))) ;;;
      modify (fun k => set_heap (delete p (heap k)) k) ;;;
      for_each (children (family b)) (fun c =>
        let! k := get in
        if (strong_count k c =? 0)%nat then drop_pcb fuel c else ret tt)
  end.
Definition drop_arc (p : nat) : M (kernel T) unit :=
  let! k := get in
  if (strong_count k p =? 0)%nat then drop_pcb (S (size (heap k))) p else ret tt.

(** ** Exit *)

Definition IDLE_PID : Z := 0.

(** [inner_exclusive_access] of a process whose cell is already borrowed panics. *)
Definition not_borrowed (p q : nat) : M (kernel T) unit :=
  if (p =? q)%nat then fail Deadlock else ret tt.

Definition adopt_child (process : nat) (child : nat) : M (kernel T) unit :=
  let! k := get in
  not_borrowed child process ;;;
  not_borrowed child (initproc k) ;;;
  update child (set_parent (Some (initproc k))) ;;;
  update (initproc k) (fun b => set_children (children (family b) ++ [child]) b).

(** [exit_current_and_run_next] up to [schedule]. *)
(** The first process shuts the machine down. *)
Definition idle_text (code : Z) : list Z := bytes_of "[kernel] Idle process exit with exit_code " ++ decimal code ++ bytes_of " ...".
Definition exit_current (code : Z) : M (kernel T) unit :=
  let! o := take_current_process in
  let! process := unwrap o in
  let! b := deref process in
  if pid b =? IDLE_PID then fail (Shutdown (idle_text code) (negb (code =? 0)))
  else
    remove_from_pid2process (pid b) ;;;
    update process (set_status Zombie) ;;;
    update process (set_exit_code code) ;;;
    let! k := get in
    not_borrowed (initproc k) process ;;;
    for_each (children (family b)) (adopt_child process) ;;;
    update process (set_children []) ;;;
    let! ms := on_mem (recycle_data_pages (memory_set (space b))) in
    update process (fun b => set_space {| memory_set := ms; trap_cx_ppn := trap_cx_ppn (space b);
                                          base_size := base_size (space b) |} b) ;;;
    drop_arc process.

(** ** Fork *)

Definition TRAP_CONTEXT_va : Z := VirtAddr.from_usize TRAP_CONTEXT.

(** [ProcessControlBlock::fork]; [Arc::new] puts the new block at a fresh identity. *)
Definition fork (self : nat) : M (kernel T) nat :=
  let! pb := deref self in
  let! ms := on_mem (from_existed_user (b_strampoline env) (memory_set (space pb))) in
  let! vpn := VirtPageNum.from_va TRAP_CONTEXT_va in
  let! o := on_mem (MemorySet_translate ms vpn) in
  let! pte := unwrap o in
  let ppn := PageTableEntry.ppn pte in
  let! pid_handle := on_pids pid_alloc in
  let! k := get in
  let! ks := on_mem (KernelStack_new pid_handle (kernel_space k)) in
  modify (set_kernel_space ks) ;;;
  let kernel_stack_top := KernelStack_top pid_handle in
  let child :=
    {| pid := pid_handle;
       sched := {| process_status := Ready;
                   process_cx := goto_trap_return (b_trap_return env) kernel_stack_top;
                   priority := priority (sched pb); time_slice_used := 0;
                   time_slice_limit := time_slice_limit (sched pb) |};
       space := {| memory_set := ms; trap_cx_ppn := ppn; base_size := base_size (space pb) |};
       family := {| parent := Some self; children := []; exit_code := 0 |};
       fd_table := fd_table pb;
       sigs := {| signals := 0; signal_mask := signal_mask (sigs pb); handling_sig := -1;
                  signal_actions := signal_actions (sigs pb); killed := false; frozen := false;
                  trap_ctx_backup := None |} |} in
  let! k := get in
  let new := fresh (dom (heap k)) in
  modify (fun k => set_heap (<[new := child]> (heap k)) k) ;;;
  update self (fun b => set_children (children (family b) ++ [new]) b) ;;;
  modify (fun k => set_kmem (write_trap_cx ppn
    (set_kernel_sp kernel_stack_top (read_trap_cx ppn (kmem k))) (kmem k)) k) ;;;
  ret new.

Definition sys_fork : M (kernel T) Z :=
  let! o := current_process in
  let! process := unwrap o in
  let! new_process := fork process in
  let! nb := deref new_process in
  let ppn := trap_cx_ppn (space nb) in
  modify (fun k => set_kmem (write_trap_cx ppn (set_x10 0 (read_trap_cx ppn (kmem k))) (kmem k)) k) ;;;
  add_process new_process ;;;
  ret (as_isize (pid nb)).

(** ** Waiting *)

Definition matches_pid (pid_arg : Z) (b : ProcessControlBlock) : bool :=
  (pid_arg =? -1) || (u64 pid_arg =? pid b).

Definition look (k : kernel T) (f : ProcessControlBlock -> bool) (p : nat) : bool :=
  match heap k !! p with Some b => f b | None => false end.

Definition sys_waitpid (pid_arg exit_code_ptr : Z) : M (kernel T) Z :=
  let! o := current_process in
  let! process := unwrap o in
  let! b := deref process in
  let! k := get in
  if negb (existsb (look k (matches_pid pid_arg)) (children (family b))) then ret (-1)
  else
    match find_index (look k (fun c => is_zombie c && matches_pid pid_arg c)) (children (family b)) with
    | None => ret (-2)
    | Some idx =>
        let! child := unwrap (children (family b) !! idx) in
        update process (set_children (delete idx (children (family b)))) ;;;
        let! k := get in
        (* the local [child] is one more reference *)
        assert (S (strong_count k child) =? 1)%nat ;;;
        let! c := deref child in
        let! pa := on_mem (translated_refmut (MemorySet_token (memory_set (space b))) exit_code_ptr) in
        modify (fun k => set_kmem (store_phys pa (le_bytes 4 (u32 (exit_code (family c)))) (kmem k)) k) ;;;
        drop_arc child ;;;
        ret (as_isize (pid c))
    end.
End lifecycle.
