(* ===== verification/Exec.v ===== *)
(** Replacing a program: [ProcessControlBlock::new] and [exec] of
    [os/src/process/process.rs], the initial trap context of
    [os/src/trap/context.rs].

    The ELF parser is a parameter.  A string of the kernel is its bytes. *)
From S2P Require Import Prelude Address FrameAllocator PageTable UserBytes Pipe Pid MemorySet UserSpace UserMem ElfLoad Process Lifecycle.

Definition set_x11 (v : Z) (c : TrapContext) : TrapContext :=
  {| tx := <[11%nat := v]> (tx c); sstatus := sstatus c; sepc := sepc c;
     kernel_satp := kernel_satp c; kernel_sp := kernel_sp c; trap_handler := trap_handler c |}.

Section exec.
Context {T : Type} `{FrameAllocator T} (env : boot) (elf_parse : list Z -> option ElfFile).

(** [b_sstatus] is the status word whose previous mode is user. *)
Definition app_init_context (entry sp satp ksp handler : Z) : TrapContext :=
  {| tx := <[2%nat := sp]> (replicate 32 0); sstatus := b_sstatus env; sepc := entry;
     kernel_satp := satp; kernel_sp := ksp; trap_handler := handler |}.

(** ** The arguments on the new user stack *)

(** The references to the slots of [argv]. *)
Fixpoint argv_refs (token argv_base : Z) (l : list Z) : M (mem T) (list Z) :=
  match l with
  | [] => ret []
  | arg :: l =>
      let! r := translated_refmut token (u64 (argv_base + arg * 8)) in
      let! rs := argv_refs token argv_base l in
      ret (r :: rs)
  end.
(** [for c in args[i].as_bytes()] and the final zero. *)
Fixpoint push_bytes (token p : Z) (bs : list Z) : M (mem T) unit :=
  match bs with
  | [] => let! r := translated_refmut token p in modify (store_phys_byte r 0)
  | c :: bs =>
      let! r := translated_refmut token p in
      modify (store_phys_byte r c) ;;;
      push_bytes token (u64 (p + 1)) bs
  end.
Fixpoint push_args (token : Z) (argv : list Z) (i : Z) (args : list (list Z)) (user_sp : Z) : M (mem T) Z :=
  match args with
  | [] => ret user_sp
  | arg :: args =>
      let user_sp := u64 (user_sp - (Z.of_nat (length arg) + 1)) in
      let! r := index argv i in
      modify (store_phys r (le_bytes 8 user_sp)) ;;;
      push_bytes token user_sp arg ;;;
      push_args token argv (i + 1) args user_sp
  end.
(** Where [argv] is and the stack pointer below the strings. *)
Definition push_argv (token user_sp : Z) (args : list (list Z)) : M (mem T) (Z * Z) :=
  let argc := Z.of_nat (length args) in
  let user_sp := u64 (user_sp - (argc + 1) * 8) in
  let argv_base := user_sp in
  let! argv := argv_refs token argv_base (seqZ 0 (argc + 1)) in
  let! last := index argv argc in
  modify (store_phys last (le_bytes 8 0)) ;;;
  let! user_sp := push_args token argv 0 args user_sp in
  ret (argv_base, u64 (user_sp - user_sp mod 8)).

(** ** [exec] and [new] *)

Definition trap_cx_of (ms : MemorySet) : M (mem T) Z :=
  let! vpn := VirtPageNum.from_va TRAP_CONTEXT_va in
  let! o := MemorySet_translate ms vpn in
  let! pte := unwrap o in
  ret (PageTableEntry.ppn pte).

(** The assignment to [inner.memory_set] drops the old space. *)
Definition exec (self : nat) (elf_data : list Z) (args : list (list Z)) : M (kernel T) unit :=
  let! '(ms, user_sp, entry_point) := on_mem (from_elf elf_parse (b_strampoline env) elf_data) in
  let! ppn := on_mem (trap_cx_of ms) in
  let! '(argv_base, user_sp) := on_mem (push_argv (MemorySet_token ms) user_sp args) in
  let! b := deref self in
  on_mem (MemorySet_drop (memory_set (space b))) ;;;
  update self (fun b => set_space {| memory_set := ms; trap_cx_ppn := ppn; base_size := base_size (space b) |} b) ;;;
  let! k := get in
  let trap_cx := app_init_context entry_point user_sp (MemorySet_token (kernel_space k)) (KernelStack_top (pid b)) (b_trap_handler env) in
  let trap_cx := set_x11 argv_base (set_x10 (Z.of_nat (length args)) trap_cx) in
  modify (fun k => set_kmem (write_trap_cx ppn trap_cx (kmem k)) k).

(** [Arc::new] puts the block at a fresh identity. *)
Definition ProcessControlBlock_new (elf_data : list Z) : M (kernel T) nat :=
  let! '(ms, user_sp, entry_point) := on_mem (from_elf elf_parse (b_strampoline env) elf_data) in
  let! ppn := on_mem (trap_cx_of ms) in
  let! pid_handle := on_pids pid_alloc in
  let! k := get in
  let! ks := on_mem (KernelStack_new pid_handle (kernel_space k)) in
  modify (set_kernel_space ks) ;;;
  let kernel_stack_top := KernelStack_top pid_handle in
  let block :=
    {| pid := pid_handle;
       sched := {| process_status := Ready; process_cx := goto_trap_return (b_trap_return env) kernel_stack_top;
                   priority := 0; time_slice_used := 0; time_slice_limit := MLFQ_BASE_TIME_SLICE |};
       space := {| memory_set := ms; trap_cx_ppn := ppn; base_size := user_sp |};
       family := {| parent := None; children := []; exit_code := 0 |};
       fd_table := [Some Stdin; Some Stdout; Some Stderr];
       sigs := {| signals := 0; signal_mask := 0; handling_sig := -1; signal_actions := SignalActions_default;
                  killed := false; frozen := false; trap_ctx_backup := None |} |} in
  let! k := get in
  let new := fresh (dom (heap k)) in
  modify (fun k => set_heap (<[new := block]> (heap k)) k) ;;;
  modify (fun k => set_kmem (write_trap_cx ppn
    (app_init_context entry_point user_sp (MemorySet_token (kernel_space k)) kernel_stack_top (b_trap_handler env)) (kmem k)) k) ;;;
  ret new.
End exec.
