(* ===== verification/Signal.v ===== *)
(** Signals and the trap handler: [os/src/process/{mod,signal}.rs], the signal
    system calls of [os/src/syscall/process.rs], [os/src/trap/mod.rs].

    A turn of [handle_signals] ends when the process is suspended; the loop goes
    on with the next turn when the process runs again.  The state of these functions
    is the kernel without its console: what a function prints is its result, which
    [handle_signals] of [Trap] puts out before anything else happens. *)
From S2P Require Import Prelude Address FrameAllocator PageTable UserBytes Pid MemorySet UserSpace Process Lifecycle.

Section signal.
Context {T : Type} `{FrameAllocator T}.

(** [current_process().unwrap()] *)
Definition current_unwrap : M (kernel T) nat := let! o := current_process in unwrap o.

Definition check_signals_error_of_current : M (kernel T) (option Z) :=
  let! process := current_unwrap in
  let! b := deref process in
  if negb (signals (sigs b) =? 0) then ret (SignalFlags.check_error (signals (sigs b))) else ret None.

Definition current_add_signal (signal : Z) : M (kernel T) unit :=
  let! process := current_unwrap in
  update process (fun b => set_signals (Z.lor (signals (sigs b)) signal) b).

Definition set_frozen (f : bool) (s : Signals) : Signals :=
  {| signals := signals s; signal_mask := signal_mask s; handling_sig := handling_sig s;
     signal_actions := signal_actions s; killed := killed s; frozen := f;
     trap_ctx_backup := trap_ctx_backup s |}.
Definition set_killed (s : Signals) : Signals :=
  {| signals := signals s; signal_mask := signal_mask s; handling_sig := handling_sig s;
     signal_actions := signal_actions s; killed := true; frozen := frozen s;
     trap_ctx_backup := trap_ctx_backup s |}.
Definition toggle (signal : Z) (s : Signals) : Signals :=
  {| signals := Z.lxor (signals s) signal; signal_mask := signal_mask s; handling_sig := handling_sig s;
     signal_actions := signal_actions s; killed := killed s; frozen := frozen s;
     trap_ctx_backup := trap_ctx_backup s |}.

(** The effect of [call_kernel_signal_handler] on the signal fields. *)
Definition kernel_signal (signal : Z) (s : Signals) : Signals :=
  if signal =? SignalFlags.SIGSTOP then toggle SignalFlags.SIGSTOP (set_frozen true s)
  else if signal =? SignalFlags.SIGCONT then
    if SignalFlags.contains (signals s) SignalFlags.SIGCONT
    then set_frozen false (toggle SignalFlags.SIGCONT s) else s
  else set_killed s.
Definition call_kernel_signal_handler (signal : Z) : M (kernel T) unit :=
  let! process := current_unwrap in
  update process (fun b => set_sigs (kernel_signal signal (sigs b)) b).

Definition start_handler (sig signal : Z) (backup : TrapContext) (s : Signals) : Signals :=
  {| signals := Z.lxor (signals s) signal; signal_mask := signal_mask s; handling_sig := as_isize sig;
     signal_actions := signal_actions s; killed := killed s; frozen := frozen s;
     trap_ctx_backup := Some backup |}.
Definition default_action : list Z :=
  bytes_of "[K] process/call_user_signal_handler: default action: ignore it or kill process" ++ [10].
Definition call_user_signal_handler (sig signal : Z) : M (kernel T) (list Z) :=
  let! process := current_unwrap in
  let! b := deref process in
  let! action := index (signal_actions (sigs b)) sig in
  if negb (handler action =? 0) then
    let ppn := trap_cx_ppn (space b) in
    let! k := get in
    let cx := read_trap_cx ppn (kmem k) in
    update process (fun b => set_sigs (start_handler sig signal cx (sigs b)) b) ;;;
    modify (fun k => set_kmem (write_trap_cx ppn (set_x10 sig (set_sepc (handler action) cx)) (kmem k)) k) ;;;
    ret []
  else ret default_action.

(** [masked] of the source: the handler that is running masks [signal]. *)
Definition masked_by_handler (s : Signals) (signal : Z) : M (kernel T) bool :=
  if handling_sig s =? -1 then ret false
  else
    let! action := index (signal_actions s) (u64 (handling_sig s)) in
    ret (SignalFlags.contains (mask action) signal).

Definition kernel_handled (signal : Z) : bool :=
  (signal =? SignalFlags.SIGKILL) || (signal =? SignalFlags.SIGSTOP) ||
  (signal =? SignalFlags.SIGCONT) || (signal =? SignalFlags.SIGDEF).

(** The loop of [check_pending_signals] from [sig] on; it ends early after a
    signal that is not handled by the kernel. *)
Fixpoint check_pending_loop (n : nat) (sig : Z) : M (kernel T) (list Z) :=
  match n with
  | O => ret []
  | S n =>
      let! process := current_unwrap in
      let! b := deref process in
      let! signal := unwrap (SignalFlags.from_bits (u32 (Z.shiftl 1 sig))) in
      if SignalFlags.contains (signals (sigs b)) signal &&
         negb (SignalFlags.contains (signal_mask (sigs b)) signal) then
        let! masked := masked_by_handler (sigs b) signal in
        if (masked : bool) then check_pending_loop n (sig + 1)
        else if kernel_handled signal then
          call_kernel_signal_handler signal ;;;
          check_pending_loop n (sig + 1)
        else call_user_signal_handler sig signal
      else check_pending_loop n (sig + 1)
  end.
Definition check_pending_signals : M (kernel T) (list Z) :=
  check_pending_loop (Z.to_nat (MAX_SIG + 1)) 0.

(** A turn of [handle_signals]: [true] when the loop ends, [false] when the
    process was suspended. *)
Definition stop_or_go : M (kernel T) bool :=
  let! process := current_unwrap in
  let! b := deref process in
  if negb (frozen (sigs b)) || killed (sigs b) then ret true
  else suspend_current ;;; ret false.
Definition handle_signals_turn : M (kernel T) bool :=
  let! _ := check_pending_signals in
  stop_or_go.

(** Conversion unfolds the turn before the loop it runs. *)
#[global] Strategy expand [handle_signals_turn].

(** ** System calls *)

Definition sys_sigprocmask (new_mask : Z) : M (kernel T) Z :=
  let! o := current_process in
  match o with
  | None => ret (-1)
  | Some process =>
      let! b := deref process in
      match SignalFlags.from_bits new_mask with
      | Some flag =>
          update process (fun b => set_sigs
            {| signals := signals (sigs b); signal_mask := flag; handling_sig := handling_sig (sigs b);
               signal_actions := signal_actions (sigs b); killed := killed (sigs b);
               frozen := frozen (sigs b); trap_ctx_backup := trap_ctx_backup (sigs b) |} b) ;;;
          ret (signal_mask (sigs b))
      | None => ret (-1)
      end
  end.

(** [1 << signum] on [u32]: the shift count is taken modulo 32. *)
Definition shl1 (signum : Z) : Z := u32 (Z.shiftl 1 (signum mod 32)).

Definition sys_kill (pid_arg signum : Z) : M (kernel T) Z :=
  let! o := pid2process pid_arg in
  match o with
  | None => ret (-1)
  | Some process =>
      match SignalFlags.from_bits (shl1 signum) with
      | None => ret (-1)
      | Some flag =>
          let! b := deref process in
          if SignalFlags.contains (signals (sigs b)) flag then ret (-1)
          else
            update process (fun b => set_signals (Z.lor (signals (sigs b)) flag) b) ;;;
            ret 0
      end
  end.

Definition check_sigaction_error (signal action old_action : Z) : bool :=
  (action =? 0) || (old_action =? 0) || (signal =? SignalFlags.SIGKILL) || (signal =? SignalFlags.SIGSTOP).

(** [SignalAction] in user memory: [handler] in 8 bytes, [mask] in the next 4. *)
Definition load_action (pa : Z) (m : mem T) : SignalAction :=
  {| handler := of_le (load_phys 8 pa m); mask := of_le (load_phys 4 (pa + 8) m) |}.
Definition store_action (pa : Z) (a : SignalAction) (m : mem T) : mem T :=
  store_phys pa (le_bytes 8 (handler a) ++ le_bytes 4 (mask a)) m.

Definition sys_sigaction (signum action old_action : Z) : M (kernel T) Z :=
  let! process := current_unwrap in
  let! b := deref process in
  let tok := MemorySet_token (memory_set (space b)) in
  if MAX_SIG <? u64 signum then ret (-1)
  else
    match SignalFlags.from_bits (shl1 signum) with
    | None => ret (-1)
    | Some flag =>
        if check_sigaction_error flag action old_action then ret (-1)
        else
          let! prev_action := index (signal_actions (sigs b)) (u64 signum) in
          let! old_pa := on_mem (translated_refmut tok old_action) in
          modify (fun k => set_kmem (store_action old_pa prev_action (kmem k)) k) ;;;
          let! new_pa := on_mem (translated_ref tok action) in
          let! k := get in
          let! table := index_set (signal_actions (sigs b)) (u64 signum) (load_action new_pa (kmem k)) in
          update process (fun b => set_sigs
            {| signals := signals (sigs b); signal_mask := signal_mask (sigs b);
               handling_sig := handling_sig (sigs b); signal_actions := table; killed := killed (sigs b);
               frozen := frozen (sigs b); trap_ctx_backup := trap_ctx_backup (sigs b) |} b) ;;;
          ret 0
    end.

Definition sys_sigreturn : M (kernel T) Z :=
  let! o := current_process in
  match o with
  | None => ret (-1)
  | Some process =>
      update process (fun b => set_sigs
        {| signals := signals (sigs b); signal_mask := signal_mask (sigs b); handling_sig := -1;
           signal_actions := signal_actions (sigs b); killed := killed (sigs b);
           frozen := frozen (sigs b); trap_ctx_backup := trap_ctx_backup (sigs b) |} b) ;;;
      let! b := deref process in
      let! backup := unwrap (trap_ctx_backup (sigs b)) in
      let ppn := trap_cx_ppn (space b) in
      modify (fun k => set_kmem (write_trap_cx ppn backup (kmem k)) k) ;;;
      let! k := get in
      let! x10 := index (tx (read_trap_cx ppn (kmem k))) 10 in
      ret (as_isize x10)
  end.

(** ** The timer interrupt *)

(** The [SupervisorTimer] branch of [trap_handler] after [next_trigger]. *)
Definition timer_interrupt : M (kernel T) unit :=
  let! o := current_process in
  match o with
  | Some process =>
      let! b := deref process in
      let used := u64 (time_slice_used (sched b) + 1) in
      update process (set_slice (priority (sched b)) used (time_slice_limit (sched b))) ;;;
      if time_slice_limit (sched b) <=? used then
        let current_priority := priority (sched b) in
        let new_priority := if current_priority <? u64 (MLFQ_QUEUE_COUNT - 1)
                            then u64 (current_priority + 1) else current_priority in
        let! limit := get_time_slice new_priority in
        update process (set_slice new_priority 0 limit) ;;;
        let! o := take_current_process in
        match o with
        | Some process => add_process_with_priority process new_priority
        | None => ret tt
        end
      else ret tt
  | None => ret tt
  end ;;;
  suspend_current.
End signal.

(** ** Trap contexts in memory *)

Section trap_context.
Context {T : Type} `{FrameAllocator T}.
Implicit Types (m : mem T).

Lemma read_write_trap_cx ppn c m :
  length (page m ppn) = WORDS_PER_PAGE -> length (tx c) = 32%nat ->
  read_trap_cx ppn (write_trap_cx ppn c m) = c.
Proof.
  intros Hp Hx. destruct c as [x a1 a2 a3 a4 a5]. unfold read_trap_cx, write_trap_cx.
  rewrite page_set_eq. unfold splice. cbn [take app].
  do 32 (destruct x as [|? x]; [done|]). by destruct x.
Qed.

Lemma write_trap_cx_length ppn c m :
  length (page m ppn) = WORDS_PER_PAGE -> length (tx c) = 32%nat ->
  length (page (write_trap_cx ppn c m) ppn) = WORDS_PER_PAGE.
Proof.
  intros Hp Hx. unfold write_trap_cx. rewrite page_set_eq. rewrite length_splice; [done|].
  rewrite length_app, Hx, Hp. cbn. unfold WORDS_PER_PAGE. lia.
Qed.

Lemma read_trap_cx_length ppn m :
  length (page m ppn) = WORDS_PER_PAGE -> length (tx (read_trap_cx ppn m)) = 32%nat.
Proof. intros Hp. cbn. rewrite length_take, Hp. unfold WORDS_PER_PAGE. lia. Qed.
End trap_context.

(** ** Signal sets as bits *)

Lemma contains_bit x s : 0 <= s -> SignalFlags.contains x (2 ^ s) = Z.testbit x s.
Proof.
  intros Hs. unfold SignalFlags.contains. destruct (Z.testbit x s) eqn:E.
  - apply Z.eqb_eq, Z.bits_inj'. intros i Hi. rewrite Z.land_spec.
    destruct (Z.eq_dec s i) as [->|Hne]; [rewrite E, Z.pow2_bits_true by lia; done|].
    rewrite Z.pow2_bits_false by done. apply andb_false_r.
  - apply Z.eqb_neq. intros Heq%(f_equal (fun z => Z.testbit z s)).
    rewrite Z.land_spec, E, Z.pow2_bits_true in Heq by lia. done.
Qed.

Lemma signal_bit sig : 0 <= sig < 32 -> u32 (Z.shiftl 1 sig) = 2 ^ sig.
Proof.
  intros Hs. rewrite Z.shiftl_1_l. apply u32_small. split; [lia|]. apply Z.pow_lt_mono_r; lia.
Qed.

(** The signals that are pending and not blocked by the process's mask. *)
Definition pending (s : Signals) (sig : Z) : bool :=
  Z.testbit (signals s) sig && negb (Z.testbit (signal_mask s) sig).

Section pending_signals.
Context {T : Type} `{FrameAllocator T}.
Implicit Types (k : kernel T).

Lemma current_unwrap_run k p : running k = Some p -> current_unwrap k = Ret p k.
Proof. intros Hr. unfold current_unwrap, current_process, bind. by rewrite Hr. Qed.

Lemma masked_none s signal k : handling_sig s = -1 -> masked_by_handler s signal k = Ret false k.
Proof. intros Hh. unfold masked_by_handler. by rewrite Hh. Qed.

(** One turn of the scan. *)
Lemma check_pending_step n sig k p b :
  running k = Some p -> heap k !! p = Some b -> 0 <= sig < 32 ->
  check_pending_loop (S n) sig k =
  (if pending (sigs b) sig then
     let! masked := masked_by_handler (sigs b) (2 ^ sig) in
     if (masked : bool) then check_pending_loop n (sig + 1)
     else if kernel_handled (2 ^ sig) then
       call_kernel_signal_handler (2 ^ sig) ;;; check_pending_loop n (sig + 1)
     else call_user_signal_handler sig (2 ^ sig)
   else check_pending_loop n (sig + 1)) k.
Proof.
  intros Hr Hb Hs. cbn [check_pending_loop].
  rewrite (bind_Ret _ _ _ _ _ (current_unwrap_run k p Hr)). rewrite (bind_Ret _ _ _ _ _ (deref_run k p b Hb)).
  rewrite signal_bit by done. unfold SignalFlags.from_bits. rewrite bind_unwrap.
  rewrite !contains_bit by lia. done.
Qed.

Lemma check_pending_skip n sig k p b :
  running k = Some p -> heap k !! p = Some b -> 0 <= sig -> sig + Z.of_nat n <= 32 ->
  (forall j, sig <= j < sig + Z.of_nat n -> pending (sigs b) j = false) ->
  check_pending_loop n sig k = Ret [] k.
Proof.
  intros Hr Hb. revert sig. induction n as [|n IH]; intros sig H0 Hn Hp; [done|].
  rewrite (check_pending_step n sig k p b Hr Hb) by lia. rewrite Hp by lia.
  apply IH; [lia|lia|]. intros j Hj. apply Hp. lia.
Qed.

(** The scan reaches the first pending signal. *)
Lemma check_pending_first n sig0 sig k p b :
  running k = Some p -> heap k !! p = Some b -> 0 <= sig0 <= sig -> sig < sig0 + Z.of_nat n ->
  sig0 + Z.of_nat n <= 32 -> (forall j, sig0 <= j < sig -> pending (sigs b) j = false) ->
  check_pending_loop n sig0 k = check_pending_loop (n - Z.to_nat (sig - sig0)) sig k.
Proof.
  intros Hr Hb. revert sig0. induction n as [|n IH]; intros sig0 H0 H1 Hn Hp; [lia|].
  destruct (decide (sig0 = sig)) as [->|Hne].
  - by rewrite Z.sub_diag.
  - rewrite (check_pending_step n sig0 k p b Hr Hb) by lia. rewrite Hp by lia.
    rewrite IH; [|lia|lia|lia|intros j Hj; apply Hp; lia].
    f_equal. lia.
Qed.

(** The scan ends with the first pending signal that the kernel does not handle. *)
Lemma check_pending_user k p b sig :
  running k = Some p -> heap k !! p = Some b -> handling_sig (sigs b) = -1 -> 0 <= sig < 32 -> kernel_handled (2 ^ sig) = false ->
  pending (sigs b) sig = true -> (forall j, 0 <= j < sig -> pending (sigs b) j = false) ->
  check_pending_signals k = call_user_signal_handler sig (2 ^ sig) k.
Proof.
  intros Hr Hb Hh Hs Hk Hp Hlow. unfold check_pending_signals. change (Z.to_nat (MAX_SIG + 1)) with 32%nat.
  rewrite (check_pending_first 32 0 sig k p b Hr Hb) by (lia || done).
  replace (32 - Z.to_nat (sig - 0))%nat with (S (31 - Z.to_nat sig)) by lia.
  rewrite (check_pending_step _ sig k p b Hr Hb Hs), Hp.
  by rewrite (bind_Ret _ _ _ _ _ (masked_none _ _ k Hh)), Hk.
Qed.

(** The state in which a handler starts. *)
Definition enter_handler k (p : nat) (b : ProcessControlBlock) (sig : Z) (action : SignalAction) : kernel T :=
  let ppn := trap_cx_ppn (space b) in
  let cx := read_trap_cx ppn (kmem k) in
  set_kmem (write_trap_cx ppn (set_x10 sig (set_sepc (handler action) cx)) (kmem k))
    (set_heap (<[p := set_sigs (start_handler sig (2 ^ sig) cx (sigs b)) b]> (heap k)) k).

Lemma call_user_run k p b sig action :
  running k = Some p -> heap k !! p = Some b -> 0 <= sig < 32 -> signal_actions (sigs b) !! Z.to_nat sig = Some action ->
  call_user_signal_handler sig (2 ^ sig) k = if handler action =? 0 then Ret default_action k else Ret [] (enter_handler k p b sig action).
Proof.
  intros Hr Hb Hs Ha. unfold call_user_signal_handler. rewrite (bind_Ret _ _ _ _ _ (current_unwrap_run k p Hr)).
  rewrite (bind_Ret _ _ _ _ _ (deref_run k p b Hb)). unfold index.
  assert (vget (signal_actions (sigs b)) sig = Some action) as -> by (apply vget_Some; split; [lia|done]).
  unfold bind at 1. cbn [ret]. destruct (handler action =? 0); [done|]. cbn [negb].
  rewrite bind_get. rewrite (bind_Ret _ _ _ _ _ (update_run k p b _ Hb)). reflexivity.
Qed.

(** A pending signal without a handler prints a line and ends the scan of pending signals without being cleared,
    so no later signal of the process is ever acted on. *)
Theorem unhandled_signal_starves k p b sig :
  running k = Some p -> heap k !! p = Some b -> handling_sig (sigs b) = -1 ->
  length (signal_actions (sigs b)) = 32%nat -> 0 <= sig < 32 -> kernel_handled (2 ^ sig) = false ->
  pending (sigs b) sig = true -> (forall j, 0 <= j < sig -> pending (sigs b) j = false) ->
  (exists a, signal_actions (sigs b) !! Z.to_nat sig = Some a /\ handler a = 0) ->
  check_pending_signals k = Ret default_action k.
Proof.
  intros Hr Hb Hh Hl Hs Hk Hp Hlow (a & Ha & Hz). rewrite (check_pending_user k p b sig) by done.
  rewrite (call_user_run k p b sig a Hr Hb Hs Ha). by rewrite Hz.
Qed.

(** The only pending signal is one the kernel handles. *)
Lemma check_pending_kernel k p b sig :
  running k = Some p -> heap k !! p = Some b -> handling_sig (sigs b) = -1 -> 0 <= sig < 32 ->
  kernel_handled (2 ^ sig) = true -> (forall j, 0 <= j < 32 -> pending (sigs b) j = (j =? sig)) ->
  (forall j, sig < j -> pending (kernel_signal (2 ^ sig) (sigs b)) j = pending (sigs b) j) ->
  check_pending_signals k =
    Ret [] (set_heap (<[p := set_sigs (kernel_signal (2 ^ sig) (sigs b)) b]> (heap k)) k).
Proof.
  intros Hr Hb Hh Hs Hk Hp Hafter. unfold check_pending_signals.
  change (Z.to_nat (MAX_SIG + 1)) with 32%nat.
  rewrite (check_pending_first 32 0 sig k p b Hr Hb); [|lia|lia|lia|].
  2:{ intros j Hj. rewrite Hp by lia. apply Z.eqb_neq. lia. }
  replace (32 - Z.to_nat (sig - 0))%nat with (S (31 - Z.to_nat sig)) by lia.
  rewrite (check_pending_step _ sig k p b Hr Hb Hs), Hp by lia. rewrite Z.eqb_refl.
  rewrite (bind_Ret _ _ _ _ _ (masked_none _ _ k Hh)), Hk.
  assert (Eh : call_kernel_signal_handler (2 ^ sig) k =
    Ret tt (set_heap (<[p := set_sigs (kernel_signal (2 ^ sig) (sigs b)) b]> (heap k)) k)).
  { unfold call_kernel_signal_handler. rewrite (bind_Ret _ _ _ _ _ (current_unwrap_run k p Hr)).
    by rewrite (update_run k p b). }
  rewrite (bind_Ret _ _ _ _ _ Eh).
  apply (check_pending_skip _ _ _ p (set_sigs (kernel_signal (2 ^ sig) (sigs b)) b)).
  - done.
  - cbn. by rewrite lookup_insert_eq.
  - lia.
  - lia.
  - intros j Hj. cbn [sigs set_sigs]. rewrite Hafter, Hp by lia. apply Z.eqb_neq. lia.
Qed.

Lemma pending_toggle s x sig j :
  signals x = Z.lxor (signals s) (2 ^ sig) -> signal_mask x = signal_mask s -> 0 <= sig ->
  pending x j = if j =? sig then negb (Z.testbit (signals s) sig) && negb (Z.testbit (signal_mask s) sig)
                else pending s j.
Proof.
  intros Hx Hm Hs. unfold pending. rewrite Hx, Hm, Z.lxor_spec. destruct (Z.eqb_spec j sig) as [->|Hne].
  - rewrite Z.pow2_bits_true by done. by rewrite xorb_true_r.
  - rewrite Z.pow2_bits_false by done. by rewrite xorb_false_r.
Qed.

(** Toggling the only pending signal leaves none. *)
Lemma pending_toggle_only s x sig j :
  signals x = Z.lxor (signals s) (2 ^ sig) -> signal_mask x = signal_mask s -> 0 <= sig < 32 ->
  (forall j, 0 <= j < 32 -> pending s j = (j =? sig)) -> 0 <= j < 32 -> pending x j = false.
Proof.
  intros Hx Hm Hs Hp Hj. rewrite (pending_toggle s x sig j Hx Hm) by lia. rewrite (Hp j Hj).
  destruct (Z.eqb_spec j sig) as [->|]; [|done].
  specialize (Hp sig Hj). rewrite Z.eqb_refl in Hp. by apply andb_true_iff in Hp as [-> _].
Qed.

(** A pending SIGSTOP alone freezes the process, clears the signal and suspends it to the end
    of the ready queue; a pending SIGCONT alone unfreezes it and lets it go on. *)
Theorem stop_then_continue k p b :
  manager_ok (manager k) -> running k = Some p -> heap k !! p = Some b ->
  handling_sig (sigs b) = -1 -> killed (sigs b) = false ->
  ((forall j, 0 <= j < 32 -> pending (sigs b) j = (j =? 19)) ->
   exists k', handle_signals_turn k = Ret false k' /\ running k' = None /\
     exists b', heap k' !! p = Some b' /\ frozen (sigs b') = true /\
       (forall j, 0 <= j < 32 -> pending (sigs b') j = false) /\ process_status (sched b') = Ready /\
       exists q, ready_queues (manager k) !! 0%nat = Some q /\
         ready_queues (manager k') = <[0%nat := q ++ [p]]> (ready_queues (manager k))) /\
  ((forall j, 0 <= j < 32 -> pending (sigs b) j = (j =? 18)) ->
   exists k', handle_signals_turn k = Ret true k' /\ running k' = Some p /\
     exists b', heap k' !! p = Some b' /\ frozen (sigs b') = false /\
       (forall j, 0 <= j < 32 -> pending (sigs b') j = false)).
Proof.
  intros Hm Hr Hb Hh Hk. split; intros Hp.
  - assert (Hks : kernel_signal (2 ^ 19) (sigs b) = toggle SignalFlags.SIGSTOP (set_frozen true (sigs b))) by done.
    set (b1 := set_sigs (kernel_signal (2 ^ 19) (sigs b)) b).
    assert (E1 : check_pending_signals k = Ret [] (set_heap (<[p := b1]> (heap k)) k)).
    { apply check_pending_kernel; try done. intros j Hj.
      rewrite (pending_toggle (sigs b) _ 19) by done. rewrite (proj2 (Z.eqb_neq j 19)) by lia. done. }
    unfold handle_signals_turn. rewrite (bind_Ret _ _ _ _ _ E1). unfold stop_or_go. set (k1 := set_heap _ k).
    assert (Hb1 : heap k1 !! p = Some b1) by (cbn; apply lookup_insert_eq).
    rewrite (bind_Ret _ _ _ _ _ (current_unwrap_run k1 p Hr)).
    rewrite (bind_Ret _ _ _ _ _ (deref_run k1 p b1 Hb1)).
    assert (negb (frozen (sigs b1)) || killed (sigs b1) = false) as -> by (rewrite orb_false_iff; done).
    destruct (suspend_current_run k1 p b1 Hm Hr Hb1) as (q & Hq & _ & E2).
    rewrite (bind_Ret _ _ _ _ _ E2). eexists. split; [reflexivity|]. split; [done|].
    exists (set_status Ready b1). cbn [heap]. rewrite lookup_insert_eq. split; [done|]. split; [done|].
    split; [|split; [done|by exists q]]. intros j Hj.
    by apply (pending_toggle_only (sigs b) _ 19).
  - assert (Hbit : Z.testbit (signals (sigs b)) 18 = true).
    { specialize (Hp 18 ltac:(lia)). by apply andb_true_iff in Hp as [? _]. }
    assert (Hks : kernel_signal (2 ^ 18) (sigs b) = set_frozen false (toggle SignalFlags.SIGCONT (sigs b))).
    { unfold kernel_signal. change (2 ^ 18 =? SignalFlags.SIGSTOP) with false.
      change (2 ^ 18 =? SignalFlags.SIGCONT) with true. change SignalFlags.SIGCONT with (2 ^ 18).
      rewrite contains_bit, Hbit by lia. done. }
    set (b1 := set_sigs (kernel_signal (2 ^ 18) (sigs b)) b).
    assert (E1 : check_pending_signals k = Ret [] (set_heap (<[p := b1]> (heap k)) k)).
    { apply check_pending_kernel; try done. intros j Hj. rewrite Hks.
      rewrite (pending_toggle (sigs b) _ 18) by done. rewrite (proj2 (Z.eqb_neq j 18)) by lia. done. }
    unfold handle_signals_turn. rewrite (bind_Ret _ _ _ _ _ E1). unfold stop_or_go. set (k1 := set_heap _ k).
    assert (Hb1 : heap k1 !! p = Some b1) by (cbn; apply lookup_insert_eq).
    rewrite (bind_Ret _ _ _ _ _ (current_unwrap_run k1 p Hr)).
    rewrite (bind_Ret _ _ _ _ _ (deref_run k1 p b1 Hb1)).
    assert (Hf : frozen (sigs b1) = false) by (cbn [sigs set_sigs b1]; by rewrite Hks).
    rewrite Hf. cbn [negb orb]. exists k1. split; [done|]. split; [done|]. exists b1. split_and!; try done.
    intros j Hj. cbn [sigs b1 set_sigs]. rewrite Hks. by apply (pending_toggle_only (sigs b) _ 18).
Qed.
End pending_signals.

(** ** Handlers, [kill] and the timer *)

Section handlers.
Context {T : Type} `{FrameAllocator T}.
Implicit Types (k : kernel T).

(** C27. Calling a user handler saves the trap context, enters the handler with the signal number in
    a0 and clears the signal; sigreturn after any changes to memory restores the saved trap context,
    touches no other page and returns the saved a0. *)
Theorem signal_handler_roundtrip k p b sig action :
  let ppn := trap_cx_ppn (space b) in
  let cx := read_trap_cx ppn (kmem k) in
  running k = Some p -> heap k !! p = Some b -> 0 <= sig < 32 ->
  signal_actions (sigs b) !! Z.to_nat sig = Some action -> handler action <> 0 ->
  length (page (kmem k) ppn) = WORDS_PER_PAGE ->
  exists k1 b1, call_user_signal_handler sig (2 ^ sig) k = Ret [] k1 /\ heap k1 !! p = Some b1 /\
    read_trap_cx ppn (kmem k1) = set_x10 sig (set_sepc (handler action) cx) /\
    handling_sig (sigs b1) = sig /\ signals (sigs b1) = Z.lxor (signals (sigs b)) (2 ^ sig) /\
    forall m, length (page m ppn) = WORDS_PER_PAGE ->
      exists k2 b2, sys_sigreturn (set_kmem m k1) = Ret (as_isize (default 0 (tx cx !! 10%nat))) k2 /\
        heap k2 !! p = Some b2 /\ read_trap_cx ppn (kmem k2) = cx /\ handling_sig (sigs b2) = -1 /\
        (forall q, q <> ppn -> page (kmem k2) q = page m q).
Proof.
  intros ppn cx Hr Hb Hs Ha Hh Hl. pose proof (read_trap_cx_length ppn (kmem k) Hl) as Hcx. fold cx in Hcx.
  set (s1 := start_handler sig (2 ^ sig) cx (sigs b)). set (b1 := set_sigs s1 b).
  set (cx1 := set_x10 sig (set_sepc (handler action) cx)).
  set (k0 := set_heap (<[p := b1]> (heap k)) k). set (k1 := set_kmem (write_trap_cx ppn cx1 (kmem k)) k0).
  assert (Hcx1 : length (tx cx1) = 32%nat) by (cbn; by rewrite length_insert).
  assert (Hb1 : heap k1 !! p = Some b1) by (cbn; apply lookup_insert_eq).
  exists k1, b1. split.
  { rewrite (call_user_run k p b sig action Hr Hb Hs Ha). by rewrite (proj2 (Z.eqb_neq _ _) Hh). }
  split_and!; try done.
  - by apply read_write_trap_cx.
  - cbn. by rewrite as_isize_small by lia.
  - intros m Hm. set (b2 := set_sigs {| signals := signals s1; signal_mask := signal_mask s1; handling_sig := -1;
      signal_actions := signal_actions s1; killed := killed s1; frozen := frozen s1;
      trap_ctx_backup := trap_ctx_backup s1 |} b1).
    set (k2 := set_kmem (write_trap_cx ppn cx m) (set_heap (<[p := b2]> (heap k1)) k1)).
    exists k2, b2.
    assert (Hrd : read_trap_cx ppn (kmem k2) = cx) by by apply read_write_trap_cx.
    split_and!; try done.
    + unfold sys_sigreturn, current_process, bind at 1. cbn [running set_kmem k1 k0 set_heap].
      rewrite Hr. rewrite (bind_Ret _ _ _ _ _ (update_run (set_kmem m k1) p b1 _ Hb1)).
      rewrite (bind_Ret _ _ _ _ _ (deref_run _ p b2 (lookup_insert_eq _ _ _))).
      cbn [trap_ctx_backup sigs b2 set_sigs s1 start_handler]. rewrite bind_unwrap.
      cbn [space b1 set_sigs]. fold ppn.
      unfold bind at 1, modify at 1.
      match goal with |- bind get _ ?s = _ => change s with k2 end. rewrite bind_get.
      change (trap_cx_ppn (space b2)) with ppn. rewrite Hrd. unfold index.
      destruct (lookup_lt_is_Some_2 (tx cx) 10) as [x Ex]; [lia|].
      assert (vget (tx cx) 10 = Some x) as -> by (apply vget_Some; split; [lia|done]).
      unfold bind. cbn [ret]. by rewrite Ex.
    + cbn. apply lookup_insert_eq.
    + intros q Hq. cbn. unfold write_trap_cx. by apply page_set_ne.
Qed.

Lemma shl1_bit signum : shl1 signum = 2 ^ (signum mod 32).
Proof. apply signal_bit. apply Z.mod_pos_bound. lia. Qed.

(** C29. kill sets, in the target's pending set, the bit of the signal number modulo 32 and nothing
    else, and returns 0, or returns -1 without a change when that bit is already set; no signal
    number is refused. *)
Theorem sys_kill_spec k n p b signum :
  pid2pcb k !! n = Some p -> heap k !! p = Some b ->
  let bit := signum mod 32 in
  exists k' b', sys_kill n signum k = Ret (if Z.testbit (signals (sigs b)) bit then -1 else 0) k' /\
    heap k' = <[p := b']> (heap k) /\ kmem k' = kmem k /\ manager k' = manager k /\
    (forall j, 0 <= j -> Z.testbit (signals (sigs b')) j = Z.testbit (signals (sigs b)) j || (j =? bit)).
Proof.
  intros Hn Hb bit. unfold sys_kill, pid2process, bind at 1. rewrite Hn. unfold SignalFlags.from_bits.
  rewrite (bind_Ret _ _ _ _ _ (deref_run k p b Hb)), shl1_bit. fold bit.
  assert (Hbit : 0 <= bit) by (apply Z.mod_pos_bound; lia). rewrite contains_bit by done.
  destruct (Z.testbit (signals (sigs b)) bit) eqn:E.
  - exists k, b. split; [done|]. rewrite insert_id by done. split_and!; try done.
    intros j Hj. destruct (Z.eqb_spec j bit) as [->|]; [by rewrite E|by rewrite orb_false_r].
  - rewrite (bind_Ret _ _ _ _ _ (update_run k p b _ Hb)). eexists _, _. split; [done|].
    split_and!; try done. intros j Hj. cbn [sigs set_signals set_sigs signals].
    rewrite Z.lor_spec, Z.pow2_bits_eqb by done. by rewrite (Z.eqb_sym bit).
Qed.

(** A tick that ends the slice finds no current process to suspend. *)
Lemma timer_interrupt_run k p b :
  manager_ok (manager k) -> running k = Some p -> heap k !! p = Some b ->
  0 <= priority (sched b) < 2 ^ 63 -> 0 <= time_slice_used (sched b) < 2 ^ 63 ->
  let used := time_slice_used (sched b) + 1 in
  let b1 := set_slice (priority (sched b)) used (time_slice_limit (sched b)) b in
  timer_interrupt k = if used <? time_slice_limit (sched b)
                      then suspend_current (set_heap (<[p := b1]> (heap k)) k) else Panic Unwrap.
Proof.
  intros Hm Hr Hb Hpr Hu used b1. set (k1 := set_heap (<[p := b1]> (heap k)) k).
  assert (Hb1 : heap k1 !! p = Some b1) by (cbn; apply lookup_insert_eq).
  unfold timer_interrupt, current_process. unfold bind at 1, bind at 1. rewrite Hr.
  rewrite (bind_Ret _ _ _ _ _ (deref_run k p b Hb)). cbv zeta.
  rewrite (u64_small (time_slice_used (sched b) + 1)) by lia. fold used.
  rewrite (bind_Ret _ _ _ _ _ (update_run k p b _ Hb)). fold b1 k1.
  destruct (Z.ltb_spec used (time_slice_limit (sched b))) as [Hlt|Hge].
  { by rewrite (proj2 (Z.leb_gt _ _)) by lia. }
  rewrite (proj2 (Z.leb_le _ used)) by lia.
  set (np := if priority (sched b) <? u64 (MLFQ_QUEUE_COUNT - 1) then u64 (priority (sched b) + 1)
             else priority (sched b)).
  assert (Hnp : 0 <= np) by (unfold np; destruct (_ <? _); [apply u64_range|lia]).
  assert (exists limit, get_time_slice np k1 = Ret limit k1) as [limit El].
  { unfold get_time_slice, ProcessManager_get_time_slice, index. cbn [manager k1 set_heap].
    rewrite (mg_count _ Hm). change (u64 (4 - 1)) with 3. pose proof (mg_slices _ Hm).
    destruct (vget_is_Some (time_slices (manager k)) (Z.min np 3)) as [x ->]; [lia|]. by eexists. }
  rewrite (bind_Ret _ _ _ _ _ El), (bind_Ret _ _ _ _ _ (update_run k1 p b1 _ Hb1)).
  unfold take_current_process, bind at 1. cbn [running set_heap k1]. rewrite Hr.
  set (k2 := set_running None _).
  destruct (add_process_run k2 p (set_slice np 0 limit b1) np) as (i & q & _ & _ & _ & E2);
    [done|done|cbn; apply lookup_insert_eq|]. by rewrite E2.
Qed.

(** C28. A timer tick within the time slice counts the tick and puts the process at the end of the
    first queue; a tick that ends the slice panics, because the demotion takes the current process
    before the suspension unwraps it. *)
Theorem timer_interrupt_spec k p b :
  manager_ok (manager k) -> running k = Some p -> heap k !! p = Some b ->
  0 <= priority (sched b) < 2 ^ 63 -> 0 <= time_slice_used (sched b) < 2 ^ 63 ->
  let used := time_slice_used (sched b) + 1 in
  if used <? time_slice_limit (sched b)
  then exists k' q, timer_interrupt k = Ret tt k' /\ running k' = None /\
    heap k' = <[p := set_status Ready (set_slice (priority (sched b)) used (time_slice_limit (sched b)) b)]> (heap k) /\
    ready_queues (manager k) !! 0%nat = Some q /\
    ready_queues (manager k') = <[0%nat := q ++ [p]]> (ready_queues (manager k))
  else timer_interrupt k = Panic Unwrap.
Proof.
  intros Hm Hr Hb Hpr Hu used. rewrite (timer_interrupt_run k p b Hm Hr Hb Hpr Hu). fold used.
  set (b1 := set_slice _ used _ b). set (k1 := set_heap (<[p := b1]> (heap k)) k).
  destruct (used <? time_slice_limit (sched b)); [|done].
  destruct (suspend_current_run k1 p b1 Hm Hr) as (q & Hq & _ & E2); [cbn; apply lookup_insert_eq|].
  rewrite E2. eexists _, q. split; [done|]. cbn. rewrite insert_insert_eq. done.
Qed.
End handlers.

(** ** A running process *)

Definition demo_pcb : ProcessControlBlock :=
  {| pid := 0;
     sched := {| process_status := Running; process_cx := ProcessContext_zero_init; priority := 0;
                 time_slice_used := 124999; time_slice_limit := 125000 |};
     space := {| memory_set := {| page_table := {| root_ppn := 0; frames := [] |}; areas := [] |};
                 trap_cx_ppn := 150; base_size := 0 |};
     family := {| parent := None; children := []; exit_code := 0 |};
     fd_table := []; 
     sigs := {| signals := 2 ^ 10 + 2 ^ 19; signal_mask := 0; handling_sig := -1;
                signal_actions := <[12%nat := {| handler := 0x1000; mask := 0 |}]> SignalActions_default;
                killed := false; frozen := false; trap_ctx_backup := None |} |}.
Definition demo_kernel : kernel StackFrameAllocator :=
  {| heap := {[0%nat := demo_pcb]}; initproc := 0; manager := ProcessManager_new; pid2pcb := {[0 := 0%nat]};
     running := Some 0%nat; pids := {| p_current := 1; p_recycled := [] |};
     kernel_space := {| page_table := {| root_ppn := 0; frames := [] |}; areas := [] |};
     kmem := demo_mem |}.

(** [SIGUSR1] (10) without a handler keeps [SIGSTOP] (19) from being acted on. *)
Lemma unhandled_signal_starves_witness : check_pending_signals demo_kernel = Ret default_action demo_kernel.
Proof.
  apply (unhandled_signal_starves demo_kernel 0 demo_pcb 10); try reflexivity; try lia.
  - intros j Hj. assert (j = 0 \/ j = 1 \/ j = 2 \/ j = 3 \/ j = 4 \/ j = 5 \/ j = 6 \/ j = 7 \/ j = 8 \/ j = 9)
      as Hc by lia. by repeat destruct Hc as [-> | Hc]; [..|subst].
  - exists SignalAction_default. split; reflexivity.
Defined.

Definition stopped_kernel : kernel StackFrameAllocator :=
  set_heap {[0%nat := set_signals (2 ^ 19) demo_pcb]} demo_kernel.

Lemma stop_then_continue_witness :
  exists k', handle_signals_turn stopped_kernel = Ret false k' /\ running k' = None.
Proof.
  destruct (stop_then_continue stopped_kernel 0 (set_signals (2 ^ 19) demo_pcb) ProcessManager_new_ok
    eq_refl eq_refl eq_refl eq_refl) as [Hstop _].
  destruct Hstop as (k' & E & Hr & _).
  - intros j Hj. unfold pending. cbn [signals signal_mask sigs set_signals set_sigs demo_pcb].
    rewrite Z.pow2_bits_eqb, Z.bits_0, andb_true_r by lia. apply Z.eqb_sym.
  - exists k'. split; [exact E|exact Hr].
Defined.

Lemma signal_handler_roundtrip_witness :
  exists k1, call_user_signal_handler 12 (2 ^ 12) demo_kernel = Ret [] k1 /\
    sepc (read_trap_cx 150 (kmem k1)) = 0x1000.
Proof.
  destruct (signal_handler_roundtrip demo_kernel 0 demo_pcb 12 {| handler := 0x1000; mask := 0 |}
    eq_refl eq_refl ltac:(lia) eq_refl ltac:(discriminate) eq_refl) as (k1 & b1 & E & _ & Hcx & _).
  exists k1. split; [exact E|]. change 150 with (trap_cx_ppn (space demo_pcb)). by rewrite Hcx.
Defined.

(** Signal number 43 is delivered as 11. *)
Lemma sys_kill_spec_witness : exists k' b',
  sys_kill 0 43 demo_kernel = Ret 0 k' /\ heap k' = <[0%nat := b']> (heap demo_kernel) /\
  Z.testbit (signals (sigs b')) 11 = true.
Proof.
  destruct (sys_kill_spec demo_kernel 0 0 demo_pcb 43 eq_refl eq_refl) as (k' & b' & E & Hh & _ & _ & Hbits).
  exists k', b'. split; [exact E|]. split; [exact Hh|]. rewrite Hbits by lia. reflexivity.
Defined.

(** The last tick of a time slice stops the kernel. *)
Lemma timer_interrupt_spec_witness : timer_interrupt demo_kernel = Panic Unwrap.
Proof.
  apply (timer_interrupt_spec demo_kernel 0 demo_pcb ProcessManager_new_ok eq_refl eq_refl);
    cbn; lia.
Defined.
