(* ===== verification/ExecSpec.v ===== *)
(** What [exec] of [os/src/process/process.rs] leaves in the new address space: the
    program, the arguments on the stack and the first trap context. *)
From S2P Require Import Prelude Address FrameAllocator PageTable UserBytes Pipe Pid MemorySet UserSpace UserMem ElfLoad.
From S2P Require Import Process Lifecycle Exec Signal.

Section args.
Context {T : Type} `{FAL : FrameAllocatorLaws T}.
Implicit Types (m : mem T) (ms : MemorySet) (a : gmap Z Z).

(** ** Stores through a table *)

Lemma refmut_run m ms a ptr len va : user_ok m ms a -> user_range ms ptr len -> ptr <= va < ptr + len ->
  translated_refmut (MemorySet_token ms) va m = Ret (pa_of a va) m.
Proof.
  intros Hu Hr Hva. pose proof (ur_bounds _ _ _ Hr) as Hb. unfold translated_refmut, MemorySet_token.
  rewrite va_from_usize_mod, Z.mod_small by lia. destruct (ur_pages _ _ _ Hr va Hva) as [f Hf].
  destruct (pa_of_data m ms a va f Hu Hf) as ([pte Hpte] & _).
  rewrite (bind_Ret _ _ _ _ _ (translate_va_mapped m (page_table ms) a va pte (ms_rep _ _ _ (uo_ms _ _ _ Hu)) ltac:(lia) Hpte)). done.
Qed.

(** A word that is aligned lies in one page. *)
Lemma word_pas a va : va mod 8 = 0 -> seqZ (pa_of a va) 8 = range_pas a va 8.
Proof.
  intros Hal. unfold range_pas. apply list_eq. intros i. rewrite list_lookup_fmap. destruct (decide (Z.of_nat i < 8)) as [Hi|Hi].
  - rewrite !lookup_seqZ_lt by lia. cbn [fmap option_fmap option_map]. f_equal. unfold pa_of.
    assert ((va + Z.of_nat i) / PAGE_SIZE = va / PAGE_SIZE) as -> by (unfold PAGE_SIZE; Z.to_euclidean_division_equations; lia).
    unfold PAGE_SIZE. Z.to_euclidean_division_equations. lia.
  - rewrite !lookup_seqZ_ge by lia. done.
Qed.
Lemma store_word a va w m : va mod 8 = 0 -> store_phys (pa_of a va) (le_bytes 8 w) m = store_all (range_pas a va 8) (le_bytes 8 w) m.
Proof. intros Hal. rewrite store_phys_all, length_le_bytes. change (Z.of_nat 8) with 8. by rewrite (word_pas a va Hal). Qed.

(** *** A store to a part of a range *)

(** The bytes [bs] at [va], everything else of the space as it was. *)
Record user_stored ms a m (va : Z) (bs : list Z) m' : Prop := {
  ut_step : user_step ms m m';
  ut_in : user_bytes m' a va (Z.of_nat (length bs)) = bs;
  ut_out ptr len : user_range ms ptr len -> ptr + len <= va \/ va + Z.of_nat (length bs) <= ptr -> user_bytes m' a ptr len = user_bytes m a ptr len;
}.
Lemma store_all_user ms a m va bs : user_ok m ms a -> user_range ms va (Z.of_nat (length bs)) -> is_bytes bs ->
  user_stored ms a m va bs (store_all (range_pas a va (Z.of_nat (length bs))) bs m).
Proof.
  intros Hu Hr Hb. destruct (store_user_range m ms a va _ bs Hu Hr Hb eq_refl) as [Hst Hin]. split; [done|done|].
  intros ptr len Hr' Hd. by apply (user_bytes_other m ms a va (Z.of_nat (length bs)) bs ptr len).
Qed.

Lemma range_pas_cons a va n : 0 < n -> range_pas a va n = pa_of a va :: range_pas a (va + 1) (n - 1).
Proof. intros Hn. unfold range_pas. rewrite seqZ_cons by lia. cbn. by replace (Z.pred n) with (n - 1) by lia. Qed.

Lemma store_one a va b m : store_phys_byte (pa_of a va) b m = store_all (range_pas a va 1) [b] m.
Proof. by rewrite range_pas_cons. Qed.

Lemma push_bytes_run ms a : forall bs va m, user_ok m ms a -> user_range ms va (Z.of_nat (length bs) + 1) -> is_bytes bs ->
  push_bytes (MemorySet_token ms) va bs m = Ret tt (store_all (range_pas a va (Z.of_nat (length bs) + 1)) (bs ++ [0]) m).
Proof.
  induction bs as [|c bs IH]; intros va m Hu Hr Hb; cbn [push_bytes length].
  - rewrite (bind_Ret _ _ _ _ _ (refmut_run m ms a va _ va Hu Hr ltac:(cbn; lia))). cbn [app]. unfold modify. by rewrite store_one.
  - cbn [length] in Hr. apply Forall_cons in Hb as [Hc Hb]. pose proof (ur_bounds _ _ _ Hr) as Hbd.
    rewrite (bind_Ret _ _ _ _ _ (refmut_run m ms a va _ va Hu Hr ltac:(lia))), bind_modify.
    rewrite (range_pas_cons a va) by lia. cbn [app store_all]. rewrite u64_small by lia.
    replace (Z.of_nat (S (length bs)) + 1 - 1) with (Z.of_nat (length bs) + 1) by lia. apply IH; [|by apply (user_range_sub _ va _ _ _ Hr); lia|done].
    apply (user_step_ok ms m); [|done]. rewrite store_one. apply (store_user m ms a va 1); [done|by apply (user_range_sub _ va _ _ _ Hr); lia|done].
Qed.

(** ** The stack of arguments *)

(** Where the strings go, downwards from [sp], and the stack pointer after them. *)
Fixpoint arg_ptrs (sp : Z) (args : list (list Z)) : list Z :=
  match args with
  | [] => []
  | arg :: args => let p := sp - (Z.of_nat (length arg) + 1) in p :: arg_ptrs p args
  end.
Fixpoint args_sp (sp : Z) (args : list (list Z)) : Z :=
  match args with [] => sp | arg :: args => args_sp (sp - (Z.of_nat (length arg) + 1)) args end.

Lemma args_sp_le sp args : args_sp sp args <= sp.
Proof. revert sp. induction args as [|arg args IH]; intros sp; cbn [args_sp]; [lia|]. etransitivity; [apply IH|lia]. Qed.
Lemma arg_ptrs_range sp args (j : nat) p arg : arg_ptrs sp args !! j = Some p -> args !! j = Some arg ->
  args_sp sp args <= p /\ p + Z.of_nat (length arg) + 1 <= sp.
Proof.
  revert sp j. induction args as [|x args IH]; intros sp [|j] Hp Ha; try done; cbn [arg_ptrs args_sp lookup list_lookup] in *.
  - injection Hp as <-. injection Ha as ->. split; [apply args_sp_le|lia].
  - destruct (IH _ j Hp Ha) as [? ?]. split; lia.
Qed.
Lemma length_arg_ptrs sp args : length (arg_ptrs sp args) = length args.
Proof. revert sp. induction args as [|arg args IH]; intros sp; cbn; [done|]. by rewrite IH. Qed.

(** What [push_args] writes: the strings below [sp], their addresses in the slots from [i] on. *)
Record args_stored ms a m (base sp : Z) (i : nat) (args : list (list Z)) m' : Prop := {
  at_step : user_step ms m m';
  at_arg (j : nat) arg p : args !! j = Some arg -> arg_ptrs sp args !! j = Some p ->
    user_bytes m' a p (Z.of_nat (length arg) + 1) = arg ++ [0] /\ user_bytes m' a (base + Z.of_nat (i + j) * 8) 8 = le_bytes 8 p;
  at_out ptr len : user_range ms ptr len -> 0 <= len ->
    ptr + len <= base + Z.of_nat i * 8 \/ base + Z.of_nat (i + length args) * 8 <= ptr ->
    ptr + len <= args_sp sp args \/ sp <= ptr -> user_bytes m' a ptr len = user_bytes m a ptr len;
}.

Lemma push_args_run ms a lo len base argv : (forall (i : nat) x, argv !! i = Some x -> x = pa_of a (base + Z.of_nat i * 8)) -> base mod 8 = 0 ->
  user_range ms lo len -> forall args i sp m, user_ok m ms a -> (i + length args <= length argv)%nat -> Forall is_bytes args ->
  lo <= args_sp sp args -> sp <= base -> base + Z.of_nat (i + length args) * 8 <= lo + len ->
  exists m', push_args (MemorySet_token ms) argv (Z.of_nat i) args sp m = Ret (args_sp sp args) m' /\ args_stored ms a m base sp i args m'.
Proof.
  intros Hargv Hal Hr. pose proof (ur_bounds _ _ _ Hr) as Hbd.
  induction args as [|arg args IH]; intros i sp m Hu Hi Hb Hlo Hsp Hhi.
  { exists m. cbn. split; [done|]. split; [apply user_step_refl|by intros j arg p Hj|done]. }
  apply Forall_cons in Hb as [Hba Hb]. cbn [push_args args_sp length] in *. set (p := sp - (Z.of_nat (length arg) + 1)) in *.
  pose proof (args_sp_le p args) as Hle. rewrite (u64_small p) by lia.
  destruct (lookup_lt_is_Some_2 argv i) as [r Hir]; [lia|]. rewrite (Hargv i r Hir) in Hir.
  unfold index at 1. rewrite vget_nat, Hir. unfold bind at 1. cbn [ret]. rewrite bind_modify.
  set (slot := base + Z.of_nat i * 8) in *. assert (Hsal : slot mod 8 = 0) by (unfold slot; Z.to_euclidean_division_equations; lia).
  rewrite (store_word a slot) by done.
  assert (Hslot : user_range ms slot 8) by (apply (user_range_sub _ lo _ _ _ Hr); unfold slot; lia).
  destruct (store_all_user ms a m slot (le_bytes 8 p) Hu) as [St1 In1 Out1]; [by rewrite length_le_bytes|apply le_bytes_is_bytes|].
  rewrite length_le_bytes in St1, In1, Out1. change (Z.of_nat 8) with 8 in *. set (m1 := store_all (range_pas a slot 8) _ m) in *.
  pose proof (user_step_ok ms m m1 a St1 Hu) as Hu1.
  assert (Hstr : user_range ms p (Z.of_nat (length arg) + 1)) by (apply (user_range_sub _ lo _ _ _ Hr); lia).
  rewrite (bind_Ret _ _ _ _ _ (push_bytes_run ms a arg p m1 Hu1 Hstr Hba)).
  assert (E0 : Z.of_nat (length (arg ++ [0])) = Z.of_nat (length arg) + 1) by (rewrite length_app; cbn; lia).
  destruct (store_all_user ms a m1 p (arg ++ [0]) Hu1) as [St2 In2 Out2]; [by rewrite E0|apply Forall_app; split; [done|repeat constructor; lia]|].
  rewrite E0 in St2, In2, Out2. set (m2 := store_all _ (arg ++ [0]) m1) in *.
  destruct (IH (S i) p m2) as (m3 & E3 & [St3 Arg3 Out3]); [by apply (user_step_ok ms m1)|lia|done|lia|lia|lia|].
  exists m3. replace (Z.of_nat i + 1) with (Z.of_nat (S i)) by lia. split; [exact E3|]. split.
  - by do 2 (eapply user_step_trans; [eassumption|]).
  - intros [|j] x q Hx Hq; cbn [lookup list_lookup arg_ptrs] in Hx, Hq; fold p in Hq.
    + injection Hx as <-. injection Hq as <-. rewrite Nat.add_0_r. fold slot. split.
      * rewrite Out3; [done|exact Hstr|lia| |]; lia.
      * rewrite Out3; [|exact Hslot|lia|unfold slot; lia|unfold slot; lia]. rewrite Out2; [done|exact Hslot|unfold slot; lia].
    + replace (i + S j)%nat with (S i + j)%nat by lia. by apply Arg3.
  - intros ptr n Hrn Hn Hd1 Hd2. cbn [args_sp length] in Hd1, Hd2. fold p in Hd2.
    rewrite Out3, Out2, Out1; try done; unfold slot; lia.
Qed.

(** Words side by side. *)
Lemma user_words m a base ws : (forall (j : nat) w, ws !! j = Some w -> user_bytes m a (base + Z.of_nat j * 8) 8 = le_bytes 8 w) ->
  user_bytes m a base (Z.of_nat (length ws) * 8) = ws ≫= le_bytes 8.
Proof.
  revert base. induction ws as [|w ws IH]; intros base Hw; [done|]. cbn [length]. replace (Z.of_nat (S (length ws)) * 8) with (8 + Z.of_nat (length ws) * 8) by lia.
  rewrite user_bytes_app by lia. cbn [mbind list_bind]. rewrite IH.
  - specialize (Hw 0%nat w eq_refl). change (Z.of_nat 0) with 0 in Hw. rewrite Z.mul_0_l, Z.add_0_r in Hw. by rewrite Hw.
  - intros j x Hx. specialize (Hw (S j) x Hx). by replace (base + 8 + Z.of_nat j * 8) with (base + Z.of_nat (S j) * 8) by lia.
Qed.

Lemma argv_refs_run m ms a lo len base l : user_ok m ms a -> user_range ms lo len ->
  Forall (fun x => lo <= base + x * 8 < lo + len) l ->
  argv_refs (MemorySet_token ms) base l m = Ret ((fun x => pa_of a (base + x * 8)) <$> l) m.
Proof.
  intros Hu Hr. pose proof (ur_bounds _ _ _ Hr) as Hb. induction 1 as [|x l Hx _ IH]; [done|]. cbn [argv_refs fmap list_fmap].
  rewrite u64_small by lia. rewrite (bind_Ret _ _ _ _ _ (refmut_run m ms a lo len _ Hu Hr Hx)). by rewrite (bind_Ret _ _ _ _ _ IH).
Qed.

(** The arguments as a program finds them: at [base] the addresses of the strings and a null
    pointer, each string with its zero. *)
Record argv_laid m a (base : Z) (args : list (list Z)) : Prop := {
  al_ptrs : user_bytes m a base ((Z.of_nat (length args) + 1) * 8) = (arg_ptrs base args ++ [0]) ≫= le_bytes 8;
  al_strs (j : nat) arg p : args !! j = Some arg -> arg_ptrs base args !! j = Some p ->
    user_bytes m a p (Z.of_nat (length arg) + 1) = arg ++ [0];
}.
(** What the arguments' memory keeps. *)
Lemma argv_laid_kept m m' a lo base args : argv_laid m a base args -> lo <= args_sp base args ->
  (forall ptr len, lo <= ptr -> ptr + len <= base + (Z.of_nat (length args) + 1) * 8 -> user_bytes m' a ptr len = user_bytes m a ptr len) ->
  argv_laid m' a base args.
Proof.
  intros [Hptrs Hstrs] Hlo Hin. pose proof (args_sp_le base args) as Hle. split.
  - rewrite Hin by lia. exact Hptrs.
  - intros j arg p Ha Hpj. destruct (arg_ptrs_range base args j p arg Hpj Ha). rewrite Hin by lia. by apply (Hstrs j).
Qed.
Definition argv_base (top : Z) (args : list (list Z)) : Z := top - (Z.of_nat (length args) + 1) * 8.

Lemma push_argv_run m ms a lo top args : user_ok m ms a -> user_range ms lo (top - lo) -> top mod 8 = 0 -> Forall is_bytes args ->
  lo <= args_sp (argv_base top args) args ->
  let base := argv_base top args in
  let sp := args_sp base args in
  exists m', push_argv (MemorySet_token ms) top args m = Ret (base, sp - sp mod 8) m' /\ user_step ms m m' /\ argv_laid m' a base args /\
    forall ptr n, user_range ms ptr n -> 0 <= n -> ptr + n <= sp \/ top <= ptr -> user_bytes m' a ptr n = user_bytes m a ptr n.
Proof.
  intros Hu Hr Hal Hb Hlo base sp. pose proof (ur_bounds _ _ _ Hr) as Hbd. pose proof (args_sp_le base args) as Hsp. fold base sp in Hlo, Hsp.
  set (argc := Z.of_nat (length args)). assert (Ebase : base = top - (argc + 1) * 8) by done.
  unfold push_argv. fold argc. rewrite <- Ebase. rewrite (u64_small base) by lia.
  assert (Hbal : base mod 8 = 0) by (rewrite Ebase; Z.to_euclidean_division_equations; lia).
  set (argv := (fun x => pa_of a (base + x * 8)) <$> seqZ 0 (argc + 1)).
  rewrite (bind_Ret _ _ _ _ _ (argv_refs_run m ms a lo (top - lo) base (seqZ 0 (argc + 1)) Hu Hr
    ltac:(apply Forall_forall; intros x Hx%elem_of_seqZ; lia))). fold argv.
  assert (Hargv : forall (i : nat) x, argv !! i = Some x -> x = pa_of a (base + Z.of_nat i * 8)).
  { intros i x Hx. unfold argv in Hx. rewrite list_lookup_fmap in Hx. destruct (seqZ 0 (argc + 1) !! i) as [y|] eqn:E; [|done].
    apply lookup_seqZ in E as [-> _]. by injection Hx as <-. }
  assert (Hlen : length argv = S (length args)) by (unfold argv; rewrite length_fmap, length_seqZ; unfold argc; lia).
  destruct (lookup_lt_is_Some_2 argv (length args)) as [r Hl]; [lia|]. rewrite (Hargv _ _ Hl) in Hl.
  unfold index at 1, argc at 1. rewrite vget_nat, Hl. unfold bind at 1. cbn [ret]. fold argc. set (slot := base + argc * 8) in *. rewrite bind_modify.
  assert (Hsal : slot mod 8 = 0) by (unfold slot; Z.to_euclidean_division_equations; lia). rewrite (store_word a slot 0 m Hsal).
  assert (Hslot : user_range ms slot 8) by (apply (user_range_sub _ lo _ _ _ Hr); unfold slot; lia).
  destruct (store_all_user ms a m slot (le_bytes 8 0) Hu) as [St1 In1 Out1]; [by rewrite length_le_bytes|apply le_bytes_is_bytes|].
  rewrite length_le_bytes in St1, In1, Out1. change (Z.of_nat 8) with 8 in *. set (m1 := store_all (range_pas a slot 8) _ m) in *.
  destruct (push_args_run ms a lo (top - lo) base argv Hargv Hbal Hr args 0 base m1) as (m2 & E2 & [St2 Arg2 Out2]);
    [by apply (user_step_ok ms m)|lia|done|done|done|lia|].
  change (Z.of_nat 0) with 0 in E2. rewrite (bind_Ret _ _ _ _ _ E2). fold sp. exists m2. unfold ret.
  rewrite u64_small by (pose proof (Z.mod_pos_bound sp 8 ltac:(done)); Z.to_euclidean_division_equations; lia). split; [done|].
  split; [by eapply user_step_trans|]. split; [split|].
  - fold argc. assert (El : length (arg_ptrs base args ++ [0]) = S (length args)) by (rewrite length_app, length_arg_ptrs; cbn; lia).
    replace ((argc + 1) * 8) with (Z.of_nat (length (arg_ptrs base args ++ [0])) * 8) by (rewrite El; unfold argc; lia).
    apply user_words. intros j w Hw. apply lookup_app_Some in Hw as [Hw|[Hj Hw]].
    + destruct (lookup_lt_is_Some_2 args j) as [arg Harg]; [rewrite <- (length_arg_ptrs base); by eapply lookup_lt_Some|].
      exact (proj2 (Arg2 j arg w Harg Hw)).
    + rewrite length_arg_ptrs in Hw, Hj. apply list_lookup_singleton_Some in Hw as [Hj0 <-].
      replace (base + Z.of_nat j * 8) with slot by (unfold slot, argc; lia).
      rewrite Out2; [exact In1|exact Hslot|lia|right; unfold slot, argc; lia|right; unfold slot; lia].
  - intros j arg p Ha Hp. by apply (Arg2 j).
  - intros ptr n Hrn Hn Hd. rewrite Out2, Out1; try done; try (unfold slot; lia).
Qed.
End args.

(** ** [exec] *)

(** The bytes the arguments need: pointers, a null pointer, the strings with their zeros. *)
Definition args_size (args : list (list Z)) : Z := (Z.of_nat (length args) + 1) * 8 + (- args_sp 0 args).
Lemma args_sp_shift sp args : args_sp sp args = sp + args_sp 0 args.
Proof.
  revert sp. induction args as [|arg args IH]; intros sp; cbn [args_sp]; [lia|]. rewrite (IH (sp - _)), (IH (0 - _)). lia.
Qed.

Section exec_spec.
Context {T : Type} `{FAL : FrameAllocatorLaws T} (env : boot) (elf_parse : list Z -> option ElfFile).
Implicit Types (m : mem T) (ms : MemorySet) (a : gmap Z Z) (k : kernel T).

Lemma user_bytes_pages m m' a ptr len : (forall va, ptr <= va < ptr + len -> page m' (pa_of a va / PAGE_SIZE) = page m (pa_of a va / PAGE_SIZE)) ->
  user_bytes m' a ptr len = user_bytes m a ptr len.
Proof.
  intros Hp. unfold user_bytes, range_pas. rewrite <- !list_fmap_compose. apply list_fmap_ext. intros i va Hva%list_elem_of_lookup_2%elem_of_seqZ.
  cbn. by apply phys_byte_page, Hp.
Qed.
Lemma user_byte_bytes m a va : user_bytes m a va 1 = [user_byte m a va].
Proof. unfold user_bytes, range_pas. by rewrite seqZ_cons. Qed.

(** The trap context page of a loaded program. *)
Lemma trap_cx_run tr m ms a regs : loaded (tr := tr) m ms a regs -> trap_cx_region ∈ regs ->
  exists f, trap_cx_of ms m = Ret f m /\ data_frame ms (2 ^ 27 - 2) f.
Proof.
  intros Hld Hin. destruct (region_frame m ms a regs trap_cx_region (2 ^ 27 - 2) (ld_ok _ _ _ _ Hld) (ld_areas _ _ _ _ Hld) Hin) as [f Hf]; [unfold in_region, trap_cx_region; cbn; lia|].
  exists f. split; [|done]. unfold trap_cx_of. change (VirtPageNum.from_va TRAP_CONTEXT_va) with (@ret (mem T) Z (2 ^ 27 - 2)).
  unfold bind at 1, ret at 1. destruct (translate_data m ms a _ f (uo_ms _ _ _ (ld_ok _ _ _ _ Hld)) (uo_framed _ _ _ (ld_ok _ _ _ _ Hld)) Hf) as (pte & E & Hp).
  rewrite (bind_Ret _ _ _ _ _ E), bind_unwrap. unfold ret. by rewrite Hp.
Qed.

(** The pages of a region are a range of user memory. *)
Lemma region_range m ms a regs r : user_ok m ms a -> Forall2 area_of (areas ms) regs -> r ∈ regs -> 0 <= r_lo r <= r_hi r -> r_hi r * PAGE_SIZE <= 2 ^ 38 ->
  user_range ms (r_lo r * PAGE_SIZE) (r_hi r * PAGE_SIZE - r_lo r * PAGE_SIZE).
Proof.
  intros Hu Har Hin Hr Hh. split; [unfold PAGE_SIZE in *; lia|]. intros va Hva. apply (region_frame m ms a regs r _ Hu Har Hin). unfold in_region, PAGE_SIZE in *.
  Z.to_euclidean_division_equations. lia.
Qed.

(** Where the stack of a program ends and starts. *)
Definition stack_top (elf_data : list Z) (elf : ElfFile) : Z := (elf_end elf_data elf + 3) * PAGE_SIZE.
Definition stack_bottom (elf_data : list Z) (elf : ElfFile) : Z := (elf_end elf_data elf + 1) * PAGE_SIZE.
Definition start_sp (elf_data : list Z) (elf : ElfFile) (args : list (list Z)) : Z :=
  let sp := args_sp (argv_base (stack_top elf_data elf) args) args in sp - sp mod 8.

(** An address space with a program and its arguments; [f] holds the trap context. *)
Record program m ms a (elf_data : list Z) (elf : ElfFile) (args : list (list Z)) (f : Z) : Prop := {
  pr_ok : user_ok m ms a;
  pr_areas : Forall2 area_of (areas ms) (elf_regions elf_data elf);
  pr_segs r va : r ∈ elf_segments elf_data elf -> in_region r (va / PAGE_SIZE) -> user_byte m a va = region_byte r va;
  pr_args : argv_laid m a (argv_base (stack_top elf_data elf) args) args;
  pr_cx : data_frame ms (2 ^ 27 - 2) f;
  pr_tramp : a !! TRAMPOLINE_VPN = Some (trampoline_pte (b_strampoline env));
}.

Lemma fits_stack elf_data elf args : args_size args <= USER_STACK_SIZE ->
  stack_bottom elf_data elf <= args_sp (argv_base (stack_top elf_data elf) args) args /\ stack_bottom elf_data elf <= start_sp elf_data elf args.
Proof.
  unfold start_sp. rewrite args_sp_shift. unfold args_size, argv_base, stack_top, stack_bottom, USER_STACK_SIZE, PAGE_SIZE. intros Hs.
  split; [lia|]. Z.to_euclidean_division_equations. lia.
Qed.

Lemma load_program m elf_data elf args :
  elf_ok elf_parse elf_data elf -> b_strampoline env mod PAGE_SIZE = 0 -> fa_ok (falloc m) ->
  (3 + 3 * regions_pages (elf_regions elf_data elf) <= fa_avail (falloc m))%nat -> Forall is_bytes args -> args_size args <= USER_STACK_SIZE ->
  exists ms m1 m2 a f, from_elf elf_parse (b_strampoline env) elf_data m = Ret (ms, stack_top elf_data elf, entry_point elf) m1 /\
    trap_cx_of ms m1 = Ret f m1 /\
    push_argv (MemorySet_token ms) (stack_top elf_data elf) args m1 = Ret (argv_base (stack_top elf_data elf) args, start_sp elf_data elf args) m2 /\
    program m2 ms a elf_data elf args f /\ frame_step m [] m2 (footprint ms).
Proof.
  intros Ho Hst Hok Hav Hb Hsize. destruct (from_elf_run elf_parse (b_strampoline env) elf_data elf m Ho Hst Hok Hav) as (ms & m1 & a & E1 & Hld & S1 & _).
  destruct (elf_segments_ok _ _ _ Ho) as [He Hsegs]. destruct (fits_stack elf_data elf args Hsize) as [Hfit _].
  set (e := elf_end elf_data elf) in *.
  assert (Hcx : trap_cx_region ∈ elf_regions elf_data elf) by (unfold elf_regions; rewrite elem_of_app; right; repeat constructor).
  assert (Hstk : stack_region e ∈ elf_regions elf_data elf) by (unfold elf_regions; rewrite elem_of_app; right; by constructor).
  destruct (trap_cx_run _ m1 ms a _ Hld Hcx) as (f & Ef & Hf).
  pose proof (region_range m1 ms a _ (stack_region e) (ld_ok _ _ _ _ Hld) (ld_areas _ _ _ _ Hld) Hstk ltac:(cbn; lia) ltac:(cbn; unfold PAGE_SIZE; lia)) as Hrange.
  change (r_lo (stack_region e) * PAGE_SIZE) with (stack_bottom elf_data elf) in Hrange.
  change (r_hi (stack_region e) * PAGE_SIZE) with (stack_top elf_data elf) in Hrange.
  destruct (push_argv_run m1 ms a _ (stack_top elf_data elf) args (ld_ok _ _ _ _ Hld) Hrange) as (m2 & E2 & St2 & Hargs & Hout);
    [unfold stack_top, PAGE_SIZE; Z.to_euclidean_division_equations; lia|done|done|].
  exists ms, m1, m2, a, f. split_and!; [exact E1|exact Ef|exact E2| |].
  - split; [by apply (user_step_ok ms m1); [|apply Hld]|apply Hld| |exact Hargs|exact Hf|apply Hld].
    intros r va Hr Hin. rewrite Forall_forall in Hsegs. specialize (Hsegs r Hr).
    assert (Hr' : r ∈ elf_regions elf_data elf) by (unfold elf_regions; rewrite elem_of_app; by left).
    rewrite <- (ld_byte _ _ _ _ Hld r va Hr' Hin). unfold in_region in Hin.
    pose proof (region_range m1 ms a _ r (ld_ok _ _ _ _ Hld) (ld_areas _ _ _ _ Hld) Hr' ltac:(lia) ltac:(unfold PAGE_SIZE; lia)) as Hrr.
    assert (Hva : r_lo r * PAGE_SIZE <= va /\ va + 1 <= r_hi r * PAGE_SIZE) by (unfold PAGE_SIZE in *; Z.to_euclidean_division_equations; lia).
    assert (E : user_bytes m2 a va 1 = user_bytes m1 a va 1).
    { apply Hout; [by apply (user_range_sub _ _ _ _ _ Hrr); lia|lia|]. left. etransitivity; [|exact Hfit]. unfold stack_bottom. fold e.
      unfold PAGE_SIZE in *. lia. }
    rewrite !user_byte_bytes in E. by injection E.
  - apply (frame_step_user _ _ ms m1); [exact S1|exact St2|]. intros y Hy. apply elem_of_app. by right.
Qed.

(** The program stays when only other pages and the trap context change. *)
Lemma program_frame m m' ms a elf_data elf args f : elf_ok elf_parse elf_data elf -> args_size args <= USER_STACK_SIZE ->
  program m ms a elf_data elf args f -> user_ok m' ms a ->
  (forall y, y ∈ areas_frames (areas ms) -> y <> f -> page m' y = page m y) -> program m' ms a elf_data elf args f.
Proof.
  intros Ho Hsize [Hu Har Hseg Hargs Hcx Htp] Hu' Hp. destruct (elf_segments_ok _ _ _ Ho) as [He Hsegs]. destruct (fits_stack elf_data elf args Hsize) as [Hfit _].
  set (e := elf_end elf_data elf) in *.
  assert (Hkept : forall r ptr len, r ∈ elf_regions elf_data elf -> 0 <= r_lo r <= r_hi r -> r_hi r < 2 ^ 27 - 2 ->
    r_lo r * PAGE_SIZE <= ptr -> ptr + len <= r_hi r * PAGE_SIZE -> user_bytes m' a ptr len = user_bytes m a ptr len).
  { intros r ptr len Hr Hlo Hhi H1 H2. apply user_bytes_pages. intros va Hva.
    assert (Hin : in_region r (va / PAGE_SIZE)) by (unfold in_region, PAGE_SIZE in *; Z.to_euclidean_division_equations; lia).
    destruct (region_frame m ms a _ r _ Hu Har Hr Hin) as [g Hg]. destruct (pa_of_data m ms a va g Hu Hg) as (_ & _ & ->).
    apply Hp; [by apply (data_frame_footprint ms (va / PAGE_SIZE))|]. intros ->.
    pose proof (data_frame_inj m ms a _ _ f (uo_ms _ _ _ Hu) Hg Hcx). unfold in_region in Hin. lia. }
  assert (Hstk : stack_region e ∈ elf_regions elf_data elf) by (unfold elf_regions; rewrite elem_of_app; right; by constructor).
  split; [done|done| | |done|done].
  - intros r va Hr Hin. rewrite <- (Hseg r va Hr Hin). rewrite Forall_forall in Hsegs. specialize (Hsegs r Hr). unfold in_region in Hin.
    assert (E : user_bytes m' a va 1 = user_bytes m a va 1).
    { apply (Hkept r); [unfold elf_regions; rewrite elem_of_app; by left|lia|lia|..];
        unfold PAGE_SIZE in *; Z.to_euclidean_division_equations; lia. }
    rewrite !user_byte_bytes in E. by injection E.
  - apply (argv_laid_kept m m' a (stack_bottom elf_data elf)); [exact Hargs|exact Hfit|]. unfold argv_base. intros ptr len H1 H2.
    apply (Hkept (stack_region e) ptr len Hstk); unfold stack_bottom, stack_top in *; fold e in H1, H2; cbn; lia.
Qed.

Lemma exec_run k p b a_old elf_data elf args :
  heap k !! p = Some b -> ms_ok (kmem k) (memory_set (space b)) a_old ->
  elf_ok elf_parse elf_data elf -> b_strampoline env mod PAGE_SIZE = 0 ->
  (3 + 3 * regions_pages (elf_regions elf_data elf) <= fa_avail (falloc (kmem k)))%nat -> Forall is_bytes args -> args_size args <= USER_STACK_SIZE ->
  let sp := start_sp elf_data elf args in
  exists ms a f m', exec env elf_parse p elf_data args k =
      Ret tt (set_kmem m' (set_heap (<[p := set_space {| memory_set := ms; trap_cx_ppn := f; base_size := base_size (space b) |} b]> (heap k)) k)) /\
    program m' ms a elf_data elf args f /\
    read_trap_cx f m' = set_x11 (argv_base (stack_top elf_data elf) args) (set_x10 (Z.of_nat (length args))
      (app_init_context env (entry_point elf) sp (MemorySet_token (kernel_space k)) (KernelStack_top (pid b)) (b_trap_handler env))) /\
    frame_step (kmem k) (footprint (memory_set (space b))) m' (footprint ms).
Proof.
  intros Hb Hold Ho Hst Hav Hbytes Hsize sp. set (old := memory_set (space b)) in *.
  destruct (represents_live _ _ _ (ms_rep _ _ _ Hold)) as (Hok & _ & _).
  destruct (load_program (kmem k) elf_data elf args Ho Hst Hok Hav Hbytes Hsize) as (ms & m1 & m2 & a & f & E1 & E2 & E3 & Hpr & S2).
  destruct (ms_ok_step (kmem k) [] m2 _ old a_old Hold S2 ltac:(set_solver)) as (Hold2 & Hx & _).
  destruct (MemorySet_drop_run m2 old a_old Hold2) as (m3 & E4 & S3 & Hpg3).
  assert (S23 : frame_step (kmem k) (footprint old) m3 (footprint ms)).
  { pose proof (frame_step_frame _ _ _ _ (footprint old) S2 (ms_live _ _ _ Hold) ltac:(set_solver)) as S2'.
    assert (Hl2 : Forall (fa_live (falloc m2)) (footprint ms)) by exact (ms_live _ _ _ (uo_ms _ _ _ (pr_ok _ _ _ _ _ _ _ Hpr))).
    pose proof (frame_step_frame _ _ _ _ (footprint ms) S3 Hl2 ltac:(intros y Hy Hy'; by apply (Hx y))) as S3'.
    eapply frame_step_trans; [exact S2'|]. eapply frame_step_Permutation; [..|exact S3']; intros y; cbn [app]; rewrite ?elem_of_app; tauto. }
  assert (Hu3 : user_ok m3 ms a).
  { split; [|apply Hpr]. apply (ms_ok_step m2 (footprint old) m3 [] ms a (uo_ms _ _ _ (pr_ok _ _ _ _ _ _ _ Hpr)) S3). intros y Hy Hy'. by apply (Hx y). }
  pose proof (program_frame m2 m3 ms a elf_data elf args f Ho Hsize Hpr Hu3 ltac:(done)) as Hpr3.
  destruct (data_frame_footprint _ _ _ (pr_cx _ _ _ _ _ _ _ Hpr)) as [Hfa _].
  assert (Hlen : length (page m3 f) = WORDS_PER_PAGE).
  { pose proof (ms_len _ _ _ (uo_ms _ _ _ Hu3)) as Hl. rewrite Forall_forall in Hl. by apply Hl. }
  set (cx := set_x11 _ _) in *. set (m4 := write_trap_cx f cx m3).
  assert (Hcx : length (tx cx) = 32%nat) by done.
  assert (St4 : user_step ms m3 m4).
  { apply set_page_user; [done|]. rewrite length_splice; [done|]. rewrite length_app, Hcx, Hlen. cbn. unfold WORDS_PER_PAGE. lia. }
  exists ms, a, f, m4. split; [|split; [|split]].
  - unfold exec. set (k1 := set_kmem m1 k). set (k2 := set_kmem m2 k).
    rewrite (on_mem_bind _ _ k _ _ E1); cbn beta iota. rewrite (on_mem_bind _ _ (set_kmem m1 k) _ _ E2), (on_mem_bind _ _ k1 _ _ E3); cbn beta iota. change (set_kmem m2 k1) with k2.
    rewrite (bind_Ret _ _ _ _ _ (deref_run k2 p b Hb)). fold old. rewrite (on_mem_bind _ _ k2 _ _ E4).
    rewrite (bind_Ret _ _ _ _ _ (update_run (set_kmem m3 k2) p b _ Hb)), bind_get. reflexivity.
  - apply (program_frame m3 m4 ms a elf_data elf args f Ho Hsize Hpr3); [by apply (user_step_ok ms m3)|]. intros y _ Hy. by apply page_set_ne.
  - by apply read_write_trap_cx.
  - apply (frame_step_user _ _ ms m3); [exact S23|exact St4|]. intros y Hy. apply elem_of_app. by right.
Qed.
End exec_spec.
