(* ===== verification/ForkSpec.v ===== *)
(** What [fork] of [os/src/process/process.rs] and [sys_fork] of
    [os/src/syscall/process.rs] leave behind: two processes with the same memory and
    the same descriptors, on frames of their own. *)
From S2P Require Import Prelude Address FrameAllocator PageTable UserBytes Pipe Pid MemorySet UserSpace UserMem ElfLoad.
From S2P Require Import Process Lifecycle Exec Signal ExecSpec.

(** The page of the trap context. *)
Definition TRAP_VPN : Z := 2 ^ 27 - 2.

(** The block of the child. *)
Definition child_block (env : boot) (self : nat) (pb : ProcessControlBlock) (n : Z) (ms : MemorySet) (ppn : Z) : ProcessControlBlock :=
  {| pid := n;
     sched := {| process_status := Ready; process_cx := goto_trap_return (b_trap_return env) (KernelStack_top n);
                 priority := priority (sched pb); time_slice_used := 0; time_slice_limit := time_slice_limit (sched pb) |};
     space := {| memory_set := ms; trap_cx_ppn := ppn; base_size := base_size (space pb) |};
     family := {| parent := Some self; children := []; exit_code := 0 |};
     fd_table := fd_table pb;
     sigs := {| signals := 0; signal_mask := signal_mask (sigs pb); handling_sig := -1; signal_actions := signal_actions (sigs pb);
                killed := false; frozen := false; trap_ctx_backup := None |} |}.

Section fork_spec.
Context {T : Type} `{FAL : FrameAllocatorLaws T} (env : boot).
Implicit Types (m : mem T) (ms user child ks : MemorySet) (a : gmap Z Z) (k : kernel T).

Lemma data_frame_copy m m' user child a a' vpn f : user_ok m user a -> user_ok m' child a' -> Forall2 same_area (areas user) (areas child) ->
  data_frame user vpn f -> exists f', data_frame child vpn f'.
Proof.
  intros Hu Hc Hs (i & A & HA & Hf). destruct (Forall2_lookup_l _ _ _ _ _ Hs HA) as (B & HB & (Er & _ & _)).
  pose proof (ar_frames _ _ (Forall_lookup_1 _ _ _ _ (ms_areas _ _ _ (uo_ms _ _ _ Hc)) HB)) as Hfr.
  rewrite (Forall_lookup_1 _ _ _ _ (uo_framed _ _ _ Hc) HB) in Hfr.
  pose proof (ar_frames _ _ (Forall_lookup_1 _ _ _ _ (ms_areas _ _ _ (uo_ms _ _ _ Hu)) HA)) as Hfa.
  rewrite (Forall_lookup_1 _ _ _ _ (uo_framed _ _ _ Hu) HA) in Hfa.
  destruct (proj2 (Hfr vpn)) as [f' Hf']; [|exists f'; by exists i, B].
  unfold in_area. rewrite Er. apply Hfa. eauto.
Qed.

Lemma framed_copy user child : Forall (fun A => map_type A = Framed) (areas user) -> Forall2 same_area (areas user) (areas child) ->
  Forall (fun A => map_type A = Framed) (areas child).
Proof.
  intros HF Hs. induction Hs as [|A B l l' (_ & Et & _) _ IH]; [constructor|]. apply Forall_cons in HF as [HA HF].
  constructor; [by rewrite Et|by apply IH].
Qed.

(** The frame of a trap context is a page. *)
Lemma user_frame_length m ms a vpn f : user_ok m ms a -> data_frame ms vpn f -> length (page m f) = WORDS_PER_PAGE.
Proof.
  intros Hu Hf. pose proof (ms_len _ _ _ (uo_ms _ _ _ Hu)) as Hl. rewrite Forall_forall in Hl. apply Hl, (data_frame_footprint _ _ _ Hf).
Qed.
Lemma write_trap_cx_user m ms a f cx : user_ok m ms a -> data_frame ms TRAP_VPN f -> length (tx cx) = 32%nat ->
  user_step ms m (write_trap_cx f cx m).
Proof.
  intros Hu Hf Hx. apply set_page_user; [apply (data_frame_footprint _ _ _ Hf)|]. pose proof (user_frame_length m ms a _ f Hu Hf) as Hl.
  rewrite length_splice; [done|]. rewrite length_app, Hx, Hl. cbn. unfold WORDS_PER_PAGE. lia.
Qed.

(** What a process sees of its memory is its pages. *)
Lemma user_bytes_copy m m' user child a a' ptr len : user_ok m user a -> user_ok m' child a' -> Forall2 same_area (areas user) (areas child) ->
  (forall vpn f f', vpn <> TRAP_VPN -> data_frame user vpn f -> data_frame child vpn f' -> page m' f' = page m f) ->
  user_range user ptr len -> ptr + len <= TRAP_CONTEXT_va -> user_bytes m' a' ptr len = user_bytes m a ptr len.
Proof.
  intros Hu Hc Hs Hp Hr Hle. pose proof (ur_bounds _ _ _ Hr) as Hb. unfold user_bytes, range_pas. rewrite <- !list_fmap_compose.
  apply list_fmap_ext. intros i va Hva%list_elem_of_lookup_2%elem_of_seqZ. cbn.
  destruct (ur_pages _ _ _ Hr va Hva) as [f Hf]. destruct (data_frame_copy m m' user child a a' _ f Hu Hc Hs Hf) as [f' Hf'].
  destruct (pa_of_data m user a va f Hu Hf) as (_ & Eo & Eq). destruct (pa_of_data m' child a' va f' Hc Hf') as (_ & Eo' & Eq').
  change TRAP_CONTEXT_va with (2 ^ 39 - 8192) in Hle.
  assert (E : page m' f' = page m f) by (apply (Hp (va / PAGE_SIZE)); [unfold TRAP_VPN, PAGE_SIZE; Z.to_euclidean_division_equations; lia|done|done]).
  pose proof (Z.mod_pos_bound va PAGE_SIZE ltac:(done)) as Ho. unfold phys_byte. rewrite Eq, Eq', E, Eo, Eo'.
  assert (Hm : forall g o, 0 <= o < PAGE_SIZE -> (g * PAGE_SIZE + o) mod PAGE_SIZE = o /\ (g * PAGE_SIZE + o) mod 8 = o mod 8)
    by (intros g o ?; unfold PAGE_SIZE in *; Z.to_euclidean_division_equations; lia).
  destruct (Hm f _ Ho) as [-> ->]. by destruct (Hm f' _ Ho) as [-> ->].
Qed.

(** Below the trap context the pages of a process other than that one count. *)
Lemma user_bytes_kept m m' ms a f ptr len : user_ok m ms a -> data_frame ms TRAP_VPN f ->
  (forall y, y ∈ footprint ms -> y <> f -> page m' y = page m y) ->
  user_range ms ptr len -> ptr + len <= TRAP_CONTEXT_va -> user_bytes m' a ptr len = user_bytes m a ptr len.
Proof.
  intros Hu Hf Hp Hr Hle. change TRAP_CONTEXT_va with (2 ^ 39 - 8192) in Hle. pose proof (ur_bounds _ _ _ Hr) as Hb.
  apply user_bytes_pages. intros va Hva. destruct (ur_pages _ _ _ Hr va Hva) as [g Hg].
  destruct (pa_of_data m ms a va g Hu Hg) as (_ & _ & ->). apply Hp; [apply (data_frame_footprint _ _ _ Hg)|]. intros ->.
  pose proof (data_frame_inj m ms a _ _ f (uo_ms _ _ _ Hu) Hg Hf). unfold TRAP_VPN, PAGE_SIZE in *. Z.to_euclidean_division_equations. lia.
Qed.

(** The frames and pages after a fork: the parent as it was, the child a copy of it
    but for the trap context [cx]. *)
Record copied m user a child a' f' (cx : TrapContext) ks ka m' : Prop := {
  cp_user : user_ok m' user a;
  cp_child : user_ok m' child a';
  cp_apart y : y ∈ footprint user -> y ∉ footprint child;
  cp_areas : Forall2 same_area (areas user) (areas child);
  cp_kept y : y ∈ footprint user -> page m' y = page m y;
  cp_same vpn g g' : vpn <> TRAP_VPN -> data_frame user vpn g -> data_frame child vpn g' -> page m' g' = page m g;
  cp_frame : data_frame child TRAP_VPN f';
  cp_cx : read_trap_cx f' m' = cx;
  cp_kernel : ms_ok m' ks ka;
  cp_kernel_apart y : y ∈ footprint ks -> y ∉ footprint user /\ y ∉ footprint child;
  cp_tramp : a' !! TRAMPOLINE_VPN = Some (trampoline_pte (b_strampoline env));
}.

(** Writing the child's trap context. *)
Lemma copied_write m user a child a' f' cx ks ka m' cx' : copied m user a child a' f' cx ks ka m' -> length (tx cx') = 32%nat ->
  copied m user a child a' f' cx' ks ka (write_trap_cx f' cx' m').
Proof.
  intros [Hu Hc Hx Hs Hk Hp Hf _ Hks Hkx Htp] Hl. pose proof (write_trap_cx_user m' child a' f' cx' Hc Hf Hl) as St.
  destruct (data_frame_footprint _ _ _ Hf) as [Hfa Hff]. set (m1 := write_trap_cx f' cx' m') in *.
  assert (Hm : forall y, y <> f' -> page m1 y = page m' y) by (intros y Hy; by apply page_set_ne).
  assert (Hsub : forall y, y ∈ areas_frames (areas child) -> y ∈ footprint child) by (intros y Hy; apply elem_of_app; by right).
  split; try done.
  - split; [|apply Hu]. apply (user_step_frame child m' m1 user a St (uo_ms _ _ _ Hu)). intros y Hy Hy'%Hsub. by apply (Hx y).
  - by apply (user_step_ok child m').
  - intros y Hy. rewrite Hm by (intros ->; by apply (Hx f')). by apply Hk.
  - intros vpn g g' Hv Hg Hg'. rewrite Hm; [by apply (Hp vpn)|]. intros ->.
    by pose proof (data_frame_inj m' child a' _ _ _ (uo_ms _ _ _ Hc) Hg' Hf).
  - apply read_write_trap_cx; [|done]. by apply (user_frame_length m' child a' TRAP_VPN).
  - apply (user_step_frame child m' m1 ks ka St Hks). intros y Hy Hy'%Hsub. by apply (Hkx y).
Qed.

(** When the parent then writes its own trap context. *)
Lemma copied_parent m user a child a' f f' cx ks ka m' m'' : copied m user a child a' f' cx ks ka m' ->
  user_ok m user a -> data_frame user TRAP_VPN f -> user_step user m' m'' -> (forall y, y <> f -> page m'' y = page m' y) ->
  user_ok m'' child a' /\
  forall ptr len, user_range user ptr len -> ptr + len <= TRAP_CONTEXT_va ->
    user_bytes m'' a ptr len = user_bytes m a ptr len /\ user_bytes m'' a' ptr len = user_bytes m a ptr len.
Proof.
  intros [_ Hc Hx Hs Hk Hp Hf' _ _ _ _] Hu Hf St Hm. destruct (data_frame_footprint _ _ _ Hf) as [_ Hff].
  assert (Hc2 : user_ok m'' child a').
  { split; [|apply Hc]. apply (user_step_frame user m' m'' child a' St (uo_ms _ _ _ Hc)). intros y Hy Hy'. apply (Hx y); [|done]. apply elem_of_app. by right. }
  split; [exact Hc2|]. intros ptr len Hr Hle. split.
  - apply (user_bytes_kept m m'' user a f); try done. intros y Hy Hne. rewrite Hm by done. by apply Hk.
  - apply (user_bytes_copy m m'' user child a a'); try done. intros vpn g g' Hv Hg Hg'. rewrite Hm; [by apply (Hp vpn)|].
    intros ->. apply (Hx f Hff). by apply (data_frame_footprint _ _ _ Hg').
Qed.

(** Only the pages of the stack of [n] are new in the kernel's space. *)
Definition other_stacks (n : Z) (ka ka' : gmap Z Z) : Prop := forall w, w <> stack_vpn n -> w <> stack_vpn n + 1 -> ka' !! w = ka !! w.

Lemma KernelStack_new_run n ks m ka : ms_ok m ks ka -> 0 <= n < MAX_STACKS -> ka !! stack_vpn n = None -> ka !! (stack_vpn n + 1) = None ->
  (6 <= fa_avail (falloc m))%nat ->
  exists ks' m' ka', KernelStack_new n ks m = Ret ks' m' /\ ms_ok m' ks' ka' /\ frame_step m (footprint ks) m' (footprint ks') /\
    other_stacks n ka ka' /\ (fa_avail (falloc m) <= 6 + fa_avail (falloc m'))%nat.
Proof.
  intros Hks Hn H0 H1 Hav. rewrite KernelStack_new_push by done. assert (MAX_STACKS = 22369620) as EM by done. rewrite EM in Hn.
  pose proof (push_framed m ks ka (stack_area n) Hks eq_refl ltac:(vm_compute; split; congruence)) as Hp.
  cbn [vpn_range range_l range_r stack_area] in Hp. unfold stack_vpn in *. specialize (Hp ltac:(lia) ltac:(lia) eq_refl).
  destruct (push ks (stack_area n) None m) as [ks' m'|[]]; try done.
  - destruct Hp as (A & ka' & Hf & _ & Hks' & Hst & _ & _ & Hav'). exists ks', m', ka'. split_and!; try done; [|lia].
    intros w Hw0 Hw1. apply (fr_out _ _ _ _ _ Hf). unfold in_area. cbn. unfold stack_vpn in *. lia.
  - lia.
  - destruct Hp as (w & Hw & Hne). unfold in_area in Hw. cbn in Hw. unfold stack_vpn in Hw.
    assert (w = 2 ^ 27 - 1 - 3 * n - 2 \/ w = 2 ^ 27 - 1 - 3 * n - 2 + 1) as [-> | ->] by lia; done.
Qed.

(** What a fork needs of the kernel and of the process [p]. *)
Record can_fork k (p : nat) (b : ProcessControlBlock) a ka (f n : Z) (pids' : PidAllocator) : Prop := {
  cf_block : heap k !! p = Some b;
  cf_user : user_ok (kmem k) (memory_set (space b)) a;
  cf_trampoline : Forall (fun A => ~ in_area A TRAMPOLINE_VPN) (areas (memory_set (space b)));
  cf_frame : data_frame (memory_set (space b)) TRAP_VPN f;
  cf_kernel : ms_ok (kmem k) (kernel_space k) ka;
  cf_apart y : y ∈ footprint (kernel_space k) -> y ∉ footprint (memory_set (space b));
  cf_strampoline : b_strampoline env mod PAGE_SIZE = 0;
  cf_pid : PidAllocator_alloc (pids k) = (n, pids');
  cf_range : 0 <= n < MAX_STACKS;
  cf_stack : ka !! stack_vpn n = None /\ ka !! (stack_vpn n + 1) = None;
  cf_frames : (9 + 3 * total_pages (areas (memory_set (space b))) <= fa_avail (falloc (kmem k)))%nat;
}.

(** What the process does to its own memory leaves it able to fork. *)
Lemma can_fork_step k p b a ka f n pids' m' : can_fork k p b a ka f n pids' -> user_step (memory_set (space b)) (kmem k) m' ->
  can_fork (set_kmem m' k) p b a ka f n pids'.
Proof.
  intros [Hb Hu Htr Hf Hk Hap Hst Hpid Hr Hs Hav] St. split; try done.
  - by apply (user_step_ok _ (kmem k)).
  - apply (user_step_frame _ (kmem k) m' _ ka St Hk). intros y Hy Hy'. apply (Hap y Hy), elem_of_app. by right.
  - cbn. by rewrite (us_falloc _ _ _ St).
Qed.

Definition fork_kernel k (p : nat) (b : ProcessControlBlock) (n : Z) pids' child f' ks m' : kernel T :=
  let c := fresh (dom (heap k)) in
  Build_kernel (<[p := set_children (children (family b) ++ [c]) b]> (<[c := child_block env p b n child f']> (heap k)))
    (initproc k) (manager k) (pid2pcb k) (running k) pids' ks m'.

(** The memory side of a fork. *)
Lemma fork_memory k p b a ka f n pids' : can_fork k p b a ka f n pids' ->
  let user := memory_set (space b) in
  exists child m1 a' f' pte ks m2 ka', from_existed_user (b_strampoline env) user (kmem k) = Ret child m1 /\
    MemorySet_translate child TRAP_VPN m1 = Ret (Some pte) m1 /\ PageTableEntry.ppn pte = f' /\
    KernelStack_new n (kernel_space k) m1 = Ret ks m2 /\
    copied (kmem k) user a child a' f' (set_kernel_sp (KernelStack_top n) (read_trap_cx f (kmem k))) ks ka'
      (write_trap_cx f' (set_kernel_sp (KernelStack_top n) (read_trap_cx f' m2)) m2).
Proof.
  intros [Hb Hu Htr Hf Hk Hap Hst Hpid Hr [Hs0 Hs1] Hav] user.
  destruct (from_existed_run (b_strampoline env) (kmem k) user a (uo_ms _ _ _ Hu) (uo_framed _ _ _ Hu) Htr Hst ltac:(unfold user; lia))
    as (child & m1 & a' & E1 & Hu1 & Hc1 & Hx1 & Hsame & Hp1 & Hcopy & Htp & S1 & Hav1).
  pose proof (framed_copy _ _ (uo_framed _ _ _ Hu) Hsame) as HFc.
  assert (Huc1 : user_ok m1 child a') by by split.
  destruct (data_frame_copy _ _ _ _ _ _ _ _ Hu Huc1 Hsame Hf) as [f' Hf'].
  destruct (translate_data m1 child a' TRAP_VPN f' Hc1 HFc Hf') as (pte & E2 & Hpte).
  destruct (ms_ok_step (kmem k) [] m1 _ _ ka Hk S1 ltac:(set_solver)) as (Hk1 & Hkx & _).
  destruct (KernelStack_new_run n (kernel_space k) m1 ka Hk1 Hr Hs0 Hs1 ltac:(unfold user in *; lia)) as (ks & m2 & ka' & E3 & Hk2 & S2 & _).
  destruct (ms_ok_step m1 _ m2 _ user a Hu1 S2 ltac:(intros y Hy Hy'; by apply (Hap y))) as (Hu2 & Hux & Hup).
  destruct (ms_ok_step m1 _ m2 _ child a' Hc1 S2 ltac:(intros y Hy Hy'; by apply (Hkx y))) as (Hc2 & Hcx & Hcp).
  exists child, m1, a', f', pte, ks, m2, ka'. split_and!; try done.
  assert (Hcu : user_ok m2 child a') by by split. assert (Huu : user_ok m2 user a) by by split; [|apply Hu].
  pose proof (user_frame_length m2 child a' _ f' Hcu Hf') as Hl.
  assert (E : page m2 f' = page (kmem k) f) by (rewrite Hcp by apply (data_frame_footprint _ _ _ Hf'); by apply (Hcopy TRAP_VPN)).
  assert (Ecx : read_trap_cx f' m2 = read_trap_cx f (kmem k)) by (unfold read_trap_cx; by rewrite E). rewrite <- Ecx.
  apply (copied_write _ _ _ _ _ _ (read_trap_cx f' m2)); [|by apply read_trap_cx_length]. split; try done.
  - intros y Hy. by rewrite Hup, Hp1.
  - intros vpn g g' Hv Hg Hg'. rewrite Hcp by apply (data_frame_footprint _ _ _ Hg'). by apply (Hcopy vpn).
  - intros y Hy. split; intros Hy'; [by apply (Hux y)|by apply (Hcx y)].
Qed.

Lemma fresh_block k p b : heap k !! p = Some b -> fresh (dom (heap k)) <> p.
Proof. intros Hb E. apply (is_fresh (dom (heap k))). rewrite E. apply elem_of_dom. by rewrite Hb. Qed.

Lemma fork_run k p b a ka f n pids' : can_fork k p b a ka f n pids' ->
  exists child a' f' ks ka' m', fork env p k = Ret (fresh (dom (heap k))) (fork_kernel k p b n pids' child f' ks m') /\
    copied (kmem k) (memory_set (space b)) a child a' f' (set_kernel_sp (KernelStack_top n) (read_trap_cx f (kmem k))) ks ka' m'.
Proof.
  intros Hc. destruct (fork_memory k p b a ka f n pids' Hc) as (child & m1 & a' & f' & pte & ks & m2 & ka' & E1 & E2 & Hp & E3 & Hcp).
  eexists child, a', f', ks, ka', _. split; [|exact Hcp]. pose proof (cf_block _ _ _ _ _ _ _ _ Hc) as Hb. pose proof (cf_pid _ _ _ _ _ _ _ _ Hc) as En.
  unfold fork. rewrite (bind_Ret _ _ _ _ _ (deref_run k p b Hb)). rewrite (on_mem_bind _ _ k _ _ E1).
  rewrite (bind_Ret (VirtPageNum.from_va TRAP_CONTEXT_va) _ _ TRAP_VPN _ eq_refl).
  rewrite (on_mem_bind _ _ (set_kmem m1 k) _ _ E2), bind_unwrap. rewrite Hp. cbv zeta.
  assert (Ep : on_pids pid_alloc (set_kmem m1 k) = Ret n (set_pids pids' (set_kmem m1 k))).
  { unfold on_pids, zoom, pid_alloc. cbn [pids set_kmem]. by rewrite En. }
  rewrite (bind_Ret _ _ _ _ _ Ep), bind_get. change (kernel_space (set_pids _ _)) with (kernel_space k).
  rewrite (on_mem_bind _ _ (set_pids pids' (set_kmem m1 k)) _ _ E3), bind_modify, bind_get, bind_modify.
  erewrite (bind_Ret (update _ _)); [|apply update_run with (b := b); cbn; rewrite lookup_insert_ne; [exact Hb|by apply (fresh_block k p b)]].
  unfold bind, modify, ret. reflexivity.
Qed.

(** *** [sys_fork] *)

Definition forked_kernel k (p : nat) (b : ProcessControlBlock) (n : Z) pids' child f' ks q m' : kernel T :=
  let c := fresh (dom (heap k)) in
  Build_kernel (<[p := set_children (children (family b) ++ [c]) b]> (<[c := child_block env p b n child f']> (heap k)))
    (initproc k) (set_queues (<[0%nat := q ++ [c]]> (ready_queues (manager k))) (manager k)) (<[n := c]> (pid2pcb k)) (running k) pids' ks m'.

Lemma sys_fork_run k p b a ka f n pids' : can_fork k p b a ka f n pids' -> running k = Some p -> manager_ok (manager k) ->
  exists child a' f' ks ka' q m', sys_fork env k = Ret n (forked_kernel k p b n pids' child f' ks q m') /\
    ready_queues (manager k) !! 0%nat = Some q /\
    copied (kmem k) (memory_set (space b)) a child a' f' (set_x10 0 (set_kernel_sp (KernelStack_top n) (read_trap_cx f (kmem k)))) ks ka' m'.
Proof.
  intros Hc Hr Hm. destruct (fork_run k p b a ka f n pids' Hc) as (child & a' & f' & ks & ka' & m1 & E & Hcp).
  set (c := fresh (dom (heap k))) in E. set (k1 := fork_kernel _ _ _ _ _ _ _ _ _) in E.
  pose proof (fresh_block k p b (cf_block _ _ _ _ _ _ _ _ Hc)) as Hpc. fold c in Hpc.
  assert (Hk1 : heap k1 !! c = Some (child_block env p b n child f')) by (cbn; by rewrite lookup_insert_ne, lookup_insert_eq).
  set (k2 := set_kmem (write_trap_cx f' (set_x10 0 (read_trap_cx f' (kmem k1))) (kmem k1)) k1).
  destruct (add_process_run k2 c _ 0 Hm ltac:(lia) Hk1) as (i & q & -> & Eq & _ & Ea).
  set (cx := set_kernel_sp _ _) in *.
  assert (Hcp' : copied (kmem k) (memory_set (space b)) a child a' f' (set_x10 0 cx) ks ka' (write_trap_cx f' (set_x10 0 (read_trap_cx f' m1)) m1)).
  { rewrite (cp_cx _ _ _ _ _ _ _ _ _ _ Hcp). apply (copied_write _ _ _ _ _ _ cx); [exact Hcp|]. cbn. rewrite length_insert. apply read_trap_cx_length.
    exact (user_frame_length _ _ _ _ _ (cf_user _ _ _ _ _ _ _ _ Hc) (cf_frame _ _ _ _ _ _ _ _ Hc)). }
  exists child, a', f', ks, ka', q. eexists. split; [|split; [exact Eq|exact Hcp']].
  unfold sys_fork. rewrite (bind_Ret _ _ _ (Some p) k) by (unfold current_process; by rewrite Hr). rewrite bind_unwrap.
  rewrite (bind_Ret _ _ _ _ _ E). rewrite (bind_Ret _ _ _ _ _ (deref_run k1 c _ Hk1)), bind_modify.
  change (trap_cx_ppn _) with f'. fold k2. unfold add_process. rewrite (bind_Ret _ _ _ _ _ Ea).
  pose proof (cf_range _ _ _ _ _ _ _ _ Hc). assert (MAX_STACKS = 22369620) as EM by done. unfold ret. rewrite as_isize_small by (cbn; lia). reflexivity.
Qed.
End fork_spec.
