(* ===== verification/Trampoline.v ===== *)
(** Between user and kernel mode: [os/src/trap/trap.S] and the functions of
    [os/src/trap/mod.rs] around it.

    The assembly is a list of instructions that run on the registers of the hart
    and on memory through the page table [satp] names; fetching an instruction
    translates its address too, so that a switch of address spaces between two
    instructions is safe only if both map the trampoline page to the same frame. *)
From S2P Require Import Prelude Address FrameAllocator PageTable UserBytes Pid MemorySet UserSpace UserMem ElfLoad Process Lifecycle Signal ExecSpec ForkSpec.

(** ** The hart *)

Inductive csr := Sscratch | Sstatus | Sepc | Satp | Stvec | Sie.
#[export] Instance csr_eq_dec : EqDecision csr.
Proof. solve_decision. Defined.
Record hart := { gpr : list Z; csrs : csr -> Z; pc : Z; user_mode : bool }.
Record machine (T : Type) := { cpu : hart; ram : mem T }.
Arguments cpu {T} _.
Arguments ram {T} _.
Arguments Build_machine {T} _ _.

Definition xget (r : nat) (h : hart) : Z := match r with O => 0 | _ => default 0 (gpr h !! r) end.
Definition xset (r : nat) (v : Z) (h : hart) : hart :=
  match r with O => h | _ => {| gpr := <[r := v]> (gpr h); csrs := csrs h; pc := pc h; user_mode := user_mode h |} end.
Definition cset (c : csr) (v : Z) (h : hart) : hart :=
  {| gpr := gpr h; csrs := fun d => if decide (c = d) then v else csrs h d; pc := pc h; user_mode := user_mode h |}.
Definition set_pc (v : Z) (h : hart) : hart := {| gpr := gpr h; csrs := csrs h; pc := v; user_mode := user_mode h |}.
(** [sret]: to [sepc], in the mode the bit [SPP] holds. *)
Definition sret (h : hart) : hart :=
  {| gpr := gpr h; csrs := csrs h; pc := csrs h Sepc; user_mode := negb (Z.testbit (csrs h Sstatus) 8) |}.

Inductive instr :=
  | Sd (rs : nat) (off : Z) (rb : nat) | Ld (rd : nat) (off : Z) (rb : nat)
  | Csrrw (rd : nat) (c : csr) (rs : nat) | Csrr (rd : nat) (c : csr) | Csrw (c : csr) (rs : nat)
  | Mv (rd rs : nat) | SfenceVma | Jr (rs : nat) | Sret.

(** Registers by their names. *)
Module Reg.
Definition sp : nat := 2.
Definition t0 : nat := 5.
Definition t1 : nat := 6.
Definition t2 : nat := 7.
Definition a0 : nat := 10.
Definition a1 : nat := 11.
End Reg.
Import Reg.

(** ** [trap.S] *)

Definition SAVE_GP (n : nat) : instr := Sd n (Z.of_nat n * 8) sp.
Definition LOAD_GP (n : nat) : instr := Ld n (Z.of_nat n * 8) sp.
Definition __alltraps : list instr :=
  [Csrrw sp Sscratch sp; Sd 1 (1 * 8) sp; Sd 3 (3 * 8) sp] ++ (SAVE_GP <$> seq 5 27) ++
  [Csrr t0 Sstatus; Csrr t1 Sepc; Sd t0 (32 * 8) sp; Sd t1 (33 * 8) sp; Csrr t2 Sscratch; Sd t2 (2 * 8) sp;
   Ld t0 (34 * 8) sp; Ld t1 (36 * 8) sp; Ld sp (35 * 8) sp; Csrw Satp t0; SfenceVma; Jr t1].
Definition __restore : list instr :=
  [Csrw Satp a1; SfenceVma; Csrw Sscratch a0; Mv sp a0; Ld t0 (32 * 8) sp; Ld t1 (33 * 8) sp; Csrw Sstatus t0; Csrw Sepc t1;
   Ld 1 (1 * 8) sp; Ld 3 (3 * 8) sp] ++ (LOAD_GP <$> seq 5 27) ++ [Ld sp (2 * 8) sp; Sret].
Definition trampoline_code : list instr := __alltraps ++ __restore.

Section machine.
Context {T : Type} `{FrameAllocator T}.
(** Where the linker puts the page and, within it, the assembler each instruction. *)
Context (strampoline : Z) (addr : nat -> Z).

(** The frame and the word of a virtual address; a page fault ends the run. *)
Definition mmu (satp va : Z) : M (mem T) (Z * Z) :=
  let! o := translate_va (from_token satp) (VirtAddr.from_usize va) in
  let! pa := unwrap o in ret (pa / PAGE_SIZE, pa mod PAGE_SIZE / 8).
Definition load64 (satp va : Z) : M (mem T) Z := let! '(p, i) := mmu satp va in pte_get p i.
Definition store64 (satp va v : Z) : M (mem T) unit := let! '(p, i) := mmu satp va in pte_set p i v.

Definition on_ram {A} (m : M (mem T) A) : M (machine T) A := zoom ram (fun x s => Build_machine (cpu s) x) m.
Definition on_cpu (f : hart -> hart) : M (machine T) unit := modify (fun s => Build_machine (f (cpu s)) (ram s)).

(** The address of instruction [i] in the trampoline page. *)
Definition code_va (i : nat) : Z := u64 (TRAMPOLINE + addr i).
Definition fetch (i : nat) : M (machine T) unit :=
  let! s := get in
  let! o := on_ram (translate_va (from_token (csrs (cpu s) Satp)) (VirtAddr.from_usize (pc (cpu s)))) in
  let! pa := unwrap o in
  assert (pa =? strampoline + addr i).

Definition exec_instr (i : nat) (ins : instr) : M (machine T) unit :=
  let! s := get in
  let h := cpu s in
  let satp := csrs h Satp in
  match ins with
  | Sd rs off rb => on_ram (store64 satp (u64 (xget rb h + off)) (xget rs h)) ;;; on_cpu (set_pc (code_va (S i)))
  | Ld rd off rb =>
      let! v := on_ram (load64 satp (u64 (xget rb h + off))) in on_cpu (fun h => set_pc (code_va (S i)) (xset rd v h))
  | Csrrw rd c rs => on_cpu (fun h => set_pc (code_va (S i)) (xset rd (csrs h c) (cset c (xget rs h) h)))
  | Csrr rd c => on_cpu (fun h => set_pc (code_va (S i)) (xset rd (csrs h c) h))
  | Csrw c rs => on_cpu (fun h => set_pc (code_va (S i)) (cset c (xget rs h) h))
  | Mv rd rs => on_cpu (fun h => set_pc (code_va (S i)) (xset rd (xget rs h) h))
  | SfenceVma => on_cpu (set_pc (code_va (S i)))
  | Jr rs => on_cpu (fun h => set_pc (xget rs h) h)
  | Sret => on_cpu sret
  end.

(** [code] from its instruction number [i] of the page on. *)
Fixpoint run_asm (i : nat) (code : list instr) : M (machine T) unit :=
  match code with
  | [] => ret tt
  | ins :: code => fetch i ;;; exec_instr i ins ;;; run_asm (S i) code
  end.

(** The symbols of the two entry points. *)
Definition sym_alltraps : Z := strampoline + addr 0.
Definition sym_restore : Z := strampoline + addr (length __alltraps).

(** ** [os/src/trap/mod.rs] *)

Definition set_user_trap_entry (h : hart) : hart := cset Stvec TRAMPOLINE h.
Definition set_kernel_trap_entry (trap_from_kernel : Z) (h : hart) : hart := cset Stvec trap_from_kernel h.
Definition enable_timer_interrupt (h : hart) : hart := cset Sie (Z.lor (csrs h Sie) (Z.shiftl 1 5)) h.
Definition trap_init (trap_from_kernel : Z) (h : hart) : hart := enable_timer_interrupt (set_kernel_trap_entry trap_from_kernel h).

(** [MemorySet::activate] of [os/src/mm/memory_set.rs]. *)
Definition activate (ms : MemorySet) (h : hart) : hart := cset Satp (MemorySet_token ms) h.

(** Up to the jump: the arguments of [__restore] and its address in the trampoline page. *)
Definition trap_return (user_satp : Z) (h : hart) : hart :=
  let h := set_user_trap_entry h in
  let restore_va := u64 (u64 (sym_restore - sym_alltraps) + TRAMPOLINE) in
  set_pc restore_va (xset a1 user_satp (xset a0 TRAP_CONTEXT h)).
End machine.

(** ** Running the assembly *)

Section trap_run.
Context {T : Type} `{FAL : FrameAllocatorLaws T} (strampoline : Z) (addr : nat -> Z).
Context (Haddr : forall i, 0 <= addr i < PAGE_SIZE) (Hst : strampoline mod PAGE_SIZE = 0) (Hst0 : 0 <= strampoline < 2 ^ 56).
Implicit Types (m : mem T) (ms ks : MemorySet) (a : gmap Z Z) (h : hart) (words : list Z).

(** A user space and the kernel's, both with the trampoline page; [f] holds the trap context. *)
Record spaces m ms a ks ka f : Prop := {
  sp_user : user_ok m ms a;
  sp_frame : data_frame ms TRAP_VPN f;
  sp_tramp : a !! TRAMPOLINE_VPN = Some (trampoline_pte strampoline);
  sp_kernel : ms_ok m ks ka;
  sp_ktramp : ka !! TRAMPOLINE_VPN = Some (trampoline_pte strampoline);
  sp_apart : f ∉ footprint ks;
}.

Lemma trampoline_translate m pt a i : represents m pt a -> a !! TRAMPOLINE_VPN = Some (trampoline_pte strampoline) ->
  translate_va (from_token (token pt)) (VirtAddr.from_usize (code_va addr i)) m = Ret (Some (strampoline + addr i)) m.
Proof.
  intros Hrep Ha. specialize (Haddr i). rewrite va_from_usize_mod.
  assert (E : code_va addr i mod 2 ^ 39 = TRAMPOLINE_VPN * PAGE_SIZE + addr i).
  { unfold code_va. change TRAMPOLINE with (2 ^ 64 - 4096). unfold PAGE_SIZE, TRAMPOLINE_VPN in *. rewrite u64_small by lia.
    replace (2 ^ 64 - 4096 + addr i) with ((2 ^ 27 - 1) * 4096 + addr i + (2 ^ 25 - 1) * 2 ^ 39) by lia. rewrite Z.mod_add by done. apply Z.mod_small. lia. }
  rewrite E. assert (Ed : (TRAMPOLINE_VPN * PAGE_SIZE + addr i) / PAGE_SIZE = TRAMPOLINE_VPN) by (rewrite Z.div_add_l by done; rewrite Z.div_small by done; lia).
  rewrite <- Ed in Ha.
  assert (Hb : 0 <= TRAMPOLINE_VPN * PAGE_SIZE + addr i < 2 ^ 39) by (unfold TRAMPOLINE_VPN, PAGE_SIZE in *; lia).
  rewrite (translate_va_mapped m pt a _ _ Hrep Hb Ha). unfold pa_of. rewrite Ha.
  change (default 0 (Some ?e)) with e. unfold trampoline_pte, leaf_pte. rewrite Z.mod_small by done.
  rewrite pte_new_ppn; [|unfold PAGE_SIZE; Z.to_euclidean_division_equations; lia|vm_compute; intuition congruence].
  assert (Em : (TRAMPOLINE_VPN * PAGE_SIZE + addr i) mod PAGE_SIZE = addr i) by (rewrite Z.add_comm, Z.mod_add by done; by apply Z.mod_small).
  rewrite Em. do 2 f_equal. pose proof (Z.div_mod strampoline PAGE_SIZE ltac:(done)). lia.
Qed.

(** The words of the trap context through the user's page table. *)
Definition word_va (n : nat) : Z := u64 (TRAP_CONTEXT + Z.of_nat n * 8).
Lemma mmu_word m ms a f n : user_ok m ms a -> data_frame ms TRAP_VPN f -> (n < 512)%nat ->
  mmu (MemorySet_token ms) (word_va n) m = Ret (f, Z.of_nat n) m.
Proof.
  intros Hu Hf Hn. unfold mmu. rewrite va_from_usize_mod.
  assert (E : word_va n mod 2 ^ 39 = TRAP_VPN * PAGE_SIZE + Z.of_nat n * 8).
  { unfold word_va. change TRAP_CONTEXT with (2 ^ 64 - 8192). unfold TRAP_VPN, PAGE_SIZE. rewrite u64_small by lia.
    replace (2 ^ 64 - 8192 + Z.of_nat n * 8) with ((2 ^ 27 - 2) * 4096 + Z.of_nat n * 8 + (2 ^ 25 - 1) * 2 ^ 39) by lia. rewrite Z.mod_add by done. apply Z.mod_small. lia. }
  rewrite E. set (va := TRAP_VPN * PAGE_SIZE + _).
  assert (Ed : va / PAGE_SIZE = TRAP_VPN) by (unfold va; rewrite Z.div_add_l by done; rewrite Z.div_small by (unfold PAGE_SIZE; lia); lia).
  assert (Em : va mod PAGE_SIZE = Z.of_nat n * 8) by (unfold va; rewrite Z.add_comm, Z.mod_add by done; apply Z.mod_small; unfold PAGE_SIZE; lia).
  assert (Hf' : data_frame ms (va / PAGE_SIZE) f) by by rewrite Ed.
  destruct (pa_of_data m ms a va f Hu Hf') as ([e He] & Hpa & Hpd).
  assert (Hb : 0 <= va < 2 ^ 39) by (unfold va, TRAP_VPN, PAGE_SIZE; lia).
  unfold MemorySet_token. rewrite (bind_Ret _ _ _ _ _ (translate_va_mapped m _ a va e (ms_rep _ _ _ (uo_ms _ _ _ Hu)) Hb He)), bind_unwrap.
  unfold ret. rewrite Hpd, Hpa, Em.
  assert (Ew : (f * PAGE_SIZE + Z.of_nat n * 8) mod PAGE_SIZE = Z.of_nat n * 8) by (rewrite Z.add_comm, Z.mod_add by done; apply Z.mod_small; unfold PAGE_SIZE; lia).
  by rewrite Ew, Z.div_mul.
Qed.

Lemma spaces_set_page m ms a ks ka f words : spaces m ms a ks ka f -> length words = WORDS_PER_PAGE -> spaces (set_page f words m) ms a ks ka f.
Proof.
  intros [Hu Hf Htp Hk Hkt Hx] Hl. destruct (data_frame_footprint _ _ _ Hf) as [Hfa _].
  assert (St : user_step ms m (set_page f words m)) by (apply set_page_user; [done|]; by rewrite (user_frame_length m ms a TRAP_VPN f)).
  split; try done; [by apply (user_step_ok ms m)|].
  apply (ms_ok_frame m); [done|apply (represents_live _ _ _ (ms_rep _ _ _ Hk))|]. intros y Hy. split.
  - pose proof (ms_live _ _ _ Hk) as HL. rewrite Forall_forall in HL. by apply HL.
  - apply page_set_ne. by intros <-.
Qed.

(** *** What must hold for the instructions to run *)

(** [words] is the page of the trap context, [ut] and [kt] the tokens of the two
    spaces.  An access needs the user's page table and the base of the page. *)
Definition word_of (off : Z) : nat := Z.to_nat (off / 8).
Definition word_ok (off : Z) : bool := (0 <=? off) && (off <? 4096) && (off mod 8 =? 0).
Fixpoint wp (ut kt : Z) (i : nat) (code : list instr) h words (Q : hart -> list Z -> Prop) : Prop :=
  match code with
  | [] => Q h words
  | ins :: code =>
      (csrs h Satp = ut \/ csrs h Satp = kt) /\ pc h = code_va addr i /\
      let next h := set_pc (code_va addr (S i)) h in
      match ins with
      | Sd rs off rb => csrs h Satp = ut /\ xget rb h = TRAP_CONTEXT /\ word_ok off = true /\
          wp ut kt (S i) code (next h) (<[word_of off := xget rs h]> words) Q
      | Ld rd off rb => csrs h Satp = ut /\ xget rb h = TRAP_CONTEXT /\ word_ok off = true /\
          wp ut kt (S i) code (next (xset rd (default 0 (words !! word_of off)) h)) words Q
      | Csrrw rd c rs => wp ut kt (S i) code (next (xset rd (csrs h c) (cset c (xget rs h) h))) words Q
      | Csrr rd c => wp ut kt (S i) code (next (xset rd (csrs h c) h)) words Q
      | Csrw c rs => wp ut kt (S i) code (next (cset c (xget rs h) h)) words Q
      | Mv rd rs => wp ut kt (S i) code (next (xset rd (xget rs h) h)) words Q
      | SfenceVma => wp ut kt (S i) code (next h) words Q
      | Jr rs => wp ut kt (S i) code (set_pc (xget rs h) h) words Q
      | Sret => wp ut kt (S i) code (sret h) words Q
      end
  end.
Definition stores (code : list instr) : bool := existsb (fun ins => match ins with Sd _ _ _ => true | _ => false end) code.

(** Memory after the run: untouched, or with a new page for the trap context. *)
Definition ram_is (m : mem T) f (dirty : bool) words (m' : mem T) : Prop :=
  if dirty then m' = set_page f words m else m' = m /\ words = page m f.

Lemma fetch_step m ms a ks ka f i h : spaces m ms a ks ka f -> csrs h Satp = MemorySet_token ms \/ csrs h Satp = MemorySet_token ks ->
  pc h = code_va addr i -> fetch strampoline addr i (Build_machine h m) = Ret tt (Build_machine h m).
Proof.
  intros [Hu _ Htp Hk Hkt _] Hs Hpc. unfold fetch. rewrite bind_get. cbn [cpu]. rewrite Hpc. unfold on_ram.
  assert (E : translate_va (from_token (csrs h Satp)) (VirtAddr.from_usize (code_va addr i)) m = Ret (Some (strampoline + addr i)) m)
    by (destruct Hs as [-> | ->]; [by apply (trampoline_translate m _ a _ (ms_rep _ _ _ (uo_ms _ _ _ Hu)))|by apply (trampoline_translate m _ ka _ (ms_rep _ _ _ Hk))]).
  unfold bind at 1, zoom. cbn [ram]. rewrite E, bind_unwrap. by rewrite Z.eqb_refl.
Qed.

Lemma word_ok_spec off : word_ok off = true -> off = Z.of_nat (word_of off) * 8 /\ (word_of off < 512)%nat.
Proof.
  unfold word_ok, word_of. rewrite !andb_true_iff, Z.leb_le, Z.ltb_lt, Z.eqb_eq. intros [[H1 H2] H3].
  split; Z.to_euclidean_division_equations; lia.
Qed.

Lemma load_run m ms a f off : user_ok m ms a -> data_frame ms TRAP_VPN f -> word_ok off = true ->
  load64 (MemorySet_token ms) (u64 (TRAP_CONTEXT + off)) m = Ret (default 0 (page m f !! word_of off)) m.
Proof.
  intros Hu Hf Ho. destruct (word_ok_spec off Ho) as [E Hn]. rewrite E at 1. unfold load64.
  pose proof (user_frame_length m ms a TRAP_VPN f Hu Hf) as Hl.
  rewrite (bind_Ret _ _ _ _ _ (mmu_word m ms a f (word_of off) Hu Hf Hn)). rewrite pte_get_run; [|exact Hl|unfold idx_ok; lia].
  unfold pte_at, vget. rewrite Hl. change (Z.of_nat WORDS_PER_PAGE) with 512.
  rewrite (proj2 (Z.leb_le 0 _)), (proj2 (Z.ltb_lt _ 512)) by lia. by rewrite Nat2Z.id.
Qed.
Lemma store_run m ms a f off v : user_ok m ms a -> data_frame ms TRAP_VPN f -> word_ok off = true ->
  store64 (MemorySet_token ms) (u64 (TRAP_CONTEXT + off)) v m = Ret tt (set_page f (<[word_of off := v]> (page m f)) m).
Proof.
  intros Hu Hf Ho. destruct (word_ok_spec off Ho) as [E Hn]. rewrite E at 1. unfold store64.
  rewrite (bind_Ret _ _ _ _ _ (mmu_word m ms a f (word_of off) Hu Hf Hn)). pose proof (user_frame_length m ms a TRAP_VPN f Hu Hf) as Hl.
  unfold pte_set, index_set. rewrite bind_get. unfold vset. rewrite Hl. change (Z.of_nat WORDS_PER_PAGE) with 512.
  rewrite (proj2 (Z.leb_le 0 _)), (proj2 (Z.ltb_lt _ 512)) by lia. by rewrite Nat2Z.id.
Qed.

(** The page and what memory is after an instruction. *)
Lemma ram_is_page m f dirty words m' : ram_is m f dirty words m' -> page m' f = words.
Proof. destruct dirty; [intros ->; apply page_set_eq|by intros [-> ->]]. Qed.
Lemma ram_is_spaces m ms a ks ka f dirty words m' : spaces m ms a ks ka f -> length words = WORDS_PER_PAGE -> ram_is m f dirty words m' -> spaces m' ms a ks ka f.
Proof. intros Hs Hl. destruct dirty; [intros ->; by apply spaces_set_page|by intros [-> _]]. Qed.
Lemma ram_is_store m f dirty words m' w : ram_is m f dirty words m' -> ram_is m f true w (set_page f w m').
Proof. destruct dirty; [|by intros [-> _]]. intros ->. unfold ram_is, set_page. cbn. f_equal. apply insert_insert_eq. Qed.

Lemma step_cpu (g : hart -> hart) h m : on_cpu g (Build_machine h m) = Ret tt (Build_machine (g h) m).
Proof. done. Qed.

Lemma wp_sound m ms a ks ka f Q : spaces m ms a ks ka f ->
  forall code i h words dirty m', length words = WORDS_PER_PAGE -> ram_is m f dirty words m' ->
  wp (MemorySet_token ms) (MemorySet_token ks) i code h words Q ->
  exists h' words' m'', run_asm strampoline addr i code (Build_machine h m') = Ret tt (Build_machine h' m'') /\
    ram_is m f (dirty || stores code) words' m'' /\ Q h' words'.
Proof.
  intros Hsp. induction code as [|ins code IH]; intros i h words dirty m' Hl Hr Hwp.
  { exists h, words, m'. cbn. rewrite orb_false_r. done. }
  cbn [wp] in Hwp. destruct Hwp as (Hs & Hpc & Hwp). pose proof (ram_is_spaces _ _ _ _ _ _ _ _ _ Hsp Hl Hr) as Hsp'.
  pose proof (ram_is_page _ _ _ _ _ Hr) as Hpg. cbn [run_asm]. unfold bind at 1.
  rewrite (fetch_step m' ms a ks ka f i h Hsp' Hs Hpc). unfold bind at 1, exec_instr. rewrite bind_get. cbn [cpu].
  destruct ins; cbn [stores existsb orb].
  - destruct Hwp as (Hut & Hb & Ho & Hwp). rewrite Hut, Hb. unfold bind at 1, on_ram at 1, zoom. cbn [ram cpu].
    rewrite (store_run m' ms a f off _ (sp_user _ _ _ _ _ _ Hsp') (sp_frame _ _ _ _ _ _ Hsp') Ho), Hpg. rewrite step_cpu, orb_true_r.
    assert (Hl' : length (<[word_of off := xget rs h]> words) = WORDS_PER_PAGE) by by rewrite length_insert.
    exact (IH (S i) _ _ true _ Hl' (ram_is_store _ _ _ _ _ _ Hr) Hwp).
  - destruct Hwp as (Hut & Hb & Ho & Hwp). rewrite Hut, Hb. unfold bind at 1, on_ram at 1, zoom. cbn [ram cpu].
    rewrite (load_run m' ms a f off (sp_user _ _ _ _ _ _ Hsp') (sp_frame _ _ _ _ _ _ Hsp') Ho), Hpg. rewrite step_cpu.
    exact (IH (S i) _ _ dirty _ Hl Hr Hwp).
  - rewrite step_cpu. exact (IH (S i) _ _ dirty _ Hl Hr Hwp).
  - rewrite step_cpu. exact (IH (S i) _ _ dirty _ Hl Hr Hwp).
  - rewrite step_cpu. exact (IH (S i) _ _ dirty _ Hl Hr Hwp).
  - rewrite step_cpu. exact (IH (S i) _ _ dirty _ Hl Hr Hwp).
  - rewrite step_cpu. exact (IH (S i) _ _ dirty _ Hl Hr Hwp).
  - rewrite step_cpu. exact (IH (S i) _ _ dirty _ Hl Hr Hwp).
  - rewrite step_cpu. exact (IH (S i) _ _ dirty _ Hl Hr Hwp).
Qed.

(** *** Closed forms *)

(** The page after [__alltraps]: every slot but those of x0, tp and the kernel's words. *)
Definition saved_words (xs : list Z) (status epc usp : Z) words : list Z :=
  splice words 0 ([default 0 (words !! 0%nat); default 0 (xs !! 1%nat); usp; default 0 (xs !! 3%nat); default 0 (words !! 4%nat)] ++ drop 5 xs ++ [status; epc]).

Ltac wp_step Hs Hc :=
  split; [first [left; exact Hs | right; reflexivity | left; reflexivity]|split; [reflexivity|]];
  try (split; [first [exact Hs | reflexivity]|split; [first [exact Hc | reflexivity]|split; [reflexivity|]]]).

Lemma alltraps_wp ut kt xs (c0 : csr -> Z) um words Q :
  length xs = 32%nat -> length words = WORDS_PER_PAGE -> c0 Satp = ut -> c0 Sscratch = TRAP_CONTEXT -> words !! 34%nat = Some kt ->
  Q (set_pc (default 0 (words !! 36%nat)) (cset Satp kt (cset Sscratch (default 0 (xs !! 2%nat))
      {| gpr := <[Reg.sp := default 0 (words !! 35%nat)]> (<[Reg.t0 := kt]> (<[Reg.t1 := default 0 (words !! 36%nat)]> (<[Reg.t2 := default 0 (xs !! 2%nat)]> xs)));
         csrs := c0; pc := 0; user_mode := um |})))
    (saved_words xs (c0 Sstatus) (c0 Sepc) (default 0 (xs !! 2%nat)) words) ->
  wp ut kt 0 __alltraps {| gpr := xs; csrs := c0; pc := code_va addr 0; user_mode := um |} words Q.
Proof.
  intros Hx Hw Hs Hc H34. do 32 (destruct xs as [|? xs]; [discriminate Hx|]). destruct xs; [|discriminate Hx]. clear Hx.
  do 37 (destruct words as [|? words]; [discriminate Hw|]). injection H34 as ->. clear Hw.
  unfold saved_words, splice. intros HQ.
  lazy -[code_va TRAP_CONTEXT] in HQ. lazy -[code_va TRAP_CONTEXT].
  repeat wp_step Hs Hc. exact HQ.
Qed.

(** The registers after [__restore]. *)
Definition restored_regs (xs words : list Z) : list Z :=
  [default 0 (xs !! 0%nat); default 0 (words !! 1%nat); default 0 (words !! 2%nat); default 0 (words !! 3%nat); default 0 (xs !! 4%nat)] ++
  take 27 (drop 5 words).

Lemma restore_wp ut kt xs (c0 : csr -> Z) um words Q :
  length xs = 32%nat -> length words = WORDS_PER_PAGE -> c0 Satp = kt -> xs !! Reg.a0 = Some TRAP_CONTEXT -> xs !! Reg.a1 = Some ut ->
  Q (sret {| gpr := restored_regs xs words;
             csrs := csrs (cset Sepc (default 0 (words !! 33%nat)) (cset Sstatus (default 0 (words !! 32%nat))
               (cset Sscratch TRAP_CONTEXT (cset Satp ut {| gpr := []; csrs := c0; pc := 0; user_mode := um |}))));
             pc := 0; user_mode := um |}) words ->
  wp ut kt (length __alltraps) __restore {| gpr := xs; csrs := c0; pc := code_va addr (length __alltraps); user_mode := um |} words Q.
Proof.
  intros Hx Hw Hs Ha0 Ha1. do 32 (destruct xs as [|? xs]; [discriminate Hx|]). destruct xs; [|discriminate Hx]. clear Hx.
  do 37 (destruct words as [|? words]; [discriminate Hw|]). injection Ha0 as ->. injection Ha1 as ->. clear Hw.
  intros HQ. lazy -[code_va TRAP_CONTEXT] in HQ. lazy -[code_va TRAP_CONTEXT].
  split; [right; exact Hs|split; [reflexivity|]].
  repeat wp_step Hs Hs. exact HQ.
Qed.

(** *** Into the kernel and back *)

Context (Haddr0 : addr 0 = 0).

(** The registers of a hart in user mode, before the next trap. *)
Record user_hart ms h : Prop := {
  uh_regs : length (gpr h) = 32%nat;
  uh_satp : csrs h Satp = MemorySet_token ms;
  uh_sscratch : csrs h Sscratch = TRAP_CONTEXT;
  uh_stvec : csrs h Stvec = TRAMPOLINE;
}.

(** The trap context [__alltraps] leaves: x0 and tp have slots that are not written. *)
Definition saved_cx (cx : TrapContext) h : TrapContext :=
  {| tx := <[0%nat := default 0 (tx cx !! 0%nat)]> (<[4%nat := default 0 (tx cx !! 4%nat)]> (gpr h)); sstatus := csrs h Sstatus; sepc := csrs h Sepc;
     kernel_satp := kernel_satp cx; kernel_sp := kernel_sp cx; trap_handler := trap_handler cx |}.

Lemma saved_words_cx m f h : length (gpr h) = 32%nat -> length (page m f) = WORDS_PER_PAGE ->
  set_page f (saved_words (gpr h) (csrs h Sstatus) (csrs h Sepc) (default 0 (gpr h !! 2%nat)) (page m f)) m = write_trap_cx f (saved_cx (read_trap_cx f m) h) m.
Proof.
  unfold write_trap_cx, saved_cx, saved_words, read_trap_cx. intros Hx Hw. f_equal. cbn [tx sstatus sepc kernel_satp kernel_sp trap_handler].
  generalize dependent (gpr h). intros xs Hx. generalize dependent (page m f). intros words Hw.
  do 32 (destruct xs as [|? xs]; [discriminate Hx|]). destruct xs; [|discriminate Hx].
  do 37 (destruct words as [|? words]; [discriminate Hw|]). reflexivity.
Qed.

Lemma code_va_0 : code_va addr 0 = TRAMPOLINE.
Proof. unfold code_va. by rewrite Haddr0. Qed.

(** A trap sets the program counter to [stvec]. *)
Lemma alltraps_run m ms a ks ka f h : spaces m ms a ks ka f -> user_hart ms h -> kernel_satp (read_trap_cx f m) = MemorySet_token ks ->
  exists h1, let cx := read_trap_cx f m in
    run_asm strampoline addr 0 __alltraps (Build_machine (set_pc (csrs h Stvec) h) m) = Ret tt (Build_machine h1 (write_trap_cx f (saved_cx cx h) m)) /\
    csrs h1 Satp = MemorySet_token ks /\ xget Reg.sp h1 = kernel_sp cx /\ pc h1 = trap_handler cx /\ length (gpr h1) = 32%nat.
Proof.
  intros Hsp [Hx Hs Hsc Hv] Hks. pose proof (user_frame_length m ms a TRAP_VPN f (sp_user _ _ _ _ _ _ Hsp) (sp_frame _ _ _ _ _ _ Hsp)) as Hw.
  set (words := page m f) in *.
  assert (H34 : words !! 34%nat = Some (MemorySet_token ks)).
  { rewrite <- Hks. cbn. destruct (page m f !! 34%nat) as [w|] eqn:E; [exact E|]. apply lookup_ge_None in E. unfold words in Hw. rewrite Hw in E. unfold WORDS_PER_PAGE in E. lia. }
  destruct (wp_sound m ms a ks ka f _ Hsp __alltraps 0 _ words false m Hw ltac:(done)
    (alltraps_wp (MemorySet_token ms) (MemorySet_token ks) (gpr h) (csrs h) (user_mode h) words (fun h' w' => h' = _ /\ w' = _) Hx Hw Hs Hsc H34 ltac:(by split)))
    as (h1 & w1 & m1 & E & Hr & -> & ->).
  change (m1 = set_page f (saved_words (gpr h) (csrs h Sstatus) (csrs h Sepc) (default 0 (gpr h !! 2%nat)) words) m) in Hr.
  eexists. cbn zeta. split; [|split; [|split; [|split]]].
  - unfold words in Hr. rewrite (saved_words_cx m f h Hx Hw) in Hr. rewrite <- Hr. rewrite Hv, <- code_va_0. exact E.
  - reflexivity.
  - unfold xget. cbn [gpr set_pc cset Reg.sp]. rewrite list_lookup_insert_eq by (rewrite !length_insert, Hx; unfold Reg.sp; lia). reflexivity.
  - reflexivity.
  - cbn [gpr set_pc cset]. by rewrite !length_insert.
Qed.

Lemma restore_va : u64 (u64 (sym_restore strampoline addr - sym_alltraps strampoline addr) + TRAMPOLINE) = code_va addr (length __alltraps).
Proof.
  unfold sym_restore, sym_alltraps, code_va. rewrite Haddr0. pose proof (Haddr (length __alltraps)). unfold PAGE_SIZE in *.
  rewrite (u64_small (_ - _)) by lia. f_equal. lia.
Qed.

(** The hart [sret] leaves: the registers of the trap context, x0 and tp apart, in the mode [sstatus] names. *)
Record resumed (cx : TrapContext) ms h1 h2 : Prop := {
  rs_regs : forall r, (r < 32)%nat -> r <> 0%nat -> r <> 4%nat -> gpr h2 !! r = tx cx !! r;
  rs_tp : xget 4 h2 = xget 4 h1;
  rs_pc : pc h2 = sepc cx;
  rs_status : csrs h2 Sstatus = sstatus cx;
  rs_mode : user_mode h2 = negb (Z.testbit (sstatus cx) 8);
  rs_ready : user_hart ms h2;
}.

Lemma restored_resumed m f (xs : list Z) (c0 : csr -> Z) um ms h1 : length xs = 32%nat -> length (page m f) = WORDS_PER_PAGE ->
  xs !! 4%nat = gpr h1 !! 4%nat -> c0 Stvec = TRAMPOLINE ->
  resumed (read_trap_cx f m) ms h1
    (sret {| gpr := restored_regs xs (page m f);
             csrs := csrs (cset Sepc (default 0 (page m f !! 33%nat)) (cset Sstatus (default 0 (page m f !! 32%nat))
               (cset Sscratch TRAP_CONTEXT (cset Satp (MemorySet_token ms) {| gpr := []; csrs := c0; pc := 0; user_mode := um |}))));
             pc := 0; user_mode := um |}).
Proof.
  unfold read_trap_cx. generalize (page m f). intros words Hx Hw H4 Hv.
  do 37 (destruct words as [|? words]; [discriminate Hw|]). clear Hw.
  split; [|by cbn; rewrite <- H4; destruct (xs !! 4%nat)|done|done|done|by split].
  intros r Hr H0 Hr4. do 32 (destruct r as [|r]; [first [congruence|reflexivity]|]). lia.
Qed.

(** From the end of [trap_return] to the user's next instruction. *)
Lemma restore_run m ms a ks ka f h : spaces m ms a ks ka f -> length (gpr h) = 32%nat -> csrs h Satp = MemorySet_token ks ->
  exists h2, run_asm strampoline addr (length __alltraps) __restore (Build_machine (trap_return strampoline addr (MemorySet_token ms) h) m) = Ret tt (Build_machine h2 m) /\
    resumed (read_trap_cx f m) ms h h2.
Proof.
  intros Hsp Hx Hs. pose proof (user_frame_length m ms a TRAP_VPN f (sp_user _ _ _ _ _ _ Hsp) (sp_frame _ _ _ _ _ _ Hsp)) as Hw.
  set (xs := <[Reg.a1 := MemorySet_token ms]> (<[Reg.a0 := TRAP_CONTEXT]> (gpr h))).
  assert (Hxs : length xs = 32%nat) by (unfold xs; by rewrite !length_insert).
  assert (H0 : xs !! Reg.a0 = Some TRAP_CONTEXT) by (unfold xs; rewrite list_lookup_insert_ne, list_lookup_insert_eq by (done || (rewrite Hx; unfold Reg.a0; lia)); done).
  assert (H1 : xs !! Reg.a1 = Some (MemorySet_token ms)) by (unfold xs; rewrite list_lookup_insert_eq by (rewrite length_insert, Hx; unfold Reg.a1; lia); done).
  assert (H4 : xs !! 4%nat = gpr h !! 4%nat) by (unfold xs; by rewrite !list_lookup_insert_ne).
  destruct (wp_sound m ms a ks ka f _ Hsp __restore (length __alltraps) _ (page m f) false m Hw ltac:(done)
    (restore_wp (MemorySet_token ms) (MemorySet_token ks) xs (csrs (set_user_trap_entry h)) (user_mode h) (page m f) (fun h' w' => h' = _) Hxs Hw Hs H0 H1 ltac:(done)))
    as (h2 & w2 & m2 & E & Hr & ->).
  change (m2 = m /\ w2 = page m f) in Hr. destruct Hr as [-> ->].
  eexists. split; [|by apply (restored_resumed m f xs (csrs (set_user_trap_entry h)) (user_mode h) ms h)].
  unfold trap_return. rewrite restore_va. exact E.
Qed.
End trap_run.
