(* ===== verification/ProcessTree.v ===== *)
(** The process tree: an invariant of every history of process operations.

    The abstract view of a kernel state is the process's identifier, status,
    children and time slice, the queues, the identifier map and the running
    process.  The operations of [Process], [Lifecycle] and [Signal] are steps of
    one transition relation, and the invariant is shown by induction on it. *)
From S2P Require Import Prelude Address Recycle FrameAllocator PageTable UserBytes Pid MemorySet UserSpace Process Keeping Lifecycle Exec Signal.

(** ** The view *)

Record core := {
  c_pid : Z; c_status : ProcessStatus; c_children : list nat;
  c_priority : Z; c_used : Z; c_limit : Z;
}.
Definition core_of (b : ProcessControlBlock) : core :=
  {| c_pid := pid b; c_status := process_status (sched b); c_children := children (family b);
     c_priority := priority (sched b); c_used := time_slice_used (sched b);
     c_limit := time_slice_limit (sched b) |}.

Record tree := {
  t_cores : gmap nat core; t_init : nat; t_manager : ProcessManager; t_map : gmap Z nat;
  t_running : option nat; t_pids : PidAllocator;
}.
Definition tree_of {T} (k : kernel T) : tree :=
  {| t_cores := core_of <$> heap k; t_init := initproc k; t_manager := manager k;
     t_map := pid2pcb k; t_running := running k; t_pids := pids k |}.

Definition t_queue (t : tree) : list nat := mjoin (ready_queues (t_manager t)).
Definition crefs (cs : gmap nat core) : list nat := map_to_list cs ≫= fun pc => c_children pc.2.

Definition with_status (s : ProcessStatus) (c : core) : core :=
  {| c_pid := c_pid c; c_status := s; c_children := c_children c; c_priority := c_priority c;
     c_used := c_used c; c_limit := c_limit c |}.
Definition with_children (l : list nat) (c : core) : core :=
  {| c_pid := c_pid c; c_status := c_status c; c_children := l; c_priority := c_priority c;
     c_used := c_used c; c_limit := c_limit c |}.
Definition with_used (u : Z) (c : core) : core :=
  {| c_pid := c_pid c; c_status := c_status c; c_children := c_children c; c_priority := c_priority c;
     c_used := u; c_limit := c_limit c |}.

(** ** The invariant *)

(** Only the first of the queues is ever used. *)
Definition only_first (mg : ProcessManager) : Prop := exists q, ready_queues mg = [q; []; []; []].

Record tree_inv (t : tree) : Prop := {
  ti_manager : manager_ok (t_manager t);
  ti_pids : pid_ok (t_pids t);
  ti_live p c : t_cores t !! p = Some c -> pid_live (t_pids t) (c_pid c);
  ti_inj p q c d : t_cores t !! p = Some c -> t_cores t !! q = Some d -> c_pid c = c_pid d -> p = q;
  ti_map n p : t_map t !! n = Some p <->
    exists c, t_cores t !! p = Some c /\ c_pid c = n /\ c_status c <> Zombie;
  ti_nodup : NoDup (t_queue t);
  ti_queue p : p ∈ t_queue t <-> exists c, t_cores t !! p = Some c /\ c_status c = Ready;
  ti_running p : t_running t = Some p <-> exists c, t_cores t !! p = Some c /\ c_status c = Running;
  ti_init : exists c, t_cores t !! t_init t = Some c /\ c_pid c = IDLE_PID /\ c_status c <> Zombie;
  ti_refs_nodup : NoDup (crefs (t_cores t));
  ti_refs p : p ∈ crefs (t_cores t) <-> p <> t_init t /\ is_Some (t_cores t !! p);
  ti_zombie p c : t_cores t !! p = Some c -> c_status c = Zombie -> c_children c = [];
  ti_slice p c : t_cores t !! p = Some c ->
    0 <= c_priority c < 4 /\ 0 <= c_used c < c_limit c /\ c_limit c <= 2 ^ 20;
  ti_levels : only_first (t_manager t);
  ti_self p c : t_cores t !! p = Some c -> p ∉ c_children c;
}.

(** *** References from children lists *)

Lemma crefs_insert_fresh cs p c : cs !! p = None -> crefs (<[p := c]> cs) ≡ₚ c_children c ++ crefs cs.
Proof. intros Hp. unfold crefs. by rewrite (map_to_list_insert _ _ _ Hp). Qed.

Lemma crefs_lookup cs p c : cs !! p = Some c -> crefs cs ≡ₚ c_children c ++ crefs (delete p cs).
Proof.
  intros Hp. rewrite <- (insert_delete_id _ _ _ Hp) at 1. apply crefs_insert_fresh, lookup_delete_eq.
Qed.

Lemma crefs_update cs p c d :
  cs !! p = Some c -> c_children d = c_children c -> crefs (<[p := d]> cs) ≡ₚ crefs cs.
Proof.
  intros Hp Hd. rewrite (crefs_lookup cs p c Hp), <- insert_delete_eq.
  by rewrite crefs_insert_fresh, Hd by apply lookup_delete_eq.
Qed.

Lemma crefs_push cs p c d x :
  cs !! p = Some c -> c_children d = c_children c ++ x -> crefs (<[p := d]> cs) ≡ₚ x ++ crefs cs.
Proof.
  intros Hp Hd. rewrite (crefs_lookup cs p c Hp), <- insert_delete_eq.
  rewrite crefs_insert_fresh, Hd by apply lookup_delete_eq.
  rewrite (Permutation_app_comm (c_children c)). by rewrite app_assoc.
Qed.

Lemma child_refs_cores {T} (k : kernel T) : child_refs (heap k) = crefs (t_cores (tree_of k)).
Proof.
  unfold child_refs, crefs. cbn. rewrite map_to_list_fmap.
  induction (map_to_list (heap k)) as [|[p b] l IH]; [done|]. cbn. by rewrite IH.
Qed.

(** *** Counting references *)

Lemma occ_0 p l : p ∉ l -> occ p l = 0%nat.
Proof.
  intros Hp. unfold occ. induction l as [|x l IH]; [done|]. apply not_elem_of_cons in Hp as [Hx Hp].
  rewrite filter_cons_False by done. auto.
Qed.

Lemma occ_1 p l : NoDup l -> p ∈ l -> occ p l = 1%nat.
Proof.
  intros Hnd. unfold occ. induction Hnd as [|x l Hx Hnd IH]; [by intros ?%elem_of_nil|].
  intros [->|Hp]%elem_of_cons.
  - rewrite filter_cons_True by done. cbn. f_equal. by apply occ_0.
  - rewrite filter_cons_False by (intros ->; done). auto.
Qed.

(** A zombie is referenced by its parent's children list only. *)
Lemma zombie_strong_count {T} (k : kernel T) p b :
  tree_inv (tree_of k) -> heap k !! p = Some b -> process_status (sched b) = Zombie ->
  strong_count k p = 1%nat.
Proof.
  intros Hi Hb Hz. unfold strong_count. rewrite child_refs_cores.
  assert (Hc : t_cores (tree_of k) !! p = Some (core_of b)) by (cbn; by rewrite lookup_fmap, Hb).
  assert (Hu : forall c, t_cores (tree_of k) !! p = Some c -> c_status c = Zombie).
  { intros c. rewrite Hc. by intros [= <-]. }
  assert (Hni : p <> initproc k).
  { intros ->. destruct (ti_init _ Hi) as (c & Hci & _ & Hn). by apply Hn, Hu. }
  rewrite (occ_0 p (mjoin _)), (occ_0 p (snd <$> _)), (occ_0 p (option_list _)), (occ_0 p [initproc k]).
  - rewrite occ_1; [done|apply Hi|]. apply (ti_refs _ Hi). split; [done|]. by rewrite Hc.
  - set_solver.
  - destruct (running k) as [q|] eqn:E; [|set_solver]. cbn. intros ->%list_elem_of_singleton.
    apply (ti_running _ Hi) in E as (c & Hcq & Hs). rewrite (Hu c Hcq) in Hs. done.
  - intros ([n q] & -> & Hin)%list_elem_of_fmap. apply elem_of_map_to_list in Hin.
    apply (ti_map _ Hi) in Hin as (c & Hcq & _ & Hs). by apply Hs, Hu.
  - intros Hin. apply (ti_queue _ Hi) in Hin as (c & Hcq & Hs). rewrite (Hu c Hcq) in Hs. done.
Qed.

(** *** Abstract operations keep the invariant *)

Lemma queue_push (qs : list (list nat)) i q p :
  qs !! i = Some q -> mjoin (<[i := q ++ [p]]> qs) ≡ₚ p :: mjoin qs.
Proof.
  intros Hi.
  assert (mjoin qs = mjoin (take i qs) ++ q ++ mjoin (drop (S i) qs)) as ->.
  { rewrite <- (take_drop_middle qs i q Hi) at 1. by rewrite join_app. }
  rewrite (insert_take_drop qs i) by (by eapply lookup_lt_Some).
  rewrite join_app. cbn. rewrite <- app_assoc. cbn.
  rewrite (Permutation_middle (mjoin (take i qs))). apply Permutation_app_head.
  by rewrite Permutation_middle.
Qed.

Lemma fetch_queues_perm qs p qs' :
  fetch_queues qs = Some (p, qs') -> mjoin qs = p :: mjoin qs' /\ length qs' = length qs.
Proof.
  revert qs'. induction qs as [|[|x q] qs IH]; intros qs' E; cbn in E; [done| |].
  - apply fmap_Some in E as ([y ys] & E & [= -> ->]). destruct (IH ys E) as [H1 H2]. split; [exact H1|cbn; by rewrite H2].
  - injection E as <- <-. done.
Qed.

Lemma fetch_queues_None qs : fetch_queues qs = None -> mjoin qs = [].
Proof.
  induction qs as [|[|x q] qs IH]; intros E; cbn in E; [done| |done].
  apply fmap_None in E. cbn. auto.
Qed.

Lemma only_first_push mg q x :
  only_first mg -> ready_queues mg !! 0%nat = Some q ->
  only_first (set_queues (<[0%nat := q ++ [x]]> (ready_queues mg)) mg).
Proof. intros [q' E] _. exists (q ++ [x]). cbn. by rewrite E. Qed.

Lemma only_first_fetch mg p qs :
  only_first mg -> fetch_queues (ready_queues mg) = Some (p, qs) -> only_first (set_queues qs mg).
Proof.
  intros [[|y q] E] Hf; rewrite E in Hf; cbn in Hf; [done|]. injection Hf as <- <-. by exists q.
Qed.

Section abstract.
Context (t : tree) (Hi : tree_inv t).

(** A process changes status without dying: its identifier and children stay. *)
Lemma tree_inv_relabel p c d mg run :
  t_cores t !! p = Some c -> c_pid d = c_pid c -> c_children d = c_children c ->
  c_status c <> Zombie -> c_status d <> Zombie ->
  (0 <= c_priority d < 4 /\ 0 <= c_used d < c_limit d /\ c_limit d <= 2 ^ 20) ->
  manager_ok mg -> only_first mg -> NoDup (mjoin (ready_queues mg)) ->
  (forall x, x ∈ mjoin (ready_queues mg) <-> x = p /\ c_status d = Ready \/ x <> p /\ x ∈ t_queue t) ->
  (forall x, run = Some x <-> x = p /\ c_status d = Running \/ x <> p /\ t_running t = Some x) ->
  tree_inv {| t_cores := <[p := d]> (t_cores t); t_init := t_init t; t_manager := mg;
              t_map := t_map t; t_running := run; t_pids := t_pids t |}.
Proof.
  intros Hc Hpid Hch Hzc Hzd Hsl Hm Hof Hnd HQ HR. pose proof (crefs_update _ p c d Hc Hch) as HC.
  assert (Hcase : forall x e, <[p := d]> (t_cores t) !! x = Some e <->
    x = p /\ e = d \/ x <> p /\ t_cores t !! x = Some e).
  { intros x e. rewrite lookup_insert_Some. intuition congruence. }
  assert (Hpc : forall e, t_cores t !! p = Some e -> e = c) by (intros e; congruence).
  split; unfold t_queue; cbn [t_cores t_init t_manager t_map t_running t_pids]; try done; try apply Hi.
  - intros x e [[-> ->]|[_ He]]%Hcase; [rewrite Hpid|]; by eapply (ti_live t Hi).
  - intros x y e f [[-> ->]|[Hx He]]%Hcase [[-> ->]|[Hy Hf]]%Hcase E; try done;
      rewrite ?Hpid in E; by eapply (ti_inj t Hi).
  - intros n x. rewrite (ti_map t Hi). split.
    + intros (e & He & Hn & Hz). destruct (decide (x = p)) as [->|Hne].
      * exists d. rewrite Hcase, <- Hn, (Hpc e He). auto.
      * exists e. rewrite Hcase. auto.
    + intros (e & [[-> ->]|[_ He]]%Hcase & Hn & Hz); [exists c; split_and!; [done|congruence|done]|eauto].
  - intros x. rewrite HQ, (ti_queue t Hi). split.
    + intros [[-> Hs]|[Hne (e & He & Hs)]]; [exists d|exists e]; rewrite Hcase; auto.
    + intros (e & [[-> ->]|[Hne He]]%Hcase & Hs); eauto.
  - intros x. rewrite HR, (ti_running t Hi). split.
    + intros [[-> Hs]|[Hne (e & He & Hs)]]; [exists d|exists e]; rewrite Hcase; auto.
    + intros (e & [[-> ->]|[Hne He]]%Hcase & Hs); eauto.
  - destruct (ti_init t Hi) as (e & He & Hp0 & Hz). destruct (decide (t_init t = p)) as [E|Hne].
    + exists d. rewrite Hcase. rewrite E in He |- *. rewrite Hpid, <- (Hpc e He). auto.
    + exists e. rewrite Hcase. auto.
  - rewrite HC. apply Hi.
  - intros x. rewrite HC, (ti_refs t Hi), lookup_insert_is_Some'.
    split; [tauto|]. intros [? [->|?]]; [|done]. split; [done|eauto].
  - intros x e [[-> ->]|[_ He]]%Hcase Hs; [done|]. by apply (ti_zombie t Hi x).
  - intros x e [[-> ->]|[_ He]]%Hcase; [done|]. by apply (ti_slice t Hi x).
  - intros x e [[-> ->]|[_ He]]%Hcase; [rewrite Hch|]; by eapply (ti_self t Hi).
Qed.

Definition t_suspend (p : nat) (c : core) (q : list nat) (u : Z) : tree :=
  {| t_cores := <[p := with_status Ready (with_used u c)]> (t_cores t); t_init := t_init t;
     t_manager := set_queues (<[0%nat := q ++ [p]]> (ready_queues (t_manager t))) (t_manager t);
     t_map := <[c_pid c := p]> (t_map t); t_running := None; t_pids := t_pids t |}.

Lemma tree_inv_suspend p c q u :
  t_running t = Some p -> t_cores t !! p = Some c ->
  ready_queues (t_manager t) !! 0%nat = Some q -> 0 <= u < c_limit c ->
  tree_inv (t_suspend p c q u).
Proof.
  intros Hr Hc Hq Hu. pose proof (proj1 (ti_running t Hi p) Hr) as (c' & Hc' & Hst).
  assert (c' = c) as -> by congruence. pose proof (queue_push _ _ _ p Hq) as HQ.
  assert (Hpq : p ∉ t_queue t) by (intros (d & Hd & Hs)%(ti_queue t Hi); congruence).
  unfold t_suspend. rewrite (insert_id (t_map t)).
  2:{ apply (ti_map t Hi). exists c. split_and!; [done|done|congruence]. }
  destruct (ti_manager t Hi) as [Hl1 Hl2 Hl3]. destruct (ti_slice t Hi p c Hc) as (? & ? & ?).
  apply (tree_inv_relabel p c); try done; try congruence.
  - split; cbn; [by rewrite length_insert|done|done].
  - apply only_first_push; [apply (ti_levels t Hi)|done].
  - cbn. rewrite HQ. apply NoDup_cons. split; [done|apply Hi].
  - intros x. cbn. rewrite HQ, elem_of_cons. fold (t_queue t).
    destruct (decide (x = p)) as [->|]; tauto.
  - intros x. split; [done|]. intros [[_ ?]|[? ?]]; [done|congruence].
Qed.

Definition t_run (p : nat) (c : core) (qs : list (list nat)) : tree :=
  {| t_cores := <[p := with_status Running c]> (t_cores t); t_init := t_init t;
     t_manager := set_queues qs (t_manager t); t_map := t_map t; t_running := Some p; t_pids := t_pids t |}.

Lemma tree_inv_run p c qs :
  t_running t = None -> fetch_queues (ready_queues (t_manager t)) = Some (p, qs) ->
  t_cores t !! p = Some c -> tree_inv (t_run p c qs).
Proof.
  intros Hr Hf Hc. destruct (fetch_queues_perm _ _ _ Hf) as [HQ Hlen].
  pose proof (ti_nodup t Hi) as Hnd. unfold t_queue in Hnd. rewrite HQ in Hnd.
  apply NoDup_cons in Hnd as [Hpq Hnd].
  assert (Hst : c_status c = Ready).
  { destruct (proj1 (ti_queue t Hi p)) as (e & He & Hs); [unfold t_queue; rewrite HQ; constructor|congruence]. }
  destruct (ti_manager t Hi) as [Hl1 Hl2 Hl3].
  apply (tree_inv_relabel p c); try done; try congruence.
  - exact (ti_slice t Hi p c Hc).
  - split; cbn; [by rewrite Hlen|done|done].
  - apply (only_first_fetch _ p); [apply (ti_levels t Hi)|done].
  - intros x. cbn. unfold t_queue. rewrite HQ, elem_of_cons. split.
    + intros Hx. right. split; [by intros ->|by right].
    + intros [[_ ?]|[? [?|?]]]; done.
  - intros x. rewrite Hr. split; [intros [= <-]; by left|]. intros [[-> _]|[_ ?]]; done.
Qed.

Definition dead (c : core) : core := with_status Zombie (with_children [] c).
Definition t_exit (p : nat) (c ci : core) : tree :=
  {| t_cores := <[p := dead c]> (<[t_init t := with_children (c_children ci ++ c_children c) ci]> (t_cores t));
     t_init := t_init t; t_manager := t_manager t; t_map := delete (c_pid c) (t_map t);
     t_running := None; t_pids := t_pids t |}.

Lemma tree_inv_exit p c ci :
  t_running t = Some p -> t_cores t !! p = Some c -> t_cores t !! t_init t = Some ci -> p <> t_init t ->
  tree_inv (t_exit p c ci).
Proof.
  intros Hr Hc Hci Hne. pose proof (proj1 (ti_running t Hi p) Hr) as (c' & Hc' & Hst).
  assert (c' = c) as -> by congruence. set (ci' := with_children (c_children ci ++ c_children c) ci).
  assert (Hcase : forall x e, <[p := dead c]> (<[t_init t := ci']> (t_cores t)) !! x = Some e <->
    x = p /\ e = dead c \/ x = t_init t /\ e = ci' \/ x <> p /\ x <> t_init t /\ t_cores t !! x = Some e).
  { intros x e. rewrite !lookup_insert_Some. intuition congruence. }
  assert (HC : crefs (<[p := dead c]> (<[t_init t := ci']> (t_cores t))) ≡ₚ crefs (t_cores t)).
  { rewrite <- insert_delete_eq, crefs_insert_fresh by apply lookup_delete_eq. cbn.
    rewrite delete_insert_ne by done.
    rewrite (crefs_push _ (t_init t) ci ci' (c_children c)) by (by rewrite ?lookup_delete_ne).
    by rewrite <- crefs_lookup. }
  (* every process was there before, with the same identifier and, but for [p], status *)
  assert (Hold : forall x e, <[p := dead c]> (<[t_init t := ci']> (t_cores t)) !! x = Some e ->
    exists e', t_cores t !! x = Some e' /\ c_pid e = c_pid e' /\
      (x = p /\ c_status e = Zombie \/ x <> p /\ c_status e = c_status e')).
  { intros x e [[-> ->]|[[-> ->]|(? & ? & He)]]%Hcase; [exists c|exists ci|exists e]; auto. }
  assert (Hnew : forall x e', t_cores t !! x = Some e' -> x <> p ->
    exists e, <[p := dead c]> (<[t_init t := ci']> (t_cores t)) !! x = Some e /\
      c_pid e = c_pid e' /\ c_status e = c_status e').
  { intros x e' He' Hxp. destruct (decide (x = t_init t)) as [->|Hxi].
    - exists ci'. rewrite Hcase. assert (e' = ci) as -> by congruence. auto.
    - exists e'. rewrite Hcase. auto 10. }
  split; unfold t_exit, t_queue; cbn [t_cores t_init t_manager t_map t_running t_pids]; fold ci'; try apply Hi.
  - intros x e [[-> ->]|[[-> ->]|(_ & _ & He)]]%Hcase; [apply (ti_live t Hi p c Hc)|apply (ti_live t Hi _ ci Hci)|].
    by eapply (ti_live t Hi).
  - intros x y e f Hx Hy E. destruct (Hold x e Hx) as (e' & He' & Hpe & _), (Hold y f Hy) as (f' & Hf' & Hpf & _).
    apply (ti_inj t Hi x y e' f'); congruence.
  - intros n x. rewrite lookup_delete_Some, (ti_map t Hi). split.
    + intros (Hn & e & He & Hpe & Hz). assert (x <> p) by (intros ->; congruence).
      destruct (Hnew x e He) as (e2 & He2 & ? & Hs2); [done|]. exists e2. split_and!; [done|congruence|congruence].
    + intros (e & He & Hpe & Hz). destruct (Hold x e He) as (e' & He' & Hpp & [[-> ?]|[Hx Hs]]); [done|].
      split; [|exists e'; split_and!; [done|congruence|congruence]].
      intros Heq. apply Hx. apply (ti_inj t Hi x p e' c He' Hc). congruence.
  - intros x. fold (t_queue t). rewrite (ti_queue t Hi). split.
    + intros (e & He & Hs). destruct (Hnew x e He) as (e2 & He2 & _ & Hs2); [intros ->; congruence|].
      exists e2. split; congruence.
    + intros (e & He & Hs). destruct (Hold x e He) as (e' & He' & _ & [[-> ?]|[Hx Hs']]); [congruence|].
      exists e'. split; congruence.
  - intros x. split; [done|]. intros (e & He & Hs).
    destruct (Hold x e He) as (e' & He' & _ & [[-> ?]|[Hx Hs']]); [congruence|].
    assert (t_running t = Some x) by (apply (ti_running t Hi); exists e'; split; congruence). congruence.
  - exists ci'. rewrite Hcase. destruct (ti_init t Hi) as (e & He & Hp0 & Hz).
    assert (e = ci) as -> by congruence. auto.
  - rewrite HC. apply Hi.
  - intros x. rewrite HC, (ti_refs t Hi), !lookup_insert_is_Some'. 
    split; [tauto|]. intros [? [<-|[<-|?]]]; [eauto|congruence|done].
  - intros x e [[-> ->]|[[-> ->]|(_ & _ & He)]]%Hcase Hs; [done|cbn in Hs|by apply (ti_zombie t Hi x)].
    destruct (ti_init t Hi) as (e & He & _ & Hz). assert (e = ci) as -> by congruence. done.
  - intros x e [[-> ->]|[[-> ->]|(_ & _ & He)]]%Hcase.
    + exact (ti_slice t Hi p c Hc).
    + exact (ti_slice t Hi _ ci Hci).
    + by apply (ti_slice t Hi x).
  - intros x e [[-> ->]|[[-> ->]|(_ & _ & He)]]%Hcase; [apply not_elem_of_nil| |by eapply (ti_self t Hi)].
    cbn. rewrite elem_of_app. intros [Hin|Hin]; [by apply (ti_self t Hi _ ci Hci)|].
    assert (Hr' : t_init t ∈ crefs (t_cores t)) by (rewrite (crefs_lookup _ p c Hc), elem_of_app; by left).
    by apply (ti_refs t Hi) in Hr' as [? _].
Qed.

Definition child_core (n : Z) (c : core) : core :=
  {| c_pid := n; c_status := Ready; c_children := []; c_priority := c_priority c; c_used := 0;
     c_limit := c_limit c |}.
Definition t_fork (p x : nat) (c : core) (n : Z) (s' : PidAllocator) (q : list nat) : tree :=
  {| t_cores := <[p := with_children (c_children c ++ [x]) c]> (<[x := child_core n c]> (t_cores t));
     t_init := t_init t;
     t_manager := set_queues (<[0%nat := q ++ [x]]> (ready_queues (t_manager t))) (t_manager t);
     t_map := <[n := x]> (t_map t); t_running := t_running t; t_pids := s' |}.

Lemma tree_inv_fork p x c n s' q :
  t_running t = Some p -> t_cores t !! p = Some c -> t_cores t !! x = None ->
  p_current (t_pids t) + 1 < 2 ^ 64 -> PidAllocator_alloc (t_pids t) = (n, s') ->
  ready_queues (t_manager t) !! 0%nat = Some q -> tree_inv (t_fork p x c n s' q).
Proof.
  intros Hr Hc Hx Hlt Ha Hq. pose proof (proj1 (ti_running t Hi p) Hr) as (c' & Hc' & Hst).
  assert (c' = c) as -> by congruence. assert (Hpx : p <> x) by congruence.
  destruct (PidAllocator_alloc_ok _ (ti_pids t Hi) Hlt) as (n' & s2 & Ea & Hok' & Hfr & _ & Hlv).
  rewrite Ha in Ea. injection Ea as <- <-. pose proof (queue_push _ _ _ x Hq) as HQ.
  set (c1 := with_children (c_children c ++ [x]) c). set (d := child_core n c).
  assert (Hcase : forall y e, <[p := c1]> (<[x := d]> (t_cores t)) !! y = Some e <->
    y = p /\ e = c1 \/ y = x /\ e = d \/ y <> p /\ y <> x /\ t_cores t !! y = Some e).
  { intros y e. rewrite !lookup_insert_Some. intuition congruence. }
  assert (Hold : forall y e, <[p := c1]> (<[x := d]> (t_cores t)) !! y = Some e ->
    y = x /\ e = d \/ y <> x /\ exists e', t_cores t !! y = Some e' /\ c_pid e = c_pid e' /\ c_status e = c_status e').
  { intros y e [[-> ->]|[[-> ->]|(? & ? & He)]]%Hcase; [right|by left|right]; eauto 10. }
  assert (Hnew : forall y e', t_cores t !! y = Some e' ->
    exists e, <[p := c1]> (<[x := d]> (t_cores t)) !! y = Some e /\ y <> x /\
      c_pid e = c_pid e' /\ c_status e = c_status e').
  { intros y e' He'. assert (y <> x) by congruence. destruct (decide (y = p)) as [->|Hyp].
    - exists c1. rewrite Hcase. assert (e' = c) as -> by congruence. auto.
    - exists e'. rewrite Hcase. auto 10. }
  assert (HC : crefs (<[p := c1]> (<[x := d]> (t_cores t))) ≡ₚ x :: crefs (t_cores t)).
  { rewrite (crefs_push _ p c c1 [x]) by (by rewrite ?lookup_insert_ne). cbn.
    by rewrite crefs_insert_fresh. }
  assert (Hxr : x ∉ crefs (t_cores t)).
  { intros [_ [e He]]%(ti_refs t Hi). congruence. }
  assert (Hxq : x ∉ t_queue t) by (intros (e & He & _)%(ti_queue t Hi); congruence).
  assert (Hpid : forall y e', t_cores t !! y = Some e' -> c_pid e' <> n).
  { intros y e' He' E. apply Hfr. rewrite <- E. exact (ti_live t Hi y e' He'). }
  split; unfold t_fork, t_queue; cbn [t_cores t_init t_manager t_map t_running t_pids]; fold c1 d.
  - destruct (ti_manager t Hi). split; cbn; [by rewrite length_insert|done|done].
  - done.
  - intros y e [[-> ->]|[_ (e' & He' & -> & _)]]%Hold; apply Hlv; [by left|right].
    exact (ti_live t Hi y e' He').
  - intros y z e f [[-> ->]|[Hy (e' & He' & -> & _)]]%Hold [[-> ->]|[Hz (f' & Hf' & -> & _)]]%Hold E; try done.
    + cbn in E. by destruct (Hpid z f' Hf').
    + cbn in E. by destruct (Hpid y e' He').
    + by apply (ti_inj t Hi y z e' f').
  - intros m y. rewrite lookup_insert_Some, (ti_map t Hi). split.
    + intros [[<- <-]|[Hm (e' & He' & Hpe & Hz)]].
      * exists d. rewrite Hcase. auto 10.
      * destruct (Hnew y e' He') as (e & He & _ & Hp & Hs). exists e. split_and!; [done|congruence|congruence].
    + intros (e & He & Hpe & Hz). destruct (Hold y e He) as [[-> ->]|[Hy (e' & He' & Hp & Hs)]].
      * left. done.
      * right. split; [|exists e'; split_and!; [done|congruence|congruence]].
        intros E. apply (Hpid y e' He'). congruence.
  - cbn. rewrite HQ. apply NoDup_cons. split; [done|apply Hi].
  - intros y. cbn. rewrite HQ, elem_of_cons. fold (t_queue t). rewrite (ti_queue t Hi). split.
    + intros [->|(e' & He' & Hs)]; [exists d; rewrite Hcase; auto 10|].
      destruct (Hnew y e' He') as (e & He & _ & _ & Hs'). exists e. split; congruence.
    + intros (e & He & Hs). destruct (Hold y e He) as [[-> ->]|[Hy (e' & He' & _ & Hs')]]; [by left|right].
      exists e'. split; congruence.
  - intros y. rewrite (ti_running t Hi). split.
    + intros (e' & He' & Hs). destruct (Hnew y e' He') as (e & He & _ & _ & Hs'). exists e. split; congruence.
    + intros (e & He & Hs). destruct (Hold y e He) as [[-> ->]|[Hy (e' & He' & _ & Hs')]]; [done|].
      exists e'. split; congruence.
  - destruct (ti_init t Hi) as (e' & He' & Hp0 & Hz). destruct (Hnew _ e' He') as (e & He & _ & Hp & Hs).
    exists e. split_and!; [done|congruence|congruence].
  - rewrite HC. apply NoDup_cons. split; [done|apply Hi].
  - intros y. rewrite HC, elem_of_cons, (ti_refs t Hi), !lookup_insert_is_Some'. split.
    + intros [->|[? ?]]; [|tauto]. split; [|tauto]. intros ->.
      destruct (ti_init t Hi) as (e & He & _). congruence.
    + intros [? [<-|[<-|?]]]; [right; split; [done|eauto]|by left|by right].
  - intros y e [[-> ->]|[[-> ->]|(_ & _ & He)]]%Hcase Hs; [cbn in Hs; congruence|done|by apply (ti_zombie t Hi y)].
  - intros y e [[-> ->]|[[-> ->]|(_ & _ & He)]]%Hcase.
    + exact (ti_slice t Hi p c Hc).
    + destruct (ti_slice t Hi p c Hc) as (? & ? & ?). cbn. split_and!; lia.
    + by apply (ti_slice t Hi y).
  - apply only_first_push; [apply Hi|done].
  - intros y e [[-> ->]|[[-> ->]|(_ & _ & He)]]%Hcase; [|apply not_elem_of_nil|by eapply (ti_self t Hi)].
    cbn. rewrite elem_of_app, list_elem_of_singleton. intros [Hin|?]; [by apply (ti_self t Hi p c Hc)|done].
Qed.

Definition t_reap (p x : nat) (c : core) (l : list nat) (s' : PidAllocator) : tree :=
  {| t_cores := delete x (<[p := with_children l c]> (t_cores t));
     t_init := t_init t; t_manager := t_manager t; t_map := t_map t; t_running := t_running t; t_pids := s' |}.

Lemma tree_inv_reap p x c cx l s' :
  t_cores t !! p = Some c -> t_cores t !! x = Some cx -> c_status cx = Zombie -> c_status c <> Zombie ->
  c_children c ≡ₚ x :: l ->
  s' = {| p_current := p_current (t_pids t); p_recycled := p_recycled (t_pids t) ++ [c_pid cx] |} ->
  tree_inv (t_reap p x c l s').
Proof.
  intros Hc Hx Hz Hnz Hch ->. assert (Hpx : p <> x) by congruence.
  pose proof (ti_live t Hi x cx Hx) as Hlx.
  destruct (recycle_push _ _ _ _ (pid_recycle _ (ti_pids t Hi)) Hlx) as [Hok' Hlv].
  set (c1 := with_children l c).
  assert (Hcase : forall y e, delete x (<[p := c1]> (t_cores t)) !! y = Some e <->
    y <> x /\ (y = p /\ e = c1 \/ y <> p /\ t_cores t !! y = Some e)).
  { intros y e. rewrite lookup_delete_Some, lookup_insert_Some. intuition congruence. }
  assert (Hold : forall y e, delete x (<[p := c1]> (t_cores t)) !! y = Some e ->
    y <> x /\ exists e', t_cores t !! y = Some e' /\ c_pid e = c_pid e' /\ c_status e = c_status e').
  { intros y e [? [[-> ->]|[? He]]]%Hcase; eauto 10. }
  assert (Hnew : forall y e', t_cores t !! y = Some e' -> c_status e' <> Zombie ->
    exists e, delete x (<[p := c1]> (t_cores t)) !! y = Some e /\ c_pid e = c_pid e' /\ c_status e = c_status e').
  { intros y e' He' Hs. assert (y <> x) by congruence. destruct (decide (y = p)) as [->|Hyp].
    - exists c1. rewrite Hcase. assert (e' = c) as -> by congruence. auto.
    - exists e'. rewrite Hcase. auto 10. }
  assert (HC : crefs (t_cores t) ≡ₚ x :: crefs (delete x (<[p := c1]> (t_cores t)))).
  { rewrite (crefs_lookup _ p c Hc), Hch.
    rewrite (crefs_lookup (delete p (t_cores t)) x cx) by by rewrite lookup_delete_ne.
    rewrite (ti_zombie t Hi x cx Hx Hz). cbn. apply perm_skip.
    rewrite delete_insert_ne by done. rewrite <- insert_delete_eq, crefs_insert_fresh by apply lookup_delete_eq.
    cbn. by rewrite delete_delete. }
  pose proof (ti_refs_nodup t Hi) as Hnd. rewrite HC in Hnd. apply NoDup_cons in Hnd as [Hxr Hnd].
  split; unfold t_reap, t_queue; cbn [t_cores t_init t_manager t_map t_running t_pids]; fold c1; try apply Hi.
  - split; [exact Hok'|apply Hi].
  - intros y e [Hy (e' & He' & -> & _)]%Hold. apply Hlv. split; [|exact (ti_live t Hi y e' He')].
    intros E. apply Hy. by apply (ti_inj t Hi y x e' cx).
  - intros y z e f [Hy (e' & He' & -> & _)]%Hold [Hz' (f' & Hf' & -> & _)]%Hold E.
    by apply (ti_inj t Hi y z e' f').
  - intros n y. rewrite (ti_map t Hi). split.
    + intros (e' & He' & Hp & Hs). destruct (Hnew y e' He' Hs) as (e & He & ? & ?). exists e. split_and!; congruence.
    + intros (e & He & Hp & Hs). destruct (Hold y e He) as (_ & e' & He' & ? & ?). exists e'. split_and!; congruence.
  - intros y. fold (t_queue t). rewrite (ti_queue t Hi). split.
    + intros (e' & He' & Hs). destruct (Hnew y e' He') as (e & He & _ & ?); [congruence|]. exists e. split; congruence.
    + intros (e & He & Hs). destruct (Hold y e He) as (_ & e' & He' & _ & ?). exists e'. split; congruence.
  - intros y. rewrite (ti_running t Hi). split.
    + intros (e' & He' & Hs). destruct (Hnew y e' He') as (e & He & _ & ?); [congruence|]. exists e. split; congruence.
    + intros (e & He & Hs). destruct (Hold y e He) as (_ & e' & He' & _ & ?). exists e'. split; congruence.
  - destruct (ti_init t Hi) as (e' & He' & Hp0 & Hs). destruct (Hnew _ e' He' Hs) as (e & He & Hp & ?).
    exists e. split_and!; congruence.
  - done.
  - intros y. assert (Hy : y ∈ crefs (t_cores t) <-> y = x \/ y ∈ crefs (delete x (<[p := c1]> (t_cores t))))
      by by rewrite HC, elem_of_cons.
    rewrite (ti_refs t Hi) in Hy. split.
    + intros Hin. assert (y <> x) by (intros ->; done). destruct (proj2 Hy) as [Hni [e He]]; [by right|].
      split; [done|]. destruct (decide (y = p)) as [->|Hyp]; [exists c1|exists e]; rewrite Hcase; auto 10.
    + intros [Hni [e He]]. destruct (Hold y e He) as (Hyx & e' & He' & _).
      destruct (proj1 Hy) as [?|?]; [split; [done|by rewrite He']|done|done].
  - intros y e [? [[-> ->]|[_ He]]]%Hcase Hs; [done|by apply (ti_zombie t Hi y)].
  - intros y e [? [[-> ->]|[_ He]]]%Hcase; [exact (ti_slice t Hi p c Hc)|by apply (ti_slice t Hi y)].
  - intros y e [? [[-> ->]|[_ He]]]%Hcase; [|by eapply (ti_self t Hi)].
    intros Hin. apply (ti_self t Hi p c Hc). rewrite Hch. by right.
Qed.
End abstract.

(** ** The operations implement the abstract ones *)

Section refine.
Context {T : Type} `{FrameAllocator T} (env : boot).
Implicit Types (k : kernel T).

(** Computations that leave the tree alone. *)
Definition same_tree k k' : Prop := tree_of k' = tree_of k.
#[local] Instance same_tree_view : KernelView same_tree.
Proof. split; [split; [by intros k|intros k1 k2 k3; unfold same_tree; congruence]|done|done]. Qed.
Abbreviation keeps_tree := (keeps same_tree).

Lemma keeps_core p f : (forall b, core_of (f b) = core_of b) -> keeps_tree (update p f).
Proof.
  intros Hf. apply (keeps_update same_tree). intros k b Hb. unfold same_tree, tree_of. cbn. f_equal. rewrite fmap_insert, Hf.
  apply insert_id. by rewrite lookup_fmap, Hb.
Qed.
Ltac keeps := keeps_with same_tree ltac:(apply keeps_core; done).

Lemma keeps_check_pending : keeps_tree check_pending_signals.
Proof.
  unfold check_pending_signals. generalize (Z.to_nat (MAX_SIG + 1)) as n. intros n.
  generalize 0. induction n as [|n IH]; intros sig; [apply (keeps_ret same_tree)|]. cbn [check_pending_loop].
  unfold current_unwrap, masked_by_handler, call_kernel_signal_handler, call_user_signal_handler.
  unfold current_unwrap. keeps; apply IH.
Qed.

Lemma keeps_sys_kill n s : keeps_tree (sys_kill n s).
Proof. unfold sys_kill. keeps. Qed.
Lemma keeps_exec elf_parse p data args : keeps_tree (exec env elf_parse p data args).
Proof. unfold exec. keeps. Qed.
Lemma keeps_sigprocmask m : keeps_tree (sys_sigprocmask m).
Proof. unfold sys_sigprocmask. keeps. Qed.
Lemma keeps_sigaction s a o : keeps_tree (sys_sigaction s a o).
Proof. unfold sys_sigaction, current_unwrap. keeps. Qed.
Lemma keeps_sigreturn : keeps_tree sys_sigreturn.
Proof. unfold sys_sigreturn. keeps. Qed.

Lemma core_lookup k p b : heap k !! p = Some b -> t_cores (tree_of k) !! p = Some (core_of b).
Proof. intros Hb. cbn. by rewrite lookup_fmap, Hb. Qed.

Lemma core_lookup_inv k p c :
  t_cores (tree_of k) !! p = Some c -> exists b, heap k !! p = Some b /\ c = core_of b.
Proof.
  cbn. rewrite lookup_fmap. destruct (heap k !! p) as [b|]; [|done]. intros [= <-]. eauto.
Qed.

Lemma running_lookup k p :
  tree_inv (tree_of k) -> running k = Some p -> exists b, heap k !! p = Some b /\ process_status (sched b) = Running.
Proof.
  intros Hi Hr. destruct (proj1 (ti_running _ Hi p) Hr) as (c & Hc & Hs).
  apply core_lookup_inv in Hc as (b & Hb & ->). eauto.
Qed.

Lemma inv_suspend k p b u k' :
  tree_inv (tree_of k) -> running k = Some p -> heap k !! p = Some b ->
  0 <= u < time_slice_limit (sched b) ->
  suspend_current (set_heap (<[p := set_slice (priority (sched b)) u (time_slice_limit (sched b)) b]> (heap k)) k)
    = Ret tt k' -> tree_inv (tree_of k').
Proof.
  intros Hi Hr Hb Hu E. set (b1 := set_slice _ u _ b) in E. set (k1 := set_heap _ k) in E.
  destruct (suspend_current_run k1 p b1 (ti_manager _ Hi) Hr) as (q & Hq & _ & E2);
    [cbn; apply lookup_insert_eq|].
  rewrite E2 in E. injection E as <-.
  pose proof (tree_inv_suspend _ Hi p (core_of b) q u Hr (core_lookup k p b Hb) Hq Hu) as Hinv.
  unfold t_suspend, tree_of in *. cbn in *. rewrite insert_insert_eq, !fmap_insert in *. exact Hinv.
Qed.

Lemma inv_suspend_current k p k' :
  tree_inv (tree_of k) -> running k = Some p -> suspend_current k = Ret tt k' -> tree_inv (tree_of k').
Proof.
  intros Hi Hr E. destruct (running_lookup k p Hi Hr) as (b & Hb & _).
  apply (inv_suspend k p b (time_slice_used (sched b)) k' Hi Hr Hb).
  - apply (ti_slice _ Hi p _ (core_lookup k p b Hb)).
  - rewrite <- E. f_equal. destruct k. unfold set_heap. cbn in *. f_equal.
    apply insert_id. rewrite Hb. f_equal. by destruct b as [? [] ? ? ? ?].
Qed.

Lemma inv_timer k p k' :
  tree_inv (tree_of k) -> running k = Some p -> timer_interrupt k = Ret tt k' -> tree_inv (tree_of k').
Proof.
  intros Hi Hr E. destruct (running_lookup k p Hi Hr) as (b & Hb & _).
  destruct (ti_slice _ Hi p _ (core_lookup k p b Hb)) as (H1 & H2 & H3). cbn in H1, H2, H3.
  rewrite (timer_interrupt_run k p b (ti_manager _ Hi) Hr Hb) in E by lia.
  destruct (Z.ltb_spec (time_slice_used (sched b) + 1) (time_slice_limit (sched b))); [|done].
  by apply (inv_suspend k p b (time_slice_used (sched b) + 1) k' Hi Hr Hb ltac:(lia)).
Qed.

Lemma inv_run k k' :
  tree_inv (tree_of k) -> running k = None -> run_process_turn k = Ret tt k' -> tree_inv (tree_of k').
Proof.
  intros Hi Hr E. unfold run_process_turn in E. unfold bind at 1, fetch_process, on_manager, zoom in E.
  unfold ProcessManager_fetch in E.
  destruct (fetch_queues (ready_queues (manager k))) as [[p qs]|] eqn:Hf.
  - destruct (fetch_queues_perm _ _ _ Hf) as [HQ _].
    destruct (proj1 (ti_queue _ Hi p)) as (c & Hc & Hs); [unfold t_queue; cbn; rewrite HQ; constructor|].
    destruct (core_lookup_inv k p c Hc) as (b & Hb & ->).
    set (k1 := set_manager _ k) in E.
    rewrite (bind_Ret _ _ _ _ _ (update_run k1 p b _ Hb)) in E. injection E as <-.
    pose proof (tree_inv_run _ Hi p (core_of b) qs Hr Hf Hc) as Hinv.
    unfold t_run, tree_of in *. cbn in *. rewrite fmap_insert in *. exact Hinv.
  - injection E as <-. exact Hi.
Qed.

(** Computations on memory and the kernel's address space only. *)
Definition mem_only {A} (m : M (kernel T) A) : Prop :=
  forall k a k', m k = Ret a k' -> exists ks mm, k' = set_kernel_space ks (set_kmem mm k).

Lemma mem_only_bind {A B} (m : M (kernel T) A) (f : A -> M (kernel T) B) :
  mem_only m -> (forall a, mem_only (f a)) -> mem_only (bind m f).
Proof.
  intros Hm Hf k b k' (a & k1 & E1 & E2)%bind_inv. destruct (Hm _ _ _ E1) as (ks & mm & ->).
  destruct (Hf a _ _ _ E2) as (ks' & mm' & ->). by exists ks', mm'.
Qed.
Lemma mem_only_id {A} (m : M (kernel T) A) :
  (forall k a k', m k = Ret a k' -> k' = k) -> mem_only m.
Proof. intros Hm k a k' E%Hm. exists (kernel_space k), (kmem k). subst. by destruct k. Qed.
Lemma mem_only_on_mem {A} (m : M (mem T) A) : mem_only (on_mem m).
Proof.
  intros k a k' E. unfold on_mem, zoom in E. destruct (m (kmem k)) as [x mm|]; [|done].
  injection E as _ <-. exists (kernel_space k), mm. by destruct k.
Qed.
Lemma mem_only_modify_mem f : mem_only (modify (fun k => set_kmem (f k) k)).
Proof. intros k a k' [= _ <-]. exists (kernel_space k), (f k). by destruct k. Qed.
Lemma mem_only_kernel_space ks : mem_only (modify (set_kernel_space ks)).
Proof. intros k a k' [= _ <-]. exists ks, (kmem k). by destruct k. Qed.

(** [m k = Ret a k'] for a memory computation: [k'] differs from [k] in memory only. *)
Ltac mem_step E :=
  let a := fresh "a" in let k1 := fresh "k" in let E1 := fresh "E" in
  let ks := fresh "ks" in let mm := fresh "mm" in
  apply bind_inv in E as (a & k1 & E1 & E);
  first [ apply mem_only_on_mem in E1 | apply mem_only_modify_mem in E1 | apply mem_only_kernel_space in E1 ];
  destruct E1 as (ks & mm & ->).

Lemma not_borrowed_inv p q k u k' : not_borrowed p q k = Ret u k' -> p <> q /\ k' = k.
Proof.
  unfold not_borrowed. destruct (Nat.eqb_spec p q); [done|]. by intros [= _ <-].
Qed.

Lemma update_inv p f k u k' :
  update p f k = Ret u k' -> exists b, heap k !! p = Some b /\ k' = set_heap (<[p := f b]> (heap k)) k.
Proof.
  intros E. unfold update in E. minv E. unfold deref in E0.
  destruct (heap k !! p) as [b|] eqn:Hb; [|done]. injection E0 as <- <-. eauto.
Qed.

Definition with_cores (cs : gmap nat core) (t : tree) : tree :=
  {| t_cores := cs; t_init := t_init t; t_manager := t_manager t; t_map := t_map t;
     t_running := t_running t; t_pids := t_pids t |}.

Lemma adopt_inv p cs k u k' ci :
  for_each cs (adopt_child p) k = Ret u k' -> p <> initproc k ->
  t_cores (tree_of k) !! initproc k = Some ci ->
  tree_of k' = with_cores (<[initproc k := with_children (c_children ci ++ cs) ci]> (t_cores (tree_of k))) (tree_of k) /\
  heap k' !! p = heap k !! p.
Proof.
  revert k u ci. induction cs as [|c cs IH]; intros k u ci E Hp Hci.
  { injection E as _ <-. split; [|done]. rewrite app_nil_r. unfold with_cores, tree_of in *. cbn in *.
    rewrite insert_id; [done|]. rewrite Hci. by destruct ci. }
  cbn [for_each] in E. apply bind_inv in E as (u1 & k1 & E1 & E2). unfold adopt_child in E1.
  rewrite bind_get in E1. apply bind_inv in E1 as (u2 & k2 & [Hcp ->]%not_borrowed_inv & E1).
  apply bind_inv in E1 as (u3 & k3 & [Hcin ->]%not_borrowed_inv & E1).
  apply bind_inv in E1 as (u4 & k4 & (b & Hb & ->)%update_inv & E1).
  apply update_inv in E1 as (bi & Hbi & ->). cbn [heap initproc set_heap] in *.
  rewrite lookup_insert_ne in Hbi by done.
  assert (ci = core_of bi) as ->.
  { rewrite (core_lookup k _ bi Hbi) in Hci. congruence. }
  destruct (IH _ _ (with_children (children (family bi) ++ [c]) (core_of bi)) E2 Hp) as [Ht Hh].
  { cbn. rewrite fmap_insert, lookup_insert_eq. done. }
  rewrite Ht, Hh. cbn [heap set_heap]. split.
  - unfold with_cores, tree_of. cbn. rewrite !fmap_insert, insert_insert_eq. f_equal.
    rewrite <- app_assoc. cbn. rewrite insert_insert_ne by done. rewrite insert_id.
    + done.
    + rewrite lookup_insert_ne, lookup_fmap, Hb by done. done.
  - by rewrite !lookup_insert_ne by congruence.
Qed.

Lemma init_unique k p b :
  tree_inv (tree_of k) -> heap k !! p = Some b -> pid b <> IDLE_PID -> p <> initproc k.
Proof.
  intros Hi Hb Hp ->. destruct (ti_init _ Hi) as (c & Hc & H0 & _). cbn in Hc.
  rewrite lookup_fmap, Hb in Hc. injection Hc as <-. done.
Qed.

Lemma exit_inv k p code u k' :
  tree_inv (tree_of k) -> running k = Some p -> exit_current code k = Ret u k' ->
  tree_inv (tree_of k') /\ exists bz, heap k' !! p = Some bz /\ process_status (sched bz) = Zombie.
Proof.
  intros Hi Hr E. destruct (running_lookup k p Hi Hr) as (b & Hb & Hs).
  destruct (ti_init _ Hi) as (ci & Hci & _ & _).
  unfold exit_current, take_current_process in E. unfold bind at 1 in E. rewrite Hr, bind_unwrap in E.
  rewrite (bind_Ret _ _ _ _ _ (deref_run (set_running None k) p b Hb)) in E.
  destruct (Z.eqb_spec (pid b) IDLE_PID) as [|Hpid]; [done|].
  pose proof (init_unique k p b Hi Hb Hpid) as Hpi.
  apply bind_inv in E as (u1 & k1 & E1 & E). unfold remove_from_pid2process in E1. rewrite bind_get in E1.
  cbn [pid2pcb set_running] in E1. destruct (pid2pcb k !! pid b); [|done]. injection E1 as _ <-.
  apply bind_inv in E as (u2 & k2 & (b2 & Hb2 & ->)%update_inv & E). cbn in Hb2.
  assert (b2 = b) as -> by congruence.
  apply bind_inv in E as (u3 & k3 & (b3 & Hb3 & ->)%update_inv & E). cbn in Hb3.
  rewrite lookup_insert_eq in Hb3. injection Hb3 as <-. rewrite bind_get in E.
  apply bind_inv in E as (u4 & k4 & [_ ->]%not_borrowed_inv & E).
  apply bind_inv in E as (u5 & k5 & E5 & E).
  apply (adopt_inv p _ _ _ _ ci) in E5 as [Ht5 Hh5]; [|done|].
  2:{ cbn. rewrite !fmap_insert, !lookup_insert_ne by done. exact Hci. }
  cbn [heap set_heap] in Hh5. rewrite lookup_insert_eq in Hh5.
  apply bind_inv in E as (u6 & k6 & (b6 & Hb6 & ->)%update_inv & E). rewrite Hh5 in Hb6. injection Hb6 as <-.
  mem_step E. apply bind_inv in E as (u7 & k7 & (b7 & Hb7 & ->)%update_inv & E).
  cbn [heap set_kernel_space set_kmem set_heap] in Hb7. rewrite lookup_insert_eq in Hb7. injection Hb7 as <-.
  match type of E with drop_arc p ?K = _ => set (kf := K) in E end.
  assert (Hbf : heap kf !! p <> None) by (cbn; by rewrite lookup_insert_eq).
  assert (Htf : tree_of kf = t_exit (tree_of k) p (core_of b) ci).
  { apply (f_equal t_cores) in Ht5 as Hc5. cbn in Hc5.
    apply (f_equal t_init) in Ht5 as Hi5. apply (f_equal t_manager) in Ht5 as Hm5.
    apply (f_equal t_map) in Ht5 as Hp5. apply (f_equal t_running) in Ht5 as Hr5.
    apply (f_equal t_pids) in Ht5 as Hq5. cbn in Hi5, Hm5, Hp5, Hr5, Hq5.
    unfold kf, tree_of, t_exit. cbn. rewrite Hi5, Hm5, Hp5, Hr5, Hq5. f_equal.
    rewrite !fmap_insert, insert_insert_eq, Hc5, !fmap_insert, insert_insert_eq.
    rewrite (insert_insert_ne _ p (initproc k)) by done. rewrite insert_insert_eq.
    by rewrite insert_insert_ne by done. }
  pose proof (tree_inv_exit _ Hi p (core_of b) ci Hr (core_lookup k p b Hb) Hci Hpi) as Hinv.
  rewrite <- Htf in Hinv. destruct (heap kf !! p) as [bf|] eqn:Hbf'; [|done].
  assert (Hz : process_status (sched bf) = Zombie).
  { cbn in Hbf'. rewrite lookup_insert_eq in Hbf'. injection Hbf' as <-. done. }
  unfold drop_arc in E. rewrite bind_get, (zombie_strong_count kf p bf Hinv Hbf' Hz) in E.
  injection E as _ <-. split; [exact Hinv|]. by exists bf.
Qed.
Lemma inv_exit k p code u k' :
  tree_inv (tree_of k) -> running k = Some p -> exit_current code k = Ret u k' -> tree_inv (tree_of k').
Proof. intros Hi Hr E. by destruct (exit_inv k p code u k' Hi Hr E). Qed.

Lemma fork_inv k p b x k' :
  heap k !! p = Some b -> fork env p k = Ret x k' ->
  heap k !! x = None /\ exists n s' nb,
    PidAllocator_alloc (pids k) = (n, s') /\
    (core_of nb = child_core n (core_of b) /\ process_cx (sched nb) = goto_trap_return (b_trap_return env) (KernelStack_top n)) /\
    heap k' = <[p := set_children (children (family b) ++ [x]) b]> (<[x := nb]> (heap k)) /\
    initproc k' = initproc k /\ manager k' = manager k /\ pid2pcb k' = pid2pcb k /\
    running k' = running k /\ pids k' = s'.
Proof.
  intros Hb E. unfold fork in E. rewrite (bind_Ret _ _ _ _ _ (deref_run k p b Hb)) in E.
  mem_step E. apply bind_inv in E as (vpn & kv & Ev & E).
  assert (kv = set_kernel_space ks (set_kmem mm k)) as ->.
  { unfold VirtPageNum.from_va in Ev. by minv Ev. }
  mem_step E. apply bind_inv in E as (pte & kp & Ep & E). minv Ep.
  apply bind_inv in E as (n & kn & En & E). unfold on_pids, zoom, pid_alloc in En.
  cbn [pids set_kernel_space set_kmem] in En.
  destruct (PidAllocator_alloc (pids k)) as [n' s'] eqn:Ea. injection En as -> <-.
  rewrite bind_get in E. mem_step E. mem_step E. rewrite bind_get in E.
  unfold bind at 1 in E. cbn [modify heap set_kernel_space set_kmem set_pids set_heap] in E.
  set (new := fresh (dom (heap k))) in E.
  assert (Hnew : heap k !! new = None) by (apply not_elem_of_dom, is_fresh).
  apply bind_inv in E as (u & ku & (b' & Hb' & ->)%update_inv & E). cbn [heap set_heap] in Hb'.
  rewrite lookup_insert_ne in Hb' by congruence. assert (b' = b) as -> by congruence.
  mem_step E. injection E as <- <-. split; [done|].
  eexists _, s', _. split; [done|]. cbn. split; [|split; [reflexivity|done]]. by split.
Qed.

Lemma inv_fork k v k' :
  tree_inv (tree_of k) -> p_current (pids k) + 1 < 2 ^ 64 -> sys_fork env k = Ret v k' ->
  tree_inv (tree_of k').
Proof.
  intros Hi Hlt E. unfold sys_fork, current_process in E. unfold bind at 1 in E.
  destruct (running k) as [p|] eqn:Hr; [|done]. rewrite bind_unwrap in E.
  destruct (running_lookup k p Hi Hr) as (b & Hb & Hs).
  apply bind_inv in E as (x & k1 & E1 & E).
  destruct (fork_inv k p b x k1 Hb E1) as (Hx & n & s' & nb & Ha & [Hnb _] & Hh & Hin & Hm & Hmap & Hrun & Hp).
  assert (Hpx : p <> x) by congruence.
  assert (Hbx : heap k1 !! x = Some nb) by (rewrite Hh, lookup_insert_ne, lookup_insert_eq by done; done).
  rewrite (bind_Ret _ _ _ _ _ (deref_run k1 x nb Hbx)) in E. mem_step E.
  apply bind_inv in E as (u & k2 & E2 & E). injection E as _ <-. unfold add_process in E2.
  pose proof (ti_manager _ Hi) as Hmg. cbn in Hmg.
  destruct (add_process_run (set_kernel_space ks (set_kmem mm k1)) x nb 0) as (i & q & -> & Hq & _ & E3);
    [cbn; by rewrite Hm|lia|done|].
  rewrite E3 in E2. injection E2 as _ <-. cbn [manager set_kernel_space set_kmem] in Hq. rewrite Hm in Hq.
  pose proof (tree_inv_fork _ Hi p x (core_of b) n s' q Hr (core_lookup k p b Hb)) as Hinv.
  cbn [t_cores t_pids t_manager tree_of] in Hinv. rewrite lookup_fmap, Hx in Hinv.
  specialize (Hinv eq_refl Hlt Ha Hq).
  match goal with |- tree_inv (tree_of ?K) => assert (tree_of K = t_fork (tree_of k) p x (core_of b) n s' q) as -> end;
    [|exact Hinv].
  assert (Hpid : pid nb = n) by (change (c_pid (core_of nb) = n); by rewrite Hnb).
  unfold tree_of, t_fork. cbn. rewrite Hin, Hm, Hmap, Hrun, Hp, Hh, Hpid, !fmap_insert, Hnb. done.
Qed.

Lemma strong_count_mem k ks mm x :
  strong_count (set_kernel_space ks (set_kmem mm k)) x = strong_count k x.
Proof. reflexivity. Qed.

(** Dropping the last reference to a childless process. *)
Lemma drop_arc_inv k x cb u k' :
  heap k !! x = Some cb -> children (family cb) = [] -> pid_live (pids k) (pid cb) ->
  strong_count k x = 0%nat -> drop_arc x k = Ret u k' ->
  heap k' = delete x (heap k) /\ initproc k' = initproc k /\ manager k' = manager k /\
  pid2pcb k' = pid2pcb k /\ running k' = running k /\
  pids k' = {| p_current := p_current (pids k); p_recycled := p_recycled (pids k) ++ [pid cb] |}.
Proof.
  intros Hb Hnc Hlive Hsc E. unfold drop_arc in E. rewrite bind_get, Hsc in E.
  generalize (size (heap k)) as n, E. clear E. intros n E. cbn [Nat.eqb drop_pcb] in E.
  rewrite (bind_Ret _ _ _ _ _ (deref_run k x cb Hb)) in E.
  apply bind_inv in E as (u4 & k4 & E4 & E). unfold on_pids, zoom, PidHandle_drop in E4.
  rewrite PidAllocator_dealloc_spec, decide_True in E4 by (try apply Hlive; exact Hlive).
  injection E4 as _ <-. rewrite bind_get in E. mem_step E. mem_step E. mem_step E.
  apply bind_inv in E as (u5 & k5 & E5 & E). injection E5 as _ <-.
  rewrite Hnc in E. injection E as _ <-. done.
Qed.

(** What a wait that returns did: nothing, or it reaped a zombie child. *)
Lemma waitpid_inv k a ptr v k' :
  tree_inv (tree_of k) -> sys_waitpid a ptr k = Ret v k' ->
  k' = k /\ (v = -1 \/ v = -2) \/
  exists p b idx x cb, heap k !! p = Some b /\ process_status (sched b) = Running /\ children (family b) !! idx = Some x /\ p <> x /\
    heap k !! x = Some cb /\ process_status (sched cb) = Zombie /\ v = as_isize (pid cb) /\
    heap k' = delete x (<[p := set_children (delete idx (children (family b))) b]> (heap k)) /\ initproc k' = initproc k /\
    manager k' = manager k /\ pid2pcb k' = pid2pcb k /\ running k' = running k /\
    pids k' = {| p_current := p_current (pids k); p_recycled := p_recycled (pids k) ++ [pid cb] |}.
Proof.
  intros Hi E. unfold sys_waitpid, current_process in E. unfold bind at 1 in E.
  destruct (running k) as [p|] eqn:Hr; [|done]. rewrite bind_unwrap in E.
  destruct (running_lookup k p Hi Hr) as (b & Hb & Hs).
  rewrite (bind_Ret _ _ _ _ _ (deref_run k p b Hb)), bind_get in E.
  destruct (negb _); [injection E as <- <-; by left; auto|].
  destruct (find_index _ (children (family b))) as [idx|] eqn:Hf; [|injection E as <- <-; by left; auto].
  apply find_index_Some in Hf as [(x & Hx & Hlook) _]. rewrite Hx, bind_unwrap in E.
  unfold look in Hlook. destruct (heap k !! x) as [cb|] eqn:Hcb; [|done].
  apply andb_true_iff in Hlook as [Hz _]. unfold is_zombie in Hz. apply bool_decide_eq_true in Hz.
  assert (Hpx : p <> x) by (intros <-; congruence).
  rewrite (bind_Ret _ _ _ _ _ (update_run k p b _ Hb)) in E. rewrite bind_get in E.
  set (b1 := set_children (delete idx (children (family b))) b) in *.
  set (k1 := set_heap (<[p := b1]> (heap k)) k) in *.
  apply bind_inv in E as (u & k2 & [Hsc ->]%assert_inv & E). apply Nat.eqb_eq in Hsc.
  assert (Hcb1 : heap k1 !! x = Some cb) by (cbn; by rewrite lookup_insert_ne).
  rewrite (bind_Ret _ _ _ _ _ (deref_run k1 x cb Hcb1)) in E. mem_step E. mem_step E.
  apply bind_inv in E as (u3 & k3 & E3 & E). injection E as <- <-.
  set (kw := set_kernel_space _ _) in E3.
  assert (Hsc' : strong_count kw x = 0%nat).
  { unfold kw. rewrite !strong_count_mem. lia. }
  pose proof (ti_live _ Hi x _ (core_lookup k x cb Hcb)) as Hlive.
  pose proof (ti_zombie _ Hi x _ (core_lookup k x cb Hcb) Hz) as Hnc.
  destruct (drop_arc_inv kw x cb u3 k3 Hcb1 Hnc Hlive Hsc' E3) as (Hh & Hin & Hm & Hmap & Hrun & Hpids).
  right. exists p, b, idx, x, cb. split_and!; try done. by rewrite Hrun.
Qed.

Lemma inv_waitpid k a ptr v k' :
  tree_inv (tree_of k) -> sys_waitpid a ptr k = Ret v k' -> tree_inv (tree_of k').
Proof.
  intros Hi E. destruct (waitpid_inv k a ptr v k' Hi E) as [[-> _]|(p & b & idx & x & cb & Hb & Hs & Hx & Hpx & Hcb & Hz & _ & Hh & Hin & Hm & Hmap & Hrun & Hpids)]; [done|].
  pose proof (tree_inv_reap _ Hi p x (core_of b) (core_of cb) (delete idx (children (family b))) _
    (core_lookup k p b Hb) (core_lookup k x cb Hcb) Hz ltac:(cbn; congruence)
    (delete_Permutation _ _ _ Hx) eq_refl) as Hinv.
  unfold t_reap in Hinv.
  assert (Hb1 : with_children (delete idx (children (family b))) (core_of b) = core_of (set_children (delete idx (children (family b))) b)) by done.
  rewrite Hb1 in Hinv. unfold tree_of. rewrite Hh, Hin, Hm, Hmap, Hrun, Hpids, fmap_delete, fmap_insert. exact Hinv.
Qed.

Lemma current_unwrap_inv k p k' : current_unwrap k = Ret p k' -> running k = Some p /\ k' = k.
Proof.
  unfold current_unwrap, current_process, bind. destruct (running k) as [q|]; [|done].
  by intros [= -> ->].
Qed.

Lemma inv_handle_signals k v k' :
  tree_inv (tree_of k) -> handle_signals_turn k = Ret v k' -> tree_inv (tree_of k').
Proof.
  intros Hi E. unfold handle_signals_turn, stop_or_go in E. apply bind_inv in E as (u & k1 & E1 & E).
  apply keeps_check_pending in E1. rewrite <- E1 in Hi.
  apply bind_inv in E as (p & k2 & [Hr ->]%current_unwrap_inv & E).
  destruct (running_lookup k1 p Hi Hr) as (b & Hb & Hs).
  rewrite (bind_Ret _ _ _ _ _ (deref_run k1 p b Hb)) in E.
  destruct (_ || _); [by injection E as _ <-|]. apply bind_inv in E as ([] & k3 & E2 & E).
  injection E as _ <-. by apply (inv_suspend_current k1 p k3).
Qed.

(** ** Histories *)

Inductive kstep : kernel T -> kernel T -> Prop :=
  | step_run k k' : running k = None -> run_process_turn k = Ret tt k' -> kstep k k'
  | step_yield k k' : suspend_current k = Ret tt k' -> kstep k k'
  | step_timer k k' : running k <> None -> timer_interrupt k = Ret tt k' -> kstep k k'
  | step_exit k code u k' : exit_current code k = Ret u k' -> kstep k k'
  | step_fork k v k' : p_current (pids k) + 1 < 2 ^ 64 -> sys_fork env k = Ret v k' -> kstep k k'
  | step_wait k a ptr v k' : sys_waitpid a ptr k = Ret v k' -> kstep k k'
  | step_signals k v k' : handle_signals_turn k = Ret v k' -> kstep k k'
  | step_kill k n s v k' : sys_kill n s k = Ret v k' -> kstep k k'
  | step_mask k m v k' : sys_sigprocmask m k = Ret v k' -> kstep k k'
  | step_action k s a o v k' : sys_sigaction s a o k = Ret v k' -> kstep k k'
  | step_sigreturn k v k' : sys_sigreturn k = Ret v k' -> kstep k k'
  | step_exec k elf_parse p data args v k' : running k = Some p -> exec env elf_parse p data args k = Ret v k' -> kstep k k'
  | step_table k p b t : heap k !! p = Some b -> kstep k (set_heap (<[p := set_fd_table t b]> (heap k)) k)  (* a file call *)
  | step_user k mm : kstep k (set_kmem mm k).        (* user code writes its memory *)

(** The first process is in the queue and nothing runs. *)
Record boot_state (k : kernel T) : Prop := {
  bs_heap : exists b, heap k = {[initproc k := b]} /\ pid b = IDLE_PID /\ process_status (sched b) = Ready /\
    children (family b) = [] /\ priority (sched b) = 0 /\ time_slice_used (sched b) = 0 /\
    time_slice_limit (sched b) = MLFQ_BASE_TIME_SLICE;
  bs_manager : manager k = set_queues [[initproc k]; []; []; []] ProcessManager_new;
  bs_map : pid2pcb k = {[IDLE_PID := initproc k]};
  bs_running : running k = None;
  bs_pids : pids k = {| p_current := 1; p_recycled := [] |};
}.

Lemma boot_inv k : boot_state k -> tree_inv (tree_of k).
Proof.
  intros [(b & Hh & Hp & Hs & Hc & Hpr & Hu & Hl) Hm Hmap Hr Hpids].
  assert (Hcs : forall p c, t_cores (tree_of k) !! p = Some c <-> p = initproc k /\ c = core_of b).
  { intros p c. cbn. rewrite Hh, map_fmap_singleton, lookup_singleton_Some. intuition congruence. }
  assert (HR : crefs (t_cores (tree_of k)) = []).
  { unfold crefs. cbn. rewrite Hh, map_fmap_singleton, map_to_list_singleton. cbn. by rewrite Hc. }
  assert (HQ : t_queue (tree_of k) = [initproc k]) by (unfold t_queue; cbn; by rewrite Hm).
  split; rewrite ?HR, ?HQ.
  - cbn. rewrite Hm. by split.
  - cbn. rewrite Hpids. split; [|done]. split; [done|constructor|constructor].
  - intros p c [-> ->]%Hcs. cbn. rewrite Hpids, Hp. split; [done|apply not_elem_of_nil].
  - intros p q c d [-> ->]%Hcs [-> ->]%Hcs. done.
  - intros n p. cbn [t_map tree_of]. rewrite Hmap, lookup_singleton_Some. split.
    + intros [<- <-]. exists (core_of b). rewrite Hcs. split_and!; [done|done|exact Hp|cbn; congruence].
    + intros (c & [-> ->]%Hcs & Hn & _). cbn in Hn. split; congruence.
  - apply NoDup_singleton.
  - intros p. rewrite list_elem_of_singleton. split.
    + intros ->. exists (core_of b). rewrite Hcs. done.
    + by intros (c & [-> _]%Hcs & _).
  - intros p. cbn [t_running tree_of]. rewrite Hr. split; [done|].
    intros (c & [-> ->]%Hcs & Hst). cbn in Hst. congruence.
  - exists (core_of b). rewrite Hcs. split_and!; [done|done|exact Hp|cbn; congruence].
  - constructor.
  - intros p. split; [by intros ?%elem_of_nil|]. intros [Hn [c Hcc]]. apply Hcs in Hcc as [-> _]. done.
  - intros p c [-> ->]%Hcs _. exact Hc.
  - intros p c [-> ->]%Hcs. cbn. rewrite Hpr, Hu, Hl. vm_compute. intuition congruence.
  - exists [initproc k]. cbn. by rewrite Hm.
  - intros p c [-> ->]%Hcs. cbn. rewrite Hc. apply not_elem_of_nil.
Qed.

Lemma suspend_running k k' : suspend_current k = Ret tt k' -> exists p, running k = Some p.
Proof.
  intros E. unfold suspend_current, take_current_process in E. unfold bind at 1 in E.
  destruct (running k) as [p|]; [eauto|done].
Qed.

Lemma exit_running k code u k' : exit_current code k = Ret u k' -> exists p, running k = Some p.
Proof.
  intros E. unfold exit_current, take_current_process in E. unfold bind at 1 in E.
  destruct (running k) as [p|]; [eauto|done].
Qed.

Lemma kstep_inv k k' : tree_inv (tree_of k) -> kstep k k' -> tree_inv (tree_of k').
Proof.
  intros Hi Hs. destruct Hs as [k k' Hr E|k k' E|k k' Hr E|k code u k' E|k v k' Hl E|k a ptr v k' E|k v k' E
    |k n s v k' E|k m v k' E|k s a o v k' E|k v k' E|k ep p data args v k' Hr E|k p b t Hb|k mm].
  - by apply (inv_run k).
  - destruct (suspend_running k k' E) as [p Hr]. by apply (inv_suspend_current k p).
  - destruct (running k) as [p|] eqn:Hr'; [|done]. by apply (inv_timer k p).
  - destruct (exit_running k code u k' E) as [p Hr]. by apply (inv_exit k p code u).
  - by apply (inv_fork k v).
  - by apply (inv_waitpid k a ptr v).
  - by apply (inv_handle_signals k v).
  - by rewrite (keeps_sys_kill _ _ _ _ _ E).
  - by rewrite (keeps_sigprocmask _ _ _ _ E).
  - by rewrite (keeps_sigaction _ _ _ _ _ _ E).
  - by rewrite (keeps_sigreturn _ _ _ E).
  - by rewrite (keeps_exec _ _ _ _ _ _ _ E).
  - replace (tree_of (set_heap _ k)) with (tree_of k); [exact Hi|]. unfold tree_of. cbn. f_equal. rewrite fmap_insert.
    symmetry. apply insert_id. by rewrite lookup_fmap, Hb.
  - exact Hi.
Qed.

Lemma ksteps_inv k k' : tree_inv (tree_of k) -> rtc kstep k k' -> tree_inv (tree_of k').
Proof. intros Hi Hs. induction Hs as [|k1 k2 k3 H1 _ IH]; [done|]. apply IH. by apply (kstep_inv k1). Qed.
End refine.

(** ** What the invariant means for a kernel *)

Section histories.
Context {T : Type} `{FrameAllocator T} (env : boot).
Implicit Types (k : kernel T).

Lemma reachable_inv k0 k : boot_state k0 -> rtc (kstep env) k0 k -> tree_inv (tree_of k).
Proof. intros Hb Hs. exact (ksteps_inv env k0 k (boot_inv k0 Hb) Hs). Qed.

Lemma core_exists k p (P : core -> Prop) :
  (exists c, t_cores (tree_of k) !! p = Some c /\ P c) <-> exists b, heap k !! p = Some b /\ P (core_of b).
Proof.
  split.
  - intros (c & (b & Hb & ->)%core_lookup_inv & Hc). eauto.
  - intros (b & Hb & Hc). exists (core_of b). split; [by apply core_lookup|done].
Qed.

(** C2. In every state reached from boot by scheduling, timer ticks, exits, forks, execs, waits,
    signal operations, changes of descriptor tables and of user memory: processes have distinct
    identifiers; PID2PCB maps exactly the identifiers of the processes that are not zombies; the
    ready queues hold exactly the Ready processes, once each; the current process is the only
    Running one; every process but the first is in exactly one children list; a zombie has no
    children and exactly one strong reference, so the assertion of waitpid holds. *)
Theorem process_tree_invariant k0 k :
  boot_state k0 -> rtc (kstep env) k0 k ->
  (forall p q b c, heap k !! p = Some b -> heap k !! q = Some c -> pid b = pid c -> p = q) /\
  (forall n p, pid2pcb k !! n = Some p <->
     exists b, heap k !! p = Some b /\ pid b = n /\ process_status (sched b) <> Zombie) /\
  NoDup (mjoin (ready_queues (manager k))) /\
  (forall p, p ∈ mjoin (ready_queues (manager k)) <->
     exists b, heap k !! p = Some b /\ process_status (sched b) = Ready) /\
  (forall p, running k = Some p <-> exists b, heap k !! p = Some b /\ process_status (sched b) = Running) /\
  NoDup (child_refs (heap k)) /\
  (forall p, p ∈ child_refs (heap k) <-> p <> initproc k /\ is_Some (heap k !! p)) /\
  (forall p b, heap k !! p = Some b -> process_status (sched b) = Zombie ->
     children (family b) = [] /\ strong_count k p = 1%nat).
Proof.
  intros Hb Hs. pose proof (reachable_inv k0 k Hb Hs) as Hi. rewrite child_refs_cores. split_and!.
  - intros p q b c Hp Hq. exact (ti_inj _ Hi p q _ _ (core_lookup k p b Hp) (core_lookup k q c Hq)).
  - intros n p. rewrite <- (core_exists k p (fun c => c_pid c = n /\ c_status c <> Zombie)).
    exact (ti_map _ Hi n p).
  - exact (ti_nodup _ Hi).
  - intros p. rewrite <- (core_exists k p (fun c => c_status c = Ready)). exact (ti_queue _ Hi p).
  - intros p. rewrite <- (core_exists k p (fun c => c_status c = Running)). exact (ti_running _ Hi p).
  - exact (ti_refs_nodup _ Hi).
  - intros p. rewrite (ti_refs _ Hi p). cbn. by rewrite lookup_fmap, fmap_is_Some.
  - intros p b Hp Hz. split; [exact (ti_zombie _ Hi p _ (core_lookup k p b Hp) Hz)|].
    by apply (zombie_strong_count k p b).
Qed.

(** In every state reached from boot the ready queues of levels 1 to 3 are empty: suspension
    always queues at level 0 and the demotion never completes. *)
Theorem mlfq_levels_unused k0 k i q :
  boot_state k0 -> rtc (kstep env) k0 k -> ready_queues (manager k) !! i = Some q -> (0 < i)%nat -> q = [].
Proof.
  intros Hb Hs Hq Hi0. destruct (ti_levels _ (reachable_inv k0 k Hb Hs)) as [q0 E]. cbn in E. rewrite E in Hq.
  destruct i as [|[|[|[|i]]]]; cbn in Hq; [lia|congruence..|done].
Qed.

End histories.

(** ** A booted kernel *)

Definition boot_pcb : ProcessControlBlock :=
  set_status Ready (set_slice 0 0 MLFQ_BASE_TIME_SLICE (set_signals 0 demo_pcb)).
Definition boot_kernel : kernel StackFrameAllocator :=
  {| heap := {[0%nat := boot_pcb]}; initproc := 0;
     manager := set_queues [[0%nat]; []; []; []] ProcessManager_new; pid2pcb := {[0 := 0%nat]};
     running := None; pids := {| p_current := 1; p_recycled := [] |};
     kernel_space := {| page_table := {| root_ppn := 0; frames := [] |}; areas := [] |};
     kmem := demo_mem |}.
Definition demo_env : boot :=
  {| b_strampoline := 0x80201000; b_trap_return := 0x80202000; b_trap_handler := 0x80203000; b_sstatus := 0 |}.

Lemma boot_kernel_state : boot_state boot_kernel.
Proof. split; try reflexivity. exists boot_pcb. split_and!; reflexivity. Qed.

(** The first process is chosen and runs. *)
Definition first_run : kernel StackFrameAllocator :=
  set_running (Some 0%nat) (set_heap {[0%nat := set_status Running boot_pcb]}
    (set_manager ProcessManager_new boot_kernel)).

Lemma first_run_reached : rtc (kstep demo_env) boot_kernel first_run.
Proof. apply rtc_once, step_run; reflexivity. Qed.

Lemma process_tree_invariant_witness :
  boot_state boot_kernel /\ rtc (kstep demo_env) boot_kernel first_run /\
  exists b, heap first_run !! 0%nat = Some b /\ process_status (sched b) = Running.
Proof.
  split; [exact boot_kernel_state|]. split; [exact first_run_reached|].
  destruct (process_tree_invariant demo_env boot_kernel first_run boot_kernel_state first_run_reached)
    as (_ & _ & _ & _ & Hrun & _).
  apply Hrun. reflexivity.
Defined.

Lemma mlfq_levels_unused_witness :
  rtc (kstep demo_env) boot_kernel first_run /\ ready_queues (manager first_run) !! 2%nat = Some [].
Proof.
  split; [exact first_run_reached|].
  assert (exists q, ready_queues (manager first_run) !! 2%nat = Some q) as [q Hq] by (eexists; reflexivity).
  rewrite Hq. f_equal.
  apply (mlfq_levels_unused demo_env boot_kernel first_run 2 q boot_kernel_state first_run_reached Hq). lia.
Defined.
