(* ===== verification/Switch.v ===== *)
(** Switching between processes: [os/src/process/switch.S], the switching half of
    [os/src/process/processor.rs] and the two functions of [os/src/process/mod.rs]
    that give the processor up.

    [Process] and [Lifecycle] stop where the source calls [__switch]; here the
    switch itself runs, on the registers of a hart and the two [ProcessContext]s it
    is given, and a process is followed from the switch that takes the processor
    away from it to the one that gives it back. *)
From S2P Require Import Prelude Address FrameAllocator PageTable UserBytes Pid MemorySet UserSpace Process Keeping Lifecycle Exec Signal Trampoline ProcessTree.

(** ** [switch.S] *)

Definition s_reg (n : nat) : nat := match n with O => 8%nat | 1%nat => 9%nat | _ => (n + 16)%nat end.
Definition SAVE_SN (n : nat) : instr := Sd (s_reg n) (Z.of_nat (n + 2) * 8) Reg.a0.
Definition LOAD_SN (n : nat) : instr := Ld (s_reg n) (Z.of_nat (n + 2) * 8) Reg.a1.
Definition __switch_code : list instr :=
  [Sd Reg.sp 8 Reg.a0; Sd 1 0 Reg.a0] ++ (SAVE_SN <$> seq 0 12) ++ [Ld 1 0 Reg.a1] ++ (LOAD_SN <$> seq 0 12) ++ [Ld Reg.sp 8 Reg.a1; Jr 1].

(** The hart and the two objects the arguments point to. *)
Record switching := { sw_hart : hart; sw_cur : list Z; sw_next : list Z }.
Definition CX_WORDS : nat := 14.

(** The word of the object at [base] that [va] is the address of. *)
Definition cell (base va : Z) : option nat :=
  if (0 <=? va - base) && (va - base <? Z.of_nat CX_WORDS * 8) && ((va - base) mod 8 =? 0) then Some (Z.to_nat ((va - base) / 8)) else None.

Section switch_code.
Context (cur next : Z).

Definition sw_map (f : hart -> hart) : M switching unit := modify (fun s => {| sw_hart := f (sw_hart s); sw_cur := sw_cur s; sw_next := sw_next s |}).
Definition sw_store (va v : Z) : M switching unit :=
  match cell cur va, cell next va with
  | Some n, _ => modify (fun s => {| sw_hart := sw_hart s; sw_cur := <[n := v]> (sw_cur s); sw_next := sw_next s |})
  | None, Some n => modify (fun s => {| sw_hart := sw_hart s; sw_cur := sw_cur s; sw_next := <[n := v]> (sw_next s) |})
  | None, None => fail Invalid
  end.
Definition sw_load (va : Z) : M switching Z :=
  let! s := get in
  match cell cur va, cell next va with
  | Some n, _ => ret (default 0 (sw_cur s !! n))
  | None, Some n => ret (default 0 (sw_next s !! n))
  | None, None => fail Invalid
  end.
Definition exec_switch (ins : instr) : M switching unit :=
  let! s := get in
  let h := sw_hart s in
  match ins with
  | Sd rs off rb => sw_store (u64 (xget rb h + off)) (xget rs h)
  | Ld rd off rb => let! v := sw_load (u64 (xget rb h + off)) in sw_map (xset rd v)
  | Jr rs => sw_map (set_pc (xget rs h))
  | _ => fail Explicit
  end.
(** The call puts the arguments into a0 and a1. *)
Definition run_switch (code : list instr) : M switching unit :=
  sw_map (fun h => xset Reg.a1 next (xset Reg.a0 cur h)) ;;; for_each code exec_switch.
End switch_code.

(** [ProcessContext] is [repr(C)]. *)
Definition cx_words (c : ProcessContext) : list Z := ra c :: sp c :: s_regs c.
Definition words_cx (l : list Z) : ProcessContext := {| ra := default 0 (l !! 0%nat); sp := default 0 (l !! 1%nat); s_regs := drop 2 l |}.

(** ** [processor.rs] *)

Record Processor := { pr_current : option nat; pr_idle_process_cx : ProcessContext }.
Definition Processor_new : Processor := {| pr_current := None; pr_idle_process_cx := ProcessContext_zero_init |}.
Definition Processor_current (self : Processor) : option nat := pr_current self.
(** Takes the process out. *)
Definition process_current (self : Processor) : option nat * Processor := (pr_current self, {| pr_current := None; pr_idle_process_cx := pr_idle_process_cx self |}).

(** The kernel, which holds the field [current] of [PROCESSOR], with its hart and the other field. *)
Record cpu_kernel (T : Type) := { os : kernel T; hw : hart; idle_process_cx : ProcessContext }.
Arguments os {T} _.
Arguments hw {T} _.
Arguments idle_process_cx {T} _.
Arguments Build_cpu_kernel {T} _ _ _.

(** What a [*mut ProcessContext] points to: the processor's field, a process's, a local variable. *)
Inductive cx_place := IdleCx | BlockCx (p : nat) | LocalCx.

Definition PROCESSOR {T} (s : cpu_kernel T) : Processor := {| pr_current := running (os s); pr_idle_process_cx := idle_process_cx s |}.
Definition set_PROCESSOR {T} (x : Processor) (s : cpu_kernel T) : cpu_kernel T := Build_cpu_kernel (set_running (pr_current x) (os s)) (hw s) (pr_idle_process_cx x).
(** [Processor::idle_process_cx_ptr]. *)
Definition idle_process_cx_ptr : cx_place := IdleCx.

Definition set_cx (c : ProcessContext) (b : ProcessControlBlock) : ProcessControlBlock :=
  let s := sched b in
  set_sched {| process_status := process_status s; process_cx := c; priority := priority s;
               time_slice_used := time_slice_used s; time_slice_limit := time_slice_limit s |} b.

Section processor.
Context {T : Type} `{FrameAllocator T} (env : boot).
Context (addr_of : cx_place -> Z).
Implicit Types (s : cpu_kernel T) (k : kernel T).

Definition on_os {A} (m : M (kernel T) A) : M (cpu_kernel T) A := zoom os (fun k s => Build_cpu_kernel k (hw s) (idle_process_cx s)) m.

(** The kernel's accessors are those of the processor. *)
Lemma current_process_PROCESSOR s : on_os current_process s = Ret (Processor_current (PROCESSOR s)) s.
Proof. by destruct s as [[] ? ?]. Qed.
Lemma take_current_process_PROCESSOR s : on_os take_current_process s = Ret (process_current (PROCESSOR s)).1 (set_PROCESSOR (process_current (PROCESSOR s)).2 s).
Proof. by destruct s as [[] ? ?]. Qed.

Definition cx_read (c : cx_place) : M (cpu_kernel T) ProcessContext :=
  match c with
  | IdleCx => let! s := get in ret (idle_process_cx s)
  | BlockCx p => let! b := on_os (deref p) in ret (process_cx (sched b))
  | LocalCx => ret ProcessContext_zero_init
  end.
Definition cx_write (c : cx_place) (x : ProcessContext) : M (cpu_kernel T) unit :=
  match c with
  | IdleCx => modify (fun s => Build_cpu_kernel (os s) (hw s) x)
  | BlockCx p => on_os (update p (set_cx x))
  | LocalCx => ret tt
  end.

Definition __switch (cur next : cx_place) : M (cpu_kernel T) unit :=
  let! from := cx_read cur in
  let! to := cx_read next in
  let! s := get in
  match run_switch (addr_of cur) (addr_of next) __switch_code {| sw_hart := hw s; sw_cur := cx_words from; sw_next := cx_words to |} with
  | Panic p => fail p
  | Ret _ r =>
      modify (fun s => Build_cpu_kernel (os s) (sw_hart r) (idle_process_cx s)) ;;;
      cx_write cur (words_cx (sw_cur r)) ;;;
      cx_write next (words_cx (sw_next r))
  end.

(** A turn of the loop. *)
Definition run_process : M (cpu_kernel T) unit :=
  let! o := on_os fetch_process in
  match o with
  | None => ret tt
  | Some process =>
      on_os (update process (set_status Running)) ;;;
      on_os (modify (set_running (Some process))) ;;;
      __switch idle_process_cx_ptr (BlockCx process)
  end.
Definition schedule (switched_process_cx_ptr : cx_place) : M (cpu_kernel T) unit := __switch switched_process_cx_ptr idle_process_cx_ptr.

(** Both return here when the process is chosen again, the second never. *)
Definition suspend_current_and_run_next : M (cpu_kernel T) unit :=
  let! o := on_os current_process in
  let! process := unwrap o in
  on_os suspend_current ;;;
  schedule (BlockCx process).
Definition exit_current_and_run_next (code : Z) : M (cpu_kernel T) unit := on_os (exit_current code) ;;; schedule LocalCx.
End processor.

(** ** The switch *)

(** What the callee of a function call must preserve, in the order of [ProcessContext]. *)
Definition callee_saved (h : hart) : list Z := (fun r => xget r h) <$> (1%nat :: Reg.sp :: (s_reg <$> seq 0 12)).

(** Two objects of fourteen words that do not overlap. *)
Record objects_apart (a b : Z) : Prop := {
  oa_low : 0 <= a /\ 0 <= b;
  oa_high : a + 112 <= 2 ^ 64 /\ b + 112 <= 2 ^ 64;
  oa_apart : a + 112 <= b \/ b + 112 <= a;
}.

Lemma objects_apart_sym a b : objects_apart a b -> objects_apart b a.
Proof. intros [[? ?] [? ?] ?]. split; [done|done|tauto]. Qed.

Lemma cell_in base n : (n < CX_WORDS)%nat -> cell base (base + Z.of_nat n * 8) = Some n.
Proof.
  unfold cell, CX_WORDS. intros Hn. replace (base + Z.of_nat n * 8 - base) with (Z.of_nat n * 8) by lia.
  rewrite Z.mod_mul, Z.div_mul, Nat2Z.id, !andb_true_r by done. rewrite (proj2 (Z.leb_le _ _)), (proj2 (Z.ltb_lt _ _)) by lia. done.
Qed.
Lemma cell_out base other n : (n < CX_WORDS)%nat -> objects_apart base other -> cell other (base + Z.of_nat n * 8) = None.
Proof.
  unfold cell, CX_WORDS. intros Hn [_ _ Ha]. destruct (Z.leb_spec 0 (base + Z.of_nat n * 8 - other)); [|done].
  destruct (Z.ltb_spec (base + Z.of_nat n * 8 - other) (Z.of_nat 14 * 8)); [lia|done].
Qed.

Section switch_run.
Context (cur next : Z) (Hap : objects_apart cur next).

Lemma u64_cell base n : base = cur \/ base = next -> (n < CX_WORDS)%nat -> u64 (base + Z.of_nat n * 8) = base + Z.of_nat n * 8.
Proof. destruct Hap as [[? ?] [? ?] _]. unfold CX_WORDS. intros [-> | ->] Hn; apply u64_small; lia. Qed.

Lemma exec_save rs n h c x : xget Reg.a0 h = cur -> (n < CX_WORDS)%nat ->
  exec_switch cur next (Sd rs (Z.of_nat n * 8) Reg.a0) {| sw_hart := h; sw_cur := c; sw_next := x |} =
    Ret tt {| sw_hart := h; sw_cur := <[n := xget rs h]> c; sw_next := x |}.
Proof.
  intros Ha Hn. unfold exec_switch. rewrite bind_get. cbn [sw_hart]. rewrite Ha, u64_cell by auto. unfold sw_store. by rewrite cell_in by done.
Qed.
Lemma exec_load rd n h c x : xget Reg.a1 h = next -> (n < CX_WORDS)%nat ->
  exec_switch cur next (Ld rd (Z.of_nat n * 8) Reg.a1) {| sw_hart := h; sw_cur := c; sw_next := x |} =
    Ret tt {| sw_hart := xset rd (default 0 (x !! n)) h; sw_cur := c; sw_next := x |}.
Proof.
  intros Ha Hn. unfold exec_switch. rewrite bind_get. cbn [sw_hart]. rewrite Ha, u64_cell by auto. unfold sw_load.
  rewrite cell_in by done. rewrite (cell_out next cur); [reflexivity|done|by apply objects_apart_sym].
Qed.

Definition saves (l : list (nat * nat)) : list instr := (fun p => Sd p.1 (Z.of_nat p.2 * 8) Reg.a0) <$> l.
Definition loads (l : list (nat * nat)) : list instr := (fun p => Ld p.1 (Z.of_nat p.2 * 8) Reg.a1) <$> l.

Lemma run_saves l h c x code : xget Reg.a0 h = cur -> Forall (fun p => (p.2 < CX_WORDS)%nat) l ->
  for_each (saves l ++ code) (exec_switch cur next) {| sw_hart := h; sw_cur := c; sw_next := x |} =
    for_each code (exec_switch cur next) {| sw_hart := h; sw_cur := foldl (fun c p => <[p.2 := xget p.1 h]> c) c l; sw_next := x |}.
Proof.
  intros Ha Hl. revert c. induction Hl as [|[r n] l Hn _ IH]; intros c; [done|]. cbn in Hn. cbn [saves fmap list_fmap app for_each foldl fst snd].
  rewrite (bind_Ret _ _ _ _ _ (exec_save r n h c x Ha Hn)). apply IH.
Qed.
Lemma run_loads l h c x code : xget Reg.a1 h = next -> Forall (fun p => (p.2 < CX_WORDS)%nat /\ p.1 <> Reg.a1) l ->
  for_each (loads l ++ code) (exec_switch cur next) {| sw_hart := h; sw_cur := c; sw_next := x |} =
    for_each code (exec_switch cur next) {| sw_hart := foldl (fun h p => xset p.1 (default 0 (x !! p.2)) h) h l; sw_cur := c; sw_next := x |}.
Proof.
  intros Ha Hl. revert h Ha. induction Hl as [|[r n] l [Hn Hr] _ IH]; intros h Ha; [done|]. cbn in Hn, Hr. cbn [loads fmap list_fmap app for_each foldl fst snd].
  rewrite (bind_Ret _ _ _ _ _ (exec_load r n h c x Ha Hn)). apply IH.
  unfold xget, xset in *. destruct r; [done|]. cbn [gpr Reg.a1] in *. by rewrite list_lookup_insert_ne.
Qed.

Definition save_slots : list (nat * nat) := (Reg.sp, 1%nat) :: (1%nat, 0%nat) :: ((fun n => (s_reg n, (n + 2)%nat)) <$> seq 0 12).
Definition load_slots : list (nat * nat) := (1%nat, 0%nat) :: ((fun n => (s_reg n, (n + 2)%nat)) <$> seq 0 12) ++ [(Reg.sp, 1%nat)].

(** The registers go to the first object and come from the second, and the hart
    continues where the second was saved. *)
Lemma switch_run h c x : length (gpr h) = 32%nat -> length c = CX_WORDS -> length x = CX_WORDS ->
  exists h', run_switch cur next __switch_code {| sw_hart := h; sw_cur := c; sw_next := x |} =
      Ret tt {| sw_hart := h'; sw_cur := callee_saved h; sw_next := x |} /\
    callee_saved h' = x /\ Some (pc h') = x !! 0%nat /\ length (gpr h') = 32%nat /\ csrs h' = csrs h /\ user_mode h' = user_mode h.
Proof.
  intros Hg Hc Hx. set (h1 := xset Reg.a1 next (xset Reg.a0 cur h)).
  assert (E : __switch_code = saves save_slots ++ loads load_slots ++ [Jr 1]) by reflexivity.
  assert (Ha0 : xget Reg.a0 h1 = cur).
  { unfold h1, xget, xset. cbn [Reg.a0 Reg.a1 gpr]. rewrite list_lookup_insert_ne, list_lookup_insert_eq by (done || (rewrite Hg; vm_compute; lia)). done. }
  assert (Ha1 : xget Reg.a1 h1 = next).
  { unfold h1, xget, xset. cbn [Reg.a0 Reg.a1 gpr]. rewrite list_lookup_insert_eq by (rewrite length_insert, Hg; vm_compute; lia). done. }
  unfold run_switch. rewrite (bind_Ret (sw_map _) _ {| sw_hart := h; sw_cur := c; sw_next := x |} tt {| sw_hart := h1; sw_cur := c; sw_next := x |} eq_refl).
  rewrite E, run_saves; [|exact Ha0|repeat constructor]. rewrite run_loads; [|exact Ha1|repeat constructor; discriminate].
  cbn [for_each exec_switch]. eexists. split.
  - unfold bind at 1, exec_switch. rewrite bind_get. cbn [sw_hart sw_map modify sw_cur sw_next ret]. do 2 f_equal.
    clear -Hg Hc Hap. unfold h1. destruct h as [xs cs pc0 um]. cbn [gpr] in *.
    do 32 (destruct xs as [|? xs]; [discriminate Hg|]). do 14 (destruct c as [|? c]; [discriminate Hc|]).
    destruct c; [|discriminate Hc]. destruct xs; [|discriminate Hg]. reflexivity.
  - clear -Hg Hx. unfold h1. destruct h as [xs cs pc0 um]. cbn [gpr] in *.
    do 32 (destruct xs as [|? xs]; [discriminate Hg|]). do 14 (destruct x as [|? x]; [discriminate Hx|]).
    destruct x; [|discriminate Hx]. destruct xs; [|discriminate Hg]. repeat split.
Qed.
End switch_run.

(** ** A process that waits in a queue *)

Section waits.
Context {T : Type} `{FrameAllocator T} (env : boot).
Implicit Types (k : kernel T) (p q : nat).

Definition queued k : list nat := mjoin (ready_queues (manager k)).
(** [p] is in a queue with the context [c]; another process, or none, runs. *)
Definition waits p (n : Z) (c : ProcessContext) k : Prop :=
  running k <> Some p /\ p ∈ queued k /\
  exists b, heap k !! p = Some b /\ process_status (sched b) = Ready /\ process_cx (sched b) = c /\ pid b = n.

Lemma join_insert {A} (x : A) (l : list (list A)) (q r : list A) (i : nat) : l !! i = Some q -> x ∈ mjoin l -> x ∈ mjoin (<[i := q ++ r]> l).
Proof.
  intros Hi Hx. rewrite <- (take_drop_middle _ _ _ Hi) in Hx. rewrite join_app in Hx. rewrite insert_take_drop by by apply lookup_lt_Some in Hi.
  rewrite join_app. cbn in *. rewrite !elem_of_app in *. tauto.
Qed.

Section one.
Context (p : nat) (n : Z) (c : ProcessContext).
Definition still_waits k k' : Prop := waits p n c k -> waits p n c k'.
#[local] Instance still_waits_view : KernelView still_waits.
Proof. split; [split; [intros k Hw; exact Hw|intros k1 k2 k3 H1 H2 Hw; by apply H2, H1]|intros k m Hw; exact Hw|intros k ks Hw; exact Hw]. Qed.
Abbreviation keeps_waits := (keeps still_waits).

Lemma step_keeps {A} {m : M (kernel T) A} {k a k'} : m k = Ret a k' -> waits p n c k -> keeps_waits m -> waits p n c k'.
Proof. intros E Hw Hm. by apply (Hm k a k'). Qed.

Lemma waits_update q f : (forall b, process_status (sched (f b)) = process_status (sched b) /\ process_cx (sched (f b)) = process_cx (sched b) /\ pid (f b) = pid b) ->
  keeps_waits (update q f).
Proof.
  intros Hf. apply (keeps_update still_waits). intros k b Hb (Hr & Hq & b0 & Hb0 & Hs & Hc & Hn). split; [exact Hr|split; [exact Hq|]].
  cbn. destruct (decide (q = p)) as [->|Hne]; [|rewrite lookup_insert_ne by done; eauto].
  rewrite lookup_insert_eq. assert (b = b0) as -> by congruence. exists (f b0). destruct (Hf b0) as (E1 & E2 & E3). split_and!; congruence.
Qed.
Lemma waits_update_other q f : q <> p -> keeps_waits (update q f).
Proof.
  intros Hne. apply (keeps_update still_waits). intros k b Hb (Hr & Hq & b0 & Hb0 & Hs). split; [exact Hr|split; [exact Hq|]].
  cbn. rewrite lookup_insert_ne by done. eauto.
Qed.
Lemma waits_heap {A} (m : M (kernel T) A) : (forall k a k', m k = Ret a k' -> heap k' = heap k /\ running k' = running k /\ queued k' = queued k) -> keeps_waits m.
Proof. intros Hm k a k' E (Hr & Hq & Hb). destruct (Hm _ _ _ E) as (E1 & E2 & E3). split; [by rewrite E2|split; [by rewrite E3|by rewrite E1]]. Qed.
Lemma waits_take_current : keeps_waits take_current_process.
Proof. intros k a k' [= _ <-] (Hr & Hq & Hb). split; [done|by split]. Qed.
Lemma waits_on_pids {A} (m : M PidAllocator A) : keeps_waits (on_pids m).
Proof. apply waits_heap. intros k a k' E. unfold on_pids, zoom in E. destruct (m (pids k)); [|done]. by injection E as _ <-. Qed.
Lemma waits_remove_pid i : keeps_waits (remove_from_pid2process i).
Proof. apply waits_heap. intros k a k' E. unfold remove_from_pid2process in E. rewrite bind_get in E. case_match; [|done]. by injection E as _ <-. Qed.
Lemma waits_get_time_slice i : keeps_waits (get_time_slice i).
Proof. apply waits_heap. intros k a k' E. unfold get_time_slice, ProcessManager_get_time_slice, index in E. destruct (vget _ _); [|done]. by injection E as _ <-. Qed.
Lemma waits_delete q : q <> p -> keeps_waits (modify (fun k => set_heap (delete q (heap k)) k)).
Proof.
  intros Hne. apply (keeps_modify still_waits). intros k (Hr & Hq & b & Hb & Hs). split; [exact Hr|split; [exact Hq|]].
  exists b. split; [|exact Hs]. cbn. by rewrite lookup_delete_ne.
Qed.

Lemma occ_elem x (l : list nat) : x ∈ l -> occ x l <> 0%nat.
Proof. unfold occ. intros Hx E%length_zero_iff_nil. assert (Hf : x ∈ filter (eq x) l) by by apply list_elem_of_filter. rewrite E in Hf. by apply elem_of_nil in Hf. Qed.
(** A waiting process is referenced by its queue. *)
Lemma waits_referenced k : waits p n c k -> strong_count k p <> 0%nat.
Proof. intros (_ & Hq & _). pose proof (occ_elem _ _ Hq). unfold strong_count, queued in *. lia. Qed.

Ltac waits_step :=
  keeps_with still_waits ltac:(first [ apply waits_update; done | apply waits_take_current | apply waits_on_pids | apply waits_remove_pid
    | apply waits_get_time_slice | apply waits_update_other; done | apply waits_delete; done ]).

Lemma waits_drop_pcb fuel q : q <> p -> keeps_waits (drop_pcb fuel q).
Proof.
  revert q. induction fuel as [|fuel IH]; intros q Hne; cbn [drop_pcb]; [apply (keeps_fail still_waits)|].
  apply (keeps_bind still_waits); [waits_step|intros b]. do 6 (apply (keeps_bind still_waits); [waits_step|intros]).
  apply (keeps_for_each still_waits). intros x k u k' E Hw. rewrite bind_get in E.
  destruct (Nat.eqb_spec (strong_count k x) 0) as [E0|]; [|by injection E as _ <-].
  assert (Hx : x <> p) by (intros ->; by apply (waits_referenced k Hw)). by apply (IH x Hx k u k' E).
Qed.
Lemma waits_drop_arc q : keeps_waits (drop_arc q).
Proof.
  intros k u k' E Hw. unfold drop_arc in E. rewrite bind_get in E.
  destruct (Nat.eqb_spec (strong_count k q) 0) as [E0|]; [|by injection E as _ <-].
  assert (Hq : q <> p) by (intros ->; by apply (waits_referenced k Hw)). by apply (waits_drop_pcb _ q Hq k u k' E).
Qed.

Lemma waits_add q prio : keeps_waits (add_process_with_priority q prio).
Proof.
  unfold add_process_with_priority. apply (keeps_bind still_waits); [waits_step|intros b].
  apply (keeps_bind still_waits); [apply (keeps_modify still_waits); intros k Hw; exact Hw|intros _]. intros k u k' E (Hr & Hq & Hb).
  unfold on_manager, zoom, ProcessManager_add in E. destruct (bind _ _ (manager k)) as [a m'|] eqn:Em; [|done]. injection E as _ <-.
  rewrite bind_get in Em. apply bind_inv in Em as (q0 & m1 & E1 & Em). apply bind_inv in Em as (qs & m2 & E2 & Em). injection Em as _ <-.
  split; [exact Hr|split; [|exact Hb]]. unfold queued in *. cbn. 
  unfold index, vget in E1. destruct (_ && _) eqn:Hi; [|done]. destruct (ready_queues _ !! _) as [q1|] eqn:Eg; [|done]. injection E1 as <- <-.
  unfold index_set, vset in E2. rewrite Hi in E2. injection E2 as <- <-. by apply join_insert.
Qed.

Lemma waits_suspend_current : keeps_waits suspend_current.
Proof.
  intros k u k' E Hw. unfold suspend_current, take_current_process in E. unfold bind at 1 in E.
  destruct (running k) as [q|] eqn:Hq; [|done]. rewrite bind_unwrap in E.
  assert (Hne : q <> p) by (intros ->; by destruct Hw). revert E. generalize (waits_take_current k _ _ eq_refl Hw). generalize (set_running None k). intros k1 Hw1 E.
  refine (keeps_bind still_waits _ _ (waits_update_other q _ Hne) (fun _ => waits_add q 0) k1 u k' E Hw1).
Qed.
Lemma waits_exit_current code : keeps_waits (exit_current code).
Proof.
  intros k u k' E Hw. unfold exit_current, take_current_process in E. unfold bind at 1 in E.
  destruct (running k) as [q|] eqn:Hq; [|done]. rewrite bind_unwrap in E.
  assert (Hne : q <> p) by (intros ->; by destruct Hw). revert E. generalize (waits_take_current k _ _ eq_refl Hw). generalize (set_running None k). intros k1 Hw1 E.
  apply (step_keeps E Hw1).
  unfold adopt_child, not_borrowed.
  keeps_with still_waits ltac:(first [ apply waits_update; done | apply waits_update_other; done | apply waits_remove_pid | apply waits_drop_arc ]).
Qed.

Lemma waits_fork q : keeps_waits (fork env q).
Proof.
  intros k x k' E (Hr & Hq & b & Hb & Hs & Hc & Hn).
  assert (Hbq : exists bq, heap k !! q = Some bq) by (unfold fork in E; apply bind_inv in E as (bq & k1 & E1 & _); unfold deref in E1; destruct (heap k !! q); [eauto|done]).
  destruct Hbq as [bq Hbq]. destruct (fork_inv env k q bq x k' Hbq E) as (Hx & n' & s' & nb & _ & _ & Hh & _ & Hm & _ & Hrun & _).
  split; [by rewrite Hrun|split; [unfold queued; by rewrite Hm|]]. rewrite Hh. destruct (decide (q = p)) as [->|Hne].
  - rewrite lookup_insert_eq. assert (bq = b) as -> by congruence. eexists. split; [reflexivity|]. by split_and!.
  - rewrite !lookup_insert_ne by congruence. eauto.
Qed.

Lemma waits_check_pending : keeps_waits check_pending_signals.
Proof.
  unfold check_pending_signals. generalize (Z.to_nat (MAX_SIG + 1)) as fuel. intros fuel.
  generalize 0. induction fuel as [|fuel IH]; intros sig; [apply (keeps_ret still_waits)|]. cbn [check_pending_loop].
  unfold current_unwrap, masked_by_handler, call_kernel_signal_handler, call_user_signal_handler. unfold current_unwrap. waits_step; apply IH.
Qed.

(** Every step of the kernel that does not choose [p]. *)
Lemma kstep_waits k k' : kstep env k k' -> running k' <> Some p -> waits p n c k -> waits p n c k'.
Proof.
  intros Hs Hr' Hw. destruct Hs as [k k' Hr E|k k' E|k k' Hr E|k code u k' E|k v k' Hl E|k a ptr v k' E|k v k' E
    |k m s v k' E|k m v k' E|k s a o v k' E|k v k' E|k ep q data args v k' Hr E|k q b t Hb|k mm].
  - unfold run_process_turn in E. unfold bind at 1, fetch_process, on_manager, zoom, ProcessManager_fetch in E.
    destruct (fetch_queues (ready_queues (manager k))) as [[q qs]|] eqn:Hf; [|by injection E as <-].
    set (k1 := set_manager _ k) in E. apply bind_inv in E as (u & k2 & E1 & E). injection E as <-. cbn in Hr'.
    assert (Hne : q <> p) by congruence. destruct (fetch_queues_perm _ _ _ Hf) as [HQ _].
    assert (Hw1 : waits p n c k1).
    { destruct Hw as (Hrk & Hq & Hb). split; [exact Hrk|split; [|exact Hb]]. unfold queued in *. cbn. rewrite HQ in Hq. apply elem_of_cons in Hq as [->|Hq]; [done|exact Hq]. }
    pose proof (waits_update_other q _ Hne k1 u k2 E1 Hw1) as (_ & Hq & Hb). split; [exact Hr'|by split].
  - by apply (waits_suspend_current k tt k' E).
  - apply (step_keeps E Hw). unfold timer_interrupt. keeps_with still_waits ltac:(first [apply waits_add | apply waits_suspend_current | apply waits_update; done | apply waits_take_current | apply waits_get_time_slice]).
  - by apply (waits_exit_current code k u k' E).
  - apply (step_keeps E Hw). unfold sys_fork. keeps_with still_waits ltac:(first [apply waits_fork | apply waits_add]).
  - apply (step_keeps E Hw). unfold sys_waitpid, assert. keeps_with still_waits ltac:(first [apply waits_drop_arc | apply waits_update; done]).
  - apply (step_keeps E Hw). unfold handle_signals_turn, stop_or_go, current_unwrap. keeps_with still_waits ltac:(first [apply waits_check_pending | apply waits_suspend_current]).
  - apply (step_keeps E Hw). unfold sys_kill; waits_step.
  - apply (step_keeps E Hw). unfold sys_sigprocmask; waits_step.
  - apply (step_keeps E Hw). unfold sys_sigaction, current_unwrap; waits_step.
  - apply (step_keeps E Hw). unfold sys_sigreturn; waits_step.
  - apply (step_keeps E Hw). unfold exec; waits_step.
  - destruct Hw as (Hrk & Hq & b' & Hb' & Hw). split; [exact Hrk|split; [exact Hq|]]. cbn. destruct (decide (q = p)) as [->|Hne].
    + rewrite lookup_insert_eq. assert (b' = b) as -> by congruence. by eexists.
    + rewrite lookup_insert_ne by done. eauto.
  - exact Hw.
Qed.
End one.
End waits.

(** ** Contexts have their size *)

Definition cx_ok (c : ProcessContext) : Prop := length (s_regs c) = 12%nat.

Section sizes.
Context {T : Type} `{FrameAllocator T} (env : boot).
Implicit Types (k : kernel T).

Definition cxs_ok k : Prop := forall p b, heap k !! p = Some b -> cx_ok (process_cx (sched b)).
Definition sizes_kept k k' : Prop := cxs_ok k -> cxs_ok k'.
#[local] Instance sizes_kept_view : KernelView sizes_kept.
Proof. split; [split; [intros k Hw; exact Hw|intros k1 k2 k3 H1 H2 Hw; by apply H2, H1]|intros k m Hw; exact Hw|intros k ks Hw; exact Hw]. Qed.
Abbreviation keeps_sizes := (keeps sizes_kept).

Lemma sizes_update q f : (forall b, process_cx (sched (f b)) = process_cx (sched b)) -> keeps_sizes (update q f).
Proof.
  intros Hf. apply (keeps_update sizes_kept). intros k b Hb Hk r d Hr. cbn in Hr. destruct (decide (q = r)) as [->|Hne].
  - rewrite lookup_insert_eq in Hr. injection Hr as <-. rewrite Hf. by apply (Hk r).
  - rewrite lookup_insert_ne in Hr by done. by apply (Hk r).
Qed.
Lemma sizes_heap {A} (m : M (kernel T) A) : (forall k a k', m k = Ret a k' -> heap k' = heap k) -> keeps_sizes m.
Proof. intros Hm k a k' E Hk. unfold cxs_ok. by rewrite (Hm _ _ _ E). Qed.
Lemma sizes_delete q : keeps_sizes (modify (fun k => set_heap (delete q (heap k)) k)).
Proof. apply (keeps_modify sizes_kept). intros k Hk r b Hr. cbn in Hr. apply lookup_delete_Some in Hr as [_ Hr]. by apply (Hk r). Qed.
Lemma sizes_set_running x : keeps_sizes (modify (set_running x)).
Proof. apply (keeps_modify sizes_kept). intros k Hk. exact Hk. Qed.
Lemma sizes_take_current : keeps_sizes take_current_process.
Proof. apply sizes_heap. by intros k a k' [= _ <-]. Qed.
Lemma sizes_on_pids {A} (m : M PidAllocator A) : keeps_sizes (on_pids m).
Proof. apply sizes_heap. intros k a k' E. unfold on_pids, zoom in E. destruct (m (pids k)); [|done]. by injection E as _ <-. Qed.
Lemma sizes_on_manager {A} (m : M ProcessManager A) : keeps_sizes (on_manager m).
Proof. apply sizes_heap. intros k a k' E. unfold on_manager, zoom in E. destruct (m (manager k)); [|done]. by injection E as _ <-. Qed.
Lemma sizes_remove_pid i : keeps_sizes (remove_from_pid2process i).
Proof. apply sizes_heap. intros k a k' E. unfold remove_from_pid2process in E. rewrite bind_get in E. case_match; [|done]. by injection E as _ <-. Qed.
Lemma sizes_get_time_slice i : keeps_sizes (get_time_slice i).
Proof. apply sizes_heap. intros k a k' E. unfold get_time_slice, ProcessManager_get_time_slice, index in E. destruct (vget _ _); [|done]. by injection E as _ <-. Qed.
Ltac sizes_with more :=
  keeps_with sizes_kept ltac:(first [ apply sizes_update; done | apply sizes_take_current | apply sizes_on_pids | apply sizes_on_manager
    | apply sizes_remove_pid | apply sizes_get_time_slice | apply sizes_delete | apply sizes_set_running | more ]).

Lemma sizes_drop_arc q : keeps_sizes (drop_arc q).
Proof.
  unfold drop_arc. apply (keeps_bind sizes_kept); [apply (keeps_get sizes_kept)|intros k0]. case_match; [|apply (keeps_ret sizes_kept)].
  generalize (S (size (heap k0))). intros fuel. clear dependent k0. revert q. induction fuel as [|fuel IH]; intros q; cbn [drop_pcb]; [apply (keeps_fail sizes_kept)|].
  sizes_with ltac:(apply IH).
Qed.
Lemma sizes_add q prio : keeps_sizes (add_process_with_priority q prio).
Proof. unfold add_process_with_priority. sizes_with ltac:(apply (keeps_modify sizes_kept); intros k Hk; exact Hk). Qed.
Lemma sizes_suspend : keeps_sizes suspend_current.
Proof. unfold suspend_current. sizes_with ltac:(apply sizes_add). Qed.
Lemma sizes_fork q : keeps_sizes (fork env q).
Proof.
  intros k x k' E Hk. assert (Hq : exists bq, heap k !! q = Some bq) 
    by (unfold fork in E; apply bind_inv in E as (bq & k1 & E1 & _); unfold deref in E1; destruct (heap k !! q); [eauto|done]).
  destruct Hq as [bq Hbq]. destruct (fork_inv env k q bq x k' Hbq E) as (Hx & n' & s' & nb & _ & [_ Hcx] & Hh & _).
  intros r b Hr. rewrite Hh in Hr. apply lookup_insert_Some in Hr as [[<- <-]|[_ Hr]]; [by apply (Hk q bq)|].
  apply lookup_insert_Some in Hr as [[<- <-]|[_ Hr]]; [by rewrite Hcx|by apply (Hk r)].
Qed.
Lemma sizes_check_pending : keeps_sizes check_pending_signals.
Proof.
  unfold check_pending_signals. generalize (Z.to_nat (MAX_SIG + 1)) as fuel. intros fuel.
  generalize 0. induction fuel as [|fuel IH]; intros sig; [apply (keeps_ret sizes_kept)|]. cbn [check_pending_loop].
  unfold current_unwrap, masked_by_handler, call_kernel_signal_handler, call_user_signal_handler. unfold current_unwrap. sizes_with ltac:(apply IH).
Qed.

Lemma step_sizes {A} {m : M (kernel T) A} {k a k'} : m k = Ret a k' -> cxs_ok k -> keeps_sizes m -> cxs_ok k'.
Proof. intros E Hk Hm. by apply (Hm k a k'). Qed.
Lemma kstep_sizes k k' : kstep env k k' -> cxs_ok k -> cxs_ok k'.
Proof.
  intros Hs Hk. destruct Hs as [k k' Hr E|k k' E|k k' Hr E|k code u k' E|k v k' Hl E|k a ptr v k' E|k v k' E
    |k m s v k' E|k m v k' E|k s a o v k' E|k v k' E|k ep q data args v k' Hr E|k q b t Hb|k mm];
    [..|intros r b' Hr; cbn in Hr; apply lookup_insert_Some in Hr as [[<- <-]|[_ Hr]]; [exact (Hk q b Hb)|exact (Hk r b' Hr)]|exact Hk]; apply (step_sizes E Hk).
  - unfold run_process_turn, fetch_process. sizes_with ltac:(idtac; fail).
  - apply sizes_suspend.
  - unfold timer_interrupt. sizes_with ltac:(first [apply sizes_suspend|apply sizes_add]).
  - unfold exit_current, adopt_child, not_borrowed. sizes_with ltac:(apply sizes_drop_arc).
  - unfold sys_fork. sizes_with ltac:(first [apply sizes_fork|apply sizes_add]).
  - unfold sys_waitpid, assert. sizes_with ltac:(apply sizes_drop_arc).
  - unfold handle_signals_turn, stop_or_go, current_unwrap. sizes_with ltac:(first [apply sizes_check_pending|apply sizes_suspend]).
  - unfold sys_kill. sizes_with ltac:(idtac; fail).
  - unfold sys_sigprocmask. sizes_with ltac:(idtac; fail).
  - unfold sys_sigaction, current_unwrap. sizes_with ltac:(idtac; fail).
  - unfold sys_sigreturn. sizes_with ltac:(idtac; fail).
  - unfold exec. sizes_with ltac:(idtac; fail).
Qed.
End sizes.

(** ** From switch to switch *)

Lemma words_cx_words c : words_cx (cx_words c) = c.
Proof. by destruct c. Qed.
Lemma cx_words_length c : cx_ok c -> length (cx_words c) = CX_WORDS.
Proof. unfold cx_ok. cbn. by intros ->. Qed.
Lemma callee_saved_ok h : cx_ok (words_cx (callee_saved h)) /\ cx_words (words_cx (callee_saved h)) = callee_saved h.
Proof. done. Qed.
Lemma set_cx_same b : set_cx (process_cx (sched b)) b = b.
Proof. by destruct b as [? [] ? ? ? ?]. Qed.

Section resumes.
Context {T : Type} `{FrameAllocator T} (env : boot).
(** The processor's context overlaps no other. *)
Context (addr_of : cx_place -> Z) (Haddr : forall c, c <> IdleCx -> objects_apart (addr_of c) (addr_of IdleCx)).
Implicit Types (s : cpu_kernel T) (k : kernel T) (p q : nat) (h : hart).
Abbreviation at_cpu k h i := (Build_cpu_kernel k h i).

Definition stored p (c : ProcessContext) k : kernel T := set_heap (alter (set_cx c) p (heap k)) k.
Lemma stored_own p b k : heap k !! p = Some b -> stored p (process_cx (sched b)) k = k.
Proof.
  intros Hb. unfold stored. destruct k as [hp ? ? ? ? ? ? ?]. unfold set_heap. cbn in *. f_equal.
  apply map_eq. intros q. destruct (decide (p = q)) as [<-|Hne]; [|by rewrite lookup_alter_ne]. rewrite lookup_alter_eq, Hb. cbn. by rewrite set_cx_same.
Qed.

(** A hart takes the registers of a place. *)
Record takes (h : hart) (c : ProcessContext) (h' : hart) : Prop := {
  tk_saved : callee_saved h' = cx_words c;
  tk_pc : pc h' = ra c;
  tk_regs : length (gpr h') = 32%nat;
  tk_csrs : csrs h' = csrs h;
}.

Lemma switch_takes c c' h x y : objects_apart (addr_of c) (addr_of c') -> length (gpr h) = 32%nat -> cx_ok x -> cx_ok y ->
  exists h', run_switch (addr_of c) (addr_of c') __switch_code {| sw_hart := h; sw_cur := cx_words x; sw_next := cx_words y |} =
    Ret tt {| sw_hart := h'; sw_cur := callee_saved h; sw_next := cx_words y |} /\ takes h y h'.
Proof.
  intros Ha Hg Hx Hy. destruct (switch_run _ _ Ha h _ _ Hg (cx_words_length x Hx) (cx_words_length y Hy)) as (h' & E & H1 & H2 & H3 & H4 & _).
  exists h'. split; [exact E|]. split; try done. by injection H2.
Qed.

Lemma switch_eval c c' x y s r : cx_read c s = Ret x s -> cx_read c' s = Ret y s ->
  run_switch (addr_of c) (addr_of c') __switch_code {| sw_hart := hw s; sw_cur := cx_words x; sw_next := cx_words y |} = Ret tt r ->
  __switch addr_of c c' s = (cx_write c (words_cx (sw_cur r)) ;;; cx_write c' (words_cx (sw_next r))) (at_cpu (os s) (sw_hart r) (idle_process_cx s)).
Proof. intros E1 E2 E. unfold __switch. by rewrite (bind_Ret _ _ _ _ _ E1), (bind_Ret _ _ _ _ _ E2), bind_get, E. Qed.
Lemma cx_read_block p b k h i : heap k !! p = Some b -> cx_read (BlockCx p) (at_cpu k h i) = Ret (process_cx (sched b)) (at_cpu k h i).
Proof. intros Hb. cbn [cx_read]. unfold bind, on_os, zoom. cbn [os]. by rewrite (deref_run k p b Hb). Qed.
Lemma cx_write_block p b c k h i : heap k !! p = Some b -> cx_write (BlockCx p) c (at_cpu k h i) = Ret tt (at_cpu (stored p c k) h i).
Proof.
  intros Hb. cbn [cx_write]. unfold on_os, zoom. cbn [os]. rewrite (update_run k p b _ Hb). do 2 f_equal. unfold stored. f_equal.
  apply map_eq. intros q. destruct (decide (p = q)) as [<-|Hne]; [by rewrite lookup_insert_eq, lookup_alter_eq, Hb|by rewrite lookup_insert_ne, lookup_alter_ne].
Qed.

Lemma schedule_run p b k h i : heap k !! p = Some b -> cx_ok (process_cx (sched b)) -> cx_ok i -> length (gpr h) = 32%nat ->
  exists h', schedule addr_of (BlockCx p) (at_cpu k h i) = Ret tt (at_cpu (stored p (words_cx (callee_saved h)) k) h' i) /\ takes h i h'.
Proof.
  intros Hb Hc Hi Hg. destruct (switch_takes (BlockCx p) IdleCx h _ i (Haddr (BlockCx p) ltac:(done)) Hg Hc Hi) as (h' & E & Ht). exists h'. split; [|exact Ht].
  unfold schedule, idle_process_cx_ptr. rewrite (switch_eval (BlockCx p) IdleCx _ _ (at_cpu k h i) _ (cx_read_block p b k h i Hb) eq_refl E).
  cbn [os hw idle_process_cx sw_hart sw_cur sw_next]. rewrite (bind_Ret _ _ _ _ _ (cx_write_block p b _ k h' i Hb)). cbn. by rewrite words_cx_words.
Qed.
Lemma schedule_local_run k h i : cx_ok i -> length (gpr h) = 32%nat ->
  exists h', schedule addr_of LocalCx (at_cpu k h i) = Ret tt (at_cpu k h' i) /\ takes h i h'.
Proof.
  intros Hi Hg. destruct (switch_takes LocalCx IdleCx h ProcessContext_zero_init i (Haddr LocalCx ltac:(done)) Hg ltac:(done) Hi) as (h' & E & Ht). exists h'. split; [|exact Ht].
  unfold schedule, idle_process_cx_ptr. rewrite (switch_eval LocalCx IdleCx _ _ (at_cpu k h i) _ eq_refl eq_refl E). cbn. by rewrite words_cx_words.
Qed.

(** The switch into the process the queues choose. *)
Lemma run_process_run k h i k' : run_process_turn k = Ret tt k' -> running k = None -> cxs_ok k -> length (gpr h) = 32%nat ->
  match running k' with
  | None => run_process addr_of (at_cpu k h i) = Ret tt (at_cpu k' h i)
  | Some p => cx_ok i -> exists b h', heap k' !! p = Some b /\ run_process addr_of (at_cpu k h i) = Ret tt (at_cpu k' h' (words_cx (callee_saved h))) /\
      takes h (process_cx (sched b)) h'
  end.
Proof.
  intros E Hr Hk Hg. unfold run_process_turn in E. apply bind_inv in E as (o & k1 & E1 & E).
  assert (Hf : on_os fetch_process (at_cpu k h i) = Ret o (at_cpu k1 h i)) by (unfold on_os, zoom; cbn [os]; by rewrite E1).
  assert (H1 : heap k1 = heap k /\ running k1 = None).
  { unfold fetch_process, on_manager, zoom in E1. destruct (ProcessManager_fetch _); [|done]. by injection E1 as _ <-. }
  destruct H1 as [Hh1 Hr1]. unfold run_process. rewrite (bind_Ret _ _ _ _ _ Hf). destruct o as [p|]; [|injection E as <-; by rewrite Hr1].
  apply bind_inv in E as (u & k2 & (b & Hb & ->)%update_inv & E). injection E as <-. cbn [running set_running]. intros Hi.
  set (b1 := set_status Running b). set (k2 := set_heap (<[p := b1]> (heap k1)) k1). set (k3 := set_running (Some p) k2).
  assert (Hb1 : heap k3 !! p = Some b1) by (cbn; by rewrite lookup_insert_eq).
  assert (Hc : cx_ok (process_cx (sched b1))) by (apply (Hk p b); by rewrite <- Hh1).
  assert (E2 : on_os (update p (set_status Running)) (at_cpu k1 h i) = Ret tt (at_cpu k2 h i)) by (unfold on_os, zoom; cbn [os]; by rewrite (update_run k1 p b _ Hb)).
  rewrite (bind_Ret _ _ _ _ _ E2). rewrite (bind_Ret (on_os (modify (set_running (Some p)))) _ (at_cpu k2 h i) tt (at_cpu k3 h i) eq_refl).
  destruct (switch_takes IdleCx (BlockCx p) h i _ ltac:(by apply objects_apart_sym, Haddr) Hg Hi Hc) as (h' & E3 & Ht).
  exists b1, h'. split; [exact Hb1|]. split; [|exact Ht]. unfold idle_process_cx_ptr.
  rewrite (switch_eval IdleCx (BlockCx p) _ _ (at_cpu k3 h i) _ eq_refl (cx_read_block p b1 k3 h i Hb1) E3).
  cbn [os hw idle_process_cx sw_hart sw_cur sw_next]. rewrite words_cx_words.
  change (bind (cx_write IdleCx (words_cx (callee_saved h))) (fun _ => cx_write (BlockCx p) (process_cx (sched b1))) (at_cpu k3 h' i))
    with (cx_write (BlockCx p) (process_cx (sched b1)) (at_cpu k3 h' (words_cx (callee_saved h)))).
  rewrite (cx_write_block p b1 _ k3 h' _ Hb1). by rewrite stored_own.
Qed.

(** A step of the machine: the idle loop chooses a process; the process that runs, in
    user mode or in the kernel, does anything to the registers; it gives the
    processor up, waiting or for good. *)
Inductive hstep : cpu_kernel T -> cpu_kernel T -> Prop :=
  | hs_run s s' : running (os s) = None -> run_process addr_of s = Ret tt s' -> hstep s s'
  | hs_work s p k' h : running (os s) = Some p -> kstep env (os s) k' -> running k' = Some p -> length (gpr h) = 32%nat ->
      hstep s (at_cpu k' h (idle_process_cx s))
  | hs_wait s p k' h b s' : running (os s) = Some p -> kstep env (os s) k' -> running k' = None -> heap k' !! p = Some b ->
      process_status (sched b) = Ready -> length (gpr h) = 32%nat ->
      schedule addr_of (BlockCx p) (at_cpu k' h (idle_process_cx s)) = Ret tt s' -> hstep s s'
  | hs_exit s p k' h s' : running (os s) = Some p -> kstep env (os s) k' -> running k' = None ->
      length (gpr h) = 32%nat -> schedule addr_of LocalCx (at_cpu k' h (idle_process_cx s)) = Ret tt s' -> hstep s s'.
(** A step after which [p] does not run. *)
Definition hstep_but p s s' : Prop := hstep s s' /\ running (os s') <> Some p.

Record cpu_ok s : Prop := {
  co_tree : tree_inv (tree_of (os s));
  co_cxs : cxs_ok (os s);
  co_idle : cx_ok (idle_process_cx s);
  co_regs : length (gpr (hw s)) = 32%nat;
}.

Lemma tree_of_stored p c k : tree_of (stored p c k) = tree_of k.
Proof.
  unfold tree_of, stored. cbn. f_equal. apply map_eq. intros q. rewrite !lookup_fmap. destruct (decide (p = q)) as [<-|Hne].
  - rewrite lookup_alter_eq. by destruct (heap k !! p).
  - by rewrite lookup_alter_ne.
Qed.
Lemma stored_cxs p c k : cx_ok c -> cxs_ok k -> cxs_ok (stored p c k).
Proof.
  intros Hc Hk q b Hq. cbn in Hq. destruct (decide (p = q)) as [<-|Hne].
  - rewrite lookup_alter_eq in Hq. destruct (heap k !! p); [|done]. by injection Hq as <-.
  - rewrite lookup_alter_ne in Hq by done. by apply (Hk q).
Qed.
Lemma stored_waits p q n c x k : p <> q -> waits q n c k -> waits q n c (stored p x k).
Proof. intros Hne (Hr & Hq & b & Hb & Hs). split; [exact Hr|split; [exact Hq|]]. exists b. split; [|exact Hs]. cbn. by rewrite lookup_alter_ne. Qed.

Lemma run_process_turn_of s s' : run_process addr_of s = Ret tt s' -> exists k', run_process_turn (os s) = Ret tt k'.
Proof.
  intros E. unfold run_process in E. apply bind_inv in E as (o & s1 & E1 & E). unfold on_os, zoom in E1.
  unfold run_process_turn. destruct (fetch_process (os s)) as [o' k1|] eqn:Ef; [|done]. injection E1 as -> <-. rewrite (bind_Ret _ _ _ _ _ Ef).
  destruct o as [p|]; [|eauto]. apply bind_inv in E as (u & s2 & E2 & _). unfold on_os, zoom in E2. cbn [os] in E2.
  destruct (update p _ k1) as [u' k2|] eqn:Eu; [|done]. rewrite (bind_Ret _ _ _ _ _ Eu). unfold modify. eauto.
Qed.

(** What the idle loop leaves. *)
Lemma run_process_inv s s' : cpu_ok s -> running (os s) = None -> run_process addr_of s = Ret tt s' ->
  run_process_turn (os s) = Ret tt (os s') /\
    (running (os s') = None -> s' = at_cpu (os s') (hw s) (idle_process_cx s)) /\
    (forall p, running (os s') = Some p -> idle_process_cx s' = words_cx (callee_saved (hw s)) /\
    exists b, heap (os s') !! p = Some b /\ takes (hw s) (process_cx (sched b)) (hw s')).
Proof.
  intros [_ Hc Hi Hg] Hr E. destruct (run_process_turn_of s s' E) as [k' Et]. destruct s as [k h i]. cbn [os hw idle_process_cx] in *.
  pose proof (run_process_run k h i k' Et Hr Hc Hg) as H1. destruct (running k') as [p|] eqn:Hr'.
  - destruct (H1 Hi) as (b & h' & Hb & E2 & Ht). rewrite E2 in E. injection E as <-. cbn [os hw idle_process_cx]. rewrite Hr'.
    split; [exact Et|split; [done|]]. intros q [= <-]. split; [done|]. by exists b.
  - rewrite H1 in E. injection E as <-. cbn [os hw idle_process_cx]. rewrite Hr'. by split_and!.
Qed.

Lemma running_block s p : cpu_ok s -> running (os s) = Some p -> exists b, heap (os s) !! p = Some b.
Proof. intros Ho Hr. destruct (running_lookup _ p (co_tree _ Ho) Hr) as (b & Hb & _). eauto. Qed.

Lemma hstep_ok s s' : cpu_ok s -> hstep s s' -> cpu_ok s'.
Proof.
  intros Ho Hs. destruct Hs as [s s' Hr E|s p k' h Hr Hk Hr' Hg|s p k' h b s' Hr Hk Hr' Hb Hst Hg E|s p k' h s' Hr Hk Hr' Hg E].
  - destruct (run_process_inv s s' Ho Hr E) as (Et & Hn & Hp). pose proof (step_run env _ _ Hr Et) as Hk. destruct Ho as [Ht Hc Hi Hg].
    destruct (running (os s')) as [p|] eqn:Hr'.
    + destruct (Hp p eq_refl) as (Hid & b & Hb & Htk). split; [by apply (kstep_inv env _ _ Ht Hk)|by apply (kstep_sizes env _ _ Hk)|by rewrite Hid|apply Htk].
    + rewrite Hn by done. split; cbn; [by apply (kstep_inv env _ _ Ht Hk)|by apply (kstep_sizes env _ _ Hk)|done|done].
  - destruct Ho as [Ht Hc Hi _]. split; cbn; [by apply (kstep_inv env _ _ Ht Hk)|by apply (kstep_sizes env _ _ Hk)|done|done].
  - destruct Ho as [Ht Hc Hi _]. pose proof (kstep_sizes env _ _ Hk Hc) as Hc'.
    destruct (schedule_run p b k' h _ Hb (Hc' _ _ Hb) Hi Hg) as (h' & E' & Htk). rewrite E' in E. injection E as <-.
    split; cbn [os hw idle_process_cx]; [rewrite tree_of_stored; by apply (kstep_inv env _ _ Ht Hk)|by apply stored_cxs|done|apply Htk].
  - destruct Ho as [Ht Hc Hi _]. destruct (schedule_local_run k' h _ Hi Hg) as (h' & E' & Htk). rewrite E' in E. injection E as <-.
    split; cbn [os hw idle_process_cx]; [by apply (kstep_inv env _ _ Ht Hk)|by apply (kstep_sizes env _ _ Hk)|done|apply Htk].
Qed.
Lemma hsteps_ok s s' : cpu_ok s -> rtc hstep s s' -> cpu_ok s'.
Proof. intros Ho Hs. induction Hs as [|s1 s2 s3 H1 _ IH]; [done|]. apply IH. by apply (hstep_ok s1). Qed.

Lemma hstep_waits p n c s s' : cpu_ok s -> hstep_but p s s' -> waits p n c (os s) -> waits p n c (os s').
Proof.
  intros Ho [Hs Hr''] Hw. destruct Hs as [s s' Hr E|s q k' h Hr Hk Hr' Hg|s q k' h b s' Hr Hk Hr' Hb Hst Hg E|s q k' h s' Hr Hk Hr' Hg E].
  - destruct (run_process_inv s s' Ho Hr E) as (Et & _). by apply (kstep_waits env p n c _ _ (step_run env _ _ Hr Et)).
  - by apply (kstep_waits env p n c _ _ Hk).
  - destruct Ho as [Ht Hc Hi _]. pose proof (kstep_sizes env _ _ Hk Hc) as Hc'.
    destruct (schedule_run q b k' h _ Hb (Hc' _ _ Hb) Hi Hg) as (h' & E' & Htk). rewrite E' in E. injection E as <-. cbn [os] in *.
    apply stored_waits; [intros ->; by destruct Hw|]. apply (kstep_waits env p n c _ _ Hk); [by rewrite Hr'|done].
  - destruct Ho as [Ht Hc Hi _]. destruct (schedule_local_run k' h _ Hi Hg) as (h' & E' & Htk). rewrite E' in E. injection E as <-. cbn [os] in *.
    apply (kstep_waits env p n c _ _ Hk); [by rewrite Hr'|done].
Qed.
Lemma hsteps_waits p n c s s' : cpu_ok s -> rtc (hstep_but p) s s' -> waits p n c (os s) -> waits p n c (os s') /\ cpu_ok s'.
Proof.
  intros Ho Hs Hw. induction Hs as [|s1 s2 s3 H1 _ IH]; [done|]. apply IH; [by apply (hstep_ok s1); [|apply H1]|by apply (hstep_waits p n c s1)].
Qed.

(** The switch back takes the stored context. *)
Lemma waits_resume p n c s1 s2 s3 : cpu_ok s1 -> waits p n c (os s1) -> rtc (hstep_but p) s1 s2 ->
  running (os s2) = None -> run_process addr_of s2 = Ret tt s3 -> running (os s3) = Some p ->
  takes (hw s2) c (hw s3) /\ idle_process_cx s3 = words_cx (callee_saved (hw s2)).
Proof.
  intros Ho Hw Hs Hr E Hr'. destruct (hsteps_waits p n c s1 s2 Ho Hs Hw) as [(_ & Hq & b & Hb & Hst & Hc & Hn) Ho2].
  destruct (run_process_inv s2 s3 Ho2 Hr E) as (Et & _ & Hp). destruct (Hp p Hr') as (Hid & b3 & Hb3 & Ht). split; [|exact Hid].
  assert (Hcx : process_cx (sched b3) = c); [|by rewrite <- Hcx].
  revert Et Hb3 Hr'. clear -Hb Hc Hr. generalize (os s3). intros k3 Et Hb3 Hr'. unfold run_process_turn in Et. apply bind_inv in Et as (o & k1 & E1 & E).
  assert (Hh : heap k1 = heap (os s2) /\ running k1 = running (os s2)) by (unfold fetch_process, on_manager, zoom in E1; destruct (ProcessManager_fetch _); [|done]; by injection E1 as _ <-).
  destruct Hh as [Hh Hr1]. destruct o as [q|]; [|injection E as <-; congruence]. apply bind_inv in E as (u & k2 & (b' & Hb' & ->)%update_inv & E). injection E as <-.
  cbn in Hr', Hb3. injection Hr' as ->. rewrite lookup_insert_eq in Hb3. injection Hb3 as <-. rewrite Hh in Hb'. assert (b' = b) as -> by congruence. exact Hc.
Qed.
Lemma waits_in_tree p b k : tree_inv (tree_of k) -> heap k !! p = Some b -> process_status (sched b) = Ready -> running k <> Some p ->
  waits p (pid b) (process_cx (sched b)) k.
Proof.
  intros Hi Hb Hs Hr. split; [exact Hr|split; [|eauto]]. apply (ti_queue _ Hi p). exists (core_of b). split; [by apply core_lookup|done].
Qed.

Lemma sys_fork_inv k p v k' : tree_inv (tree_of k) -> running k = Some p -> sys_fork env k = Ret v k' ->
  exists c b, heap k !! c = None /\ heap k' !! c = Some b /\ process_status (sched b) = Ready /\
    process_cx (sched b) = goto_trap_return (b_trap_return env) (KernelStack_top (pid b)) /\ v = as_isize (pid b) /\ running k' = Some p.
Proof.
  intros Hi Hr E. unfold sys_fork, current_process in E. unfold bind at 1 in E. rewrite Hr, bind_unwrap in E.
  destruct (running_lookup k p Hi Hr) as (b & Hb & Hs). apply bind_inv in E as (x & k1 & E1 & E).
  destruct (fork_inv env k p b x k1 Hb E1) as (Hx & n & s' & nb & Ha & [Hnb Hcx] & Hh & Hin & Hm & _ & Hrun & _).
  assert (Hbx : heap k1 !! x = Some nb) by (rewrite Hh, lookup_insert_ne, lookup_insert_eq by congruence; done).
  rewrite (bind_Ret _ _ _ _ _ (deref_run k1 x nb Hbx)) in E. unfold bind at 1 in E. cbn [modify] in E.
  apply bind_inv in E as (u & k2 & E2 & E). injection E as <- <-. unfold add_process in E2.
  pose proof (ti_manager _ Hi) as Hmg. cbn in Hmg.
  match type of E2 with add_process_with_priority x 0 ?K = _ => destruct (add_process_run K x nb 0) as (i & q & _ & _ & _ & E3) end; [cbn; by rewrite Hm|lia|exact Hbx|].
  rewrite E3 in E2. injection E2 as _ <-. exists x, nb. split; [exact Hx|]. split; [exact Hbx|].
  assert (Hn : pid nb = n) by (change (c_pid (core_of nb) = n); by rewrite Hnb).
  split; [change (c_status (core_of nb) = Ready); by rewrite Hnb|]. split; [by rewrite Hn|]. split; [done|]. cbn. by rewrite Hrun.
Qed.

(** The machine before the first switch. *)
Record cpu_boot s : Prop := {
  cb_boot : boot_state (os s);
  cb_processor : PROCESSOR s = Processor_new;
  cb_cxs : cxs_ok (os s);
  cb_regs : length (gpr (hw s)) = 32%nat;
}.
Lemma cpu_boot_ok s : cpu_boot s -> cpu_ok s.
Proof. intros [Hb Hp Hc Hg]. injection Hp as _ Hid. split; [by apply boot_inv|done|by rewrite Hid|done]. Qed.

(** C8. In any history of the machine from boot, in which the running process may change every
    register: when a process gives the processor up, its call of schedule goes through and the idle
    loop continues with the registers it had at its own switch; and when, after any number of steps
    of other processes, the idle loop chooses that process again, it continues at the return
    address, with the stack pointer and the saved registers of its call. *)
Theorem switch_resumes s0 s p k' h b :
  cpu_boot s0 -> rtc hstep s0 s -> running (os s) = Some p -> kstep env (os s) k' -> running k' = None ->
  heap k' !! p = Some b -> process_status (sched b) = Ready -> length (gpr h) = 32%nat ->
  exists s1, schedule addr_of (BlockCx p) (at_cpu k' h (idle_process_cx s)) = Ret tt s1 /\
    callee_saved (hw s1) = cx_words (idle_process_cx s) /\ pc (hw s1) = ra (idle_process_cx s) /\
    forall s2 s3, rtc (hstep_but p) s1 s2 -> running (os s2) = None -> run_process addr_of s2 = Ret tt s3 -> running (os s3) = Some p ->
      callee_saved (hw s3) = callee_saved h /\ pc (hw s3) = xget 1 h /\ idle_process_cx s3 = words_cx (callee_saved (hw s2)).
Proof.
  intros Hb0 Hs Hr Hk Hr' Hb Hst Hg. pose proof (hsteps_ok _ _ (cpu_boot_ok _ Hb0) Hs) as Ho. pose proof (kstep_sizes env _ _ Hk (co_cxs _ Ho)) as Hc'.
  destruct (schedule_run p b k' h _ Hb (Hc' _ _ Hb) (co_idle _ Ho) Hg) as (h1 & E & Ht). eexists. split; [exact E|].
  split; [apply Ht|split; [apply Ht|]]. intros s2 s3 Hs2 Hr2 E3 Hr3.
  assert (Ho1 : cpu_ok (at_cpu (stored p (words_cx (callee_saved h)) k') h1 (idle_process_cx s))) by (apply (hstep_ok s); [done|by apply (hs_wait s p k' h b)]).
  set (b1 := set_cx (words_cx (callee_saved h)) b).
  assert (Hw : waits p (pid b1) (words_cx (callee_saved h)) (stored p (words_cx (callee_saved h)) k')).
  { apply (waits_in_tree p b1); [apply Ho1| |exact Hst|by cbn; rewrite Hr']. cbn. by rewrite lookup_alter_eq, Hb. }
  destruct (waits_resume p _ _ _ s2 s3 Ho1 Hw Hs2 Hr2 E3 Hr3) as [Ht3 Hid]. split; [rewrite (tk_saved _ _ _ Ht3); done|split; [exact (tk_pc _ _ _ Ht3)|exact Hid]].
Qed.

(** A new process is entered at [trap_return] on its own kernel stack. *)
Theorem switch_enters s0 s p k' h v : cpu_boot s0 -> rtc hstep s0 s -> running (os s) = Some p ->
  p_current (pids (os s)) + 1 < 2 ^ 64 -> sys_fork env (os s) = Ret v k' -> length (gpr h) = 32%nat ->
  exists c b, heap (os s) !! c = None /\ heap k' !! c = Some b /\ v = as_isize (pid b) /\
    forall s2 s3, rtc (hstep_but c) (at_cpu k' h (idle_process_cx s)) s2 -> running (os s2) = None -> run_process addr_of s2 = Ret tt s3 -> running (os s3) = Some c ->
      pc (hw s3) = b_trap_return env /\ xget Reg.sp (hw s3) = KernelStack_top (pid b).
Proof.
  intros Hb0 Hs Hr Hp E Hg. pose proof (hsteps_ok _ _ (cpu_boot_ok _ Hb0) Hs) as Ho.
  destruct (sys_fork_inv _ p v k' (co_tree _ Ho) Hr E) as (c & b & Hc & Hb & Hst & Hcx & Hv & Hr').
  pose proof (step_fork env _ _ _ Hp E) as Hk. exists c, b. split; [exact Hc|split; [exact Hb|split; [exact Hv|]]]. intros s2 s3 Hs2 Hr2 E3 Hr3.
  assert (Ho1 : cpu_ok (at_cpu k' h (idle_process_cx s))) by (apply (hstep_ok s); [done|by apply (hs_work s p)]).
  assert (Hne : running k' <> Some c).
  { rewrite Hr'. destruct (running_lookup _ p (co_tree _ Ho) Hr) as (bp & Hbp & _). congruence. }
  assert (Hw : waits c (pid b) (process_cx (sched b)) k') by (apply waits_in_tree; [apply Ho1|done|done|done]).
  destruct (waits_resume c _ _ _ s2 s3 Ho1 Hw Hs2 Hr2 E3 Hr3) as [Ht _]. rewrite Hcx in Ht. destruct Ht as [Hsv Hpc _ _].
  split; [exact Hpc|]. cbn in Hsv. by injection Hsv.
Qed.
End resumes.

(** ** A switch *)

(** The first process yields and is chosen again. *)
Definition first_yield : kernel StackFrameAllocator :=
  set_running None (set_heap {[0%nat := set_status Ready (set_status Running boot_pcb)]} first_run).
Definition yielded : kernel StackFrameAllocator := set_manager (set_queues [[0%nat]; []; []; []] ProcessManager_new) first_yield.
Definition demo_cx_addr (c : cx_place) : Z := match c with IdleCx => 0x80400000 | _ => 0x80500000 end.
Definition demo_hart (x : Z) : hart := {| gpr := (fun i => x + Z.of_nat i) <$> seq 0 32; csrs := fun _ => 0; pc := 0x80200000; user_mode := false |}.

Lemma demo_cx_apart c : c <> IdleCx -> objects_apart (demo_cx_addr c) (demo_cx_addr IdleCx).
Proof. destruct c; [done|intros _; split; cbn; lia..]. Qed.

Lemma switch_resumes_witness : exists s1 s3 : cpu_kernel StackFrameAllocator,
  run_process demo_cx_addr s1 = Ret tt s3 /\ callee_saved (hw s3) = callee_saved (demo_hart 500) /\ pc (hw s3) = 501.
Proof.
  set (s0 := Build_cpu_kernel boot_kernel (demo_hart 100) ProcessContext_zero_init).
  assert (Hcx : cxs_ok boot_kernel) by (intros p b Hp; cbn in Hp; apply lookup_singleton_Some in Hp as [<- <-]; reflexivity).
  destruct (run_process_run demo_cx_addr demo_cx_apart boot_kernel (demo_hart 100) ProcessContext_zero_init first_run eq_refl eq_refl Hcx eq_refl eq_refl)
    as (b & h' & Hb & E & Ht). set (s := Build_cpu_kernel first_run h' _) in E.
  assert (Hy : suspend_current first_run = Ret tt yielded) by reflexivity.
  set (by_ := set_status Ready (set_status Running boot_pcb)).
  destruct (switch_resumes demo_env demo_cx_addr demo_cx_apart s0 s 0 yielded (demo_hart 500) by_) as (s1 & E1 & _ & _ & Hback).
  - split; [exact boot_kernel_state|reflexivity|exact Hcx|reflexivity].
  - apply rtc_once, hs_run; [reflexivity|exact E].
  - reflexivity.
  - by apply step_yield.
  - reflexivity.
  - reflexivity.
  - reflexivity.
  - reflexivity.
  - destruct (schedule_run demo_cx_addr demo_cx_apart 0 by_ yielded (demo_hart 500) (idle_process_cx s) eq_refl eq_refl eq_refl eq_refl) as (h1 & E2 & Ht1).
    rewrite E2 in E1. injection E1 as <-. set (k1 := stored 0 _ yielded) in *. set (b1 := set_cx (words_cx (callee_saved (demo_hart 500))) by_).
    assert (Hb1 : heap k1 !! 0%nat = Some b1) by reflexivity.
    assert (Hc1 : cxs_ok k1) by (intros p b2 Hp; cbn in Hp; rewrite alter_singleton_eq in Hp; apply lookup_singleton_Some in Hp as [<- <-]; reflexivity).
    pose proof (run_turn_run k1 0 b1 [[]; []; []; []] eq_refl Hb1) as Et.
    pose proof (run_process_run demo_cx_addr demo_cx_apart k1 h1 (idle_process_cx s) _ Et eq_refl Hc1 (tk_regs _ _ _ Ht1)) as Hrun.
    destruct (Hrun eq_refl) as (b3 & h3 & _ & E3 & _). eexists _, _. split; [exact E3|].
    destruct (Hback _ _ (rtc_refl _ _) eq_refl E3 eq_refl) as (Hsv & Hpc & _). split; [exact Hsv|exact Hpc].
Defined.
