(* ===== verification/BlockCache.v ===== *)
(** The block cache of the file system: [components/src/micro_fs/block_cache.rs],
    the device trait of [block_dev.rs] and the device of [micro-fs-fuse/src/main.rs].

    A cached block is an object behind an [Arc<Mutex<_>>]; the code always takes
    the lock in the statement that gets the [Arc] and drops both together, so one
    list, [held], stands for the outstanding references and the taken locks.
    What the cache promises to the file system is the class [BlockStoreLaws]: an
    array of blocks, of which distinct ones can be open at a time. *)
From S2P Require Import Prelude.

Definition BLOCK_SZ : Z := 512.
Definition block_size : nat := 512.
Record block_ok (b : list Z) : Prop := { blk_len : length b = block_size; blk_bytes : is_bytes b }.

(** ** Devices *)

Class BlockDevice (D : Type) := {
  read_block : Z -> M D (list Z);
  write_block : Z -> list Z -> M D unit;
}.

(** What the trait documents: a block that is written is what is read back, and
    no other block changes. *)
Class BlockDeviceLaws (D : Type) `{BlockDevice D} := {
  dev_blocks : D -> Z;
  dev_data : D -> Z -> list Z;
  dev_ok : D -> Prop;
  dev_data_ok d id : dev_ok d -> 0 <= id < dev_blocks d -> block_ok (dev_data d id);
  dev_read d id : dev_ok d -> 0 <= id < dev_blocks d -> read_block id d = Ret (dev_data d id) d;
  dev_write d id b : dev_ok d -> 0 <= id < dev_blocks d -> block_ok b ->
    exists d', write_block id b d = Ret tt d' /\ dev_ok d' /\ dev_blocks d' = dev_blocks d /\
      forall j, 0 <= j < dev_blocks d -> dev_data d' j = if j =? id then b else dev_data d j;
}.

(** A file used as a disk image: its bytes.  A read at the end is short, a write
    past the end fills the gap with zeros. *)
Definition BlockFile : Type := list Z.
Definition BlockFile_read_block (block_id : Z) : M BlockFile (list Z) :=
  fun file =>
    let buf := slice file (Z.to_nat (u64 (block_id * BLOCK_SZ))) block_size in
    (assert (length buf =? block_size)%nat ;;; ret buf) file.
Definition BlockFile_write_block (block_id : Z) (buf : list Z) : M BlockFile unit :=
  let pos := Z.to_nat (u64 (block_id * BLOCK_SZ)) in
  modify (fun file => splice (file ++ replicate (pos - length file) 0) pos buf) ;;;
  assert (length buf =? block_size)%nat.
#[export] Instance BlockFile_device : BlockDevice BlockFile := {
  read_block := BlockFile_read_block; write_block := BlockFile_write_block;
}.

(** ** Cached blocks *)

Definition BLOCK_CACHE_SIZE : nat := 16.

Record BlockCache := { cache : list Z; block_id : Z; modified : bool }.

(** Values that live in a block: their size and bytes.  [encode] may leave out
    trailing padding, which a write through a reference does not touch. *)
Record pod (T : Type) := {
  size_of : nat;
  decode : list Z -> option T;
  encode : T -> list Z;
}.
Arguments size_of {T} _. Arguments decode {T} _ _. Arguments encode {T} _ _.
Definition pod_bytes (n : nat) : pod (list Z) := {| size_of := n; decode := Some; encode := id |}.

Section access.
Context {S T V : Type} (P : pod T).

Definition ref_at (self : BlockCache) (offset : Z) : M S T :=
  assert (offset + Z.of_nat (size_of P) <=? BLOCK_SZ) ;;;
  match decode P (slice (cache self) (Z.to_nat offset) (size_of P)) with
  | Some t => ret t
  | None => fail Invalid
  end.

(** [read] and [modify]: the closure gets the value and, for [modify], leaves a new one. *)
Definition BlockCache_read (self : BlockCache) (offset : Z) (f : T -> M S V) : M S V :=
  let! t := ref_at self offset in f t.
Definition BlockCache_modify (self : BlockCache) (offset : Z) (f : T -> M S (V * T)) : M S (V * BlockCache) :=
  let! t := ref_at self offset in
  let! '(v, t') := f t in
  ret (v, {| cache := splice (cache self) (Z.to_nat offset) (encode P t'); block_id := block_id self;
             modified := true |}).
End access.

Section cache.
Context {D : Type} `{BlockDevice D}.

Definition BlockCache_new (block_id : Z) : M D BlockCache :=
  let! buf := read_block block_id in
  ret {| cache := buf; block_id := block_id; modified := false |}.
Definition BlockCache_sync (self : BlockCache) : M D BlockCache :=
  if modified self then
    write_block (block_id self) (cache self) ;;;
    ret {| cache := cache self; block_id := block_id self; modified := false |}
  else ret self.
Definition BlockCache_drop (self : BlockCache) : M D unit :=
  let! _ := BlockCache_sync self in ret tt.
End cache.

(** ** The manager *)

Record store (D : Type) := { queue : list (Z * BlockCache); held : list Z; device : D }.
Arguments queue {D} _. Arguments held {D} _. Arguments device {D} _.
Arguments Build_store {D} _ _ _.

Section manager.
Context {D : Type} `{BlockDevice D}.

Definition set_queue (q : list (Z * BlockCache)) (s : store D) : store D :=
  {| queue := q; held := held s; device := device s |}.
Definition set_held (h : list Z) (s : store D) : store D :=
  {| queue := queue s; held := h; device := device s |}.
Definition set_device (d : D) (s : store D) : store D :=
  {| queue := queue s; held := held s; device := d |}.
Definition on_device {A} (m : M D A) : M (store D) A := zoom device set_device m.

Definition BlockCacheManager_new (d : D) : store D := {| queue := []; held := []; device := d |}.

Definition cached (q : list (Z * BlockCache)) (id : Z) : option BlockCache :=
  snd <$> List.find (fun e => e.1 =? id) q.
(** [Arc::strong_count]: the queue's reference and the outstanding ones. *)
Definition arc_count (s : store D) (id : Z) : nat := S (length (filter (eq id) (held s))).

(** Makes room: the first block in the queue that nobody holds is dropped. *)
Definition evict : M (store D) unit :=
  let! s := get in
  match find_index (fun e => arc_count s e.1 =? 1)%nat (queue s) with
  | Some idx =>
      let! e := unwrap (queue s !! idx) in
      on_device (BlockCache_drop e.2) ;;;
      modify (fun s => set_queue (delete idx (queue s)) s)
  | None => fail Explicit
  end.

(** [block_cache]: the reference returned is one more in [held]. *)
Definition block_cache (id : Z) : M (store D) unit :=
  let! s := get in
  match cached (queue s) id with
  | Some _ => ret tt
  | None =>
      (if (length (queue s) =? BLOCK_CACHE_SIZE)%nat then evict else ret tt) ;;;
      let! c := on_device (BlockCache_new id) in
      modify (fun s => set_queue (queue s ++ [(id, c)]) s)
  end ;;;
  modify (fun s => set_held (id :: held s) s).

Fixpoint drop_ref (id : Z) (h : list Z) : list Z :=
  match h with
  | [] => []
  | x :: h => if x =? id then h else x :: drop_ref id h
  end.

(** [.lock()] on the block just obtained, and the end of the statement. *)
Definition lock (id : Z) : M (store D) BlockCache :=
  let! s0 := get in
  block_cache id ;;;
  if bool_decide (id ∈ held s0) then fail Deadlock
  else let! s := get in unwrap (cached (queue s) id).
Definition unlock (c : BlockCache) : M (store D) unit :=
  modify (fun s =>
    {| queue := (fun e => if e.1 =? block_id c then (e.1, c) else e) <$> queue s;
       held := drop_ref (block_id c) (held s); device := device s |}).

Fixpoint sync_queue (h : list Z) (q : list (Z * BlockCache)) : M D (list (Z * BlockCache)) :=
  match q with
  | [] => ret []
  | (id, c) :: q =>
      (if bool_decide (id ∈ h) then fail Deadlock else ret tt) ;;;
      let! c' := BlockCache_sync c in
      let! q' := sync_queue h q in
      ret ((id, c') :: q')
  end.
Definition block_cache_sync_all : M (store D) unit :=
  let! s := get in
  let! q := on_device (sync_queue (held s) (queue s)) in
  modify (set_queue q).
End manager.

(** ** What the cache promises *)

Class BlockStore (S : Type) := {
  bs_lock : Z -> M S BlockCache;
  bs_unlock : BlockCache -> M S unit;
  bs_sync_all : M S unit;
}.
#[export] Instance cache_store {D} `{BlockDevice D} : BlockStore (store D) := {
  bs_lock := lock; bs_unlock := unlock; bs_sync_all := block_cache_sync_all;
}.

(** [block_cache(id, dev).lock().read(offset, f)] and [.modify(offset, f)]. *)
Definition read_in {S T V} `{BlockStore S} (P : pod T) (id offset : Z) (f : T -> M S V) : M S V :=
  let! c := bs_lock id in
  let! v := BlockCache_read P c offset f in
  bs_unlock c ;;; ret v.
Definition modify_in {S T V} `{BlockStore S} (P : pod T) (id offset : Z) (f : T -> M S (V * T)) : M S V :=
  let! c := bs_lock id in
  let! '(v, c') := BlockCache_modify P c offset f in
  bs_unlock c' ;;; ret v.

(** [bs_view] is the array of blocks as the file system sees it, [bs_disk] what is
    on the device, [bs_guard] the object behind an open block. *)
Class BlockStoreLaws (S : Type) `{BlockStore S} := {
  bs_ok : S -> Prop;
  bs_blocks : S -> Z;
  bs_view : S -> Z -> list Z;
  bs_disk : S -> Z -> list Z;
  bs_held : S -> list Z;
  bs_guard : S -> Z -> option BlockCache;
  bs_view_ok s id : bs_ok s -> 0 <= id < bs_blocks s -> block_ok (bs_view s id);
  bs_lock_run s id : bs_ok s -> 0 <= id < bs_blocks s -> id ∉ bs_held s ->
    (length (bs_held s) < BLOCK_CACHE_SIZE)%nat ->
    exists c s', bs_lock id s = Ret c s' /\ cache c = bs_view s id /\ block_id c = id /\
      bs_ok s' /\ bs_blocks s' = bs_blocks s /\ bs_held s' = id :: bs_held s /\ bs_guard s' id = Some c /\
      (forall j, j ∈ bs_held s -> bs_guard s' j = bs_guard s j) /\
      (forall j, 0 <= j < bs_blocks s -> bs_view s' j = bs_view s j);
  bs_lock_twice s id : bs_ok s -> id ∈ bs_held s -> bs_lock id s = Panic Deadlock;
  bs_unlock_run s id h c : bs_ok s -> bs_held s = id :: h -> block_id c = id -> block_ok (cache c) ->
    modified c = true \/ bs_guard s id = Some c ->
    exists s', bs_unlock c s = Ret tt s' /\ bs_ok s' /\ bs_blocks s' = bs_blocks s /\ bs_held s' = h /\
      (forall j, j ∈ h -> bs_guard s' j = bs_guard s j) /\
      (forall j, 0 <= j < bs_blocks s -> bs_view s' j = if j =? id then cache c else bs_view s j);
  bs_sync_run s : bs_ok s -> bs_held s = [] ->
    exists s', bs_sync_all s = Ret tt s' /\ bs_ok s' /\ bs_blocks s' = bs_blocks s /\ bs_held s' = [] /\
      (forall j, 0 <= j < bs_blocks s -> bs_view s' j = bs_view s j /\ bs_disk s' j = bs_view s j);
}.

(** ** The cache keeps its promise *)

Section cached_lemmas.
Implicit Types (q : list (Z * BlockCache)).

Lemma cached_Some q id c : NoDup (fst <$> q) -> cached q id = Some c <-> (id, c) ∈ q.
Proof.
  unfold cached. induction q as [|[i x] q IH]; intros Hnd; cbn.
  - split; [done|]. by intros ?%elem_of_nil.
  - cbn in Hnd. apply NoDup_cons in Hnd as [Hi Hnd]. rewrite elem_of_cons. destruct (Z.eqb_spec i id) as [->|Hne].
    + cbn. split; [intros [= ->]; by left|]. intros [[= ->]|Hin]; [done|].
      destruct Hi. apply list_elem_of_fmap. by exists (id, c).
    + rewrite IH by done. split; [by right|]. intros [[= ? ?]|?]; [congruence|done].
Qed.

Lemma cached_None q id : cached q id = None <-> id ∉ fst <$> q.
Proof.
  unfold cached. induction q as [|[i x] q IH]; cbn.
  - split; [intros _; apply not_elem_of_nil|done].
  - rewrite not_elem_of_cons. destruct (Z.eqb_spec i id) as [->|Hne]; cbn.
    + split; [done|]. by intros [? _].
    + rewrite IH. intuition.
Qed.

Lemma cached_app q id j c : j ∉ fst <$> q ->
  cached (q ++ [(j, c)]) id = if id =? j then Some c else cached q id.
Proof.
  intros Hj. unfold cached. induction q as [|[i x] q IH]; cbn.
  - rewrite Z.eqb_sym. by destruct (id =? j).
  - cbn in Hj. apply not_elem_of_cons in Hj as [Hji Hj].
    destruct (Z.eqb_spec i id) as [<-|Hne]; [|auto].
    by rewrite (proj2 (Z.eqb_neq i j)) by congruence.
Qed.

Lemma cached_delete q idx i x id :
  NoDup (fst <$> q) -> q !! idx = Some (i, x) ->
  cached (delete idx q) id = if id =? i then None else cached q id.
Proof.
  unfold cached. revert idx. induction q as [|[i' x'] q IH]; intros idx Hnd Hi; [done|].
  cbn in Hnd. apply NoDup_cons in Hnd as [Hi' Hnd]. destruct idx as [|idx]; cbn in Hi |- *.
  - injection Hi as -> ->. destruct (Z.eqb_spec id i) as [Heq|Hne].
    + apply (proj2 (cached_None q id)). by rewrite Heq.
    + by rewrite (proj2 (Z.eqb_neq i id)) by congruence.
  - assert (i <> i').
    { intros ->. apply Hi'. apply list_elem_of_fmap. exists (i', x). split; [done|].
      by apply list_elem_of_lookup_2 with idx. }
    destruct (Z.eqb_spec i' id) as [Heq|]; [by rewrite (proj2 (Z.eqb_neq id i)) by congruence|]. by apply IH.
Qed.

Lemma cached_update q id c :
  cached ((fun e => if e.1 =? block_id c then (e.1, c) else e) <$> q) id =
  if id =? block_id c then (fun _ => c) <$> cached q id else cached q id.
Proof.
  unfold cached. induction q as [|[i x] q IH]; cbn [fmap list_fmap List.find].
  - by destruct (id =? _).
  - cbn [fst]. destruct (Z.eqb_spec i (block_id c)) as [Hi|Hi]; cbn [fst].
    + destruct (Z.eqb_spec i id) as [E|E]; [|exact IH]. subst i. rewrite (proj2 (Z.eqb_eq id _)) by done. done.
    + destruct (Z.eqb_spec i id) as [E|E]; [|exact IH]. subst i. by rewrite (proj2 (Z.eqb_neq id _)) by done.
Qed.

Lemma update_ids q c :
  fst <$> ((fun e => if e.1 =? block_id c then (e.1, c) else e) <$> q) = fst <$> q.
Proof.
  rewrite <- list_fmap_compose. apply list_fmap_ext. intros _ [i x] _. cbn. by destruct (i =? _).
Qed.
End cached_lemmas.

Section cache_ok.
Context {D : Type} `{DL : BlockDeviceLaws D}.
Implicit Types (s : store D).

Definition entry_ok (d : D) (id : Z) (c : BlockCache) : Prop :=
  block_id c = id /\ 0 <= id < dev_blocks d /\ block_ok (cache c) /\
  (modified c = false -> cache c = dev_data d id).

Record store_ok s : Prop := {
  so_ids : NoDup (fst <$> queue s);
  so_len : (length (queue s) <= BLOCK_CACHE_SIZE)%nat;
  so_entries id c : cached (queue s) id = Some c -> entry_ok (device s) id c;
  so_nodup : NoDup (held s);
  so_held id : id ∈ held s -> id ∈ fst <$> queue s;
  so_dev : dev_ok (device s);
}.

Definition view s (id : Z) : list Z :=
  match cached (queue s) id with Some c => cache c | None => dev_data (device s) id end.

Lemma view_ok s id : store_ok s -> 0 <= id < dev_blocks (device s) -> block_ok (view s id).
Proof.
  intros Hs Hid. unfold view. destruct (cached (queue s) id) as [c|] eqn:E.
  - by destruct (so_entries s Hs id c E) as (_ & _ & ? & _).
  - apply dev_data_ok; [apply Hs|done].
Qed.

(** Writing a block back changes the device to what the block holds. *)
Lemma sync_run d id c :
  dev_ok d -> entry_ok d id c ->
  exists d', BlockCache_sync c d = Ret {| cache := cache c; block_id := id; modified := false |} d' /\
    dev_ok d' /\ dev_blocks d' = dev_blocks d /\ dev_data d' id = cache c /\
    forall j, 0 <= j < dev_blocks d -> j <> id -> dev_data d' j = dev_data d j.
Proof.
  intros Hd (Hid & Hr & Hb & Hm). unfold BlockCache_sync. destruct c as [x i m]; cbn in *. subst i.
  destruct m.
  - destruct (dev_write d id x Hd Hr Hb) as (d' & E & Hd' & Hn & Hdata). rewrite (bind_Ret _ _ _ _ _ E).
    exists d'. split_and!; try done.
    + by rewrite Hdata, Z.eqb_refl by done.
    + intros j Hj Hne. rewrite Hdata by done. by rewrite (proj2 (Z.eqb_neq j id)).
  - exists d. split_and!; auto. by rewrite Hm.
Qed.

Lemma entry_ok_device d d' id c :
  entry_ok d id c -> dev_blocks d' = dev_blocks d -> dev_data d' id = dev_data d id -> entry_ok d' id c.
Proof. intros (? & ? & ? & ?) Hn Hd. unfold entry_ok. rewrite Hn, Hd. done. Qed.

Lemma arc_count_1 s id : (arc_count s id =? 1)%nat = true <-> id ∉ held s.
Proof.
  unfold arc_count. rewrite Nat.eqb_eq. split.
  - intros Hl Hin. assert (id ∈ filter (eq id) (held s)) by (by apply list_elem_of_filter).
    destruct (filter (eq id) (held s)); [by apply elem_of_nil in H0|done].
  - intros Hn. destruct (filter (eq id) (held s)) as [|x l] eqn:E; [done|]. exfalso.
    assert (Hx : x ∈ filter (eq id) (held s)) by (rewrite E; by left).
    apply list_elem_of_filter in Hx as [<- ?]. done.
Qed.

(** Some block can be evicted when fewer than all are held. *)
Lemma evict_candidate s :
  store_ok s -> length (queue s) = BLOCK_CACHE_SIZE -> (length (held s) < BLOCK_CACHE_SIZE)%nat ->
  exists idx id c, find_index (fun e => arc_count s e.1 =? 1)%nat (queue s) = Some idx /\
    queue s !! idx = Some (id, c) /\ id ∉ held s.
Proof.
  intros Hs Hl Hh. destruct (find_index _ (queue s)) as [idx|] eqn:E.
  - pose proof E as [([id c] & Hi & Hc%arc_count_1) _]%find_index_Some. eauto 10.
  - exfalso. apply find_index_None in E. rewrite Forall_forall in E.
    assert (Hsub : (fst <$> queue s) ⊆+ held s).
    { apply NoDup_submseteq; [apply Hs|]. intros x ([i c] & -> & Hin)%list_elem_of_fmap.
      specialize (E _ Hin). cbn [fst] in *. destruct (decide (i ∈ held s)) as [|Hn]; [done|].
      apply arc_count_1 in Hn. congruence. }
    apply submseteq_length in Hsub. rewrite length_fmap in Hsub. lia.
Qed.

Lemma delete_ids (q : list (Z * BlockCache)) idx : fst <$> delete idx q = delete idx (fst <$> q).
Proof. revert idx. induction q as [|e q IH]; intros [|idx]; cbn; [done..|]. by rewrite IH. Qed.

Lemma delete_ids_incl (q : list (Z * BlockCache)) idx x : x ∈ fst <$> delete idx q -> x ∈ fst <$> q.
Proof.
  rewrite delete_ids. generalize (fst <$> q) as l. intros l. revert idx. induction l as [|y l IH]; intros [|idx]; cbn;
    rewrite ?elem_of_cons; [done..|by right|]. intros [?|?]; [by left|right; eauto].
Qed.

Lemma evict_run s :
  store_ok s -> length (queue s) = BLOCK_CACHE_SIZE -> (length (held s) < BLOCK_CACHE_SIZE)%nat ->
  exists s', evict s = Ret tt s' /\ store_ok s' /\ S (length (queue s')) = BLOCK_CACHE_SIZE /\
    held s' = held s /\ dev_blocks (device s') = dev_blocks (device s) /\
    (forall j, j ∈ held s -> cached (queue s') j = cached (queue s) j) /\
    (forall j, j ∉ fst <$> queue s -> j ∉ fst <$> queue s') /\
    (forall j, 0 <= j < dev_blocks (device s) -> view s' j = view s j).
Proof.
  intros Hs Hl Hh. destruct (evict_candidate s Hs Hl Hh) as (idx & id & c & Hf & Hi & Hn).
  assert (Hc : cached (queue s) id = Some c).
  { apply cached_Some; [apply Hs|]. by apply list_elem_of_lookup_2 with idx. }
  pose proof (so_entries s Hs id c Hc) as He.
  destruct (sync_run (device s) id c (so_dev s Hs) He) as (d' & E & Hd' & Hnb & Hdata & Hother).
  unfold evict. rewrite bind_get, Hf, Hi, bind_unwrap. cbn [snd].
  assert (Ed : on_device (BlockCache_drop c) s = Ret tt (set_device d' s)).
  { unfold on_device, zoom, BlockCache_drop. by rewrite (bind_Ret _ _ _ _ _ E). }
  rewrite (bind_Ret _ _ _ _ _ Ed). eexists. split; [done|].
  assert (Hca : forall j, cached (delete idx (queue s)) j = if j =? id then None else cached (queue s) j)
    by (intros j; apply (cached_delete _ _ _ c); [apply Hs|done]).
  split_and!; cbn [queue held device set_queue set_device]; try done.
  - split; cbn [queue held device set_queue set_device]; try apply Hs.
    + rewrite delete_ids. eapply sublist_NoDup; [apply Hs|apply sublist_delete].
    + rewrite length_delete by (by rewrite Hi). lia.
    + intros j x. rewrite Hca. destruct (Z.eqb_spec j id) as [|Hne]; [done|]. intros Hx.
      pose proof (so_entries s Hs j x Hx) as Hx'. apply (entry_ok_device (device s)); [done|done|].
      apply Hother; [apply Hx'|done].
    + intros j Hj. apply (so_held s Hs) in Hj as Hq.
      destruct (cached (queue s) j) as [x|] eqn:Ex; [|by apply cached_None in Ex].
      assert (Hjn : j <> id) by congruence. specialize (Hca j). rewrite (proj2 (Z.eqb_neq j id) Hjn), Ex in Hca.
      destruct (decide (j ∈ fst <$> delete idx (queue s))) as [|Hnin]; [done|].
      apply cached_None in Hnin. congruence.
    + done.
  - rewrite length_delete by (by rewrite Hi). lia.
  - intros j Hj. rewrite Hca, (proj2 (Z.eqb_neq j id)); [done|congruence].
  - intros j Hj Hin. by apply Hj, (delete_ids_incl _ idx).
  - intros j Hj. unfold view. cbn [queue held device set_queue set_device]. rewrite Hca. destruct (Z.eqb_spec j id) as [->|Hne].
    + by rewrite Hc.
    + destruct (cached (queue s) j); [done|by apply Hother].
Qed.

(** A block that is not in the queue is read and appended. *)
Lemma fetch_run s id :
  store_ok s -> cached (queue s) id = None -> 0 <= id < dev_blocks (device s) ->
  (length (queue s) < BLOCK_CACHE_SIZE)%nat ->
  let c := {| cache := dev_data (device s) id; block_id := id; modified := false |} in
  on_device (BlockCache_new id) s = Ret c s /\ store_ok (set_queue (queue s ++ [(id, c)]) s).
Proof.
  intros Hs Hc Hid Hl c. split.
  - unfold on_device, zoom, BlockCache_new. rewrite (bind_Ret _ _ _ _ _ (dev_read _ _ (so_dev s Hs) Hid)).
    by destruct s.
  - apply cached_None in Hc. split; cbn [queue held device set_queue]; try apply Hs.
    + rewrite fmap_app. apply NoDup_app. split_and!; [apply Hs| |apply NoDup_singleton].
      intros x Hx ->%list_elem_of_singleton. done.
    + rewrite length_app. cbn. lia.
    + intros j x. rewrite cached_app by done. destruct (Z.eqb_spec j id) as [->|]; [|apply Hs].
      intros [= <-]. split_and!; try done; try apply Hid. apply dev_data_ok; [apply Hs|done].
    + intros j Hj. rewrite fmap_app. apply elem_of_app. left. by apply Hs.
Qed.

Lemma block_cache_run s id :
  store_ok s -> 0 <= id < dev_blocks (device s) -> id ∉ held s -> (length (held s) < BLOCK_CACHE_SIZE)%nat ->
  exists c s', block_cache id s = Ret tt s' /\ store_ok s' /\ cached (queue s') id = Some c /\
    held s' = id :: held s /\ dev_blocks (device s') = dev_blocks (device s) /\ cache c = view s id /\
    (forall j, j ∈ held s -> cached (queue s') j = cached (queue s) j) /\
    (forall j, 0 <= j < dev_blocks (device s) -> view s' j = view s j).
Proof.
  intros Hs Hid Hn Hh. unfold block_cache. rewrite bind_get.
  destruct (cached (queue s) id) as [c|] eqn:Ec.
  { exists c. eexists. split; [done|]. split_and!; try done; [|by unfold view; rewrite Ec].
    split; cbn [queue held device set_held]; try apply Hs.
    - apply NoDup_cons. split; [done|apply Hs].
    - intros j [->|Hj]%elem_of_cons; [|by apply Hs].
      destruct (decide (id ∈ fst <$> queue s)) as [|Hq]; [done|]. apply cached_None in Hq. congruence. }
  assert (exists s1, (if (length (queue s) =? BLOCK_CACHE_SIZE)%nat then evict else ret tt) s = Ret tt s1 /\
    store_ok s1 /\ (length (queue s1) < BLOCK_CACHE_SIZE)%nat /\ held s1 = held s /\
    dev_blocks (device s1) = dev_blocks (device s) /\ cached (queue s1) id = None /\
    (forall j, j ∈ held s -> cached (queue s1) j = cached (queue s) j) /\
    (forall j, 0 <= j < dev_blocks (device s) -> view s1 j = view s j)) as
    (s1 & E1 & Hs1 & Hl1 & Hh1 & Hn1 & Hc1 & Hg1 & Hv1).
  { destruct (Nat.eqb_spec (length (queue s)) BLOCK_CACHE_SIZE) as [Hl|Hl].
    - destruct (evict_run s Hs Hl Hh) as (s1 & E & Hs1 & Hl1 & Hh1 & Hnb & Hg & Hq & Hv). exists s1.
      split_and!; try done; [lia|]. by apply cached_None, Hq, cached_None.
    - exists s. pose proof (so_len s Hs). split_and!; try done. lia. }
  rewrite <- Hn1 in Hid. destruct (fetch_run s1 id Hs1 Hc1 Hid Hl1) as [E2 Hs2].
  set (c := {| cache := _ |}) in *. unfold bind at 1. rewrite (bind_Ret _ _ _ _ _ E1), (bind_Ret _ _ _ _ _ E2).
  pose proof (proj1 (cached_None _ _) Hc1) as Hq1. exists c. eexists. split; [done|].
  assert (Hca : forall j, cached (queue s1 ++ [(id, c)]) j = if j =? id then Some c else cached (queue s1) j)
    by (intros j; by apply cached_app).
  split_and!; cbn [queue held device set_queue set_held]; try done.
  - split; cbn [queue held device set_queue set_held]; try apply Hs2.
    + rewrite Hh1. apply NoDup_cons. split; [done|apply Hs].
    + intros j [->|Hj]%elem_of_cons; [|by apply Hs2].
      rewrite fmap_app. apply elem_of_app. right. by left.
  - by rewrite Hca, Z.eqb_refl.
  - by rewrite Hh1.
  - rewrite <- Hv1 by lia. unfold view. by rewrite Hc1.
  - intros j Hj. rewrite Hca, (proj2 (Z.eqb_neq j id)) by congruence. by apply Hg1.
  - intros j Hj. rewrite <- Hv1 by done. unfold view. cbn [queue held device set_queue set_held].
    rewrite Hca. destruct (Z.eqb_spec j id) as [->|]; [by rewrite Hc1|done].
Qed.

Lemma lock_run s id :
  store_ok s -> 0 <= id < dev_blocks (device s) -> id ∉ held s -> (length (held s) < BLOCK_CACHE_SIZE)%nat ->
  exists c s', lock id s = Ret c s' /\ cache c = view s id /\ block_id c = id /\ store_ok s' /\
    dev_blocks (device s') = dev_blocks (device s) /\ held s' = id :: held s /\
    cached (queue s') id = Some c /\
    (forall j, j ∈ held s -> cached (queue s') j = cached (queue s) j) /\
    (forall j, 0 <= j < dev_blocks (device s) -> view s' j = view s j).
Proof.
  intros Hs Hid Hn Hh. destruct (block_cache_run s id Hs Hid Hn Hh) as (c & s' & E & Hs' & Hc & Hh' & Hnb & Hv & Hg & Hview).
  exists c, s'. split_and!; try done.
  - unfold lock. rewrite bind_get, (bind_Ret _ _ _ _ _ E), bool_decide_eq_false_2 by done.
    by rewrite bind_get, Hc.
  - apply (so_entries s' Hs' id c Hc).
Qed.

Lemma lock_twice s id : store_ok s -> id ∈ held s -> lock id s = Panic Deadlock.
Proof.
  intros Hs Hin. unfold lock. rewrite bind_get, bool_decide_eq_true_2 by done.
  unfold block_cache. unfold bind at 1. rewrite bind_get.
  pose proof (so_held s Hs id Hin) as Hq.
  destruct (cached (queue s) id) eqn:E; [done|]. by apply cached_None in E.
Qed.

Lemma unlock_run s id h c :
  store_ok s -> held s = id :: h -> block_id c = id -> block_ok (cache c) ->
  modified c = true \/ cached (queue s) id = Some c ->
  exists s', unlock c s = Ret tt s' /\ store_ok s' /\ dev_blocks (device s') = dev_blocks (device s) /\
    held s' = h /\ (forall j, j ∈ h -> cached (queue s') j = cached (queue s) j) /\
    (forall j, 0 <= j < dev_blocks (device s) -> view s' j = if j =? id then cache c else view s j).
Proof.
  intros Hs Hh Hid Hb Hm. unfold unlock. eexists. split; [done|]. rewrite Hh. cbn [drop_ref].
  rewrite Hid, Z.eqb_refl. pose proof (so_nodup s Hs) as Hnd. rewrite Hh in Hnd. apply NoDup_cons in Hnd as [Hidh Hnd].
  assert (Hin : id ∈ fst <$> queue s) by (apply Hs; rewrite Hh; by left).
  assert (Hca : forall j, cached ((fun e => if e.1 =? id then (e.1, c) else e) <$> queue s) j =
    if j =? id then Some c else cached (queue s) j).
  { intros j. rewrite <- Hid, cached_update. destruct (Z.eqb_spec j (block_id c)) as [->|]; [|done].
    rewrite Hid. destruct (cached (queue s) id) eqn:E; [done|]. by apply cached_None in E. }
  pose proof (update_ids (queue s) c) as Hids. rewrite Hid in Hids.
  assert (Hr : 0 <= id < dev_blocks (device s)).
  { destruct (cached (queue s) id) as [x|] eqn:E; [apply (so_entries s Hs id x E)|by apply cached_None in E]. }
  split_and!; cbn [queue held device]; try done.
  - split; cbn [queue held device]; rewrite ?Hids; try apply Hs; try done.
    + rewrite length_fmap. apply Hs.
    + intros j x. rewrite Hca. destruct (Z.eqb_spec j id) as [->|]; [|apply Hs]. intros [= <-].
      split_and!; try done; try apply Hr. intros Hf. destruct Hm as [?|Hm]; [congruence|].
      apply (so_entries s Hs id c Hm). done.
    + intros j Hj. apply Hs. rewrite Hh. by right.
  - intros j Hj. rewrite Hca, (proj2 (Z.eqb_neq j id)); [done|congruence].
  - intros j Hj. unfold view. cbn [queue held device]. rewrite Hca. by destruct (j =? id).
Qed.

Definition clean (c : BlockCache) : BlockCache :=
  {| cache := cache c; block_id := block_id c; modified := false |}.

Lemma sync_queue_run (q : list (Z * BlockCache)) (d : D) :
  dev_ok d -> NoDup (fst <$> q) -> (forall id c, cached q id = Some c -> entry_ok d id c) ->
  exists d', sync_queue [] q d = Ret ((fun e => (e.1, clean e.2)) <$> q) d' /\ dev_ok d' /\
    dev_blocks d' = dev_blocks d /\
    forall j, 0 <= j < dev_blocks d ->
      dev_data d' j = match cached q j with Some c => cache c | None => dev_data d j end.
Proof.
  revert d. induction q as [|[id c] q IH]; intros d Hd Hnd He; [by exists d|].
  cbn in Hnd. apply NoDup_cons in Hnd as [Hid Hnd].
  assert (Hec : entry_ok d id c) by (apply He; unfold cached; cbn; by rewrite Z.eqb_refl).
  destruct (sync_run d id c Hd Hec) as (d1 & E1 & Hd1 & Hn1 & Hdata & Hother).
  assert (Hne : forall j x, cached q j = Some x -> j <> id).
  { intros j x Hx ->. apply cached_None in Hid. congruence. }
  assert (Htail : forall j x, cached q j = Some x -> cached ((id, c) :: q) j = Some x).
  { intros j x Hx. unfold cached. cbn. rewrite (proj2 (Z.eqb_neq id j)); [exact Hx|].
    intros <-. by apply (Hne id x). }
  destruct (IH d1 Hd1 Hnd) as (d2 & E2 & Hd2 & Hn2 & Hall).
  { intros j x Hx. pose proof (He j x (Htail j x Hx)) as Hex. apply (entry_ok_device d); [done|done|].
    apply Hother; [apply Hex|by apply (Hne j x)]. }
  exists d2. cbn [sync_queue]. rewrite bool_decide_eq_false_2 by apply not_elem_of_nil.
  rewrite (bind_Ret _ _ _ _ _ (eq_refl : ret tt d = Ret tt d)).
  rewrite (bind_Ret _ _ _ _ _ E1), (bind_Ret _ _ _ _ _ E2). split_and!; try done; [|congruence|].
  { destruct Hec as (Hbid & _). unfold clean at 2. cbn. by rewrite Hbid. }
  intros j Hj. rewrite Hall by congruence. unfold cached at 2. cbn. destruct (Z.eqb_spec id j) as [<-|Hij].
  - apply cached_None in Hid. by rewrite Hid.
  - fold (cached q j). destruct (cached q j); [done|]. apply Hother; [done|congruence].
Qed.

Lemma cached_clean (q : list (Z * BlockCache)) j :
  cached ((fun e => (e.1, clean e.2)) <$> q) j = clean <$> cached q j.
Proof.
  unfold cached. induction q as [|[i c] q IH]; [done|]. cbn. by destruct (i =? j).
Qed.

Lemma sync_all_run s :
  store_ok s -> held s = [] ->
  exists s', block_cache_sync_all s = Ret tt s' /\ store_ok s' /\
    dev_blocks (device s') = dev_blocks (device s) /\ held s' = [] /\
    (forall j, 0 <= j < dev_blocks (device s) -> view s' j = view s j /\ dev_data (device s') j = view s j).
Proof.
  intros Hs Hh. destruct (sync_queue_run (queue s) (device s) (so_dev s Hs) (so_ids s Hs) (so_entries s Hs))
    as (d' & E & Hd' & Hn & Hdata).
  assert (E1 : on_device (sync_queue (held s) (queue s)) s =
    Ret ((fun e => (e.1, clean e.2)) <$> queue s) (set_device d' s)).
  { unfold on_device, zoom. by rewrite Hh, E. }
  unfold block_cache_sync_all. rewrite bind_get, (bind_Ret _ _ _ _ _ E1). eexists. split; [done|].
  assert (Hids : fst <$> ((fun e => (e.1, clean e.2)) <$> queue s) = fst <$> queue s).
  { rewrite <- list_fmap_compose. by apply list_fmap_ext. }
  split_and!; cbn [queue held device set_queue set_device]; try done.
  - split; cbn [queue held device set_queue set_device]; rewrite ?Hids, ?length_fmap; try apply Hs; [|done].
    intros id c. rewrite cached_clean. intros (x & Hx & ->)%fmap_Some.
    destruct (so_entries s Hs id x Hx) as (? & ? & ? & _). unfold entry_ok. rewrite Hn. split_and!; try done; try lia.
    intros _. by rewrite Hdata, Hx by done.
  - intros j Hj. unfold view. cbn [queue held device set_queue set_device]. rewrite cached_clean, Hdata by done.
    by destruct (cached (queue s) j).
Qed.

#[export] Instance cache_laws : BlockStoreLaws (store D) := {
  bs_ok := store_ok;
  bs_blocks s := dev_blocks (device s);
  bs_view := view;
  bs_disk s := dev_data (device s);
  bs_held := held;
  bs_guard s id := cached (queue s) id;
  bs_view_ok := view_ok;
  bs_lock_run := lock_run;
  bs_lock_twice := lock_twice;
  bs_unlock_run := unlock_run;
  bs_sync_run := sync_all_run;
}.
End cache_ok.

(** ** Using the promise *)

Lemma slice_all {A} (l : list A) n : length l = n -> slice l (Z.to_nat 0) n = l.
Proof. intros <-. unfold slice. change (Z.to_nat 0) with 0%nat. by rewrite drop_0, firstn_all. Qed.

Definition upd (F : Z -> list Z) (id : Z) (b : list Z) : Z -> list Z :=
  fun j => if j =? id then b else F j.

Lemma upd_eq F id b : upd F id b id = b.
Proof. unfold upd. by rewrite Z.eqb_refl. Qed.
Lemma upd_ne F id b j : j <> id -> upd F id b j = F j.
Proof. intros Hj. unfold upd. by rewrite (proj2 (Z.eqb_neq j id) Hj). Qed.

Section store_lemmas.
Context {S : Type} `{SL : BlockStoreLaws S}.
Implicit Types (s : S) (F : Z -> list Z).

Definition blk_in s (id : Z) : Prop := 0 <= id < bs_blocks s.

(** From [s], with the same blocks open, to a state that shows [F]. *)
Record evolves s F s' : Prop := {
  ev_ok : bs_ok s';
  ev_blocks : bs_blocks s' = bs_blocks s;
  ev_held : bs_held s' = bs_held s;
  ev_guard j : j ∈ bs_held s -> bs_guard s' j = bs_guard s j;
  ev_view j : blk_in s j -> bs_view s' j = F j;
}.
(** [s1] is [s] with block [id] open as well. *)
Record opened s id s1 : Prop := {
  op_ok : bs_ok s1;
  op_blocks : bs_blocks s1 = bs_blocks s;
  op_held : bs_held s1 = id :: bs_held s;
  op_guard j : j ∈ bs_held s -> bs_guard s1 j = bs_guard s j;
  op_view j : blk_in s j -> bs_view s1 j = bs_view s j;
}.
(** Block [id] can be opened. *)
Record openable s id : Prop := {
  can_in : blk_in s id;
  can_free : id ∉ bs_held s;
  can_room : (length (bs_held s) < BLOCK_CACHE_SIZE)%nat;
}.

Lemma evolves_refl s : bs_ok s -> evolves s (bs_view s) s.
Proof. by split. Qed.

Lemma evolves_ext s F G s' : evolves s F s' -> (forall j, blk_in s j -> F j = G j) -> evolves s G s'.
Proof. intros [? ? ? ? Hv] HG. split; try done. intros j Hj. by rewrite Hv, HG. Qed.

Lemma evolves_trans s F s1 G s2 : evolves s F s1 -> evolves s1 G s2 -> evolves s G s2.
Proof.
  intros [? Hb Hh Hg ?] [? Hb' Hh' Hg' Hv]. split; try done; [congruence..| |].
  - intros j Hj. rewrite Hg' by congruence. by apply Hg.
  - intros j Hj. apply Hv. unfold blk_in in *. by rewrite Hb.
Qed.

Lemma evolves_view s F s' j : evolves s F s' -> blk_in s j -> bs_view s' j = F j.
Proof. intros He. apply He. Qed.

Lemma evolves_openable s F s' id : evolves s F s' -> openable s id -> openable s' id.
Proof. intros [? Hb Hh ? ?] [? ? ?]. split; unfold blk_in in *; by rewrite ?Hb, ?Hh. Qed.

(** [s'] is what a computation made of [s]: no block is opened or closed. *)
Definition steps s s' : Prop := evolves s (bs_view s') s'.
Lemma evolves_steps s F s' : evolves s F s' -> steps s s'.
Proof. intros [? ? ? ? ?]. by split. Qed.
Lemma steps_trans s s1 s2 : steps s s1 -> steps s1 s2 -> steps s s2.
Proof. apply evolves_trans. Qed.
Lemma steps_refl s : bs_ok s -> steps s s.
Proof. apply evolves_refl. Qed.

(** Opening the block for [modify], and what a run of the closure there gives. *)
Lemma modify_in_open {T V} (P : pod T) s id offset (f : T -> M S (V * T)) t :
  bs_ok s -> openable s id -> 0 <= offset -> offset + Z.of_nat (size_of P) <= BLOCK_SZ ->
  decode P (slice (bs_view s id) (Z.to_nat offset) (size_of P)) = Some t ->
  exists s1, opened s id s1 /\
    forall v t' s2 F, f t s1 = Ret (v, t') s2 -> evolves s1 F s2 ->
      is_bytes (encode P t') -> (length (encode P t') <= size_of P)%nat ->
      exists s', modify_in P id offset f s = Ret v s' /\
        evolves s (upd F id (splice (bs_view s id) (Z.to_nat offset) (encode P t'))) s'.
Proof.
  intros Hok [Hin Hfree Hroom] Ho Hsz Hdec. unfold BLOCK_SZ in Hsz.
  destruct (bs_view_ok s id Hok Hin) as [Hvl Hvb]. unfold block_size in Hvl.
  destruct (bs_lock_run s id Hok Hin Hfree Hroom) as (c & s1 & E1 & Hc & Hid & Hok1 & Hb1 & Hh1 & Hg1 & Hgs1 & Hv1).
  exists s1. split; [by split|]. intros v t' s2 F E2 [Hok2 Hb2 Hh2 Hg2 Hv2] Hbytes Hlen.
  unfold modify_in. rewrite (bind_Ret _ _ _ _ _ E1). unfold BlockCache_modify, ref_at.
  unfold bind at 1. unfold bind at 1. unfold bind at 1.
  rewrite (proj2 (Z.leb_le _ _)) by (unfold BLOCK_SZ; lia). cbn [assert ret]. rewrite Hc, Hdec. cbn [ret].
  rewrite (bind_Ret _ _ _ _ _ E2). cbn [ret].
  set (c' := {| cache := _ |}).
  destruct (bs_unlock_run s2 id (bs_held s) c' Hok2) as (s3 & E3 & Hok3 & Hb3 & Hh3 & Hg3 & Hv3); try done.
  - by rewrite Hh2.
  - split; [|by apply splice_Forall]. unfold block_size. rewrite <- Hvl. apply length_splice. lia.
  - by left.
  - rewrite (bind_Ret _ _ _ _ _ E3). exists s3. split; [done|]. split; try done; [congruence|..].
    + intros j Hj. rewrite Hg3, Hg2 by (rewrite ?Hh1; set_solver). by apply Hgs1.
    + intros j Hj. unfold blk_in in Hj. unfold upd.
      rewrite Hv3 by (rewrite Hb2, Hb1; done). destruct (j =? id); [done|]. apply Hv2. unfold blk_in. by rewrite Hb1.
Qed.

(** A closure that panics in the open block. *)
Lemma modify_in_panics {T V} (P : pod T) s id offset (f : T -> M S (V * T)) t p :
  bs_ok s -> openable s id -> 0 <= offset -> offset + Z.of_nat (size_of P) <= BLOCK_SZ ->
  decode P (slice (bs_view s id) (Z.to_nat offset) (size_of P)) = Some t ->
  (forall s1, opened s id s1 -> f t s1 = Panic p) -> modify_in P id offset f s = Panic p.
Proof.
  intros Hok [Hin Hfree Hroom] Ho Hsz Hdec Hf.
  destruct (bs_lock_run s id Hok Hin Hfree Hroom) as (c & s1 & E1 & Hc & Hid & Hok1 & Hb1 & Hh1 & Hg1 & Hgs1 & Hv1).
  unfold modify_in. rewrite (bind_Ret _ _ _ _ _ E1). apply bind_Panic. unfold BlockCache_modify, ref_at.
  unfold bind at 1. unfold bind at 1. unfold bind at 1. rewrite (proj2 (Z.leb_le _ _)) by lia. cbn [assert ret]. rewrite Hc, Hdec. cbn [ret].
  apply bind_Panic, Hf. by split.
Qed.

Lemma modify_in_run {T V} (P : pod T) s id offset (f : T -> M S (V * T)) t v t' F :
  bs_ok s -> openable s id -> 0 <= offset -> offset + Z.of_nat (size_of P) <= BLOCK_SZ ->
  decode P (slice (bs_view s id) (Z.to_nat offset) (size_of P)) = Some t ->
  is_bytes (encode P t') -> (length (encode P t') <= size_of P)%nat ->
  (forall s1, opened s id s1 -> exists s2, f t s1 = Ret (v, t') s2 /\ evolves s1 F s2) ->
  exists s', modify_in P id offset f s = Ret v s' /\
    evolves s (upd F id (splice (bs_view s id) (Z.to_nat offset) (encode P t'))) s'.
Proof.
  intros Hok Hop Ho Hsz Hdec Hby Hle Hf.
  destruct (modify_in_open P s id offset f t Hok Hop Ho Hsz Hdec) as (s1 & Hs1 & Hrun).
  destruct (Hf s1 Hs1) as (s2 & E & He). by apply (Hrun v t' s2 F).
Qed.

Lemma read_in_run {T V} (P : pod T) s id offset (f : T -> M S V) t v F :
  bs_ok s -> openable s id -> 0 <= offset -> offset + Z.of_nat (size_of P) <= BLOCK_SZ ->
  decode P (slice (bs_view s id) (Z.to_nat offset) (size_of P)) = Some t -> F id = bs_view s id ->
  (forall s1, opened s id s1 -> exists s2, f t s1 = Ret v s2 /\ evolves s1 F s2) ->
  exists s', read_in P id offset f s = Ret v s' /\ evolves s F s'.
Proof.
  intros Hok [Hin Hfree Hroom] Ho Hsz Hdec HF Hf. unfold BLOCK_SZ in Hsz.
  destruct (bs_lock_run s id Hok Hin Hfree Hroom) as (c & s1 & E1 & Hc & Hid & Hok1 & Hb1 & Hh1 & Hg1 & Hgs1 & Hv1).
  destruct (Hf s1) as (s2 & E2 & He2); [by split|]. destruct He2 as [Hok2 Hb2 Hh2 Hg2 Hv2].
  unfold read_in. rewrite (bind_Ret _ _ _ _ _ E1). unfold BlockCache_read, ref_at.
  unfold bind at 1. unfold bind at 1. unfold bind at 1.
  rewrite (proj2 (Z.leb_le _ _)) by (unfold BLOCK_SZ; lia). cbn [assert ret]. rewrite Hc, Hdec. cbn [ret].
  rewrite E2.
  destruct (bs_unlock_run s2 id (bs_held s) c Hok2) as (s3 & E3 & Hok3 & Hb3 & Hh3 & Hg3 & Hv3); try done.
  - by rewrite Hh2.
  - rewrite Hc. by apply bs_view_ok.
  - right. rewrite Hg2 by (rewrite Hh1; by left). done.
  - rewrite (bind_Ret _ _ _ _ _ E3). exists s3. split; [done|]. split; try done; [congruence|..].
    + intros j Hj. rewrite Hg3, Hg2 by (rewrite ?Hh1; set_solver). by apply Hgs1.
    + intros j Hj. unfold blk_in in Hj. rewrite Hv3 by (rewrite Hb2, Hb1; done).
      destruct (Z.eqb_spec j id) as [->|]; [by rewrite Hc, HF|]. apply Hv2. unfold blk_in. by rewrite Hb1.
Qed.

Lemma opened_evolves s id s1 : opened s id s1 -> evolves s1 (bs_view s) s1.
Proof.
  intros Hs1. apply (evolves_ext _ (bs_view s1)); [apply evolves_refl, Hs1|].
  intros j Hj. apply Hs1. unfold blk_in in *. by rewrite <- (op_blocks _ _ _ Hs1).
Qed.

(** Another block can be opened besides, if there is room. *)
Lemma opened_openable s id s1 b :
  opened s id s1 -> openable s b -> b <> id -> (Datatypes.S (length (bs_held s)) < BLOCK_CACHE_SIZE)%nat -> openable s1 b.
Proof.
  intros [_ Hb Hh _ _] [Hin Hfree _] Hne Hroom. split.
  - unfold blk_in in *. by rewrite Hb.
  - rewrite Hh. by apply not_elem_of_cons.
  - rewrite Hh. exact Hroom.
Qed.

(** Closures that only compute. *)
Lemma modify_in_pure {T V} (P : pod T) s id offset (f : T -> M S (V * T)) t v t' :
  bs_ok s -> openable s id -> 0 <= offset -> offset + Z.of_nat (size_of P) <= BLOCK_SZ ->
  decode P (slice (bs_view s id) (Z.to_nat offset) (size_of P)) = Some t ->
  is_bytes (encode P t') -> (length (encode P t') <= size_of P)%nat ->
  (forall s1, f t s1 = Ret (v, t') s1) ->
  exists s', modify_in P id offset f s = Ret v s' /\
    evolves s (upd (bs_view s) id (splice (bs_view s id) (Z.to_nat offset) (encode P t'))) s'.
Proof.
  intros Hok Hop Ho Hsz Hdec Hby Hle Hf. apply (modify_in_run P s id offset f t v t' (bs_view s)); try done.
  intros s1 Hs1. exists s1. split; [done|]. by apply (opened_evolves s id).
Qed.

Lemma read_in_pure {T V} (P : pod T) s id offset (f : T -> M S V) t v :
  bs_ok s -> openable s id -> 0 <= offset -> offset + Z.of_nat (size_of P) <= BLOCK_SZ ->
  decode P (slice (bs_view s id) (Z.to_nat offset) (size_of P)) = Some t ->
  (forall s1, f t s1 = Ret v s1) ->
  exists s', read_in P id offset f s = Ret v s' /\ evolves s (bs_view s) s'.
Proof.
  intros Hok Hop Ho Hsz Hdec Hf. apply (read_in_run P s id offset f t v (bs_view s)); try done.
  intros s1 Hs1. exists s1. split; [done|]. by apply (opened_evolves s id).
Qed.

Lemma modify_in_Ret {T V} (P : pod T) b offset (f : T -> M S (V * T)) s v s' :
  modify_in P b offset f s = Ret v s' -> exists t s1 t' s2, f t s1 = Ret (v, t') s2.
Proof.
  unfold modify_in, BlockCache_modify. intros E. apply bind_inv in E as (c & s1 & _ & E).
  apply bind_inv in E as ([v1 c1] & s2 & E1 & E). apply bind_inv in E1 as (t & s3 & _ & E1).
  apply bind_inv in E1 as ([v2 t'] & s4 & Ef & E1). minv E1. minv E. injection H0 as -> _. eauto.
Qed.

(** A block that is open cannot be opened again: the lock is never released. *)
Lemma modify_in_deadlock {T V} (P : pod T) s id offset (f : T -> M S (V * T)) :
  bs_ok s -> id ∈ bs_held s -> modify_in P id offset f s = Panic Deadlock.
Proof. intros Hok Hin. unfold modify_in, bind. by rewrite (bs_lock_twice s id Hok Hin). Qed.
End store_lemmas.

(** ** The cache against an array of blocks *)

Inductive cache_op :=
  | ReadOp (id : Z)
  | WriteOp (id offset : Z) (bytes : list Z)
  | SyncOp.
Definition run_op {S} `{BlockStore S} (o : cache_op) : M S (list Z) :=
  match o with
  | ReadOp id => read_in (pod_bytes block_size) id 0 ret
  | WriteOp id offset bytes => modify_in (pod_bytes (length bytes)) id offset (fun _ => ret ([], bytes))
  | SyncOp => bs_sync_all ;;; ret []
  end.
Fixpoint run_cache {S} `{BlockStore S} (ops : list cache_op) : M S (list (list Z)) :=
  match ops with
  | [] => ret []
  | o :: ops => let! r := run_op o in let! rs := run_cache ops in ret (r :: rs)
  end.

Definition array_op (o : cache_op) (F : Z -> list Z) : list Z * (Z -> list Z) :=
  match o with
  | ReadOp id => (F id, F)
  | WriteOp id offset bytes => ([], upd F id (splice (F id) (Z.to_nat offset) bytes))
  | SyncOp => ([], F)
  end.
Fixpoint run_array (ops : list cache_op) (F : Z -> list Z) : list (list Z) * (Z -> list Z) :=
  match ops with
  | [] => ([], F)
  | o :: ops => let '(r, F1) := array_op o F in let '(rs, F2) := run_array ops F1 in (r :: rs, F2)
  end.
Definition op_in (n : Z) (o : cache_op) : Prop :=
  match o with
  | ReadOp id => 0 <= id < n
  | WriteOp id offset bytes => 0 <= id < n /\ 0 <= offset /\ offset + Z.of_nat (length bytes) <= BLOCK_SZ /\ is_bytes bytes
  | SyncOp => True
  end.

Lemma array_op_ext o F G n :
  op_in n o -> (forall j, 0 <= j < n -> F j = G j) ->
  fst (array_op o F) = fst (array_op o G) /\
  forall j, 0 <= j < n -> snd (array_op o F) j = snd (array_op o G) j.
Proof.
  destruct o as [id|id off bs|]; cbn; intros Ho HF; [by rewrite (HF id)| |done].
  split; [done|]. intros j Hj. unfold upd. destruct (j =? id); [rewrite HF; [done|tauto]|by apply HF].
Qed.

Lemma run_array_ext ops F G n :
  Forall (op_in n) ops -> (forall j, 0 <= j < n -> F j = G j) ->
  fst (run_array ops F) = fst (run_array ops G) /\
  forall j, 0 <= j < n -> snd (run_array ops F) j = snd (run_array ops G) j.
Proof.
  intros Hops. revert F G. induction Hops as [|o ops Ho _ IH]; intros F G HF; [by split|]. cbn.
  destruct (array_op_ext o F G n Ho HF) as [E1 E2].
  destruct (array_op o F) as [r F1], (array_op o G) as [r' G1]. cbn in E1, E2. subst r'.
  destruct (IH F1 G1 E2) as [E3 E4]. destruct (run_array ops F1), (run_array ops G1). cbn in *.
  split; [by f_equal|done].
Qed.

Section refinement.
Context {S : Type} `{SL : BlockStoreLaws S}.
Implicit Types (s : S).

Lemma run_op_run s o :
  bs_ok s -> bs_held s = [] -> op_in (bs_blocks s) o ->
  exists s', run_op o s = Ret (fst (array_op o (bs_view s))) s' /\ evolves s (snd (array_op o (bs_view s))) s'.
Proof.
  intros Hok Hh Ho.
  assert (Hopen : forall id, blk_in s id -> openable s id).
  { intros id Hid. split; [done|rewrite Hh; apply not_elem_of_nil|rewrite Hh; cbn; unfold BLOCK_CACHE_SIZE; lia]. }
  destruct o as [id|id off bs|]; cbn [run_op array_op fst snd op_in] in *.
  - apply (read_in_pure _ s id 0 _ (bs_view s id)); try done; [by apply Hopen|]. cbn [decode size_of pod_bytes].
    f_equal. apply slice_all. by rewrite (blk_len _ (bs_view_ok s id Hok Ho)).
  - destruct Ho as (Hid & Hoff & Hlen & Hb).
    destruct (modify_in_pure (pod_bytes (length bs)) s id off (fun _ => ret ([] : list Z, bs))
      (slice (bs_view s id) (Z.to_nat off) (length bs)) [] bs) as (s' & E & He); try done; [by apply Hopen|].
    exists s'. split; [exact E|exact He].
  - destruct (bs_sync_run s Hok Hh) as (s' & E & Hok' & Hb & Hh' & Hv). exists s'.
    rewrite (bind_Ret _ _ _ _ _ E). split; [done|]. split; try done; [congruence| |].
    + intros j. rewrite Hh. by intros ?%elem_of_nil.
    + intros j Hj. by apply Hv.
Qed.

Lemma run_cache_run ops s :
  bs_ok s -> bs_held s = [] -> Forall (op_in (bs_blocks s)) ops ->
  exists s', run_cache ops s = Ret (fst (run_array ops (bs_view s))) s' /\
    evolves s (snd (run_array ops (bs_view s))) s'.
Proof.
  revert s. induction ops as [|o ops IH]; intros s Hok Hh Hops.
  - exists s. split; [done|]. by apply evolves_refl.
  - apply Forall_cons in Hops as [Ho Hops]. destruct (run_op_run s o Hok Hh Ho) as (s1 & E1 & He1).
    destruct (IH s1) as (s2 & E2 & He2); [apply He1|by rewrite (ev_held _ _ _ He1)|by rewrite (ev_blocks _ _ _ He1)|].
    cbn [run_cache run_array]. rewrite (bind_Ret _ _ _ _ _ E1), (bind_Ret _ _ _ _ _ E2).
    destruct (array_op o (bs_view s)) as [r F1] eqn:EA. cbn [fst snd] in *.
    destruct (run_array_ext ops (bs_view s1) F1 (bs_blocks s) Hops) as [HX1 HX2].
    { intros j Hj. by apply He1. }
    destruct (run_array ops F1) as [rs F2]. cbn [fst snd] in *. exists s2. rewrite HX1. split; [done|].
    eapply evolves_trans; [exact He1|]. apply (evolves_ext _ _ _ _ He2).
    intros j Hj. apply HX2. unfold blk_in in Hj. by rewrite (ev_blocks _ _ _ He1) in Hj.
Qed.
End refinement.

Section cache_claims.
Context {D : Type} `{DL : BlockDeviceLaws D}.

Lemma BlockCacheManager_new_ok (d : D) : dev_ok d -> store_ok (BlockCacheManager_new d).
Proof.
  intros Hd. split; cbn [queue held device BlockCacheManager_new]; try done; try apply NoDup_nil_2.
  cbn. unfold BLOCK_CACHE_SIZE. lia.
Qed.

(** C35. Any sequence of reads, writes and syncs of blocks through the block cache over a device
    gives the results of the same sequence on a plain array of blocks, the cache never holds more
    than sixteen blocks or a block twice, and after a final sync the device holds exactly that
    array. *)
Theorem cache_refines (d : D) ops :
  dev_ok d -> Forall (op_in (dev_blocks d)) ops ->
  let '(results, blocks) := run_array ops (dev_data d) in
  exists s s', run_cache ops (BlockCacheManager_new d) = Ret results s /\
    (length (queue s) <= BLOCK_CACHE_SIZE)%nat /\ NoDup (fst <$> queue s) /\
    block_cache_sync_all s = Ret tt s' /\
    forall id, 0 <= id < dev_blocks d -> read_block id (device s') = Ret (blocks id) (device s').
Proof.
  intros Hd Hops. pose proof (BlockCacheManager_new_ok d Hd) as Hok.
  destruct (run_cache_run (SL := cache_laws) ops (BlockCacheManager_new d) Hok eq_refl Hops) as (s & E & Hev).
  change (bs_view (BlockStoreLaws := cache_laws) (BlockCacheManager_new d)) with (dev_data d) in E, Hev.
  destruct (run_array ops (dev_data d)) as [results blocks]. cbn [fst snd] in *.
  pose proof (ev_ok _ _ _ Hev) as Hs. cbn in Hs.
  destruct (sync_all_run s Hs (ev_held _ _ _ Hev)) as (s' & E' & Hs' & Hb' & _ & Hdisk).
  exists s, s'. split_and!; [exact E|apply Hs|apply Hs|exact E'|]. intros id Hid.
  pose proof (ev_blocks _ _ _ Hev) as Hb. cbn in Hb.
  rewrite (dev_read _ _ (so_dev _ Hs')) by (by rewrite Hb', Hb).
  destruct (Hdisk id) as [_ ->]; [by rewrite Hb|]. f_equal. by apply (ev_view _ _ _ Hev).
Qed.

(** Opening a block that is open already never returns, opening a seventeenth block while
    sixteen are open panics, and otherwise the block is opened with the data last written to it and
    no other open block or data changes. *)
Theorem lock_outcomes (s : store D) id :
  store_ok s -> 0 <= id < dev_blocks (device s) ->
  if bool_decide (id ∈ held s) then lock id s = Panic Deadlock
  else if (length (held s) =? BLOCK_CACHE_SIZE)%nat then lock id s = Panic Explicit
  else exists c s', lock id s = Ret c s' /\ cache c = view s id /\ store_ok s' /\ held s' = id :: held s /\
    (forall j, j ∈ held s -> cached (queue s') j = cached (queue s) j) /\
    (forall j, 0 <= j < dev_blocks (device s) -> view s' j = view s j).
Proof.
  intros Hs Hid. case_bool_decide as Hin; [by apply lock_twice|].
  assert (Hsub : held s ⊆+ (fst <$> queue s)) by (apply NoDup_submseteq; [apply (so_nodup s Hs)|exact (so_held s Hs)]).
  pose proof (so_len s Hs) as Hlen. pose proof (submseteq_length _ _ Hsub) as Hl. rewrite length_fmap in Hl.
  destruct (Nat.eqb_spec (length (held s)) BLOCK_CACHE_SIZE) as [Hfull|Hroom].
  - assert (HP : held s ≡ₚ fst <$> queue s) by (apply submseteq_length_Permutation; [done|rewrite length_fmap; lia]).
    assert (Hc : cached (queue s) id = None) by (apply cached_None; by rewrite <- HP).
    assert (Ee : evict s = Panic Explicit).
    { unfold evict. rewrite bind_get. destruct (find_index _ (queue s)) as [idx|] eqn:Ef; [|done].
      apply find_index_Some in Ef as [([j c] & Hj & Hn%arc_count_1) _]. destruct Hn. rewrite HP.
      apply list_elem_of_fmap. exists (j, c). split; [done|]. by apply list_elem_of_lookup_2 with idx. }
    unfold lock, block_cache. rewrite bind_get. unfold bind at 1. rewrite bind_get, Hc.
    rewrite (proj2 (Nat.eqb_eq _ _)) by lia. unfold bind. by rewrite Ee.
  - destruct (lock_run s id Hs Hid Hin ltac:(lia)) as (c & s' & E & Hc & _ & Hs' & _ & Hh & _ & Hg & Hv). eauto 10.
Qed.
End cache_claims.

(** ** Disk images *)

Definition image_ok (file : BlockFile) : Prop :=
  is_bytes file /\ (length file mod block_size = 0)%nat /\ Z.of_nat (length file) < 2 ^ 64.

Lemma image_block file id :
  image_ok file -> 0 <= id < Z.of_nat (length file) / BLOCK_SZ ->
  Z.to_nat (u64 (id * BLOCK_SZ)) = (Z.to_nat id * block_size)%nat /\
  (Z.to_nat id * block_size + block_size <= length file)%nat.
Proof.
  intros (_ & _ & Hl) Hid. unfold BLOCK_SZ, block_size in *.
  assert (id * 512 + 512 <= Z.of_nat (length file)) by (Z.to_euclidean_division_equations; lia).
  rewrite u64_small by lia. lia.
Qed.

#[export] Program Instance BlockFile_laws : BlockDeviceLaws BlockFile := {
  dev_blocks file := Z.of_nat (length file) / BLOCK_SZ;
  dev_data file id := slice file (Z.to_nat id * block_size) block_size;
  dev_ok := image_ok;
}.
Next Obligation.
  intros file id Hf Hid. destruct (image_block file id Hf Hid) as [_ Hle].
  split; [by apply length_slice|]. destruct Hf as [Hb _]. unfold slice. by apply Forall_take, Forall_drop.
Qed.
Next Obligation.
  intros file id Hf Hid. destruct (image_block file id Hf Hid) as [Hp Hle].
  cbn. unfold BlockFile_read_block. rewrite Hp, length_slice by done. by rewrite Nat.eqb_refl.
Qed.
Next Obligation.
  intros file id b Hf Hid [Hbl Hbb]. destruct (image_block file id Hf Hid) as [Hp Hle].
  assert (Hlen : length (splice file (Z.to_nat id * block_size) b) = length file) by (apply length_splice; lia).
  exists (splice file (Z.to_nat id * block_size) b). split.
  { cbn [write_block BlockFile_device]. unfold BlockFile_write_block, bind, modify. rewrite Hp, Hbl, Nat.eqb_refl.
    replace (Z.to_nat id * block_size - length file)%nat with 0%nat by lia. cbn [replicate].
    by rewrite app_nil_r. }
  split_and!.
  - destruct Hf as (? & ? & ?). unfold image_ok. rewrite Hlen. split_and!; try done. by apply splice_Forall.
  - by rewrite Hlen.
  - intros j Hj. destruct (image_block file j Hf Hj) as [_ Hlj]. destruct (Z.eqb_spec j id) as [->|Hne].
    + pose proof (slice_splice file (Z.to_nat id * block_size) b ltac:(lia)) as HS. by rewrite Hbl in HS.
    + apply slice_splice_disjoint; [lia|done|]. unfold block_size in *. lia.
Qed.

Definition demo_image : BlockFile := replicate (20 * block_size) 7.
Lemma demo_image_ok : image_ok demo_image.
Proof.
  split_and!; [|reflexivity|].
  - apply Forall_replicate. unfold is_byte. lia.
  - unfold demo_image. rewrite length_replicate. unfold block_size. lia.
Qed.

Lemma demo_image_blocks : dev_blocks demo_image = 20.
Proof.
  change (Z.of_nat (length demo_image) / BLOCK_SZ = 20). unfold demo_image. by rewrite length_replicate.
Qed.

(** Writing one block and reading seventeen others evicts it; it is still read back. *)
Definition demo_ops : list cache_op :=
  WriteOp 0 1 [1; 2; 3] :: (ReadOp <$> seqZ 1 17) ++ [ReadOp 0].
Lemma demo_ops_in : Forall (op_in (dev_blocks demo_image)) demo_ops.
Proof.
  rewrite demo_image_blocks. constructor.
  - cbn. unfold BLOCK_SZ, is_byte. split_and!; [lia..|]. repeat constructor; lia.
  - apply Forall_app. split; [|repeat constructor; lia]. apply Forall_fmap, Forall_forall.
    intros x Hx%elem_of_seqZ. cbn. lia.
Qed.

Lemma cache_refines_witness :
  exists s, run_cache demo_ops (BlockCacheManager_new demo_image) = Ret (fst (run_array demo_ops (dev_data demo_image))) s /\
    (length (queue s) <= 16)%nat.
Proof.
  pose proof (cache_refines demo_image demo_ops demo_image_ok demo_ops_in) as H.
  destruct (run_array demo_ops (dev_data demo_image)) as [rs F]. destruct H as (s & s' & E & Hl & _).
  exists s. split; [exact E|exact Hl].
Defined.

Lemma lock_outcomes_witness :
  exists c s', lock 3 (BlockCacheManager_new demo_image) = Ret c s' /\ held s' = [3].
Proof.
  pose proof (lock_outcomes (BlockCacheManager_new demo_image) 3
    (BlockCacheManager_new_ok demo_image demo_image_ok)) as H. cbn [held device BlockCacheManager_new length Nat.eqb BLOCK_CACHE_SIZE] in H.
  rewrite bool_decide_eq_false_2 in H by apply not_elem_of_nil.
  destruct H as (c & s' & E & _ & _ & Hh & _); [rewrite demo_image_blocks; lia|]. exists c, s'. split; [exact E|exact Hh].
Defined.
