(* ===== verification/DiskWords.v ===== *)
(** Arrays of little-endian words in a block: the types [[u64; 64]] of
    [components/src/micro_fs/bitmap.rs] and [[u32; 128]] of [layout.rs], and how
    a change of one word changes the block. *)
From S2P Require Import Prelude BlockCache.

Fixpoint decode_words (w n : nat) (bs : list Z) : list Z :=
  match n with
  | O => []
  | S n => of_le (take w bs) :: decode_words w n (drop w bs)
  end.
Fixpoint encode_words (w : nat) (l : list Z) : list Z :=
  match l with
  | [] => []
  | x :: l => le_bytes w x ++ encode_words w l
  end.
Definition pod_words (w n : nat) : pod (list Z) :=
  {| size_of := n * w; decode bs := Some (decode_words w n bs); encode := encode_words w |}.

Section words.
Context (w : nat).
Implicit Types (bs l : list Z).

Lemma length_decode_words n bs : length (decode_words w n bs) = n.
Proof. revert bs. induction n as [|n IH]; intros bs; cbn; [done|]. by rewrite IH. Qed.

Lemma length_encode_words l : length (encode_words w l) = (length l * w)%nat.
Proof. induction l as [|x l IH]; cbn; [done|]. by rewrite length_app, length_le_bytes, IH. Qed.

Lemma encode_words_bytes l : is_bytes (encode_words w l).
Proof. induction l as [|x l IH]; cbn; [constructor|]. apply Forall_app. auto using le_bytes_is_bytes. Qed.

Lemma decode_words_lookup n bs i :
  (i < n)%nat -> decode_words w n bs !! i = Some (of_le (slice bs (i * w) w)).
Proof.
  revert bs i. induction n as [|n IH]; intros bs i Hi; [lia|]. destruct i as [|i]; cbn.
  - unfold slice. by rewrite drop_0.
  - rewrite IH by lia. unfold slice. by rewrite drop_drop.
Qed.

Lemma encode_decode_words n bs : length bs = (n * w)%nat -> is_bytes bs -> encode_words w (decode_words w n bs) = bs.
Proof.
  revert bs. induction n as [|n IH]; intros bs Hl Hb; cbn; [by apply nil_length_inv in Hl|].
  rewrite IH; [|rewrite length_drop; lia|by apply Forall_drop].
  assert (Ht : length (take w bs) = w) by (rewrite length_take; lia).
  rewrite <- Ht at 1. rewrite le_bytes_of_le by (by apply Forall_take). apply take_drop.
Qed.

Lemma encode_words_lookup l i x :
  l !! i = Some x -> slice (encode_words w l) (i * w) w = le_bytes w x.
Proof.
  revert i. induction l as [|y l IH]; intros i Hi; [done|]. destruct i as [|i]; cbn in Hi |- *.
  - injection Hi as ->. unfold slice. rewrite drop_0, take_app_le by (by rewrite length_le_bytes).
    apply take_ge. by rewrite length_le_bytes.
  - rewrite <- (IH i Hi). unfold slice. f_equal. rewrite drop_app_ge by (rewrite length_le_bytes; lia).
    f_equal. rewrite length_le_bytes. lia.
Qed.

Lemma decode_encode_words l :
  Forall (fun x => 0 <= x < 256 ^ Z.of_nat w) l -> decode_words w (length l) (encode_words w l) = l.
Proof.
  intros Hl. apply list_eq. intros i. destruct (decide (i < length l)%nat) as [Hi|Hi].
  - rewrite decode_words_lookup by done. destruct (lookup_lt_is_Some_2 l i Hi) as [x Hx]. rewrite Hx.
    rewrite (encode_words_lookup l i x Hx), of_le_le_bytes; [done|]. by eapply Forall_lookup_1 in Hl.
  - rewrite !lookup_ge_None_2; [done|lia|]. rewrite length_decode_words. lia.
Qed.

(** Setting one word of the array is writing its bytes. *)
Lemma encode_words_insert n bs i x :
  length bs = (n * w)%nat -> is_bytes bs -> (i < n)%nat ->
  encode_words w (<[i := x]> (decode_words w n bs)) = splice bs (i * w) (le_bytes w x).
Proof.
  revert bs i. induction n as [|n IH]; intros bs i Hl Hb Hi; [lia|].
  destruct i as [|i]; cbn.
  - rewrite encode_decode_words; [|rewrite length_drop; lia|by apply Forall_drop].
    unfold splice. by rewrite length_le_bytes.
  - rewrite IH; [|rewrite length_drop; lia|by apply Forall_drop|lia].
    assert (Ht : length (take w bs) = w) by (rewrite length_take; lia).
    rewrite <- Ht at 1. rewrite le_bytes_of_le by (by apply Forall_take).
    unfold splice. rewrite length_le_bytes, take_drop_commute, drop_drop, app_assoc.
    replace (take w bs) with (take w (take (w + i * w) bs)) by (rewrite take_take; f_equal; lia).
    by rewrite take_drop, Nat.add_assoc.
Qed.
End words.

(** ** A block as one number *)

Lemma of_le_app bs cs : of_le (bs ++ cs) = of_le bs + 256 ^ Z.of_nat (length bs) * of_le cs.
Proof.
  induction bs as [|b bs IH]; cbn [app of_le length]; [lia|].
  rewrite IH, Nat2Z.inj_succ, Z.pow_succ_r by lia. lia.
Qed.

(** Bit [8 * lo + j] of a byte string is bit [j] of the string from byte [lo] on. *)
Lemma of_le_testbit bs (lo len : nat) j :
  is_bytes bs -> (lo + len <= length bs)%nat -> 0 <= j < 8 * Z.of_nat len ->
  Z.testbit (of_le bs) (8 * Z.of_nat lo + j) = Z.testbit (of_le (slice bs lo len)) j.
Proof.
  intros Hb Hl Hj. set (a := take lo bs). set (c := drop (lo + len) bs).
  assert (Hd : bs = a ++ slice bs lo len ++ c).
  { unfold a, c, slice. rewrite <- drop_drop, take_drop. by rewrite take_drop. }
  assert (Hba : is_bytes a) by (by apply Forall_take).
  assert (Hbs : is_bytes (slice bs lo len)) by (by apply Forall_take, Forall_drop).
  assert (La : length a = lo) by (unfold a; rewrite length_take; lia).
  pose proof (of_le_bound a Hba) as B1. pose proof (of_le_bound _ Hbs) as B2.
  rewrite length_slice in B2 by done. rewrite La in B1.
  assert (E8 : forall n, 256 ^ Z.of_nat n = 2 ^ (8 * Z.of_nat n)) by (intros n; rewrite Z.pow_mul_r by lia; done).
  rewrite Hd at 1. rewrite !of_le_app, La, length_slice by done. rewrite !E8 in *.
  rewrite <- (Z.mod_pow2_bits_low _ (8 * Z.of_nat lo + 8 * Z.of_nat len)) by lia.
  set (x := of_le a) in *. set (y := of_le (slice bs lo len)) in *.
  replace (x + 2 ^ (8 * Z.of_nat lo) * (y + 2 ^ (8 * Z.of_nat len) * of_le c))
    with (x + y * 2 ^ (8 * Z.of_nat lo) + of_le c * 2 ^ (8 * Z.of_nat lo + 8 * Z.of_nat len))
    by (rewrite Z.pow_add_r by lia; lia).
  rewrite Z.mod_add by lia. rewrite Z.mod_small.
  2:{ rewrite Z.pow_add_r by lia. nia. }
  rewrite (Z.add_comm (8 * Z.of_nat lo) j), <- Z.div_pow2_bits by lia.
  by rewrite Z.div_add, Z.div_small, Z.add_0_l by lia.
Qed.

(** ** Access to a block of words *)

Lemma splice_all {A} (l d : list A) : length d = length l -> splice l (Z.to_nat 0) d = d.
Proof.
  intros Hl. change (Z.to_nat 0) with 0%nat. unfold splice. cbn [take app].
  rewrite Nat.add_0_l, Hl, drop_all. apply app_nil_r.
Qed.

Section word_blocks.
Context {St : Type} `{SL : BlockStoreLaws St} (w n : nat) (Hwn : (n * w)%nat = block_size).
Implicit Types (s : St).

Lemma decode_block s id :
  bs_ok s -> blk_in s id ->
  decode (pod_words w n) (slice (bs_view s id) (Z.to_nat 0) (size_of (pod_words w n))) =
  Some (decode_words w n (bs_view s id)).
Proof.
  intros Hok Hin. cbn [decode pod_words size_of]. rewrite slice_all; [done|].
  rewrite Hwn. apply (bs_view_ok s id Hok Hin).
Qed.

Lemma pod_words_fits : 0 + Z.of_nat (size_of (pod_words w n)) <= BLOCK_SZ.
Proof. cbn [size_of pod_words]. rewrite Hwn. done. Qed.

Lemma modify_words_open {V} s id (f : list Z -> M St (V * list Z)) :
  bs_ok s -> openable s id ->
  exists s1, opened s id s1 /\
    forall v ws s2 F, f (decode_words w n (bs_view s id)) s1 = Ret (v, ws) s2 -> evolves s1 F s2 -> length ws = n ->
      exists s', modify_in (pod_words w n) id 0 f s = Ret v s' /\ evolves s (upd F id (encode_words w ws)) s'.
Proof.
  intros Hok Hop. pose proof (can_in _ _ Hop) as Hin.
  destruct (modify_in_open (pod_words w n) s id 0 f _ Hok Hop ltac:(lia) pod_words_fits
    (decode_block s id Hok Hin)) as (s1 & Hs1 & Hrun).
  exists s1. split; [done|]. intros v ws s2 F E He Hws.
  assert (Hle : length (encode_words w ws) = block_size) by (by rewrite length_encode_words, Hws).
  destruct (Hrun v ws s2 F E He (encode_words_bytes w ws)) as (s' & E' & He').
  - cbn [size_of pod_words encode]. lia.
  - exists s'. split; [exact E'|]. cbn [encode pod_words] in He'.
    rewrite splice_all in He'; [done|]. rewrite Hle. symmetry. apply (bs_view_ok s id Hok Hin).
Qed.

Lemma modify_words_panics {V} s id (f : list Z -> M St (V * list Z)) p :
  bs_ok s -> openable s id -> (forall s1, opened s id s1 -> f (decode_words w n (bs_view s id)) s1 = Panic p) ->
  modify_in (pod_words w n) id 0 f s = Panic p.
Proof.
  intros Hok Hop Hf. pose proof Hop as [Hin Hfree Hroom].
  exact (modify_in_panics (pod_words w n) s id 0 f _ p Hok Hop ltac:(lia) pod_words_fits (decode_block s id Hok Hin) Hf).
Qed.

Lemma modify_words_pure {V} s id (f : list Z -> M St (V * list Z)) v ws :
  bs_ok s -> openable s id -> length ws = n ->
  (forall s1, f (decode_words w n (bs_view s id)) s1 = Ret (v, ws) s1) ->
  exists s', modify_in (pod_words w n) id 0 f s = Ret v s' /\
    evolves s (upd (bs_view s) id (encode_words w ws)) s'.
Proof.
  intros Hok Hop Hws Hf. destruct (modify_words_open s id f Hok Hop) as (s1 & Hs1 & Hrun).
  apply (Hrun v ws s1); [apply Hf|by apply (opened_evolves s id)|done].
Qed.

Lemma modify_words_panic {V} s id (f : list Z -> M St (V * list Z)) p :
  bs_ok s -> openable s id -> (forall s1, f (decode_words w n (bs_view s id)) s1 = Panic p) ->
  modify_in (pod_words w n) id 0 f s = Panic p.
Proof.
  intros Hok Hop Hf. pose proof (decode_block s id Hok (can_in _ _ Hop)) as Hd. destruct Hop as [Hin Hfree Hroom].
  destruct (bs_lock_run s id Hok Hin Hfree Hroom) as (c & s1 & E1 & Hc & _).
  unfold modify_in. rewrite (bind_Ret _ _ _ _ _ E1). unfold BlockCache_modify, ref_at.
  unfold bind at 1. unfold bind at 1. unfold bind at 1. rewrite (proj2 (Z.leb_le _ _) pod_words_fits).
  cbn [assert ret]. rewrite Hc, Hd. cbn [ret]. unfold bind. by rewrite Hf.
Qed.

Lemma read_words_pure {V} s id (f : list Z -> M St V) v :
  bs_ok s -> openable s id -> (forall s1, f (decode_words w n (bs_view s id)) s1 = Ret v s1) ->
  exists s', read_in (pod_words w n) id 0 f s = Ret v s' /\ evolves s (bs_view s) s'.
Proof.
  intros Hok Hop Hf.
  exact (read_in_pure (pod_words w n) s id 0 f _ v Hok Hop ltac:(lia) pod_words_fits
    (decode_block s id Hok (can_in _ _ Hop)) Hf).
Qed.
End word_blocks.
