(* ===== verification/Bitmap.v ===== *)
(** Allocation bitmaps on disk: [components/src/micro_fs/bitmap.rs].

    The functions work on any store of blocks; the theorems use only the contract
    of the cache.  A bitmap is seen as its bits: bit [i] of the 4096 bits of a
    block is bit [i] of the block read as one little-endian number. *)
From S2P Require Import Prelude BlockCache DiskWords.

Definition BLOCK_BITS : Z := BLOCK_SZ * 8.
Definition BitmapBlock : pod (list Z) := pod_words 8 64.
Record Bitmap := { start_block_id : Z; blocks : Z }.

(** [u64::trailing_ones] *)
Fixpoint trailing_ones_loop (n : nat) (z : Z) : Z :=
  match n with
  | O => 0
  | S n => if Z.odd z then 1 + trailing_ones_loop n (z / 2) else 0
  end.
Definition trailing_ones (z : Z) : Z := trailing_ones_loop 64 z.

(** [decomposition] *)
Definition decomposition (bit : Z) : Z * Z * Z :=
  let block_pos := bit / BLOCK_BITS in
  let bit := bit mod BLOCK_BITS in
  (block_pos, bit / 64, bit mod 64).

Definition maximum (self : Bitmap) : Z := u64 (blocks self * BLOCK_BITS).

Section bitmap.
Context {St : Type} `{BlockStore St}.

(** The closure of [alloc]: the first word with a free bit, its first free bit. *)
Definition alloc_in_block (block_id : Z) (bitmap_block : list Z) : M St (option Z * list Z) :=
  match find_index (fun bits64 => negb (bits64 =? 2 ^ 64 - 1)) bitmap_block with
  | Some bits64_pos =>
      let! bits64 := index bitmap_block (Z.of_nat bits64_pos) in
      let inner_pos := trailing_ones bits64 in
      let! bitmap_block' := index_set bitmap_block (Z.of_nat bits64_pos)
        (Z.lor bits64 (u64 (Z.shiftl 1 (inner_pos mod 64)))) in
      ret (Some (u64 (block_id * BLOCK_BITS + Z.of_nat bits64_pos * 64 + inner_pos)), bitmap_block')
  | None => ret (None, bitmap_block)
  end.
Fixpoint alloc_loop (n : nat) (self : Bitmap) (block_id : Z) : M St (option Z) :=
  match n with
  | O => ret None
  | S n =>
      let! pos := modify_in BitmapBlock (u64 (block_id + start_block_id self)) 0 (alloc_in_block block_id) in
      match pos with
      | Some _ => ret pos
      | None => alloc_loop n self (block_id + 1)
      end
  end.
Definition Bitmap_alloc (self : Bitmap) : M St (option Z) := alloc_loop (Z.to_nat (blocks self)) self 0.

Definition Bitmap_dealloc (self : Bitmap) (bit : Z) : M St unit :=
  let '(block_pos, bits64_pos, inner_pos) := decomposition bit in
  modify_in BitmapBlock (u64 (block_pos + start_block_id self)) 0 (fun bitmap_block =>
    let! bits64 := index bitmap_block bits64_pos in
    assert (0 <? Z.land bits64 (u64 (Z.shiftl 1 inner_pos))) ;;;
    let! bitmap_block' := index_set bitmap_block bits64_pos (u64 (bits64 - Z.shiftl 1 inner_pos)) in
    ret (tt, bitmap_block')).
End bitmap.

(** ** Bits of a block *)

Definition block_bit (b : list Z) (i : Z) : bool := Z.testbit (of_le b) i.

Lemma trailing_ones_loop_spec n z :
  0 <= z < 2 ^ Z.of_nat n -> z <> 2 ^ Z.of_nat n - 1 ->
  let t := trailing_ones_loop n z in
  0 <= t < Z.of_nat n /\ Z.testbit z t = false /\ forall j, 0 <= j < t -> Z.testbit z j = true.
Proof.
  revert z. induction n as [|n IH]; intros z Hz Hne; [cbn in *; lia|].
  rewrite Nat2Z.inj_succ, Z.pow_succ_r in Hz, Hne by lia. cbn [trailing_ones_loop].
  destruct (Z.odd z) eqn:Ho; cycle 1.
  { cbv zeta. split; [lia|]. rewrite Z.bit0_odd. split; [done|lia]. }
  assert (Hz2 : z = 2 * (z / 2) + 1) by (pose proof (Z.div2_odd z) as Hd; rewrite Ho, Z.div2_div in Hd; cbn in Hd; lia).
  destruct (IH (z / 2)) as (Ht & Hf & Hall); [lia|lia|]. set (t := trailing_ones_loop n (z / 2)) in *. cbv zeta.
  split; [lia|]. rewrite Z.add_1_l. split.
  - rewrite Hz2, Z.testbit_odd_succ by lia. done.
  - intros j Hj. rewrite Hz2. destruct (Z.eq_dec j 0) as [->|Hj0]; [apply Z.testbit_odd_0|].
    replace j with (Z.succ (j - 1)) by lia. rewrite Z.testbit_odd_succ by lia. apply Hall. lia.
Qed.

Lemma all_ones_bits z j : z = 2 ^ 64 - 1 -> 0 <= j < 64 -> Z.testbit z j = true.
Proof. intros -> Hj. replace (2 ^ 64 - 1) with (Z.ones 64) by done. by rewrite Z.ones_spec_low. Qed.

Section bits.
Context (b : list Z) (Hb : block_ok b).

Lemma block_len : length b = 512%nat.
Proof. apply Hb. Qed.

Lemma block_word (p : nat) : (p < 64)%nat ->
  exists x, decode_words 8 64 b !! p = Some x /\ 0 <= x < 2 ^ 64 /\
    forall j, 0 <= j < 64 -> Z.testbit x j = block_bit b (Z.of_nat p * 64 + j).
Proof.
  intros Hp. pose proof block_len as Hl. exists (of_le (slice b (p * 8) 8)). split; [by apply decode_words_lookup|].
  assert (Hs : is_bytes (slice b (p * 8) 8)) by (apply Forall_take, Forall_drop, Hb). split.
  - pose proof (of_le_bound _ Hs) as Hbd. rewrite length_slice in Hbd by lia. exact Hbd.
  - intros j Hj. unfold block_bit. replace (Z.of_nat p * 64 + j) with (8 * Z.of_nat (p * 8) + j) by lia.
    symmetry. apply of_le_testbit; [apply Hb|lia|lia].
Qed.

Lemma set_word_bits (p : nat) x i :
  (p < 64)%nat -> 0 <= x < 2 ^ 64 -> 0 <= i < 4096 ->
  block_bit (splice b (p * 8) (le_bytes 8 x)) i =
  if i / 64 =? Z.of_nat p then Z.testbit x (i mod 64) else block_bit b i.
Proof.
  intros Hp Hx Hi. pose proof block_len as Hl. set (b' := splice _ _ _).
  assert (Hl' : length b' = 512%nat) by (unfold b'; rewrite length_splice; [done|rewrite length_le_bytes; lia]).
  assert (Hb' : is_bytes b') by (apply splice_Forall; [apply Hb|apply le_bytes_is_bytes]).
  set (q := Z.to_nat (i / 64)). set (j := i mod 64).
  assert (Hq : i = 8 * Z.of_nat (q * 8) + j) by (unfold q, j; Z.to_euclidean_division_equations; lia).
  assert (Hq64 : (q < 64)%nat) by (unfold q; Z.to_euclidean_division_equations; lia).
  assert (Hj : 0 <= j < 64) by (apply Z.mod_pos_bound; lia). clearbody q j.
  assert (Eq : i / 64 = Z.of_nat q) by (Z.to_euclidean_division_equations; lia). rewrite Eq.
  unfold block_bit. rewrite Hq, (of_le_testbit b' (q * 8) 8), (of_le_testbit b (q * 8) 8); try lia; try done; [|apply Hb].
  destruct (Z.eqb_spec (Z.of_nat q) (Z.of_nat p)) as [->%Nat2Z.inj|Hne]; unfold b'.
  - pose proof (slice_splice b (p * 8) (le_bytes 8 x)) as HS. rewrite length_le_bytes in HS.
    rewrite HS by lia. by rewrite of_le_le_bytes.
  - rewrite slice_splice_disjoint; [done|rewrite length_le_bytes; lia|lia|rewrite length_le_bytes; lia].
Qed.
End bits.

(** Bits by word and position. *)
Lemma bit_split i : 0 <= i < 4096 ->
  exists (p : nat) j, (p < 64)%nat /\ 0 <= j < 64 /\ i = Z.of_nat p * 64 + j /\ i / 64 = Z.of_nat p /\ i mod 64 = j.
Proof.
  intros Hi. exists (Z.to_nat (i / 64)), (i mod 64).
  pose proof (Z.mod_pos_bound i 64). Z.to_euclidean_division_equations. lia.
Qed.

Lemma or_bit w t j : 0 <= t -> 0 <= j ->
  Z.testbit (Z.lor w (2 ^ t)) j = Z.testbit w j || (j =? t).
Proof. intros Ht Hj. by rewrite Z.lor_spec, Z.pow2_bits_eqb, (Z.eqb_sym t) by done. Qed.

Lemma lor_u64 w t : 0 <= w < 2 ^ 64 -> 0 <= t < 64 -> 0 <= Z.lor w (2 ^ t) < 2 ^ 64.
Proof.
  intros Hw Ht. split; [apply Z.lor_nonneg; lia|].
  destruct (Z.eq_dec (Z.lor w (2 ^ t)) 0) as [->|Hz]; [lia|].
  assert (Hp : 0 < Z.lor w (2 ^ t)) by (pose proof (proj2 (Z.lor_nonneg w (2 ^ t)) ltac:(lia)); lia).
  apply Z.log2_lt_pow2; [done|]. rewrite Z.log2_lor by lia. apply Z.max_lub_lt.
  - destruct (Z.eq_dec w 0) as [->|]; [done|]. apply Z.log2_lt_pow2; lia.
  - rewrite Z.log2_pow2; lia.
Qed.

Section alloc.
Context {St : Type} `{SL : BlockStoreLaws St}.
Implicit Types (s : St) (self : Bitmap).

(** The closure of [alloc] finds the first free bit of the block. *)
Lemma alloc_in_block_run (b : list Z) id :
  block_ok b -> 0 <= id -> (id + 1) * BLOCK_BITS < 2 ^ 64 ->
  (exists i ws, 0 <= i < 4096 /\ block_bit b i = false /\ (forall j, 0 <= j < i -> block_bit b j = true) /\
     (forall s, alloc_in_block id (decode_words 8 64 b) s = Ret (Some (id * BLOCK_BITS + i), ws) s) /\
     length ws = 64%nat /\
     forall j, 0 <= j < 4096 -> block_bit (encode_words 8 ws) j = block_bit b j || (j =? i)) \/
  ((forall j, 0 <= j < 4096 -> block_bit b j = true) /\
   forall s, alloc_in_block id (decode_words 8 64 b) s = Ret (None, decode_words 8 64 b) s).
Proof.
  intros Hb Hid Hlt. unfold alloc_in_block. set (ws := decode_words 8 64 b).
  assert (Hws : length ws = 64%nat) by apply length_decode_words.
  destruct (find_index _ ws) as [p|] eqn:Ef; cycle 1.
  { right. split; [|done]. apply find_index_None in Ef. rewrite Forall_lookup in Ef. intros j Hj.
    destruct (bit_split j Hj) as (q & k & Hq & Hk & -> & _). destruct (block_word b Hb q Hq) as (x & Hx & _ & Hbits).
    rewrite <- Hbits by done. specialize (Ef q x Hx). apply negb_false_iff, Z.eqb_eq in Ef. by apply all_ones_bits. }
  left. apply find_index_Some in Ef as [(x & Hx & Hne) Hbefore]. apply negb_true_iff, Z.eqb_neq in Hne.
  assert (Hp : (p < 64)%nat) by (apply lookup_lt_Some in Hx; lia).
  destruct (block_word b Hb p Hp) as (x' & Hx' & Hr & Hbits). assert (x' = x) as -> by (unfold ws in Hx; congruence).
  destruct (trailing_ones_loop_spec 64 x Hr Hne) as (Ht & Hfree & Hones). fold (trailing_ones x) in Ht, Hfree, Hones.
  set (t := trailing_ones x) in *. change (Z.of_nat 64) with 64 in Ht.
  exists (Z.of_nat p * 64 + t), (<[p := Z.lor x (2 ^ t)]> ws). split_and!; try lia.
  - rewrite <- Hbits by done. done.
  - intros j Hj. destruct (bit_split j ltac:(lia)) as (q & k & Hq & Hk & -> & _).
    destruct (block_word b Hb q Hq) as (y & Hy & _ & Hbits'). rewrite <- Hbits' by done.
    destruct (decide (q = p)) as [->|Hqp].
    + assert (y = x) as -> by (unfold ws in Hx; congruence). apply Hones. lia.
    + specialize (Hbefore q y ltac:(lia) Hy). apply negb_false_iff, Z.eqb_eq in Hbefore. by apply all_ones_bits.
  - intros s. unfold index, index_set. rewrite vget_nat, Hx. unfold bind at 1. cbn [ret].
    fold t. rewrite (Z.mod_small t 64), Z.shiftl_1_l, (u64_small (2 ^ t)) by
      (try split; try lia; try (apply Z.pow_lt_mono_r; lia); apply Z.pow_nonneg; lia).
    rewrite vset_nat by lia. unfold bind. cbn [ret]. unfold BLOCK_BITS, BLOCK_SZ in *. rewrite u64_small by lia.
    do 3 f_equal. lia.
  - by rewrite length_insert.
  - intros j Hj. unfold ws. rewrite encode_words_insert by (try done; apply Hb).
    rewrite set_word_bits by (try done; by apply lor_u64).
    destruct (bit_split j Hj) as (q & k & Hq & Hk & -> & -> & ->).
    destruct (Z.eqb_spec (Z.of_nat q) (Z.of_nat p)) as [->%Nat2Z.inj|Hqp].
    + rewrite or_bit, Hbits by lia. f_equal. destruct (Z.eqb_spec k t), (Z.eqb_spec (Z.of_nat p * 64 + k) (Z.of_nat p * 64 + t)); lia || done.
    + rewrite (proj2 (Z.eqb_neq _ _)), orb_false_r by lia. done.
Qed.

(** The bits of a bitmap in the view of a store. *)
Definition bitmap_bit (F : Z -> list Z) self (c : Z) : bool :=
  block_bit (F (start_block_id self + c / BLOCK_BITS)) (c mod BLOCK_BITS).
Definition in_bitmap self (j : Z) : Prop := start_block_id self <= j < start_block_id self + blocks self.

#[export] Instance in_bitmap_dec self j : Decision (in_bitmap self j).
Proof. unfold in_bitmap. apply _. Defined.

(** The bitmap lies on the device and none of its blocks is open. *)
Record bitmap_at s self : Prop := {
  bm_start : 0 <= start_block_id self;
  bm_blocks : 0 <= blocks self;
  bm_end : start_block_id self + blocks self <= bs_blocks s;
  bm_size : bs_blocks s * BLOCK_BITS < 2 ^ 64;
  bm_free j : in_bitmap self j -> j ∉ bs_held s;
  bm_room : (length (bs_held s) < BLOCK_CACHE_SIZE)%nat;
}.

Lemma bitmap_openable s self j : bitmap_at s self -> in_bitmap self j -> openable s j.
Proof. intros [? ? ? ? Hf ?] Hj. split; [unfold blk_in, in_bitmap in *; lia|by apply Hf|done]. Qed.

Lemma bitmap_at_evolves s F s' self : evolves s F s' -> bitmap_at s self -> bitmap_at s' self.
Proof. intros [? Hb Hh ? ?] [? ? ? ? ? ?]. split; rewrite ?Hb, ?Hh; done. Qed.

(** One block of [alloc]: the bit found is set, or the block is full and stays. *)
Lemma alloc_block_run s self i :
  bs_ok s -> bitmap_at s self -> 0 <= i < blocks self ->
  let id := start_block_id self + i in
  exists o s' F, modify_in BitmapBlock (u64 (i + start_block_id self)) 0 (alloc_in_block i) s = Ret o s' /\
    evolves s F s' /\ (forall j, j <> id -> F j = bs_view s j) /\
    match o with
    | Some c => exists k, c = i * BLOCK_BITS + k /\ 0 <= k < BLOCK_BITS /\ block_bit (bs_view s id) k = false /\
        (forall j, 0 <= j < k -> block_bit (bs_view s id) j = true) /\
        (forall j, 0 <= j < BLOCK_BITS -> block_bit (F id) j = block_bit (bs_view s id) j || (j =? k))
    | None => F id = bs_view s id /\ forall j, 0 <= j < BLOCK_BITS -> block_bit (bs_view s id) j = true
    end.
Proof.
  intros Hok Hbm Hi id. pose proof Hbm as [Hst Hbl Hend Hsz _ _].
  assert (Hid : in_bitmap self id) by (unfold in_bitmap, id; lia).
  pose proof (bitmap_openable s self id Hbm Hid) as Hop.
  pose proof (bs_view_ok s id Hok (can_in _ _ Hop)) as Hb.
  assert (Eid : u64 (i + start_block_id self) = id).
  { unfold BLOCK_BITS, BLOCK_SZ in *. rewrite u64_small by lia. unfold id. lia. }
  rewrite Eid. assert (E4096 : BLOCK_BITS = 4096) by done.
  destruct (alloc_in_block_run (bs_view s id) i Hb) as [(k & ws & Hk & Hf & Hbefore & Hrun & Hlw & Hbits)|[Hall Hrun]];
    [lia|lia|..].
  - destruct (modify_words_pure 8 64 eq_refl s id (alloc_in_block i) _ ws Hok Hop Hlw Hrun) as (s' & E & He).
    exists (Some (i * BLOCK_BITS + k)), s'. eexists. split; [exact E|]. split; [exact He|].
    split; [intros j Hj; by apply upd_ne|]. exists k. rewrite upd_eq, E4096. auto.
  - destruct (modify_words_pure 8 64 eq_refl s id (alloc_in_block i) _ _ Hok Hop
      (length_decode_words 8 64 _) Hrun) as (s' & E & He).
    rewrite encode_decode_words in He by apply Hb.
    exists None, s'. eexists. split; [exact E|]. split; [exact He|].
    split; [intros j Hj; by apply upd_ne|]. rewrite upd_eq, E4096. auto.
Qed.

Lemma bitmap_bit_block F self i k :
  0 <= k < BLOCK_BITS -> bitmap_bit F self (i * BLOCK_BITS + k) = block_bit (F (start_block_id self + i)) k.
Proof.
  intros Hk. unfold bitmap_bit, BLOCK_BITS, BLOCK_SZ in *.
  replace ((i * (512 * 8) + k) / (512 * 8)) with i by (Z.to_euclidean_division_equations; lia).
  f_equal. Z.to_euclidean_division_equations. lia.
Qed.

Lemma bitmap_bit_split c : exists i k, c = i * BLOCK_BITS + k /\ 0 <= k < BLOCK_BITS.
Proof.
  exists (c / BLOCK_BITS), (c mod BLOCK_BITS). unfold BLOCK_BITS, BLOCK_SZ.
  pose proof (Z.mod_pos_bound c (512 * 8)). pose proof (Z.div_mod c (512 * 8)). lia.
Qed.

Lemma alloc_loop_run n s self i :
  bs_ok s -> bitmap_at s self -> 0 <= i -> i + Z.of_nat n = blocks self ->
  exists o s' F, alloc_loop n self i s = Ret o s' /\ evolves s F s' /\
    (forall j, ~ in_bitmap self j -> F j = bs_view s j) /\
    match o with
    | Some c => i * BLOCK_BITS <= c < blocks self * BLOCK_BITS /\ bitmap_bit (bs_view s) self c = false /\
        (forall d, i * BLOCK_BITS <= d < c -> bitmap_bit (bs_view s) self d = true) /\
        (forall d, bitmap_bit F self d = bitmap_bit (bs_view s) self d || (d =? c))
    | None => (forall d, i * BLOCK_BITS <= d < blocks self * BLOCK_BITS -> bitmap_bit (bs_view s) self d = true) /\
        (forall j, in_bitmap self j -> F j = bs_view s j)
    end.
Proof.
  assert (EB : BLOCK_BITS = 4096) by done.
  revert s i. induction n as [|n IH]; intros s i Hok Hbm Hi Hn.
  { exists None, s, (bs_view s). split; [done|]. split; [by apply evolves_refl|]. split; [done|]. split; [lia|done]. }
  destruct (alloc_block_run s self i Hok Hbm ltac:(lia)) as (o & s1 & F & E & He & Hother & Ho).
  cbn [alloc_loop]. unfold BitmapBlock in E |- *. rewrite (bind_Ret _ _ _ _ _ E).
  set (id := start_block_id self + i) in *. assert (Hid : in_bitmap self id) by (unfold in_bitmap, id; lia).
  destruct o as [c|].
  - destruct Ho as (k & -> & Hk & Hf & Hbefore & Hbits). exists (Some (i * BLOCK_BITS + k)), s1, F.
    split; [done|]. split; [done|]. split; [intros j Hj; apply Hother; congruence|].
    rewrite bitmap_bit_block by done. split_and!; try lia; try done.
    + intros d Hd. replace d with (i * BLOCK_BITS + (d - i * BLOCK_BITS)) by lia.
      rewrite bitmap_bit_block by lia. apply Hbefore. lia.
    + intros d. destruct (bitmap_bit_split d) as (i' & k' & -> & Hk'). rewrite !bitmap_bit_block by done.
      destruct (Z.eq_dec i' i) as [->|Hne].
      * rewrite Hbits by done. f_equal.
        destruct (Z.eqb_spec k' k), (Z.eqb_spec (i * BLOCK_BITS + k') (i * BLOCK_BITS + k)); lia || done.
      * rewrite Hother by lia. rewrite (proj2 (Z.eqb_neq _ _)), orb_false_r; [done|lia].
  - destruct Ho as [Hid' Hall]. assert (HF : forall j, F j = bs_view s j).
    { intros j. destruct (Z.eq_dec j id) as [->|]; [done|by apply Hother]. }
    assert (Hbit : forall d, 0 <= d < blocks self * BLOCK_BITS ->
      bitmap_bit (bs_view s1) self d = bitmap_bit (bs_view s) self d).
    { intros d Hd. unfold bitmap_bit. rewrite (ev_view _ _ _ He), HF; [done|]. destruct Hbm.
      unfold blk_in. Z.to_euclidean_division_equations. lia. }
    destruct (IH s1 (i + 1)) as (o & s2 & G & E2 & He2 & Hout & Ho2);
      [apply He|by apply (bitmap_at_evolves s F)|lia|lia|].
    (* past the end of the device the two views may differ: compare inside *)
    set (G' := fun j => if decide (in_bitmap self j) then G j else bs_view s j).
    exists o, s2, G'. split; [exact E2|].
    assert (HG : forall j, blk_in s j -> G j = G' j).
    { intros j Hj. unfold G'. destruct (decide (in_bitmap self j)); [done|].
      rewrite Hout by done. rewrite (ev_view _ _ _ He) by done. apply HF. }
    split; [apply (evolves_ext _ G); [by apply (evolves_trans s F s1)|done]|].
    split; [intros j Hj; unfold G'; by rewrite decide_False|].
    assert (Hin : forall j, in_bitmap self j -> bs_view s1 j = bs_view s j).
    { intros j Hj. rewrite (ev_view _ _ _ He), HF; [done|]. destruct Hbm. unfold blk_in, in_bitmap in *. lia. }
    destruct o as [c|].
    + destruct Ho2 as (Hc & Hf & Hbefore & Hbits). rewrite Hbit in Hf by lia. split_and!; try lia; try done.
      * intros d Hd. destruct (Z.lt_ge_cases d ((i + 1) * BLOCK_BITS)).
        -- replace d with (i * BLOCK_BITS + (d - i * BLOCK_BITS)) by lia.
           rewrite bitmap_bit_block by lia. apply Hall. lia.
        -- rewrite <- Hbit by lia. apply Hbefore. lia.
      * intros d. destruct (bitmap_bit_split d) as (i' & k' & -> & Hk').
        specialize (Hbits (i' * BLOCK_BITS + k')). rewrite !bitmap_bit_block in Hbits |- * by done.
        unfold G'. destruct (decide (in_bitmap self (start_block_id self + i'))) as [Hi'|Hi'].
        -- by rewrite Hbits, Hin.
        -- rewrite (proj2 (Z.eqb_neq _ _)), orb_false_r; [done|]. unfold in_bitmap in Hi'. lia.
    + destruct Ho2 as [Hall2 Hsame]. split.
      * intros d Hd. destruct (Z.lt_ge_cases d ((i + 1) * BLOCK_BITS)).
        -- replace d with (i * BLOCK_BITS + (d - i * BLOCK_BITS)) by lia.
           rewrite bitmap_bit_block by lia. apply Hall. lia.
        -- rewrite <- Hbit by lia. apply Hall2. lia.
      * intros j Hj. unfold G'. rewrite decide_True by done. by rewrite Hsame, Hin.
Qed.

Lemma Bitmap_alloc_run s self :
  bs_ok s -> bitmap_at s self ->
  exists o s', Bitmap_alloc self s = Ret o s' /\ steps s s' /\ bitmap_at s' self /\
    (forall j, 0 <= j < bs_blocks s -> ~ in_bitmap self j -> bs_view s' j = bs_view s j) /\
    match o with
    | Some c => 0 <= c < maximum self /\ bitmap_bit (bs_view s) self c = false /\
        (forall d, 0 <= d < c -> bitmap_bit (bs_view s) self d = true) /\
        (forall d, 0 <= d < maximum self ->
           bitmap_bit (bs_view s') self d = bitmap_bit (bs_view s) self d || (d =? c))
    | None => (forall d, 0 <= d < maximum self -> bitmap_bit (bs_view s) self d = true) /\
        (forall d, 0 <= d < maximum self -> bitmap_bit (bs_view s') self d = bitmap_bit (bs_view s) self d)
    end.
Proof.
  intros Hok Hbm. pose proof Hbm as [Hst Hbl Hend Hsz _ _].
  destruct (alloc_loop_run (Z.to_nat (blocks self)) s self 0 Hok Hbm) as (o & s' & F & E & He & Hout & Ho); [lia|lia|].
  assert (EB : BLOCK_BITS = 4096) by done.
  assert (Hmax : maximum self = blocks self * BLOCK_BITS) by (unfold maximum; apply u64_small; lia). rewrite Hmax.
  assert (Hbit : forall d, 0 <= d < blocks self * BLOCK_BITS -> bitmap_bit (bs_view s') self d = bitmap_bit F self d).
  { intros d Hd. unfold bitmap_bit. rewrite (ev_view _ _ _ He); [done|]. unfold blk_in.
    Z.to_euclidean_division_equations. lia. }
  exists o, s'. split; [exact E|]. split; [by eapply evolves_steps|]. split; [by apply (bitmap_at_evolves s F)|]. split.
  { intros j Hj Hnin. rewrite (ev_view _ _ _ He) by done. by apply Hout. }
  destruct o as [c|].
  - destruct Ho as (Hc & Hf & Hbefore & Hbits). split; [lia|]. split; [done|]. split.
    + intros d Hd. apply Hbefore. lia.
    + intros d Hd. by rewrite Hbit.
  - destruct Ho as [Hall Hsame]. split; [intros d Hd; apply Hall; lia|]. intros d Hd. rewrite Hbit by done.
    unfold bitmap_bit. rewrite Hsame; [done|]. unfold in_bitmap. Z.to_euclidean_division_equations. lia.
Qed.

(** Allocation from a bitmap on disk returns the first clear bit and sets that bit only, or
    returns None without a change when every bit is set. *)
Theorem bitmap_alloc_first_free s self :
  bs_ok s -> bitmap_at s self ->
  exists o s', Bitmap_alloc self s = Ret o s' /\ bs_ok s' /\ bitmap_at s' self /\
    (forall j, 0 <= j < bs_blocks s -> ~ in_bitmap self j -> bs_view s' j = bs_view s j) /\
    match o with
    | Some c => 0 <= c < maximum self /\ bitmap_bit (bs_view s) self c = false /\
        (forall d, 0 <= d < c -> bitmap_bit (bs_view s) self d = true) /\
        (forall d, 0 <= d < maximum self ->
           bitmap_bit (bs_view s') self d = bitmap_bit (bs_view s) self d || (d =? c))
    | None => (forall d, 0 <= d < maximum self -> bitmap_bit (bs_view s) self d = true) /\
        (forall d, 0 <= d < maximum self -> bitmap_bit (bs_view s') self d = bitmap_bit (bs_view s) self d)
    end.
Proof.
  intros Hok Hbm. destruct (Bitmap_alloc_run s self Hok Hbm) as (o & s' & E & Hst & Hrest).
  exists o, s'. split; [exact E|]. split; [apply Hst|exact Hrest].
Qed.

Lemma sub_bit_word x t j :
  0 <= x < 2 ^ 64 -> 0 <= t < 64 -> Z.testbit x t = true -> 0 <= j < 64 ->
  0 <= x - 2 ^ t < 2 ^ 64 /\ Z.testbit (x - 2 ^ t) j = Z.testbit x j && negb (j =? t).
Proof.
  intros Hx Ht Hb Hj. assert (Hl : Z.lxor x (2 ^ t) = x - 2 ^ t).
  { rewrite Z.sub_nocarry_ldiff.
    - apply Z.bits_inj'. intros n Hn. rewrite Z.lxor_spec, Z.ldiff_spec, Z.pow2_bits_eqb by lia.
      destruct (Z.eqb_spec t n) as [<-|]; [by rewrite Hb|]. by destruct (Z.testbit x n).
    - apply Z.bits_inj'. intros n Hn. rewrite Z.ldiff_spec, Z.pow2_bits_eqb, Z.bits_0 by lia.
      destruct (Z.eqb_spec t n) as [<-|]; [by rewrite Hb|done]. }
  assert (0 <= x - 2 ^ t) by (rewrite <- Hl; apply Z.lxor_nonneg; split; intros; [apply Z.pow_nonneg|]; lia).
  split; [pose proof (Z.pow_pos_nonneg 2 t); lia|].
  rewrite <- Hl, Z.lxor_spec, Z.pow2_bits_eqb by lia. rewrite (Z.eqb_sym t j).
  destruct (Z.eqb_spec j t) as [->|]; [by rewrite Hb|]. by destruct (Z.testbit x j).
Qed.

Lemma land_pow2_pos x t : 0 <= t -> (0 <? Z.land x (2 ^ t)) = Z.testbit x t.
Proof.
  intros Ht. assert (Hl : Z.land x (2 ^ t) = if Z.testbit x t then 2 ^ t else 0).
  { apply Z.bits_inj'. intros n Hn. rewrite Z.land_spec, Z.pow2_bits_eqb by done.
    destruct (Z.eqb_spec t n) as [<-|Hne].
    - rewrite andb_true_r. destruct (Z.testbit x t); [by rewrite Z.pow2_bits_true|by rewrite Z.bits_0].
    - rewrite andb_false_r. destruct (Z.testbit x t); [by rewrite Z.pow2_bits_false|by rewrite Z.bits_0]. }
  rewrite Hl. destruct (Z.testbit x t); [|done]. apply Z.ltb_lt. lia.
Qed.

Lemma clear_bit_block (b : list Z) (Hb : block_ok b) (p : nat) t x j :
  (p < 64)%nat -> 0 <= t < 64 -> decode_words 8 64 b !! p = Some x -> Z.testbit x t = true -> 0 <= j < 4096 ->
  block_bit (encode_words 8 (<[p := x - 2 ^ t]> (decode_words 8 64 b))) j =
  block_bit b j && negb (j =? Z.of_nat p * 64 + t).
Proof.
  intros Hp Ht Hx Hxt Hj. destruct (block_word b Hb p Hp) as (x' & Hx' & Hr & Hbits).
  assert (x' = x) as -> by congruence. destruct (sub_bit_word x t t Hr Ht Hxt Ht) as [Hxr _].
  rewrite encode_words_insert by (try done; apply Hb). rewrite set_word_bits by done.
  destruct (bit_split j Hj) as (q & t' & Hq & Ht' & -> & -> & ->).
  destruct (Z.eqb_spec (Z.of_nat q) (Z.of_nat p)) as [->%Nat2Z.inj|Hne].
  - destruct (sub_bit_word x t t' Hr Ht Hxt Ht') as [_ ->]. rewrite Hbits by done. f_equal. f_equal.
    destruct (Z.eqb_spec t' t), (Z.eqb_spec (Z.of_nat p * 64 + t') (Z.of_nat p * 64 + t)); lia || done.
  - rewrite (proj2 (Z.eqb_neq _ _)), andb_true_r; [done|lia].
Qed.

Lemma Bitmap_dealloc_run s self c :
  bs_ok s -> bitmap_at s self -> 0 <= c < maximum self ->
  if bitmap_bit (bs_view s) self c
  then exists s', Bitmap_dealloc self c s = Ret tt s' /\ steps s s' /\ bitmap_at s' self /\
    (forall j, 0 <= j < bs_blocks s -> ~ in_bitmap self j -> bs_view s' j = bs_view s j) /\
    (forall d, 0 <= d < maximum self ->
       bitmap_bit (bs_view s') self d = bitmap_bit (bs_view s) self d && negb (d =? c))
  else Bitmap_dealloc self c s = Panic Assert.
Proof.
  intros Hok Hbm Hc. pose proof Hbm as [Hst Hbl Hend Hsz _ _]. assert (EB : BLOCK_BITS = 4096) by done.
  assert (Hmax : maximum self = blocks self * BLOCK_BITS) by (unfold maximum; apply u64_small; lia). rewrite Hmax in *.
  destruct (bitmap_bit_split c) as (i & k & -> & Hk). rewrite bitmap_bit_block by done.
  destruct (bit_split k ltac:(lia)) as (p & t & Hp & Ht & Ekpt & Ep & Et).
  set (id := start_block_id self + i). assert (Hid : in_bitmap self id) by (unfold in_bitmap, id; lia).
  pose proof (bitmap_openable s self id Hbm Hid) as Hop. pose proof (bs_view_ok s id Hok (can_in _ _ Hop)) as Hb.
  destruct (block_word (bs_view s id) Hb p Hp) as (x & Hx & Hr & Hbits).
  assert (Hdec : decomposition (i * BLOCK_BITS + k) = (i, Z.of_nat p, t)).
  { unfold decomposition. rewrite EB in *. assert ((i * 4096 + k) / 4096 = i) as -> by (Z.to_euclidean_division_equations; lia).
    assert ((i * 4096 + k) mod 4096 = k) as -> by (Z.to_euclidean_division_equations; lia). by rewrite Ep, Et. }
  assert (E1 : u64 (Z.shiftl 1 t) = 2 ^ t).
  { rewrite Z.shiftl_1_l. apply u64_small. split; [apply Z.pow_nonneg; lia|apply Z.pow_lt_mono_r; lia]. }
  assert (Hw : length (decode_words 8 64 (bs_view s id)) = 64%nat) by apply length_decode_words.
  unfold Bitmap_dealloc. rewrite Hdec. assert (u64 (i + start_block_id self) = id) as ->
    by (unfold id; rewrite u64_small; lia).
  assert (Hbit : block_bit (bs_view s id) k = Z.testbit x t) by (rewrite Hbits by done; by rewrite Ekpt). rewrite Hbit.
  assert (Hidx : vget (decode_words 8 64 (bs_view s id)) (Z.of_nat p) = Some x) by (by rewrite vget_nat).
  destruct (Z.testbit x t) eqn:Ht1; cycle 1.
  { apply modify_words_panic; [done|done|done|]. intros s1. unfold index. rewrite Hidx, E1. unfold bind at 1. cbn [ret].
    unfold bind. by rewrite land_pow2_pos, Ht1 by lia. }
  set (ws := <[p := x - 2 ^ t]> (decode_words 8 64 (bs_view s id))).
  match goal with |- context [modify_in _ _ _ ?g] => set (f := g) end.
  destruct (modify_words_pure 8 64 eq_refl s id f tt ws Hok Hop) as (s' & E & He).
  - unfold ws. by rewrite length_insert.
  - intros s1. unfold f, index, index_set. rewrite Hidx. unfold bind at 1. cbn [ret].
    rewrite E1, land_pow2_pos, Ht1 by lia. rewrite bind_assert by done.
    destruct (sub_bit_word x t t Hr Ht Ht1 Ht) as [Hxr _]. rewrite Z.shiftl_1_l, (u64_small (x - 2 ^ t)) by done.
    by rewrite vset_nat by (by rewrite Hw).
  - unfold BitmapBlock. rewrite E. exists s'. split; [done|]. split; [by eapply evolves_steps|].
    split; [by eapply bitmap_at_evolves|]. split.
    + intros j Hj Hnin. rewrite (ev_view _ _ _ He) by done. apply upd_ne. congruence.
    + intros d Hd. destruct (bitmap_bit_split d) as (i' & k' & -> & Hk'). rewrite !bitmap_bit_block by done.
      rewrite (ev_view _ _ _ He) by (unfold blk_in; lia). unfold upd.
      destruct (Z.eqb_spec (start_block_id self + i') id) as [Ei|Ei].
      * assert (i' = i) as -> by (unfold id in Ei; lia). unfold ws.
        rewrite (clear_bit_block (bs_view s id) Hb p t x) by (try done; lia). fold id. f_equal. f_equal.
        destruct (Z.eqb_spec k' (Z.of_nat p * 64 + t)), (Z.eqb_spec (i * BLOCK_BITS + k') (i * BLOCK_BITS + k)); lia || done.
      * rewrite (proj2 (Z.eqb_neq _ _)), andb_true_r; [done|]. unfold id in Ei. lia.
Qed.

(** Returning a set bit to a bitmap clears that bit and no other; returning a clear bit panics. *)
Theorem bitmap_dealloc_spec s self c :
  bs_ok s -> bitmap_at s self -> 0 <= c < maximum self ->
  if bitmap_bit (bs_view s) self c
  then exists s', Bitmap_dealloc self c s = Ret tt s' /\ bs_ok s' /\ bitmap_at s' self /\
    (forall j, 0 <= j < bs_blocks s -> ~ in_bitmap self j -> bs_view s' j = bs_view s j) /\
    (forall d, 0 <= d < maximum self ->
       bitmap_bit (bs_view s') self d = bitmap_bit (bs_view s) self d && negb (d =? c))
  else Bitmap_dealloc self c s = Panic Assert.
Proof.
  intros Hok Hbm Hc. pose proof (Bitmap_dealloc_run s self c Hok Hbm Hc) as Hrun.
  destruct (bitmap_bit (bs_view s) self c); [|exact Hrun]. destruct Hrun as (s' & E & Hst & Hrest).
  exists s'. split; [exact E|]. split; [apply Hst|exact Hrest].
Qed.
End alloc.

(** ** A bitmap on an image *)

Definition demo_bitmap : Bitmap := {| start_block_id := 1; blocks := 2 |}.
Definition demo_store : store BlockFile := BlockCacheManager_new demo_image.

Lemma demo_store_ok : bs_ok demo_store.
Proof. exact (BlockCacheManager_new_ok demo_image demo_image_ok). Qed.
Lemma demo_store_blocks : bs_blocks demo_store = 20.
Proof. exact demo_image_blocks. Qed.

Lemma demo_bitmap_at : bitmap_at demo_store demo_bitmap.
Proof.
  split; rewrite ?demo_store_blocks; try (cbn; lia).
  - by unfold BLOCK_BITS, BLOCK_SZ.
  - intros j _. apply not_elem_of_nil.
  - cbn. unfold BLOCK_CACHE_SIZE. lia.
Qed.

(** Every byte of the image is 7: bit 3 is the first free one. *)
Lemma bitmap_alloc_first_free_witness :
  exists c s', Bitmap_alloc demo_bitmap demo_store = Ret (Some c) s' /\
    bitmap_bit (bs_view demo_store) demo_bitmap c = false.
Proof.
  destruct (bitmap_alloc_first_free demo_store demo_bitmap demo_store_ok demo_bitmap_at)
    as (o & s' & E & _ & _ & _ & Ho). destruct o as [c|].
  - exists c, s'. split; [exact E|]. destruct Ho as (_ & Hf & _). exact Hf.
  - exfalso. destruct Ho as [Hall _]. specialize (Hall 3).
    assert (Hb : bitmap_bit (bs_view demo_store) demo_bitmap 3 = false) by (vm_compute; reflexivity).
    rewrite Hb in Hall. discriminate Hall. vm_compute. split; congruence.
Defined.

Lemma bitmap_dealloc_spec_witness :
  (exists s', Bitmap_dealloc demo_bitmap 4097 demo_store = Ret tt s') /\
  Bitmap_dealloc demo_bitmap 3 demo_store = Panic Assert.
Proof.
  assert (Hm : maximum demo_bitmap = 8192) by reflexivity. split.
  - pose proof (bitmap_dealloc_spec demo_store demo_bitmap 4097 demo_store_ok demo_bitmap_at) as H.
    assert (Hb : bitmap_bit (bs_view demo_store) demo_bitmap 4097 = true) by (vm_compute; reflexivity).
    rewrite Hb in H. destruct H as (s' & E & _); [rewrite Hm; lia|]. exists s'. exact E.
  - pose proof (bitmap_dealloc_spec demo_store demo_bitmap 3 demo_store_ok demo_bitmap_at) as H.
    assert (Hb : bitmap_bit (bs_view demo_store) demo_bitmap 3 = false) by (vm_compute; reflexivity).
    rewrite Hb in H. apply H. rewrite Hm. lia.
Defined.
