(* ===== verification/Layout.v ===== *)
(** The on-disk layout: [components/src/micro_fs/layout.rs].

    The super block, inodes and directory entries are records with the byte
    encoding of their [repr(C)] types; the methods of [DiskInode] that reach
    other blocks are computations on a store of blocks.  A method that takes
    [&mut self] returns the new inode: its caller holds the block the inode lives
    in. *)
From S2P Require Import Prelude BlockCache DiskWords.

Definition MFS_MAGIC : Z := 0x3b800001.
Definition NAME_LENGTH_LIMIT : Z := 27.
Definition INODE_DIRECT_COUNT : Z := 27.
Definition DIRECT_BOUND : Z := INODE_DIRECT_COUNT.
Definition INODE_INDIRECT1_COUNT : Z := BLOCK_SZ / 4.
Definition INDIRECT1_BOUND : Z := DIRECT_BOUND + INODE_INDIRECT1_COUNT.
Definition INODE_INDIRECT2_COUNT : Z := INODE_INDIRECT1_COUNT * INODE_INDIRECT1_COUNT.
Definition INODE_INDIRECT3_COUNT : Z := INODE_INDIRECT2_COUNT * INODE_INDIRECT1_COUNT.
Definition INDIRECT2_BOUND : Z := INDIRECT1_BOUND + INODE_INDIRECT2_COUNT.
Definition DIRENT_SZ : Z := 32.

Definition IndirectBlock : pod (list Z) := pod_words 4 128.
Definition DataBlock : pod (list Z) := pod_bytes block_size.

(** ** The super block *)

Record SuperBlock := {
  magic : Z; sb_total_blocks : Z; inode_bitmap_blocks : Z; inode_area_blocks : Z;
  data_bitmap_blocks : Z; data_area_blocks : Z;
}.
Definition SuperBlock_initialize (total inode_bitmap inode_area data_bitmap data_area : Z) : SuperBlock :=
  {| magic := MFS_MAGIC; sb_total_blocks := total; inode_bitmap_blocks := inode_bitmap;
     inode_area_blocks := inode_area; data_bitmap_blocks := data_bitmap; data_area_blocks := data_area |}.
Definition SuperBlock_valid (self : SuperBlock) : bool := magic self =? MFS_MAGIC.
Definition pod_SuperBlock : pod SuperBlock := {|
  size_of := 24;
  decode bs :=
    match decode_words 4 6 bs with
    | [a; b; c; d; e; f] =>
        Some {| magic := a; sb_total_blocks := b; inode_bitmap_blocks := c; inode_area_blocks := d;
                data_bitmap_blocks := e; data_area_blocks := f |}
    | _ => None
    end;
  encode s := encode_words 4 [magic s; sb_total_blocks s; inode_bitmap_blocks s; inode_area_blocks s;
                              data_bitmap_blocks s; data_area_blocks s];
|}.

(** ** Inodes *)

Inductive DiskInodeType := File | Dir.
#[export] Instance DiskInodeType_eq_dec : EqDecision DiskInodeType.
Proof. solve_decision. Defined.

Record DiskInode := {
  size : Z; direct : list Z; indirect1 : Z; indirect2 : Z; indirect3 : Z; type_ : DiskInodeType;
}.
Definition set_size (x : Z) (self : DiskInode) : DiskInode :=
  {| size := x; direct := direct self; indirect1 := indirect1 self; indirect2 := indirect2 self;
     indirect3 := indirect3 self; type_ := type_ self |}.
Definition set_direct (x : list Z) (self : DiskInode) : DiskInode :=
  {| size := size self; direct := x; indirect1 := indirect1 self; indirect2 := indirect2 self;
     indirect3 := indirect3 self; type_ := type_ self |}.
Definition set_indirect1 (x : Z) (self : DiskInode) : DiskInode :=
  {| size := size self; direct := direct self; indirect1 := x; indirect2 := indirect2 self;
     indirect3 := indirect3 self; type_ := type_ self |}.
Definition set_indirect2 (x : Z) (self : DiskInode) : DiskInode :=
  {| size := size self; direct := direct self; indirect1 := indirect1 self; indirect2 := x;
     indirect3 := indirect3 self; type_ := type_ self |}.
Definition set_indirect3 (x : Z) (self : DiskInode) : DiskInode :=
  {| size := size self; direct := direct self; indirect1 := indirect1 self; indirect2 := indirect2 self;
     indirect3 := x; type_ := type_ self |}.

(** 31 words, the tag byte, three bytes of padding. *)
Definition type_tag (t : DiskInodeType) : Z := match t with File => 0 | Dir => 1 end.
Definition pod_DiskInode : pod DiskInode := {|
  size_of := 128;
  decode bs :=
    let ws := decode_words 4 31 bs in
    let mk t := Some {| size := default 0 (ws !! 0%nat); direct := slice ws 1 27; indirect1 := default 0 (ws !! 28%nat);
                        indirect2 := default 0 (ws !! 29%nat); indirect3 := default 0 (ws !! 30%nat); type_ := t |} in
    match bs !! 124%nat with
    | Some 0 => mk File
    | Some 1 => mk Dir
    | _ => None
    end;
  encode i := encode_words 4 (size i :: direct i ++ [indirect1 i; indirect2 i; indirect3 i]) ++ [type_tag (type_ i)];
|}.

Definition DiskInode_initialize (t : DiskInodeType) (self : DiskInode) : DiskInode :=
  {| size := 0; direct := (fun _ => 0) <$> direct self; indirect1 := 0; indirect2 := 0; indirect3 := 0; type_ := t |}.
Definition dir (self : DiskInode) : bool := bool_decide (type_ self = Dir).
Definition is_file (self : DiskInode) : bool := bool_decide (type_ self = File).

Definition _data_blocks (size : Z) : Z := u32 (size + BLOCK_SZ - 1) / BLOCK_SZ.
Definition data_blocks (self : DiskInode) : Z := _data_blocks (size self).

Definition total_blocks (size : Z) : Z :=
  let data_blocks := _data_blocks size in
  let total := data_blocks in
  let total := if INODE_DIRECT_COUNT <? data_blocks then total + 1 else total in
  let total :=
    if INDIRECT1_BOUND <? data_blocks then
      let total := total + 1 in
      let level2_blocks := (data_blocks - INDIRECT1_BOUND + INODE_INDIRECT1_COUNT - 1) / INODE_INDIRECT1_COUNT in
      total + Z.min level2_blocks INODE_INDIRECT1_COUNT
    else total in
  let total :=
    if INDIRECT2_BOUND <? data_blocks then
      let total := total + 1 in
      let total := total + (data_blocks - INDIRECT2_BOUND + INODE_INDIRECT2_COUNT - 1) / INODE_INDIRECT2_COUNT in
      total + (data_blocks - INDIRECT2_BOUND + INODE_INDIRECT1_COUNT - 1) / INODE_INDIRECT1_COUNT
    else total in
  u32 total.

Section inode.
Context {St : Type} `{BlockStore St}.

Definition block_id (self : DiskInode) (inner_id : Z) : M St Z :=
  if inner_id <? INODE_DIRECT_COUNT then index (direct self) inner_id
  else if inner_id <? INDIRECT1_BOUND then
    read_in IndirectBlock (indirect1 self) 0 (fun indirect_block => index indirect_block (inner_id - INODE_DIRECT_COUNT))
  else if inner_id <? INDIRECT2_BOUND then
    let last := inner_id - INDIRECT1_BOUND in
    let! indirect1 := read_in IndirectBlock (indirect2 self) 0 (fun indirect2 =>
      index indirect2 (last / INODE_INDIRECT1_COUNT)) in
    read_in IndirectBlock indirect1 0 (fun indirect1 => index indirect1 (last mod INODE_INDIRECT1_COUNT))
  else
    let last := inner_id - INDIRECT2_BOUND in
    let! indirect1 := read_in IndirectBlock (indirect3 self) 0 (fun indirect3 =>
      index indirect3 (last / INODE_INDIRECT2_COUNT)) in
    let! indirect2 := read_in IndirectBlock indirect1 0 (fun indirect2 =>
      index indirect2 ((last mod INODE_INDIRECT2_COUNT) / INODE_INDIRECT1_COUNT)) in
    read_in IndirectBlock indirect2 0 (fun indirect1 =>
      index indirect1 ((last mod INODE_INDIRECT2_COUNT) mod INODE_INDIRECT1_COUNT)).

Definition blocks_num_needed (self : DiskInode) (new_size : Z) : M St Z :=
  assert (size self <=? new_size) ;;;
  ret (u32 (total_blocks new_size - total_blocks (size self))).

(** [new_blocks.next().unwrap()] on the remaining blocks. *)
Definition next (src : list Z) : M St (Z * list Z) :=
  match src with
  | [] => fail Unwrap
  | x :: src => ret (x, src)
  end.

(** [while current < bound { arr[current] = new_blocks.next().unwrap(); current += 1 }];
    the first argument counts the turns left. *)
Fixpoint fill (n : nat) (arr : list Z) (current : Z) (src : list Z) : M St (list Z * list Z) :=
  match n with
  | O => ret (arr, src)
  | S n =>
      let! '(x, src) := next src in
      let! arr := index_set arr current x in
      fill n arr (current + 1) src
  end.
Definition fill_while (bound : Z) (arr : list Z) (current : Z) (src : list Z) : M St (list Z * list Z * Z) :=
  let! '(arr, src) := fill (Z.to_nat (bound - current)) arr current src in
  ret (arr, src, Z.max current bound).

(** The loop over the blocks behind [indirect2]: one turn per data block. *)
Fixpoint grow2 (fuel : nat) (a0 b0 a1 b1 : Z) (indirect2 src : list Z) : M St (list Z * list Z) :=
  if (a0 <? a1) || (a0 =? a1) && (b0 <? b1) then
    match fuel with
    | O => fail Fuel
    | S fuel =>
        let! '(indirect2, src) :=
          if b0 =? 0 then
            let! '(x, src) := next src in
            let! indirect2 := index_set indirect2 a0 x in
            ret (indirect2, src)
          else ret (indirect2, src) in
        let! id := index indirect2 a0 in
        let! src := modify_in IndirectBlock id 0 (fun indirect1 =>
          let! '(x, src) := next src in
          let! indirect1 := index_set indirect1 b0 x in
          ret (src, indirect1)) in
        let '(a0, b0) := if b0 + 1 =? INODE_INDIRECT1_COUNT then (a0 + 1, 0) else (a0, b0 + 1) in
        grow2 fuel a0 b0 a1 b1 indirect2 src
    end
  else ret (indirect2, src).

(** The loop over the blocks behind [indirect3]. *)
Fixpoint grow3 (fuel : nat) (a0 b0 c0 a1 b1 c1 : Z) (indirect3 src : list Z) : M St (list Z * list Z) :=
  if (a0 <? a1) || (a0 =? a1) && (b0 <? b1) || (a0 =? a1) && (b0 =? b1) && (c0 <? c1) then
    match fuel with
    | O => fail Fuel
    | S fuel =>
        let! '(indirect3, src) :=
          if b0 =? 0 then
            let! '(x, src) := next src in
            let! indirect3 := index_set indirect3 a0 x in
            ret (indirect3, src)
          else ret (indirect3, src) in
        let! id := index indirect3 a0 in
        let! '(b0, c0, src) := modify_in IndirectBlock id 0 (fun indirect2 =>
          let! '(indirect2, src) :=
            if c0 =? 0 then
              let! '(x, src) := next src in
              let! indirect2 := index_set indirect2 b0 x in
              ret (indirect2, src)
            else ret (indirect2, src) in
          let! id := index indirect2 b0 in
          let! src := modify_in IndirectBlock id 0 (fun indirect1 =>
            let! '(x, src) := next src in
            let! indirect1 := index_set indirect1 c0 x in
            ret (src, indirect1)) in
          let '(b0, c0) := if c0 + 1 =? INODE_INDIRECT1_COUNT then (b0 + 1, 0) else (b0, c0 + 1) in
          ret (b0, c0, src, indirect2)) in
        let '(a0, b0) := if b0 =? INODE_INDIRECT2_COUNT then (a0 + 1, 0) else (a0, b0) in
        grow3 fuel a0 b0 c0 a1 b1 c1 indirect3 src
    end
  else ret (indirect3, src).

(** From the second table on: the rest of [increase_size]. *)
Definition increase_tail (self : DiskInode) (total current : Z) (src : list Z) : M St DiskInode :=
  if INODE_INDIRECT1_COUNT <? total then
    let! '(self, src) :=
      if current =? INODE_INDIRECT1_COUNT then
        let! '(x, src) := next src in ret (set_indirect2 x self, src)
      else ret (self, src) in
    let current := current - INODE_INDIRECT1_COUNT in
    let total := total - INODE_INDIRECT1_COUNT in
    let! src := modify_in IndirectBlock (indirect2 self) 0 (fun indirect2 =>
      let! '(indirect2, src) := grow2 (Z.to_nat (total - current))
        (current / INODE_INDIRECT1_COUNT) (current mod INODE_INDIRECT1_COUNT)
        (total / INODE_INDIRECT1_COUNT) (total mod INODE_INDIRECT1_COUNT) indirect2 src in
      ret (src, indirect2)) in
    if INODE_INDIRECT2_COUNT <? total then
      let! '(self, src) :=
        if current =? INODE_INDIRECT2_COUNT then
          let! '(x, src) := next src in ret (set_indirect3 x self, src)
        else ret (self, src) in
      let current := u32 (current - INODE_INDIRECT2_COUNT) in
      let total := total - INODE_INDIRECT2_COUNT in
      modify_in IndirectBlock (indirect3 self) 0 (fun indirect3 =>
        let! '(indirect3, _) := grow3 (Z.to_nat (total - current))
          (current / INODE_INDIRECT2_COUNT) (current mod INODE_INDIRECT2_COUNT / INODE_INDIRECT1_COUNT)
          (current mod INODE_INDIRECT2_COUNT mod INODE_INDIRECT1_COUNT)
          (total / INODE_INDIRECT2_COUNT) (total mod INODE_INDIRECT2_COUNT / INODE_INDIRECT1_COUNT)
          (total mod INODE_INDIRECT2_COUNT mod INODE_INDIRECT1_COUNT) indirect3 src in
        ret (tt, indirect3)) ;;;
      ret self
    else ret self
  else ret self.

Definition increase_size (self : DiskInode) (new_size : Z) (new_blocks : list Z) : M St DiskInode :=
  let current := data_blocks self in
  let self := set_size new_size self in
  let total := data_blocks self in
  let! '(d, src, current) := fill_while (Z.min total INODE_DIRECT_COUNT) (direct self) current new_blocks in
  let self := set_direct d self in
  if INODE_DIRECT_COUNT <? total then
    let! '(self, src) :=
      if current =? INODE_DIRECT_COUNT then
        let! '(x, src) := next src in ret (set_indirect1 x self, src)
      else ret (self, src) in
    let current := current - INODE_DIRECT_COUNT in
    let total := total - INODE_DIRECT_COUNT in
    let! '(src, current) := modify_in IndirectBlock (indirect1 self) 0 (fun indirect1 =>
      let! '(indirect1, src, current) := fill_while (Z.min total INODE_INDIRECT1_COUNT) indirect1 current src in
      ret (src, current, indirect1)) in
    increase_tail self total current src
  else ret self.

(** *** Clearing *)

(** [v.push(self.direct[current]); self.direct[current] = 0; current += 1] *)
Fixpoint clear_direct (n : nat) (current : Z) (d v : list Z) : M St (list Z * list Z) :=
  match n with
  | O => ret (d, v)
  | S n =>
      let! x := index d current in
      let! d := index_set d current 0 in
      clear_direct n (current + 1) d (v ++ [x])
  end.
(** [v.push(table[current]); current += 1] *)
Fixpoint push_entries (n : nat) (current : Z) (table v : list Z) : M St (list Z) :=
  match n with
  | O => ret v
  | S n =>
      let! x := index table current in
      push_entries n (current + 1) table (v ++ [x])
  end.
(** The entries of a table and what is behind them, with [f] for one entry's block. *)
Fixpoint push_tables (f : list Z -> list Z -> M St (list Z)) (entries v : list Z) : M St (list Z) :=
  match entries with
  | [] => ret v
  | entry :: entries =>
      let! v := modify_in IndirectBlock entry 0 (fun table =>
        let! v := f table (v ++ [entry]) in ret (v, table)) in
      push_tables f entries v
  end.
Definition push_all (table v : list Z) : M St (list Z) := ret (v ++ table).
(** [v.push(table[i])] and the first [n] entries (or tables) behind it. *)
Definition push_part (f : list Z -> list Z -> M St (list Z)) (table : list Z) (i : Z) (v : list Z) : M St (list Z) :=
  let! entry := index table i in
  modify_in IndirectBlock entry 0 (fun table => let! v := f table (v ++ [entry]) in ret (v, table)).

Definition clear_size (self : DiskInode) : M St (list Z * DiskInode) :=
  let data := data_blocks self in
  let self := set_size 0 self in
  let! '(d, v) := clear_direct (Z.to_nat (Z.min data INODE_DIRECT_COUNT)) 0 (direct self) [] in
  let self := set_direct d self in
  if INODE_DIRECT_COUNT <? data then
    let v := v ++ [indirect1 self] in
    let data := data - INODE_DIRECT_COUNT in
    let! v := modify_in IndirectBlock (indirect1 self) 0 (fun indirect1 =>
      let! v := push_entries (Z.to_nat (Z.min data INODE_INDIRECT1_COUNT)) 0 indirect1 v in ret (v, indirect1)) in
    let self := set_indirect1 0 self in
    if INODE_INDIRECT1_COUNT <? data then
      let v := v ++ [indirect2 self] in
      let data := data - INODE_INDIRECT1_COUNT in
      assert (data <=? INODE_INDIRECT2_COUNT) ;;;
      let a1 := data / INODE_INDIRECT1_COUNT in
      let b1 := data mod INODE_INDIRECT1_COUNT in
      let! v := modify_in IndirectBlock (indirect2 self) 0 (fun indirect2 =>
        let! v := push_tables push_all (take (Z.to_nat a1) indirect2) v in
        let! v := if 0 <? b1
                  then push_part (fun table v => ret (v ++ take (Z.to_nat b1) table)) indirect2 a1 v
                  else ret v in
        ret (v, indirect2)) in
      let self := set_indirect2 0 self in
      assert (data <=? INODE_INDIRECT3_COUNT) ;;;
      if INODE_INDIRECT2_COUNT <? data then
        let v := v ++ [indirect3 self] in
        let data := data - INODE_INDIRECT2_COUNT in
        assert (data <=? INODE_INDIRECT3_COUNT) ;;;
        let a2 := data / INODE_INDIRECT2_COUNT in
        let b2 := data mod INODE_INDIRECT2_COUNT / INODE_INDIRECT1_COUNT in
        let c2 := data mod INODE_INDIRECT2_COUNT mod INODE_INDIRECT1_COUNT in
        let last := fun table v => ret (v ++ take (Z.to_nat c2) table) in
        let part := fun table v =>
          let! v := push_tables push_all (take (Z.to_nat b2) table) v in
          if 0 <? c2 then push_part last table b2 v else ret v in
        let fix tables entries indirect3 v :=
          match entries with
          | [] => ret v
          | entry :: entries =>
              let! v := modify_in IndirectBlock entry 0 (fun table =>
                let! v := push_tables push_all table (v ++ [entry]) in ret (v, table)) in
              let! v := if 0 <? b2 then push_part part indirect3 a2 v else ret v in
              tables entries indirect3 v
          end in
        let! v := modify_in IndirectBlock (indirect3 self) 0 (fun indirect3 =>
          let! v := tables (take (Z.to_nat a2) indirect3) indirect3 v in ret (v, indirect3)) in
        ret (v, set_indirect3 0 self)
      else ret (v, self)
    else ret (v, self)
  else ret (v, self).

(** *** Reading and writing *)

Definition get_slice (l : list Z) (lo len : Z) : M St (list Z) :=
  if (0 <=? lo) && (0 <=? len) && (lo + len <=? Z.of_nat (length l))
  then ret (slice l (Z.to_nat lo) (Z.to_nat len)) else fail Bounds.
Definition set_slice (l : list Z) (lo : Z) (d : list Z) : M St (list Z) :=
  if (0 <=? lo) && (lo + Z.of_nat (length d) <=? Z.of_nat (length l))
  then ret (splice l (Z.to_nat lo) d) else fail Bounds.

(** Each turn goes to the end of the current block or of the range; the fuel is
    the number of blocks the range touches. *)
Fixpoint read_loop (fuel : nat) (self : DiskInode) (start start_block read_size end_ : Z) (buf : list Z)
    : M St (Z * list Z) :=
  match fuel with
  | O => fail Fuel
  | S fuel =>
      let end_current_block := Z.min ((start / BLOCK_SZ + 1) * BLOCK_SZ) end_ in
      let block_read_size := end_current_block - start in
      let! id := block_id self (u32 start_block) in
      let! src := read_in DataBlock id 0 (fun data_block => get_slice data_block (start mod BLOCK_SZ) block_read_size) in
      let! buf := set_slice buf read_size src in
      let read_size := read_size + block_read_size in
      if end_current_block =? end_ then ret (read_size, buf)
      else read_loop fuel self end_current_block (start_block + 1) read_size end_ buf
  end.
Definition blocks_touched (start end_ : Z) : nat := S (Z.to_nat (end_ / BLOCK_SZ - start / BLOCK_SZ)).
Definition DiskInode_read_at (self : DiskInode) (offset : Z) (buf : list Z) : M St (Z * list Z) :=
  let end_ := Z.min (u64 (offset + Z.of_nat (length buf))) (size self) in
  if end_ <=? offset then ret (0, buf)
  else read_loop (blocks_touched offset end_) self offset (offset / BLOCK_SZ) 0 end_ buf.

Fixpoint write_loop (fuel : nat) (self : DiskInode) (start start_block write_size end_ : Z) (buf : list Z) : M St Z :=
  match fuel with
  | O => fail Fuel
  | S fuel =>
      let end_current_block := Z.min ((start / BLOCK_SZ + 1) * BLOCK_SZ) end_ in
      let block_write_size := end_current_block - start in
      let! id := block_id self (u32 start_block) in
      modify_in DataBlock id 0 (fun data_block =>
        let! src := get_slice buf write_size block_write_size in
        let! data_block := set_slice data_block (start mod BLOCK_SZ) src in
        ret (tt, data_block)) ;;;
      let write_size := write_size + block_write_size in
      if end_current_block =? end_ then ret write_size
      else write_loop fuel self end_current_block (start_block + 1) write_size end_ buf
  end.
Definition DiskInode_write_at (self : DiskInode) (offset : Z) (buf : list Z) : M St Z :=
  let end_ := Z.min (u64 (offset + Z.of_nat (length buf))) (size self) in
  assert (offset <=? end_) ;;;
  write_loop (blocks_touched offset end_) self offset (offset / BLOCK_SZ) 0 end_ buf.
End inode.

(** ** Directory entries *)

Record DirEntry := { de_name : list Z; de_inode_number : Z }.
Definition DirEntry_empty : DirEntry := {| de_name := replicate 28 0; de_inode_number := 0 |}.
(** [bytes[..name.len()].copy_from_slice(name)] on 28 zero bytes. *)
Definition DirEntry_new {S} (name : list Z) (inode_number : Z) : M S DirEntry :=
  if (length name <=? 28)%nat
  then ret {| de_name := splice (replicate 28 0) 0 name; de_inode_number := inode_number |}
  else fail Bounds.
Definition DirEntry_as_bytes (self : DirEntry) : list Z := de_name self ++ le_bytes 4 (de_inode_number self).
(** The entry whose bytes were written through [as_bytes_mut]. *)
Definition DirEntry_of_bytes (bs : list Z) : DirEntry :=
  {| de_name := take 28 bs; de_inode_number := of_le (drop 28 bs) |}.
(** [core::str::from_utf8] succeeds: well-formed UTF-8, by the first byte of each
    character and the range it allows for the second. *)
Definition between (lo hi c : Z) : bool := (lo <=? c) && (c <=? hi).
Fixpoint utf8_valid (fuel : nat) (bs : list Z) : bool :=
  match fuel, bs with
  | _, [] => true
  | O, _ => false
  | S fuel, a :: r =>
      if between 0 0x7f a then utf8_valid fuel r
      else if between 0xc2 0xdf a then
        match r with b :: r => between 0x80 0xbf b && utf8_valid fuel r | _ => false end
      else if between 0xe0 0xef a then
        match r with
        | b :: c :: r =>
            (if a =? 0xe0 then between 0xa0 0xbf b else if a =? 0xed then between 0x80 0x9f b else between 0x80 0xbf b)
            && between 0x80 0xbf c && utf8_valid fuel r
        | _ => false
        end
      else if between 0xf0 0xf4 a then
        match r with
        | b :: c :: d :: r =>
            (if a =? 0xf0 then between 0x90 0xbf b else if a =? 0xf4 then between 0x80 0x8f b else between 0x80 0xbf b)
            && between 0x80 0xbf c && between 0x80 0xbf d && utf8_valid fuel r
        | _ => false
        end
      else false
  end.
Definition from_utf8 (bs : list Z) : option (list Z) := if utf8_valid (length bs) bs then Some bs else None.
(** [name]: up to the first zero byte; the scan runs off the array if there is none. *)
Definition DirEntry_name {S} (self : DirEntry) : M S (list Z) :=
  match find_index (fun c => c =? 0) (de_name self) with
  | Some len => unwrap (from_utf8 (take len (de_name self)))
  | None => fail Bounds
  end.
