(* ===== verification/Codecs.v ===== *)
(** The byte formats of [components/src/micro_fs/layout.rs] read back: super
    blocks, inodes and directory entries. *)
From S2P Require Import Prelude BlockCache DiskWords Layout.

Lemma splice_0 {A} (l d : list A) : splice l 0 d = d ++ drop (length d) l.
Proof. reflexivity. Qed.

(** What is written through a reference is what the next reader decodes. *)
Class pod_laws {T} (P : pod T) (good : T -> Prop) := {
  pod_bytes_ok t : is_bytes (encode P t);
  pod_fits t : good t -> (length (encode P t) <= size_of P)%nat;
  pod_read t bs : good t -> length bs = size_of P -> decode P (splice bs 0 (encode P t)) = Some t;
}.

Lemma take_decode_words w n bs cs : length bs = (n * w)%nat -> decode_words w n (bs ++ cs) = decode_words w n bs.
Proof.
  revert bs. induction n as [|n IH]; intros bs Hl; [done|]. cbn [decode_words].
  rewrite take_app_le, drop_app_le, IH by (rewrite ?length_drop; lia). done.
Qed.

Definition u32s (l : list Z) : Prop := Forall (fun x => 0 <= x < 256 ^ Z.of_nat 4) l.

Definition SuperBlock_good (sb : SuperBlock) : Prop :=
  u32s [magic sb; sb_total_blocks sb; inode_bitmap_blocks sb; inode_area_blocks sb; data_bitmap_blocks sb; data_area_blocks sb].
#[export] Instance SuperBlock_laws : pod_laws pod_SuperBlock SuperBlock_good.
Proof.
  split.
  - intros t. apply encode_words_bytes.
  - intros t _. cbn [encode pod_SuperBlock size_of]. rewrite length_encode_words. cbn. lia.
  - intros t bs Hg Hl. cbn [encode decode pod_SuperBlock]. rewrite splice_0.
    set (ws := [_; _; _; _; _; _]). rewrite take_decode_words by (by rewrite length_encode_words).
    change 6%nat with (length ws). rewrite decode_encode_words by exact Hg. by destruct t.
Qed.

Definition fields (i : DiskInode) : list Z := size i :: direct i ++ [indirect1 i; indirect2 i; indirect3 i].
Definition DiskInode_good (i : DiskInode) : Prop := length (direct i) = 27%nat /\ u32s (fields i).
#[export] Instance DiskInode_laws : pod_laws pod_DiskInode DiskInode_good.
Proof.
  assert (Hlen : forall t, DiskInode_good t ->
    length (encode_words 4 (size t :: direct t ++ [indirect1 t; indirect2 t; indirect3 t])) = 124%nat).
  { intros t [Hd _]. rewrite length_encode_words. cbn [length]. rewrite length_app, Hd. done. }
  split.
  - intros t. cbn [encode pod_DiskInode]. apply Forall_app. split; [apply encode_words_bytes|].
    constructor; [|constructor]. destruct (type_ t); unfold is_byte; cbn; lia.
  - intros t Hg. cbn [encode pod_DiskInode size_of]. rewrite length_app, Hlen by exact Hg. cbn. lia.
  - intros t bs Hg Hl. pose proof (Hlen t Hg) as Ht. pose proof Hg as [Hd Hu].
    cbn [encode decode pod_DiskInode]. rewrite splice_0, <- app_assoc.
    set (ws := size t :: direct t ++ [indirect1 t; indirect2 t; indirect3 t]) in *.
    assert (Hw : length ws = 31%nat) by (unfold ws; cbn [length]; rewrite length_app, Hd; done).
    rewrite take_decode_words by (by rewrite length_encode_words, Hw).
    replace (decode_words 4 31 (encode_words 4 ws)) with ws by (rewrite <- Hw; symmetry; by apply decode_encode_words).
    rewrite (lookup_app_r (encode_words 4 ws)), Ht, Nat.sub_diag by (rewrite Ht; lia). cbn [app lookup list_lookup].
    assert (Hmk : {| size := default 0 (ws !! 0%nat); direct := slice ws 1 27; indirect1 := default 0 (ws !! 28%nat);
                     indirect2 := default 0 (ws !! 29%nat); indirect3 := default 0 (ws !! 30%nat); type_ := type_ t |} = t).
    { assert (Hx : forall k, ws !! (28 + k)%nat = [indirect1 t; indirect2 t; indirect3 t] !! k).
      { intros k. change ((direct t ++ [indirect1 t; indirect2 t; indirect3 t]) !! (27 + k)%nat = [indirect1 t; indirect2 t; indirect3 t] !! k).
        rewrite lookup_app_r by lia. f_equal. lia. }
      change 30%nat with (28 + 2)%nat. change 29%nat with (28 + 1)%nat. change (ws !! 28%nat) with (ws !! (28 + 0)%nat).
      rewrite !Hx. unfold slice. change (drop 1 ws) with (direct t ++ [indirect1 t; indirect2 t; indirect3 t]).
      rewrite take_app_le, take_ge by lia. by destruct t. }
    destruct (type_ t); cbn [type_tag]; by rewrite Hmk.
Qed.

Lemma decode_inode_direct bs d : decode pod_DiskInode bs = Some d -> length (direct d) = 27%nat.
Proof.
  cbn [decode pod_DiskInode]. intros E. set (ws := decode_words 4 31 bs) in E.
  assert (Hw : length (slice ws 1 27) = 27%nat) by (apply length_slice; unfold ws; rewrite length_decode_words; lia).
  destruct (bs !! 124%nat) as [[|[]|]|]; try discriminate E; injection E as <-; exact Hw.
Qed.

(** ** Directory entries *)

Section dirent.
Context {S : Type}.
Implicit Types (s : S) (name : list Z).

(** Names the format can hold: well-formed text without a zero byte. *)
Definition good_name name : Prop := from_utf8 name = Some name /\ 0 ∉ name /\ is_bytes name.

Lemma splice_zero name (n : nat) : (length name <= n)%nat -> splice (replicate n 0) 0 name = name ++ replicate (n - length name) 0.
Proof. intros Hn. rewrite splice_0. by rewrite drop_replicate. Qed.

Lemma find_zero name (n : nat) : 0 ∉ name -> find_index (fun c => c =? 0) (name ++ replicate n 0) =
  if (n =? 0)%nat then None else Some (length name).
Proof.
  induction name as [|c name IH]; intros Hz; cbn [app find_index length].
  - destruct n; [done|]. done.
  - apply not_elem_of_cons in Hz as [Hc Hz]. rewrite (proj2 (Z.eqb_neq c 0)) by congruence. rewrite IH by done.
    by destruct (n =? 0)%nat.
Qed.

Lemma DirEntry_bytes_roundtrip e :
  length (de_name e) = 28%nat -> 0 <= de_inode_number e < 2 ^ 32 ->
  length (DirEntry_as_bytes e) = 32%nat /\ DirEntry_of_bytes (DirEntry_as_bytes e) = e.
Proof.
  intros Hl Hi. unfold DirEntry_as_bytes, DirEntry_of_bytes. rewrite length_app, length_le_bytes, Hl. split; [done|].
  rewrite take_app_le, take_ge, drop_app_ge, Hl by lia. change (28 - 28)%nat with 0%nat. rewrite drop_0, of_le_le_bytes by done.
  by destruct e.
Qed.

(** A directory entry made from a valid name of at most 27 bytes is read back from its 32 bytes
    with the same name and inode number; a name of 28 bytes makes an entry whose name cannot be
    read, and a longer one panics. *)
Theorem dirent_roundtrip s name inode_number :
  good_name name -> 0 <= inode_number < 2 ^ 32 ->
  if (length name <=? 27)%nat then
    exists e, DirEntry_new name inode_number s = Ret e s /\ length (DirEntry_as_bytes e) = Z.to_nat DIRENT_SZ /\
      DirEntry_of_bytes (DirEntry_as_bytes e) = e /\ DirEntry_name e s = Ret name s /\ de_inode_number e = inode_number
  else if (length name =? 28)%nat then
    exists e, DirEntry_new name inode_number s = Ret e s /\ DirEntry_name e s = Panic Bounds
  else DirEntry_new name inode_number s = Panic Bounds.
Proof.
  intros (Hu & Hz & Hb) Hi. unfold DirEntry_new.
  destruct (Nat.leb_spec (length name) 28) as [H28|H28]; cycle 1.
  { rewrite (proj2 (Nat.leb_gt _ _)), (proj2 (Nat.eqb_neq _ _)) by lia. done. }
  set (e := {| de_name := _; de_inode_number := inode_number |}).
  assert (He : de_name e = name ++ replicate (28 - length name) 0) by (unfold e; cbn [de_name]; by apply splice_zero).
  assert (Hn : DirEntry_name e s = if (28 - length name =? 0)%nat then Panic Bounds else Ret name s).
  { unfold DirEntry_name. rewrite He, find_zero by exact Hz. destruct (28 - length name =? 0)%nat; [done|].
    rewrite take_app_le, take_ge by lia. by rewrite Hu. }
  destruct (Nat.leb_spec (length name) 27) as [H27|H27].
  - destruct (DirEntry_bytes_roundtrip e) as [H1 H2]; [|exact Hi|].
    { rewrite He, length_app, length_replicate. lia. }
    exists e. split; [done|]. split; [exact H1|]. split; [exact H2|]. split; [|done].
    rewrite Hn, (proj2 (Nat.eqb_neq _ _)) by lia. done.
  - rewrite (proj2 (Nat.eqb_eq (length name) 28)) by lia. exists e. split; [done|].
    rewrite Hn, (proj2 (Nat.eqb_eq _ _)) by lia. done.
Qed.
End dirent.

(** Names of 3 (two characters, one of two bytes), 28 and 29 bytes. *)
Lemma dirent_roundtrip_witness :
  (exists e, DirEntry_new [0xc3; 0xa9; 97] 7 tt = Ret e tt /\ DirEntry_name e tt = Ret [0xc3; 0xa9; 97] tt) /\
  (exists e, DirEntry_new (replicate 28 97) 7 tt = Ret e tt /\ DirEntry_name e tt = Panic Bounds) /\
  DirEntry_new (replicate 29 97) 7 tt = Panic Bounds.
Proof.
  assert (Hg : forall l, forallb (fun c => (1 <=? c) && (c <? 256)) l = true -> from_utf8 l = Some l -> good_name l).
  { intros l Hl Hu. split; [exact Hu|]. rewrite forallb_forall in Hl. split.
    - intros Hin%list_elem_of_In. specialize (Hl _ Hin). discriminate Hl.
    - apply Forall_forall. intros x Hin%list_elem_of_In. specialize (Hl _ Hin). unfold is_byte. lia. }
  split_and!.
  - destruct (dirent_roundtrip tt [0xc3; 0xa9; 97] 7 (Hg [0xc3; 0xa9; 97] eq_refl eq_refl) ltac:(lia)) as (e & E & _ & _ & En & _). eauto.
  - exact (dirent_roundtrip tt (replicate 28 97) 7 (Hg (replicate 28 97) eq_refl eq_refl) ltac:(lia)).
  - exact (dirent_roundtrip tt (replicate 29 97) 7 (Hg (replicate 29 97) eq_refl eq_refl) ltac:(lia)).
Defined.
