(* ===== verification/InodeFields.v ===== *)
(** Inodes stay representable: [increase_size], [clear_size] and [initialize] of
    [components/src/micro_fs/layout.rs] only put block numbers they were given,
    zeros and the new size into an inode, so it still fits its 128 bytes. *)
From S2P Require Import Prelude BlockCache DiskWords Layout Codecs.

Section fields.
Context {St : Type} `{BlockStore St} (P : Z -> Prop).
Implicit Types (s : St) (ino : DiskInode).

Lemma next_inv src s x src' s' : next src s = Ret (x, src') s' -> src = x :: src'.
Proof. destruct src as [|y src]; [discriminate|]. by intros [= -> -> _]. Qed.

Lemma fill_inv n arr c src s arr' src' s' :
  fill n arr c src s = Ret (arr', src') s' -> Forall P arr -> Forall P src ->
  Forall P arr' /\ Forall P src' /\ length arr' = length arr.
Proof.
  revert arr c src s. induction n as [|n IH]; intros arr c src s E Ha Hs; cbn [fill] in E.
  - by injection E as <- <- _.
  - apply bind_inv in E as ([x src1] & s1 & E1 & E). apply next_inv in E1 as ->.
    apply Forall_cons in Hs as [Hx Hs]. apply bind_inv in E as (arr1 & s2 & E2 & E). unfold index_set in E2.
    destruct (vset arr c x) as [arr2|] eqn:Ev; [|discriminate E2]. injection E2 as <- _.
    destruct (IH _ _ _ _ E) as (H1 & H2 & H3); [|done|].
    + apply vset_Some in Ev as [_ ->]. by apply Forall_insert.
    + split; [done|]. split; [done|]. by rewrite H3, (vset_length _ _ _ _ Ev).
Qed.

Lemma fill_while_inv bound arr c src s arr' src' c' s' :
  fill_while bound arr c src s = Ret (arr', src', c') s' -> Forall P arr -> Forall P src ->
  Forall P arr' /\ Forall P src' /\ length arr' = length arr.
Proof.
  intros E. apply bind_inv in E as ([a b] & s1 & E1 & [= <- <- _ _]). by eapply fill_inv.
Qed.

(** What is left of the new blocks. *)
Lemma fill_rest n arr c src s arr' src' s' :
  fill n arr c src s = Ret (arr', src') s' -> Forall P src -> Forall P src'.
Proof.
  revert arr c src s. induction n as [|n IH]; intros arr c src s E Hs; cbn [fill] in E.
  - by injection E as _ <- _.
  - apply bind_inv in E as ([x src1] & s1 & E1 & E). apply next_inv in E1 as ->.
    apply Forall_cons in Hs as [_ Hs]. apply bind_inv in E as (arr1 & s2 & _ & E). by eapply IH.
Qed.

Lemma grow2_rest fuel a0 b0 a1 b1 es src s es' src' s' :
  grow2 fuel a0 b0 a1 b1 es src s = Ret (es', src') s' -> Forall P src -> Forall P src'.
Proof.
  revert a0 b0 es src s. induction fuel as [|fuel IH]; intros a0 b0 es src s E Hs; cbn [grow2] in E;
    (destruct (_ || _); [|by injection E as _ <- _]); [discriminate E|].
  apply bind_inv in E as ([es1 src1] & s1 & E1 & E). apply bind_inv in E as (b & s2 & _ & E).
  apply bind_inv in E as (src2 & s3 & E3 & E).
  assert (Hs1 : Forall P src1).
  { destruct (b0 =? 0); [|by injection E1 as _ <- _].
    apply bind_inv in E1 as ([x src3] & s4 & E4 & E1). apply next_inv in E4 as ->. apply Forall_cons in Hs as [_ Hs].
    apply bind_inv in E1 as (es2 & s5 & _ & [= _ <- _]). done. }
  assert (Hs2 : Forall P src2).
  { apply modify_in_Ret in E3 as (t & s4 & t' & s5 & E3). apply bind_inv in E3 as ([x src3] & s6 & E4 & E3).
    apply next_inv in E4 as ->. apply Forall_cons in Hs1 as [_ Hs1]. apply bind_inv in E3 as (t2 & s7 & _ & [= <- _ _]). done. }
  destruct (b0 + 1 =? _); by eapply IH.
Qed.

Definition good_fields ino : Prop := length (direct ino) = 27%nat /\ Forall P (fields ino).

Lemma good_fields_spec ino : good_fields ino <->
  length (direct ino) = 27%nat /\ P (size ino) /\ Forall P (direct ino) /\ P (indirect1 ino) /\ P (indirect2 ino) /\ P (indirect3 ino).
Proof.
  unfold good_fields, fields. rewrite Forall_cons, Forall_app, !Forall_cons. pose proof (Forall_nil_2 P). tauto.
Qed.

(** A step that may take the next block into a field. *)
Lemma take_field (set : Z -> DiskInode -> DiskInode) (b : bool) ino src s ino' src' s' :
  (forall x, P x -> good_fields (set x ino)) ->
  (if b then let! '(x, src) := next src in ret (set x ino, src) else ret (ino, src)) s = Ret (ino', src') s' ->
  good_fields ino -> Forall P src -> good_fields ino' /\ Forall P src'.
Proof.
  intros Hset E Hg Hs. destruct b; [|by injection E as <- <- _].
  apply bind_inv in E as ([x src1] & s1 & E1 & [= <- <- _]). apply next_inv in E1 as ->.
  apply Forall_cons in Hs as [Hx Hs]. split; [by apply Hset|done].
Qed.

Lemma increase_tail_fields ino total current src s ino' s' :
  increase_tail ino total current src s = Ret ino' s' -> good_fields ino -> Forall P src -> good_fields ino'.
Proof.
  intros E Hg Hs. unfold increase_tail in E. destruct (_ <? total); [|by injection E as <- _].
  apply bind_inv in E as ([ino1 src1] & s1 & E1 & E).
  apply (take_field set_indirect2) in E1 as [Hg1 Hs1]; [|intros x Hx; rewrite good_fields_spec in *; cbn; tauto|done|done].
  apply bind_inv in E as (src2 & s2 & E2 & E).
  assert (Hs2 : Forall P src2).
  { apply modify_in_Ret in E2 as (t & s4 & t' & s5 & E2). apply bind_inv in E2 as ([t1 src3] & s6 & E3 & [= <- _ _]).
    by eapply grow2_rest. }
  destruct (_ <? total - _); [|by injection E as <- _]. apply bind_inv in E as ([ino2 src3] & s3 & E3 & E).
  apply (take_field set_indirect3) in E3 as [Hg3 _]; [|intros x Hx; rewrite good_fields_spec in *; cbn; tauto|done|done].
  by apply bind_inv in E as (u & s4 & _ & [= <- _]).
Qed.

Lemma increase_size_fields ino new_size new_blocks s ino' s' :
  increase_size ino new_size new_blocks s = Ret ino' s' -> good_fields ino -> P new_size -> Forall P new_blocks ->
  good_fields ino'.
Proof.
  intros E Hg Hz Hs. unfold increase_size in E. apply bind_inv in E as ([[d src] cur] & s1 & E1 & E).
  rewrite good_fields_spec in Hg. destruct Hg as (Hd & _ & Hdp & H1 & H2 & H3).
  apply fill_while_inv in E1 as (Hd' & Hs' & Hl); [|done|done]. cbn [direct set_size] in Hl.
  set (ino1 := set_direct d (set_size new_size ino)) in *.
  assert (Hg1 : good_fields ino1) by (apply good_fields_spec; cbn; split_and!; try done; congruence).
  destruct (_ <? _); [|by injection E as <- _]. apply bind_inv in E as ([ino2 src2] & s2 & E2 & E).
  apply (take_field set_indirect1) in E2 as [Hg2 Hs2]; [|intros x Hx; rewrite good_fields_spec in *; cbn in *; tauto|done|done].
  apply bind_inv in E as ([src3 cur3] & s3 & E3 & E). eapply increase_tail_fields; [exact E|done|].
  apply modify_in_Ret in E3 as (t & s4 & t' & s5 & E3). apply bind_inv in E3 as ([[t1 src4] cur4] & s6 & E4 & [= <- _ _ _]).
  apply bind_inv in E4 as ([t2 src5] & s7 & E4 & [= _ <- _ _]). by eapply fill_rest.
Qed.

Lemma clear_direct_inv n c d v s d' v' s' :
  clear_direct n c d v s = Ret (d', v') s' -> P 0 -> Forall P d -> Forall P d' /\ length d' = length d.
Proof.
  intros E H0. revert c d v s E. induction n as [|n IH]; intros c d v s E Hd; cbn [clear_direct] in E.
  - by injection E as <- _ _.
  - apply bind_inv in E as (x & s1 & _ & E). apply bind_inv in E as (d1 & s2 & E2 & E). unfold index_set in E2.
    destruct (vset d c 0) as [d2|] eqn:Ev; [|discriminate E2]. injection E2 as <- _.
    destruct (IH _ _ _ _ E) as [H1 H2].
    + apply vset_Some in Ev as [_ ->]. by apply Forall_insert.
    + split; [done|]. by rewrite H2, (vset_length _ _ _ _ Ev).
Qed.

Lemma clear_size_fields ino s v ino' s' :
  clear_size ino s = Ret (v, ino') s' -> good_fields ino -> P 0 -> good_fields ino'.
Proof.
  intros E Hg H0. unfold clear_size in E. apply bind_inv in E as ([d v1] & s1 & E1 & E). rewrite good_fields_spec in Hg.
  destruct Hg as (Hd & _ & Hdp & H1 & H2 & H3). apply clear_direct_inv in E1 as [Hd' Hl]; [|done|done].
  cbn [direct set_size] in Hl. apply good_fields_spec. destruct (_ <? _); [|injection E as _ <- _; cbn; split_and!; try done; congruence].
  apply bind_inv in E as (v2 & s2 & _ & E). destruct (_ <? _); [|injection E as _ <- _; cbn; split_and!; try done; congruence].
  apply bind_inv in E as (u & s3 & _ & E). apply bind_inv in E as (v3 & s4 & _ & E). apply bind_inv in E as (u' & s5 & _ & E).
  destruct (_ <? _); [|injection E as _ <- _; cbn; split_and!; try done; congruence].
  apply bind_inv in E as (u2 & s6 & _ & E). apply bind_inv in E as (v4 & s7 & _ & [= _ <- _]).
  cbn. split_and!; try done; congruence.
Qed.
End fields.
