(* ===== verification/InodeBlocks.v ===== *)
(** The blocks of an inode: what [DiskInode::block_id], [increase_size] and
    [clear_size] of [components/src/micro_fs/layout.rs] mean.

    The blocks reachable from an inode with [n] data blocks are one list, index
    blocks before the blocks they hold: the order in which [increase_size] takes
    blocks and [clear_size] gives them back. *)
From Stdlib Require Import ZifyNat.
From S2P Require Import Prelude BlockCache DiskWords Layout.

Inductive block := Idx (b : Z) | Data (b : Z).
Definition bid (x : block) : Z := match x with Idx b | Data b => b end.
Definition data_of (x : block) : option Z := match x with Data b => Some b | Idx _ => None end.
Definition idx_of (x : block) : option Z := match x with Idx b => Some b | Data _ => None end.

Definition tbl (F : Z -> list Z) (b : Z) : list Z := decode_words 4 128 (F b).
Fixpoint lvl2 (F : Z -> list Z) (entries : list Z) (m : nat) : list block :=
  match entries with
  | [] => []
  | e :: es => match m with
               | O => []
               | _ => Idx e :: (Data <$> take m (tbl F e)) ++ lvl2 F es (m - 128)
               end
  end.
Definition inode_list (F : Z -> list Z) (ino : DiskInode) (n : nat) : list block :=
  (Data <$> take n (direct ino)) ++
  if (27 <? n)%nat then
    Idx (indirect1 ino) :: (Data <$> take (n - 27) (tbl F (indirect1 ino))) ++
    if (155 <? n)%nat then Idx (indirect2 ino) :: lvl2 F (tbl F (indirect2 ino)) (n - 155) else []
  else [].

(** How many blocks [m] data blocks behind the second table, or [n] in all, take. *)
Definition cnt2 (m : nat) : nat := m + (m + 127) / 128.
Definition cnt (n : nat) : nat :=
  if (155 <? n)%nat then 157 + cnt2 (n - 155) else if (27 <? n)%nat then n + 1 else n.

(** [lia] with division and remainder on [nat]. *)
Ltac dlia := zify; Z.to_euclidean_division_equations; lia.

Section lists.
Implicit Types (F : Z -> list Z) (es : list Z).

Lemma length_tbl F b : length (tbl F b) = 128%nat.
Proof. apply length_decode_words. Qed.

Lemma lvl2_0 F es : lvl2 F es 0 = [].
Proof. by destruct es. Qed.

Lemma lvl2_ext F G es m :
  (forall e, Idx e ∈ lvl2 F es m -> F e = G e) -> lvl2 F es m = lvl2 G es m.
Proof.
  revert m. induction es as [|e es IH]; intros m HF; [done|]. cbn in *. destruct m as [|m]; [done|].
  assert (F e = G e) as He by (apply HF; by left). unfold tbl. rewrite He. f_equal. f_equal.
  apply IH. intros x Hx. apply HF. right. apply elem_of_app. by right.
Qed.

Lemma lvl2_split F es (q m : nat) :
  (q <= length es)%nat -> (128 * q <= m)%nat ->
  lvl2 F es m = lvl2 F (take q es) (128 * q) ++ lvl2 F (drop q es) (m - 128 * q).
Proof.
  revert es m. induction q as [|q IH]; intros es m Hq Hm.
  - rewrite Nat.mul_0_r, Nat.sub_0_r. cbn. done.
  - destruct es as [|e es]; [cbn in Hq; lia|]. cbn in Hq.
    destruct m as [|m]; [lia|]. replace (128 * S q)%nat with (S (127 + 128 * q)) by lia. cbn [lvl2 take drop].
    rewrite (IH es (S m - 128)%nat) by lia. cbn [app]. f_equal. rewrite <- app_assoc. f_equal.
    + f_equal. rewrite !take_ge; [done|rewrite length_tbl; lia..].
    + f_equal; f_equal; lia.
Qed.

Lemma length_lvl2 F es m : (m <= 128 * length es)%nat -> length (lvl2 F es m) = cnt2 m.
Proof.
  revert m. induction es as [|e es IH]; intros m Hm; [cbn in Hm; by replace m with 0%nat by lia|].
  destruct m as [|m]; [done|]. cbn [lvl2 length] in Hm |- *.
  rewrite length_app, length_fmap, length_take, length_tbl, IH by lia. unfold cnt2.
  destruct (decide (S m <= 128)%nat).
  - replace (S m - 128)%nat with 0%nat by lia. rewrite Nat.min_l by lia. dlia.
  - dlia.
Qed.

Lemma length_inode_list F ino n :
  length (direct ino) = 27%nat -> Z.of_nat n <= 16539 -> length (inode_list F ino n) = cnt n.
Proof.
  intros Hd Hn. unfold inode_list, cnt. rewrite length_app, length_fmap, length_take, Hd.
  destruct (Nat.ltb_spec 27 n); cycle 1.
  { rewrite (proj2 (Nat.ltb_ge _ _)) by lia. cbn. lia. }
  cbn [length]. rewrite length_app, length_fmap, length_take, length_tbl.
  destruct (Nat.ltb_spec 155 n); cbn [length]; [|lia].
  rewrite length_lvl2 by (rewrite length_tbl; lia). lia.
Qed.

Lemma inode_list_ext F G ino n :
  (forall e, Idx e ∈ inode_list F ino n -> F e = G e) -> inode_list F ino n = inode_list G ino n.
Proof.
  unfold inode_list. destruct (27 <? n)%nat; [|reflexivity]. intros HF.
  assert (E1 : tbl F (indirect1 ino) = tbl G (indirect1 ino)).
  { unfold tbl. f_equal. apply HF, elem_of_app. right. by left. }
  rewrite E1 in HF |- *. destruct (155 <? n)%nat; [|reflexivity].
  assert (E2 : tbl F (indirect2 ino) = tbl G (indirect2 ino)).
  { unfold tbl. f_equal. apply HF, elem_of_app. right. right. apply elem_of_app. right. by left. }
  rewrite E2 in HF |- *. rewrite (lvl2_ext F G); [reflexivity|].
  intros e He. apply HF, elem_of_app. right. right. apply elem_of_app. right. by right.
Qed.

Definition is_u32 (x : Z) : Prop := 0 <= x < 2 ^ 32.

Lemma tbl_u32 F b : block_ok (F b) -> Forall is_u32 (tbl F b).
Proof.
  intros [Hl Hb]. apply Forall_lookup. intros i x Hx. pose proof (lookup_lt_Some _ _ _ Hx) as Hi.
  rewrite length_tbl in Hi. unfold tbl in Hx. rewrite decode_words_lookup in Hx by done. injection Hx as <-.
  unfold block_size in Hl. assert (Hs : is_bytes (slice (F b) (i * 4) 4)) by (by apply Forall_take, Forall_drop).
  pose proof (of_le_bound _ Hs) as B. rewrite length_slice in B by lia. exact B.
Qed.

Lemma tbl_upd_eq F e ws : length ws = 128%nat -> Forall is_u32 ws -> tbl (upd F e (encode_words 4 ws)) e = ws.
Proof. intros Hl Hw. unfold tbl. rewrite upd_eq, <- Hl. by apply decode_encode_words. Qed.

Lemma tbl_upd_ne F e b x : x <> e -> tbl (upd F e b) x = tbl F x.
Proof. intros Hx. unfold tbl. by rewrite upd_ne. Qed.

Lemma lvl2_idx F es m e : Idx e ∈ lvl2 F es m -> e ∈ es.
Proof.
  revert m. induction es as [|a es IH]; intros m He; [by apply elem_of_nil in He|].
  cbn in He. destruct m as [|m]; [by apply elem_of_nil in He|].
  apply elem_of_cons in He as [[= ->]|He]; [by left|]. right.
  apply elem_of_app in He as [(x & ? & _)%list_elem_of_fmap|He]; [done|]. by eapply IH.
Qed.

Lemma lvl2_full F es (q : nat) : (q <= length es)%nat -> lvl2 F es (128 * q) = lvl2 F (take q es) (128 * q).
Proof. intros Hq. rewrite (lvl2_split F es q) by lia. by rewrite Nat.sub_diag, lvl2_0, app_nil_r. Qed.

(** One more data block behind the second table. *)
Lemma lvl2_grow F es (q r : nat) e x :
  (r < 128)%nat -> es !! q = Some e -> e ∉ take q es -> block_ok (F e) -> is_u32 x ->
  lvl2 (upd F e (encode_words 4 (<[r := x]> (tbl F e)))) es (S (128 * q + r)) =
  lvl2 F es (128 * q + r) ++ (if (r =? 0)%nat then [Idx e] else []) ++ [Data x].
Proof.
  intros Hr He Hnew Hb Hx. set (F' := upd F e _). pose proof (lookup_lt_Some _ _ _ He) as Hq.
  rewrite (lvl2_split F' es q), (lvl2_split F es q) by lia.
  rewrite (lvl2_ext F' F (take q es)).
  2:{ intros y Hy%lvl2_idx. unfold F'. rewrite upd_ne; [done|]. by intros ->. }
  rewrite <- app_assoc. f_equal. rewrite (drop_S es e q He).
  replace (S (128 * q + r) - 128 * q)%nat with (S r) by lia.
  replace (128 * q + r - 128 * q)%nat with r by lia. cbn [lvl2].
  replace (S r - 128)%nat with 0%nat by lia. rewrite lvl2_0, app_nil_r.
  assert (HT : tbl F' e = <[r := x]> (tbl F e)).
  { unfold F'. apply tbl_upd_eq; [by rewrite length_insert, length_tbl|].
    apply Forall_insert; [by apply tbl_u32|done]. }
  rewrite HT. assert (HS : take (S r) (<[r := x]> (tbl F e)) = take r (tbl F e) ++ [x]).
  { rewrite (take_S_r _ r x) by (rewrite list_lookup_insert_eq; [done|by rewrite length_tbl]).
    by rewrite take_insert_ge by lia. }
  rewrite HS, fmap_app. destruct r as [|r]; [done|]. replace (S r - 128)%nat with 0%nat by lia.
  rewrite lvl2_0, app_nil_r. cbn [Nat.eqb app]. done.
Qed.
End lists.

(** ** Index blocks of a list *)

Definition idxs (l : list block) : list Z := omap idx_of l.
Definition datas (l : list block) : list Z := omap data_of l.

Lemma idxs_app l k : idxs (l ++ k) = idxs l ++ idxs k.
Proof. apply omap_app. Qed.
Lemma idxs_Data l : idxs (Data <$> l) = [].
Proof. unfold idxs. by induction l. Qed.
Lemma elem_of_idxs e l : e ∈ idxs l <-> Idx e ∈ l.
Proof.
  unfold idxs. rewrite list_elem_of_omap. split.
  - intros ([b|b] & Hx & [= <-]). done.
  - intros H. by exists (Idx e).
Qed.
Lemma idxs_sublist l : sublist (idxs l) (bid <$> l).
Proof. unfold idxs. induction l as [|[b|b] l IH]; cbn; by constructor. Qed.
Lemma idxs_bid e l : e ∈ idxs l -> e ∈ bid <$> l.
Proof. intros He%elem_of_idxs. apply list_elem_of_fmap. by exists (Idx e). Qed.

Lemma lvl2_idxs F es m :
  (m <= 128 * length es)%nat -> idxs (lvl2 F es m) = take ((m + 127) / 128) es.
Proof.
  revert m. induction es as [|e es IH]; intros m Hm; [by rewrite take_nil|].
  destruct m as [|m]; [done|]. cbn [lvl2]. cbn [length] in Hm.
  change (Idx e :: ?l) with ([Idx e] ++ l). rewrite !idxs_app, idxs_Data, IH by lia.
  replace ((S m + 127) / 128)%nat with (S ((S m - 128 + 127) / 128)) by dlia. done.
Qed.

Lemma NoDup_take_lookup (es : list Z) (q : nat) e :
  NoDup (take (S q) es) -> es !! q = Some e -> e ∉ take q es.
Proof.
  intros Hnd He Hin. rewrite (take_S_r es q e He) in Hnd. apply NoDup_app in Hnd as (_ & Hd & _).
  apply (Hd e Hin). by left.
Qed.

(** ** The loops of [increase_size] *)

Section grow.
Context {St : Type} `{SL : BlockStoreLaws St}.
Implicit Types (s : St).

Lemma splice_insert {A} (l : list A) (c : nat) x d :
  (c < length l)%nat -> splice (<[c := x]> l) (S c) d = splice l c (x :: d).
Proof.
  intros Hc. unfold splice. cbn [length].
  rewrite (take_S_r _ c x) by (by rewrite list_lookup_insert_eq).
  rewrite take_insert_ge by lia. rewrite drop_insert_lt by lia. rewrite <- app_assoc. cbn. by rewrite Nat.add_succ_r.
Qed.

Lemma fill_run (n : nat) arr (c : nat) src s :
  (c + n <= length arr)%nat -> (n <= length src)%nat ->
  fill n arr (Z.of_nat c) src s = Ret (splice arr c (take n src), drop n src) s.
Proof.
  revert arr c src. induction n as [|n IH]; intros arr c src Hc Hs; cbn [fill].
  - unfold splice. rewrite take_0. cbn. by rewrite Nat.add_0_r, take_drop.
  - destruct src as [|x src]; [cbn in Hs; lia|]. cbn [next length] in *. unfold bind at 1. cbn [ret].
    unfold index_set. rewrite vset_nat by lia. unfold bind at 1. cbn [ret]. replace (Z.of_nat c + 1) with (Z.of_nat (S c)) by lia.
    rewrite IH by (rewrite ?length_insert; lia). rewrite splice_insert by lia. done.
Qed.

(** The store is small enough for block numbers of 32 bits. *)
Definition small_store s : Prop := bs_blocks s <= 2 ^ 32.

Lemma openable_u32 s b : small_store s -> openable s b -> is_u32 b.
Proof. intros Hs [Hb _ _]. unfold small_store, blk_in, is_u32 in *. lia. Qed.

(** Setting one entry of a table. *)
Lemma set_entry_run s e (r : nat) (x : Z) (src : list Z) :
  bs_ok s -> openable s e -> (r < 128)%nat ->
  exists s', modify_in IndirectBlock e 0 (fun indirect1 =>
      let! '(x, src) := next (x :: src) in
      let! indirect1 := index_set indirect1 (Z.of_nat r) x in
      ret (src, indirect1)) s = Ret src s' /\
    evolves s (upd (bs_view s) e (encode_words 4 (<[r := x]> (tbl (bs_view s) e)))) s'.
Proof.
  intros Hok Hop Hr. apply modify_words_pure; try done; [by rewrite length_insert, length_tbl|].
  intros s1. cbn [next]. unfold bind at 1. cbn [ret]. unfold index_set. fold (tbl (bs_view s) e).
  by rewrite vset_nat by (by rewrite length_tbl).
Qed.

Lemma loop_test (m m1 : nat) :
  ((Z.of_nat m / 128 <? Z.of_nat m1 / 128) ||
   (Z.of_nat m / 128 =? Z.of_nat m1 / 128) && (Z.of_nat m mod 128 <? Z.of_nat m1 mod 128)) = (m <? m1)%nat.
Proof.
  destruct (Nat.ltb_spec m m1).
  - apply orb_true_iff. rewrite andb_true_iff, !Z.ltb_lt, Z.eqb_eq. dlia.
  - apply orb_false_iff. rewrite andb_false_iff, !Z.ltb_ge, Z.eqb_neq. dlia.
Qed.

Lemma loop_next (m : nat) :
  (if Z.of_nat m mod 128 + 1 =? INODE_INDIRECT1_COUNT then (Z.of_nat m / 128 + 1, 0)
   else (Z.of_nat m / 128, Z.of_nat m mod 128 + 1)) = (Z.of_nat (S m) / 128, Z.of_nat (S m) mod 128).
Proof.
  change INODE_INDIRECT1_COUNT with 128. destruct (Z.eqb_spec (Z.of_nat m mod 128 + 1) 128); f_equal; dlia.
Qed.

(** What holds at each turn: the blocks so far and the blocks still to come are
    distinct blocks that can be opened. *)
Record grow_pre s (es : list Z) (m : nat) (src : list Z) : Prop := {
  gp_ok : bs_ok s;
  gp_small : small_store s;
  gp_len : length es = 128%nat;
  gp_u32 : Forall is_u32 es;
  gp_nodup : NoDup ((bid <$> lvl2 (bs_view s) es m) ++ src);
  gp_open b : b ∈ (bid <$> lvl2 (bs_view s) es m) ++ src -> openable s b;
}.

(** One turn, from the table entry (already in place) on. *)
Lemma grow2_turn s es (q r : nat) e x src :
  (r < 128)%nat -> es !! q = Some e -> e ∉ take q es -> length es = 128%nat ->
  bs_ok s -> small_store s -> openable s e -> openable s x ->
  (forall y, y ∈ take q es -> blk_in s y) ->
  exists s1, modify_in IndirectBlock e 0 (fun indirect1 =>
      let! '(x, src) := next (x :: src) in
      let! indirect1 := index_set indirect1 (Z.of_nat r) x in
      ret (src, indirect1)) s = Ret src s1 /\ steps s s1 /\
    lvl2 (bs_view s1) es (S (128 * q + r)) =
      lvl2 (bs_view s) es (128 * q + r) ++ (if (r =? 0)%nat then [Idx e] else []) ++ [Data x] /\
    (forall b, blk_in s b -> b <> e -> bs_view s1 b = bs_view s b).
Proof.
  intros Hr He Hnew Hlen Hok Hsm Hoe Hox Hin. destruct (set_entry_run s e r x src Hok Hoe Hr) as (s1 & E & Hev).
  exists s1. split; [exact E|]. split; [by eapply evolves_steps|]. split.
  - pose proof (bs_view_ok s e Hok (can_in _ _ Hoe)) as Hb.
    rewrite <- (lvl2_grow (bs_view s) es q r e x Hr He Hnew Hb (openable_u32 s x Hsm Hox)).
    symmetry. apply lvl2_ext. intros y Hy. symmetry. apply Hev.
    assert (Hy' : y ∈ idxs (lvl2 (bs_view s) es (S (128 * q + r)))).
    { apply elem_of_idxs in Hy. rewrite lvl2_idxs in Hy |- *; [done|..];
        apply lookup_lt_Some in He; rewrite Hlen in *; lia. }
    rewrite lvl2_idxs in Hy' by (apply lookup_lt_Some in He; rewrite Hlen in *; lia).
    replace ((S (128 * q + r) + 127) / 128)%nat with (S q) in Hy' by dlia.
    rewrite (take_S_r _ _ _ He) in Hy'. apply elem_of_app in Hy' as [?| ->%list_elem_of_singleton]; [by apply Hin|].
    apply Hoe.
  - intros b Hb Hne. rewrite (ev_view _ _ _ Hev) by done. by apply upd_ne.
Qed.

(** The table entry for the next block: a new one at the start of a table, the
    current one otherwise. *)
Lemma grow2_entry s es (m : nat) src :
  grow_pre s es m src -> Z.of_nat m < 16384 -> (if (m mod 128 =? 0)%nat then 2 <= length src else 1 <= length src)%nat ->
  let q := (m / 128)%nat in
  exists es1 e x src1,
    (if Z.of_nat m mod 128 =? 0 then
       let! '(x, src) := next src in
       let! es := index_set es (Z.of_nat m / 128) x in
       ret (es, src)
     else ret (es, src)) s = Ret (es1, x :: src1) s /\
    es1 !! q = Some e /\ length es1 = 128%nat /\ Forall is_u32 es1 /\ take q es1 = take q es /\
    e ∉ take q es1 /\ openable s e /\ openable s x /\ (forall y, y ∈ take q es1 -> blk_in s y) /\
    lvl2 (bs_view s) es1 m = lvl2 (bs_view s) es m /\
    src = (if (m mod 128 =? 0)%nat then [e] else []) ++ x :: src1.
Proof.
  intros [Hok Hsm Hlen Hu Hnd Hop] Hm Hl q. assert (Hq : (q < 128)%nat) by dlia.
  assert (Hidx : idxs (lvl2 (bs_view s) es m) = take ((m + 127) / 128) es) by (apply lvl2_idxs; rewrite Hlen; lia).
  assert (Hin : forall y, y ∈ take ((m + 127) / 128) es -> openable s y /\ y ∉ src).
  { intros y Hy. rewrite <- Hidx in Hy. apply idxs_bid in Hy. split; [apply Hop, elem_of_app; by left|].
    apply NoDup_app in Hnd as (_ & Hd & _). by apply Hd. }
  assert (Hqm : forall y, y ∈ take q es -> openable s y /\ y ∉ src).
  { intros y Hy. apply Hin. replace q with (q `min` ((m + 127) / 128))%nat in Hy by (unfold q; dlia).
    rewrite <- take_take in Hy. eapply elem_of_take in Hy as (i & Hi & _). by eapply list_elem_of_lookup_2. }
  destruct (Nat.eqb_spec (m mod 128) 0) as [E0|E0].
  - rewrite (proj2 (Z.eqb_eq (Z.of_nat m mod 128) 0)) by dlia.
    destruct src as [|e [|x src1]]; cbn [length] in Hl; [lia|lia|].
    assert (Hoe : openable s e) by (apply Hop, elem_of_app; right; by left).
    assert (Hox : openable s x) by (apply Hop, elem_of_app; right; right; by left).
    exists (<[q := e]> es), e, x, src1. split.
    { cbn [next]. unfold bind at 1. cbn [ret]. replace (Z.of_nat m / 128) with (Z.of_nat q) by (unfold q; dlia).
      unfold index_set. rewrite vset_nat by lia. done. }
    assert (Ht : take q (<[q := e]> es) = take q es) by (by rewrite take_insert_ge).
    split_and!; try done.
    + rewrite list_lookup_insert_eq; [done|lia].
    + by rewrite length_insert.
    + apply Forall_insert; [done|by apply (openable_u32 s)].
    + rewrite Ht. intros Hy. destruct (Hqm e Hy) as [_ Hn]. apply Hn. by left.
    + intros y Hy. rewrite Ht in Hy. apply (Hqm y Hy).
    + replace m with (128 * q)%nat by (unfold q; dlia).
      rewrite lvl2_full, (lvl2_full _ es), Ht by (rewrite ?length_insert; lia). done.
  - rewrite (proj2 (Z.eqb_neq (Z.of_nat m mod 128) 0)) by dlia.
    destruct src as [|x src1]; cbn [length] in Hl; [lia|].
    destruct (lookup_lt_is_Some_2 es q) as [e He]; [lia|].
    assert (HS : ((m + 127) / 128 = S q)%nat) by (unfold q; dlia). rewrite HS in Hidx, Hin.
    assert (Hoe : openable s e) by (apply Hin; rewrite (take_S_r _ _ _ He); apply elem_of_app; right; by left).
    assert (Hox : openable s x) by (apply Hop, elem_of_app; right; by left).
    exists es, e, x, src1. split_and!; try done.
    + apply (NoDup_take_lookup es q e); [|done]. rewrite <- Hidx.
      eapply sublist_NoDup; [|apply idxs_sublist]. by apply NoDup_app in Hnd as [? _].
    + intros y Hy. apply (Hqm y Hy).
Qed.

(** One turn of the loop: the list grows by the blocks taken from [src]. *)
Lemma grow2_step fuel (m m1 : nat) s es src :
  grow_pre s es m src -> Z.of_nat m < 16384 -> (m < m1)%nat -> (cnt2 (S m) - cnt2 m <= length src)%nat ->
  exists es1 src1 s1 tl,
    grow2 (S fuel) (Z.of_nat m / 128) (Z.of_nat m mod 128) (Z.of_nat m1 / 128) (Z.of_nat m1 mod 128) es src s =
      grow2 fuel (Z.of_nat (S m) / 128) (Z.of_nat (S m) mod 128) (Z.of_nat m1 / 128) (Z.of_nat m1 mod 128) es1 src1 s1 /\
    steps s s1 /\ grow_pre s1 es1 (S m) src1 /\ length src = (length src1 + (cnt2 (S m) - cnt2 m))%nat /\
    lvl2 (bs_view s1) es1 (S m) = lvl2 (bs_view s) es m ++ tl /\ src = (bid <$> tl) ++ src1 /\
    (forall b, blk_in s b -> b ∉ idxs (lvl2 (bs_view s1) es1 (S m)) -> bs_view s1 b = bs_view s b).
Proof.
  intros Hpre Hm Hlt Hsrc. cbn [grow2]. rewrite loop_test, (proj2 (Nat.ltb_lt m m1) Hlt).
  set (q := (m / 128)%nat). set (r := (m mod 128)%nat).
  assert (Hqr : m = (128 * q + r)%nat /\ (r < 128)%nat) by (unfold q, r; dlia). destruct Hqr as [Hqr Hr].
  assert (Hc : (cnt2 (S m) = cnt2 m + (if r =? 0 then 2 else 1))%nat) by (unfold cnt2; destruct (Nat.eqb_spec r 0); unfold r in *; dlia).
  destruct (grow2_entry s es m src Hpre Hm) as
    (es1 & e & x & src1 & E1 & He & Hlen1 & Hu1 & Ht & Hnew & Hoe & Hox & Hin & Hl1 & Hs1).
  { fold r. destruct (r =? 0)%nat; lia. }
  fold q in He, Ht, Hnew, Hin. fold r in Hs1. rewrite (bind_Ret _ _ _ _ _ E1). unfold index.
  replace (Z.of_nat m / 128) with (Z.of_nat q) by (unfold q; dlia).
  replace (Z.of_nat m mod 128) with (Z.of_nat r) by (unfold r; dlia). rewrite vget_nat, He.
  unfold bind at 1. cbn [ret]. destruct Hpre as [Hok Hsm Hlen Hu Hnd Hop].
  destruct (grow2_turn s es1 q r e x src1 Hr He Hnew Hlen1 Hok Hsm Hoe Hox Hin) as (s1 & E2 & Hst & Hl2 & Hfr).
  rewrite (bind_Ret _ _ _ _ _ E2). rewrite <- Hqr, Hl1 in Hl2.
  replace (Z.of_nat q) with (Z.of_nat m / 128) by (unfold q; dlia).
  replace (Z.of_nat r) with (Z.of_nat m mod 128) by (unfold r; dlia). rewrite loop_next.
  assert (Hbids : (bid <$> lvl2 (bs_view s1) es1 (S m)) ++ src1 = (bid <$> lvl2 (bs_view s) es m) ++ src).
  { rewrite Hl2, Hs1, !fmap_app, <- !app_assoc. f_equal. by destruct (r =? 0)%nat. }
  exists es1, src1, s1, ((if (r =? 0)%nat then [Idx e] else []) ++ [Data x]). split; [reflexivity|]. split; [exact Hst|].
  split; [|split; [|split; [exact Hl2|split]]].
  - split; try done; [apply Hst| |by rewrite Hbids|].
    + unfold small_store in *. by rewrite (ev_blocks _ _ _ Hst).
    + intros b. rewrite Hbids. intros Hb. apply (evolves_openable s _ _ b Hst), Hop, Hb.
  - rewrite Hs1, length_app. cbn [length]. destruct (r =? 0)%nat; cbn [length]; lia.
  - rewrite Hs1, fmap_app, <- app_assoc. by destruct (r =? 0)%nat.
  - intros b Hb Hn. apply Hfr; [exact Hb|]. intros ->. apply Hn.
    rewrite lvl2_idxs by (rewrite Hlen1; lia). replace ((S m + 127) / 128)%nat with (S q) by (unfold q; dlia).
    rewrite (take_S_r _ _ _ He). apply elem_of_app. right. by left.
Qed.

Lemma grow2_run fuel (m m1 : nat) s es src :
  (m <= m1)%nat -> (m1 - m <= fuel)%nat -> Z.of_nat m1 <= 16384 -> grow_pre s es m src ->
  length src = (cnt2 m1 - cnt2 m)%nat ->
  exists es' s' tl,
    grow2 fuel (Z.of_nat m / 128) (Z.of_nat m mod 128) (Z.of_nat m1 / 128) (Z.of_nat m1 mod 128) es src s = Ret (es', []) s' /\
    steps s s' /\ length es' = 128%nat /\ Forall is_u32 es' /\
    lvl2 (bs_view s') es' m1 = lvl2 (bs_view s) es m ++ tl /\ bid <$> tl = src /\
    (forall b, blk_in s b -> b ∉ idxs (lvl2 (bs_view s') es' m1) -> bs_view s' b = bs_view s b).
Proof.
  revert m s es src. induction fuel as [|fuel IH]; intros m s es src Hm Hf Hm1 Hpre Hsrc;
    (destruct (decide (m = m1)) as [->|Hne];
      [rewrite Nat.sub_diag in Hsrc; apply nil_length_inv in Hsrc as ->; exists es, s, []; cbn [grow2];
       rewrite loop_test, Nat.ltb_irrefl, app_nil_r; destruct Hpre; split_and!; try done; by apply steps_refl|]); [lia|].
  assert (Hc : (cnt2 (S m) <= cnt2 m1 /\ cnt2 m <= cnt2 (S m))%nat) by (unfold cnt2; dlia).
  destruct (grow2_step fuel m m1 s es src Hpre ltac:(lia) ltac:(lia) ltac:(lia)) as (es1 & src1 & s1 & tl1 & E1 & Hst & Hpre1 & Hl1 & Hv1 & Hs1 & Hfr1).
  destruct (IH (S m) s1 es1 src1 ltac:(lia) ltac:(lia) Hm1 Hpre1 ltac:(lia)) as (es' & s' & tl & E & Hst' & Hlen' & Hu' & Hl' & Htl & Hfr').
  exists es', s', (tl1 ++ tl). split_and!; try done.
  - by rewrite E1.
  - by apply (steps_trans s s1).
  - by rewrite Hl', Hv1, <- app_assoc.
  - by rewrite fmap_app, Htl, Hs1.
  - intros b Hb Hn. rewrite Hfr'; [apply Hfr1; [done|]|by unfold blk_in in *; rewrite (ev_blocks _ _ _ Hst)|done].
    intros Hin. apply Hn. rewrite Hl', idxs_app. apply elem_of_app. by left.
Qed.

(** Past the last entry of the table, with a block in hand for the table that has no entry. *)
Lemma grow2_overruns fuel (m m1 : nat) s es src :
  Z.of_nat m <= 16384 -> 16384 < Z.of_nat m1 -> 16384 < Z.of_nat m + Z.of_nat fuel -> grow_pre s es m src ->
  (cnt2 (Z.to_nat 16384) - cnt2 m < length src)%nat ->
  grow2 fuel (Z.of_nat m / 128) (Z.of_nat m mod 128) (Z.of_nat m1 / 128) (Z.of_nat m1 mod 128) es src s = Panic Bounds.
Proof.
  revert m s es src. induction fuel as [|fuel IH]; intros m s es src Hm Hm1 Hf Hpre Hsrc; [lia|].
  destruct (decide (Z.of_nat m = 16384)) as [E|Hne].
  - cbn [grow2]. rewrite loop_test, (proj2 (Nat.ltb_lt m m1)) by lia. rewrite E. change (16384 mod 128 =? 0) with true. change (16384 / 128) with 128. cbn iota.
    destruct src as [|x src]; [cbn in Hsrc; lia|]. cbn [next]. unfold bind at 1. unfold bind at 1. cbn [ret]. unfold index_set.
    destruct (vset es 128 x) as [es'|] eqn:Ev; [|reflexivity]. apply vset_Some in Ev as [Hr _]. rewrite (gp_len _ _ _ _ Hpre) in Hr. lia.
  - assert (Hc : (cnt2 (S m) <= cnt2 (Z.to_nat 16384) /\ cnt2 m <= cnt2 (S m))%nat) by (unfold cnt2; dlia).
    destruct (grow2_step fuel m m1 s es src Hpre ltac:(lia) ltac:(lia) ltac:(lia)) as (es1 & src1 & s1 & tl1 & E1 & Hst & Hpre1 & Hl1 & _).
    rewrite E1. apply IH; [lia|lia|lia|exact Hpre1|lia].
Qed.
End grow.

(** ** Growing an inode *)

Section increase.
Context {St : Type} `{SL : BlockStoreLaws St}.
Implicit Types (s : St) (ino : DiskInode).

(** The blocks of the inode and the blocks to add are distinct and can be opened. *)
Record inode_pre s ino (n : nat) (src : list Z) : Prop := {
  ip_ok : bs_ok s;
  ip_small : small_store s;
  ip_direct : length (direct ino) = 27%nat;
  ip_max : Z.of_nat n <= 16539;
  ip_nodup : NoDup ((bid <$> inode_list (bs_view s) ino n) ++ src);
  ip_open b : b ∈ (bid <$> inode_list (bs_view s) ino n) ++ src -> openable s b;
  ip_room : (S (length (bs_held s)) < BLOCK_CACHE_SIZE)%nat;
}.

(** From [n] to [n'] data blocks, taking blocks from the front of [src]. *)
Record grown s ino n src s' ino' n' src' : Prop := {
  gr_steps : steps s s';
  gr_list : exists tl, inode_list (bs_view s') ino' n' = inode_list (bs_view s) ino n ++ tl /\
    src = (bid <$> tl) ++ src';
  gr_direct : length (direct ino') = 27%nat;
  gr_size : size ino' = size ino;
  gr_type : type_ ino' = type_ ino;
  gr_frame b : blk_in s b -> b ∉ idxs (inode_list (bs_view s') ino' n') -> bs_view s' b = bs_view s b;
}.

Lemma grown_refl s ino n src : bs_ok s -> length (direct ino) = 27%nat -> grown s ino n src s ino n src.
Proof.
  intros Hok Hd. split; try done; try by apply steps_refl. exists []. by rewrite app_nil_r.
Qed.

Lemma grown_trans s ino n src s1 ino1 n1 src1 s2 ino2 n2 src2 :
  grown s ino n src s1 ino1 n1 src1 -> grown s1 ino1 n1 src1 s2 ino2 n2 src2 ->
  grown s ino n src s2 ino2 n2 src2.
Proof.
  intros [Hs (tl & Hl & Hsrc) _ Hz Hy Hf] [Hs' (tl' & Hl' & Hsrc') Hd' Hz' Hy' Hf']. split; try done; try congruence.
  - by apply (steps_trans s s1).
  - exists (tl ++ tl'). rewrite Hl', Hl, Hsrc, Hsrc', fmap_app, <- !app_assoc. done.
  - intros b Hb Hn. rewrite Hf'; [apply Hf; [done|]|by unfold blk_in in *; rewrite (ev_blocks _ _ _ Hs)|done].
    intros Hin. apply Hn. rewrite Hl', idxs_app. apply elem_of_app. by left.
Qed.

Lemma grown_pre s ino n src s' ino' n' src' :
  inode_pre s ino n src -> grown s ino n src s' ino' n' src' -> Z.of_nat n' <= 16539 -> inode_pre s' ino' n' src'.
Proof.
  intros [Hok Hsm Hd Hmax Hnd Hop Hroom] [Hs (tl & Hl & Hsrc) Hd' _ _ _] Hmax'.
  assert (E : (bid <$> inode_list (bs_view s') ino' n') ++ src' = (bid <$> inode_list (bs_view s) ino n) ++ src).
  { by rewrite Hl, Hsrc, fmap_app, <- app_assoc. }
  split; try done; rewrite ?E; try done.
  - apply Hs.
  - unfold small_store in *. by rewrite (ev_blocks _ _ _ Hs).
  - intros b Hb. apply (evolves_openable s _ _ b Hs), Hop, Hb.
  - by rewrite (ev_held _ _ _ Hs).
Qed.

Lemma grown_length s ino n src s' ino' n' src' :
  inode_pre s ino n src -> grown s ino n src s' ino' n' src' -> Z.of_nat n' <= 16539 ->
  (length src + cnt n = length src' + cnt n')%nat.
Proof.
  intros Hp Hg Hn'. destruct Hg as [_ (tl & Hl & Hsrc) Hd' _ _ _]. apply (f_equal length) in Hl.
  rewrite length_app, !length_inode_list in Hl by (done || apply Hp).
  rewrite Hsrc, length_app, length_fmap. lia.
Qed.

Lemma take_splice {A} (l d : list A) (c : nat) :
  (c + length d <= length l)%nat -> take (c + length d) (splice l c d) = take c l ++ d.
Proof.
  intros Hc. unfold splice. rewrite app_assoc, take_app_le by (rewrite length_app, length_take; lia).
  apply take_ge. rewrite length_app, length_take. lia.
Qed.

(** Direct blocks. *)
Lemma grow_direct s ino (n n1 : nat) src :
  inode_pre s ino n src -> (n <= n1)%nat -> (Nat.max n (Nat.min n1 27) - n <= length src)%nat ->
  let n' := Nat.max n (Nat.min n1 27) in
  exists d src', fill_while (Z.min (Z.of_nat n1) INODE_DIRECT_COUNT) (direct ino) (Z.of_nat n) src s =
      Ret (d, src', Z.of_nat n') s /\
    grown s ino n src s (set_direct d ino) n' src'.
Proof.
  intros [Hok Hsm Hd Hmax Hnd Hop Hroom] Hn Hl n'. unfold fill_while. change INODE_DIRECT_COUNT with 27.
  set (k := (n' - n)%nat).
  replace (Z.to_nat (Z.min (Z.of_nat n1) 27 - Z.of_nat n)) with k by (unfold k, n'; lia).
  replace (Z.max (Z.of_nat n) (Z.min (Z.of_nat n1) 27)) with (Z.of_nat n') by (unfold n'; lia).
  destruct (decide (k = 0%nat)) as [Ek|Ek].
  - rewrite Ek. exists (direct ino), src. split; [done|]. replace n' with n by (unfold k, n' in *; lia).
    replace (set_direct (direct ino) ino) with ino by (by destruct ino). by apply grown_refl.
  - assert (Hkn : (n + k = n' /\ n' <= 27 /\ n < 27)%nat) by (unfold k, n' in *; lia).
    rewrite (bind_Ret _ _ _ _ _ (fill_run k (direct ino) n src s ltac:(lia) ltac:(fold k n' in Hl; lia))).
    exists (splice (direct ino) n (take k src)), (drop k src). split; [done|].
    assert (Ht : length (take k src) = k) by (rewrite length_take; fold k n' in Hl; lia).
    split; try done.
    + exists (Data <$> take k src). split.
      * unfold inode_list. rewrite !(proj2 (Nat.ltb_ge 27 _)) by lia. rewrite !app_nil_r.
        cbn [direct set_direct]. rewrite <- fmap_app. f_equal. rewrite <- (proj1 Hkn).
        pose proof (take_splice (direct ino) (take k src) n) as HT. rewrite Ht in HT. apply HT. lia.
      * rewrite <- list_fmap_compose. change (bid ∘ Data) with (fun x : Z => x). by rewrite list_fmap_id, take_drop.
    + cbn. rewrite length_splice; lia.
Qed.

Lemma bid_Data (l : list Z) : bid <$> (Data <$> l) = l.
Proof. rewrite <- list_fmap_compose. change (bid ∘ Data) with (fun x : Z => x). apply list_fmap_id. Qed.

Lemma encode_tbl s b : bs_ok s -> blk_in s b -> encode_words 4 (tbl (bs_view s) b) = bs_view s b.
Proof. intros Hok Hb. apply encode_decode_words; apply (bs_view_ok s b Hok Hb). Qed.

(** The list of an inode does not depend on blocks outside it, nor on its first
    table when that is unchanged. *)
Lemma inode_list_view s s' ino n :
  (forall e, Idx e ∈ inode_list (bs_view s) ino n -> bs_view s' e = bs_view s e) ->
  inode_list (bs_view s') ino n = inode_list (bs_view s) ino n.
Proof. intros H1. symmetry. apply inode_list_ext. intros e He. by rewrite H1. Qed.

Lemma idx_openable s ino n src e :
  inode_pre s ino n src -> Idx e ∈ inode_list (bs_view s) ino n -> openable s e.
Proof.
  intros Hp He. apply (ip_open _ _ _ _ Hp), elem_of_app. left. apply list_elem_of_fmap. by exists (Idx e).
Qed.

(** The first table: taken when the direct blocks are full. *)
Lemma grow_first s ino (n : nat) src :
  inode_pre s ino n src -> (27 <= n)%nat -> (n = 27%nat -> src <> []) ->
  exists ino' src',
    (if Z.of_nat n =? INODE_DIRECT_COUNT then
       let! '(x, src) := next src in ret (set_indirect1 x ino, src)
     else ret (ino, src)) s = Ret (ino', src') s /\
    openable s (indirect1 ino') /\ direct ino' = direct ino /\ size ino' = size ino /\ type_ ino' = type_ ino /\
    (if (n =? 27)%nat then src = indirect1 ino' :: src' else ino' = ino /\ src' = src).
Proof.
  intros Hp Hn Hne. change INODE_DIRECT_COUNT with 27. destruct (Nat.eqb_spec n 27) as [->|E].
  - rewrite (proj2 (Z.eqb_eq _ _)) by done. destruct src as [|x src]; [by destruct (Hne eq_refl)|].
    exists (set_indirect1 x ino), src. split; [done|]. split_and!; try done. cbn.
    apply (ip_open _ _ _ _ Hp), elem_of_app. right. by left.
  - rewrite (proj2 (Z.eqb_neq _ _)) by lia. exists ino, src. split; [done|]. split_and!; try done.
    apply (idx_openable s ino n src); [done|]. unfold inode_list. rewrite (proj2 (Nat.ltb_lt 27 n)) by lia.
    apply elem_of_app. right. by left.
Qed.

(** Filling the first table. *)
Lemma fill_first_run s b (c n1 : nat) src :
  bs_ok s -> openable s b -> (c <= n1)%nat -> (Nat.max c (Nat.min n1 128) - c <= length src)%nat ->
  let c' := Nat.max c (Nat.min n1 128) in
  let k := (c' - c)%nat in
  exists s', modify_in IndirectBlock b 0 (fun indirect1 =>
      let! '(indirect1, src, current) := fill_while (Z.min (Z.of_nat n1) INODE_INDIRECT1_COUNT) indirect1 (Z.of_nat c) src in
      ret (src, current, indirect1)) s = Ret (drop k src, Z.of_nat c') s' /\
    evolves s (upd (bs_view s) b (encode_words 4
      (if (k =? 0)%nat then tbl (bs_view s) b else splice (tbl (bs_view s) b) c (take k src)))) s'.
Proof.
  intros Hok Hop Hc Hl c' k. apply modify_words_pure; try done.
  - destruct (Nat.eqb_spec k 0); [by rewrite length_tbl|]. rewrite length_splice; rewrite length_tbl; [done|].
    rewrite length_take. unfold k, c' in *. lia.
  - intros s1. fold (tbl (bs_view s) b). unfold fill_while. change INODE_INDIRECT1_COUNT with 128.
    replace (Z.to_nat (Z.min (Z.of_nat n1) 128 - Z.of_nat c)) with k by (unfold k, c'; lia).
    replace (Z.max (Z.of_nat c) (Z.min (Z.of_nat n1) 128)) with (Z.of_nat c') by (unfold c'; lia).
    destruct (Nat.eqb_spec k 0) as [E|E]; [by rewrite E|].
    pose proof (fill_run k (tbl (bs_view s) b) c src s1) as HF. rewrite length_tbl in HF.
    unfold bind at 1. unfold bind at 1. rewrite HF by (unfold k, c' in *; lia). done.
Qed.

Lemma inode_list_mid F ino n :
  length (direct ino) = 27%nat -> (27 < n <= 155)%nat ->
  inode_list F ino n = (Data <$> direct ino) ++ Idx (indirect1 ino) :: (Data <$> take (n - 27) (tbl F (indirect1 ino))).
Proof.
  intros Hd Hn. unfold inode_list. rewrite (proj2 (Nat.ltb_lt 27 n)), (proj2 (Nat.ltb_ge 155 n)) by lia.
  by rewrite app_nil_r, (take_ge (direct ino)) by lia.
Qed.

(** The table after the new entries. *)
Lemma first_table_grows s s' b (c k : nat) src :
  bs_ok s -> small_store s -> openable s b -> (forall x, x ∈ src -> openable s x) ->
  (c + k <= 128)%nat -> (k <= length src)%nat ->
  evolves s (upd (bs_view s) b (encode_words 4 (splice (tbl (bs_view s) b) c (take k src)))) s' ->
  take (c + k) (tbl (bs_view s') b) = take c (tbl (bs_view s) b) ++ take k src.
Proof.
  intros Hok Hsm Hop Hsrc Hc Hk Hev.
  assert (Hl : length (take k src) = k) by (rewrite length_take; lia).
  assert (Ht : tbl (bs_view s') b = splice (tbl (bs_view s) b) c (take k src)).
  { unfold tbl at 1. rewrite (ev_view _ _ _ Hev) by apply Hop.
    apply (tbl_upd_eq (bs_view s) b).
    - rewrite length_splice; rewrite length_tbl; lia.
    - apply splice_Forall; [apply tbl_u32, bs_view_ok; [done|apply Hop]|].
      apply Forall_take, Forall_forall. intros x Hx. apply (openable_u32 s); auto. }
  rewrite Ht. rewrite <- Hl at 1. apply take_splice. rewrite length_tbl. lia.
Qed.

Lemma grow_table1 s ino (n n1 : nat) src ino' src' :
  inode_pre s ino n src -> (27 <= n <= n1)%nat -> (27 < n1)%nat ->
  openable s (indirect1 ino') -> direct ino' = direct ino -> size ino' = size ino -> type_ ino' = type_ ino ->
  (if (n =? 27)%nat then src = indirect1 ino' :: src' else ino' = ino /\ src' = src) ->
  (Nat.max n (Nat.min n1 155) - n <= length src')%nat ->
  let n' := Nat.max n (Nat.min n1 155) in
  exists s' src2, modify_in IndirectBlock (indirect1 ino') 0 (fun indirect1 =>
      let! '(indirect1, src, current) :=
        fill_while (Z.min (Z.of_nat n1 - 27) INODE_INDIRECT1_COUNT) indirect1 (Z.of_nat n - 27) src' in
      ret (src, current, indirect1)) s = Ret (src2, Z.of_nat n' - 27) s' /\
    grown s ino n src s' ino' n' src2.
Proof.
  intros Hp Hn Hn1 Hop Hd Hz Hy Hsrc Hl n'. pose proof Hp as [Hok Hsm Hd27 Hmax _ Hopen _].
  destruct (fill_first_run s (indirect1 ino') (n - 27) (n1 - 27) src' Hok Hop) as (s' & E & Hev); [lia|lia|].
  replace (Z.of_nat (n1 - 27)) with (Z.of_nat n1 - 27) in E by lia.
  replace (Z.of_nat (n - 27)) with (Z.of_nat n - 27) in E by lia.
  set (k := (Nat.max (n - 27) (Nat.min (n1 - 27) 128) - (n - 27))%nat) in *.
  replace (Z.of_nat (Nat.max (n - 27) (Nat.min (n1 - 27) 128))) with (Z.of_nat n' - 27) in E by (unfold n'; lia).
  exists s', (drop k src'). split; [exact E|].
  assert (Hk : (n + k = n')%nat) by (unfold k, n'; lia).
  destruct (Nat.eqb_spec k 0) as [E0|E0].
  - rewrite E0 in Hk |- *. replace n' with n by lia.
    destruct (Nat.eqb_spec n 27) as [->|]; [unfold n' in *; lia|]. destruct Hsrc as [-> ->].
    assert (Hv : forall b, blk_in s b -> bs_view s' b = bs_view s b).
    { intros b Hb. rewrite (ev_view _ _ _ Hev) by done. unfold upd. destruct (Z.eqb_spec b (indirect1 ino)) as [->|]; [|done].
      by apply encode_tbl. }
    split; try done; [by eapply evolves_steps| |intros; by apply Hv].
    exists []. rewrite app_nil_r. split; [|done]. apply inode_list_view. intros e He.
    apply Hv, (idx_openable s ino n src); done.
  - assert (Hx : forall x, x ∈ src' -> openable s x).
    { intros x Hx. apply Hopen, elem_of_app. right. destruct (n =? 27)%nat; [rewrite Hsrc; by right|by destruct Hsrc as [_ <-]]. }
    assert (Hn' : (27 < n' <= 155)%nat) by (unfold n', k in *; lia).
    pose proof (first_table_grows s s' (indirect1 ino') (n - 27) k src' Hok Hsm Hop Hx ltac:(lia) ltac:(lia) Hev) as HT.
    replace (n - 27 + k)%nat with (n' - 27)%nat in HT by lia.
    split; try done; [by eapply evolves_steps| |by rewrite Hd|].
    + rewrite (inode_list_mid _ ino') by (rewrite ?Hd; done). rewrite HT, Hd.
      destruct (Nat.eqb_spec n 27) as [->|Hne].
      * exists (Idx (indirect1 ino') :: (Data <$> take k src')). split.
        -- unfold inode_list. rewrite Nat.ltb_irrefl, app_nil_r, Nat.sub_diag, (take_ge (direct ino)) by lia. done.
        -- rewrite Hsrc. cbn. by rewrite bid_Data, take_drop.
      * destruct Hsrc as [-> ->]. exists (Data <$> take k src). split.
        -- rewrite (inode_list_mid _ ino n) by (try done; lia). by rewrite <- app_assoc, fmap_app.
        -- by rewrite bid_Data, take_drop.
    + intros b Hb Hnin. rewrite (ev_view _ _ _ Hev) by done. apply upd_ne. intros ->. apply Hnin, elem_of_idxs.
      rewrite (inode_list_mid _ ino') by (rewrite ?Hd; done). apply elem_of_app. right. by left.
Qed.

(** The second table: taken when the first is full. *)
Lemma grow_second s ino (n : nat) src :
  inode_pre s ino n src -> (155 <= n)%nat -> (n = 155%nat -> src <> []) ->
  exists ino' src',
    (if Z.of_nat n - 27 =? INODE_INDIRECT1_COUNT then
       let! '(x, src) := next src in ret (set_indirect2 x ino, src)
     else ret (ino, src)) s = Ret (ino', src') s /\
    openable s (indirect2 ino') /\ direct ino' = direct ino /\ indirect1 ino' = indirect1 ino /\
    size ino' = size ino /\ type_ ino' = type_ ino /\
    (if (n =? 155)%nat then src = indirect2 ino' :: src' else ino' = ino /\ src' = src).
Proof.
  intros Hp Hn Hne. change INODE_INDIRECT1_COUNT with 128. destruct (Nat.eqb_spec n 155) as [->|E].
  - rewrite (proj2 (Z.eqb_eq _ _)) by done. destruct src as [|x src]; [by destruct (Hne eq_refl)|].
    exists (set_indirect2 x ino), src. split; [done|]. split_and!; try done. cbn.
    apply (ip_open _ _ _ _ Hp), elem_of_app. right. by left.
  - rewrite (proj2 (Z.eqb_neq _ _)) by lia. exists ino, src. split; [done|]. split_and!; try done.
    apply (idx_openable s ino n src); [done|]. unfold inode_list.
    rewrite (proj2 (Nat.ltb_lt 27 n)), (proj2 (Nat.ltb_lt 155 n)) by lia.
    apply elem_of_app. right. right. apply elem_of_app. right. by left.
Qed.

(** The part of the list before the second level. *)
Definition head_list (F : Z -> list Z) ino : list block :=
  (Data <$> direct ino) ++ Idx (indirect1 ino) :: (Data <$> tbl F (indirect1 ino)).

Lemma inode_list_big F ino n :
  length (direct ino) = 27%nat -> (155 < n)%nat ->
  inode_list F ino n = head_list F ino ++ Idx (indirect2 ino) :: lvl2 F (tbl F (indirect2 ino)) (n - 155).
Proof.
  intros Hd Hn. unfold inode_list, head_list. rewrite (proj2 (Nat.ltb_lt 27 n)), (proj2 (Nat.ltb_lt 155 n)) by lia.
  rewrite (take_ge (direct ino)), (take_ge (tbl _ _)) by (rewrite ?length_tbl; lia). by rewrite <- app_assoc.
Qed.

Lemma inode_list_155 F ino : length (direct ino) = 27%nat -> inode_list F ino 155 = head_list F ino.
Proof.
  intros Hd. rewrite inode_list_mid by (done || lia). unfold head_list.
  by rewrite (take_ge (tbl _ _)) by (rewrite length_tbl; lia).
Qed.

(** What is before and behind the second table, with the table itself apart. *)
Lemma second_parts s ino (n : nat) src ino' src' :
  inode_pre s ino n src -> (155 <= n)%nat -> direct ino' = direct ino -> indirect1 ino' = indirect1 ino ->
  (if (n =? 155)%nat then src = indirect2 ino' :: src' else ino' = ino /\ src' = src) ->
  let l2 := lvl2 (bs_view s) (tbl (bs_view s) (indirect2 ino')) (n - 155) in
  (bid <$> inode_list (bs_view s) ino n) ++ src =
    (bid <$> head_list (bs_view s) ino') ++ indirect2 ino' :: (bid <$> l2) ++ src' /\
  inode_list (bs_view s) ino n ++ (if (n =? 155)%nat then [Idx (indirect2 ino')] else []) =
    head_list (bs_view s) ino' ++ Idx (indirect2 ino') :: l2.
Proof.
  intros Hp Hn Hd Hi Hsrc l2. pose proof (ip_direct _ _ _ _ Hp) as Hd27.
  assert (Hh : head_list (bs_view s) ino' = head_list (bs_view s) ino) by (unfold head_list; by rewrite Hd, Hi).
  destruct (Nat.eqb_spec n 155) as [->|Hne].
  - unfold l2. rewrite Nat.sub_diag, lvl2_0, inode_list_155, Hh, Hsrc by done. done.
  - destruct Hsrc as [-> ->]. rewrite inode_list_big by (done || lia). fold l2.
    by rewrite app_nil_r, fmap_app, <- app_assoc.
Qed.

(** With the second table open, the loop behind it can run. *)
Lemma second_pre s ino (n : nat) src ino' src' s1 :
  inode_pre s ino n src -> (155 <= n)%nat -> direct ino' = direct ino -> indirect1 ino' = indirect1 ino ->
  (if (n =? 155)%nat then src = indirect2 ino' :: src' else ino' = ino /\ src' = src) ->
  opened s (indirect2 ino') s1 ->
  let es := tbl (bs_view s) (indirect2 ino') in
  lvl2 (bs_view s1) es (n - 155) = lvl2 (bs_view s) es (n - 155) /\
  grow_pre s1 es (n - 155) src' /\
  (forall b, b ∈ (bid <$> lvl2 (bs_view s) es (n - 155)) ++ src' ->
     blk_in s b /\ b <> indirect2 ino' /\ b <> indirect1 ino') /\
  blk_in s (indirect1 ino') /\ indirect1 ino' <> indirect2 ino'.
Proof.
  intros Hp Hn Hd Hi Hsrc Hop es. destruct (second_parts s ino n src ino' src' Hp Hn Hd Hi Hsrc) as [E1 _]. fold es in E1.
  set (l2 := lvl2 (bs_view s) es (n - 155)) in *. destruct Hp as [Hok Hsm Hd27 Hmax Hnd Hopen Hroom].
  rewrite E1 in Hnd, Hopen. apply NoDup_app in Hnd as (_ & Hx & [Hi2 Hnd]%NoDup_cons).
  assert (H1 : indirect1 ino' ∈ bid <$> head_list (bs_view s) ino').
  { apply list_elem_of_fmap. exists (Idx (indirect1 ino')). split; [done|]. apply elem_of_app. right. by left. }
  assert (Hb : forall b, b ∈ (bid <$> l2) ++ src' -> openable s b /\ b <> indirect2 ino' /\ b <> indirect1 ino').
  { intros b Hb. split_and!.
    - apply Hopen, elem_of_app. right. by right.
    - intros ->. done.
    - intros ->. apply (Hx _ H1). by right. }
  assert (El : lvl2 (bs_view s1) es (n - 155) = l2).
  { symmetry. apply lvl2_ext. intros e He. symmetry. apply Hop, (can_in _ _), (proj1 (Hb e ltac:(
      apply elem_of_app; left; apply list_elem_of_fmap; by exists (Idx e)))). }
  split; [exact El|]. clear E1. split; [|split; [|split]]; cycle 1.
  { intros b Hbb. destruct (Hb b Hbb) as ([B1 _ _] & B2 & B3). exact (conj B1 (conj B2 B3)). }
  { apply (can_in s), Hopen, elem_of_app. by left. }
  { intros Heq. apply (Hx _ H1). rewrite Heq. by left. }
  split; rewrite ?El; [..|exact Hnd|].
  - apply Hop.
  - unfold small_store in *. by rewrite (op_blocks _ _ _ Hop).
  - apply length_tbl.
  - apply tbl_u32, bs_view_ok; [done|]. apply (can_in s), Hopen, elem_of_app. right. by left.
  - intros b Hbb. destruct (Hb b Hbb) as (Hob & Hne & _). clear El Hb Hbb.
    apply (opened_openable s (indirect2 ino')); assumption || lia.
Qed.

(** Closing the second table: the list seen afterwards, from what the loop left. *)
Lemma close_second s s2 s' ino' (n1 : nat) es' l :
  length (direct ino') = 27%nat -> (155 < n1)%nat -> openable s (indirect2 ino') ->
  length es' = 128%nat -> Forall is_u32 es' ->
  evolves s (upd (bs_view s2) (indirect2 ino') (encode_words 4 es')) s' ->
  lvl2 (bs_view s2) es' (n1 - 155) = l ->
  (forall b, b ∈ idxs l -> blk_in s b /\ b <> indirect2 ino' /\ b <> indirect1 ino') ->
  blk_in s (indirect1 ino') -> indirect1 ino' <> indirect2 ino' ->
  (forall b, blk_in s b -> b ∉ idxs l -> bs_view s2 b = bs_view s b) ->
  inode_list (bs_view s') ino' n1 = head_list (bs_view s) ino' ++ Idx (indirect2 ino') :: l /\
  (forall b, blk_in s b -> b <> indirect2 ino' -> b ∉ idxs l -> bs_view s' b = bs_view s b).
Proof.
  intros Hd Hn1 Hop Hlen Hu Hev Hl Hidx Hb1 Hne Hfr.
  assert (Hv : forall b, blk_in s b -> b <> indirect2 ino' -> bs_view s' b = bs_view s2 b).
  { intros b Hbb Hb. rewrite (ev_view _ _ _ Hev b Hbb). by apply upd_ne. }
  assert (Et : tbl (bs_view s') (indirect2 ino') = es').
  { unfold tbl. rewrite (ev_view _ _ _ Hev) by apply Hop. by apply (tbl_upd_eq (bs_view s2)). }
  assert (Elv : lvl2 (bs_view s') es' (n1 - 155) = l).
  { rewrite <- Hl. symmetry. apply lvl2_ext. intros e He. apply elem_of_idxs in He. rewrite Hl in He.
    destruct (Hidx e He) as (B1 & B2 & _). symmetry. exact (Hv e B1 B2). }
  assert (Hv2 : forall b, blk_in s b -> b <> indirect2 ino' -> b ∉ idxs l -> bs_view s' b = bs_view s b).
  { intros b Hbb Hb Hnin. rewrite (Hv b Hbb Hb). exact (Hfr b Hbb Hnin). }
  split; [|exact Hv2]. rewrite inode_list_big by assumption. rewrite Et, Elv. f_equal.
  unfold head_list, tbl. rewrite (Hv2 _ Hb1 Hne); [reflexivity|].
  intros Hin. destruct (Hidx _ Hin) as (_ & _ & B3). exact (B3 eq_refl).
Qed.

Lemma grow_table2 s ino (n n1 : nat) src ino' src' :
  inode_pre s ino n src -> (155 <= n <= n1)%nat -> (155 < n1)%nat -> Z.of_nat n1 <= 16539 ->
  openable s (indirect2 ino') -> direct ino' = direct ino -> indirect1 ino' = indirect1 ino ->
  size ino' = size ino -> type_ ino' = type_ ino ->
  (if (n =? 155)%nat then src = indirect2 ino' :: src' else ino' = ino /\ src' = src) ->
  length src' = (cnt2 (n1 - 155) - cnt2 (n - 155))%nat ->
  exists s', modify_in IndirectBlock (indirect2 ino') 0 (fun indirect2 =>
      let! '(indirect2, src) := grow2 (n1 - n) (Z.of_nat (n - 155) / 128) (Z.of_nat (n - 155) mod 128)
        (Z.of_nat (n1 - 155) / 128) (Z.of_nat (n1 - 155) mod 128) indirect2 src' in
      ret (src, indirect2)) s = Ret [] s' /\
    grown s ino n src s' ino' n1 [].
Proof.
  intros Hp Hn Hn1 Hmax1 Hop Hd Hi Hz Hy Hsrc Hl. pose proof Hp as [Hok Hsm Hd27 _ _ _ _].
  set (f := fun indirect2 : list Z => _).
  destruct (modify_words_open 4 128 eq_refl s (indirect2 ino') f Hok Hop) as (s1 & Hs1 & Hrun).
  fold (tbl (bs_view s) (indirect2 ino')) in Hrun.
  destruct (second_pre s ino n src ino' src' s1 Hp ltac:(lia) Hd Hi Hsrc Hs1) as (El & Hgp & Hb & Hb1 & Hne).
  destruct (second_parts s ino n src ino' src' Hp ltac:(lia) Hd Hi Hsrc) as [_ E2].
  set (es := tbl (bs_view s) (indirect2 ino')) in *. set (l2 := lvl2 (bs_view s) es (n - 155)) in *.
  destruct (grow2_run (n1 - n) (n - 155) (n1 - 155) s1 es src' ltac:(lia) ltac:(lia) ltac:(lia) Hgp Hl)
    as (es' & s2 & tl & E & Hst & Hlen & Hu & Hl2 & Htl & Hfr). rewrite El in Hl2. rewrite Hl2 in Hfr.
  destruct (Hrun [] es' s2 (bs_view s2)) as (s' & E' & Hev); [|exact Hst|exact Hlen|].
  { unfold f. rewrite (bind_Ret _ _ _ _ _ E). reflexivity. }
  exists s'. split; [exact E'|].
  destruct (close_second s s2 s' ino' n1 es' (l2 ++ tl)) as [Efin Hv2]; try assumption.
  { by rewrite Hd. }
  { intros b Hbb. apply Hb. rewrite idxs_app in Hbb. apply elem_of_app in Hbb as [Hbb|Hbb]; apply elem_of_app;
      [left|right; rewrite <- Htl]; by apply idxs_bid. }
  { intros b Hbb Hnin. rewrite (Hfr b); [apply Hs1, Hbb| |exact Hnin].
    unfold blk_in in *. by rewrite (op_blocks _ _ _ Hs1). }
  split; [by eapply evolves_steps| |by rewrite Hd|exact Hz|exact Hy|].
  - exists ((if (n =? 155)%nat then [Idx (indirect2 ino')] else []) ++ tl). split.
    + rewrite Efin, app_assoc, E2, <- app_assoc. reflexivity.
    + rewrite app_nil_r, fmap_app, Htl. destruct (n =? 155)%nat; [exact Hsrc|]. destruct Hsrc as [_ ->]. reflexivity.
  - intros b Hbb Hnin. rewrite Efin, idxs_app in Hnin. apply not_elem_of_app in Hnin as [_ Hnin].
    apply Hv2; [exact Hbb|..].
    + intros ->. apply Hnin. by left.
    + intros Hin. apply Hnin. by right.
Qed.

Lemma grow_table2_overruns s ino (n n1 : nat) src ino' src' :
  inode_pre s ino n src -> (155 <= n)%nat -> 16539 < Z.of_nat n1 ->
  openable s (indirect2 ino') -> direct ino' = direct ino -> indirect1 ino' = indirect1 ino ->
  (if (n =? 155)%nat then src = indirect2 ino' :: src' else ino' = ino /\ src' = src) ->
  (cnt2 (Z.to_nat 16384) - cnt2 (n - 155) < length src')%nat ->
  modify_in IndirectBlock (indirect2 ino') 0 (fun indirect2 =>
      let! '(indirect2, src) := grow2 (n1 - n) (Z.of_nat (n - 155) / 128) (Z.of_nat (n - 155) mod 128)
        (Z.of_nat (n1 - 155) / 128) (Z.of_nat (n1 - 155) mod 128) indirect2 src' in
      ret (src, indirect2)) s = Panic Bounds.
Proof.
  intros Hp Hn Hn1 Hop Hd Hi Hsrc Hl. pose proof (ip_max _ _ _ _ Hp) as Hmax. apply (modify_words_panics 4 128 eq_refl); [apply Hp|exact Hop|]. intros s1 Hs1.
  destruct (second_pre s ino n src ino' src' s1 Hp Hn Hd Hi Hsrc Hs1) as (_ & Hgp & _).
  apply bind_Panic. apply grow2_overruns; [lia|lia|lia|exact Hgp|exact Hl].
Qed.

(** ** Sizes and block counts *)

(** The largest file the tables reach: direct blocks, one table, a table of tables. *)
Definition MAX_SIZE : Z := INDIRECT2_BOUND * BLOCK_SZ.

Lemma data_blocks_nat z :
  0 <= z <= MAX_SIZE -> _data_blocks z = Z.of_nat (Z.to_nat (_data_blocks z)) /\ 0 <= _data_blocks z <= 16539.
Proof.
  unfold _data_blocks, MAX_SIZE. change INDIRECT2_BOUND with 16539. unfold BLOCK_SZ. intros Hz.
  rewrite u32_small by lia. assert (0 <= (z + 512 - 1) / 512 <= 16539) by (Z.to_euclidean_division_equations; lia). lia.
Qed.

Lemma data_blocks_mono y z : 0 <= y <= z -> z <= MAX_SIZE -> _data_blocks y <= _data_blocks z.
Proof.
  unfold _data_blocks, MAX_SIZE. change INDIRECT2_BOUND with 16539. unfold BLOCK_SZ. intros Hy Hz.
  rewrite !u32_small by lia. apply Z.div_le_mono; lia.
Qed.

Lemma total_blocks_cnt z : 0 <= z <= MAX_SIZE -> total_blocks z = Z.of_nat (cnt (Z.to_nat (_data_blocks z))).
Proof.
  intros Hz. destruct (data_blocks_nat z Hz) as [_ Hr]. unfold total_blocks.
  destruct (Z_of_nat_complete (_data_blocks z)) as [n E]; [lia|]. rewrite E in Hr |- *. rewrite Nat2Z.id. clear E Hz z. cbv zeta.
  change INODE_DIRECT_COUNT with 27. change INDIRECT1_BOUND with 155. change INDIRECT2_BOUND with 16539.
  change INODE_INDIRECT1_COUNT with 128. rewrite (proj2 (Z.ltb_ge 16539 _)) by lia. unfold cnt, cnt2.
  destruct (Z.ltb_spec 155 (Z.of_nat n)), (Nat.ltb_spec 155 n); try lia; cycle 1.
  - destruct (Z.ltb_spec 27 (Z.of_nat n)), (Nat.ltb_spec 27 n); try lia; rewrite u32_small; lia.
  - rewrite (proj2 (Z.ltb_lt 27 _)) by lia. rewrite Z.min_l by (Z.to_euclidean_division_equations; lia).
    rewrite u32_small by (Z.to_euclidean_division_equations; lia). dlia.
Qed.
End increase.
