(* ===== verification/InodeData.v ===== *)
(** What the methods of [DiskInode] ([components/src/micro_fs/layout.rs]) do to the
    blocks and the contents of a file, stated with the block list of [InodeBlocks]. *)
From Stdlib Require Import ZifyNat.
From S2P Require Import Prelude BlockCache DiskWords Bitmap Layout InodeBlocks.

(** The number of data blocks of an inode. *)
Definition nblocks (ino : DiskInode) : nat := Z.to_nat (data_blocks ino).

Section increase.
Context {St : Type} `{SL : BlockStoreLaws St}.
Implicit Types (s : St) (ino : DiskInode).

Lemma increase_second s ino (n n1 : nat) src :
  inode_pre s ino n src -> (27 <= n <= n1)%nat -> (Nat.min n1 155 <= n)%nat -> Z.of_nat n1 <= 16539 ->
  length src = (cnt n1 - cnt n)%nat ->
  exists ino' s',
    increase_tail ino (Z.of_nat n1 - 27) (Z.of_nat n - 27) src s = Ret ino' s' /\
    grown s ino n src s' ino' n1 [].
Proof.
  intros Hp Hn Hf Hn1 Hl. unfold increase_tail. pose proof Hp as [Hok _ Hd _ _ _ _].
  destruct (Z.ltb_spec INODE_INDIRECT1_COUNT (Z.of_nat n1 - 27)) as [Hbig|Hsmall];
    change INODE_INDIRECT1_COUNT with 128 in Hbig || change INODE_INDIRECT1_COUNT with 128 in Hsmall; cycle 1.
  { replace n1 with n in * by lia. rewrite Nat.sub_diag in Hl. apply nil_length_inv in Hl as ->.
    exists ino, s. split; [reflexivity|]. by apply grown_refl. }
  assert (Hc : (cnt n1 = 157 + cnt2 (n1 - 155) /\ cnt2 (n - 155) <= cnt2 (n1 - 155))%nat /\
               cnt n = if (n =? 155)%nat then 156%nat else (157 + cnt2 (n - 155))%nat).
  { unfold cnt, cnt2. rewrite (proj2 (Nat.ltb_lt 155 n1)) by lia. destruct (Nat.eqb_spec n 155) as [->|].
    - split; [dlia|done].
    - rewrite (proj2 (Nat.ltb_lt 155 n)) by lia. split; [dlia|done]. }
  destruct Hc as [[Hc1 Hc2] Hc].
  destruct (grow_second s ino n src Hp ltac:(lia)) as (ino' & src' & E & Hop & Hd' & Hi & Hz & Hy & Hsrc).
  { intros -> ->. cbn [length] in Hl. rewrite Nat.eqb_refl in Hc. lia. }
  assert (Hl' : length src' = (cnt2 (n1 - 155) - cnt2 (n - 155))%nat).
  { destruct (Nat.eqb_spec n 155) as [->|]; [rewrite Hsrc in Hl; cbn [length] in Hl|destruct Hsrc as [_ ->]].
    - change (cnt2 (155 - 155)) with 0%nat. lia.
    - lia. }
  destruct (grow_table2 s ino n n1 src ino' src' Hp ltac:(lia) ltac:(lia) Hn1 Hop Hd' Hi Hz Hy Hsrc Hl') as (s' & E' & Hg).
  exists ino', s'. split; [|exact Hg]. rewrite (bind_Ret _ _ _ _ _ E). cbv zeta.
  change INODE_INDIRECT1_COUNT with 128. change INODE_INDIRECT2_COUNT with 16384.
  replace (Z.of_nat n - 27 - 128) with (Z.of_nat (n - 155)) by lia.
  replace (Z.of_nat n1 - 27 - 128) with (Z.of_nat (n1 - 155)) by lia.
  replace (Z.to_nat (Z.of_nat (n1 - 155) - Z.of_nat (n - 155))) with (n1 - n)%nat by lia.
  rewrite (bind_Ret _ _ _ _ _ E'). by rewrite (proj2 (Z.ltb_ge 16384 _)) by lia.
Qed.

(** From the first table on. *)
Lemma cnt_mono (a b : nat) : (a <= b)%nat -> (cnt a + (b - a) <= cnt b)%nat.
Proof. intros Hab. unfold cnt, cnt2. destruct (Nat.ltb_spec 155 a), (Nat.ltb_spec 155 b), (Nat.ltb_spec 27 a), (Nat.ltb_spec 27 b); dlia. Qed.

Lemma cnt_27 (n1 : nat) : (27 < n1)%nat -> (cnt 27 < cnt n1)%nat /\ (cnt 27 + (Nat.min n1 155 - 27) < cnt n1)%nat.
Proof.
  intros Hn. change (cnt 27) with 27%nat. unfold cnt, cnt2. rewrite (proj2 (Nat.ltb_lt 27 n1)) by lia.
  destruct (Nat.ltb_spec 155 n1); dlia.
Qed.

Lemma increase_first s ino (n n1 : nat) src :
  inode_pre s ino n src -> (27 <= n <= n1)%nat -> (27 < n1)%nat -> Z.of_nat n1 <= 16539 ->
  length src = (cnt n1 - cnt n)%nat ->
  exists ino' s',
    (let! '(self, src) :=
      if Z.of_nat n =? 27 then let! '(x, src) := next src in ret (set_indirect1 x ino, src) else ret (ino, src) in
    let! '(src, current) := modify_in IndirectBlock (indirect1 self) 0 (fun indirect1 =>
      let! '(indirect1, src, current) :=
        fill_while (Z.min (Z.of_nat n1 - 27) INODE_INDIRECT1_COUNT) indirect1 (Z.of_nat n - 27) src in
      ret (src, current, indirect1)) in
    increase_tail self (Z.of_nat n1 - 27) current src) s = Ret ino' s' /\
    grown s ino n src s' ino' n1 [].
Proof.
  intros Hp Hn Hn1 Hmax Hl. pose proof (cnt_27 n1 Hn1) as [Hc27 Hc27']. pose proof (cnt_mono n n1 ltac:(lia)) as Hcm.
  destruct (grow_first s ino n src Hp ltac:(lia)) as (ino' & src' & E & Hop & Hd & Hz & Hy & Hsrc).
  { intros -> ->. cbn [length] in Hl. lia. }
  rewrite (bind_Ret _ _ _ _ _ E).
  assert (Hl' : (Nat.max n (Nat.min n1 155) - n <= length src')%nat).
  { destruct (Nat.eqb_spec n 27) as [->|]; [rewrite Hsrc in Hl; cbn [length] in Hl|destruct Hsrc as [_ ->]]; lia. }
  destruct (grow_table1 s ino n n1 src ino' src' Hp ltac:(lia) Hn1 Hop Hd Hz Hy Hsrc Hl') as (s1 & src2 & E1 & Hg).
  rewrite (bind_Ret _ _ _ _ _ E1). set (n' := Nat.max n (Nat.min n1 155)) in *.
  assert (Hp1 : inode_pre s1 ino' n' src2) by (apply (grown_pre s ino n src); [exact Hp|exact Hg|unfold n'; lia]).
  pose proof (grown_length s ino n src s1 ino' n' src2 Hp Hg ltac:(unfold n'; lia)) as Hla.
  pose proof (cnt_mono n' n1 ltac:(unfold n'; lia)) as Hcm'.
  destruct (increase_second s1 ino' n' n1 src2 Hp1 ltac:(unfold n'; lia) ltac:(unfold n'; lia) Hmax ltac:(lia)) as (ino2 & s2 & E2 & Hg2).
  exists ino2, s2. split; [exact E2|]. exact (grown_trans _ _ _ _ _ _ _ _ _ _ _ _ Hg Hg2).
Qed.

Lemma increase_size_run s ino new_size new_blocks :
  inode_pre s ino (nblocks ino) new_blocks -> 0 <= size ino <= new_size -> new_size <= MAX_SIZE ->
  Z.of_nat (length new_blocks) = total_blocks new_size - total_blocks (size ino) ->
  let n1 := Z.to_nat (_data_blocks new_size) in
  exists ino' s', increase_size ino new_size new_blocks s = Ret ino' s' /\
    grown s (set_size new_size ino) (nblocks ino) new_blocks s' ino' n1 [].
Proof.
  intros Hp Hsz Hmax Hlen n1. set (ino0 := set_size new_size ino). set (n := nblocks ino) in *.
  destruct (data_blocks_nat (size ino) ltac:(lia)) as [En Hn16]. destruct (data_blocks_nat new_size ltac:(lia)) as [En1 Hn116].
  pose proof (data_blocks_mono (size ino) new_size ltac:(lia) Hmax) as Hmono.
  rewrite !total_blocks_cnt in Hlen by lia. fold (data_blocks ino) in *. fold (nblocks ino) in En, Hlen. fold n in En, Hlen.
  fold n1 in En1, Hlen. assert (Hn : (n <= n1)%nat) by lia. pose proof (cnt_mono n n1 Hn) as Hcm.
  assert (Hp0 : inode_pre s ino0 n new_blocks) by (destruct Hp; by split).
  unfold increase_size. fold ino0. cbv zeta. rewrite En. change (data_blocks ino0) with (_data_blocks new_size). rewrite En1.
  destruct (grow_direct s ino0 n n1 new_blocks Hp0 Hn) as (d & src & E & Hg); [lia|].
  rewrite (bind_Ret _ _ _ _ _ E). set (na := Nat.max n (Nat.min n1 27)) in *. set (ino1 := set_direct d ino0) in *.
  change INODE_DIRECT_COUNT with 27.
  assert (Hpa : inode_pre s ino1 na src) by (apply (grown_pre s ino0 n new_blocks); [exact Hp0|exact Hg|unfold na; lia]).
  pose proof (grown_length s ino0 n new_blocks s ino1 na src Hp0 Hg ltac:(unfold na; lia)) as Hla.
  pose proof (cnt_mono na n1 ltac:(unfold na; lia)) as Hcma.
  destruct (Z.ltb_spec 27 (Z.of_nat n1)) as [Hbig|Hsmall]; cycle 1.
  { exists ino1, s. split; [reflexivity|]. assert (na = n1) as Ena by (unfold na; lia). rewrite Ena in Hg, Hla.
    assert (src = []) as -> by (apply nil_length_inv; lia). exact Hg. }
  destruct (increase_first s ino1 na n1 src Hpa ltac:(unfold na; lia) ltac:(lia) ltac:(lia) ltac:(lia)) as (ino' & s' & E' & Hg').
  exists ino', s'. split; [exact E'|]. exact (grown_trans _ _ _ _ _ _ _ _ _ _ _ _ Hg Hg').
Qed.

(** *** Beyond the second level *)

Lemma cnt_second (n : nat) : (155 <= n)%nat -> Z.of_nat n <= 16539 ->
  cnt (Z.to_nat 16539) = (157 + cnt2 (Z.to_nat 16384))%nat /\ cnt n = (if (n =? 155)%nat then 156%nat else (157 + cnt2 (n - 155))%nat) /\
  (cnt2 (n - 155) <= cnt2 (Z.to_nat 16384))%nat.
Proof.
  intros Hn Hmax. unfold cnt, cnt2. rewrite (proj2 (Nat.ltb_lt 155 (Z.to_nat 16539))) by lia.
  destruct (Nat.eqb_spec n 155) as [->|]; [split_and!; [dlia|done|dlia]|]. rewrite (proj2 (Nat.ltb_lt 155 n)) by lia. split_and!; dlia.
Qed.

Lemma increase_second_overruns s ino (n n1 : nat) src :
  inode_pre s ino n src -> (155 <= n)%nat -> 16539 < Z.of_nat n1 -> (cnt (Z.to_nat 16539) - cnt n < length src)%nat ->
  increase_tail ino (Z.of_nat n1 - 27) (Z.of_nat n - 27) src s = Panic Bounds.
Proof.
  intros Hp Hn Hn1 Hl. unfold increase_tail. change INODE_INDIRECT1_COUNT with 128. rewrite (proj2 (Z.ltb_lt 128 _)) by lia.
  pose proof (ip_max _ _ _ _ Hp) as Hmax. destruct (cnt_second n Hn Hmax) as (Hc1 & Hc & Hc2).
  destruct (grow_second s ino n src Hp Hn) as (ino' & src' & E & Hop & Hd' & Hi & Hz & Hy & Hsrc).
  { intros -> ->. cbn [length] in Hl. lia. }
  assert (Hl' : (cnt2 (Z.to_nat 16384) - cnt2 (n - 155) < length src')%nat).
  { destruct (Nat.eqb_spec n 155) as [->|]; [rewrite Hsrc in Hl; cbn [length] in Hl|destruct Hsrc as [_ ->]].
    - change (cnt2 (155 - 155)) with 0%nat. lia.
    - lia. }
  pose proof (grow_table2_overruns s ino n n1 src ino' src' Hp Hn Hn1 Hop Hd' Hi Hsrc Hl') as E'.
  change INODE_INDIRECT1_COUNT with 128 in E. rewrite (bind_Ret _ _ _ _ _ E). cbv zeta. change INODE_INDIRECT2_COUNT with 16384.
  replace (Z.of_nat n - 27 - 128) with (Z.of_nat (n - 155)) by lia.
  replace (Z.of_nat n1 - 27 - 128) with (Z.of_nat (n1 - 155)) by lia.
  replace (Z.to_nat (Z.of_nat (n1 - 155) - Z.of_nat (n - 155))) with (n1 - n)%nat by lia.
  by rewrite (bind_Panic _ _ _ _ E').
Qed.

Lemma increase_first_overruns s ino (n n1 : nat) src :
  inode_pre s ino n src -> (27 <= n)%nat -> 16539 < Z.of_nat n1 -> (cnt (Z.to_nat 16539) - cnt n < length src)%nat ->
  (let! '(self, src) :=
    if Z.of_nat n =? 27 then let! '(x, src) := next src in ret (set_indirect1 x ino, src) else ret (ino, src) in
  let! '(src, current) := modify_in IndirectBlock (indirect1 self) 0 (fun indirect1 =>
    let! '(indirect1, src, current) :=
      fill_while (Z.min (Z.of_nat n1 - 27) INODE_INDIRECT1_COUNT) indirect1 (Z.of_nat n - 27) src in
    ret (src, current, indirect1)) in
  increase_tail self (Z.of_nat n1 - 27) current src) s = Panic Bounds.
Proof.
  intros Hp Hn Hn1 Hl. pose proof (ip_max _ _ _ _ Hp) as Hmax. set (N := Z.to_nat 16539) in *.
  pose proof (cnt_27 N ltac:(lia)) as [Hc27 Hc27']. pose proof (cnt_mono n N ltac:(lia)) as Hcm.
  destruct (grow_first s ino n src Hp ltac:(lia)) as (ino' & src' & E & Hop & Hd & Hz & Hy & Hsrc).
  { intros -> ->. cbn [length] in Hl. lia. }
  rewrite (bind_Ret _ _ _ _ _ E).
  assert (Hl' : (Nat.max n (Nat.min n1 155) - n <= length src')%nat).
  { destruct (Nat.eqb_spec n 27) as [->|]; [rewrite Hsrc in Hl; cbn [length] in Hl|destruct Hsrc as [_ ->]]; lia. }
  destruct (grow_table1 s ino n n1 src ino' src' Hp ltac:(lia) ltac:(lia) Hop Hd Hz Hy Hsrc Hl') as (s1 & src2 & E1 & Hg).
  rewrite (bind_Ret _ _ _ _ _ E1). set (n' := Nat.max n (Nat.min n1 155)) in *.
  assert (Hp1 : inode_pre s1 ino' n' src2) by (apply (grown_pre s ino n src); [exact Hp|exact Hg|unfold n'; lia]).
  pose proof (grown_length s ino n src s1 ino' n' src2 Hp Hg ltac:(unfold n'; lia)) as Hla.
  pose proof (cnt_mono n' N ltac:(unfold n'; lia)) as Hcm'.
  apply increase_second_overruns; [exact Hp1|unfold n'; lia|exact Hn1|fold N; lia].
Qed.

Lemma increase_size_overruns s ino new_size new_blocks :
  inode_pre s ino (nblocks ino) new_blocks -> 0 <= size ino <= MAX_SIZE -> INDIRECT2_BOUND < _data_blocks new_size ->
  total_blocks MAX_SIZE - total_blocks (size ino) < Z.of_nat (length new_blocks) ->
  increase_size ino new_size new_blocks s = Panic Bounds.
Proof.
  change INDIRECT2_BOUND with 16539. intros Hp Hsz Hbig Hlen. set (ino0 := set_size new_size ino). set (n := nblocks ino) in *.
  set (n1 := Z.to_nat (_data_blocks new_size)). assert (En1 : _data_blocks new_size = Z.of_nat n1) by (unfold n1; lia).
  destruct (data_blocks_nat (size ino) ltac:(lia)) as [En Hn16].
  assert (HM : 0 <= MAX_SIZE) by (unfold MAX_SIZE; vm_compute; congruence).
  rewrite !total_blocks_cnt in Hlen by lia. fold (data_blocks ino) in *. fold (nblocks ino) in En, Hlen. fold n in En, Hlen.
  assert (EM : Z.to_nat (_data_blocks MAX_SIZE) = Z.to_nat 16539) by (f_equal; vm_compute; reflexivity). rewrite EM in Hlen.
  set (N := Z.to_nat 16539) in *. assert (Hn : (n <= N)%nat) by lia. pose proof (cnt_mono n N Hn) as Hcm.
  assert (Hp0 : inode_pre s ino0 n new_blocks) by (destruct Hp; by split).
  unfold increase_size. fold ino0. cbv zeta. rewrite En. change (data_blocks ino0) with (_data_blocks new_size). rewrite En1.
  destruct (grow_direct s ino0 n n1 new_blocks Hp0 ltac:(lia)) as (d & src & E & Hg); [lia|].
  rewrite (bind_Ret _ _ _ _ _ E). set (na := Nat.max n (Nat.min n1 27)) in *. set (ino1 := set_direct d ino0) in *.
  change INODE_DIRECT_COUNT with 27.
  assert (Hpa : inode_pre s ino1 na src) by (apply (grown_pre s ino0 n new_blocks); [exact Hp0|exact Hg|unfold na; lia]).
  pose proof (grown_length s ino0 n new_blocks s ino1 na src Hp0 Hg ltac:(unfold na; lia)) as Hla.
  pose proof (cnt_mono na N ltac:(unfold na; lia)) as Hcma.
  rewrite (proj2 (Z.ltb_lt 27 (Z.of_nat n1))) by lia.
  apply increase_first_overruns; [exact Hpa|unfold na; lia|lia|fold N; lia].
Qed.

(** C36. Growing an inode, up to the capacity of the direct blocks, the first table and the table of
    tables, with exactly the number of blocks that total_blocks asks for, returns an inode whose
    block list is the old one followed by the new blocks in order, and changes no block outside the
    inode's index blocks. *)
Theorem increase_size_appends s ino new_size new_blocks :
  inode_pre s ino (nblocks ino) new_blocks -> 0 <= size ino <= new_size -> new_size <= MAX_SIZE ->
  Z.of_nat (length new_blocks) = total_blocks new_size - total_blocks (size ino) ->
  exists ino' s' tl, increase_size ino new_size new_blocks s = Ret ino' s' /\
    size ino' = new_size /\ type_ ino' = type_ ino /\ length (direct ino') = 27%nat /\
    bs_ok s' /\ bs_held s' = bs_held s /\
    inode_list (bs_view s') ino' (nblocks ino') = inode_list (bs_view s) ino (nblocks ino) ++ tl /\
    bid <$> tl = new_blocks /\
    (forall b, 0 <= b < bs_blocks s -> b ∉ idxs (inode_list (bs_view s') ino' (nblocks ino')) ->
       bs_view s' b = bs_view s b).
Proof.
  intros Hp Hsz Hmax Hlen. destruct (increase_size_run s ino new_size new_blocks Hp Hsz Hmax Hlen)
    as (ino' & s' & E & [Hst (tl & Hl & Htl) Hd Hz Hy Hfr]). exists ino', s', tl.
  assert (Hnb : nblocks ino' = Z.to_nat (_data_blocks new_size)) by (unfold nblocks, data_blocks; rewrite Hz; reflexivity).
  rewrite Hnb. rewrite app_nil_r in Htl.
  split_and!; [exact E|exact Hz|exact Hy|exact Hd|apply Hst|apply Hst|exact Hl|by symmetry|exact Hfr].
Qed.
End increase.

(** ** Clearing *)

Section clear.
Context {St : Type} `{SL : BlockStoreLaws St}.
Implicit Types (s : St) (ino : DiskInode).

(** Nothing in the store changes but the cache behind it. *)
Abbreviation keeps s s' := (evolves s (bs_view s) s').

Lemma keeps_trans s s1 s2 : keeps s s1 -> keeps s1 s2 -> keeps s s2.
Proof.
  intros H1 H2. apply (evolves_ext s (bs_view s1)); [by apply (evolves_trans s (bs_view s) s1)|].
  intros j Hj. by apply H1.
Qed.

Lemma upd_self F b : (forall j, upd F b (F b) j = F j).
Proof. intros j. unfold upd. by destruct (Z.eqb_spec j b) as [->|]. Qed.

(** A table that is opened to read its entries and what is behind them. *)
Lemma modify_table_open {V} s b (f : list Z -> M St (V * list Z)) :
  bs_ok s -> openable s b ->
  exists s1, opened s b s1 /\
    forall v s2, f (tbl (bs_view s) b) s1 = Ret (v, tbl (bs_view s) b) s2 -> keeps s1 s2 ->
      exists s', modify_in IndirectBlock b 0 f s = Ret v s' /\ keeps s s'.
Proof.
  intros Hok Hop. destruct (modify_words_open 4 128 eq_refl s b f Hok Hop) as (s1 & Hs1 & Hrun).
  exists s1. split; [exact Hs1|]. intros v s2 E Hk.
  destruct (Hrun v (tbl (bs_view s) b) s2 (bs_view s1) E Hk (length_tbl _ _)) as (s' & E' & Hev).
  exists s'. split; [exact E'|]. apply (evolves_ext _ _ _ _ Hev). intros j Hj. unfold upd.
  destruct (Z.eqb_spec j b) as [->|]; [by apply encode_tbl|by apply Hs1].
Qed.

Lemma modify_table_pure {V} s b (f : list Z -> M St (V * list Z)) v :
  bs_ok s -> openable s b -> (forall s1, f (tbl (bs_view s) b) s1 = Ret (v, tbl (bs_view s) b) s1) ->
  exists s', modify_in IndirectBlock b 0 f s = Ret v s' /\ keeps s s'.
Proof.
  intros Hok Hop Hf. destruct (modify_table_open s b f Hok Hop) as (s1 & Hs1 & Hrun).
  apply (Hrun v s1); [apply Hf|]. apply evolves_refl, Hs1.
Qed.

Lemma push_entries_run (n : nat) (c : nat) table v s :
  (c + n <= length table)%nat ->
  push_entries n (Z.of_nat c) table v s = Ret (v ++ slice table c n) s.
Proof.
  revert c v. induction n as [|n IH]; intros c v Hc; cbn [push_entries].
  - unfold slice. by rewrite take_0, app_nil_r.
  - destruct (lookup_lt_is_Some_2 table c) as [x Hx]; [lia|]. unfold index. rewrite vget_nat, Hx.
    unfold bind at 1. cbn [ret]. replace (Z.of_nat c + 1) with (Z.of_nat (S c)) by lia. rewrite IH by lia.
    unfold slice. by rewrite (drop_S table x c Hx), <- app_assoc.
Qed.

Lemma clear_direct_run (n : nat) (c : nat) d v s :
  (c + n <= length d)%nat ->
  exists d', clear_direct n (Z.of_nat c) d v s = Ret (d', v ++ slice d c n) s /\ length d' = length d.
Proof.
  revert c d v. induction n as [|n IH]; intros c d v Hc; cbn [clear_direct].
  - exists d. unfold slice. by rewrite take_0, app_nil_r.
  - destruct (lookup_lt_is_Some_2 d c) as [x Hx]; [lia|]. unfold index, index_set. rewrite vget_nat, Hx, vset_nat by lia.
    unfold bind at 1. cbn [ret]. unfold bind at 1. cbn [ret]. replace (Z.of_nat c + 1) with (Z.of_nat (S c)) by lia.
    destruct (IH (S c) (<[c := 0]> d) (v ++ [x])) as (d' & E & Hd'); [rewrite length_insert; lia|].
    exists d'. rewrite E, Hd', length_insert. split; [|done]. unfold slice.
    by rewrite (drop_S d x c Hx), drop_insert_lt, <- app_assoc by lia.
Qed.

Lemma push_tables_run s es v :
  bs_ok s -> (forall e, e ∈ es -> openable s e) ->
  exists s', push_tables push_all es v s = Ret (v ++ (bid <$> lvl2 (bs_view s) es (128 * length es))) s' /\ keeps s s'.
Proof.
  revert s v. induction es as [|e es IH]; intros s v Hok Hop; cbn [push_tables].
  - exists s. cbn [lvl2 fmap list_fmap]. rewrite app_nil_r. split; [done|by apply evolves_refl].
  - destruct (modify_table_pure s e (fun table => let! v := push_all table (v ++ [e]) in ret (v, table))
      ((v ++ [e]) ++ tbl (bs_view s) e) Hok (Hop e ltac:(by left))) as (s1 & E1 & Hk1); [done|].
    rewrite (bind_Ret _ _ _ _ _ E1). destruct (IH s1 ((v ++ [e]) ++ tbl (bs_view s) e)) as (s2 & E2 & Hk2); [apply Hk1|..].
    { intros x Hx. apply (evolves_openable s _ _ _ Hk1), Hop. by right. }
    exists s2. rewrite E2. split; [|by apply (keeps_trans s s1)]. f_equal. cbn [length].
    replace (128 * S (length es))%nat with (S (127 + 128 * length es)) by lia. cbn [lvl2].
    replace (S (127 + 128 * length es) - 128)%nat with (128 * length es)%nat by lia.
    rewrite (take_ge (tbl _ _)) by (rewrite length_tbl; lia). cbn [fmap list_fmap bid]. rewrite fmap_app, bid_Data.
    rewrite (lvl2_ext (bs_view s1) (bs_view s)); [by rewrite <- !app_assoc|].
    intros x Hx%lvl2_idx. apply Hk1, can_in, Hop. by right.
Qed.

(** The blocks behind the second table, in the order of the list. *)
Lemma push_second_run s es (m : nat) v :
  bs_ok s -> length es = 128%nat -> Z.of_nat m <= 16384 ->
  (forall e, e ∈ take ((m + 127) / 128) es -> openable s e) ->
  exists s', (let! v := push_tables push_all (take (Z.to_nat (Z.of_nat m / 128)) es) v in
      if 0 <? Z.of_nat m mod 128
      then push_part (fun table v => ret (v ++ take (Z.to_nat (Z.of_nat m mod 128)) table)) es (Z.of_nat m / 128) v
      else ret v) s = Ret (v ++ (bid <$> lvl2 (bs_view s) es m)) s' /\ keeps s s'.
Proof.
  intros Hok Hlen Hm Hop. set (q := (m / 128)%nat). set (r := (m mod 128)%nat).
  replace (Z.to_nat (Z.of_nat m / 128)) with q by (unfold q; dlia). replace (Z.of_nat m / 128) with (Z.of_nat q) by (unfold q; dlia).
  replace (Z.of_nat m mod 128) with (Z.of_nat r) by (unfold r; dlia). rewrite Nat2Z.id.
  assert (Hq : (q <= 128)%nat) by (unfold q; dlia). assert (Hr128 : (r < 128)%nat) by (unfold r; dlia).
  assert (Hlq : length (take q es) = q) by (rewrite length_take; lia).
  destruct (push_tables_run s (take q es) v Hok) as (s1 & E1 & Hk1).
  { intros e He. apply Hop. replace q with (q `min` ((m + 127) / 128))%nat in He by (unfold q; dlia).
    rewrite <- take_take in He. eapply elem_of_take in He as (i & Hi & _). by eapply list_elem_of_lookup_2. }
  rewrite (bind_Ret _ _ _ _ _ E1). rewrite Hlq in *. rewrite (lvl2_split (bs_view s) es q m) by (unfold q; dlia).
  replace (m - 128 * q)%nat with r by (unfold q, r; dlia). rewrite fmap_app.
  destruct (Z.ltb_spec 0 (Z.of_nat r)) as [Hr|Hr]; cycle 1.
  { replace r with 0%nat by lia. rewrite lvl2_0, app_nil_r. by exists s1. }
  destruct (lookup_lt_is_Some_2 es q) as [e He]; [unfold q, r in *; dlia|].
  unfold push_part, index. rewrite vget_nat, He. unfold bind at 1. cbn [ret].
  assert (Hoe : openable s e).
  { apply Hop. replace ((m + 127) / 128)%nat with (S q) by (unfold q, r in *; dlia). rewrite (take_S_r _ _ _ He).
    apply elem_of_app. right. by left. }
  set (v1 := v ++ _). destruct (modify_table_pure s1 e (fun table =>
    let! v := ret ((v1 ++ [e]) ++ take r table) in ret (v, table)) ((v1 ++ [e]) ++ take r (tbl (bs_view s1) e)) (ev_ok _ _ _ Hk1)
    (evolves_openable _ _ _ _ Hk1 Hoe)) as (s2 & E2 & Hk2); [done|].
  exists s2. split; [|by apply (keeps_trans s s1)]. unfold bind at 1 in E2. unfold bind at 1. cbn [ret] in E2 |- *. rewrite E2. f_equal.
  rewrite (drop_S es e q He). destruct r as [|r']; [lia|]. cbn [lvl2]. replace (S r' - 128)%nat with 0%nat by lia.
  rewrite lvl2_0, app_nil_r. cbn [fmap list_fmap bid]. rewrite bid_Data. unfold tbl. rewrite (ev_view _ _ _ Hk1) by apply Hoe.
  unfold v1. by rewrite <- !app_assoc.
Qed.

(** An inode whose blocks are distinct blocks of the store that can be opened. *)
Record inode_ok s ino : Prop := {
  io_size : 0 <= size ino <= MAX_SIZE;
  io_pre : inode_pre s ino (nblocks ino) [];
}.

Lemma io_open s ino x : inode_ok s ino -> x ∈ inode_list (bs_view s) ino (nblocks ino) -> openable s (bid x).
Proof.
  intros [_ Hp] Hx. apply (ip_open _ _ _ _ Hp), elem_of_app. left. apply list_elem_of_fmap. by exists x.
Qed.

(** The blocks of an inode are what they were as long as its index blocks are. *)
Lemma steps_pre s s1 ino n src :
  inode_pre s ino n src -> steps s s1 -> (forall e, Idx e ∈ inode_list (bs_view s) ino n -> bs_view s1 e = bs_view s e) ->
  inode_pre s1 ino n src /\ inode_list (bs_view s1) ino n = inode_list (bs_view s) ino n.
Proof.
  intros Hp Hk HF. assert (El : inode_list (bs_view s1) ino n = inode_list (bs_view s) ino n) by (by apply inode_list_view).
  split; [|exact El]. destruct Hp as [Hok Hsm Hd Hmax Hnd Hop Hroom].
  split; [apply Hk| |exact Hd|exact Hmax|rewrite El; exact Hnd|rewrite El|by rewrite (ev_held _ _ _ Hk)].
  - unfold small_store in *. by rewrite (ev_blocks _ _ _ Hk).
  - intros b Hb. apply (evolves_openable s _ _ _ Hk), Hop, Hb.
Qed.

Lemma keeps_pre s s1 ino n src :
  inode_pre s ino n src -> keeps s s1 ->
  inode_pre s1 ino n src /\ inode_list (bs_view s1) ino n = inode_list (bs_view s) ino n.
Proof.
  intros Hp Hk. apply steps_pre; [exact Hp|by eapply evolves_steps|]. intros e He. by apply Hk, (idx_openable s ino n src).
Qed.

Lemma clear_second s ino (n : nat) v :
  inode_pre s ino n [] -> (155 < n)%nat ->
  exists s', modify_in IndirectBlock (indirect2 ino) 0 (fun indirect2 =>
      let! v := push_tables push_all (take (Z.to_nat (Z.of_nat (n - 155) / 128)) indirect2) v in
      let! v := if 0 <? Z.of_nat (n - 155) mod 128
                then push_part (fun table v => ret (v ++ take (Z.to_nat (Z.of_nat (n - 155) mod 128)) table)) indirect2
                       (Z.of_nat (n - 155) / 128) v
                else ret v in
      ret (v, indirect2)) s =
    Ret (v ++ (bid <$> lvl2 (bs_view s) (tbl (bs_view s) (indirect2 ino)) (n - 155))) s' /\ keeps s s'.
Proof.
  intros Hp Hn. pose proof Hp as [Hok Hsm Hd Hmax Hnd Hopen Hroom]. rewrite app_nil_r in Hnd, Hopen.
  rewrite inode_list_big in Hnd, Hopen by (assumption || lia). rewrite fmap_app in Hnd, Hopen.
  cbn [fmap list_fmap bid] in Hnd, Hopen. set (es := tbl (bs_view s) (indirect2 ino)) in *.
  assert (Hop2 : openable s (indirect2 ino)) by (apply Hopen, elem_of_app; right; by left).
  apply NoDup_app in Hnd as (_ & _ & [Hi2 _]%NoDup_cons).
  match goal with |- context [modify_in _ _ _ ?g] => set (f := g) end.
  destruct (modify_table_open s (indirect2 ino) f Hok Hop2) as (s1 & Hs1 & Hrun). fold es in Hrun.
  assert (Hlen : length es = 128%nat) by apply length_tbl.
  assert (Hidx : forall e, e ∈ take ((n - 155 + 127) / 128) es -> openable s e /\ e <> indirect2 ino).
  { intros e He. rewrite <- (lvl2_idxs (bs_view s)) in He by (rewrite Hlen; lia). apply idxs_bid in He. split.
    - apply Hopen, elem_of_app. right. by right.
    - intros ->. exact (Hi2 He). }
  destruct (push_second_run s1 es (n - 155) v (op_ok _ _ _ Hs1) Hlen ltac:(lia)) as (s2 & E2 & Hk2).
  { intros e He. destruct (Hidx e He) as [H1 H2]. apply (opened_openable s (indirect2 ino)); assumption. }
  assert (El : lvl2 (bs_view s1) es (n - 155) = lvl2 (bs_view s) es (n - 155)).
  { apply lvl2_ext. intros e He. apply elem_of_idxs in He. rewrite lvl2_idxs in He by (rewrite Hlen; lia).
    apply Hs1, (can_in _ _ (proj1 (Hidx e He))). }
  rewrite El in E2. apply (Hrun _ s2); [|exact Hk2]. unfold f. unfold bind at 1 in E2. unfold bind at 1.
  destruct (push_tables push_all _ v s1) as [v1 s1'|]; [|discriminate E2]. by rewrite (bind_Ret _ _ _ _ _ E2).
Qed.

Lemma clear_size_run s ino :
  inode_ok s ino ->
  exists ino' s', clear_size ino s = Ret (bid <$> inode_list (bs_view s) ino (nblocks ino), ino') s' /\
    size ino' = 0 /\ type_ ino' = type_ ino /\ length (direct ino') = 27%nat /\ keeps s s'.
Proof.
  intros Hio. pose proof Hio as [Hsz Hp]. pose proof Hp as [Hok _ Hd Hmax _ _ _].
  destruct (data_blocks_nat (size ino) Hsz) as [En Hn16]. fold (data_blocks ino) in En. fold (nblocks ino) in En.
  set (n := nblocks ino) in *.
  unfold clear_size. cbv zeta. rewrite En. change INODE_DIRECT_COUNT with 27. cbn [direct set_size].
  replace (Z.to_nat (Z.min (Z.of_nat n) 27)) with (Nat.min n 27) by lia.
  destruct (clear_direct_run (Nat.min n 27) 0 (direct ino) [] s ltac:(lia)) as (d' & E & Hd').
  change (Z.of_nat 0) with 0 in E. rewrite (bind_Ret _ _ _ _ _ E). clear E. cbn [app]. unfold slice. rewrite drop_0.
  destruct (Z.ltb_spec 27 (Z.of_nat n)) as [H27|H27]; cycle 1.
  { exists (set_direct d' (set_size 0 ino)), s. split; [|cbn; split_and!; [done|done|congruence|by apply evolves_refl]]. unfold ret. f_equal. f_equal.
    unfold inode_list. rewrite (proj2 (Nat.ltb_ge 27 n)), app_nil_r, bid_Data by lia. f_equal. lia. }
  assert (Hop1 : openable s (indirect1 ino)).
  { apply (io_open s ino (Idx (indirect1 ino)) Hio). unfold inode_list. fold n. rewrite (proj2 (Nat.ltb_lt 27 n)) by lia.
    apply elem_of_app. right. by left. }
  change INODE_INDIRECT1_COUNT with 128. cbn [indirect1 set_size set_direct].
  set (v0 := take _ _ ++ _). set (t1 := tbl (bs_view s) (indirect1 ino)).
  destruct (modify_table_pure s (indirect1 ino) (fun table =>
    let! v := push_entries (Z.to_nat (Z.min (Z.of_nat n - 27) 128)) 0 table v0 in ret (v, table))
    (v0 ++ take (n - 27) t1) Hok Hop1) as (s1 & E1 & Hk1).
  { intros s1. fold t1. unfold bind. pose proof (push_entries_run (Nat.min (n - 27) 128) 0 t1 v0 s1) as HP.
    assert (Ht : length t1 = 128%nat) by apply length_tbl. rewrite Ht in HP.
    replace (Z.to_nat (Z.min (Z.of_nat n - 27) 128)) with (Nat.min (n - 27) 128) by lia.
    change (Z.of_nat 0) with 0 in HP. rewrite HP by lia. unfold ret, slice. rewrite drop_0. do 2 f_equal. f_equal.
    rewrite <- Ht, <- take_take, firstn_all. done. }
  rewrite (bind_Ret _ _ _ _ _ E1). clear E1. cbn [set_indirect1 indirect2].
  assert (Hv0 : v0 ++ take (n - 27) t1 = bid <$> inode_list (bs_view s) ino (Nat.min n 155)).
  { rewrite inode_list_mid by (assumption || lia). fold t1. rewrite fmap_app. cbn [fmap list_fmap bid]. rewrite !bid_Data. unfold v0.
    rewrite <- app_assoc. cbn [app]. f_equal; [apply take_ge; lia|]. f_equal.
    assert (Ht : length t1 = 128%nat) by apply length_tbl.
    destruct (Nat.le_ge_cases n 155); [f_equal; lia|]. rewrite !take_ge by lia. done. }
  rewrite Hv0. clear Hv0 v0. destruct (Z.ltb_spec 128 (Z.of_nat n - 27)) as [H155|H155]; cycle 1.
  { exists (set_indirect1 0 (set_direct d' (set_size 0 ino))), s1. split; [|cbn; split_and!; [done|done|congruence|done]].
    rewrite (Nat.min_l n 155) by lia. reflexivity. }
  rewrite (Nat.min_r n 155), inode_list_155 by (assumption || lia).
  change INODE_INDIRECT2_COUNT with 16384. change INODE_INDIRECT3_COUNT with 2097152.
  replace (Z.of_nat n - 27 - 128) with (Z.of_nat (n - 155)) by lia. rewrite bind_assert by (apply Z.leb_le; lia).
  destruct (keeps_pre s s1 ino n [] Hp Hk1) as [Hp1 El].
  match goal with |- context [?w ++ [?x]] => set (v1 := w ++ [x]) end.
  destruct (clear_second s1 ino n v1 Hp1 ltac:(lia)) as (s2 & E2 & Hk2).
  cbn [indirect2 set_size set_direct set_indirect1 set_indirect2]. rewrite (bind_Ret _ _ _ _ _ E2). clear E2.
  rewrite bind_assert by (apply Z.leb_le; lia). rewrite (proj2 (Z.ltb_ge 16384 _)) by lia.
  exists (set_indirect2 0 (set_indirect1 0 (set_direct d' (set_size 0 ino)))), s2.
  split; [|cbn; split_and!; [done|done|congruence|by apply (keeps_trans s s1)]].
  rewrite <- El, inode_list_big by (assumption || lia). unfold ret, v1. rewrite <- app_assoc, fmap_app.
  unfold head_list, t1, tbl. rewrite (ev_view _ _ _ Hk1 (indirect1 ino) (can_in _ _ Hop1)). reflexivity.
Qed.

Lemma length_blocks s ino : inode_ok s ino ->
  Z.of_nat (length (inode_list (bs_view s) ino (nblocks ino))) = total_blocks (size ino).
Proof. intros [Hsz Hp]. rewrite length_inode_list by apply Hp. symmetry. by apply total_blocks_cnt. Qed.

(** Clearing an inode returns each of its data and index blocks exactly once, in the order in
    which growth took them, total_blocks of them, leaves size 0 and changes no block. *)
Theorem clear_size_returns s ino :
  inode_ok s ino ->
  exists ino' s', clear_size ino s = Ret (bid <$> inode_list (bs_view s) ino (nblocks ino), ino') s' /\
    Z.of_nat (length (inode_list (bs_view s) ino (nblocks ino))) = total_blocks (size ino) /\
    size ino' = 0 /\ type_ ino' = type_ ino /\ length (direct ino') = 27%nat /\
    bs_ok s' /\ bs_held s' = bs_held s /\ forall b, 0 <= b < bs_blocks s -> bs_view s' b = bs_view s b.
Proof.
  intros Hio. destruct (clear_size_run s ino Hio) as (ino' & s' & E & H1 & H2 & H3 & Hk). exists ino', s'.
  split_and!; try assumption; try apply Hk. exact (length_blocks s ino Hio).
Qed.
End clear.

(** ** An inode on an image *)

(** 600 bytes in blocks 3 and 4; the next block to come is 5. *)
Definition demo_inode : DiskInode :=
  {| size := 600; direct := [3; 4] ++ replicate 25 0; indirect1 := 0; indirect2 := 0; indirect3 := 0; type_ := File |}.

Lemma demo_inode_pre src :
  NoDup (3 :: 4 :: src) -> Forall (fun b => 0 <= b < 20) src -> inode_pre demo_store demo_inode (nblocks demo_inode) src.
Proof.
  intros Hnd Hsrc. assert (El : bid <$> inode_list (bs_view demo_store) demo_inode (nblocks demo_inode) = [3; 4]) by reflexivity.
  split; [exact demo_store_ok| |reflexivity|vm_compute; congruence|rewrite El; exact Hnd|rewrite El|].
  - unfold small_store. rewrite demo_store_blocks. lia.
  - intros b Hb. split; [|apply not_elem_of_nil|cbn; unfold BLOCK_CACHE_SIZE; lia]. unfold blk_in. rewrite demo_store_blocks.
    rewrite Forall_forall in Hsrc. cbn [app] in Hb. apply elem_of_cons in Hb as [->|Hb]; [lia|].
    apply elem_of_cons in Hb as [->|Hb]; [lia|]. by apply Hsrc.
  - cbn. unfold BLOCK_CACHE_SIZE. lia.
Qed.

Lemma demo_inode_ok : inode_ok demo_store demo_inode.
Proof.
  split; [vm_compute; split; congruence|]. apply demo_inode_pre; [|constructor].
  apply (bool_decide_unpack _). vm_compute. exact I.
Qed.

Lemma increase_size_appends_witness :
  exists ino' s' tl, increase_size demo_inode 1025 [5] demo_store = Ret ino' s' /\ size ino' = 1025 /\ bid <$> tl = [5].
Proof.
  destruct (increase_size_appends demo_store demo_inode 1025 [5]) as (ino' & s' & tl & E & Hz & _ & _ & _ & _ & _ & Htl & _).
  - apply demo_inode_pre; [|repeat constructor; lia].
    apply (bool_decide_unpack _). vm_compute. exact I.
  - cbn. lia.
  - vm_compute. congruence.
  - reflexivity.
  - exists ino', s', tl. split; [exact E|]. split; [exact Hz|exact Htl].
Defined.

Lemma clear_size_returns_witness :
  exists ino' s', clear_size demo_inode demo_store = Ret ([3; 4], ino') s' /\ size ino' = 0.
Proof.
  destruct (clear_size_returns demo_store demo_inode demo_inode_ok) as (ino' & s' & E & _ & Hz & _).
  exists ino', s'. split; [exact E|exact Hz].
Defined.
