(* ===== verification/FileData.v ===== *)
(** The contents of a file: [DiskInode::block_id], [read_at] and [write_at] of
    [components/src/micro_fs/layout.rs] as operations on one byte string. *)
From Stdlib Require Import ZifyNat.
From S2P Require Import Prelude BlockCache DiskWords Bitmap Layout InodeBlocks InodeData.

(** The data blocks in file order, their bytes, and the bytes of the file. *)
Definition data_ids (F : Z -> list Z) (ino : DiskInode) : list Z := datas (inode_list F ino (nblocks ino)).
Definition raw (F : Z -> list Z) (ino : DiskInode) : list Z := mjoin (F <$> data_ids F ino).
Definition contents (F : Z -> list Z) (ino : DiskInode) : list Z := take (Z.to_nat (size ino)) (raw F ino).

(** ** Data blocks of the block list *)

Lemma datas_app l k : datas (l ++ k) = datas l ++ datas k.
Proof. apply omap_app. Qed.
Lemma datas_Data l : datas (Data <$> l) = l.
Proof. unfold datas. induction l as [|x l IH]; [reflexivity|]. cbn. by rewrite IH. Qed.
Lemma datas_Idx b l : datas (Idx b :: l) = datas l.
Proof. reflexivity. Qed.
Lemma elem_of_datas b l : b ∈ datas l <-> Data b ∈ l.
Proof.
  unfold datas. rewrite list_elem_of_omap. split.
  - intros ([x|x] & Hx & [= <-]). exact Hx.
  - intros H. by exists (Data b).
Qed.
Lemma datas_bid b l : b ∈ datas l -> b ∈ bid <$> l.
Proof. intros Hb%elem_of_datas. apply list_elem_of_fmap. by exists (Data b). Qed.
Lemma datas_sublist l : sublist (datas l) (bid <$> l).
Proof. unfold datas. induction l as [|[b|b] l IH]; cbn; by constructor. Qed.

Lemma idxs_datas_disjoint b l : NoDup (bid <$> l) -> b ∈ idxs l -> b ∉ datas l.
Proof.
  induction l as [|x l IH]; [intros _ H; by apply elem_of_nil in H|]. cbn [fmap list_fmap].
  intros [Hx Hnd]%NoDup_cons Hi Hd. destruct x as [e|e]; cbn in Hi, Hd, Hx.
  - apply elem_of_cons in Hi as [->|Hi]; [by apply Hx, datas_bid|]. by apply IH.
  - apply elem_of_cons in Hd as [->|Hd]; [by apply Hx, idxs_bid|]. by apply IH.
Qed.

Lemma datas_lvl2 F es (m j : nat) :
  (j < m)%nat -> (m <= 128 * length es)%nat ->
  datas (lvl2 F es m) !! j = es !! (j / 128)%nat ≫= fun e => tbl F e !! (j mod 128)%nat.
Proof.
  revert m j. induction es as [|e es IH]; intros m j Hj Hm; [cbn in Hm; lia|].
  destruct m as [|m]; [lia|]. cbn [lvl2]. rewrite datas_Idx, datas_app, datas_Data. cbn [length] in Hm.
  destruct (Nat.lt_ge_cases j 128) as [Hlt|Hge].
  - replace (j / 128)%nat with 0%nat by dlia. replace (j mod 128)%nat with j by dlia.
    change ((e :: es) !! 0%nat) with (Some e). cbn [mbind option_bind].
    rewrite lookup_app_l by (rewrite length_take, length_tbl; lia). by rewrite lookup_take_lt.
  - rewrite lookup_app_r by (rewrite length_take, length_tbl; lia). rewrite length_take, length_tbl.
    replace (S m `min` 128)%nat with 128%nat by lia. rewrite IH by lia.
    replace (j / 128)%nat with (S ((j - 128) / 128)) by dlia. replace (j mod 128)%nat with ((j - 128) mod 128)%nat by dlia. done.
Qed.

Lemma length_datas_lvl2 F es (m : nat) : (m <= 128 * length es)%nat -> length (datas (lvl2 F es m)) = m.
Proof.
  revert m. induction es as [|e es IH]; intros m Hm; [cbn in Hm; by replace m with 0%nat by lia|].
  destruct m as [|m]; [reflexivity|]. cbn [lvl2 length] in Hm |- *.
  rewrite datas_Idx, datas_app, datas_Data, length_app, length_take, length_tbl, IH by lia. lia.
Qed.

Lemma length_data_ids F ino (n : nat) :
  length (direct ino) = 27%nat -> Z.of_nat n <= 16539 -> length (datas (inode_list F ino n)) = n.
Proof.
  intros Hd Hn. unfold inode_list. rewrite datas_app, datas_Data, length_app, length_take, Hd.
  destruct (Nat.ltb_spec 27 n); [|cbn; lia].
  rewrite datas_Idx, datas_app, datas_Data, length_app, length_take, length_tbl.
  destruct (Nat.ltb_spec 155 n); [|cbn; lia]. rewrite datas_Idx, length_datas_lvl2 by (rewrite length_tbl; lia). lia.
Qed.

Section block_id.
Context {St : Type} `{SL : BlockStoreLaws St}.
Implicit Types (s : St) (ino : DiskInode).

Abbreviation keeps s s' := (evolves s (bs_view s) s').

Lemma read_entry s b (i : nat) x :
  bs_ok s -> openable s b -> tbl (bs_view s) b !! i = Some x ->
  exists s', read_in IndirectBlock b 0 (fun t => index t (Z.of_nat i)) s = Ret x s' /\ keeps s s'.
Proof.
  intros Hok Hop Hx. apply (read_words_pure 4 128 eq_refl); [exact Hok|exact Hop|]. intros s1.
  fold (tbl (bs_view s) b). unfold index. by rewrite vget_nat, Hx.
Qed.

(** [block_id] finds the data block at each position of the file. *)
Lemma block_id_run s ino (i : nat) :
  inode_ok s ino -> (i < nblocks ino)%nat ->
  exists b s', block_id ino (Z.of_nat i) s = Ret b s' /\ keeps s s' /\ data_ids (bs_view s) ino !! i = Some b.
Proof.
  intros Hio Hi. pose proof Hio as [Hsz Hp]. pose proof Hp as [Hok _ Hd Hmax _ _ _]. unfold data_ids. set (n := nblocks ino) in *.
  unfold block_id. change INODE_DIRECT_COUNT with 27. change INDIRECT1_BOUND with 155.
  change INDIRECT2_BOUND with 16539. change INODE_INDIRECT1_COUNT with 128.
  assert (Hidx : forall e, Idx e ∈ inode_list (bs_view s) ino n -> openable s e).
  { intros e He. exact (io_open s ino (Idx e) Hio He). }
  destruct (Z.ltb_spec (Z.of_nat i) 27) as [H27|H27].
  { destruct (lookup_lt_is_Some_2 (direct ino) i) as [b Hb]; [lia|]. exists b, s.
    unfold index. rewrite vget_nat, Hb. split; [reflexivity|]. split; [by apply evolves_refl|].
    unfold inode_list. rewrite datas_app, datas_Data, lookup_app_l by (rewrite length_take; lia).
    by rewrite lookup_take_lt. }
  assert (Ei : forall j, (27 <= j < n)%nat -> datas (inode_list (bs_view s) ino n) !! j =
    if (j <? 155)%nat then tbl (bs_view s) (indirect1 ino) !! (j - 27)%nat
    else datas (lvl2 (bs_view s) (tbl (bs_view s) (indirect2 ino)) (n - 155)) !! (j - 155)%nat).
  { intros j Hj. unfold inode_list. rewrite (proj2 (Nat.ltb_lt 27 n)) by lia.
    rewrite datas_app, datas_Data, lookup_app_r, length_take by (rewrite length_take; lia). rewrite Nat.min_r, Hd by lia.
    rewrite datas_Idx, datas_app, datas_Data. destruct (Nat.ltb_spec j 155).
    - rewrite lookup_app_l, lookup_take_lt by (rewrite ?length_take, ?length_tbl; lia). done.
    - rewrite (proj2 (Nat.ltb_lt 155 n)) by lia.
      rewrite lookup_app_r, length_take, length_tbl by (rewrite length_take, length_tbl; lia).
      rewrite datas_Idx. f_equal. lia. }
  destruct (Z.ltb_spec (Z.of_nat i) 155) as [H155|H155].
  { destruct (lookup_lt_is_Some_2 (tbl (bs_view s) (indirect1 ino)) (i - 27)) as [b Hb]; [rewrite length_tbl; lia|].
    destruct (read_entry s (indirect1 ino) (i - 27) b Hok) as (s' & E & Hk); [|exact Hb|].
    { apply Hidx. unfold inode_list. rewrite (proj2 (Nat.ltb_lt 27 n)) by lia. apply elem_of_app. right. by left. }
    replace (Z.of_nat i - 27) with (Z.of_nat (i - 27)) by lia. exists b, s'. split; [exact E|]. split; [exact Hk|].
    rewrite Ei by lia. rewrite (proj2 (Nat.ltb_lt i 155)) by lia. exact Hb. }
  rewrite (proj2 (Z.ltb_lt _ 16539)) by lia. set (es := tbl (bs_view s) (indirect2 ino)) in *.
  assert (Hes : length es = 128%nat) by apply length_tbl. set (j := (i - 155)%nat).
  destruct (lookup_lt_is_Some_2 es (j / 128)) as [e He]; [unfold j; dlia|].
  destruct (lookup_lt_is_Some_2 (tbl (bs_view s) e) (j mod 128)) as [b Hb]; [rewrite length_tbl; dlia|].
  replace (Z.of_nat i - 155) with (Z.of_nat j) by (unfold j; lia). cbv zeta.
  replace (Z.of_nat j / 128) with (Z.of_nat (j / 128)) by dlia. replace (Z.of_nat j mod 128) with (Z.of_nat (j mod 128)) by dlia.
  assert (Hbig := inode_list_big (bs_view s) ino n Hd ltac:(lia)). fold es in Hbig. rewrite Hbig in Hidx.
  destruct (read_entry s (indirect2 ino) (j / 128) e Hok) as (s1 & E1 & Hk1); [|exact He|].
  { apply Hidx, elem_of_app. right. by left. }
  rewrite (bind_Ret _ _ _ _ _ E1).
  assert (Hoe : openable s e).
  { apply Hidx, elem_of_app. right. right. apply elem_of_idxs. rewrite lvl2_idxs by (rewrite Hes; lia).
    apply list_elem_of_lookup_2 with (j / 128)%nat. rewrite lookup_take_lt; [exact He|]. unfold j in *. dlia. }
  destruct (read_entry s1 e (j mod 128) b (ev_ok _ _ _ Hk1)) as (s2 & E2 & Hk2).
  { exact (evolves_openable _ _ _ _ Hk1 Hoe). }
  { unfold tbl. rewrite (ev_view _ _ _ Hk1) by apply Hoe. exact Hb. }
  exists b, s2. split; [exact E2|]. split; [by apply (keeps_trans s s1)|].
  rewrite Ei, (proj2 (Nat.ltb_ge i 155)) by lia. fold j. rewrite datas_lvl2 by (unfold j; rewrite ?Hes; lia).
  rewrite He. cbn [mbind option_bind]. exact Hb.
Qed.
End block_id.

(** ** Strings of equal blocks *)

Section pieces.
Context {A : Type} (B : nat).
Implicit Types (l d : list A) (ls : list (list A)).

Lemma slice_mid (a b c : list A) (r k : nat) : (r + k <= length b)%nat -> slice (a ++ b ++ c) (length a + r) k = slice b r k.
Proof.
  intros Hk. unfold slice. rewrite <- drop_drop, drop_app_length, drop_app_le, take_app_le by (rewrite ?length_drop; lia). done.
Qed.

Lemma splice_mid (a b c d : list A) (r : nat) :
  (r + length d <= length b)%nat -> splice (a ++ b ++ c) (length a + r) d = a ++ splice b r d ++ c.
Proof.
  intros Hk. unfold splice. rewrite take_app_add, take_app_le, <- !app_assoc by lia. do 3 f_equal.
  by rewrite <- Nat.add_assoc, <- drop_drop, drop_app_length, drop_app_le by lia.
Qed.

Lemma length_join ls : Forall (fun b => length b = B) ls -> length (mjoin ls) = (length ls * B)%nat.
Proof.
  induction 1 as [|b ls Hb _ IH]; [done|]. cbn [length]. change (mjoin (b :: ls)) with (b ++ mjoin ls).
  rewrite length_app, Hb, IH. lia.
Qed.

Lemma join_app ls ks : mjoin (ls ++ ks) = mjoin ls ++ mjoin ks.
Proof. induction ls as [|b ls IH]; [done|]. change (b ++ mjoin (ls ++ ks) = (b ++ mjoin ls) ++ mjoin ks). by rewrite IH, app_assoc. Qed.

Lemma join_split ls (q : nat) b :
  Forall (fun b => length b = B) ls -> ls !! q = Some b ->
  mjoin ls = mjoin (take q ls) ++ b ++ mjoin (drop (S q) ls) /\ length (mjoin (take q ls)) = (q * B)%nat.
Proof.
  intros Hls Hb. split.
  - rewrite <- (take_drop_middle ls q b Hb) at 1. by rewrite join_app.
  - rewrite length_join by (by apply Forall_take). rewrite length_take. apply lookup_lt_Some in Hb. f_equal. lia.
Qed.

Lemma slice_join ls (q r k : nat) b :
  Forall (fun b => length b = B) ls -> ls !! q = Some b -> (r + k <= B)%nat ->
  slice (mjoin ls) (q * B + r) k = slice b r k.
Proof.
  intros Hls Hb Hk. destruct (join_split ls q b Hls Hb) as [E L]. rewrite E, <- L. apply slice_mid.
  rewrite (Forall_lookup_1 _ _ _ _ Hls Hb). done.
Qed.

Lemma splice_join ls (q r : nat) b d :
  Forall (fun b => length b = B) ls -> ls !! q = Some b -> (r + length d <= B)%nat ->
  splice (mjoin ls) (q * B + r) d = mjoin (<[q := splice b r d]> ls).
Proof.
  intros Hls Hb Hk. destruct (join_split ls q b Hls Hb) as [E L]. rewrite E, <- L, splice_mid.
  - rewrite insert_take_drop by (by eapply lookup_lt_Some). rewrite join_app. done.
  - rewrite (Forall_lookup_1 _ _ _ _ Hls Hb). done.
Qed.

(** Consecutive pieces. *)
Lemma slice_add l (lo a b : nat) : slice l lo (a + b) = slice l lo a ++ slice l (lo + a) b.
Proof.
  unfold slice. rewrite <- drop_drop. set (k := drop lo l). rewrite <- (take_drop a (take (a + b) k)).
  by rewrite take_take, Nat.min_l, <- take_drop_commute by lia.
Qed.

Lemma splice_splice l (lo : nat) d e :
  (lo + length d + length e <= length l)%nat -> splice (splice l lo d) (lo + length d) e = splice l lo (d ++ e).
Proof.
  intros Hl. apply list_eq. intros i. assert (Hd : length (splice l lo d) = length l) by (apply length_splice; lia).
  destruct (decide (i < lo)%nat); [by rewrite !lookup_splice_out by (rewrite ?length_app; lia)|].
  destruct (decide (lo + length d + length e <= i)%nat); [by rewrite !lookup_splice_out by (rewrite ?length_app; lia)|].
  rewrite (lookup_splice_in l lo (d ++ e)) by (rewrite ?length_app; lia).
  destruct (decide (i < lo + length d)%nat).
  - rewrite lookup_splice_out, lookup_splice_in by lia. by rewrite lookup_app_l by lia.
  - rewrite lookup_splice_in by lia. rewrite lookup_app_r by lia. f_equal. lia.
Qed.

Lemma take_splice_le l d (lo m : nat) :
  (lo + length d <= m)%nat -> take m (splice l lo d) = splice (take m l) lo d.
Proof.
  intros Hm. destruct (Nat.le_ge_cases m (length l)) as [Hl|Hl]; cycle 1.
  { rewrite (take_ge l m) by lia. apply take_ge. unfold splice. rewrite !length_app, length_take, length_drop. lia. }
  unfold splice. rewrite take_take, Nat.min_l, !take_app, length_take by lia.
  replace (m - lo `min` length l)%nat with (m - lo)%nat by lia. rewrite (take_ge (take lo l)) by (rewrite length_take; lia).
  f_equal. rewrite (take_ge d) by lia. f_equal. rewrite skipn_firstn_comm. f_equal. lia.
Qed.

Lemma slice_prefix l (o k m : nat) :
  let got := take k (drop o (take m l)) in slice l o (length got) = got.
Proof.
  intros got. assert (Hg : got = take (k `min` (m - o)) (drop o l)) by (unfold got; by rewrite skipn_firstn_comm, take_take).
  clearbody got. subst got. unfold slice. rewrite length_take, <- take_take. f_equal. by apply take_ge.
Qed.
End pieces.

(** ** Reading *)

Section data.
Context {St : Type} `{SL : BlockStoreLaws St}.
Implicit Types (s : St) (ino : DiskInode).

Abbreviation keeps s s' := (evolves s (bs_view s) s').

Lemma data_open s ino b : inode_ok s ino -> b ∈ data_ids (bs_view s) ino -> openable s b.
Proof. intros Hio Hb. apply (io_open s ino (Data b) Hio). by apply elem_of_datas. Qed.

Lemma data_blocks_len s ino : inode_ok s ino -> Forall (fun b => length b = block_size) (bs_view s <$> data_ids (bs_view s) ino).
Proof.
  intros Hio. apply Forall_fmap, Forall_forall. intros b Hb. apply (bs_view_ok s b).
  - apply Hio.
  - by apply (data_open s ino b).
Qed.

Lemma inode_ok_ids s ino : inode_ok s ino -> length (data_ids (bs_view s) ino) = nblocks ino.
Proof. intros [_ Hp]. apply length_data_ids; apply Hp. Qed.

Lemma length_raw s ino : inode_ok s ino -> length (raw (bs_view s) ino) = (nblocks ino * block_size)%nat.
Proof.
  intros Hio. unfold raw. rewrite (length_join block_size) by (by apply data_blocks_len).
  by rewrite length_fmap, inode_ok_ids.
Qed.

Lemma size_nblocks ino : 0 <= size ino <= MAX_SIZE ->
  (Z.to_nat (size ino) <= nblocks ino * block_size)%nat /\ Z.of_nat (nblocks ino) <= 16539.
Proof.
  intros Hz. destruct (data_blocks_nat (size ino) Hz) as [E Hr]. fold (data_blocks ino) in E, Hr. fold (nblocks ino) in E.
  split; [|lia]. unfold data_blocks, _data_blocks, BLOCK_SZ in *. unfold MAX_SIZE in Hz. change INDIRECT2_BOUND with 16539 in Hz.
  unfold BLOCK_SZ in Hz. rewrite u32_small in E by lia. unfold block_size. Z.to_euclidean_division_equations; lia.
Qed.

Lemma keeps_ok s s' ino :
  inode_ok s ino -> keeps s s' ->
  inode_ok s' ino /\ data_ids (bs_view s') ino = data_ids (bs_view s) ino /\ raw (bs_view s') ino = raw (bs_view s) ino.
Proof.
  intros Hio Hk. destruct (keeps_pre s s' ino _ _ (io_pre _ _ Hio) Hk) as [Hp El].
  assert (Ed : data_ids (bs_view s') ino = data_ids (bs_view s) ino) by (unfold data_ids; by rewrite El).
  split; [|split; [exact Ed|]].
  - split; [apply Hio|exact Hp].
  - unfold raw. rewrite Ed. f_equal. apply list_fmap_ext. intros i b Hb. apply Hk.
    apply can_in, (data_open s ino b Hio). by apply list_elem_of_lookup_2 with i.
Qed.

(** One turn's block: where byte [start] of the file lives. *)
Lemma turn_block s ino (start e : nat) :
  inode_ok s ino -> (start < e)%nat -> (e <= nblocks ino * block_size)%nat ->
  let q := (start / block_size)%nat in
  exists b s', block_id ino (u32 (Z.of_nat start / BLOCK_SZ)) s = Ret b s' /\ keeps s s' /\
    data_ids (bs_view s) ino !! q = Some b /\ openable s b.
Proof.
  intros Hio Hlt Hle q. destruct (size_nblocks ino (io_size _ _ Hio)) as [_ Hn].
  destruct (block_id_run s ino q Hio) as (b & s' & E & Hk & Hb); [unfold q, block_size in *; dlia|].
  exists b, s'. split; [|split; [exact Hk|split; [exact Hb|]]].
  - rewrite u32_small by (unfold BLOCK_SZ, block_size in *; dlia).
    replace (Z.of_nat start / BLOCK_SZ) with (Z.of_nat q) by (unfold q, block_size, BLOCK_SZ; dlia). exact E.
  - apply (data_open s ino b Hio). by apply list_elem_of_lookup_2 with q.
Qed.

(** The bounds of one turn: from byte [start], byte [r] of block [q], to byte [c]. *)
Record turn (start e q r c k : nat) : Prop := {
  tn_min : Z.min ((Z.of_nat start / BLOCK_SZ + 1) * BLOCK_SZ) (Z.of_nat e) = Z.of_nat c;
  tn_mod : Z.of_nat start mod BLOCK_SZ = Z.of_nat r;
  tn_len : Z.of_nat c - Z.of_nat start = Z.of_nat k;
  tn_start : start = (q * block_size + r)%nat;
  tn_c : c = (start + k)%nat;
  tn_k : (0 < k)%nat;
  tn_e : (c <= e)%nat;
  tn_rk : (r + k <= block_size)%nat;
  tn_next : c <> e -> Z.of_nat start / BLOCK_SZ + 1 = Z.of_nat c / BLOCK_SZ;
  tn_fuel : c <> e -> (e / block_size - c / block_size < e / block_size - start / block_size)%nat;
}.

Lemma turn_arith (start e : nat) :
  (start < e)%nat -> exists r c k, turn start e (start / block_size)%nat r c k.
Proof.
  intros Hlt. exists (start mod block_size)%nat, (Nat.min ((start / block_size + 1) * block_size) e)%nat.
  exists (Nat.min ((start / block_size + 1) * block_size) e - start)%nat.
  split; unfold BLOCK_SZ, block_size; intros; dlia.
Qed.

Lemma get_slice_nat {S} (l : list Z) (lo k : nat) (s : S) :
  (lo + k <= length l)%nat -> get_slice l (Z.of_nat lo) (Z.of_nat k) s = Ret (slice l lo k) s.
Proof.
  intros Hl. unfold get_slice. rewrite !Nat2Z.id, (proj2 (Z.leb_le 0 (Z.of_nat lo))), (proj2 (Z.leb_le 0 (Z.of_nat k))) by lia.
  cbn [andb]. by rewrite (proj2 (Z.leb_le _ _)) by lia.
Qed.

Lemma set_slice_nat {S} (l d : list Z) (lo : nat) (s : S) :
  (lo + length d <= length l)%nat -> set_slice l (Z.of_nat lo) d s = Ret (splice l lo d) s.
Proof.
  intros Hl. unfold set_slice. rewrite Nat2Z.id, (proj2 (Z.leb_le 0 (Z.of_nat lo))) by lia.
  cbn [andb]. by rewrite (proj2 (Z.leb_le _ _)) by lia.
Qed.

Lemma read_loop_run fuel s ino (start rs e : nat) buf :
  inode_ok s ino -> (start < e)%nat -> (e <= nblocks ino * block_size)%nat -> (rs + (e - start) <= length buf)%nat ->
  (e / block_size - start / block_size < fuel)%nat ->
  exists s', read_loop fuel ino (Z.of_nat start) (Z.of_nat start / BLOCK_SZ) (Z.of_nat rs) (Z.of_nat e) buf s =
      Ret (Z.of_nat (rs + (e - start)), splice buf rs (slice (raw (bs_view s) ino) start (e - start))) s' /\ keeps s s'.
Proof.
  revert s start rs buf. induction fuel as [|fuel IH]; intros s start rs buf Hio Hlt Hle Hbuf Hf; [lia|].
  destruct (turn_block s ino start e Hio Hlt Hle) as (b & s1 & E1 & Hk1 & Hb & Hop).
  destruct (turn_arith start e Hlt) as (r & c & k & Ht). cbn [read_loop]. cbv zeta.
  rewrite (tn_min _ _ _ _ _ _ Ht), (tn_mod _ _ _ _ _ _ Ht), (tn_len _ _ _ _ _ _ Ht).
  pose proof (tn_c _ _ _ _ _ _ Ht) as Hc. pose proof (tn_k _ _ _ _ _ _ Ht) as Hk0. pose proof (tn_e _ _ _ _ _ _ Ht) as Hce.
  pose proof (tn_rk _ _ _ _ _ _ Ht) as Hrk.
  assert (HA1 : (rs + k + (e - c) = rs + (e - start))%nat) by (clear - Hc Hce; lia).
  assert (HA2 : (e - start = k + (e - c))%nat) by (clear - Hc Hce; lia).
  rewrite (bind_Ret _ _ _ _ _ E1). set (d := bs_view s b).
  assert (Hd : length d = block_size) by (apply (bs_view_ok s b); [apply Hio|apply Hop]).
  destruct (read_in_pure DataBlock s1 b 0 (fun data_block => get_slice data_block (Z.of_nat r) (Z.of_nat k)) d (slice d r k))
    as (s2 & E2 & Hk2); [apply Hk1|exact (evolves_openable _ _ _ _ Hk1 Hop)|lia|done|..].
  { cbn [decode DataBlock pod_bytes size_of]. rewrite (ev_view _ _ _ Hk1) by apply Hop. f_equal. by apply slice_all. }
  { intros s'. apply get_slice_nat. rewrite Hd. exact Hrk. }
  rewrite (bind_Ret _ _ _ _ _ E2). assert (Hk : keeps s s2) by (by apply (keeps_trans s s1)).
  assert (Hsl : slice d r k = slice (raw (bs_view s) ino) start k).
  { rewrite (tn_start _ _ _ _ _ _ Ht). symmetry. unfold raw. apply (slice_join block_size); [by apply data_blocks_len| |exact Hrk].
    rewrite list_lookup_fmap, Hb. reflexivity. }
  assert (Hlk : length (slice d r k) = k) by (apply length_slice; rewrite Hd; exact Hrk).
  unfold bind at 1. rewrite set_slice_nat by (rewrite Hlk; lia).
  replace (Z.of_nat rs + Z.of_nat k) with (Z.of_nat (rs + k)) by lia.
  destruct (Z.eqb_spec (Z.of_nat c) (Z.of_nat e)) as [Ee|Ee].
  { exists s2. split; [|exact Hk]. unfold ret. rewrite Hsl. replace (e - start)%nat with k by lia. reflexivity. }
  destruct (keeps_ok s s2 ino Hio Hk) as (Hio2 & _ & Eraw).
  assert (Hne : c <> e) by lia. rewrite (tn_next _ _ _ _ _ _ Ht Hne).
  destruct (IH s2 c (rs + k)%nat (splice buf rs (slice d r k)) Hio2) as (s3 & E3 & Hk3); [lia|exact Hle|..].
  { rewrite length_splice by (rewrite Hlk; lia). lia. }
  { exact (Nat.lt_le_trans _ _ _ (tn_fuel _ _ _ _ _ _ Ht Hne) (proj1 (Nat.lt_succ_r _ _) Hf)). }
  exists s3. split; [|by apply (keeps_trans s s2)]. rewrite E3, Eraw. rewrite HA1, HA2, slice_add, <- Hsl, <- Hc.
  pose proof (splice_splice buf rs (slice d r k) (slice (raw (bs_view s) ino) c (e - c))) as HS. rewrite Hlk in HS.
  rewrite HS; [reflexivity|]. rewrite length_slice by (rewrite length_raw by exact Hio; clear Hf; lia). clear Hf Hle. lia.
Qed.

Lemma read_at_run s ino offset buf :
  inode_ok s ino -> 0 <= offset -> offset + Z.of_nat (length buf) < 2 ^ 64 ->
  let got := take (length buf) (drop (Z.to_nat offset) (contents (bs_view s) ino)) in
  exists s', DiskInode_read_at ino offset buf s = Ret (Z.of_nat (length got), got ++ drop (length got) buf) s' /\ keeps s s'.
Proof.
  intros Hio Hoff Hlen got. pose proof (io_size _ _ Hio) as Hsz. destruct (size_nblocks ino Hsz) as [Hsn Hn].
  unfold DiskInode_read_at. rewrite u64_small by lia. cbv zeta.
  set (e := Z.min (offset + Z.of_nat (length buf)) (size ino)). set (o := Z.to_nat offset) in *.
  set (cs := contents (bs_view s) ino) in *.
  assert (Hcs : length cs = Z.to_nat (size ino)) by (unfold cs, contents; rewrite length_take, length_raw by exact Hio; lia).
  assert (Hgot : length got = Nat.min (length buf) (Z.to_nat (size ino) - o)) by (unfold got; rewrite length_take, length_drop; lia).
  destruct (Z.leb_spec e offset) as [He|He].
  { exists s. assert (got = []) as -> by (apply nil_length_inv; unfold e, o in *; lia).
    split; [reflexivity|]. apply evolves_refl, Hio. }
  assert (Eo : offset = Z.of_nat o) by (unfold o; lia). assert (Ee : e = Z.of_nat (o + length got)) by (unfold e in *; lia).
  rewrite Ee, Eo.
  destruct (read_loop_run (blocks_touched (Z.of_nat o) (Z.of_nat (o + length got))) s ino o 0 (o + length got) buf Hio)
    as (s' & E & Hk); [lia|lia|lia|unfold blocks_touched, block_size, BLOCK_SZ; dlia|].
  exists s'. change (Z.of_nat 0) with 0 in E. rewrite E. split; [|exact Hk].
  replace (o + length got - o)%nat with (length got) by lia. unfold splice. cbn [take app Nat.add].
  assert (Hsl : slice (raw (bs_view s) ino) o (length got) = got).
  { apply slice_prefix. }
  by rewrite Hsl.
Qed.

(** C38. Reading from a file returns the bytes of its contents from the offset on, as many as the
    buffer and the file allow, leaves the rest of the buffer as it was and changes no block. *)
Theorem read_at_contents s ino offset buf :
  inode_ok s ino -> 0 <= offset -> offset + Z.of_nat (length buf) < 2 ^ 64 ->
  let got := take (length buf) (drop (Z.to_nat offset) (contents (bs_view s) ino)) in
  exists s', DiskInode_read_at ino offset buf s = Ret (Z.of_nat (length got), got ++ drop (length got) buf) s' /\
    bs_ok s' /\ bs_held s' = bs_held s /\ forall b, 0 <= b < bs_blocks s -> bs_view s' b = bs_view s b.
Proof.
  intros Hio Hoff Hlen got. destruct (read_at_run s ino offset buf Hio Hoff Hlen) as (s' & E & Hk).
  exists s'. split; [exact E|]. split; [apply Hk|]. split; apply Hk.
Qed.

(** ** Writing *)

Lemma fmap_upd (F : Z -> list Z) (ids : list Z) (q : nat) b x :
  NoDup ids -> ids !! q = Some b -> upd F b x <$> ids = <[q := x]> (F <$> ids).
Proof.
  intros Hnd Hq. apply list_eq. intros i. rewrite list_lookup_fmap. destruct (decide (i = q)) as [->|Hne].
  - rewrite Hq, list_lookup_insert_eq by (rewrite length_fmap; by eapply lookup_lt_Some). cbn. by rewrite upd_eq.
  - rewrite list_lookup_insert_ne, list_lookup_fmap by done. destruct (ids !! i) as [c|] eqn:Ei; [|done]. cbn. f_equal.
    apply upd_ne. intros ->. apply Hne. by eapply NoDup_lookup.
Qed.

Lemma inode_bids_NoDup s ino : inode_ok s ino -> NoDup (bid <$> inode_list (bs_view s) ino (nblocks ino)).
Proof. intros [_ Hp]. pose proof (ip_nodup _ _ _ _ Hp) as H0. by rewrite app_nil_r in H0. Qed.

Lemma data_ids_NoDup s ino : inode_ok s ino -> NoDup (data_ids (bs_view s) ino).
Proof. intros Hio. eapply sublist_NoDup; [by apply (inode_bids_NoDup s)|apply datas_sublist]. Qed.

(** A change of one data block. *)
Lemma data_write_ok s s' ino (q : nat) b x :
  inode_ok s ino -> data_ids (bs_view s) ino !! q = Some b -> evolves s (upd (bs_view s) b x) s' ->
  inode_ok s' ino /\ inode_list (bs_view s') ino (nblocks ino) = inode_list (bs_view s) ino (nblocks ino) /\
  raw (bs_view s') ino = mjoin (<[q := x]> (bs_view s <$> data_ids (bs_view s) ino)).
Proof.
  intros Hio Hq Hev. assert (Hb : b ∈ data_ids (bs_view s) ino) by (by apply list_elem_of_lookup_2 with q).
  destruct (steps_pre s s' ino (nblocks ino) [] (io_pre _ _ Hio) (evolves_steps _ _ _ Hev)) as [Hp El].
  { intros e He. rewrite (ev_view _ _ _ Hev) by (by apply (io_open s ino (Idx e) Hio)). apply upd_ne. intros ->.
    apply elem_of_idxs in He. exact (idxs_datas_disjoint b _ (inode_bids_NoDup s ino Hio) He Hb). }
  split; [split; [apply Hio|exact Hp]|]. split; [exact El|].
  unfold raw, data_ids. rewrite El. fold (data_ids (bs_view s) ino). f_equal.
  rewrite <- (fmap_upd _ _ q b x (data_ids_NoDup s ino Hio) Hq). apply list_fmap_ext. intros i c Hc. apply Hev.
  apply can_in, (data_open s ino c Hio). by apply list_elem_of_lookup_2 with i.
Qed.

(** The result of writing [d] at byte [start]: only data blocks of the file change. *)
Record wrote s ino (start : nat) (d : list Z) s' : Prop := {
  wr_ok : inode_ok s' ino;
  wr_steps : steps s s';
  wr_list : inode_list (bs_view s') ino (nblocks ino) = inode_list (bs_view s) ino (nblocks ino);
  wr_raw : raw (bs_view s') ino = splice (raw (bs_view s) ino) start d;
  wr_frame b : blk_in s b -> b ∉ data_ids (bs_view s) ino -> bs_view s' b = bs_view s b;
}.

Lemma wrote_trans s ino start d s1 e s2 :
  (start + length d + length e <= length (raw (bs_view s) ino))%nat ->
  wrote s ino start d s1 -> wrote s1 ino (start + length d) e s2 -> wrote s ino start (d ++ e) s2.
Proof.
  intros Hl [_ Hs1 Hl1 Hr1 Hf1] [Hok Hs2 Hl2 Hr2 Hf2]. split; [exact Hok|by apply (steps_trans s s1)|congruence|..].
  - rewrite Hr2, Hr1. by apply splice_splice.
  - intros b Hb Hn. rewrite Hf2; [by apply Hf1|unfold blk_in in *; by rewrite (ev_blocks _ _ _ Hs1)|].
    unfold data_ids in *. by rewrite Hl1.
Qed.

Lemma write_turn s ino (start r k ws : nat) b buf :
  inode_ok s ino -> data_ids (bs_view s) ino !! (start / block_size)%nat = Some b -> openable s b ->
  start = (start / block_size * block_size + r)%nat -> (r + k <= block_size)%nat -> (ws + k <= length buf)%nat -> is_bytes buf ->
  exists s', modify_in DataBlock b 0 (fun data_block =>
      let! src := get_slice buf (Z.of_nat ws) (Z.of_nat k) in
      let! data_block := set_slice data_block (Z.of_nat r) src in
      ret (tt, data_block)) s = Ret tt s' /\ wrote s ino start (slice buf ws k) s'.
Proof.
  intros Hio Hq Hop Est Hrk Hws Hby. set (d := bs_view s b). pose proof (bs_view_ok s b (ip_ok _ _ _ _ (io_pre _ _ Hio)) (can_in _ _ Hop)) as [Hdl Hdb].
  fold d in Hdl, Hdb. assert (Hsl : length (slice buf ws k) = k) by (by apply length_slice).
  assert (Hsp : length (splice d r (slice buf ws k)) = block_size) by (rewrite length_splice; [exact Hdl|rewrite Hsl, Hdl; exact Hrk]).
  destruct (modify_in_pure DataBlock s b 0 (fun data_block =>
      let! src := get_slice buf (Z.of_nat ws) (Z.of_nat k) in
      let! data_block := set_slice data_block (Z.of_nat r) src in
      ret (tt, data_block)) d tt (splice d r (slice buf ws k))) as (s' & E & Hev);
    [apply Hio|exact Hop|lia|done|..].
  { cbn [decode DataBlock pod_bytes size_of]. f_equal. by apply slice_all. }
  { apply splice_Forall; [exact Hdb|]. by apply Forall_take, Forall_drop. }
  { change (length (splice d r (slice buf ws k)) <= block_size)%nat. by rewrite Hsp. }
  { intros s'. unfold bind. rewrite get_slice_nat by exact Hws. rewrite set_slice_nat by (rewrite Hsl, Hdl; exact Hrk). reflexivity. }
  exists s'. split; [exact E|].
  change (encode DataBlock (splice d r (slice buf ws k))) with (splice d r (slice buf ws k)) in Hev.
  rewrite splice_all in Hev by (fold d; rewrite Hsp, Hdl; reflexivity).
  destruct (data_write_ok s s' ino _ b _ Hio Hq Hev) as (Hio' & El & Er).
  split; [exact Hio'|by eapply evolves_steps|exact El|..].
  - rewrite Er. symmetry. rewrite Est at 1. apply (splice_join block_size); [by apply data_blocks_len| |rewrite Hsl; exact Hrk].
    rewrite list_lookup_fmap, Hq. reflexivity.
  - intros c Hc Hn. rewrite (ev_view _ _ _ Hev) by exact Hc. apply upd_ne. intros ->. apply Hn.
    by apply list_elem_of_lookup_2 with (start / block_size)%nat.
Qed.

Lemma write_loop_run fuel s ino (start ws e : nat) buf :
  inode_ok s ino -> (start < e)%nat -> (e <= nblocks ino * block_size)%nat -> (ws + (e - start) <= length buf)%nat ->
  is_bytes buf -> (e / block_size - start / block_size < fuel)%nat ->
  exists s', write_loop fuel ino (Z.of_nat start) (Z.of_nat start / BLOCK_SZ) (Z.of_nat ws) (Z.of_nat e) buf s =
      Ret (Z.of_nat (ws + (e - start))) s' /\ wrote s ino start (slice buf ws (e - start)) s'.
Proof.
  revert s start ws. induction fuel as [|fuel IH]; intros s start ws Hio Hlt Hle Hbuf Hby Hf; [lia|].
  destruct (turn_block s ino start e Hio Hlt Hle) as (b & s1 & E1 & Hk1 & Hb & Hop).
  destruct (turn_arith start e Hlt) as (r & c & k & Ht). cbn [write_loop]. cbv zeta.
  rewrite (tn_min _ _ _ _ _ _ Ht), (tn_mod _ _ _ _ _ _ Ht), (tn_len _ _ _ _ _ _ Ht).
  pose proof (tn_c _ _ _ _ _ _ Ht) as Hc. pose proof (tn_e _ _ _ _ _ _ Ht) as Hce.
  assert (HA1 : (ws + k + (e - c) = ws + (e - start))%nat) by (clear - Hc Hce; lia).
  assert (HA2 : (e - start = k + (e - c))%nat) by (clear - Hc Hce; lia).
  assert (HA3 : (ws + k <= length buf)%nat) by (clear - Hc Hce Hbuf; lia).
  rewrite (bind_Ret _ _ _ _ _ E1). destruct (keeps_ok s s1 ino Hio Hk1) as (Hio1 & Ed & Er).
  destruct (write_turn s1 ino start r k ws b buf Hio1) as (s2 & E2 & Hw2);
    [by rewrite Ed|exact (evolves_openable _ _ _ _ Hk1 Hop)|apply Ht|apply Ht|exact HA3|exact Hby|].
  rewrite (bind_Ret _ _ _ _ _ E2).
  assert (Hlk : length (slice buf ws k) = k) by (by apply length_slice).
  assert (Hw : wrote s ino start (slice buf ws k) s2).
  { destruct (keeps_pre s s1 ino _ _ (io_pre _ _ Hio) Hk1) as [_ El]. destruct Hw2 as [? Hs2 Hl2 Hr2 Hf2].
    split; [done|eapply steps_trans; [by eapply evolves_steps|done]|congruence|by rewrite Hr2, Er|].
    intros x Hx Hn. rewrite Hf2; [by apply Hk1|unfold blk_in in *; by rewrite (ev_blocks _ _ _ Hk1)|by rewrite Ed]. }
  replace (Z.of_nat ws + Z.of_nat k) with (Z.of_nat (ws + k)) by (clear; lia).
  destruct (Z.eqb_spec (Z.of_nat c) (Z.of_nat e)) as [Ee|Ee].
  { exists s2. replace (e - start)%nat with k by (clear - Ee Hc; lia). split; [reflexivity|exact Hw]. }
  assert (Hne : c <> e) by (clear - Ee; lia). rewrite (tn_next _ _ _ _ _ _ Ht Hne).
  destruct (IH s2 c (ws + k)%nat (wr_ok _ _ _ _ _ Hw)) as (s3 & E3 & Hw3);
    [clear - Hne Hce; lia|exact Hle|rewrite HA1; exact Hbuf|exact Hby|..].
  { exact (Nat.lt_le_trans _ _ _ (tn_fuel _ _ _ _ _ _ Ht Hne) (proj1 (Nat.lt_succ_r _ _) Hf)). }
  exists s3. rewrite E3, HA1, HA2, slice_add. split; [reflexivity|].
  apply (wrote_trans s ino start (slice buf ws k) s2).
  - rewrite Hlk, length_slice, length_raw by (exact Hio || (clear - HA1 Hbuf; lia)). clear - Hle Hc HA2 Hce. lia.
  - exact Hw.
  - rewrite Hlk, <- Hc. exact Hw3.
Qed.

Lemma write_at_run s ino offset buf :
  inode_ok s ino -> is_bytes buf -> 0 <= offset < size ino -> (0 < length buf)%nat ->
  offset + Z.of_nat (length buf) < 2 ^ 64 ->
  let k := Nat.min (length buf) (Z.to_nat (size ino - offset)) in
  exists s', DiskInode_write_at ino offset buf s = Ret (Z.of_nat k) s' /\ wrote s ino (Z.to_nat offset) (take k buf) s'.
Proof.
  intros Hio Hby Hoff Hpos Hlen k. pose proof (io_size _ _ Hio) as Hsz. destruct (size_nblocks ino Hsz) as [Hsn Hn].
  unfold DiskInode_write_at. rewrite u64_small by lia. cbv zeta. set (o := Z.to_nat offset).
  assert (Eo : offset = Z.of_nat o) by (unfold o; lia).
  assert (Ee : Z.min (offset + Z.of_nat (length buf)) (size ino) = Z.of_nat (o + k)) by (unfold k; lia). rewrite Ee, Eo.
  rewrite bind_assert by (apply Z.leb_le; lia).
  destruct (write_loop_run (blocks_touched (Z.of_nat o) (Z.of_nat (o + k))) s ino o 0 (o + k) buf Hio)
    as (s' & E & Hw); [unfold k; lia|unfold k; lia|unfold k; lia|exact Hby|unfold blocks_touched, block_size, BLOCK_SZ; dlia|].
  replace (o + k - o)%nat with k in * by lia. exists s'. change (Z.of_nat 0) with 0 in E. rewrite E. split; [reflexivity|exact Hw].
Qed.

(** C37. Writing into a file within its size splices the bytes into the file's contents at the
    offset, whatever blocks they lie in, returns the number of bytes, and changes neither the
    inode's block list nor any block that is not a data block of the file. *)
Theorem write_at_contents s ino offset buf :
  inode_ok s ino -> is_bytes buf -> 0 <= offset < size ino -> (0 < length buf)%nat ->
  offset + Z.of_nat (length buf) < 2 ^ 64 ->
  let k := Nat.min (length buf) (Z.to_nat (size ino - offset)) in
  exists s', DiskInode_write_at ino offset buf s = Ret (Z.of_nat k) s' /\ inode_ok s' ino /\ bs_held s' = bs_held s /\
    contents (bs_view s') ino = splice (contents (bs_view s) ino) (Z.to_nat offset) (take k buf) /\
    inode_list (bs_view s') ino (nblocks ino) = inode_list (bs_view s) ino (nblocks ino) /\
    forall b, 0 <= b < bs_blocks s -> b ∉ data_ids (bs_view s) ino -> bs_view s' b = bs_view s b.
Proof.
  intros Hio Hby Hoff Hpos Hlen k. destruct (write_at_run s ino offset buf Hio Hby Hoff Hpos Hlen) as (s' & E & [Hok Hst Hl Hr Hf]).
  exists s'. split; [exact E|]. split; [exact Hok|]. split; [apply Hst|]. split; [|split; [exact Hl|exact Hf]].
  unfold contents. rewrite Hr. apply take_splice_le. rewrite length_take. unfold k. lia.
Qed.
End data.

(** ** The largest file *)

Section limit.
Context {St : Type} `{SL : BlockStoreLaws St}.
Implicit Types (s : St).

(** The first step of a run that should panic: if it does not, go on. *)
Ltac step_panic a s1 E :=
  match goal with |- exists p, bind ?m ?k ?s = Panic p =>
    destruct (m s) as [a s1|p] eqn:E; [rewrite (bind_Ret _ _ _ _ _ E)|exists p; by apply bind_Panic]
  end.

Lemma modify_in_fails {V} b (f : list Z -> M St (V * list Z)) s :
  (forall t s1, length t = 128%nat -> exists p, f t s1 = Panic p) -> exists p, modify_in IndirectBlock b 0 f s = Panic p.
Proof.
  intros Hf. unfold modify_in. unfold bind at 1. destruct (bs_lock b s) as [c s1|p]; [|by exists p].
  unfold bind at 1, BlockCache_modify. unfold bind at 1. unfold ref_at. unfold bind at 1.
  rewrite (proj2 (Z.leb_le _ _)) by done. cbn [assert ret decode IndirectBlock pod_words]. unfold bind at 1.
  match goal with |- context [f ?t s1] => destruct (Hf t s1) as [p ->]; [apply length_decode_words|by exists p] end.
Qed.

(** The loop behind the second table cannot go past its last entry. *)
Lemma grow2_fails fuel a0 b0 a1 b1 es src s :
  length es = 128%nat -> 0 <= a0 -> 0 <= b0 < 128 -> a0 * 128 + b0 <= 16384 -> 16384 < a1 * 128 + b1 -> 0 <= b1 < 128 ->
  exists p, grow2 fuel a0 b0 a1 b1 es src s = Panic p.
Proof.
  revert a0 b0 es src s. induction fuel as [|fuel IH]; intros a0 b0 es src s Hes Ha Hb Hle Hlt Hb1; cbn [grow2];
    (assert (Ht : (a0 <? a1) || (a0 =? a1) && (b0 <? b1) = true) by
      (apply orb_true_iff; rewrite andb_true_iff, !Z.ltb_lt, Z.eqb_eq; lia)); rewrite Ht; [by eexists|].
  assert (Hes1 : forall es1 src1 s1, (if b0 =? 0 then
      let! '(x, src) := next src in let! es := index_set es a0 x in ret (es, src) else ret (es, src)) s = Ret (es1, src1) s1 ->
      length es1 = 128%nat /\ a0 < 128).
  { intros es1 src1 s1 E. destruct (Z.eqb_spec b0 0) as [->|Hne].
    - destruct src as [|x src]; [discriminate E|]. cbn [next] in E. unfold bind at 1 in E. cbn [ret] in E. unfold index_set in E.
      destruct (vset es a0 x) as [es'|] eqn:Ev; [|discriminate E]. injection E as <- _ _.
      rewrite (vset_length _ _ _ _ Ev). apply vset_Some in Ev as [Hr _]. split; [exact Hes|lia].
    - injection E as <- _ _. split; [exact Hes|lia]. }
  step_panic x1 s1 E1. destruct x1 as [es1 src1]. destruct (Hes1 es1 src1 s1 eq_refl) as [Hl1 Ha1].
  step_panic i2 s2 E2. step_panic src2 s3 E3.
  change INODE_INDIRECT1_COUNT with 128. destruct (Z.eqb_spec (b0 + 1) 128); apply IH; try assumption; lia.
Qed.

Lemma increase_size_fails s ino new_size new_blocks :
  data_blocks ino <= INDIRECT2_BOUND -> INDIRECT2_BOUND < _data_blocks new_size ->
  exists p, increase_size ino new_size new_blocks s = Panic p.
Proof.
  change INDIRECT2_BOUND with 16539. intros Hold Hnew. unfold increase_size, fill_while. cbv zeta.
  change (data_blocks (set_size new_size ino)) with (_data_blocks new_size). set (n1 := _data_blocks new_size) in *.
  change INODE_DIRECT_COUNT with 27. rewrite (proj2 (Z.ltb_lt 27 n1)) by lia.
  step_panic x1 s1 E1. destruct x1 as [[d src] cur].
  apply bind_inv in E1 as ([d1 src1] & s0 & _ & [= <- <- <- <-]).
  step_panic x2 s2 E2. destruct x2 as [ino1 src2]. step_panic x3 s3 E3. destruct x3 as [src3 cur2].
  assert (Hcur : 128 <= cur2 <= 16512).
  { apply modify_in_Ret in E3 as (t & s4 & t' & s5 & E3). apply bind_inv in E3 as ([[t1 src4] cur3] & s6 & E3 & [= <- <- _ _]).
    apply bind_inv in E3 as ([t2 src5] & s7 & _ & [= _ _ <- _]). change INODE_INDIRECT1_COUNT with 128. lia. }
  unfold increase_tail. cbv zeta. change INODE_INDIRECT1_COUNT with 128. rewrite (proj2 (Z.ltb_lt 128 (n1 - 27))) by lia.
  step_panic x4 s4 E4. destruct x4 as [ino2 src4].
  destruct (modify_in_fails (indirect2 ino2) (fun indirect2 =>
      let! '(indirect2, src) := grow2 (Z.to_nat (n1 - 27 - 128 - (cur2 - 128))) ((cur2 - 128) / 128) ((cur2 - 128) mod 128)
        ((n1 - 27 - 128) / 128) ((n1 - 27 - 128) mod 128) indirect2 src4 in
      ret (src, indirect2)) s4) as [p Hp].
  { intros t s5 Ht. edestruct (grow2_fails (Z.to_nat (n1 - 27 - 128 - (cur2 - 128))) ((cur2 - 128) / 128) ((cur2 - 128) mod 128)
      ((n1 - 27 - 128) / 128) ((n1 - 27 - 128) mod 128) t src4 s5) as [p Hp]; [exact Ht|Z.to_euclidean_division_equations; lia..|].
    exists p. by apply bind_Panic. }
  exists p. by rewrite (bind_Panic _ _ _ _ Hp).
Qed.

End limit.

(** ** Witnesses on the image: 600 bytes, all 7 *)

Lemma read_at_contents_witness :
  exists s', DiskInode_read_at demo_inode 597 [0; 0; 0; 0; 0] demo_store = Ret (3, [7; 7; 7; 0; 0]) s'.
Proof.
  destruct (read_at_contents demo_store demo_inode 597 [0; 0; 0; 0; 0] demo_inode_ok ltac:(lia) ltac:(cbn; lia)) as (s' & E & _).
  exists s'. exact E.
Defined.

Lemma write_at_contents_witness :
  exists s', DiskInode_write_at demo_inode 511 [1; 2; 3] demo_store = Ret 3 s' /\
    contents (bs_view s') demo_inode = splice (contents (bs_view demo_store) demo_inode) 511 [1; 2; 3].
Proof.
  destruct (write_at_contents demo_store demo_inode 511 [1; 2; 3] demo_inode_ok) as (s' & E & _ & _ & Hc & _).
  - repeat constructor; lia.
  - cbn. lia.
  - cbn. lia.
  - cbn. lia.
  - exists s'. split; [exact E|exact Hc].
Defined.

(** 17000 zero blocks, and an empty inode. *)
Definition wide_len : nat := Z.to_nat (17000 * BLOCK_SZ).
Lemma wide_len_Z : Z.of_nat wide_len = 17000 * BLOCK_SZ.
Proof. unfold wide_len. by rewrite Z2Nat.id. Qed.
#[global] Opaque wide_len.
Definition wide_store : store BlockFile := BlockCacheManager_new (replicate wide_len 0 : BlockFile).
Definition empty_inode : DiskInode :=
  {| size := 0; direct := replicate 27 0; indirect1 := 0; indirect2 := 0; indirect3 := 0; type_ := File |}.
Lemma wide_store_ok : bs_ok wide_store /\ bs_blocks wide_store = 17000.
Proof.
  assert (Hl : length (replicate wide_len 0) = wide_len) by apply length_replicate. split.
  - apply BlockCacheManager_new_ok. split_and!.
    + apply Forall_replicate. unfold is_byte. lia.
    + rewrite Hl. apply Nat2Z.inj. rewrite Nat2Z.inj_mod, wide_len_Z. reflexivity.
    + rewrite Hl, wide_len_Z. reflexivity.
  - change (Z.of_nat (length (replicate wide_len 0)) / BLOCK_SZ = 17000). by rewrite Hl, wide_len_Z, Z.div_mul.
Qed.
Lemma empty_inode_pre : inode_pre wide_store empty_inode (nblocks empty_inode) (seqZ 5 16900).
Proof.
  destruct wide_store_ok as [Hok Hb]. assert (El : inode_list (bs_view wide_store) empty_inode (nblocks empty_inode) = []) by reflexivity.
  split; rewrite ?El; cbn [fmap list_fmap app].
  - exact Hok.
  - unfold small_store. rewrite Hb. by apply Z.leb_le.
  - reflexivity.
  - vm_compute. congruence.
  - apply NoDup_seqZ.
  - intros b Hin. apply elem_of_seqZ in Hin. split; [unfold blk_in; rewrite Hb; clear -Hin; lia|apply not_elem_of_nil|by apply Nat.ltb_lt].
  - by apply Nat.ltb_lt.
Qed.

