(* ===== verification/Mfs.v ===== *)
(** The file system on a device: [components/src/micro_fs/mfs.rs].

    A device holds, in this order, the super block, the inode bitmap, the inode
    area, the data bitmap and the data area.  [BlockManager] is immutable after
    [create] and [open], so its [Mutex] has no state of its own: every method of
    [Inode] takes it once, for its whole body. *)
From S2P Require Import Prelude BlockCache DiskWords Bitmap Layout.

Record BlockManager := {
  inode_bitmap : Bitmap; data_bitmap : Bitmap;
  inode_area_start_block : Z; data_area_start_block : Z;
}.

Definition disk_inode_pos (self : BlockManager) (inode_id : Z) : Z * Z :=
  let inode_size := Z.of_nat (size_of pod_DiskInode) in
  let inodes_per_block := u32 (BLOCK_SZ / inode_size) in
  let block_id := u32 (inode_area_start_block self + inode_id / inodes_per_block) in
  (block_id, inode_id mod inodes_per_block * inode_size).
Definition data_block_id (self : BlockManager) (data_block_id : Z) : Z := u32 (data_area_start_block self + data_block_id).

(** The geometry [create] computes; [total_blocks] and [inode_bitmap_blocks] are [u32]. *)
Definition inode_area_size (inode_bitmap_blocks : Z) : Z :=
  let inode_num := maximum {| start_block_id := 1; blocks := inode_bitmap_blocks |} in
  u32 (u64 (inode_num * Z.of_nat (size_of pod_DiskInode) + BLOCK_SZ - 1) / BLOCK_SZ).
Definition data_sizes (total_blocks inode_bitmap_blocks : Z) : Z * Z :=
  let inode_total_blocks := u32 (inode_bitmap_blocks + inode_area_size inode_bitmap_blocks) in
  let data_total_blocks := u32 (u32 (total_blocks - 1) - inode_total_blocks) in
  let data_bitmap_blocks := u32 (data_total_blocks + 4096) / 4097 in
  (data_bitmap_blocks, u32 (data_total_blocks - data_bitmap_blocks)).
Definition manager_of (inode_bitmap_blocks inode_area_blocks data_bitmap_blocks : Z) : BlockManager :=
  let inode_total_blocks := u32 (inode_bitmap_blocks + inode_area_blocks) in
  {| inode_bitmap := {| start_block_id := 1; blocks := inode_bitmap_blocks |};
     data_bitmap := {| start_block_id := u32 (1 + inode_total_blocks); blocks := data_bitmap_blocks |};
     inode_area_start_block := u32 (1 + inode_bitmap_blocks);
     data_area_start_block := u32 (u32 (1 + inode_total_blocks) + data_bitmap_blocks) |}.

Section manager.
Context {St : Type} `{BlockStore St}.

Definition alloc_inode (self : BlockManager) : M St Z :=
  let! bit := Bitmap_alloc (inode_bitmap self) in
  let! bit := unwrap bit in
  ret (u32 bit).
Definition alloc_data (self : BlockManager) : M St Z :=
  let! bit := Bitmap_alloc (data_bitmap self) in
  let! bit := unwrap bit in
  ret (u32 (u32 bit + data_area_start_block self)).
(** Files are never deleted: the body is a comment. *)
Definition dealloc_inode (self : BlockManager) (inode_id : Z) : M St unit := ret tt.
Definition clear_block (id : Z) : M St unit :=
  modify_in DataBlock id 0 (fun data_block => ret (tt, (fun _ => 0) <$> data_block)).
Definition dealloc_data (self : BlockManager) (block_id : Z) : M St unit :=
  clear_block block_id ;;;
  Bitmap_dealloc (data_bitmap self) (u32 (block_id - data_area_start_block self)).

Definition BlockManager_create (total_blocks inode_bitmap_blocks : Z) : M St BlockManager :=
  let inode_area_blocks := inode_area_size inode_bitmap_blocks in
  let '(data_bitmap_blocks, data_area_blocks) := data_sizes total_blocks inode_bitmap_blocks in
  let mfs := manager_of inode_bitmap_blocks inode_area_blocks data_bitmap_blocks in
  for_each (seqZ 0 total_blocks) clear_block ;;;
  modify_in pod_SuperBlock 0 0 (fun _ =>
    ret (tt, SuperBlock_initialize total_blocks inode_bitmap_blocks inode_area_blocks data_bitmap_blocks data_area_blocks)) ;;;
  let! id := alloc_inode mfs in
  assert (id =? 0) ;;;
  let '(root_inode_block_id, root_inode_offset) := disk_inode_pos mfs 0 in
  modify_in pod_DiskInode root_inode_block_id root_inode_offset (fun disk_inode =>
    ret (tt, DiskInode_initialize Dir disk_inode)) ;;;
  bs_sync_all ;;;
  ret mfs.

Definition BlockManager_open : M St BlockManager :=
  read_in pod_SuperBlock 0 0 (fun super_block =>
    assert (SuperBlock_valid super_block) ;;;
    ret (manager_of (inode_bitmap_blocks super_block) (inode_area_blocks super_block) (data_bitmap_blocks super_block))).
End manager.
