(* ===== verification/Vfs.v ===== *)
(** Virtual inodes: [components/src/micro_fs/vfs.rs].

    An [Inode] is the place of a [DiskInode]: a block and an offset in it.  Paths
    and names are byte strings. *)
From S2P Require Import Prelude BlockCache DiskWords Bitmap Layout Mfs.

Record Inode := { v_block_id : Z; v_block_offset : Z }.
Definition Inode_new (pos : Z * Z) : Inode := {| v_block_id := pos.1; v_block_offset := pos.2 |}.
Definition root_inode (fs : BlockManager) : Inode := Inode_new (disk_inode_pos fs 0).

(** [path.split('/').filter(|s| !s.is_empty())]: [acc] is the component so far. *)
Fixpoint split_path (path acc : list Z) : list (list Z) :=
  let piece := match acc with [] => [] | _ => [acc] end in
  match path with
  | [] => piece
  | c :: path => if c =? 47 then piece ++ split_path path [] else split_path path (acc ++ [c])
  end.
Definition path_names (path : list Z) : list (list Z) := split_path path [].

Section vfs.
Context {St : Type} `{BlockStore St}.
Implicit Types (fs : BlockManager) (self : Inode).

Definition read_disk_inode {V} self (f : DiskInode -> M St V) : M St V :=
  read_in pod_DiskInode (v_block_id self) (v_block_offset self) f.
Definition modify_disk_inode {V} self (f : DiskInode -> M St (V * DiskInode)) : M St V :=
  modify_in pod_DiskInode (v_block_id self) (v_block_offset self) f.

(** Entry [i] of a directory, read over [dirent]. *)
Definition read_dirent (disk_inode : DiskInode) (i : Z) (dirent : DirEntry) : M St DirEntry :=
  let! '(n, bytes) := DiskInode_read_at disk_inode (DIRENT_SZ * i) (DirEntry_as_bytes dirent) in
  assert (n =? DIRENT_SZ) ;;;
  ret (DirEntry_of_bytes bytes).
Fixpoint find_loop (n : nat) (name : list Z) (disk_inode : DiskInode) (i : Z) (dirent : DirEntry) : M St (option Z) :=
  match n with
  | O => ret None
  | S n =>
      let! dirent := read_dirent disk_inode i dirent in
      let! dname := DirEntry_name dirent in
      if bool_decide (dname = name) then ret (Some (de_inode_number dirent))
      else find_loop n name disk_inode (i + 1) dirent
  end.
Definition file_count (disk_inode : DiskInode) : Z := size disk_inode / DIRENT_SZ.
Definition find_inode_id (name : list Z) (disk_inode : DiskInode) : M St (option Z) :=
  assert (dir disk_inode) ;;;
  find_loop (Z.to_nat (file_count disk_inode)) name disk_inode 0 DirEntry_empty.

Fixpoint find_names fs (names : list (list Z)) (block_id block_offset : Z) : M St (option Inode) :=
  match names with
  | [] => ret (Some (Inode_new (block_id, block_offset)))
  | name :: names =>
      let! inode_id := read_in pod_DiskInode block_id block_offset (fun disk_inode =>
        if is_file disk_inode then ret None else find_inode_id name disk_inode) in
      match inode_id with
      | None => ret None
      | Some inode_id => let '(block_id, block_offset) := disk_inode_pos fs inode_id in find_names fs names block_id block_offset
      end
  end.
Definition find fs self (path : list Z) : M St (option Inode) :=
  find_names fs (path_names path) (u32 (v_block_id self)) (v_block_offset self).

Fixpoint ls_loop (n : nat) (disk_inode : DiskInode) (i : Z) (v : list (list Z)) : M St (list (list Z)) :=
  match n with
  | O => ret v
  | S n =>
      let! dirent := read_dirent disk_inode i DirEntry_empty in
      let! dname := DirEntry_name dirent in
      ls_loop n disk_inode (i + 1) (v ++ [dname])
  end.
Definition ls self : M St (list (list Z)) :=
  read_disk_inode self (fun disk_inode =>
    if is_file disk_inode then ret [] else ls_loop (Z.to_nat (file_count disk_inode)) disk_inode 0 []).

(** [for _ in 0..n { v.push(fs.alloc_data()) }] *)
Fixpoint alloc_blocks fs (n : nat) (v : list Z) : M St (list Z) :=
  match n with
  | O => ret v
  | S n => let! b := alloc_data fs in alloc_blocks fs n (v ++ [b])
  end.
Definition Inode_increase_size fs (new_size : Z) (disk_inode : DiskInode) : M St DiskInode :=
  if new_size <? size disk_inode then ret disk_inode
  else
    let! blocks_needed := blocks_num_needed disk_inode new_size in
    let! v := alloc_blocks fs (Z.to_nat blocks_needed) [] in
    increase_size disk_inode new_size v.

Definition create_inode fs self (name : list Z) (inode_type : DiskInodeType) : M St (option Inode) :=
  let! found := read_disk_inode self (fun root_inode => assert (dir root_inode) ;;; find_inode_id name root_inode) in
  match found with
  | Some _ => ret None
  | None =>
      let! new_inode_id := alloc_inode fs in
      let '(new_inode_block_id, new_inode_block_offset) := disk_inode_pos fs new_inode_id in
      modify_in pod_DiskInode new_inode_block_id new_inode_block_offset (fun new_inode =>
        ret (tt, DiskInode_initialize inode_type new_inode)) ;;;
      modify_disk_inode self (fun root_inode =>
        let count := file_count root_inode in
        let new_size := (count + 1) * DIRENT_SZ in
        let! root_inode := Inode_increase_size fs (u32 new_size) root_inode in
        let! dirent := DirEntry_new name new_inode_id in
        DiskInode_write_at root_inode (count * DIRENT_SZ) (DirEntry_as_bytes dirent) ;;;
        ret (tt, root_inode)) ;;;
      bs_sync_all ;;;
      ret (Some (Inode_new (disk_inode_pos fs new_inode_id)))
  end.
Definition create fs self (name : list Z) : M St (option Inode) := create_inode fs self name File.
Definition create_dir fs self (name : list Z) : M St (option Inode) := create_inode fs self name Dir.

Definition Inode_clear fs self : M St unit :=
  modify_disk_inode self (fun disk_inode =>
    assert (is_file disk_inode) ;;;
    let size := size disk_inode in
    let! '(data_blocks_dealloc, disk_inode) := clear_size disk_inode in
    assert (Z.of_nat (length data_blocks_dealloc) =? total_blocks size) ;;;
    for_each data_blocks_dealloc (dealloc_data fs) ;;;
    ret (tt, disk_inode)) ;;;
  bs_sync_all.

Definition Inode_read_at self (offset : Z) (buf : list Z) : M St (Z * list Z) :=
  read_disk_inode self (fun disk_inode => DiskInode_read_at disk_inode offset buf).
Definition Inode_write_at fs self (offset : Z) (buf : list Z) : M St Z :=
  let! size := modify_disk_inode self (fun disk_inode =>
    assert (is_file disk_inode) ;;;
    let! disk_inode := Inode_increase_size fs (u32 (u64 (offset + Z.of_nat (length buf)))) disk_inode in
    let! n := DiskInode_write_at disk_inode offset buf in
    ret (n, disk_inode)) in
  bs_sync_all ;;;
  ret size.
End vfs.
