(* ===== verification/FsInv.v ===== *)
(** The invariant of a file system on a device ([components/src/micro_fs/mfs.rs],
    [vfs.rs]): its areas do not overlap, every inode in use owns its blocks alone,
    the data bitmap marks exactly the owned blocks, free blocks and the space
    behind the end of a file are zero. *)
From Stdlib Require Import ZifyNat.
From S2P Require Import Prelude BlockCache DiskWords Bitmap Layout Codecs InodeBlocks InodeData FileData Mfs Vfs.

Definition zeros (n : nat) : list Z := replicate n 0.
Definition zero_block : list Z := zeros block_size.

(** ** Where things are *)

(** The areas, for a store of [nb] blocks; [da] blocks of data.  Up to 2^30 blocks
    (512 GiB) every block and inode number fits 32 bits. *)
Record geometry (fs : BlockManager) (nb da : Z) : Prop := {
  geo_ib_start : start_block_id (inode_bitmap fs) = 1;
  geo_ib : 1 <= blocks (inode_bitmap fs);
  geo_ia : inode_area_start_block fs = 1 + blocks (inode_bitmap fs);
  geo_db_start : start_block_id (data_bitmap fs) = inode_area_start_block fs + 1024 * blocks (inode_bitmap fs);
  geo_db : 0 <= blocks (data_bitmap fs);
  geo_da_start : data_area_start_block fs = start_block_id (data_bitmap fs) + blocks (data_bitmap fs);
  geo_da : 0 <= da <= blocks (data_bitmap fs) * BLOCK_BITS;
  geo_end : data_area_start_block fs + da <= nb;
  geo_small : nb <= 2 ^ 30;
}.

Definition inode_max (fs : BlockManager) : Z := blocks (inode_bitmap fs) * BLOCK_BITS.
Definition inode_block (fs : BlockManager) (i : Z) : Z := inode_area_start_block fs + i / 4.
Definition inode_off (i : Z) : nat := Z.to_nat (i mod 4 * 128).
Definition ino_at (F : Z -> list Z) (fs : BlockManager) (i : Z) : option DiskInode :=
  decode pod_DiskInode (slice (F (inode_block fs i)) (inode_off i) 128).
Definition blocks_of (F : Z -> list Z) (ino : DiskInode) : list Z := bid <$> inode_list F ino (nblocks ino).
Definition in_data (fs : BlockManager) (da b : Z) : Prop := data_area_start_block fs <= b < data_area_start_block fs + da.
Definition used (F : Z -> list Z) (fs : BlockManager) (b : Z) : bool :=
  bitmap_bit F (data_bitmap fs) (b - data_area_start_block fs).

Section positions.
Context (fs : BlockManager) (nb da : Z) (G : geometry fs nb da).

Lemma inode_block_range i : 0 <= i < inode_max fs ->
  inode_area_start_block fs <= inode_block fs i < start_block_id (data_bitmap fs) /\ 0 <= inode_block fs i < nb.
Proof.
  destruct G. unfold inode_max, inode_block, BLOCK_BITS, BLOCK_SZ in *. intros Hi.
  assert (0 <= i / 4 < 1024 * blocks (inode_bitmap fs)) by (Z.to_euclidean_division_equations; lia). lia.
Qed.

Lemma inode_off_range i : (inode_off i + 128 <= 512)%nat /\ Z.of_nat (inode_off i) = i mod 4 * 128.
Proof. unfold inode_off. pose proof (Z.mod_pos_bound i 4 ltac:(lia)). lia. Qed.

Lemma disk_inode_pos_eq i : 0 <= i < inode_max fs -> disk_inode_pos fs i = (inode_block fs i, i mod 4 * 128).
Proof.
  intros Hi. unfold disk_inode_pos. change (u32 (BLOCK_SZ / Z.of_nat (size_of pod_DiskInode))) with 4.
  change (Z.of_nat (size_of pod_DiskInode)) with 128. fold (inode_block fs i).
  rewrite u32_small; [done|]. pose proof (inode_block_range i Hi). destruct G. lia.
Qed.

Lemma inode_pos_inj i j : inode_block fs i = inode_block fs j -> i mod 4 = j mod 4 -> i = j.
Proof. unfold inode_block. intros. Z.to_euclidean_division_equations. lia. Qed.

Lemma in_data_range b : in_data fs da b ->
  start_block_id (data_bitmap fs) + blocks (data_bitmap fs) <= b < nb /\
  0 <= b - data_area_start_block fs < blocks (data_bitmap fs) * BLOCK_BITS.
Proof. destruct G. unfold in_data. lia. Qed.

Lemma not_in_data_bitmap b : in_data fs da b -> ~ in_bitmap (data_bitmap fs) b /\ ~ in_bitmap (inode_bitmap fs) b.
Proof. intros Hb%in_data_range. destruct G. unfold in_bitmap. lia. Qed.

Lemma inode_block_not_bitmap i : 0 <= i < inode_max fs ->
  ~ in_bitmap (data_bitmap fs) (inode_block fs i) /\ ~ in_bitmap (inode_bitmap fs) (inode_block fs i) /\ ~ in_data fs da (inode_block fs i).
Proof. intros Hi. pose proof (inode_block_range i Hi). destruct G. unfold in_bitmap, in_data. lia. Qed.
End positions.

(** ** The invariant *)

Section invariant.
Context {St : Type} `{SL : BlockStoreLaws St}.
Implicit Types (s : St) (fs : BlockManager) (ino : DiskInode) (I : gmap Z DiskInode) (F : Z -> list Z).

Definition tail_zero F ino : Prop := drop (Z.to_nat (size ino)) (raw F ino) = zeros (length (raw F ino) - Z.to_nat (size ino)).

(** One inode and what it owns. *)
Record owns F fs da ino : Prop := {
  ow_good : DiskInode_good ino;
  ow_size : 0 <= size ino <= MAX_SIZE;
  ow_nodup : NoDup (blocks_of F ino);
  ow_data b : b ∈ blocks_of F ino -> in_data fs da b;
  ow_tail : tail_zero F ino;
}.

(** The super block says where everything is. *)
Definition super_of (b : list Z) fs : Prop :=
  exists sb, decode pod_SuperBlock (slice b 0 24) = Some sb /\ SuperBlock_valid sb = true /\
    manager_of (inode_bitmap_blocks sb) (inode_area_blocks sb) (data_bitmap_blocks sb) = fs.

(** The inodes in use are [I]. *)
Record fs_view F fs nb da I : Prop := {
  fv_geo : geometry fs nb da;
  fv_super : super_of (F 0) fs;
  fv_bits i : 0 <= i < inode_max fs -> bitmap_bit F (inode_bitmap fs) i = true <-> is_Some (I !! i);
  fv_ino i ino : I !! i = Some ino -> 0 <= i < inode_max fs /\ ino_at F fs i = Some ino /\ owns F fs da ino;
  fv_slot i : 0 <= i < inode_max fs -> is_Some (ino_at F fs i);
  fv_disjoint i j ino ino' b : I !! i = Some ino -> I !! j = Some ino' -> b ∈ blocks_of F ino -> b ∈ blocks_of F ino' -> i = j;
  fv_used b : in_data fs da b -> used F fs b = true <-> exists i ino, I !! i = Some ino /\ b ∈ blocks_of F ino;
  fv_free b : in_data fs da b -> used F fs b = false -> F b = zero_block;
}.

(** The state between two calls: no block is open. *)
Record fs_inv s fs da I : Prop := {
  fi_ok : bs_ok s;
  fi_held : bs_held s = [];
  fi_view : fs_view (bs_view s) fs (bs_blocks s) da I;
}.

(** The files as their users see them. *)
Definition files F I : gmap Z (DiskInodeType * list Z) := (fun ino => (type_ ino, contents F ino)) <$> I.

(** ** Frames *)

Lemma blocks_ext F G ino : (forall e, e ∈ blocks_of F ino -> F e = G e) ->
  inode_list G ino (nblocks ino) = inode_list F ino (nblocks ino).
Proof.
  intros HF. symmetry. apply inode_list_ext. intros e He. apply HF, list_elem_of_fmap. by exists (Idx e).
Qed.

Lemma data_ids_blocks F ino b : b ∈ data_ids F ino -> b ∈ blocks_of F ino.
Proof. apply datas_bid. Qed.

(** An inode whose blocks are unchanged. *)
Lemma inode_frame F G ino : (forall e, e ∈ blocks_of F ino -> F e = G e) ->
  blocks_of G ino = blocks_of F ino /\ raw G ino = raw F ino /\ contents G ino = contents F ino.
Proof.
  intros HF. pose proof (blocks_ext F G ino HF) as El.
  assert (Er : raw G ino = raw F ino).
  { unfold raw, data_ids. rewrite El. f_equal. apply list_fmap_ext. intros k b Hb. symmetry. apply HF, data_ids_blocks.
    by apply list_elem_of_lookup_2 with k. }
  unfold blocks_of, contents. rewrite El, Er. split; [|split]; reflexivity.
Qed.

Lemma owns_frame F G fs da ino : (forall e, e ∈ blocks_of F ino -> F e = G e) -> owns F fs da ino -> owns G fs da ino.
Proof.
  intros HF [Hg Hz Hnd Hd Ht]. destruct (inode_frame F G ino HF) as (Eb & Er & _).
  split; unfold tail_zero; rewrite ?Eb, ?Er; assumption.
Qed.

(** Views that agree on the blocks of the store. *)
Definition agree (nb : Z) F G : Prop := forall b, 0 <= b < nb -> G b = F b.

Section agree.
Context (F G : Z -> list Z) (fs : BlockManager) (nb da : Z) (Geo : geometry fs nb da) (HA : agree nb F G).

Lemma agree_data b : in_data fs da b -> G b = F b.
Proof. intros Hb. apply HA. pose proof (in_data_range fs nb da Geo b Hb). destruct Geo. lia. Qed.

Lemma agree_frame ino : owns F fs da ino ->
  blocks_of G ino = blocks_of F ino /\ raw G ino = raw F ino /\ contents G ino = contents F ino.
Proof. intros Hown. apply inode_frame. intros e He. symmetry. apply agree_data, (ow_data _ _ _ _ Hown e He). Qed.

Lemma agree_owns ino : owns F fs da ino -> owns G fs da ino.
Proof.
  intros Hown. apply (owns_frame F); [|exact Hown]. intros e He. symmetry. apply agree_data, (ow_data _ _ _ _ Hown e He).
Qed.

Lemma agree_bit bm c : 0 <= start_block_id bm -> start_block_id bm + blocks bm <= nb -> 0 <= c < blocks bm * BLOCK_BITS ->
  bitmap_bit G bm c = bitmap_bit F bm c.
Proof.
  intros H1 H2 Hc. unfold bitmap_bit. rewrite HA; [done|].
  assert (E : BLOCK_BITS = 4096) by reflexivity. rewrite E in *. Z.to_euclidean_division_equations. lia.
Qed.

Lemma agree_used b : in_data fs da b -> used G fs b = used F fs b.
Proof. intros Hb. apply agree_bit; [destruct Geo; lia..|]. apply (in_data_range fs nb da Geo b Hb). Qed.

Lemma agree_ino i : 0 <= i < inode_max fs -> ino_at G fs i = ino_at F fs i.
Proof. intros Hi. unfold ino_at. rewrite HA; [done|]. apply (inode_block_range fs nb da Geo i Hi). Qed.

Lemma agree_files I : (forall i ino, I !! i = Some ino -> owns F fs da ino) -> files G I = files F I.
Proof.
  intros HI. unfold files. apply map_fmap_ext. intros i ino Hi. cbn. f_equal. apply agree_frame. by apply (HI i).
Qed.

Lemma agree_view I : fs_view F fs nb da I -> fs_view G fs nb da I.
Proof.
  intros [_ Hsup Hbits Hino Hslot Hdis Hused Hfree].
  assert (Hb : forall i ino, I !! i = Some ino -> blocks_of G ino = blocks_of F ino).
  { intros i ino Hi. apply agree_frame. by apply (Hino i). }
  split; [exact Geo|rewrite HA by (destruct Geo; lia); exact Hsup| | | | | |].
  - intros i Hi. rewrite agree_bit; [by apply Hbits|destruct Geo; lia..|exact Hi].
  - intros i ino Hi. destruct (Hino i ino Hi) as (Hr & Hat & Hown). split; [exact Hr|].
    split; [by rewrite agree_ino|by apply agree_owns].
  - intros i Hi. rewrite agree_ino by exact Hi. by apply Hslot.
  - intros i j ino ino' b Hi Hj. rewrite (Hb i ino Hi), (Hb j ino' Hj). by apply Hdis.
  - intros b Hd. rewrite agree_used, Hused by exact Hd. split; intros (i & ino & Hi & Hin); exists i, ino;
      (split; [exact Hi|]); [by rewrite (Hb i)|by rewrite (Hb i) in Hin].
  - intros b Hd. rewrite agree_used, agree_data by exact Hd. by apply Hfree.
Qed.
End agree.

(** ** One inode changes *)

(** From [F] to [F'] inode [i] goes from [ino] to [ino']: it may take free blocks
    and must clear those it gives back. *)
Record inode_update F fs da (i : Z) ino F' ino' : Prop := {
  iu_super : F' 0 = F 0;
  iu_owns : owns F' fs da ino';
  iu_slot : F' (inode_block fs i) = splice (F (inode_block fs i)) (inode_off i) (encode pod_DiskInode ino');
  iu_inodes j : 0 <= j < inode_max fs -> inode_block fs j <> inode_block fs i -> F' (inode_block fs j) = F (inode_block fs j);
  iu_ibm b : in_bitmap (inode_bitmap fs) b -> F' b = F b;
  iu_new b : b ∈ blocks_of F' ino' -> b ∈ blocks_of F ino \/ used F fs b = false;
  iu_other b : in_data fs da b -> b ∉ blocks_of F ino -> b ∉ blocks_of F' ino' -> F' b = F b;
  iu_freed b : b ∈ blocks_of F ino -> b ∉ blocks_of F' ino' -> F' b = zero_block;
  iu_used b : in_data fs da b ->
    used F' fs b = true <-> b ∈ blocks_of F' ino' \/ (used F fs b = true /\ b ∉ blocks_of F ino);
}.

Lemma slice_splice_inner {A} (l d : list A) (lo n : nat) :
  (length d <= n)%nat -> (lo + n <= length l)%nat -> slice (splice l lo d) lo n = splice (slice l lo n) 0 d.
Proof.
  intros Hd Hl. apply list_eq. intros k. assert (Hs : length (slice l lo n) = n) by (by apply length_slice).
  destruct (decide (k < n)%nat).
  - rewrite lookup_slice by done. destruct (decide (k < length d)%nat).
    + rewrite !lookup_splice_in by lia. f_equal. lia.
    + rewrite !lookup_splice_out by lia. by rewrite lookup_slice.
  - rewrite !lookup_ge_None_2; [done| |]; rewrite ?length_splice, ?length_slice; rewrite ?length_splice; lia.
Qed.

Lemma ino_at_bitmap_bit F G b : (forall j, in_bitmap b j -> G j = F j) -> forall c, 0 <= c < blocks b * BLOCK_BITS ->
  bitmap_bit G b c = bitmap_bit F b c.
Proof.
  intros HF c Hc. unfold bitmap_bit. rewrite HF; [done|]. unfold in_bitmap.
  assert (E : BLOCK_BITS = 4096) by reflexivity. rewrite E in *. Z.to_euclidean_division_equations. lia.
Qed.

(** The slots of the other inodes. *)
Lemma ino_at_other F F' fs i j ino' :
  length (F (inode_block fs i)) = block_size -> DiskInode_good ino' ->
  F' (inode_block fs i) = splice (F (inode_block fs i)) (inode_off i) (encode pod_DiskInode ino') ->
  (inode_block fs j <> inode_block fs i -> F' (inode_block fs j) = F (inode_block fs j)) ->
  ino_at F' fs j = if decide (j = i) then Some ino' else ino_at F fs j.
Proof.
  intros Hlen Hg Hslot Hother. pose proof (pod_fits (pod_laws := DiskInode_laws) ino' Hg) as Hfit.
  change (size_of pod_DiskInode) with 128%nat in Hfit. unfold block_size in Hlen.
  destruct (inode_off_range i) as [Hoi Hzi], (inode_off_range j) as [Hoj Hzj].
  unfold ino_at. destruct (decide (j = i)) as [->|Hne].
  - rewrite Hslot, slice_splice_inner by lia. apply (pod_read (pod_laws := DiskInode_laws) ino' _ Hg). apply length_slice. rewrite Hlen. exact Hoi.
  - destruct (decide (inode_block fs j = inode_block fs i)) as [Eb|Eb]; [|by rewrite Hother].
    rewrite Eb, Hslot. rewrite slice_splice_disjoint; [done|lia|lia|].
    assert (j mod 4 <> i mod 4) by (intros Em; apply Hne; by apply (inode_pos_inj fs)).
    pose proof (Z.mod_pos_bound i 4 ltac:(lia)). pose proof (Z.mod_pos_bound j 4 ltac:(lia)). lia.
Qed.

Section update.
Context (F F' : Z -> list Z) (fs : BlockManager) (nb da i : Z) (ino ino' : DiskInode) (I : gmap Z DiskInode).
Context (HV : fs_view F fs nb da I) (Hi : I !! i = Some ino) (HU : inode_update F fs da i ino F' ino').

Lemma other_blocks j jno e : I !! j = Some jno -> j <> i -> e ∈ blocks_of F jno ->
  F e = F' e /\ e ∉ blocks_of F ino /\ e ∉ blocks_of F' ino'.
Proof.
  intros Hj Hne He. destruct (fv_ino _ _ _ _ _ HV j jno Hj) as (_ & _ & Hown). pose proof (ow_data _ _ _ _ Hown e He) as Hd.
  assert (Hn : e ∉ blocks_of F ino).
  { intros He'. apply Hne. symmetry. exact (fv_disjoint _ _ _ _ _ HV i j ino jno e Hi Hj He' He). }
  assert (Hn' : e ∉ blocks_of F' ino').
  { intros He'. destruct (iu_new _ _ _ _ _ _ _ HU e He') as [?|Hu]; [contradiction|].
    assert (Ht : used F fs e = true) by (apply (fv_used _ _ _ _ _ HV e Hd); by exists j, jno). congruence. }
  split; [|split; assumption]. symmetry. exact (iu_other _ _ _ _ _ _ _ HU e Hd Hn Hn').
Qed.

Lemma other_frame j jno : I !! j = Some jno -> j <> i ->
  blocks_of F' jno = blocks_of F jno /\ raw F' jno = raw F jno /\ contents F' jno = contents F jno.
Proof. intros Hj Hne. apply inode_frame. intros e He. by apply (other_blocks j jno e). Qed.

Lemma update_files : files F' (<[i := ino']> I) = <[i := (type_ ino', contents F' ino')]> (files F I).
Proof.
  unfold files. rewrite fmap_insert. apply map_eq. intros j. destruct (decide (i = j)) as [<-|Hne].
  - by rewrite !lookup_insert_eq.
  - rewrite !lookup_insert_ne, !lookup_fmap by done. destruct (I !! j) as [jno|] eqn:Hj; [|reflexivity]. cbn. f_equal. f_equal.
    apply (other_frame j jno Hj). congruence.
Qed.

Lemma fs_update : length (F (inode_block fs i)) = block_size -> fs_view F' fs nb da (<[i := ino']> I).
Proof.
  intros Hlen. pose proof (fv_geo _ _ _ _ _ HV) as G. destruct (fv_ino _ _ _ _ _ HV i ino Hi) as (Hir & Hat & Hown).
  assert (Hslot : forall j, 0 <= j < inode_max fs -> ino_at F' fs j = if decide (j = i) then Some ino' else ino_at F fs j).
  { intros j Hj. apply ino_at_other; [exact Hlen|apply HU|apply HU|]. by apply (iu_inodes _ _ _ _ _ _ _ HU). }
  assert (HI : forall j jno, <[i := ino']> I !! j = Some jno -> (j = i /\ jno = ino') \/ (j <> i /\ I !! j = Some jno)).
  { intros j jno. destruct (decide (i = j)) as [<-|Hne]; [rewrite lookup_insert_eq; intros [= <-]; by left|].
    rewrite lookup_insert_ne by done. intros Hj. right. split; [congruence|exact Hj]. }
  assert (Hused : forall b, in_data fs da b -> used F' fs b = true <-> exists j jno, <[i := ino']> I !! j = Some jno /\ b ∈ blocks_of F' jno).
  { intros b Hb. rewrite (iu_used _ _ _ _ _ _ _ HU b Hb). split.
    - intros [Hin|[Hu Hn]]; [exists i, ino'; split; [apply lookup_insert_eq|exact Hin]|].
      apply (fv_used _ _ _ _ _ HV b Hb) in Hu as (j & jno & Hj & Hin). assert (j <> i) as Hne by congruence.
      exists j, jno. rewrite lookup_insert_ne by congruence. split; [exact Hj|]. by rewrite (proj1 (other_frame j jno Hj Hne)).
    - intros (j & jno & [[-> ->]|[Hne Hj]]%HI & Hin); [by left|]. right.
      rewrite (proj1 (other_frame j jno Hj Hne)) in Hin. split; [apply (fv_used _ _ _ _ _ HV b Hb); by exists j, jno|].
      by apply (other_blocks j jno b). }
  split; [exact G|rewrite (iu_super _ _ _ _ _ _ _ HU); apply HV| | | | |exact Hused|].
  - intros j Hj. rewrite (ino_at_bitmap_bit F F' (inode_bitmap fs) (iu_ibm _ _ _ _ _ _ _ HU)) by exact Hj.
    rewrite (fv_bits _ _ _ _ _ HV j Hj). rewrite lookup_insert_is_Some'. split; [by right|].
    intros [<-|?]; [by rewrite Hi|done].
  - intros j jno [[-> ->]|[Hne Hj]]%HI.
    + split; [exact Hir|]. split; [by rewrite Hslot, decide_True|apply HU].
    + destruct (fv_ino _ _ _ _ _ HV j jno Hj) as (Hjr & Hjat & Hjown). split; [exact Hjr|]. split; [by rewrite Hslot, decide_False|].
      apply (owns_frame F F'); [|exact Hjown]. intros e He. by apply (other_blocks j jno e).
  - intros j Hj. rewrite Hslot by exact Hj. destruct (decide (j = i)); [by eexists|]. by apply (fv_slot _ _ _ _ _ HV).
  - intros j k jno kno b Hj Hk Hbj Hbk. destruct (HI j jno Hj) as [[-> ->]|[Hne Hj']], (HI k kno Hk) as [[-> ->]|[Hnk Hk']];
      [reflexivity|exfalso|exfalso|].
    + rewrite (proj1 (other_frame k kno Hk' Hnk)) in Hbk. by destruct (other_blocks k kno b Hk' Hnk Hbk) as (_ & _ & ?).
    + rewrite (proj1 (other_frame j jno Hj' Hne)) in Hbj. by destruct (other_blocks j jno b Hj' Hne Hbj) as (_ & _ & ?).
    + rewrite (proj1 (other_frame j jno Hj' Hne)) in Hbj. rewrite (proj1 (other_frame k kno Hk' Hnk)) in Hbk.
      exact (fv_disjoint _ _ _ _ _ HV j k jno kno b Hj' Hk' Hbj Hbk).
  - intros b Hb Hu. assert (Hn' : b ∉ blocks_of F' ino').
    { intros Hin. assert (used F' fs b = true) by (apply (iu_used _ _ _ _ _ _ _ HU b Hb); by left). congruence. }
    destruct (decide (b ∈ blocks_of F ino)) as [Hin|Hn]; [exact (iu_freed _ _ _ _ _ _ _ HU b Hin Hn')|].
    rewrite (iu_other _ _ _ _ _ _ _ HU b Hb Hn Hn'). apply (fv_free _ _ _ _ _ HV b Hb).
    destruct (used F fs b) eqn:E; [|reflexivity].
    assert (used F' fs b = true) by (apply (iu_used _ _ _ _ _ _ _ HU b Hb); right; split; [exact E|exact Hn]). congruence.
Qed.
End update.
End invariant.
