(* ===== verification/FsBlocks.v ===== *)
(** Data blocks of a file system: [alloc_data] and [dealloc_data] of
    [components/src/micro_fs/mfs.rs], and the loops of [vfs.rs] that call them. *)
From Stdlib Require Import ZifyNat.
From S2P Require Import Prelude BlockCache DiskWords Bitmap Layout Codecs InodeBlocks InodeData FileData Mfs Vfs FsInv.

(** The free data blocks, in the order in which they are allocated. *)
Definition is_free (F : Z -> list Z) (fs : BlockManager) (c : Z) : Prop := bitmap_bit F (data_bitmap fs) c = false.
#[export] Instance is_free_dec F fs c : Decision (is_free F fs c).
Proof. unfold is_free. apply _. Defined.
Definition free_ids (F : Z -> list Z) (fs : BlockManager) (da : Z) : list Z := filter (is_free F fs) (seqZ 0 da).
Definition free_blocks (F : Z -> list Z) (fs : BlockManager) (da : Z) : list Z :=
  (fun c => c + data_area_start_block fs) <$> free_ids F fs da.

Lemma NoDup_seqZ_filter {P : Z -> Prop} `{forall x, Decision (P x)} a n : NoDup (filter P (seqZ a n)).
Proof. apply NoDup_filter. unfold seqZ. apply NoDup_fmap; [intros x y; lia|apply NoDup_seq]. Qed.

Lemma filter_in {A} (P Q : A -> Prop) `{forall x, Decision (P x)} `{forall x, Decision (Q x)} (l : list A) :
  (forall x, x ∈ l -> P x <-> Q x) -> filter P l = filter Q l.
Proof.
  induction l as [|x l IH]; intros HPQ; [done|]. rewrite !filter_cons.
  rewrite IH by (intros y Hy; apply HPQ; by right). specialize (HPQ x ltac:(by left)).
  destruct (decide (P x)), (decide (Q x)); tauto || done.
Qed.
Lemma filter_all {A} (P : A -> Prop) `{forall x, Decision (P x)} (l : list A) : (forall x, x ∈ l -> P x) -> filter P l = l.
Proof.
  induction l as [|x l IH]; intros HP; [done|]. rewrite filter_cons_True by (apply HP; by left). f_equal.
  apply IH. intros y Hy. apply HP. by right.
Qed.

Lemma filter_seqZ_first {P : Z -> Prop} `{forall x, Decision (P x)} n c rest :
  filter P (seqZ 0 n) = c :: rest -> 0 <= c < n /\ P c /\ forall d, 0 <= d < c -> ~ P d.
Proof.
  intros E. assert (Hc : c ∈ filter P (seqZ 0 n)) by (rewrite E; by left).
  apply list_elem_of_filter in Hc as [HP Hc%elem_of_seqZ]. split; [lia|]. split; [done|]. intros d Hd HPd.
  replace n with (Z.of_nat (Z.to_nat c) + (n - c)) in E by lia. rewrite seqZ_app, filter_app in E by lia.
  assert (Hin : d ∈ filter P (seqZ 0 (Z.of_nat (Z.to_nat c)))) by (apply list_elem_of_filter; split; [done|apply elem_of_seqZ; lia]).
  destruct (filter P (seqZ 0 (Z.of_nat (Z.to_nat c)))) as [|x l] eqn:El; [by apply elem_of_nil in Hin|].
  injection E as -> _. assert (Hx : c ∈ c :: l) by (by left). rewrite <- El in Hx.
  apply list_elem_of_filter in Hx as [_ Hx%elem_of_seqZ]. lia.
Qed.

Section data_blocks.
Context {St : Type} `{SL : BlockStoreLaws St}.
Implicit Types (s : St) (fs : BlockManager) (F : Z -> list Z).

Lemma fs_bitmap_at s fs da :
  geometry fs (bs_blocks s) da -> (forall j, in_bitmap (data_bitmap fs) j -> j ∉ bs_held s) ->
  (length (bs_held s) < BLOCK_CACHE_SIZE)%nat -> bitmap_at s (data_bitmap fs).
Proof. intros [] Hfree Hroom. split; try done; unfold BLOCK_BITS, BLOCK_SZ in *; lia. Qed.

Lemma data_maximum fs nb da : geometry fs nb da -> maximum (data_bitmap fs) = blocks (data_bitmap fs) * BLOCK_BITS.
Proof. intros []. unfold maximum. apply u64_small. unfold BLOCK_BITS, BLOCK_SZ in *. lia. Qed.

(** What an allocation or a return leaves: the bits, and all blocks outside the bitmap. *)
Lemma alloc_data_run s fs da c rest :
  bs_ok s -> bitmap_at s (data_bitmap fs) -> geometry fs (bs_blocks s) da -> free_ids (bs_view s) fs da = c :: rest ->
  exists s', alloc_data fs s = Ret (c + data_area_start_block fs) s' /\ steps s s' /\ bitmap_at s' (data_bitmap fs) /\
    (forall j, blk_in s j -> ~ in_bitmap (data_bitmap fs) j -> bs_view s' j = bs_view s j) /\
    (forall d, 0 <= d < blocks (data_bitmap fs) * BLOCK_BITS ->
       bitmap_bit (bs_view s') (data_bitmap fs) d = bitmap_bit (bs_view s) (data_bitmap fs) d || (d =? c)) /\
    free_ids (bs_view s') fs da = rest.
Proof.
  intros Hok Hbm G Hfree. pose proof (data_maximum _ _ _ G) as Hmax.
  destruct (filter_seqZ_first _ _ _ Hfree) as (Hc & HP & Hbefore). unfold is_free in HP, Hbefore.
  destruct (Bitmap_alloc_run s (data_bitmap fs) Hok Hbm) as (o & s' & E & Hst & Hbm' & Hout & Ho). rewrite Hmax in Ho.
  pose proof (geo_da _ _ _ G) as Hda. pose proof (geo_end _ _ _ G) as Hend. pose proof (geo_small _ _ _ G) as Hsm.
  assert (Hst0 : 0 <= data_area_start_block fs) by (destruct G; lia).
  destruct o as [c'|]; [|destruct Ho as [Hall _]; rewrite Hall in HP by lia; discriminate HP].
  destruct Ho as (Hc' & Hf & Hb & Hbits).
  assert (c' = c) as ->.
  { destruct (Z.lt_trichotomy c' c) as [Hlt|[?|Hlt]]; [|done|].
    - destruct (Hbefore c'); [lia|exact Hf].
    - rewrite Hb in HP by lia. discriminate HP. }
  exists s'. split; [|split; [exact Hst|split; [exact Hbm'|split; [exact Hout|split; [exact Hbits|]]]]].
  - unfold alloc_data. rewrite (bind_Ret _ _ _ _ _ E). cbn [unwrap]. unfold bind, ret. by rewrite !u32_small by (rewrite ?u32_small; lia).
  - assert (Hx : free_ids (bs_view s') fs da = filter (fun d => d <> c) (free_ids (bs_view s) fs da)).
    { unfold free_ids. rewrite list_filter_filter. apply filter_in.
      intros d Hd%elem_of_seqZ. unfold is_free. rewrite Hbits by lia. rewrite orb_false_iff, Z.eqb_neq. tauto. }
    rewrite Hx, Hfree. assert (Hnd : NoDup (c :: rest)) by (rewrite <- Hfree; apply NoDup_seqZ_filter).
    apply NoDup_cons in Hnd as [Hn _]. rewrite filter_cons_False by (intros Hc0; by apply Hc0).
    apply filter_all. intros d Hd ->. contradiction.
Qed.

Lemma alloc_blocks_run s fs da (n : nat) v :
  bs_ok s -> bitmap_at s (data_bitmap fs) -> geometry fs (bs_blocks s) da -> (n <= length (free_ids (bs_view s) fs da))%nat ->
  exists s', alloc_blocks fs n v s = Ret (v ++ take n (free_blocks (bs_view s) fs da)) s' /\ steps s s' /\
    (forall j, blk_in s j -> ~ in_bitmap (data_bitmap fs) j -> bs_view s' j = bs_view s j) /\
    (forall d, 0 <= d < blocks (data_bitmap fs) * BLOCK_BITS -> bitmap_bit (bs_view s') (data_bitmap fs) d = true <->
       bitmap_bit (bs_view s) (data_bitmap fs) d = true \/ d ∈ take n (free_ids (bs_view s) fs da)) /\
    free_ids (bs_view s') fs da = drop n (free_ids (bs_view s) fs da).
Proof.
  revert s v. induction n as [|n IH]; intros s v Hok Hbm G Hn; cbn [alloc_blocks].
  - exists s. rewrite take_0, app_nil_r. split; [done|]. split; [by apply steps_refl|]. split; [done|]. split; [|done].
    intros d Hd. rewrite take_0. split; [by left|]. intros [?|?%elem_of_nil]; done.
  - unfold free_blocks. destruct (free_ids (bs_view s) fs da) as [|c rest] eqn:Hfree; [cbn in Hn; lia|]. cbn in Hn.
    destruct (alloc_data_run s fs da c rest Hok Hbm G Hfree) as (s1 & E1 & Hst1 & Hbm1 & Hout1 & Hbits1 & Hf1).
    rewrite (bind_Ret _ _ _ _ _ E1).
    assert (G1 : geometry fs (bs_blocks s1) da) by (by rewrite (ev_blocks _ _ _ Hst1)).
    destruct (IH s1 (v ++ [c + data_area_start_block fs]) (ev_ok _ _ _ Hst1) Hbm1 G1 ltac:(rewrite Hf1; lia))
      as (s2 & E2 & Hst2 & Hout2 & Hbits2 & Hf2).
    exists s2. rewrite E2. unfold free_blocks. rewrite Hf1 in *. split; [by rewrite <- app_assoc|].
    split; [by apply (steps_trans s s1)|]. split; [|split; [|exact Hf2]].
    + intros j Hj Hnb. rewrite Hout2, Hout1; try done. unfold blk_in in *. by rewrite (ev_blocks _ _ _ Hst1).
    + intros d Hd. rewrite Hbits2, Hbits1 by done. cbn [take]. rewrite elem_of_cons, orb_true_iff, Z.eqb_eq. tauto.
Qed.

Lemma clear_block_run s b :
  bs_ok s -> openable s b -> exists s', clear_block b s = Ret tt s' /\ evolves s (upd (bs_view s) b zero_block) s'.
Proof.
  intros Hok Hop. pose proof (bs_view_ok s b Hok (can_in _ _ Hop)) as [Hl _]. set (d := bs_view s b) in *.
  assert (Hz : (fun _ => 0) <$> d = zero_block).
  { unfold zero_block, zeros. rewrite <- Hl. clear. induction d as [|x d IH]; [reflexivity|]. cbn. by f_equal. }
  destruct (modify_in_pure DataBlock s b 0 (fun data_block => ret (tt, (fun _ => 0) <$> data_block)) d tt zero_block)
    as (s' & E & Hev); [exact Hok|exact Hop|lia|done|..].
  - cbn [decode DataBlock pod_bytes size_of]. f_equal. by apply slice_all.
  - cbn [encode DataBlock pod_bytes]. apply Forall_replicate. unfold is_byte. lia.
  - cbn [encode DataBlock pod_bytes size_of]. unfold id, zero_block, zeros. by rewrite length_replicate.
  - intros s1. unfold ret. by rewrite Hz.
  - exists s'. split; [exact E|]. cbn [encode DataBlock pod_bytes] in Hev. unfold id in Hev.
    rewrite splice_all in Hev; [exact Hev|]. fold d. unfold zero_block, zeros. by rewrite length_replicate.
Qed.

Lemma dealloc_data_run s fs da b :
  bs_ok s -> bitmap_at s (data_bitmap fs) -> geometry fs (bs_blocks s) da -> in_data fs da b -> openable s b ->
  used (bs_view s) fs b = true ->
  exists s', dealloc_data fs b s = Ret tt s' /\ steps s s' /\ bs_view s' b = zero_block /\
    (forall j, blk_in s j -> ~ in_bitmap (data_bitmap fs) j -> j <> b -> bs_view s' j = bs_view s j) /\
    (forall c, in_data fs da c -> used (bs_view s') fs c = used (bs_view s) fs c && negb (c =? b)).
Proof.
  intros Hok Hbm G Hb Hop Hu. destruct (in_data_range fs (bs_blocks s) da G b Hb) as [Hbr Hbb].
  destruct (not_in_data_bitmap fs (bs_blocks s) da G b Hb) as [Hnb _]. pose proof (data_maximum _ _ _ G) as Hmax.
  destruct (clear_block_run s b Hok Hop) as (s1 & E1 & Hev1). unfold dealloc_data. rewrite (bind_Ret _ _ _ _ _ E1).
  pose proof (bitmap_at_evolves s _ s1 _ Hev1 Hbm) as Hbm1. set (c0 := b - data_area_start_block fs) in *.
  assert (Hbits1 : forall c, 0 <= c < blocks (data_bitmap fs) * BLOCK_BITS ->
    bitmap_bit (bs_view s1) (data_bitmap fs) c = bitmap_bit (bs_view s) (data_bitmap fs) c).
  { apply ino_at_bitmap_bit. intros j Hj. rewrite (ev_view _ _ _ Hev1).
    - apply upd_ne. intros ->. contradiction.
    - apply (bitmap_openable s _ j Hbm Hj). }
  assert (Hu1 : bitmap_bit (bs_view s1) (data_bitmap fs) c0 = true) by (rewrite Hbits1 by exact Hbb; exact Hu).
  pose proof (Bitmap_dealloc_run s1 (data_bitmap fs) c0 (ev_ok _ _ _ Hev1) Hbm1) as Hd. rewrite Hmax, Hu1 in Hd.
  destruct (Hd Hbb) as (s2 & E2 & Hst2 & _ & Hout2 & Hbits2).
  rewrite u32_small by (destruct G; unfold c0 in *; lia). exists s2. split; [exact E2|].
  split; [eapply steps_trans; [by eapply evolves_steps|exact Hst2]|].
  assert (Hblk : forall j, blk_in s j -> ~ in_bitmap (data_bitmap fs) j -> bs_view s2 j = bs_view s1 j).
  { intros j Hj Hn. apply Hout2; [|exact Hn]. unfold blk_in in Hj. by rewrite (ev_blocks _ _ _ Hev1). }
  split; [|split].
  - rewrite Hblk, (ev_view _ _ _ Hev1); [apply upd_eq|apply Hop|apply Hop|exact Hnb].
  - intros j Hj Hn Hne. rewrite Hblk, (ev_view _ _ _ Hev1) by done. by apply upd_ne.
  - intros c Hc. destruct (in_data_range fs (bs_blocks s) da G c Hc) as [_ Hcc]. unfold used. rewrite Hbits2, Hbits1 by exact Hcc.
    f_equal. f_equal. unfold c0. destruct (Z.eqb_spec (c - data_area_start_block fs) (b - data_area_start_block fs)), (Z.eqb_spec c b); lia || done.
Qed.

Lemma dealloc_blocks_run l s fs da :
  bs_ok s -> bitmap_at s (data_bitmap fs) -> geometry fs (bs_blocks s) da -> NoDup l ->
  (forall b, b ∈ l -> in_data fs da b /\ openable s b /\ used (bs_view s) fs b = true) ->
  exists s', for_each l (dealloc_data fs) s = Ret tt s' /\ steps s s' /\ (forall b, b ∈ l -> bs_view s' b = zero_block) /\
    (forall j, blk_in s j -> ~ in_bitmap (data_bitmap fs) j -> j ∉ l -> bs_view s' j = bs_view s j) /\
    (forall c, in_data fs da c -> used (bs_view s') fs c = true <-> used (bs_view s) fs c = true /\ c ∉ l).
Proof.
  revert s. induction l as [|b l IH]; intros s Hok Hbm G Hnd Hl; cbn [for_each].
  - exists s. split; [done|]. split; [by apply steps_refl|]. split; [intros b Hb; by apply elem_of_nil in Hb|]. split; [done|].
    intros c Hc. split; [|by intros [? _]]. intros Hu. split; [done|apply not_elem_of_nil].
  - apply NoDup_cons in Hnd as [Hb Hnd]. destruct (Hl b ltac:(by left)) as (Hbd & Hop & Hu).
    destruct (dealloc_data_run s fs da b Hok Hbm G Hbd Hop Hu) as (s1 & E1 & Hst1 & Hz1 & Hout1 & Hused1).
    rewrite (bind_Ret _ _ _ _ _ E1).
    assert (G1 : geometry fs (bs_blocks s1) da) by (by rewrite (ev_blocks _ _ _ Hst1)).
    destruct (IH s1 (ev_ok _ _ _ Hst1) (bitmap_at_evolves _ _ _ _ Hst1 Hbm) G1 Hnd) as (s2 & E2 & Hst2 & Hz2 & Hout2 & Hused2).
    { intros c Hc. destruct (Hl c ltac:(by right)) as (Hcd & Hcop & Hcu). split; [exact Hcd|].
      split; [by apply (evolves_openable _ _ _ _ Hst1)|]. rewrite Hused1, Hcu by exact Hcd.
      rewrite (proj2 (Z.eqb_neq c b)); [done|]. intros ->. contradiction. }
    exists s2. split; [exact E2|]. split; [by apply (steps_trans s s1)|].
    assert (Hin1 : forall j, blk_in s j -> blk_in s1 j) by (intros j Hj; unfold blk_in in *; by rewrite (ev_blocks _ _ _ Hst1)).
    split; [|split].
    + intros c [->|Hc]%elem_of_cons; [|by apply Hz2]. rewrite Hout2; [exact Hz1|apply Hin1, Hop| |exact Hb].
      by apply (not_in_data_bitmap fs (bs_blocks s) da G b Hbd).
    + intros j Hj Hn Hjl. apply not_elem_of_cons in Hjl as [Hjb Hjl]. rewrite Hout2, Hout1; auto.
    + intros c Hc. rewrite Hused2, Hused1 by exact Hc. rewrite andb_true_iff, negb_true_iff, Z.eqb_neq, not_elem_of_cons. tauto.
Qed.
End data_blocks.
