(* ===== verification/FsFiles.v ===== *)
(** Files of a file system: reading, writing and clearing through the virtual
    inodes of [components/src/micro_fs/vfs.rs], against a map from inode numbers to
    types and contents. *)
From Stdlib Require Import ZifyNat.
From S2P Require Import Prelude BlockCache DiskWords Bitmap Layout Codecs InodeFields InodeBlocks InodeData FileData Mfs Vfs FsInv FsBlocks.

(** The handle of inode [i]. *)
Definition handle (fs : BlockManager) (i : Z) : Inode := Inode_new (disk_inode_pos fs i).

Section modify.
Context {St : Type} `{SL : BlockStoreLaws St}.
Implicit Types (s : St) (fs : BlockManager) (ino : DiskInode) (I : gmap Z DiskInode) (F : Z -> list Z).

(** What the closure of [modify_disk_inode] does to the store while the block of
    the inode is open. *)
Record body_update F fs nb da ino F' ino' : Prop := {
  bu_owns : owns F' fs da ino';
  bu_meta b : 0 <= b < nb -> ~ in_data fs da b -> ~ in_bitmap (data_bitmap fs) b -> F' b = F b;
  bu_new b : b ∈ blocks_of F' ino' -> b ∈ blocks_of F ino \/ used F fs b = false;
  bu_other b : in_data fs da b -> b ∉ blocks_of F ino -> b ∉ blocks_of F' ino' -> F' b = F b;
  bu_freed b : b ∈ blocks_of F ino -> b ∉ blocks_of F' ino' -> F' b = zero_block;
  bu_used b : in_data fs da b ->
    used F' fs b = true <-> b ∈ blocks_of F' ino' \/ (used F fs b = true /\ b ∉ blocks_of F ino);
}.

(** Writing the inode back completes the update. *)
Lemma body_slot F fs nb da i ino F2 ino' F' :
  geometry fs nb da -> 0 <= i < inode_max fs -> owns F fs da ino -> body_update F fs nb da ino F2 ino' ->
  (forall b, 0 <= b < nb -> F' b = upd F2 (inode_block fs i) (splice (F (inode_block fs i)) (inode_off i) (encode pod_DiskInode ino')) b) ->
  inode_update F fs da i ino F' ino' /\ contents F' ino' = contents F2 ino'.
Proof.
  intros G Hi Hown0 [Hown Hmeta Hnew Hother Hfreed Hused] HF'.
  destruct (inode_block_range fs nb da G i Hi) as [_ Hblk]. destruct (inode_block_not_bitmap fs nb da G i Hi) as (Hnd & Hni & Hnda).
  assert (Hne : forall b, 0 <= b < nb -> b <> inode_block fs i -> F' b = F2 b).
  { intros b Hb Hneq. rewrite HF' by exact Hb. by apply upd_ne. }
  assert (Hdata : forall b, in_data fs da b -> F' b = F2 b).
  { intros b Hb. pose proof (in_data_range fs nb da G b Hb) as [Hr _]. apply Hne; [destruct G; lia|]. intros ->. contradiction. }
  destruct (inode_frame F2 F' ino') as (Eb & _ & Ec).
  { intros e He. symmetry. apply Hdata, (ow_data _ _ _ _ Hown e He). }
  assert (Hu : forall b, in_data fs da b -> used F' fs b = used F2 fs b).
  { intros b Hb. apply ino_at_bitmap_bit; [|apply (in_data_range fs nb da G b Hb)]. intros j Hj. apply Hne.
    - destruct G. unfold in_bitmap in Hj. lia.
    - intros ->. contradiction. }
  split; [|exact Ec]. split; rewrite ?Eb.
  - pose proof (inode_block_range fs nb da G i Hi). rewrite Hne; [apply Hmeta|..]; destruct G; unfold in_data, in_bitmap; lia.
  - apply (owns_frame F2); [|exact Hown]. intros e He. symmetry. apply Hdata, (ow_data _ _ _ _ Hown e He).
  - rewrite HF' by exact Hblk. apply upd_eq.
  - intros j Hj Hneq. destruct (inode_block_range fs nb da G j Hj) as [_ Hjb].
    destruct (inode_block_not_bitmap fs nb da G j Hj) as (? & ? & ?). rewrite Hne by assumption. by apply Hmeta.
  - intros b Hb. assert (Hbr : 0 <= b < nb) by (destruct G; unfold in_bitmap in Hb; lia).
    rewrite Hne; [|exact Hbr|intros ->; contradiction]. apply Hmeta; [exact Hbr|..]; destruct G; unfold in_bitmap, in_data in *; lia.
  - exact Hnew.
  - intros b Hb Hn1 Hn2. rewrite Hdata by exact Hb. by apply Hother.
  - intros b Hb Hn. rewrite Hdata by (by apply (ow_data _ _ _ _ Hown0)). by apply Hfreed.
  - intros b Hb. rewrite Hu by exact Hb. by apply Hused.
Qed.

(** The same for a view that agrees on the store. *)
Lemma body_update_ext F G fs nb da ino F' ino' :
  geometry fs nb da -> owns F fs da ino -> agree nb F G -> body_update G fs nb da ino F' ino' -> body_update F fs nb da ino F' ino'.
Proof.
  intros Geo Hown HA [Hown' Hmeta Hnew Hother Hfreed Hused]. destruct (agree_frame F G fs nb da Geo HA ino Hown) as (Eb & _ & _).
  rewrite Eb in Hnew, Hother, Hfreed. split; [exact Hown'| | | |exact Hfreed|].
  - intros b Hb H1 H2. rewrite <- HA by exact Hb. by apply Hmeta.
  - intros b Hb. rewrite <- (agree_used F G fs nb da Geo HA) by (by apply (ow_data _ _ _ _ Hown')). by apply Hnew.
  - intros b Hb H1 H2. rewrite <- (agree_data F G fs nb da Geo HA) by exact Hb. by apply Hother.
  - intros b Hb. rewrite <- (agree_used F G fs nb da Geo HA) by exact Hb. rewrite <- Eb. by apply Hused.
Qed.

(** Opening the block of an inode in use. *)
Lemma inode_openable s fs da I i ino :
  fs_inv s fs da I -> I !! i = Some ino ->
  0 <= i < inode_max fs /\ openable s (inode_block fs i) /\ owns (bs_view s) fs da ino /\
  decode pod_DiskInode (slice (bs_view s (inode_block fs i)) (Z.to_nat (i mod 4 * 128)) (size_of pod_DiskInode)) = Some ino /\
  disk_inode_pos fs i = (inode_block fs i, i mod 4 * 128).
Proof.
  intros [Hok Hh HV] Hi. destruct (fv_ino _ _ _ _ _ HV i ino Hi) as (Hr & Hat & Hown). pose proof (fv_geo _ _ _ _ _ HV) as G.
  split; [exact Hr|]. split; [|split; [exact Hown|split; [exact Hat|by apply (disk_inode_pos_eq fs (bs_blocks s) da G)]]].
  split; [apply (inode_block_range fs (bs_blocks s) da G i Hr)|rewrite Hh; apply not_elem_of_nil|].
  rewrite Hh. cbn. unfold BLOCK_CACHE_SIZE. lia.
Qed.

Lemma inode_room i : 0 <= i mod 4 * 128 /\ i mod 4 * 128 + Z.of_nat (size_of pod_DiskInode) <= BLOCK_SZ.
Proof. pose proof (Z.mod_pos_bound i 4 ltac:(lia)). unfold BLOCK_SZ. cbn [size_of pod_DiskInode]. lia. Qed.

Lemma inode_modify {V} s fs da I i ino (f : DiskInode -> M St (V * DiskInode)) :
  fs_inv s fs da I -> I !! i = Some ino ->
  exists s1, opened s (inode_block fs i) s1 /\
    forall v ino' s2, f ino s1 = Ret (v, ino') s2 -> steps s1 s2 ->
      body_update (bs_view s1) fs (bs_blocks s1) da ino (bs_view s2) ino' ->
      exists s', modify_disk_inode (handle fs i) f s = Ret v s' /\ fs_inv s' fs da (<[i := ino']> I) /\
        files (bs_view s') (<[i := ino']> I) = <[i := (type_ ino', contents (bs_view s2) ino')]> (files (bs_view s) I) /\
        bs_blocks s' = bs_blocks s /\
        (forall b, blk_in s b -> b <> inode_block fs i -> bs_view s' b = bs_view s2 b).
Proof.
  intros HI Hi. destruct (inode_openable s fs da I i ino HI Hi) as (Hr & Hop & Hown & Hdec & Hpos).
  destruct (inode_room i) as [Ho1 Ho2]. pose proof HI as [Hok Hh HV]. pose proof (fv_geo _ _ _ _ _ HV) as G.
  destruct (modify_in_open pod_DiskInode s (inode_block fs i) (i mod 4 * 128) f ino Hok Hop Ho1 Ho2 Hdec) as (s1 & Hs1 & Hrun).
  exists s1. split; [exact Hs1|]. intros v ino' s2 E Hst HB.
  assert (HA : agree (bs_blocks s) (bs_view s) (bs_view s1)) by (intros b Hb; by apply Hs1).
  assert (HB' : body_update (bs_view s) fs (bs_blocks s) da ino (bs_view s2) ino').
  { apply (body_update_ext _ (bs_view s1)); [exact G|exact Hown|exact HA|]. by rewrite <- (op_blocks _ _ _ Hs1). }
  pose proof (ow_good _ _ _ _ (bu_owns _ _ _ _ _ _ _ HB)) as Hgood.
  destruct (Hrun v ino' s2 (bs_view s2) E Hst (pod_bytes_ok (pod_laws := DiskInode_laws) ino')
    (pod_fits (pod_laws := DiskInode_laws) ino' Hgood)) as (s' & E' & Hev).
  destruct (body_slot (bs_view s) fs (bs_blocks s) da i ino (bs_view s2) ino' (bs_view s') G Hr Hown HB') as [HU Ec].
  { intros b Hb. apply Hev. exact Hb. }
  exists s'. unfold modify_disk_inode, handle, Inode_new. rewrite Hpos. cbn [v_block_id v_block_offset fst snd].
  split; [exact E'|]. split; [|split; [|split; [apply Hev|]]].
  - split; [apply Hev|rewrite (ev_held _ _ _ Hev); exact Hh|]. rewrite (ev_blocks _ _ _ Hev).
    apply (fs_update (bs_view s) _ fs _ da i ino ino' I HV Hi HU). apply (bs_view_ok s); [exact Hok|apply Hop].
  - rewrite (update_files (bs_view s) _ fs _ da i ino ino' I HV Hi HU), Ec. reflexivity.
  - intros b Hb Hne. rewrite (ev_view _ _ _ Hev) by exact Hb. by apply upd_ne.
Qed.
End modify.
