(* ===== verification/FsGrow.v ===== *)
(** Growing a file through [Inode::increase_size] of [components/src/micro_fs/vfs.rs]:
    free blocks are zero, so the file grows by zeros. *)
From Stdlib Require Import ZifyNat.
From S2P Require Import Prelude BlockCache DiskWords Bitmap Layout Codecs InodeFields InodeBlocks InodeData FileData Mfs Vfs FsInv FsBlocks FsFiles.

Lemma zeros_app a b : zeros (a + b) = zeros a ++ zeros b.
Proof. apply replicate_add. Qed.
Lemma length_zeros n : length (zeros n) = n.
Proof. apply length_replicate. Qed.
Lemma join_zeros (l : list (list Z)) : Forall (eq zero_block) l -> mjoin l = zeros (length l * block_size).
Proof.
  induction 1 as [|b l Hb _ IH]; [reflexivity|]. cbn [length]. rewrite Nat.mul_succ_l, Nat.add_comm, zeros_app, <- IH, <- Hb. reflexivity.
Qed.

Section grow.
Context {St : Type} `{SL : BlockStoreLaws St}.
Implicit Types (s : St) (fs : BlockManager) (ino : DiskInode) (I : gmap Z DiskInode) (F : Z -> list Z).

(** The open blocks are none that growth needs. *)
Record hold_ok s fs da : Prop := {
  ho_held b : b ∈ bs_held s -> ~ in_data fs da b /\ ~ in_bitmap (data_bitmap fs) b;
  ho_room : (S (length (bs_held s)) < BLOCK_CACHE_SIZE)%nat;
}.

Lemma hold_openable s fs da b :
  geometry fs (bs_blocks s) da -> hold_ok s fs da -> in_data fs da b -> openable s b.
Proof.
  intros G [Hh Hroom] Hb. split.
  - pose proof (in_data_range fs _ da G b Hb). destruct G. unfold blk_in. lia.
  - intros Hin. by destruct (Hh b Hin).
  - lia.
Qed.

Lemma hold_bitmap s fs da : geometry fs (bs_blocks s) da -> hold_ok s fs da -> bitmap_at s (data_bitmap fs).
Proof.
  intros G [Hh Hroom]. apply (fs_bitmap_at s fs da G); [|lia]. intros j Hj Hin. by destruct (Hh j Hin).
Qed.

(** A free block is a data block that is zero and owned by nobody. *)
Lemma free_blocks_spec F fs nb da I (n : nat) :
  fs_view F fs nb da I ->
  NoDup (take n (free_blocks F fs da)) /\
  (forall b, b ∈ take n (free_blocks F fs da) -> in_data fs da b /\ used F fs b = false /\ F b = zero_block) /\
  (forall b, in_data fs da b -> b ∈ take n (free_blocks F fs da) <-> b - data_area_start_block fs ∈ take n (free_ids F fs da)).
Proof.
  intros HV. unfold free_blocks. rewrite <- fmap_take. split; [|split].
  - apply NoDup_fmap; [intros x y; lia|]. apply (sublist_NoDup _ (free_ids F fs da)); [unfold free_ids; apply NoDup_seqZ_filter|apply sublist_take].
  - intros b (c & -> & Hc)%list_elem_of_fmap. eapply elem_of_take in Hc as (k & Hk & _).
    apply list_elem_of_lookup_2, list_elem_of_filter in Hk as [Hf Hc%elem_of_seqZ].
    assert (Hd : in_data fs da (c + data_area_start_block fs)) by (unfold in_data; lia).
    assert (Hu : used F fs (c + data_area_start_block fs) = false).
    { unfold used. replace (c + data_area_start_block fs - data_area_start_block fs) with c by lia. exact Hf. }
    split; [exact Hd|]. split; [exact Hu|]. exact (fv_free _ _ _ _ _ HV _ Hd Hu).
  - intros b _. rewrite list_elem_of_fmap. split.
    + intros (c & -> & Hc). by replace (c + data_area_start_block fs - data_area_start_block fs) with c by lia.
    + intros Hc. exists (b - data_area_start_block fs). split; [lia|exact Hc].
Qed.

Lemma owned_used F fs nb da I i ino b : fs_view F fs nb da I -> I !! i = Some ino -> b ∈ blocks_of F ino -> used F fs b = true.
Proof.
  intros HV Hi Hb. apply (fv_used _ _ _ _ _ HV); [|by exists i, ino].
  by apply (ow_data _ _ _ _ (proj2 (proj2 (fv_ino _ _ _ _ _ HV i ino Hi)))).
Qed.

(** After the blocks are taken from the bitmap, the inode can grow into them. *)
Lemma grow_pre_fs s s1 fs da I i ino (n : nat) :
  fs_view (bs_view s) fs (bs_blocks s) da I -> I !! i = Some ino -> bs_ok s -> hold_ok s fs da -> steps s s1 ->
  (forall j, blk_in s j -> ~ in_bitmap (data_bitmap fs) j -> bs_view s1 j = bs_view s j) ->
  inode_pre s1 ino (nblocks ino) (take n (free_blocks (bs_view s) fs da)) /\
  inode_list (bs_view s1) ino (nblocks ino) = inode_list (bs_view s) ino (nblocks ino).
Proof.
  intros HV Hi Hok Hho Hst Hout. pose proof (fv_geo _ _ _ _ _ HV) as G. destruct (fv_ino _ _ _ _ _ HV i ino Hi) as (_ & _ & Hown).
  destruct (free_blocks_spec _ _ _ _ _ n HV) as (Hnd & Hfree & _). set (v := take n _) in *.
  assert (El : inode_list (bs_view s1) ino (nblocks ino) = inode_list (bs_view s) ino (nblocks ino)).
  { apply blocks_ext. intros e He. pose proof (ow_data _ _ _ _ Hown e He) as Hd. symmetry. apply Hout.
    - by apply (hold_openable s fs da).
    - by apply (not_in_data_bitmap fs _ da G). }
  split; [|exact El]. destruct (size_nblocks ino (ow_size _ _ _ _ Hown)) as [_ Hn].
  split; [apply Hst| |apply (ow_good _ _ _ _ Hown)|exact Hn| | |]; rewrite ?El.
  - unfold small_store. rewrite (ev_blocks _ _ _ Hst). destruct G. lia.
  - apply NoDup_app. split; [apply (ow_nodup _ _ _ _ Hown)|]. split; [|exact Hnd]. intros b Hb Hbv.
    destruct (Hfree b Hbv) as (_ & Hu & _). pose proof (owned_used _ _ _ _ _ i ino b HV Hi Hb). congruence.
  - intros b Hb. apply (evolves_openable _ _ _ _ Hst). apply (hold_openable s fs da b G Hho).
    apply elem_of_app in Hb as [Hb|Hb]; [by apply (ow_data _ _ _ _ Hown)|by apply Hfree].
  - rewrite (ev_held _ _ _ Hst). apply Hho.
Qed.

(** The bytes after growth. *)
Lemma grown_raw F F' ino ino' tl :
  inode_list F' ino' (nblocks ino') = inode_list F ino (nblocks ino) ++ tl -> NoDup (blocks_of F' ino') ->
  (forall b, b ∈ blocks_of F' ino' -> b ∉ idxs (inode_list F' ino' (nblocks ino')) -> F' b = F b) ->
  (forall b, b ∈ bid <$> tl -> F b = zero_block) ->
  raw F' ino' = raw F ino ++ zeros (length (datas tl) * block_size).
Proof.
  intros El Hnd Hframe Hz.
  assert (HF : forall b, b ∈ data_ids F' ino' -> F' b = F b).
  { intros b Hb. apply Hframe; [by apply data_ids_blocks|]. intros Hi. exact (idxs_datas_disjoint b _ Hnd Hi Hb). }
  assert (Ed : data_ids F' ino' = data_ids F ino ++ datas tl) by (unfold data_ids; rewrite El; apply datas_app).
  unfold raw. rewrite (list_fmap_ext F' F) by (intros k b Hb; apply HF; by apply list_elem_of_lookup_2 with k).
  rewrite Ed, fmap_app, join_app. f_equal. rewrite join_zeros; [by rewrite length_fmap|].
  apply Forall_fmap, Forall_forall. intros b Hb. symmetry. apply Hz. by apply datas_bid.
Qed.

Lemma tail_split F ino : tail_zero F ino -> raw F ino = contents F ino ++ zeros (length (raw F ino) - Z.to_nat (size ino)).
Proof. intros Ht. unfold contents. rewrite <- Ht. symmetry. apply take_drop. Qed.

Lemma zeros_lengths c (a n : nat) : (n <= length c + a)%nat -> (length c <= n)%nat ->
  take n (c ++ zeros a) = c ++ zeros (n - length c) /\ drop n (c ++ zeros a) = zeros (length c + a - n).
Proof.
  intros H1 H2. split.
  - rewrite take_app, take_ge by lia. f_equal. unfold zeros. rewrite take_replicate. f_equal. lia.
  - rewrite drop_app_ge by lia. unfold zeros. rewrite drop_replicate. f_equal. lia.
Qed.

Lemma blocks_num_needed_run ino new_size s :
  0 <= size ino <= new_size -> new_size <= MAX_SIZE ->
  blocks_num_needed ino new_size s = Ret (total_blocks new_size - total_blocks (size ino)) s /\
  0 <= total_blocks new_size - total_blocks (size ino).
Proof.
  intros Hz Hmax. unfold blocks_num_needed. rewrite bind_assert by (apply Z.leb_le; lia).
  destruct (data_blocks_nat (size ino) ltac:(lia)) as [_ H1]. destruct (data_blocks_nat new_size ltac:(lia)) as [_ H2].
  pose proof (data_blocks_mono (size ino) new_size ltac:(lia) Hmax) as Hm. rewrite !total_blocks_cnt by lia.
  set (a := Z.to_nat (_data_blocks (size ino))) in *. set (b := Z.to_nat (_data_blocks new_size)) in *.
  pose proof (cnt_mono a b ltac:(lia)) as Hc. assert (Hb : Z.of_nat (cnt b) < 2 ^ 32).
  { unfold cnt, cnt2. destruct (155 <? b)%nat, (27 <? b)%nat; dlia. }
  split; [|lia]. unfold ret. by rewrite u32_small by lia.
Qed.

Record grew s fs da ino new_size ino' s' : Prop := {
  gw_steps : steps s s';
  gw_body : body_update (bs_view s) fs (bs_blocks s) da ino (bs_view s') ino';
  gw_ok : inode_ok s' ino';
  gw_type : type_ ino' = type_ ino;
  gw_size : size ino' = new_size;
  gw_contents : contents (bs_view s') ino' = contents (bs_view s) ino ++ zeros (Z.to_nat (new_size - size ino));
  gw_free : free_ids (bs_view s') fs da =
    drop (Z.to_nat (total_blocks new_size - total_blocks (size ino))) (free_ids (bs_view s) fs da);
}.

(** The update seen from the list of new blocks. *)
Lemma grown_body s s1 s' fs da I i ino ino' v :
  fs_view (bs_view s) fs (bs_blocks s) da I -> I !! i = Some ino -> bs_blocks s' = bs_blocks s ->
  blocks_of (bs_view s') ino' = blocks_of (bs_view s) ino ++ v ->
  owns (bs_view s') fs da ino' ->
  (forall b, b ∈ v -> used (bs_view s) fs b = false) ->
  (forall b, blk_in s b -> b ∉ blocks_of (bs_view s') ino' -> bs_view s' b = bs_view s1 b) ->
  (forall b, blk_in s b -> ~ in_bitmap (data_bitmap fs) b -> bs_view s1 b = bs_view s b) ->
  (forall b, in_data fs da b -> used (bs_view s1) fs b = true <-> used (bs_view s) fs b = true \/ b ∈ v) ->
  body_update (bs_view s) fs (bs_blocks s) da ino (bs_view s') ino'.
Proof.
  intros HV Hi Hbl Eb Hown' Hv Hfr Hout Hused. pose proof (fv_geo _ _ _ _ _ HV) as G.
  assert (Hin : forall b, in_data fs da b -> blk_in s b).
  { intros b Hb. pose proof (in_data_range fs _ da G b Hb). destruct G. unfold blk_in. lia. }
  assert (Hnew : forall b, ~ in_data fs da b -> b ∉ blocks_of (bs_view s') ino').
  { intros b Hb Hc. by apply Hb, (ow_data _ _ _ _ Hown'). }
  split; [exact Hown'| | | | |].
  - intros b Hb H1 H2. rewrite Hfr by auto. by apply Hout.
  - intros b. rewrite Eb. intros [Hb|Hb]%elem_of_app; [by left|right; by apply Hv].
  - intros b Hb H1 H2. rewrite Hfr by auto. apply Hout; [by apply Hin|]. by apply (not_in_data_bitmap fs _ da G).
  - intros b Hb Hn. destruct Hn. rewrite Eb. apply elem_of_app. by left.
  - intros b Hb. assert (Eu : used (bs_view s') fs b = used (bs_view s1) fs b).
    { apply ino_at_bitmap_bit; [|apply (in_data_range fs _ da G b Hb)]. intros j Hj. apply Hfr.
      - destruct G. unfold in_bitmap in Hj. unfold blk_in. lia.
      - apply Hnew. intros Hd. by destruct (not_in_data_bitmap fs _ da G j Hd). }
    rewrite Eu, Hused, Eb, elem_of_app by exact Hb. split.
    + intros [Hu|Hu]; [|left; by right]. destruct (decide (b ∈ blocks_of (bs_view s) ino)); [left; by left|by right].
    + intros [[Hu|Hu]|[Hu _]]; [left; by apply (owned_used _ _ _ _ _ i ino b HV Hi)|by right|by left].
Qed.

Lemma grow_run s fs da I i ino new_size :
  fs_view (bs_view s) fs (bs_blocks s) da I -> I !! i = Some ino -> bs_ok s -> hold_ok s fs da ->
  size ino <= new_size <= MAX_SIZE ->
  (Z.to_nat (total_blocks new_size - total_blocks (size ino)) <= length (free_ids (bs_view s) fs da))%nat ->
  exists ino' s', Inode_increase_size fs new_size ino s = Ret ino' s' /\ grew s fs da ino new_size ino' s'.
Proof.
  intros HV Hi Hok Hho Hz Hfree. pose proof (fv_geo _ _ _ _ _ HV) as G. destruct (fv_ino _ _ _ _ _ HV i ino Hi) as (_ & _ & Hown).
  pose proof (ow_size _ _ _ _ Hown) as Hsz. unfold Inode_increase_size. rewrite (proj2 (Z.ltb_ge _ _)) by lia.
  destruct (blocks_num_needed_run ino new_size s ltac:(lia) ltac:(lia)) as [En Hpos]. rewrite (bind_Ret _ _ _ _ _ En).
  set (n := Z.to_nat _) in *. destruct (alloc_blocks_run s fs da n [] Hok (hold_bitmap s fs da G Hho) G Hfree)
    as (s1 & E1 & Hst1 & Hout1 & Hbits1 & Hf1). rewrite (bind_Ret _ _ _ _ _ E1). rewrite app_nil_l.
  destruct (grow_pre_fs s s1 fs da I i ino n HV Hi Hok Hho Hst1 Hout1) as [Hp El1].
  destruct (free_blocks_spec _ _ _ _ _ n HV) as (Hnd & Hv & Hvid). set (v := take n (free_blocks _ _ _)) in *.
  assert (Hlv : length v = n) by (unfold v, free_blocks; rewrite length_take, length_fmap; lia).
  destruct (increase_size_run s1 ino new_size v Hp ltac:(lia) ltac:(lia)) as (ino' & s2 & E2 & Hg); [rewrite Hlv; unfold n; lia|].
  exists ino', s2. split; [exact E2|].
  assert (Hp0 : inode_pre s1 (set_size new_size ino) (nblocks ino) v) by (destruct Hp; split; assumption).
  destruct (data_blocks_nat new_size ltac:(lia)) as [_ H16].
  pose proof (grown_pre _ _ _ _ _ _ _ _ Hp0 Hg ltac:(lia)) as Hp2.
  destruct Hg as [Hst2 (tl & Hl & Htl) Hd Hz2 Hy Hfr]. rewrite app_nil_r in Htl. cbn [size type_ set_size] in Hz2, Hy.
  assert (Hnb : nblocks ino' = Z.to_nat (_data_blocks new_size)) by (unfold nblocks, data_blocks; by rewrite Hz2).
  rewrite <- Hnb in Hl, Hfr, Hp2. change (inode_list (bs_view s1) (set_size new_size ino) (nblocks ino))
    with (inode_list (bs_view s1) ino (nblocks ino)) in Hl. rewrite El1 in Hl.
  assert (Hio : inode_ok s2 ino') by (split; [rewrite Hz2; lia|exact Hp2]).
  assert (Eb : blocks_of (bs_view s2) ino' = blocks_of (bs_view s) ino ++ v) by (unfold blocks_of; rewrite Hl, fmap_app, <- Htl; reflexivity).
  pose proof (inode_bids_NoDup s2 ino' Hio) as Hnd2. fold (blocks_of (bs_view s2) ino') in Hnd2.
  assert (Hin : forall b, b ∈ blocks_of (bs_view s2) ino' -> in_data fs da b).
  { intros b. rewrite Eb. intros [Hb|Hb]%elem_of_app; [by apply (ow_data _ _ _ _ Hown)|by apply Hv]. }
  assert (Hblk : forall b, blk_in s b -> blk_in s1 b) by (intros b Hb; unfold blk_in in *; by rewrite (ev_blocks _ _ _ Hst1)).
  assert (Hframe : forall b, b ∈ blocks_of (bs_view s2) ino' -> b ∉ idxs (inode_list (bs_view s2) ino' (nblocks ino')) ->
    bs_view s2 b = bs_view s b).
  { intros b Hb Hn. assert (Hbs : blk_in s b) by (apply (hold_openable s fs da b G Hho), Hin, Hb).
    rewrite Hfr by auto. apply Hout1; [exact Hbs|]. apply (not_in_data_bitmap fs _ da G b), Hin, Hb. }
  pose proof (grown_raw (bs_view s) (bs_view s2) ino ino' tl Hl Hnd2 Hframe) as Hraw.
  rewrite (tail_split _ _ (ow_tail _ _ _ _ Hown)) in Hraw.
  rewrite <- app_assoc, <- zeros_app in Hraw. specialize (Hraw ltac:(intros b Hb; rewrite <- Htl in Hb; by apply Hv)).
  set (a := (_ + _)%nat) in Hraw. set (c := contents (bs_view s) ino) in *.
  destruct (size_nblocks ino Hsz) as [Hsn _]. destruct (size_nblocks ino' ltac:(rewrite Hz2; lia)) as [Hsn' _].
  assert (Hlc : length c = Z.to_nat (size ino)).
  { unfold c, contents. rewrite length_take. unfold raw. rewrite (length_join block_size).
    - rewrite length_fmap. unfold data_ids. rewrite length_data_ids by (apply Hp0 || apply (ow_good _ _ _ _ Hown)). lia.
    - apply Forall_fmap, Forall_forall. intros b Hb. apply (bs_view_ok s b Hok).
      apply (hold_openable s fs da b G Hho), (ow_data _ _ _ _ Hown), data_ids_blocks, Hb. }
  assert (Hla : (length c + a = nblocks ino' * block_size)%nat).
  { rewrite <- (length_raw s2 ino' Hio), Hraw, length_app, length_zeros. reflexivity. }
  rewrite Hz2 in Hsn'. destruct (zeros_lengths c a (Z.to_nat new_size) ltac:(lia) ltac:(lia)) as [Ht Hdr].
  assert (Hown' : owns (bs_view s2) fs da ino').
  { split; [|rewrite Hz2; lia|exact Hnd2|exact Hin|].
    - apply (increase_size_fields (fun x => 0 <= x < 256 ^ Z.of_nat 4) ino new_size v s1 ino' s2 E2); [apply Hown| |].
      + unfold MAX_SIZE in Hz. change INDIRECT2_BOUND with 16539 in Hz. unfold BLOCK_SZ in Hz. lia.
      + apply Forall_forall. intros b Hb. destruct (Hv b Hb) as [Hb' _]. pose proof (in_data_range fs _ da G b Hb'). destruct G. lia.
    - unfold tail_zero. rewrite Hraw, Hz2, Hdr, length_app, length_zeros. reflexivity. }
  split; [by apply (steps_trans s s1)| |exact Hio|exact Hy|exact Hz2| |].
  - apply (grown_body s s1 s2 fs da I i ino ino' v HV Hi); [|exact Eb|exact Hown'|by intros b Hb; apply Hv| |exact Hout1|].
    + by rewrite (ev_blocks _ _ _ Hst2), (ev_blocks _ _ _ Hst1).
    + intros b Hb Hn. apply Hfr; [by apply Hblk|]. intros Hx. by apply Hn, idxs_bid.
    + intros b Hb. unfold used. rewrite Hbits1 by (apply (in_data_range fs _ da G b Hb)). by rewrite <- Hvid.
  - unfold contents. rewrite Hraw, Hz2, Ht, Hlc. f_equal. f_equal. lia.
  - fold n. rewrite <- Hf1. apply filter_in. intros d Hdz%elem_of_seqZ. unfold is_free. rewrite (ino_at_bitmap_bit (bs_view s1)); [done| |destruct G; lia].
    intros j Hj. apply Hfr; [apply Hblk; destruct G; unfold in_bitmap in Hj; unfold blk_in; lia|].
    intros Hx%idxs_bid. exact (proj1 (not_in_data_bitmap fs _ da G j (Hin j Hx)) Hj).
Qed.

(** An inode in use can be read and written. *)
Lemma fs_inode_ok s fs da I i ino :
  fs_view (bs_view s) fs (bs_blocks s) da I -> I !! i = Some ino -> bs_ok s -> hold_ok s fs da -> inode_ok s ino.
Proof.
  intros HV Hi Hok Hho. destruct (fv_ino _ _ _ _ _ HV i ino Hi) as (_ & _ & Hown). split; [apply Hown|].
  destruct (grow_pre_fs s s fs da I i ino 0 HV Hi Hok Hho (steps_refl s Hok)) as [Hp _]; [done|]. exact Hp.
Qed.

Lemma body_update_refl s fs da I i ino :
  fs_view (bs_view s) fs (bs_blocks s) da I -> I !! i = Some ino ->
  body_update (bs_view s) fs (bs_blocks s) da ino (bs_view s) ino.
Proof.
  intros HV Hi. split; [apply (fv_ino _ _ _ _ _ HV i ino Hi)|intros; reflexivity|intros; by left|intros; reflexivity|intros; contradiction|].
  intros b Hb. split.
  - intros Hu. destruct (decide (b ∈ blocks_of (bs_view s) ino)); [by left|by right].
  - intros [Hin|[Hu _]]; [by apply (owned_used _ _ _ _ _ i ino b HV Hi)|exact Hu].
Qed.

(** [Inode::increase_size] never shrinks a file. *)
Lemma grow_or_keep s fs da I i ino new_size :
  fs_view (bs_view s) fs (bs_blocks s) da I -> I !! i = Some ino -> bs_ok s -> hold_ok s fs da ->
  new_size <= MAX_SIZE ->
  (Z.to_nat (total_blocks (Z.max (size ino) new_size) - total_blocks (size ino)) <= length (free_ids (bs_view s) fs da))%nat ->
  exists ino' s', Inode_increase_size fs new_size ino s = Ret ino' s' /\ grew s fs da ino (Z.max (size ino) new_size) ino' s'.
Proof.
  intros HV Hi Hok Hho Hmax Hfree. destruct (Z.lt_ge_cases new_size (size ino)) as [Hlt|Hge].
  - unfold Inode_increase_size. rewrite (proj2 (Z.ltb_lt _ _) Hlt). exists ino, s. split; [reflexivity|]. rewrite Z.max_l by lia.
    split; [by apply steps_refl|by apply (body_update_refl s fs da I i)|by apply (fs_inode_ok s fs da I i)|reflexivity|reflexivity|..].
    + rewrite Z.sub_diag. cbn. by rewrite app_nil_r.
    + by rewrite Z.sub_diag.
  - rewrite Z.max_r in * by lia. by apply (grow_run s fs da I i).
Qed.

(** Writing after growing. *)
Lemma body_write s F fs da ino ino' o buf s' :
  geometry fs (bs_blocks s) da -> owns F fs da ino -> body_update F fs (bs_blocks s) da ino (bs_view s) ino' ->
  wrote s ino' o buf s' ->
  (o + length buf <= Z.to_nat (size ino'))%nat -> (Z.to_nat (size ino') <= length (raw (bs_view s) ino'))%nat ->
  body_update F fs (bs_blocks s) da ino (bs_view s') ino'.
Proof.
  intros G Hown0 [Hown Hmeta Hnew Hother Hfreed Hused] [_ Hst Hl Hr Hfr] Hlen Hraw.
  assert (Eb : blocks_of (bs_view s') ino' = blocks_of (bs_view s) ino') by (unfold blocks_of; by rewrite Hl).
  assert (Hout : forall b, 0 <= b < bs_blocks s -> b ∉ blocks_of (bs_view s) ino' -> bs_view s' b = bs_view s b).
  { intros b Hb Hn. apply Hfr; [exact Hb|]. intros Hx. by apply Hn, data_ids_blocks. }
  assert (Hrange : forall b, in_data fs da b -> 0 <= b < bs_blocks s).
  { intros b Hb. pose proof (in_data_range fs _ da G b Hb). destruct G. lia. }
  assert (Hu : forall b, in_data fs da b -> used (bs_view s') fs b = used (bs_view s) fs b).
  { intros b Hb. apply ino_at_bitmap_bit; [|apply (in_data_range fs _ da G b Hb)]. intros j Hj. apply Hout.
    - destruct G. unfold in_bitmap in Hj. lia.
    - intros Hx. exact (proj1 (not_in_data_bitmap fs _ da G j (ow_data _ _ _ _ Hown j Hx)) Hj). }
  split; rewrite ?Eb; [| |exact Hnew| | |].
  - destruct Hown as [H1 H2 H3 H4 H5]. split; rewrite ?Eb; [exact H1|exact H2|exact H3|exact H4|].
    unfold tail_zero in *. rewrite Hr, length_splice, <- H5 by lia. unfold splice. rewrite app_assoc, drop_app_ge, length_app, length_take by (rewrite length_app, length_take; lia).
    rewrite drop_drop. f_equal. lia.
  - intros b Hb H1 H2. rewrite Hout; [by apply Hmeta|exact Hb|]. intros Hx. by apply H1, (ow_data _ _ _ _ Hown).
  - intros b Hb H1 H2. rewrite Hout by auto. by apply Hother.
  - intros b Hb Hn. rewrite Hout; [by apply Hfreed| |exact Hn]. by apply Hrange, (ow_data _ _ _ _ Hown0).
  - intros b Hb. rewrite Hu by exact Hb. by apply Hused.
Qed.
End grow.
