(* ===== verification/FsSpec.v ===== *)
(** What the file system promises: an abstract file system, a map from inode
    numbers to types and contents with a count of free blocks, and the operations
    of [components/src/micro_fs/vfs.rs] on it. *)
From Stdlib Require Import ZifyNat.
From S2P Require Import Prelude BlockCache DiskWords Bitmap Layout Codecs InodeFields InodeBlocks InodeData FileData Mfs Vfs FsInv FsBlocks FsFiles FsGrow.

(** ** The abstract file system *)

Record afs := { a_files : gmap Z (DiskInodeType * list Z); a_free : nat }.
Definition set_file (i : Z) (f : DiskInodeType * list Z) (a : afs) : afs :=
  {| a_files := <[i := f]> (a_files a); a_free := a_free a |}.
Definition file_blocks (c : list Z) : Z := total_blocks (Z.of_nat (length c)).

(** Writing past the end fills the gap with zeros. *)
Definition write_bytes (c : list Z) (offset : nat) (buf : list Z) : list Z :=
  splice (c ++ zeros (offset + length buf - length c)) offset buf.

(** Growing the contents of a file takes the blocks it needs, if there are enough. *)
Definition a_set_contents (i : Z) (t : DiskInodeType) (c c' : list Z) (a : afs) : option afs :=
  let needed := Z.to_nat (file_blocks c' - file_blocks c) in
  if (Z.of_nat (length c') <=? MAX_SIZE) && (needed <=? a_free a)%nat
  then Some {| a_files := <[i := (t, c')]> (a_files a); a_free := a_free a - needed |} else None.

Definition a_write (i offset : Z) (buf : list Z) (a : afs) : option (Z * afs) :=
  match a_files a !! i with
  | Some (File, c) =>
      if (0 <=? offset) && (0 <? length buf)%nat && forallb (fun b => (0 <=? b) && (b <? 256)) buf then
        a' ← a_set_contents i File c (write_bytes c (Z.to_nat offset) buf) a; Some (Z.of_nat (length buf), a')
      else None
  | _ => None
  end.
Definition a_read (i offset : Z) (buf : list Z) (a : afs) : option ((Z * list Z) * afs) :=
  match a_files a !! i with
  | Some (_, c) =>
      if (0 <=? offset) && (offset + Z.of_nat (length buf) <? 2 ^ 64) then
        let got := take (length buf) (drop (Z.to_nat offset) c) in
        Some ((Z.of_nat (length got), got ++ drop (length got) buf), a)
      else None
  | None => None
  end.
Definition a_clear (i : Z) (a : afs) : option (unit * afs) :=
  match a_files a !! i with
  | Some (File, c) => Some (tt, {| a_files := <[i := (File, [])]> (a_files a); a_free := a_free a + Z.to_nat (file_blocks c) |})
  | _ => None
  end.

(** ** The refinement relation *)

Section refines.
Context {St : Type} `{SL : BlockStoreLaws St}.
Implicit Types (s : St) (fs : BlockManager) (ino : DiskInode) (I : gmap Z DiskInode) (a : afs).

Record represents s fs da a : Prop := {
  rp_inodes : exists I, fs_inv s fs da I /\ a_files a = files (bs_view s) I;
  rp_free : a_free a = length (free_ids (bs_view s) fs da);
}.

(** The contents of an inode in use have the length its size says. *)
Lemma length_contents s fs da I i ino :
  fs_inv s fs da I -> I !! i = Some ino -> length (contents (bs_view s) ino) = Z.to_nat (size ino).
Proof.
  intros [Hok Hh HV] Hi. destruct (fv_ino _ _ _ _ _ HV i ino Hi) as (_ & _ & Hown). pose proof (fv_geo _ _ _ _ _ HV) as G.
  destruct (size_nblocks ino (ow_size _ _ _ _ Hown)) as [Hsn Hn]. unfold contents. rewrite length_take. unfold raw.
  rewrite (length_join block_size), length_fmap.
  - unfold data_ids. rewrite length_data_ids by (exact Hn || apply (ow_good _ _ _ _ Hown)). lia.
  - apply Forall_fmap, Forall_forall. intros b Hb. apply (bs_view_ok s b Hok).
    pose proof (in_data_range fs _ da G b (ow_data _ _ _ _ Hown b (data_ids_blocks _ _ _ Hb))). destruct G. lia.
Qed.

Lemma file_blocks_size s fs da I i ino :
  fs_inv s fs da I -> I !! i = Some ino -> file_blocks (contents (bs_view s) ino) = total_blocks (size ino).
Proof.
  intros HI Hi. unfold file_blocks. rewrite (length_contents s fs da I i ino HI Hi).
  destruct (fv_ino _ _ _ _ _ (fi_view _ _ _ _ HI) i ino Hi) as (_ & _ & Hown). destruct (ow_size _ _ _ _ Hown). by rewrite Z2Nat.id.
Qed.

(** Between calls every block may be opened; inside one, the block of the inode is open. *)
Lemma opened_hold s fs da I i s1 :
  fs_inv s fs da I -> 0 <= i < inode_max fs -> opened s (inode_block fs i) s1 ->
  hold_ok s1 fs da /\ fs_view (bs_view s1) fs (bs_blocks s1) da I /\ bs_ok s1.
Proof.
  intros [Hok Hh HV] Hi Hs1. pose proof (fv_geo _ _ _ _ _ HV) as G. split; [|split; [|apply Hs1]].
  - split; rewrite (op_held _ _ _ Hs1), Hh; [|cbn; unfold BLOCK_CACHE_SIZE; lia].
    intros b ->%list_elem_of_singleton. destruct (inode_block_not_bitmap fs _ da G i Hi) as (? & ? & ?). by split.
  - rewrite (op_blocks _ _ _ Hs1). apply (agree_view (bs_view s)); [exact G| |exact HV]. intros b Hb. by apply Hs1.
Qed.

(** The free blocks are those of the last view the bitmap was written in. *)
Lemma free_agree F G fs nb da : geometry fs nb da -> (forall b, in_bitmap (data_bitmap fs) b -> G b = F b) ->
  free_ids G fs da = free_ids F fs da.
Proof.
  intros Geo HA. apply filter_in. intros d Hd%elem_of_seqZ. unfold is_free.
  rewrite (ino_at_bitmap_bit F); [done|exact HA|destruct Geo; lia].
Qed.

(** One operation on one file: open the inode, run the closure, write back, sync. *)
Lemma op_refines {V} s fs da a I i ino (f : DiskInode -> M St (V * DiskInode)) v a' :
  fs_inv s fs da I -> a_files a = files (bs_view s) I -> I !! i = Some ino ->
  (forall s1, opened s (inode_block fs i) s1 -> hold_ok s1 fs da -> bs_ok s1 -> fs_view (bs_view s1) fs (bs_blocks s1) da I ->
    contents (bs_view s1) ino = contents (bs_view s) ino -> free_ids (bs_view s1) fs da = free_ids (bs_view s) fs da ->
    exists ino' s2, f ino s1 = Ret (v, ino') s2 /\ steps s1 s2 /\
      body_update (bs_view s1) fs (bs_blocks s1) da ino (bs_view s2) ino' /\
      a_files a' = <[i := (type_ ino', contents (bs_view s2) ino')]> (a_files a) /\
      a_free a' = length (free_ids (bs_view s2) fs da)) ->
  exists s', (let! v := modify_disk_inode (handle fs i) f in bs_sync_all ;;; ret v) s = Ret v s' /\ represents s' fs da a' /\
    forall b, 0 <= b < bs_blocks s' -> bs_disk s' b = bs_view s' b.
Proof.
  intros HI Ha Hi Hf. pose proof HI as [Hok Hh HV]. pose proof (fv_geo _ _ _ _ _ HV) as G.
  destruct (fv_ino _ _ _ _ _ HV i ino Hi) as (Hr & _ & Hown).
  destruct (inode_modify s fs da I i ino f HI Hi) as (s1 & Hs1 & Hrun).
  destruct (opened_hold s fs da I i s1 HI Hr Hs1) as (Hho & HV1 & Hok1).
  assert (HA : agree (bs_blocks s) (bs_view s) (bs_view s1)) by (intros b Hb; by apply Hs1).
  destruct (Hf s1 Hs1 Hho Hok1 HV1) as (ino' & s2 & E & Hst & HB & Haf & Hfr).
  { by apply (agree_frame _ _ fs _ da G HA). }
  { apply (free_agree _ _ fs _ da G). intros b Hb. apply HA. destruct G. unfold in_bitmap in Hb. lia. }
  destruct (Hrun v ino' s2 E Hst HB) as (s3 & E3 & HI3 & Hfiles & Hbl & Hrest). rewrite (bind_Ret _ _ _ _ _ E3).
  destruct (bs_sync_run s3 (fi_ok _ _ _ _ HI3) (fi_held _ _ _ _ HI3)) as (s4 & E4 & Hok4 & Hbl4 & Hh4 & Hv4).
  rewrite (bind_Ret _ _ _ _ _ E4). exists s4. split; [reflexivity|].
  assert (HA4 : agree (bs_blocks s3) (bs_view s3) (bs_view s4)) by (intros b Hb; by apply Hv4).
  pose proof (fv_geo _ _ _ _ _ (fi_view _ _ _ _ HI3)) as G3.
  split; [split|].
  - exists (<[i := ino']> I). split; [split; [exact Hok4|exact Hh4|]|].
    + rewrite Hbl4. apply (agree_view (bs_view s3)); [exact G3|exact HA4|apply HI3].
    + rewrite Haf, Ha, <- Hfiles. symmetry. apply (agree_files (bs_view s3) _ fs (bs_blocks s3) da G3 HA4).
      intros j jno Hj. apply (fv_ino _ _ _ _ _ (fi_view _ _ _ _ HI3) j jno Hj).
  - rewrite Hfr. f_equal. symmetry. apply (free_agree _ _ fs _ da G). intros b Hb.
    assert (Hbr : 0 <= b < bs_blocks s) by (destruct G; unfold in_bitmap in Hb; lia).
    rewrite HA4 by (rewrite Hbl; exact Hbr). apply Hrest; [exact Hbr|]. intros ->.
    exact (proj1 (inode_block_not_bitmap fs _ da G i Hr) Hb).
  - intros b Hb. rewrite Hbl4 in Hb. destruct (Hv4 b Hb) as [E1 E2]. congruence.
Qed.

(** The contents of a file that grew to [n] bytes and was then written. *)
Lemma write_bytes_grown c (m o : nat) buf :
  m = Nat.max (length c) (o + length buf) -> splice (c ++ zeros (m - length c)) o buf = write_bytes c o buf.
Proof. intros ->. unfold write_bytes. do 3 f_equal. lia. Qed.

Lemma length_write_bytes c o buf : length (write_bytes c o buf) = Nat.max (length c) (o + length buf).
Proof. unfold write_bytes. rewrite length_splice; rewrite length_app, length_zeros; lia. Qed.

Lemma forallb_bytes buf : forallb (fun b => (0 <=? b) && (b <? 256)) buf = true -> is_bytes buf.
Proof.
  intros Hb. rewrite forallb_forall in Hb. apply Forall_forall. intros x Hx%list_elem_of_In. specialize (Hb x Hx).
  unfold is_byte. lia.
Qed.

(** Growing a file and writing into it, with the block of its inode open. *)
Lemma grow_write s1 fs da I i ino (n : Z) (offset : Z) buf :
  fs_view (bs_view s1) fs (bs_blocks s1) da I -> I !! i = Some ino -> bs_ok s1 -> hold_ok s1 fs da ->
  length (contents (bs_view s1) ino) = Z.to_nat (size ino) ->
  is_bytes buf -> (0 < length buf)%nat -> 0 <= offset -> n = offset + Z.of_nat (length buf) -> n <= MAX_SIZE ->
  let c' := write_bytes (contents (bs_view s1) ino) (Z.to_nat offset) buf in
  let needed := Z.to_nat (file_blocks c' - total_blocks (size ino)) in
  (needed <= length (free_ids (bs_view s1) fs da))%nat ->
  exists ino' s2 s3, Inode_increase_size fs n ino s1 = Ret ino' s2 /\
    DiskInode_write_at ino' offset buf s2 = Ret (Z.of_nat (length buf)) s3 /\
    steps s1 s3 /\ body_update (bs_view s1) fs (bs_blocks s1) da ino (bs_view s3) ino' /\ type_ ino' = type_ ino /\
    contents (bs_view s3) ino' = c' /\ length (free_ids (bs_view s3) fs da) = (length (free_ids (bs_view s1) fs da) - needed)%nat.
Proof.
  intros HV Hi Hok Hho Hlc Hby Hpos Hoff -> Hmax c' needed Hfree. pose proof (fv_geo _ _ _ _ _ HV) as G.
  destruct (fv_ino _ _ _ _ _ HV i ino Hi) as (_ & _ & Hown). pose proof (ow_size _ _ _ _ Hown) as Hsz.
  set (n := offset + Z.of_nat (length buf)) in *. set (m := Z.max (size ino) n).
  assert (Em : file_blocks c' = total_blocks m).
  { unfold file_blocks, c'. rewrite length_write_bytes, Hlc. f_equal. unfold m, n. lia. }
  unfold needed in *. rewrite Em in *.
  destruct (grow_or_keep s1 fs da I i ino n HV Hi Hok Hho Hmax Hfree) as (ino' & s2 & E2 & [Hst2 HB2 Hio2 Hy Hz Hc Hf2]).
  fold m in Hz, Hc, Hf2. exists ino', s2.
  assert (HM : MAX_SIZE < 2 ^ 63) by (vm_compute; reflexivity).
  destruct (write_at_run s2 ino' offset buf Hio2 Hby ltac:(rewrite Hz; unfold m, n; lia) Hpos ltac:(lia)) as (s3 & E3 & Hw).
  replace (Nat.min (length buf) (Z.to_nat (size ino' - offset))) with (length buf) in * by (rewrite Hz; unfold m, n; lia).
  rewrite take_ge in Hw by lia. exists s3. split; [exact E2|]. split; [exact E3|].
  pose proof (ev_blocks _ _ _ Hst2) as Hbl. rewrite <- Hbl in HB2, G.
  assert (Hlr : (Z.to_nat (size ino') <= length (raw (bs_view s2) ino'))%nat).
  { rewrite length_raw by exact Hio2. apply (size_nblocks ino' (io_size _ _ Hio2)). }
  split; [by apply (steps_trans s1 s2), (wr_steps _ _ _ _ _ Hw)|].
  split; [|split; [exact Hy|split]].
  - rewrite <- Hbl. apply (body_write s2 (bs_view s1) fs da ino ino' (Z.to_nat offset) buf s3 G Hown HB2 Hw); [rewrite Hz; unfold m, n; lia|exact Hlr].
  - unfold contents at 1. rewrite (wr_raw _ _ _ _ _ Hw), take_splice_le by (rewrite Hz; unfold m, n; lia).
    fold (contents (bs_view s2) ino'). rewrite Hc. unfold c'.
    rewrite <- (write_bytes_grown _ (Z.to_nat m)) by (rewrite Hlc; unfold m, n; lia). rewrite Hlc. do 3 f_equal. unfold m. lia.
  - rewrite (free_agree (bs_view s2) _ fs _ da G), Hf2, length_drop; [reflexivity|].
    intros b Hb. apply (wr_frame _ _ _ _ _ Hw); [destruct G; unfold in_bitmap in Hb; unfold blk_in; lia|].
    intros Hx%data_ids_blocks. pose proof (ow_data _ _ _ _ (bu_owns _ _ _ _ _ _ _ HB2) b Hx) as Hd.
    exact (proj1 (not_in_data_bitmap fs _ da G b Hd) Hb).
Qed.

Lemma write_refines s fs da a i offset buf r a' :
  represents s fs da a -> a_write i offset buf a = Some (r, a') ->
  exists s', Inode_write_at fs (handle fs i) offset buf s = Ret r s' /\ represents s' fs da a' /\
    forall b, 0 <= b < bs_blocks s' -> bs_disk s' b = bs_view s' b.
Proof.
  intros [(I & HI & Ha) Hfree] Hw. unfold a_write in Hw. rewrite Ha in Hw. unfold files in Hw. rewrite lookup_fmap in Hw.
  destruct (I !! i) as [ino|] eqn:Hi; [|discriminate Hw]. cbn [fmap option_fmap option_map] in Hw. destruct (type_ ino) eqn:Hty; [|discriminate Hw].
  destruct ((0 <=? offset) && _ && _) eqn:Hg; [|discriminate Hw]. apply andb_true_iff in Hg as [Hg Hby].
  apply andb_true_iff in Hg as [Hoff Hpos]. apply Z.leb_le in Hoff. apply Nat.ltb_lt in Hpos. apply forallb_bytes in Hby.
  apply bind_Some in Hw as (a1 & Hset & [= <- <-]). unfold a_set_contents in Hset. set (c := contents (bs_view s) ino) in *.
  set (c' := write_bytes c (Z.to_nat offset) buf) in *. destruct (_ && _) eqn:Hg in Hset; [|discriminate Hset]. injection Hset as <-.
  apply andb_true_iff in Hg as [Hmax Hneed]. apply Z.leb_le in Hmax. apply Nat.leb_le in Hneed.
  assert (Hm : offset + Z.of_nat (length buf) <= MAX_SIZE) by (unfold c' in Hmax; rewrite length_write_bytes in Hmax; lia).
  assert (Eb : file_blocks c = total_blocks (size ino)) by (by apply (file_blocks_size s fs da I i)).
  pose proof (length_contents s fs da I i ino HI Hi) as Hlc. rewrite Eb in *.
  unfold Inode_write_at. assert (HM : MAX_SIZE < 2 ^ 32) by (vm_compute; reflexivity).
  rewrite (u64_small (offset + _)), u32_small by lia.
  apply (op_refines s fs da a I i ino _ _ _ HI Ha Hi). intros s1 Hs1 Hho Hok1 HV1 Ec Ef.
  destruct (grow_write s1 fs da I i ino _ offset buf HV1 Hi Hok1 Hho ltac:(rewrite Ec; exact Hlc) Hby Hpos Hoff eq_refl Hm)
    as (ino' & s2 & s3 & E2 & E3 & Hst & HB & Hy & Hc & Hfr); [rewrite Ec, Ef, <- Hfree; exact Hneed|].
  exists ino', s3. split; [|split; [exact Hst|split; [exact HB|]]].
  - rewrite bind_assert by (unfold is_file; by rewrite Hty). rewrite (bind_Ret _ _ _ _ _ E2), (bind_Ret _ _ _ _ _ E3). reflexivity.
  - cbn [a_files a_free]. rewrite Hy, Hty, Hc, Hfr, Ec, Ef, Hfree. split; reflexivity.
Qed.

(** Nothing that is visible changes. *)
Lemma represents_agree s s' fs da a :
  represents s fs da a -> bs_ok s' -> bs_held s' = [] -> bs_blocks s' = bs_blocks s -> agree (bs_blocks s) (bs_view s) (bs_view s') ->
  represents s' fs da a.
Proof.
  intros [(I & HI & Ha) Hf] Hok' Hh' Hb HA. pose proof HI as [Hok Hh HV]. pose proof (fv_geo _ _ _ _ _ HV) as G.
  split.
  - exists I. split; [split; [exact Hok'|exact Hh'|]|].
    + rewrite Hb. by apply (agree_view (bs_view s)).
    + rewrite Ha. symmetry. apply (agree_files (bs_view s) _ fs (bs_blocks s) da G HA). intros j jno Hj. by apply (fv_ino _ _ _ _ _ HV j jno).
  - rewrite Hf. f_equal. symmetry. apply (free_agree _ _ fs _ da G). intros b Hbm. apply HA. destruct G. unfold in_bitmap in Hbm. lia.
Qed.

Lemma represents_keeps s s' fs da a : represents s fs da a -> evolves s (bs_view s) s' -> represents s' fs da a.
Proof.
  intros Hrep Hk. pose proof Hrep as [(I & [_ Hh _] & _) _].
  apply (represents_agree s); [exact Hrep|apply Hk|by rewrite (ev_held _ _ _ Hk)|apply Hk|]. intros b Hb. by apply Hk.
Qed.

(** Reading an inode in use with a closure that changes nothing. *)
Lemma inode_read {V} s fs da I i ino (f : DiskInode -> M St V) v :
  fs_inv s fs da I -> I !! i = Some ino ->
  (forall s1, opened s (inode_block fs i) s1 -> inode_ok s1 ino -> contents (bs_view s1) ino = contents (bs_view s) ino ->
    exists s2, f ino s1 = Ret v s2 /\ evolves s1 (bs_view s1) s2) ->
  exists s', read_in pod_DiskInode (inode_block fs i) (i mod 4 * 128) f s = Ret v s' /\ evolves s (bs_view s) s'.
Proof.
  intros HI Hi Hf. destruct (inode_openable s fs da I i ino HI Hi) as (Hr & Hop & Hown & Hdec & Hpos).
  destruct (inode_room i) as [Ho1 Ho2]. pose proof HI as [Hok Hh HV]. pose proof (fv_geo _ _ _ _ _ HV) as G.
  apply (read_in_run pod_DiskInode s (inode_block fs i) (i mod 4 * 128) f ino v (bs_view s) Hok Hop Ho1 Ho2 Hdec eq_refl).
  intros s1 Hs1. destruct (opened_hold s fs da I i s1 HI Hr Hs1) as (Hho & HV1 & Hok1).
  destruct (Hf s1 Hs1) as (s2 & E & Hk); [by apply (fs_inode_ok s1 fs da I i)|..].
  { apply (agree_frame _ _ fs _ da G); [|exact Hown]. intros b Hb. by apply Hs1. }
  exists s2. split; [exact E|]. apply (evolves_ext _ _ _ _ Hk). intros b Hb. apply Hs1. unfold blk_in in *. by rewrite <- (op_blocks _ _ _ Hs1).
Qed.

Lemma read_refines s fs da a i offset buf r a' :
  represents s fs da a -> a_read i offset buf a = Some (r, a') ->
  exists s', Inode_read_at (handle fs i) offset buf s = Ret r s' /\ represents s' fs da a'.
Proof.
  intros Hrep Hr. pose proof Hrep as [(I & HI & Ha) _]. unfold a_read in Hr. rewrite Ha in Hr. unfold files in Hr. rewrite lookup_fmap in Hr.
  destruct (I !! i) as [ino|] eqn:Hi; [|discriminate Hr]. cbn [fmap option_fmap option_map] in Hr.
  destruct ((0 <=? offset) && _) eqn:Hg; [|discriminate Hr]. injection Hr as <- <-.
  apply andb_true_iff in Hg as [Hoff%Z.leb_le Hlen%Z.ltb_lt].
  destruct (inode_openable s fs da I i ino HI Hi) as (_ & _ & _ & _ & Hpos).
  match goal with |- exists s', _ = Ret ?r s' /\ _ => set (res := r) end.
  destruct (inode_read s fs da I i ino (fun d => DiskInode_read_at d offset buf) res HI Hi) as (s' & E & Hk).
  { intros s1 Hs1 Hio Ec. destruct (read_at_run s1 ino offset buf Hio Hoff Hlen) as (s2 & E & Hk). rewrite Ec in E. by exists s2. }
  exists s'. unfold Inode_read_at, read_disk_inode, handle, Inode_new. rewrite Hpos. cbn [v_block_id v_block_offset fst snd].
  split; [exact E|]. by apply (represents_keeps s).
Qed.

(** Returning blocks makes exactly them free. *)
Lemma free_count F F' fs nb da l :
  geometry fs nb da -> NoDup l -> (forall b, b ∈ l -> in_data fs da b /\ used F fs b = true) ->
  (forall b, in_data fs da b -> used F' fs b = true <-> used F fs b = true /\ b ∉ l) ->
  length (free_ids F' fs da) = (length (free_ids F fs da) + length l)%nat.
Proof.
  intros G Hnd Hl Hu. set (st := data_area_start_block fs) in *.
  assert (HP : free_ids F' fs da ≡ₚ free_ids F fs da ++ ((fun b => b - st) <$> l)).
  { apply NoDup_Permutation; [unfold free_ids; apply NoDup_seqZ_filter|..].
    - apply NoDup_app. split; [unfold free_ids; apply NoDup_seqZ_filter|]. split; [|apply NoDup_fmap; [intros x y; lia|exact Hnd]].
      intros c [Hf _]%list_elem_of_filter (b & -> & Hb)%list_elem_of_fmap. destruct (Hl b Hb) as [_ Hub]. unfold used in Hub. fold st in Hub.
      unfold is_free in Hf. congruence.
    - intros c. rewrite elem_of_app. unfold free_ids. rewrite !list_elem_of_filter, list_elem_of_fmap. unfold is_free. split.
      + intros [Hf Hc%elem_of_seqZ]. assert (Hd : in_data fs da (c + st)) by (unfold in_data; fold st; lia).
        destruct (bitmap_bit F (data_bitmap fs) c) eqn:Ec.
        * right. exists (c + st). split; [lia|]. destruct (decide (c + st ∈ l)) as [?|Hn]; [done|exfalso].
          assert (Hx : used F' fs (c + st) = true).
          { apply Hu; [exact Hd|]. split; [|exact Hn]. unfold used. fold st. by replace (c + st - st) with c by lia. }
          unfold used in Hx. fold st in Hx. replace (c + st - st) with c in Hx by lia. congruence.
        * left. split; [done|apply elem_of_seqZ; lia].
      + intros Hc. assert (Hr : 0 <= c < da /\ used F' fs (c + st) = false).
        { destruct Hc as [[Hf Hc%elem_of_seqZ]|(b & -> & Hb)].
          - split; [lia|]. destruct (used F' fs (c + st)) eqn:Ex; [|done].
            apply Hu in Ex as [Ex _]; [|unfold in_data; fold st; lia]. unfold used in Ex. fold st in Ex.
            replace (c + st - st) with c in Ex by lia. congruence.
          - destruct (Hl b Hb) as [Hd _]. pose proof Hd as Hd'. unfold in_data in Hd'. fold st in Hd'. split; [lia|].
            replace (b - st + st) with b by lia. destruct (used F' fs b) eqn:Ex; [|done]. by apply Hu in Ex as [_ ?]. }
        destruct Hr as [Hr Hx]. unfold used in Hx. fold st in Hx. replace (c + st - st) with c in Hx by lia.
        split; [exact Hx|apply elem_of_seqZ; lia]. }
  by rewrite HP, length_app, length_fmap.
Qed.

Lemma blocks_of_empty F ino : size ino = 0 -> blocks_of F ino = [] /\ raw F ino = [] /\ contents F ino = [].
Proof.
  intros Hz. assert (Hn : nblocks ino = 0%nat) by (unfold nblocks, data_blocks; rewrite Hz; reflexivity).
  unfold contents, raw, data_ids, blocks_of. rewrite Hn, Hz. split; [|split]; reflexivity.
Qed.

(** Clearing a file, with the block of its inode open. *)
Lemma clear_body s1 fs da I i ino :
  fs_view (bs_view s1) fs (bs_blocks s1) da I -> I !! i = Some ino -> bs_ok s1 -> hold_ok s1 fs da ->
  exists ino' s2 s3, clear_size ino s1 = Ret (blocks_of (bs_view s1) ino, ino') s2 /\
    for_each (blocks_of (bs_view s1) ino) (dealloc_data fs) s2 = Ret tt s3 /\
    steps s1 s3 /\ body_update (bs_view s1) fs (bs_blocks s1) da ino (bs_view s3) ino' /\
    type_ ino' = type_ ino /\ contents (bs_view s3) ino' = [] /\
    length (free_ids (bs_view s3) fs da) = (length (free_ids (bs_view s1) fs da) + length (blocks_of (bs_view s1) ino))%nat.
Proof.
  intros HV Hi Hok Hho. pose proof (fv_geo _ _ _ _ _ HV) as G. destruct (fv_ino _ _ _ _ _ HV i ino Hi) as (_ & _ & Hown).
  pose proof (fs_inode_ok s1 fs da I i ino HV Hi Hok Hho) as Hio.
  destruct (clear_size_run s1 ino Hio) as (ino' & s2 & E2 & Hz & Hy & Hd & Hk). fold (blocks_of (bs_view s1) ino) in E2.
  assert (HA : agree (bs_blocks s1) (bs_view s1) (bs_view s2)) by (intros b Hb; by apply Hk).
  assert (G2 : geometry fs (bs_blocks s2) da) by (by rewrite (ev_blocks _ _ _ Hk)).
  set (l := blocks_of (bs_view s1) ino) in *.
  assert (Hl : forall b, b ∈ l -> in_data fs da b /\ used (bs_view s1) fs b = true).
  { intros b Hb. split; [by apply (ow_data _ _ _ _ Hown)|by apply (owned_used _ _ _ _ _ i ino b HV Hi)]. }
  destruct (dealloc_blocks_run l s2 fs da (ev_ok _ _ _ Hk) (bitmap_at_evolves _ _ _ _ Hk (hold_bitmap s1 fs da G Hho)) G2
    (ow_nodup _ _ _ _ Hown)) as (s3 & E3 & Hst3 & Hzero & Hout & Hused).
  { intros b Hb. destruct (Hl b Hb) as [Hbd Hbu]. split; [exact Hbd|].
    split; [apply (evolves_openable _ _ _ _ Hk); by apply (hold_openable s1 fs da)|]. by rewrite (agree_used _ _ fs _ da G HA). }
  assert (Hused' : forall b, in_data fs da b -> used (bs_view s3) fs b = true <-> used (bs_view s1) fs b = true /\ b ∉ l).
  { intros b Hb. rewrite Hused, (agree_used _ _ fs _ da G HA) by exact Hb. done. }
  assert (Hsame : forall b, 0 <= b < bs_blocks s1 -> ~ in_bitmap (data_bitmap fs) b -> b ∉ l -> bs_view s3 b = bs_view s1 b).
  { intros b Hb H1 H2. rewrite Hout by (done || (unfold blk_in; by rewrite (ev_blocks _ _ _ Hk))). by apply HA. }
  destruct (blocks_of_empty (bs_view s3) ino' Hz) as (Eb & Er & Ec).
  exists ino', s2, s3. split; [exact E2|]. split; [exact E3|].
  split; [eapply steps_trans; [by eapply evolves_steps|exact Hst3]|]. split; [|split; [exact Hy|split; [exact Ec|]]].
  - split; rewrite ?Eb.
    + split; rewrite ?Eb; [|rewrite Hz; vm_compute; split; congruence|apply NoDup_nil_2|intros b Hb; by apply elem_of_nil in Hb|].
      * apply (clear_size_fields _ ino s1 l ino' s2 E2); [apply Hown|lia].
      * unfold tail_zero. rewrite Er, Hz. reflexivity.
    + intros b Hb H1 H2. apply Hsame; [exact Hb|exact H2|]. intros Hx. by apply H1, Hl.
    + intros b Hb. by apply elem_of_nil in Hb.
    + intros b Hb H1 _. pose proof (in_data_range fs _ da G b Hb). apply Hsame; [destruct G; lia| |exact H1].
      by apply (not_in_data_bitmap fs _ da G).
    + intros b Hb _. by apply Hzero.
    + intros b Hb. rewrite Hused' by exact Hb. split; [by right|]. intros [Hx|?]; [by apply elem_of_nil in Hx|done].
  - apply (free_count _ _ fs _ da l G (ow_nodup _ _ _ _ Hown) Hl Hused').
Qed.

Lemma clear_refines s fs da a i r a' :
  represents s fs da a -> a_clear i a = Some (r, a') ->
  exists s', Inode_clear fs (handle fs i) s = Ret r s' /\ represents s' fs da a' /\
    forall b, 0 <= b < bs_blocks s' -> bs_disk s' b = bs_view s' b.
Proof.
  intros [(I & HI & Ha) Hfree] Hc. unfold a_clear in Hc. rewrite Ha in Hc. unfold files in Hc. rewrite lookup_fmap in Hc.
  destruct (I !! i) as [ino|] eqn:Hi; [|discriminate Hc]. cbn [fmap option_fmap option_map] in Hc.
  destruct (type_ ino) eqn:Hty; [|discriminate Hc]. injection Hc as <- <-.
  match goal with |- context [represents _ _ _ ?x] => set (a' := x) end.
  destruct (op_refines s fs da a I i ino (fun disk_inode =>
    assert (is_file disk_inode) ;;;
    let size := size disk_inode in
    let! '(data_blocks_dealloc, disk_inode) := clear_size disk_inode in
    assert (Z.of_nat (length data_blocks_dealloc) =? total_blocks size) ;;;
    for_each data_blocks_dealloc (dealloc_data fs) ;;;
    ret (tt, disk_inode)) tt a' HI Ha Hi) as (s' & E & Hrep & Hdisk).
  - intros s1 Hs1 Hho Hok1 HV1 Ec Ef.
    destruct (clear_body s1 fs da I i ino HV1 Hi Hok1 Hho) as (ino' & s2 & s3 & E2 & E3 & Hst & HB & Hy & Hcn & Hfr).
    assert (Hlen : Z.of_nat (length (blocks_of (bs_view s1) ino)) = total_blocks (size ino)).
    { unfold blocks_of. rewrite length_fmap. apply length_blocks. by apply (fs_inode_ok s1 fs da I i). }
    exists ino', s3. split; [|split; [exact Hst|split; [exact HB|]]].
    + rewrite bind_assert by (unfold is_file; by rewrite Hty). cbv zeta. rewrite (bind_Ret _ _ _ _ _ E2).
      rewrite bind_assert by (by apply Z.eqb_eq). rewrite (bind_Ret _ _ _ _ _ E3). reflexivity.
    + unfold a'. cbn [a_files a_free]. rewrite Hy, Hty, Hcn, Hfr, Ef, Hfree, (file_blocks_size s fs da I i ino HI Hi), <- Hlen, Nat2Z.id.
      split; [by rewrite Ha|reflexivity].
  - exists s'. split; [|split; [exact Hrep|exact Hdisk]]. unfold Inode_clear. unfold bind at 1 in E. unfold bind at 1.
    destruct (modify_disk_inode _ _ s) as [u s1|]; [|discriminate E]. apply bind_inv in E as (u' & s2 & E' & [= _ <-]). by destruct u'.
Qed.
End refines.
