(* ===== verification/FsDirs.v ===== *)
(** Directories: looking up names and paths, listing and creating, as in
    [components/src/micro_fs/vfs.rs], on the abstract file system of [FsSpec]. *)
From Stdlib Require Import ZifyNat.
From S2P Require Import Prelude BlockCache DiskWords Bitmap Layout Codecs InodeFields InodeBlocks InodeData FileData Mfs Vfs FsInv FsBlocks FsFiles FsGrow FsSpec.

(** ** Abstract directories *)

(** The contents of a directory as entries of 32 bytes; [None] where the code
    panics on a name. *)
Definition entry_at (c : list Z) (k : nat) : DirEntry := DirEntry_of_bytes (slice c (32 * k) 32).
Definition entries (c : list Z) : list DirEntry := entry_at c <$> seq 0 (length c / 32).
Definition entry_name (e : DirEntry) : option (list Z) :=
  len ← find_index (fun c => c =? 0) (de_name e); from_utf8 (take len (de_name e)).
Fixpoint a_find (es : list DirEntry) (name : list Z) : option (option Z) :=
  match es with
  | [] => Some None
  | e :: es => n ← entry_name e; if decide (n = name) then Some (Some (de_inode_number e)) else a_find es name
  end.
Fixpoint a_names (es : list DirEntry) : option (list (list Z)) :=
  match es with
  | [] => Some []
  | e :: es => n ← entry_name e; ns ← a_names es; Some (n :: ns)
  end.
Fixpoint a_walk (names : list (list Z)) (i : Z) (a : afs) : option (option Z) :=
  match names with
  | [] => Some (Some i)
  | n :: names =>
      match a_files a !! i with
      | Some (File, _) => Some None
      | Some (Dir, c) => r ← a_find (entries c) n; match r with Some j => a_walk names j a | None => Some None end
      | None => None
      end
  end.
Definition a_ls (i : Z) (a : afs) : option (list (list Z)) :=
  match a_files a !! i with
  | Some (File, _) => Some []
  | Some (Dir, c) => a_names (entries c)
  | None => None
  end.

(** The next inode number: the smallest that is not in use. *)
Definition new_inode (max : Z) (a : afs) : option Z := head (filter (fun i => a_files a !! i = None) (seqZ 0 max)).
Definition dirent_bytes (name : list Z) (i : Z) : list Z :=
  DirEntry_as_bytes {| de_name := splice (replicate 28 0) 0 name; de_inode_number := i |}.
Definition a_create (max i : Z) (name : list Z) (t : DiskInodeType) (a : afs) : option (option Z * afs) :=
  match a_files a !! i with
  | Some (Dir, c) =>
      r ← a_find (entries c) name;
      match r with
      | Some _ => Some (None, a)
      | None =>
          if (length name <=? 28)%nat && forallb (fun b => (0 <=? b) && (b <? 256)) name then
            j ← new_inode max a;
            a' ← a_set_contents i Dir c (write_bytes c (32 * (length c / 32)) (dirent_bytes name j)) (set_file j (t, []) a);
            Some (Some j, a')
          else None
      end
  | _ => None
  end.

(** ** Looking up a name *)

Section dirs.
Context {St : Type} `{SL : BlockStoreLaws St}.
Implicit Types (s : St) (fs : BlockManager) (ino : DiskInode) (I : gmap Z DiskInode) (a : afs).

Abbreviation keeps s s' := (evolves s (bs_view s) s').

Lemma DirEntry_name_run e n s : entry_name e = Some n -> DirEntry_name e s = Ret n s.
Proof.
  unfold entry_name, DirEntry_name. intros (len & E & Eu)%bind_Some. by rewrite E, Eu.
Qed.

Lemma length_of_bytes bs : length bs = 32%nat -> length (DirEntry_as_bytes (DirEntry_of_bytes bs)) = 32%nat.
Proof. intros Hl. unfold DirEntry_as_bytes, DirEntry_of_bytes. cbn. rewrite length_app, length_take, Hl. done. Qed.

(** Reading one entry, the contents being [c]. *)
Lemma read_dirent_run s ino c (k : nat) e :
  inode_ok s ino -> contents (bs_view s) ino = c -> (k < length c / 32)%nat -> Z.of_nat (length c) < 2 ^ 63 ->
  length (DirEntry_as_bytes e) = 32%nat ->
  exists s', read_dirent ino (Z.of_nat k) e s = Ret (entry_at c k) s' /\ keeps s s' /\
    length (DirEntry_as_bytes (entry_at c k)) = 32%nat.
Proof.
  intros Hio Hc Hk Hlen He. unfold read_dirent. change DIRENT_SZ with 32.
  destruct (read_at_run s ino (32 * Z.of_nat k) (DirEntry_as_bytes e) Hio ltac:(lia)) as (s' & E & Hkeep).
  { rewrite He. dlia. }
  rewrite Hc, He in E. replace (Z.to_nat (32 * Z.of_nat k)) with (32 * k)%nat in E by lia. fold (slice c (32 * k) 32) in E.
  assert (Hl : length (slice c (32 * k) 32) = 32%nat) by (apply length_slice; dlia). rewrite Hl in E.
  rewrite (drop_ge (DirEntry_as_bytes e)), app_nil_r in E by lia.
  exists s'. rewrite (bind_Ret _ _ _ _ _ E). rewrite bind_assert by done.
  split; [reflexivity|]. split; [exact Hkeep|]. by apply length_of_bytes.
Qed.

Lemma drop_seq_S (k n : nat) : (k < n)%nat -> drop k (seq 0 n) = k :: drop (S k) (seq 0 n).
Proof. intros Hk. rewrite (drop_S _ k k); [done|]. by rewrite lookup_seq_lt. Qed.

Lemma keeps_contents s s1 ino c :
  inode_ok s ino -> contents (bs_view s) ino = c -> keeps s s1 -> inode_ok s1 ino /\ contents (bs_view s1) ino = c.
Proof. intros Hio Hc Hk. destruct (keeps_ok s s1 ino Hio Hk) as (Hio1 & _ & Er). split; [exact Hio1|]. unfold contents in *. by rewrite Er. Qed.

Lemma find_loop_run (n k : nat) s ino c name e r :
  (k + n = length c / 32)%nat -> inode_ok s ino -> contents (bs_view s) ino = c -> Z.of_nat (length c) < 2 ^ 63 ->
  length (DirEntry_as_bytes e) = 32%nat -> a_find (entry_at c <$> drop k (seq 0 (length c / 32))) name = Some r ->
  exists s', find_loop n name ino (Z.of_nat k) e s = Ret r s' /\ keeps s s'.
Proof.
  revert k s e. induction n as [|n IH]; intros k s e Hk Hio Hc Hlen He Hf; cbn [find_loop].
  - rewrite drop_ge in Hf by (rewrite length_seq; lia). injection Hf as <-. exists s. split; [done|]. apply evolves_refl, Hio.
  - rewrite drop_seq_S in Hf by lia. cbn [fmap list_fmap a_find] in Hf. apply bind_Some in Hf as (dname & En & Hf).
    destruct (read_dirent_run s ino c k e Hio Hc ltac:(lia) Hlen He) as (s1 & E1 & Hk1 & Hl1).
    rewrite (bind_Ret _ _ _ _ _ E1), (bind_Ret _ _ _ _ _ (DirEntry_name_run _ _ s1 En)).
    destruct (decide (dname = name)) as [->|Hne].
    + rewrite bool_decide_eq_true_2 by done. injection Hf as <-. by exists s1.
    + rewrite bool_decide_eq_false_2 by done. destruct (keeps_contents s s1 ino c Hio Hc Hk1) as [Hio1 Hc1].
      replace (Z.of_nat k + 1) with (Z.of_nat (S k)) by lia.
      destruct (IH (S k) s1 (entry_at c k) ltac:(lia) Hio1 Hc1 Hlen Hl1 Hf) as (s2 & E2 & Hk2).
      exists s2. split; [exact E2|by apply (keeps_trans s s1)].
Qed.

Lemma ls_loop_run (n k : nat) s ino c v ns :
  (k + n = length c / 32)%nat -> inode_ok s ino -> contents (bs_view s) ino = c -> Z.of_nat (length c) < 2 ^ 63 ->
  a_names (entry_at c <$> drop k (seq 0 (length c / 32))) = Some ns ->
  exists s', ls_loop n ino (Z.of_nat k) v s = Ret (v ++ ns) s' /\ keeps s s'.
Proof.
  revert k s v ns. induction n as [|n IH]; intros k s v ns Hk Hio Hc Hlen Hf; cbn [ls_loop].
  - rewrite drop_ge in Hf by (rewrite length_seq; lia). injection Hf as <-. exists s. rewrite app_nil_r. split; [done|]. apply evolves_refl, Hio.
  - rewrite drop_seq_S in Hf by lia. cbn [fmap list_fmap a_names] in Hf. apply bind_Some in Hf as (dname & En & Hf).
    apply bind_Some in Hf as (ns' & Hf & [= <-]).
    destruct (read_dirent_run s ino c k DirEntry_empty Hio Hc ltac:(lia) Hlen eq_refl) as (s1 & E1 & Hk1 & _).
    rewrite (bind_Ret _ _ _ _ _ E1), (bind_Ret _ _ _ _ _ (DirEntry_name_run _ _ s1 En)).
    destruct (keeps_contents s s1 ino c Hio Hc Hk1) as [Hio1 Hc1]. replace (Z.of_nat k + 1) with (Z.of_nat (S k)) by lia.
    destruct (IH (S k) s1 (v ++ [dname]) ns' ltac:(lia) Hio1 Hc1 Hlen Hf) as (s2 & E2 & Hk2).
    exists s2. rewrite E2, <- app_assoc. split; [done|by apply (keeps_trans s s1)].
Qed.

(** The number of entries the code sees. *)
Lemma file_count_contents s ino :
  inode_ok s ino -> length (contents (bs_view s) ino) = Z.to_nat (size ino) /\
    file_count ino = Z.of_nat (length (contents (bs_view s) ino) / 32) /\ Z.of_nat (length (contents (bs_view s) ino)) < 2 ^ 63.
Proof.
  intros Hio. destruct (size_nblocks ino (io_size _ _ Hio)) as [Hsn _]. pose proof (io_size _ _ Hio) as Hz.
  assert (Hl : length (contents (bs_view s) ino) = Z.to_nat (size ino)).
  { unfold contents. rewrite length_take, length_raw by exact Hio. lia. }
  assert (HM : MAX_SIZE < 2 ^ 63) by (vm_compute; reflexivity).
  split; [exact Hl|]. rewrite Hl. unfold file_count. change DIRENT_SZ with 32. split; [dlia|lia].
Qed.

Lemma find_inode_id_run s ino c name r :
  inode_ok s ino -> contents (bs_view s) ino = c -> type_ ino = Dir -> a_find (entries c) name = Some r ->
  exists s', find_inode_id name ino s = Ret r s' /\ keeps s s'.
Proof.
  intros Hio Hc Hd Hf. destruct (file_count_contents s ino Hio) as (_ & Hn & Hlen). rewrite Hc in Hn, Hlen.
  unfold find_inode_id. rewrite bind_assert by (unfold dir; by rewrite Hd). rewrite Hn, Nat2Z.id.
  by apply (find_loop_run _ 0 s ino c name DirEntry_empty r).
Qed.

(** ** Paths and listings *)

Lemma find_names_refines names s fs da a i r :
  represents s fs da a -> a_walk names i a = Some r ->
  exists s', find_names fs names (disk_inode_pos fs i).1 (disk_inode_pos fs i).2 s = Ret (handle fs <$> r) s' /\ represents s' fs da a.
Proof.
  revert s i. induction names as [|name names IH]; intros s i Hrep Hw; cbn [find_names a_walk] in *.
  - injection Hw as <-. exists s. split; [|exact Hrep]. unfold ret. rewrite <- surjective_pairing. reflexivity.
  - pose proof Hrep as [(I & HI & Ha) _]. rewrite Ha in Hw. unfold files in Hw. rewrite lookup_fmap in Hw.
    destruct (I !! i) as [ino|] eqn:Hi; [|discriminate Hw]. cbn [fmap option_fmap option_map] in Hw.
    destruct (inode_openable s fs da I i ino HI Hi) as (_ & _ & _ & _ & Hpos).
    set (res := match type_ ino with File => Some None | Dir => a_find (entries (contents (bs_view s) ino)) name end).
    assert (Hres : exists r1, res = Some r1 /\ match r1 with Some j => a_walk names j a = Some r | None => r = None end).
    { unfold res. destruct (type_ ino).
      - exists None. split; [done|]. by injection Hw as <-.
      - apply bind_Some in Hw as (r1 & E & Hw). exists r1. split; [exact E|]. destruct r1; [exact Hw|by injection Hw as <-]. }
    destruct Hres as (r1 & Eres & Hr1).
    destruct (inode_read s fs da I i ino (fun disk_inode =>
      if is_file disk_inode then ret None else find_inode_id name disk_inode) r1 HI Hi) as (s1 & E1 & Hk1).
    { intros s1 Hs1 Hio Ec. unfold is_file. unfold res in Eres. destruct (type_ ino) eqn:Hty.
      - injection Eres as <-. exists s1. split; [reflexivity|]. apply evolves_refl, Hio.
      - rewrite bool_decide_eq_false_2 by done. by apply (find_inode_id_run s1 ino _ name r1 Hio Ec Hty). }
    rewrite Hpos. cbn [fst snd]. rewrite (bind_Ret _ _ _ _ _ E1). pose proof (represents_keeps s s1 fs da a Hrep Hk1) as Hrep1.
    destruct r1 as [j|]; [|subst r; exists s1; split; [reflexivity|exact Hrep1]].
    destruct (IH s1 j Hrep1 Hr1) as (s2 & E2 & Hrep2). exists s2. split; [|exact Hrep2].
    by destruct (disk_inode_pos fs j).
Qed.

Lemma find_refines s fs da a i path r :
  represents s fs da a -> a_walk (path_names path) i a = Some r ->
  exists s', find fs (handle fs i) path s = Ret (handle fs <$> r) s' /\ represents s' fs da a.
Proof.
  intros Hrep Hw. destruct (find_names_refines _ s fs da a i r Hrep Hw) as (s' & E & Hrep'). exists s'. split; [|exact Hrep'].
  unfold find, handle, Inode_new. cbn [v_block_id v_block_offset]. unfold disk_inode_pos in *. cbn [fst snd] in *.
  rewrite u32_small; [exact E|]. apply Z.mod_pos_bound. lia.
Qed.

Lemma ls_refines s fs da a i ns :
  represents s fs da a -> a_ls i a = Some ns ->
  exists s', ls (handle fs i) s = Ret ns s' /\ represents s' fs da a.
Proof.
  intros Hrep Hl. pose proof Hrep as [(I & HI & Ha) _]. unfold a_ls in Hl. rewrite Ha in Hl. unfold files in Hl. rewrite lookup_fmap in Hl.
  destruct (I !! i) as [ino|] eqn:Hi; [|discriminate Hl]. cbn [fmap option_fmap option_map] in Hl.
  destruct (inode_openable s fs da I i ino HI Hi) as (_ & _ & _ & _ & Hpos).
  destruct (inode_read s fs da I i ino (fun disk_inode =>
      if is_file disk_inode then ret [] else ls_loop (Z.to_nat (file_count disk_inode)) disk_inode 0 []) ns HI Hi) as (s1 & E1 & Hk1).
  { intros s1 Hs1 Hio Ec. unfold is_file. destruct (type_ ino) eqn:Hty.
    - injection Hl as <-. exists s1. split; [reflexivity|]. apply evolves_refl, Hio.
    - rewrite bool_decide_eq_false_2 by done. destruct (file_count_contents s1 ino Hio) as (_ & Hn & Hlen). rewrite Ec in Hn, Hlen.
      rewrite Hn, Nat2Z.id. by apply (ls_loop_run _ 0 s1 ino _ [] ns eq_refl Hio Ec Hlen). }
  exists s1. split; [|by apply (represents_keeps s)].
  unfold ls, read_disk_inode, handle, Inode_new. rewrite Hpos. exact E1.
Qed.
End dirs.
