(* ===== verification/FsCreate.v ===== *)
(** Creating files and directories, formatting and opening a device:
    [create_inode] of [components/src/micro_fs/vfs.rs], [BlockManager::create] and
    [open] of [mfs.rs]. *)
From Stdlib Require Import ZifyNat.
From S2P Require Import Prelude BlockCache DiskWords Bitmap Layout Codecs InodeFields InodeBlocks InodeData FileData Mfs Vfs FsInv FsBlocks FsFiles FsGrow FsSpec FsDirs.

Section create.
Context {St : Type} `{SL : BlockStoreLaws St}.
Implicit Types (s : St) (fs : BlockManager) (ino : DiskInode) (I : gmap Z DiskInode) (a : afs) (F : Z -> list Z).

(** ** A new inode *)

Record inode_add F fs nb (j : Z) F' ino0 : Prop := {
  ia_range : 0 <= j < inode_max fs;
  ia_good : DiskInode_good ino0;
  ia_size : size ino0 = 0;
  ia_bits c : 0 <= c < inode_max fs -> bitmap_bit F' (inode_bitmap fs) c = bitmap_bit F (inode_bitmap fs) c || (c =? j);
  ia_slot : F' (inode_block fs j) = splice (F (inode_block fs j)) (inode_off j) (encode pod_DiskInode ino0);
  ia_rest b : 0 <= b < nb -> ~ in_bitmap (inode_bitmap fs) b -> b <> inode_block fs j -> F' b = F b;
}.

Section add.
Context (F F' : Z -> list Z) (fs : BlockManager) (nb da j : Z) (ino0 : DiskInode) (I : gmap Z DiskInode).
Context (HV : fs_view F fs nb da I) (HA : inode_add F fs nb j F' ino0).

Lemma add_data b : in_data fs da b -> F' b = F b.
Proof.
  intros Hb. pose proof (fv_geo _ _ _ _ _ HV) as G. pose proof (in_data_range fs nb da G b Hb) as [Hr _].
  apply HA; [destruct G; lia|by apply (not_in_data_bitmap fs nb da G)|]. intros ->.
  by apply (inode_block_not_bitmap fs nb da G j (ia_range _ _ _ _ _ _ HA)).
Qed.

Lemma add_frame ino : owns F fs da ino -> owns F' fs da ino /\ blocks_of F' ino = blocks_of F ino /\ contents F' ino = contents F ino.
Proof.
  intros Hown. assert (HF : forall e, e ∈ blocks_of F ino -> F e = F' e).
  { intros e He. symmetry. apply add_data, (ow_data _ _ _ _ Hown e He). }
  destruct (inode_frame F F' ino HF) as (Eb & _ & Ec). split; [by apply (owns_frame F F')|]. split; [exact Eb|exact Ec].
Qed.

Lemma add_dbm b : in_bitmap (data_bitmap fs) b -> F' b = F b.
Proof.
  intros Hb. pose proof (fv_geo _ _ _ _ _ HV) as G. apply HA.
  - destruct G. unfold in_bitmap in Hb. lia.
  - destruct G. unfold in_bitmap in *. lia.
  - intros ->. exact (proj1 (inode_block_not_bitmap fs nb da G j (ia_range _ _ _ _ _ _ HA)) Hb).
Qed.

Lemma add_used b : in_data fs da b -> used F' fs b = used F fs b.
Proof.
  intros Hb. apply ino_at_bitmap_bit; [exact add_dbm|]. apply (in_data_range fs nb da (fv_geo _ _ _ _ _ HV) b Hb).
Qed.

Lemma fs_add : I !! j = None -> length (F (inode_block fs j)) = block_size -> fs_view F' fs nb da (<[j := ino0]> I).
Proof.
  intros Hj Hlen. pose proof (fv_geo _ _ _ _ _ HV) as G. destruct (blocks_of_empty F' ino0 (ia_size _ _ _ _ _ _ HA)) as (Eb0 & Er0 & _).
  assert (Hslot : forall i, 0 <= i < inode_max fs -> ino_at F' fs i = if decide (i = j) then Some ino0 else ino_at F fs i).
  { intros i Hi. apply ino_at_other; [exact Hlen|apply HA|apply HA|]. intros Hne.
    apply HA; [apply (inode_block_range fs nb da G i Hi)|apply (inode_block_not_bitmap fs nb da G i Hi)|exact Hne]. }
  assert (HI : forall i ino, <[j := ino0]> I !! i = Some ino -> (i = j /\ ino = ino0) \/ (i <> j /\ I !! i = Some ino)).
  { intros i ino. destruct (decide (j = i)) as [<-|Hne]; [rewrite lookup_insert_eq; intros [= <-]; by left|].
    rewrite lookup_insert_ne by done. intros Hi. right. split; [congruence|exact Hi]. }
  assert (Hfr : forall i ino, I !! i = Some ino -> owns F' fs da ino /\ blocks_of F' ino = blocks_of F ino /\ contents F' ino = contents F ino).
  { intros i ino Hi. apply add_frame. by apply (fv_ino _ _ _ _ _ HV i ino). }
  split; [exact G| | | | | | |].
  - rewrite (ia_rest _ _ _ _ _ _ HA 0); [apply HV|destruct G; lia|destruct G; unfold in_bitmap; lia|].
    pose proof (inode_block_range fs nb da G j (ia_range _ _ _ _ _ _ HA)). destruct G. lia.
  - intros i Hi. rewrite (ia_bits _ _ _ _ _ _ HA i Hi), orb_true_iff, Z.eqb_eq, (fv_bits _ _ _ _ _ HV i Hi), lookup_insert_is_Some'.
    split; intros [?|?]; subst; tauto.
  - intros i ino [[-> ->]|[Hne Hi]]%HI.
    + split; [apply HA|]. split; [rewrite Hslot by apply HA; by rewrite decide_True|].
      split; [apply HA|rewrite (ia_size _ _ _ _ _ _ HA); vm_compute; split; congruence|rewrite Eb0; apply NoDup_nil_2|
        intros b Hb; rewrite Eb0 in Hb; by apply elem_of_nil in Hb|]. unfold tail_zero. rewrite Er0, (ia_size _ _ _ _ _ _ HA). reflexivity.
    + destruct (fv_ino _ _ _ _ _ HV i ino Hi) as (Hir & Hat & _). split; [exact Hir|].
      split; [by rewrite Hslot, decide_False|by apply (Hfr i)].
  - intros i Hi. rewrite Hslot by exact Hi. destruct (decide (i = j)); [by eexists|by apply (fv_slot _ _ _ _ _ HV)].
  - intros i k ino kno b [[-> ->]|[Hne Hi]]%HI [[-> ->]|[Hnk Hk]]%HI Hb Hb'; [reflexivity| | |].
    + rewrite Eb0 in Hb. by apply elem_of_nil in Hb.
    + rewrite Eb0 in Hb'. by apply elem_of_nil in Hb'.
    + rewrite (proj1 (proj2 (Hfr i ino Hi))) in Hb. rewrite (proj1 (proj2 (Hfr k kno Hk))) in Hb'.
      exact (fv_disjoint _ _ _ _ _ HV i k ino kno b Hi Hk Hb Hb').
  - intros b Hb. rewrite add_used, (fv_used _ _ _ _ _ HV b Hb) by exact Hb. split.
    + intros (i & ino & Hi & Hin). exists i, ino. rewrite lookup_insert_ne by congruence. split; [exact Hi|].
      by rewrite (proj1 (proj2 (Hfr i ino Hi))).
    + intros (i & ino & [[-> ->]|[Hne Hi]]%HI & Hin); [rewrite Eb0 in Hin; by apply elem_of_nil in Hin|].
      exists i, ino. split; [exact Hi|]. by rewrite <- (proj1 (proj2 (Hfr i ino Hi))).
  - intros b Hb. rewrite add_used, add_data by exact Hb. by apply (fv_free _ _ _ _ _ HV).
Qed.

Lemma add_files : files F' (<[j := ino0]> I) = <[j := (type_ ino0, [])]> (files F I).
Proof.
  unfold files. rewrite fmap_insert. destruct (blocks_of_empty F' ino0 (ia_size _ _ _ _ _ _ HA)) as (_ & _ & Ec). rewrite Ec.
  f_equal. apply map_fmap_ext. intros i ino Hi. cbn. f_equal.
  by apply add_frame, (fv_ino _ _ _ _ _ HV i ino).
Qed.

Lemma add_free : free_ids F' fs da = free_ids F fs da.
Proof. apply (free_agree F F' fs nb da (fv_geo _ _ _ _ _ HV)). exact add_dbm. Qed.
End add.

Lemma initialize_good t old : length (direct old) = 27%nat -> DiskInode_good (DiskInode_initialize t old).
Proof.
  intros Hd. split; [cbn; by rewrite length_fmap|]. unfold u32s, fields. cbn [size direct indirect1 indirect2 indirect3 DiskInode_initialize].
  constructor; [lia|]. apply Forall_app. split; [|repeat constructor; lia]. apply Forall_fmap, Forall_forall. intros x _. cbn. lia.
Qed.

Lemma inode_bitmap_at s fs da : geometry fs (bs_blocks s) da -> bs_held s = [] -> bitmap_at s (inode_bitmap fs).
Proof.
  intros G Hh. split; rewrite ?Hh; try (destruct G; unfold BLOCK_BITS, BLOCK_SZ in *; lia); [intros j _; apply not_elem_of_nil|].
  cbn. unfold BLOCK_CACHE_SIZE. lia.
Qed.

Lemma inode_maximum fs nb da : geometry fs nb da -> maximum (inode_bitmap fs) = inode_max fs /\ inode_max fs < 2 ^ 45.
Proof. intros []. unfold maximum, inode_max, BLOCK_BITS, BLOCK_SZ in *. split; [apply u64_small|]; lia. Qed.

Lemma alloc_inode_run s fs da I j :
  fs_inv s fs da I -> head (filter (fun i => I !! i = None) (seqZ 0 (inode_max fs))) = Some j ->
  exists s', alloc_inode fs s = Ret j s' /\ steps s s' /\ 0 <= j < inode_max fs /\ I !! j = None /\
    (forall b, blk_in s b -> ~ in_bitmap (inode_bitmap fs) b -> bs_view s' b = bs_view s b) /\
    (forall c, 0 <= c < inode_max fs -> bitmap_bit (bs_view s') (inode_bitmap fs) c = bitmap_bit (bs_view s) (inode_bitmap fs) c || (c =? j)).
Proof.
  intros [Hok Hh HV] Hj. pose proof (fv_geo _ _ _ _ _ HV) as G. destruct (inode_maximum fs _ da G) as [Hmax Hlt].
  destruct (filter _ _) as [|j' rest] eqn:Ef; [discriminate Hj|]. injection Hj as ->.
  destruct (filter_seqZ_first _ _ _ Ef) as (Hr & Hn & Hbefore).
  destruct (Bitmap_alloc_run s (inode_bitmap fs) Hok (inode_bitmap_at s fs da G Hh)) as (o & s' & E & Hst & _ & Hout & Ho). rewrite Hmax in Ho.
  assert (Hbit : forall c, 0 <= c < inode_max fs -> bitmap_bit (bs_view s) (inode_bitmap fs) c = false <-> I !! c = None).
  { intros c Hc. rewrite <- not_true_iff_false, (fv_bits _ _ _ _ _ HV c Hc), <- eq_None_not_Some. done. }
  destruct o as [c|]; [|destruct Ho as [Hall _]; apply Hbit in Hn; [|exact Hr]; rewrite Hall in Hn by lia; discriminate Hn].
  destruct Ho as (Hc & Hf & Hb & Hbits).
  assert (c = j) as ->.
  { destruct (Z.lt_trichotomy c j) as [Hlc|[?|Hlc]]; [|done|].
    - destruct (Hbefore c); [lia|]. by apply Hbit.
    - apply Hbit in Hn; [|exact Hr]. rewrite Hb in Hn by lia. discriminate Hn. }
  exists s'. split; [|split; [exact Hst|split; [exact Hr|split; [exact Hn|split; [exact Hout|exact Hbits]]]]].
  unfold alloc_inode. rewrite (bind_Ret _ _ _ _ _ E). cbn [unwrap]. unfold bind, ret. rewrite u32_small; [done|].
  pose proof (inode_block_range fs _ da G j Hr) as Hjb. unfold inode_block in Hjb. destruct G.
  unfold inode_max, BLOCK_BITS, BLOCK_SZ in *. lia.
Qed.

Lemma new_inode_files F I max : head (filter (fun i => I !! i = None) (seqZ 0 max)) =
  head (filter (fun i => files F I !! i = None) (seqZ 0 max)).
Proof. f_equal. apply filter_in. intros x _. unfold files. by rewrite lookup_fmap, fmap_None. Qed.

(** The first half of [create_inode]: an empty file exists, in no directory yet. *)
Lemma new_inode_run s fs da a j t :
  represents s fs da a -> new_inode (inode_max fs) a = Some j ->
  exists s1 s2, alloc_inode fs s = Ret j s1 /\
    modify_in pod_DiskInode (disk_inode_pos fs j).1 (disk_inode_pos fs j).2 (fun new_inode =>
      ret (tt, DiskInode_initialize t new_inode)) s1 = Ret tt s2 /\
    represents s2 fs da (set_file j (t, []) a) /\ 0 <= j < 2 ^ 32 /\ a_files a !! j = None.
Proof.
  intros [(I & HI & Ha) Hfree] Hj. unfold new_inode in Hj. rewrite Ha, <- new_inode_files in Hj.
  destruct (alloc_inode_run s fs da I j HI Hj) as (s1 & E1 & Hst1 & Hr & Hn & Hout & Hbits).
  pose proof HI as [Hok Hh HV]. pose proof (fv_geo _ _ _ _ _ HV) as G.
  destruct (inode_block_range fs _ da G j Hr) as [Hjr Hjb]. destruct (inode_block_not_bitmap fs _ da G j Hr) as (Hnb & Hni & _).
  destruct (fv_slot _ _ _ _ _ HV j Hr) as [old Hold]. destruct (inode_room j) as [Ho1 Ho2].
  assert (Hop1 : openable s1 (inode_block fs j)).
  { apply (evolves_openable s (bs_view s1) s1 _ Hst1). split; [exact Hjb|rewrite Hh; apply not_elem_of_nil|rewrite Hh; cbn; unfold BLOCK_CACHE_SIZE; lia]. }
  assert (Hd1 : decode pod_DiskInode (slice (bs_view s1 (inode_block fs j)) (Z.to_nat (j mod 4 * 128)) (size_of pod_DiskInode)) = Some old)
    by (rewrite Hout by assumption; exact Hold).
  set (ino0 := DiskInode_initialize t old). assert (Hgood : DiskInode_good ino0) by (apply initialize_good; by apply decode_inode_direct in Hold).
  destruct (modify_in_pure pod_DiskInode s1 (inode_block fs j) (j mod 4 * 128) (fun new_inode => ret (tt, DiskInode_initialize t new_inode))
    old tt ino0 (ev_ok _ _ _ Hst1) Hop1 Ho1 Ho2 Hd1 (pod_bytes_ok (pod_laws := DiskInode_laws) ino0)
    (pod_fits (pod_laws := DiskInode_laws) ino0 Hgood)) as (s2 & E2 & Hev2); [done|].
  exists s1, s2. rewrite (disk_inode_pos_eq fs _ da G j Hr). split; [exact E1|]. split; [exact E2|].
  assert (Hin1 : forall b, blk_in s b -> blk_in s1 b) by (intros b Hb; unfold blk_in in *; by rewrite (ev_blocks _ _ _ Hst1)).
  assert (HA : inode_add (bs_view s) fs (bs_blocks s) j (bs_view s2) ino0).
  { split; [exact Hr|exact Hgood|reflexivity| | |].
    - intros c Hc. rewrite <- Hbits by exact Hc. apply ino_at_bitmap_bit; [|exact Hc]. intros b Hb.
      rewrite (ev_view _ _ _ Hev2).
      + apply upd_ne. intros ->. contradiction.
      + apply Hin1. destruct G. unfold in_bitmap in Hb. unfold blk_in. lia.
    - rewrite (ev_view _ _ _ Hev2) by (by apply Hin1). rewrite upd_eq. by rewrite Hout.
    - intros b Hb Hb1 Hb2. rewrite (ev_view _ _ _ Hev2), upd_ne by (try apply Hin1; assumption). by apply Hout. }
  split; [split|split].
  - exists (<[j := ino0]> I). split; [split|].
    + apply Hev2.
    + by rewrite (ev_held _ _ _ Hev2), (ev_held _ _ _ Hst1).
    + rewrite (ev_blocks _ _ _ Hev2), (ev_blocks _ _ _ Hst1).
      apply (fs_add (bs_view s) _ fs _ da j ino0 I HV HA Hn). apply (bs_view_ok s); assumption.
    + cbn [set_file a_files]. rewrite Ha. symmetry. exact (add_files (bs_view s) _ fs _ da j ino0 I HV HA).
  - cbn [set_file a_free]. rewrite Hfree. f_equal. symmetry. exact (add_free (bs_view s) _ fs _ da j ino0 I HV HA).
  - destruct (inode_maximum fs _ da G). unfold inode_block in Hjr. destruct G. unfold inode_max, BLOCK_BITS, BLOCK_SZ in *. lia.
  - rewrite Ha. unfold files. by rewrite lookup_fmap, Hn.
Qed.

(** The entry a directory gets. *)
Lemma dirent_bytes_spec name j s : (length name <= 28)%nat -> is_bytes name ->
  DirEntry_new name j s = Ret {| de_name := splice (replicate 28 0) 0 name; de_inode_number := j |} s /\
  length (dirent_bytes name j) = 32%nat /\ is_bytes (dirent_bytes name j).
Proof.
  intros Hl Hb. split; [|split].
  - unfold DirEntry_new. by rewrite (proj2 (Nat.leb_le _ _) Hl).
  - unfold dirent_bytes, DirEntry_as_bytes. cbn [de_name de_inode_number]. rewrite length_app, length_splice, length_le_bytes by (rewrite length_replicate; lia). done.
  - unfold dirent_bytes, DirEntry_as_bytes. cbn [de_name de_inode_number]. apply Forall_app. split; [|apply le_bytes_is_bytes].
    apply splice_Forall; [|exact Hb]. apply Forall_replicate. unfold is_byte. lia.
Qed.

(** The second half: the entry is appended to the directory. *)
Lemma append_entry_run s fs da a i c name j a' :
  represents s fs da a -> a_files a !! i = Some (Dir, c) -> (length name <= 28)%nat -> is_bytes name ->
  a_set_contents i Dir c (write_bytes c (32 * (length c / 32)) (dirent_bytes name j)) a = Some a' ->
  exists s', (let! v := modify_disk_inode (handle fs i) (fun root_inode =>
        let count := file_count root_inode in
        let new_size := (count + 1) * DIRENT_SZ in
        let! root_inode := Inode_increase_size fs (u32 new_size) root_inode in
        let! dirent := DirEntry_new name j in
        DiskInode_write_at root_inode (count * DIRENT_SZ) (DirEntry_as_bytes dirent) ;;;
        ret (tt, root_inode)) in bs_sync_all ;;; ret v) s = Ret tt s' /\ represents s' fs da a' /\
    forall b, 0 <= b < bs_blocks s' -> bs_disk s' b = bs_view s' b.
Proof.
  intros [(I & HI & Ha) Hfree] Hdir Hl Hb Hset. rewrite Ha in Hdir. unfold files in Hdir. rewrite lookup_fmap in Hdir.
  destruct (I !! i) as [ino|] eqn:Hi; [|discriminate Hdir]. cbn [fmap option_fmap option_map] in Hdir. injection Hdir as Hty <-.
  set (c := contents (bs_view s) ino) in *. set (buf := dirent_bytes name j) in *. set (o := (32 * (length c / 32))%nat) in *.
  unfold a_set_contents in Hset. set (c' := write_bytes c o buf) in *. destruct (_ && _) eqn:Hg in Hset; [|discriminate Hset].
  injection Hset as <-. apply andb_true_iff in Hg as [Hmax Hneed]. apply Z.leb_le in Hmax. apply Nat.leb_le in Hneed.
  pose proof (length_contents s fs da I i ino HI Hi) as Hlc. fold c in Hlc.
  assert (Eb : file_blocks c = total_blocks (size ino)) by (by apply (file_blocks_size s fs da I i)). rewrite Eb in *.
  destruct (dirent_bytes_spec name j s Hl Hb) as (_ & Hbl & Hbb). fold buf in Hbl, Hbb.
  destruct (fv_ino _ _ _ _ _ (fi_view _ _ _ _ HI) i ino Hi) as (_ & _ & Hown). pose proof (ow_size _ _ _ _ Hown) as Hsz.
  assert (Hcount : file_count ino * 32 = Z.of_nat o) by (unfold file_count, o; change DIRENT_SZ with 32; rewrite Hlc; dlia).
  assert (HM : MAX_SIZE < 2 ^ 31) by (vm_compute; reflexivity).
  assert (Hm : Z.of_nat o + 32 <= MAX_SIZE) by (unfold c' in Hmax; rewrite length_write_bytes in Hmax; lia).
  apply (op_refines s fs da a I i ino _ _ _ HI Ha Hi). intros s1 Hs1 Hho Hok1 HV1 Ec Ef.
    destruct (grow_write s1 fs da I i ino (Z.of_nat o + 32) (Z.of_nat o) buf HV1 Hi Hok1 Hho ltac:(rewrite Ec; exact Hlc) Hbb
      ltac:(lia) ltac:(lia) ltac:(lia) Hm) as (ino' & s2 & s3 & E2 & E3 & Hst & HB & Hy & Hc & Hfr).
    { rewrite Ec, Ef, <- Hfree, Nat2Z.id. exact Hneed. }
    rewrite Nat2Z.id, Ec in *. exists ino', s3. split; [|split; [exact Hst|split; [exact HB|]]].
    - cbv zeta. change DIRENT_SZ with 32. replace ((file_count ino + 1) * 32) with (Z.of_nat o + 32) by lia.
      rewrite u32_small by lia. rewrite (bind_Ret _ _ _ _ _ E2).
      rewrite (bind_Ret _ _ _ _ _ (proj1 (dirent_bytes_spec name j s2 Hl Hb))). fold (dirent_bytes name j). fold buf. rewrite Hcount.
      rewrite (bind_Ret _ _ _ _ _ E3). reflexivity.
    - cbn [a_files a_free]. rewrite Hy, Hty, Hc, Hfr, Ef, Hfree. split; reflexivity.
Qed.

Lemma sync_tail {B} (m : M St unit) (r : B) s s' :
  (let! v := m in bs_sync_all ;;; ret v) s = Ret tt s' -> (m ;;; bs_sync_all ;;; ret r) s = Ret r s'.
Proof.
  intros E. apply bind_inv in E as ([] & s1 & E1 & E). apply bind_inv in E as ([] & s2 & E2 & [= <-]).
  by rewrite (bind_Ret _ _ _ _ _ E1), (bind_Ret _ _ _ _ _ E2).
Qed.

(** The lookup at the start of [create_inode]. *)
Lemma lookup_dir s fs da a i c name r :
  represents s fs da a -> a_files a !! i = Some (Dir, c) -> a_find (entries c) name = Some r ->
  exists s', read_disk_inode (handle fs i) (fun root_inode => assert (dir root_inode) ;;; find_inode_id name root_inode) s = Ret r s' /\
    represents s' fs da a.
Proof.
  intros Hrep Hdir Hf. pose proof Hrep as [(I & HI & Ha) _]. rewrite Ha in Hdir. unfold files in Hdir. rewrite lookup_fmap in Hdir.
  destruct (I !! i) as [ino|] eqn:Hi; [|discriminate Hdir]. cbn [fmap option_fmap option_map] in Hdir. injection Hdir as Hty <-.
  destruct (inode_openable s fs da I i ino HI Hi) as (_ & _ & _ & _ & Hpos).
  destruct (inode_read s fs da I i ino (fun root_inode => assert (dir root_inode) ;;; find_inode_id name root_inode) r HI Hi) as (s1 & E1 & Hk1).
  { intros s1 Hs1 Hio Ec. rewrite bind_assert by (unfold dir; by rewrite Hty). by apply (find_inode_id_run s1 ino _ name r Hio Ec Hty). }
  exists s1. split; [|by apply (represents_keeps s)]. unfold read_disk_inode, handle, Inode_new. rewrite Hpos. exact E1.
Qed.

Lemma create_refines s fs da a i name t r a' :
  represents s fs da a -> a_create (inode_max fs) i name t a = Some (r, a') ->
  exists s', create_inode fs (handle fs i) name t s = Ret (handle fs <$> r) s' /\ represents s' fs da a'.
Proof.
  intros Hrep Hc. unfold a_create in Hc. destruct (a_files a !! i) as [[[|] c]|] eqn:Hdir; [discriminate Hc| |discriminate Hc].
  apply bind_Some in Hc as (found & Hf & Hc). destruct (lookup_dir s fs da a i c name found Hrep Hdir Hf) as (s1 & E1 & Hrep1).
  unfold create_inode. rewrite (bind_Ret _ _ _ _ _ E1). destruct found as [k|].
  { injection Hc as <- <-. exists s1. split; [reflexivity|exact Hrep1]. }
  destruct (_ && _) eqn:Hg in Hc; [|discriminate Hc]. apply andb_true_iff in Hg as [Hl%Nat.leb_le Hb%forallb_bytes].
  apply bind_Some in Hc as (j & Hj & Hc). apply bind_Some in Hc as (a2 & Hset & [= <- <-]).
  destruct (new_inode_run s1 fs da a j t Hrep1 Hj) as (s2 & s3 & E2 & E3 & Hrep3 & Hjr & Hjn).
  rewrite (bind_Ret _ _ _ _ _ E2). rewrite (surjective_pairing (disk_inode_pos fs j)). rewrite (bind_Ret _ _ _ _ _ E3).
  assert (Hdir3 : a_files (set_file j (t, []) a) !! i = Some (Dir, c)).
  { cbn [set_file a_files]. rewrite lookup_insert_ne; [exact Hdir|]. intros ->. congruence. }
  destruct (append_entry_run s3 fs da _ i c name j a2 Hrep3 Hdir3 Hl Hb Hset) as (s4 & E4 & Hrep4 & _).
  exists s4. split; [|exact Hrep4]. rewrite <- surjective_pairing. exact (sync_tail _ _ _ _ E4).
Qed.
End create.

(** ** Sequences of operations *)

Inductive fs_op :=
  | FReadAt (i offset : Z) (buf : list Z)
  | FWriteAt (i offset : Z) (buf : list Z)
  | FClear (i : Z)
  | FCreate (i : Z) (name : list Z) (t : DiskInodeType)
  | FFind (i : Z) (path : list Z)
  | FLs (i : Z).
Inductive fs_result :=
  | RRead (n : Z) (buf : list Z)
  | RWrite (n : Z)
  | RDone
  | RInode (r : option Z)
  | RNames (l : list (list Z)).

(** An operation of [vfs.rs] on the handle of an inode; a handle that is returned is
    the inode number's. *)
Definition run_fs_op {St} `{BlockStore St} (fs : BlockManager) (o : fs_op) (r : fs_result) (s s' : St) : Prop :=
  match o, r with
  | FReadAt i offset buf, RRead n buf' => Inode_read_at (handle fs i) offset buf s = Ret (n, buf') s'
  | FWriteAt i offset buf, RWrite n => Inode_write_at fs (handle fs i) offset buf s = Ret n s'
  | FClear i, RDone => Inode_clear fs (handle fs i) s = Ret tt s'
  | FCreate i name t, RInode j => create_inode fs (handle fs i) name t s = Ret (handle fs <$> j) s'
  | FFind i path, RInode j => find fs (handle fs i) path s = Ret (handle fs <$> j) s'
  | FLs i, RNames l => ls (handle fs i) s = Ret l s'
  | _, _ => False
  end.
Definition a_fs_op (max : Z) (o : fs_op) (a : afs) : option (fs_result * afs) :=
  match o with
  | FReadAt i offset buf => '((n, b), a') ← a_read i offset buf a; Some (RRead n b, a')
  | FWriteAt i offset buf => '(n, a') ← a_write i offset buf a; Some (RWrite n, a')
  | FClear i => '(_, a') ← a_clear i a; Some (RDone, a')
  | FCreate i name t => '(j, a') ← a_create max i name t a; Some (RInode j, a')
  | FFind i path => j ← a_walk (path_names path) i a; Some (RInode j, a)
  | FLs i => l ← a_ls i a; Some (RNames l, a)
  end.
Inductive run_fs {St} `{BlockStore St} (fs : BlockManager) : list fs_op -> list fs_result -> St -> St -> Prop :=
  | run_nil s : run_fs fs [] [] s s
  | run_cons o ops r rs s s1 s2 : run_fs_op fs o r s s1 -> run_fs fs ops rs s1 s2 -> run_fs fs (o :: ops) (r :: rs) s s2.
Fixpoint a_run_fs (max : Z) (ops : list fs_op) (a : afs) : option (list fs_result * afs) :=
  match ops with
  | [] => Some ([], a)
  | o :: ops => '(r, a1) ← a_fs_op max o a; '(rs, a2) ← a_run_fs max ops a1; Some (r :: rs, a2)
  end.

Section sequences.
Context {St : Type} `{SL : BlockStoreLaws St}.
Implicit Types (s : St).

Lemma fs_op_refines s fs da a o r a' :
  represents s fs da a -> a_fs_op (inode_max fs) o a = Some (r, a') ->
  exists s', run_fs_op fs o r s s' /\ represents s' fs da a'.
Proof.
  intros Hrep Ho. destruct o as [i off buf|i off buf|i|i name t|i path|i]; cbn [a_fs_op] in Ho.
  - apply bind_Some in Ho as ([[n b] a1] & E & [= <- <-]). exact (read_refines s fs da a i off buf _ _ Hrep E).
  - apply bind_Some in Ho as ([n a1] & E & [= <- <-]).
    destruct (write_refines s fs da a i off buf _ _ Hrep E) as (s' & E' & Hrep' & _). by exists s'.
  - apply bind_Some in Ho as ([[] a1] & E & [= <- <-]).
    destruct (clear_refines s fs da a i _ _ Hrep E) as (s' & E' & Hrep' & _). by exists s'.
  - apply bind_Some in Ho as ([j a1] & E & [= <- <-]). exact (create_refines s fs da a i name t _ _ Hrep E).
  - apply bind_Some in Ho as (j & E & [= <- <-]). exact (find_refines s fs da a i path _ Hrep E).
  - apply bind_Some in Ho as (l & E & [= <- <-]). exact (ls_refines s fs da a i _ Hrep E).
Qed.

Lemma run_fs_refines ops s fs da a rs a' :
  represents s fs da a -> a_run_fs (inode_max fs) ops a = Some (rs, a') ->
  exists s', run_fs fs ops rs s s' /\ represents s' fs da a'.
Proof.
  revert s a rs. induction ops as [|o ops IH]; intros s a rs Hrep Ho; cbn [a_run_fs] in Ho.
  - injection Ho as <- <-. exists s. split; [constructor|exact Hrep].
  - apply bind_Some in Ho as ([r a1] & E & Ho). apply bind_Some in Ho as ([rs1 a2] & E2 & [= <- <-]).
    destruct (fs_op_refines s fs da a o r a1 Hrep E) as (s1 & E1 & Hrep1).
    destruct (IH s1 a1 rs1 Hrep1 E2) as (s2 & Hrun & Hrep2). exists s2. split; [by econstructor|exact Hrep2].
Qed.
End sequences.
