(* ===== verification/FsFormat.v ===== *)
(** Formatting and opening a device, and a whole life of a file system: format, use,
    write back, open again ([components/src/micro_fs/mfs.rs]). *)
From Stdlib Require Import ZifyNat.
From S2P Require Import Prelude BlockCache DiskWords Bitmap Layout Codecs InodeFields InodeBlocks InodeData FileData Mfs Vfs FsInv FsBlocks FsFiles FsGrow FsSpec FsDirs FsCreate.

(** Parameters of [BlockManager::create] that fit the device. *)
Record format_params (nb total ib : Z) : Prop := {
  fp_ib : 1 <= ib;
  fp_total : 1 + 1025 * ib <= total;
  fp_device : total <= nb;
  fp_small : nb <= 2 ^ 30;
}.
Definition formatted (total ib : Z) : BlockManager := manager_of ib (inode_area_size ib) (data_sizes total ib).1.
Definition data_count (total ib : Z) : Z := (data_sizes total ib).2.
(** A new file system: an empty root directory, every data block free. *)
Definition a_format (total ib : Z) : afs := {| a_files := {[0 := (Dir, [])]}; a_free := Z.to_nat (data_count total ib) |}.

Section geometry.
Context (nb total ib : Z) (P : format_params nb total ib).

Lemma inode_area_eq : inode_area_size ib = 1024 * ib.
Proof.
  destruct P. unfold inode_area_size, maximum, BLOCK_BITS, BLOCK_SZ. cbn [blocks]. change (Z.of_nat (size_of pod_DiskInode)) with 128.
  rewrite (u64_small (ib * _)) by lia. rewrite u64_small by lia.
  replace ((ib * (512 * 8) * 128 + 512 - 1) / 512) with (1024 * ib) by (Z.to_euclidean_division_equations; lia).
  apply u32_small. lia.
Qed.

Lemma data_sizes_eq : exists db da, data_sizes total ib = (db, da) /\ 0 <= db /\ 0 <= da <= db * 4096 /\ 1 + 1025 * ib + db + da = total.
Proof.
  pose proof inode_area_eq as Hia. destruct P. unfold data_sizes. rewrite Hia. rewrite !(u32_small (ib + _)) by lia.
  rewrite (u32_small (total - 1)) by lia. rewrite (u32_small (total - 1 - _)) by lia. set (dt := total - 1 - (ib + 1024 * ib)).
  assert (Hdt : 0 <= dt < 2 ^ 30) by (unfold dt; lia). rewrite (u32_small (dt + 4096)) by lia.
  set (db := (dt + 4096) / 4097). assert (Hdb : 0 <= db /\ dt - db <= db * 4096 /\ db <= dt) by (unfold db; Z.to_euclidean_division_equations; lia).
  exists db, (dt - db). rewrite u32_small by lia. split; [reflexivity|]. unfold dt. lia.
Qed.

Lemma formatted_geometry : geometry (formatted total ib) nb (data_count total ib) /\
  inode_max (formatted total ib) = ib * 4096 /\ data_area_start_block (formatted total ib) + data_count total ib = total.
Proof.
  destruct data_sizes_eq as (db & da & E & Hdb & Hda & Ht). pose proof inode_area_eq as Hia. destruct P.
  unfold formatted, data_count, manager_of. rewrite E, Hia. cbn [fst snd]. rewrite !(u32_small (ib + _)) by lia.
  rewrite (u32_small (1 + (ib + _))), (u32_small (1 + ib)), (u32_small (1 + (ib + _) + db)) by lia.
  split; [|split; [reflexivity|cbn [data_area_start_block]; lia]].
  split; cbn [inode_bitmap data_bitmap start_block_id blocks inode_area_start_block data_area_start_block];
    try reflexivity; unfold BLOCK_BITS, BLOCK_SZ; lia.
Qed.
End geometry.

Section format.
Context {St : Type} `{SL : BlockStoreLaws St}.
Implicit Types (s : St) (fs : BlockManager) (F : Z -> list Z).

Lemma clear_all_run l s :
  bs_ok s -> (forall b, b ∈ l -> openable s b) ->
  exists s', for_each l clear_block s = Ret tt s' /\ steps s s' /\
    forall b, blk_in s b -> bs_view s' b = if decide (b ∈ l) then zero_block else bs_view s b.
Proof.
  revert s. induction l as [|x l IH]; intros s Hok Hop; cbn [for_each].
  - exists s. split; [done|]. split; [by apply steps_refl|]. intros b Hb. by rewrite decide_False by (apply not_elem_of_nil).
  - destruct (clear_block_run s x Hok (Hop x ltac:(by left))) as (s1 & E1 & Hev1). rewrite (bind_Ret _ _ _ _ _ E1).
    destruct (IH s1 (ev_ok _ _ _ Hev1)) as (s2 & E2 & Hst2 & Hv2).
    { intros b Hb. apply (evolves_openable _ _ _ _ Hev1), Hop. by right. }
    exists s2. split; [exact E2|]. split; [eapply steps_trans; [by eapply evolves_steps|exact Hst2]|].
    intros b Hb. rewrite Hv2, (ev_view _ _ _ Hev1) by (try (unfold blk_in in *; by rewrite (ev_blocks _ _ _ Hev1)); exact Hb).
    unfold upd. destruct (decide (b ∈ l)).
    + by rewrite decide_True by (by right).
    + destruct (Z.eqb_spec b x) as [->|Hne]; [by rewrite decide_True by (by left)|].
      rewrite decide_False; [done|]. by apply not_elem_of_cons.
Qed.

Lemma of_le_zeros n : of_le (zeros n) = 0.
Proof. induction n as [|n IH]; [done|]. cbn [zeros replicate of_le] in *. unfold zeros in IH. rewrite IH. done. Qed.

Lemma zero_bit F b c : (forall j, in_bitmap b j -> F j = zero_block) -> 0 <= c < blocks b * BLOCK_BITS -> bitmap_bit F b c = false.
Proof.
  intros HF Hc. unfold bitmap_bit, block_bit. rewrite HF; [|].
  - unfold zero_block. rewrite of_le_zeros. apply Z.bits_0.
  - unfold in_bitmap. assert (E : BLOCK_BITS = 4096) by reflexivity. rewrite E in *. Z.to_euclidean_division_equations. lia.
Qed.

Lemma slice_zeros (n lo k : nat) : (lo + k <= n)%nat -> slice (zeros n) lo k = zeros k.
Proof. intros H0. unfold slice, zeros. rewrite drop_replicate, take_replicate. f_equal. lia. Qed.

Definition zero_inode : DiskInode :=
  {| size := 0; direct := replicate 27 0; indirect1 := 0; indirect2 := 0; indirect3 := 0; type_ := File |}.
Lemma decode_zero_inode : decode pod_DiskInode (zeros 128) = Some zero_inode.
Proof. vm_compute. reflexivity. Qed.

(** A zeroed device with a super block is a file system without inodes. *)
Lemma zeroed_view F fs nb da sb :
  geometry fs nb da -> decode pod_SuperBlock (slice (F 0) 0 24) = Some sb -> SuperBlock_valid sb = true ->
  manager_of (inode_bitmap_blocks sb) (inode_area_blocks sb) (data_bitmap_blocks sb) = fs ->
  (forall b, 0 < b < data_area_start_block fs + da -> F b = zero_block) ->
  fs_view F fs nb da ∅ /\ free_ids F fs da = seqZ 0 da.
Proof.
  intros G Hsb Hval Hfs Hz.
  assert (Hib : forall j, in_bitmap (inode_bitmap fs) j -> F j = zero_block) by (intros j Hj; apply Hz; destruct G; unfold in_bitmap in Hj; lia).
  assert (Hdb : forall j, in_bitmap (data_bitmap fs) j -> F j = zero_block) by (intros j Hj; apply Hz; destruct G; unfold in_bitmap in Hj; lia).
  assert (Hu : forall b, in_data fs da b -> used F fs b = false).
  { intros b Hb. apply zero_bit; [exact Hdb|]. apply (in_data_range fs nb da G b Hb). }
  split.
  - split; [exact G|by exists sb| | | | | |].
    + intros i Hi. rewrite (zero_bit F _ i Hib Hi), lookup_empty. split; [done|intros [? ?]; done].
    + intros i ino Hi. by rewrite lookup_empty in Hi.
    + intros i Hi. exists zero_inode. unfold ino_at. pose proof (inode_block_range fs nb da G i Hi). rewrite Hz by (destruct G; lia).
      destruct (inode_off_range i) as [Ho _]. unfold zero_block. rewrite slice_zeros by exact Ho. exact decode_zero_inode.
    + intros i j ino ino' b Hi. by rewrite lookup_empty in Hi.
    + intros b Hb. rewrite Hu by exact Hb. split; [done|]. intros (i & ino & Hi & _). by rewrite lookup_empty in Hi.
    + intros b Hb _. apply Hz. pose proof (in_data_range fs nb da G b Hb). unfold in_data in Hb. destruct G. lia.
  - apply filter_all. intros c Hc%elem_of_seqZ. unfold is_free. apply zero_bit; [exact Hdb|]. destruct G. lia.
Qed.

Lemma SuperBlock_decodes bs : exists sb, decode pod_SuperBlock bs = Some sb.
Proof. cbn [decode pod_SuperBlock decode_words]. by eexists. Qed.

Lemma sync_run_keeps s : bs_ok s -> bs_held s = [] ->
  exists s', bs_sync_all s = Ret tt s' /\ evolves s (bs_view s) s' /\ forall b, 0 <= b < bs_blocks s' -> bs_disk s' b = bs_view s' b.
Proof.
  intros Hok Hh. destruct (bs_sync_run s Hok Hh) as (s' & E & Hok' & Hb & Hh' & Hv). exists s'. split; [exact E|]. split.
  - split; [exact Hok'|exact Hb|congruence| |intros j Hj; by apply Hv]. intros j. rewrite Hh. by intros ?%elem_of_nil.
  - intros b Hb'. rewrite Hb in Hb'. destruct (Hv b Hb') as [E1 E2]. congruence.
Qed.

(** The device after zeroing and writing the super block. *)
Lemma zero_device s total ib sb :
  bs_ok s -> bs_held s = [] -> format_params (bs_blocks s) total ib -> SuperBlock_good sb ->
  exists s1 s2, for_each (seqZ 0 total) clear_block s = Ret tt s1 /\
    modify_in pod_SuperBlock 0 0 (fun _ => ret (tt, sb)) s1 = Ret tt s2 /\ steps s s2 /\
    decode pod_SuperBlock (slice (bs_view s2 0) 0 24) = Some sb /\
    forall b, 0 < b < total -> bs_view s2 b = zero_block.
Proof.
  intros Hok Hh [Hib Htotal Hdev Hsmall] Hgood.
  assert (Hopen : forall b, 0 <= b < bs_blocks s -> openable s b).
  { intros b Hb. split; [exact Hb|rewrite Hh; apply not_elem_of_nil|rewrite Hh; cbn; unfold BLOCK_CACHE_SIZE; lia]. }
  destruct (clear_all_run (seqZ 0 total) s Hok) as (s1 & E1 & Hst1 & Hv1).
  { intros b Hb%elem_of_seqZ. apply Hopen. lia. }
  assert (Hop1 : openable s1 0) by (apply (evolves_openable _ _ _ _ Hst1), Hopen; lia).
  destruct (SuperBlock_decodes (slice (bs_view s1 0) (Z.to_nat 0) (size_of pod_SuperBlock))) as [sb0 Hsb0].
  destruct (modify_in_pure pod_SuperBlock s1 0 0 (fun _ => ret (tt, sb)) sb0 tt sb (ev_ok _ _ _ Hst1) Hop1 ltac:(lia) ltac:(done) Hsb0
    (pod_bytes_ok (pod_laws := SuperBlock_laws) sb) (pod_fits (pod_laws := SuperBlock_laws) sb Hgood)) as (s2 & E2 & Hev2); [done|].
  exists s1, s2. split; [exact E1|]. split; [exact E2|]. split; [eapply steps_trans; [exact Hst1|by eapply evolves_steps]|].
  assert (Hin1 : forall b, 0 <= b < bs_blocks s -> blk_in s1 b) by (intros b Hb; unfold blk_in; by rewrite (ev_blocks _ _ _ Hst1)).
  assert (H0 : length (bs_view s1 0) = block_size) by (apply (bs_view_ok s1 0 (ev_ok _ _ _ Hst1)), Hin1; lia).
  split.
  - rewrite (ev_view _ _ _ Hev2), upd_eq by (apply Hin1; lia). change (Z.to_nat 0) with 0%nat.
    pose proof (pod_fits (pod_laws := SuperBlock_laws) sb Hgood) as Hf. change (size_of pod_SuperBlock) with 24%nat in Hf.
    rewrite slice_splice_inner; [|exact Hf|rewrite H0; unfold block_size; lia].
    apply (pod_read (pod_laws := SuperBlock_laws) sb); [exact Hgood|]. apply length_slice. rewrite H0. unfold block_size. cbn [size_of pod_SuperBlock]. lia.
  - intros b Hb. rewrite (ev_view _ _ _ Hev2), upd_ne by (try apply Hin1; lia). rewrite Hv1 by (unfold blk_in; lia).
    apply decide_True. apply elem_of_seqZ. lia.
Qed.

Lemma format_run s total ib :
  bs_ok s -> bs_held s = [] -> format_params (bs_blocks s) total ib ->
  exists s', BlockManager_create total ib s = Ret (formatted total ib) s' /\
    represents s' (formatted total ib) (data_count total ib) (a_format total ib) /\
    forall b, 0 <= b < bs_blocks s' -> bs_disk s' b = bs_view s' b.
Proof.
  intros Hok Hh HP. destruct (formatted_geometry _ _ _ HP) as (G & Hmax & Htot). pose proof (data_sizes_eq _ _ _ HP) as (db & da & Eds & Hdb & Hda & Et).
  pose proof (inode_area_eq _ _ _ HP) as Hia. set (fs := formatted total ib) in *. pose proof HP as [Hib Htotal Hdev Hsmall].
  assert (Hfs : fs = manager_of ib (1024 * ib) db) by (unfold fs, formatted; by rewrite Eds, Hia).
  assert (Eda : data_count total ib = da) by (unfold data_count; by rewrite Eds). rewrite Eda in *.
  unfold BlockManager_create. cbv zeta. rewrite Eds, Hia, <- Hfs. set (sb := SuperBlock_initialize total ib (1024 * ib) db da).
  assert (Hgood : SuperBlock_good sb).
  { unfold SuperBlock_good, u32s, sb, SuperBlock_initialize, MFS_MAGIC. cbn. repeat constructor; lia. }
  destruct (zero_device s total ib sb Hok Hh HP Hgood) as (s1 & s2 & E1 & E2 & Hst & Hsb & Hz).
  rewrite (bind_Ret _ _ _ _ _ E1), (bind_Ret _ _ _ _ _ E2).
  destruct (zeroed_view (bs_view s2) fs (bs_blocks s) da sb G Hsb eq_refl ltac:(by rewrite Hfs)) as [HV Hfree].
  { intros b Hb. apply Hz. lia. }
  assert (Hrep : represents s2 fs da {| a_files := ∅; a_free := Z.to_nat da |}).
  { split.
    - exists ∅. split; [split; [apply Hst|by rewrite (ev_held _ _ _ Hst)|by rewrite (ev_blocks _ _ _ Hst)]|].
      unfold files. by rewrite fmap_empty.
    - cbn. rewrite Hfree. unfold seqZ. by rewrite length_fmap, length_seq. }
  destruct (new_inode_run s2 fs da _ 0 Dir Hrep) as (s3 & s4 & E3 & E4 & Hrep4 & _).
  { unfold new_inode. cbn [a_files]. rewrite filter_all by (intros x _; apply lookup_empty). rewrite seqZ_cons by lia. reflexivity. }
  rewrite (bind_Ret _ _ _ _ _ E3). rewrite bind_assert by done. rewrite (surjective_pairing (disk_inode_pos fs 0)).
  rewrite (bind_Ret _ _ _ _ _ E4). destruct (rp_inodes _ _ _ _ Hrep4) as (I & HI & _).
  destruct (sync_run_keeps s4 (fi_ok _ _ _ _ HI) (fi_held _ _ _ _ HI)) as (s5 & E5 & Hk5 & Hdisk). rewrite (bind_Ret _ _ _ _ _ E5).
  exists s5. split; [reflexivity|]. split; [|exact Hdisk]. unfold a_format. rewrite Eda. by apply (represents_keeps s4).
Qed.

(** Opening reads the super block back. *)
Lemma open_run s fs da a : represents s fs da a ->
  exists s', BlockManager_open s = Ret fs s' /\ represents s' fs da a.
Proof.
  intros Hrep. pose proof Hrep as [(I & [Hok Hh HV] & _) _]. pose proof (fv_geo _ _ _ _ _ HV) as G.
  destruct (fv_super _ _ _ _ _ HV) as (sb & Hsb & Hval & Hfs).
  assert (Hop : openable s 0).
  { split; [destruct G; unfold blk_in; lia|rewrite Hh; apply not_elem_of_nil|rewrite Hh; cbn; unfold BLOCK_CACHE_SIZE; lia]. }
  destruct (read_in_pure pod_SuperBlock s 0 0 (fun super_block => assert (SuperBlock_valid super_block) ;;;
    ret (manager_of (inode_bitmap_blocks super_block) (inode_area_blocks super_block) (data_bitmap_blocks super_block))) sb fs
    Hok Hop ltac:(lia) ltac:(done) Hsb) as (s' & E & Hk).
  { intros s1. rewrite bind_assert by exact Hval. by rewrite Hfs. }
  exists s'. split; [exact E|by apply (represents_keeps s)].
Qed.

(** C12. Formatting a device succeeds, and then every sequence of create, create_dir, find, ls,
    read_at, write_at and clear whose abstract run goes through gives, step by step, the results of
    an abstract file system of named byte strings and directory lists with a count of free blocks: a
    write past the end fills with zeros, a name is created once, a full path is walked, a cleared
    file gives its blocks back. *)
Theorem fs_refines s total ib ops rs a' :
  bs_ok s -> bs_held s = [] -> format_params (bs_blocks s) total ib ->
  a_run_fs (ib * 4096) ops (a_format total ib) = Some (rs, a') ->
  exists fs s1 s2, BlockManager_create total ib s = Ret fs s1 /\ run_fs fs ops rs s1 s2 /\
    represents s2 fs (data_count total ib) a'.
Proof.
  intros Hok Hh HP Hops. destruct (formatted_geometry _ _ _ HP) as (_ & Hmax & _). rewrite <- Hmax in Hops.
  destruct (format_run s total ib Hok Hh HP) as (s1 & E1 & Hrep & _).
  destruct (run_fs_refines ops s1 _ _ _ _ _ Hrep Hops) as (s2 & Hrun & Hrep2).
  exists (formatted total ib), s1, s2. split; [exact E1|]. split; [exact Hrun|exact Hrep2].
Qed.

(** C13. After formatting and any such sequence of operations, no data block belongs to two inodes,
    every block of an inode lies in the data area, a data block is marked in the bitmap exactly when
    some inode owns it, and every free block is zeroed. *)
Theorem fs_blocks_exclusive s total ib ops rs a' :
  bs_ok s -> bs_held s = [] -> format_params (bs_blocks s) total ib ->
  a_run_fs (ib * 4096) ops (a_format total ib) = Some (rs, a') ->
  exists fs s1 s2, BlockManager_create total ib s = Ret fs s1 /\ run_fs fs ops rs s1 s2 /\
    let F := bs_view s2 in
    let owner i b := exists ino, bitmap_bit F (inode_bitmap fs) i = true /\ ino_at F fs i = Some ino /\
      b ∈ bid <$> inode_list F ino (nblocks ino) in
    (forall i j b, 0 <= i < maximum (inode_bitmap fs) -> 0 <= j < maximum (inode_bitmap fs) -> owner i b -> owner j b ->
       i = j /\ data_area_start_block fs <= b < total) /\
    forall b, data_area_start_block fs <= b < total ->
      let marked := bitmap_bit F (data_bitmap fs) (b - data_area_start_block fs) in
      (marked = true <-> exists i, 0 <= i < maximum (inode_bitmap fs) /\ owner i b) /\
      (marked = false -> F b = replicate block_size 0).
Proof.
  intros Hok Hh HP Hops. destruct (formatted_geometry _ _ _ HP) as (_ & Hmax & Htot). rewrite <- Hmax in Hops.
  destruct (format_run s total ib Hok Hh HP) as (s1 & E1 & Hrep & _).
  destruct (run_fs_refines ops s1 _ _ _ _ _ Hrep Hops) as (s2 & Hrun & Hrep2).
  exists (formatted total ib), s1, s2. split; [exact E1|]. split; [exact Hrun|]. clear Hrep. cbv zeta.
  set (fs := formatted total ib) in *. destruct (rp_inodes _ _ _ _ Hrep2) as (I & [_ _ HV] & _).
  rewrite (proj1 (inode_maximum fs _ _ (fv_geo _ _ _ _ _ HV))). set (F := bs_view s2) in *.
  assert (Hown : forall i b, 0 <= i < inode_max fs ->
    (exists ino, bitmap_bit F (inode_bitmap fs) i = true /\ ino_at F fs i = Some ino /\ b ∈ bid <$> inode_list F ino (nblocks ino)) ->
    exists ino, I !! i = Some ino /\ b ∈ blocks_of F ino).
  { intros i b Hi (ino & Hb & Hat & Hin). apply (fv_bits _ _ _ _ _ HV i Hi) in Hb as [ino' Hi']. exists ino'. split; [exact Hi'|].
    destruct (fv_ino _ _ _ _ _ HV i ino' Hi') as (_ & Hat' & _). rewrite Hat in Hat'. injection Hat' as <-. exact Hin. }
  split.
  - intros i j b Hi Hj Ho1 Ho2. destruct (Hown i b Hi Ho1) as (ino & Hi' & Hb). destruct (Hown j b Hj Ho2) as (jno & Hj' & Hb').
    split; [exact (fv_disjoint _ _ _ _ _ HV i j ino jno b Hi' Hj' Hb Hb')|].
    destruct (fv_ino _ _ _ _ _ HV i ino Hi') as (_ & _ & Hown'). pose proof (ow_data _ _ _ _ Hown' b Hb) as Hd. unfold in_data in Hd. lia.
  - intros b Hb. assert (Hd : in_data fs (data_count total ib) b) by (unfold in_data; lia). fold (used F fs b).
    split; [split|by apply (fv_free _ _ _ _ _ HV)].
    + intros (i & ino & Hi & Hin)%(fv_used _ _ _ _ _ HV b Hd). destruct (fv_ino _ _ _ _ _ HV i ino Hi) as (Hir & Hat & _).
      exists i. split; [exact Hir|]. exists ino. split; [apply (fv_bits _ _ _ _ _ HV i Hir); by exists ino|]. split; [exact Hat|exact Hin].
    + intros (i & Hi & Ho). destruct (Hown i b Hi Ho) as (ino & Hi' & Hin). apply (fv_used _ _ _ _ _ HV b Hd). by exists i, ino.
Qed.
End format.

(** ** Opening the device again *)

Section remount.
Context {D : Type} `{DL : BlockDeviceLaws D}.

(** A fresh cache over the device of a synced one sees the same blocks. *)
Lemma remount_represents (s s' : store D) fs da a :
  represents s fs da a -> block_cache_sync_all s = Ret tt s' -> represents (BlockCacheManager_new (device s')) fs da a.
Proof.
  intros Hrep E. destruct (rp_inodes _ _ _ _ Hrep) as (I & HI & _).
  destruct (sync_run_keeps s (fi_ok _ _ _ _ HI) (fi_held _ _ _ _ HI)) as (s'' & E' & Hk & Hdisk).
  change (bs_sync_all s) with (block_cache_sync_all s) in E'. rewrite E in E'. injection E' as <-.
  pose proof (represents_keeps s s' fs da a Hrep Hk) as Hrep'. pose proof (ev_ok _ _ _ Hk) as Hok'. cbn in Hok'.
  apply (represents_agree s'); [exact Hrep'|exact (BlockCacheManager_new_ok _ (so_dev _ Hok'))|reflexivity|reflexivity|].
  intros b Hb. exact (Hdisk b Hb).
Qed.

(** C14. After formatting, any sequence of operations and a sync, opening the device with an empty
    cache gives the same file system: the operations that follow have the results they would have
    had without the remount. *)
Theorem fs_survives_remount (d : D) total ib ops1 ops2 rs1 rs2 a1 a2 :
  dev_ok d -> format_params (dev_blocks d) total ib ->
  a_run_fs (ib * 4096) ops1 (a_format total ib) = Some (rs1, a1) -> a_run_fs (ib * 4096) ops2 a1 = Some (rs2, a2) ->
  exists fs s1 s2 s3, BlockManager_create total ib (BlockCacheManager_new d) = Ret fs s1 /\ run_fs fs ops1 rs1 s1 s2 /\
    block_cache_sync_all s2 = Ret tt s3 /\
    exists s4 s5, BlockManager_open (BlockCacheManager_new (device s3)) = Ret fs s4 /\ run_fs fs ops2 rs2 s4 s5.
Proof.
  intros Hd HP H1 H2. pose proof (BlockCacheManager_new_ok d Hd) as Hok. destruct (formatted_geometry _ _ _ HP) as (_ & Hmax & _).
  rewrite <- Hmax in H1, H2.
  destruct (format_run (SL := cache_laws) (BlockCacheManager_new d) total ib Hok eq_refl HP) as (s1 & E1 & Hrep1 & _).
  destruct (run_fs_refines ops1 s1 _ _ _ _ _ Hrep1 H1) as (s2 & Hrun1 & Hrep2).
  destruct (rp_inodes _ _ _ _ Hrep2) as (I & HI & _).
  destruct (sync_run_keeps s2 (fi_ok _ _ _ _ HI) (fi_held _ _ _ _ HI)) as (s3 & E3 & _ & _).
  pose proof (remount_represents s2 s3 _ _ _ Hrep2 E3) as Hrep3.
  destruct (open_run _ _ _ _ Hrep3) as (s4 & E4 & Hrep4).
  destruct (run_fs_refines ops2 s4 _ _ _ _ _ Hrep4 H2) as (s5 & Hrun2 & _).
  exists (formatted total ib), s1, s2, s3. split; [exact E1|]. split; [exact Hrun1|]. split; [exact E3|]. by exists s4, s5.
Qed.
End remount.

(** ** A life of a small file system *)

(** 1100 zero blocks; one inode bitmap block leaves 73 blocks of data. *)
Definition blank_image : BlockFile := zeros (1100 * block_size).
Definition blank_store : store BlockFile := BlockCacheManager_new blank_image.
Lemma blank_image_ok : image_ok blank_image.
Proof.
  unfold blank_image, image_ok. split_and!.
  - apply Forall_replicate. unfold is_byte. lia.
  - rewrite length_zeros. by apply Nat.Div0.mod_mul.
  - rewrite length_zeros. unfold block_size. lia.
Qed.
Lemma zeros_blocks (n : nat) : dev_blocks (zeros (n * block_size) : BlockFile) = Z.of_nat n.
Proof.
  change (Z.of_nat (length (zeros (n * block_size))) / BLOCK_SZ = Z.of_nat n). rewrite length_zeros. unfold BLOCK_SZ, block_size. dlia.
Qed.
Lemma small_params : format_params 1100 1100 1.
Proof. split; lia. Qed.
Lemma blank_params : format_params (dev_blocks blank_image) 1100 1.
Proof. unfold blank_image. rewrite zeros_blocks. exact small_params. Qed.

(** Make the file [a] and the directory [d] with a file [b]; write past the end of [a]. *)
Definition demo_ops1 : list fs_op :=
  [FCreate 0 [97] File; FWriteAt 1 600 [1; 2; 3]; FCreate 0 [100] Dir; FCreate 2 [98] File; FCreate 0 [97] File].
(** Read it back, list, look up by path, clear. *)
Definition demo_ops2 : list fs_op :=
  [FReadAt 1 599 [9; 9; 9]; FLs 0; FFind 0 [47; 100; 47; 98]; FFind 0 [97; 47; 98]; FClear 1; FReadAt 1 0 [9]; FWriteAt 1 3 [5]; FReadAt 1 0 [9; 9; 9; 9; 9]].

Definition demo_rs1 : list fs_result := [RInode (Some 1); RWrite 3; RInode (Some 2); RInode (Some 3); RInode None].
Definition demo_rs2 : list fs_result :=
  [RRead 3 [0; 1; 2]; RNames [[97]; [100]]; RInode (Some 3); RInode None; RDone; RRead 0 [9]; RWrite 1; RRead 4 [0; 0; 0; 5; 9]].
Definition after (max : Z) (ops : list fs_op) (a : afs) : afs := match a_run_fs max ops a with Some (_, a') => a' | None => a end.
Definition demo_a1 : afs := after (1 * 4096) demo_ops1 (a_format 1100 1).

Lemma after_run max ops a rs : fst <$> a_run_fs max ops a = Some rs -> a_run_fs max ops a = Some (rs, after max ops a).
Proof. unfold after. destruct (a_run_fs max ops a) as [[rs' a']|]; [|discriminate]. cbn. by intros [= ->]. Qed.
Lemma demo_run1 : a_run_fs (1 * 4096) demo_ops1 (a_format 1100 1) = Some (demo_rs1, demo_a1).
Proof. apply after_run. vm_compute. reflexivity. Qed.
Lemma demo_run2 : a_run_fs (1 * 4096) demo_ops2 demo_a1 = Some (demo_rs2, after (1 * 4096) demo_ops2 demo_a1).
Proof. apply after_run. vm_compute. reflexivity. Qed.

Lemma blank_store_ok : bs_ok blank_store.
Proof. exact (BlockCacheManager_new_ok blank_image blank_image_ok). Qed.

Lemma fs_refines_witness :
  exists fs s1 s2, BlockManager_create 1100 1 blank_store = Ret fs s1 /\ run_fs fs demo_ops1 demo_rs1 s1 s2.
Proof.
  destruct (fs_refines blank_store 1100 1 demo_ops1 demo_rs1 demo_a1 blank_store_ok eq_refl blank_params demo_run1)
    as (fs & s1 & s2 & E & Hrun & _). exists fs, s1, s2. split; [exact E|exact Hrun].
Defined.

Lemma fs_blocks_exclusive_witness :
  exists fs s1 s2, BlockManager_create 1100 1 blank_store = Ret fs s1 /\ run_fs fs demo_ops1 demo_rs1 s1 s2.
Proof.
  destruct (fs_blocks_exclusive blank_store 1100 1 demo_ops1 demo_rs1 demo_a1 blank_store_ok eq_refl blank_params demo_run1)
    as (fs & s1 & s2 & E & Hrun & _). exists fs, s1, s2. split; [exact E|exact Hrun].
Defined.

Lemma fs_survives_remount_witness :
  exists fs s1 s2 s3 s4 s5, BlockManager_create 1100 1 blank_store = Ret fs s1 /\ run_fs fs demo_ops1 demo_rs1 s1 s2 /\
    block_cache_sync_all s2 = Ret tt s3 /\ BlockManager_open (BlockCacheManager_new (device s3)) = Ret fs s4 /\
    run_fs fs demo_ops2 demo_rs2 s4 s5.
Proof.
  destruct (fs_survives_remount (DL := BlockFile_laws) blank_image 1100 1 demo_ops1 demo_ops2 demo_rs1 demo_rs2 demo_a1 _ blank_image_ok blank_params
    demo_run1 demo_run2) as (fs & s1 & s2 & s3 & E1 & H1 & E3 & s4 & s5 & E4 & H2).
  exists fs, s1, s2, s3, s4, s5. split_and!; assumption.
Defined.
