(* ===== verification/Files.v ===== *)
(** Kernel file objects: [os/src/fs/{mod,inode,stdio}.rs].

    An [Arc<dyn File>] is the identity of an object: the standard streams have no
    state, an [OSInode] and the ends of a pipe live in [objects], the ring buffers
    of pipes in [rings].  An object is never taken out of [objects]; whether
    anything still refers to it is counted in the descriptor tables.

    A call that has to wait is a sequence of turns: [IoSuspend] is a turn that
    ended in [suspend_current_and_run_next], [IoAgain] one whose loop goes on at
    once.  The firmware's console is a parameter. *)
From S2P Require Import Prelude Address FrameAllocator PageTable UserBytes Pipe Pid MemorySet UserSpace Process.
From S2P Require Import BlockCache DiskWords Bitmap Layout Mfs Vfs.

(** The SBI calls [sbi::console_getchar] (0: nothing typed), [sbi::console_putchar] and
    [sbi::timer], and the time register. *)
Class Firmware (C : Type) := {
  console_getchar : C -> Z * C;
  console_putchar : Z -> C -> C;
  set_timer : Z -> C -> C;
  read_time : C -> Z * C;
}.

Record OSInode := { os_readable : bool; os_writable : bool; os_offset : Z; os_inode : Inode }.
Definition OSInode_new (readable writable : bool) (inode : Inode) : OSInode :=
  {| os_readable := readable; os_writable := writable; os_offset := 0; os_inode := inode |}.

#[export] Instance file_eq_dec : EqDecision file.
Proof. solve_decision. Defined.

(** [inner.offset += n] *)
Definition advance (n : Z) (o : OSInode) : OSInode :=
  {| os_readable := os_readable o; os_writable := os_writable o; os_offset := u64 (os_offset o + n); os_inode := os_inode o |}.

Inductive file_object := ObjInode (o : OSInode) | ObjPipe (p : Pipe).

Module OpenFlags.
Definition RDONLY : Z := 0.
Definition WRONLY : Z := Z.shiftl 1 0.
Definition RDWR : Z := Z.shiftl 1 1.
Definition CREATE : Z := Z.shiftl 1 9.
Definition TRUNC : Z := Z.shiftl 1 10.
Definition all : Z := Z.lor (Z.lor WRONLY RDWR) (Z.lor CREATE TRUNC).
Definition from_bits (bits : Z) : option Z := if Z.ldiff bits all =? 0 then Some bits else None.
Definition is_empty (self : Z) : bool := self =? 0.
Definition contains (self other : Z) : bool := Z.land self other =? other.
Definition read_write (self : Z) : bool * bool :=
  if is_empty self then (true, false)
  else if contains self WRONLY then (false, true)
  else (true, true).
End OpenFlags.

(** The code points of a string, for [str::chars]; the bytes of the characters of a
    [String] that [push(ch as char)] builds. *)
Fixpoint str_chars (fuel : nat) (bs : list Z) : list Z :=
  match fuel, bs with
  | S fuel, a :: r =>
      if a <? 0x80 then a :: str_chars fuel r
      else
        let cont := foldl (fun c b => c * 64 + b mod 64) in
        if a <? 0xe0 then cont (a mod 32) (take 1 r) :: str_chars fuel (drop 1 r)
        else if a <? 0xf0 then cont (a mod 16) (take 2 r) :: str_chars fuel (drop 2 r)
        else cont (a mod 8) (take 3 r) :: str_chars fuel (drop 3 r)
  | _, _ => []
  end.
Definition chars (s : list Z) : list Z := str_chars (length s) s.

(** ** The state file operations work on *)

Record system (T St C : Type) := {
  kern : kernel T;
  disk : St;
  objects : gmap Z file_object;
  rings : gmap Z PipeRingBuffer;
  con : C;
}.
Arguments kern {T St C} _. Arguments disk {T St C} _. Arguments objects {T St C} _. Arguments rings {T St C} _. Arguments con {T St C} _.
Arguments Build_system {T St C} _ _ _ _ _.

Inductive wait := WaitRead (p : Pipe) (c : call) | WaitWrite (p : Pipe) (c : call) | WaitStdin (b : UserBuffer).
Inductive io := IoRet (n : Z) | IoSuspend (w : wait) | IoAgain (w : wait).

Section files.
Context {T St C : Type} `{FrameAllocator T} `{BlockStore St} `{Firmware C}.
Implicit Types (s : system T St C).

Definition set_kern x s : system T St C := Build_system x (disk s) (objects s) (rings s) (con s).
Definition set_disk x s : system T St C := Build_system (kern s) x (objects s) (rings s) (con s).
Definition set_objects x s : system T St C := Build_system (kern s) (disk s) x (rings s) (con s).
Definition set_rings x s : system T St C := Build_system (kern s) (disk s) (objects s) x (con s).
Definition set_con x s : system T St C := Build_system (kern s) (disk s) (objects s) (rings s) x.
Definition on_kern {A} (m : M (kernel T) A) : M (system T St C) A := zoom kern set_kern m.
Definition on_disk {A} (m : M St A) : M (system T St C) A := zoom disk set_disk m.
Definition on_kmem {A} (m : M (mem T) A) : M (system T St C) A := on_kern (on_mem m).

Definition get_object (id : Z) : M (system T St C) file_object :=
  fun s => match objects s !! id with Some o => Ret o s | None => Panic Invalid end.
Definition new_object (o : file_object) : M (system T St C) Z :=
  fun s => let id := fresh (dom (objects s)) in Ret id (set_objects (<[id := o]> (objects s)) s).
Definition new_ring (r : Z -> PipeRingBuffer) : M (system T St C) Z :=
  fun s => let id := fresh (dom (rings s)) in Ret id (set_rings (<[id := r id]> (rings s)) s).

(** A slice of physical memory as bytes. *)
Definition load_slice (b : uslice) (m : mem T) : list Z := load_phys (Z.to_nat (us_len b)) (us_pa b) m.

(** ** [OSInode] *)

(** [for slice in buf.buffers.iter_mut()]; [inner.offset] is in the object [id]. *)
Fixpoint OSInode_read_loop (id : Z) (o : OSInode) (slices : list uslice) (total_read_size : Z) : M (system T St C) Z :=
  match slices with
  | [] => ret total_read_size
  | slice :: slices =>
      let! s := get in
      let! '(read_size, bytes) := on_disk (Inode_read_at (os_inode o) (os_offset o) (load_slice slice (kmem (kern s)))) in
      on_kmem (modify (store_phys (us_pa slice) bytes)) ;;;
      if read_size =? 0 then ret total_read_size
      else
        let o := advance read_size o in
        modify (fun s => set_objects (<[id := ObjInode o]> (objects s)) s) ;;;
        OSInode_read_loop id o slices (u64 (total_read_size + read_size))
  end.
Definition OSInode_read (id : Z) (o : OSInode) (buf : UserBuffer) : M (system T St C) Z :=
  OSInode_read_loop id o (buffers buf) 0.

Fixpoint OSInode_write_loop (fs : BlockManager) (id : Z) (o : OSInode) (slices : list uslice) (total_write_size : Z) :
    M (system T St C) Z :=
  match slices with
  | [] => ret total_write_size
  | slice :: slices =>
      let! s := get in
      let! write_size := on_disk (Inode_write_at fs (os_inode o) (os_offset o) (load_slice slice (kmem (kern s)))) in
      assert (write_size =? us_len slice) ;;;
      let o := advance write_size o in
      modify (fun s => set_objects (<[id := ObjInode o]> (objects s)) s) ;;;
      OSInode_write_loop fs id o slices (u64 (total_write_size + write_size))
  end.
Definition OSInode_write (fs : BlockManager) (id : Z) (o : OSInode) (buf : UserBuffer) : M (system T St C) Z :=
  OSInode_write_loop fs id o (buffers buf) 0.

(** [read_all], from the offset on: the vector and the object.  A turn per 512 bytes. *)
Fixpoint read_all_loop (fuel : nat) (o : OSInode) (buffer v : list Z) : M St (list Z * OSInode) :=
  match fuel with
  | O => fail Fuel
  | S fuel =>
      let! '(len, buffer) := Inode_read_at (os_inode o) (os_offset o) buffer in
      if len =? 0 then ret (v, o)
      else read_all_loop fuel (advance len o) buffer (v ++ take (Z.to_nat len) buffer)
  end.
Definition read_all (fuel : nat) (o : OSInode) : M St (list Z * OSInode) := read_all_loop fuel o (replicate 512 0) [].

(** ** Opening *)

(** [lazy_static]: opened at the first use, in [list_apps] at start-up. *)
Definition ROOT_INODE : M St (BlockManager * Inode) :=
  let! mfs := BlockManager_open in ret (mfs, root_inode mfs).

(** The device's [fs] is the one [ROOT_INODE] opened. *)
Definition open_file (fs : BlockManager) (name : list Z) (flags : Z) : M (system T St C) (option Z) :=
  let '(readable, writable) := OpenFlags.read_write flags in
  let root := root_inode fs in
  if OpenFlags.contains flags OpenFlags.CREATE then
    let! o := on_disk (find fs root name) in
    match o with
    | Some inode =>
        on_disk (Inode_clear fs inode) ;;;
        let! id := new_object (ObjInode (OSInode_new readable writable inode)) in ret (Some id)
    | None =>
        let! o := on_disk (create fs root name) in
        match o with
        | Some inode => let! id := new_object (ObjInode (OSInode_new readable writable inode)) in ret (Some id)
        | None => ret None
        end
    end
  else
    let! o := on_disk (find fs root name) in
    match o with
    | Some inode =>
        (if OpenFlags.contains flags OpenFlags.TRUNC then on_disk (Inode_clear fs inode) else ret tt) ;;;
        let! id := new_object (ObjInode (OSInode_new readable writable inode)) in ret (Some id)
    | None => ret None
    end.

(** ** The standard streams *)

(** [print!("{}", s)] *)
Definition print (bs : list Z) : M (system T St C) unit :=
  for_each (chars bs) (fun c => modify (fun s => set_con (console_putchar c (con s)) s)).
(** The first use of [ROOT_INODE] runs its initialiser, [force]. *)
Definition list_apps {R} (force : M (system T St C) (R * BlockManager)) : M (system T St C) (R * BlockManager) :=
  print (bytes_of "/**** APPS ****/" ++ [10]) ;;;
  let! '(r, fs) := force in
  let! names := on_disk (ls (root_inode fs)) in
  for_each names (fun app => print (app ++ [10])) ;;;
  print (bytes_of "/**************/" ++ [10]) ;;;
  ret (r, fs).

Definition Stdout_write (user_buf : UserBuffer) : M (system T St C) Z :=
  for_each (buffers user_buf) (fun buffer =>
    let! s := get in
    let! str := unwrap (from_utf8 (load_slice buffer (kmem (kern s)))) in
    print str) ;;;
  ret (UserBuffer_len user_buf).

(** One turn of the loop of [Stdin::read]; the assertion comes before the loop. *)
Definition Stdin_turn (user_buf : UserBuffer) : M (system T St C) io :=
  let! s := get in
  let '(c, con') := console_getchar (con s) in
  put (set_con con' s) ;;;
  if c =? 0 then on_kern suspend_current ;;; ret (IoSuspend (WaitStdin user_buf))
  else
    let! b := index (buffers user_buf) 0 in
    on_kmem (modify (store_phys_byte (us_pa b) (u8 c))) ;;;
    ret (IoRet 1).

(** ** Pipes *)

(** The strong references to an object: the slots of descriptor tables.  A call that
    is suspended in the object's [read] or [write] holds one more, but the table of
    its process, which cannot change meanwhile, has that object too. *)
Definition file_refs (id : Z) (table : list (option file)) : nat :=
  length (filter (fun o => o = Some (FileObject id)) table).
Definition strong_files (k : kernel T) (id : Z) : nat :=
  sum_list_with (fun pb => file_refs id (fd_table pb.2)) (map_to_list (heap k)).

Definition on_pipe {A} (p : Pipe) (m : M (pipe_state T) A) : M (system T St C) A := fun s =>
  match rings s !! p_buffer p with
  | None => Panic Invalid
  | Some r =>
      match m {| ring := r; pmem := kmem (kern s) |} with
      | Ret a ps => Ret a (set_rings (<[p_buffer p := ring ps]> (rings s)) (set_kern (set_kmem (pmem ps) (kern s)) s))
      | Panic p => Panic p
      end
  end.
Definition after_turn (w : call -> wait) (t : turn) : M (system T St C) io :=
  match t with
  | Return n => ret (IoRet n)
  | Suspend c => on_kern suspend_current ;;; ret (IoSuspend (w c))
  | Again c => ret (IoAgain (w c))
  end.
Definition Pipe_read_turn (p : Pipe) (c : call) : M (system T St C) io :=
  let! s := get in
  let! t := on_pipe p (read_turn p (strong_files (kern s)) c) in
  after_turn (WaitRead p) t.
Definition Pipe_write_turn (p : Pipe) (c : call) : M (system T St C) io :=
  let! t := on_pipe p (write_turn p c) in
  after_turn (WaitWrite p) t.

(** The next turn of a waiting call. *)
Definition io_resume (w : wait) : M (system T St C) io :=
  match w with
  | WaitRead p c => Pipe_read_turn p c
  | WaitWrite p c => Pipe_write_turn p c
  | WaitStdin b => Stdin_turn b
  end.

(** ** [dyn File] *)

Definition File_readable (f : file) : M (system T St C) bool :=
  match f with
  | Stdin => ret true
  | Stdout | Stderr => ret false
  | FileObject id => let! o := get_object id in
      match o with ObjInode o => ret (os_readable o) | ObjPipe p => ret (p_readable p) end
  end.
Definition File_writable (f : file) : M (system T St C) bool :=
  match f with
  | Stdin => ret false
  | Stdout | Stderr => ret true
  | FileObject id => let! o := get_object id in
      match o with ObjInode o => ret (os_writable o) | ObjPipe p => ret (p_writable p) end
  end.
Definition File_read (f : file) (buf : UserBuffer) : M (system T St C) io :=
  match f with
  | Stdin => assert (UserBuffer_len buf =? 1) ;;; Stdin_turn buf
  | Stdout | Stderr => fail Explicit
  | FileObject id =>
      let! o := get_object id in
      match o with
      | ObjInode o => let! n := OSInode_read id o buf in ret (IoRet n)
      | ObjPipe p => Pipe_read_turn p (call_start buf)
      end
  end.
Definition File_write (fs : BlockManager) (f : file) (buf : UserBuffer) : M (system T St C) io :=
  match f with
  | Stdin => fail Explicit
  | Stdout | Stderr => let! n := Stdout_write buf in ret (IoRet n)
  | FileObject id =>
      let! o := get_object id in
      match o with
      | ObjInode o => let! n := OSInode_write fs id o buf in ret (IoRet n)
      | ObjPipe p => Pipe_write_turn p (call_start buf)
      end
  end.
End files.
