(* ===== verification/FileCalls.v ===== *)
(** System calls on files: [os/src/syscall/fs.rs].

    [sys_read] and [sys_write] may have to wait: their result is the first turn,
    and [io_resume] the turns that follow. *)
From S2P Require Import Prelude Address FrameAllocator PageTable UserBytes Pipe Pid MemorySet UserSpace Process Signal.
From S2P Require Import BlockCache DiskWords Bitmap Layout Mfs Vfs Files.

Section calls.
Context {T St C : Type} `{FrameAllocator T} `{BlockStore St} `{Firmware C}.
(** [ROOT_INODE]'s file system; the bound on the length of path strings. *)
Context (fs : BlockManager) (str_fuel : nat).

(** [current_user_token]: through [current_process().unwrap()]. *)
Definition current_user_token : M (kernel T) Z :=
  let! process := current_unwrap in
  let! b := deref process in
  ret (MemorySet_token (memory_set (space b))).

(** [fd >= inner.fd_table.len()] and the slot: [None] where the call returns -1. *)
Definition fd_lookup (b : ProcessControlBlock) (fd : Z) : option file :=
  match vget (fd_table b) fd with Some (Some f) => Some f | _ => None end.

Definition sys_write (fd buf len : Z) : M (system T St C) io :=
  let! token := on_kern current_user_token in
  let! process := on_kern current_unwrap in
  let! inner := on_kern (deref process) in
  match fd_lookup inner fd with
  | None => ret (IoRet (-1))
  | Some file =>
      let! w := File_writable file in
      if negb w then ret (IoRet (-1))
      else
        let! v := on_kmem (translated_byte_buffer token buf len) in
        File_write fs file {| buffers := v |}
  end.

Definition sys_read (fd buf len : Z) : M (system T St C) io :=
  let! token := on_kern current_user_token in
  let! process := on_kern current_unwrap in
  let! inner := on_kern (deref process) in
  match fd_lookup inner fd with
  | None => ret (IoRet (-1))
  | Some file =>
      let! r := File_readable file in
      if negb r then ret (IoRet (-1))
      else
        let! v := on_kmem (translated_byte_buffer token buf len) in
        File_read file {| buffers := v |}
  end.

(** [inner.alloc_fd()] and [inner.fd_table[fd] = Some(f)] *)
Definition install_fd (process : nat) (f : file) : M (kernel T) Z :=
  let! b := deref process in
  let '(fd, table) := alloc_fd (fd_table b) in
  update process (set_fd_table (<[fd := Some f]> table)) ;;;
  ret (Z.of_nat fd).

Definition sys_open (path flags : Z) : M (system T St C) Z :=
  let! process := on_kern current_unwrap in
  let! token := on_kern current_user_token in
  let! path := on_kmem (translated_str str_fuel token path) in
  let! flags := unwrap (OpenFlags.from_bits flags) in
  let! o := open_file fs (as_str path) flags in
  match o with
  | Some inode => let! fd := on_kern (install_fd process (FileObject inode)) in ret (as_isize fd)
  | None => ret (-1)
  end.

Definition sys_close (fd : Z) : M (kernel T) Z :=
  let! process := current_unwrap in
  let! inner := deref process in
  match fd_lookup inner fd with
  | None => ret (-1)
  | Some _ => update process (set_fd_table (<[Z.to_nat fd := None]> (fd_table inner))) ;;; ret 0
  end.

Definition sys_dup (fd : Z) : M (kernel T) Z :=
  let! process := current_unwrap in
  let! inner := deref process in
  match fd_lookup inner fd with
  | None => ret (-1)
  | Some f => let! new_fd := install_fd process f in ret (as_isize new_fd)
  end.

(** [make_pipe()] puts a ring buffer and the two ends at fresh identities. *)
Definition new_pipe : M (system T St C) (Z * Z) :=
  let! buffer := new_ring (fun _ => PipeRingBuffer_new) in
  let! read_end := new_object (ObjPipe (read_end_with_buffer buffer)) in
  let! write_end := new_object (ObjPipe (write_end_with_buffer buffer)) in
  modify (fun s => set_rings (<[buffer := (make_pipe buffer write_end).2]> (rings s)) s) ;;;
  ret (read_end, write_end).

Definition sys_pipe (pipe : Z) : M (system T St C) Z :=
  let! process := on_kern current_unwrap in
  let! token := on_kern current_user_token in
  let! '(pipe_read, pipe_write) := new_pipe in
  let! read_fd := on_kern (install_fd process (FileObject pipe_read)) in
  let! write_fd := on_kern (install_fd process (FileObject pipe_write)) in
  let! pa := on_kmem (translated_refmut token pipe) in
  on_kmem (modify (store_phys pa (le_bytes 8 read_fd))) ;;;
  let! pa := on_kmem (translated_refmut token (u64 (pipe + 8))) in
  on_kmem (modify (store_phys pa (le_bytes 8 write_fd))) ;;;
  ret 0.
End calls.
