(* ===== verification/Syscalls.v ===== *)
(** System calls: the rest of [os/src/syscall/process.rs] and the dispatch of
    [os/src/syscall/mod.rs]; the first process ([INITPROC] of
    [os/src/process/mod.rs]).

    A call that gives up the processor is modelled up to the switch: [Wait], [Yielded]
    and [Exited] say how it goes on when the process runs again. *)
From stdpp Require Import pretty.
From S2P Require Import Prelude Address FrameAllocator PageTable UserBytes Pipe Pid MemorySet UserSpace Process Lifecycle Exec Signal.
From S2P Require Import BlockCache DiskWords Bitmap Layout Mfs Vfs Files FileCalls.

Inductive sysres :=
  | Done (n : Z)          (* the call returns [n] *)
  | Wait (w : wait)       (* suspended in a read or write *)
  | Loop (w : wait)       (* the next turn follows at once *)
  | Yielded               (* suspended in [sys_yield] *)
  | Exited.
Definition of_io (r : io) : sysres :=
  match r with IoRet n => Done n | IoSuspend w => Wait w | IoAgain w => Loop w end.

Definition SYSCALL_DUP : Z := 24.
Definition SYSCALL_OPEN : Z := 56.
Definition SYSCALL_CLOSE : Z := 57.
Definition SYSCALL_PIPE : Z := 59.
Definition SYSCALL_READ : Z := 63.
Definition SYSCALL_WRITE : Z := 64.
Definition SYSCALL_EXIT : Z := 93.
Definition SYSCALL_YIELD : Z := 124.
Definition SYSCALL_KILL : Z := 129.
Definition SYSCALL_SIGACTION : Z := 134.
Definition SYSCALL_SIGPROCMASK : Z := 135.
Definition SYSCALL_SIGRETURN : Z := 139.
Definition SYSCALL_TIME : Z := 169.
Definition SYSCALL_PID : Z := 172.
Definition SYSCALL_FORK : Z := 220.
Definition SYSCALL_EXEC : Z := 221.
Definition SYSCALL_WAITPID : Z := 260.

Section syscalls.
Context {T St C : Type} `{FrameAllocator T} `{BlockStore St} `{Firmware C}.
(** The parser, the file system, and bounds: on path strings, on [argv] and on the
    512-byte pieces of a program. *)
Context (env : boot) (elf_parse : list Z -> option ElfFile) (fs : BlockManager) (str_fuel argv_fuel data_fuel : nat).

Definition println (bs : list Z) : M (system T St C) unit := print (bs ++ [10]).

(** [timer::time_ms] *)
Definition time_ms : M (system T St C) Z :=
  let! s := get in
  let '(t, c) := read_time (con s) in
  put (set_con c s) ;;;
  ret (t / (CLOCK_FREQ / 1000)).

Definition sys_exit (exit_code : Z) : M (system T St C) sysres :=
  println (bytes_of "[kernel] Application exited with code " ++ bytes_of (pretty exit_code)) ;;;
  on_kern (exit_current exit_code) ;;;
  ret Exited.
Definition sys_yield : M (system T St C) sysres := on_kern suspend_current ;;; ret Yielded.
Definition sys_time : M (system T St C) Z := let! t := time_ms in ret (as_isize t).
Definition sys_pid : M (kernel T) Z :=
  let! process := current_unwrap in
  let! b := deref process in
  ret (as_isize (pid b)).

(** The loop over [args]: a word per turn, until a null pointer. *)
Fixpoint exec_args (fuel : nat) (token args : Z) (args_vec : list (list Z)) : M (mem T) (list (list Z)) :=
  match fuel with
  | O => fail Fuel
  | S fuel =>
      let! r := translated_ref token args in
      let! m := get in
      let arg_str_ptr := of_le (load_phys 8 r m) in
      if arg_str_ptr =? 0 then ret args_vec
      else
        let! arg := translated_str str_fuel token arg_str_ptr in
        exec_args fuel token (u64 (args + 8)) (args_vec ++ [as_str arg])
  end.

(** The whole of a file that was just opened; its object is dropped with the last
    reference when the function returns. *)
Definition read_program (id : Z) : M (system T St C) (list Z) :=
  let! o := get_object id in
  match o with
  | ObjInode o =>
      let! '(all_data, o) := on_disk (read_all data_fuel o) in
      modify (fun s => set_objects (<[id := ObjInode o]> (objects s)) s) ;;;
      ret all_data
  | ObjPipe _ => fail Invalid
  end.

Definition sys_exec (path args : Z) : M (system T St C) Z :=
  let! token := on_kern current_user_token in
  let! path := on_kmem (translated_str str_fuel token path) in
  let! args_vec := on_kmem (exec_args argv_fuel token args []) in
  let! o := open_file fs (as_str path) OpenFlags.RDONLY in
  match o with
  | Some data =>
      let! all_data := read_program data in
      let! process := on_kern current_unwrap in
      let argc := Z.of_nat (length args_vec) in
      on_kern (exec env elf_parse process all_data args_vec) ;;;
      ret (as_isize argc)
  | None => ret (-1)
  end.

(** ** Dispatch *)

Definition done {S} (m : M S Z) : M S sysres := let! n := m in ret (Done n).

Definition syscall (syscall_id a0 a1 a2 : Z) : M (system T St C) sysres :=
  if syscall_id =? SYSCALL_READ then let! r := sys_read a0 a1 a2 in ret (of_io r)
  else if syscall_id =? SYSCALL_WRITE then let! r := sys_write fs a0 a1 a2 in ret (of_io r)
  else if syscall_id =? SYSCALL_EXIT then sys_exit (as_i32 a0)
  else if syscall_id =? SYSCALL_YIELD then sys_yield
  else if syscall_id =? SYSCALL_TIME then done sys_time
  else if syscall_id =? SYSCALL_PID then done (on_kern sys_pid)
  else if syscall_id =? SYSCALL_FORK then done (on_kern (sys_fork env))
  else if syscall_id =? SYSCALL_EXEC then done (sys_exec a0 a1)
  else if syscall_id =? SYSCALL_WAITPID then done (on_kern (sys_waitpid (as_isize a0) a1))
  else if syscall_id =? SYSCALL_OPEN then done (sys_open fs str_fuel a0 (u32 a1))
  else if syscall_id =? SYSCALL_CLOSE then done (on_kern (sys_close a0))
  else if syscall_id =? SYSCALL_DUP then done (on_kern (sys_dup a0))
  else if syscall_id =? SYSCALL_PIPE then done (sys_pipe a0)
  else if syscall_id =? SYSCALL_KILL then done (on_kern (sys_kill a0 (as_i32 a1)))
  else if syscall_id =? SYSCALL_SIGACTION then done (on_kern (sys_sigaction (as_i32 a0) a1 a2))
  else if syscall_id =? SYSCALL_SIGPROCMASK then done (on_kern (sys_sigprocmask (u32 a0)))
  else if syscall_id =? SYSCALL_SIGRETURN then done (on_kern sys_sigreturn)
  else fail Explicit.

(** ** The first process *)

(** [INITPROC], evaluated at its first use, and [add_initproc]. *)
Definition add_initproc : M (system T St C) unit :=
  let! o := open_file fs (bytes_of "initproc") OpenFlags.RDONLY in
  let! inode := unwrap o in
  let! data := read_program inode in
  let! p := on_kern (ProcessControlBlock_new env elf_parse data) in
  on_kern (modify (fun k => Build_kernel (heap k) p (manager k) (pid2pcb k) (running k) (pids k) (kernel_space k) (kmem k))) ;;;
  on_kern (add_process p).
End syscalls.
