(* ===== verification/Trap.v ===== *)
(** The trap handler: [os/src/trap/mod.rs].

    Trap entry and return are assembly; between them [trap_handler] runs, possibly
    over several turns of the processor.  [trap_turn] says where a turn ended and
    [trap_resume] is the next turn of the same trap. *)
From stdpp Require Import pretty.
From S2P Require Import Prelude Address FrameAllocator PageTable UserBytes Pipe Pid MemorySet UserSpace Process Lifecycle Exec Signal.
From S2P Require Import BlockCache DiskWords Bitmap Layout Mfs Vfs Files FileCalls Syscalls.

(** [scause.cause()], with the causes the handler tells apart. *)
Inductive cause :=
  | UserEnvCall
  | StoreFault | StorePageFault | LoadFault | LoadPageFault | InstructionFault | InstructionPageFault
  | IllegalInstruction
  | SupervisorTimer
  | OtherTrap.

Inductive trap_turn :=
  | ToUser                 (* [trap_return] *)
  | InCall (w : wait)      (* suspended in a system call *)
  | InCallAgain (w : wait) (* a system call whose loop goes on *)
  | InYield                (* suspended in [sys_yield] *)
  | Suspended              (* suspended by the timer or a stop signal: [handle_signals] is next *)
  | Gone.                  (* the process has exited *)

(** The text of [check_error]. *)
Definition error_message (errno : Z) : string :=
  if errno =? -2 then "Killed, SIGINT=2"
  else if errno =? -4 then "Illegal Instruction, SIGILL=4"
  else if errno =? -6 then "Aborted, SIGABRT=6"
  else if errno =? -8 then "Erroneous Arithmetic Operation, SIGFPE=8"
  else if errno =? -9 then "Killed, SIGKILL=9"
  else "Segmentation Fault, SIGSEGV=11".

Section trap.
Context {T St C : Type} `{FrameAllocator T} `{BlockStore St} `{Firmware C}.
Context (env : boot) (elf_parse : list Z -> option ElfFile) (fs : BlockManager) (str_fuel argv_fuel data_fuel : nat).

(** [current_trap_cx] *)
Definition current_trap_ppn : M (kernel T) Z :=
  let! process := current_unwrap in
  let! b := deref process in
  ret (trap_cx_ppn (space b)).
Definition update_trap_cx (f : TrapContext -> TrapContext) : M (kernel T) unit :=
  let! ppn := current_trap_ppn in
  modify (fun k => set_kmem (write_trap_cx ppn (f (read_trap_cx ppn (kmem k))) (kmem k)) k).

(** A turn of [handle_signals], with its output. *)
Definition handle_signals : M (system T St C) bool :=
  let! text := on_kern check_pending_signals in
  print text ;;;
  on_kern stop_or_go.

(** From [handle_signals] on. *)
Definition after_trap : M (system T St C) trap_turn :=
  let! over := handle_signals in
  if negb over then ret Suspended
  else
    let! o := on_kern check_signals_error_of_current in
    match o with
    | Some errno =>
        println (bytes_of "[kernel] " ++ bytes_of (error_message errno)) ;;;
        on_kern (exit_current errno) ;;;
        ret Gone
    | None => ret ToUser
    end.

(** [exec] may have changed the context, so it is looked up again. *)
Definition finish_call (result : Z) : M (system T St C) trap_turn :=
  on_kern (update_trap_cx (set_x10 (u64 result))) ;;;
  after_trap.
Definition after_call (r : sysres) : M (system T St C) trap_turn :=
  match r with
  | Done n => finish_call n
  | Wait w => ret (InCall w)
  | Loop w => ret (InCallAgain w)
  | Yielded => ret InYield
  | Exited => ret Gone
  end.

(** [next_trigger]: 100 ticks a second. *)
Definition TICKS_PER_SEC : Z := 100.
Definition next_trigger : M (system T St C) unit :=
  let! s := get in
  let '(t, c) := read_time (con s) in
  put (set_con (set_timer (u64 (t + CLOCK_FREQ / TICKS_PER_SEC)) c) s).

Definition trap_handler (c : cause) : M (system T St C) trap_turn :=
  match c with
  | UserEnvCall =>
      let! ppn := on_kern current_trap_ppn in
      on_kern (update_trap_cx (fun cx => set_sepc (u64 (sepc cx + 4)) cx)) ;;;
      let! s := get in
      let cx := read_trap_cx ppn (kmem (kern s)) in
      let! x17 := index (tx cx) 17 in
      let! x10 := index (tx cx) 10 in
      let! x11 := index (tx cx) 11 in
      let! x12 := index (tx cx) 12 in
      let! r := syscall env elf_parse fs str_fuel argv_fuel data_fuel x17 x10 x11 x12 in
      after_call r
  | StoreFault | StorePageFault | LoadFault | LoadPageFault | InstructionFault | InstructionPageFault =>
      on_kern (current_add_signal SignalFlags.SIGSEGV) ;;;
      after_trap
  | IllegalInstruction =>
      on_kern (current_add_signal SignalFlags.SIGILL) ;;;
      after_trap
  | SupervisorTimer =>
      next_trigger ;;;
      on_kern timer_interrupt ;;;
      ret Suspended
  | OtherTrap => fail Explicit
  end.

(** The next turn of a trap. *)
Definition trap_resume (t : trap_turn) : M (system T St C) trap_turn :=
  match t with
  | InCall w | InCallAgain w => let! r := io_resume w in after_call (of_io r)
  | InYield => finish_call 0
  | Suspended => after_trap
  | ToUser | Gone => fail Invalid
  end.

(** [trap_from_kernel] *)
Definition trap_from_kernel : M (system T St C) trap_turn := fail Explicit.
End trap.
