(* ===== verification/FileSpec.v ===== *)
(** What file objects do ([os/src/fs/inode.rs]): reading and writing a buffer of
    several slices through an [OSInode] is one read or write of the abstract file
    system at the object's offset. *)
From S2P Require Import Prelude Address FrameAllocator PageTable UserBytes Pipe Pid MemorySet UserSpace UserMem Process.
From S2P Require Import BlockCache DiskWords Bitmap Layout Codecs InodeFields InodeBlocks InodeData FileData Mfs Vfs FsInv FsBlocks FsFiles FsGrow FsSpec FsDirs FsCreate.
From S2P Require Import Files.

(** ** Text on the console *)

Section console.
Context {T St C : Type} `{FrameAllocator T} `{BlockStore St} `{Firmware C}.

(** The console after a text. *)
Definition shown (bs : list Z) (c : C) : C := foldl (fun c x => console_putchar x c) c (chars bs).
Lemma print_run bs (s : system T St C) : print bs s = Ret tt (set_con (shown bs (con s)) s).
Proof.
  unfold print, shown. generalize (chars bs) as l. intros l. revert s. induction l as [|x l IH]; intros s; [by destruct s|].
  cbn [for_each foldl]. rewrite bind_modify, IH. reflexivity.
Qed.

(** A line each. *)
Definition lines_shown (lines : list (list Z)) (c : C) : C := foldl (fun c n => shown (n ++ [10]) c) c lines.
(** What [list_apps] prints. *)
Definition apps_header : list Z := bytes_of "/**** APPS ****/" ++ [10].
Definition listing (names : list (list Z)) (c : C) : C :=
  shown (bytes_of "/**************/" ++ [10]) (lines_shown names (shown apps_header c)).
Lemma print_lines_run names (s : system T St C) :
  for_each names (fun app => print (app ++ [10])) s = Ret tt (set_con (lines_shown names (con s)) s).
Proof.
  revert s. unfold lines_shown. induction names as [|n names IH]; intros s; cbn [for_each foldl]; [by destruct s|].
  by rewrite (bind_Ret _ _ _ _ _ (print_run (n ++ [10]) s)), IH.
Qed.
End console.

(** ** Reads and writes in pieces *)

Lemma total_blocks_mono y z : 0 <= y <= z -> z <= MAX_SIZE -> total_blocks y <= total_blocks z.
Proof.
  intros Hy Hz. rewrite !total_blocks_cnt by lia. pose proof (data_blocks_mono y z Hy Hz) as Hd.
  destruct (data_blocks_nat y ltac:(lia)) as [Ey _]. destruct (data_blocks_nat z ltac:(lia)) as [Ez _].
  apply inj_le. pose proof (cnt_mono (Z.to_nat (_data_blocks y)) (Z.to_nat (_data_blocks z)) ltac:(lia)). lia.
Qed.

Lemma write_bytes_app c (o : nat) b1 b2 : write_bytes (write_bytes c o b1) (o + length b1) b2 = write_bytes c o (b1 ++ b2).
Proof.
  unfold write_bytes at 1. rewrite length_write_bytes. unfold write_bytes. set (k := (o + length b1 + length b2 - _)%nat).
  set (z := c ++ zeros (o + length b1 - length c)).
  assert (Lz : length z = Nat.max (length c) (o + length b1)) by (unfold z; rewrite length_app, length_zeros; lia).
  pose proof (splice_mid [] z (zeros k) b1 o ltac:(lia)) as Hm. cbn [app length] in Hm. rewrite Nat.add_0_l in Hm. rewrite <- Hm.
  rewrite splice_splice by (rewrite length_app, length_zeros; lia). f_equal. unfold z. rewrite <- app_assoc. f_equal.
  rewrite <- zeros_app. f_equal. unfold k. rewrite length_app. lia.
Qed.

(** One write is the writes of its parts, in order. *)
Lemma a_write_app i o b1 b2 a n a2 :
  b1 <> [] -> b2 <> [] -> a_write i o (b1 ++ b2) a = Some (n, a2) ->
  n = Z.of_nat (length (b1 ++ b2)) /\
  exists a1, a_write i o b1 a = Some (Z.of_nat (length b1), a1) /\
    a_write i (o + Z.of_nat (length b1)) b2 a1 = Some (Z.of_nat (length b2), a2).
Proof.
  intros N1 N2. assert (H1 : (0 < length b1)%nat) by (destruct b1; cbn; [done|lia]). assert (H2 : (0 < length b2)%nat) by (destruct b2; cbn; [done|lia]).
  unfold a_write at 1 2. destruct (a_files a !! i) as [[[] c]|] eqn:Hi; try done. rewrite forallb_app, length_app.
  destruct (0 <=? o) eqn:Ho; [|done]. destruct (0 <? length b1 + length b2)%nat; [|done].
  destruct (forallb _ b1) eqn:F1; [|done]. destruct (forallb _ b2) eqn:F2; [|done]. cbn [andb]. apply Z.leb_le in Ho.
  rewrite (proj2 (Nat.ltb_lt 0 (length b1)) H1). cbn [andb].
  set (c1 := write_bytes c (Z.to_nat o) b1). set (c2 := write_bytes c (Z.to_nat o) (b1 ++ b2)).
  assert (L1 : length c1 = Nat.max (length c) (Z.to_nat o + length b1)) by apply length_write_bytes.
  assert (L2 : length c2 = Nat.max (length c) (Z.to_nat o + (length b1 + length b2))) by (unfold c2; by rewrite length_write_bytes, length_app).
  assert (E2 : write_bytes c1 (Z.to_nat (o + Z.of_nat (length b1))) b2 = c2)
    by (rewrite Z2Nat.inj_add, Nat2Z.id by lia; apply write_bytes_app).
  intros (x & Hs & [= <- <-])%bind_Some. split; [done|]. unfold a_set_contents in Hs |- *.
  destruct (Z.leb_spec (Z.of_nat (length c2)) MAX_SIZE) as [Hm|]; [|done].
  destruct (Nat.leb_spec (Z.to_nat (file_blocks c2 - file_blocks c)) (a_free a)) as [Hf|]; [|done]. injection Hs as <-.
  pose proof (total_blocks_mono (Z.of_nat (length c)) (Z.of_nat (length c1)) ltac:(lia) ltac:(lia)) as M1.
  pose proof (total_blocks_mono (Z.of_nat (length c1)) (Z.of_nat (length c2)) ltac:(lia) ltac:(lia)) as M2. unfold file_blocks in *.
  rewrite (proj2 (Z.leb_le (Z.of_nat (length c1)) MAX_SIZE)), (proj2 (Nat.leb_le _ (a_free a))) by lia. cbn [andb].
  eexists. split; [reflexivity|]. unfold a_write. cbn [a_files a_free]. rewrite lookup_insert_eq, F2, E2.
  rewrite (proj2 (Z.leb_le 0 (o + _))), (proj2 (Nat.ltb_lt 0 (length b2))) by lia. cbn [andb]. unfold a_set_contents, file_blocks. cbn [a_files a_free].
  rewrite (proj2 (Z.leb_le _ MAX_SIZE)), (proj2 (Nat.leb_le _ (_ - _))) by lia. cbn [andb].
  rewrite insert_insert_eq. change (option_bind _ _ ?f (Some ?x)) with (f x). unfold mbind, option_bind. do 3 f_equal. lia.
Qed.

(** What a read of [old] leaves in the buffer, and how much it reads. *)
Definition got (c : list Z) (o n : nat) : list Z := take n (drop o c).
Lemma got_app c (o n1 n2 : nat) : got c o (n1 + n2) = got c o n1 ++ got c (o + length (got c o n1)) n2.
Proof.
  unfold got. rewrite length_take, length_drop. destruct (decide (n1 <= length c - o)%nat) as [Hn|Hn].
  - rewrite Nat.min_l by lia. by rewrite <- (take_take_drop (drop o c) n1 n2), drop_drop.
  - rewrite Nat.min_r by lia. rewrite (drop_ge c (o + _)) by lia. rewrite take_nil, app_nil_r. rewrite !take_ge; [done|rewrite length_drop; lia..].
Qed.
Lemma got_fill c (o : nat) b1 b2 :
  let g1 := got c o (length b1) in let g2 := got c (o + length g1) (length b2) in
  (g1 ++ g2) ++ drop (length (g1 ++ g2)) (b1 ++ b2) = (g1 ++ drop (length g1) b1) ++ (g2 ++ drop (length g2) b2).
Proof.
  cbv zeta. unfold got. rewrite length_take, length_drop. set (g1 := take (length b1) (drop o c)). set (n1 := Nat.min _ _).
  assert (L1 : length g1 = n1) by (unfold g1; by rewrite length_take, length_drop). set (g2 := take (length b2) (drop (o + n1) c)).
  rewrite length_app, L1, <- !app_assoc. f_equal. destruct (decide (length b1 <= length c - o)%nat) as [Hn|Hn].
  - assert (n1 = length b1) as -> by (unfold n1; lia). rewrite (drop_ge b1) by lia. cbn [app]. f_equal. rewrite drop_app_ge by lia. f_equal. lia.
  - assert (g2 = []) as ->; [|cbn [app length]; rewrite Nat.add_0_r, drop_app_le, drop_0 by (unfold n1; lia); done].
    unfold g2. rewrite drop_ge by (unfold n1; lia). apply take_nil.
Qed.

(** ** [OSInode] on a buffer of slices *)

Lemma advance_0 o : 0 <= os_offset o < 2 ^ 64 -> advance 0 o = o.
Proof. intros Ho. destruct o. unfold advance. cbn in *. by rewrite Z.add_0_r, u64_small. Qed.
Lemma advance_advance n1 n2 o : 0 <= os_offset o -> 0 <= n1 -> os_offset o + n1 < 2 ^ 64 -> advance n2 (advance n1 o) = advance (n1 + n2) o.
Proof. intros H0 H1 H2. unfold advance. cbn. rewrite (u64_small (os_offset o + n1)) by lia. by rewrite Z.add_assoc. Qed.

Lemma load_slice_bytes {T} b (m : mem T) : 0 <= us_len b -> load_slice b m = phys_byte m <$> us_addrs b.
Proof. intros Hl. unfold load_slice, us_addrs. by rewrite load_phys_fmap, Z2Nat.id. Qed.

Section inode_io.
Context {T St C : Type} `{FAL : FrameAllocatorLaws T} `{SL : BlockStoreLaws St} `{Firmware C}.
Implicit Types (s : system T St C) (o : OSInode) (fs : BlockManager).

Lemma a_write_range i off buf a n a' : a_write i off buf a = Some (n, a') ->
  0 <= off /\ n = Z.of_nat (length buf) /\ off + n <= MAX_SIZE.
Proof.
  unfold a_write. destruct (a_files a !! i) as [[[] c]|]; try done. destruct (0 <=? off) eqn:Ho; [|done].
  destruct (_ && forallb _ _); [|done]. apply Z.leb_le in Ho. intros (x & Hs & [= <- <-])%bind_Some.
  unfold a_set_contents in Hs. destruct (Z.leb_spec (Z.of_nat (length (write_bytes c (Z.to_nat off) buf))) MAX_SIZE) as [Hm|]; [|done].
  rewrite length_write_bytes in Hm. lia.
Qed.

Lemma on_kmem_modify {A} (f : mem T -> mem T) (k : unit -> M (system T St C) A) s :
  bind (on_kmem (modify f)) k s = k tt (set_kern (set_kmem (f (kmem (kern s))) (kern s)) s).
Proof. reflexivity. Qed.

(** The state after a call that moves the object [id] on by [n]. *)
Definition moved (id : Z) o (n : Z) (d : St) s : system T St C := set_disk d (set_objects (<[id := ObjInode (advance n o)]> (objects s)) s).

Lemma OSInode_write_run fs da i id slices o tot s a n a' :
  slices <> [] -> Forall (fun b => 0 < us_len b) slices -> represents (disk s) fs da a -> os_inode o = handle fs i ->
  a_write i (os_offset o) (phys_byte (kmem (kern s)) <$> mjoin (us_addrs <$> slices)) a = Some (n, a') ->
  0 <= tot -> tot + n < 2 ^ 64 ->
  exists d, OSInode_write_loop fs id o slices tot s = Ret (tot + n) (moved id o n d s) /\ represents d fs da a'.
Proof.
  intros Hne Hpos. revert o tot s a n. induction slices as [|b slices IH]; intros o tot s a n Hrep Hi Hw Ht Htn; [done|].
  apply Forall_cons in Hpos as [Hb Hpos]. rewrite join_addrs, fmap_app in Hw. cbn [OSInode_write_loop]. rewrite bind_get.
  rewrite load_slice_bytes by lia. set (b1 := phys_byte (kmem (kern s)) <$> us_addrs b) in *.
  assert (L1 : Z.of_nat (length b1) = us_len b) by (unfold b1; rewrite length_fmap, length_us_addrs; lia).
  assert (Hstep : forall a1, a_write i (os_offset o) b1 a = Some (us_len b, a1) ->
    exists d, on_disk (Inode_write_at fs (os_inode o) (os_offset o) b1) s = Ret (us_len b) (set_disk d s) /\ represents d fs da a1).
  { intros a1 E. destruct (write_refines _ _ _ _ _ _ _ _ _ Hrep E) as (d & Ed & Hd & _). exists d. split; [|exact Hd].
    unfold on_disk, zoom. by rewrite Hi, Ed. }
  destruct slices as [|b' slices].
  - cbn [fmap list_fmap mjoin list_join] in Hw. rewrite app_nil_r in Hw. pose proof (a_write_range _ _ _ _ _ _ Hw) as (_ & En & _).
    rewrite L1 in En. subst n. destruct (Hstep _ Hw) as (d & Ed & Hd). rewrite (bind_Ret _ _ _ _ _ Ed). rewrite bind_assert by (by apply Z.eqb_eq).
    exists d. split; [|exact Hd]. cbn [OSInode_write_loop]. unfold bind, modify, ret. f_equal. apply u64_small. lia.
  - set (rest := b' :: slices) in *. assert (N1 : b1 <> []) by (intros E; rewrite E in L1; cbn in L1; lia).
    assert (N2 : phys_byte (kmem (kern s)) <$> mjoin (us_addrs <$> rest) <> []).
    { apply Forall_cons in Hpos as [Hb' _]. unfold rest. rewrite join_addrs, fmap_app. intros [E _]%app_eq_nil.
      apply (f_equal length) in E. rewrite length_fmap, length_us_addrs in E. cbn in E. lia. }
    destruct (a_write_app _ _ _ _ _ _ _ N1 N2 Hw) as (En & a1 & Hw1 & Hw2).
    rewrite L1 in *. destruct (Hstep _ Hw1) as (d & Ed & Hd). rewrite (bind_Ret _ _ _ _ _ Ed). rewrite bind_assert by (by apply Z.eqb_eq).
    pose proof (a_write_range _ _ _ _ _ _ Hw) as (Ho & _ & Hmax). pose proof (a_write_range _ _ _ _ _ _ Hw2) as (_ & _ & Hmax2).
    assert (HM : MAX_SIZE < 2 ^ 64) by (vm_compute; reflexivity). rewrite length_app in En.
    set (o1 := advance (us_len b) o). assert (Eo : os_offset o1 = os_offset o + us_len b) by (unfold o1, advance; cbn; apply u64_small; lia).
    fold o1. rewrite bind_modify. set (s1 := set_objects _ (set_disk d s)). rewrite (u64_small (tot + us_len b)) by lia.
    destruct (IH ltac:(done) Hpos o1 (tot + us_len b) s1 a1 (Z.of_nat (length (phys_byte (kmem (kern s)) <$> mjoin (us_addrs <$> rest)))))
      as (d2 & E2 & Hd2); [exact Hd|exact Hi|rewrite Eo; exact Hw2|lia|lia|].
    exists d2. split; [|exact Hd2]. rewrite E2. unfold moved, o1. rewrite advance_advance by lia.
    replace (us_len b + _) with n by lia. replace (tot + us_len b + _) with (tot + n) by lia. f_equal.
    unfold s1, set_disk, set_objects. cbn. by rewrite insert_insert_eq.
Qed.

Lemma a_read_got i off (buf : list Z) a t c : a_files a !! i = Some (t, c) -> 0 <= off -> off + Z.of_nat (length buf) < 2 ^ 64 ->
  let g := got c (Z.to_nat off) (length buf) in
  a_read i off buf a = Some ((Z.of_nat (length g), g ++ drop (length g) buf), a).
Proof. intros Hi Ho Hl. unfold a_read. rewrite Hi, (proj2 (Z.leb_le _ _)), (proj2 (Z.ltb_lt _ _)) by lia. done. Qed.

(** A read fills the buffer from the front; what is behind the end of the file stays. *)
Lemma OSInode_read_run fs da i t c id slices o tot s a :
  let addrs := mjoin (us_addrs <$> slices) in let old := phys_byte (kmem (kern s)) <$> addrs in
  let g := got c (Z.to_nat (os_offset o)) (length old) in let n := Z.of_nat (length g) in
  Forall (fun b => 0 < us_len b) slices -> represents (disk s) fs da a -> os_inode o = handle fs i -> a_files a !! i = Some (t, c) ->
  is_bytes c -> Forall (full_page (kmem (kern s))) addrs -> NoDup addrs ->
  0 <= os_offset o -> os_offset o + Z.of_nat (length old) < 2 ^ 64 -> 0 <= tot -> tot + Z.of_nat (length old) < 2 ^ 64 ->
  objects s !! id = Some (ObjInode o) ->
  exists d m, OSInode_read_loop id o slices tot s = Ret (tot + n) (moved id o n d (set_kern (set_kmem m (kern s)) s)) /\
    represents d fs da a /\ stored (kmem (kern s)) addrs (g ++ drop (length g) old) m.
Proof.
  cbv zeta. revert o tot s. induction slices as [|b slices IH]; intros o tot s Hpos Hrep Hi Hc Hcb Hfull Hnd Ho Hlen Ht Htn Hid.
  - cbn [OSInode_read_loop fmap list_fmap mjoin list_join length]. unfold got. cbn [take length app drop]. exists (disk s), (kmem (kern s)).
    split; [|split; [exact Hrep|apply (stored_same [])]]. unfold ret, moved. cbn [fmap list_fmap length] in Hlen. rewrite advance_0 by (cbn in Hlen; lia).
    rewrite insert_id by exact Hid. rewrite Z.add_0_r. destruct s as [[] ]; reflexivity.
  - apply Forall_cons in Hpos as [Hb Hpos]. rewrite join_addrs in *. apply Forall_app in Hfull as [Hf1 Hf2]. apply NoDup_app in Hnd as (Hn1 & Hdj & Hn2).
    rewrite fmap_app in *. rewrite length_app in *. cbn [OSInode_read_loop]. rewrite bind_get. rewrite load_slice_bytes by lia.
    set (a1 := us_addrs b) in *. set (a2 := mjoin (us_addrs <$> slices)) in *. set (b1 := phys_byte (kmem (kern s)) <$> a1) in *.
    assert (L1 : Z.of_nat (length b1) = us_len b) by (unfold b1, a1; rewrite length_fmap, length_us_addrs; lia).
    set (off := Z.to_nat (os_offset o)). set (g1 := got c off (length b1)).
    pose proof (a_read_got i (os_offset o) b1 a t c Hc Ho ltac:(lia)) as Hr. cbv zeta in Hr. fold off g1 in Hr.
    destruct (read_refines _ _ _ _ _ _ _ _ _ Hrep Hr) as (d & Ed & Hd). unfold on_disk at 1, zoom at 1, bind at 1. rewrite Hi, Ed.
    assert (Hg1 : (length g1 <= length b1)%nat) by (unfold g1, got; rewrite length_take; lia).
    assert (Hgb : is_bytes g1) by (unfold g1, got; apply Forall_take, Forall_drop; exact Hcb).
    set (bs := g1 ++ drop (length g1) b1). assert (Lbs : length bs = length b1) by (unfold bs; rewrite length_app, length_drop; lia).
    assert (Hbs : is_bytes bs).
    { apply Forall_app. split; [exact Hgb|]. apply Forall_drop, Forall_fmap, Forall_forall. intros x _. apply phys_byte_range. }
    set (m1 := store_phys (us_pa b) bs (kmem (kern s))). assert (Hst : stored (kmem (kern s)) a1 bs m1).
    { unfold m1. rewrite store_phys_all, Lbs, L1. fold (us_addrs b). fold a1. apply stored_all; [exact Hf1|exact Hbs|exact Hn1|].
      rewrite Lbs. unfold b1. by rewrite length_fmap. }
    rewrite on_kmem_modify. fold m1. set (s1 := set_kern (set_kmem m1 (kern (set_disk d s))) (set_disk d s)).
    assert (Hold : phys_byte m1 <$> a2 = phys_byte (kmem (kern s)) <$> a2).
    { apply list_fmap_ext. intros k x Hx%list_elem_of_lookup_2. apply (st_other _ _ _ _ Hst); [rewrite Forall_forall in Hf2; by apply Hf2|].
      intros Hx1. by apply (Hdj x). }
    pose proof (got_app c off (length b1) (length (phys_byte (kmem (kern s)) <$> a2))) as Hga. fold g1 in Hga.
    destruct (Z.eqb_spec (Z.of_nat (length g1)) 0) as [E0|E0].
    + (* nothing read: the loop stops *)
      assert (g1 = []) as Eg by (apply nil_length_inv; lia).
      assert (Hgo : got c off (length b1 + length (phys_byte (kmem (kern s)) <$> a2)) = []).
      { rewrite Hga, Eg. cbn [length app]. unfold g1, got in Eg |- *. rewrite Nat.add_0_r. apply (f_equal length) in Eg. rewrite length_take, length_drop in Eg.
        cbn in Eg. rewrite drop_ge by lia. apply take_nil. }
      fold off. rewrite Hgo. cbn [length app drop]. exists d, m1. split; [|split; [exact Hd|]].
      * unfold ret, moved. rewrite advance_0 by lia. rewrite insert_id by exact Hid. rewrite Z.add_0_r. reflexivity.
      * apply (stored_app _ a1 b1 m1 a2 _ m1); [|rewrite <- Hold; apply stored_same|by apply Forall_app|intros x Hx Hx2; by apply (Hdj x)].
        replace b1 with bs; [exact Hst|]. unfold bs. by rewrite Eg.
    + set (n1 := Z.of_nat (length g1)) in *. set (o1 := advance n1 o). assert (Eo : os_offset o1 = os_offset o + n1) by (unfold o1, advance; cbn; apply u64_small; lia).
      fold o1. rewrite bind_modify. set (s2 := set_objects (<[id:=ObjInode o1]> (objects s1)) s1). rewrite (u64_small (tot + n1)) by lia. subst a1. set (a1 := us_addrs b) in *.
      destruct (IH o1 (tot + n1) s2) as (d2 & m2 & E2 & Hd2 & Hst2); [exact Hpos|exact Hd|exact Hi|exact Hc|exact Hcb| |exact Hn2|lia| |lia| |apply lookup_insert_eq|].
      * cbn. eapply Forall_impl; [exact Hf2|]. intros x. apply (stored_full _ _ _ _ x Hst).
      * rewrite length_fmap in *. rewrite Eo. cbn. lia.
      * rewrite length_fmap in *. lia.
      * change (kmem (kern s2)) with m1 in *. rewrite Hold in *. rewrite Eo in *.
        replace (Z.to_nat (os_offset o + n1)) with (off + length g1)%nat in * by (unfold off, n1; lia).
        set (g2 := got c (off + length g1) (length (phys_byte (kmem (kern s)) <$> a2))) in *. fold off. rewrite Hga, length_app, Nat2Z.inj_add. fold n1.
        exists d2, m2. split; [|split; [exact Hd2|]].
        -- etransitivity; [exact E2|]. unfold moved, o1. assert (Hg2 : (length g2 <= length (phys_byte (kmem (kern s)) <$> a2))%nat) by (unfold g2, got; rewrite length_take; lia).
           rewrite advance_advance by lia. rewrite Z.add_assoc. f_equal. unfold s2, s1, set_disk, set_objects, set_kern, set_kmem. cbn. by rewrite insert_insert_eq.
        -- rewrite <- length_app. unfold g2, g1. rewrite got_fill. fold g1. fold g2. apply (stored_app _ a1 bs m1); [exact Hst|exact Hst2|by apply Forall_app|intros x Hx Hx2; by apply (Hdj x)].
Qed.
End inode_io.
