(* ===== verification/Diagnostics.v ===== *)
(** What the kernel says about itself: its logger ([os/src/log.rs]), the panic handler
    ([os/src/lang_items.rs]) and the walk over the stack ([os/src/stack_trace.rs]).

    The facade crate above the logger, which keeps the registered logger and the
    maximal level and drops the records above it, is the class [LogFacade]. *)
From S2P Require Import Prelude Address FrameAllocator Process BlockCache Files FileSpec Syscalls.

(** ** Text *)

(** [text.split(sep)] has a last piece, what follows the last [sep]. *)
Fixpoint last_piece (sep : Z) (text acc : list Z) : list Z :=
  match text with
  | [] => acc
  | x :: text => if x =? sep then last_piece sep text [] else last_piece sep text (acc ++ [x])
  end.

(** ** The logger *)

Inductive log_Level := LError | LWarn | LInfo | LDebug | LTrace.
Definition level_name (l : log_Level) : list Z :=
  bytes_of match l with LError => "ERROR" | LWarn => "WARN" | LInfo => "INFO" | LDebug => "DEBUG" | LTrace => "TRACE" end.
Definition level_color (l : log_Level) : Z := match l with LError => 31 | LWarn => 93 | LInfo => 34 | LDebug => 32 | LTrace => 90 end.

Record log_Record := { r_level : log_Level; r_target : list Z; r_file : option (list Z); r_line : option Z; r_args : list Z }.

(** The crate: [set_logger] tells whether the logger was the first one. *)
Class LogFacade (F : Type) := {
  set_logger : F -> bool * F;
  set_max_level : log_Level -> F -> F;
  log_enabled : log_Level -> F -> bool;
}.

Definition max_level_of (LOG : option (list Z)) : log_Level :=
  match find (fun l => bool_decide (LOG = Some (level_name l))) [LError; LWarn; LInfo; LDebug; LTrace] with
  | Some l => l
  | None => LInfo
  end.
Definition cpu_id : Z := 0.
Definition thread_id : Z := 0.

Definition ESC : list Z := [27].
Definition log_line (record : log_Record) (stamp : Z) : list Z :=
  let place := match r_file record, r_line record with
    | Some file, Some line => last_piece 47 file [] ++ bytes_of ":" ++ decimal line
    | _, _ => bytes_of "unknown"
    end in
  ESC ++ bytes_of "[" ++ decimal (level_color (r_level record)) ++ bytes_of "m" ++ pad_left 5 (level_name (r_level record)) ++
  bytes_of " [T" ++ pad_left 4 (decimal stamp) ++ bytes_of "] [CPU" ++ decimal cpu_id ++ bytes_of "] [TH" ++ decimal thread_id ++
  bytes_of "] [" ++ r_target record ++ bytes_of "] [" ++ place ++ bytes_of "] " ++ r_args record ++ ESC ++ bytes_of "[0m".

(** The macros of the file, which print without the facade. *)
Definition macro_line (l : log_Level) (text : list Z) : list Z :=
  ESC ++ bytes_of "[" ++ decimal (level_color l) ++ bytes_of "m" ++ pad_left 5 (level_name l) ++ bytes_of " " ++ text ++ ESC ++ bytes_of "[0m".

Section logger.
Context {T St C F : Type} `{FrameAllocator T} `{BlockStore St} `{Firmware C} `{LogFacade F}.

(** The statics of the crate, [TICK_COUNT], and the system. *)
Record logging := { facade : F; tick_count : Z; below : system T St C }.

Definition on_base {A} (x : M (system T St C) A) : M logging A := fun w =>
  match x (below w) with
  | Ret a s => Ret a {| facade := facade w; tick_count := tick_count w; below := s |}
  | Panic p => Panic p
  end.

Definition timestamp : M logging Z :=
  let! w := get in
  put {| facade := facade w; tick_count := u64 (tick_count w + 1); below := below w |} ;;;
  ret (u64 (tick_count w + 1)).
(** [enabled] is always true. *)
Definition SimpleLogger_log (record : log_Record) : M logging unit :=
  let! stamp := timestamp in
  on_base (println (log_line record stamp)).

Definition log_init (LOG : option (list Z)) : M logging unit :=
  let! w := get in
  let '(first, f) := set_logger (facade w) in
  if first then put {| facade := set_max_level (max_level_of LOG) f; tick_count := tick_count w; below := below w |} else fail Unwrap.
(** A use of the crate's macros. *)
Definition log_macro (record : log_Record) : M logging unit :=
  let! w := get in
  if log_enabled (r_level record) (facade w) then SimpleLogger_log record else ret tt.

(** The statics when the machine starts. *)
Definition logging_start (facade0 : F) (s : system T St C) : logging := {| facade := facade0; tick_count := 0; below := s |}.

(** ** Panics *)

Record PanicInfo := { panic_location : option (list Z * Z * Z); panic_message : list Z }.
Definition panic_text (info : PanicInfo) : list Z :=
  match panic_location info with
  | Some (file, line, column) =>
      bytes_of "Paniced at " ++ file ++ bytes_of ":" ++ decimal line ++ bytes_of ":" ++ decimal column ++ bytes_of ": " ++ panic_message info
  | None => bytes_of "Paniced: " ++ panic_message info
  end.
Definition panic_handler (info : PanicInfo) : M (system T St C) unit :=
  println (panic_text info) ;;;
  fail (Shutdown (panic_text info) true).

(** ** The stack *)

(** A load of the kernel, [None] where it traps; a trap in the kernel is a panic. *)
Context (load : Z -> option Z).
Definition kernel_load (va : Z) : M (system T St C) Z := match load va with Some w => ret w | None => fail Explicit end.
Definition trace_line (saved_ra saved_fp : Z) : list Z :=
  bytes_of "0x" ++ hex 16 saved_ra ++ bytes_of " (0x" ++ hex 16 saved_fp ++ bytes_of ")".
Fixpoint stack_loop (fuel : nat) (fp : Z) : M (system T St C) unit :=
  match fuel with
  | O => fail Fuel
  | S fuel =>
      if fp =? 0 then ret tt else
        let! saved_ra := kernel_load (u64 (fp - 8)) in
        let! saved_fp := kernel_load (u64 (fp - 16)) in
        println (trace_line saved_ra saved_fp) ;;;
        stack_loop fuel saved_fp
  end.
Definition print_stack_trace (fuel : nat) (s0 : Z) : M (system T St C) unit :=
  println (bytes_of "=== Call Stack Trace Tool ===") ;;;
  stack_loop fuel s0 ;;;
  println (bytes_of "=== End of Call Stack Trace ===").
End logger.
Arguments logging : clear implicits.

(** ** What is printed *)

Lemma hex_digit_value d : 0 <= d < 16 -> (if hex_digit d <? 58 then hex_digit d - 48 else hex_digit d - 87) = d.
Proof. intros Hd. unfold hex_digit. destruct (Z.ltb_spec d 10); [rewrite (proj2 (Z.ltb_lt _ _)) by lia|rewrite (proj2 (Z.ltb_ge _ _)) by lia]; lia. Qed.

(** A printed word is the word: sixteen digits lose nothing. *)
Theorem hex_inj n x y : 0 <= x < 16 ^ Z.of_nat n -> 0 <= y < 16 ^ Z.of_nat n -> hex n x = hex n y -> x = y.
Proof.
  revert x y. induction n as [|n IH]; intros x y Hx Hy E; [cbn in Hx, Hy; lia|]. cbn [hex] in E. apply app_inj_tail in E as [E1 E2].
  rewrite Nat2Z.inj_succ, Z.pow_succ_r in Hx, Hy by lia.
  apply IH in E1; [|split; [apply Z.div_pos; lia|apply Z.div_lt_upper_bound; lia]..].
  pose proof (hex_digit_value (x mod 16) (Z.mod_pos_bound x 16 ltac:(done))) as Dx. pose proof (hex_digit_value (y mod 16) (Z.mod_pos_bound y 16 ltac:(done))) as Dy.
  rewrite E2, Dy in Dx. rewrite (Z.div_mod x 16), (Z.div_mod y 16) by done. lia.
Qed.

Lemma last_piece_app sep dir name acc : sep ∉ name -> last_piece sep (dir ++ sep :: name) acc = name.
Proof.
  intros Hn. assert (E : forall l acc, sep ∉ l -> last_piece sep l acc = acc ++ l).
  { induction l as [|x l IH]; intros acc0 Hl; cbn [last_piece]; [by rewrite app_nil_r|]. apply not_elem_of_cons in Hl as [Hx Hl].
    rewrite (proj2 (Z.eqb_neq x sep)) by done. rewrite IH by done. by rewrite <- app_assoc. }
  revert acc. induction dir as [|x dir IH]; intros acc; cbn [app last_piece].
  - rewrite Z.eqb_refl. by rewrite E.
  - destruct (x =? sep); apply IH.
Qed.

(** The macros of the file and the logger name the levels in the same color and width. *)
Lemma log_line_prefix r stamp : firstn (length (macro_line (r_level r) []) - 5) (log_line r stamp) = firstn (length (macro_line (r_level r) []) - 5) (macro_line (r_level r) []).
Proof. by destruct r as [[] ? ? ? ?]. Qed.

Section printed.
Context {T St C F : Type} `{FrameAllocator T} `{BlockStore St} `{Firmware C} `{LogFacade F}.
Implicit Types (s : system T St C) (w : logging T St C F).

Definition wrote (bs : list Z) s : system T St C := set_con (shown (bs ++ [10]) (con s)) s.
Lemma println_run bs s : println bs s = Ret tt (wrote bs s).
Proof. apply print_run. Qed.

Lemma log_macro_run r w : log_macro r w = Ret tt (if log_enabled (r_level r) (facade w)
  then {| facade := facade w; tick_count := u64 (tick_count w + 1); below := wrote (log_line r (u64 (tick_count w + 1))) (below w) |} else w).
Proof.
  unfold log_macro. rewrite bind_get. destruct (log_enabled _ _); [|done].
  unfold SimpleLogger_log, timestamp, on_base, bind, get, put, ret. cbn [below facade tick_count]. by rewrite println_run.
Qed.

(** The console after the records, stamped from [n + 1] on. *)
Fixpoint logged (records : list log_Record) (n : Z) s : system T St C :=
  match records with
  | [] => s
  | r :: records => logged records (u64 (n + 1)) (wrote (log_line r (u64 (n + 1))) s)
  end.
(** Records that pass the level are printed in order, each with the next time stamp; the others leave no trace. *)
Theorem log_macros_run records w : for_each records log_macro w =
  let kept := filter (fun r => log_enabled (r_level r) (facade w) = true) records in
  Ret tt {| facade := facade w; tick_count := fold_left (fun n _ => u64 (n + 1)) kept (tick_count w); below := logged kept (tick_count w) (below w) |}.
Proof.
  revert w. induction records as [|r records IH]; intros w; cbn [for_each]; [by destruct w|].
  rewrite filter_cons, (bind_Ret _ _ _ _ _ (log_macro_run r w)), IH. by destruct (log_enabled _ _).
Qed.

(** A panic prints one line and stops the machine. *)
Lemma panic_stops info s : panic_handler info s = Panic (Shutdown (panic_text info) true).
Proof. unfold panic_handler. by rewrite (bind_Ret _ _ _ _ _ (println_run _ s)). Qed.

(** ** The walk over the stack *)

Context (load : Z -> option Z).

(** Frames from [fp] to the one whose saved frame pointer is null. *)
Inductive frames_from : Z -> list (Z * Z) -> Prop :=
  | frames_end : frames_from 0 []
  | frames_more fp ra fp' l : fp <> 0 -> load (u64 (fp - 8)) = Some ra -> load (u64 (fp - 16)) = Some fp' -> frames_from fp' l -> frames_from fp ((ra, fp') :: l).

Lemma stack_loop_step fuel fp ra fp' s : fp <> 0 -> load (u64 (fp - 8)) = Some ra -> load (u64 (fp - 16)) = Some fp' ->
  stack_loop load (S fuel) fp s = stack_loop load fuel fp' (wrote (trace_line ra fp') s).
Proof.
  intros Hfp Hra Hs. cbn [stack_loop]. rewrite (proj2 (Z.eqb_neq fp 0)) by done. unfold kernel_load. rewrite Hra, Hs.
  by rewrite (bind_Ret _ _ _ ra s), (bind_Ret _ _ _ fp' s), (bind_Ret _ _ _ _ _ (println_run _ s)).
Qed.

(** On a chain of frames that ends, the trace prints each saved return address, once, in order, and returns. *)
Theorem print_stack_trace_run fp l fuel s : frames_from fp l -> (length l < fuel)%nat ->
  print_stack_trace load fuel fp s = Ret tt (wrote (bytes_of "=== End of Call Stack Trace ===")
    (foldl (fun s '(ra, fp') => wrote (trace_line ra fp') s) (wrote (bytes_of "=== Call Stack Trace Tool ===") s) l)).
Proof.
  intros Hf Hl. unfold print_stack_trace. rewrite (bind_Ret _ _ _ _ _ (println_run _ s)). set (s1 := wrote _ s).
  enough (E : stack_loop load fuel fp s1 = Ret tt (foldl (fun s '(ra, fp') => wrote (trace_line ra fp') s) s1 l))
    by (rewrite (bind_Ret _ _ _ _ _ E); apply println_run).
  clearbody s1. clear s. revert fuel s1 Hl. induction Hf as [|fp ra fp' l Hfp Hra Hs _ IH]; intros [|fuel] s Hl; cbn [length] in Hl; try lia; [done|].
  rewrite (stack_loop_step _ _ _ _ _ Hfp Hra Hs). cbn [foldl]. apply IH. lia.
Qed.

(** On a chain of frames that never ends the trace does not return, however long it runs. *)
Theorem stack_trace_loops (on : Z -> Prop) fuel fp s :
  (forall fp, on fp -> fp <> 0 /\ exists ra fp', load (u64 (fp - 8)) = Some ra /\ load (u64 (fp - 16)) = Some fp' /\ on fp') -> on fp ->
  print_stack_trace load fuel fp s = Panic Fuel.
Proof.
  intros Hon Hfp. unfold print_stack_trace. rewrite (bind_Ret _ _ _ _ _ (println_run _ s)). set (s1 := wrote _ s). clearbody s1.
  assert (E : stack_loop load fuel fp s1 = Panic Fuel); [|unfold bind; by rewrite E].
  clear s. revert fp s1 Hfp. induction fuel as [|fuel IH]; intros fp s1 Hfp; [done|]. destruct (Hon fp Hfp) as (Hn & ra & fp' & Hra & Hs & Hfp').
  rewrite (stack_loop_step _ _ _ _ _ Hn Hra Hs). by apply IH.
Qed.
End printed.
