(* ===== verification/OpenSpec.v ===== *)
(** Opening files: [open_file] of [os/src/fs/inode.rs] on the abstract file system,
    and which paths reach a file it has created. *)
From S2P Require Import Prelude Address FrameAllocator PageTable UserBytes Pipe Pid MemorySet UserSpace Process Lifecycle Signal.
From S2P Require Import BlockCache DiskWords Bitmap Layout Codecs InodeFields InodeBlocks InodeData FileData Mfs Vfs FsInv FsBlocks FsFiles FsGrow FsSpec FsDirs FsCreate FsFormat.
From S2P Require Import Files FileSpec.

(** The inode [open_file] finds or makes, and the file system after it. *)
Definition a_open (max : Z) (name : list Z) (flags : Z) (a : afs) : option (option Z * afs) :=
  r ← a_walk (path_names name) 0 a;
  if OpenFlags.contains flags OpenFlags.CREATE then
    match r with
    | Some i => '(_, a') ← a_clear i a; Some (Some i, a')
    | None => a_create max 0 name File a
    end
  else
    match r with
    | Some i => if OpenFlags.contains flags OpenFlags.TRUNC then '(_, a') ← a_clear i a; Some (Some i, a') else Some (Some i, a)
    | None => Some (None, a)
    end.

Section open.
Context {T St C : Type} `{FrameAllocator T} `{SL : BlockStoreLaws St} `{Firmware C}.
Implicit Types (s : system T St C) (fs : BlockManager).

(** The state after [open_file]: a new object, or nothing new. *)
Definition opened_as fs (flags : Z) (r : option Z) (d : St) s : outcome (system T St C) (option Z) :=
  match r with
  | None => Ret None (set_disk d s)
  | Some i =>
      let id := fresh (dom (objects s)) in
      let '(readable, writable) := OpenFlags.read_write flags in
      Ret (Some id) (set_objects (<[id := ObjInode (OSInode_new readable writable (handle fs i))]> (objects s)) (set_disk d s))
  end.

Lemma on_disk_bind {A B} (m : M St A) (k : A -> M (system T St C) B) s v d :
  m (disk s) = Ret v d -> bind (on_disk m) k s = k v (set_disk d s).
Proof. intros E. unfold bind, on_disk, zoom. by rewrite E. Qed.

Lemma open_file_run fs da name flags s a r a' :
  represents (disk s) fs da a -> a_open (inode_max fs) name flags a = Some (r, a') ->
  exists d, open_file fs name flags s = opened_as fs flags r d s /\ represents d fs da a'.
Proof.
  intros Hrep Ho. unfold a_open in Ho. apply bind_Some in Ho as (found & Hw & Ho).
  destruct (find_refines _ _ _ _ _ _ _ Hrep Hw) as (d1 & E1 & Hrep1).
  unfold open_file, opened_as. destruct (OpenFlags.read_write flags) as [rd wr].
  change (root_inode fs) with (handle fs 0). cbv beta iota zeta.
  destruct (OpenFlags.contains flags OpenFlags.CREATE); rewrite (on_disk_bind _ _ s _ _ E1); destruct found as [i|]; cbn [fmap option_fmap option_map].
  - apply bind_Some in Ho as ([[] a1] & Hc & [= <- <-]). destruct (clear_refines _ _ _ _ _ _ _ Hrep1 Hc) as (d2 & E2 & Hrep2 & _).
    exists d2. split; [|exact Hrep2]. by rewrite (on_disk_bind _ _ (set_disk d1 s) _ _ E2).
  - destruct (create_refines _ _ _ _ _ _ _ _ _ Hrep1 Ho) as (d2 & E2 & Hrep2). exists d2. split; [|exact Hrep2].
    rewrite (on_disk_bind (create fs (handle fs 0) name) _ (set_disk d1 s) _ _ E2). by destruct r.
  - destruct (OpenFlags.contains flags OpenFlags.TRUNC).
    + apply bind_Some in Ho as ([[] a1] & Hc & [= <- <-]). destruct (clear_refines _ _ _ _ _ _ _ Hrep1 Hc) as (d2 & E2 & Hrep2 & _).
      exists d2. split; [|exact Hrep2]. by rewrite (on_disk_bind _ _ (set_disk d1 s) _ _ E2).
    + injection Ho as <- <-. exists d1. split; [reflexivity|exact Hrep1].
  - injection Ho as <- <-. exists d1. split; [reflexivity|exact Hrep1].
Qed.
End open.

(** ** Names in a directory *)

Lemma slice_write_bytes c (q : nat) d lo n : (q <= length c)%nat -> (lo + n <= q)%nat -> slice (write_bytes c q d) lo n = slice c lo n.
Proof.
  intros Hq Hlo. unfold write_bytes. rewrite slice_splice_disjoint by (rewrite ?length_app, ?length_zeros; lia).
  unfold slice. rewrite drop_app_le by lia. apply take_app_le. rewrite length_drop. lia.
Qed.

(** A new entry comes after the old ones. *)
Lemma entries_append c name j : (length name <= 28)%nat -> 0 <= j < 2 ^ 32 ->
  entries (write_bytes c (32 * (length c / 32)) (dirent_bytes name j)) =
  entries c ++ [{| de_name := splice (replicate 28 0) 0 name; de_inode_number := j |}].
Proof.
  intros Hn Hj. set (q := (length c / 32)%nat). assert (Hq : (32 * q <= length c < 32 * q + 32)%nat) by (unfold q; dlia).
  set (e := {| de_name := _ |}). assert (Hnm : length (de_name e) = 28%nat) by (unfold e; cbn [de_name]; rewrite length_splice; rewrite length_replicate; [done|lia]).
  destruct (DirEntry_bytes_roundtrip e Hnm Hj) as [Le Ee]. unfold entries. rewrite length_write_bytes. change (dirent_bytes name j) with (DirEntry_as_bytes e).
  rewrite Le. replace (Nat.max (length c) (32 * q + 32) / 32)%nat with (S q) by dlia. rewrite seq_S, fmap_app. f_equal.
  - apply list_fmap_ext. intros i k Hk. apply lookup_seq in Hk as [-> Hk]. unfold entry_at. f_equal. apply slice_write_bytes; lia.
  - cbn [fmap list_fmap Nat.add]. f_equal. transitivity (DirEntry_of_bytes (DirEntry_as_bytes e)); [|exact Ee]. unfold entry_at. f_equal.
    pose proof (slice_splice (c ++ zeros (32 * q + 32 - length c)) (32 * q) (DirEntry_as_bytes e)) as Hs. rewrite Le in Hs.
    unfold write_bytes. rewrite Le. apply Hs. rewrite length_app, length_zeros. lia.
Qed.

Lemma a_find_app es e name : a_find es name = Some None -> a_find (es ++ [e]) name = (n ← entry_name e; Some (if decide (n = name) then Some (de_inode_number e) else None)).
Proof.
  induction es as [|x es IH]; cbn [a_find app].
  - intros _. destruct (entry_name e) as [n|]; [|done]. cbn [mbind option_bind]. by destruct (decide (n = name)).
  - destruct (entry_name x) as [n|]; [|done]. cbn [mbind option_bind]. destruct (decide (n = name)); [done|exact IH].
Qed.
Lemma a_find_app_Some es e name j : a_find es name = Some (Some j) -> a_find (es ++ [e]) name = Some (Some j).
Proof.
  induction es as [|x es IH]; cbn [a_find app]; [done|].
  destruct (entry_name x) as [n|]; [|done]. cbn [mbind option_bind]. destruct (decide (n = name)); [done|exact IH].
Qed.

Lemma entry_name_new name j : good_name name -> (length name <= 27)%nat ->
  entry_name {| de_name := splice (replicate 28 0) 0 name; de_inode_number := j |} = Some name.
Proof.
  intros (Hu & Hz & _) Hn. unfold entry_name. cbn [de_name]. rewrite splice_zero by lia. rewrite find_zero by done.
  rewrite (proj2 (Nat.eqb_neq _ 0)) by lia. cbn [mbind option_bind]. by rewrite take_app_le, take_ge by lia.
Qed.

(** ** Paths after a change *)

(** A walk depends on directories only. *)
Definition same_dirs (a a' : afs) : Prop := forall k,
  match a_files a !! k with
  | Some (Dir, c) => a_files a' !! k = Some (Dir, c)
  | Some (File, _) => exists c', a_files a' !! k = Some (File, c')
  | None => True
  end.
Lemma a_walk_same a a' names i r : same_dirs a a' -> a_walk names i a = Some r -> a_walk names i a' = Some r.
Proof.
  intros Hs. revert i. induction names as [|n names IH]; intros i; cbn [a_walk]; [done|]. pose proof (Hs i) as Hi.
  destruct (a_files a !! i) as [[[] c]|]; [|rewrite Hi|done].
  - destruct Hi as [c' ->]. done.
  - destruct (a_find (entries c) n) as [[j|]|]; cbn [mbind option_bind]; [apply IH|done|done].
Qed.

Lemma same_dirs_file a i c c' fr : a_files a !! i = Some (File, c) -> same_dirs a {| a_files := <[i := (File, c')]> (a_files a); a_free := fr |}.
Proof.
  intros Hi k. cbn [a_files]. destruct (decide (k = i)) as [->|Hne].
  - rewrite Hi, lookup_insert_eq. by exists c'.
  - rewrite lookup_insert_ne by done. destruct (a_files a !! k) as [[[] x]|]; [by exists x|done|done].
Qed.

Lemma a_clear_files i a u a' : a_clear i a = Some (u, a') ->
  (exists c, a_files a !! i = Some (File, c)) /\ a_files a' = <[i := (File, [])]> (a_files a) /\ same_dirs a a'.
Proof.
  unfold a_clear. destruct (a_files a !! i) as [[[] c]|] eqn:Hi; try done. intros [= <- <-]. split; [by exists c|]. split; [done|].
  by apply (same_dirs_file _ _ c).
Qed.

Lemma a_write_files i off buf a n a' : a_write i off buf a = Some (n, a') ->
  exists c, a_files a !! i = Some (File, c) /\ a_files a' = <[i := (File, write_bytes c (Z.to_nat off) buf)]> (a_files a) /\ same_dirs a a'.
Proof.
  unfold a_write. destruct (a_files a !! i) as [[[] c]|] eqn:Hi; try done. destruct (_ && _); [|done].
  intros (x & Hs & [= <- <-])%bind_Some. unfold a_set_contents in Hs. destruct (_ && _); [|done]. injection Hs as <-.
  exists c. split; [done|]. split; [done|]. by apply (same_dirs_file _ _ c).
Qed.

(** A file created in the root directory: the new files and the new entry. *)
Record created (name : list Z) (j : Z) (a a' : afs) : Prop := {
  cr_root : exists c, a_files a !! 0 = Some (Dir, c) /\
    a_files a' = <[0 := (Dir, write_bytes c (32 * (length c / 32)) (dirent_bytes name j))]> (<[j := (File, [])]> (a_files a)) /\
    a_find (entries c) name = Some None;
  cr_new : a_files a !! j = None;
  cr_range : 0 <= j < 2 ^ 32;
}.
Lemma a_create_created max name a j a' : max <= 2 ^ 32 -> a_create max 0 name File a = Some (Some j, a') -> created name j a a'.
Proof.
  intros Hmax. unfold a_create. destruct (a_files a !! 0) as [[[] c]|] eqn:H0; try done. intros (r & Hf & Hc)%bind_Some.
  destruct r; [done|]. destruct (_ && _); [|done]. apply bind_Some in Hc as (j' & Hj & Hc). apply bind_Some in Hc as (a2 & Hs & [= -> <-]).
  unfold a_set_contents in Hs. destruct (_ && _); [|done]. injection Hs as <-. unfold new_inode in Hj.
  apply head_Some_elem_of in Hj. apply list_elem_of_filter in Hj as [Hj Hr%elem_of_seqZ].
  split; [by exists c|exact Hj|lia].
Qed.

Lemma a_walk_created name j a a' names k r :
  created name j a a' -> good_name name -> (length name <= 27)%nat -> name ∉ names ->
  a_walk names k a = Some r -> a_walk names k a' = Some r.
Proof.
  intros [(c & H0 & Ha' & _) Hj Hr] Hg Hl. revert k. induction names as [|n names IH]; intros k Hn; cbn [a_walk]; [done|].
  apply not_elem_of_cons in Hn as [Hne Hn]. rewrite Ha'. destruct (decide (k = 0)) as [->|H0k].
  - rewrite lookup_insert_eq, H0, entries_append by lia. intros (f & Hf & Hw)%bind_Some. destruct f as [k|].
    + rewrite (a_find_app_Some _ _ _ _ Hf). cbn [mbind option_bind]. by apply IH.
    + rewrite a_find_app, (entry_name_new name j Hg Hl) by done. cbn [mbind option_bind]. rewrite decide_False by congruence. exact Hw.
  - rewrite lookup_insert_ne by congruence. destruct (decide (k = j)) as [->|Hjk]; [by rewrite Hj|]. rewrite lookup_insert_ne by congruence.
    destruct (a_files a !! k) as [[[] x]|]; [done| |done]. intros (f & Hf & Hw)%bind_Some. rewrite Hf. cbn [mbind option_bind].
    destruct f; [by apply IH|exact Hw].
Qed.

(** The name itself is found. *)
Lemma a_find_created name j a a' : created name j a a' -> good_name name -> (length name <= 27)%nat ->
  exists c', a_files a' !! 0 = Some (Dir, c') /\ a_find (entries c') name = Some (Some j) /\ a_files a' !! j = Some (File, []).
Proof.
  intros [(c & H0 & Ha' & Hf) Hj Hr] Hg Hl. assert (0 <> j) by (intros <-; congruence). rewrite Ha'. rewrite lookup_insert_eq. eexists. split; [done|]. split.
  - rewrite entries_append, a_find_app, (entry_name_new name j Hg Hl) by (done || lia). cbn [mbind option_bind]. by rewrite decide_True.
  - by rewrite lookup_insert_ne, lookup_insert_eq.
Qed.

(** Components of a path hold no separator. *)
Lemma split_path_sep path acc x : 47 ∉ acc -> x ∈ split_path path acc -> 47 ∉ x.
Proof.
  revert acc. induction path as [|c path IH]; intros acc Ha; cbn [split_path].
  - destruct acc; [by intros ?%elem_of_nil|]. by intros ->%list_elem_of_singleton.
  - destruct (Z.eqb_spec c 47) as [->|Hc].
    + intros [Hx|Hx]%elem_of_app; [|by apply (IH [] (not_elem_of_nil _))]. destruct acc; [by apply elem_of_nil in Hx|].
      by apply list_elem_of_singleton in Hx as ->.
    + apply IH. rewrite elem_of_app. intros [?|?%list_elem_of_singleton]; [done|congruence].
Qed.
Lemma path_names_sep path : 47 ∈ path -> path ∉ path_names path.
Proof. intros Hp Hin. by apply (split_path_sep path [] path (not_elem_of_nil _)) in Hin. Qed.

Lemma split_path_simple path acc : 47 ∉ path -> split_path path acc = match acc ++ path with [] => [] | p => [p] end.
Proof.
  revert acc. induction path as [|c path IH]; intros acc Hp; cbn [split_path].
  - rewrite app_nil_r. by destruct acc.
  - apply not_elem_of_cons in Hp as [Hc Hp]. rewrite (proj2 (Z.eqb_neq c 47)) by congruence. rewrite IH by done. by rewrite <- app_assoc.
Qed.
Lemma path_names_simple path : path <> [] -> 47 ∉ path -> path_names path = [path].
Proof. intros Hn Hp. unfold path_names. rewrite split_path_simple by done. by destruct path. Qed.

(** Opening with [CREATE] by a simple name leaves an empty file that the name finds. *)
Lemma a_open_create max name flags a i a' :
  max <= 2 ^ 32 -> good_name name -> (length name <= 27)%nat -> name <> [] -> 47 ∉ name ->
  OpenFlags.contains flags OpenFlags.CREATE = true -> a_open max name flags a = Some (Some i, a') ->
  a_files a' !! i = Some (File, []) /\ a_walk (path_names name) 0 a' = Some (Some i).
Proof.
  intros Hmax Hg Hl Hne Hsep Hcr Ho. unfold a_open in Ho. rewrite Hcr in Ho. apply bind_Some in Ho as (r & Hw & Ho). destruct r as [k|].
  - apply bind_Some in Ho as ([u a1] & Hc & [= -> <-]). destruct (a_clear_files _ _ _ _ Hc) as (_ & Ef & Hs).
    rewrite Ef, lookup_insert_eq. split; [done|]. by apply (a_walk_same a).
  - pose proof (a_create_created _ _ _ _ _ Hmax Ho) as Hcd. destruct (a_find_created _ _ _ _ Hcd Hg Hl) as (c & H0 & Hf & Hi).
    split; [exact Hi|]. rewrite path_names_simple by done. cbn [a_walk]. by rewrite H0, Hf.
Qed.

Section claims.
Context {T St C : Type} `{FrameAllocator T} `{SL : BlockStoreLaws St} `{Firmware C}.
Implicit Types (s : system T St C) (fs : BlockManager).

Lemma inode_max_small (d : St) fs da a : represents d fs da a -> inode_max fs <= 2 ^ 32.
Proof.
  intros [(I & [_ _ HV] & _) _]. pose proof (fv_geo _ _ _ _ _ HV) as G. destruct G. unfold inode_max. change BLOCK_BITS with 4096. lia.
Qed.

(** C17. open_file on a disk that represents an abstract file system behaves as an abstract open: a
    missing file without CREATE is refused, CREATE makes a new empty file or clears the existing
    one, TRUNC clears, and the object installed has the access of the flags, offset 0 and the inode
    of the path. *)
Theorem open_file_spec fs da name flags s a r a' :
  represents (disk s) fs da a -> a_open (inode_max fs) name flags a = Some (r, a') ->
  let '(readable, writable) := OpenFlags.read_write flags in
  exists d, represents d fs da a' /\
    open_file fs name flags s =
      match r with
      | Some i =>
          let id := fresh (dom (objects s)) in
          let o := {| os_readable := readable; os_writable := writable; os_offset := 0; os_inode := handle fs i |} in
          Ret (Some id) (set_objects (<[id := ObjInode o]> (objects s)) (set_disk d s))
      | None => Ret None (set_disk d s)
      end.
Proof.
  intros Hrep Ho. destruct (open_file_run fs da name flags s a r a' Hrep Ho) as (d & E & Hd). unfold opened_as, OSInode_new in E.
  destruct (OpenFlags.read_write flags) as [rd wr]. exists d. split; [exact Hd|exact E].
Qed.

(** C19. CREATE with a path holding '/' that leads nowhere succeeds: the disk then represents the
    file system with a new empty file and one more entry of the root directory, whose name is the
    whole path; and opening that path again is refused, whatever the flags, and changes nothing. *)
Theorem open_nested_unreachable fs da name flags s a j a' :
  represents (disk s) fs da a -> 47 ∈ name -> good_name name -> (length name <= 27)%nat ->
  OpenFlags.contains flags OpenFlags.CREATE = true ->
  a_walk (path_names name) 0 a = Some None -> a_open (inode_max fs) name flags a = Some (Some j, a') ->
  exists id s1, open_file fs name flags s = Ret (Some id) s1 /\ represents (disk s1) fs da a' /\
    (exists c c' e, a_files a !! 0 = Some (Dir, c) /\ a_files a !! j = None /\
       a_files a' = <[0 := (Dir, c')]> (<[j := (File, [])]> (a_files a)) /\
       entries c' = entries c ++ [e] /\ entry_name e = Some name /\ de_inode_number e = j) /\
    forall flags', exists s2, open_file fs name flags' s1 = Ret None s2 /\ represents (disk s2) fs da a'.
Proof.
  intros Hrep Hsep Hg Hl Hcr Hw Ho. destruct (open_file_run fs da name flags s a _ a' Hrep Ho) as (d & E & Hd).
  unfold opened_as in E. destruct (OpenFlags.read_write flags) as [rd wr]. eexists _, _. split; [exact E|]. split; [exact Hd|]. clear E.
  set (s1 := set_objects _ _). unfold a_open in Ho. rewrite Hw, Hcr in Ho. cbn [mbind option_bind] in Ho.
  pose proof (a_create_created _ _ _ _ _ (inode_max_small _ _ _ _ Hrep) Ho) as Hcd.
  split.
  { destruct Hcd as [(c & Hc0 & Ha' & _) Hj Hr]. eexists c, _, _. split_and!; [exact Hc0|exact Hj|exact Ha'|apply entries_append; [lia|done]|exact (entry_name_new name j Hg Hl)|done]. }
  intros flags'. pose proof (a_walk_created name j a a' (path_names name) 0 None Hcd Hg Hl (path_names_sep name Hsep) Hw) as Hw'.
  assert (Ho' : a_open (inode_max fs) name flags' a' = Some (None, a')).
  { unfold a_open. rewrite Hw'. cbn [mbind option_bind]. destruct (OpenFlags.contains flags' OpenFlags.CREATE); [|done].
    destruct (a_find_created _ _ _ _ Hcd Hg Hl) as (c & Hroot & Hf & _). unfold a_create. by rewrite Hroot, Hf. }
  destruct (open_file_run fs da name flags' s1 a' None a' Hd Ho') as (d2 & E2 & Hd2). eexists. split; [exact E2|exact Hd2].
Qed.
End claims.

(** ** A system with a new file system *)

(** A terminal: what is typed and what has been printed. *)
#[export] Instance tty_firmware : Firmware (list Z * list Z) := {
  console_getchar c := match c.1 with [] => (0, c) | x :: r => (x, (r, c.2)) end;
  console_putchar x c := (c.1, c.2 ++ [x]);
  set_timer t c := c;
  read_time c := (0, c);
}.
Definition demo_system (d : store BlockFile) : system StackFrameAllocator (store BlockFile) (list Z * list Z) :=
  {| kern := demo_kernel; disk := d; objects := ∅; rings := ∅; con := ([], []) |}.

Lemma demo_disk : exists fs d, BlockManager_create 1100 1 blank_store = Ret fs d /\ inode_max fs = 4096 /\
  represents d fs (data_count 1100 1) (a_format 1100 1).
Proof.
  destruct (format_run blank_store 1100 1 blank_store_ok eq_refl blank_params) as (d & E & Hrep & _).
  exists (formatted 1100 1), d. split; [exact E|]. split; [|exact Hrep]. apply (formatted_geometry 1100 1100 1 small_params).
Qed.

(** What opening gives and the state it leaves. *)
Definition open_after (max : Z) (name : list Z) (flags : Z) (a : afs) : afs := match a_open max name flags a with Some (_, a') => a' | None => a end.
Lemma open_after_run max name flags a r : fst <$> a_open max name flags a = Some r -> a_open max name flags a = Some (r, open_after max name flags a).
Proof. unfold open_after. destruct (a_open max name flags a) as [[r' a']|]; [|discriminate]. cbn. by intros [= ->]. Qed.

Lemma open_file_spec_witness : exists fs d s1, represents d fs (data_count 1100 1) (a_format 1100 1) /\
  open_file fs [120] (Z.lor OpenFlags.CREATE OpenFlags.WRONLY) (demo_system d) = Ret (Some 0) s1.
Proof.
  destruct demo_disk as (fs & d & _ & Hmax & Hrep).
  assert (Ho : a_open (inode_max fs) [120] (Z.lor OpenFlags.CREATE OpenFlags.WRONLY) (a_format 1100 1) = Some (Some 1, open_after 4096 [120] 513 (a_format 1100 1))).
  { rewrite Hmax. apply open_after_run. vm_compute. reflexivity. }
  destruct (open_file_spec fs _ [120] _ (demo_system d) _ _ _ Hrep Ho) as (d' & _ & E). exists fs, d. eexists. split; [exact Hrep|]. exact E.
Defined.

(** The path [/x]. *)
Lemma open_nested_unreachable_witness : exists fs d id s1,
  open_file fs [47; 120] OpenFlags.CREATE (demo_system d) = Ret (Some id) s1 /\
  exists s2, open_file fs [47; 120] OpenFlags.RDONLY s1 = Ret None s2.
Proof.
  destruct demo_disk as (fs & d & _ & Hmax & Hrep).
  assert (Ho : a_open (inode_max fs) [47; 120] OpenFlags.CREATE (a_format 1100 1) = Some (Some 1, open_after 4096 [47; 120] 512 (a_format 1100 1))).
  { rewrite Hmax. apply open_after_run. vm_compute. reflexivity. }
  assert (Hg : good_name [47; 120]).
  { split; [reflexivity|]. split; [intros Hin; repeat (apply elem_of_cons in Hin as [?|Hin]; [discriminate|]); by apply elem_of_nil in Hin|].
    repeat constructor; unfold is_byte; lia. }
  destruct (open_nested_unreachable fs _ [47; 120] OpenFlags.CREATE (demo_system d) _ 1 _ Hrep ltac:(by left) Hg ltac:(cbn; lia) eq_refl
    ltac:(vm_compute; reflexivity) Ho) as (id & s1 & E & _ & _ & Hnone). exists fs, d, id, s1. split; [exact E|].
  destruct (Hnone OpenFlags.RDONLY) as (s2 & E2 & _). by exists s2.
Defined.
