(* ===== verification/FileRound.v ===== *)
(** System calls on regular files ([os/src/syscall/fs.rs]): descriptors, and data
    that goes from the memory of a process into a file and back. *)
From S2P Require Import Prelude Address FrameAllocator PageTable UserBytes Pipe Pid MemorySet UserSpace UserMem Process Lifecycle Signal.
From S2P Require Import BlockCache DiskWords Bitmap Layout Codecs InodeFields InodeBlocks InodeData FileData Mfs Vfs FsInv FsBlocks FsFiles FsGrow FsSpec FsDirs FsCreate FsFormat.
From S2P Require Import Files FileCalls FileSpec OpenSpec.

(** ** Descriptor tables *)

(** The file behind a descriptor. *)
Definition table_at (table : list (option file)) (fd : nat) : option file := mjoin (table !! fd).

Lemma alloc_fd_spec table : let '(fd, table') := alloc_fd table in
  table_at table fd = None /\ (fd < length table')%nat /\ (length table <= length table' <= S (length table))%nat /\
  (forall j, (j < fd)%nat -> table_at table j <> None) /\ (forall j, table_at table' j = table_at table j).
Proof.
  unfold alloc_fd, table_at. destruct (find_index _ table) as [fd|] eqn:E.
  - apply find_index_Some in E as ((x & Hx & Hn) & Hlt). destruct x; [discriminate Hn|]. rewrite Hx.
    pose proof (lookup_lt_Some _ _ _ Hx). split_and!; try done; try lia.
    intros j Hj. destruct (lookup_lt_is_Some_2 table j) as [y Hy]; [lia|]. rewrite Hy. specialize (Hlt j y Hj Hy). by destruct y.
  - apply find_index_None in E. rewrite length_app. cbn [length]. split_and!; try lia.
    + by rewrite lookup_ge_None_2.
    + intros j Hj. destruct (lookup_lt_is_Some_2 table j Hj) as [y Hy]. rewrite Hy. pose proof (Forall_lookup_1 _ _ _ _ E Hy) as Hf. by destruct y.
    + intros j. destruct (decide (j < length table)%nat); [by rewrite lookup_app_l|]. rewrite lookup_app_r, (lookup_ge_None_2 table) by lia.
      destruct (j - length table)%nat as [|q]; [done|]. by rewrite lookup_ge_None_2 by (cbn; lia).
Qed.

Definition install (f : file) (table : list (option file)) : list (option file) :=
  let '(fd, table') := alloc_fd table in <[fd := Some f]> table'.
Definition first_fd (table : list (option file)) : nat := (alloc_fd table).1.

Lemma install_at f table j : table_at (install f table) j = if decide (j = first_fd table) then Some f else table_at table j.
Proof.
  unfold install, first_fd. pose proof (alloc_fd_spec table) as Ha. destruct (alloc_fd table) as [fd table']. cbn [fst].
  destruct Ha as (_ & Hl & _ & _ & He). destruct (decide (j = fd)) as [->|Hne].
  - unfold table_at. by rewrite list_lookup_insert_eq.
  - rewrite <- He. unfold table_at. by rewrite list_lookup_insert_ne by congruence.
Qed.
Lemma first_fd_free table : table_at table (first_fd table) = None /\ (first_fd table <= length table)%nat /\
  forall j, (j < first_fd table)%nat -> table_at table j <> None.
Proof.
  unfold first_fd. pose proof (alloc_fd_spec table) as Ha. destruct (alloc_fd table) as [fd table']. destruct Ha as (? & ? & ? & ? & ?).
  cbn [fst]. split_and!; try done. lia.
Qed.

Lemma first_fd_ext t1 t2 : (forall j, table_at t1 j = table_at t2 j) -> first_fd t1 = first_fd t2.
Proof.
  intros He. destruct (first_fd_free t1) as (N1 & _ & L1), (first_fd_free t2) as (N2 & _ & L2).
  destruct (Nat.lt_trichotomy (first_fd t1) (first_fd t2)) as [Hlt|[Heq|Hlt]]; [|done|].
  - exfalso. apply (L2 _ Hlt). by rewrite <- He.
  - exfalso. apply (L1 _ Hlt). by rewrite He.
Qed.
Lemma length_install f table : (length (install f table) <= S (length table))%nat.
Proof. unfold install. pose proof (alloc_fd_spec table) as Ha. destruct (alloc_fd table). rewrite length_insert. lia. Qed.

Lemma fd_lookup_at b (fd : nat) : fd_lookup b (Z.of_nat fd) = table_at (fd_table b) fd.
Proof. unfold fd_lookup, table_at. rewrite vget_nat. destruct (fd_table b !! fd) as [[]|]; done. Qed.

Lemma close_at (table : list (option file)) fd j : table_at (<[fd := None]> table) j = if decide (j = fd) then None else table_at table j.
Proof.
  unfold table_at. destruct (decide (j = fd)) as [->|Hne]; [|by rewrite list_lookup_insert_ne by congruence].
  destruct (decide (fd < length table)%nat); [by rewrite list_lookup_insert_eq|]. by rewrite lookup_ge_None_2 by (rewrite length_insert; lia).
Qed.

Section calls.
Context {T St C : Type} `{FAL : FrameAllocatorLaws T} `{SL : BlockStoreLaws St} `{Firmware C}.
Implicit Types (s : system T St C) (k : kernel T) (fs : BlockManager).

(** The running process and its block. *)
Record runs k (p : nat) (b : ProcessControlBlock) : Prop := { rn_running : running k = Some p; rn_block : heap k !! p = Some b }.

Lemma current_unwrap_runs k p b : runs k p b -> current_unwrap k = Ret p k.
Proof. intros [Hr _]. unfold current_unwrap, current_process, bind. by rewrite Hr. Qed.
Lemma current_token_runs k p b : runs k p b -> current_user_token k = Ret (MemorySet_token (memory_set (space b))) k.
Proof.
  intros Hr. unfold current_user_token. rewrite (bind_Ret _ _ _ _ _ (current_unwrap_runs k p b Hr)).
  by rewrite (bind_Ret _ _ _ _ _ (deref_run k p b (rn_block _ _ _ Hr))).
Qed.

(** The block with another table. *)
Definition with_table k p b table : kernel T := set_heap (<[p := set_fd_table table b]> (heap k)) k.
Lemma with_table_runs k p b table : runs k p b -> runs (with_table k p b table) p (set_fd_table table b).
Proof. intros [Hr _]. split; [exact Hr|]. unfold with_table. cbn. apply lookup_insert_eq. Qed.

Lemma install_fd_runs k p b f : runs k p b ->
  install_fd p f k = Ret (Z.of_nat (first_fd (fd_table b))) (with_table k p b (install f (fd_table b))).
Proof.
  intros [_ Hb]. unfold install_fd, install, first_fd, with_table. rewrite (bind_Ret _ _ _ _ _ (deref_run k p b Hb)).
  destruct (alloc_fd (fd_table b)) as [fd table]. cbn [fst]. by rewrite (bind_Ret _ _ _ _ _ (update_run k p b _ Hb)).
Qed.

(** A step that runs in the kernel part, in a state known there. *)
Lemma on_kern_bind {A B} (m : M (kernel T) A) (g : A -> M (system T St C) B) s v k :
  m (kern s) = Ret v k -> bind (on_kern m) g s = g v (set_kern k s).
Proof. intros E. unfold bind, on_kern, zoom. by rewrite E. Qed.
Lemma on_kern_same {A B} (m : M (kernel T) A) (g : A -> M (system T St C) B) s v :
  m (kern s) = Ret v (kern s) -> bind (on_kern m) g s = g v s.
Proof. intros E. rewrite (on_kern_bind m g s v _ E). by destruct s. Qed.
Lemma on_kmem_same {A B} (m : M (mem T) A) (g : A -> M (system T St C) B) s v :
  m (kmem (kern s)) = Ret v (kmem (kern s)) -> bind (on_kmem m) g s = g v s.
Proof. intros E. apply on_kern_same. unfold on_mem, zoom. rewrite E. by destruct s as [[]]. Qed.

(** Descriptors beyond the range of [isize] do not occur. *)
Lemma as_isize_fd table : Z.of_nat (length table) < 2 ^ 62 -> as_isize (Z.of_nat (first_fd table)) = Z.of_nat (first_fd table).
Proof.
  intros Hl. destruct (first_fd_free table) as (_ & Hf & _). apply as_isize_small. lia.
Qed.

Lemma sys_close_runs k p b (fd : nat) : runs k p b ->
  sys_close (Z.of_nat fd) k =
    match table_at (fd_table b) fd with
    | None => Ret (-1) k
    | Some _ => Ret 0 (with_table k p b (<[fd := None]> (fd_table b)))
    end.
Proof.
  intros Hr. unfold sys_close. rewrite (bind_Ret _ _ _ _ _ (current_unwrap_runs k p b Hr)).
  rewrite (bind_Ret _ _ _ _ _ (deref_run k p b (rn_block _ _ _ Hr))), fd_lookup_at, Nat2Z.id.
  destruct (table_at (fd_table b) fd); [|done]. by rewrite (bind_Ret _ _ _ _ _ (update_run k p b _ (rn_block _ _ _ Hr))).
Qed.

Lemma sys_dup_runs k p b (fd : nat) : runs k p b -> Z.of_nat (length (fd_table b)) < 2 ^ 62 ->
  sys_dup (Z.of_nat fd) k =
    match table_at (fd_table b) fd with
    | None => Ret (-1) k
    | Some f => Ret (Z.of_nat (first_fd (fd_table b))) (with_table k p b (install f (fd_table b)))
    end.
Proof.
  intros Hr Hl. unfold sys_dup. rewrite (bind_Ret _ _ _ _ _ (current_unwrap_runs k p b Hr)).
  rewrite (bind_Ret _ _ _ _ _ (deref_run k p b (rn_block _ _ _ Hr))), fd_lookup_at.
  destruct (table_at (fd_table b) fd) as [f|]; [|done]. rewrite (bind_Ret _ _ _ _ _ (install_fd_runs k p b f Hr)). by rewrite as_isize_fd.
Qed.

(** ** Opening, writing and reading *)

Lemma sys_open_runs fs da fuel s p b ma ptr bytes flags i f f' :
  runs (kern s) p b -> user_ok (kmem (kern s)) (memory_set (space b)) ma ->
  user_range (memory_set (space b)) ptr (Z.of_nat (length bytes) + 1) -> user_str (kmem (kern s)) ma ptr bytes -> (length bytes < fuel)%nat ->
  Z.of_nat (length (fd_table b)) < 2 ^ 62 -> OpenFlags.from_bits flags = Some flags ->
  represents (disk s) fs da f -> a_open (inode_max fs) (as_str bytes) flags f = Some (Some i, f') ->
  let id := fresh (dom (objects s)) in
  let o := OSInode_new (OpenFlags.read_write flags).1 (OpenFlags.read_write flags).2 (handle fs i) in
  exists d, sys_open fs fuel ptr flags s = Ret (Z.of_nat (first_fd (fd_table b)))
      (set_kern (with_table (kern s) p b (install (FileObject id) (fd_table b))) (set_objects (<[id := ObjInode o]> (objects s)) (set_disk d s))) /\
    represents d fs da f'.
Proof.
  intros Hr Hu Hrg Hs Hf Hl Hfl Hrep Ho. destruct (open_file_run fs da (as_str bytes) flags s f _ f' Hrep Ho) as (d & E & Hd).
  exists d. split; [|exact Hd]. unfold opened_as in E. destruct (OpenFlags.read_write flags) as [rd wr]. cbn [fst snd].
  unfold sys_open. rewrite (on_kern_same _ _ s _ (current_unwrap_runs _ p b Hr)), (on_kern_same _ _ s _ (current_token_runs _ p b Hr)).
  rewrite (on_kmem_same _ _ s _ (user_str_run _ _ ma ptr bytes fuel Hu Hrg Hs Hf)). rewrite Hfl, bind_unwrap.
  rewrite (bind_Ret _ _ _ _ _ E). set (s1 := set_objects _ _). set (id := fresh _).
  rewrite (on_kern_bind _ _ s1 _ _ (install_fd_runs (kern s1) p b (FileObject id) Hr)). unfold ret. by rewrite as_isize_fd.
Qed.

Lemma file_modes s id o : objects s !! id = Some (ObjInode o) ->
  get_object id s = Ret (ObjInode o) s /\ File_readable (FileObject id) s = Ret (os_readable o) s /\
  File_writable (FileObject id) s = Ret (os_writable o) s.
Proof. intros Hid. unfold File_readable, File_writable, bind, get_object. by rewrite Hid. Qed.

Lemma sys_write_runs fs da s p b ma (fd : nat) id o i buf len f n f' :
  runs (kern s) p b -> user_ok (kmem (kern s)) (memory_set (space b)) ma -> user_range (memory_set (space b)) buf len -> 0 < len ->
  table_at (fd_table b) fd = Some (FileObject id) -> objects s !! id = Some (ObjInode o) -> os_writable o = true -> os_inode o = handle fs i ->
  represents (disk s) fs da f -> a_write i (os_offset o) (user_bytes (kmem (kern s)) ma buf len) f = Some (n, f') ->
  exists d, sys_write fs (Z.of_nat fd) buf len s = Ret (IoRet n) (moved id o n d s) /\ represents d fs da f'.
Proof.
  intros Hr Hu Hrg Hlen Hfd Hid Hw Hi Hrep Ha. destruct (user_buffer_run _ _ ma buf len Hu Hrg) as (v & Ev & Hv & Hpos).
  assert (Hne : v <> []).
  { intros ->. cbn in Hv. apply (f_equal length) in Hv. rewrite length_range_pas in Hv. cbn in Hv. lia. }
  assert (Hn : n = len). { destruct (a_write_range _ _ _ _ _ _ Ha) as (_ & -> & _). rewrite length_user_bytes. lia. }
  pose proof (ur_bounds _ _ _ Hrg) as Hb.
  destruct (OSInode_write_run fs da i id v o 0 s f n f') as (d & Ed & Hd); [exact Hne|exact Hpos|exact Hrep|exact Hi| |lia|lia|].
  { rewrite Hv. exact Ha. }
  exists d. split; [|exact Hd]. unfold sys_write.
  rewrite (on_kern_same _ _ s _ (current_token_runs _ p b Hr)), (on_kern_same _ _ s _ (current_unwrap_runs _ p b Hr)).
  rewrite (on_kern_same _ _ s _ (deref_run _ p b (rn_block _ _ _ Hr))), fd_lookup_at, Hfd.
  destruct (file_modes s id o Hid) as (Ho & _ & Ew). rewrite (bind_Ret _ _ _ _ _ Ew), Hw. cbn [negb].
  rewrite (on_kmem_same _ _ s _ Ev). unfold File_write. rewrite (bind_Ret _ _ _ _ _ Ho). unfold OSInode_write. cbn [buffers].
  by rewrite (bind_Ret _ _ _ _ _ Ed).
Qed.

Lemma sys_read_runs fs da s p b ma (fd : nat) id o i buf len f t c :
  let g := got c (Z.to_nat (os_offset o)) (Z.to_nat len) in let n := Z.of_nat (length g) in
  runs (kern s) p b -> user_ok (kmem (kern s)) (memory_set (space b)) ma -> user_range (memory_set (space b)) buf len ->
  table_at (fd_table b) fd = Some (FileObject id) -> objects s !! id = Some (ObjInode o) -> os_readable o = true -> os_inode o = handle fs i ->
  0 <= os_offset o < 2 ^ 63 -> represents (disk s) fs da f -> a_files f !! i = Some (t, c) -> is_bytes c ->
  exists d m, sys_read (Z.of_nat fd) buf len s = Ret (IoRet n) (moved id o n d (set_kern (set_kmem m (kern s)) s)) /\
    represents d fs da f /\
    stored (kmem (kern s)) (range_pas ma buf len) (g ++ drop (length g) (user_bytes (kmem (kern s)) ma buf len)) m.
Proof.
  cbv zeta. intros Hr Hu Hrg Hfd Hid Hrd Hi Ho Hrep Hc Hcb. destruct (user_buffer_run _ _ ma buf len Hu Hrg) as (v & Ev & Hv & Hpos).
  pose proof (ur_bounds _ _ _ Hrg) as Hb. pose proof (OSInode_read_run fs da i t c id v o 0 s f) as Hread. cbv zeta in Hread. rewrite Hv in Hread.
  fold (user_bytes (kmem (kern s)) ma buf len) in Hread. rewrite length_user_bytes in Hread.
  destruct Hread as (d & m & Ed & Hd & Hst); [exact Hpos|exact Hrep|exact Hi|exact Hc|exact Hcb|by apply (range_full _ (memory_set (space b)))|
    by apply (range_NoDup (kmem (kern s)) (memory_set (space b)))|lia|lia|lia|lia|exact Hid|].
  exists d, m. split; [|split; [exact Hd|exact Hst]]. unfold sys_read.
  rewrite (on_kern_same _ _ s _ (current_token_runs _ p b Hr)), (on_kern_same _ _ s _ (current_unwrap_runs _ p b Hr)).
  rewrite (on_kern_same _ _ s _ (deref_run _ p b (rn_block _ _ _ Hr))), fd_lookup_at, Hfd.
  destruct (file_modes s id o Hid) as (Hobj & Er & _). rewrite (bind_Ret _ _ _ _ _ Er), Hrd. cbn [negb].
  rewrite (on_kmem_same _ _ s _ Ev). unfold File_read. rewrite (bind_Ret _ _ _ _ _ Hobj). unfold OSInode_read. cbn [buffers].
  by rewrite (bind_Ret _ _ _ _ _ Ed), Z.add_0_l.
Qed.
End calls.

(** ** Path strings *)

Lemma utf8_as_str l n : is_bytes l -> (length (as_str l) <= n)%nat -> utf8_valid n (as_str l) = true.
Proof.
  revert n. induction l as [|c l IH]; intros n Hb Hn; [by destruct n|]. apply Forall_cons in Hb as [[Hc1 Hc2] Hb].
  unfold as_str, push_char in *. cbn [mbind list_bind] in *. fold (as_str l) in *. destruct (Z.ltb_spec c 0x80) as [Hc|Hc]; cbn [app length] in *.
  - destruct n as [|n]; [lia|]. cbn [utf8_valid]. unfold between. rewrite (proj2 (Z.leb_le 0 c)), (proj2 (Z.leb_le c 0x7f)) by lia. apply IH; [exact Hb|lia].
  - destruct n as [|n]; [lia|]. cbn [utf8_valid]. assert (Hd : 2 <= c / 64 <= 3) by (Z.to_euclidean_division_equations; lia).
    pose proof (Z.mod_pos_bound c 64 ltac:(done)). unfold between.
    rewrite (proj2 (Z.leb_gt (0xc0 + c / 64) 0x7f)), andb_false_r by lia. rewrite (proj2 (Z.leb_le 0xc2 _)), (proj2 (Z.leb_le (0xc0 + c / 64) 0xdf)) by lia.
    cbn [andb]. rewrite (proj2 (Z.leb_le 0x80 _)), (proj2 (Z.leb_le (0x80 + c mod 64) 0xbf)) by lia. cbn [andb]. apply IH; [exact Hb|lia].
Qed.

Lemma elem_of_as_str x l : is_bytes l -> x ∈ as_str l -> x ∈ l \/ 0x80 <= x < 256.
Proof.
  intros Hb. unfold as_str. rewrite list_elem_of_bind. intros (c & Hx & Hc). rewrite Forall_forall in Hb. destruct (Hb c Hc) as [Hc1 Hc2].
  unfold push_char in Hx. destruct (Z.ltb_spec c 0x80) as [H0|H0].
  - apply list_elem_of_singleton in Hx as ->. by left.
  - right. pose proof (Z.mod_pos_bound c 64 ltac:(done)). assert (2 <= c / 64 <= 3) by (Z.to_euclidean_division_equations; lia).
    repeat (apply elem_of_cons in Hx as [->|Hx]; [lia|]). by apply elem_of_nil in Hx.
Qed.

(** What [translated_str] reads is a name the file system accepts. *)
Lemma as_str_good l : is_bytes l -> 0 ∉ l -> good_name (as_str l).
Proof.
  intros Hb Hz. split; [|split].
  - unfold from_utf8. by rewrite utf8_as_str.
  - intros [?|?]%elem_of_as_str; [done|lia|done].
  - apply Forall_forall. intros x [Hx|Hx]%elem_of_as_str; [|unfold is_byte; lia|done]. rewrite Forall_forall in Hb. by apply Hb.
Qed.

Lemma as_str_simple l : is_bytes l -> l <> [] -> 47 ∉ l -> as_str l <> [] /\ 47 ∉ as_str l.
Proof.
  intros Hb Hne Hs. split; [|intros [?|?]%elem_of_as_str; [done|lia|done]]. destruct l as [|c l]; [done|].
  unfold as_str, push_char. cbn [mbind list_bind]. by destruct (c <? 0x80).
Qed.

Lemma user_str_bytes {T} (m : mem T) a ptr l : user_str m a ptr l -> is_bytes l.
Proof. intros [E _]. pose proof (user_bytes_ok m a ptr (Z.of_nat (length l) + 1)) as Hb. rewrite E in Hb. by apply Forall_app in Hb as [Hb _]. Qed.

(** ** From memory to a file and back *)

Section roundtrip.
Context {T St C : Type} `{FAL : FrameAllocatorLaws T} `{SL : BlockStoreLaws St} `{Firmware C}.
Implicit Types (s : system T St C) (fs : BlockManager).

(** C15. A process that opens a new file with CREATE and WRONLY, writes a user buffer to it, closes
    the descriptor, opens the file again for reading and reads into another buffer finds in that
    buffer the bytes of the first: each call returns the number a caller expects, both descriptors
    are the same, and the disk at the end represents a file system in which the name leads to a file
    of exactly those bytes. *)
Theorem file_roundtrip fs da fuel s p b ma path name buf buf2 len wflags i f f1 f2 :
  runs (kern s) p b -> user_ok (kmem (kern s)) (memory_set (space b)) ma -> Z.of_nat (length (fd_table b)) < 2 ^ 61 ->
  user_range (memory_set (space b)) path (Z.of_nat (length name) + 1) -> user_str (kmem (kern s)) ma path name -> (length name < fuel)%nat ->
  name <> [] -> 47 ∉ name -> (length (as_str name) <= 27)%nat ->
  user_range (memory_set (space b)) buf len -> user_range (memory_set (space b)) buf2 len -> 0 < len ->
  OpenFlags.from_bits wflags = Some wflags -> OpenFlags.contains wflags OpenFlags.CREATE = true -> (OpenFlags.read_write wflags).2 = true ->
  represents (disk s) fs da f -> a_open (inode_max fs) (as_str name) wflags f = Some (Some i, f1) ->
  a_write i 0 (user_bytes (kmem (kern s)) ma buf len) f1 = Some (len, f2) ->
  let fd := Z.of_nat (first_fd (fd_table b)) in
  exists s1 s2 k3 s4 s5,
    sys_open fs fuel path wflags s = Ret fd s1 /\ sys_write fs fd buf len s1 = Ret (IoRet len) s2 /\ sys_close fd (kern s2) = Ret 0 k3 /\
    sys_open fs fuel path OpenFlags.RDONLY (set_kern k3 s2) = Ret fd s4 /\ sys_read fd buf2 len s4 = Ret (IoRet len) s5 /\
    user_bytes (kmem (kern s5)) ma buf2 len = user_bytes (kmem (kern s)) ma buf len /\
    represents (disk s5) fs da f2 /\ a_walk (path_names (as_str name)) 0 f2 = Some (Some i) /\
    a_files f2 !! i = Some (File, user_bytes (kmem (kern s)) ma buf len).
Proof.
  intros Hr Hu Hl Hpr Hps Hfuel Hne Hsep Hlen Hb1 Hb2 H0len Hwf Hcr Hwr Hrep Ho Ha fd.
  pose proof (user_str_bytes _ _ _ _ Hps) as Hnb. pose proof (as_str_good name Hnb (proj2 Hps)) as Hgood.
  destruct (as_str_simple name Hnb Hne Hsep) as [Hne' Hsep'].
  destruct (a_open_create _ _ _ _ _ _ (inode_max_small _ _ _ _ Hrep) Hgood Hlen Hne' Hsep' Hcr Ho) as [Hfile Hwalk].
  assert (Hl' : Z.of_nat (length (fd_table b)) < 2 ^ 62) by lia.
  set (data := user_bytes (kmem (kern s)) ma buf len) in *. set (table := fd_table b) in *. set (id := fresh (dom (objects s))).
  (* open *)
  destruct (sys_open_runs fs da fuel s p b ma path name wflags i f f1 Hr Hu Hpr Hps Hfuel Hl' Hwf Hrep Ho) as (d1 & E1 & Hrep1). fold table id in E1.
  set (o1 := OSInode_new _ _ _) in E1. set (s1 := set_kern _ _) in E1. set (b1 := set_fd_table (install (FileObject id) table) b).
  assert (Hr1 : runs (kern s1) p b1) by exact (with_table_runs (kern s) p b _ Hr).
  assert (Hfd1 : table_at (fd_table b1) (first_fd table) = Some (FileObject id)) by (cbn; rewrite install_at; by rewrite decide_True).
  assert (Hid1 : objects s1 !! id = Some (ObjInode o1)) by (cbn; apply lookup_insert_eq).
  (* write *)
  destruct (sys_write_runs fs da s1 p b1 ma (first_fd table) id o1 i buf len f1 len f2 Hr1 Hu Hb1 H0len Hfd1 Hid1 Hwr eq_refl Hrep1 Ha) as (d2 & E2 & Hrep2).
  set (s2 := moved _ _ _ _ _) in E2. assert (Hr2 : runs (kern s2) p b1) by exact Hr1.
  (* close *)
  pose proof (sys_close_runs (kern s2) p b1 (first_fd table) Hr2) as E3. rewrite Hfd1 in E3. set (k3 := with_table _ _ _ _) in E3.
  set (table3 := <[first_fd table := None]> (fd_table b1)) in *. set (b3 := set_fd_table table3 b1).
  assert (Hr3 : runs k3 p b3) by exact (with_table_runs (kern s2) p b1 _ Hr2).
  assert (Hl3 : Z.of_nat (length (fd_table b3)) < 2 ^ 62).
  { cbn [fd_table set_fd_table b3]. unfold table3. rewrite length_insert. change (fd_table b1) with (install (FileObject id) table).
    clear - Hl. pose proof (length_install (FileObject id) table). unfold table in *. lia. }
  assert (Hfd3 : first_fd (fd_table b3) = first_fd table).
  { apply first_fd_ext. intros j. cbn [fd_table set_fd_table b3]. unfold table3. rewrite close_at. cbn [fd_table set_fd_table b1]. rewrite install_at.
    destruct (decide (j = first_fd table)) as [->|]; [|done]. symmetry. apply first_fd_free. }
  (* open again *)
  destruct (a_write_files _ _ _ _ _ _ Ha) as (c & Hc & Hf2 & Hdirs). rewrite Hfile in Hc. injection Hc as <-.
  assert (Hcdata : write_bytes [] (Z.to_nat 0) data = data).
  { unfold write_bytes. cbn [length app]. rewrite Nat.sub_0_r, Nat.add_0_l. unfold splice. cbn [take app]. rewrite drop_ge, app_nil_r; [done|]. rewrite length_zeros. lia. }
  rewrite Hcdata in Hf2. set (s3 := set_kern k3 s2).
  assert (Ho2 : a_open (inode_max fs) (as_str name) OpenFlags.RDONLY f2 = Some (Some i, f2)).
  { unfold a_open. rewrite (a_walk_same f1 f2 _ _ _ Hdirs Hwalk). reflexivity. }
  destruct (sys_open_runs fs da fuel s3 p b3 ma path name OpenFlags.RDONLY i f2 f2 Hr3 Hu Hpr Hps Hfuel Hl3 eq_refl Hrep2 Ho2) as (d4 & E4 & Hrep4).
  rewrite Hfd3 in E4. set (id4 := fresh (dom (objects s3))) in E4. set (o4 := OSInode_new _ _ _) in E4. set (s4 := set_kern _ _) in E4.
  set (b4 := set_fd_table (install (FileObject id4) (fd_table b3)) b3).
  assert (Hr4 : runs (kern s4) p b4) by exact (with_table_runs (kern s3) p b3 _ Hr3).
  assert (Hfd4 : table_at (fd_table b4) (first_fd table) = Some (FileObject id4)) 
    by (change (fd_table b4) with (install (FileObject id4) (fd_table b3)); rewrite install_at, Hfd3; by rewrite decide_True).
  assert (Hid4 : objects s4 !! id4 = Some (ObjInode o4)) by (cbn; apply lookup_insert_eq).
  (* read *)
  assert (Hfile4 : a_files f2 !! i = Some (File, data)) by (rewrite Hf2; apply lookup_insert_eq).
  destruct (sys_read_runs fs da s4 p b4 ma (first_fd table) id4 o4 i buf2 len f2 File data Hr4 Hu Hb2 Hfd4 Hid4 eq_refl eq_refl ltac:(cbn; lia)
    Hrep4 Hfile4 (user_bytes_ok _ _ _ _)) as (d5 & m5 & E5 & Hrep5 & Hst).
  assert (Ldata : length data = Z.to_nat len) by apply length_user_bytes.
  assert (Hg : got data (Z.to_nat (os_offset o4)) (Z.to_nat len) = data) by (unfold got; cbn [os_offset o4]; rewrite drop_0; apply take_ge; lia).
  rewrite Hg in E5, Hst. rewrite Ldata in E5, Hst. rewrite Z2Nat.id in E5 by lia. rewrite drop_ge, app_nil_r in Hst by (rewrite length_user_bytes; lia).
  exists s1, s2, k3, s4. eexists. split; [exact E1|]. split; [exact E2|]. split; [exact E3|]. split; [exact E4|]. split; [exact E5|].
  split; [exact (st_bytes _ _ _ _ Hst)|]. split; [exact Hrep5|]. split; [exact (a_walk_same f1 f2 _ _ _ Hdirs Hwalk)|exact Hfile4].
Qed.
End roundtrip.

(** ** A process with three pages of memory *)

Lemma demo_user_space : exists (m : mem StackFrameAllocator) ms ma,
  user_ok (FAL := StackFrameAllocator_laws 100) m ms ma /\ user_range ms 0x10000 0x3000.
Proof.
  pose (L := StackFrameAllocator_laws 100).
  destruct (new_bare_run (FAL := L) demo_mem (demo_ok demo_mem eq_refl)) as (ms & m & E & Hn & Hms & _ & Hav); [done|].
  pose proof (push_framed (FAL := L) m ms ∅ (new_area 0x10000 0x13000 MapPermission.R) Hms eq_refl
    ltac:(vm_compute; split; congruence) ltac:(vm_compute; split; congruence)
    ltac:(vm_compute; congruence) eq_refl) as H1.
  assert (Hav0 : fa_avail (falloc demo_mem) = 100%nat) by done. rewrite Hav0 in Hav.
  destruct (push ms _ None m) as [ms' m'|q].
  - destruct H1 as (A & a' & Hf & Har & Hms' & _ & _ & _ & _). rewrite Hn in Har. cbn [app] in Har. exists m', ms', a'. split.
    + split; [exact Hms'|]. rewrite Har, Forall_singleton. apply Hf.
    + split; [lia|]. intros va Hva. destruct (fr_in _ _ _ _ _ Hf (va / PAGE_SIZE)) as (_ & f & Hfr & _).
      { change (16 <= va / PAGE_SIZE < 19). unfold PAGE_SIZE. Z.to_euclidean_division_equations. lia. }
      exists f, 0%nat, A. by rewrite Har.
  - exfalso. destruct q; try done.
    + change (Z.to_nat _) with 3%nat in H1. cbn in *. lia.
    + destruct H1 as (vpn & _ & Hne). by rewrite lookup_empty in Hne.
Qed.

(** The path [x] and five bytes on both sides of a page boundary. *)
Lemma demo_user_data : exists (m : mem StackFrameAllocator) ms ma,
  user_ok (FAL := StackFrameAllocator_laws 100) m ms ma /\ user_range ms 0x10000 0x3000 /\
  user_str m ma 0x10000 [120] /\ user_bytes m ma 0x10ffe 5 = [1; 2; 3; 4; 5].
Proof.
  pose (L := StackFrameAllocator_laws 100). destruct demo_user_space as (m & ms & ma & Hu & Hr).
  assert (Hb : forall l, forallb (fun b => (0 <=? b) && (b <? 256)) l = true -> is_bytes l) by (intros l; apply forallb_bytes).
  assert (R1 : user_range ms 0x10000 2) by (apply (user_range_sub ms 0x10000 0x3000); [exact Hr|lia..]).
  assert (R2 : user_range ms 0x10ffe 5) by (apply (user_range_sub ms 0x10000 0x3000); [exact Hr|lia..]).
  destruct (store_user_range m ms ma 0x10000 2 [120; 0] Hu R1 (Hb [120; 0] eq_refl) eq_refl) as [S1 B1]. set (m1 := store_all _ _ m) in *.
  pose proof (user_step_ok ms m m1 ma S1 Hu) as Hu1.
  destruct (store_user_range m1 ms ma 0x10ffe 5 [1; 2; 3; 4; 5] Hu1 R2 (Hb [1; 2; 3; 4; 5] eq_refl) eq_refl) as [S2 B2].
  exists (store_all (range_pas ma 0x10ffe 5) [1; 2; 3; 4; 5] m1), ms, ma. split; [exact (user_step_ok ms m1 _ ma S2 Hu1)|]. split; [exact Hr|].
  split; [|exact B2]. split; [|intros Hin; repeat (apply elem_of_cons in Hin as [?|Hin]; [discriminate|]); by apply elem_of_nil in Hin].
  rewrite (user_bytes_other m1 ms ma 0x10ffe 5); [exact B1|exact Hu1|exact R2|exact R1|exact (Hb [1; 2; 3; 4; 5] eq_refl)|cbn; lia].
Qed.

Definition demo_process (ms : MemorySet) : ProcessControlBlock := set_space {| memory_set := ms; trap_cx_ppn := 150; base_size := 0 |} demo_pcb.
Definition demo_machine (m : mem StackFrameAllocator) (ms : MemorySet) (d : store BlockFile) : system StackFrameAllocator (store BlockFile) (list Z * list Z) :=
  set_kern (set_kmem m (set_heap {[0%nat := demo_process ms]} demo_kernel)) (demo_system d).

Lemma file_roundtrip_witness : exists fs (s s1 s2 : system StackFrameAllocator (store BlockFile) (list Z * list Z)) k3 s4 s5 ma,
  sys_open fs 10 0x10000 0x201 s = Ret 0 s1 /\ sys_write fs 0 0x10ffe 5 s1 = Ret (IoRet 5) s2 /\ sys_close 0 (kern s2) = Ret 0 k3 /\
  sys_open fs 10 0x10000 0 (set_kern k3 s2) = Ret 0 s4 /\ sys_read 0 0x12000 5 s4 = Ret (IoRet 5) s5 /\
  user_bytes (kmem (kern s5)) ma 0x12000 5 = [1; 2; 3; 4; 5].
Proof.
  destruct demo_user_data as (m & ms & ma & Hu & Hr & Hs & Hd). destruct demo_disk as (fs & d & _ & Hmax & Hrep).
  set (s := demo_machine m ms d).
  assert (Ho : a_open (inode_max fs) (as_str [120]) 0x201 (a_format 1100 1) = Some (Some 1, open_after 4096 [120] 0x201 (a_format 1100 1))).
  { rewrite Hmax. apply open_after_run. vm_compute. reflexivity. }
  destruct (a_write 1 0 [1; 2; 3; 4; 5] (open_after 4096 [120] 0x201 (a_format 1100 1))) as [[n f2]|] eqn:Ha; [|vm_compute in Ha; discriminate Ha].
  assert (n = 5) as -> by (destruct (a_write_range _ _ _ _ _ _ Ha) as (_ & -> & _); reflexivity).
  assert (Hrg : forall p n, 0x10000 <= p -> 0 <= n -> p + n <= 0x13000 -> user_range ms p n)
    by (intros p n Hp Hn He; apply (user_range_sub ms 0x10000 0x3000); [exact Hr|lia..]).
  destruct (file_roundtrip (FAL := StackFrameAllocator_laws 100) fs (data_count 1100 1) 10 s 0%nat (demo_process ms) ma 0x10000 [120] 0x10ffe 0x12000 5 0x201 1
    (a_format 1100 1) (open_after 4096 [120] 0x201 (a_format 1100 1)) f2) as (s1 & s2 & k3 & s4 & s5 & E1 & E2 & E3 & E4 & E5 & E6 & _).
  - split; reflexivity.
  - exact Hu.
  - cbn. lia.
  - apply Hrg; cbn; lia.
  - exact Hs.
  - cbn. lia.
  - discriminate.
  - intros Hin. apply list_elem_of_singleton in Hin. discriminate Hin.
  - cbn. lia.
  - apply Hrg; lia.
  - apply Hrg; lia.
  - lia.
  - reflexivity.
  - reflexivity.
  - reflexivity.
  - exact Hrep.
  - exact Ho.
  - change (user_bytes (kmem (kern s)) ma 0x10ffe 5) with (user_bytes m ma 0x10ffe 5). rewrite Hd. exact Ha.
  - exists fs, s, s1, s2, k3, s4, s5, ma. change (user_bytes (kmem (kern s)) ma 0x10ffe 5) with (user_bytes m ma 0x10ffe 5) in E6. rewrite Hd in E6.
    split_and!; assumption.
Defined.
