(* ===== verification/ExecCall.v ===== *)
(** From a path to a running program: [read_all] of [os/src/fs/inode.rs], [sys_exec] of
    [os/src/syscall/process.rs], and the first process ([os/src/process/mod.rs]). *)
From S2P Require Import Prelude Address FrameAllocator PageTable UserBytes Pipe Pid MemorySet UserSpace UserMem ElfLoad.
From S2P Require Import Process Lifecycle Exec Signal ExecSpec ProcessTree.
From S2P Require Import BlockCache DiskWords Bitmap Layout Mfs Vfs FsInv FsBlocks FsFiles FsSpec FsDirs Files FileCalls FileSpec OpenSpec FileRound Syscalls.

Section read_all.
Context {St : Type} `{SL : BlockStoreLaws St}.

(** The file from the offset on, 512 bytes a turn. *)
Lemma read_all_loop_run fs da i t c f fuel : forall o buffer v d,
  represents d fs da f -> os_inode o = handle fs i -> a_files f !! i = Some (t, c) -> is_bytes c -> Z.of_nat (length c) < 2 ^ 62 ->
  0 <= os_offset o < 2 ^ 62 -> length buffer = 512%nat ->
  (length c - Z.to_nat (os_offset o) <= 512 * (fuel - 1))%nat -> (0 < fuel)%nat ->
  exists d' o', read_all_loop fuel o buffer v d = Ret (v ++ drop (Z.to_nat (os_offset o)) c, o') d' /\ represents d' fs da f /\ os_inode o' = os_inode o.
Proof.
  induction fuel as [|fuel IH]; intros o buffer v d Hrep Hi Hc Hb Hlen Ho Hbuf Hf Hf0; [lia|]. cbn [read_all_loop]. rewrite Hi.
  pose proof (a_read_got i (os_offset o) buffer f t c Hc ltac:(lia) ltac:(rewrite Hbuf; lia)) as Hr. cbv zeta in Hr.
  set (off := Z.to_nat (os_offset o)) in *. set (g := got c off (length buffer)) in *.
  destruct (read_refines _ _ _ _ _ _ _ _ _ Hrep Hr) as (d1 & E1 & Hrep1). rewrite (bind_Ret _ _ _ _ _ E1). cbn beta iota.
  assert (Hg : g = take 512 (drop off c)) by (unfold g, got; by rewrite Hbuf).
  destruct (Z.eqb_spec (Z.of_nat (length g)) 0) as [E0|E0].
  - exists d1, o. split; [|by split]. unfold ret. do 2 f_equal. assert (length g = 0)%nat as Hz by lia. rewrite Hg, length_take, length_drop in Hz.
    rewrite drop_ge by lia. by rewrite app_nil_r.
  - assert (Hgl : (length g <= 512)%nat) by (rewrite Hg, length_take; lia).
    set (o1 := advance (Z.of_nat (length g)) o). assert (Eo : os_offset o1 = os_offset o + Z.of_nat (length g)) by (unfold o1, advance; cbn; apply u64_small; lia).
    assert (Eto : Z.to_nat (os_offset o1) = (off + length g)%nat) by (rewrite Eo; unfold off; lia).
    assert (Hd : length g = Nat.min 512 (length c - off)) by (rewrite Hg, length_take, length_drop; lia).
    destruct (IH o1 (g ++ drop (length g) buffer) (v ++ g) d1 Hrep1 Hi Hc Hb Hlen) as (d2 & o2 & E2 & Hrep2 & Hi2).
    + assert (off + length g <= length c)%nat by lia. assert (Z.of_nat off = os_offset o) by (unfold off; lia). rewrite Eo. lia.
    + rewrite length_app, length_drop. lia.
    + rewrite Eto. lia.
    + lia.
    + exists d2, o2. split; [|split; [exact Hrep2|by rewrite Hi2]]. rewrite Nat2Z.id, take_app_length. rewrite E2, Eto, <- app_assoc.
      assert (g ++ drop (off + length g) c = drop off c) as ->; [|done].
      rewrite <- drop_drop, Hg. destruct (decide (512 <= length c - off)%nat) as [Hge|Hlt].
      * rewrite length_take, length_drop, Nat.min_l by lia. apply take_drop.
      * rewrite take_ge by (rewrite length_drop; lia). rewrite (drop_ge (drop off c)) by done. apply app_nil_r.
Qed.
Lemma read_all_run fs da i t c f fuel o d :
  represents d fs da f -> os_inode o = handle fs i -> a_files f !! i = Some (t, c) -> is_bytes c -> Z.of_nat (length c) < 2 ^ 62 ->
  os_offset o = 0 -> (length c <= 512 * (fuel - 1))%nat -> (0 < fuel)%nat ->
  exists d' o', read_all fuel o d = Ret (c, o') d' /\ represents d' fs da f /\ os_inode o' = os_inode o.
Proof.
  intros Hrep Hi Hc Hb Hl Ho Hf Hf0. destruct (read_all_loop_run fs da i t c f fuel o (replicate 512 0) [] d) as (d' & o' & E & Hd & Hi'); try done.
  - rewrite Ho. lia.
  - rewrite Ho. cbn. lia.
  - exists d', o'. rewrite Ho in E. cbn [Z.to_nat drop app] in E. by split_and!.
Qed.
End read_all.

(** ** The arguments of [sys_exec] *)

Section exec_args.
Context {T : Type} `{FAL : FrameAllocatorLaws T}.
Implicit Types (m : mem T) (ms : MemorySet) (ma : gmap Z Z).

(** At [args] an array of pointers to strings, with a null pointer at its end. *)
Record argv_at m ms ma (str_fuel : nat) (args : Z) (ptrs : list Z) (strs : list (list Z)) : Prop := {
  aa_range : user_range ms args ((Z.of_nat (length ptrs) + 1) * 8);
  aa_aligned : args mod 8 = 0;
  aa_words : user_bytes m ma args ((Z.of_nat (length ptrs) + 1) * 8) = (ptrs ++ [0]) ≫= le_bytes 8;
  aa_strs : Forall2 (fun p str => 0 < p /\ user_range ms p (Z.of_nat (length str) + 1) /\ user_str m ma p str /\ (length str < str_fuel)%nat) ptrs strs;
}.

Lemma load_word m ms ma ptr len va w : user_ok m ms ma -> user_range ms ptr len -> ptr <= va -> va + 8 <= ptr + len -> va mod 8 = 0 -> 0 <= w < 2 ^ 64 ->
  user_bytes m ma va 8 = le_bytes 8 w ->
  translated_ref (MemorySet_token ms) va m = Ret (pa_of ma va) m /\ of_le (load_phys 8 (pa_of ma va) m) = w.
Proof.
  intros Hu Hr H1 H2 Hal Hw Hb. split; [exact (refmut_run m ms ma ptr len va Hu Hr ltac:(lia))|].
  rewrite load_phys_fmap. change (Z.of_nat 8) with 8. rewrite (word_pas ma va Hal). fold (user_bytes m ma va 8). rewrite Hb. by apply of_le_le_bytes.
Qed.

Lemma exec_args_run m ms ma str_fuel : user_ok m ms ma -> forall ptrs strs fuel args acc,
  argv_at m ms ma str_fuel args ptrs strs -> (length ptrs < fuel)%nat ->
  exec_args str_fuel fuel (MemorySet_token ms) args acc m = Ret (acc ++ (as_str <$> strs)) m.
Proof.
  intros Hu. induction ptrs as [|p ptrs IH]; intros strs fuel args acc [Hr Hal Hw Hs] Hf; (destruct fuel as [|fuel]; [lia|]); cbn [exec_args].
  - inversion Hs; subst. cbn [length app mbind list_bind] in *. rewrite app_nil_r in Hw.
    destruct (load_word m ms ma args _ args 0 Hu Hr ltac:(lia) ltac:(lia) Hal ltac:(lia) Hw) as [E1 E2].
    rewrite (bind_Ret _ _ _ _ _ E1), bind_get, E2. cbn. by rewrite app_nil_r.
  - apply Forall2_cons_inv_l in Hs as (str & strs' & (Hp & Hpr & Hps & Hpf) & Hs & ->). pose proof (ur_bounds _ _ _ Hr) as Hb.
    pose proof (ur_bounds _ _ _ Hpr) as Hpb. cbn [length] in Hw, Hr, Hb, Hf.
    replace ((Z.of_nat (S (length ptrs)) + 1) * 8) with (8 + (Z.of_nat (length ptrs) + 1) * 8) in * by lia.
    rewrite user_bytes_app in Hw by lia. cbn [app mbind list_bind] in Hw.
    apply app_inj_1 in Hw as [Hw1 Hw2]; [|by rewrite length_user_bytes, length_le_bytes].
    destruct (load_word m ms ma args _ args p Hu Hr ltac:(lia) ltac:(lia) Hal ltac:(lia) Hw1) as [E1 E2].
    rewrite (bind_Ret _ _ _ _ _ E1), bind_get, E2. rewrite (proj2 (Z.eqb_neq p 0)) by lia.
    rewrite (bind_Ret _ _ _ _ _ (user_str_run m ms ma p str str_fuel Hu Hpr Hps Hpf)). rewrite u64_small by lia.
    rewrite (IH strs' fuel (args + 8)); [|split; [by apply (user_range_sub _ args _ _ _ Hr); lia|Z.to_euclidean_division_equations; lia|exact Hw2|exact Hs]|lia].
    cbn [fmap list_fmap]. by rewrite <- app_assoc.
Qed.
End exec_args.

(** ** [sys_exec] *)

Lemma as_str_bytes l : is_bytes l -> 0 ∉ l -> is_bytes (as_str l).
Proof. intros Hb Hz. by destruct (as_str_good l Hb Hz) as (_ & _ & H). Qed.

Lemma args_size_length args : Z.of_nat (length args) * 8 <= args_size args.
Proof. unfold args_size. pose proof (args_sp_le 0 args). lia. Qed.

Section sys_exec.
Context {T St C : Type} `{FAL : FrameAllocatorLaws T} `{SL : BlockStoreLaws St} `{Firmware C} (env : boot) (elf_parse : list Z -> option ElfFile).
Implicit Types (s : system T St C) (fs : BlockManager).

Lemma argv_bytes (m : mem T) ms ma str_fuel args ptrs strs : argv_at m ms ma str_fuel args ptrs strs -> Forall is_bytes (as_str <$> strs).
Proof.
  intros [_ _ _ Hs]. apply Forall_fmap. induction Hs as [|p str ptrs strs (_ & _ & Hu & _) _ IH]; constructor; [|exact IH].
  apply as_str_bytes; [by apply (user_str_bytes m ma p)|apply Hu].
Qed.

(** The object [open_file] made for reading, and the file it reads. *)
Lemma read_program_run fs da i t c f fuel id o s :
  represents (disk s) fs da f -> os_inode o = handle fs i -> a_files f !! i = Some (t, c) -> is_bytes c -> Z.of_nat (length c) < 2 ^ 62 ->
  objects s !! id = Some (ObjInode o) -> os_offset o = 0 -> (length c <= 512 * (fuel - 1))%nat -> (0 < fuel)%nat ->
  exists d o', read_program fuel id s = Ret c (set_objects (<[id := ObjInode o']> (objects s)) (set_disk d s)) /\ represents d fs da f.
Proof.
  intros Hrep Hi Hc Hb Hl Hid Ho Hf Hf0. destruct (read_all_run fs da i t c f fuel o (disk s) Hrep Hi Hc Hb Hl Ho Hf Hf0) as (d & o' & E & Hd & _).
  exists d, o'. split; [|exact Hd]. unfold read_program. unfold bind at 1, get_object at 1. rewrite Hid.
  by rewrite (on_disk_bind _ _ s _ _ E).
Qed.

(** The space of a process replaced by another. *)
Definition with_space (k : kernel T) (p : nat) (b : ProcessControlBlock) (ms : MemorySet) (f : Z) (m : mem T) : kernel T :=
  set_kmem m (set_heap (<[p := set_space {| memory_set := ms; trap_cx_ppn := f; base_size := base_size (space b) |} b]> (heap k)) k).
(** The trap context a new program starts from. *)
Definition start_context (k : kernel T) (b : ProcessControlBlock) (elf_data : list Z) (elf : ElfFile) (args : list (list Z)) : TrapContext :=
  set_x11 (argv_base (stack_top elf_data elf) args) (set_x10 (Z.of_nat (length args))
    (app_init_context env (entry_point elf) (start_sp elf_data elf args) (MemorySet_token (kernel_space k)) (KernelStack_top (pid b)) (b_trap_handler env))).

Lemma sys_exec_run fs da s p b ma path name args ptrs strs i t c f elf str_fuel argv_fuel data_fuel :
  runs (kern s) p b -> user_ok (kmem (kern s)) (memory_set (space b)) ma ->
  user_range (memory_set (space b)) path (Z.of_nat (length name) + 1) -> user_str (kmem (kern s)) ma path name -> (length name < str_fuel)%nat ->
  argv_at (kmem (kern s)) (memory_set (space b)) ma str_fuel args ptrs strs -> (length ptrs < argv_fuel)%nat ->
  represents (disk s) fs da f -> a_walk (path_names (as_str name)) 0 f = Some (Some i) -> a_files f !! i = Some (t, c) -> is_bytes c ->
  Z.of_nat (length c) < 2 ^ 62 -> (length c <= 512 * (data_fuel - 1))%nat -> (0 < data_fuel)%nat ->
  elf_ok elf_parse c elf -> b_strampoline env mod PAGE_SIZE = 0 ->
  (3 + 3 * regions_pages (elf_regions c elf) <= fa_avail (falloc (kmem (kern s))))%nat -> args_size (as_str <$> strs) <= USER_STACK_SIZE ->
  exists ms a fr m d os,
    sys_exec env elf_parse fs str_fuel argv_fuel data_fuel path args s =
      Ret (Z.of_nat (length strs)) (set_kern (with_space (kern s) p b ms fr m) (set_objects os (set_disk d s))) /\
    represents d fs da f /\ program env m ms a c elf (as_str <$> strs) fr /\
    read_trap_cx fr m = start_context (kern s) b c elf (as_str <$> strs) /\
    frame_step (kmem (kern s)) (footprint (memory_set (space b))) m (footprint ms).
Proof.
  intros Hr Hu Hpr Hps Hpf Hav Haf Hrep Hw Hi Hb Hl Hdf Hdf0 Helf Hst Hfr Hsz.
  assert (Ho : a_open (inode_max fs) (as_str name) OpenFlags.RDONLY f = Some (Some i, f)) by (unfold a_open; by rewrite Hw).
  destruct (open_file_run fs da (as_str name) OpenFlags.RDONLY s f (Some i) f Hrep Ho) as (d1 & E1 & Hrep1).
  unfold opened_as in E1. cbn [OpenFlags.read_write OpenFlags.is_empty OpenFlags.RDONLY Z.eqb] in E1. set (id := fresh (dom (objects s))) in E1.
  set (o := OSInode_new _ _ _) in E1. set (s1 := set_objects _ (set_disk d1 s)) in E1.
  assert (Hid : objects s1 !! id = Some (ObjInode o)) by apply lookup_insert_eq.
  destruct (read_program_run fs da i t c f data_fuel id o s1 Hrep1 eq_refl Hi Hb Hl Hid eq_refl Hdf Hdf0) as (d & o' & E2 & Hd).
  pose proof (argv_bytes _ _ _ _ _ _ _ Hav) as Hargs.
  destruct (exec_run env elf_parse (kern s) p b ma c elf (as_str <$> strs) (rn_block _ _ _ Hr) (uo_ms _ _ _ Hu) Helf Hst Hfr Hargs Hsz)
    as (ms & a & fr & m & E3 & Hprog & Hcx & Hstep).
  exists ms, a, fr, m, d, (<[id := ObjInode o']> (objects s1)). split; [|by split_and!].
  unfold sys_exec. rewrite (on_kern_same _ _ s _ (current_token_runs _ p b Hr)).
  rewrite (on_kmem_same _ _ s _ (user_str_run _ _ ma path name str_fuel Hu Hpr Hps Hpf)).
  rewrite (on_kmem_same _ _ s _ (exec_args_run _ _ ma str_fuel Hu ptrs strs argv_fuel args [] Hav Haf)).
  rewrite (bind_Ret _ _ _ _ _ E1), (bind_Ret _ _ _ _ _ E2). set (s2 := set_objects _ (set_disk d s1)).
  rewrite (on_kern_same _ _ s2 _ (current_unwrap_runs (kern s) p b Hr)). cbn [app].
  rewrite (on_kern_bind _ _ s2 _ _ E3). unfold ret. pose proof (args_size_length (as_str <$> strs)) as Hn. rewrite length_fmap in *.
  unfold USER_STACK_SIZE in Hsz. rewrite as_isize_small by lia. reflexivity.
Qed.
End sys_exec.
