(* ===== verification/BootSpec.v ===== *)
(** The first process: [ProcessControlBlock::new] of [os/src/process/process.rs] and
    [add_initproc] of [os/src/process/mod.rs] bring the kernel into the state from
    which the process tree develops. *)
From stdpp Require Import pretty.
From S2P Require Import Prelude Address FrameAllocator PageTable UserBytes Pipe Pid MemorySet UserSpace UserMem ElfLoad.
From S2P Require Import Process Lifecycle Exec Signal ExecSpec ForkSpec ProcessTree.
From S2P Require Import BlockCache DiskWords Bitmap Layout Mfs Vfs FsInv FsBlocks FsFiles FsGrow FsSpec FsDirs FsCreate FsFormat Files FileCalls FileSpec OpenSpec FileRound Syscalls ExecCall.

(** The block [new] makes. *)
Definition new_block (env : boot) (n : Z) (ms : MemorySet) (ppn user_sp : Z) : ProcessControlBlock :=
  {| pid := n;
     sched := {| process_status := Ready; process_cx := goto_trap_return (b_trap_return env) (KernelStack_top n);
                 priority := 0; time_slice_used := 0; time_slice_limit := MLFQ_BASE_TIME_SLICE |};
     space := {| memory_set := ms; trap_cx_ppn := ppn; base_size := user_sp |};
     family := {| parent := None; children := []; exit_code := 0 |};
     fd_table := [Some Stdin; Some Stdout; Some Stderr];
     sigs := {| signals := 0; signal_mask := 0; handling_sig := -1; signal_actions := SignalActions_default;
                killed := false; frozen := false; trap_ctx_backup := None |} |}.

Section boot_spec.
Context {T : Type} `{FAL : FrameAllocatorLaws T} (env : boot) (elf_parse : list Z -> option ElfFile).
Implicit Types (m : mem T) (ms ks : MemorySet) (a : gmap Z Z) (k : kernel T).

(** A new program: its segments, and the trap context it starts from. *)
Record started m ms a (elf_data : list Z) (elf : ElfFile) (f : Z) (cx : TrapContext) : Prop := {
  sd_ok : user_ok m ms a;
  sd_areas : Forall2 area_of (areas ms) (elf_regions elf_data elf);
  sd_segs r va : r ∈ elf_segments elf_data elf -> in_region r (va / PAGE_SIZE) -> user_byte m a va = region_byte r va;
  sd_frame : data_frame ms TRAP_VPN f;
  sd_cx : read_trap_cx f m = cx;
  sd_tramp : a !! TRAMPOLINE_VPN = Some (trampoline_pte (b_strampoline env));
}.

Lemma loaded_started m ms a elf_data elf f cx : elf_ok elf_parse elf_data elf ->
  loaded (tr := trampoline_pte (b_strampoline env)) m ms a (elf_regions elf_data elf) ->
  data_frame ms TRAP_VPN f -> length (tx cx) = 32%nat -> started (write_trap_cx f cx m) ms a elf_data elf f cx.
Proof.
  intros Ho [Hu Har Hby _ Htp] Hf Hl. destruct (elf_segments_ok _ _ _ Ho) as [He Hsegs]. rewrite Forall_forall in Hsegs.
  split; [by apply (user_step_ok ms m); [apply (write_trap_cx_user m ms a)|]|done| |done| |exact Htp].
  - intros r va Hr Hin. specialize (Hsegs r Hr). assert (Hr' : r ∈ elf_regions elf_data elf) by (unfold elf_regions; rewrite elem_of_app; by left).
    rewrite <- (Hby r va Hr' Hin). destruct (region_frame m ms a _ r _ Hu Har Hr' Hin) as [g Hg].
    apply phys_byte_page. destruct (pa_of_data m ms a va g Hu Hg) as (_ & _ & ->). apply page_set_ne. intros ->.
    pose proof (data_frame_inj m ms a _ _ _ (uo_ms _ _ _ Hu) Hg Hf) as E. unfold in_region in Hin. unfold TRAP_VPN in E. lia.
  - apply read_write_trap_cx; [|done]. by apply (user_frame_length m ms a TRAP_VPN).
Qed.

(** What [new] needs of the kernel. *)
Record can_start k ka (n : Z) (pids' : PidAllocator) (elf_data : list Z) (elf : ElfFile) : Prop := {
  cs_elf : elf_ok elf_parse elf_data elf;
  cs_strampoline : b_strampoline env mod PAGE_SIZE = 0;
  cs_kernel : ms_ok (kmem k) (kernel_space k) ka;
  cs_pid : PidAllocator_alloc (pids k) = (n, pids');
  cs_range : 0 <= n < MAX_STACKS;
  cs_stack : ka !! stack_vpn n = None /\ ka !! (stack_vpn n + 1) = None;
  cs_frames : (9 + 3 * regions_pages (elf_regions elf_data elf) <= fa_avail (falloc (kmem k)))%nat;
}.

Lemma loaded_step tr m m' ms a rs : loaded (tr := tr) m ms a rs -> ms_ok m' ms a -> (forall y, y ∈ footprint ms -> page m' y = page m y) -> loaded (tr := tr) m' ms a rs.
Proof.
  intros [Hu Har Hby Hmap Htp] Hu' Hp. split; [by split; [|apply Hu]|done| |done|done]. intros r va Hr Hin. rewrite <- (Hby r va Hr Hin).
  destruct (region_frame m ms a _ r _ Hu Har Hr Hin) as [g Hg]. apply phys_byte_page. destruct (pa_of_data m ms a va g Hu Hg) as (_ & _ & ->).
  apply Hp, (data_frame_footprint _ _ _ Hg).
Qed.

Lemma new_run k ka n pids' elf_data elf : can_start k ka n pids' elf_data elf ->
  exists ms a f ks ka' m cx, let c := fresh (dom (heap k)) in
    ProcessControlBlock_new env elf_parse elf_data k =
      Ret c (Build_kernel (<[c := new_block env n ms f (stack_top elf_data elf)]> (heap k)) (initproc k) (manager k) (pid2pcb k) (running k) pids' ks m) /\
    started m ms a elf_data elf f cx /\ ms_ok m ks ka' /\ (forall y, y ∈ footprint ks -> y ∉ footprint ms) /\ other_stacks n ka ka' /\
    (fa_avail (falloc (kmem k)) <= 9 + 3 * regions_pages (elf_regions elf_data elf) + fa_avail (falloc m))%nat /\
    cx = app_init_context env (entry_point elf) (stack_top elf_data elf) (MemorySet_token ks) (KernelStack_top n) (b_trap_handler env).
Proof.
  intros [Ho Hst Hk Hpid Hr [Hs0 Hs1] Hav]. destruct (represents_live _ _ _ (ms_rep _ _ _ Hk)) as (Hok & _ & _).
  destruct (from_elf_run elf_parse (b_strampoline env) elf_data elf (kmem k) Ho Hst Hok ltac:(lia)) as (ms & m1 & a & E1 & Hld & S1 & Hav1).
  assert (Hcx : trap_cx_region ∈ elf_regions elf_data elf) by (unfold elf_regions; rewrite elem_of_app; right; repeat constructor).
  destruct (trap_cx_run _ m1 ms a _ Hld Hcx) as (f & Ef & Hf). change (2 ^ 27 - 2) with TRAP_VPN in Hf.
  destruct (ms_ok_step (kmem k) [] m1 _ _ ka Hk S1 ltac:(set_solver)) as (Hk1 & Hkx & _).
  destruct (KernelStack_new_run n (kernel_space k) m1 ka Hk1 Hr Hs0 Hs1 ltac:(lia)) as (ks & m2 & ka' & E2 & Hk2 & S2 & Hoth & Hav2).
  destruct (ms_ok_step m1 _ m2 _ ms a (uo_ms _ _ _ (ld_ok _ _ _ _ Hld)) S2 ltac:(intros y Hy Hy'; by apply (Hkx y))) as (Hu2 & Hux & Hup).
  pose proof (loaded_step _ m1 m2 ms a _ Hld Hu2 Hup) as Hld2.
  set (cx := app_init_context env (entry_point elf) (stack_top elf_data elf) (MemorySet_token ks) (KernelStack_top n) (b_trap_handler env)).
  pose proof (loaded_started m2 ms a elf_data elf f cx Ho Hld2 Hf eq_refl) as Hsd.
  exists ms, a, f, ks, ka', (write_trap_cx f cx m2), cx. split; [|split; [exact Hsd|split; [|split; [intros y Hy Hy'; by apply (Hux y)|split; [exact Hoth|split; [cbn; lia|done]]]]]].
  - unfold ProcessControlBlock_new. rewrite (on_mem_bind _ _ k _ _ E1). cbn beta iota. rewrite (on_mem_bind _ _ (set_kmem m1 k) _ _ Ef).
    assert (Ep : on_pids pid_alloc (set_kmem m1 k) = Ret n (set_pids pids' (set_kmem m1 k))).
    { unfold on_pids, zoom, pid_alloc. cbn [pids set_kmem]. by rewrite Hpid. }
    rewrite (bind_Ret _ _ _ _ _ Ep), bind_get. change (kernel_space (set_pids _ _)) with (kernel_space k).
    rewrite (on_mem_bind _ _ (set_pids pids' (set_kmem m1 k)) _ _ E2). reflexivity.
  - apply (user_step_frame ms m2 _ ks ka'); [apply (write_trap_cx_user m2 ms a); [apply Hld2|exact Hf|done]|exact Hk2|].
    intros y Hy Hy'. apply (Hux y); [|done]. apply elem_of_app. by right.
Qed.
End boot_spec.

(** ** [add_initproc] *)

Section boot.
Context {T St C : Type} `{FAL : FrameAllocatorLaws T} `{SL : BlockStoreLaws St} `{Firmware C} (env : boot) (elf_parse : list Z -> option ElfFile).
Implicit Types (s : system T St C) (fs : BlockManager).

(** The kernel before its first process: [lazy_static] values and an empty heap. *)
Record before_boot (k : kernel T) : Prop := {
  bb_heap : heap k = ∅;
  bb_manager : manager k = ProcessManager_new;
  bb_map : pid2pcb k = ∅;
  bb_running : running k = None;
  bb_pids : pids k = PidAllocator_new;
}.

Definition initproc_name : list Z := bytes_of "initproc".

Lemma boot_run fs da s f i t c elf ka fuel :
  before_boot (kern s) -> can_start env elf_parse (kern s) ka 0 {| p_current := 1; p_recycled := [] |} c elf ->
  represents (disk s) fs da f -> a_walk (path_names initproc_name) 0 f = Some (Some i) -> a_files f !! i = Some (t, c) ->
  is_bytes c -> Z.of_nat (length c) < 2 ^ 62 -> (length c <= 512 * (fuel - 1))%nat -> (0 < fuel)%nat ->
  exists s' b a ka' cx, add_initproc env elf_parse fs fuel s = Ret tt s' /\ boot_state (kern s') /\
    heap (kern s') !! initproc (kern s') = Some b /\ b = new_block env 0 (memory_set (space b)) (trap_cx_ppn (space b)) (stack_top c elf) /\
    started env (kmem (kern s')) (memory_set (space b)) a c elf (trap_cx_ppn (space b)) cx /\
    cx = app_init_context env (entry_point elf) (stack_top c elf) (MemorySet_token (kernel_space (kern s'))) (KernelStack_top 0) (b_trap_handler env) /\
    ms_ok (kmem (kern s')) (kernel_space (kern s')) ka' /\ represents (disk s') fs da f /\
    other_stacks 0 ka ka' /\ (forall y, y ∈ footprint (kernel_space (kern s')) -> y ∉ footprint (memory_set (space b))) /\
    (fa_avail (falloc (kmem (kern s))) <= 9 + 3 * regions_pages (elf_regions c elf) + fa_avail (falloc (kmem (kern s'))))%nat.
Proof.
  intros [Hh Hm Hp Hr Hq] Hcs Hrep Hw Hf Hb Hl Hfu Hfu0.
  assert (Ho : a_open (inode_max fs) initproc_name OpenFlags.RDONLY f = Some (Some i, f)) by (unfold a_open; by rewrite Hw).
  destruct (open_file_run fs da initproc_name OpenFlags.RDONLY s f (Some i) f Hrep Ho) as (d1 & E1 & Hrep1).
  unfold opened_as in E1. cbn [OpenFlags.read_write OpenFlags.is_empty OpenFlags.RDONLY Z.eqb] in E1. set (id := fresh (dom (objects s))) in E1.
  set (o := OSInode_new _ _ _) in E1. set (s1 := set_objects _ (set_disk d1 s)) in E1.
  assert (Hid : objects s1 !! id = Some (ObjInode o)) by apply lookup_insert_eq.
  destruct (read_program_run fs da i t c f fuel id o s1 Hrep1 eq_refl Hf Hb Hl Hid eq_refl Hfu Hfu0) as (d & o' & E2 & Hd).
  set (s2 := set_objects _ (set_disk d s1)) in E2.
  destruct (new_run env elf_parse (kern s) ka 0 _ c elf Hcs) as (ms & a & fr & ks & ka' & m & cx & E3 & Hsd & Hks & Hap & Hoth & Hav & Hcx).
  set (p := fresh (dom (heap (kern s)))) in E3. set (b := new_block env 0 ms fr (stack_top c elf)) in E3.
  set (k3 := Build_kernel _ _ _ _ _ _ _ _) in E3. set (k4 := Build_kernel (heap k3) p (manager k3) (pid2pcb k3) (running k3) (pids k3) (kernel_space k3) (kmem k3)).
  assert (Hmk : manager_ok (manager k4)) by (cbn; rewrite Hm; apply ProcessManager_new_ok).
  assert (Hbk : heap k4 !! p = Some b) by (cbn; apply lookup_insert_eq).
  destruct (add_process_run k4 p b 0 Hmk ltac:(lia) Hbk) as (j & q & -> & Eq & _ & E4). set (k5 := set_manager _ _) in E4.
  exists (set_kern k5 (set_kern k4 (set_kern k3 s2))), b, a, ka', cx. split_and!.
  - unfold add_initproc. fold initproc_name. rewrite (bind_Ret _ _ _ _ _ E1), bind_unwrap, (bind_Ret _ _ _ _ _ E2).
    rewrite (on_kern_bind _ _ s2 _ _ E3). rewrite (on_kern_bind (modify _) _ (set_kern k3 s2) tt k4 eq_refl).
    unfold on_kern, zoom, add_process. change (kern (set_kern k4 (set_kern k3 s2))) with k4. by rewrite E4.
  - cbn in Eq. rewrite Hm in Eq. injection Eq as <-. split; cbn; rewrite ?Hh, ?Hm, ?Hp, ?Hr, ?insert_empty; try done.
    exists b. split_and!; done.
  - exact Hbk.
  - done.
  - exact Hsd.
  - exact Hcx.
  - exact Hks.
  - exact Hd.
  - exact Hoth.
  - exact Hap.
  - exact Hav.
Qed.

(** On a disk that represents an abstract file system with a program named initproc,
    add_initproc makes the state from which every step relation starts: one process, in the ready
    queue, loaded with the bytes of that file and with a trap context at its entry point. *)
Theorem boot_starts fs da s f i t c elf ka fuel :
  before_boot (kern s) -> can_start env elf_parse (kern s) ka 0 {| p_current := 1; p_recycled := [] |} c elf ->
  represents (disk s) fs da f -> a_walk (path_names initproc_name) 0 f = Some (Some i) -> a_files f !! i = Some (t, c) ->
  is_bytes c -> Z.of_nat (length c) < 2 ^ 62 -> (length c <= 512 * (fuel - 1))%nat -> (0 < fuel)%nat ->
  exists s' b a cx, add_initproc env elf_parse fs fuel s = Ret tt s' /\ boot_state (kern s') /\
    heap (kern s') !! initproc (kern s') = Some b /\ b = new_block env 0 (memory_set (space b)) (trap_cx_ppn (space b)) (stack_top c elf) /\
    started env (kmem (kern s')) (memory_set (space b)) a c elf (trap_cx_ppn (space b)) cx /\
    cx = app_init_context env (entry_point elf) (stack_top c elf) (MemorySet_token (kernel_space (kern s'))) (KernelStack_top 0) (b_trap_handler env) /\
    represents (disk s') fs da f.
Proof.
  intros Hbb Hcs Hrep Hw Hf Hb Hl Hfu Hfu0. destruct (boot_run fs da s f i t c elf ka fuel Hbb Hcs Hrep Hw Hf Hb Hl Hfu Hfu0)
    as (s' & b & a & ka' & cx & E & Hbs & Hh & Hfd & Hsd & Hcx & _ & Hd & _).
  by exists s', b, a, cx.
Qed.
End boot.

(** ** A machine with a program on its disk *)

(** A disk with the program. *)
Lemma demo_program_disk : exists fs d f, represents d fs (data_count 1100 1) f /\
  a_walk (path_names initproc_name) 0 f = Some (Some 1) /\ a_files f !! 1 = Some (File, demo_elf_data) /\ a_ls 0 f = Some [initproc_name].
Proof.
  destruct demo_disk as (fs & d & _ & Hmax & Hrep). set (f1 := open_after 4096 initproc_name 0x201 (a_format 1100 1)).
  assert (Ho : a_open 4096 initproc_name 0x201 (a_format 1100 1) = Some (Some 1, f1)) by (apply open_after_run; vm_compute; reflexivity).
  assert (Hw : a_walk (path_names initproc_name) 0 f1 = Some (Some 1)) by (vm_compute; reflexivity).
  assert (Hf : a_files f1 !! 1 = Some (File, [])) by (vm_compute; reflexivity).
  assert (Hls : a_ls 0 f1 = Some [initproc_name]) by (vm_compute; reflexivity).
  rewrite <- Hmax in Ho. destruct (open_file_run fs _ initproc_name 0x201 (demo_system d) _ _ _ Hrep Ho) as (d1 & _ & Hrep1).
  destruct (a_write 1 0 demo_elf_data f1) as [[n f2]|] eqn:Ew; [|vm_compute in Ew; discriminate Ew].
  destruct (write_refines _ _ _ _ _ _ _ _ _ Hrep1 Ew) as (d2 & _ & Hrep2 & _). exists fs, d2, f2. split; [exact Hrep2|].
  destruct (a_write_files _ _ _ _ _ _ Ew) as (c & Hc & Hf2 & Hs). split; [by apply (a_walk_same f1)|].
  split; [rewrite Hf2, lookup_insert_eq; assert (c = []) as -> by congruence; reflexivity|].
  unfold a_ls in *. rewrite Hf2, lookup_insert_ne by done. exact Hls.
Qed.

Definition demo_laws : FrameAllocatorLaws StackFrameAllocator := StackFrameAllocator_laws 100.
#[local] Existing Instance demo_laws.

(** The machine at power-on: an empty kernel space, 100 frames, the disk [d]. *)
Lemma demo_before_boot d : exists (s : system StackFrameAllocator (store BlockFile) (list Z * list Z)),
  before_boot (kern s) /\ can_start demo_env demo_parse (kern s) ∅ 0 {| p_current := 1; p_recycled := [] |} demo_elf_data demo_elf /\
  disk s = d /\ (90 <= fa_avail (falloc (kmem (kern s))))%nat /\ initproc (kern s) = 0%nat.
Proof.
  destruct (new_bare_run (FAL := demo_laws) demo_mem (demo_ok demo_mem eq_refl)) as (ks & m & _ & _ & Hks & _ & Hav); [done|].
  assert (Hav0 : fa_avail (falloc demo_mem) = 100%nat) by done. rewrite Hav0 in Hav.
  exists (set_kern (Build_kernel ∅ 0 ProcessManager_new ∅ None PidAllocator_new ks m) (demo_system d)).
  split; [by split|]. split; [|split; [done|split; [change (90 <= fa_avail (falloc m))%nat; lia|done]]]. split; cbn [kern set_kern kmem kernel_space pids].
  - exact demo_elf_ok.
  - reflexivity.
  - exact Hks.
  - reflexivity.
  - vm_compute. intuition congruence.
  - by rewrite !lookup_empty.
  - change (regions_pages _) with 5%nat. lia.
Qed.

Lemma demo_boot : exists fs f (s : system StackFrameAllocator (store BlockFile) (list Z * list Z)),
  before_boot (kern s) /\ can_start demo_env demo_parse (kern s) ∅ 0 {| p_current := 1; p_recycled := [] |} demo_elf_data demo_elf /\
  represents (disk s) fs (data_count 1100 1) f /\ a_walk (path_names initproc_name) 0 f = Some (Some 1) /\
  a_files f !! 1 = Some (File, demo_elf_data) /\ (90 <= fa_avail (falloc (kmem (kern s))))%nat.
Proof.
  destruct demo_program_disk as (fs & d & f & Hrep & Hw & Hf & _). destruct (demo_before_boot d) as (s & Hb & Hc & <- & Hav & _).
  exists fs, f, s. by split_and!.
Qed.

Lemma boot_starts_witness : exists fs (s s' : system StackFrameAllocator (store BlockFile) (list Z * list Z)) b,
  add_initproc demo_env demo_parse fs 2 s = Ret tt s' /\ boot_state (kern s') /\ heap (kern s') !! initproc (kern s') = Some b /\ pid b = 0.
Proof.
  destruct demo_boot as (fs & f & s & Hb & Hc & Hrep & Hw & Hf & _).
  destruct (boot_starts demo_env demo_parse fs (data_count 1100 1) s f 1 File demo_elf_data demo_elf ∅ 2
    Hb Hc Hrep Hw Hf) as (s' & b & a & cx & E & Hbs & Hh & _); [apply demo_elf_ok|cbn; lia|cbn; lia|lia|].
  exists fs, s, s', b. split_and!; [exact E|exact Hbs|exact Hh|]. destruct (bs_heap _ Hbs) as (b' & Hh' & Hp & _). rewrite Hh', lookup_singleton_eq in Hh. injection Hh as <-. exact Hp.
Defined.

(** *** The first process runs *)

(** The first turn of [run_process] after boot. *)
Definition first_running {T} (k : kernel T) (b : ProcessControlBlock) : kernel T :=
  set_running (Some (initproc k)) (set_heap {[initproc k := set_status Running b]} (set_manager ProcessManager_new k)).

Lemma first_turn_run {T} `{FrameAllocator T} env (k : kernel T) b : boot_state k -> heap k !! initproc k = Some b ->
  run_process_turn k = Ret tt (first_running k b) /\ rtc (kstep env) k (first_running k b).
Proof.
  intros Hbs Hh. destruct Hbs as [(b' & Hh' & _) Hm _ Hrun _]. assert (b' = b) as -> by (rewrite Hh', lookup_singleton_eq in Hh; congruence).
  assert (Er : run_process_turn k = Ret tt (first_running k b)).
  { rewrite (run_turn_run k (initproc k) b [[]; []; []; []]) by (rewrite ?Hm; done). unfold first_running. rewrite Hh', insert_singleton_eq. by rewrite Hm. }
  split; [exact Er|]. apply rtc_once, step_run; [exact Hrun|exact Er].
Qed.

Definition fresh_sigs : Signals :=
  {| signals := 0; signal_mask := 0; handling_sig := -1; signal_actions := SignalActions_default; killed := false; frozen := false; trap_ctx_backup := None |}.

(** The areas of a program are its regions. *)
Lemma regions_total l rs : Forall2 area_of l rs -> total_pages l = regions_pages rs.
Proof. intros Hf. unfold total_pages, regions_pages, area_size. induction Hf as [|A r l rs (E & _) _ IH]; [done|]. cbn. rewrite E. cbn. by rewrite IH. Qed.
Lemma regions_below l rs : Forall2 area_of l rs -> Forall (fun r => r_hi r <= TRAMPOLINE_VPN) rs -> Forall (fun A => ~ in_area A TRAMPOLINE_VPN) l.
Proof.
  intros Hf Hr. induction Hf as [|A r l rs (E & _) _ IH]; [constructor|]. apply Forall_cons in Hr as [Hr Hrs]. constructor; [|by apply IH].
  unfold in_area. rewrite E. cbn. lia.
Qed.

(** A kernel reached from boot in which the first process runs and could fork. *)
Lemma demo_running : exists fs f (s : system StackFrameAllocator (store BlockFile) (list Z * list Z)) k0 b a ka pids' cx,
  boot_state k0 /\ rtc (kstep demo_env) k0 (kern s) /\ runs (kern s) (initproc (kern s)) b /\ pid b = 0 /\
  sigs b = fresh_sigs /\
  started demo_env (kmem (kern s)) (memory_set (space b)) a demo_elf_data demo_elf (trap_cx_ppn (space b)) cx /\
  can_fork demo_env (kern s) (initproc (kern s)) b a ka (trap_cx_ppn (space b)) 1 pids' /\
  manager_ok (manager (kern s)) /\ ready_queues (manager (kern s)) = [[]; []; []; []] /\ pids (kern s) = {| p_current := 1; p_recycled := [] |} /\
  represents (disk s) fs (data_count 1100 1) f /\ a_walk (path_names initproc_name) 0 f = Some (Some 1) /\ a_files f !! 1 = Some (File, demo_elf_data).
Proof.
  destruct demo_boot as (fs & f & s & Hb & Hc & Hrep & Hw & Hf & Hav).
  destruct (boot_run demo_env demo_parse fs (data_count 1100 1) s f 1 File demo_elf_data demo_elf ∅ 2
    Hb Hc Hrep Hw Hf) as (s1 & b & a & ka & cx & E & Hbs & Hh & Hb0 & Hsd & Hcx & Hks & Hrep1 & Hoth & Hap & Hav1); [apply demo_elf_ok|cbn; lia|cbn; lia|lia|].
  set (k := kern s1) in *. set (p := initproc k). set (br := set_status Running b).
  set (kr := first_running k b). destruct (first_turn_run demo_env k b Hbs Hh) as [_ Hsteps].
  pose proof Hbs as [(b' & Hh' & Hp & Hst & Hch & _) Hm Hmap Hrun Hpids]. assert (b' = b) as -> by (rewrite Hh', lookup_singleton_eq in Hh; congruence).
  destruct Hsd as [Hu Har Hseg Hfr Hcx0 Htp]. 
  assert (Hbelow : Forall (fun r => r_hi r <= TRAMPOLINE_VPN) (elf_regions demo_elf_data demo_elf)) by (repeat constructor; vm_compute; congruence).
  exists fs, f, (set_kern kr s1), k, br, a, ka, {| p_current := 2; p_recycled := [] |}, cx. cbn [kern set_kern disk].
  change (initproc kr) with p. split_and!; try done.
  - split; [done|cbn; apply lookup_singleton_eq].
  - cbn. rewrite Hb0. done.
  - split.
    + apply lookup_singleton_eq.
    + exact Hu.
    + by apply (regions_below _ (elf_regions demo_elf_data demo_elf)).
    + exact Hfr.
    + exact Hks.
    + exact Hap.
    + reflexivity.
    + cbn. by rewrite Hpids.
    + vm_compute. intuition congruence.
    + unfold other_stacks in Hoth. rewrite !Hoth, !lookup_empty by (vm_compute; congruence). done.
    + change (areas (memory_set (space br))) with (areas (memory_set (space b))). rewrite (regions_total _ (elf_regions demo_elf_data demo_elf) Har). change (kmem kr) with (kmem k).
      fold k in Hav1. change (regions_pages _) with 5%nat in *. lia.
Qed.
