(* ===== verification/UserLib.v ===== *)
(** The user library below every program: [user/src/lib.rs] and
    [user/src/syscall.rs].

    [_start] reads its arguments from the memory [exec] laid out, through the page
    table of the process, as user code does; the wrappers put the number and the
    arguments of a call into the registers the kernel's dispatch takes them from. *)
From S2P Require Import Prelude Address FrameAllocator PageTable UserBytes Pipe Pid MemorySet UserSpace UserMem ElfLoad.
From S2P Require Import Process Lifecycle Exec Signal ExecSpec ForkSpec ProcessTree.
From S2P Require Import BlockCache DiskWords Bitmap Layout Codecs Mfs Vfs FsFormat Files FileCalls Syscalls OpenSpec.

(** ** Loads of user code *)

Section loads.
Context {T : Type} `{FrameAllocator T}.

Definition user_load8 (satp va : Z) : M (mem T) Z :=
  let! o := translate_va (from_token satp) (VirtAddr.from_usize va) in
  let! pa := unwrap o in
  let! m := get in
  ret (phys_byte m pa).
Fixpoint user_load (satp va : Z) (n : nat) : M (mem T) (list Z) :=
  match n with
  | O => ret []
  | S n => let! b := user_load8 satp va in let! bs := user_load satp (u64 (va + 1)) n in ret (b :: bs)
  end.

(** ** [_start] *)

(** [(0usize..).find(|i| *(str_start + i) == 0).unwrap()] *)
Fixpoint find_nul (fuel : nat) (satp str_start : Z) (i : nat) : M (mem T) nat :=
  match fuel with
  | O => fail Fuel
  | S fuel =>
      let! b := user_load8 satp (u64 (str_start + Z.of_nat i)) in
      if b =? 0 then ret i else find_nul fuel satp str_start (S i)
  end.
Definition start_arg (fuel : nat) (satp argv : Z) (i : nat) : M (mem T) (list Z) :=
  let! w := user_load satp (u64 (argv + Z.of_nat i * 8)) 8 in
  let str_start := of_le w in
  let! len := find_nul fuel satp str_start 0 in
  let! bs := user_load satp str_start len in
  unwrap (from_utf8 bs).
Fixpoint start_args (fuel : nat) (satp argv : Z) (idxs : list nat) : M (mem T) (list (list Z)) :=
  match idxs with
  | [] => ret []
  | i :: idxs => let! arg := start_arg fuel satp argv i in let! v := start_args fuel satp argv idxs in ret (arg :: v)
  end.
(** The heap of the program is a library allocator over [HEAP_SPACE]: [heap_init] is its
    initialisation.  [main] gets the count and the arguments; its result goes to [exit]. *)
Definition _start {R} (heap_init : M (mem T) unit) (main : Z -> list (list Z) -> M (mem T) Z) (exit : Z -> M (mem T) R) (fuel : nat) (satp argc argv : Z) : M (mem T) R :=
  heap_init ;;;
  let! v := start_args fuel satp argv (seq 0 (Z.to_nat argc)) in
  let! code := main argc v in
  exit code.
End loads.

(** ** System calls *)

(** The wrappers of [syscall.rs], with the addresses of what they point to. *)
Inductive user_call :=
  | UOpen (path flags : Z) | UClose (fd : Z) | URead (fd buffer len : Z) | UWrite (fd buffer len : Z)
  | UExit (exit_code : Z) | UYield | UTime | UPid | UFork | UExec (path args : Z) | UWaitpid (pid exit_code : Z)
  | UPipe (pipe_fd : Z) | UDup (fd : Z) | UKill (pid signal : Z) | USigaction (signum action old_action : Z)
  | USigprocmask (mask : Z) | USigreturn.

Module Number.
Definition DUP : Z := 24.
Definition OPEN : Z := 56.
Definition CLOSE : Z := 57.
Definition PIPE : Z := 59.
Definition READ : Z := 63.
Definition WRITE : Z := 64.
Definition EXIT : Z := 93.
Definition YIELD : Z := 124.
Definition KILL : Z := 129.
Definition SIGACTION : Z := 134.
Definition SIGPROCMASK : Z := 135.
Definition SIGRETURN : Z := 139.
Definition TIME : Z := 169.
Definition PID : Z := 172.
Definition FORK : Z := 220.
Definition EXEC : Z := 221.
Definition WAITPID : Z := 260.
End Number.

(** a7, a0, a1 and a2 of the [ecall]; a signed argument is cast to [usize]. *)
Definition ecall_regs (c : user_call) : Z * Z * Z * Z :=
  match c with
  | UOpen path flags => (Number.OPEN, path, flags, 0)
  | UClose fd => (Number.CLOSE, fd, 0, 0)
  | URead fd buffer len => (Number.READ, fd, buffer, len)
  | UWrite fd buffer len => (Number.WRITE, fd, buffer, len)
  | UExit exit_code => (Number.EXIT, u64 exit_code, 0, 0)
  | UYield => (Number.YIELD, 0, 0, 0)
  | UTime => (Number.TIME, 0, 0, 0)
  | UPid => (Number.PID, 0, 0, 0)
  | UFork => (Number.FORK, 0, 0, 0)
  | UExec path args => (Number.EXEC, path, args, 0)
  | UWaitpid pid exit_code => (Number.WAITPID, u64 pid, exit_code, 0)
  | UPipe pipe_fd => (Number.PIPE, pipe_fd, 0, 0)
  | UDup fd => (Number.DUP, fd, 0, 0)
  | UKill pid signal => (Number.KILL, pid, u64 signal, 0)
  | USigaction signum action old_action => (Number.SIGACTION, u64 signum, action, old_action)
  | USigprocmask mask => (Number.SIGPROCMASK, mask, 0, 0)
  | USigreturn => (Number.SIGRETURN, 0, 0, 0)
  end.

(** ** Loops over calls *)

Section calls.
Context {W : Type} (sys_write : Z -> list Z -> M W Z) (sys_waitpid : Z -> M W Z) (sys_yield : M W Z) (sys_time : M W Z).

Fixpoint wait_loop (fuel : nat) (pid : Z) : M W Z :=
  match fuel with
  | O => fail Fuel
  | S fuel =>
      let! r := sys_waitpid pid in
      if r =? -2 then let! _ := sys_yield in wait_loop fuel pid else ret r
  end.
Definition user_wait (fuel : nat) : M W Z := wait_loop fuel (-1).
Definition user_waitpid (fuel : nat) (pid : Z) : M W Z := wait_loop fuel (as_isize pid).

(** The sum of two [isize] wraps. *)
Fixpoint sleep_loop (fuel : nat) (until : Z) : M W unit :=
  match fuel with
  | O => fail Fuel
  | S fuel =>
      let! now := sys_time in
      if now <? until then let! _ := sys_yield in sleep_loop fuel until else ret tt
  end.
Definition sleep (fuel : nat) (period_ms : Z) : M W unit :=
  let! start := sys_time in
  sleep_loop fuel (as_isize (u64 (start + as_isize period_ms))).

(** A message to standard error, and one with its line feed: [-1] when either write fails. *)
Definition write_stderr (buf : list Z) : M W Z := sys_write 2 buf.
Definition err_print (s : list Z) : M W Z := write_stderr s.
Definition err_println (s : list Z) : M W Z :=
  let! result := err_print s in
  if negb (result =? -1) then
    let! newline_result := write_stderr [10] in
    ret (if negb (newline_result =? -1) then as_isize (u64 (result + newline_result)) else -1)
  else ret result.
End calls.

(** ** What a program finds *)

Section args.
Context {T : Type} `{FAL : FrameAllocatorLaws T}.
Implicit Types (m : mem T) (ms : MemorySet) (a : gmap Z Z).

Lemma user_load8_run m ms a ptr len va : user_ok m ms a -> user_range ms ptr len -> ptr <= va < ptr + len ->
  user_load8 (MemorySet_token ms) va m = Ret (user_byte m a va) m.
Proof. intros Hu Hr Hva. pose proof (refmut_run m ms a ptr len va Hu Hr Hva) as E. unfold translated_refmut in E. apply bind_inv in E as (o & m1 & E1 & E2).
  unfold user_load8. rewrite (bind_Ret _ _ _ _ _ E1). destruct o as [pa|]; [|done]. injection E2 as -> ->. done.
Qed.

Lemma user_load_run m ms a ptr len n va : user_ok m ms a -> user_range ms ptr len -> ptr <= va -> va + Z.of_nat n <= ptr + len ->
  user_load (MemorySet_token ms) va n m = Ret (user_bytes m a va (Z.of_nat n)) m.
Proof.
  intros Hu Hr. pose proof (ur_bounds _ _ _ Hr) as Hb. revert va. induction n as [|n IH]; intros va Hl Hh; [done|]. cbn [user_load].
  rewrite (bind_Ret _ _ _ _ _ (user_load8_run m ms a ptr len va Hu Hr ltac:(lia))). rewrite u64_small by lia.
  rewrite (bind_Ret _ _ _ _ _ (IH (va + 1) ltac:(lia) ltac:(lia))). unfold ret. f_equal.
  replace (Z.of_nat (S n)) with (1 + Z.of_nat n) by lia. rewrite user_bytes_app by lia. by rewrite user_byte_bytes.
Qed.

Lemma find_nul_run m ms a ptr bytes fuel i : user_ok m ms a -> user_range ms ptr (Z.of_nat (length bytes) + 1) -> 
  user_bytes m a ptr (Z.of_nat (length bytes) + 1) = bytes ++ [0] -> 0 ∉ bytes -> (i <= length bytes)%nat -> (length bytes - i < fuel)%nat ->
  find_nul fuel (MemorySet_token ms) ptr i m = Ret (length bytes) m.
Proof.
  intros Hu Hr Hb H0. pose proof (ur_bounds _ _ _ Hr) as Hbd. revert i. induction fuel as [|fuel IH]; intros i Hi Hf; [lia|]. cbn [find_nul]. rewrite u64_small by lia.
  rewrite (bind_Ret _ _ _ _ _ (user_load8_run m ms a ptr _ (ptr + Z.of_nat i) Hu Hr ltac:(lia))).
  assert (E : (bytes ++ [0]) !! i = Some (user_byte m a (ptr + Z.of_nat i))).
  { rewrite <- Hb. unfold user_bytes, range_pas. rewrite !list_lookup_fmap, lookup_seqZ_lt by lia. done. }
  destruct (decide (i = length bytes)) as [->|Hne].
  - rewrite lookup_app_r, Nat.sub_diag in E by lia. injection E as <-. done.
  - rewrite lookup_app_l in E by lia. destruct (Z.eqb_spec (user_byte m a (ptr + Z.of_nat i)) 0) as [E0|_]; [|apply IH; lia].
    exfalso. apply H0. rewrite E0 in E. by apply list_elem_of_lookup_2 in E.
Qed.

Lemma user_words_at m a base ws : user_bytes m a base (Z.of_nat (length ws) * 8) = ws ≫= le_bytes 8 ->
  forall (j : nat) w, ws !! j = Some w -> user_bytes m a (base + Z.of_nat j * 8) 8 = le_bytes 8 w.
Proof.
  revert base. induction ws as [|x ws IH]; intros base E j w Hj; [done|]. cbn [length] in E.
  replace (Z.of_nat (S (length ws)) * 8) with (8 + Z.of_nat (length ws) * 8) in E by lia. rewrite user_bytes_app in E by lia. cbn [mbind list_bind] in E.
  apply app_inj_1 in E as [E1 E2]; [|by rewrite length_user_bytes, length_le_bytes]. destruct j as [|j]; cbn [lookup list_lookup] in Hj.
  - injection Hj as <-. by rewrite Z.mul_0_l, Z.add_0_r.
  - replace (base + Z.of_nat (S j) * 8) with (base + 8 + Z.of_nat j * 8) by lia. by apply IH.
Qed.

(** The stack of arguments read back. *)
Lemma start_arg_run m ms a lo base args fuel i arg p : user_ok m ms a -> user_range ms lo (base + (Z.of_nat (length args) + 1) * 8 - lo) ->
  lo <= args_sp base args -> argv_laid m a base args -> args !! i = Some arg -> arg_ptrs base args !! i = Some p -> good_name arg -> (length arg < fuel)%nat ->
  start_arg fuel (MemorySet_token ms) base i m = Ret arg m.
Proof.
  intros Hu Hr Hlo Hl Ha Hp (Hg & H0 & _) Hf. pose proof (ur_bounds _ _ _ Hr) as Hb. pose proof (args_sp_le base args) as Hsp.
  destruct (arg_ptrs_range base args i p arg Hp Ha) as [Hp1 Hp2]. pose proof (lookup_lt_Some _ _ _ Ha) as Hi.
  unfold start_arg. rewrite u64_small by lia. rewrite (bind_Ret _ _ _ _ _ (user_load_run m ms a lo _ 8 (base + Z.of_nat i * 8) Hu Hr ltac:(lia) ltac:(lia))).
  assert (Ew : user_bytes m a (base + Z.of_nat i * 8) 8 = le_bytes 8 p).
  { pose proof (al_ptrs _ _ _ _ Hl) as Ep. replace (Z.of_nat (length args) + 1) with (Z.of_nat (length (arg_ptrs base args ++ [0]))) in Ep by (rewrite length_app, length_arg_ptrs; cbn; lia).
    apply (user_words_at m a base _ Ep). by apply lookup_app_l_Some. }
  change (Z.of_nat 8) with 8. rewrite Ew, of_le_le_bytes by lia.
  pose proof (al_strs _ _ _ _ Hl i arg p Ha Hp) as Es.
  assert (Hrs : user_range ms p (Z.of_nat (length arg) + 1)) by (apply (user_range_sub _ lo _ _ _ Hr); lia).
  rewrite (bind_Ret _ _ _ _ _ (find_nul_run m ms a p arg fuel 0 Hu Hrs Es H0 ltac:(lia) ltac:(lia))).
  rewrite (bind_Ret _ _ _ _ _ (user_load_run m ms a p _ (length arg) p Hu Hrs ltac:(lia) ltac:(lia))).
  assert (Eb : user_bytes m a p (Z.of_nat (length arg)) = arg).
  { rewrite user_bytes_app in Es by lia. apply app_inj_1 in Es as [Es _]; [exact Es|]. rewrite length_user_bytes. lia. }
  by rewrite Eb, Hg.
Qed.

Lemma start_args_run m ms a lo base args fuel n : user_ok m ms a -> user_range ms lo (base + (Z.of_nat (length args) + 1) * 8 - lo) ->
  lo <= args_sp base args -> argv_laid m a base args -> Forall good_name args -> Forall (fun arg => (length arg < fuel)%nat) args -> (n <= length args)%nat ->
  start_args fuel (MemorySet_token ms) base (seq n (length args - n)) m = Ret (drop n args) m.
Proof.
  intros Hu Hr Hlo Hl Hg Hf. rewrite Forall_forall in Hg, Hf. remember (length args - n)%nat as d eqn:Ed. revert n Ed. induction d as [|d IH]; intros n Ed Hn.
  { rewrite drop_ge by lia. done. }
  destruct (lookup_lt_is_Some_2 args n) as [arg Ha]; [lia|]. destruct (lookup_lt_is_Some_2 (arg_ptrs base args) n) as [p Hp]; [rewrite length_arg_ptrs; lia|].
  cbn [seq start_args]. assert (Hin : arg ∈ args) by by apply list_elem_of_lookup_2 in Ha.
  rewrite (bind_Ret _ _ _ _ _ (start_arg_run m ms a lo base args fuel n arg p Hu Hr Hlo Hl Ha Hp (Hg _ Hin) (Hf _ Hin))).
  rewrite (bind_Ret _ _ _ _ _ (IH (S n) ltac:(lia) ltac:(lia))). by rewrite (drop_S _ _ _ Ha).
Qed.
End args.

Section program.
Context {T : Type} `{FAL : FrameAllocatorLaws T} (env : boot) (elf_parse : list Z -> option ElfFile).

(** The allocator writes memory of the program, but not the stack. *)
Definition heap_ready ms a (bottom top : Z) (heap_init : M (mem T) unit) m m1 : Prop :=
  heap_init m = Ret tt m1 /\ user_step ms m m1 /\
  forall ptr len, bottom <= ptr -> ptr + len <= top -> user_bytes m1 a ptr len = user_bytes m a ptr len.
(** [main] of a program that [exec] entered gets the arguments of the call. *)
Lemma start_program m m1 ms a c elf args f fuel {R} heap_init (main : Z -> list (list Z) -> M (mem T) Z) (exit : Z -> M (mem T) R) :
  elf_ok elf_parse c elf -> program env m ms a c elf args f -> heap_ready ms a (stack_bottom c elf) (stack_top c elf) heap_init m m1 ->
  args_size args <= USER_STACK_SIZE -> Forall good_name args -> Forall (fun arg => (length arg < fuel)%nat) args ->
  _start heap_init main exit fuel (MemorySet_token ms) (Z.of_nat (length args)) (argv_base (stack_top c elf) args) m =
    (let! code := main (Z.of_nat (length args)) args in exit code) m1.
Proof.
  intros Ho Hp (Eh & St & Hkept) Hsz Hg Hf. destruct (elf_segments_ok _ _ _ Ho) as [He _]. destruct (fits_stack elf_parse c elf args Hsz) as [Hfit _].
  assert (Hstk : stack_region (elf_end c elf) ∈ elf_regions c elf) by (unfold elf_regions; rewrite elem_of_app; right; by constructor).
  pose proof (region_range m ms a _ (stack_region (elf_end c elf)) (pr_ok _ _ _ _ _ _ _ _ Hp) (pr_areas _ _ _ _ _ _ _ _ Hp) Hstk ltac:(cbn; lia) ltac:(cbn; unfold PAGE_SIZE; lia)) as Hr.
  change (r_lo (stack_region (elf_end c elf)) * PAGE_SIZE) with (stack_bottom c elf) in Hr. change (r_hi (stack_region (elf_end c elf)) * PAGE_SIZE) with (stack_top c elf) in Hr.
  pose proof (user_step_ok ms m m1 a St (pr_ok _ _ _ _ _ _ _ _ Hp)) as Hu1.
  assert (Hl1 : argv_laid m1 a (argv_base (stack_top c elf) args) args).
  { apply (argv_laid_kept m m1 a (stack_bottom c elf)); [apply Hp|exact Hfit|]. intros ptr len H1 H2. apply Hkept; [done|]. unfold argv_base in H2. lia. }
  unfold _start. rewrite (bind_Ret _ _ _ _ _ Eh), Nat2Z.id.
  rewrite (bind_Ret _ _ m1 args m1); [done|].
  pose proof (start_args_run m1 ms a (stack_bottom c elf) (argv_base (stack_top c elf) args) args fuel 0 Hu1) as E.
  rewrite Nat.sub_0_r, drop_0 in E. apply E; [|exact Hfit|exact Hl1|done|done|lia].
  unfold argv_base. by replace (stack_top c elf - (Z.of_nat (length args) + 1) * 8 + (Z.of_nat (length args) + 1) * 8 - stack_bottom c elf) with (stack_top c elf - stack_bottom c elf) by lia.
Qed.
End program.

(** ** The numbers of the two sides *)

Section dispatch.
Context {T St C : Type} `{FrameAllocator T} `{BlockStore St} `{Firmware C} (env : boot) (elf_parse : list Z -> option ElfFile) (fs : BlockManager).
Context (str_fuel argv_fuel data_fuel : nat).

Definition i32_ok (z : Z) : Prop := - 2 ^ 31 <= z < 2 ^ 31.
Definition isize_ok (z : Z) : Prop := - 2 ^ 63 <= z < 2 ^ 63.
Definition u32_ok (z : Z) : Prop := 0 <= z < 2 ^ 32.
(** The arguments have the types of the wrappers. *)
Definition call_ok (c : user_call) : Prop :=
  match c with
  | UOpen _ flags => u32_ok flags
  | UExit exit_code => i32_ok exit_code
  | UWaitpid pid _ => isize_ok pid
  | UKill _ signal => i32_ok signal
  | USigaction signum _ _ => i32_ok signum
  | USigprocmask mask => u32_ok mask
  | _ => True
  end.
(** The call of the kernel each wrapper is for, with the arguments it was given. *)
Definition kernel_call (c : user_call) : M (system T St C) sysres :=
  match c with
  | UOpen path flags => done (sys_open fs str_fuel path flags)
  | UClose fd => done (on_kern (sys_close fd))
  | URead fd buffer len => let! r := sys_read fd buffer len in ret (of_io r)
  | UWrite fd buffer len => let! r := sys_write fs fd buffer len in ret (of_io r)
  | UExit exit_code => sys_exit exit_code
  | UYield => sys_yield
  | UTime => done sys_time
  | UPid => done (on_kern sys_pid)
  | UFork => done (on_kern (sys_fork env))
  | UExec path args => done (sys_exec env elf_parse fs str_fuel argv_fuel data_fuel path args)
  | UWaitpid pid exit_code => done (on_kern (sys_waitpid pid exit_code))
  | UPipe pipe_fd => done (sys_pipe pipe_fd)
  | UDup fd => done (on_kern (sys_dup fd))
  | UKill pid signal => done (on_kern (sys_kill pid signal))
  | USigaction signum action old_action => done (on_kern (sys_sigaction signum action old_action))
  | USigprocmask mask => done (on_kern (sys_sigprocmask mask))
  | USigreturn => done (on_kern sys_sigreturn)
  end.

Lemma as_i32_u64 z : i32_ok z -> as_i32 (u64 z) = z.
Proof.
  unfold i32_ok, as_i32, u32, u64. intros Hz. rewrite <- Znumtheory.Zmod_div_mod by (try lia; by exists (2 ^ 32)).
  destruct (Z.ltb_spec (z mod 2 ^ 32) (2 ^ 31)); Z.to_euclidean_division_equations; lia.
Qed.
Lemma as_isize_u64 z : isize_ok z -> as_isize (u64 z) = z.
Proof.
  unfold isize_ok, as_isize, u64. intros Hz. rewrite Z.mod_mod by done.
  destruct (Z.ltb_spec (z mod 2 ^ 64) (2 ^ 63)); Z.to_euclidean_division_equations; lia.
Qed.

(** The registers of a wrapper's ecall lead the kernel's dispatch to the call the wrapper is for,
    and the casts on the way give it the arguments of the wrapper, negative ones included. *)
Theorem ecall_dispatch c : call_ok c ->
  let '(a7, a0, a1, a2) := ecall_regs c in syscall env elf_parse fs str_fuel argv_fuel data_fuel a7 a0 a1 a2 = kernel_call c.
Proof.
  destruct c; cbn [call_ok ecall_regs kernel_call]; intros Hc; unfold syscall; cbn [Z.eqb Pos.eqb];
    rewrite ?u32_small, ?as_i32_u64, ?as_isize_u64 by done; reflexivity.
Qed.
End dispatch.

Lemma ecall_dispatch_witness : ecall_regs (UWaitpid (-1) 0x3000) = (260, 2 ^ 64 - 1, 0x3000, 0) /\
  syscall demo_env demo_parse (formatted 1100 1) 1 1 1 260 (2 ^ 64 - 1) 0x3000 0 =
    kernel_call (T := StackFrameAllocator) (St := store BlockFile) (C := list Z * list Z) demo_env demo_parse (formatted 1100 1) 1 1 1 (UWaitpid (-1) 0x3000).
Proof. split; [reflexivity|]. apply (ecall_dispatch demo_env demo_parse (formatted 1100 1) 1 1 1 (UWaitpid (-1) 0x3000)). split; vm_compute; congruence. Defined.

(** ** Waiting and sleeping *)

Section waiting.
Context {W : Type} (sys_waitpid : Z -> M W Z) (sys_yield : M W Z) (sys_time : M W Z).

(** [n] calls found a child that still runs, each followed by a yield. *)
Inductive asked (pid : Z) : nat -> W -> W -> Prop :=
  | asked_first s : asked pid 0 s s
  | asked_again n s s1 s2 s3 z : sys_waitpid pid s = Ret (-2) s1 -> sys_yield s1 = Ret z s2 -> asked pid n s2 s3 -> asked pid (S n) s s3.

(** [waitpid] gives the first answer that is not "still running", after one yield for each that was. *)
Theorem wait_loop_spec pid fuel s r s' : wait_loop sys_waitpid sys_yield fuel pid s = Ret r s' <->
  r <> -2 /\ exists n s1, (n < fuel)%nat /\ asked pid n s s1 /\ sys_waitpid pid s1 = Ret r s'.
Proof.
  split.
  - revert s. induction fuel as [|fuel IH]; intros s E; [done|]. cbn [wait_loop] in E. apply bind_inv in E as (r1 & s1 & E1 & E).
    destruct (Z.eqb_spec r1 (-2)) as [->|Hne].
    + apply bind_inv in E as (z & s2 & E2 & E). destruct (IH s2 E) as (Hr & n & s3 & Hn & Ha & E3). split; [done|].
      exists (S n), s3. split; [lia|]. split; [by eapply asked_again|done].
    + injection E as <- <-. split; [done|]. exists 0%nat, s. split; [lia|]. split; [constructor|done].
  - intros (Hr & n & s1 & Hn & Ha & E). revert fuel Hn. induction Ha as [s|n s s2 s3 s4 z E1 E2 _ IH]; intros [|fuel] Hn; try lia; cbn [wait_loop].
    + rewrite (bind_Ret _ _ _ _ _ E). by rewrite (proj2 (Z.eqb_neq r (-2))).
    + rewrite (bind_Ret _ _ _ _ _ E1). change (-2 =? -2) with true. cbn iota. rewrite (bind_Ret _ _ _ _ _ E2). apply IH; [done|lia].
Qed.

(** A sleep that ends has seen the clock at or past the start and the period, their sum wrapped to an [isize]. *)
Theorem sleep_waits fuel period_ms s s' : sleep sys_yield sys_time fuel period_ms s = Ret tt s' ->
  exists start s1 now s2, sys_time s = Ret start s1 /\ sys_time s2 = Ret now s' /\ as_isize (u64 (start + as_isize period_ms)) <= now.
Proof.
  intros E. unfold sleep in E. apply bind_inv in E as (start & s1 & E1 & E). exists start, s1.
  set (until := as_isize _) in *. clearbody until.
  enough (Hl : exists now s3, sys_time s3 = Ret now s' /\ until <= now) by (destruct Hl as (now & s3 & ? & ?); eauto).
  clear E1. revert s1 E. induction fuel as [|fuel IH]; intros s1 E; [done|]. cbn [sleep_loop] in E. apply bind_inv in E as (now & s2 & E2 & E).
  destruct (Z.ltb_spec now until).
  - apply bind_inv in E as (z & s3 & E3 & E). by apply (IH s3).
  - injection E as <-. by exists now, s1.
Qed.
End waiting.
