(* ===== verification/Start.v ===== *)
(** Start-up: [rust_main] of [os/src/main.rs] and [mm::init] of [os/src/mm/mod.rs].

    The parts proved separately meet here: the frame allocator gets the memory
    above the image, the kernel space maps the image to itself, the block device
    takes its queue frames, the file system is opened and the first process runs.
    The driver crate is a parameter: the runs of pages it asks [dma_alloc] for. *)
From S2P Require Import Prelude Address FrameAllocator PageTable UserBytes Pipe Pid MemorySet UserSpace KernelSpace UserMem Dma ElfLoad.
From S2P Require Import Process Lifecycle Exec Signal ExecSpec ForkSpec Trampoline ProcessTree.
From S2P Require Import BlockCache DiskWords Bitmap Layout Mfs Vfs FsInv FsBlocks FsFiles FsGrow FsSpec FsDirs FsCreate FsFormat Files FileCalls FileSpec Diagnostics OpenSpec FileRound Syscalls ExecCall Trap BootSpec.

Section start.
Context {St C F : Type} `{BlockStore St} `{Firmware C} `{LogFacade F} (facade0 : F) (LOG : option (list Z)).
Context (env : boot) (elf_parse : list Z -> option ElfFile) (k : linker) (requests : list Z).

(** [log::init] and [::log::info!]; nothing logs later, so the logger's statics end here. *)
Definition greeting : log_Record :=
  {| r_level := LInfo; r_target := bytes_of "os"; r_file := Some (bytes_of "src/main.rs"); r_line := Some 95; r_args := bytes_of "[kernel] Hello, world!" |}.
Definition say_hello : M (system StackFrameAllocator St C) unit := fun s =>
  match (log_init LOG ;;; log_macro greeting) (logging_start facade0 s) with
  | Ret _ w => Ret tt (below w)
  | Panic p => Panic p
  end.

(** [KERNEL_SPACE] is made at its first use, in the line that activates it. *)
Definition mm_init : M (system StackFrameAllocator St C) unit :=
  on_kmem (init_frame_allocator (ekernel k)) ;;;
  let! '(ks, lines) := on_kmem (new_kernel k) in
  for_each lines (fun line => print (line ++ [10])) ;;;
  on_kern (modify (set_kernel_space ks)).

(** [BLOCK_DEVICE]: [VirtIOBlk::new] asks for memory for its queues; [QUEUE_FRAMES] is empty before. *)
Definition queue_requests : M (dma StackFrameAllocator) unit :=
  for_each requests (fun pages => let! _ := dma_alloc pages in ret tt).
Definition VirtIOBlock_new : M (system StackFrameAllocator St C) (list Z) :=
  on_kmem (fun m => match queue_requests (Build_dma m []) with
                    | Ret _ d => Ret (QUEUE_FRAMES d) (dmem d)
                    | Panic p => Panic p
                    end).

(** [ROOT_INODE], whose initialiser is the first use of [BLOCK_DEVICE]. *)
Definition ROOT_INODE_force : M (system StackFrameAllocator St C) (list Z * BlockManager) :=
  let! queue := VirtIOBlock_new in
  let! '(fs, _) := on_disk ROOT_INODE in
  ret (queue, fs).
(** Up to the switch to the first process; [list_apps] is the first use of [ROOT_INODE]. *)
Definition rust_main (fuel : nat) : M (system StackFrameAllocator St C) (list Z) :=
  say_hello ;;;
  mm_init ;;;
  next_trigger ;;;
  let! '(queue, fs) := list_apps ROOT_INODE_force in
  add_initproc env elf_parse fs fuel ;;;
  on_kern run_process_turn ;;;
  ret queue.
End start.
Example greeting_line : log_line greeting 1 = ESC ++ bytes_of "[34m INFO [T   1] [CPU0] [TH0] [os] [main.rs:95] [kernel] Hello, world!" ++ ESC ++ bytes_of "[0m".
Proof. vm_compute. reflexivity. Qed.

(** What [rust_main] does to the registers of the hart: [KERNEL_SPACE.activate] in [mm::init], then [trap::init]. *)
Definition hart_init (trap_from_kernel : Z) (ks : MemorySet) (h : hart) : hart := trap_init trap_from_kernel (activate ks h).

(** ** Nothing is given back during start-up *)

(** An allocator that has recycled no frame, up to [e]. *)
Definition unrecycled (e c : Z) (m : mem StackFrameAllocator) : Prop :=
  falloc m = {| current := c; end_ := e; recycled := [] |}.
Definition only_allocates {A} (x : M (mem StackFrameAllocator) A) : Prop :=
  forall e c m a m', unrecycled e c m -> x m = Ret a m' -> exists c', unrecycled e c' m'.

Lemma oa_bind {A B} (x : M (mem StackFrameAllocator) A) (f : A -> M (mem StackFrameAllocator) B) :
  only_allocates x -> (forall a, only_allocates (f a)) -> only_allocates (bind x f).
Proof. intros Hx Hf e c m b m' Hm (a & m1 & E1 & E2)%bind_inv. destruct (Hx _ _ _ _ _ Hm E1) as [c1 H1]. by eapply Hf. Qed.
Lemma oa_same {A} (x : M (mem StackFrameAllocator) A) : (forall m a m', x m = Ret a m' -> falloc m' = falloc m) -> only_allocates x.
Proof. intros Hx e c m a m' Hm E. exists c. unfold unrecycled. by rewrite (Hx _ _ _ E). Qed.
Lemma oa_ret {A} (a : A) : only_allocates (ret a).
Proof. apply oa_same. by intros m b m' [= _ <-]. Qed.
Lemma oa_fail {A} p : only_allocates (fail p : M _ A).
Proof. by intros e c m b m' _ [=]. Qed.
Lemma oa_unwrap {A} (o : option A) : only_allocates (unwrap o).
Proof. destruct o; [apply oa_ret|apply oa_fail]. Qed.
Lemma oa_assert b : only_allocates (assert b).
Proof. destruct b; [apply oa_ret|apply oa_fail]. Qed.

Lemma oa_frame_alloc : only_allocates frame_alloc.
Proof.
  intros e c m a m' Hm E. unfold frame_alloc in E. cbn [fa_alloc StackFrameAllocator_impl] in E. rewrite Hm in E.
  unfold StackFrameAllocator_alloc in E. cbn [recycled current end_ vec_pop rev] in E. destruct (c =? e).
  - injection E as <- <-. by exists c.
  - injection E as <- <-. eexists. reflexivity.
Qed.

Lemma oa_pte_get p i : only_allocates (pte_get p i).
Proof.
  apply oa_same. intros m a m'. unfold pte_get, index. destruct (vget _ _); [by intros [= _ <-]|done].
Qed.
Lemma oa_pte_set p i v : only_allocates (pte_set p i v).
Proof.
  apply oa_same. intros m a m' E. unfold pte_set, index_set, bind in E. cbn in E. destruct (vset _ _ _); [|done]. by injection E as _ <-.
Qed.

Create HintDb allocates.
#[local] Hint Resolve oa_ret oa_fail oa_unwrap oa_assert oa_frame_alloc oa_pte_get oa_pte_set : allocates.
Ltac oa := repeat first [ solve [eauto with allocates] | apply oa_bind; [|intros] | case_match ].

Lemma oa_find_pte_create_loop i idxs p fs : only_allocates (find_pte_create_loop i idxs p fs).
Proof. revert i p fs. induction idxs as [|idx idxs IH]; intros i p fs; cbn [find_pte_create_loop]; unfold ensure_child; oa. Qed.
#[local] Hint Resolve oa_find_pte_create_loop : allocates.
Lemma oa_map pt vpn ppn flags : only_allocates (map pt vpn ppn flags).
Proof. unfold map, find_pte_create. oa. Qed.
#[local] Hint Resolve oa_map : allocates.

Lemma oa_map_pages l area pt : map_type area = Identical -> only_allocates (map_pages l area pt).
Proof.
  intros Ht. revert pt. induction l as [|vpn l IH]; intros pt; cbn [map_pages]; [oa|].
  intros e c m a m' Hm ([area' pt'] & m1 & E1 & E2)%bind_inv. unfold map_one in E1. rewrite Ht in E1.
  assert (E1' : bind (map pt vpn vpn (map_perm area)) (fun pt' => ret (area, pt')) m = Ret (area', pt') m1) by exact E1.
  apply bind_inv in E1' as (pt1 & m2 & E3 & E4). injection E4 as <- <- <-.
  destruct (oa_map pt vpn vpn (map_perm area) e c m pt1 m2 Hm E3) as [c1 H1]. by eapply IH.
Qed.
Lemma oa_push_range start end_ perm ms : only_allocates (push_range start end_ Identical perm ms).
Proof.
  unfold push_range, MapArea_new, SimpleRange_new. intros e c m a m' Hm (area & m1 & E1 & E2)%bind_inv.
  apply bind_inv in E1 as (r & m2 & E3 & E4). injection E4 as <- <-.
  assert (m2 = m) as ->.
  { apply bind_inv in E3 as ([] & m3 & E5 & E6). injection E6 as _ <-. unfold assert in E5. case_match; [by injection E5|done]. }
  unfold push, MapArea_map in E2. apply bind_inv in E2 as ([area' pt'] & m3 & E5 & E6). injection E6 as _ <-.
  eapply (oa_map_pages _ _ _ _ e c m); [exact Hm|exact E5].
  Unshelve. reflexivity.
Qed.
Lemma oa_push_ranges l ms : only_allocates (push_ranges l ms).
Proof. revert ms. induction l as [|[[st en] pm] l IH]; intros ms; cbn [push_ranges]; [oa|]. apply oa_bind; [apply oa_push_range|done]. Qed.
Lemma oa_new_kernel k : only_allocates (new_kernel k).
Proof.
  unfold new_kernel, new_bare, PageTable_new, map_trampoline, VirtPageNum.from_va, PhysPageNum.from_pa.
  apply oa_bind; [oa|intros ms0]. apply oa_bind; [oa|intros ms1]. apply oa_bind; [apply oa_push_ranges|intros ms2; apply oa_ret].
Qed.

(** ** The parts *)

(** The first page above the image. *)
Definition image_end (k : linker) : Z := ekernel k / PAGE_SIZE.
Definition MEMORY_PAGES : Z := 0x81000.

Lemma image_end_bounds k : linker_ok k -> ekernel k = image_end k * PAGE_SIZE /\ 0x80200 <= image_end k <= MEMORY_PAGES.
Proof.
  intros Hk. destruct (linker_arith k Hk) as (p0 & pt & p1 & p2 & p3 & p4 & p5 & p6 & p7 & p8 & E & Ho). injection E as _ _ _ _ _ _ _ _ _ E.
  unfold image_end, MEMORY_PAGES. rewrite E, page_div. split; [done|lia].
Qed.

Lemma init_frame_allocator_run k m : linker_ok k -> falloc m = StackFrameAllocator_new ->
  exists m', init_frame_allocator (ekernel k) m = Ret tt m' /\ unrecycled MEMORY_PAGES (image_end k) m' /\ sfa_ok (image_end k) (falloc m') /\
    sfa_avail (falloc m') = Z.to_nat (MEMORY_PAGES - image_end k).
Proof.
  intros Hk Hf. destruct (image_end_bounds k Hk) as [E Hb]. unfold init_frame_allocator, modify. eexists. split; [done|].
  assert (Hc : PhysAddr.ceil (PhysAddr.from_usize (ekernel k)) = image_end k).
  { unfold PhysAddr.ceil. rewrite pa_from_usize_mod, E. unfold MEMORY_PAGES, PAGE_SIZE in *. rewrite Z.mod_small by lia.
    destruct (Z.eqb_spec (image_end k * 4096) 0); [lia|]. rewrite (u64_small (_ - 1)), u64_small by lia. Z.to_euclidean_division_equations. lia. }
  rewrite Hf, Hc. unfold unrecycled, set_falloc, StackFrameAllocator_init, sfa_avail. cbn [falloc recycled StackFrameAllocator_new current end_].
  change (PhysAddr.floor _) with MEMORY_PAGES. split; [done|]. split; [|cbn; lia].
  unfold MEMORY_PAGES in *. split; cbn; [lia| |lia]. split; [lia|constructor|constructor].
Qed.

Definition request_pages (requests : list Z) : Z := foldr Z.add 0 requests.

Lemma queue_requests_run requests d b e :
  Forall (fun n => 0 <= n) requests -> falloc (dmem d) = {| current := b; end_ := e; recycled := [] |} ->
  0 <= b -> b + request_pages requests <= e -> e < 2 ^ 44 ->
  exists d', queue_requests requests d = Ret tt d' /\ QUEUE_FRAMES d' = QUEUE_FRAMES d ++ seqZ b (request_pages requests) /\
    unrecycled e (b + request_pages requests) (dmem d') /\ forall y, y < b -> page (dmem d') y = page (dmem d) y.
Proof.
  revert d b. induction requests as [|n requests IH]; intros d b Hn Hf Hb He H44.
  { exists d. cbn. rewrite app_nil_r, Z.add_0_r. done. }
  apply Forall_cons in Hn as [Hn Hns]. unfold request_pages in *. cbn [foldr] in *.
  assert (Hnn : 0 <= foldr Z.add 0 requests) by (clear -Hns; induction Hns; cbn; lia).
  destruct (dma_alloc_loop_run (Z.to_nat n) 0 b d e) as (d1 & E1 & Hq1 & Hf1 & Hp1); [lia|lia|lia|done|by rewrite Z.add_0_r|].
  rewrite Z.add_0_r, Z2Nat.id in * by lia.
  destruct (IH d1 (b + n) Hns Hf1) as (d2 & E2 & Hq2 & Hf2 & Hp2); [lia..|]. exists d2. split; [|split; [|split]].
  - unfold queue_requests. cbn [for_each]. unfold dma_alloc at 1. cbn [Z.eqb] in E1. unfold bind at 1, bind at 1, bind at 1. rewrite E1. exact E2.
  - rewrite Hq2, Hq1, <- app_assoc. by rewrite seqZ_app by lia.
  - by rewrite Z.add_assoc.
  - intros y Hy. rewrite Hp2, Hp1, decide_False; [done|lia|lia].
Qed.

(** *** Memory *)

Section memory.
Context {St C : Type} `{BlockStore St} `{Firmware C} (k : linker) (Hk : linker_ok k).
#[local] Instance start_laws : FrameAllocatorLaws StackFrameAllocator := StackFrameAllocator_laws (image_end k).
Implicit Types (s : system StackFrameAllocator St C) (m : mem StackFrameAllocator).

Lemma on_kmem_bind {A B} (x : M (mem StackFrameAllocator) A) (g : A -> M (system StackFrameAllocator St C) B) s v m :
  x (kmem (kern s)) = Ret v m -> bind (on_kmem x) g s = g v (set_kern (set_kmem m (kern s)) s).
Proof. intros E. unfold bind, on_kmem, on_kern, on_mem, zoom. by rewrite E. Qed.

(** The kernel space is in place and the rest of memory is free. *)
Record kernel_ready (n : nat) (c : Z) m (ks : MemorySet) (a : gmap Z Z) : Prop := {
  kr_bump : unrecycled MEMORY_PAGES c m;
  kr_ok : ms_ok m ks a;
  kr_map : kernel_mapping k a;
  kr_free : (n <= fa_avail (falloc m))%nat;
}.

Lemma mm_init_run s : falloc (kmem (kern s)) = StackFrameAllocator_new -> Z.of_nat KERNEL_TABLES <= MEMORY_PAGES - image_end k ->
  exists ks m c a, mm_init k s = Ret tt (set_con (lines_shown (new_kernel_lines k) (con s)) (set_kern (set_kernel_space ks (set_kmem m (kern s))) s)) /\
    kernel_ready (Z.to_nat (MEMORY_PAGES - image_end k) - KERNEL_TABLES) c m ks a /\ image_end k <= c.
Proof.
  intros Hf Hn. destruct (init_frame_allocator_run k (kmem (kern s)) Hk Hf) as (m0 & E0 & Hu0 & Hok0 & Hav0).
  destruct (new_kernel_run (FAL := start_laws) k m0 Hk Hok0) as (ks & m1 & a & E1 & Hms & Hm & _ & Hav & _); [change (fa_avail (falloc m0)) with (sfa_avail (falloc m0)); lia|].
  destruct (oa_new_kernel k _ _ _ _ _ Hu0 E1) as [c Hc]. exists ks, m1, c, a. split; [|split; [split; try done|]].
  - unfold mm_init. rewrite (on_kmem_bind (init_frame_allocator _) _ s _ _ E0). rewrite (on_kmem_bind (new_kernel k) _ (set_kern (set_kmem m0 (kern s)) s) _ _ E1).
    cbn beta iota. rewrite (bind_Ret _ _ _ _ _ (print_lines_run (new_kernel_lines k) _)). reflexivity.
  - change (fa_avail (falloc m0)) with (sfa_avail (falloc m0)) in Hav. lia.
  - destruct (represents_live _ _ _ (ms_rep _ _ _ Hms)) as ([_ [Hr _ _] _] & _). unfold unrecycled in Hc. rewrite Hc in Hr. exact Hr.
Qed.

Lemma VirtIOBlock_new_run requests n c s ks a :
  kernel_ready n c (kmem (kern s)) ks a -> Forall (fun q => 0 <= q) requests -> 0 <= request_pages requests <= Z.of_nat n -> 0 <= c ->
  exists m, VirtIOBlock_new requests s = Ret (seqZ c (request_pages requests)) (set_kern (set_kmem m (kern s)) s) /\
    kernel_ready (n - Z.to_nat (request_pages requests)) (c + request_pages requests) m ks a.
Proof.
  intros [Hb Hms Hm Hn] Hq Hr Hc. set (m0 := kmem (kern s)) in *. unfold unrecycled in Hb.
  assert (Hav : (n <= Z.to_nat (MEMORY_PAGES - c))%nat).
  { change (fa_avail (falloc m0)) with (sfa_avail (falloc m0)) in Hn. rewrite Hb in Hn. unfold sfa_avail in Hn. cbn in Hn. unfold MEMORY_PAGES in *. lia. }
  destruct (represents_live _ _ _ (ms_rep _ _ _ Hms)) as ([Hs0 [Hst _ _] He] & _). rewrite Hb in He. cbn in He.
  unfold MEMORY_PAGES in *.
  destruct (queue_requests_run requests (Build_dma m0 []) c 0x81000 Hq Hb Hc ltac:(lia) ltac:(lia)) as (d & E & HQ & Hu & Hp).
  exists (dmem d). split; [unfold VirtIOBlock_new, on_kmem, on_kern, on_mem, zoom; fold m0; by rewrite E, HQ|].
  unfold unrecycled in Hu. split; try done.
  - pose proof (ms_live _ _ _ Hms) as Hl. rewrite Forall_forall in Hl. apply (ms_ok_frame m0); [done| |].
    + rewrite Hu. rewrite Hb in Hst. cbn in Hst. split; [done|split; cbn; [lia|constructor|constructor]|cbn; lia].
    + intros y Hy. specialize (Hl y Hy). cbn in Hl. unfold sfa_live, Recycle.live in Hl. rewrite Hb in Hl. cbn in Hl. split.
      * rewrite Hu. cbn. unfold sfa_live, Recycle.live. cbn. split; [lia|apply not_elem_of_nil].
      * apply Hp. lia.
  - rewrite Hu. change (fa_avail ?x) with (sfa_avail x). unfold sfa_avail. cbn. lia.
Qed.
End memory.

(** ** From power-on to the first process *)

Section power_on.
Context {St C F : Type} `{SL : BlockStoreLaws St} `{Firmware C} `{LogFacade F} (facade0 : F) (LOG : option (list Z)) (Hlog : (set_logger facade0).1 = true).
Context (env : boot) (elf_parse : list Z -> option ElfFile) (k : linker) (Hk : linker_ok k).
#[local] Instance power_laws : FrameAllocatorLaws StackFrameAllocator := StackFrameAllocator_laws (image_end k).
Implicit Types (s : system StackFrameAllocator St C) (fs : BlockManager).
(** The assembler's placement of the instructions of the trampoline page. *)
Context (addr : nat -> Z) (Haddr : forall i, 0 <= addr i < PAGE_SIZE) (Haddr0 : addr 0%nat = 0).

Lemma trampoline_frame : strampoline k mod PAGE_SIZE = 0 /\ 0 <= strampoline k < 2 ^ 56.
Proof.
  destruct (linker_arith k Hk) as (p0 & pt & p1 & p2 & p3 & p4 & p5 & p6 & p7 & p8 & E & Ho). injection E as _ E _. rewrite E.
  split; [by apply Z.mod_mul|unfold PAGE_SIZE; lia].
Qed.

Lemma list_apps_run {R} (force : M _ (R * BlockManager)) (r : R) fs da f names s s1 :
  force (set_con (shown apps_header (con s)) s) = Ret (r, fs) s1 -> con s1 = shown apps_header (con s) ->
  represents (disk s1) fs da f -> a_ls 0 f = Some names ->
  exists d, list_apps force s = Ret (r, fs) (set_con (listing names (con s)) (set_disk d s1)) /\ represents d fs da f.
Proof.
  intros Ef Hc Hrep Hls. unfold list_apps. rewrite (bind_Ret _ _ _ _ _ (print_run _ s)), (bind_Ret _ _ _ _ _ Ef).
  destruct (ls_refines (disk s1) fs da f 0 names Hrep Hls) as (d & E & Hd). exists d. split; [|exact Hd].
  rewrite (on_disk_bind (ls (root_inode fs)) _ s1 _ _ E), (bind_Ret _ _ _ _ _ (print_lines_run names (set_disk d s1))).
  rewrite (bind_Ret _ _ _ _ _ (print_run _ _)). unfold listing. by rewrite <- Hc.
Qed.

Lemma root_inode_run fs da f s : represents (disk s) fs da f ->
  exists d, on_disk ROOT_INODE s = Ret (fs, root_inode fs) (set_disk d s) /\ represents d fs da f.
Proof.
  intros Hrep. destruct (open_run _ _ _ _ Hrep) as (d & E & Hd). exists d. split; [|done].
  unfold on_disk, zoom, ROOT_INODE. by rewrite (bind_Ret _ _ _ _ _ E).
Qed.

(** Before the first instruction of [rust_main]. *)
Record powered_on s : Prop := {
  po_boot : before_boot (kern s);
  po_frames : falloc (kmem (kern s)) = StackFrameAllocator_new;
}.
(** The image is the one the environment names, its status word returns to user mode, and memory is large enough. *)
Record image_fits (requests data : list Z) (elf : ElfFile) : Prop := {
  if_trampoline : b_strampoline env = strampoline k;
  if_sstatus : Z.testbit (b_sstatus env) 8 = false;
  if_requests : Forall (fun n => 0 <= n) requests;
  if_memory : Z.of_nat KERNEL_TABLES + request_pages requests + Z.of_nat (9 + 3 * regions_pages (elf_regions data elf)) <= MEMORY_PAGES - image_end k;
}.

Lemma request_pages_nonneg requests : Forall (fun n => 0 <= n) requests -> 0 <= request_pages requests.
Proof. unfold request_pages. induction 1; cbn; lia. Qed.

Lemma say_hello_run s : exists c, say_hello facade0 LOG s = Ret tt (set_con c s).
Proof.
  unfold say_hello. destruct (set_logger facade0) as [first f] eqn:Es. cbn in Hlog. subst first.
  set (w := {| facade := set_max_level (max_level_of LOG) f; tick_count := 0; below := s |}).
  assert (E : log_init LOG (logging_start facade0 s) = Ret tt w) by (unfold log_init; rewrite bind_get; cbn [facade logging_start]; by rewrite Es).
  rewrite (bind_Ret _ _ _ _ _ E), log_macro_run. destruct (log_enabled _ _); [by eexists|by exists (con s); destruct s].
Qed.

Lemma power_on_run fs da s f names i t data elf requests fuel :
  powered_on s -> image_fits requests data elf -> elf_ok elf_parse data elf ->
  represents (disk s) fs da f -> a_ls 0 f = Some names -> a_walk (path_names initproc_name) 0 f = Some (Some i) -> a_files f !! i = Some (t, data) ->
  is_bytes data -> Z.of_nat (length data) < 2 ^ 62 -> (length data <= 512 * (fuel - 1))%nat -> (0 < fuel)%nat ->
  exists s' b a ka cx q k0, rust_main facade0 LOG env elf_parse k requests fuel s = Ret (seqZ q (request_pages requests)) s' /\
    boot_state k0 /\ rtc (kstep env) k0 (kern s') /\
    running (kern s') = Some (initproc (kern s')) /\ heap (kern s') = {[initproc (kern s') := b]} /\
    b = set_status Running (new_block env 0 (memory_set (space b)) (trap_cx_ppn (space b)) (stack_top data elf)) /\
    started env (kmem (kern s')) (memory_set (space b)) a data elf (trap_cx_ppn (space b)) cx /\
    cx = app_init_context env (entry_point elf) (stack_top data elf) (MemorySet_token (kernel_space (kern s'))) (KernelStack_top 0) (b_trap_handler env) /\
    spaces (strampoline k) (kmem (kern s')) (memory_set (space b)) a (kernel_space (kern s')) ka (trap_cx_ppn (space b)) /\
    (forall start end_ perm va, (start, end_, perm) ∈ kernel_sections k -> start <= va < end_ ->
       virt_to_phys (kernel_space (kern s')) va (kmem (kern s')) = Ret va (kmem (kern s'))) /\
    represents (disk s') fs da f.
Proof.
  intros [Hbb Hfa] [Htr _ Hrq Hmem] Ho Hrep Hls Hw Hf Hb Hl Hfu Hfu0. destruct (image_end_bounds k Hk) as [_ Hib].
  pose proof (request_pages_nonneg requests Hrq) as Hr0.
  destruct (say_hello_run s) as [c00 E0]. set (s0 := set_con c00 s) in *.
  destruct (mm_init_run k Hk s0 Hfa ltac:(lia)) as (ks & m & c & ka & E1 & Hkr & Hc). set (n := (Z.to_nat _ - _)%nat) in Hkr.
  set (s1 := set_con _ (set_kern (set_kernel_space ks (set_kmem m (kern s0))) s0)) in *.
  destruct (read_time (con s1)) as [now c0] eqn:Et. set (s2 := set_con (set_timer (u64 (now + CLOCK_FREQ / TICKS_PER_SEC)) c0) s1).
  assert (E2 : next_trigger s1 = Ret tt s2) by (unfold next_trigger; rewrite bind_get; by rewrite Et).
  set (s2h := set_con (shown apps_header (con s2)) s2).
  destruct (VirtIOBlock_new_run k requests n c s2h ks ka Hkr Hrq ltac:(unfold n; lia) ltac:(lia)) as (m3 & E3 & Hkr3).
  set (s3 := set_kern (set_kmem m3 (kern s2h)) s2h) in *.
  destruct (root_inode_run fs da f s3 Hrep) as (d4 & E4 & Hrep4). set (s4 := set_disk d4 s3) in *.
  assert (Ef : ROOT_INODE_force requests s2h = Ret (seqZ c (request_pages requests), fs) s4)
    by (unfold ROOT_INODE_force; by rewrite (bind_Ret _ _ s2h _ s3 E3), (bind_Ret _ _ s3 _ s4 E4)).
  destruct (list_apps_run _ _ fs da f names s2 s4 Ef eq_refl Hrep4 Hls) as (d5 & E5 & Hrep5). set (s5 := set_con _ (set_disk d5 s4)) in *.
  destruct (kernel_sections_ok k Hk) as (_ & _ & Hbd). rewrite Forall_forall in Hbd.
  assert (Hfree : forall w, TRAMPOLINE_VPN - 3 < w < TRAMPOLINE_VPN -> ka !! w = None).
  { intros w Hwv. apply (km_else _ _ (kr_map _ _ _ _ _ _ Hkr)); [lia|]. intros r Hr Hv. destruct (Hbd r Hr). unfold in_section, TRAMPOLINE_VPN in *. lia. }
  assert (Hcs : can_start env elf_parse (kern s5) ka 0 {| p_current := 1; p_recycled := [] |} data elf).
  { split; try done.
    - rewrite Htr. apply trampoline_frame.
    - apply Hkr3.
    - change (pids (kern s5)) with (pids (kern s)). by rewrite (bb_pids _ Hbb).
    - split; apply Hfree; vm_compute; done.
    - pose proof (kr_free _ _ _ _ _ _ Hkr3) as Hfr. change (kmem (kern s5)) with m3. etrans; [|exact Hfr]. unfold n. lia. }
  destruct Hbb as [Hb1 Hb2 Hb3 Hb4 Hb5].
  destruct (boot_run env elf_parse fs da s5 f i t data elf ka fuel ltac:(by split) Hcs Hrep5 Hw Hf Hb Hl Hfu Hfu0)
    as (s6 & b & a & ka' & cx & E6 & Hbs & Hh & Hb' & Hsd & Hcx & Hks & Hrep6 & Hoth & Hap & _).
  destruct (first_turn_run env (kern s6) b Hbs Hh) as [E7 Hst].
  exists (set_kern (first_running (kern s6) b) s6), (set_status Running b), a, ka', cx, c, (kern s6).
  split; [|split; [exact Hbs|split; [exact Hst|split; [done|split; [done|split; [|split; [exact Hsd|split; [exact Hcx|split; [|split; [|exact Hrep6]]]]]]]]]].
  - unfold rust_main. rewrite (bind_Ret _ _ s tt s0 E0), (bind_Ret _ _ s0 tt s1 E1), (bind_Ret _ _ s1 tt s2 E2), (bind_Ret _ _ s2 _ s5 E5).
    cbn beta iota. rewrite (bind_Ret _ _ s5 tt s6 E6), (on_kern_bind _ _ s6 tt _ E7). reflexivity.
  - by rewrite Hb' at 1.
  - split; [apply Hsd|apply Hsd|rewrite <- Htr; apply Hsd|exact Hks| |].
    + rewrite Hoth by (unfold stack_vpn, TRAMPOLINE_VPN; lia). apply (km_trampoline _ _ (kr_map _ _ _ _ _ _ Hkr)).
    + intros Hy. apply (Hap _ Hy). by destruct (data_frame_footprint _ _ _ (sd_frame _ _ _ _ _ _ _ _ Hsd)).
  - intros start end_ perm va Hs Hva.
    assert (Hsm : sections_mapped k ka').
    { intros r w Hr Hv. destruct (Hbd r Hr). rewrite Hoth by (unfold stack_vpn, in_section in *; lia). by apply (km_section _ _ (kr_map _ _ _ _ _ _ Hkr)). }
    change (kmem (kern (set_kern (first_running (kern s6) b) s6))) with (kmem (kern s6)).
    change (kernel_space (kern (set_kern (first_running (kern s6) b) s6))) with (kernel_space (kern s6)).
    destruct (kernel_identity k _ _ ka' (start, end_, perm) va Hk Hks Hsm Hs Hva) as [Ht _]. cbn in Hva. destruct (kernel_sections_ok k Hk) as (Hso & _).
    rewrite Forall_forall in Hso. destruct (Hso _ Hs) as [Hr1 Hr2 _ _]. cbn in Hr1, Hr2.
    unfold virt_to_phys. rewrite va_from_usize_mod, Z.mod_small by lia. by rewrite (bind_Ret _ _ _ _ _ Ht).
Qed.

(** C10. From power-on, with a page-aligned image, enough memory for 21 kernel tables, the driver's
    queues and the program, and a disk with a program named initproc, rust_main runs through to the
    first process: the frame allocator, the kernel's address space, the device queue (a run of
    consecutive frames) and the file system are set up, exactly one process exists, it is running
    and loaded with the bytes of its file, and every address of the kernel image still translates to
    itself; and trap_return then leads through the trampoline to user mode at the entry point of the
    program, with its stack pointer at the top of its stack. *)
Theorem power_on_starts fs da s f names i t data elf requests fuel :
  powered_on s -> image_fits requests data elf -> elf_ok elf_parse data elf ->
  represents (disk s) fs da f -> a_ls 0 f = Some names -> a_walk (path_names initproc_name) 0 f = Some (Some i) -> a_files f !! i = Some (t, data) ->
  is_bytes data -> Z.of_nat (length data) < 2 ^ 62 -> (length data <= 512 * (fuel - 1))%nat -> (0 < fuel)%nat ->
  exists s' b a ka cx q k0, rust_main facade0 LOG env elf_parse k requests fuel s = Ret (seqZ q (request_pages requests)) s' /\
    boot_state k0 /\ rtc (kstep env) k0 (kern s') /\
    running (kern s') = Some (initproc (kern s')) /\ heap (kern s') = {[initproc (kern s') := b]} /\
    b = set_status Running (new_block env 0 (memory_set (space b)) (trap_cx_ppn (space b)) (stack_top data elf)) /\
    started env (kmem (kern s')) (memory_set (space b)) a data elf (trap_cx_ppn (space b)) cx /\
    cx = app_init_context env (entry_point elf) (stack_top data elf) (MemorySet_token (kernel_space (kern s'))) (KernelStack_top 0) (b_trap_handler env) /\
    spaces (strampoline k) (kmem (kern s')) (memory_set (space b)) a (kernel_space (kern s')) ka (trap_cx_ppn (space b)) /\
    (forall start end_ perm va, (start, end_, perm) ∈ kernel_sections k -> start <= va < end_ ->
       virt_to_phys (kernel_space (kern s')) va (kmem (kern s')) = Ret va (kmem (kern s'))) /\
    represents (disk s') fs da f /\
    (forall h0 tfk h, length (gpr h) = 32%nat -> csrs h Satp = csrs (hart_init tfk (kernel_space (kern s')) h0) Satp ->
       exists h', run_asm (strampoline k) addr (length __alltraps) __restore
           (Build_machine (trap_return (strampoline k) addr (MemorySet_token (memory_set (space b))) h) (kmem (kern s'))) =
         Ret tt (Build_machine h' (kmem (kern s'))) /\
         user_mode h' = true /\ pc h' = entry_point elf /\ gpr h' !! Reg.sp = Some (stack_top data elf) /\
         csrs h' Satp = MemorySet_token (memory_set (space b)) /\ csrs h' Stvec = TRAMPOLINE).
Proof.
  intros Hpo Hif Ho Hrep Hls Hw Hf Hb Hl Hfu Hfu0.
  destruct (power_on_run fs da s f names i t data elf requests fuel Hpo Hif Ho Hrep Hls Hw Hf Hb Hl Hfu Hfu0)
    as (s' & b & a & ka & cx & q & k0 & E & Hbs & Hst & Hr & Hh & Hb' & Hsd & Hcx & Hsp & Hid & Hrep').
  exists s', b, a, ka, cx, q, k0. split_and!; try done. intros h0 tfk h Hx Hs.
  change (csrs (hart_init _ _ _) Satp) with (MemorySet_token (kernel_space (kern s'))) in Hs.
  destruct trampoline_frame as [Hal Hst0].
  destruct (restore_run (strampoline k) addr Haddr Hal Hst0 Haddr0 _ _ _ _ _ _ h Hsp Hx Hs) as (h' & E' & [Hg _ Hpc _ Hm [_ Hu _ Hv]]).
  rewrite (sd_cx _ _ _ _ _ _ _ _ Hsd), Hcx in Hg, Hpc, Hm.
  cbn [sstatus app_init_context] in Hm. rewrite (if_sstatus _ _ _ Hif) in Hm. exists h'. split; [exact E'|]. split; [exact Hm|]. split; [exact Hpc|].
  split; [exact (Hg 2%nat ltac:(lia) ltac:(lia) ltac:(lia))|done].
Qed.
End power_on.

(** ** A machine that boots *)

(** A facade that drops nothing above its level and keeps its first logger. *)
Definition level_rank (l : log_Level) : nat := match l with LError => 1 | LWarn => 2 | LInfo => 3 | LDebug => 4 | LTrace => 5 end.
#[export] Instance demo_log : LogFacade (bool * option log_Level) := {
  set_logger f := (negb f.1, (true, f.2));
  set_max_level l f := (f.1, Some l);
  log_enabled l f := f.1 && match f.2 with Some m => (level_rank l <=? level_rank m)%nat | None => false end;
}.
Definition demo_facade : bool * option log_Level := (false, None).
Lemma demo_logger : (set_logger demo_facade).1 = true.
Proof. reflexivity. Qed.

(** The machine at power-on: the example image, an empty kernel, the disk [d]. *)
Definition power_system (d : store BlockFile) : system StackFrameAllocator (store BlockFile) (list Z * list Z) :=
  set_kern (Build_kernel ∅ 0 ProcessManager_new ∅ None PidAllocator_new {| page_table := {| root_ppn := 0; frames := [] |}; areas := [] |}
    {| falloc := StackFrameAllocator_new; phys := ∅ |}) (demo_system d).

Lemma power_on_starts_witness : exists d q s' b, rust_main demo_facade None demo_env demo_parse demo_linker [2] 2 (power_system d) = Ret (seqZ q 2) s' /\
  heap (kern s') = {[initproc (kern s') := b]} /\ pid b = 0 /\ process_status (sched b) = Running.
Proof.
  destruct demo_program_disk as (fs & d & f & Hrep & Hw & Hf & Hls). exists d.
  destruct (power_on_starts demo_facade None demo_logger demo_env demo_parse demo_linker demo_linker_ok (fun i => Z.of_nat (i mod 64) * 4) ltac:(intros i; pose proof (Nat.mod_upper_bound i 64); unfold PAGE_SIZE; lia) eq_refl fs (data_count 1100 1) (power_system d) f [initproc_name] 1 File demo_elf_data
    demo_elf [2] 2) as (s' & b & a & ka & cx & q & k0 & E & _ & _ & _ & Hh & Hb & _).
  - by split.
  - split; [done|done|by repeat constructor|]. change (regions_pages _) with 5%nat. vm_compute. congruence.
  - exact demo_elf_ok.
  - exact Hrep.
  - exact Hls.
  - exact Hw.
  - exact Hf.
  - apply demo_elf_ok.
  - cbn. lia.
  - cbn. lia.
  - lia.
  - exists q, s', b. split; [exact E|]. split; [exact Hh|]. rewrite Hb. split; reflexivity.
Defined.
