(* ===== verification/UserMode.v ===== *)
(** The round trip of a process through the kernel: [__alltraps] on the way in,
    any work of the kernel, [trap_return] and [__restore] on the way out, for the
    same process or another one. *)
From S2P Require Import Prelude Address FrameAllocator PageTable UserBytes Pid MemorySet UserSpace KernelSpace UserMem ElfLoad.
From S2P Require Import Process Lifecycle Exec Signal ExecSpec ForkSpec Trampoline ProcessTree.
From S2P Require Import BlockCache DiskWords Bitmap Layout Mfs Vfs FsInv FsBlocks FsFiles FsGrow FsSpec FsDirs FsCreate FsFormat Files FileCalls FileSpec Diagnostics OpenSpec FileRound Syscalls ExecCall Trap BootSpec Start.

Section user_mode.
Context {T : Type} `{FAL : FrameAllocatorLaws T} (strampoline : Z) (addr : nat -> Z).
Context (Haddr : forall i, 0 <= addr i < PAGE_SIZE) (Haddr0 : addr 0%nat = 0) (Hst : strampoline mod PAGE_SIZE = 0) (Hst0 : 0 <= strampoline < 2 ^ 56).
Implicit Types (m : mem T) (ms ks : MemorySet) (a : gmap Z Z) (h : hart).

Lemma saved_spaces m ms a ks ka f h : spaces strampoline m ms a ks ka f -> length (gpr h) = 32%nat ->
  spaces strampoline (write_trap_cx f (saved_cx (read_trap_cx f m) h) m) ms a ks ka f /\
  read_trap_cx f (write_trap_cx f (saved_cx (read_trap_cx f m) h) m) = saved_cx (read_trap_cx f m) h.
Proof.
  intros Hsp Hx. pose proof (user_frame_length m ms a TRAP_VPN f (sp_user _ _ _ _ _ _ _ Hsp) (sp_frame _ _ _ _ _ _ _ Hsp)) as Hw.
  assert (Hl : length (tx (saved_cx (read_trap_cx f m) h)) = 32%nat) by (cbn; by rewrite !length_insert).
  split; [|by apply read_write_trap_cx].
  unfold write_trap_cx. apply spaces_set_page; [exact Hsp|]. rewrite length_splice; [exact Hw|].
  rewrite Hw. cbn [sstatus sepc kernel_satp kernel_sp trap_handler]. rewrite length_app, Hl. vm_compute. lia.
Qed.

(** C7. A trap from user mode runs __alltraps through the two page tables: every register but x0 and
    tp is saved in the trap context, with sstatus and sepc, and the hart is in trap_handler on the
    kernel stack with the kernel's page table. Whatever the kernel does then, trap_return and
    __restore run through to user mode in the process whose page table they are given: its
    registers, status and program counter are those of its trap context and it is ready for the next
    trap. If that context is the saved one, the program continues as if nothing had happened. *)
Theorem trap_roundtrip m ms a ks ka f h :
  spaces strampoline m ms a ks ka f -> user_hart ms h -> kernel_satp (read_trap_cx f m) = MemorySet_token ks ->
  exists h1, let cx := read_trap_cx f m in let m1 := write_trap_cx f (saved_cx cx h) m in
    run_asm strampoline addr 0 __alltraps (Build_machine (set_pc (csrs h Stvec) h) m) = Ret tt (Build_machine h1 m1) /\
    csrs h1 Satp = MemorySet_token ks /\ xget Reg.sp h1 = kernel_sp cx /\ pc h1 = Process.trap_handler cx /\ length (gpr h1) = 32%nat /\
    spaces strampoline m1 ms a ks ka f /\ read_trap_cx f m1 = saved_cx cx h /\
    forall m2 ms2 a2 ks2 ka2 f2 h', spaces strampoline m2 ms2 a2 ks2 ka2 f2 -> length (gpr h') = 32%nat -> csrs h' Satp = MemorySet_token ks2 ->
      exists h2, run_asm strampoline addr (length __alltraps) __restore (Build_machine (trap_return strampoline addr (MemorySet_token ms2) h') m2) =
          Ret tt (Build_machine h2 m2) /\
        resumed (read_trap_cx f2 m2) ms2 h' h2 /\
        (read_trap_cx f2 m2 = saved_cx cx h ->
          pc h2 = csrs h Sepc /\ csrs h2 Sstatus = csrs h Sstatus /\
          forall r, (r < 32)%nat -> r <> 0%nat -> r <> 4%nat -> gpr h2 !! r = gpr h !! r).
Proof.
  intros Hsp Hu Hks. destruct (alltraps_run strampoline addr Haddr Hst Hst0 Haddr0 m ms a ks ka f h Hsp Hu Hks) as (h1 & E & Hs & Hp & Hpc & Hx1).
  destruct (saved_spaces m ms a ks ka f h Hsp (uh_regs _ _ Hu)) as [Hsp1 Hrd]. exists h1. cbn zeta in *.
  split_and!; try done. intros m2 ms2 a2 ks2 ka2 f2 h' Hsp2 Hx Hs2.
  destruct (restore_run strampoline addr Haddr Hst Hst0 Haddr0 m2 ms2 a2 ks2 ka2 f2 h' Hsp2 Hx Hs2) as (h2 & E2 & Hr).
  exists h2. split; [exact E2|split; [exact Hr|]]. intros Ecx. destruct Hr as [Hg _ Hpc2 Hst2 _ _]. rewrite Ecx in Hg, Hpc2, Hst2.
  split; [exact Hpc2|split; [exact Hst2|]]. intros r Hr H0 H4. rewrite (Hg r Hr H0 H4). cbn [saved_cx tx].
  by rewrite !list_lookup_insert_ne.
Qed.
End user_mode.

(** A hart in the middle of a program of that memory. *)
Definition user_demo (ms : MemorySet) : hart :=
  {| gpr := Z.of_nat <$> seq 100 32;
     csrs := fun c => match c with Sscratch => TRAP_CONTEXT | Satp => MemorySet_token ms | Stvec => TRAMPOLINE | Sepc => 0x10120 | _ => 0 end;
     pc := 0x10120; user_mode := true |}.

Lemma trap_roundtrip_witness : exists (m m1 : mem StackFrameAllocator) ms h1 addr,
  run_asm (strampoline demo_linker) addr 0 __alltraps (Build_machine (set_pc TRAMPOLINE (user_demo ms)) m) = Ret tt (Build_machine h1 m1) /\
  exists h2, run_asm (strampoline demo_linker) addr (length __alltraps) __restore
      (Build_machine (trap_return (strampoline demo_linker) addr (MemorySet_token ms) h1) m1) = Ret tt (Build_machine h2 m1) /\
    pc h2 = 0x10120 /\ gpr h2 !! Reg.sp = Some 102.
Proof.
  destruct demo_program_disk as (fs & d & f & Hrep & Hw & Hf & Hls). set (addr := fun i => Z.of_nat (i mod 64) * 4).
  assert (Haddr : forall i, 0 <= addr i < PAGE_SIZE) by (intros i; unfold addr; pose proof (Nat.mod_upper_bound i 64); unfold PAGE_SIZE; lia).
  assert (Hif : image_fits demo_env demo_linker [2] demo_elf_data demo_elf).
  { split; [done|done|by repeat constructor|]. change (regions_pages _) with 5%nat. vm_compute. congruence. }
  destruct (power_on_run demo_facade None demo_logger demo_env demo_parse demo_linker demo_linker_ok fs (data_count 1100 1) (power_system d) f [initproc_name] 1 File demo_elf_data
    demo_elf [2] 2 ltac:(by split) Hif demo_elf_ok Hrep Hls Hw Hf ltac:(apply demo_elf_ok) ltac:(cbn; lia) ltac:(cbn; lia) ltac:(lia))
    as (s' & b & a & ka & cx & q & k0 & _ & _ & _ & _ & _ & _ & Hsd & Hcx & Hsp & _).
  destruct (trampoline_frame demo_linker demo_linker_ok) as [Hal Hst0].
  destruct (trap_roundtrip (FAL := power_laws demo_linker) (strampoline demo_linker) addr Haddr eq_refl Hal Hst0 _ _ _ _ _ _ (user_demo (memory_set (space b))) Hsp ltac:(by split)
    ltac:(by rewrite (sd_cx _ _ _ _ _ _ _ _ Hsd), Hcx)) as (h1 & E1 & Hs1 & _ & _ & Hx1 & Hsp1 & Hrd & Hback).
  eexists _, _, (memory_set (space b)), h1, addr. split; [exact E1|].
  destruct (Hback _ _ _ _ _ _ h1 Hsp1 Hx1 Hs1) as (h2 & E2 & _ & Hsame).
  exists h2. split; [exact E2|]. destruct (Hsame Hrd) as (Hpc & _ & Hg). split; [exact Hpc|]. exact (Hg 2%nat ltac:(lia) ltac:(lia) ltac:(lia)).
Defined.
