(* ===== verification/Image.v ===== *)
(** The image tool: [micro_fs_pack] of [micro-fs-fuse/src/main.rs], and what a
    machine finds on the image it makes.

    The host's directories are parameters: the names of the files of the source
    directory, and the contents of the files of the target directory. *)
From Stdlib Require Import ZifyNat.
From S2P Require Import Prelude Address FrameAllocator PageTable UserBytes Pipe Pid MemorySet UserSpace KernelSpace UserMem Dma ElfLoad.
From S2P Require Import Process Lifecycle Exec Signal ExecSpec ForkSpec Trampoline ProcessTree.
From S2P Require Import BlockCache DiskWords Bitmap Layout Codecs InodeBlocks Mfs Vfs FsInv FsBlocks FsFiles FsGrow FsSpec FsDirs FsCreate FsFormat.
From S2P Require Import Files FileCalls FileSpec Diagnostics OpenSpec FileRound Syscalls ExecCall Trap BootSpec Start.

(** ** The tool *)

(** [File::set_len]: cut, or extended with zeros. *)
Definition set_len (n : nat) (f : BlockFile) : BlockFile := take n f ++ zeros (n - length f).
Definition IMAGE_BLOCKS : Z := 16 * 2048.

Section pack.
Context {St : Type} `{BlockStore St} (host : list Z -> option (list Z)).
Implicit Types (fs : BlockManager).

(** The name up to the first dot. *)
Definition app_name (file_name : list Z) : option (list Z) := n ← find_index (fun c => c =? 46) file_name; Some (take n file_name).
Definition pack_app fs (app : list Z) : M St unit :=
  let! all_data := unwrap (host app) in
  let! o := create fs (root_inode fs) app in
  let! inode := unwrap o in
  let! _ := Inode_write_at fs inode 0 all_data in
  ret tt.
Definition micro_fs_pack (source : list (list Z)) : M St BlockManager :=
  let! mfs := BlockManager_create IMAGE_BLOCKS 1 in
  let! apps := unwrap (mapM app_name source) in
  for_each apps (pack_app mfs) ;;;
  ret mfs.
End pack.

(** ** What is on the image *)

Definition app_blocks (apps : list (list Z * list Z)) : Z := foldr (fun app n => file_blocks app.2 + n) 0 apps.
(** The applications, in order, are the files 1, 2, ... of the root directory. *)
Record packed (total : Z) (apps : list (list Z * list Z)) (a : afs) : Prop := {
  pk_dir : exists c, a_files a !! 0 = Some (Dir, c) /\ length c = (32 * length apps)%nat /\ a_names (entries c) = Some apps.*1 /\
    (forall name, name ∉ apps.*1 -> a_find (entries c) name = Some None) /\
    forall k app, apps !! k = Some app -> a_find (entries c) app.1 = Some (Some (Z.of_nat k + 1));
  pk_files k app : apps !! k = Some app -> a_files a !! (Z.of_nat k + 1) = Some (File, app.2);
  pk_dom i : is_Some (a_files a !! i) <-> 0 <= i <= Z.of_nat (length apps);
  pk_free : Z.of_nat (a_free a) = total - total_blocks (32 * Z.of_nat (length apps)) - app_blocks apps;
}.
Record app_ok (app : list Z * list Z) : Prop := {
  ao_name : good_name app.1;
  ao_length : (0 < length app.1 <= 27)%nat;
  ao_slash : 47 ∉ app.1;
  ao_data : is_bytes app.2;
  ao_size : 0 < Z.of_nat (length app.2) <= MAX_SIZE;
}.

Lemma packed_nil total ib : 0 <= data_count total ib -> packed (data_count total ib) [] (a_format total ib).
Proof.
  intros Hc. split.
  - exists []. by split_and!.
  - intros k app Hk. done.
  - intros i. cbn [a_files a_format]. rewrite lookup_singleton_is_Some. change (Z.of_nat (length [])) with 0. lia.
  - cbn [a_free a_format app_blocks foldr]. change (total_blocks (32 * Z.of_nat (length []))) with 0. lia.
Qed.

Lemma packed_new total apps a max : packed total apps a -> Z.of_nat (length apps) + 1 < max -> new_inode max a = Some (Z.of_nat (length apps) + 1).
Proof.
  intros Hp Hm. unfold new_inode. set (n := Z.of_nat (length apps) + 1).
  assert (E : seqZ 0 max = seqZ 0 n ++ n :: seqZ (n + 1) (max - n - 1)).
  { replace max with (n + (max - n)) at 1 by lia. rewrite seqZ_app by lia. f_equal. by rewrite seqZ_cons by lia. }
  rewrite E, filter_app. assert (Hf : filter (fun i => a_files a !! i = None) (seqZ 0 n) = []).
  { destruct (filter _ (seqZ 0 n)) as [|i l] eqn:Ef; [done|]. exfalso.
    assert (Hi : i ∈ filter (fun i => a_files a !! i = None) (seqZ 0 n)) by (rewrite Ef; constructor). apply list_elem_of_filter in Hi as [Hn Hi%elem_of_seqZ]. assert (Hs : is_Some (a_files a !! i)) by (apply (pk_dom _ _ _ Hp); lia). rewrite Hn in Hs. by destruct Hs. }
  rewrite Hf, filter_cons_True; [done|]. apply eq_None_not_Some. intros Hs%(pk_dom _ _ _ Hp). lia.
Qed.

(** Room for [apps]: their blocks, those of the directory, an inode each. *)
Definition image_room (total max : Z) (apps : list (list Z * list Z)) : Prop :=
  total_blocks (32 * Z.of_nat (length apps)) + app_blocks apps <= total /\ Z.of_nat (length apps) < max /\ 32 * Z.of_nat (length apps) <= MAX_SIZE.

Lemma app_blocks_app l l' : app_blocks (l ++ l') = app_blocks l + app_blocks l'.
Proof. unfold app_blocks. induction l as [|x l IH]; cbn [foldr app]; lia. Qed.
Lemma total_blocks_nonneg z : 0 <= z <= MAX_SIZE -> 0 <= total_blocks z.
Proof. intros Hz. rewrite total_blocks_cnt by done. lia. Qed.
Lemma app_blocks_nonneg l : Forall app_ok l -> 0 <= app_blocks l.
Proof. unfold app_blocks. induction 1 as [|x l [_ _ _ _ Hs] _ IH]; cbn [foldr]; [done|]. assert (0 <= file_blocks x.2) by (apply total_blocks_nonneg; lia). lia. Qed.

Lemma image_room_prefix total max l l' : Forall app_ok l' -> image_room total max (l ++ l') -> image_room total max l.
Proof.
  intros Hl (H1 & H2 & H3). pose proof (app_blocks_nonneg l' Hl). rewrite app_blocks_app in H1. rewrite length_app, Nat2Z.inj_add in *.
  pose proof (total_blocks_mono (32 * Z.of_nat (length l)) (32 * (Z.of_nat (length l) + Z.of_nat (length l'))) ltac:(lia) ltac:(lia)). split_and!; lia.
Qed.

Lemma write_bytes_all data : write_bytes [] 0 data = data.
Proof. unfold write_bytes, splice, zeros. cbn [length Nat.add app take]. rewrite drop_ge by (rewrite length_replicate; lia). by rewrite app_nil_r. Qed.

Lemma is_bytes_forallb l : is_bytes l -> forallb (fun b => (0 <=? b) && (b <? 256)) l = true.
Proof. intros Hl. apply forallb_forall. intros x Hx%list_elem_of_In. rewrite Forall_forall in Hl. specialize (Hl x Hx). unfold is_byte in Hl. rewrite andb_true_iff, Z.leb_le, Z.ltb_lt. lia. Qed.

Lemma a_names_app es e ns name : a_names es = Some ns -> entry_name e = Some name -> a_names (es ++ [e]) = Some (ns ++ [name]).
Proof.
  intros Hes He. revert ns Hes. induction es as [|x es IH]; intros ns Hes; cbn [a_names app] in *.
  - injection Hes as <-. by rewrite He.
  - apply bind_Some in Hes as (n & Hn & Hes). apply bind_Some in Hes as (ns' & Hns & [= <-]). rewrite Hn. cbn [mbind option_bind]. by rewrite (IH ns' Hns).
Qed.

(** The two operations of one application. *)
Lemma packed_step total max apps a app :
  max <= 2 ^ 32 -> packed total apps a -> app_ok app -> app.1 ∉ apps.*1 -> image_room total max (apps ++ [app]) ->
  exists a1 a2, a_create max 0 app.1 File a = Some (Some (Z.of_nat (length apps) + 1), a1) /\
    a_write (Z.of_nat (length apps) + 1) 0 app.2 a1 = Some (Z.of_nat (length app.2), a2) /\ packed total (apps ++ [app]) a2.
Proof.
  intros Hmax Hp [Hnm Hnl Hns Hd Hs] Hnew (Hroom & Hinodes & Hdirsz). pose proof Hp as [(c & Hc & Hcl & Hcn & Hcf & Hcs) Hf Hdom Hfree].
  rewrite app_blocks_app in Hroom. rewrite length_app, Nat2Z.inj_add in *. cbn [length app_blocks foldr] in *.
  set (n := Z.of_nat (length apps)) in *. set (j := n + 1). change (Z.of_nat 1) with 1 in *.
  assert (Hcd : (32 * (length c / 32) = length c)%nat) by (rewrite Hcl, (Nat.mul_comm 32 (length apps)), Nat.div_mul by lia; lia).
  set (c' := write_bytes c (32 * (length c / 32)) (dirent_bytes app.1 j)).
  assert (Hde : length (dirent_bytes app.1 j) = 32%nat).
  { unfold dirent_bytes. apply DirEntry_bytes_roundtrip; cbn [de_name de_inode_number]; [rewrite length_splice; rewrite length_replicate; lia|unfold j; lia]. }
  assert (Hc'l : length c' = (32 * (length apps + 1))%nat) by (unfold c'; rewrite length_write_bytes, Hde; lia).
  assert (Hc'e : entries c' = entries c ++ [{| de_name := splice (replicate 28 0) 0 app.1; de_inode_number := j |}]) by (apply entries_append; unfold j; lia).
  assert (Hen : entry_name {| de_name := splice (replicate 28 0) 0 app.1; de_inode_number := j |} = Some app.1) by (apply entry_name_new; [done|lia]).
  pose proof (total_blocks_mono (32 * n) (32 * (n + 1)) ltac:(lia) Hdirsz) as Hmono.
  set (a1 := {| a_files := <[0 := (Dir, c')]> (<[j := (File, [])]> (a_files a)); a_free := a_free a - Z.to_nat (total_blocks (32 * (n + 1)) - total_blocks (32 * n)) |}).
  set (a2 := {| a_files := <[j := (File, app.2)]> (a_files a1); a_free := a_free a1 - Z.to_nat (file_blocks app.2) |}).
  assert (Hfb : 0 <= file_blocks app.2) by (unfold file_blocks; apply total_blocks_nonneg; lia).
  exists a1, a2. split; [|split].
  - unfold a_create. rewrite Hc, (Hcf _ Hnew). cbn [mbind option_bind]. rewrite (proj2 (Nat.leb_le _ 28)) by lia. rewrite is_bytes_forallb by apply Hnm. cbn [andb].
    rewrite (packed_new total apps a max Hp) by lia. cbn [mbind option_bind]. fold n j c'. unfold a_set_contents. cbn [a_files a_free set_file].
    unfold file_blocks. rewrite Hc'l, Hcl. replace (Z.of_nat (32 * (length apps + 1))) with (32 * (n + 1)) by lia. replace (Z.of_nat (32 * length apps)) with (32 * n) by lia.
    rewrite (proj2 (Z.leb_le _ _)) by lia. rewrite (proj2 (Nat.leb_le _ _)) by lia. done.
  - unfold a_write. assert (Hj : a_files a1 !! j = Some (File, [])) by (cbn; rewrite lookup_insert_ne, lookup_insert_eq by (unfold j; lia); done).
    rewrite Hj. change (0 <=? 0) with true. rewrite (proj2 (Nat.ltb_lt _ _)) by lia. rewrite is_bytes_forallb by done. cbn [andb]. change (Z.to_nat 0) with 0%nat. rewrite write_bytes_all.
    unfold a_set_contents. change (file_blocks []) with 0. rewrite Z.sub_0_r. rewrite (proj2 (Z.leb_le _ _)) by lia.
    rewrite (proj2 (Nat.leb_le _ _)); [done|]. unfold a1. cbn [a_free]. lia.
  - assert (Hl2 : a_files a2 !! 0 = Some (Dir, c')) by (unfold a2, a1; cbn [a_files]; rewrite lookup_insert_ne by (unfold j; lia); by rewrite lookup_insert_eq).
    assert (Ho : forall i, i <> 0 -> i <> j -> a_files a2 !! i = a_files a !! i) by (intros i H0 H1; unfold a2, a1; cbn [a_files]; by rewrite !lookup_insert_ne by done).
    assert (Hj2 : a_files a2 !! j = Some (File, app.2)) by (unfold a2; cbn [a_files]; by rewrite lookup_insert_eq). split.
    + exists c'. split; [exact Hl2|]. split; [rewrite Hc'l, length_app; cbn [length]; lia|]. rewrite Hc'e, fmap_app. split; [by apply a_names_app|]. split.
      * intros name Hname. rewrite not_elem_of_app in Hname. destruct Hname as [Hname Hne]. rewrite (a_find_app _ _ _ (Hcf _ Hname)), Hen. cbn [mbind option_bind].
        rewrite decide_False; [done|]. intros <-. apply Hne. constructor.
      * intros k x Hk. apply lookup_app_Some in Hk as [Hk|[Hge Hk]]; [by apply a_find_app_Some, Hcs|].
        apply list_lookup_singleton_Some in Hk as [Hk <-]. rewrite (a_find_app _ _ _ (Hcf _ Hnew)), Hen. cbn [mbind option_bind].
        rewrite decide_True by done. cbn [de_inode_number]. by replace k with (length apps) by lia.
    + intros k x Hk. apply lookup_app_Some in Hk as [Hk|[Hge Hk]].
      * pose proof (lookup_lt_Some _ _ _ Hk). rewrite Ho by (unfold j, n; lia). by apply Hf.
      * apply list_lookup_singleton_Some in Hk as [Hk <-]. replace (Z.of_nat k + 1) with j by (unfold j, n; lia). exact Hj2.
    + intros i. rewrite length_app. cbn [length]. destruct (decide (i = 0)) as [->|H0]; [rewrite Hl2; split; [lia|eauto]|].
      destruct (decide (i = j)) as [->|H1]; [rewrite Hj2; split; [unfold j, n; lia|eauto]|]. rewrite Ho by done. rewrite Hdom. unfold j, n in *. lia.
    + unfold a2, a1. cbn [a_free]. rewrite app_blocks_app, length_app. cbn [app_blocks foldr length]. 
      replace (32 * Z.of_nat (length apps + 1)) with (32 * (n + 1)) by lia. lia.
Qed.

Section run.
Context {St : Type} `{SL : BlockStoreLaws St} (host : list Z -> option (list Z)).
Implicit Types (s : St) (fs : BlockManager).

(** Every block of the device is what the cache shows. *)
Definition synced s : Prop := forall b, 0 <= b < bs_blocks s -> bs_disk s b = bs_view s b.

Lemma pack_app_run s fs da total apps a app :
  represents s fs da a -> packed total apps a -> app_ok app -> app.1 ∉ apps.*1 -> image_room total (inode_max fs) (apps ++ [app]) -> host app.1 = Some app.2 ->
  exists s' a', pack_app host fs app.1 s = Ret tt s' /\ represents s' fs da a' /\ packed total (apps ++ [app]) a' /\ synced s'.
Proof.
  intros Hrep Hp Ho Hnew Hroom Hh. pose proof (inode_max_small s fs da a Hrep) as Hmax.
  destruct (packed_step total _ apps a app Hmax Hp Ho Hnew Hroom) as (a1 & a2 & Hc & Hw & Hp2).
  destruct (create_refines s fs da a _ _ _ _ _ Hrep Hc) as (s1 & E1 & Hrep1).
  destruct (write_refines s1 fs da a1 _ _ _ _ _ Hrep1 Hw) as (s2 & E2 & Hrep2 & Hsync).
  exists s2, a2. split; [|by split_and!]. unfold pack_app, create. rewrite Hh, bind_unwrap. change (root_inode fs) with (handle fs 0).
  rewrite (bind_Ret _ _ _ _ _ E1). cbn [fmap option_fmap option_map]. by rewrite bind_unwrap, (bind_Ret _ _ _ _ _ E2).
Qed.

Lemma pack_apps_run l s fs da total apps a :
  represents s fs da a -> packed total apps a -> Forall app_ok l -> NoDup (apps ++ l).*1 -> image_room total (inode_max fs) (apps ++ l) ->
  Forall (fun app => host app.1 = Some app.2) l -> synced s ->
  exists s' a', for_each l.*1 (pack_app host fs) s = Ret tt s' /\ represents s' fs da a' /\ packed total (apps ++ l) a' /\ synced s'.
Proof.
  revert s apps a. induction l as [|app l IH]; intros s apps a Hrep Hp Ho Hnd Hroom Hh Hsy.
  { exists s, a. rewrite app_nil_r. by split_and!. }
  apply Forall_cons in Ho as [Ho Hos]. apply Forall_cons in Hh as [Hh Hhs]. rewrite cons_middle, app_assoc in Hnd, Hroom.
  assert (Hnew : app.1 ∉ apps.*1).
  { rewrite !fmap_app in Hnd. apply NoDup_app in Hnd as (Hnd & _). apply NoDup_app in Hnd as (_ & Hx & _). intros Hin. apply (Hx _ Hin). constructor. }
  destruct (pack_app_run s fs da total apps a app Hrep Hp Ho Hnew (image_room_prefix _ _ _ _ Hos Hroom) Hh) as (s1 & a1 & E1 & Hrep1 & Hp1 & Hsy1).
  destruct (IH s1 (apps ++ [app]) a1 Hrep1 Hp1 Hos Hnd Hroom Hhs Hsy1) as (s2 & a2 & E2 & Hrep2 & Hp2 & Hsy2).
  exists s2, a2. cbn [fmap list_fmap for_each]. rewrite (bind_Ret _ _ _ _ _ E1). rewrite <- app_assoc in Hp2. by split_and!.
Qed.

(** What goes into an image. *)
Record packable (source : list (list Z)) (apps : list (list Z * list Z)) : Prop := {
  pa_names : mapM app_name source = Some apps.*1;
  pa_host : Forall (fun app => host app.1 = Some app.2) apps;
  pa_ok : Forall app_ok apps;
  pa_distinct : NoDup apps.*1;
  pa_room : image_room (data_count IMAGE_BLOCKS 1) 4096 apps;
}.

Lemma micro_fs_pack_run source apps s : packable source apps -> bs_ok s -> bs_held s = [] -> IMAGE_BLOCKS <= bs_blocks s <= 2 ^ 30 ->
  exists fs s' a, micro_fs_pack host source s = Ret fs s' /\ represents s' fs (data_count IMAGE_BLOCKS 1) a /\ packed (data_count IMAGE_BLOCKS 1) apps a /\ synced s'.
Proof.
  intros [Hn Hh Ho Hd Hroom] Hok Hheld Hb. assert (HP : format_params (bs_blocks s) IMAGE_BLOCKS 1) by (split; unfold IMAGE_BLOCKS in *; lia).
  destruct (formatted_geometry _ _ _ HP) as (_ & Hmax & _). destruct (format_run s IMAGE_BLOCKS 1 Hok Hheld HP) as (s1 & E1 & Hrep & Hsy).
  assert (Hp0 : packed (data_count IMAGE_BLOCKS 1) [] (a_format IMAGE_BLOCKS 1)) by (apply packed_nil; vm_compute; discriminate).
  destruct (pack_apps_run apps s1 _ _ _ [] _ Hrep Hp0 Ho Hd) as (s2 & a2 & E2 & Hrep2 & Hp2 & Hsy2); [by rewrite Hmax|exact Hh|exact Hsy|].
  exists (formatted IMAGE_BLOCKS 1), s2, a2. split; [|by split_and!].
  unfold micro_fs_pack. rewrite (bind_Ret _ _ _ _ _ E1), Hn, bind_unwrap, (bind_Ret _ _ _ _ _ E2). done.
Qed.
End run.

Section remounted.
Context {D : Type} `{DL : BlockDeviceLaws D}.
Lemma synced_remount (s : store D) fs da a : represents s fs da a -> synced s -> represents (BlockCacheManager_new (device s)) fs da a.
Proof.
  intros Hrep Hs. destruct (rp_inodes _ _ _ _ Hrep) as (I & HI & _). pose proof (fi_ok _ _ _ _ HI) as Hok.
  apply (represents_agree s); [exact Hrep|exact (BlockCacheManager_new_ok _ (so_dev _ Hok))|reflexivity|reflexivity|].
  intros b Hb. exact (Hs b Hb).
Qed.
End remounted.

(** The file before the tool runs has any contents. *)
Lemma set_len_ok (n : nat) (old : BlockFile) : is_bytes old -> Z.of_nat (n * block_size) < 2 ^ 64 ->
  image_ok (set_len (n * block_size) old) /\ length (set_len (n * block_size) old) = (n * block_size)%nat.
Proof.
  intros Hb Hn. assert (Hl : length (set_len (n * block_size) old) = (n * block_size)%nat) by (unfold set_len; rewrite length_app, length_take, length_zeros; lia).
  split; [|exact Hl]. split; [|split; [rewrite Hl; by apply Nat.Div0.mod_mul|by rewrite Hl]].
  unfold set_len. apply Forall_app. split; [by apply Forall_take|]. apply Forall_replicate. unfold is_byte. lia.
Qed.
Definition IMAGE_LEN : nat := Z.to_nat IMAGE_BLOCKS * block_size.
Lemma IMAGE_LEN_Z : Z.of_nat IMAGE_LEN = IMAGE_BLOCKS * BLOCK_SZ.
Proof. unfold IMAGE_LEN. rewrite Nat2Z.inj_mul, Z2Nat.id by done. reflexivity. Qed.
Lemma image_len_ok (old : BlockFile) : is_bytes old -> image_ok (set_len IMAGE_LEN old) /\ length (set_len IMAGE_LEN old) = IMAGE_LEN.
Proof. intros Hb. unfold IMAGE_LEN. apply set_len_ok; [exact Hb|]. rewrite Nat2Z.inj_mul, Z2Nat.id by done. vm_compute. reflexivity. Qed.
#[global] Opaque IMAGE_LEN.

Section boots.
Context {C F : Type} `{Firmware C} `{LogFacade F} (facade0 : F) (LOG : option (list Z)) (Hlog : (set_logger facade0).1 = true).
Context (env : boot) (elf_parse : list Z -> option ElfFile) (k : linker) (Hk : linker_ok k).
Context (host : list Z -> option (list Z)).
#[local] Instance image_laws : FrameAllocatorLaws StackFrameAllocator := StackFrameAllocator_laws (image_end k).

(** C11. The image tool packs any list of applications with distinct names of at most 27 bytes and
    non-empty contents that fits the image, into a file with any contents before; and, when the
    host's initproc is a loadable program that fits memory, a machine that powers on with that image
    and an empty cache runs through to the first process, loaded with the bytes the host had for
    initproc, while the file system it sees lists exactly the applications, in order, and each path
    leads to the bytes the host had. *)
Theorem packed_image_boots source (apps : list (list Z * list Z)) (old : BlockFile) i data elf requests fuel :
  packable host source apps -> is_bytes old -> apps !! i = Some (initproc_name, data) -> image_fits env k requests data elf -> elf_ok elf_parse data elf ->
  (length data <= 512 * (fuel - 1))%nat ->
  exists fs p, micro_fs_pack host source (BlockCacheManager_new (set_len IMAGE_LEN old)) = Ret fs p /\
    forall s : system StackFrameAllocator (store BlockFile) C, powered_on s -> disk s = BlockCacheManager_new (device p) ->
      exists s' b a cx q f, rust_main facade0 LOG env elf_parse k requests fuel s = Ret (seqZ q (request_pages requests)) s' /\
        running (kern s') = Some (initproc (kern s')) /\ heap (kern s') = {[initproc (kern s') := b]} /\
        started env (kmem (kern s')) (memory_set (space b)) a data elf (trap_cx_ppn (space b)) cx /\
        represents (disk s') fs (data_count IMAGE_BLOCKS 1) f /\ a_ls 0 f = Some apps.*1 /\
        forall j app, apps !! j = Some app ->
          a_walk (path_names app.1) 0 f = Some (Some (Z.of_nat j + 1)) /\ a_files f !! (Z.of_nat j + 1) = Some (File, app.2).
Proof.
  intros Hpk Hold Hi Hif Ho Hfu. destruct (image_len_ok old Hold) as [Him Hlen].
  destruct (micro_fs_pack_run (SL := cache_laws) host source apps (BlockCacheManager_new (set_len IMAGE_LEN old)) Hpk) as (fs & p & f & E & Hrep & Hp & Hsy).
  { by apply BlockCacheManager_new_ok. }
  { reflexivity. }
  { change (IMAGE_BLOCKS <= Z.of_nat (length (set_len IMAGE_LEN old)) / BLOCK_SZ <= 2 ^ 30). rewrite Hlen, IMAGE_LEN_Z, Z.div_mul by done. vm_compute. intuition congruence. }
  exists fs, p. split; [exact E|]. intros s Hpo Hd. pose proof (synced_remount p fs _ f Hrep Hsy) as Hrep'.
  destruct Hp as [(c & Hc & _ & Hcn & _ & Hcs) Hf _ _].
  assert (Hls : a_ls 0 f = Some apps.*1) by (unfold a_ls; by rewrite Hc).
  assert (Hwalk : forall j app, apps !! j = Some app -> a_walk (path_names app.1) 0 f = Some (Some (Z.of_nat j + 1)) /\ a_files f !! (Z.of_nat j + 1) = Some (File, app.2)).
  { intros j app Hj. split; [|by apply Hf]. pose proof (pa_ok _ _ _ Hpk) as Hok. rewrite Forall_forall in Hok. destruct (Hok app) as [_ Hnl Hns _ _]; [by apply list_elem_of_lookup; exists j|].
    rewrite path_names_simple by (done || (intros E0; rewrite E0 in Hnl; cbn in Hnl; lia)). cbn [a_walk]. by rewrite Hc, (Hcs j app Hj). }
  pose proof (pa_ok _ _ _ Hpk) as Hok. rewrite Forall_forall in Hok. destruct (Hok (initproc_name, data)) as [_ _ _ Hdb Hds]; [by apply list_elem_of_lookup; exists i|]. cbn in Hdb, Hds.
  assert (Hms : MAX_SIZE < 2 ^ 62) by (vm_compute; reflexivity). assert (Hdl : Z.of_nat (length data) < 2 ^ 62) by (eapply Z.le_lt_trans; [apply Hds|exact Hms]).
  assert (Hfu0 : (0 < fuel)%nat) by (clear -Hfu Hds; destruct fuel; [|lia]; cbn in Hfu; destruct Hds; lia).
  destruct (Hwalk i _ Hi) as [Hw Hfi]. cbn [fst snd] in Hw, Hfi. rewrite <- Hd in Hrep'.
  destruct (power_on_run facade0 LOG Hlog env elf_parse k Hk fs _ s f _ _ File data elf requests fuel Hpo Hif Ho Hrep' Hls Hw Hfi Hdb Hdl Hfu Hfu0)
    as (s' & b & a & ka & cx & q & k0 & E' & _ & _ & Hr & Hh & _ & Hsd & _ & _ & _ & Hrep2).
  exists s', b, a, cx, q, f. by split_and!.
Qed.
End boots.

(** ** An image that boots *)

Definition demo_host (name : list Z) : option (list Z) := if decide (name = initproc_name) then Some demo_elf_data else None.
Lemma demo_packable : packable demo_host [initproc_name ++ [46; 114; 115]] [(initproc_name, demo_elf_data)].
Proof.
  split.
  - reflexivity.
  - by repeat constructor.
  - apply Forall_singleton. split.
    + split; [vm_compute; reflexivity|]. split; [refine (bool_decide_unpack _ _); vm_compute; exact I|]. repeat constructor; unfold is_byte; lia.
    + cbn. lia.
    + refine (bool_decide_unpack _ _). vm_compute. exact I.
    + apply demo_elf_ok.
    + vm_compute. intuition congruence.
  - apply NoDup_singleton.
  - split; vm_compute; intuition congruence.
Qed.

Lemma power_system_on d : powered_on (power_system d).
Proof. by split. Qed.

Lemma packed_image_boots_witness : exists fs p, micro_fs_pack demo_host [initproc_name ++ [46; 114; 115]] (BlockCacheManager_new (set_len IMAGE_LEN [])) = Ret fs p /\
  exists s' q, rust_main demo_facade None demo_env demo_parse demo_linker [2] 2 (power_system (BlockCacheManager_new (device p))) = Ret (seqZ q 2) s' /\
    running (kern s') = Some (initproc (kern s')).
Proof.
  destruct (packed_image_boots demo_facade None demo_logger demo_env demo_parse demo_linker demo_linker_ok demo_host [initproc_name ++ [46; 114; 115]] [(initproc_name, demo_elf_data)] [] 0
    demo_elf_data demo_elf [2] 2 demo_packable) as (fs & p & E & Hboot).
  - constructor.
  - reflexivity.
  - split; [done|done|by repeat constructor|]. change (regions_pages _) with 5%nat. vm_compute. congruence.
  - exact demo_elf_ok.
  - cbn. lia.
  - exists fs, p. split; [exact E|].
    destruct (Hboot (power_system _) (power_system_on _) eq_refl) as (s' & b & a & cx & q & f & E' & Hr & _).
    exists s', q. split; [exact E'|exact Hr].
Defined.
