(* ===== verification/ExitSpec.v ===== *)
(** Leaving: [exit_current_and_run_next] of [os/src/process/mod.rs] in a state the
    kernel can reach never panics, and what it leaves behind. *)
From S2P Require Import Prelude Address FrameAllocator PageTable UserBytes Pid MemorySet UserSpace UserMem ElfLoad Process Lifecycle Exec Signal ExecSpec ForkSpec ProcessTree.
From S2P Require Import BlockCache DiskWords Bitmap Layout Mfs Vfs FsInv FsBlocks FsFiles FsSpec FsDirs Files FileCalls FileSpec OpenSpec FileRound Syscalls ExecCall BootSpec.

Section exit_spec.
Context {T : Type} `{FAL : FrameAllocatorLaws T} (env : boot).
Implicit Types (k : kernel T) (h : gmap nat ProcessControlBlock).

(** The children [cs] handed to [init]. *)
Record adopted (init : nat) (cs : list nat) h h' : Prop := {
  ad_init b : h !! init = Some b -> h' !! init = Some (set_children (children (family b) ++ cs) b);
  ad_child c b : c ∈ cs -> h !! c = Some b -> h' !! c = Some (set_parent (Some init) b);
  ad_other q : q <> init -> q ∉ cs -> h' !! q = h !! q;
}.

Lemma adopt_run p cs k : p <> initproc k -> NoDup cs -> (forall c, c ∈ cs -> c <> p /\ c <> initproc k /\ is_Some (heap k !! c)) ->
  is_Some (heap k !! initproc k) ->
  exists h', for_each cs (adopt_child p) k = Ret tt (set_heap h' k) /\ adopted (initproc k) cs (heap k) h'.
Proof.
  revert k. induction cs as [|c cs IH]; intros k Hp Hnd Hcs [bi Hbi].
  { exists (heap k). split; [by destruct k|]. split; [|by intros c b ?%elem_of_nil|done]. intros b Hb. rewrite app_nil_r, Hb. by destruct b as [???[]]. }
  apply NoDup_cons in Hnd as [Hc Hnd]. destruct (Hcs c ltac:(by left)) as (Hcp & Hci & [b Hb]).
  set (h1 := <[initproc k := set_children (children (family bi) ++ [c]) bi]> (<[c := set_parent (Some (initproc k)) b]> (heap k))).
  assert (E1 : adopt_child p c k = Ret tt (set_heap h1 k)).
  { unfold adopt_child, not_borrowed. rewrite bind_get. rewrite !(proj2 (Nat.eqb_neq _ _)) by done.
    do 2 (rewrite (bind_Ret _ _ _ tt k) by done). rewrite (bind_Ret _ _ _ _ _ (update_run k c b _ Hb)).
    erewrite update_run; [reflexivity|]. cbn. rewrite lookup_insert_ne by done. exact Hbi. }
  assert (Hh1 : forall q, q <> c -> q <> initproc k -> h1 !! q = heap k !! q) by (intros q Hq Hqi; unfold h1; by rewrite !lookup_insert_ne).
  destruct (IH (set_heap h1 k) Hp Hnd) as (h' & E & [Hin Hch Hot]).
  { intros q Hq. destruct (Hcs q ltac:(by right)) as (? & ? & Hs). split_and!; try done. cbn. rewrite Hh1; [done|by intros ->|done]. }
  { cbn. unfold h1. rewrite lookup_insert_eq. eauto. }
  exists h'. cbn [for_each]. rewrite (bind_Ret _ _ _ _ _ E1). split; [exact E|]. cbn [initproc set_heap heap] in *. split.
  - intros b0 Hb0. assert (b0 = bi) as -> by congruence. rewrite (Hin (set_children (children (family bi) ++ [c]) bi)) by apply lookup_insert_eq.
    cbn. by rewrite <- app_assoc.
  - intros q b0 [->|Hq]%elem_of_cons Hb0.
    + rewrite Hot by done. unfold h1. rewrite lookup_insert_ne, lookup_insert_eq by done. congruence.
    + destruct (Hcs q ltac:(by right)) as (_ & Hqi & _). apply Hch; [done|]. rewrite Hh1; [done|by intros ->|done].
  - intros q Hq [Hqc Hqs]%not_elem_of_cons. rewrite Hot by done. by apply Hh1.
Qed.

(** What is left of a process that has exited with [code]. *)
Definition zombie_block (b : ProcessControlBlock) (code : Z) : ProcessControlBlock :=
  set_space {| memory_set := {| page_table := page_table (memory_set (space b)); areas := [] |}; trap_cx_ppn := trap_cx_ppn (space b);
               base_size := base_size (space b) |}
    (set_children [] (set_exit_code code (set_status Zombie b))).

Lemma adopted_cores init p cs h h' b' bi : adopted init cs (<[p := b']> h) h' -> init <> p -> p ∉ cs -> init ∉ cs -> h !! init = Some bi ->
  (forall c, c ∈ cs -> is_Some (h !! c)) ->
  core_of <$> h' = <[p := core_of b']> (<[init := with_children (children (family bi) ++ cs) (core_of bi)]> (core_of <$> h)).
Proof.
  intros [Hin Hch Hot] Hip Hpc Hic Hbi Hcs. apply map_eq. intros q. rewrite lookup_fmap.
  destruct (decide (q = p)) as [->|Hqp]; [rewrite Hot, !lookup_insert_eq by done; done|]. rewrite (lookup_insert_ne _ p) by done.
  destruct (decide (q = init)) as [->|Hqi]; [rewrite (Hin bi) by (by rewrite lookup_insert_ne); by rewrite lookup_insert_eq|].
  rewrite lookup_insert_ne, lookup_fmap by done. destruct (decide (q ∈ cs)) as [Hq|Hq].
  - destruct (Hcs q Hq) as [b Hb]. rewrite (Hch q b) by (try rewrite lookup_insert_ne; done). by rewrite Hb.
  - by rewrite Hot, lookup_insert_ne by done.
Qed.

(** The children of the running process and the first process. *)
Lemma family_ok k p b : tree_inv (tree_of k) -> heap k !! p = Some b -> pid b <> IDLE_PID ->
  p <> initproc k /\ NoDup (children (family b)) /\ is_Some (heap k !! initproc k) /\
  (forall c, c ∈ children (family b) -> c <> p /\ c <> initproc k /\ is_Some (heap k !! c)).
Proof.
  intros Hi Hb Hpid. pose proof (core_lookup k p b Hb) as Hc. split; [by apply (init_unique k p b)|].
  pose proof (ti_refs_nodup _ Hi) as Hnd. rewrite (crefs_lookup _ p _ Hc) in Hnd. apply NoDup_app in Hnd as (Hnd & _ & _).
  destruct (ti_init _ Hi) as (ci & Hci & _). apply core_lookup_inv in Hci as (bi & Hbi & _). split_and!; [exact Hnd|by exists bi|].
  intros c Hin. assert (Hr : c ∈ crefs (t_cores (tree_of k))) by (rewrite (crefs_lookup _ p _ Hc), elem_of_app; by left).
  apply (ti_refs _ Hi) in Hr as [Hn [cc Hcc]]. apply core_lookup_inv in Hcc as (bc & Hbc & _). split_and!; [|exact Hn|by exists bc].
  intros ->. by apply (ti_self _ Hi p _ Hc).
Qed.

Definition exit_state k (b : ProcessControlBlock) h m : kernel T :=
  Build_kernel h (initproc k) (manager k) (delete (pid b) (pid2pcb k)) None (pids k) (kernel_space k) m.

(** The state in which the children are handed over, and the state at the end, where
    the last reference of the processor is dropped. *)
Definition dying k (p : nat) (b : ProcessControlBlock) (code : Z) : kernel T :=
  set_heap (<[p := set_exit_code code (set_status Zombie b)]> (heap k)) (set_pid2pcb (delete (pid b) (pid2pcb k)) (set_running None k)).

Lemma exit_prefix k p b code h m : running k = Some p -> heap k !! p = Some b -> pid b <> IDLE_PID -> is_Some (pid2pcb k !! pid b) ->
  initproc k <> p -> for_each (children (family b)) (adopt_child p) (dying k p b code) = Ret tt (set_heap h (dying k p b code)) ->
  h !! p = Some (set_exit_code code (set_status Zombie b)) ->
  recycle_data_pages (memory_set (space b)) (kmem k) = Ret {| page_table := page_table (memory_set (space b)); areas := [] |} m ->
  exit_current code k = drop_arc p (exit_state k b (<[p := zombie_block b code]> h) m).
Proof.
  intros Hr Hb Hpid [x Hx] Hpi E5 Hh Em. unfold exit_current, take_current_process. unfold bind at 1. rewrite Hr, bind_unwrap.
  rewrite (bind_Ret _ _ _ _ _ (deref_run (set_running None k) p b Hb)), (proj2 (Z.eqb_neq _ _) Hpid).
  assert (E1 : remove_from_pid2process (pid b) (set_running None k) = Ret tt (set_pid2pcb (delete (pid b) (pid2pcb k)) (set_running None k))).
  { unfold remove_from_pid2process. rewrite bind_get. cbn [pid2pcb set_running]. by rewrite Hx. }
  rewrite (bind_Ret _ _ _ _ _ E1). set (k1 := set_pid2pcb _ _).
  rewrite (bind_Ret _ _ _ _ _ (update_run k1 p b _ Hb)). set (k2 := set_heap _ k1).
  rewrite (bind_Ret _ _ _ _ _ (update_run k2 p (set_status Zombie b) (set_exit_code code) (lookup_insert_eq _ _ _))).
  assert (E2 : set_heap (<[p := set_exit_code code (set_status Zombie b)]> (heap k2)) k2 = dying k p b code).
  { unfold k2, k1, dying, set_heap. cbn. by rewrite insert_insert_eq. }
  rewrite E2, bind_get. change (initproc (dying k p b code)) with (initproc k).
  unfold not_borrowed. rewrite (proj2 (Nat.eqb_neq _ _) Hpi), (bind_Ret (ret tt) _ _ tt _ eq_refl), (bind_Ret _ _ _ _ _ E5).
  rewrite (bind_Ret _ _ _ _ _ (update_run (set_heap h (dying k p b code)) p _ (set_children []) Hh)).
  match goal with |- bind (on_mem ?c) ?g ?s = _ => rewrite (on_mem_bind c g s _ m Em) end.
  erewrite (bind_Ret (update _ _)); [|apply update_run; apply lookup_insert_eq].
  f_equal. unfold exit_state, dying, set_heap, set_kmem, zombie_block. cbn. by rewrite insert_insert_eq.
Qed.

Lemma exit_run k p b a code : tree_inv (tree_of k) -> running k = Some p -> heap k !! p = Some b -> pid b <> IDLE_PID ->
  ms_ok (kmem k) (memory_set (space b)) a ->
  exists h m, exit_current code k = Ret tt (exit_state k b h m) /\ tree_inv (tree_of (exit_state k b h m)) /\
    h !! p = Some (zombie_block b code) /\ adopted (initproc k) (children (family b)) (<[p := zombie_block b code]> (heap k)) h /\
    (forall y, fa_live (falloc m) y <-> fa_live (falloc (kmem k)) y /\ y ∉ areas_frames (areas (memory_set (space b)))) /\
    (forall y, page m y = page (kmem k) y).
Proof.
  intros Hi Hr Hb Hpid Hms. destruct (family_ok k p b Hi Hb Hpid) as (Hpi & Hnd & [bi Hbi] & Hcs).
  destruct (running_lookup k p Hi Hr) as (b' & Hb' & Hst). assert (b' = b) as -> by congruence. clear Hb'.
  assert (Hmap : pid2pcb k !! pid b = Some p).
  { apply (ti_map _ Hi). exists (core_of b). split; [by apply core_lookup|]. split; [done|cbn; congruence]. }
  destruct (recycle_run (kmem k) _ a Hms) as (m & Em & _ & Hlive & Hpage).
  set (b1 := set_exit_code code (set_status Zombie b)). set (z := zombie_block b code).
  set (k4 := dying k p b code).
  destruct (adopt_run p (children (family b)) k4 Hpi Hnd) as (h5 & E5 & Had5).
  { intros c Hc. destruct (Hcs c Hc) as (Hcp & Hci & Hsc). split_and!; try done. cbn. by rewrite lookup_insert_ne. }
  { cbn. rewrite lookup_insert_ne by done. by exists bi. }
  assert (Hpc : p ∉ children (family b)) by (intros Hc; by destruct (Hcs p Hc) as [? _]).
  assert (Had : adopted (initproc k) (children (family b)) (<[p := z]> (heap k)) (<[p := z]> h5)).
  { destruct Had5 as [Hin Hch Hot]. cbn in Hin, Hch, Hot. split.
    - intros b0. rewrite !lookup_insert_ne by done. intros Hb0. apply Hin. by rewrite lookup_insert_ne.
    - intros c b0 Hc. destruct (Hcs c Hc) as (Hcp & _ & _). rewrite !lookup_insert_ne by done. intros Hb0. apply Hch; [done|]. by rewrite lookup_insert_ne.
    - intros q Hq Hqc. destruct (decide (q = p)) as [->|Hqp]; [by rewrite !lookup_insert_eq|]. rewrite !lookup_insert_ne, Hot, lookup_insert_ne by done. done. }
  set (kf := exit_state k b (<[p := z]> h5) m).
  assert (Htf : tree_of kf = t_exit (tree_of k) p (core_of b) (core_of bi)).
  { unfold tree_of, t_exit. cbn. f_equal. rewrite (adopted_cores (initproc k) p (children (family b)) (heap k) _ z bi); try done.
    - intros Hc. by destruct (Hcs _ Hc) as (_ & ? & _).
    - intros c Hc. by destruct (Hcs c Hc) as (_ & _ & ?). }
  assert (Hinv : tree_inv (tree_of kf)).
  { rewrite Htf. apply (tree_inv_exit _ Hi p (core_of b) (core_of bi)); [exact Hr|by apply core_lookup|by apply core_lookup|done]. }
  exists (<[p := z]> h5), m. split; [|split; [exact Hinv|split; [apply lookup_insert_eq|by split_and!]]].
  rewrite (exit_prefix k p b code h5 m Hr Hb Hpid ltac:(by exists p) ltac:(congruence) E5); [|rewrite (ad_other _ _ _ _ Had5) by done; apply lookup_insert_eq|exact Em].
  unfold drop_arc. rewrite bind_get. change (exit_state k b _ m) with kf. by rewrite (zombie_strong_count kf p z Hinv (lookup_insert_eq _ _ _) eq_refl).
Qed.

(** C9. In any state reached from boot, the exit of a process with memory returns to the idle loop
    and leaves it a zombie with its exit code, no children and no areas; its children are children
    of the first process, its identifier is not in PID2PCB, and exactly its data frames are freed. *)
Theorem exit_leaves_zombie k0 k p b a code :
  boot_state k0 -> rtc (kstep env) k0 k -> running k = Some p -> heap k !! p = Some b -> pid b <> IDLE_PID ->
  ms_ok (kmem k) (memory_set (space b)) a ->
  exists k' bz, exit_current code k = Ret tt k' /\ running k' = None /\ pid2pcb k' = delete (pid b) (pid2pcb k) /\
    heap k' !! p = Some bz /\ process_status (sched bz) = Zombie /\ exit_code (family bz) = code /\ children (family bz) = [] /\
    areas (memory_set (space bz)) = [] /\
    (forall c bc, c ∈ children (family b) -> heap k !! c = Some bc -> heap k' !! c = Some (set_parent (Some (initproc k)) bc)) /\
    (exists bi bi', heap k !! initproc k = Some bi /\ heap k' !! initproc k = Some bi' /\ children (family bi') = children (family bi) ++ children (family b)) /\
    (forall y, fa_live (falloc (kmem k')) y <-> fa_live (falloc (kmem k)) y /\ y ∉ areas_frames (areas (memory_set (space b)))).
Proof.
  intros Hb0 Hs Hr Hb Hpid Hms. pose proof (reachable_inv env k0 k Hb0 Hs) as Hi.
  destruct (exit_run k p b a code Hi Hr Hb Hpid Hms) as (h & m & E & _ & Hz & [Hin Hch Hot] & Hlive & _).
  destruct (family_ok k p b Hi Hb Hpid) as (Hpi & _ & [bi Hbi] & Hcs).
  exists (exit_state k b h m), (zombie_block b code). split_and!; try done.
  - intros c bc Hc Hbc. destruct (Hcs c Hc) as (Hcp & _ & _). apply Hch; [done|]. by rewrite lookup_insert_ne.
  - exists bi, (set_children (children (family bi) ++ children (family b)) bi). split_and!; [done| |done]. apply Hin. by rewrite lookup_insert_ne.
Qed.
End exit_spec.

(** ** A child exits *)

#[local] Existing Instance demo_laws.

(** The first process forks and yields; the child runs. *)
Lemma demo_child : exists (k0 k : kernel StackFrameAllocator) p b a, boot_state k0 /\ rtc (kstep demo_env) k0 k /\ running k = Some p /\
  heap k !! p = Some b /\ pid b = 1 /\ sigs b = fresh_sigs /\ ms_ok (kmem k) (memory_set (space b)) a.
Proof.
  destruct demo_running as (fs & f & s & k0 & b & a & ka & pids' & cx & Hb0 & Hst & Hr & _ & Hsg & _ & Hcf & Hm & Hq & Hp & _).
  set (k := kern s) in *. set (p := initproc k) in *.
  destruct (sys_fork_run demo_env k p b a ka _ 1 pids' Hcf (rn_running _ _ _ Hr) Hm) as (child & a' & f' & ks & ka' & q & m & E1 & Eq & Hcp).
  rewrite Hq in Eq. injection Eq as <-. set (k1 := forked_kernel _ _ _ _ _ _ _ _ _ _ _) in E1. set (c := fresh (dom (heap k))).
  set (b1 := set_children (children (family b) ++ [c]) b). set (bc := child_block demo_env p b 1 child f').
  assert (Hcp' : c <> p) by exact (fresh_block k p b (rn_block _ _ _ Hr)).
  assert (Hm1 : manager_ok (manager k1)) by (destruct Hm; split; cbn; rewrite ?length_insert; done).
  assert (Hb1 : heap k1 !! p = Some b1) by (cbn; apply lookup_insert_eq).
  destruct (suspend_current_run k1 p b1 Hm1 (rn_running _ _ _ Hr) Hb1) as (q & Eq1 & Hm2 & E2). cbn in Eq1. rewrite Hq in Eq1. injection Eq1 as <-.
  set (k2 := Build_kernel _ _ _ _ _ _ _ _) in E2.
  assert (Hc2 : heap k2 !! c = Some bc) by (cbn; rewrite !lookup_insert_ne, lookup_insert_eq by done; done).
  assert (Hf2 : fetch_queues (ready_queues (manager k2)) = Some (c, [[p]; []; []; []])) by (cbn; by rewrite Hq).
  pose proof (run_turn_run k2 c bc _ Hf2 Hc2) as E3. set (k3 := set_running _ _) in E3.
  exists k0, k3, c, (set_status Running bc), a'. split; [exact Hb0|]. split; [|split; [done|split; [cbn; apply lookup_insert_eq|split; [done|split; [cbn; by rewrite Hsg|]]]]].
  - eapply (transitivity (R := rtc (kstep demo_env))); [exact Hst|]. eapply rtc_l; [apply (step_fork demo_env k 1 k1); [rewrite Hp; done|exact E1]|].
    eapply rtc_l; [apply (step_yield demo_env k1 k2 E2)|]. apply rtc_once. by apply step_run.
  - exact (uo_ms _ _ _ (cp_child _ _ _ _ _ _ _ _ _ _ _ Hcp)).
Qed.

Lemma exit_leaves_zombie_witness : exists (k k' : kernel StackFrameAllocator) p bz, exit_current 7 k = Ret tt k' /\
  heap k' !! p = Some bz /\ process_status (sched bz) = Zombie /\ exit_code (family bz) = 7.
Proof.
  destruct demo_child as (k0 & k & p & b & a & Hb0 & Hs & Hr & Hb & Hp & _ & Hms).
  destruct (exit_leaves_zombie (FAL := demo_laws) demo_env k0 k p b a 7 Hb0 Hs Hr Hb ltac:(rewrite Hp; discriminate) Hms)
    as (k' & bz & E & _ & _ & Hz & Hst & Hc & _).
  exists k, k', p, bz. split_and!; assumption.
Defined.
