(* ===== verification/TrapSpec.v ===== *)
(** The trap handler end to end ([os/src/trap/mod.rs]): a system call returns to the
    user behind the call with its result in a0; [fork] returns in two processes,
    [exec] enters the new program, a fault runs a handler or ends the process. *)
From stdpp Require Import pretty.
From S2P Require Import Prelude Address FrameAllocator PageTable UserBytes Pipe Pid MemorySet UserSpace UserMem ElfLoad.
From S2P Require Import Process Lifecycle Exec Signal ExecSpec ForkSpec ProcessTree.
From S2P Require Import BlockCache DiskWords Bitmap Layout Codecs Mfs Vfs FsInv FsBlocks FsFiles FsSpec FsDirs FsFormat Files FileCalls FileSpec OpenSpec FileRound Syscalls Trap ExecCall BootSpec UserLib ExitSpec.

Section trap_spec.
Context {T St C : Type} `{FAL : FrameAllocatorLaws T} `{SL : BlockStoreLaws St} `{Firmware C}.
Context (env : boot) (elf_parse : list Z -> option ElfFile) (fs : BlockManager) (str_fuel argv_fuel data_fuel : nat).
Implicit Types (s : system T St C) (k : kernel T) (m : mem T) (ms : MemorySet).

(** ** No signals *)

Record calm (x : Signals) : Prop := {
  ca_none : signals x = 0;
  ca_runs : negb (frozen x) || killed x = true;
}.

(** The turn prints what the scan of the pending signals has to say. *)
Lemma handle_signals_run s text over k1 k2 : check_pending_signals (kern s) = Ret text k1 -> stop_or_go k1 = Ret over k2 ->
  handle_signals s = Ret over (set_con (shown text (con s)) (set_kern k2 s)).
Proof.
  intros E1 E2. unfold handle_signals. rewrite (on_kern_bind _ _ s _ _ E1), (bind_Ret _ _ _ _ _ (print_run text (set_kern k1 s))).
  unfold on_kern, zoom. cbn [kern set_kern set_con]. by rewrite E2.
Qed.
Lemma handle_signals_quiet s over k1 k2 : check_pending_signals (kern s) = Ret [] k1 -> stop_or_go k1 = Ret over k2 ->
  handle_signals s = Ret over (set_kern k2 s).
Proof. intros E1 E2. by rewrite (handle_signals_run s [] over k1 k2 E1 E2). Qed.

Lemma handle_signals_calm s p b : runs (kern s) p b -> calm (sigs b) -> handle_signals s = Ret true s.
Proof.
  intros [Hr Hb] [Hn Hf]. assert (E : check_pending_signals (kern s) = Ret [] (kern s)).
  { unfold check_pending_signals. apply (check_pending_skip _ _ _ p b Hr Hb); [lia|done|]. intros j Hj. unfold pending. by rewrite Hn, Z.bits_0. }
  rewrite (handle_signals_quiet s true _ (kern s) E); [by destruct s|]. unfold stop_or_go.
  rewrite (bind_Ret _ _ _ _ _ (current_unwrap_run _ p Hr)), (bind_Ret _ _ _ _ _ (deref_run _ p b Hb)). by rewrite Hf.
Qed.

Lemma after_trap_calm s p b : runs (kern s) p b -> calm (sigs b) -> after_trap s = Ret ToUser s.
Proof.
  intros Hr Hc. unfold after_trap. rewrite (bind_Ret _ _ _ _ _ (handle_signals_calm s p b Hr Hc)). cbn [negb].
  rewrite (on_kern_same _ _ s None); [done|]. unfold check_signals_error_of_current. destruct Hr as [Hr Hb].
  rewrite (bind_Ret _ _ _ _ _ (current_unwrap_run _ p Hr)), (bind_Ret _ _ _ _ _ (deref_run _ p b Hb)). by rewrite (ca_none _ Hc).
Qed.

(** ** The trap context of the running process *)

Definition with_kmem m s : system T St C := set_kern (set_kmem m (kern s)) s.
Definition with_cx (b : ProcessControlBlock) (cx : TrapContext) m : mem T := write_trap_cx (trap_cx_ppn (space b)) cx m.
Definition cx_of k (b : ProcessControlBlock) : TrapContext := read_trap_cx (trap_cx_ppn (space b)) (kmem k).

(** A process in user mode: its block, its memory and where its trap context is. *)
Record in_user k (p : nat) (b : ProcessControlBlock) (a : gmap Z Z) : Prop := {
  iu_runs : runs k p b;
  iu_user : user_ok (kmem k) (memory_set (space b)) a;
  iu_frame : data_frame (memory_set (space b)) TRAP_VPN (trap_cx_ppn (space b));
}.

Lemma cx_length k p b a : in_user k p b a -> length (tx (cx_of k b)) = 32%nat.
Proof. intros [_ Hu Hf]. apply read_trap_cx_length. by apply (user_frame_length _ (memory_set (space b)) a TRAP_VPN). Qed.

Lemma with_cx_step k p b a cx : in_user k p b a -> length (tx cx) = 32%nat -> user_step (memory_set (space b)) (kmem k) (with_cx b cx (kmem k)).
Proof. intros [_ Hu Hf] Hl. by apply (write_trap_cx_user _ _ a). Qed.

Lemma with_cx_user k p b a cx : in_user k p b a -> length (tx cx) = 32%nat ->
  in_user (set_kmem (with_cx b cx (kmem k)) k) p b a /\ cx_of (set_kmem (with_cx b cx (kmem k)) k) b = cx.
Proof.
  intros Hi Hl. pose proof (with_cx_step k p b a cx Hi Hl) as Hst. destruct Hi as [[Hr Hb] Hu Hf]. split.
  - split; [by split|by apply (user_step_ok _ (kmem k))|done].
  - apply read_write_trap_cx; [|done]. by apply (user_frame_length _ (memory_set (space b)) a TRAP_VPN).
Qed.

Lemma current_trap_ppn_run k p b : runs k p b -> current_trap_ppn k = Ret (trap_cx_ppn (space b)) k.
Proof.
  intros [Hr Hb]. unfold current_trap_ppn. by rewrite (bind_Ret _ _ _ _ _ (current_unwrap_run k p Hr)), (bind_Ret _ _ _ _ _ (deref_run k p b Hb)).
Qed.
Lemma update_cx_run k p b f : runs k p b -> update_trap_cx f k = Ret tt (set_kmem (with_cx b (f (cx_of k b)) (kmem k)) k).
Proof. intros Hr. unfold update_trap_cx. by rewrite (bind_Ret _ _ _ _ _ (current_trap_ppn_run k p b Hr)). Qed.

(** ** System calls *)

(** The context the call returns to before its result is known: behind the [ecall]. *)
Definition advanced (cx : TrapContext) : TrapContext := set_sepc (u64 (sepc cx + 4)) cx.
Definition called s (b : ProcessControlBlock) : system T St C := with_kmem (with_cx b (advanced (cx_of (kern s) b)) (kmem (kern s))) s.
Definition arg (cx : TrapContext) (i : nat) : Z := default 0 (tx cx !! i).

Lemma index_arg {S} cx (i : nat) (st : S) : (i < length (tx cx))%nat -> index (tx cx) (Z.of_nat i) st = Ret (arg cx i) st.
Proof. intros Hi. unfold index, arg. rewrite vget_nat. by destruct (lookup_lt_is_Some_2 (tx cx) i Hi) as [x ->]. Qed.

Lemma trap_call_run s p b a : in_user (kern s) p b a ->
  let cx := cx_of (kern s) b in
  trap_handler env elf_parse fs str_fuel argv_fuel data_fuel UserEnvCall s =
    bind (syscall env elf_parse fs str_fuel argv_fuel data_fuel (arg cx 17) (arg cx 10) (arg cx 11) (arg cx 12)) after_call (called s b).
Proof.
  intros Hi cx. pose proof (iu_runs _ _ _ _ Hi) as Hr. pose proof (cx_length _ _ _ _ Hi) as Hl.
  destruct (with_cx_user (kern s) p b a (advanced cx) Hi Hl) as [_ Hcx].
  unfold trap_handler.
  rewrite (on_kern_same _ _ s _ (current_trap_ppn_run _ p b Hr)). rewrite (on_kern_bind _ _ s _ _ (update_cx_run (kern s) p b _ Hr)).
  change (set_kern _ s) with (called s b). rewrite bind_get. fold cx. change (read_trap_cx _ (kmem (kern (called s b)))) with (cx_of (kern (called s b)) b).
  unfold called, with_kmem in *. fold cx. cbn [kern set_kern]. rewrite Hcx. cbn [advanced set_sepc].
  change 17 with (Z.of_nat 17). change 10 with (Z.of_nat 10). change 11 with (Z.of_nat 11). change 12 with (Z.of_nat 12).
  change (tx (advanced cx)) with (tx cx).
  assert (Ei : forall (i : nat) st, (i < 32)%nat -> index (S := system T St C) (tx cx) (Z.of_nat i) st = Ret (arg cx i) st)
    by (intros i st Hi32; apply index_arg; unfold cx; lia).
  by rewrite (bind_Ret _ _ _ _ _ (Ei 17%nat _ ltac:(lia))), (bind_Ret _ _ _ _ _ (Ei 10%nat _ ltac:(lia))),
    (bind_Ret _ _ _ _ _ (Ei 11%nat _ ltac:(lia))), (bind_Ret _ _ _ _ _ (Ei 12%nat _ ltac:(lia))).
Qed.

Lemma called_user s p b a : in_user (kern s) p b a -> in_user (kern (called s b)) p b a /\ cx_of (kern (called s b)) b = advanced (cx_of (kern s) b).
Proof. intros Hi. apply (with_cx_user (kern s) p b a); [done|]. cbn. by apply (cx_length _ p b a). Qed.

(** The result goes to a0 of the context the process has now. *)
Lemma finish_call_run s p b a n : in_user (kern s) p b a -> calm (sigs b) ->
  let s' := with_kmem (with_cx b (set_x10 (u64 n) (cx_of (kern s) b)) (kmem (kern s))) s in
  finish_call n s = Ret ToUser s' /\ in_user (kern s') p b a /\ cx_of (kern s') b = set_x10 (u64 n) (cx_of (kern s) b).
Proof.
  intros Hi Hc s'. assert (Hl : length (tx (set_x10 (u64 n) (cx_of (kern s) b))) = 32%nat) by (cbn; rewrite length_insert; by apply (cx_length _ p b a)).
  destruct (with_cx_user (kern s) p b a _ Hi Hl) as [Hi' Hcx]. split; [|by split].
  unfold finish_call. rewrite (on_kern_bind _ _ s _ _ (update_cx_run (kern s) p b _ (iu_runs _ _ _ _ Hi))).
  change (set_kern _ s) with s'. by apply (after_trap_calm s' p b), Hc; apply Hi'.
Qed.

(** ** [fork] *)

Lemma syscall_fork a0 a1 a2 : syscall env elf_parse fs str_fuel argv_fuel data_fuel SYSCALL_FORK a0 a1 a2 = Syscalls.done (on_kern (sys_fork env)).
Proof. reflexivity. Qed.

(** The states of a fork: in the child's and the parent's memory, and when the
    parent returns. *)
Definition fork_state s (p : nat) (b : ProcessControlBlock) (n : Z) pids' child f' ks q m2 : system T St C :=
  set_kern (forked_kernel env (kern (called s b)) p b n pids' child f' ks q m2) (called s b).
Definition fork_return s (b : ProcessControlBlock) (n : Z) : system T St C :=
  with_kmem (with_cx b (set_x10 n (cx_of (kern s) b)) (kmem (kern s))) s.

Lemma fork_trap_run s p b a ka n pids' : let k := kern s in let f := trap_cx_ppn (space b) in
  runs k p b -> can_fork env k p b a ka f n pids' -> manager_ok (manager k) -> calm (sigs b) -> arg (cx_of k b) 17 = SYSCALL_FORK ->
  exists child a' f' ks ka' q m2, let s2 := fork_state s p b n pids' child f' ks q m2 in
    let b2 := set_children (children (family b) ++ [fresh (dom (heap k))]) b in
    trap_handler env elf_parse fs str_fuel argv_fuel data_fuel UserEnvCall s = Ret ToUser (fork_return s2 b n) /\
    ready_queues (manager k) !! 0%nat = Some q /\ in_user k p b a /\ in_user (kern s2) p b2 a /\
    copied env (kmem (kern (called s b))) (memory_set (space b)) a child a' f'
      (set_x10 0 (set_kernel_sp (KernelStack_top n) (advanced (cx_of k b)))) ks ka' m2.
Proof.
  intros k f Hr Hcf Hm Hcalm H17. pose proof (cf_range _ _ _ _ _ _ _ _ _ Hcf) as Hn.
  assert (Hi : in_user k p b a) by (split; [done|apply (cf_user _ _ _ _ _ _ _ _ _ Hcf)|apply (cf_frame _ _ _ _ _ _ _ _ _ Hcf)]).
  destruct (called_user s p b a Hi) as [Hi1 Hcx1]. set (s1 := called s b) in *.
  pose proof (can_fork_step env k p b a ka f n pids' _ Hcf (with_cx_step k p b a (advanced (cx_of k b)) Hi (cx_length _ _ _ _ Hi))) as Hcf1.
  change (set_kmem _ k) with (kern s1) in Hcf1.
  destruct (sys_fork_run env (kern s1) p b a ka f n pids' Hcf1 (rn_running _ _ _ (iu_runs _ _ _ _ Hi1)) Hm)
    as (child & a' & f' & ks & ka' & q & m2 & E2 & Eq & Hcp).
  change (read_trap_cx f (kmem (kern s1))) with (cx_of (kern s1) b) in Hcp. rewrite Hcx1 in Hcp.
  set (s2 := fork_state s p b n pids' child f' ks q m2). set (b2 := set_children (children (family b) ++ [fresh (dom (heap k))]) b).
  assert (Hi2 : in_user (kern s2) p b2 a).
  { split; [split; [apply Hr|cbn; apply lookup_insert_eq]|apply (cp_user _ _ _ _ _ _ _ _ _ _ _ Hcp)|apply Hi]. }
  destruct (finish_call_run s2 p b2 a n Hi2 Hcalm) as (E3 & _ & _). assert (MAX_STACKS = 22369620) as EM by done. rewrite u64_small in E3 by lia.
  exists child, a', f', ks, ka', q, m2. split; [|by split_and!].
  rewrite (trap_call_run s p b a Hi). fold k. rewrite H17, syscall_fork. fold s1. unfold Syscalls.done.
  assert (Ed : bind (on_kern (sys_fork env)) (fun n => ret (Done n)) s1 = Ret (Done n) s2) by (by rewrite (on_kern_bind _ _ s1 _ _ E2)).
  rewrite (bind_Ret _ _ _ _ _ Ed). exact E3.
Qed.

(** C4. A fork trap returns to user mode in the parent with the child's identifier in a0; the child
    is a new block at the end of the first queue whose trap context is the parent's with 0 in a0 and
    its own kernel stack, and the two memories hold the same bytes at every user address, on
    disjoint frames. *)
Theorem fork_returns_twice s p b a ka n pids' :
  let k := kern s in let f := trap_cx_ppn (space b) in let cx := cx_of k b in let ms := memory_set (space b) in
  runs k p b -> can_fork env k p b a ka f n pids' -> manager_ok (manager k) -> calm (sigs b) -> arg cx 17 = SYSCALL_FORK ->
  exists s' c child a' f' q,
    trap_handler env elf_parse fs str_fuel argv_fuel data_fuel UserEnvCall s = Ret ToUser s' /\
    running (kern s') = Some p /\ heap (kern s') !! p = Some (set_children (children (family b) ++ [c]) b) /\
    heap k !! c = None /\ heap (kern s') !! c = Some (child_block env p b n child f') /\
    ready_queues (manager k) !! 0%nat = Some q /\ ready_queues (manager (kern s')) !! 0%nat = Some (q ++ [c]) /\
    read_trap_cx f (kmem (kern s')) = set_x10 n (advanced cx) /\
    read_trap_cx f' (kmem (kern s')) = set_x10 0 (set_kernel_sp (KernelStack_top n) (advanced cx)) /\
    user_ok (kmem (kern s')) ms a /\ user_ok (kmem (kern s')) child a' /\ (forall y, y ∈ footprint ms -> y ∉ footprint child) /\
    (forall ptr len, user_range ms ptr len -> ptr + len <= TRAP_CONTEXT_va ->
       user_bytes (kmem (kern s')) a ptr len = user_bytes (kmem k) a ptr len /\ user_bytes (kmem (kern s')) a' ptr len = user_bytes (kmem k) a ptr len).
Proof.
  intros k f cx ms Hr Hcf Hm Hcalm H17. destruct (fork_trap_run s p b a ka n pids' Hr Hcf Hm Hcalm H17)
    as (child & a' & f' & ks & ka' & q & m2 & E & Eq & Hi & Hi2 & Hcp). cbv zeta in *.
  set (s2 := fork_state s p b n pids' child f' ks q m2) in *. set (c := fresh (dom (heap (kern s)))) in *. set (b2 := set_children _ b) in *.
  assert (Hl2 : length (tx (set_x10 n (cx_of (kern s2) b))) = 32%nat) by (cbn; rewrite length_insert; exact (cx_length _ p b2 a Hi2)).
  destruct (with_cx_user (kern s2) p b2 a _ Hi2 Hl2) as [Hi3 Hcx3]. set (s3 := fork_return s2 b n) in *.
  assert (Hc0 : c <> p) by (apply (fresh_block k p b), Hr). destruct (data_frame_footprint _ _ _ (iu_frame _ _ _ _ Hi)) as [_ Hff].
  assert (Hm3 : forall y, y <> f -> page (kmem (kern s3)) y = page m2 y) by (intros y Hy; by apply page_set_ne).
  destruct (called_user s p b a Hi) as [Hi1 Hcx1].
  assert (Hold : forall ptr len, user_range ms ptr len -> ptr + len <= TRAP_CONTEXT_va -> user_bytes (kmem (kern (called s b))) a ptr len = user_bytes (kmem k) a ptr len).
  { intros ptr len. apply (user_bytes_kept _ _ ms a f); [apply Hi|apply Hi|]. intros y _ Hy. by apply page_set_ne. }
  destruct (copied_parent _ _ _ _ _ _ f _ _ _ _ m2 (kmem (kern s3)) Hcp (iu_user _ _ _ _ Hi1) (iu_frame _ _ _ _ Hi)) as [Hc3 Hbytes];
    [by apply (with_cx_step (kern s2) p b2 a _ Hi2)|exact Hm3|].
  assert (Hff' : f' <> f) by (intros ->; by apply (cp_apart _ _ _ _ _ _ _ _ _ _ _ Hcp f), (data_frame_footprint _ _ _ (cp_frame _ _ _ _ _ _ _ _ _ _ _ Hcp))).
  exists s3, c, child, a', f', q. split_and!; try done.
  - apply Hr.
  - cbn. apply lookup_insert_eq.
  - apply not_elem_of_dom, is_fresh.
  - cbn. rewrite lookup_insert_ne by done. apply lookup_insert_eq.
  - cbn. rewrite list_lookup_insert_eq; [done|]. by eapply lookup_lt_Some.
  - etransitivity; [exact Hcx3|]. f_equal. transitivity (cx_of (kern (called s b)) b); [|exact Hcx1]. unfold cx_of, read_trap_cx.
    change (kmem (kern s2)) with m2. by rewrite (cp_kept _ _ _ _ _ _ _ _ _ _ _ Hcp (trap_cx_ppn (space b)) Hff).
  - transitivity (read_trap_cx f' m2); [unfold read_trap_cx; by rewrite Hm3|exact (cp_cx _ _ _ _ _ _ _ _ _ _ _ Hcp)].
  - apply Hi3.
  - exact (cp_apart _ _ _ _ _ _ _ _ _ _ _ Hcp).
  - intros ptr len Hrg Hle. rewrite !(proj1 (Hbytes ptr len Hrg Hle)), (proj2 (Hbytes ptr len Hrg Hle)). split; by apply Hold.
Qed.

(** ** [exec] *)

(** What a process hands to [exec], below the trap context. *)
Record exec_input k (b : ProcessControlBlock) (a : gmap Z Z) (path args : Z) (name : list Z) (ptrs : list Z) (strs : list (list Z)) : Prop := {
  ei_path : user_range (memory_set (space b)) path (Z.of_nat (length name) + 1);
  ei_path_top : path + (Z.of_nat (length name) + 1) <= TRAP_CONTEXT_va;
  ei_name : user_str (kmem k) a path name;
  ei_name_fuel : (length name < str_fuel)%nat;
  ei_argv : argv_at (kmem k) (memory_set (space b)) a str_fuel args ptrs strs;
  ei_argv_top : args + (Z.of_nat (length ptrs) + 1) * 8 <= TRAP_CONTEXT_va;
  ei_strs_top : Forall2 (fun p str => p + (Z.of_nat (length str) + 1) <= TRAP_CONTEXT_va) ptrs strs;
  ei_argv_fuel : (length ptrs < argv_fuel)%nat;
}.

Lemma exec_input_kept k p b a path args name ptrs strs cx : in_user k p b a -> exec_input k b a path args name ptrs strs ->
  exec_input (set_kmem (with_cx b cx (kmem k)) k) b a path args name ptrs strs.
Proof.
  intros Hi [Hp Hpt Hn Hnf [Hr Hal Hw Hs] Hat Hst Haf].
  assert (Hb : forall ptr len, user_range (memory_set (space b)) ptr len -> ptr + len <= TRAP_CONTEXT_va ->
    user_bytes (with_cx b cx (kmem k)) a ptr len = user_bytes (kmem k) a ptr len).
  { intros ptr len. apply (user_bytes_kept _ _ _ a _ _ _ (iu_user _ _ _ _ Hi) (iu_frame _ _ _ _ Hi)). intros y _ Hy. by apply page_set_ne. }
  split; try done.
  - destruct Hn as [Hn Hz]. split; [|done]. by rewrite Hb.
  - split; [done|done|by rewrite Hb|]. clear -Hb Hs Hst. induction Hs as [|q str ptrs strs (H0 & Hr & [Hu Hz] & Hf) _ IH]; [constructor|].
    apply Forall2_cons_1 in Hst as [Ht Hst]. constructor; [|by apply IH]. split_and!; try done. split; [by rewrite Hb|done].
Qed.

(** A step that starts with the process's own memory. *)
Lemma frame_step_pre ms m m1 m' fp' : user_step ms m m1 -> frame_step m1 (footprint ms) m' fp' -> frame_step m (footprint ms) m' fp'.
Proof.
  intros [Ef _ Ho] [Hok F L P]. rewrite Ef in *. split; try done. intros y Hy Hn. rewrite P by done. apply Ho. intros Hy'.
  apply Hn, elem_of_app. by right.
Qed.

Lemma syscall_exec a0 a1 a2 : syscall env elf_parse fs str_fuel argv_fuel data_fuel SYSCALL_EXEC a0 a1 a2 =
  Syscalls.done (sys_exec env elf_parse fs str_fuel argv_fuel data_fuel a0 a1).
Proof. reflexivity. Qed.

Lemma set_x10_start k b c elf args : set_x10 (Z.of_nat (length args)) (start_context env k b c elf args) = start_context env k b c elf args.
Proof. reflexivity. Qed.
Lemma start_context_args k b c elf args :
  arg (start_context env k b c elf args) 10 = Z.of_nat (length args) /\ arg (start_context env k b c elf args) 11 = argv_base (stack_top c elf) args.
Proof. split; reflexivity. Qed.

(** The strings of an argument vector reach the stack as UTF-8. *)
Lemma argv_good k b a path args name ptrs strs : exec_input k b a path args name ptrs strs -> Forall good_name (as_str <$> strs).
Proof.
  intros Hin. pose proof (aa_strs _ _ _ _ _ _ _ (ei_argv _ _ _ _ _ _ _ _ Hin)) as Hs. apply Forall_fmap. apply Forall_forall. intros str Hstr.
  apply list_elem_of_lookup_1 in Hstr as [j Hj]. destruct (Forall2_lookup_r _ _ _ _ _ Hs Hj) as (q & _ & _ & _ & Hu & _).
  exact (as_str_good str (user_str_bytes _ _ _ _ Hu) (proj2 Hu)).
Qed.

(** C3. An exec trap whose path and argument vector lie in user memory, on a disk that represents an
    abstract file system where the path leads to a file, returns to user mode in the program of that
    file's bytes: the new memory holds its segments, the stack the arguments and a null-terminated
    argv pointing at them, the trap context its entry point, an aligned stack pointer, argc and
    argv, and _start of the user library, run on them with any heap allocator that keeps to the
    program's memory outside the stack, calls main with the arguments of the call as the kernel
    reads them, each byte a character encoded in UTF-8, which for ASCII arguments are the arguments
    themselves; the process keeps its identifier, family, descriptors and signals, the disk keeps
    its contents, and the old memory's frames are released. *)
Theorem exec_enters_program da s p b a name ptrs strs i t c f elf :
  let k := kern s in let cx := cx_of k b in let args := as_str <$> strs in
  in_user k p b a -> calm (sigs b) -> arg cx 17 = SYSCALL_EXEC -> exec_input k b a (arg cx 10) (arg cx 11) name ptrs strs ->
  represents (disk s) fs da f -> a_walk (path_names (as_str name)) 0 f = Some (Some i) -> a_files f !! i = Some (t, c) ->
  is_bytes c -> Z.of_nat (length c) < 2 ^ 62 -> (length c <= 512 * (data_fuel - 1))%nat -> (0 < data_fuel)%nat ->
  elf_ok elf_parse c elf -> b_strampoline env mod PAGE_SIZE = 0 ->
  (3 + 3 * regions_pages (elf_regions c elf) <= fa_avail (falloc (kmem k)))%nat -> args_size args <= USER_STACK_SIZE ->
  exists s' ms a' fr, trap_handler env elf_parse fs str_fuel argv_fuel data_fuel UserEnvCall s = Ret ToUser s' /\
    runs (kern s') p (set_space {| memory_set := ms; trap_cx_ppn := fr; base_size := base_size (space b) |} b) /\
    program env (kmem (kern s')) ms a' c elf args fr /\
    read_trap_cx fr (kmem (kern s')) = start_context env k b c elf args /\
    represents (disk s') fs da f /\
    frame_step (kmem k) (footprint (memory_set (space b))) (kmem (kern s')) (footprint ms) /\
    (forall cx' fuel R heap_init m1 (main : Z -> list (list Z) -> M (mem T) Z) (exit : Z -> M (mem T) R),
      cx' = read_trap_cx fr (kmem (kern s')) -> heap_ready ms a' (stack_bottom c elf) (stack_top c elf) heap_init (kmem (kern s')) m1 -> Forall (fun str => (length str < fuel)%nat) args ->
      _start heap_init main exit fuel (MemorySet_token ms) (arg cx' 10) (arg cx' 11) (kmem (kern s')) =
        (let! code := main (Z.of_nat (length args)) args in exit code) m1) /\
    (Forall (Forall (fun c => c < 0x80)) strs -> args = strs).
Proof.
  intros k cx args Hi Hcalm H17 Hin Hrep Hw Hf Hb Hl Hdf Hdf0 Helf Hst Hav Hsz.
  destruct (called_user s p b a Hi) as [Hi1 _]. set (s1 := called s b) in *.
  pose proof (exec_input_kept k p b a _ _ _ _ _ (advanced cx) Hi Hin) as Hin1. change (set_kmem _ k) with (kern s1) in Hin1.
  pose proof (with_cx_step k p b a (advanced cx) Hi (cx_length _ _ _ _ Hi)) as St1. change (with_cx b _ _) with (kmem (kern s1)) in St1.
  destruct Hin1 as [Hpr _ Hps Hpf Hargv _ _ Haf].
  destruct (sys_exec_run env elf_parse fs da s1 p b a (arg cx 10) name (arg cx 11) ptrs strs i t c f elf str_fuel argv_fuel data_fuel
    (iu_runs _ _ _ _ Hi1) (iu_user _ _ _ _ Hi1) Hpr Hps Hpf Hargv Haf Hrep Hw Hf Hb Hl Hdf Hdf0 Helf Hst) as (ms & a' & fr & m & d & os & E & Hd & Hprog & Hcx & Hstep);
    [by rewrite (us_falloc _ _ _ St1)|exact Hsz|].
  set (b2 := set_space {| memory_set := ms; trap_cx_ppn := fr; base_size := base_size (space b) |} b).
  set (s2 := set_kern _ _) in E. assert (Hi2 : in_user (kern s2) p b2 a').
  { split; [split; [apply Hi|cbn; apply lookup_insert_eq]|apply Hprog|exact (pr_cx _ _ _ _ _ _ _ _ Hprog)]. }
  destruct (finish_call_run s2 p b2 a' (Z.of_nat (length strs)) Hi2 Hcalm) as (E3 & Hi3 & Hcx3). set (s3 := with_kmem _ s2) in *.
  assert (Hprog3 : program env (kmem (kern s3)) ms a' c elf args fr).
  { apply (program_frame env elf_parse m); [exact Helf|exact Hsz|exact Hprog|apply Hi3|]. intros y _ Hy. by apply page_set_ne. }
  assert (Hcx' : read_trap_cx fr (kmem (kern s3)) = start_context env k b c elf args).
  { etransitivity; [exact Hcx3|]. change (cx_of (kern s2) b2) with (read_trap_cx fr m). rewrite Hcx.
    pose proof (args_size_length args) as Hn. unfold args in Hn. rewrite length_fmap in Hn. unfold USER_STACK_SIZE, args in Hsz. rewrite u64_small by lia.
    rewrite <- (length_fmap as_str strs). exact (set_x10_start (kern s1) b c elf (as_str <$> strs)). }
  exists s3, ms, a', fr. split_and!; try assumption.
  - rewrite (trap_call_run s p b a Hi). fold k cx. rewrite H17, syscall_exec. fold s1. unfold Syscalls.done.
    assert (Ed : bind (sys_exec env elf_parse fs str_fuel argv_fuel data_fuel (arg cx 10) (arg cx 11)) (fun n => ret (Done n)) s1 = Ret (Done (Z.of_nat (length strs))) s2)
      by (by rewrite (bind_Ret _ _ _ _ _ E)).
    rewrite (bind_Ret _ _ _ _ _ Ed). exact E3.
  - apply Hi3.
  - apply (frame_step_user _ _ ms m); [by apply (frame_step_pre _ _ (kmem (kern s1)))| |].
    + apply (with_cx_step (kern s2) p b2 a' _ Hi2). cbn. rewrite length_insert. exact (cx_length _ p b2 a' Hi2).
    + intros y Hy. apply elem_of_app. by right.
  - intros cx' fuel R heap_init m1 main exit -> Hh Hfl. rewrite Hcx'. destruct (start_context_args k b c elf args) as [-> ->].
    apply (start_program env elf_parse _ _ ms a' c elf args fr); [exact Helf|exact Hprog3|exact Hh|exact Hsz| |exact Hfl]. by eapply argv_good.
  - intros Hs. unfold args. rewrite <- (list_fmap_id strs) at 2. apply list_fmap_ext. intros j str Hj. apply as_str_ascii.
    rewrite Forall_forall in Hs. apply Hs. by eapply list_elem_of_lookup_2.
Qed.

(** ** Faults *)

(** The signal a fault raises. *)
Definition fault_signal (c : cause) : option Z :=
  match c with
  | StoreFault | StorePageFault | LoadFault | LoadPageFault | InstructionFault | InstructionPageFault => Some 11
  | IllegalInstruction => Some 4
  | _ => None
  end.

(** A process with no pending signal and no handler running. *)
Record ordinary (x : Signals) (sig : Z) (action : SignalAction) : Prop := {
  or_none : signals x = 0;
  or_handling : handling_sig x = -1;
  or_unfrozen : frozen x = false;
  or_unmasked : Z.testbit (signal_mask x) sig = false;
  or_action : signal_actions x !! Z.to_nat sig = Some action;
}.

Definition raised k (p : nat) (b : ProcessControlBlock) (sig : Z) : kernel T := set_heap (<[p := set_signals (2 ^ sig) b]> (heap k)) k.

Lemma fault_raises c sig s p b action : fault_signal c = Some sig -> runs (kern s) p b -> ordinary (sigs b) sig action ->
  trap_handler env elf_parse fs str_fuel argv_fuel data_fuel c s = after_trap (set_kern (raised (kern s) p b sig) s) /\
  runs (raised (kern s) p b sig) p (set_signals (2 ^ sig) b) /\ (0 <= sig < 32 /\ kernel_handled (2 ^ sig) = false /\ SignalFlags.check_error (2 ^ sig) = Some (- sig)).
Proof.
  intros Hf Hr Ho. pose proof (or_none _ _ _ Ho) as Hz. assert (Hadd : forall flag, flag = 2 ^ sig ->
    bind (on_kern (current_add_signal flag)) (fun _ => after_trap) s = after_trap (set_kern (raised (kern s) p b sig) s)).
  { intros flag ->. destruct Hr as [Hr Hb]. rewrite (on_kern_bind _ _ s tt (raised (kern s) p b sig)); [done|]. unfold current_add_signal.
    rewrite (bind_Ret _ _ _ _ _ (current_unwrap_run _ p Hr)), (update_run (kern s) p b _ Hb). by rewrite Hz. }
  split; [|split; [split; [apply Hr|cbn; apply lookup_insert_eq]|]].
  - destruct c; try discriminate Hf; injection Hf as <-; by apply Hadd.
  - destruct c; try discriminate Hf; injection Hf as <-; (split; [lia|split; reflexivity]).
Qed.

(** The only pending signal goes to [call_user_signal_handler]. *)
Lemma raised_pending k p b sig action : runs (raised k p b sig) p (set_signals (2 ^ sig) b) -> ordinary (sigs b) sig action -> 0 <= sig < 32 ->
  kernel_handled (2 ^ sig) = false ->
  check_pending_signals (raised k p b sig) =
    if handler action =? 0 then Ret default_action (raised k p b sig) else Ret [] (enter_handler (raised k p b sig) p (set_signals (2 ^ sig) b) sig action).
Proof.
  intros [Hr Hb] [Hn Hh _ Hm Ha] Hs Hk. rewrite (check_pending_user _ p _ sig Hr Hb Hh Hs Hk).
  - by apply call_user_run.
  - unfold pending. cbn. by rewrite Hm, Z.pow2_bits_true by lia.
  - intros j Hj. unfold pending. cbn. by rewrite Z.pow2_bits_false by lia.
Qed.

Lemma fault_kills_run c sig s p b a action : fault_signal c = Some sig -> runs (kern s) p b -> ordinary (sigs b) sig action -> handler action = 0 ->
  tree_inv (tree_of (kern s)) -> pid b <> IDLE_PID -> ms_ok (kmem (kern s)) (memory_set (space b)) a ->
  let msg := bytes_of "[kernel] " ++ bytes_of (error_message (- sig)) ++ [10] in
  exists h m, let b1 := set_signals (2 ^ sig) b in
    trap_handler env elf_parse fs str_fuel argv_fuel data_fuel c s =
      Ret Gone (set_kern (exit_state (kern s) b1 h m) (set_con (shown msg (shown default_action (con s))) s)) /\
    h !! p = Some (zombie_block b1 (- sig)) /\ tree_inv (tree_of (exit_state (kern s) b1 h m)) /\
    (forall y, fa_live (falloc m) y <-> fa_live (falloc (kmem (kern s))) y /\ y ∉ areas_frames (areas (memory_set (space b)))).
Proof.
  intros Hf Hr Ho H0h Hi Hpid Hms msg. destruct (fault_raises c sig s p b action Hf Hr Ho) as (E & Hr1 & Hs & Hk & Hce).
  set (k1 := raised (kern s) p b sig) in *. set (b1 := set_signals (2 ^ sig) b) in *.
  assert (Et : tree_of k1 = tree_of (kern s)).
  { unfold tree_of, k1, raised. cbn. f_equal. rewrite fmap_insert. apply insert_id. rewrite lookup_fmap, (rn_block _ _ _ Hr). done. }
  destruct (exit_run k1 p b1 a (- sig)) as (h & m & Ex & Hinv & Hz & _ & Hlive & _); [by rewrite Et|apply Hr1|apply Hr1|done|done|].
  exists h, m. split; [|split; [exact Hz|split; [exact Hinv|exact Hlive]]].
  rewrite E. unfold after_trap. set (s1 := set_kern k1 s). pose proof (raised_pending (kern s) p b sig action Hr1 Ho Hs Hk) as Ep.
  rewrite H0h in Ep. cbn [Z.eqb] in Ep. destruct Hr1 as [Hr1 Hb1].
  assert (Eh : stop_or_go k1 = Ret true k1).
  { unfold stop_or_go. rewrite (bind_Ret _ _ _ _ _ (current_unwrap_run _ p Hr1)), (bind_Ret _ _ _ _ _ (deref_run _ p _ Hb1)).
    cbn. by rewrite (or_unfrozen _ _ _ Ho). }
  rewrite (bind_Ret _ _ _ _ _ (handle_signals_run s1 _ _ k1 k1 Ep Eh)). cbn [negb]. set (s2 := set_con _ _).
  assert (Ec : check_signals_error_of_current k1 = Ret (Some (- sig)) k1).
  { unfold check_signals_error_of_current. rewrite (bind_Ret _ _ _ _ _ (current_unwrap_run _ p Hr1)), (bind_Ret _ _ _ _ _ (deref_run _ p _ Hb1)).
    cbn [sigs signals set_signals set_sigs b1]. rewrite (proj2 (Z.eqb_neq (2 ^ sig) 0)) by (apply Z.pow_nonzero; lia). cbn [negb]. by rewrite Hce. }
  rewrite (on_kern_same _ _ s2 _ Ec). unfold println. rewrite <- (app_assoc (bytes_of _)). fold msg.
  rewrite (bind_Ret _ _ _ _ _ (print_run msg s2)). rewrite (on_kern_bind _ _ (set_con _ s2) _ _ Ex). reflexivity.
Qed.

(** C5. In any state reached from boot, a memory fault or illegal instruction of a process with no
    handler prints the line of the default action and then the message of the signal, and ends the
    process: it becomes a zombie with the negated signal number as exit code, its data frames are
    free, and files and disk are untouched. *)
Theorem fault_kills k0 c sig s p b a action :
  boot_state k0 -> rtc (kstep env) k0 (kern s) -> fault_signal c = Some sig -> runs (kern s) p b -> ordinary (sigs b) sig action ->
  handler action = 0 -> pid b <> IDLE_PID -> ms_ok (kmem (kern s)) (memory_set (space b)) a ->
  exists s' bz, trap_handler env elf_parse fs str_fuel argv_fuel data_fuel c s = Ret Gone s' /\
    con s' = shown (bytes_of "[kernel] " ++ bytes_of (error_message (- sig)) ++ [10]) (shown default_action (con s)) /\
    running (kern s') = None /\ heap (kern s') !! p = Some bz /\ process_status (sched bz) = Zombie /\ exit_code (family bz) = - sig /\
    areas (memory_set (space bz)) = [] /\
    (forall y, y ∈ areas_frames (areas (memory_set (space b))) -> ~ fa_live (falloc (kmem (kern s'))) y) /\ disk s' = disk s /\ objects s' = objects s.
Proof.
  intros Hb0 Hs Hf Hr Ho Hh Hpid Hms. pose proof (reachable_inv env k0 _ Hb0 Hs) as Hi.
  destruct (fault_kills_run c sig s p b a action Hf Hr Ho Hh Hi Hpid Hms) as (h & m & E & Hz & _ & Hlive).
  eexists _, _. split; [exact E|]. split_and!; try done. intros y Hy Hl. by apply Hlive in Hl as [_ ?].
Qed.

(** C6. A memory fault or illegal instruction of a process with a handler for the signal, no signal
    pending or masking it and no handler running, returns to user mode at the handler with the
    signal number in a0 and the trap context saved, and touches no other page. *)
Theorem fault_enters_handler c sig s p b a action :
  let cx := cx_of (kern s) b in
  fault_signal c = Some sig -> in_user (kern s) p b a -> ordinary (sigs b) sig action -> handler action <> 0 ->
  exists s' b', trap_handler env elf_parse fs str_fuel argv_fuel data_fuel c s = Ret ToUser s' /\ in_user (kern s') p b' a /\
    cx_of (kern s') b' = set_x10 sig (set_sepc (handler action) cx) /\
    signals (sigs b') = 0 /\ handling_sig (sigs b') = sig /\ trap_ctx_backup (sigs b') = Some cx /\ space b' = space b /\
    (forall y, y <> trap_cx_ppn (space b) -> page (kmem (kern s')) y = page (kmem (kern s)) y).
Proof.
  intros cx Hf Hi Ho Hh. pose proof (iu_runs _ _ _ _ Hi) as Hr. destruct (fault_raises c sig s p b action Hf Hr Ho) as (E & Hr1 & Hs & Hk & _).
  pose proof (raised_pending (kern s) p b sig action Hr1 Ho Hs Hk) as Ep. rewrite (proj2 (Z.eqb_neq _ _) Hh) in Ep.
  set (k1 := raised (kern s) p b sig) in *. set (b1 := set_signals (2 ^ sig) b) in *. set (k2 := enter_handler k1 p b1 sig action) in *.
  set (b2 := set_sigs (start_handler sig (2 ^ sig) cx (sigs b1)) b1). set (s2 := set_kern k2 (set_kern k1 s)).
  assert (Hl : length (tx (set_x10 sig (set_sepc (handler action) cx))) = 32%nat) by (cbn; rewrite length_insert; exact (cx_length _ p b a Hi)).
  destruct (with_cx_user (kern s) p b a _ Hi Hl) as [[_ Hu2 Hf2] Hcx2].
  assert (Hi2 : in_user k2 p b2 a) by (split; [split; [apply Hr1|cbn; apply lookup_insert_eq]|exact Hu2|exact Hf2]).
  assert (Hz : signals (sigs b2) = 0) by (cbn; apply Z.lxor_nilpotent).
  exists s2, b2. split; [|split; [exact Hi2|split; [exact Hcx2|split; [exact Hz|]]]]; [|split_and!].
  - rewrite E. unfold after_trap. assert (Eh : stop_or_go k2 = Ret true k2).
    { unfold stop_or_go. destruct (iu_runs _ _ _ _ Hi2) as [Hr2 Hb2].
      rewrite (bind_Ret _ _ _ _ _ (current_unwrap_run _ p Hr2)), (bind_Ret _ _ _ _ _ (deref_run _ p _ Hb2)). cbn. by rewrite (or_unfrozen _ _ _ Ho). }
    rewrite (bind_Ret _ _ _ _ _ (handle_signals_quiet (set_kern k1 s) true k2 k2 Ep Eh)). cbn [negb]. fold s2. rewrite (on_kern_same _ _ s2 None); [done|].
    unfold check_signals_error_of_current. destruct (iu_runs _ _ _ _ Hi2) as [Hr2 Hb2].
    rewrite (bind_Ret _ _ _ _ _ (current_unwrap_run _ p Hr2)), (bind_Ret _ _ _ _ _ (deref_run _ p _ Hb2)). by rewrite Hz.
  - cbn. apply as_isize_small. lia.
  - done.
  - done.
  - intros y Hy. by apply page_set_ne.
Qed.
End trap_spec.

(** ** A process at work *)

#[local] Existing Instance demo_laws.
Abbreviation demo_handler fs := (trap_handler demo_env demo_parse fs 20 20 2).

(** A context in which the process asks for call [n]. *)
Definition call_cx (n x10 x11 : Z) (cx : TrapContext) : TrapContext :=
  {| tx := <[17%nat := n]> (<[10%nat := x10]> (<[11%nat := x11]> (tx cx))); sstatus := sstatus cx; sepc := sepc cx;
     kernel_satp := kernel_satp cx; kernel_sp := kernel_sp cx; Process.trap_handler := Process.trap_handler cx |}.
Lemma call_cx_args n x10 x11 cx : length (tx cx) = 32%nat ->
  length (tx (call_cx n x10 x11 cx)) = 32%nat /\ arg (call_cx n x10 x11 cx) 17 = n /\ arg (call_cx n x10 x11 cx) 10 = x10 /\ arg (call_cx n x10 x11 cx) 11 = x11.
Proof.
  intros Hl. unfold arg. cbn [tx call_cx]. split; [by rewrite !length_insert|].
  assert (Hn : forall i j (l : list Z) x, length l = 32%nat -> (i < 32)%nat -> default 0 (<[i := x]> l !! j) = if decide (i = j) then x else default 0 (l !! j)).
  { intros i j l x Hl' Hi. destruct (decide (i = j)) as [->|Hij]; [by rewrite list_lookup_insert_eq by lia|by rewrite list_lookup_insert_ne]. }
  split; [|split]; rewrite !Hn by (rewrite ?length_insert; lia); reflexivity.
Qed.

Lemma fork_returns_twice_witness : exists fs (s s' : system StackFrameAllocator (store BlockFile) (list Z * list Z)) p b c child,
  demo_handler fs UserEnvCall s = Ret ToUser s' /\ heap (kern s') !! p = Some b /\ heap (kern s') !! c = Some child /\ p <> c /\
  arg (cx_of (kern s') b) 10 = 1 /\ arg (cx_of (kern s') child) 10 = 0.
Proof.
  destruct demo_running as (fs & f & s & k0 & b & a & ka & pids' & cx0 & _ & _ & Hr & _ & Hsg & Hsd & Hcf & Hm & _ & _ & _).
  set (k := kern s) in *. set (p := initproc k) in *.
  assert (Hi : in_user k p b a) by (split; [exact Hr|apply (sd_ok _ _ _ _ _ _ _ _ Hsd)|apply (sd_frame _ _ _ _ _ _ _ _ Hsd)]).
  set (cx := call_cx SYSCALL_FORK 0 0 (cx_of k b)). destruct (call_cx_args SYSCALL_FORK 0 0 (cx_of k b) (cx_length _ _ _ _ Hi)) as (Hl & H17 & _).
  set (s0 := with_kmem (with_cx b cx (kmem k)) s). destruct (with_cx_user k p b a cx Hi Hl) as [Hi0 Hcx0].
  pose proof (can_fork_step demo_env k p b a ka _ 1 pids' _ Hcf (with_cx_step k p b a cx Hi Hl)) as Hcf0.
  assert (Hcalm : calm (sigs b)) by (rewrite Hsg; by split). change (set_kmem _ k) with (kern s0) in *.
  destruct (fork_returns_twice (FAL := demo_laws) demo_env demo_parse fs 20 20 2 s0 p b a ka 1 pids' (iu_runs _ _ _ _ Hi0) Hcf0 Hm Hcalm ltac:(by rewrite Hcx0))
    as (s' & c & child & a' & f' & q & E & _ & Hp' & Hc0 & Hc' & _ & _ & Hx & Hx' & _).
  eexists fs, s0, s', p, _, c, _. split; [exact E|]. split; [exact Hp'|]. split; [exact Hc'|]. split.
  - intros <-. rewrite (rn_block _ _ _ (iu_runs _ _ _ _ Hi0)) in Hc0. discriminate Hc0.
  - assert (Hl' : (10 < length (tx (cx_of (kern s0) b)))%nat) by (rewrite Hcx0; unfold cx; lia).
    unfold cx_of in *. cbn [space set_children set_family child_block trap_cx_ppn]. rewrite Hx, Hx'. unfold arg. cbn [tx set_x10 set_kernel_sp advanced set_sepc].
    by rewrite !list_lookup_insert_eq by exact Hl'.
Defined.

(** *** [exec] of its own program, with one argument *)

(** The path at 0x10000, the argument string [A] at 0x10100, the array at 0x11000. *)
Lemma demo_arguments (m : mem StackFrameAllocator) ms a : user_ok m ms a -> user_range ms 0x10000 0x2000 ->
  exists m', user_step ms m m' /\ user_str m' a 0x10000 initproc_name /\ argv_at m' ms a 20 0x11000 [0x10100] [[65]].
Proof.
  set (name := [105; 110; 105; 116; 112; 114; 111; 99]). change initproc_name with name. intros Hu Hr. assert (Hsub : forall p n, 0x10000 <= p -> 0 <= n -> p + n <= 0x12000 -> user_range ms p n)
    by (intros p n H1 H2 H3; apply (user_range_sub ms 0x10000 0x2000); [exact Hr|lia..]).
  assert (Hb : forall l, forallb (fun b => (0 <=? b) && (b <? 256)) l = true -> is_bytes l) by (intros l; apply forallb_bytes).
  destruct (store_all_user ms a m 0x10000 (name ++ [0]) Hu (Hsub 0x10000 9 ltac:(lia) ltac:(lia) ltac:(lia)) (Hb (name ++ [0]) eq_refl)) as [S1 I1 _].
  set (m1 := store_all _ _ m) in *. pose proof (user_step_ok ms m m1 a S1 Hu) as Hu1.
  destruct (store_all_user ms a m1 0x10100 [65; 0] Hu1 (Hsub 0x10100 2 ltac:(lia) ltac:(lia) ltac:(lia)) (Hb [65; 0] eq_refl)) as [S2 I2 O2].
  set (m2 := store_all _ _ m1) in *. pose proof (user_step_ok ms m1 m2 a S2 Hu1) as Hu2.
  set (words := le_bytes 8 0x10100 ++ le_bytes 8 0).
  destruct (store_all_user ms a m2 0x11000 words Hu2 (Hsub 0x11000 16 ltac:(lia) ltac:(lia) ltac:(lia)) (Hb words eq_refl)) as [S3 I3 O3].
  set (m3 := store_all _ _ m2) in *. exists m3. split; [by eapply user_step_trans; [|eapply user_step_trans]|]. split.
  - split.
    + rewrite O3, O2; [exact I1|apply Hsub; cbn; lia|cbn; lia|apply Hsub; cbn; lia|cbn; lia].
    + intros Hin. repeat (apply elem_of_cons in Hin as [?|Hin]; [discriminate|]). by apply elem_of_nil in Hin.
  - split; [apply Hsub; cbn; lia|reflexivity|exact I3|]. constructor; [|constructor]. split; [lia|]. split; [apply Hsub; cbn; lia|].
    split; [|cbn; lia]. split.
    + rewrite O3; [exact I2|apply Hsub; cbn; lia|cbn; lia].
    + intros Hin. repeat (apply elem_of_cons in Hin as [?|Hin]; [discriminate|]). by apply elem_of_nil in Hin.
Qed.

Lemma exec_enters_program_witness : exists fs (s s' : system StackFrameAllocator (store BlockFile) (list Z * list Z)) ms a fr,
  demo_handler fs UserEnvCall s = Ret ToUser s' /\ program demo_env (kmem (kern s')) ms a demo_elf_data demo_elf [[65]] fr /\
  sepc (read_trap_cx fr (kmem (kern s'))) = 0x10000 /\ arg (read_trap_cx fr (kmem (kern s'))) 10 = 1 /\
  _start (ret tt) (fun argc argv => ret (argc + Z.of_nat (length argv))) ret 20 (MemorySet_token ms)
    (arg (read_trap_cx fr (kmem (kern s'))) 10) (arg (read_trap_cx fr (kmem (kern s'))) 11) (kmem (kern s')) = Ret 2 (kmem (kern s')).
Proof.
  destruct demo_running as (fs & f & s & k0 & b & a & ka & pids' & cx0 & _ & _ & Hr & _ & Hsg & Hsd & Hcf & _ & _ & _ & Hrep & Hw & Hf).
  set (k := kern s) in *. set (p := initproc k) in *. pose proof (sd_ok _ _ _ _ _ _ _ _ Hsd) as Hu.
  assert (Hseg : {| r_lo := 16; r_hi := 18; r_perm := ph_perm {| ph_load := Some true; virtual_addr := 0x10000; mem_size := 0x2000; offset := 0; file_size := 4;
    is_read := true; is_write := false; is_execute := true |}; r_data := demo_elf_data |} ∈ elf_regions demo_elf_data demo_elf) by (vm_compute; left).
  pose proof (region_range _ _ _ _ _ Hu (sd_areas _ _ _ _ _ _ _ _ Hsd) Hseg ltac:(vm_compute; split; discriminate) ltac:(vm_compute; discriminate)) as Hrg.
  change (user_range (memory_set (space b)) 0x10000 0x2000) in Hrg.
  destruct (demo_arguments (kmem k) _ a Hu Hrg) as (m & St & Hps & Hargv).
  set (s1 := with_kmem m s). assert (Hi : in_user (kern s1) p b a).
  { split; [split; apply Hr|by apply (user_step_ok _ (kmem k))|exact (sd_frame _ _ _ _ _ _ _ _ Hsd)]. }
  set (cx := call_cx SYSCALL_EXEC 0x10000 0x11000 (cx_of (kern s1) b)).
  destruct (call_cx_args SYSCALL_EXEC 0x10000 0x11000 (cx_of (kern s1) b) (cx_length _ _ _ _ Hi)) as (Hl & H17 & H10 & H11). fold cx in Hl, H17, H10, H11.
  set (s0 := with_kmem (with_cx b cx m) s1). destruct (with_cx_user (kern s1) p b a cx Hi Hl) as [Hi0 Hcx0]. change (set_kmem _ (kern s1)) with (kern s0) in *.
  assert (Hin : exec_input 20 20 (kern s1) b a (arg cx 10) (arg cx 11) initproc_name [0x10100] [[65]]).
  { rewrite H10, H11. split; try (cbn; lia); [|vm_compute; discriminate|exact Hps|exact Hargv|vm_compute; discriminate|repeat constructor; vm_compute; discriminate].
    apply (user_range_sub _ 0x10000 0x2000); [exact Hrg|cbn; lia..]. }
  pose proof (exec_input_kept 20 20 (kern s1) p b a _ _ _ _ _ cx Hi Hin) as Hin0. change (set_kmem _ (kern s1)) with (kern s0) in Hin0. rewrite <- Hcx0 in Hin0.
  assert (Hav : (18 <= fa_avail (falloc (kmem (kern s0))))%nat).
  { change (falloc (kmem (kern s0))) with (falloc m). rewrite (us_falloc _ _ _ St). pose proof (cf_frames _ _ _ _ _ _ _ _ _ Hcf) as Hav.
    rewrite (regions_total _ (elf_regions demo_elf_data demo_elf) (sd_areas _ _ _ _ _ _ _ _ Hsd)) in Hav. change (regions_pages _) with 5%nat in Hav. clear -Hav. lia. }
  destruct (exec_enters_program (FAL := demo_laws) demo_env demo_parse fs 20 20 2 (data_count 1100 1) s0 p b a initproc_name [0x10100] [[65]] 1 File demo_elf_data f demo_elf
    Hi0 ltac:(rewrite Hsg; by split) ltac:(by rewrite Hcx0) Hin0 Hrep Hw Hf) as (s' & ms & a' & fr & E & _ & Hp & Hx & _ & _ & Hstart & _);
    [apply demo_elf_ok|reflexivity|unfold demo_elf_data; cbn; lia|lia|apply demo_elf_ok|reflexivity|exact Hav|vm_compute; discriminate|].
  exists fs, s0, s', ms, a', fr. split; [exact E|]. split; [exact Hp|]. split; [by rewrite Hx|]. split; [by rewrite Hx|].
  apply (Hstart _ 20%nat Z (ret tt) _ (fun argc argv => ret (argc + Z.of_nat (length argv))) ret eq_refl); [|repeat constructor; cbn; lia].
  split; [reflexivity|]. split; [|done]. by split.
Defined.

(** *** Faults *)

Lemma fault_enters_handler_witness : exists fs (s s' : system StackFrameAllocator (store BlockFile) (list Z * list Z)) b',
  demo_handler fs StorePageFault s = Ret ToUser s' /\ sepc (cx_of (kern s') b') = 0x1000 /\ handling_sig (sigs b') = 11.
Proof.
  destruct demo_running as (fs & f & s & k0 & b & a & ka & pids' & cx0 & _ & _ & Hr & _ & Hsg & Hsd & _).
  set (p := initproc (kern s)) in *. set (action := {| handler := 0x1000; mask := 0 |}).
  set (b1 := set_sigs {| signals := 0; signal_mask := 0; handling_sig := -1; signal_actions := <[11%nat := action]> SignalActions_default;
    killed := false; frozen := false; trap_ctx_backup := None |} b).
  set (s1 := set_kern (set_heap (<[p := b1]> (heap (kern s))) (kern s)) s).
  assert (Hi : in_user (kern s1) p b1 a).
  { split; [split; [apply Hr|cbn; apply lookup_insert_eq]|exact (sd_ok _ _ _ _ _ _ _ _ Hsd)|exact (sd_frame _ _ _ _ _ _ _ _ Hsd)]. }
  destruct (fault_enters_handler (FAL := demo_laws) demo_env demo_parse fs 20 20 2 StorePageFault 11 s1 p b1 a action eq_refl Hi ltac:(by split) ltac:(discriminate))
    as (s' & b' & E & _ & Hx & _ & Hh & _).
  exists fs, s1, s', b'. rewrite Hx. split_and!; [exact E|reflexivity|exact Hh].
Defined.

Lemma fault_kills_witness : exists fs (s s' : system StackFrameAllocator (store BlockFile) (list Z * list Z)) p bz,
  demo_handler fs IllegalInstruction s = Ret Gone s' /\ heap (kern s') !! p = Some bz /\ exit_code (family bz) = -4.
Proof.
  destruct demo_child as (k0 & k & p & b & a & Hb0 & Hs & Hr & Hb & Hp & Hsg & Hms). destruct demo_disk as (fs & d & _).
  set (s := set_kern k (demo_system d)).
  destruct (fault_kills (FAL := demo_laws) demo_env demo_parse fs 20 20 2 k0 IllegalInstruction 4 s p b a SignalAction_default Hb0 Hs eq_refl ltac:(by split)
    ltac:(rewrite Hsg; by split) eq_refl ltac:(rewrite Hp; discriminate) Hms) as (s' & bz & E & _ & _ & Hz & _ & Hc & _).
  exists fs, s, s', p, bz. split_and!; assumption.
Defined.
