(* ===== verification/Descriptors.v ===== *)
(** Descriptors as a whole ([os/src/syscall/fs.rs], [alloc_fd] of
    [os/src/process/process.rs]): the table of a process against a finite map, and
    how the tables of all processes decide when the reader of a pipe is released. *)
From S2P Require Import Prelude Address FrameAllocator PageTable UserBytes Pipe Recycle Pid MemorySet UserSpace UserMem Process Keeping Lifecycle Signal ProcessTree Switch ForkSpec ExitSpec BootSpec.
From S2P Require Import BlockCache DiskWords Bitmap Layout Mfs Vfs Files FileCalls FileSpec OpenSpec FileRound FdMap.

(** ** A table is a finite map *)

Definition run_fd_op {T} (p : nat) (o : fd_op file) : M (kernel T) Z :=
  match o with
  | FdInstall f => install_fd p f
  | FdClose fd => sys_close (Z.of_nat fd)
  | FdDup fd => sys_dup (Z.of_nat fd)
  end.
Fixpoint run_fd_ops {T} (p : nat) (ops : list (fd_op file)) : M (kernel T) (list Z) :=
  match ops with
  | [] => ret []
  | o :: ops => let! r := run_fd_op p o in let! rs := run_fd_ops p ops in ret (r :: rs)
  end.

(** The table and the map have the same descriptors. *)
Definition same_fds (table : list (option file)) (t : gmap nat file) : Prop := forall fd, table_at table fd = t !! fd.

Lemma same_fds_first table t : same_fds table t -> first_fd table = least_free t.
Proof.
  intros Hs. destruct (first_fd_free table) as (N1 & _ & L1), (least_free_spec t) as (N2 & L2).
  destruct (Nat.lt_trichotomy (first_fd table) (least_free t)) as [Hlt|[Heq|Hlt]]; [|done|].
  - exfalso. apply (L2 _ Hlt). by rewrite <- Hs.
  - exfalso. apply (L1 _ Hlt). by rewrite Hs.
Qed.
Lemma same_fds_install table t f : same_fds table t -> same_fds (install f table) (<[least_free t := f]> t).
Proof.
  intros Hs fd. rewrite install_at, (same_fds_first _ _ Hs). destruct (decide (fd = least_free t)) as [->|Hne]; [by rewrite lookup_insert_eq|].
  by rewrite lookup_insert_ne.
Qed.
Lemma same_fds_close table t fd : same_fds table t -> same_fds (<[fd := None]> table) (delete fd t).
Proof.
  intros Hs j. rewrite close_at. destruct (decide (j = fd)) as [->|Hne]; [by rewrite lookup_delete_eq|]. by rewrite lookup_delete_ne.
Qed.

Section tables.
Context {T : Type}.
Implicit Types (k : kernel T).

Lemma run_fd_op_runs p o k b t : runs k p b -> same_fds (fd_table b) t -> Z.of_nat (length (fd_table b)) < 2 ^ 61 ->
  exists table, run_fd_op p o k = Ret (a_fd_op o t).1 (with_table k p b table) /\ same_fds table (a_fd_op o t).2 /\
    (length table <= S (length (fd_table b)))%nat.
Proof.
  intros Hr Hs Hl. pose proof (same_fds_first _ _ Hs) as Hf.
  assert (Hid : with_table k p b (fd_table b) = k).
  { unfold with_table. destruct Hr as [_ Hb]. rewrite insert_id; [by destruct k|]. rewrite Hb. by destruct b. }
  destruct o as [f|fd|fd]; cbn [run_fd_op a_fd_op].
  - exists (install f (fd_table b)). rewrite (install_fd_runs k p b f Hr), Hf. split; [done|]. split; [by apply same_fds_install|apply length_install].
  - rewrite (sys_close_runs k p b fd Hr), (Hs fd). destruct (t !! fd) as [f|].
    + exists (<[fd := None]> (fd_table b)). split; [done|]. split; [by apply same_fds_close|]. rewrite length_insert. lia.
    + exists (fd_table b). rewrite Hid. split_and!; [done|exact Hs|lia].
  - rewrite (sys_dup_runs k p b fd Hr) by lia. rewrite (Hs fd). destruct (t !! fd) as [f|].
    + exists (install f (fd_table b)). rewrite Hf. split; [done|]. split; [by apply same_fds_install|apply length_install].
    + exists (fd_table b). rewrite Hid. split_and!; [done|exact Hs|lia].
Qed.

Lemma with_table_twice k p b t1 t2 : with_table (with_table k p b t1) p (set_fd_table t1 b) t2 = with_table k p b t2.
Proof. unfold with_table, set_heap. cbn. by rewrite insert_insert_eq. Qed.

(** C16. Any sequence of descriptor operations of a process (installing a new file, close, dup) on
    its table of slots gives the results of the same sequence on a finite map from descriptors to
    files, where a new descriptor is the least one not in use and a descriptor not in use is refused
    with -1. *)
Theorem fd_calls_refine p ops k b t : runs k p b -> same_fds (fd_table b) t -> Z.of_nat (length (fd_table b)) + Z.of_nat (length ops) < 2 ^ 61 ->
  exists table, run_fd_ops p ops k = Ret (a_fd_ops ops t).1 (with_table k p b table) /\ same_fds table (a_fd_ops ops t).2.
Proof.
  revert k b t. induction ops as [|o ops IH]; intros k b t Hr Hs Hl; cbn [run_fd_ops a_fd_ops].
  - exists (fd_table b). split; [|exact Hs]. unfold with_table. destruct Hr as [_ Hb]. rewrite insert_id; [by destruct k|]. rewrite Hb. by destruct b.
  - cbn [length] in Hl. destruct (run_fd_op_runs p o k b t Hr Hs) as (table & E & Hs1 & Hl1); [lia|]. destruct (a_fd_op o t) as [r t1]. cbn [fst snd] in *.
    rewrite (bind_Ret _ _ _ _ _ E).
    destruct (IH (with_table k p b table) (set_fd_table table b) t1 (with_table_runs k p b table Hr) Hs1) as (table2 & E2 & Hs2); [cbn; lia|].
    destruct (a_fd_ops ops t1) as [rs t2]. cbn [fst snd] in *. exists table2. rewrite (bind_Ret _ _ _ _ _ E2). unfold ret. by rewrite with_table_twice.
Qed.
End tables.

Lemma fd_calls_refine_witness : exists table,
  run_fd_ops 0 [FdInstall Stdin; FdInstall Stdout; FdDup 1; FdClose 0; FdDup 2; FdClose 7] demo_kernel =
    Ret [0; 1; 2; 0; 0; -1] (with_table demo_kernel 0 demo_pcb table) /\
  table_at table 0 = Some Stdout /\ table_at table 3 = None.
Proof.
  destruct (fd_calls_refine 0%nat [FdInstall Stdin; FdInstall Stdout; FdDup 1; FdClose 0; FdDup 2; FdClose 7] demo_kernel demo_pcb ∅)
    as (table & E & Hs); [split; reflexivity|intros fd; reflexivity|cbn; lia|].
  exists table. split; [exact E|]. split; rewrite (Hs _); reflexivity.
Defined.

(** ** Who refers to an object *)

Lemma sum_list_0 {A} (f : A -> nat) l : sum_list_with f l = 0%nat <-> forall x, x ∈ l -> f x = 0%nat.
Proof.
  induction l as [|y l IH]; cbn [sum_list_with]; [split; [intros _ x ?%elem_of_nil; done|done]|]. rewrite Nat.eq_add_0, IH. split.
  - intros [Hy Hl] x [->|Hx]%elem_of_cons; [done|by apply Hl].
  - intros Hn. split; [apply Hn; by left|]. intros x Hx. apply Hn. by right.
Qed.

Lemma file_refs_0 id table : file_refs id table = 0%nat <-> forall fd, table_at table fd <> Some (FileObject id).
Proof.
  unfold file_refs. induction table as [|o table IH]; [split; done|]. rewrite filter_cons. case_decide as Ho; cbn [length].
  - split; [done|]. intros Hn. destruct (Hn 0%nat). unfold table_at. cbn. by rewrite Ho.
  - rewrite IH. split; intros Hn fd; [destruct fd as [|fd]; [exact Ho|exact (Hn fd)]|exact (Hn (S fd))].
Qed.

Section refs.
Context {T : Type}.
Implicit Types (k : kernel T).

(** No process has a descriptor of the object. *)
Definition no_descriptor k (id : Z) : Prop := forall p b fd, heap k !! p = Some b -> table_at (fd_table b) fd <> Some (FileObject id).
Lemma strong_files_0 k id : strong_files k id = 0%nat <-> no_descriptor k id.
Proof.
  unfold strong_files, no_descriptor. rewrite sum_list_0. split.
  - intros Hn p b fd Hp. apply file_refs_0. apply (Hn (p, b)). by apply elem_of_map_to_list.
  - intros Hn [p b] Hp%elem_of_map_to_list. apply file_refs_0. intros fd. by apply (Hn p b fd).
Qed.

(** [fd] of [q] is the only descriptor of the object. *)
Definition only_descriptor k (id : Z) (q : nat) (fd : nat) : Prop :=
  (exists b, heap k !! q = Some b /\ table_at (fd_table b) fd = Some (FileObject id)) /\
  forall p b fd', heap k !! p = Some b -> table_at (fd_table b) fd' = Some (FileObject id) -> p = q /\ fd' = fd.

Lemma only_descriptor_strong k id q fd : only_descriptor k id q fd -> strong_files k id <> 0%nat.
Proof. intros [(b & Hb & Hf) _] H0. apply strong_files_0 in H0. by apply (H0 q b fd). Qed.

Lemma close_only k id q b fd : runs k q b -> only_descriptor k id q fd ->
  exists k', sys_close (Z.of_nat fd) k = Ret 0 k' /\ no_descriptor k' id.
Proof.
  intros Hr [(b' & Hb & Hf) Hall]. assert (b' = b) as -> by (destruct Hr; congruence). rewrite (sys_close_runs k q b fd Hr), Hf.
  eexists. split; [reflexivity|]. intros p c fd' Hp Hc. unfold with_table in Hp. cbn in Hp. destruct (decide (p = q)) as [->|Hne].
  - rewrite lookup_insert_eq in Hp. injection Hp as <-. cbn [fd_table set_fd_table] in Hc. rewrite close_at in Hc.
    destruct (decide (fd' = fd)) as [|Hfd]; [done|]. by destruct (Hall q b fd' Hb Hc).
  - rewrite lookup_insert_ne in Hp by done. by destruct (Hall p c fd' Hp Hc).
Qed.

End refs.

(** ** Exit keeps the descriptors *)

Section exits.
Context {T : Type} `{FrameAllocator T}.
Implicit Types (k : kernel T).

(** Every process that is left has the table it had. *)
Definition tables_kept k k' : Prop := forall p b', heap k' !! p = Some b' -> exists b, heap k !! p = Some b /\ fd_table b' = fd_table b.
#[local] Instance tables_kept_view : KernelView tables_kept.
Proof.
  split; [split; [intros k p b; eauto|]|intros k m p b; eauto|intros k ks p b; eauto].
  intros k1 k2 k3 H12 H23 p b (b2 & Hb2 & ->)%H23. by apply H12.
Qed.
Lemma keeps_table p f : (forall b, fd_table (f b) = fd_table b) -> keeps tables_kept (update p f).
Proof.
  intros Hf. apply (keeps_update tables_kept). intros k b Hb q c Hq. cbn in Hq. destruct (decide (q = p)) as [->|Hne].
  - rewrite lookup_insert_eq in Hq. injection Hq as <-. eauto.
  - rewrite lookup_insert_ne in Hq by done. eauto.
Qed.
(** The other registers of the kernel hold no table. *)
Lemma keeps_heap {A} (m : M (kernel T) A) : (forall k a k', m k = Ret a k' -> heap k' = heap k) -> keeps tables_kept m.
Proof. intros Hm k a k' E p b Hb. rewrite (Hm _ _ _ E) in Hb. eauto. Qed.
Lemma keeps_on_pids {A} (m : M PidAllocator A) : keeps tables_kept (on_pids m).
Proof. apply keeps_heap. intros k a k' E. unfold on_pids, zoom in E. destruct (m (pids k)); by simplify_eq. Qed.
Lemma keeps_take_current : keeps tables_kept take_current_process.
Proof. apply keeps_heap. unfold take_current_process. by intros k a k' [= _ <-]. Qed.
Lemma keeps_remove_pid n : keeps tables_kept (remove_from_pid2process n).
Proof. apply keeps_heap. intros k a k' E. unfold remove_from_pid2process in E. minv E. case_match; minv E; by simplify_eq. Qed.
Ltac keeps := keeps_with tables_kept ltac:(first [apply keeps_table; done | apply keeps_on_pids | apply keeps_take_current | apply keeps_remove_pid]).

Lemma keeps_delete p : keeps tables_kept (modify (fun k => set_heap (delete p (heap k)) k)).
Proof. apply (keeps_modify tables_kept). intros k q b Hq. cbn in Hq. apply lookup_delete_Some in Hq as [_ Hq]. eauto. Qed.
Lemma keeps_drop_pcb n p : keeps tables_kept (drop_pcb n p).
Proof.
  revert p. induction n as [|n IH]; intros p; cbn [drop_pcb]; [apply (keeps_fail tables_kept)|].
  keeps; first [apply keeps_delete|apply IH].
Qed.
Lemma keeps_exit code : keeps tables_kept (exit_current code).
Proof. unfold exit_current, adopt_child, not_borrowed, drop_arc.
  keeps_with tables_kept ltac:(first [apply keeps_drop_pcb|apply keeps_table; done|apply keeps_take_current|apply keeps_remove_pid]).
Qed.
Lemma keeps_waitpid a ptr : keeps tables_kept (sys_waitpid a ptr).
Proof. unfold sys_waitpid, assert, drop_arc. keeps_with tables_kept ltac:(first [apply keeps_drop_pcb|apply keeps_table; done]). Qed.

End exits.

(** ** The reader of a pipe *)

Section reader.
Context {T St C : Type} `{FrameAllocator T} (env : boot).
Implicit Types (s : system T St C) (k : kernel T).

(** A read that found nothing so far: the ring is empty and [we] is its write end. *)
Record read_pending s (p : Pipe) (we : Z) : Prop := {
  rp_readable : p_readable p = true;
  rp_ring : exists r, rings s !! p_buffer p = Some r /\ ring_ok r /\ contents r = [] /\ write_end r = Some we;
}.
(** Kernels with the same descriptors; switching processes leads from one to another. *)
Definition same_tables k k' : Prop := (fd_table <$> heap k') = (fd_table <$> heap k).

Lemma same_tables_descriptor k k' id : same_tables k k' -> no_descriptor k id -> no_descriptor k' id.
Proof.
  intros Hs Hn p b fd Hp. assert (Hb : (fd_table <$> heap k) !! p = Some (fd_table b)) by (rewrite <- Hs, lookup_fmap, Hp; done).
  rewrite lookup_fmap in Hb. destruct (heap k !! p) as [b0|] eqn:E; [|done]. injection Hb as Hb. rewrite <- Hb. by apply (Hn p b0).
Qed.
Lemma same_tables_sym k k' : same_tables k k' -> same_tables k' k.
Proof. unfold same_tables. congruence. Qed.
Lemma only_descriptor_held k id q fd : only_descriptor k id q fd -> ~ no_descriptor k id.
Proof. intros [(b & Hb & Hf) _] Hn. by apply (Hn q b fd). Qed.

Lemma pending_turn s p c we : read_pending s p we ->
  Pipe_read_turn p c s = if decide (strong_files (kern s) we = 0%nat) then Ret (IoRet (already c)) s
                         else (on_kern suspend_current ;;; ret (IoSuspend (WaitRead p c))) s.
Proof.
  intros [Hp (r & Hr & Hok & Hc & Hwe)]. unfold Pipe_read_turn. rewrite bind_get. unfold bind at 1, on_pipe. rewrite Hr.
  unfold read_turn. rewrite bind_assert by done. rewrite bind_get. cbn [ring]. rewrite (available_read_contents _ Hok), Hc. change (Z.of_nat (length []) =? 0) with true. cbn iota.
  unfold all_write_ends_closed. rewrite Hwe. unfold bind at 1 2, unwrap, ret at 1 2.
  assert (Es : set_rings (<[p_buffer p := r]> (rings s)) (set_kern (set_kmem (kmem (kern s)) (kern s)) s) = s)
    by (rewrite insert_id by done; destruct s as [[] ? ? ? ?]; done).
  case_decide as Hz.
  - rewrite Hz. cbn [Nat.eqb ret ring pmem]. rewrite Es. done.
  - apply Nat.eqb_neq in Hz. rewrite Hz. cbn [ret ring pmem]. rewrite Es. done.
Qed.
Lemma pending_waits s p c we k : read_pending s p we -> ~ no_descriptor k we ->
  Pipe_read_turn p c (set_kern k s) = (on_kern suspend_current ;;; ret (IoSuspend (WaitRead p c))) (set_kern k s).
Proof. intros [Hp Hr] Hn. rewrite (pending_turn _ p c we) by (split; [done|exact Hr]). cbn [kern set_kern]. by rewrite decide_False by (by rewrite strong_files_0). Qed.
Lemma pending_returns s p c we k : read_pending s p we -> no_descriptor k we -> Pipe_read_turn p c (set_kern k s) = Ret (IoRet (already c)) (set_kern k s).
Proof. intros [Hp Hr] Hn. rewrite (pending_turn _ p c we) by (split; [done|exact Hr]). cbn [kern set_kern]. by rewrite decide_True by (by apply strong_files_0). Qed.

(** Without [q], nobody holds the object that only [q] had. *)
Lemma no_descriptor_kept k1 k2 id q fd : only_descriptor k1 id q fd -> tables_kept k1 k2 -> heap k2 !! q = None -> no_descriptor k2 id.
Proof.
  intros [_ Hall] Hkept Hq p b fd' Hp Hf. destruct (Hkept p b Hp) as (b1 & Hb1 & Ht). rewrite Ht in Hf.
  destruct (Hall p b1 fd' Hb1 Hf) as [-> _]. congruence.
Qed.
(** A process that is still there keeps the object that only it had. *)
Lemma only_descriptor_kept k1 k2 id q fd b : only_descriptor k1 id q fd -> tables_kept k1 k2 -> heap k2 !! q = Some b -> only_descriptor k2 id q fd.
Proof.
  intros [(b1 & Hb1 & Hf1) Hall] Hkept Hq. split.
  - exists b. split; [done|]. destruct (Hkept q b Hq) as (b2 & Hb2 & Ht). rewrite Ht. congruence.
  - intros p c fd' Hp Hf. destruct (Hkept p c Hp) as (c1 & Hc1 & Ht). rewrite Ht in Hf. by apply (Hall p c1).
Qed.

(** The wait that returns the identifier of [q] has reaped [q]. *)
Lemma waitpid_gone k a ptr bz k' q : tree_inv (tree_of k) -> heap k !! q = Some bz -> pid bz < 2 ^ 63 ->
  sys_waitpid a ptr k = Ret (pid bz) k' -> heap k' !! q = None.
Proof.
  intros Hi Hq Hlt E. destruct (ti_live _ Hi q _ (core_lookup k q bz Hq)) as [H0 _]. cbn in H0.
  destruct (waitpid_inv k a ptr _ k' Hi E) as [[_ [Hv|Hv]]|(p & b & idx & x & cb & _ & _ & _ & _ & Hcb & _ & Hv & Hh & _)]; [lia..|].
  destruct (ti_live _ Hi x _ (core_lookup k x cb Hcb)) as [H1 _]. cbn in H1. destruct (ti_pids _ Hi) as [_ Hfit].
  assert (Hpid : pid cb = pid bz).
  { unfold pid_live, live in H0, H1. cbn in H0, H1, Hfit. unfold as_isize in Hv. rewrite u64_small in Hv by lia. destruct (Z.ltb_spec (pid cb) (2 ^ 63)); lia. }
  assert (x = q) as <- by (apply (ti_inj _ Hi x q _ _ (core_lookup k x cb Hcb) (core_lookup k q bz Hq)); done). rewrite Hh. apply lookup_delete_eq.
Qed.

(** C18. In any state reached from boot, a reader on an empty pipe waits as long as one process has
    a descriptor of the write end; when that descriptor is closed its next turn returns what it has
    read; when the holder exits instead, the zombie keeps the descriptor and the reader goes on
    waiting, through any later states in which it is still the only one, until a waitpid returns the
    identifier of the holder: after it the next turn returns. *)
Theorem pipe_reader_released k0 s p c we q b fd :
  boot_state k0 -> rtc (kstep env) k0 (kern s) -> read_pending s p we -> runs (kern s) q b -> only_descriptor (kern s) we q fd ->
  let waits k := Pipe_read_turn p c (set_kern k s) = (on_kern suspend_current ;;; ret (IoSuspend (WaitRead p c))) (set_kern k s) in
  let returns k := Pipe_read_turn p c (set_kern k s) = Ret (IoRet (already c)) (set_kern k s) in
  (forall k, only_descriptor k we q fd -> waits k) /\
  (exists k', sys_close (Z.of_nat fd) (kern s) = Ret 0 k' /\ forall k, same_tables k' k -> returns k) /\
  (forall code k', exit_current code (kern s) = Ret tt k' ->
     only_descriptor k' we q fd /\ (forall k, same_tables k' k -> waits k) /\
     forall k1 a ptr bz k2, rtc (kstep env) k' k1 -> only_descriptor k1 we q fd -> heap k1 !! q = Some bz -> pid bz < 2 ^ 63 ->
       sys_waitpid a ptr k1 = Ret (pid bz) k2 -> forall k, same_tables k2 k -> returns k).
Proof.
  intros Hb0 Hst Hp Hr Ho waits returns. split_and!.
  - intros k Hk. by apply (pending_waits s p c we k Hp), (only_descriptor_held k we q fd).
  - destruct (close_only _ _ _ _ _ Hr Ho) as (k' & E & Hn). exists k'. split; [exact E|]. intros k Hk.
    by apply (pending_returns s p c we k Hp), (same_tables_descriptor k').
  - intros code k' E. destruct (exit_inv (kern s) q code tt k' (reachable_inv env k0 _ Hb0 Hst) (rn_running _ _ _ Hr) E) as (_ & b' & Hq & _).
    pose proof (only_descriptor_kept _ _ _ _ _ _ Ho (keeps_exit code _ _ _ E) Hq) as Ho'. split_and!; [exact Ho'| |].
    + intros k Hk. apply (pending_waits s p c we k Hp). intros Hn. by apply (only_descriptor_held k' we q fd Ho'), (same_tables_descriptor k), Hn; apply same_tables_sym.
    + intros k1 a ptr bz k2 Hst1 Ho1 Hz Hlt Ew k Hk. apply (pending_returns s p c we k Hp), (same_tables_descriptor k2); [done|].
      assert (Hi1 : tree_inv (tree_of k1)).
      { apply (reachable_inv env k0 k1 Hb0). etrans; [exact Hst|]. eapply rtc_l; [exact (step_exit env _ code tt k' E)|exact Hst1]. }
      exact (no_descriptor_kept k1 k2 we q fd Ho1 (keeps_waitpid a ptr _ _ _ Ew) (waitpid_gone k1 a ptr bz k2 q Hi1 Hz Hlt Ew)).
Qed.
End reader.

(** ** A child with a pipe *)

Definition value {S A} (r : outcome S A) : option A := match r with Ret a _ => Some a | Panic _ => None end.
Definition then_run {S A} (m : M S A) (s : S) : S := match m s with Ret _ s' => s' | Panic _ => s end.
Lemma then_run_value {S A} (m : M S A) s a : value (m s) = Some a -> m s = Ret a (then_run m s).
Proof. unfold then_run. destruct (m s); by intros [= ->]. Qed.

(** A kernel space without areas; a process with one page and a trap context. *)
Definition family_spaces : M (mem StackFrameAllocator) (MemorySet * MemorySet) :=
  let! ks := new_bare in
  let! ms := new_bare in
  let! ms := insert_framed_area ms 0x10000 0x11000 (Z.lor MapPermission.R (Z.lor MapPermission.W MapPermission.U)) in
  let! ms := insert_framed_area ms TRAP_CONTEXT_va (TRAP_CONTEXT_va + PAGE_SIZE) (Z.lor MapPermission.R MapPermission.W) in
  ret (ks, ms).
Definition family_boot : kernel StackFrameAllocator :=
  let '(ks, ms) := default (kernel_space boot_kernel, memory_set (space boot_pcb)) (value (family_spaces demo_mem)) in
  set_kmem (then_run family_spaces demo_mem) (set_kernel_space ks
    (set_heap {[0%nat := set_space {| memory_set := ms; trap_cx_ppn := 150; base_size := 0 |} boot_pcb]} boot_kernel)).
(** The first process runs and forks process 1, which gets the two ends of pipe 0, and yields to it. *)
Definition family_forked : kernel StackFrameAllocator := then_run (sys_fork demo_env) (then_run run_process_turn family_boot).
Definition pipe_table : list (option file) := [Some (FileObject 0); Some (FileObject 1)].
Definition family_piped : kernel StackFrameAllocator :=
  set_heap (alter (set_fd_table pipe_table) 1%nat (heap family_forked)) family_forked.
Definition family_child : kernel StackFrameAllocator := then_run run_process_turn (then_run suspend_current family_piped).
(** Process 1 exits and the first process runs again. *)
Definition family_zombie : kernel StackFrameAllocator := then_run run_process_turn (then_run (exit_current 7) family_child).

Lemma family_boot_state : boot_state family_boot.
Proof.
  unfold family_boot. destruct (default _ _) as [ks ms]. split; try reflexivity. eexists. split; [reflexivity|]. split_and!; reflexivity.
Qed.
Lemma run_then k : running k = None -> value (run_process_turn k) = Some tt -> kstep demo_env k (then_run run_process_turn k).
Proof. intros Hr Hv. apply step_run; [done|]. by apply then_run_value. Qed.
Lemma table_alter (k : kernel StackFrameAllocator) p t : is_Some (heap k !! p) -> kstep demo_env k (set_heap (alter (set_fd_table t) p (heap k)) k).
Proof.
  intros [b Hb]. assert (alter (set_fd_table t) p (heap k) = <[p := set_fd_table t b]> (heap k)) as ->; [|by apply step_table].
  apply map_eq. intros i. destruct (decide (i = p)) as [->|Hi]; [by rewrite lookup_alter_eq, lookup_insert_eq, Hb|by rewrite lookup_alter_ne, lookup_insert_ne].
Qed.

Lemma fork_then k v : p_current (pids k) + 1 < 2 ^ 64 -> value (sys_fork demo_env k) = Some v -> kstep demo_env k (then_run (sys_fork demo_env) k).
Proof. intros Hp Hv. apply (step_fork demo_env k v); [done|]. by apply then_run_value. Qed.
Lemma yield_then k : value (suspend_current k) = Some tt -> kstep demo_env k (then_run suspend_current k).
Proof. intros Hv. apply step_yield. by apply then_run_value. Qed.

Lemma family_child_reached : rtc (kstep demo_env) family_boot family_child.
Proof.
  unfold family_child, family_piped, family_forked.
  eapply rtc_l; [apply run_then; vm_compute; reflexivity|].
  eapply rtc_l; [apply (fork_then _ 1); vm_compute; reflexivity|].
  eapply rtc_l; [apply (table_alter _ 1%nat pipe_table); vm_compute; eexists; reflexivity|].
  eapply rtc_l; [apply yield_then; vm_compute; reflexivity|].
  apply rtc_once, run_then; vm_compute; reflexivity.
Qed.

Definition pipe_system : system StackFrameAllocator unit unit :=
  {| kern := family_child; disk := tt; objects := <[1 := ObjPipe (write_end_with_buffer 0)]> {[0 := ObjPipe (read_end_with_buffer 0)]};
     rings := {[0 := snd (make_pipe 0 1)]}; con := tt |}.
Lemma pipe_system_pending : read_pending pipe_system (read_end_with_buffer 0) 1.
Proof. split; [done|]. exists (snd (make_pipe 0 1)). split_and!; done. Qed.

(** Process 1 has the only write end, at descriptor 1. *)
Lemma pipe_table_only (k : kernel StackFrameAllocator) : fd_table <$> heap k = <[1%nat := pipe_table]> {[0%nat := []]} -> only_descriptor k 1 1 1.
Proof.
  intros Hk. assert (Hl : forall p t, (exists b, heap k !! p = Some b /\ fd_table b = t) <-> (<[1%nat := pipe_table]> {[0%nat := []]} : gmap nat _) !! p = Some t).
  { intros p t. rewrite <- Hk, lookup_fmap, fmap_Some. naive_solver. }
  split.
  - destruct (proj2 (Hl 1%nat pipe_table) (lookup_insert_eq _ _ _)) as (b & Hb & Ht). exists b. by rewrite Ht.
  - intros p b fd Hp Hf. assert (Hi : (<[1%nat := pipe_table]> {[0%nat := []]} : gmap nat _) !! p = Some (fd_table b)) by (apply Hl; eauto).
    apply lookup_insert_Some in Hi as [[<- Ht]|[_ [<- Ht]%lookup_singleton_Some]]; rewrite <- Ht in Hf; [|done].
    split; [done|]. destruct fd as [|[|[|fd]]]; done.
Qed.

Lemma pipe_reader_released_witness :
  let p := read_end_with_buffer 0 in let c := call_start {| buffers := [] |} in let at_ k := set_kern k pipe_system in
  Pipe_read_turn p c (at_ family_child) = (on_kern suspend_current ;;; ret (IoSuspend (WaitRead p c))) (at_ family_child) /\
  (exists k', sys_close 1 family_child = Ret 0 k' /\ Pipe_read_turn p c (at_ k') = Ret (IoRet 0) (at_ k')) /\
  (exists k', exit_current 7 family_child = Ret tt k' /\
     Pipe_read_turn p c (at_ k') = (on_kern suspend_current ;;; ret (IoSuspend (WaitRead p c))) (at_ k')) /\
  (exists k', sys_waitpid (-1) 0x10000 family_zombie = Ret 1 k' /\ Pipe_read_turn p c (at_ k') = Ret (IoRet 0) (at_ k')).
Proof.
  assert (Ho : only_descriptor family_child 1 1 1) by (apply pipe_table_only; vm_compute; reflexivity).
  assert (Hoz : only_descriptor family_zombie 1 1 1) by (apply pipe_table_only; vm_compute; reflexivity).
  destruct (heap family_child !! 1%nat) as [b|] eqn:Hb; [|vm_compute in Hb; discriminate Hb].
  destruct (pipe_reader_released demo_env family_boot pipe_system (read_end_with_buffer 0) (call_start {| buffers := [] |}) 1 1 b 1
    family_boot_state family_child_reached pipe_system_pending) as (Hw & (k' & Ec & Hc) & Hx); [split; [vm_compute; reflexivity|exact Hb]|exact Ho|].
  assert (Ex : exit_current 7 family_child = Ret tt (then_run (exit_current 7) family_child)) by (apply then_run_value; vm_compute; reflexivity).
  destruct (Hx 7 _ Ex) as (_ & Hwx & Hr). split; [exact (Hw family_child Ho)|split; [exists k'; exact (conj Ec (Hc k' eq_refl))|split; [eexists; exact (conj Ex (Hwx _ eq_refl))|]]].
  destruct (heap family_zombie !! 1%nat) as [bz|] eqn:Hz; [|vm_compute in Hz; discriminate Hz].
  assert (Hp : pid <$> heap family_zombie !! 1%nat = Some 1) by (vm_compute; reflexivity). rewrite Hz in Hp. injection Hp as Hp.
  assert (Ew : sys_waitpid (-1) 0x10000 family_zombie = Ret (pid bz) (then_run (sys_waitpid (-1) 0x10000) family_zombie))
    by (rewrite Hp; apply then_run_value; vm_compute; reflexivity).
  exists (then_run (sys_waitpid (-1) 0x10000) family_zombie). split; [rewrite <- Hp; exact Ew|].
  apply (Hr family_zombie (-1) 0x10000 bz (then_run (sys_waitpid (-1) 0x10000) family_zombie)); [|exact Hoz|exact Hz|lia|exact Ew|reflexivity].
  apply rtc_once, run_then; vm_compute; reflexivity.
Defined.
