(* ===== verification/LogLib.v ===== *)
(** The log library: [components/src/log/{mod,message,transport,client,server}.rs].

    A client turns a record into bytes and writes them, with their length, to a
    descriptor; a server reads them back.  Strings are their UTF-8 bytes.  The
    system calls behind the descriptors are function pointers of the library and
    so arguments of the model; [S] is the state they act on. *)
From stdpp Require Import pretty.
From S2P Require Import Prelude Layout.

Definition MAX_MESSAGE_LEN : Z := 512.
Definition MAX_MODULE_LEN : Z := 32.

(** ** [String::from_utf8_lossy]

    The decoder takes the longest beginning of a character that can still be one;
    what it cannot complete becomes U+FFFD. *)

(** The number of bytes taken and whether they are a character.  A byte past the end
    counts as zero. *)
Definition is_cont (c : Z) : bool := between 0x80 0xbf c.
Definition second_ok (a b : Z) : bool :=
  if a =? 0xe0 then between 0xa0 0xbf b else if a =? 0xed then between 0x80 0x9f b
  else if a =? 0xf0 then between 0x90 0xbf b else if a =? 0xf4 then between 0x80 0x8f b
  else is_cont b.
Definition utf8_step (bs : list Z) : nat * bool :=
  let get i := default 0 (bs !! i) in
  let a := get 0%nat in
  if between 0 0x7f a then (1%nat, true)
  else if between 0xc2 0xdf a then if is_cont (get 1%nat) then (2%nat, true) else (1%nat, false)
  else if between 0xe0 0xef a then
    if negb (second_ok a (get 1%nat)) then (1%nat, false)
    else if is_cont (get 2%nat) then (3%nat, true) else (2%nat, false)
  else if between 0xf0 0xf4 a then
    if negb (second_ok a (get 1%nat)) then (1%nat, false)
    else if negb (is_cont (get 2%nat)) then (2%nat, false)
    else if is_cont (get 3%nat) then (4%nat, true) else (3%nat, false)
  else (1%nat, false).
Definition REPLACEMENT : list Z := [0xef; 0xbf; 0xbd].
(** Every turn takes at least a byte. *)
Fixpoint lossy (fuel : nat) (bs : list Z) : list Z :=
  match fuel, bs with
  | _, [] | O, _ => []
  | S fuel, bs =>
      let '(n, ok) := utf8_step bs in
      (if ok then take n bs else REPLACEMENT) ++ lossy fuel (drop n bs)
  end.
Definition from_utf8_lossy (bs : list Z) : list Z := lossy (length bs) bs.

(** ** Messages ([message.rs]) *)

Inductive LogLevel := Error | Warn | Info | Debug | Trace.
(** [level as u8] *)
Definition level_u8 (l : LogLevel) : Z :=
  match l with Error => 1 | Warn => 2 | Info => 3 | Debug => 4 | Trace => 5 end.
Definition level_as_str (l : LogLevel) : string :=
  match l with Error => "ERROR" | Warn => "WARN" | Info => "INFO" | Debug => "DEBUG" | Trace => "TRACE" end.
Definition color_code (l : LogLevel) : Z :=
  match l with Error => 31 | Warn => 93 | Info => 34 | Debug => 32 | Trace => 90 end.

Record LogMessage := {
  level : LogLevel;
  pid : Z;
  cpu_id : Z;
  timestamp : Z;
  module : list Z;
  message : list Z;
}.
Definition LogMessage_new (level : LogLevel) (pid cpu_id timestamp : Z) (module message : list Z) : option LogMessage :=
  if (MAX_MODULE_LEN <? Z.of_nat (length module)) || (MAX_MESSAGE_LEN <? Z.of_nat (length message)) then None
  else Some {| level := level; pid := pid; cpu_id := cpu_id; timestamp := timestamp; module := module; message := message |}.

Definition serialize (self : LogMessage) : list Z :=
  [level_u8 (level self)] ++ le_bytes 4 (pid self) ++ [cpu_id self] ++ le_bytes 4 (timestamp self)
    ++ [u8 (Z.of_nat (length (module self)))] ++ le_bytes 2 (u16 (Z.of_nat (length (message self))))
    ++ module self ++ message self.

(** [&data[lo..hi]] *)
Definition range {S} (data : list Z) (lo hi : Z) : M S (list Z) :=
  if (lo <=? hi) && (hi <=? Z.of_nat (length data)) then ret (slice data (Z.to_nat lo) (Z.to_nat (hi - lo))) else fail Bounds.
Definition u32_at {S} (data : list Z) (offset : Z) : M S Z :=
  let! b0 := index data offset in
  let! b1 := index data (offset + 1) in
  let! b2 := index data (offset + 2) in
  let! b3 := index data (offset + 3) in
  ret (of_le [b0; b1; b2; b3]).
Definition level_of (b : Z) : option LogLevel :=
  if b =? 1 then Some Error else if b =? 2 then Some Warn else if b =? 3 then Some Info
  else if b =? 4 then Some Debug else if b =? 5 then Some Trace else None.

Definition deserialize {S} (data : list Z) : M S (option LogMessage) :=
  let len := Z.of_nat (length data) in
  if len <? 12 then ret None
  else
    let offset := 0 in
    let! b := index data offset in
    match level_of b with
    | None => ret None
    | Some level =>
        let offset := offset + 1 in
        let! pid := u32_at data offset in
        let offset := offset + 4 in
        let! cpu_id := index data offset in
        let offset := offset + 1 in
        let! timestamp := u32_at data offset in
        let offset := offset + 4 in
        if len <? offset + 3 then ret None
        else
          let! module_len := index data offset in
          let offset := offset + 1 in
          let! l0 := index data offset in
          let! l1 := index data (offset + 1) in
          let message_len := of_le [l0; l1] in
          let offset := offset + 2 in
          if len <? offset + module_len + message_len then ret None
          else
            let! m := range data offset (offset + module_len) in
            let offset := offset + module_len in
            let! t := range data offset (offset + message_len) in
            ret (Some {| level := level; pid := pid; cpu_id := cpu_id; timestamp := timestamp;
                         module := from_utf8_lossy m; message := from_utf8_lossy t |})
    end.

Definition format (self : LogMessage) : list Z :=
  [0x1b] ++ bytes_of "[" ++ decimal (color_code (level self)) ++ bytes_of "m"
    ++ pad_left 5 (bytes_of (level_as_str (level self)))
    ++ bytes_of " [T" ++ pad_left 4 (decimal (timestamp self)) ++ bytes_of "] [CPU" ++ decimal (cpu_id self) ++ bytes_of "] ["
    ++ module self ++ bytes_of "] " ++ message self ++ [0x1b] ++ bytes_of "[0m".

(** ** The transport ([transport.rs]) *)

Inductive TransportError := WriteFailed | ReadFailed | NotConnected.
Inductive Result (A E : Type) := Ok (a : A) | Err (e : E).
Arguments Ok {A E} a.
Arguments Err {A E} e.

(** The [?] operator. *)
Definition try_bind {S A B E} (m : M S (Result A E)) (k : A -> M S (Result B E)) : M S (Result B E) :=
  let! r := m in match r with Ok a => k a | Err e => ret (Err e) end.
Notation "'let?' x := m 'in' k" := (try_bind m (fun x => k))
  (at level 10, x binder, m at level 100, k at level 200) : rust_scope.
Definition ok_or {S A E} (o : option A) (e : E) : M S (Result A E) :=
  ret (match o with Some a => Ok a | None => Err e end).

(** The trait [LogTransport], as the methods behind a [dyn] reference. *)
Record LogTransport (S : Type) := {
  send : LogMessage -> M S (Result unit TransportError);
  receive : M S (Result LogMessage TransportError);
  try_receive : M S (Result (option LogMessage) TransportError);
}.
Arguments send {S} _ _.
Arguments receive {S} _.
Arguments try_receive {S} _.

Section transport.
Context {S : Type}.
(** A read returns what it leaves in the buffer. *)
Definition SyscallWriteFn : Type := Z -> list Z -> M S Z.
Definition SyscallReadFn : Type := Z -> list Z -> M S (Z * list Z).

Record PipeTransport := {
  write_fd : option Z;
  read_fd : option Z;
  sys_write : option SyscallWriteFn;
  sys_read : option SyscallReadFn;
}.
Definition new_client (fd : Z) (f : SyscallWriteFn) : PipeTransport :=
  {| write_fd := Some fd; read_fd := None; sys_write := Some f; sys_read := None |}.
Definition new_server (fd : Z) (f : SyscallReadFn) : PipeTransport :=
  {| write_fd := None; read_fd := Some fd; sys_write := None; sys_read := Some f |}.

Definition write_to_pipe (self : PipeTransport) (fd : Z) (data : list Z) : M S (Result Z TransportError) :=
  match sys_write self with
  | Some sys_write => let! written := sys_write fd data in ret (if 0 <? written then Ok written else Err WriteFailed)
  | None => ret (Err NotConnected)
  end.
Definition read_from_pipe (self : PipeTransport) (fd : Z) (buffer : list Z) : M S (Result (Z * list Z) TransportError) :=
  match sys_read self with
  | Some sys_read =>
      let! '(read_size, buffer) := sys_read fd buffer in
      ret (if 0 <? read_size then Ok (read_size, buffer) else if read_size =? 0 then Ok (0, buffer) else Err ReadFailed)
  | None => ret (Err NotConnected)
  end.

Definition PipeTransport_send (self : PipeTransport) (m : LogMessage) : M S (Result unit TransportError) :=
  let? fd := ok_or (write_fd self) NotConnected in
  let data := serialize m in
  let? _ := write_to_pipe self fd (le_bytes 4 (u32 (Z.of_nat (length data)))) in
  let? _ := write_to_pipe self fd data in
  ret (Ok tt).
Definition PipeTransport_receive (self : PipeTransport) : M S (Result LogMessage TransportError) :=
  let? fd := ok_or (read_fd self) NotConnected in
  let? '(_, len_buf) := read_from_pipe self fd (replicate 4 0) in
  let msg_len := of_le len_buf in
  let? '(_, msg_buf) := read_from_pipe self fd (replicate (Z.to_nat msg_len) 0) in
  let! o := deserialize msg_buf in
  ok_or o ReadFailed.
Definition PipeTransport_try_receive (self : PipeTransport) : M S (Result (option LogMessage) TransportError) :=
  let! r := PipeTransport_receive self in
  ret (match r with Ok m => Ok (Some m) | Err ReadFailed => Ok None | Err e => Err e end).
Definition pipe_transport (self : PipeTransport) : LogTransport S :=
  {| send := PipeTransport_send self; receive := PipeTransport_receive self; try_receive := PipeTransport_try_receive self |}.

(** ** The client ([client.rs]) *)

Inductive LogError := ClientTransportError | NotInitialized | MessageTooLong.
Record LogClient := { transport : LogTransport S; client_pid : Z; client_cpu : Z }.

(** The statics of the library and the state behind its system calls. *)
Record world := {
  counter : Z;
  CLIENT_INITIALIZED : Z;
  GLOBAL_CLIENT_PTR : option LogClient;
  io : S;
}.
Definition set_counter (n : Z) (w : world) : world :=
  {| counter := n; CLIENT_INITIALIZED := CLIENT_INITIALIZED w; GLOBAL_CLIENT_PTR := GLOBAL_CLIENT_PTR w; io := io w |}.
Definition set_client (c : LogClient) (w : world) : world :=
  {| counter := counter w; CLIENT_INITIALIZED := 1; GLOBAL_CLIENT_PTR := Some c; io := io w |}.
Definition set_io (s : S) (w : world) : world :=
  {| counter := counter w; CLIENT_INITIALIZED := CLIENT_INITIALIZED w; GLOBAL_CLIENT_PTR := GLOBAL_CLIENT_PTR w; io := s |}.
(** The statics before any call. *)
Definition world_start (s : S) : world :=
  {| counter := 1; CLIENT_INITIALIZED := 0; GLOBAL_CLIENT_PTR := None; io := s |}.
Definition on_io {A} (m : M S A) : M world A := zoom io set_io m.

Definition get_current_pid : Z := 0.
Definition get_current_cpu_id : Z := 0.
Definition get_timestamp : M world Z :=
  let! w := get in
  put (set_counter (u32 (counter w + 1)) w) ;;;
  ret (counter w).

Definition LogClient_new (transport : LogTransport S) : LogClient :=
  {| transport := transport; client_pid := get_current_pid; client_cpu := get_current_cpu_id |}.
Definition connect_with_syscalls (fd : Z) (f : SyscallWriteFn) : Result LogClient LogError :=
  Ok (LogClient_new (pipe_transport (new_client fd f))).
Definition connect : Result LogClient LogError := Err NotInitialized.

Definition LogClient_log (self : LogClient) (level : LogLevel) (module message : list Z) : M world (Result unit LogError) :=
  let! timestamp := get_timestamp in
  let? log_msg := ok_or (LogMessage_new level (client_pid self) (client_cpu self) timestamp module message) MessageTooLong in
  let! r := on_io (send (transport self) log_msg) in
  ret (match r with Ok u => Ok u | Err _ => Err ClientTransportError end).

Definition LogClient_error (self : LogClient) := LogClient_log self Error.
Definition LogClient_warn (self : LogClient) := LogClient_log self Warn.
Definition LogClient_info (self : LogClient) := LogClient_log self Info.
Definition LogClient_debug (self : LogClient) := LogClient_log self Debug.
Definition LogClient_trace (self : LogClient) := LogClient_log self Trace.

Definition init_log_client : M world (Result unit LogError) :=
  let! w := get in
  if CLIENT_INITIALIZED w =? 0 then
    let? client := ret connect in
    modify (set_client client) ;;;
    ret (Ok tt)
  else ret (Ok tt).
Definition get_log_client : M world (Result LogClient LogError) :=
  let! w := get in
  let? _ := if CLIENT_INITIALIZED w =? 0 then init_log_client else ret (Ok tt) in
  let! w := get in
  ok_or (GLOBAL_CLIENT_PTR w) NotInitialized.
Definition log_message (level : LogLevel) (module message : list Z) : M world unit :=
  let! r := get_log_client in
  match r with
  | Ok client => let! _ := LogClient_log client level module message in ret tt
  | Err _ => ret tt
  end.

(** ** The server ([server.rs])

    [handle_message] formats a message and [output_message] throws the text away. *)

Record LogServer := { server_transport : LogTransport S; running : bool }.
Definition output_message (_ : list Z) : M S unit := ret tt.
Definition handle_message (m : LogMessage) : M S unit := output_message (format m).

(** At most [n] messages, up to the first that is not there. *)
Fixpoint collect (self : LogServer) (n : nat) (messages : list LogMessage) : M S (list LogMessage) :=
  match n with
  | O => ret messages
  | Datatypes.S n =>
      let! r := try_receive (server_transport self) in
      match r with Ok (Some msg) => collect self n (messages ++ [msg]) | _ => ret messages end
  end.
Definition process_messages (self : LogServer) : M S unit :=
  let! messages := collect self 10 [] in
  for_each messages handle_message.

Fixpoint process_batch_loop (self : LogServer) (n : nat) (processed : Z) : M S Z :=
  match n with
  | O => ret processed
  | Datatypes.S n =>
      if negb (running self) then ret processed
      else
        let! r := try_receive (server_transport self) in
        match r with
        | Ok (Some message) => handle_message message ;;; process_batch_loop self n (processed + 1)
        | _ => ret processed
        end
  end.
(** [max_messages] turns at most. *)
Definition process_batch (self : LogServer) (max_messages : Z) : M S Z :=
  process_batch_loop self (Z.to_nat max_messages) 0.
(** Nothing in the loop writes [running]; [process_messages] never gives an error. *)
Fixpoint run_loop (fuel : nat) (self : LogServer) : M S unit :=
  match fuel with
  | O => fail Fuel
  | Datatypes.S fuel => if running self then process_messages self ;;; run_loop fuel self else ret tt
  end.
Definition start (fuel : nat) (self : LogServer) : M S unit :=
  run_loop fuel {| server_transport := server_transport self; running := true |}.
Definition stop (self : LogServer) : LogServer := {| server_transport := server_transport self; running := false |}.
Definition is_running (self : LogServer) : bool := running self.
End transport.
