(* ===== verification/LogSpec.v ===== *)
(** What the log library promises: messages survive their encoding, any bytes decode to
    a well-formed message or to nothing, and a channel delivers what was accepted. *)
From S2P Require Import Prelude Layout LogLib.

(** ** UTF-8 by steps *)

Lemma second_ok_3 a b : between 0xe0 0xef a = true ->
  second_ok a b = if a =? 0xe0 then between 0xa0 0xbf b else if a =? 0xed then between 0x80 0x9f b else between 0x80 0xbf b.
Proof.
  unfold between, second_ok, is_cont. intros [H1%Z.leb_le H2%Z.leb_le]%andb_true_iff.
  rewrite (proj2 (Z.eqb_neq a 0xf0)), (proj2 (Z.eqb_neq a 0xf4)) by lia. done.
Qed.
Lemma second_ok_4 a b : between 0xf0 0xf4 a = true ->
  second_ok a b = if a =? 0xf0 then between 0x90 0xbf b else if a =? 0xf4 then between 0x80 0x8f b else between 0x80 0xbf b.
Proof.
  unfold between, second_ok, is_cont. intros [H1%Z.leb_le H2%Z.leb_le]%andb_true_iff.
  rewrite (proj2 (Z.eqb_neq a 0xe0)), (proj2 (Z.eqb_neq a 0xed)) by lia. done.
Qed.
Lemma second_ok_0 a : second_ok a 0 = false.
Proof. unfold second_ok. repeat case_match; done. Qed.

Lemma utf8_valid_step fuel a r :
  utf8_valid (S fuel) (a :: r) = (utf8_step (a :: r)).2 && utf8_valid fuel (drop (utf8_step (a :: r)).1 (a :: r)).
Proof.
  unfold utf8_step. cbn [utf8_valid lookup list_lookup default from_option id].
  destruct (between 0 0x7f a); [done|]. destruct (between 0xc2 0xdf a).
  { destruct r as [|b r]; cbn; [done|]. unfold is_cont. by destruct (between 0x80 0xbf b). }
  destruct (between 0xe0 0xef a) eqn:E3.
  { destruct r as [|b [|c r]]; cbn; rewrite ?second_ok_0; [done|by destruct (second_ok a b)|].
    rewrite second_ok_3 by done. unfold is_cont. by destruct (if a =? _ then _ else _), (between 0x80 0xbf c). }
  destruct (between 0xf0 0xf4 a) eqn:E4; [|done].
  destruct r as [|b [|c [|d r]]]; cbn; rewrite ?second_ok_0; [done|by destruct (second_ok a b)|..].
  - destruct (second_ok a b), (is_cont c); done.
  - rewrite second_ok_4 by done. unfold is_cont.
    by destruct (if a =? _ then _ else _), (between 0x80 0xbf c), (between 0x80 0xbf d).
Qed.

(** What a step looks at is what it takes. *)
Lemma utf8_step_bounds a r n ok : utf8_step (a :: r) = (n, ok) ->
  (1 <= n)%nat /\ (ok = true -> (n <= length (a :: r))%nat /\ forall r', utf8_step (take n (a :: r) ++ r') = (n, true)).
Proof.
  unfold utf8_step. cbn [lookup list_lookup default from_option id].
  destruct (between 0 0x7f a) eqn:E1.
  { intros [= <- <-]. split; [lia|]. intros _. split; [cbn; lia|]. intros r'. cbn. by rewrite E1. }
  destruct (between 0xc2 0xdf a) eqn:E2.
  { destruct r as [|b r]; cbn; [intros [= <- <-]; split; [lia|done]|].
    destruct (is_cont b) eqn:Eb; intros [= <- <-]; (split; [lia|]); [|done]. intros _. split; [lia|]. intros r'. cbn. by rewrite E1, E2, Eb. }
  destruct (between 0xe0 0xef a) eqn:E3.
  { destruct r as [|b [|c r]]; cbn; rewrite ?second_ok_0; cbn;
      [intros [= <- <-]; split; [lia|done]|destruct (second_ok a b); intros [= <- <-]; split; (lia || done)|].
    destruct (second_ok a b) eqn:Eb; cbn; [|intros [= <- <-]; split; [lia|done]].
    destruct (is_cont c) eqn:Ec; intros [= <- <-]; (split; [lia|]); [|done].
    intros _. split; [lia|]. intros r'. cbn. by rewrite E1, E2, E3, Eb, Ec. }
  destruct (between 0xf0 0xf4 a) eqn:E4; [|intros [= <- <-]; split; [lia|done]].
  destruct r as [|b [|c [|d r]]]; cbn; rewrite ?second_ok_0; cbn; [intros [= <- <-]; split; [lia|done]|..].
  - destruct (second_ok a b); intros [= <- <-]; split; (lia || done).
  - destruct (second_ok a b); cbn; [destruct (is_cont c); cbn|]; intros [= <- <-]; split; (lia || done).
  - destruct (second_ok a b) eqn:Eb; cbn; [|intros [= <- <-]; split; [lia|done]].
    destruct (is_cont c) eqn:Ec; cbn; [|intros [= <- <-]; split; [lia|done]].
    destruct (is_cont d) eqn:Ed; intros [= <- <-]; (split; [lia|]); [|done].
    intros _. split; [lia|]. intros r'. cbn. by rewrite E1, E2, E3, E4, Eb, Ec, Ed.
Qed.

Lemma utf8_valid_mono f g bs : (f <= g)%nat -> utf8_valid f bs = true -> utf8_valid g bs = true.
Proof.
  revert g bs. induction f as [|f IH]; intros g [|a r] Hg Hv; [by destruct g|done|by destruct g|].
  destruct g as [|g]; [lia|]. rewrite utf8_valid_step in Hv |- *. apply andb_true_iff in Hv as [-> Hv].
  cbn. apply IH; [lia|done].
Qed.

(** A character in front of a valid string. *)
Lemma utf8_valid_char f a r n r' : utf8_step (a :: r) = (n, true) -> utf8_valid f r' = true ->
  utf8_valid (n + f) (take n (a :: r) ++ r') = true.
Proof.
  intros E Hv. destruct (utf8_step_bounds a r n true E) as [Hn Hc]. destruct (Hc eq_refl) as [Hl Hp].
  destruct n as [|n]; [lia|]. specialize (Hp r'). cbn [take app Nat.add] in *.
  rewrite utf8_valid_step, Hp. cbn [fst snd andb].
  assert (Hd : drop (S n) (a :: take n r ++ r') = r').
  { cbn [drop]. rewrite drop_app_length'; [done|]. rewrite length_take. cbn in Hl. lia. }
  rewrite Hd. apply utf8_valid_mono with f; [lia|done].
Qed.
Lemma utf8_valid_replacement f r' : utf8_valid f r' = true -> utf8_valid (3 + f) (REPLACEMENT ++ r') = true.
Proof. intros Hv. apply (utf8_valid_char f 0xef [0xbf; 0xbd] 3 r'); done. Qed.

(** ** [from_utf8_lossy] *)

Lemma lossy_id f bs : utf8_valid f bs = true -> lossy f bs = bs.
Proof.
  revert bs. induction f as [|f IH]; intros [|a r] Hv; try done. rewrite utf8_valid_step in Hv.
  cbn [lossy]. destruct (utf8_step (a :: r)) as [n ok]. cbn [fst snd] in Hv. apply andb_true_iff in Hv as [-> Hv].
  rewrite IH by done. apply take_drop.
Qed.
Lemma lossy_valid f bs : utf8_valid (length (lossy f bs)) (lossy f bs) = true.
Proof.
  revert bs. induction f as [|f IH]; intros [|a r]; try done. cbn [lossy].
  destruct (utf8_step (a :: r)) as [n ok] eqn:E. rewrite length_app. destruct ok.
  - destruct (utf8_step_bounds a r n true E) as [_ Hc]. destruct (Hc eq_refl) as [Hl _].
    rewrite length_take, Nat.min_l by done. by apply utf8_valid_char.
  - apply (utf8_valid_replacement _ _ (IH _)).
Qed.
Lemma lossy_bytes f bs : is_bytes bs -> is_bytes (lossy f bs).
Proof.
  revert bs. induction f as [|f IH]; intros [|a r] Hb; try constructor. cbn [lossy].
  destruct (utf8_step (a :: r)) as [n ok]. apply Forall_app. split; [|by apply IH, Forall_drop].
  destruct ok; [by apply Forall_take|]. unfold REPLACEMENT, is_byte. repeat constructor; done.
Qed.
Lemma lossy_length f bs : (length (lossy f bs) <= 3 * length bs)%nat.
Proof.
  revert bs. induction f as [|f IH]; intros [|a r]; cbn [lossy length]; try lia.
  destruct (utf8_step (a :: r)) as [n ok] eqn:E. destruct (utf8_step_bounds a r n ok E) as [Hn Hc].
  specialize (IH (drop n (a :: r))). rewrite length_drop in IH. rewrite length_app.
  destruct ok; [rewrite length_take; cbn [length] in *; lia|]. cbn [length REPLACEMENT] in *. lia.
Qed.

Lemma from_utf8_iff bs : from_utf8 bs = Some bs <-> utf8_valid (length bs) bs = true.
Proof. unfold from_utf8. by destruct (utf8_valid _ bs). Qed.
Lemma from_utf8_lossy_id bs : from_utf8 bs = Some bs -> from_utf8_lossy bs = bs.
Proof. intros H. apply lossy_id. by apply from_utf8_iff. Qed.
Lemma from_utf8_lossy_valid bs : from_utf8 (from_utf8_lossy bs) = Some (from_utf8_lossy bs).
Proof. apply from_utf8_iff, lossy_valid. Qed.

(** ** Decoding *)

(** The thirteen bytes of the header and the two strings. *)
Definition layout (lv p0 p1 p2 p3 c t0 t1 t2 t3 ml l0 l1 : Z) (strings : list Z) : list Z :=
  lv :: p0 :: p1 :: p2 :: p3 :: c :: t0 :: t1 :: t2 :: t3 :: ml :: l0 :: l1 :: strings.

Lemma index_nat {S A} (l : list A) i n x (s : S) : i = Z.of_nat n -> l !! n = Some x -> index l i s = Ret x s.
Proof. intros -> H. unfold index. by rewrite vget_nat, H. Qed.
Lemma range_nat {S} (l : list Z) lo hi a n (s : S) : lo = Z.of_nat a -> hi = Z.of_nat (a + n) -> (a + n <= length l)%nat ->
  range l lo hi s = Ret (slice l a n) s.
Proof.
  intros -> -> Hl. unfold range. rewrite (proj2 (Z.leb_le _ _)), (proj2 (Z.leb_le _ _)) by lia. cbn [andb].
  unfold ret. do 2 f_equal; lia.
Qed.
Lemma u32_at_nat {S} (l : list Z) i n b0 b1 b2 b3 (s : S) : i = Z.of_nat n ->
  l !! n = Some b0 -> l !! (n + 1)%nat = Some b1 -> l !! (n + 2)%nat = Some b2 -> l !! (n + 3)%nat = Some b3 ->
  u32_at l i s = Ret (of_le [b0; b1; b2; b3]) s.
Proof.
  intros -> H0 H1 H2 H3. unfold u32_at.
  rewrite (bind_Ret _ _ s b0 s), (bind_Ret _ _ s b1 s), (bind_Ret _ _ s b2 s), (bind_Ret _ _ s b3 s); [done|..].
  - apply (index_nat _ _ (n + 3)); [lia|done].
  - apply (index_nat _ _ (n + 2)); [lia|done].
  - apply (index_nat _ _ (n + 1)); [lia|done].
  - apply (index_nat _ _ n); [lia|done].
Qed.

Lemma deserialize_run {S} lv p0 p1 p2 p3 c t0 t1 t2 t3 ml l0 l1 strings (s : S) :
  0 <= ml -> 0 <= of_le [l0; l1] ->
  let mn := Z.to_nat ml in let tn := Z.to_nat (of_le [l0; l1]) in
  deserialize (layout lv p0 p1 p2 p3 c t0 t1 t2 t3 ml l0 l1 strings) s =
  Ret (level ← level_of lv;
       if decide (mn + tn <= length strings)%nat then
         Some {| level := level; pid := of_le [p0; p1; p2; p3]; cpu_id := c; timestamp := of_le [t0; t1; t2; t3];
                 module := from_utf8_lossy (take mn strings); message := from_utf8_lossy (slice strings mn tn) |}
       else None) s.
Proof.
  intros Hm Ht. cbv zeta. set (data := layout _ _ _ _ _ _ _ _ _ _ _ _ _ _). unfold deserialize.
  assert (Hl : length data = (13 + length strings)%nat) by done. cbv zeta.
  rewrite (proj2 (Z.ltb_ge _ _)) by lia.
  rewrite (bind_Ret _ _ s lv s) by (by apply (index_nat _ _ 0)). destruct (level_of lv) as [level|]; [|done]. cbn [mbind option_bind].
  rewrite (bind_Ret _ _ s (of_le [p0; p1; p2; p3]) s) by (by apply (u32_at_nat _ _ 1)).
  rewrite (bind_Ret _ _ s c s) by (by apply (index_nat _ _ 5)).
  rewrite (bind_Ret _ _ s (of_le [t0; t1; t2; t3]) s) by (by apply (u32_at_nat _ _ 6)).
  rewrite (proj2 (Z.ltb_ge _ _)) by lia.
  rewrite (bind_Ret _ _ s ml s) by (by apply (index_nat _ _ 10)).
  rewrite (bind_Ret _ _ s l0 s) by (by apply (index_nat _ _ 11)).
  rewrite (bind_Ret _ _ s l1 s) by (by apply (index_nat _ _ 12)). cbv zeta.
  destruct (decide _) as [Hd|Hd].
  - rewrite (proj2 (Z.ltb_ge _ _)) by lia.
    rewrite (bind_Ret _ _ s (take (Z.to_nat ml) strings) s).
    2: { rewrite (range_nat data _ _ 13 (Z.to_nat ml)); [done|lia|lia|lia]. }
    rewrite (bind_Ret _ _ s (slice strings (Z.to_nat ml) (Z.to_nat (of_le [l0; l1]))) s); [done|].
    rewrite (range_nat data _ _ (13 + Z.to_nat ml) (Z.to_nat (of_le [l0; l1]))); [done|lia|lia|lia].
  - rewrite (proj2 (Z.ltb_lt _ _)) by lia. done.
Qed.

(** Short data. *)
Lemma deserialize_short {S} data (s : S) : (length data < 13)%nat -> deserialize data s = Ret None s.
Proof.
  intros Hl. unfold deserialize. cbv zeta. destruct (Z.ltb_spec (Z.of_nat (length data)) 12) as [|H12]; [done|].
  assert (Hlk : forall i, (i < 12)%nat -> exists x, data !! i = Some x) by (intros i ?; apply lookup_lt_is_Some; lia).
  destruct (Hlk 0%nat) as [lv E0]; [lia|]. rewrite (bind_Ret _ _ s lv s) by (by apply (index_nat _ _ 0)).
  destruct (level_of lv); [|done].
  destruct (Hlk 1%nat) as [? E1]; [lia|]. destruct (Hlk 2%nat) as [? E2]; [lia|]. destruct (Hlk 3%nat) as [? E3]; [lia|].
  destruct (Hlk 4%nat) as [? E4]; [lia|]. destruct (Hlk 5%nat) as [? E5]; [lia|]. destruct (Hlk 6%nat) as [? E6]; [lia|].
  destruct (Hlk 7%nat) as [? E7]; [lia|]. destruct (Hlk 8%nat) as [? E8]; [lia|]. destruct (Hlk 9%nat) as [? E9]; [lia|].
  erewrite bind_Ret by (by apply (u32_at_nat _ _ 1)). erewrite bind_Ret by (by apply (index_nat _ _ 5)).
  erewrite bind_Ret by (by apply (u32_at_nat _ _ 6)). rewrite (proj2 (Z.ltb_lt _ _)) by lia. done.
Qed.

Lemma layout_split data : (13 <= length data)%nat ->
  exists lv p0 p1 p2 p3 c t0 t1 t2 t3 ml l0 l1 strings, data = layout lv p0 p1 p2 p3 c t0 t1 t2 t3 ml l0 l1 strings.
Proof.
  intros H. do 13 (destruct data as [|? data]; [cbn in H; lia|]). by repeat eexists.
Qed.

(** ** Messages *)

(** The type of a field as Rust has it. *)
Record typed (m : LogMessage) : Prop := {
  ty_pid : 0 <= pid m < 2 ^ 32;
  ty_cpu : is_byte (cpu_id m);
  ty_time : 0 <= timestamp m < 2 ^ 32;
  ty_module : from_utf8 (module m) = Some (module m) /\ is_bytes (module m);
  ty_message : from_utf8 (message m) = Some (message m) /\ is_bytes (message m);
}.

Lemma level_of_u8 l : level_of (level_u8 l) = Some l.
Proof. by destruct l. Qed.
Lemma serialize_layout m rest : exists p0 p1 p2 p3 t0 t1 t2 t3 l0 l1,
  [p0; p1; p2; p3] = le_bytes 4 (pid m) /\ [t0; t1; t2; t3] = le_bytes 4 (timestamp m) /\
  [l0; l1] = le_bytes 2 (u16 (Z.of_nat (length (message m)))) /\
  serialize m ++ rest = layout (level_u8 (level m)) p0 p1 p2 p3 (cpu_id m) t0 t1 t2 t3 (u8 (Z.of_nat (length (module m)))) l0 l1
                          (module m ++ message m ++ rest).
Proof.
  do 10 eexists. split; [reflexivity|]. split; [reflexivity|]. split; [reflexivity|].
  unfold serialize. rewrite <- !app_assoc. reflexivity.
Qed.
Lemma deserialize_serialize {S} m rest (s : S) : typed m ->
  (length (module m) < 256)%nat -> Z.of_nat (length (message m)) < 65536 -> deserialize (serialize m ++ rest) s = Ret (Some m) s.
Proof.
  intros [Hp Hc Ht [Hmv _] [Htv _]] Hm Hl.
  destruct (serialize_layout m rest) as (p0 & p1 & p2 & p3 & t0 & t1 & t2 & t3 & l0 & l1 & Ep & Et & El & ->).
  assert (Hu8 : u8 (Z.of_nat (length (module m))) = Z.of_nat (length (module m))) by (apply Z.mod_small; lia).
  assert (Hu16 : u16 (Z.of_nat (length (message m))) = Z.of_nat (length (message m))) by (apply Z.mod_small; lia).
  rewrite Hu16 in El. assert (Eo : of_le [l0; l1] = Z.of_nat (length (message m))) by (rewrite El; apply of_le_le_bytes; lia).
  rewrite Hu8, deserialize_run by lia. rewrite Eo, level_of_u8, !Nat2Z.id, Ep, Et, !of_le_le_bytes by lia. cbn [mbind option_bind].
  rewrite decide_True by (rewrite !length_app; lia). unfold slice.
  rewrite take_app_length, drop_app_length, take_app_length, !from_utf8_lossy_id by done. by destruct m.
Qed.
Lemma LogMessage_new_Some lv p c t mo me m : LogMessage_new lv p c t mo me = Some m ->
  m = {| level := lv; pid := p; cpu_id := c; timestamp := t; module := mo; message := me |} /\
  (length mo <= 32)%nat /\ (length me <= 512)%nat.
Proof.
  unfold LogMessage_new, MAX_MODULE_LEN, MAX_MESSAGE_LEN. intros H.
  destruct (Z.ltb_spec 32 (Z.of_nat (length mo))), (Z.ltb_spec 512 (Z.of_nat (length me))); try done. injection H as <-. split; [done|]. lia.
Qed.

(** C33. A message that LogMessage::new makes is read back from its bytes, whatever follows them,
    with every field the same, and takes at most 557 bytes. *)
Theorem log_message_roundtrip {S} lv p c t mo me m rest (s : S) :
  LogMessage_new lv p c t mo me = Some m -> typed m ->
  deserialize (serialize m ++ rest) s = Ret (Some m) s /\ (length (serialize m) <= 557)%nat.
Proof.
  intros Hn Ht. destruct (LogMessage_new_Some _ _ _ _ _ _ _ Hn) as (-> & Hm & Hl). split.
  - apply deserialize_serialize; [done|cbn; lia|cbn; lia].
  - unfold serialize. repeat (rewrite !length_app || rewrite !length_le_bytes). cbn [length module message]. lia.
Qed.
Lemma log_message_roundtrip_witness :
  let m := {| level := Warn; pid := 7; cpu_id := 0; timestamp := 300; module := bytes_of "net"; message := [0xe4; 0xbd; 0xa0] |} in
  deserialize (serialize m ++ [1; 2]) tt = Ret (Some m) tt /\ (length (serialize m) <= 557)%nat.
Proof.
  apply (log_message_roundtrip Warn 7 0 300 (bytes_of "net") [0xe4; 0xbd; 0xa0]); [done|].
  constructor; cbn; unfold is_byte; repeat (split || constructor); lia.
Defined.

(** Lists of bytes, element by element. *)
Ltac bytes := repeat (apply Forall_cons_2; [assumption|]); apply Forall_nil_2.

(** C34. Decoding any bytes never panics: it gives nothing exactly when they are too short, name no
    level or overrun, and otherwise a message whose numbers fit their types and whose strings are
    valid UTF-8 of bounded length. *)
Theorem log_decode_typed {S} data (s : S) : is_bytes data ->
  exists o, deserialize data s = Ret o s /\
    (forall m, o = Some m -> typed m /\ (length (module m) <= 3 * 255)%nat /\ Z.of_nat (length (message m)) <= 3 * 65535) /\
    (o = None <-> (length data < 13)%nat \/ (lv ← data !! 0%nat; level_of lv) = None \/
                  exists ml l0 l1, data !! 10%nat = Some ml /\ data !! 11%nat = Some l0 /\ data !! 12%nat = Some l1 /\
                    Z.of_nat (length data) < 13 + ml + of_le [l0; l1]).
Proof.
  intros Hb. destruct (decide (length data < 13)%nat) as [Hl|Hl].
  { exists None. split; [by apply deserialize_short|]. split; [done|]. by split; [left|]. }
  destruct (layout_split data) as (lv & p0 & p1 & p2 & p3 & c & t0 & t1 & t2 & t3 & ml & l0 & l1 & strings & ->); [lia|].
  do 13 (apply Forall_cons in Hb as [? Hb]).
  match goal with |- context [mbind ?f (?l !! 0%nat)] => change (mbind f (l !! 0%nat)) with (level_of lv) end.
  assert (Hml : is_byte ml) by done. unfold is_byte in Hml. pose proof (of_le_bound [l0; l1] ltac:(bytes)) as Ho.
  eexists. split; [apply deserialize_run; lia|]. change (length (layout _ _ _ _ _ _ _ _ _ _ _ _ _ _)) with (13 + length strings)%nat in *.
  destruct (level_of lv) as [level|]; cbn [mbind option_bind]; [|split; [done|split; [by right; left|done]]].
  destruct (decide _) as [Hd|Hd]; (split; [|split]).
  - intros m [= <-]. split.
    + constructor; cbn [LogLib.pid LogLib.cpu_id LogLib.timestamp LogLib.module LogLib.message]; [apply (of_le_bound [p0; p1; p2; p3]); bytes|done|apply (of_le_bound [t0; t1; t2; t3]); bytes|..].
      * split; [apply from_utf8_lossy_valid|]. by apply lossy_bytes, Forall_take.
      * split; [apply from_utf8_lossy_valid|]. by apply lossy_bytes, Forall_take, Forall_drop.
    + cbn [LogLib.module message]. unfold from_utf8_lossy.
      pose proof (lossy_length (length (take (Z.to_nat ml) strings)) (take (Z.to_nat ml) strings)).
      pose proof (lossy_length (length (slice strings (Z.to_nat ml) (Z.to_nat (of_le [l0; l1])))) (slice strings (Z.to_nat ml) (Z.to_nat (of_le [l0; l1])))).
      unfold slice in *. rewrite !length_take in *. change (256 ^ Z.of_nat (length [l0; l1])) with 65536 in Ho. change (l0 + 256 * (l1 + 256 * 0)) with (of_le [l0; l1]). split; lia.
  - done.
  - intros [?|[?|(? & ? & ? & [= <-] & [= <-] & [= <-] & ?)]]; [lia|done|lia].
  - done.
  - intros _. right; right. exists ml, l0, l1. split_and!; try done. lia.
  - done.
Qed.
Lemma log_decode_typed_witness : let data := [5; 1; 0; 0; 0; 0; 9; 0; 0; 0; 1; 2; 0; 0xff; 0x41; 0x42] in
  exists o, deserialize data tt = Ret o tt /\
    (forall m, o = Some m -> typed m /\ (length (module m) <= 3 * 255)%nat /\ Z.of_nat (length (message m)) <= 3 * 65535) /\
    (o = None <-> (length data < 13)%nat \/ (lv ← data !! 0%nat; level_of lv) = None \/
                  exists ml l0 l1, data !! 10%nat = Some ml /\ data !! 11%nat = Some l0 /\ data !! 12%nat = Some l1 /\
                    Z.of_nat (length data) < 13 + ml + of_le [l0; l1]).
Proof. apply log_decode_typed. unfold is_byte. repeat constructor; lia. Defined.

(** ** A channel delivers what is sent

    What the library needs of the system calls behind a pair of descriptors: a write
    takes all it is given, a read for which the bytes are there takes as many as the
    buffer holds, first in first out. *)
Class FifoChannel {S} (write : SyscallWriteFn) (read : SyscallReadFn) (wfd rfd : Z) := {
  contents : S -> list Z;
  write_appends data s : data <> [] -> exists s', write wfd data s = Ret (Z.of_nat (length data)) s' /\ contents s' = contents s ++ data;
  read_takes d rest s : d <> [] -> contents s = d ++ rest ->
    exists s', read rfd (replicate (length d) 0) s = Ret (Z.of_nat (length d), d) s' /\ contents s' = rest;
}.

(** A message as it travels. *)
Definition frame (m : LogMessage) : list Z := le_bytes 4 (Z.of_nat (length (serialize m))) ++ serialize m.
(** A message [LogMessage::new] could have made. *)
Definition sendable (m : LogMessage) : Prop := typed m /\ (length (module m) <= 32)%nat /\ (length (message m) <= 512)%nat.

Lemma serialize_length m : (length (serialize m) = 13 + length (module m) + length (message m))%nat.
Proof. unfold serialize. repeat (rewrite !length_app || rewrite !length_le_bytes). cbn [length]. lia. Qed.
Lemma serialize_cons m : exists b l, serialize m = b :: l.
Proof. by repeat eexists. Qed.

Section channel.
Context {S : Type} {write : SyscallWriteFn (S := S)} {read : SyscallReadFn (S := S)} {wfd rfd : Z} {C : FifoChannel write read wfd rfd}.
Local Abbreviation sender := (new_client wfd write).
Local Abbreviation receiver := (new_server rfd read).

Lemma write_to_pipe_run data s : data <> [] ->
  exists s', write_to_pipe sender wfd data s = Ret (Ok (Z.of_nat (length data))) s' /\ contents s' = contents s ++ data.
Proof.
  intros Hd. destruct (write_appends data s Hd) as (s' & E & Hc). exists s'. split; [|done]. unfold write_to_pipe. cbn [sys_write new_client].
  rewrite (bind_Ret _ _ s _ s' E). destruct data; [done|]. by rewrite (proj2 (Z.ltb_lt _ _)) by (cbn; lia).
Qed.
Lemma read_from_pipe_run d rest s : d <> [] -> contents s = d ++ rest ->
  exists s', read_from_pipe receiver rfd (replicate (length d) 0) s = Ret (Ok (Z.of_nat (length d), d)) s' /\ contents s' = rest.
Proof.
  intros Hd Hs. destruct (read_takes d rest s Hd Hs) as (s' & E & Hc). exists s'. split; [|done]. unfold read_from_pipe. cbn [sys_read new_server].
  rewrite (bind_Ret _ _ s _ s' E). destruct d; [done|]. by rewrite (proj2 (Z.ltb_lt _ _)) by (cbn; lia).
Qed.

Lemma try_bind_Ok {A B E} (m : M S (Result A E)) (k : A -> M S (Result B E)) s a s' : m s = Ret (Ok a) s' -> try_bind m k s = k a s'.
Proof. intros H. unfold try_bind. by rewrite (bind_Ret _ _ s _ s' H). Qed.

Lemma send_run m s : sendable m ->
  exists s', PipeTransport_send sender m s = Ret (Ok tt) s' /\ contents s' = contents s ++ frame m.
Proof.
  intros (_ & Hm & Hl). pose proof (serialize_length m) as Hlen. destruct (serialize_cons m) as (b & l & Eb).
  destruct (write_to_pipe_run (le_bytes 4 (u32 (Z.of_nat (length (serialize m))))) s) as (s1 & E1 & C1); [done|].
  destruct (write_to_pipe_run (serialize m) s1) as (s2 & E2 & C2); [by rewrite Eb|].
  exists s2. unfold PipeTransport_send. rewrite (try_bind_Ok (ok_or (write_fd sender) NotConnected) _ s wfd s) by done. cbv zeta.
  rewrite (try_bind_Ok _ _ s _ s1 E1), (try_bind_Ok _ _ s1 _ s2 E2). split; [done|].
  rewrite C2, C1. unfold frame. rewrite u32_small by lia. by rewrite app_assoc.
Qed.
Lemma receive_run m rest s : sendable m -> contents s = frame m ++ rest ->
  exists s', PipeTransport_receive receiver s = Ret (Ok m) s' /\ contents s' = rest.
Proof.
  intros (Ht & Hm & Hl) Hc. pose proof (serialize_length m) as Hlen. destruct (serialize_cons m) as (b & l & Eb).
  unfold frame in Hc. rewrite <- app_assoc in Hc.
  destruct (read_from_pipe_run (le_bytes 4 (Z.of_nat (length (serialize m)))) (serialize m ++ rest) s ltac:(done) Hc) as (s1 & E1 & C1).
  destruct (read_from_pipe_run (serialize m) rest s1 ltac:(by rewrite Eb) C1) as (s2 & E2 & C2).
  exists s2. split; [|done]. unfold PipeTransport_receive. rewrite (try_bind_Ok (ok_or (read_fd receiver) NotConnected) _ s rfd s) by done.
  rewrite length_le_bytes in E1. rewrite (try_bind_Ok _ _ s _ s1 E1). cbv zeta.
  rewrite of_le_le_bytes, Nat2Z.id by lia. rewrite (try_bind_Ok _ _ s1 _ s2 E2).
  rewrite (bind_Ret _ _ s2 (Some m) s2); [done|]. rewrite <- (app_nil_r (serialize m)). apply deserialize_serialize; [done|lia|lia].
Qed.
Lemma try_receive_run m rest s : sendable m -> contents s = frame m ++ rest ->
  exists s', PipeTransport_try_receive receiver s = Ret (Ok (Some m)) s' /\ contents s' = rest.
Proof.
  intros Hm Hc. destruct (receive_run m rest s Hm Hc) as (s' & E & H). exists s'. split; [|done].
  unfold PipeTransport_try_receive. by rewrite (bind_Ret _ _ s _ s' E).
Qed.

Local Abbreviation server := {| server_transport := pipe_transport receiver; running := true |}.

Lemma collect_run ms acc s : Forall sendable ms -> contents s = ms ≫= frame ->
  exists s', collect server (length ms) acc s = Ret (acc ++ ms) s' /\ contents s' = [].
Proof.
  revert acc s. induction ms as [|m ms IH]; intros acc s Hm Hc; [by exists s; rewrite app_nil_r|].
  apply Forall_cons in Hm as [Hm Hms]. cbn [mbind list_bind] in Hc.
  destruct (try_receive_run m _ s Hm Hc) as (s1 & E1 & C1). destruct (IH (acc ++ [m]) s1 Hms C1) as (s2 & E2 & C2).
  exists s2. split; [|done]. cbn [length collect]. change (try_receive (server_transport server)) with (PipeTransport_try_receive receiver).
  rewrite (bind_Ret _ _ s _ s1 E1), E2. by rewrite <- app_assoc.
Qed.
Lemma process_batch_loop_run ms p s : Forall sendable ms -> contents s = ms ≫= frame ->
  exists s', process_batch_loop server (length ms) p s = Ret (p + Z.of_nat (length ms)) s' /\ contents s' = [].
Proof.
  revert p s. induction ms as [|m ms IH]; intros p s Hm Hc; [exists s; cbn; by rewrite Z.add_0_r|].
  apply Forall_cons in Hm as [Hm Hms]. cbn [mbind list_bind] in Hc.
  destruct (try_receive_run m _ s Hm Hc) as (s1 & E1 & C1). destruct (IH (p + 1) s1 Hms C1) as (s2 & E2 & C2).
  exists s2. split; [|done]. cbn [length process_batch_loop negb running].
  change (try_receive (server_transport server)) with (PipeTransport_try_receive receiver).
  rewrite (bind_Ret _ _ s _ s1 E1). rewrite (bind_Ret _ _ s1 tt s1) by done. rewrite E2. f_equal. lia.
Qed.

(** *** The client *)

Local Abbreviation client := (LogClient_new (pipe_transport sender)).
Local Abbreviation entry := (LogLevel * list Z * list Z)%type.

(** A run of calls of [LogClient::log]. *)
Fixpoint log_all (self : LogClient (S := S)) (logs : list entry) : M (world (S := S)) (list (Result unit LogError)) :=
  match logs with
  | [] => ret []
  | (lv, mo, me) :: logs =>
      let! r := LogClient_log self lv mo me in
      let! rs := log_all self logs in
      ret (r :: rs)
  end.
(** What the calls return, and the messages they send from time [t] on. *)
Definition accepts (e : entry) : bool := let '(_, mo, me) := e in (length mo <=? 32)%nat && (length me <=? 512)%nat.
Definition outcome_of (e : entry) : Result unit LogError := if accepts e then Ok tt else Err MessageTooLong.
Fixpoint accepted (t : Z) (logs : list entry) : list LogMessage :=
  match logs with
  | [] => []
  | (lv, mo, me) as e :: logs =>
      (if accepts e then [{| level := lv; pid := 0; cpu_id := 0; timestamp := t; module := mo; message := me |}] else [])
      ++ accepted (u32 (t + 1)) logs
  end.
Definition text (e : entry) : Prop :=
  let '(_, mo, me) := e in (from_utf8 mo = Some mo /\ is_bytes mo) /\ from_utf8 me = Some me /\ is_bytes me.

Lemma accepted_sendable t logs : 0 <= t < 2 ^ 32 -> Forall text logs -> Forall sendable (accepted t logs).
Proof.
  revert t. induction logs as [|[[lv mo] me] logs IH]; intros t Ht Hx; [constructor|]. apply Forall_cons in Hx as [[Hmo Hme] Hx].
  cbn [accepted]. apply Forall_app. split; [|apply IH; [|done]; apply Z.mod_pos_bound; lia].
  destruct (accepts _) eqn:E; [|constructor]. apply andb_true_iff in E as [E1%Nat.leb_le E2%Nat.leb_le].
  constructor; [|constructor]. split; [|done]. constructor; cbn; unfold is_byte; first [done|lia].
Qed.
Lemma LogMessage_new_spec e p c t : let '(lv, mo, me) := e in
  LogMessage_new lv p c t mo me =
  if accepts e then Some {| level := lv; pid := p; cpu_id := c; timestamp := t; module := mo; message := me |} else None.
Proof.
  destruct e as [[lv mo] me]. unfold LogMessage_new, accepts, MAX_MODULE_LEN, MAX_MESSAGE_LEN.
  destruct (Nat.leb_spec (length mo) 32), (Nat.leb_spec (length me) 512), (Z.ltb_spec 32 (Z.of_nat (length mo))),
    (Z.ltb_spec 512 (Z.of_nat (length me))); cbn; first [done|lia].
Qed.

Lemma log_all_run logs w : 0 <= counter w < 2 ^ 32 -> Forall text logs ->
  exists w', log_all client logs w = Ret (outcome_of <$> logs) w' /\ contents (io w') = contents (io w) ++ (accepted (counter w) logs ≫= frame).
Proof.
  revert w. induction logs as [|[[lv mo] me] logs IH]; intros w Hw Hx; [exists w; cbn; by rewrite app_nil_r|].
  pose proof (accepted_sendable _ _ Hw Hx) as Hs. apply Forall_cons in Hx as [_ Hx]. cbn [log_all accepted] in Hs |- *.
  set (w1 := set_counter (u32 (counter w + 1)) w).
  assert (Hw1 : 0 <= counter w1 < 2 ^ 32) by (apply Z.mod_pos_bound; lia).
  pose proof (LogMessage_new_spec (lv, mo, me) 0 0 (counter w)) as Hn. cbv beta iota zeta in Hn.
  assert (Hr : exists s', LogClient_log client lv mo me w = Ret (outcome_of (lv, mo, me)) (set_io s' w1) /\
                 contents s' = contents (io w) ++ ((if accepts (lv, mo, me) then
                    [{| level := lv; pid := 0; cpu_id := 0; timestamp := counter w; module := mo; message := me |}] else []) ≫= frame)).
  { unfold LogClient_log. rewrite (bind_Ret _ _ w (counter w) w1) by done. cbn [client_pid client_cpu LogClient_new transport].
    unfold get_current_pid, get_current_cpu_id, outcome_of. rewrite Hn.
    destruct (accepts (lv, mo, me)); [|exists (io w); split; [done|cbn; by rewrite app_nil_r]].
    apply Forall_app in Hs as [[Hs _]%Forall_cons _]. destruct (send_run _ (io w) Hs) as (s' & E & Hc). exists s'.
    split; [|cbn; by rewrite app_nil_r]. unfold try_bind. rewrite (bind_Ret (ok_or _ _) _ w1 _ w1) by done. cbv beta iota.
    rewrite (bind_Ret _ _ w1 (Ok tt) (set_io s' w1)); [done|]. unfold on_io, zoom.
    change (send (pipe_transport sender)) with (PipeTransport_send sender). change (io w1) with (io w). by rewrite E. }
  destruct Hr as (s' & Er & Hc). destruct (IH (set_io s' w1) Hw1 Hx) as (w' & Ew & Hc').
  exists w'. rewrite (bind_Ret _ _ w _ _ Er), (bind_Ret _ _ _ _ _ Ew). split; [done|].
  cbn [io set_io] in Hc'. rewrite Hc', Hc. rewrite bind_app. by rewrite app_assoc.
Qed.

(** C32. Over any first-in-first-out channel, a run of log calls of a client succeeds exactly for
    the texts within the length limits, and the server then receives exactly the accepted messages,
    in order, each stamped with the number of its call (a rejected call takes a number too), and
    leaves the channel empty, in a batch or one by one. *)
Theorem log_transport_fifo logs w :
  0 <= counter w < 2 ^ 32 -> Forall text logs -> contents (io w) = [] ->
  let msgs := accepted (counter w) logs in
  exists w' s1 s2, log_all client logs w = Ret (outcome_of <$> logs) w' /\
    collect server (length msgs) [] (io w') = Ret msgs s1 /\ contents s1 = [] /\
    process_batch server (Z.of_nat (length msgs)) (io w') = Ret (Z.of_nat (length msgs)) s2 /\ contents s2 = [].
Proof.
  intros Hw Hx Hc msgs. destruct (log_all_run logs w Hw Hx) as (w' & E & Hc'). rewrite Hc in Hc'.
  pose proof (accepted_sendable _ _ Hw Hx) as Hs.
  destruct (collect_run msgs [] (io w') Hs Hc') as (s1 & E1 & H1).
  destruct (process_batch_loop_run msgs 0 (io w') Hs Hc') as (s2 & E2 & H2).
  exists w', s1, s2. split_and!; try done. unfold process_batch. by rewrite Nat2Z.id.
Qed.
End channel.

(** A channel: a list of bytes behind descriptors 4 and 3. *)
Definition list_write (fd : Z) (data : list Z) : M (list Z) Z := fun s => Ret (Z.of_nat (length data)) (s ++ data).
Definition list_read (fd : Z) (buf : list Z) : M (list Z) (Z * list Z) := fun s =>
  let d := take (length buf) s in Ret (Z.of_nat (length d), d ++ drop (length d) buf) (drop (length buf) s).
#[export] Instance list_channel : FifoChannel list_write list_read 4 3.
Proof.
  refine {| contents := fun s : list Z => s |}.
  - intros data s _. by eexists.
  - intros d rest s _ ->. eexists. unfold list_read. rewrite length_replicate, take_app_length, drop_app_length.
    split; [|done]. rewrite drop_ge by (by rewrite length_replicate). by rewrite app_nil_r.
Defined.

Definition demo_logs : list (LogLevel * list Z * list Z) :=
  [(Info, bytes_of "net", bytes_of "up"); (Debug, replicate 33 65, bytes_of "lost"); (Error, bytes_of "fs", bytes_of "full")].
Lemma log_transport_fifo_witness :
  let w := world_start (S := list Z) [] in let msgs := accepted (counter w) demo_logs in
  exists w' s1 s2, log_all (LogClient_new (pipe_transport (new_client 4 list_write))) demo_logs w = Ret (outcome_of <$> demo_logs) w' /\
    collect {| server_transport := pipe_transport (new_server 3 list_read); running := true |} (length msgs) [] (io w') = Ret msgs s1 /\ s1 = [] /\
    process_batch {| server_transport := pipe_transport (new_server 3 list_read); running := true |} (Z.of_nat (length msgs)) (io w')
      = Ret (Z.of_nat (length msgs)) s2 /\ s2 = [].
Proof.
  apply (log_transport_fifo (C := list_channel) demo_logs (world_start [])); [done| |done].
  repeat (apply Forall_cons_2; [split; split; [done|by repeat constructor; unfold is_byte|done|by repeat constructor; unfold is_byte]|]). constructor.
Defined.

(** The global entry point never sends: [connect] has no system call to give. *)
Lemma log_message_silent {S} lv mo me (w : world (S := S)) : CLIENT_INITIALIZED w = 0 -> log_message lv mo me w = Ret tt w.
Proof. intros H. unfold log_message, get_log_client, init_log_client, try_bind, bind, get. by rewrite H; cbn; rewrite H. Qed.
