(* ===== verification/Shell.v ===== *)
(** The user shell: [user/src/bin/user_shell.rs].

    A user program is a tree of the calls it makes to the user library, each with what
    follows every result.  A string is the list of its characters, all below 256
    since the shell reads bytes; [as_str] gives its bytes.  The text of one [print!]
    is one event, however many writes the formatting makes of it. *)
From stdpp Require Import pretty.
From S2P Require Import Prelude FdMap.

(** ** Programs

    [Waitpid] is the library's function, which comes back once the child has ended;
    [exit_code] is what it stores.  [Exit] and a successful [Exec] do not come back.
    [Panicked]: the panic handler of the library prints a message and loops forever.
    [Builtin] stands for the built-in commands that are only text and self-tests. *)
Inductive prog (A : Type) :=
  | Done (a : A)
  | Panicked
  | Say (fd : Z) (text : list Z) (k : prog A)
  | Open (path : list Z) (flags : Z) (k : Z -> prog A)
  | Close (fd : Z) (k : Z -> prog A)
  | Dup (fd : Z) (k : Z -> prog A)
  | Pipe (k : Z -> Z -> prog A)
  | Fork (k : Z -> prog A)
  | Exec (path : list Z) (args : list (list Z)) (k : Z -> prog A)
  | Waitpid (pid : Z) (k : Z -> Z -> prog A)
  | Exit (exit_code : Z)
  | Getpid (k : Z -> prog A)
  | Time (k : Z -> prog A)
  | Builtin (args : list (list Z)) (k : prog A).
Arguments Done {A} a.
Arguments Panicked {A}.
Arguments Say {A} fd text k.
Arguments Open {A} path flags k.
Arguments Close {A} fd k.
Arguments Dup {A} fd k.
Arguments Pipe {A} k.
Arguments Fork {A} k.
Arguments Exec {A} path args k.
Arguments Waitpid {A} pid k.
Arguments Exit {A} exit_code.
Arguments Getpid {A} k.
Arguments Time {A} k.
Arguments Builtin {A} args k.

Fixpoint pbind {A B} (m : prog A) (f : A -> prog B) : prog B :=
  match m with
  | Done a => f a
  | Panicked => Panicked
  | Say fd text k => Say fd text (pbind k f)
  | Open path flags k => Open path flags (fun r => pbind (k r) f)
  | Close fd k => Close fd (fun r => pbind (k r) f)
  | Dup fd k => Dup fd (fun r => pbind (k r) f)
  | Pipe k => Pipe (fun a b => pbind (k a b) f)
  | Fork k => Fork (fun r => pbind (k r) f)
  | Exec path args k => Exec path args (fun r => pbind (k r) f)
  | Waitpid pid k => Waitpid pid (fun r c => pbind (k r c) f)
  | Exit c => Exit c
  | Getpid k => Getpid (fun r => pbind (k r) f)
  | Time k => Time (fun r => pbind (k r) f)
  | Builtin args k => Builtin args (pbind k f)
  end.
Notation "'let*' x := m 'in' k" := (pbind m (fun x => k)) (at level 10, x binder, m at level 100, k at level 200) : rust_scope.
Notation "m ;;* k" := (pbind m (fun _ => k)) (at level 199, right associativity) : rust_scope.

Definition say (fd : Z) (text : list Z) : prog unit := Say fd text (Done tt).
Definition user_open (path : list Z) (flags : Z) : prog Z := Open path flags Done.
Definition user_close (fd : Z) : prog Z := Close fd Done.
Definition user_dup (fd : Z) : prog Z := Dup fd Done.
Definition user_pipe : prog (Z * Z) := Pipe (fun a b => Done (a, b)).
Definition user_fork : prog Z := Fork Done.
Definition user_exec (path : list Z) (args : list (list Z)) : prog Z := Exec path args Done.
Definition user_waitpid (pid : Z) : prog (Z * Z) := Waitpid pid (fun r c => Done (r, c)).
(** [assert!], [assert_eq!], [unwrap] *)
Definition passert (b : bool) : prog unit := if b then Done tt else Panicked.
Definition punwrap {A} (o : option A) : prog A := match o with Some a => Done a | None => Panicked end.
Fixpoint pfor {A} (l : list A) (body : A -> prog unit) : prog unit :=
  match l with [] => Done tt | x :: l => body x ;;* pfor l body end.

(** ** Text *)

Definition LF : Z := 0x0a.
Definition CR : Z := 0x0d.
Definition DL : Z := 0x7f.
Definition BS : Z := 0x08.
Definition C_RESET : list Z := 0x1b :: bytes_of "[0m".
Definition C_BOLD : list Z := 0x1b :: bytes_of "[1m".
Definition C_RED : list Z := 0x1b :: bytes_of "[31m".
Definition C_GREEN : list Z := 0x1b :: bytes_of "[32m".
Definition C_YELLOW : list Z := 0x1b :: bytes_of "[33m".
Definition C_CYAN : list Z := 0x1b :: bytes_of "[36m".

Definition colored (text color : list Z) : list Z := color ++ text ++ C_RESET.
Definition user_print (text : list Z) : prog unit := say 1 (as_str text).
Definition user_println (text : list Z) : prog unit := say 1 (as_str (text ++ [LF])).
Definition print_prompt : prog unit := user_print (colored (bytes_of ">> ") (C_BOLD ++ C_CYAN)).
Definition eprintln_error (msg : list Z) : prog unit :=
  say 2 (as_str (colored (bytes_of "Error: " ++ msg) C_RED)) ;;* say 2 [LF].
Definition println_success (msg : list Z) : prog unit := user_println (colored msg C_GREEN).
Definition println_warning (msg : list Z) : prog unit := user_println (colored msg C_YELLOW).

(** [trim_end_matches] of the zero character *)
Fixpoint drop_nul (l : list Z) : list Z := match l with 0 :: l => drop_nul l | l => l end.
Definition trim_nul (l : list Z) : list Z := rev (drop_nul (rev l)).
(** [str::split] of one character *)
Fixpoint split_on (sep : Z) (l : list Z) : list (list Z) :=
  match l with
  | [] => [[]]
  | c :: l =>
      if c =? sep then [] :: split_on sep l
      else match split_on sep l with p :: ps => (c :: p) :: ps | [] => [[c]] end
  end.
(** [parse::<i32>] *)
Definition digit (c : Z) : option Z := if (48 <=? c) && (c <=? 57) then Some (c - 48) else None.
Definition digits (l : list Z) : option Z :=
  match l with
  | [] => None
  | _ => foldl (fun o c => n ← o; d ← digit c; Some (n * 10 + d)) (Some 0) l
  end.
Definition parse_i32 (l : list Z) : option Z :=
  n ← match l with 45 :: l => Z.opp <$> digits l | 43 :: l => digits l | l => digits l end;
  if (- 2 ^ 31 <=? n) && (n <? 2 ^ 31) then Some n else None.

(** ** Command lines *)

Record ProcessArguments := { input : list Z; output : list Z; args_copy : list (list Z) }.

(** The first [sym] among the arguments, with the one after it, taken out.  None: there
    is no argument after it, and the index panics. *)
Definition redirect (sym : Z) (args : list (list Z)) : option (list Z * list (list Z)) :=
  match find_index (fun a => bool_decide (a = [sym; 0])) args with
  | None => Some ([], args)
  | Some idx => name ← args !! (idx + 1)%nat; Some (name, take idx args ++ drop (idx + 2) args)
  end.
(** [args_addr] points at the strings of [args_copy] and ends with a null pointer. *)
Definition ProcessArguments_new (command : list Z) : option ProcessArguments :=
  let args := (fun arg => arg ++ [0]) <$> filter (fun arg => arg <> []) (split_on 32 command) in
  '(input, args) ← redirect 60 args;
  '(output, args) ← redirect 62 args;
  Some {| input := input; output := output; args_copy := args |}.

Definition is_empty {A} (l : list A) : bool := match l with [] => true | _ => false end.
(** Only the ends of a pipeline may be redirected. *)
Definition valid (l : list ProcessArguments) : bool :=
  (length l =? 1)%nat ||
  forallb (fun x => x) (imap (fun i p =>
    if (i =? 0)%nat then is_empty (output p)
    else if (i =? length l - 1)%nat then is_empty (input p)
    else is_empty (output p) && is_empty (input p)) l).

(** ** Built-in commands *)

Definition builtins : list (list Z) :=
  bytes_of <$> ["help"; "exit"; "pwd"; "echo"; "clear"; "history"; "ps"; "time"; "sleep"; "test"; "version"; "ls"; "programs"]%string.

Definition builtin_exit (args : list (list Z)) : prog unit :=
  let code := match args with _ :: a :: _ => default 0 (parse_i32 (trim_nul a)) | _ => 0 end in
  println_success (bytes_of "Goodbye! Exiting with code " ++ decimal code) ;;*
  Exit code.
Definition builtin_pwd : prog unit := user_println (bytes_of "/").
(** [join] *)
Fixpoint join (sep : list Z) (l : list (list Z)) : list Z :=
  match l with [] => [] | [x] => x | x :: l => x ++ sep ++ join sep l end.
Definition builtin_echo (args : list (list Z)) : prog unit :=
  if (1 <? length args)%nat then user_println (join [32] (trim_nul <$> drop 1 args)) else user_println [].
Definition builtin_history : prog unit :=
  println_warning (bytes_of "Command history is not implemented yet.") ;;*
  user_println (bytes_of "This feature would require persistent storage.").
Definition builtin_ps : prog unit :=
  user_println (colored (bytes_of "Process Information:") C_BOLD) ;;*
  let* p := Getpid Done in
  user_println (bytes_of "  PID: " ++ decimal p) ;;*
  user_println (bytes_of "  Name: user_shell") ;;*
  user_println (bytes_of "  Status: Running") ;;*
  user_println (LF :: bytes_of "Note: Full process list requires kernel support.").
Definition builtin_time : prog unit :=
  let* current_time := Time Done in
  user_println (bytes_of "System uptime: " ++ decimal current_time ++ bytes_of " ms") ;;*
  let seconds := current_time ÷ 1000 in
  let minutes := seconds ÷ 60 in
  let hours := minutes ÷ 60 in
  if 0 <? hours then
    user_println (bytes_of "Formatted: " ++ decimal hours ++ bytes_of "h " ++ decimal (Z.rem minutes 60) ++ bytes_of "m "
      ++ decimal (Z.rem seconds 60) ++ bytes_of "s")
  else if 0 <? minutes then
    user_println (bytes_of "Formatted: " ++ decimal minutes ++ bytes_of "m " ++ decimal (Z.rem seconds 60) ++ bytes_of "s")
  else user_println (bytes_of "Formatted: " ++ decimal seconds ++ bytes_of "s").
Definition builtin_version : prog unit :=
  user_println (colored (bytes_of "NimlothOS Shell v1.2") (C_BOLD ++ C_CYAN)) ;;*
  user_println (bytes_of "Built with: Rust (no_std)") ;;*
  user_println (bytes_of "Features: Pipeline, Redirection, Built-in Commands") ;;*
  user_println (bytes_of "Architecture: RISC-V") ;;*
  user_println (bytes_of "License: Educational Use").

Definition execute_builtin_command (args : list (list Z)) : prog bool :=
  match args with
  | [] => Done false
  | a :: _ =>
      let cmd := trim_nul a in
      let named s := bool_decide (cmd = bytes_of s) in
      if named "exit"%string then builtin_exit args ;;* Done true
      else if named "pwd"%string then builtin_pwd ;;* Done true
      else if named "echo"%string then builtin_echo args ;;* Done true
      else if named "history"%string then builtin_history ;;* Done true
      else if named "ps"%string then builtin_ps ;;* Done true
      else if named "time"%string then builtin_time ;;* Done true
      else if named "version"%string then builtin_version ;;* Done true
      else if bool_decide (cmd ∈ builtins) then Builtin args (Done true)
      else Done false
  end.

(** ** Pipelines *)

Definition RDONLY : Z := 0.
Definition WRONLY : Z := 1.
Definition CREATE : Z := 2 ^ 9.

(** A descriptor takes the place of descriptor [target]: [close(target)], a [dup] that
    must give [target], and the original closed. *)
Definition redirect_to (target fd : Z) : prog unit :=
  let* _ := user_close target in
  let* d := user_dup fd in
  passert (d =? target) ;;*
  let* _ := user_close fd in Done tt.

(** The child of command [i] of [n]. *)
Definition open_redirect (what : string) (path : list Z) (flags target : Z) : prog unit :=
  if is_empty path then Done tt
  else
    let* fd := user_open path flags in
    if fd =? -1 then eprintln_error (bytes_of what ++ trim_nul path) ;;* Exit (-4)
    else redirect_to target fd.
Definition child (i n : nat) (pipes_fd : list (Z * Z)) (p : ProcessArguments) : prog unit :=
  open_redirect "when opening input file: " (input p) RDONLY 0 ;;*
  open_redirect "when opening output file: " (output p) (Z.lor CREATE WRONLY) 1 ;;*
  (if (0 <? i)%nat then
     let* _ := user_close 0 in
     let* ends := punwrap (pipes_fd !! (i - 1)%nat) in
     let* d := user_dup ends.1 in
     passert (d =? 0)
   else Done tt) ;;*
  (if (i <? n - 1)%nat then
     let* _ := user_close 1 in
     let* ends := punwrap (pipes_fd !! i) in
     let* d := user_dup ends.2 in
     passert (d =? 1)
   else Done tt) ;;*
  pfor pipes_fd (fun e => let* _ := user_close e.1 in let* _ := user_close e.2 in Done tt) ;;*
  let* path := punwrap (args_copy p !! 0%nat) in
  let* r := user_exec path (args_copy p) in
  if r =? -1 then eprintln_error (bytes_of "when executing: " ++ trim_nul path) ;;* Exit (-4)
  else Panicked.

Fixpoint make_pipes (n : nat) (pipes_fd : list (Z * Z)) : prog (list (Z * Z)) :=
  match n with
  | O => Done pipes_fd
  | S n => let* e := user_pipe in make_pipes n (pipes_fd ++ [e])
  end.
Fixpoint spawn (i n : nat) (pipes_fd : list (Z * Z)) (l : list ProcessArguments) (children : list Z) : prog (list Z) :=
  match l with
  | [] => Done children
  | p :: l =>
      let* pid := user_fork in
      if pid =? 0 then child i n pipes_fd p ;;* Done children
      else spawn (S i) n pipes_fd l (children ++ [pid])
  end.
Fixpoint reap (children : list Z) : prog unit :=
  match children with
  | [] => Done tt
  | pid :: children =>
      let* r := user_waitpid pid in
      passert (pid =? r.1) ;;*
      reap children
  end.
Definition run_pipeline (l : list ProcessArguments) : prog unit :=
  let n := length l in
  let* pipes_fd := make_pipes (n - 1) [] in
  let* children := spawn 0 n pipes_fd l [] in
  pfor pipes_fd (fun e => let* _ := user_close e.1 in let* _ := user_close e.2 in Done tt) ;;*
  reap children.

(** A line that is not empty. *)
Definition run_line (line : list Z) : prog unit :=
  let* l := punwrap (mapM ProcessArguments_new (split_on 124 line)) in
  if negb (valid l) then eprintln_error (bytes_of "Invalid command: Inputs/Outputs cannot be correctly binded!")
  else
    let* handled := match l with [p] => execute_builtin_command (args_copy p) | _ => Done false end in
    if handled then Done tt else run_pipeline l.

(** One turn of the loop of [main]: a character typed after [line]. *)
Definition shell_turn (line : list Z) (c : Z) : prog (list Z) :=
  if (c =? LF) || (c =? CR) then
    user_println [] ;;*
    (if is_empty line then Done tt else run_line line) ;;*
    print_prompt ;;*
    Done []
  else if (c =? BS) || (c =? DL) then
    if is_empty line then Done line
    else user_print [BS] ;;* user_print [32] ;;* user_print [BS] ;;* Done (removelast line)
  else user_print [c] ;;* Done (line ++ [c]).

(** The loop of [main] over what is typed. *)
Fixpoint session (line : list Z) (typed : list Z) : prog (list Z) :=
  match typed with
  | [] => Done line
  | c :: typed => let* line := shell_turn line c in session line typed
  end.
