(* ===== verification/ShellRun.v ===== *)
(** How the shell runs a line: a machine of processes with descriptor tables, what a
    program does to its own table, and the wiring of a pipeline under every
    interleaving. *)
From S2P Require Import Prelude FdMap Shell ShellSpec.

(** ** Tables *)

(** What a descriptor of the shell and its children names.  Pipes are numbered in the
    order in which they are made. *)
Inductive sfile := Console (fd : nat) | ReadEnd (p : nat) | WriteEnd (p : nat) | Named (path : list Z) (flags : Z).
Abbreviation table := (gmap nat sfile).

(** A table without holes. *)
Definition tab (l : list sfile) : table := map_seq 0 l.
Lemma tab_lookup l i : tab l !! i = l !! i.
Proof. unfold tab. rewrite lookup_map_seq_0. done. Qed.
Lemma least_free_tab l : least_free (tab l) = length l.
Proof.
  apply least_free_unique; [rewrite tab_lookup; by apply lookup_ge_None|]. intros j Hj. rewrite tab_lookup.
  by apply not_eq_None_Some, lookup_lt_is_Some.
Qed.
Lemma least_free_hole l i : (i < length l)%nat -> least_free (delete i (tab l)) = i.
Proof.
  intros Hi. apply least_free_unique; [apply lookup_delete_eq|]. intros j Hj. rewrite lookup_delete_ne, tab_lookup by lia.
  apply not_eq_None_Some, lookup_lt_is_Some. lia.
Qed.
Lemma tab_install l v : <[length l := v]> (tab l) = tab (l ++ [v]).
Proof. unfold tab. by rewrite map_seq_snoc. Qed.
Lemma tab_replace l i v : (i < length l)%nat -> <[i := v]> (delete i (tab l)) = tab (<[i := v]> l).
Proof.
  intros Hi. apply map_eq. intros j. rewrite tab_lookup. destruct (decide (j = i)) as [->|Hj].
  - by rewrite lookup_insert_eq, list_lookup_insert_eq.
  - by rewrite lookup_insert_ne, lookup_delete_ne, tab_lookup, list_lookup_insert_ne.
Qed.
Lemma tab_close_last l v : delete (length l) (tab (l ++ [v])) = tab l.
Proof. rewrite <- tab_install. apply delete_insert_id. rewrite tab_lookup. by apply lookup_ge_None. Qed.
Lemma close_table (t : table) n : (a_fd_op (FdClose n) t).2 = delete n t.
Proof. cbn. destruct (t !! n) eqn:E; [done|]. cbn. by rewrite delete_id. Qed.

(** ** What a program does on its own

    [Q] holds of what it starts, [R] of its result; a child does not fork. *)
Section own.
Context (Q : list Z -> list (list Z) -> table -> Prop).

Fixpoint wpc {A} (R : A -> table -> Prop) (t : prog A) (f : table) : Prop :=
  match t with
  | Done a => R a f
  | Say _ _ k => wpc R k f
  | Open path flags k => wpc R (k (-1)) f /\ let '(r, f') := a_fd_op (FdInstall (Named path flags)) f in wpc R (k r) f'
  | Close fd k => 0 <= fd /\ let '(r, f') := a_fd_op (FdClose (Z.to_nat fd)) f in wpc R (k r) f'
  | Dup fd k => 0 <= fd /\ let '(r, f') := a_fd_op (FdDup (Z.to_nat fd)) f in wpc R (k r) f'
  | Exec path args k => Q path args f /\ wpc R (k (-1)) f
  | Exit _ => True
  | Panicked | Pipe _ | Fork _ | Waitpid _ _ | Getpid _ | Time _ | Builtin _ _ => False
  end.

Lemma wpc_bind {A B} (R : B -> table -> Prop) (m : prog A) (k : A -> prog B) f :
  wpc (fun a f' => wpc R (k a) f') m f -> wpc R (pbind m k) f.
Proof.
  revert f. induction m as [a| |fd text m IH|path flags m IH|fd m IH|fd m IH|m IH|m IH|path args m IH|p m IH|c|m IH|m IH|args m IH];
    intros f; cbn [pbind wpc]; try done; try apply IH.
  - destruct (a_fd_op _ _) as [r f']. intros [? ?]. split; by apply IH.
  - destruct (a_fd_op _ _) as [r f']. intros [? ?]. split; [done|by apply IH].
  - destruct (a_fd_op _ _) as [r f']. intros [? ?]. split; [done|by apply IH].
  - intros [? ?]. split; [done|by apply IH].
Qed.

Lemma wpc_close R fd f : 0 <= fd -> (forall r, R r (delete (Z.to_nat fd) f)) -> wpc R (user_close fd) f.
Proof.
  intros Hf HR. cbn [user_close wpc]. pose proof (close_table f (Z.to_nat fd)) as E. destruct (a_fd_op _ _) as [r f']. cbn in E. by subst f'.
Qed.
Lemma wpc_dup R fd f v : 0 <= fd -> f !! Z.to_nat fd = Some v -> R (Z.of_nat (least_free f)) (<[least_free f := v]> f) -> wpc R (user_dup fd) f.
Proof. intros Hf Hv HR. cbn. by rewrite Hv. Qed.
Lemma wpc_say {A} (R : A -> table -> Prop) fd text k f : wpc R k f -> wpc R (Say fd text k) f.
Proof. done. Qed.
Lemma wpc_error what R (k : unit -> prog unit) f : wpc R (k tt) f -> wpc R (eprintln_error what ;;* k tt) f.
Proof. done. Qed.

(** Descriptor [s] takes the place of [i]. *)
Lemma replace_run (R : unit -> table -> Prop) l (i s : nat) v fd tgt : fd = Z.of_nat s -> tgt = Z.of_nat i -> (i < length l)%nat -> s <> i -> l !! s = Some v ->
  R tt (tab (<[i := v]> l)) -> wpc R (let* _ := user_close tgt in let* d := user_dup fd in passert (d =? tgt)) (tab l).
Proof.
  intros -> -> Hi Hs Hv HR. apply wpc_bind, wpc_close; [lia|]. intros _. rewrite Nat2Z.id.
  apply wpc_bind. apply wpc_dup with v; [lia|rewrite Nat2Z.id, lookup_delete_ne, tab_lookup by done; exact Hv|].
  rewrite least_free_hole by done. rewrite tab_replace by done. rewrite Z.eqb_refl. exact HR.
Qed.

Lemma open_redirect_run (R : unit -> table -> Prop) what path flags l (i : nat) tgt : tgt = Z.of_nat i -> (i < length l)%nat ->
  R tt (tab (if is_empty path then l else <[i := Named path flags]> l)) -> wpc R (open_redirect what path flags tgt) (tab l).
Proof.
  intros -> Hi HR. unfold open_redirect. destruct (is_empty path); [exact HR|]. apply wpc_bind. cbn [user_open wpc a_fd_op].
  split; [done|]. rewrite least_free_tab, tab_install. rewrite (proj2 (Z.eqb_neq _ _)) by lia.
  assert (Hlast : (l ++ [Named path flags]) !! length l = Some (Named path flags)) by (by rewrite lookup_app_r, Nat.sub_diag by lia).
  unfold redirect_to. apply wpc_bind, wpc_close; [lia|]. intros _. rewrite Nat2Z.id.
  apply wpc_bind. eapply wpc_dup; [lia|rewrite Nat2Z.id, lookup_delete_ne, tab_lookup by lia; exact Hlast|].
  rewrite least_free_hole by (rewrite length_app; cbn; lia). rewrite tab_replace by (rewrite length_app; cbn; lia).
  rewrite Z.eqb_refl. cbn [passert]. apply wpc_bind. cbn [wpc]. apply wpc_bind, wpc_close; [lia|]. intros _. cbn [wpc].
  rewrite Nat2Z.id, insert_app_l by done. replace (length l) with (length (<[i := Named path flags]> l)) by apply length_insert.
  by rewrite tab_close_last.
Qed.

(** Closing both ends of every pipe. *)
Definition close_ends (f : table) (e : Z * Z) : table := delete (Z.to_nat e.2) (delete (Z.to_nat e.1) f).
Lemma close_all_run (R : unit -> table -> Prop) l f : Forall (fun e => 0 <= e.1 /\ 0 <= e.2) l -> R tt (foldl close_ends f l) ->
  wpc R (pfor l (fun e => let* _ := user_close e.1 in let* _ := user_close e.2 in Done tt)) f.
Proof.
  revert f. induction l as [|e l IH]; intros f Hl HR; [exact HR|]. apply Forall_cons in Hl as [[? ?] Hl].
  cbn [pfor]. do 2 apply wpc_bind. apply wpc_close; [done|]. intros _. apply wpc_bind, wpc_close; [done|]. intros _. cbn [wpc].
  by apply IH.
Qed.
End own.

(** ** Pipes of a pipeline *)

Definition console : list sfile := [Console 0; Console 1; Console 2].
(** The ends of [k] pipes from number [b] on, and their descriptors. *)
Fixpoint pipe_ends (b k : nat) : list sfile :=
  match k with O => [] | S k => pipe_ends b k ++ [ReadEnd (b + k); WriteEnd (b + k)] end.
Definition pipe_fd (j : nat) : Z * Z := (Z.of_nat (3 + 2 * j), Z.of_nat (4 + 2 * j)).
Definition pipe_fds (k : nat) : list (Z * Z) := pipe_fd <$> seq 0 k.

Lemma pipe_ends_length b k : length (pipe_ends b k) = (2 * k)%nat.
Proof. induction k as [|k IH]; [done|]. cbn [pipe_ends]. rewrite length_app, IH. cbn. lia. Qed.
Lemma pipe_ends_read b k j : (j < k)%nat -> pipe_ends b k !! (2 * j)%nat = Some (ReadEnd (b + j)).
Proof.
  induction k as [|k IH]; intros Hj; [lia|]. cbn [pipe_ends]. destruct (decide (j = k)) as [->|Hne].
  - rewrite lookup_app_r by (rewrite pipe_ends_length; lia). by rewrite pipe_ends_length, Nat.sub_diag.
  - rewrite lookup_app_l by (rewrite pipe_ends_length; lia). apply IH. lia.
Qed.
Lemma pipe_ends_write b k j : (j < k)%nat -> pipe_ends b k !! (2 * j + 1)%nat = Some (WriteEnd (b + j)).
Proof.
  induction k as [|k IH]; intros Hj; [lia|]. cbn [pipe_ends]. destruct (decide (j = k)) as [->|Hne].
  - rewrite lookup_app_r by (rewrite pipe_ends_length; lia). rewrite pipe_ends_length. by replace (2 * k + 1 - 2 * k)%nat with 1%nat by lia.
  - rewrite lookup_app_l by (rewrite pipe_ends_length; lia). apply IH. lia.
Qed.
Lemma pipe_fds_lookup k j : (j < k)%nat -> pipe_fds k !! j = Some (pipe_fd j).
Proof. intros Hj. unfold pipe_fds. by rewrite list_lookup_fmap, lookup_seq_lt. Qed.
Lemma pipe_fds_S k : pipe_fds (S k) = pipe_fds k ++ [pipe_fd k].
Proof. unfold pipe_fds. by rewrite seq_S, fmap_app. Qed.
Lemma pipe_fds_nonneg k : Forall (fun e => 0 <= e.1 /\ 0 <= e.2) (pipe_fds k).
Proof. apply Forall_fmap, Forall_forall. intros j _. cbn. lia. Qed.

Lemma close_ends_lookup f k j :
  foldl close_ends f (pipe_fds k) !! j = if decide (3 <= j < 3 + 2 * k)%nat then None else f !! j.
Proof.
  induction k as [|k IH]; [by rewrite decide_False by lia|]. rewrite pipe_fds_S, foldl_app. cbn [foldl]. unfold close_ends, pipe_fd.
  cbn [fst snd]. rewrite !Nat2Z.id. destruct (decide (j = 4 + 2 * k)%nat) as [->|H4]; [by rewrite lookup_delete_eq, decide_True by lia|].
  rewrite lookup_delete_ne by done. destruct (decide (j = 3 + 2 * k)%nat) as [->|H3]; [by rewrite lookup_delete_eq, decide_True by lia|].
  rewrite lookup_delete_ne by done. fold close_ends. rewrite IH. repeat case_decide; (done || lia).
Qed.
Lemma close_ends_all l b k : length l = 3%nat -> foldl close_ends (tab (l ++ pipe_ends b k)) (pipe_fds k) = tab l.
Proof.
  intros Hl. apply map_eq. intros j. rewrite close_ends_lookup, !tab_lookup. case_decide as Hj.
  - symmetry. apply lookup_ge_None. lia.
  - destruct (decide (j < 3)%nat) as [Hj3|Hj3]; [by rewrite lookup_app_l by lia|].
    rewrite !lookup_ge_None_2; [done|lia|]. rewrite length_app, pipe_ends_length. lia.
Qed.

(** ** The child of a command *)

(** What the child of command [i] of [n] has at 0 and 1 when it starts the program. *)
Definition stdin_of (b i : nat) (p : ProcessArguments) : sfile :=
  if (0 <? i)%nat then ReadEnd (b + (i - 1)) else if is_empty (input p) then Console 0 else Named (input p) RDONLY.
Definition stdout_of (b i n : nat) (p : ProcessArguments) : sfile :=
  if (i <? n - 1)%nat then WriteEnd (b + i) else if is_empty (output p) then Console 1 else Named (output p) (Z.lor CREATE WRONLY).
Definition command_fds (b i n : nat) (p : ProcessArguments) : table := tab [stdin_of b i p; stdout_of b i n p; Console 2].
(** A program is that of some command, with its arguments and descriptors. *)
Definition wired (b : nat) (cmds : list ProcessArguments) (path : list Z) (args : list (list Z)) (f : table) : Prop :=
  exists i p, cmds !! i = Some p /\ args = args_copy p /\ args !! 0%nat = Some path /\ f = command_fds b i (length cmds) p.

Section child.
Context (b : nat) (cmds : list ProcessArguments) (i : nat) (p : ProcessArguments).
Context (Hp : cmds !! i = Some p).
Local Abbreviation n := (length cmds).
Local Abbreviation ends := (pipe_ends b (n - 1)).
Local Abbreviation Q := (wired b cmds).

Lemma child_stdin (R : unit -> table -> Prop) i0 o0 :
  stdin_of b i p = (if (0 <? i)%nat then ReadEnd (b + (i - 1)) else i0) ->
  R tt (tab ([stdin_of b i p; o0; Console 2] ++ ends)) ->
  wpc Q R (if (0 <? i)%nat then
             let* _ := user_close 0 in
             let* e := punwrap (pipe_fds (n - 1) !! (i - 1)%nat) in
             let* d := user_dup e.1 in
             passert (d =? 0)
           else Done tt) (tab ([i0; o0; Console 2] ++ ends)).
Proof.
  pose proof (lookup_lt_Some _ _ _ Hp) as Hi. intros Es HR. rewrite Es in HR. destruct (Nat.ltb_spec 0 i) as [H0|H0]; [|exact HR].
  rewrite pipe_fds_lookup by lia.
  apply (replace_run Q R ([i0; o0; Console 2] ++ ends) 0 (3 + 2 * (i - 1)) (ReadEnd (b + (i - 1)))); try done; cbn [length app]; try lia.
  cbn [lookup list_lookup Nat.add]. apply pipe_ends_read. lia.
Qed.
Lemma child_stdout (R : unit -> table -> Prop) i0 o0 :
  stdout_of b i n p = (if (i <? n - 1)%nat then WriteEnd (b + i) else o0) ->
  R tt (tab ([i0; stdout_of b i n p; Console 2] ++ ends)) ->
  wpc Q R (if (i <? n - 1)%nat then
             let* _ := user_close 1 in
             let* e := punwrap (pipe_fds (n - 1) !! i) in
             let* d := user_dup e.2 in
             passert (d =? 1)
           else Done tt) (tab ([i0; o0; Console 2] ++ ends)).
Proof.
  pose proof (lookup_lt_Some _ _ _ Hp) as Hi. intros Es HR. rewrite Es in HR. destruct (Nat.ltb_spec i (n - 1)) as [H0|H0]; [|exact HR].
  rewrite pipe_fds_lookup by lia.
  apply (replace_run Q R ([i0; o0; Console 2] ++ ends) 1 (4 + 2 * i) (WriteEnd (b + i))); try done; cbn [length app]; try lia.
  replace (4 + 2 * i)%nat with (3 + (2 * i + 1))%nat by lia. cbn [lookup list_lookup Nat.add]. apply pipe_ends_write. lia.
Qed.

Lemma child_run R : args_copy p <> [] -> wpc Q R (child i n (pipe_fds (n - 1)) p) (tab (console ++ ends)).
Proof.
  intros Ha. pose proof (lookup_lt_Some _ _ _ Hp) as Hi. unfold child.
  apply wpc_bind, (open_redirect_run _ _ _ _ _ _ 0); [done|cbn; lia|].
  set (i0 := if is_empty (input p) then Console 0 else Named (input p) RDONLY).
  replace (if is_empty (input p) then _ else _) with ([i0; Console 1; Console 2] ++ ends) by (unfold i0; by destruct (is_empty (input p))).
  apply wpc_bind, (open_redirect_run _ _ _ _ _ _ 1); [done|cbn; lia|].
  set (o0 := if is_empty (output p) then Console 1 else Named (output p) (Z.lor CREATE WRONLY)).
  replace (if is_empty (output p) then _ else _) with ([i0; o0; Console 2] ++ ends) by (unfold o0; by destruct (is_empty (output p))).
  apply wpc_bind, child_stdin; [done|]. apply wpc_bind, child_stdout; [done|].
  apply wpc_bind, close_all_run; [apply pipe_fds_nonneg|]. rewrite close_ends_all by done.
  destruct (args_copy p) as [|path args] eqn:Ea; [done|]. cbn [punwrap lookup list_lookup].
  apply wpc_bind. cbn [wpc]. apply wpc_bind. cbn [user_exec wpc]. split; [exists i, p; by rewrite Ea|]. done.
Qed.
End child.

Lemma filter_other (c : Z) (l : list Z) : c ∉ l -> filter (fun x => x <> c) l = l.
Proof.
  induction l as [|x l IH]; intros Hc; [done|]. apply not_elem_of_cons in Hc as [Hx Hc]. rewrite filter_cons_True by congruence. by rewrite IH.
Qed.

(** ** The shell

    [ks] are its children that were not waited for, [np] the number of pipes made. *)
Section shell.
Context (Q : list Z -> list (list Z) -> table -> Prop).
Definition no_return {A} (_ : A) (_ : table) : Prop := False.

Fixpoint wps {A} (R : A -> table -> list Z -> nat -> Prop) (t : prog A) (f : table) (ks : list Z) (np : nat) : Prop :=
  match t with
  | Done a => R a f ks np
  | Say _ _ k => wps R k f ks np
  | Close fd k => 0 <= fd /\ let '(r, f') := a_fd_op (FdClose (Z.to_nat fd)) f in wps R (k r) f' ks np
  | Pipe k =>
      let '(r, f1) := a_fd_op (FdInstall (ReadEnd np)) f in
      let '(w, f2) := a_fd_op (FdInstall (WriteEnd np)) f1 in wps R (k r w) f2 ks (S np)
  | Fork k => wpc Q no_return (k 0) f /\ forall c, 0 < c -> c ∉ ks -> wps R (k c) f (ks ++ [c]) np
  | Waitpid pid k => pid ∈ ks /\ forall code, wps R (k pid code) f (filter (fun x => x <> pid) ks) np
  | Panicked | Open _ _ _ | Dup _ _ | Exec _ _ _ | Exit _ | Getpid _ | Time _ | Builtin _ _ => False
  end.

Lemma wpc_absurd {A} R (t : prog A) f : wpc Q no_return t f -> wpc Q R t f.
Proof.
  revert f. induction t as [a| |fd text t IH|path flags t IH|fd t IH|fd t IH|t IH|t IH|path args t IH|p t IH|c|t IH|t IH|args t IH];
    intros f; cbn [wpc]; try done; try apply IH.
  - destruct (a_fd_op _ _) as [r f']. intros [? ?]. split; by apply IH.
  - destruct (a_fd_op _ _) as [r f']. intros [? ?]. split; [done|by apply IH].
  - destruct (a_fd_op _ _) as [r f']. intros [? ?]. split; [done|by apply IH].
  - intros [? ?]. split; [done|by apply IH].
Qed.
Lemma wps_bind {A B} R (m : prog A) (k : A -> prog B) f ks np :
  wps (fun a f ks np => wps R (k a) f ks np) m f ks np -> wps R (pbind m k) f ks np.
Proof.
  revert f ks np. induction m as [a| |fd text m IH|path flags m IH|fd m IH|fd m IH|m IH|m IH|path args m IH|p m IH|c|m IH|m IH|args m IH];
    intros f ks np; cbn [pbind wps]; try done; try apply IH.
  - destruct (a_fd_op _ _) as [r f']. intros [? ?]. split; [done|by apply IH].
  - intros [Hc Hp]. split; [apply wpc_bind; by apply wpc_absurd|]. intros c ? ?. apply IH. by apply Hp.
  - intros [? Hp]. split; [done|]. intros code. by apply IH.
Qed.

Lemma shell_close_all R k f ks np : R tt (foldl close_ends f (pipe_fds k)) ks np ->
  wps R (pfor (pipe_fds k) (fun e => let* _ := user_close e.1 in let* _ := user_close e.2 in Done tt)) f ks np.
Proof.
  assert (Hc : forall (R : Z -> table -> list Z -> nat -> Prop) fd f ks np, 0 <= fd ->
    (forall r, R r (delete (Z.to_nat fd) f) ks np) -> wps R (user_close fd) f ks np).
  { clear. intros R fd f ks np Hf HR. cbn [user_close wps]. pose proof (close_table f (Z.to_nat fd)) as E. destruct (a_fd_op _ _) as [r f']. cbn in E. by subst f'. }
  pose proof (pipe_fds_nonneg k) as Hl. revert f Hl. induction (pipe_fds k) as [|e l IH]; intros f Hl HR; [exact HR|].
  apply Forall_cons in Hl as [[? ?] Hl]. cbn [pfor]. do 2 apply wps_bind. apply Hc; [done|]. intros _. apply wps_bind, Hc; [done|]. intros _.
  cbn [wps]. by apply IH.
Qed.
Lemma make_pipes_run R b n k ks : R (pipe_fds (k + n)) (tab (console ++ pipe_ends b (k + n))) ks (b + k + n)%nat ->
  wps R (make_pipes n (pipe_fds k)) (tab (console ++ pipe_ends b k)) ks (b + k)%nat.
Proof.
  revert k. induction n as [|n IH]; intros k HR; [by rewrite !Nat.add_0_r in HR|]. cbn [make_pipes]. apply wps_bind. cbn [user_pipe wps a_fd_op].
  rewrite least_free_tab, tab_install, least_free_tab, tab_install.
  replace (pipe_fds k ++ _) with (pipe_fds (S k)).
  2: { rewrite pipe_fds_S. unfold pipe_fd. rewrite !length_app, pipe_ends_length. cbn [length console]. do 4 f_equal; lia. }
  replace (((console ++ pipe_ends b k) ++ [ReadEnd (b + k)]) ++ [WriteEnd (b + k)]) with (console ++ pipe_ends b (S k))
    by (cbn [pipe_ends]; by rewrite <- !(assoc_L (++))).
  replace (S (b + k)) with (b + S k)%nat by lia. apply IH. replace (S k + n)%nat with (k + S n)%nat by lia.
  by replace (b + S k + n)%nat with (b + k + S n)%nat by lia.
Qed.
Lemma reap_run R ks f np : NoDup ks -> R tt f [] np -> wps R (reap ks) f ks np.
Proof.
  intros Hn HR. induction ks as [|c ks IH]; [exact HR|]. apply NoDup_cons in Hn as [Hc Hn]. cbn [reap]. apply wps_bind. cbn [user_waitpid wps].
  split; [left|]. intros code. cbn [fst snd]. rewrite Z.eqb_refl. cbn [passert pbind].
  rewrite filter_cons_False by (intros ?; done). rewrite filter_other by done. by apply IH.
Qed.
End shell.

Lemma spawn_run b cmds (Hne : Forall (fun p => args_copy p <> []) cmds) R l i ks np :
  l = drop i cmds -> NoDup ks -> Forall (fun c => 0 < c) ks ->
  (forall ks', NoDup ks' -> R ks' (tab (console ++ pipe_ends b (length cmds - 1))) ks' np) ->
  wps (wired b cmds) R (spawn i (length cmds) (pipe_fds (length cmds - 1)) l ks) (tab (console ++ pipe_ends b (length cmds - 1))) ks np.
Proof.
  intros El Hd Hpos HR. revert i ks El Hd Hpos. induction l as [|p l IH]; intros i ks El Hd Hpos; [by apply HR|].
  assert (Hp : cmds !! i = Some p) by (rewrite <- (Nat.add_0_r i), <- lookup_drop, <- El; done).
  assert (El' : l = drop (S i) cmds) by (rewrite <- Nat.add_1_r, <- drop_drop, <- El; done).
  cbn [spawn user_fork pbind wps]. split.
  - apply (wpc_bind _ _ (child i (length cmds) (pipe_fds (length cmds - 1)) p)), child_run; [done|].
    rewrite Forall_forall in Hne. apply Hne. by eapply list_elem_of_lookup_2.
  - intros c Hc Hnin. rewrite (proj2 (Z.eqb_neq c 0)) by lia. apply IH; [done| |].
    + apply NoDup_app. split; [done|]. split; [|by repeat constructor; apply not_elem_of_nil].
      intros x Hx ->%list_elem_of_singleton. done.
    + apply Forall_app. split; [done|]. by repeat constructor.
Qed.

(** A line of commands with programs to run. *)
Lemma run_pipeline_run b cmds : Forall (fun p => args_copy p <> []) cmds ->
  wps (wired b cmds) (fun _ f ks _ => f = tab console /\ ks = []) (run_pipeline cmds) (tab console) [] b.
Proof.
  intros Hne. unfold run_pipeline. apply wps_bind.
  pose proof (make_pipes_run (wired b cmds)) as Hmp. specialize (Hmp) with (b := b) (n := (length cmds - 1)%nat) (k := 0%nat) (ks := []).
  rewrite Nat.add_0_r in Hmp. change (pipe_fds 0) with (@nil (Z * Z)) in Hmp. change (console ++ pipe_ends b 0) with console in Hmp. apply Hmp. clear Hmp.
  cbn [Nat.add]. apply wps_bind. apply (spawn_run b cmds Hne _ cmds 0 []); [done|constructor|constructor|].
  intros ks Hks. apply wps_bind, shell_close_all. rewrite close_ends_all by done. by apply reap_run.
Qed.

(** ** The machine *)

(** A process is in the shell's code, in a program it has started, hung in the panic
    handler, or ended and not yet waited for. *)
Inductive pstate := Running (t : prog unit) | Image (path : list Z) (args : list (list Z)) | Hung | Zombie (code : Z).
Record proc := Proc { st : pstate; fds : table; kids : list Z }.
Record machine := Machine { procs : gmap Z proc; npipes : nat }.
Definition put_proc (p : Z) (x : proc) (m : machine) : machine := Machine (<[p := x]> (procs m)) (npipes m).

(** What touches only the process itself.  An open or an exec may fail. *)
Inductive own : prog unit -> table -> prog unit -> table -> Prop :=
  | own_say fd text k f : own (Say fd text k) f k f
  | own_open path flags k f r f' : a_fd_op (FdInstall (Named path flags)) f = (r, f') -> own (Open path flags k) f (k r) f'
  | own_open_fails path flags k f : own (Open path flags k) f (k (-1)) f
  | own_close fd k f r f' : a_fd_op (FdClose (Z.to_nat fd)) f = (r, f') -> own (Close fd k) f (k r) f'
  | own_dup fd k f r f' : a_fd_op (FdDup (Z.to_nat fd)) f = (r, f') -> own (Dup fd k) f (k r) f'
  | own_exec_fails path args k f : own (Exec path args k) f (k (-1)) f.

(** What concerns a single process. *)
Inductive pstep : proc -> proc -> Prop :=
  | ps_own t f t' f' ks : own t f t' f' -> pstep (Proc (Running t) f ks) (Proc (Running t') f' ks)
  | ps_exec path args k f ks : pstep (Proc (Running (Exec path args k)) f ks) (Proc (Image path args) f ks)
  | ps_exit c f ks : pstep (Proc (Running (Exit c)) f ks) (Proc (Zombie c) f ks)
  | ps_panic f ks : pstep (Proc (Running Panicked) f ks) (Proc Hung f ks)
  | ps_ends path args f ks c : pstep (Proc (Image path args) f ks) (Proc (Zombie c) f ks).

Inductive step : machine -> machine -> Prop :=
  | step_one m p x y : procs m !! p = Some x -> pstep x y -> step m (put_proc p y m)
  | step_pipe m p k f ks r f1 w f2 : procs m !! p = Some (Proc (Running (Pipe k)) f ks) ->
      a_fd_op (FdInstall (ReadEnd (npipes m))) f = (r, f1) -> a_fd_op (FdInstall (WriteEnd (npipes m))) f1 = (w, f2) ->
      step m (Machine (<[p := Proc (Running (k r w)) f2 ks]> (procs m)) (S (npipes m)))
  | step_fork m p k f ks c : procs m !! p = Some (Proc (Running (Fork k)) f ks) -> 0 < c -> procs m !! c = None ->
      step m (put_proc c (Proc (Running (k 0)) f []) (put_proc p (Proc (Running (k c)) f (ks ++ [c])) m))
  | step_wait m p c k f ks code fc kc : procs m !! p = Some (Proc (Running (Waitpid c k)) f ks) -> c ∈ ks -> c <> p ->
      procs m !! c = Some (Proc (Zombie code) fc kc) ->
      step m (Machine (delete c (<[p := Proc (Running (k c code)) f (filter (fun x => x <> c) ks)]> (procs m))) (npipes m))
  | step_wait_none m p c k f ks code : procs m !! p = Some (Proc (Running (Waitpid c k)) f ks) -> c ∉ ks ->
      step m (put_proc p (Proc (Running (k (-1) code)) f ks) m).

(** Every step of a process leads to a part of its program. *)
Inductive sub {A} : prog A -> prog A -> Prop :=
  | sub_say fd text k : sub k (Say fd text k)
  | sub_open path flags k r : sub (k r) (Open path flags k)
  | sub_close fd k r : sub (k r) (Close fd k)
  | sub_dup fd k r : sub (k r) (Dup fd k)
  | sub_pipe k r w : sub (k r w) (Pipe k)
  | sub_fork k r : sub (k r) (Fork k)
  | sub_exec path args k r : sub (k r) (Exec path args k)
  | sub_wait pid k r c : sub (k r c) (Waitpid pid k).
Lemma sub_wf {A} (t : prog A) : Acc sub t.
Proof. induction t; constructor; intros t' Ht'; inversion Ht'; subst; eauto. Qed.
Lemma own_sub {t f t' f'} : own t f t' f' -> sub t' t.
Proof. by destruct 1; constructor. Qed.

(** No process has infinitely many steps of its own, and no finite set of them. *)
Lemma pstep_wf x : Acc (flip pstep) x.
Proof.
  destruct x as [stx f ks].
  assert (Hz : forall c f, Acc (flip pstep) (Proc (Zombie c) f ks)) by (intros; constructor; intros y Hy; inversion Hy).
  assert (Hh : forall f, Acc (flip pstep) (Proc Hung f ks)) by (intros; constructor; intros y Hy; inversion Hy).
  assert (Hi : forall path args f, Acc (flip pstep) (Proc (Image path args) f ks)) by (intros; constructor; intros y Hy; inversion Hy; subst; auto).
  destruct stx as [t|path args| |c]; auto. revert f. induction (sub_wf t) as [t _ IH]. intros f. constructor. intros y Hy.
  inversion Hy; subst; auto. eauto using own_sub.
Qed.
Definition pool_step (m' m : gmap Z proc) : Prop := exists p x y, m !! p = Some x /\ pstep x y /\ m' = <[p := y]> m.
Lemma pool_wf m : Acc pool_step m.
Proof.
  assert (Hins : forall i m, Acc pool_step m -> m !! i = None -> forall x, Acc pool_step (<[i := x]> m)).
  { intros i m0 Hm. induction Hm as [m0 _ IHm]. intros Hi x. induction (pstep_wf x) as [x _ IHx]. constructor.
    intros m' (p & z & y & Hp & Hs & ->). destruct (decide (p = i)) as [->|Hpi].
    - rewrite lookup_insert_eq in Hp. injection Hp as ->. rewrite insert_insert_eq. by apply IHx.
    - rewrite lookup_insert_ne in Hp by done. rewrite insert_insert_ne by done.
      apply IHm; [by exists p, z, y|by rewrite lookup_insert_ne]. }
  induction m as [|i x m Hi IH] using map_ind; [|by apply Hins]. constructor. intros m' (p & x & y & Hp & _). by rewrite lookup_empty in Hp.
Qed.

(** The shell alone, about to run a program. *)
Definition shell_alone (s : Z) (b : nat) (t : prog unit) : machine :=
  Machine {[s := Proc (Running t) (tab console) []]} b.

(** ** Every reachable state is well wired *)
Section reach.
Context (Q : list Z -> list (list Z) -> table -> Prop).
Local Abbreviation back := (fun (_ : unit) (f : table) (ks : list Z) (_ : nat) => f = tab console /\ ks = []).

Definition child_ok (x : proc) : Prop :=
  match st x with
  | Running t => wpc Q no_return t (fds x)
  | Image path args => Q path args (fds x)
  | Hung => False
  | Zombie _ => True
  end.
(** The shell's state [t], [f], [ks] in [m]. *)
Record shell_ok (s : Z) (m : machine) (t : prog unit) (f : table) (ks : list Z) : Prop := {
  so_shell : procs m !! s = Some (Proc (Running t) f ks);
  so_runs : wps Q back t f ks (npipes m);
  so_nodup : NoDup ks;
  so_self : s ∉ ks;
  so_kids : forall p, p <> s -> is_Some (procs m !! p) <-> p ∈ ks;
  so_child : forall p x, p <> s -> procs m !! p = Some x -> child_ok x;
}.

Lemma own_wpc {R t f t' f'} : wpc Q R t f -> own t f t' f' -> wpc Q R t' f'.
Proof. intros Hw Ho. destruct Ho as [| ? ? ? ? ? ? E| | ? ? ? ? ? E| ? ? ? ? ? E|]; cbn [wpc] in Hw; rewrite ?E in Hw; naive_solver. Qed.
Lemma own_wps {R t f t' f' ks np} : wps Q R t f ks np -> own t f t' f' -> wps Q R t' f' ks np.
Proof. intros Hw Ho. destruct Ho as [| ? ? ? ? ? ? E| | ? ? ? ? ? E| ? ? ? ? ? E|]; cbn [wps] in Hw; rewrite ?E in Hw; naive_solver. Qed.

(** A step of a child changes only that child. *)
Lemma shell_ok_child s m t f ks p x y : shell_ok s m t f ks -> p <> s -> procs m !! p = Some x -> child_ok y ->
  shell_ok s (put_proc p y m) t f ks.
Proof.
  intros [H1 H2 H3 H4 H5 H6] Hp Hx Hy. constructor; try done; unfold put_proc; cbn [procs].
  - by rewrite lookup_insert_ne.
  - intros q Hq. rewrite <- (H5 q Hq). destruct (decide (q = p)) as [->|Hqp]; [rewrite lookup_insert_eq, Hx; split; by eexists|by rewrite lookup_insert_ne].
  - intros q z Hq. destruct (decide (q = p)) as [->|Hqp]; [rewrite lookup_insert_eq; by intros [= <-]|rewrite lookup_insert_ne by done; by apply H6].
Qed.
Lemma shell_ok_shell s m t f ks t' f' np : shell_ok s m t f ks -> wps Q back t' f' ks np ->
  shell_ok s (Machine (<[s := Proc (Running t') f' ks]> (procs m)) np) t' f' ks.
Proof.
  intros [H1 H2 H3 H4 H5 H6] Hw. constructor; try done; cbn [procs].
  - by rewrite lookup_insert_eq.
  - intros q Hq. rewrite lookup_insert_ne by done. by apply H5.
  - intros q z Hq. rewrite lookup_insert_ne by done. by apply H6.
Qed.

(** A fork and a wait change the set of children. *)
Lemma shell_ok_fork s m k f ks c : shell_ok s m (Fork k) f ks -> 0 < c -> procs m !! c = None ->
  shell_ok s (put_proc c (Proc (Running (k 0)) f []) (put_proc s (Proc (Running (k c)) f (ks ++ [c])) m)) (k c) f (ks ++ [c]).
Proof.
  intros [H1 [Hc Hp] H3 H4 H5 H6] Hpos Hn. assert (Hcs : c <> s) by (intros ->; congruence).
  assert (Hck : c ∉ ks) by (rewrite <- (H5 c Hcs), Hn; by intros [? ?]).
  unfold put_proc. constructor; cbn [procs npipes].
  - by rewrite lookup_insert_ne, lookup_insert_eq.
  - by apply Hp.
  - apply NoDup_app. split; [done|]. split; [|apply NoDup_singleton]. by intros x Hx ->%list_elem_of_singleton.
  - rewrite elem_of_app, list_elem_of_singleton. by intros [?| ->].
  - intros q Hq. rewrite elem_of_app, list_elem_of_singleton. destruct (decide (q = c)) as [->|Hqc].
    + rewrite lookup_insert_eq. split; [by right|by eexists].
    + rewrite !lookup_insert_ne, H5 by done. naive_solver.
  - intros q z Hq. destruct (decide (q = c)) as [->|Hqc]; [rewrite lookup_insert_eq; by intros [= <-]|].
    rewrite !lookup_insert_ne by done. by apply H6.
Qed.
Lemma shell_ok_wait s m c k f ks code : shell_ok s m (Waitpid c k) f ks -> c <> s ->
  shell_ok s (Machine (delete c (<[s := Proc (Running (k c code)) f (filter (fun x => x <> c) ks)]> (procs m))) (npipes m))
    (k c code) f (filter (fun x => x <> c) ks).
Proof.
  intros [H1 [Hc Hp] H3 H4 H5 H6] Hcs. constructor; cbn [procs npipes].
  - by rewrite lookup_delete_ne, lookup_insert_eq.
  - apply Hp.
  - by apply NoDup_filter.
  - rewrite list_elem_of_filter. by intros [_ ?].
  - intros q Hq. rewrite list_elem_of_filter. destruct (decide (q = c)) as [->|Hqc]; [rewrite lookup_delete_eq; split; [by intros [? ?]|by intros [? _]]|].
    rewrite lookup_delete_ne, lookup_insert_ne, H5 by done. naive_solver.
  - intros q z Hq. destruct (decide (q = c)) as [->|Hqc]; [by rewrite lookup_delete_eq|].
    rewrite lookup_delete_ne, lookup_insert_ne by done. by apply H6.
Qed.

(** The shell goes on with a part of its program, or a child takes a step. *)
Lemma step_ok s m m' t f ks : shell_ok s m t f ks -> step m m' ->
  exists t' f' ks', shell_ok s m' t' f' ks' /\ (sub t' t \/ t' = t /\ pool_step (delete s (procs m')) (delete s (procs m))).
Proof.
  intros Hok Hstep. pose proof (so_shell _ _ _ _ _ Hok) as H1. pose proof (so_runs _ _ _ _ _ Hok) as H2.
  assert (Hch : forall p x, p <> s -> procs m !! p = Some x -> child_ok x) by apply (so_child _ _ _ _ _ Hok).
  destruct Hstep as [m p x y Hp Hxy|m p k f1 k1 r f2 w f3 Hp Er Ew|m p k f1 k1 c Hp Hc Hn|m p c k f1 k1 code fc kc Hp Hin Hne Hz|m p c k f1 k1 code Hp Hin];
    (destruct (decide (p = s)) as [->|Hps]; [rewrite H1 in Hp|try (specialize (Hch p _ Hps Hp); by cbn in Hch)]).
  - injection Hp as <-. inversion Hxy as [t1 f1 t2 f2 k1 Ho| | | |]; subst; try (by cbn [wps] in H2; done).
    exists t2, f2, ks. split; [|left; by apply (own_sub Ho)]. apply (shell_ok_shell s m t f); [done|]. by apply (own_wps H2).
  - exists t, f, ks. split.
    + apply (shell_ok_child s m t f ks p x y Hok Hps Hp). specialize (Hch p x Hps Hp).
      destruct Hxy as [t1 f1 t2 f2 k1 Ho| | | |]; unfold child_ok in *; cbn [st fds wpc] in *; try done; [by apply (own_wpc Hch)|by destruct Hch].
    + right. split; [done|]. exists p, x, y. unfold put_proc. cbn [procs]. by rewrite lookup_delete_ne, delete_insert_ne by done.
  - simplify_eq. cbn [wps] in H2. rewrite Er, Ew in H2. exists (k r w), f3, k1. split; [by apply (shell_ok_shell s m (Pipe k) f1)|left; constructor].
  - simplify_eq. exists (k c), f1, (k1 ++ [c]). split; [by apply shell_ok_fork|left; constructor].
  - simplify_eq. exists (k c code), f1, (filter (fun x => x <> c) k1). split; [by apply shell_ok_wait|left; constructor].
  - simplify_eq. cbn [wps] in H2. by destruct H2.
Qed.
Lemma steps_ok s m m' t f ks : shell_ok s m t f ks -> rtc step m m' -> exists t' f' ks', shell_ok s m' t' f' ks'.
Proof.
  intros Hok Hs. revert t f ks Hok. induction Hs as [|m m1 m' H1 _ IH]; intros t f ks Hok; [by exists t, f, ks|].
  destruct (step_ok s m m1 t f ks Hok H1) as (t1 & f1 & k1 & Hok1 & _). by apply (IH t1 f1 k1).
Qed.
Lemma shell_ends s m t f ks : shell_ok s m t f ks -> Acc (flip step) m.
Proof.
  revert m f ks. induction (sub_wf t) as [t _ IHt]. intros m f ks. remember (delete s (procs m)) as pool eqn:Ep. revert m f ks Ep.
  induction (pool_wf pool) as [pool _ IHp]. intros m f ks -> Hok. constructor. intros m' Hm'.
  destruct (step_ok s m m' t f ks Hok Hm') as (t' & f' & ks' & Hok' & [Hsub|[-> Hp]]); [by apply (IHt t' Hsub m' f' ks')|].
  by apply (IHp _ Hp m' f' ks').
Qed.

(** ** Nothing gets stuck *)

Lemma fresh_pid (m : gmap Z proc) : exists c, 0 < c /\ m !! c = None.
Proof.
  exists (1 + foldr Z.max 0 (elements (dom m))). split.
  - induction (elements (dom m)) as [|x l IH]; cbn; lia.
  - apply not_elem_of_dom. intros Hin%elem_of_elements.
    assert (Hle : forall l x, x ∈ l -> x <= foldr Z.max 0 l).
    { clear. intros l x. induction l as [|y l IH]; intros Hx; [by apply elem_of_nil in Hx|]. apply elem_of_cons in Hx as [->|Hx]; cbn; [lia|]. specialize (IH Hx). lia. }
    specialize (Hle _ _ Hin). lia.
Qed.
Lemma child_steps x : child_ok x -> (forall c, st x <> Zombie c) -> exists y, pstep x y.
Proof.
  intros Hok Hz. destruct x as [stx f ks]. unfold child_ok in Hok. cbn [st fds] in *.
  destruct stx as [t|path args| |c]; [|by eexists; apply (ps_ends _ _ _ _ 0)|done|by destruct (Hz c)].
  destruct t as [a| |fd text k|path flags k|fd k|fd k|k|k|path args k|q k|c|k|k|args k]; cbn [wpc] in Hok; try done.
  - eexists. apply ps_own. constructor.
  - eexists. apply ps_own. apply own_open_fails.
  - destruct (a_fd_op (FdClose (Z.to_nat fd)) f) as [r f'] eqn:E. eexists. apply ps_own. by constructor.
  - destruct (a_fd_op (FdDup (Z.to_nat fd)) f) as [r f'] eqn:E. eexists. apply ps_own. by constructor.
  - eexists. apply ps_exec.
  - eexists. apply ps_exit.
Qed.
Lemma shell_progress s m t f ks : shell_ok s m t f ks -> t = Done tt \/ exists m', step m m'.
Proof.
  intros Hok. pose proof Hok as [H1 H2 H3 H4 H5 H6].
  destruct t as [a| |fd text k|path flags k|fd k|fd k|k|k|path args k|q k|c|k|k|args k]; cbn [wps] in H2; try done.
  - left. by destruct a.
  - right. eexists. eapply step_one; [exact H1|]. apply ps_own. constructor.
  - right. destruct (a_fd_op (FdClose (Z.to_nat fd)) f) as [r f'] eqn:E. eexists. eapply step_one; [exact H1|]. apply ps_own. by constructor.
  - right. destruct (a_fd_op (FdInstall (ReadEnd (npipes m))) f) as [r f1] eqn:E1, (a_fd_op (FdInstall (WriteEnd (npipes m))) f1) as [w f2] eqn:E2.
    eexists. by eapply step_pipe.
  - right. destruct (fresh_pid (procs m)) as (c & Hc & Hn). eexists. by eapply step_fork.
  - right. destruct H2 as [Hq _]. assert (Hqs : q <> s) by congruence. destruct (proj2 (H5 q Hqs) Hq) as [x Hx].
    pose proof (H6 q x Hqs Hx) as Hxo. assert (Hz : (exists c, st x = Zombie c) \/ forall c, st x <> Zombie c) by (destruct (st x); [by right..|left; by eexists]).
    destruct Hz as [[c Ec]|Hn].
    + destruct x as [stx fx kx]. cbn in Ec. subst stx. eexists. by eapply step_wait.
    + destruct (child_steps x Hxo Hn) as [y Hy]. eexists. by eapply step_one.
Qed.
End reach.

(** ** Lines *)

Definition is_builtin (p : ProcessArguments) : bool :=
  match args_copy p with a :: _ => bool_decide (trim_nul a ∈ builtins) | [] => false end.
Lemma not_builtin p : is_builtin p = false -> execute_builtin_command (args_copy p) = Done false.
Proof.
  unfold is_builtin, execute_builtin_command. destruct (args_copy p) as [|a l]; [done|]. intros Hb. apply bool_decide_eq_false in Hb.
  assert (Hn : forall x, bytes_of x ∈ builtins -> bool_decide (trim_nul a = bytes_of x) = false)
    by (intros x Hx; apply bool_decide_eq_false; congruence).
  assert (Hin : forall x, bool_decide (bytes_of x ∈ builtins) = true -> bytes_of x ∈ builtins) by (intros x Hx; by apply bool_decide_eq_true in Hx).
  cbv zeta. rewrite !Hn by (by apply Hin). by rewrite bool_decide_false.
Qed.
Lemma run_line_pipeline line cmds : mapM ProcessArguments_new (split_on 124 line) = Some cmds -> valid cmds = true ->
  (forall p, cmds = [p] -> is_builtin p = false) -> run_line line = run_pipeline cmds.
Proof.
  intros Hm Hv Hb. unfold run_line. rewrite Hm. cbn [punwrap pbind]. rewrite Hv. cbn [negb].
  destruct cmds as [|p [|q l]]; [done| |done]. by rewrite not_builtin by (by apply Hb).
Qed.
Lemma shell_start_ok s b cmds : Forall (fun p => args_copy p <> []) cmds ->
  shell_ok (wired b cmds) s (shell_alone s b (run_pipeline cmds)) (run_pipeline cmds) (tab console) [].
Proof.
  intros Hne. constructor; cbn [shell_alone procs npipes].
  - apply lookup_singleton_eq.
  - by apply run_pipeline_run.
  - constructor.
  - apply not_elem_of_nil.
  - intros p Hp. rewrite lookup_singleton_ne by done. split; [by intros [? ?]|by intros ?%elem_of_nil].
  - intros p x Hp. by rewrite lookup_singleton_ne by done.
Qed.

(** C30. A valid line of commands that name programs, run by the shell over descriptor tables that
    behave as the kernel's, has under every interleaving of the shell and its children: every
    program started is that of a command of the line with its arguments, standard input and output
    bound to the file or the neighbouring pipe the line says, standard error to the console, and no
    other descriptor open; no process hangs; every run is finite, and when no step is left the shell
    is back alone with its own table. *)
Theorem shell_pipeline line cmds s b :
  mapM ProcessArguments_new (split_on 124 line) = Some cmds -> valid cmds = true ->
  Forall (fun p => args_copy p <> []) cmds -> (forall p, cmds = [p] -> is_builtin p = false) ->
  Acc (flip step) (shell_alone s b (run_line line)) /\
  forall m, rtc step (shell_alone s b (run_line line)) m ->
    (forall p x path args, p <> s -> procs m !! p = Some x -> st x = Image path args -> wired b cmds path args (fds x)) /\
    (forall p x, procs m !! p = Some x -> st x <> Hung) /\
    (procs m = {[s := Proc (Running (Done tt)) (tab console) []]} \/ exists m', step m m').
Proof.
  intros Hm Hv Hne Hb. rewrite (run_line_pipeline line cmds Hm Hv Hb). pose proof (shell_start_ok s b cmds Hne) as Hok.
  split; [by apply (shell_ends _ _ _ _ _ _ Hok)|]. intros m Hs. destruct (steps_ok _ _ _ _ _ _ _ Hok Hs) as (t & f & ks & Hok').
  pose proof Hok' as [H1 H2 H3 H4 H5 H6]. split; [|split].
  - intros p x path args Hp Hx Hst. pose proof (H6 p x Hp Hx) as Hc. unfold child_ok in Hc. by rewrite Hst in Hc.
  - intros p x Hx Hst. destruct (decide (p = s)) as [->|Hp]; [rewrite H1 in Hx; by injection Hx as <-|].
    pose proof (H6 p x Hp Hx) as Hc. unfold child_ok in Hc. by rewrite Hst in Hc.
  - destruct (shell_progress _ _ _ _ _ _ Hok') as [->|?]; [left|by right]. cbn [wps] in H2. destruct H2 as [-> ->].
    apply map_eq. intros p. destruct (decide (p = s)) as [->|Hp]; [by rewrite lookup_singleton_eq|]. rewrite lookup_singleton_ne by done.
    destruct (procs m !! p) eqn:E; [|done]. exfalso. apply (elem_of_nil p), H5; [done|by eexists].
Qed.
Lemma shell_pipeline_witness : let line := str "cat -n < in | sort | wc > out" in let cmds := arguments <$> demo_commands in
  Acc (flip step) (shell_alone 2 0 (run_line line)) /\
  forall m, rtc step (shell_alone 2 0 (run_line line)) m ->
    (forall p x path args, p <> 2 -> procs m !! p = Some x -> st x = Image path args -> wired 0 cmds path args (fds x)) /\
    (forall p x, procs m !! p = Some x -> st x <> Hung) /\
    (procs m = {[2 := Proc (Running (Done tt)) (tab console) []]} \/ exists m', step m m').
Proof.
  apply (shell_pipeline (str "cat -n < in | sort | wc > out") (arguments <$> demo_commands) 2 0).
  - vm_compute. reflexivity.
  - vm_compute. reflexivity.
  - apply (bool_decide_unpack _). vm_compute. exact I.
  - intros p. discriminate.
Defined.

(** A command of blanks only: the child indexes an empty vector, its panic handler
    never ends, and the shell waits for it. *)
Lemma blanks_split n : filter (fun arg => arg <> []) (split_on 32 (replicate n 32)) = [].
Proof. induction n as [|n IH]; [done|]. cbn [replicate split_on Z.eqb Pos.eqb]. by rewrite filter_cons_False by (intros ?; done). Qed.
Lemma blanks_parse n : mapM ProcessArguments_new (split_on 124 (replicate n 32)) = Some [{| input := []; output := []; args_copy := [] |}].
Proof.
  rewrite split_on_free by (intros [Hx _]%elem_of_replicate; done). cbn [mapM]. unfold ProcessArguments_new. by rewrite blanks_split.
Qed.

(** A sign with no word after it. *)
Lemma redirect_last sym args : Forall (fun a => a <> [sym]) args -> redirect sym (nul <$> args ++ [[sym]]) = None.
Proof.
  intros Ha. unfold redirect.
  assert (E : find_index (fun a => bool_decide (a = [sym; 0])) (nul <$> args ++ [[sym]]) = Some (length args)).
  { apply find_index_Some. split.
    - exists [sym; 0]. split; [|by apply bool_decide_eq_true]. by rewrite list_lookup_fmap, list_lookup_middle.
    - intros j x Hj Hx. apply bool_decide_eq_false. intros ->. rewrite list_lookup_fmap, lookup_app_l in Hx by done.
      apply fmap_Some in Hx as (w & Hw & Hn). rewrite Forall_forall in Ha. apply (Ha w); [by eapply list_elem_of_lookup_2|].
      by apply (nul_inj w [sym]). }
  rewrite E. rewrite lookup_ge_None_2; [done|]. rewrite length_fmap, length_app. cbn. lia.
Qed.
Lemma trailing_sign line cmd words sign :
  cmd ∈ split_on 124 line -> filter (fun w => w <> []) (split_on 32 cmd) = words ++ [[sign]] ->
  Forall (fun w => w <> [60] /\ w <> [62]) words -> sign = 60 \/ sign = 62 -> run_line line = Panicked.
Proof.
  intros Hcmd Hw Hs Hsign. unfold run_line. replace (mapM ProcessArguments_new (split_on 124 line)) with (@None (list ProcessArguments)); [done|].
  symmetry. apply mapM_None_2, Exists_exists. exists cmd. split; [exact Hcmd|]. unfold ProcessArguments_new. rewrite Hw.
  change ((fun arg => arg ++ [0]) <$> words ++ [[sign]]) with (nul <$> words ++ [[sign]]).
  destruct Hsign as [-> | ->].
  - rewrite redirect_last; [done|]. eapply Forall_impl; [exact Hs|by intros ? [? _]].
  - rewrite redirect_none; [cbn [mbind option_bind]|].
    + rewrite redirect_last; [done|]. eapply Forall_impl; [exact Hs|by intros ? [_ ?]].
    + apply Forall_app. split; [eapply Forall_impl; [exact Hs|by intros ? [? _]]|by repeat constructor].
Qed.

(** C40. A line of blanks makes a child that panics and hangs, and a reachable state in which the
    shell is inside waitpid on that child and no process can take a step; and a line in which the
    last word of some command is a redirection sign, with no sign before it, makes the shell itself
    panic. *)
Theorem shell_blank_hangs s b n line cmd words sign :
  (exists m c, rtc step (shell_alone s b (run_line (replicate n 32))) m /\ c <> s /\
    option_map st (procs m !! c) = Some Hung /\ (forall m', ~ step m m') /\
    exists then_ f ks, procs m !! s = Some (Proc (Running (Waitpid c then_)) f ks)) /\
  (cmd ∈ split_on 124 line -> filter (fun w => w <> []) (split_on 32 cmd) = words ++ [[sign]] ->
   Forall (fun w => w <> [60] /\ w <> [62]) words -> sign = 60 \/ sign = 62 -> run_line line = Panicked).
Proof.
  split; [|exact (trailing_sign line cmd words sign)].
  set (p := {| input := []; output := []; args_copy := [] |}). rewrite (run_line_pipeline _ [p] (blanks_parse n)); [|done|by intros ? [= <-]].
  set (m0 := shell_alone s b (run_pipeline [p])).
  destruct (fresh_pid (procs m0)) as (c & Hc & Hn). assert (Hcs : c <> s) by (intros ->; cbn in Hn; by rewrite lookup_singleton_eq in Hn).
  set (wait := Waitpid c (fun r _ => passert (c =? r) ;;* Done tt) : prog unit).
  set (m1 := put_proc c (Proc (Running Panicked) (tab console) []) (put_proc s (Proc (Running wait) (tab console) [c]) m0)).
  assert (E1 : step m0 m1).
  { pose proof (step_fork m0 s (fun pid => let* children := (if pid =? 0 then child 0 1 [] p ;;* Done [] else Done [pid]) in reap children)
      (tab console) [] c ltac:(apply lookup_singleton_eq) Hc Hn) as Hs. cbv beta in Hs.
    rewrite (proj2 (Z.eqb_neq c 0)) in Hs by lia. exact Hs. }
  set (m2 := put_proc c (Proc Hung (tab console) []) m1).
  assert (E2 : step m1 m2) by (eapply step_one; [unfold m1, put_proc; cbn [procs]; by rewrite lookup_insert_eq|constructor]).
  assert (Hm2 : forall q, procs m2 !! q = if decide (q = c) then Some (Proc Hung (tab console) []) else if decide (q = s) then Some (Proc (Running wait) (tab console) [c]) else None).
  { intros q. unfold m2, m1, m0, put_proc, shell_alone. cbn [procs]. rewrite insert_insert_eq. case_decide as Hqc; [by rewrite Hqc, lookup_insert_eq|].
    rewrite lookup_insert_ne by done. case_decide as Hqs; [by rewrite Hqs, lookup_insert_eq|]. by rewrite lookup_insert_ne, lookup_singleton_ne by done. }
  exists m2, c. split; [by eapply rtc_l, rtc_l, rtc_refl|]. split; [done|]. split; [by rewrite Hm2, decide_True|]. split.
  - intros m' Hm'. inversion Hm' as [m q x y Hq Hxy|m q k f ks r f1 w f2 Hq|m q k f ks d Hq|m q d k f ks code fd kd Hq Hin Hne Hz|m q d k f ks code Hq Hin]; subst;
      rewrite Hm2 in Hq; repeat case_decide; simplify_eq.
    + inversion Hxy.
    + inversion Hxy as [t f t' f' ks Ho| | | |]; subst. inversion Ho.
    + rewrite Hm2, decide_True in Hz by (by apply list_elem_of_singleton in Hin). done.
    + by apply Hin, list_elem_of_singleton.
  - eexists _, _, _. by rewrite Hm2, decide_False, decide_True by done.
Qed.

Lemma shell_blank_hangs_witness : run_line (bytes_of "ls | cat a >") = Panicked.
Proof.
  apply (shell_blank_hangs 2 0 1 (bytes_of "ls | cat a >") (bytes_of " cat a >") [bytes_of "cat"; bytes_of "a"] 62).
  - vm_compute. right. left.
  - vm_compute. reflexivity.
  - vm_compute. repeat constructor; congruence.
  - by right.
Defined.
